(* ===== verification/_CoqProject ===== *)
-Q . S2P
Prelude.v
PyStr.v
WireIds.v
PyJson.v
PyJsonFacts.v
PyTime.v
Periods.v
PyFloat.v
AuditHash.v
PyCodecs.v
PyText.v
PyUrl.v
Constraints.v
AuditChain.v
Vault.v
Tables.v
Like.v
Database.v
Logic.v
Ulid.v
PublicUrls.v
Resolve.v
Demo.v
Keys.v
EmitLimiter.v
Sessions.v
AuditEmit.v
VerifyJob.v
Tenants.v
AuditAdmin.v
AgentSecrets.v
Login.v
Whoami.v
Oidc.v
OidcLaws.v
Internal.v
SecretTools.v
SecretsSafety.v
Blobs.v
Sharing.v
Permissions.v
Erasure.v
Ssrf.v
VaultClient.v
Templates.v
SshTest.v
Proxy.v
Operators.v
Services.v
CredPayloads.v
Credentials.v
EmailServices.v
EmailOauth.v
OperatorLaws.v
Agents.v
ApiKeys.v
InternalLaws.v
AgentLaws.v
Budgets.v
RequestToken.v
TokenSafety.v
PermissionsSafety.v
PermissionLaws.v
KeysSafety.v
RegistrySafety.v
EmailSafety.v
TestCalls.v
ServiceLaws.v
CredentialLaws.v
ValueSecrecy.v
EmailLaws.v
ApiKeyLaws.v
SignedRequest.v
Settings.v
EmailTools.v
Discovery.v
JsonRpc.v
Redaction.v
Cli.v
Seed.v
