(* ===== verification/Prelude.v ===== *)
(** * A verification development for Mintkey

    Mintkey lets software agents call third-party services without ever
    holding the services' credentials.  Operators manage tenants, agents,
    permission grants, budgets and secrets through the admin API
    (src/apps/admin-api, FastAPI over Postgres with row-level security);
    agents talk to the MCP server (src/apps/mcp-server), which checks the
    agent's grant and its constraints and asks a broker for a token; every
    state change appends an event to the hash chain of its tenant
    (src/packages/python/mintkey-models), which a job verifies
    (src/apps/audit-verify-job).  The development is a shallow embedding of
    the Python code of these parts: definitions keep the source's names, and
    PROJECT.json maps each of them to the lines it translates.

    ** The layers

    - Language.  [Prelude] (the [outcome] type for exceptions, list lemmas,
      tactics), [PyStr], [PyText] (strings, bytes, UTF-8, regular-expression
      tests), [PyCodecs] (base64, SHA-1, uuid5), [PyUrl] (urlparse, urlencode, quote), [PyJson] and [PyJsonFacts] (dicts as association lists in
      insertion order, [json.dumps], [json.loads] with the proof that they are
      inverse), [PyTime] (instants as microseconds, the proleptic calendar,
      [isoformat]), [PyFloat] (binary64 arithmetic on rationals, with rounding
      to even, for [time.time()] and the rate limiters).
    - Identifiers.  [WireIds] has both copies of the Crockford codec
      (utils/wire_ids.py) and the [uuid.UUID] parser; [Ulid] the identifiers of
      new rows; [Resolve] the three forms of a service identifier.
    - Database.  [Tables] has a record per table, its constraints, its
      row-level-security column and its cascades (db/changelog); [Database] the
      [world] a handler runs in and its monad [M]: statements under the policy
      of the current tenant, the transaction of get_db_session, notifications (notify_change),
      the vault, HTTP calls and the clock, and the cursor pages of the listings;
      [Like] has ILIKE, [Vault] the interface (a class with laws) of the agent-secret
      vault and the Go adapter as an instance of it.
    - Reasoning.  [Erasure] has the rules for computations that do not read a part
      of the database.  [Logic] has the inversion rules of the monad and three
      compositional rule sets with their hint databases: [respects]/[safe] (a
      relation on databases kept by every run, failures included),
      [respects_when]/[safe_when] (the same under a fact a read has
      established), and [silent] (no HTTP call).  [Demo] is a concrete
      environment and database on which the witnesses run.

    ** The components and what is proved of them

    - The audit chain.  [AuditHash] (mintkey_models/audit_hash.py and
      audit-verify-job/verify.py: canonical form, [event_hash],
      [verify_events]), [AuditChain] (an ok verdict means one linked chain with
      every hash recomputed; complete chains are accepted in any order; a
      changed event is rejected and the head hash binds the log, as far as the
      digests of the hashed texts differ), [AuditEmit] (audit_emit: a call appends one linked event or
      changes nothing), [VerifyJob] (writer and verifier agree; exit codes; the
      job under row-level security verifies nothing), [AuditAdmin] (the audit
      endpoints).
    - Sessions and tenants.  [Sessions] (auth/sessions.py: what the two
      authorisation gates let through, the life of a session), [Tenants]
      (api/tenants.py, with the broken chain of tenants the API creates),
      [Operators] and [OperatorLaws] (api/operators.py: no listing carries a
      password hash; a deactivated operator still logs in, which is a finding:
      the theorems on logins leave such operators out).
    - Login.  [Login] (auth/internal.py and api/auth.py: password login, whoami,
      logout, and the verdict of a password login as a function of the rows), [Whoami] (requests interleaved at their awaits: a
      logout empties the cache for good), [Oidc]
      (auth/oidc.py and auth/oidc_state.py), [OidcLaws] (a state is used once;
      whose session a callback opens).
    - Agent secrets.  [AgentSecrets] (the operator API), [SecretTools] (the
      secret_* tools: secret_get refines an abstract read), [SecretsSafety]
      (isolation of tenants and preservation of chains, whatever fails),
      [Blobs] (every row has its blob), [Sharing] (grants, revocations,
      deletions and the pages of the listings).
    - Grants and tokens.  [Constraints] (policy/constraints.py: the deque-based
      limiter implements a sliding-window specification, for any limits per
      call and exactly while the clock does not go back, is bounded and
      recovers; the time window on the wall clock), [RequestToken]
      (tools/request_token.py, the whole handler with its email branch),
      [TokenSafety] (no broker call without a grant whose constraints held, by
      the limiter and the clock readings of that very request; every denial
      is audited; nothing else changes), [PublicUrls].
    - Permissions and budgets.  [Periods] (budget periods tile the time line;
      the validated configuration), [Permissions] (api/permissions.py),
      [Budgets] (api/budgets.py, api/budget_consumers.py and the routers),
      [PermissionsSafety] (isolation, chains, uniqueness of grants, counters of
      the grant's tenant), [PermissionLaws] (revocation stops tokens, a counter
      reset shows in the status).
    - Agents and keys.  [Keys] (random keys, their fingerprints, and Argon2 as
      the class [Argon2]), [Agents] (api/agents.py), [ApiKeys] (api/api_keys.py,
      api/api_keys_shortcut.py), [KeysSafety] (isolation, chains and the shape
      of the stored key data, whatever fails), [AgentLaws] (a returned key is
      the one that is validated, a rotation replaces it, a revoked or deleted
      agent is locked out), [ApiKeyLaws] (a new API key is within the grants of
      its agent; the identifiers the API shows do not address a key).
    - Services and credentials.  [Ssrf] and [Services] (api/services.py:
      registration, templates, test calls, update, deletion), [Templates]
      (templates/registry.py, api/service_templates.py), [SshTest]
      (api/_ssh_test.py), [CredPayloads] (services/credential_service.py and
      audit_fingerprint.py), [Credentials] (api/credentials.py), [VaultClient]
      (services/vault_client.py and, for what its calls answer, the adapter's
      store of credentials), [Proxy] (api/proxy.py: a call is forwarded only for
      a key in force, to the service of the path).  [RegistrySafety] shows
      isolation and the shape of the registry for every request and failure,
      [TestCalls] where the test calls go, [ServiceLaws] the round trip of a
      registration, the move of an SSH target and what a deletion ends,
      [CredentialLaws] which version is served after a rotation and after a
      revocation, [ValueSecrecy] that a value influences nothing but the vault
      (two runs that differ in it end in the same answer and state), for the
      schemes whose value is not structured.
    - Email services.  [EmailServices] (api/email_services.py: registration,
      update, deletion, the password credential;
      api/email_permission_grants.py), [EmailOauth] (api/oauth2_providers.py and
      the OAuth2 flow: authorization, exchange, callbacks and their page,
      refresh).  [EmailSafety] shows isolation and the shape
      of the tables for every request and failure, [EmailLaws] that a state
      stores one credential, that the page carries no markup of its caller and
      that a credential cannot be deleted.
    - Internal endpoints.  [Internal] (api/internal.py: validation of agent
      keys, proxy hits, audit ingress), [InternalLaws] (the answer to a key as a
      function of the rows; what the ingress lets into a chain), [EmitLimiter]
      (services/audit_emit_rate_limiter.py: its token buckets admit at most the
      burst plus the rate times the elapsed time, rounding included).
    - Requests to the admin API.  [SignedRequest] (auth/signed_request.py and
      middleware/csrf.py; the payload is read as json.loads reads it, NaN and
      the infinities included.  Replays of an expiry other than NaN are refused on
      any clock until that expiry, a token whose expiry is NaN is replayed without end, a
      well-formed request is served; what the CSRF check lets through), [Settings] (api/settings.py, which no
      request can change; api/changes.py; and the MCP server's
      changes/subscriber.py with cache/discovery.py: a committed revocation
      reaches every subscriber).
    - The tools of the MCP server.  [EmailTools] (tools/email_*.py: a tool calls
      the broker and the email proxy only within a grant, and a deleted grant
      ends that), [Discovery] (tools/discovery.py and auth_schemes.py: the
      listing is exactly what was granted and has what tokens are issued for;
      where the OpenAPI fetch goes and how large its document may be), [JsonRpc]
      (main.py, auth/agent_key.py, tools/jsonrpc.py and tools/bootstrap.py: the
      middleware that authenticates agents, the application of its REST tools,
      and the JSON-RPC dispatcher, which calls these tools by a request to its
      own process.  A request to the server calls the outside world only for
      the agent whose context the admin API answered to its last validation,
      and within the grants of that agent; put
      together with [Internal], a tool runs only for a key Argon2 accepts for
      an active agent; put together with [Discovery], the text of a listing
      reads back as the services that were granted; every answer to a request with an id is
      a well-formed envelope; the advertised tools are the dispatched ones and
      the listed resources the readable ones).
    - Provisioning and operation.  [Seed] (apps/seed-job/main.py and
      create_operator.py, on a state and a monad of its own: database, files
      and the requests to Keycloak.  The database steps complete on a migrated
      database, leave an intact chain and an administrator without a password
      login, and a later run changes nothing, whatever fails; a dry run writes nothing; a secret file ends
      up valid; the redirect URIs that are written are the ones the next run
      wants), [Cli] (admin_api/cli.py: the password that reset-password prints
      for an active operator opens a session of it in [Login], and none does
      after clear-password), [Redaction]
      (mintkey_models/otel_redaction.py: no span that ends is handed on with a
      sensitive attribute but the allowlisted ones, and of the attributes that are
      not allowlisted nothing else is taken from it).

    ** Conventions

    A handler is a function into [M response]; [transaction] wraps it as
    get_db_session does.  The tapes of the class [Env] give the results of
    uuid4, now, time.time, HTTP and the failures of statements and vault calls,
    indexed by a counter that every effect advances, so a theorem over all
    environments is a theorem over all clocks and failures.  What the database
    driver and Postgres do with text bound to a UUID, with jsonb and with ILIKE's
    case folding are fields of the class with the documented laws.  The state of
    the process that outlives a request (the limiters' buckets, the throttle of
    expiry events, the whoami cache, the JWKS) is the field [w_proc] of the
    world, and so are, as ghost state, the requests that were forwarded and the
    SSH connections that were opened, in order.  SHA-256 is
    the class [Sha256]; theorems that need injectivity ask for it on the texts
    that the chains at hand hash.
    Argon2, the JWT library, PBKDF2, the texts of pydantic's messages and of the
    HTTP client's exceptions are the classes [Argon2], [Jose], [Pbkdf2],
    [Pydantic] and [Httpx]; what FastAPI and httpx make of a loopback request
    is the class [Asgi], the files of the onboarding texts the class [Skill];
    what the provisioning job uses of cryptography, tenacity and the operating
    system is the class [Host].  The adapter commits to
    vault.credentials on its own, whatever becomes of the request's transaction.
    An exception of a library is [RuntimeError] with the name of its class.
    A dict is an association list with distinct keys; integers of Python are Z,
    and the INTEGER columns check their range ([bound_int4]).  Loops are structural
    except five that take fuel: [print_dec] (the bit size of the number is
    enough, [print_dec_spec]), the JSON parser ([loads] gives twice the length
    plus one, enough by [loads_dumps]) and [verify_loop] (one step per event;
    each step marks an event, so the length is enough, [verify_events_complete])
    [py_replace] (the length of the text, enough by [replace_list_enough]) and
    the reader of signed payloads (twice the length plus one, enough by
    [loads_bytes_fuel]).

    ** Not modelled

    The width of VARCHAR columns, except where [varchar] says so; concurrent transactions (a handler runs alone,
    so the advisory lock of audit_emit is a no-op step and the race of two equal
    grants, which no constraint of the schema excludes, does not occur); NOW() is
    read at its statement; a LIMIT without ORDER BY takes the table's order; log
    lines, printed lines, metrics and the export of traces; floats in JSON, except in signed payloads; characters outside Latin-1 in
    literals, which stand as their JSON escapes; CPython's limit on the digits of
    an integer except where a claim meets it, and its limit on nesting; the fetch
    of the OpenAPI document reads the whole answer at once.  Of the repository: the loading of
    the YAML templates (the loaded templates are an argument); the landing
    pages of the MCP server and the files of its onboarding texts, which are
    constants; generated gRPC stubs; the parsing of command lines (the arguments
    are given); the canonical agents that the admin API creates at its start;
    the set-up of tracing and metrics; test scripts; and the Go and TypeScript
    services, except the secret and credential stores of the vault adapter. *)

From Stdlib Require Export ZArith NArith Lia Ascii String List Sorted Permutation.
From stdpp Require Export base list strings gmap.

(** ** Notation scope of the development *)

Declare Scope py_scope.
Delimit Scope py_scope with py.

Create HintDb mintkey discriminated.
#[global] Hint Constants Opaque : mintkey.

(** ** Tactics *)

(** [split_match] destructs the scrutinee of one [match] or [if] of the goal,
    remembering the equation. *)
Ltac split_match :=
  match goal with
  | |- context [match ?x with _ => _ end] => destruct x eqn:?
  end.

(** [split_match_in H] does the same in a hypothesis. *)
Ltac split_match_in H :=
  match type of H with
  | context [match ?x with _ => _ end] => destruct x eqn:?
  end.

(** [bool_solve] turns boolean equations of the context into propositions. *)
Ltac bool_to_prop :=
  repeat match goal with
  | H : (_ && _)%bool = true |- _ => apply andb_true_iff in H; destruct H
  | H : (_ || _)%bool = false |- _ => apply orb_false_iff in H; destruct H
  | H : negb _ = true |- _ => apply negb_true_iff in H
  | H : negb _ = false |- _ => apply negb_false_iff in H
  | H : bool_decide _ = true |- _ => apply bool_decide_eq_true in H
  | H : bool_decide _ = false |- _ => apply bool_decide_eq_false in H
  | H : N.eqb _ _ = true |- _ => apply N.eqb_eq in H
  | H : N.eqb _ _ = false |- _ => apply N.eqb_neq in H
  | H : Z.eqb _ _ = true |- _ => apply Z.eqb_eq in H
  | H : Z.eqb _ _ = false |- _ => apply Z.eqb_neq in H
  | H : Z.ltb _ _ = true |- _ => apply Z.ltb_lt in H
  | H : Z.ltb _ _ = false |- _ => apply Z.ltb_ge in H
  | H : Z.leb _ _ = true |- _ => apply Z.leb_le in H
  | H : Z.leb _ _ = false |- _ => apply Z.leb_gt in H
  | H : Nat.eqb _ _ = true |- _ => apply Nat.eqb_eq in H
  | H : Nat.eqb _ _ = false |- _ => apply Nat.eqb_neq in H
  end.

(** ** Python exceptions and results *)

(** The exceptions the modelled code raises or lets through. *)
Inductive exn :=
  | ValueError (msg : string)
  | KeyError (key : string)
  | TypeError (msg : string)
  | AttributeError (msg : string)
  | RuntimeError (msg : string)
  | IndexError (msg : string)
  | OverflowError (msg : string)
  | ServiceNotFound (service_id_input reason : string)
  | HTTPException (status : Z) (code title : string)
  | IntegrityError (constraint : string)
  | DBError (msg : string)
  | GrpcError (msg : string).

#[global] Instance exn_eq_dec : EqDecision exn.
Proof. solve_decision. Defined.

(** The result of a Python call: a value, or a raised exception. *)
Inductive outcome (A : Type) :=
  | Ok (a : A)
  | Raise (e : exn).
Arguments Ok {A} _.
Arguments Raise {A} _.

#[global] Instance outcome_ret : MRet outcome := @Ok.
#[global] Instance outcome_bind : MBind outcome := fun A B f m =>
  match m with Ok a => f a | Raise e => Raise e end.

Lemma Ok_inj {A} (a b : A) : Ok a = Ok b -> a = b.
Proof. congruence. Qed.

Definition is_ok {A} (o : outcome A) : bool :=
  match o with Ok _ => true | Raise _ => false end.

(** ** Generic list lemmas *)

Section ListFacts.
Context {A : Type}.
Implicit Types (l : list A) (f g : A -> bool).

(** The first element satisfying [f], with its index: Python's
    [next((i for i, x in enumerate(l) if f(x)), None)]. *)
Fixpoint find_index f l : option nat :=
  match l with
  | [] => None
  | x :: l' => if f x then Some O else S <$> find_index f l'
  end.

Lemma find_index_Some f l i :
  find_index f l = Some i ->
  exists x, l !! i = Some x /\ f x = true /\
            forall j y, (j < i)%nat -> l !! j = Some y -> f y = false.
Proof.
  revert i; induction l as [|a l IH]; intros i H; simpl in H; [done|].
  destruct (f a) eqn:E.
  - injection H as <-. exists a. repeat split; auto. intros j y Hj. lia.
  - destruct (find_index f l) as [k|] eqn:Ek; simpl in H; [|done].
    injection H as <-. destruct (IH k eq_refl) as (x & Hx & Hf & Hmin).
    exists x. repeat split; auto. intros [|j] y Hj Hy; simpl in Hy.
    + by injection Hy as <-.
    + apply (Hmin j); [lia|done].
Qed.

Lemma find_index_None f l :
  find_index f l = None <-> forall x, x ∈ l -> f x = false.
Proof.
  induction l as [|a l IH]; simpl.
  - split; [intros _ x Hx; set_solver|done].
  - destruct (f a) eqn:E.
    + split; [done|]. intros H. specialize (H a). rewrite E in H.
      rewrite list_elem_of_In in H. simpl in H. naive_solver.
    + split.
      * intros H x Hx. apply elem_of_cons in Hx as [->|Hx]; [done|].
        apply IH; [|done]. by destruct (find_index f l).
      * intros H. replace (find_index f l) with (@None nat); [done|].
        symmetry. apply IH. intros x Hx. apply H. set_solver.
Qed.

Lemma find_index_ext f g l :
  (forall x, x ∈ l -> f x = g x) -> find_index f l = find_index g l.
Proof.
  induction l as [|a l IH]; intros H; simpl; [done|].
  rewrite (H a) by set_solver. rewrite IH by set_solver. done.
Qed.

Lemma filter_bool_In f l x : In x (List.filter f l) <-> In x l /\ f x = true.
Proof. apply filter_In. Qed.

Lemma filter_length_le f l : (length (List.filter f l) <= length l)%nat.
Proof. induction l as [|a l IH]; simpl; [lia|]. destruct (f a); simpl; lia. Qed.

Lemma filter_all f l : (forall x, In x l -> f x = true) -> List.filter f l = l.
Proof.
  induction l as [|a l IH]; simpl; intros H; [done|].
  rewrite (H a) by auto. f_equal. auto.
Qed.

Lemma filter_none f l : (forall x, In x l -> f x = false) -> List.filter f l = [].
Proof.
  induction l as [|a l IH]; simpl; intros H; [done|].
  rewrite (H a) by auto. auto.
Qed.

Lemma filter_filter f g l :
  List.filter f (List.filter g l) = List.filter (fun x => f x && g x)%bool l.
Proof.
  induction l as [|a l IH]; simpl; [done|].
  destruct (g a), (f a) eqn:E; simpl; rewrite ?E, ?IH; done.
Qed.

Lemma NoDup_map_filter {B} (h : A -> B) f l :
  List.NoDup (map h l) -> List.NoDup (map h (List.filter f l)).
Proof.
  induction l as [|a l IH]; simpl; [done|]. rewrite List.NoDup_cons_iff. intros [Ha Hn].
  destruct (f a); simpl; [|by apply IH]. constructor; [|by apply IH].
  intros Hin. apply Ha. apply in_map_iff in Hin as (x & <- & Hx). apply filter_In in Hx as [Hx _].
  by apply in_map.
Qed.
Lemma head_filter_find f l : head (List.filter f l) = List.find f l.
Proof. induction l as [|a l IH]; simpl; [done|]. by destruct (f a). Qed.

Lemma existsb_filter f g l : existsb f (List.filter g l) = existsb (fun x => g x && f x)%bool l.
Proof. induction l as [|a l IH]; simpl; [done|]. destruct (g a); simpl; by rewrite IH. Qed.

Lemma find_ext f g l : (forall x, f x = g x) -> List.find f l = List.find g l.
Proof. intros H. induction l as [|a l IH]; simpl; [done|]. by rewrite H, IH. Qed.

Lemma existsb_ext f g l : (forall x, f x = g x) -> existsb f l = existsb g l.
Proof. intros H. induction l as [|a l IH]; simpl; [done|]. by rewrite H, IH. Qed.
Lemma NoDup_key_unique {B} (key : A -> B) l a b :
  List.NoDup (map key l) -> In a l -> In b l -> key a = key b -> a = b.
Proof.
  induction l as [|c l IH]; [done|]. cbn [map]. rewrite List.NoDup_cons_iff. intros [Hc Hn].
  intros [<-|Ha] [<-|Hb] E; [done|..].
  - destruct Hc. rewrite E. by apply in_map.
  - destruct Hc. rewrite <- E. by apply in_map.
  - by apply IH.
Qed.
End ListFacts.

#[export] Hint Resolve filter_length_le : mintkey.
