(* ===== verification/PyStr.v ===== *)
(** * Python strings and positional number codecs

    The operations of Python's [str] the modelled code uses, on strings of
    code points below 256 (a [string] is the list of its code points), and
    the base-[2^k] digit codec shared by the wire identifiers (base 32) and
    the UUID text (base 16). *)

From S2P Require Import Prelude.

Local Open Scope string_scope.

(** ** Characters as code points *)

Definition chars (s : string) : list ascii := list_ascii_of_string s.
Definition unchars (l : list ascii) : string := string_of_list_ascii l.
Definition code (c : ascii) : N := N_of_ascii c.
Definition chr (n : N) : ascii := ascii_of_N n.
(** A newline as a string. *)
Definition nl : string := String (chr 10) "".

Lemma unchars_chars s : unchars (chars s) = s.
Proof. apply string_of_list_ascii_of_string. Qed.

Lemma chars_unchars l : chars (unchars l) = l.
Proof. apply list_ascii_of_string_of_list_ascii. Qed.

Lemma chars_inj s t : chars s = chars t -> s = t.
Proof. intros H. rewrite <- (unchars_chars s), <- (unchars_chars t). by rewrite H. Qed.

Lemma chars_app s t : chars (s +:+ t) = (chars s ++ chars t)%list.
Proof. induction s as [|c s IH]; [done|]. unfold chars in *. simpl. by rewrite IH. Qed.

Lemma unchars_app l k : unchars (l ++ k)%list = unchars l +:+ unchars k.
Proof. induction l as [|c l IH]; [done|]. unfold unchars in *. simpl. by rewrite IH. Qed.

(** [len(s)] *)
Definition py_len (s : string) : nat := length (chars s).

(** [s[n:]] and [s[:n]] for [0 <= n] *)
Definition py_drop (n : nat) (s : string) : string := unchars (drop n (chars s)).
Definition py_take (n : nat) (s : string) : string := unchars (take n (chars s)).

(** [s.startswith(p)] and [s.endswith(p)] *)
Fixpoint list_prefixb (p l : list ascii) : bool :=
  match p, l with
  | [], _ => true
  | _ :: _, [] => false
  | a :: p', b :: l' => Ascii.eqb a b && list_prefixb p' l'
  end.
Definition startswith (s p : string) : bool := list_prefixb (chars p) (chars s).
Definition endswith (s p : string) : bool := list_prefixb (rev (chars p)) (rev (chars s)).

(** [s.count(c)] for one character *)
Definition count_char (c : ascii) (s : string) : nat :=
  length (List.filter (Ascii.eqb c) (chars s)).

(** [s.replace(c, r)] for one character [c] *)
Definition replace_char (c : ascii) (r : string) (s : string) : string :=
  unchars (flat_map (fun x => if Ascii.eqb x c then chars r else [x]) (chars s)).

(** [s.replace(old, '')] for a nonempty [old], left to right *)
Fixpoint remove_sub_fuel (fuel : nat) (old l : list ascii) : list ascii :=
  match fuel with
  | O => l
  | S fuel' =>
      match l with
      | [] => []
      | a :: l' =>
          if list_prefixb old l then remove_sub_fuel fuel' old (drop (length old) l)
          else a :: remove_sub_fuel fuel' old l'
      end
  end.
Definition remove_sub (old s : string) : string :=
  unchars (remove_sub_fuel (length (chars s)) (chars old) (chars s)).

(** [s.strip(cs)], [s.rstrip(cs)] *)
Fixpoint drop_in (cs l : list ascii) : list ascii :=
  match l with
  | [] => []
  | a :: l' => if existsb (Ascii.eqb a) cs then drop_in cs l' else l
  end.
Definition rstrip (cs s : string) : string := unchars (rev (drop_in (chars cs) (rev (chars s)))).
Definition lstrip (cs s : string) : string := unchars (drop_in (chars cs) (chars s)).
Definition strip (cs s : string) : string := lstrip cs (rstrip cs s).

(** The code points below 256 for which [str.isspace] holds. *)
Definition is_space (c : ascii) : bool :=
  let n := code c in
  ((9 <=? n) && (n <=? 13) || (28 <=? n) && (n <=? 32) || (n =? 133) || (n =? 160))%N.
Definition whitespace : string :=
  unchars (List.filter is_space (map (fun n => chr (N.of_nat n)) (seq 0 256))).
(** [s.strip()] *)
Definition py_strip (s : string) : string := strip whitespace s.

(** [s.upper()]: the sharp s becomes two letters, and the two code points
    whose upper case is above 255 (micro sign, y with diaeresis) are left as
    they are. *)
Definition upper_char (c : ascii) : list ascii :=
  let n := code c in
  if ((97 <=? n) && (n <=? 122))%N then [chr (n - 32)]
  else if (n =? 223)%N then [chr 83; chr 83]
  else if ((224 <=? n) && (n <=? 254) && negb (n =? 247))%N then [chr (n - 32)]
  else [c].
Definition upper (s : string) : string := unchars (flat_map upper_char (chars s)).

(** [s.split(sep)] for one separator character *)
Fixpoint split_chars (sep : ascii) (l cur : list ascii) : list string :=
  match l with
  | [] => [unchars (rev cur)]
  | a :: l' => if Ascii.eqb a sep then unchars (rev cur) :: split_chars sep l' []
               else split_chars sep l' (a :: cur)
  end.
Definition py_split (sep : ascii) (s : string) : list string := split_chars sep (chars s) [].

(** [index] of a character: [ValueError] when absent. *)
Definition str_index (alphabet : string) (c : ascii) : outcome N :=
  match find_index (Ascii.eqb c) (chars alphabet) with
  | Some i => Ok (N.of_nat i)
  | None => Raise (ValueError "substring not found")
  end.

(** [alphabet[n]] for an index known to be in range *)
Definition char_at (alphabet : string) (n : N) : ascii :=
  nth (N.to_nat n) (chars alphabet) "000"%char.

(** ** Lemmas *)

Lemma list_prefixb_spec p l : list_prefixb p l = true <-> exists k, l = (p ++ k)%list.
Proof.
  revert l; induction p as [|a p IH]; intros l; simpl; [split; eauto|].
  destruct l as [|b l]; [split; [done|intros [k Hk]; done]|].
  rewrite andb_true_iff, IH, Ascii.eqb_eq. split.
  - intros [-> [k ->]]. eauto.
  - intros [k Hk]. inversion Hk; subst. eauto.
Qed.

Lemma startswith_spec s p : startswith s p = true <-> exists t, s = p +:+ t.
Proof.
  unfold startswith. rewrite list_prefixb_spec. split.
  - intros [k Hk]. exists (unchars k). apply chars_inj. by rewrite chars_app, chars_unchars.
  - intros [t ->]. exists (chars t). apply chars_app.
Qed.

Lemma startswith_app p t : startswith (p +:+ t) p = true.
Proof. apply startswith_spec. eauto. Qed.

Lemma py_len_app s t : py_len (s +:+ t) = (py_len s + py_len t)%nat.
Proof. unfold py_len. by rewrite chars_app, length_app. Qed.

Lemma py_len_unchars l : py_len (unchars l) = length l.
Proof. unfold py_len. by rewrite chars_unchars. Qed.

Lemma py_drop_app s t : py_drop (py_len s) (s +:+ t) = t.
Proof. unfold py_drop, py_len. by rewrite chars_app, drop_app_length, unchars_chars. Qed.

Lemma app_string_assoc (a b c : string) : (a +:+ b) +:+ c = a +:+ (b +:+ c).
Proof. apply chars_inj. by rewrite !chars_app, app_assoc. Qed.

Lemma app_string_inj (a b c : string) : a +:+ b = a +:+ c -> b = c.
Proof. intros H. apply (f_equal (py_drop (py_len a))) in H. by rewrite !py_drop_app in H. Qed.

(** ** Digits in base [2^k] *)

(** The last [n] base-[2^k] digits of [v], most significant first: the loop
    that appends [v & (2^k - 1)], shifts by [k] and reverses. *)
Fixpoint digits_le (k : N) (n : nat) (v : N) : list N :=
  match n with
  | O => []
  | S n' => N.land v (N.ones k) :: digits_le k n' (N.shiftr v k)
  end.
Definition digits (k : N) (n : nat) (v : N) : list N := rev (digits_le k n v).

(** [acc = (acc << k) | d] over the digits. *)
Definition undigits (k : N) (ds : list N) : N :=
  fold_left (fun acc d => N.lor (N.shiftl acc k) d) ds 0%N.

Lemma length_digits k n v : length (digits k n v) = n.
Proof.
  unfold digits. rewrite length_rev. revert v.
  induction n as [|n IH]; intros v; simpl; [done|by rewrite IH].
Qed.

Lemma digits_bound k n v d : In d (digits k n v) -> (d < 2 ^ k)%N.
Proof.
  unfold digits. rewrite <- in_rev. revert v.
  induction n as [|n IH]; intros v; simpl; [done|]. intros [<-|H]; [|by eapply IH].
  rewrite N.land_ones. apply N.mod_lt. apply N.pow_nonzero. lia.
Qed.

Lemma lor_shiftl_add k a d : (d < 2 ^ k)%N -> N.lor (N.shiftl a k) d = (a * 2 ^ k + d)%N.
Proof.
  intros Hd. rewrite N.shiftl_mul_pow2.
  rewrite <- N.lxor_lor; [rewrite <- N.add_nocarry_lxor; [done|]|];
    apply N.bits_inj; intros i; rewrite N.land_spec, N.bits_0;
    (destruct (N.lt_ge_cases i k) as [Hi|Hi];
     [by rewrite N.mul_pow2_bits_low|
      rewrite <- (N.mod_small d (2 ^ k)) by done;
      rewrite N.mod_pow2_bits_high by done; apply andb_false_r]).
Qed.

Lemma undigits_snoc k ds d : undigits k (ds ++ [d])%list = N.lor (N.shiftl (undigits k ds) k) d.
Proof. unfold undigits. by rewrite fold_left_app. Qed.

Lemma undigits_digits k n v : undigits k (digits k n v) = (v mod 2 ^ (k * N.of_nat n))%N.
Proof.
  unfold digits. revert v. induction n as [|n IH]; intros v; cbn [digits_le rev].
  - rewrite N.mul_0_r, N.mod_1_r. done.
  - rewrite undigits_snoc, IH.
    assert (2 ^ k <> 0)%N by (apply N.pow_nonzero; lia).
    rewrite lor_shiftl_add by (rewrite N.land_ones; by apply N.mod_lt).
    rewrite N.shiftr_div_pow2, N.land_ones.
    replace (k * N.of_nat (S n))%N with (k + k * N.of_nat n)%N by lia.
    rewrite N.pow_add_r, N.Div0.mod_mul_r. lia.
Qed.

Lemma undigits_bound k ds :
  (forall d, In d ds -> (d < 2 ^ k)%N) -> (undigits k ds < 2 ^ (k * N.of_nat (length ds)))%N.
Proof.
  induction ds as [|d ds IH] using rev_ind; intros H.
  - cbn. rewrite N.mul_0_r. lia.
  - rewrite undigits_snoc, length_app. cbn [length].
    rewrite lor_shiftl_add by (apply H, in_or_app; right; by left).
    assert (d < 2 ^ k)%N by (apply H, in_or_app; right; by left).
    assert (undigits k ds < 2 ^ (k * N.of_nat (length ds)))%N
      by (apply IH; intros; apply H, in_or_app; by left).
    replace (k * N.of_nat (length ds + 1))%N with (k * N.of_nat (length ds) + k)%N by lia.
    rewrite N.pow_add_r. nia.
Qed.

Lemma digits_undigits k ds :
  (forall d, In d ds -> (d < 2 ^ k)%N) -> digits k (length ds) (undigits k ds) = ds.
Proof.
  induction ds as [|d ds IH] using rev_ind; intros H; [done|].
  assert (Hd : (d < 2 ^ k)%N) by (apply H, in_or_app; right; by left).
  rewrite undigits_snoc, length_app, Nat.add_1_r. unfold digits. cbn [digits_le rev].
  assert (2 ^ k <> 0)%N by (apply N.pow_nonzero; lia).
  rewrite lor_shiftl_add, N.land_ones, N.shiftr_div_pow2 by done. f_equal.
  - rewrite N.add_comm, N.div_add, N.div_small, N.add_0_l by done.
    apply IH. intros; apply H, in_or_app; by left.
  - rewrite N.add_comm, N.Div0.mod_add, N.mod_small by done. done.
Qed.

(** A boolean property of the numbers below [n], checked by evaluation. *)
Lemma N_below_check (f : N -> bool) (n : nat) :
  forallb f (map N.of_nat (seq 0 n)) = true -> forall d, (d < N.of_nat n)%N -> f d = true.
Proof.
  intros H d Hd. rewrite forallb_forall in H. apply H.
  apply in_map_iff. exists (N.to_nat d). split; [lia|]. apply in_seq. lia.
Qed.

Lemma flat_map_fixed {A} (f : A -> list A) l : (forall x, In x l -> f x = [x]) -> flat_map f l = l.
Proof.
  induction l as [|a l IH]; intros H; simpl; [done|].
  rewrite (H a) by (by left). simpl. rewrite IH; [done|]. intros; apply H; by right.
Qed.

Lemma list_prefixb_absent p l a :
  head p = Some a -> ~ In a l -> list_prefixb p l = false.
Proof.
  destruct p as [|b p]; [done|]. simpl. intros [= ->] Hn.
  destruct l as [|c l]; simpl; [done|]. destruct (Ascii.eqb_spec a c) as [->|]; simpl; [|done].
  exfalso. apply Hn. by left.
Qed.

Lemma remove_sub_absent old s a :
  head (chars old) = Some a -> ~ In a (chars s) -> remove_sub old s = s.
Proof.
  intros Ha Hn. unfold remove_sub.
  transitivity (unchars (chars s)); [f_equal|apply unchars_chars].
  generalize (length (chars s)) as fuel. revert Hn. generalize (chars s) as l.
  intros l Hn fuel. revert l Hn.
  induction fuel as [|fuel IH]; intros [|c l] Hn; cbn [remove_sub_fuel]; [done..|].
  rewrite (list_prefixb_absent _ _ a) by done. f_equal. apply IH. intros H. apply Hn. by right.
Qed.

Lemma drop_in_head cs l :
  (forall a, head l = Some a -> existsb (Ascii.eqb a) cs = false) -> drop_in cs l = l.
Proof. destruct l as [|a l]; simpl; intros H; [done|]. by rewrite H. Qed.

Lemma strip_absent cs s :
  (forall a, In a (chars s) -> existsb (Ascii.eqb a) (chars cs) = false) -> strip cs s = s.
Proof.
  intros H. unfold strip, lstrip, rstrip.
  rewrite (drop_in_head _ (rev _)).
  - rewrite rev_involutive, chars_unchars, drop_in_head; [apply unchars_chars|].
    intros a Ha. apply H. destruct (chars s); simpl in *; [done|]. left. congruence.
  - intros a Ha. apply H. apply in_rev. destruct (rev (chars s)); simpl in *; [done|].
    left. congruence.
Qed.
