(* ===== verification/WireIds.v ===== *)
(** * UUID text and wire identifiers

    [uuid.UUID] parsing and printing, and the wire identifiers of
    [mcp_server/utils/wire_ids.py] and [admin_api/utils/wire_ids.py]:
    [<prefix>_<26 Crockford characters>], with the legacy 32-character hex
    form accepted by the decoder.  A UUID is its 128-bit integer. *)

From S2P Require Import Prelude PyStr.

Local Open Scope string_scope.

Abbreviation uuid := N (only parsing).
Abbreviation uuid_limit := (2 ^ 128)%N.

(** ** [uuid.UUID] *)

Definition _HEX : string := "0123456789abcdef".

Definition hex_char (d : N) : ascii := char_at _HEX d.

(** [f"{val:032x}"] for [val < 2^128]. *)
Definition hex32 (v : N) : string := unchars (map hex_char (digits 4 32 v)).

(** [f"{h[:8]}-{h[8:12]}-{h[12:16]}-{h[16:20]}-{h[20:]}"] *)
Definition dashed (h : string) : string :=
  py_take 8 h +:+ "-" +:+ py_take 4 (py_drop 8 h) +:+ "-" +:+ py_take 4 (py_drop 12 h)
  +:+ "-" +:+ py_take 4 (py_drop 16 h) +:+ "-" +:+ py_drop 20 h.

(** [str(u)] of a [uuid.UUID] *)
Definition uuid_str (v : uuid) : string := dashed (hex32 v).

Definition hex_val (c : ascii) : option N :=
  let n := code c in
  if ((48 <=? n) && (n <=? 57))%N then Some (n - 48)%N
  else if ((97 <=? n) && (n <=? 102))%N then Some (n - 87)%N
  else if ((65 <=? n) && (n <=? 70))%N then Some (n - 55)%N
  else None.

Definition is_underscore (c : ascii) : bool := (code c =? 95)%N.
Definition is_cspace (c : ascii) : bool := let n := code c in ((9 <=? n) && (n <=? 13) || (n =? 32))%N.

(** The digit scanner of [int(s, 16)]: digits with single underscores between
    them; returns the value, whether a digit was read and the unread rest. *)
Fixpoint scan_hex (acc : N) (read after_us : bool) (l : list ascii) : option (N * bool * list ascii) :=
  match l with
  | [] => if after_us then None else Some (acc, read, [])
  | c :: l' =>
      if is_underscore c then (if after_us then None else scan_hex acc read true l')
      else match hex_val c with
           | Some d => scan_hex (N.lor (N.shiftl acc 4) d) true false l'
           | None => if after_us then None else Some (acc, read, l)
           end
  end.

Fixpoint skip_cspace (l : list ascii) : list ascii :=
  match l with
  | c :: l' => if is_cspace c then skip_cspace l' else l
  | [] => []
  end.

(** [int(s, 16)] on a text without a minus sign ([None] for [ValueError]). *)
Definition py_int16 (l : list ascii) : option N :=
  let l := skip_cspace l in
  let l := match l with c :: l' => if (code c =? 43)%N then l' else l | [] => [] end in
  let l := match l with
           | z :: x :: l' =>
               if ((code z =? 48) && ((code x =? 120) || (code x =? 88)))%N
               then match l' with c :: l'' => if is_underscore c then l'' else l' | [] => [] end
               else l
           | _ => l
           end in
  match l with
  | c :: _ =>
      if is_underscore c then None else
      match scan_hex 0 false false l with
      | Some (v, true, rest) => match skip_cspace rest with [] => Some v | _ => None end
      | _ => None
      end
  | [] => None
  end.

(** [uuid.UUID(text)] *)
Definition UUID (text : string) : outcome uuid :=
  let hex := remove_sub "uuid:" (remove_sub "urn:" text) in
  let hex := replace_char "-" "" (strip "{}" hex) in
  if negb (py_len hex =? 32)%nat then Raise (ValueError "badly formed hexadecimal UUID string")
  else match py_int16 (chars hex) with
       | Some v => Ok v
       | None => Raise (ValueError "invalid literal for int() with base 16")
       end.

(** ** Wire identifiers (mcp_server/utils/wire_ids.py) *)

Definition _CROCKFORD : string := "0123456789ABCDEFGHJKMNPQRSTVWXYZ".

(** The [str | uuid.UUID] argument of the encoder. *)
Inductive uuid_value :=
  | VStr (s : string)
  | VUUID (u : uuid).

Definition uuid_value_int (v : uuid_value) : outcome N :=
  match v with
  | VUUID u => Ok u
  | VStr s => UUID (replace_char "-" "" s)
  end.

(** The 26 Crockford characters of a 128-bit integer. *)
Definition crockford (n : nat) (val : N) : string :=
  unchars (map (char_at _CROCKFORD) (digits 5 n val)).

(** The wire form of a UUID object. *)
Definition wire (u : uuid) (prefix : string) : string := prefix +:+ "_" +:+ crockford 26 u.

Definition db_uuid_to_wire (v : uuid_value) (prefix : string) : outcome string :=
  val ← uuid_value_int v; Ok (wire val prefix).

(** [val = (val << 5) | _CROCKFORD.index(ch)] over the characters. *)
Fixpoint crockford_fold (val : N) (l : list ascii) : outcome N :=
  match l with
  | [] => Ok val
  | ch :: l' => i ← str_index _CROCKFORD ch; crockford_fold (N.lor (N.shiftl val 5) i) l'
  end.

Definition wire_to_db_uuid (wire_id prefix : string) : outcome string :=
  if startswith wire_id (prefix +:+ "_") then
    let tail := py_drop (py_len prefix + 1) wire_id in
    if (py_len tail =? 26)%nat then
      match crockford_fold 0 (chars (upper tail)) with
      | Ok val => Ok (dashed (hex32 (N.land val (N.ones 128))))
      | Raise _ => Raise (ValueError ("Invalid wire ID (Crockford form): " +:+ wire_id))
      end
    else if (py_len tail =? 32)%nat then Ok (dashed tail)
    else Ok wire_id
  else Ok wire_id.

(** ** The admin-api copy (admin_api/utils/wire_ids.py, api/agents.py) *)

Module Admin.
Definition db_uuid_to_wire (v : uuid_value) (prefix : string) : outcome string :=
  val ← uuid_value_int v; Ok (prefix +:+ "_" +:+ crockford 26 val).

Definition wire_to_db_uuid (wire_id prefix : string) : outcome string :=
  if startswith wire_id (prefix +:+ "_") then
    let tail := py_drop (py_len prefix + 1) wire_id in
    if (py_len tail =? 26)%nat then
      match crockford_fold 0 (chars (upper tail)) with
      | Ok val => Ok (dashed (hex32 (N.land val (N.ones 128))))
      | Raise _ => Raise (ValueError ("Invalid wire ID (Crockford form): " +:+ wire_id))
      end
    else if (py_len tail =? 32)%nat then Ok (dashed tail)
    else Ok wire_id
  else Ok wire_id.

Definition db_uuid_to_wire_sec (v : uuid_value) : outcome string := db_uuid_to_wire v "sec".
Definition db_uuid_to_wire_secgrant (v : uuid_value) : outcome string := db_uuid_to_wire v "secgrant".

(** [_wire_id_to_uuid] strips a trailing underscore from the prefix. *)
Definition _wire_id_to_uuid (wire_id prefix : string) : outcome string :=
  wire_to_db_uuid wire_id (rstrip "_" prefix).
End Admin.

(** ** Lemmas on the text of a UUID *)

Lemma hex_char_val d : (d < 16)%N -> hex_val (hex_char d) = Some d.
Proof.
  intros H. apply (N_below_check (fun d => bool_decide (hex_val (hex_char d) = Some d)) 16) in H.
  - by apply bool_decide_eq_true in H.
  - vm_compute. reflexivity.
Qed.

(** The characters a printed UUID consists of. *)
Definition is_hex_low (c : ascii) : bool := existsb (Ascii.eqb c) (chars _HEX).

Lemma hex_char_low d : (d < 16)%N -> is_hex_low (hex_char d) = true.
Proof. intros H. apply (N_below_check (fun d => is_hex_low (hex_char d)) 16); [vm_compute; done|done]. Qed.

Lemma chars_hex32 v : chars (hex32 v) = map hex_char (digits 4 32 v).
Proof. apply chars_unchars. Qed.

Lemma py_len_hex32 v : py_len (hex32 v) = 32%nat.
Proof. unfold hex32. by rewrite py_len_unchars, length_map, length_digits. Qed.

Lemma hex32_low v c : In c (chars (hex32 v)) -> is_hex_low c = true.
Proof.
  rewrite chars_hex32, in_map_iff. intros (d & <- & Hd). apply hex_char_low.
  by apply digits_bound in Hd.
Qed.

Lemma chars_dashed h :
  chars (dashed h) =
    (take 8 (chars h) ++ ["-"%char] ++ take 4 (drop 8 (chars h)) ++ ["-"%char]
     ++ take 4 (drop 12 (chars h)) ++ ["-"%char] ++ take 4 (drop 16 (chars h)) ++ ["-"%char]
     ++ drop 20 (chars h))%list.
Proof. unfold dashed, py_take, py_drop. by rewrite !chars_app, !chars_unchars. Qed.

Definition drop_dash (l : list ascii) : list ascii :=
  flat_map (fun x => if Ascii.eqb x "-" then chars "" else [x]) l.

Lemma drop_dash_app l k : drop_dash (l ++ k)%list = (drop_dash l ++ drop_dash k)%list.
Proof. apply flat_map_app. Qed.

Lemma drop_dash_id l : ~ In "-"%char l -> drop_dash l = l.
Proof.
  intros H. apply flat_map_fixed. intros x Hx. destruct (Ascii.eqb_spec x "-"); [|done]. by subst.
Qed.

Lemma uuid_fields {A} (l : list A) :
  (take 8 l ++ take 4 (drop 8 l) ++ take 4 (drop 12 l) ++ take 4 (drop 16 l) ++ drop 20 l)%list = l.
Proof.
  rewrite <- (take_drop 8 l) at 6. f_equal.
  assert (H : forall n k, (take 4 (drop n k) ++ drop (n + 4) k)%list = drop n k :> list A)
    by (intros n k; rewrite <- drop_drop; apply take_drop).
  by rewrite (H 16%nat), (H 12%nat), (H 8%nat).
Qed.

Lemma drop_dash_dashed h : ~ In "-"%char (chars h) -> drop_dash (chars (dashed h)) = chars h.
Proof.
  intros H.
  assert (Ht : forall n l, ~ In "-"%char l -> ~ In "-"%char (take n l))
    by (intros n l Hl Hi; apply Hl; rewrite <- list_elem_of_In in *; by eapply elem_of_take in Hi as (?&?&?); eapply list_elem_of_lookup_2).
  assert (Hd : forall n l, ~ In "-"%char l -> ~ In "-"%char (drop n l))
    by (intros n l Hl Hi; apply Hl; rewrite <- (take_drop n l); apply in_or_app; by right).
  rewrite chars_dashed, !drop_dash_app. simpl (drop_dash ["-"%char]). simpl ([] ++ _)%list.
  rewrite !(drop_dash_id (take _ _)), (drop_dash_id (drop _ _)) by auto.
  apply uuid_fields.
Qed.

Lemma chars_dashed_In h c : In c (chars (dashed h)) -> In c (chars h) \/ c = "-"%char.
Proof.
  intros H. destruct (Ascii.eqb_spec c "-") as [->|Hne]; [by right|left].
  assert (Hf : In c (drop_dash (chars (dashed h)))).
  { apply in_flat_map. exists c. split; [done|]. destruct (Ascii.eqb_spec c "-"); [done|by left]. }
  revert Hf. rewrite chars_dashed, !drop_dash_app. simpl (drop_dash ["-"%char]).
  rewrite <- (uuid_fields (chars h)) at 6. rewrite !in_app_iff.
  assert (Hs : forall l, In c (drop_dash l) -> In c l).
  { intros l. unfold drop_dash. rewrite in_flat_map. intros (x & Hx & Hc).
    destruct (Ascii.eqb x "-"); simpl in Hc; [done|]. by destruct Hc as [->|[]]. }
  simpl. intuition auto.
Qed.

Lemma scan_hex_map ds acc read :
  (forall d, In d ds -> (d < 16)%N) ->
  scan_hex acc read false (map hex_char ds) =
    Some (fold_left (fun a d => N.lor (N.shiftl a 4) d) ds acc,
          (match ds with [] => read | _ => true end), []).
Proof.
  revert acc read; induction ds as [|d ds IH]; intros acc read H; simpl; [done|].
  rewrite hex_char_val by (apply H; by left).
  replace (is_underscore (hex_char d)) with false.
  - rewrite IH by (intros; apply H; by right). by destruct ds.
  - symmetry. apply negb_true_iff.
    apply (N_below_check (fun d => negb (is_underscore (hex_char d))) 16);
      [by vm_compute|apply H; by left].
Qed.

(** [int(h, 16)] reads back printed hex digits. *)
Lemma py_int16_digits ds :
  ds <> [] -> (forall d, In d ds -> (d < 16)%N) ->
  py_int16 (map hex_char ds) = Some (undigits 4 ds).
Proof.
  intros Hne H. destruct ds as [|d ds]; [done|].
  assert (Hd : (d < 16)%N) by (apply H; by left).
  assert (Hc : negb (is_cspace (hex_char d)) && negb (code (hex_char d) =? 43)%N
               && negb (is_underscore (hex_char d)) = true)
    by (apply (N_below_check (fun d => negb (is_cspace (hex_char d)) && negb (code (hex_char d) =? 43)%N
               && negb (is_underscore (hex_char d))) 16); [by vm_compute|done]).
  rewrite !andb_true_iff, !negb_true_iff in Hc. destruct Hc as [[Hs Hp] Hu].
  unfold py_int16. cbn [map skip_cspace]. rewrite Hs, Hp.
  assert (Hx : match map hex_char ds with
               | x :: _ => ((code x =? 120) || (code x =? 88))%N
               | [] => false end = false).
  { destruct ds as [|e ds]; [done|]. cbn [map]. apply negb_true_iff.
    apply (N_below_check (fun e => negb ((code (hex_char e) =? 120) || (code (hex_char e) =? 88))%N) 16);
      [by vm_compute|apply H; right; by left]. }
  replace (match map hex_char ds with [] => hex_char d :: map hex_char ds | _ => _ end)
    with (hex_char d :: map hex_char ds).
  2:{ destruct (map hex_char ds); [done|]. rewrite Hx. by rewrite andb_false_r. }
  rewrite Hu. change (hex_char d :: map hex_char ds) with (map hex_char (d :: ds)).
  by rewrite scan_hex_map.
Qed.

Lemma is_hex_low_not a : In a ["u"; "{"; "}"; "-"]%char -> is_hex_low a = false.
Proof. intros H. simpl in H. destruct_or!; subst; done. Qed.

Lemma uuid_str_chars v c : In c (chars (uuid_str v)) -> is_hex_low c = true \/ c = "-"%char.
Proof. intros H. apply chars_dashed_In in H as [H|H]; [left; by eapply hex32_low|by right]. Qed.

Lemma uuid_str_absent v a : In a ["u"; "{"; "}"]%char -> ~ In a (chars (uuid_str v)).
Proof.
  intros Ha Hin. apply uuid_str_chars in Hin as [H|H].
  - rewrite is_hex_low_not in H; [done|]. simpl in *. intuition.
  - subst. simpl in Ha. by destruct_or!.
Qed.

Lemma replace_dash_uuid_str v : replace_char "-" "" (uuid_str v) = hex32 v.
Proof.
  unfold replace_char. fold (drop_dash (chars (uuid_str v))). unfold uuid_str.
  rewrite drop_dash_dashed; [apply unchars_chars|].
  intros H. apply hex32_low in H. done.
Qed.

(** Removing the decorations of a text made of hex digits and dashes. *)
Lemma UUID_plain s :
  (forall a, In a (chars s) -> is_hex_low a = true \/ a = "-"%char) ->
  UUID s = (if negb (py_len (replace_char "-" "" s) =? 32)%nat
            then Raise (ValueError "badly formed hexadecimal UUID string")
            else match py_int16 (chars (replace_char "-" "" s)) with
                 | Some v => Ok v
                 | None => Raise (ValueError "invalid literal for int() with base 16")
                 end).
Proof.
  intros H. unfold UUID.
  assert (Hn : forall a, In a ["u"; "{"; "}"]%char -> ~ In a (chars s)).
  { intros a Ha Hin. apply H in Hin as [Hin|Hin].
    - rewrite is_hex_low_not in Hin; [done|]. simpl in *. intuition.
    - subst. simpl in Ha. by destruct_or!. }
  rewrite !(remove_sub_absent _ s "u") by (done || (apply Hn; by left)).
  rewrite strip_absent; [done|]. intros a Ha. apply not_true_iff_false. intros Hc.
  apply existsb_exists in Hc as (b & Hb & Hab). apply Ascii.eqb_eq in Hab. subst b.
  apply (Hn a); [|done]. simpl in *. intuition.
Qed.

Lemma UUID_hex32 v : (v < uuid_limit)%N -> UUID (hex32 v) = Ok v.
Proof.
  intros Hv. rewrite UUID_plain by (intros a Ha; left; by eapply hex32_low).
  unfold replace_char. fold (drop_dash (chars (hex32 v))). rewrite drop_dash_id.
  2:{ intros H. by apply hex32_low in H. }
  rewrite unchars_chars, py_len_hex32, chars_hex32, py_int16_digits; cbn [Nat.eqb negb].
  - rewrite undigits_digits, N.mod_small by done. done.
  - intros H. apply (f_equal (@length N)) in H. by rewrite length_digits in H.
  - intros d Hd. by apply digits_bound in Hd.
Qed.

(** [uuid.UUID(str(u)) == u] *)
Lemma UUID_uuid_str v : (v < uuid_limit)%N -> UUID (uuid_str v) = Ok v.
Proof.
  intros Hv. rewrite UUID_plain by apply uuid_str_chars.
  rewrite replace_dash_uuid_str, py_len_hex32, chars_hex32, py_int16_digits; cbn [Nat.eqb negb].
  - rewrite undigits_digits, N.mod_small by done. done.
  - intros H. apply (f_equal (@length N)) in H. by rewrite length_digits in H.
  - intros d Hd. by apply digits_bound in Hd.
Qed.

Lemma hex_val_lt c d : hex_val c = Some d -> (d < 16)%N.
Proof.
  unfold hex_val.
  repeat (destruct (_ && _) eqn:Hb; [apply andb_true_iff in Hb as [?%N.leb_le ?%N.leb_le]; intros [= <-]; lia|clear Hb]). done.
Qed.

Lemma scan_hex_lt l acc read us v r rest k :
  (acc < 16 ^ k)%N -> scan_hex acc read us l = Some (v, r, rest) -> (v < 16 ^ (k + N.of_nat (length l)))%N.
Proof.
  revert acc read us k; induction l as [|c l IH]; intros acc read us k Hk; cbn [scan_hex length].
  - destruct us; [done|]. intros [= <- _ _]. by rewrite N.add_0_r.
  - assert (Hup : (16 ^ k <= 16 ^ (k + N.of_nat (S (length l))))%N) by (apply N.pow_le_mono_r; lia).
    assert (Hle : (16 ^ (k + N.of_nat (length l)) <= 16 ^ (k + N.of_nat (S (length l))))%N) by (apply N.pow_le_mono_r; lia).
    destruct (is_underscore c); [destruct us; [done|]; intros H; apply IH with (k := k) in H; [lia|done]|].
    destruct (hex_val c) as [d|] eqn:Ed; [|destruct us; [done|]; intros [= <- _ _]; lia].
    apply hex_val_lt in Ed. rewrite (lor_shiftl_add 4) by done. intros H. apply IH with (k := (k + 1)%N) in H.
    + replace (k + N.of_nat (S (length l)))%N with (k + 1 + N.of_nat (length l))%N by lia. done.
    + rewrite N.pow_add_r. change (2 ^ 4)%N with 16%N. change (16 ^ 1)%N with 16%N. lia.
Qed.

Lemma length_skip_cspace l : (length (skip_cspace l) <= length l)%nat.
Proof. induction l as [|c l IH]; cbn [skip_cspace length]; [done|]. destruct (is_cspace c); cbn [length]; lia. Qed.

Lemma py_int16_lt l v : py_int16 l = Some v -> (v < 16 ^ N.of_nat (length l))%N.
Proof.
  unfold py_int16. intros H.
  assert (Hlen : exists l', (length l' <= length l)%nat /\
    match l' with
    | c :: _ => if is_underscore c then None else
        match scan_hex 0 false false l' with
        | Some (v, true, rest) => match skip_cspace rest with [] => Some v | _ => None end
        | _ => None
        end
    | [] => None
    end = Some v).
  { eexists. split; [|exact H]. clear H. pose proof (length_skip_cspace l) as Hl. revert Hl. generalize (skip_cspace l).
    intros l1 Hl. etransitivity; [|exact Hl].
    assert (Hp : (length (match l1 with c :: l' => if (code c =? 43)%N then l' else l1 | [] => [] end) <= length l1)%nat)
      by (destruct l1 as [|c l1]; [done|]; destruct (_ =? _)%N; cbn [length]; lia).
    etransitivity; [|exact Hp]. generalize (match l1 with c :: l' => if (code c =? 43)%N then l' else l1 | [] => [] end).
    intros [|z [|x [|y l2]]]; cbn [length]; try lia; destruct (_ && _); cbn [length]; try lia.
    destruct (is_underscore y); cbn [length]; lia. }
  clear H. destruct Hlen as ([|c l'] & Hlen & H); [done|]. destruct (is_underscore c); [done|].
  destruct (scan_hex _ _ _ _) as [[[v' []] rest]|] eqn:Es; try done. destruct (skip_cspace rest); [|done].
  apply Some_inj in H. subst v'. apply scan_hex_lt with (k := 0%N) in Es; [|done].
  eapply N.lt_le_trans; [exact Es|]. apply N.pow_le_mono_r; lia.
Qed.

(** A parsed UUID has 128 bits. *)
Lemma UUID_lt s u : UUID s = Ok u -> (u < uuid_limit)%N.
Proof.
  unfold UUID. destruct (Nat.eqb_spec (py_len (replace_char "-" "" (strip "{}" (remove_sub "uuid:" (remove_sub "urn:" s))))) 32) as [El|];
    cbn [negb]; [|done].
  destruct (py_int16 _) as [v|] eqn:Ev; [|done]. intros H. apply Ok_inj in H. subst v. apply py_int16_lt in Ev.
  unfold py_len in El. rewrite El in Ev. exact Ev.
Qed.

Lemma uuid_str_inj u v : (u < uuid_limit)%N -> (v < uuid_limit)%N -> uuid_str u = uuid_str v -> u = v.
Proof. intros Hu Hv H. apply UUID_uuid_str in Hu, Hv. congruence. Qed.

#[export] Hint Resolve UUID_uuid_str UUID_hex32 : mintkey.

(** ** Lemmas on the Crockford form *)

Lemma str_index_crockford d : (d < 32)%N -> str_index _CROCKFORD (char_at _CROCKFORD d) = Ok d.
Proof.
  intros H. apply (N_below_check (fun d => bool_decide
    (find_index (Ascii.eqb (char_at _CROCKFORD d)) (chars _CROCKFORD) = Some (N.to_nat d))) 32) in H.
  - apply bool_decide_eq_true in H. unfold str_index. rewrite H. by rewrite N2Nat.id.
  - vm_compute. reflexivity.
Qed.

Lemma upper_crockford_char d : (d < 32)%N -> upper_char (char_at _CROCKFORD d) = [char_at _CROCKFORD d].
Proof.
  intros H. apply (N_below_check (fun d => bool_decide
    (upper_char (char_at _CROCKFORD d) = [char_at _CROCKFORD d])) 32) in H.
  - by apply bool_decide_eq_true in H.
  - vm_compute. reflexivity.
Qed.

Lemma crockford_fold_map ds acc :
  (forall d, In d ds -> (d < 32)%N) ->
  crockford_fold acc (map (char_at _CROCKFORD) ds) =
    Ok (fold_left (fun a d => N.lor (N.shiftl a 5) d) ds acc).
Proof.
  revert acc; induction ds as [|d ds IH]; intros acc H; cbn [map crockford_fold fold_left]; [done|].
  rewrite str_index_crockford by (apply H; by left). simpl. apply IH.
  intros; apply H; by right.
Qed.

Lemma crockford_decode n v :
  crockford_fold 0 (chars (upper (crockford n v))) = Ok (v mod 2 ^ (5 * N.of_nat n))%N.
Proof.
  unfold upper, crockford. rewrite !chars_unchars.
  assert (Hd : forall d, In d (digits 5 n v) -> (d < 32)%N) by (intros d; apply (digits_bound 5)).
  rewrite flat_map_fixed.
  - rewrite crockford_fold_map by done. fold (undigits 5 (digits 5 n v)).
    by rewrite undigits_digits.
  - intros c. rewrite in_map_iff. intros (d & <- & Hin). apply upper_crockford_char. auto.
Qed.

Lemma py_len_crockford n v : py_len (crockford n v) = n.
Proof. unfold crockford. by rewrite py_len_unchars, length_map, length_digits. Qed.

Lemma wire_tail u p : py_drop (py_len p + 1) (wire u p) = crockford 26 u.
Proof.
  unfold wire. rewrite <- app_string_assoc.
  replace (py_len p + 1)%nat with (py_len (p +:+ "_")) by (by rewrite py_len_app).
  apply py_drop_app.
Qed.

Lemma startswith_wire u p : startswith (wire u p) (p +:+ "_") = true.
Proof. unfold wire. rewrite <- app_string_assoc. apply startswith_app. Qed.

Lemma wire_decode u p : wire_to_db_uuid (wire u p) p = Ok (uuid_str (u mod uuid_limit)).
Proof.
  unfold wire_to_db_uuid. rewrite startswith_wire, wire_tail, py_len_crockford.
  cbn [Nat.eqb]. rewrite crockford_decode, N.land_ones. unfold uuid_str. do 3 f_equal.
  change (5 * N.of_nat 26)%N with (128 + 2)%N. rewrite N.pow_add_r, N.Div0.mod_mul_r.
  rewrite N.mul_comm, N.Div0.mod_add. apply N.Div0.mod_mod.
Qed.

Lemma admin_codec_decode u p : Admin.wire_to_db_uuid (wire u p) p = Ok (uuid_str (u mod uuid_limit)).
Proof.
  unfold Admin.wire_to_db_uuid. rewrite startswith_wire, wire_tail, py_len_crockford.
  cbn [Nat.eqb]. rewrite crockford_decode, N.land_ones. unfold uuid_str. do 3 f_equal.
  change (5 * N.of_nat 26)%N with (128 + 2)%N. rewrite N.pow_add_r, N.Div0.mod_mul_r.
  rewrite N.mul_comm, N.Div0.mod_add. apply N.Div0.mod_mod.
Qed.

Lemma wire_inj u v p : (u < uuid_limit)%N -> (v < uuid_limit)%N -> wire u p = wire v p -> u = v.
Proof.
  intros Hu Hv H. apply uuid_str_inj; [done..|].
  assert (E : wire_to_db_uuid (wire u p) p = wire_to_db_uuid (wire v p) p) by by rewrite H.
  rewrite !wire_decode, !N.mod_small in E by done. congruence.
Qed.

(** ** Properties *)

(** C38: wire identifiers round-trip.  For every UUID and prefix the encoders of both copies of
    the codec succeed with the same identifier, on the UUID object and on its text alike; it is
    the prefix, an underscore and 26 characters, and the decoders of both copies return the dashed
    text of that UUID, which parses back to it. *)
Theorem wire_roundtrip u p :
  (u < uuid_limit)%N ->
  exists w, py_len w = (py_len p + 27)%nat /\ UUID (uuid_str u) = Ok u /\
    (db_uuid_to_wire (VUUID u) p = Ok w /\ db_uuid_to_wire (VStr (uuid_str u)) p = Ok w /\
     wire_to_db_uuid w p = Ok (uuid_str u)) /\
    (Admin.db_uuid_to_wire (VUUID u) p = Ok w /\ Admin.db_uuid_to_wire (VStr (uuid_str u)) p = Ok w /\
     Admin.wire_to_db_uuid w p = Ok (uuid_str u)).
Proof.
  intros Hu. exists (wire u p). unfold db_uuid_to_wire, Admin.db_uuid_to_wire, uuid_value_int.
  rewrite replace_dash_uuid_str, UUID_hex32 by done. cbn [mbind outcome_bind].
  rewrite wire_decode, admin_codec_decode, N.mod_small, UUID_uuid_str by done.
  unfold wire. rewrite !py_len_app, py_len_crockford. by repeat split.
Qed.

Lemma wire_roundtrip_witness :
  let u := 143871184241861255149424850181776209341%N in
  exists w, py_len w = (py_len "svc" + 27)%nat /\ UUID (uuid_str u) = Ok u /\
    (db_uuid_to_wire (VUUID u) "svc" = Ok w /\ db_uuid_to_wire (VStr (uuid_str u)) "svc" = Ok w /\
     wire_to_db_uuid w "svc" = Ok (uuid_str u)) /\
    (Admin.db_uuid_to_wire (VUUID u) "svc" = Ok w /\ Admin.db_uuid_to_wire (VStr (uuid_str u)) "svc" = Ok w /\
     Admin.wire_to_db_uuid w "svc" = Ok (uuid_str u)).
Proof. intros u. apply (wire_roundtrip u "svc"). reflexivity. Defined.

Lemma crockford_fold_in l acc v :
  crockford_fold acc l = Ok v ->
  exists ds, l = map (char_at _CROCKFORD) ds /\ (forall d, In d ds -> (d < 32)%N) /\
             v = fold_left (fun a d => N.lor (N.shiftl a 5) d) ds acc.
Proof.
  revert acc; induction l as [|c l IH]; intros acc; cbn [crockford_fold].
  - intros [= <-]. by exists [].
  - unfold str_index at 1. destruct (find_index _ _) as [i|] eqn:Ei; cbn [mbind outcome_bind]; [|done].
    intros H. apply IH in H as (ds & -> & Hd & ->).
    apply find_index_Some in Ei as (x & Hx & Hc & _). apply Ascii.eqb_eq in Hc. subst x.
    apply lookup_lt_Some in Hx as Hi. change (length (chars _CROCKFORD)) with 32%nat in Hi.
    exists (N.of_nat i :: ds). split; [|split; [|done]].
    + cbn [map]. f_equal. unfold char_at. rewrite Nat2N.id. symmetry. by apply nth_lookup_Some.
    + intros d [<-|Hin]; [lia|auto].
Qed.

(** what the decoder accepts.  On an identifier whose 26-character tail is all ASCII upper-case
    Crockford digits it returns the UUID of the low 128 bits of the 130-bit number they spell, so
    that encoding the result gives the identifier back exactly when its first digit is below 8;
    the four identifiers that differ in those two bits name the same row. *)
Theorem wire_decode_digits p ds :
  length ds = 26%nat -> (forall d, In d ds -> (d < 32)%N) ->
  let w := p +:+ "_" +:+ unchars (map (char_at _CROCKFORD) ds) in
  let u := (undigits 5 ds mod uuid_limit)%N in
  wire_to_db_uuid w p = Ok (uuid_str u) /\
  (wire u p = w <-> (nth 0 ds 0 < 8)%N).
Proof.
  intros Hlen Hd w u.
  assert (Hw : w = wire (undigits 5 ds) p).
  { unfold w, wire, crockford. by rewrite <- Hlen, digits_undigits. }
  rewrite Hw, wire_decode. split; [done|].
  destruct ds as [|d ds]; [done|]. cbn [nth].
  assert (Hlt : (undigits 5 ds < 2 ^ 125)%N).
  { simpl in Hlen. replace 125%N with (5 * N.of_nat (length ds))%N by lia.
    apply undigits_bound. intros x Hx. apply Hd. by right. }
  assert (Hv : undigits 5 (d :: ds) = (d * 2 ^ 125 + undigits 5 ds)%N).
  { clear -Hlen Hd Hlt. revert Hlt.
    replace 125%N with (5 * N.of_nat (length ds))%N by (simpl in Hlen; lia).
    clear Hlen. induction ds as [|x ds IH] using rev_ind; intros Hlt; [by cbn [undigits fold_left length]; change (5 * N.of_nat 0)%N with 0%N; rewrite ?N.shiftl_0_l, ?N.lor_0_l; cbn; lia|].
    rewrite app_comm_cons, !undigits_snoc in *.
    assert (Hx : (x < 2 ^ 5)%N) by (apply Hd; right; apply in_or_app; right; by left).
    rewrite !lor_shiftl_add in * by done.
    rewrite length_app in *. cbn [length] in *. rewrite IH.
    - replace (5 * N.of_nat (length ds + 1))%N with (5 * N.of_nat (length ds) + 5)%N by lia.
      rewrite N.pow_add_r. lia.
    - intros y Hy. apply Hd. destruct Hy as [<-|Hy]; [by left|right; apply in_or_app; by left].
    - replace (5 * N.of_nat (length ds + 1))%N with (5 * N.of_nat (length ds) + 5)%N in Hlt by lia.
      rewrite N.pow_add_r in Hlt. nia. }
  assert (Hd32 : (d < 32)%N) by (apply Hd; by left).
  assert (Hb : (undigits 5 (d :: ds) < 2 ^ 130)%N) by (rewrite Hv; lia).
  unfold u. split.
  - intros E. unfold wire in E. apply app_string_inj, app_string_inj in E.
    assert (E' : crockford_fold 0 (chars (upper (crockford 26 (undigits 5 (d :: ds) mod uuid_limit))))
               = crockford_fold 0 (chars (upper (crockford 26 (undigits 5 (d :: ds)))))) by by rewrite E.
    rewrite !crockford_decode in E'. injection E' as E'.
    change (5 * N.of_nat 26)%N with 130%N in E'.
    rewrite (N.mod_small (undigits 5 (d :: ds)) (2 ^ 130)) in E' by done.
    rewrite N.mod_small in E'.
    + assert (Hlim : (undigits 5 (d :: ds) < 8 * 2 ^ 125)%N)
        by (rewrite <- E'; apply (N.mod_lt _ uuid_limit); done).
      rewrite Hv in Hlim. clear -Hlim. revert Hlim.
      generalize (2 ^ 125)%N (undigits 5 ds). intros k v Hlim.
      destruct (N.lt_ge_cases d 8) as [|H8]; [done|].
      apply (N.mul_le_mono_r _ _ k) in H8. lia.
    + eapply N.lt_trans; [by apply N.mod_lt|]. done.
  - intros H8. f_equal. apply N.mod_small. rewrite Hv. lia.
Qed.

Lemma wire_decode_digits_witness :
  let w := "svc" +:+ "_" +:+ unchars (map (char_at _CROCKFORD) (repeat 7%N 26)) in
  let u := (undigits 5 (repeat 7%N 26) mod uuid_limit)%N in
  wire_to_db_uuid w "svc" = Ok (uuid_str u) /\
  (wire u "svc" = w <-> (nth 0 (repeat 7%N 26) 0 < 8)%N).
Proof.
  apply (wire_decode_digits "svc" (repeat 7%N 26)).
  - reflexivity.
  - intros d Hd. apply repeat_spec in Hd. subst d. reflexivity.
Defined.
