(* ===== verification/PyJson.v ===== *)
(** * JSON values and Python's [json.dumps] / [json.loads]

    A JSON value is what the code builds or reads: null, booleans, integers,
    strings, lists and dicts (association lists in insertion order).  Floats
    do not occur in the modelled payloads and have no constructor.  [dumps]
    is [json.dumps] with [ensure_ascii=True]; [loads] reads back what it
    prints (and any whitespace); a float in the text makes [loads] fail. *)

From S2P Require Import Prelude PyStr.

Local Open Scope string_scope.
Local Open Scope list_scope.

Inductive json :=
  | JNull
  | JBool (b : bool)
  | JInt (z : Z)
  | JStr (s : string)
  | JArr (l : list json)
  | JObj (kvs : list (string * json)).

(** Induction through the nested lists. *)
Section JsonInd.
Variable P : json -> Prop.
Hypothesis Hnull : P JNull.
Hypothesis Hbool : forall b, P (JBool b).
Hypothesis Hint : forall z, P (JInt z).
Hypothesis Hstr : forall s, P (JStr s).
Hypothesis Harr : forall l, Forall P l -> P (JArr l).
Hypothesis Hobj : forall kvs, Forall (fun kv => P (snd kv)) kvs -> P (JObj kvs).

Fixpoint json_ind' (j : json) : P j :=
  match j with
  | JNull => Hnull
  | JBool b => Hbool b
  | JInt z => Hint z
  | JStr s => Hstr s
  | JArr l => Harr l ((fix go l := match l return Forall P l with
      | [] => Forall_nil_2 _
      | x :: l' => Forall_cons_2 _ _ _ (json_ind' x) (go l') end) l)
  | JObj kvs => Hobj kvs ((fix go l := match l return Forall (fun kv => P (snd kv)) l with
      | [] => Forall_nil_2 _
      | kv :: l' => Forall_cons_2 _ _ _
          (match kv return P (snd kv) with (_, v) => json_ind' v end) (go l') end) kvs)
  end.
End JsonInd.

#[global] Instance json_eq_dec : EqDecision json.
Proof.
  refine (fix go (x y : json) {struct x} : Decision (x = y) :=
    match x, y with
    | JNull, JNull => left eq_refl
    | JBool a, JBool b => cast_if (decide (a = b))
    | JInt a, JInt b => cast_if (decide (a = b))
    | JStr a, JStr b => cast_if (decide (a = b))
    | JArr a, JArr b => cast_if (@decide (a = b) (@list_eq_dec _ go a b))
    | JObj a, JObj b => cast_if (@decide (a = b) (@list_eq_dec _ (@prod_eq_dec _ _ _ go) a b))
    | _, _ => right _
    end); abstract congruence.
Defined.

(** ** Dict operations (Python [dict] on string keys) *)

Abbreviation dict := (list (string * json)) (only parsing).

Definition dict_get (k : string) (d : dict) : option json :=
  snd <$> List.find (fun kv => String.eqb k (fst kv)) d.

(** [d.get(k, dflt)] *)
Definition dict_default (k : string) (dflt : json) (d : dict) : json := default dflt (dict_get k d).

Definition dict_mem (k : string) (d : dict) : bool :=
  existsb (fun kv => String.eqb k (fst kv)) d.

(** [d[k] = v]: in place when the key exists, appended otherwise. *)
Fixpoint dict_set (k : string) (v : json) (d : dict) : dict :=
  match d with
  | [] => [(k, v)]
  | (k', v') :: d' => if String.eqb k k' then (k', v) :: d' else (k', v') :: dict_set k v d'
  end.

(** [d.pop(k, None)] *)
Definition dict_pop (k : string) (d : dict) : dict :=
  List.filter (fun kv => negb (String.eqb k (fst kv))) d.

(** [d.update(e)] *)
Definition dict_update (d e : dict) : dict :=
  fold_left (fun acc kv => dict_set (fst kv) (snd kv) acc) e d.

(** Python truthiness *)
Definition truthy (j : json) : bool :=
  match j with
  | JNull | JBool false => false
  | JInt z => negb (Z.eqb z 0)
  | JStr s => negb (String.eqb s "")
  | JArr l => negb (length l =? 0)%nat
  | JObj l => negb (length l =? 0)%nat
  | JBool true => true
  end.

(** ** Printing *)

Definition dquote : ascii := chr 34.

Definition dec_char (d : N) : ascii := chr (d + 48).

Fixpoint print_dec (fuel : nat) (n : N) : list ascii :=
  match fuel with
  | O => [dec_char n]
  | S f => if (n <? 10)%N then [dec_char n] else print_dec f (n / 10) ++ [dec_char (n mod 10)]
  end.

Definition print_N (n : N) : list ascii := print_dec (N.to_nat (N.size n)) n.

(** [str(z)] of an int *)
Definition print_Z (z : Z) : list ascii :=
  if (z <? 0)%Z then "-"%char :: print_N (Z.abs_N z) else print_N (Z.abs_N z).
Definition py_str_int (z : Z) : string := unchars (print_Z z).

(** One character of a string literal, [ensure_ascii=True]. *)
Definition escape_char (c : ascii) : list ascii :=
  let n := code c in
  if (n =? 34)%N then ["\"%char; dquote]
  else if (n =? 92)%N then ["\"; "\"]%char
  else if (n =? 10)%N then ["\"; "n"]%char
  else if (n =? 13)%N then ["\"; "r"]%char
  else if (n =? 9)%N then ["\"; "t"]%char
  else if (n =? 12)%N then ["\"; "f"]%char
  else if (n =? 8)%N then ["\"; "b"]%char
  else if ((32 <=? n) && (n <=? 126))%N then [c]
  else ["\"; "u"; "0"; "0"]%char ++ map (char_at "0123456789abcdef") (digits 4 2 n).

Definition print_str (s : string) : list ascii :=
  dquote :: flat_map escape_char (chars s) ++ [dquote].

(** The items of a dict in key order. *)
Section Sort.
Context {A : Type}.
Definition key_leb (x y : string * A) : bool := String.leb (fst x) (fst y).
Fixpoint insert_key (x : string * A) (l : list (string * A)) : list (string * A) :=
  match l with
  | [] => [x]
  | y :: l' => if key_leb x y then x :: l else y :: insert_key x l'
  end.
Definition sort_keys (l : list (string * A)) : list (string * A) := fold_right insert_key [] l.
End Sort.

Fixpoint join (sep : list ascii) (ls : list (list ascii)) : list ascii :=
  match ls with
  | [] => []
  | [x] => x
  | x :: ls' => x ++ sep ++ join sep ls'
  end.

(** [json.dumps(j, sort_keys=sort, separators=(isep, ksep))] *)
Fixpoint dumps_with (sort : bool) (isep ksep : list ascii) (j : json) : list ascii :=
  match j with
  | JNull => chars "null"
  | JBool true => chars "true"
  | JBool false => chars "false"
  | JInt z => print_Z z
  | JStr s => print_str s
  | JArr l => "["%char :: join isep (map (dumps_with sort isep ksep) l) ++ ["]"%char]
  | JObj kvs =>
      let items := map (fun kv => match kv with (k, v) => (k, dumps_with sort isep ksep v) end) kvs in
      let items := if sort then sort_keys items else items in
      "{"%char :: join isep (map (fun kv => print_str (fst kv) ++ ksep ++ snd kv) items) ++ ["}"%char]
  end.

(** [json.dumps(j)] and [json.dumps(j, sort_keys=True, separators=(",", ":"))] *)
Definition dumps (j : json) : string := unchars (dumps_with false (chars ", ") (chars ": ") j).
Definition dumps_canonical (j : json) : string := unchars (dumps_with true [","%char] [":"%char] j).

(** ** Parsing *)

Definition is_ws (c : ascii) : bool := let n := code c in ((n =? 32) || (n =? 9) || (n =? 10) || (n =? 13))%N.
Fixpoint skip_ws (l : list ascii) : list ascii :=
  match l with
  | c :: l' => if is_ws c then skip_ws l' else l
  | [] => []
  end.

Definition is_digit (c : ascii) : bool := let n := code c in ((48 <=? n) && (n <=? 57))%N.

Fixpoint span_digits (acc : N) (l : list ascii) : N * list ascii :=
  match l with
  | c :: l' => if is_digit c then span_digits (10 * acc + (code c - 48))%N l' else (acc, l)
  | [] => (acc, [])
  end.

(** A number, refusing floats. *)
Definition parse_nat (l : list ascii) : option (N * list ascii) :=
  match l with
  | c :: l' =>
      if is_digit c then
        let '(n, rest) := if (code c =? 48)%N then (0%N, l') else span_digits 0 l in
        match rest with
        | d :: _ => if existsb (Ascii.eqb d) (chars ".eE") then None else Some (n, rest)
        | [] => Some (n, rest)
        end
      else None
  | [] => None
  end.

Definition parse_int (l : list ascii) : option (Z * list ascii) :=
  match l with
  | c :: l' =>
      if Ascii.eqb c "-" then '(n, r) ← parse_nat l'; Some (- Z.of_N n, r)%Z
      else '(n, r) ← parse_nat l; Some (Z.of_N n, r)
  | [] => None
  end.

Definition hexd (c : ascii) : option N :=
  let n := code c in
  if ((48 <=? n) && (n <=? 57))%N then Some (n - 48)%N
  else if ((97 <=? n) && (n <=? 102))%N then Some (n - 87)%N
  else if ((65 <=? n) && (n <=? 70))%N then Some (n - 55)%N
  else None.

Definition unescape (e : ascii) : option ascii :=
  let n := code e in
  if (n =? 34)%N then Some dquote else if (n =? 92)%N then Some "\"%char
  else if (n =? 47)%N then Some "/"%char
  else if (n =? 110)%N then Some (chr 10) else if (n =? 114)%N then Some (chr 13)
  else if (n =? 116)%N then Some (chr 9) else if (n =? 102)%N then Some (chr 12)
  else if (n =? 98)%N then Some (chr 8) else None.

(** The body of a string literal up to its closing quote. *)
Fixpoint parse_str (l acc : list ascii) : option (string * list ascii) :=
  match l with
  | [] => None
  | c :: l' =>
      if (code c =? 34)%N then Some (unchars (rev acc), l')
      else if (code c =? 92)%N then
        match l' with
        | e :: l'' =>
            if (code e =? 117)%N then
              match l'' with
              | a :: b :: x :: y :: l4 =>
                  match hexd a, hexd b, hexd x, hexd y with
                  | Some 0%N, Some 0%N, Some hx, Some hy => parse_str l4 (chr (16 * hx + hy) :: acc)
                  | _, _, _, _ => None
                  end
              | _ => None
              end
            else match unescape e with Some u => parse_str l'' (u :: acc) | None => None end
        | [] => None
        end
      else if (code c <? 32)%N then None
      else parse_str l' (c :: acc)
  end.

Definition strip_lit (lit : string) (l : list ascii) : option (list ascii) :=
  if list_prefixb (chars lit) l then Some (drop (py_len lit) l) else None.

Definition expect (c : ascii) (l : list ascii) : option (list ascii) :=
  match skip_ws l with
  | x :: l' => if Ascii.eqb x c then Some l' else None
  | [] => None
  end.

(** A value; the elements of a nonempty array after [[] or a comma; the
    members of a nonempty object after [{] or a comma. *)
Fixpoint parse_value (fuel : nat) (l : list ascii) {struct fuel} : option (json * list ascii) :=
  match fuel with
  | O => None
  | S f =>
      let l := skip_ws l in
      match l with
      | [] => None
      | c :: l' =>
          if Ascii.eqb c dquote then '(s, r) ← parse_str l' []; Some (JStr s, r)
          else if Ascii.eqb c "[" then
            match expect "]" l' with
            | Some r => Some (JArr [], r)
            | None => '(es, r) ← parse_elems f l'; Some (JArr es, r)
            end
          else if Ascii.eqb c "{" then
            match expect "}" l' with
            | Some r => Some (JObj [], r)
            | None => '(ms, r) ← parse_members f l'; Some (JObj ms, r)
            end
          else if Ascii.eqb c "n" then r ← strip_lit "null" l; Some (JNull, r)
          else if Ascii.eqb c "t" then r ← strip_lit "true" l; Some (JBool true, r)
          else if Ascii.eqb c "f" then r ← strip_lit "false" l; Some (JBool false, r)
          else '(z, r) ← parse_int l; Some (JInt z, r)
      end
  end
with parse_elems (fuel : nat) (l : list ascii) {struct fuel} : option (list json * list ascii) :=
  match fuel with
  | O => None
  | S f =>
      '(v, r) ← parse_value f l;
      match expect "," r with
      | Some r' => '(vs, r'') ← parse_elems f r'; Some (v :: vs, r'')
      | None => r' ← expect "]" r; Some ([v], r')
      end
  end
with parse_members (fuel : nat) (l : list ascii) {struct fuel} : option (list (string * json) * list ascii) :=
  match fuel with
  | O => None
  | S f =>
      r0 ← expect dquote l;
      '(k, r1) ← parse_str r0 [];
      r2 ← expect ":" r1;
      '(v, r) ← parse_value f r2;
      match expect "," r with
      | Some r' => '(vs, r'') ← parse_members f r'; Some ((k, v) :: vs, r'')
      | None => r' ← expect "}" r; Some ([(k, v)], r')
      end
  end.

(** A dict built from members: the last value of a repeated key wins. *)
Fixpoint dedup (j : json) : json :=
  match j with
  | JArr l => JArr (map dedup l)
  | JObj kvs =>
      JObj (dict_update [] (map (fun kv => match kv with (k, v) => (k, dedup v) end) kvs))
  | _ => j
  end.

(** [json.loads(s)] ([None] for [JSONDecodeError]) *)
Definition loads (s : string) : option json :=
  '(j, r) ← parse_value (S (2 * py_len s)) (chars s);
  match skip_ws r with [] => Some (dedup j) | _ => None end.

(** ** Key order *)

(** The value with the items of every dict in key order (when [sort]). *)
Fixpoint norm (sort : bool) (j : json) : json :=
  match j with
  | JArr l => JArr (map (norm sort) l)
  | JObj kvs =>
      let items := map (fun kv => match kv with (k, v) => (k, norm sort v) end) kvs in
      JObj (if sort then sort_keys items else items)
  | _ => j
  end.

(** Every dict of the value has distinct keys, as Python dicts do. *)
Fixpoint json_wf (j : json) : Prop :=
  match j with
  | JArr l => fold_right (fun x acc => json_wf x /\ acc) True l
  | JObj kvs => List.NoDup (map fst kvs) /\
                fold_right (fun kv acc => match kv with (_, v) => json_wf v end /\ acc) True kvs
  | _ => True
  end.

Section SortFacts.
Context {A : Type}.
Implicit Types (l : list (string * A)) (x y : string * A).

Lemma insert_key_perm x l : Permutation (insert_key x l) (x :: l).
Proof.
  induction l as [|y l IH]; simpl; [done|]. destruct (key_leb x y); [done|].
  rewrite IH. apply perm_swap.
Qed.

Lemma sort_keys_perm l : Permutation (sort_keys l) l.
Proof. induction l as [|x l IH]; simpl; [done|]. by rewrite insert_key_perm, IH. Qed.

Lemma String_leb_total_false s t : String.leb s t = false -> String.leb t s = true.
Proof. intros H. destruct (String.leb_total s t) as [H'|H']; congruence. Qed.

Lemma String_leb_trans s t u : String.leb s t = true -> String.leb t u = true -> String.leb s u = true.
Proof.
  revert t u; induction s as [|a s IH]; intros [|b t] [|c u]; unfold String.leb; simpl; try done.
  unfold Ascii.compare.
  destruct (N.compare_spec (N_of_ascii a) (N_of_ascii b)) as [E1|E1|E1],
    (N.compare_spec (N_of_ascii b) (N_of_ascii c)) as [E2|E2|E2]; try done; intros H1 H2.
  - rewrite E1, E2, N.compare_refl. by apply (IH t u).
  - rewrite E1. by apply N.compare_lt_iff in E2 as ->.
  - rewrite <- E2. by apply N.compare_lt_iff in E1 as ->.
  - assert (N_of_ascii a < N_of_ascii c)%N as E by lia. by apply N.compare_lt_iff in E as ->.
Qed.

Lemma insert_key_comm x y l :
  fst x <> fst y -> insert_key x (insert_key y l) = insert_key y (insert_key x l).
Proof.
  intros Hne. assert (Ha : key_leb x y = true -> key_leb y x = true -> False).
  { unfold key_leb. intros H1 H2. by apply Hne, String.leb_antisym. }
  unfold key_leb in *.
  induction l as [|z l IH]; simpl; unfold key_leb.
  - destruct (String.leb (fst x) (fst y)) eqn:E1, (String.leb (fst y) (fst x)) eqn:E2; try done.
    + exfalso; auto.
    + apply String_leb_total_false in E1. congruence.
  - destruct (String.leb (fst y) (fst z)) eqn:Eyz, (String.leb (fst x) (fst z)) eqn:Exz;
      simpl; unfold key_leb; rewrite ?Eyz, ?Exz.
    + destruct (String.leb (fst x) (fst y)) eqn:E1, (String.leb (fst y) (fst x)) eqn:E2; try done.
      * exfalso; auto.
      * apply String_leb_total_false in E1. congruence.
    + replace (String.leb (fst x) (fst y)) with false; [done|].
      symmetry. apply not_true_iff_false. intros E. by rewrite (String_leb_trans _ _ _ E Eyz) in Exz.
    + replace (String.leb (fst y) (fst x)) with false; [done|].
      symmetry. apply not_true_iff_false. intros E. by rewrite (String_leb_trans _ _ _ E Exz) in Eyz.
    + by rewrite IH.
Qed.

(** The sorted items do not depend on the insertion order. *)
Lemma sort_keys_unique l k :
  Permutation l k -> List.NoDup (map fst l) -> sort_keys l = sort_keys k.
Proof.
  induction 1 as [|x l k H IH|x y l|l k m H1 IH1 H2 IH2]; intros Hnd; simpl in *; [done|..].
  - inversion Hnd; subst. by rewrite IH.
  - inversion Hnd; subst. apply insert_key_comm. simpl in *. intuition.
  - rewrite IH1 by done. apply IH2. by rewrite <- H1.
Qed.

Lemma insert_key_map {B} (g : A -> B) k v l :
  insert_key (k, g v) (map (fun kv => match kv with (k, v) => (k, g v) end) l) =
  map (fun kv => match kv with (k, v) => (k, g v) end) (insert_key (k, v) l).
Proof.
  induction l as [|[k' v'] l IH]; simpl; [done|].
  change (key_leb (k, g v) (k', g v')) with (key_leb (k, v) (k', v')).
  destruct (key_leb _ _); simpl; [done|]. by rewrite IH.
Qed.

Lemma sort_keys_map {B} (g : A -> B) l :
  sort_keys (map (fun kv => match kv with (k, v) => (k, g v) end) l) =
  map (fun kv => match kv with (k, v) => (k, g v) end) (sort_keys l).
Proof. induction l as [|[k v] l IH]; simpl; [done|]. rewrite IH. apply insert_key_map. Qed.
End SortFacts.
