(* ===== verification/PyJsonFacts.v ===== *)
(** * Reading back printed JSON

    [loads] inverts [dumps] (and the canonical form up to key order), so the
    canonical form is injective on values up to key order. *)

From S2P Require Import Prelude PyStr PyJson.

Local Open Scope string_scope.
Local Open Scope list_scope.

(** ** Integers *)

Lemma is_digit_dec d : (d < 10)%N -> is_digit (dec_char d) = true /\ (code (dec_char d) - 48 = d)%N
                                     /\ (d <> 0%N -> (code (dec_char d) =? 48)%N = false).
Proof.
  intros H. apply (N_below_check (fun d => is_digit (dec_char d)
    && (code (dec_char d) - 48 =? d)%N && ((d =? 0)%N || negb (code (dec_char d) =? 48)%N)) 10) in H.
  - rewrite !andb_true_iff in H. destruct H as [[H1 H2] H3]. apply N.eqb_eq in H2.
    repeat split; [done..|]. intros Hd. apply orb_true_iff in H3 as [H3%N.eqb_eq|H3]; [done|].
    by apply negb_true_iff.
  - vm_compute. reflexivity.
Qed.

(** What may follow a number. *)
Definition after_number (rest : list ascii) : bool :=
  match rest with
  | [] => true
  | c :: _ => negb (is_digit c) && negb (existsb (Ascii.eqb c) (chars ".eE"))
  end.

Lemma span_digits_app a acc rest :
  forallb is_digit a = true -> after_number rest = true ->
  span_digits acc (a ++ rest) = (fold_left (fun n c => 10 * n + (code c - 48))%N a acc, rest).
Proof.
  revert acc; induction a as [|c a IH]; intros acc Ha Hr; simpl in *.
  - destruct rest as [|c rest]; simpl in *; [done|].
    by apply andb_true_iff in Hr as [->%negb_true_iff _].
  - apply andb_true_iff in Ha as [-> Ha]. by apply IH.
Qed.

Lemma print_dec_spec fuel n :
  (n < 2 ^ N.of_nat fuel)%N ->
  forallb is_digit (print_dec fuel n) = true /\
  fold_left (fun n c => 10 * n + (code c - 48))%N (print_dec fuel n) 0%N = n /\
  exists c l, print_dec fuel n = c :: l /\ (n <> 0%N -> (code c =? 48)%N = false) /\ (n = 0%N -> l = [] /\ c = "0"%char).
Proof.
  revert n; induction fuel as [|fuel IH]; intros n Hn; cbn [print_dec].
  - assert (n = 0)%N as -> by (simpl in Hn; lia). repeat split.
    by exists "0"%char, [].
  - destruct (N.ltb_spec n 10) as [Hlt|Hge].
    + destruct (is_digit_dec n Hlt) as (Hd & Hc & Hz). cbn [forallb fold_left].
      rewrite Hd, Hc. split; [done|]. split; [lia|]. exists (dec_char n), []. split; [done|].
      split; [done|]. by intros ->.
    + assert (Hm : (n mod 10 < 10)%N) by (apply N.mod_lt; lia).
      destruct (is_digit_dec _ Hm) as (Hd & Hc & _).
      assert (Hdiv : (n / 10 < 2 ^ N.of_nat fuel)%N).
      { apply N.Div0.div_lt_upper_bound. rewrite Nat2N.inj_succ, N.pow_succ_r' in Hn. lia. }
      destruct (IH _ Hdiv) as (H1 & H2 & c & l & He & Hz & _).
      rewrite forallb_app, fold_left_app, H1, H2. cbn [forallb fold_left]. rewrite Hd, Hc.
      split; [done|]. split; [pose proof (N.div_mod n 10); lia|].
      exists c, (l ++ [dec_char (n mod 10)]). rewrite He. split; [done|]. split; [|intros ->; lia].
      intros _. apply Hz. intros E. apply N.div_small_iff in E; lia.
Qed.

Lemma print_N_spec n :
  forallb is_digit (print_N n) = true /\
  fold_left (fun n c => 10 * n + (code c - 48))%N (print_N n) 0%N = n /\
  exists c l, print_N n = c :: l /\ (n <> 0%N -> (code c =? 48)%N = false) /\ (n = 0%N -> l = [] /\ c = "0"%char).
Proof. apply print_dec_spec. rewrite N2Nat.id. apply N.size_gt. Qed.

Lemma parse_nat_print n rest :
  after_number rest = true -> parse_nat (print_N n ++ rest) = Some (n, rest).
Proof.
  intros Hr. destruct (print_N_spec n) as (Hd & Hv & c & l & He & Hnz & Hz).
  assert (Hrest : match rest with
                  | d :: _ => if existsb (Ascii.eqb d) (chars ".eE") then None else Some (n, rest)
                  | [] => Some (n, rest) end = Some (n, rest)).
  { destruct rest; simpl in *; [done|]. apply andb_true_iff in Hr as [_ Hr].
    apply negb_true_iff in Hr. simpl in Hr. by rewrite Hr. }
  unfold parse_nat. pose proof (span_digits_app (print_N n) 0 rest Hd Hr) as Hs.
  rewrite Hv in Hs. rewrite He in *. cbn [app]. cbn [app] in Hs. rewrite Hs.
  cbn [forallb] in Hd. apply andb_true_iff in Hd as [-> Hd].
  destruct (N.eq_dec n 0%N) as [->|Hne].
  - destruct (Hz eq_refl) as [-> ->]. exact Hrest.
  - rewrite Hnz by done. exact Hrest.
Qed.

Lemma print_N_head n : exists c l, print_N n = c :: l /\ is_digit c = true.
Proof.
  destruct (print_N_spec n) as (Hd & _ & c & l & He & _). exists c, l. split; [done|].
  rewrite He in Hd. simpl in Hd. by apply andb_true_iff in Hd as [? _].
Qed.

Lemma is_digit_not c d : is_digit c = true -> is_digit d = false -> Ascii.eqb c d = false.
Proof. intros H1 H2. destruct (Ascii.eqb_spec c d) as [->|]; congruence. Qed.

Lemma parse_int_print z rest :
  after_number rest = true -> parse_int (print_Z z ++ rest) = Some (z, rest).
Proof.
  intros Hr. unfold print_Z. destruct (Z.ltb_spec z 0) as [Hz|Hz]; cbn [app parse_int].
  - rewrite Ascii.eqb_refl, parse_nat_print by done. simpl. do 2 f_equal. lia.
  - destruct (print_N_head (Z.abs_N z)) as (c & l & He & Hc).
    pose proof (parse_nat_print (Z.abs_N z) rest Hr) as Hp. rewrite He in *. cbn [app parse_int] in *.
    rewrite (is_digit_not c "-") by done. rewrite Hp. simpl. do 2 f_equal. lia.
Qed.

(** ** String literals *)

Lemma code_chr n : (n < 256)%N -> code (chr n) = n.
Proof. apply N_ascii_embedding. Qed.

Lemma chr_code c : chr (code c) = c.
Proof. apply ascii_N_embedding. Qed.

Lemma code_bound c : (code c < 256)%N.
Proof. apply N_ascii_bounded. Qed.

(** A boolean property of characters, checked on the 256 code points. *)
Lemma ascii_check (f : ascii -> bool) :
  forallb (fun n => f (chr n)) (map N.of_nat (seq 0 256)) = true -> forall c, f c = true.
Proof.
  intros H c. rewrite <- (chr_code c).
  apply (N_below_check (fun n => f (chr n)) 256); [done|]. apply code_bound.
Qed.

(** What [parse_str] does on one escaped character. *)
Definition escape_ok (c : ascii) : bool :=
  match escape_char c with
  | [a] => Ascii.eqb a c && negb (code a =? 34)%N && negb (code a =? 92)%N && negb (code a <? 32)%N
  | [a; b] => negb (code a =? 34)%N && (code a =? 92)%N && negb (code b =? 117)%N
              && bool_decide (unescape b = Some c)
  | [a; b; x; y; z; w] =>
      negb (code a =? 34)%N && (code a =? 92)%N && (code b =? 117)%N &&
      match hexd x, hexd y, hexd z, hexd w with
      | Some 0%N, Some 0%N, Some hz, Some hw => Ascii.eqb (chr (16 * hz + hw)) c
      | _, _, _, _ => false
      end
  | _ => false
  end.

Lemma escape_ok_all c : escape_ok c = true.
Proof. apply ascii_check. vm_compute. reflexivity. Qed.

Lemma parse_str_escape c rest acc :
  parse_str (escape_char c ++ rest) acc = parse_str rest (c :: acc).
Proof.
  pose proof (escape_ok_all c) as H. unfold escape_ok in H.
  destruct (escape_char c) as [|a [|b [|x [|y [|z [|w [|]]]]]]]; try discriminate H;
    cbn [app parse_str].
  - rewrite !andb_true_iff, !negb_true_iff in H. destruct H as [[[Ha ->] ->] ->].
    by apply Ascii.eqb_eq in Ha as ->.
  - rewrite !andb_true_iff, !negb_true_iff in H. destruct H as [[[-> ->] ->] Hu].
    apply bool_decide_eq_true in Hu. by rewrite Hu.
  - rewrite !andb_true_iff, !negb_true_iff in H. destruct H as [[[-> ->] ->] H].
    destruct (hexd x) as [[|]|], (hexd y) as [[|]|], (hexd z), (hexd w); try discriminate H.
    by apply Ascii.eqb_eq in H as ->.
Qed.

Lemma parse_str_flat l rest acc :
  parse_str (flat_map escape_char l ++ dquote :: rest) acc = Some (unchars (rev acc ++ l), rest).
Proof.
  revert acc; induction l as [|c l IH]; intros acc; cbn [flat_map app].
  - cbn [parse_str]. change (code dquote =? 34)%N with true. cbv iota. by rewrite app_nil_r.
  - rewrite <- app_assoc, parse_str_escape, IH. cbn [rev]. by rewrite <- app_assoc.
Qed.

Lemma parse_str_print s rest :
  parse_str (flat_map escape_char (chars s) ++ [dquote] ++ rest) [] = Some (s, rest).
Proof. cbn [app]. rewrite parse_str_flat. cbn [rev app]. by rewrite unchars_chars. Qed.

(** ** Values *)

Lemma skip_ws_app ws l : forallb is_ws ws = true -> skip_ws (ws ++ l) = skip_ws l.
Proof. induction ws as [|c ws IH]; simpl; [done|]. intros H. apply andb_true_iff in H as [-> H]. auto. Qed.

Lemma skip_ws_id c l : is_ws c = false -> skip_ws (c :: l) = c :: l.
Proof. intros H. simpl. by rewrite H. Qed.

Lemma parse_value_ws fuel ws l :
  forallb is_ws ws = true -> parse_value fuel (ws ++ l) = parse_value fuel l.
Proof. intros H. destruct fuel; simpl; [done|]. by rewrite skip_ws_app. Qed.

(** The first character of a printed value. *)
Definition value_start (c : ascii) : bool :=
  negb (is_ws c) && negb (existsb (Ascii.eqb c) (chars "]},:")).

Lemma value_start_digit c : is_digit c = true -> value_start c = true.
Proof.
  intros H. assert (Hc : (negb (is_digit c) || value_start c) = true)
    by (apply (ascii_check (fun c => negb (is_digit c) || value_start c)); by vm_compute).
  rewrite H in Hc. done.
Qed.

Lemma dumps_head sort isep ksep j :
  exists c l, dumps_with sort isep ksep j = c :: l /\ value_start c = true.
Proof.
  destruct j as [|[]|z|s|l|kvs]; simpl; eauto.
  unfold print_Z. destruct (z <? 0)%Z; eauto.
  destruct (print_N_head (Z.abs_N z)) as (c & l & -> & Hc). exists c, l.
  split; [done|by apply value_start_digit].
Qed.

Lemma expect_sep c l : is_ws c = false -> expect c (c :: l) = Some l.
Proof. intros H. unfold expect. rewrite skip_ws_id by done. by rewrite Ascii.eqb_refl. Qed.

Lemma expect_ws c ws l : forallb is_ws ws = true -> expect c (ws ++ l) = expect c l.
Proof. intros H. unfold expect. by rewrite skip_ws_app. Qed.

Lemma expect_other c d l : is_ws d = false -> Ascii.eqb d c = false -> expect c (d :: l) = None.
Proof. intros H1 H2. unfold expect. rewrite skip_ws_id by done. by rewrite H2. Qed.

Lemma value_start_not c d :
  value_start c = true -> existsb (Ascii.eqb d) (chars "]},:") = true ->
  is_ws c = false /\ Ascii.eqb c d = false.
Proof.
  intros H Hd. unfold value_start in H. rewrite andb_true_iff, !negb_true_iff in H. destruct H as [H1 H2].
  split; [done|]. destruct (Ascii.eqb_spec c d) as [->|]; [congruence|done].
Qed.

Lemma parse_elems_ws fuel ws l :
  forallb is_ws ws = true -> parse_elems fuel (ws ++ l) = parse_elems fuel l.
Proof. intros H. destruct fuel; [done|]. cbn [parse_elems]. by rewrite parse_value_ws. Qed.

Lemma parse_members_ws fuel ws l :
  forallb is_ws ws = true -> parse_members fuel (ws ++ l) = parse_members fuel l.
Proof. intros H. destruct fuel; [done|]. cbn [parse_members]. by rewrite expect_ws. Qed.

(** ** The round trip *)

Section RoundTrip.
Variables (sort : bool) (w1 w2 : list ascii).
Hypotheses (Hw1 : forallb is_ws w1 = true) (Hw2 : forallb is_ws w2 = true).

Let isep := ","%char :: w1.
Let ksep := ":"%char :: w2.
Let pr := dumps_with sort isep ksep.

Lemma expect_isep k : expect "," (isep ++ k) = Some (w1 ++ k).
Proof. by apply expect_sep. Qed.

Lemma length_isep : length isep = S (length w1).
Proof. done. Qed.

Lemma after_isep k : after_number (isep ++ k) = true.
Proof. done. Qed.

(** [parse_value] reads back the value [j] was printed from. *)
Definition reads (j : json) : Prop := forall fuel rest,
  (2 * length (pr j) + 1 <= fuel)%nat -> after_number rest = true ->
  parse_value fuel (pr j ++ rest) = Some (norm sort j, rest).

Lemma after_number_close c l : In c (chars ",]}") -> after_number (c :: l) = true.
Proof. simpl. intros H. destruct_or!; subst; done. Qed.

Lemma pr_length_pos j : (1 <= length (pr j))%nat.
Proof. destruct (dumps_head sort isep ksep j) as (c & l & E & _). unfold pr. rewrite E. simpl. lia. Qed.

Lemma reads_elems l fuel rest :
  l <> [] -> Forall reads l -> (2 * length (join isep (map pr l)) + 2 <= fuel)%nat ->
  parse_elems fuel (join isep (map pr l) ++ "]"%char :: rest) = Some (map (norm sort) l, rest).
Proof.
  revert fuel; induction l as [|x l IH]; intros fuel Hne Hf Hfuel; [done|].
  inversion Hf as [|? ? Hx Hl]; subst. destruct fuel as [|fuel]; [lia|].
  destruct l as [|y l].
  - simpl in *. rewrite (Hx fuel) by (lia || (apply after_number_close; simpl; tauto)). simpl.
    done.
  - change (join isep (map pr (x :: y :: l)))
      with (pr x ++ isep ++ join isep (map pr (y :: l))) in *.
    rewrite !length_app, length_isep in Hfuel.
    rewrite <- !app_assoc. cbn [parse_elems].
    rewrite (Hx fuel) by (lia || apply after_isep). cbn [mbind option_bind].
    rewrite expect_isep.
    by rewrite parse_elems_ws, IH by (done || lia).
Qed.

Let pm (kv : string * list ascii) := print_str (fst kv) ++ ksep ++ snd kv.
Let prkv (kv : string * json) := match kv with (k, v) => (k, pr v) end.

Lemma reads_members l fuel rest :
  l <> [] -> Forall (fun kv => reads (snd kv)) l ->
  (2 * length (join isep (map pm (map prkv l))) + 2 <= fuel)%nat ->
  parse_members fuel (join isep (map pm (map prkv l)) ++ "}"%char :: rest)
    = Some (map (fun kv => match kv with (k, v) => (k, norm sort v) end) l, rest).
Proof.
  revert fuel; induction l as [|[k v] l IH]; intros fuel Hne Hf Hfuel; [done|].
  inversion Hf as [|? ? Hx Hl]; subst. simpl in Hx. destruct fuel as [|fuel]; [lia|].
  assert (Hkey : forall tl, parse_members (S fuel) (pm (k, pr v) ++ tl) =
    '(v, r) ← parse_value fuel (pr v ++ tl);
    match expect "," r with
    | Some r' => '(vs, r'') ← parse_members fuel r'; Some ((k, v) :: vs, r'')
    | None => r' ← expect "}" r; Some ([(k, v)], r')
    end).
  { intros tl. unfold pm, print_str. cbn [fst snd]. rewrite <- !app_comm_cons, <- !app_assoc.
    cbn [parse_members]. rewrite expect_sep by done. cbn [mbind option_bind app].
    rewrite (parse_str_flat (chars k)). cbn [mbind option_bind rev app]. rewrite unchars_chars.
    unfold ksep. rewrite <- app_comm_cons, expect_sep by done. cbn [mbind option_bind].
    by rewrite parse_value_ws. }
  destruct l as [|[k' v'] l].
  - cbn [map prkv join] in *. rewrite Hkey.
    unfold pm in Hfuel. cbn [fst snd] in Hfuel. rewrite !length_app in Hfuel.
    rewrite (Hx fuel) by (lia || (apply after_number_close; simpl; tauto)). cbn [mbind option_bind].
    done.
  - change (join isep (map pm (map prkv ((k, v) :: (k', v') :: l))))
      with (pm (k, pr v) ++ isep ++ join isep (map pm (map prkv ((k', v') :: l)))) in *.
    rewrite !length_app, length_isep in Hfuel.
    rewrite <- !app_assoc, Hkey.
    assert (length (pr v) <= length (pm (k, pr v)))%nat
      by (unfold pm; cbn [fst snd]; rewrite !length_app; lia).
    rewrite (Hx fuel) by (lia || apply after_isep).
    cbn [mbind option_bind]. rewrite expect_isep.
    by rewrite parse_members_ws, IH by (done || lia).
Qed.

Lemma join_head x l : exists t, join isep (x :: l) = x ++ t.
Proof. destruct l as [|y l]; simpl; [exists []; by rewrite app_nil_r|eauto]. Qed.

Lemma pr_arr l : pr (JArr l) = "["%char :: join isep (map pr l) ++ ["]"%char].
Proof. done. Qed.

(** The items of a dict in the order they are printed in. *)
Let ordered (kvs : list (string * json)) := if sort then sort_keys kvs else kvs.

Lemma ordered_perm kvs : Permutation (ordered kvs) kvs.
Proof. unfold ordered. case sort; [apply sort_keys_perm|done]. Qed.

Lemma pr_obj kvs :
  pr (JObj kvs) = "{"%char :: join isep (map pm (map prkv (ordered kvs))) ++ ["}"%char].
Proof.
  unfold ordered. transitivity ("{"%char :: join isep (map pm
    (if sort then sort_keys (map prkv kvs) else map prkv kvs)) ++ ["}"%char]); [done|].
  destruct sort; [|done]. unfold prkv. by rewrite sort_keys_map.
Qed.

Lemma norm_obj kvs :
  norm sort (JObj kvs) =
    JObj (map (fun kv => match kv with (k, v) => (k, norm sort v) end) (ordered kvs)).
Proof. unfold ordered. simpl. destruct sort; [|done]. by rewrite sort_keys_map. Qed.

Lemma reads_int z : reads (JInt z).
Proof.
  intros [|fuel] rest Hfuel Hrest; [lia|].
  destruct (dumps_head sort isep ksep (JInt z)) as (c & l & E & Hc). cbn [dumps_with] in E.
  assert (Hh : is_digit c = true \/ c = "-"%char).
  { unfold print_Z in E. destruct (z <? 0)%Z; [injection E as <- _; by right|left].
    destruct (print_N_head (Z.abs_N z)) as (c' & l' & E' & Hd). congruence. }
  pose proof (parse_int_print z rest Hrest) as Hp. change (pr (JInt z)) with (print_Z z).
  rewrite E in *. cbn [app parse_value norm] in *.
  rewrite skip_ws_id by (apply (value_start_not c "]") in Hc; [tauto|done]).
  assert (Hn : forall d, is_digit d = false -> d <> "-"%char -> Ascii.eqb c d = false).
  { intros d Hd Hm. destruct Hh as [Hh| ->]; [by apply is_digit_not|].
    by destruct (Ascii.eqb_spec "-" d). }
  by rewrite !Hn, Hp by done.
Qed.

Lemma reads_str s : reads (JStr s).
Proof.
  intros [|fuel] rest Hfuel Hrest; [lia|]. change (pr (JStr s)) with (print_str s).
  unfold print_str. rewrite <- app_comm_cons, <- app_assoc. cbn [parse_value].
  rewrite skip_ws_id, Ascii.eqb_refl by done. by rewrite parse_str_print.
Qed.

Lemma reads_arr l : Forall reads l -> reads (JArr l).
Proof.
  intros IH [|fuel] rest Hfuel Hrest; [lia|]. rewrite pr_arr in Hfuel |- *.
  cbn [length] in Hfuel. rewrite length_app in Hfuel. cbn [length] in Hfuel.
  rewrite <- app_comm_cons, <- app_assoc. cbn [app parse_value].
  rewrite skip_ws_id by done. cbn [Ascii.eqb Bool.eqb].
  destruct l as [|x l]; [done|].
  destruct (join_head (pr x) (map pr l)) as [t Ht].
  destruct (dumps_head sort isep ksep x) as (c & u & E & Hc).
  assert (He : expect "]" (join isep (map pr (x :: l)) ++ "]"%char :: rest) = None).
  { cbn [map]. rewrite Ht. unfold pr. rewrite E.
    destruct (value_start_not c "]" Hc eq_refl). by apply expect_other. }
  cbn [Ascii.eqb Bool.eqb dquote chr]. rewrite He.
  by rewrite reads_elems by (done || lia).
Qed.

Lemma reads_obj kvs : Forall (fun kv => reads (snd kv)) kvs -> reads (JObj kvs).
Proof.
  intros IH [|fuel] rest Hfuel Hrest; [lia|]. rewrite pr_obj in Hfuel |- *. rewrite norm_obj.
  assert (IH' : Forall (fun kv => reads (snd kv)) (ordered kvs)).
  { by rewrite ordered_perm. }
  revert Hfuel IH'. generalize (ordered kvs) as k. clear kvs IH. intros k Hfuel IH.
  cbn [length] in Hfuel. rewrite length_app in Hfuel. cbn [length] in Hfuel.
  rewrite <- app_comm_cons, <- app_assoc. cbn [app parse_value].
  rewrite skip_ws_id by done.
  destruct k as [|[k v] l]; [done|].
  destruct (join_head (pm (k, pr v)) (map pm (map prkv l))) as [t Ht].
  assert (He : expect "}" (join isep (map pm (map prkv ((k, v) :: l))) ++ "}"%char :: rest) = None).
  { change (map pm (map prkv ((k, v) :: l))) with (pm (k, pr v) :: map pm (map prkv l)).
    by rewrite Ht. }
  cbn [Ascii.eqb Bool.eqb dquote chr]. rewrite He.
  by rewrite reads_members by (done || lia).
Qed.

Lemma reads_all j : reads j.
Proof.
  induction j as [|b|z|s|l IH|kvs IH] using json_ind'.
  - intros [|fuel] rest Hfuel _; [lia|done].
  - intros [|fuel] rest Hfuel _; [lia|]. by destruct b.
  - apply reads_int.
  - apply reads_str.
  - by apply reads_arr.
  - by apply reads_obj.
Qed.
End RoundTrip.

(** ** Distinct keys *)

Lemma json_wf_arr l : json_wf (JArr l) <-> Forall json_wf l.
Proof. simpl. induction l as [|x l IH]; simpl; [done|]. by rewrite Forall_cons, IH. Qed.

Lemma json_wf_obj kvs :
  json_wf (JObj kvs) <-> List.NoDup (map fst kvs) /\ Forall (fun kv => json_wf (snd kv)) kvs.
Proof.
  simpl. apply and_iff_compat_l. induction kvs as [|[k v] l IH]; simpl; [done|].
  by rewrite Forall_cons, IH.
Qed.

Lemma map_fst_snd {A B} (g : A -> B) (l : list (string * A)) :
  map fst (map (fun kv => match kv with (k, v) => (k, g v) end) l) = map fst l.
Proof. rewrite map_map. apply map_ext. by intros []. Qed.

Lemma Forall_map_snd {A B} (g : A -> B) (P : B -> Prop) (l : list (string * A)) :
  Forall (fun kv => P (snd kv)) (map (fun kv => match kv with (k, v) => (k, g v) end) l) <->
  Forall (fun kv => P (g (snd kv))) l.
Proof. rewrite Forall_map. apply Forall_iff. by intros []. Qed.

Lemma norm_wf sort j : json_wf j -> json_wf (norm sort j).
Proof.
  induction j as [|b|z|s|l IH|kvs IH] using json_ind'; intros H; try done.
  - cbn [norm]. rewrite json_wf_arr in *. rewrite Forall_map.
    rewrite List.Forall_forall in *. auto.
  - rewrite json_wf_obj in H. destruct H as [Hn Hf].
    assert (Hf' : Forall (fun kv : string * json => json_wf (norm sort (snd kv))) kvs)
      by (rewrite List.Forall_forall in *; auto).
    cbn [norm]. rewrite json_wf_obj. destruct sort.
    + rewrite sort_keys_perm, map_fst_snd, Forall_map_snd. done.
    + rewrite map_fst_snd, Forall_map_snd. done.
Qed.

Lemma dict_set_fresh k v d : ~ In k (map fst d) -> dict_set k v d = d ++ [(k, v)].
Proof.
  induction d as [|[k' v'] d IH]; simpl; intros H; [done|].
  destruct (String.eqb_spec k k') as [->|]; [tauto|]. rewrite IH; [done|tauto].
Qed.

Lemma dict_update_fresh d e :
  List.NoDup (map fst (d ++ e)) -> dict_update d e = d ++ e.
Proof.
  unfold dict_update. revert d; induction e as [|[k v] e IH]; intros d H; simpl; [by rewrite app_nil_r|].
  rewrite dict_set_fresh.
  - rewrite IH by (by rewrite <- app_assoc). by rewrite <- app_assoc.
  - rewrite map_app in H. cbn [map fst] in H. apply NoDup_remove_2 in H.
    intros Hin. apply H, in_or_app. by left.
Qed.

Lemma dedup_wf j : json_wf j -> dedup j = j.
Proof.
  induction j as [|b|z|s|l IH|kvs IH] using json_ind'; intros H; try done.
  - cbn [dedup]. f_equal. rewrite json_wf_arr in H.
    rewrite <- (map_id l) at 2. apply map_ext_in. intros x Hx.
    rewrite List.Forall_forall in IH, H. auto.
  - rewrite json_wf_obj in H. destruct H as [Hn Hf]. cbn [dedup]. f_equal.
    rewrite dict_update_fresh by (cbn [app]; by rewrite map_fst_snd). cbn [app].
    rewrite <- (map_id kvs) at 2. apply map_ext_in. intros [k v] Hx.
    rewrite List.Forall_forall in IH, Hf. specialize (IH _ Hx). specialize (Hf _ Hx). simpl in *.
    by rewrite IH.
Qed.

(** ** Python values are well formed *)

Lemma dict_set_keys k v d : map fst (dict_set k v d) = if dict_mem k d then map fst d else (map fst d ++ [k])%list.
Proof.
  induction d as [|[k' v'] d IH]; [done|]. cbn [dict_set dict_mem existsb fst map app].
  destruct (String.eqb k k'); [done|]. cbn [map fst orb]. rewrite IH. unfold dict_mem. by destruct (existsb _ d).
Qed.

Lemma dict_mem_keys k d : dict_mem k d = true <-> In k (map fst d).
Proof.
  unfold dict_mem. rewrite existsb_exists, in_map_iff. split; intros (kv & H1 & H2); exists kv.
  - apply String.eqb_eq in H2. by subst.
  - subst k. by rewrite String.eqb_refl.
Qed.

Lemma dict_set_wf k v d : json_wf (JObj d) -> json_wf v -> json_wf (JObj (dict_set k v d)).
Proof.
  rewrite !json_wf_obj. intros [Hn Hf] Hv. split.
  - rewrite dict_set_keys. destruct (dict_mem k d) eqn:Em; [done|]. apply NoDup_ListNoDup, NoDup_app.
    split; [by apply NoDup_ListNoDup|]. split; [|apply NoDup_singleton].
    intros x Hx. rewrite list_elem_of_singleton. intros ->. apply list_elem_of_In, dict_mem_keys in Hx. congruence.
  - clear Hn. induction Hf as [|[k' v'] d Hv' Hd IH]; cbn [dict_set]; [by repeat constructor|].
    destruct (String.eqb k k'); by constructor.
Qed.

Lemma dict_update_wf d e :
  json_wf (JObj d) -> Forall (fun kv => json_wf (snd kv)) e -> json_wf (JObj (dict_update d e)).
Proof.
  unfold dict_update. intros Hd He. revert d Hd. induction He as [|[k v] e Hv He IH]; intros d Hd; [done|].
  cbn [fold_left fst snd]. by apply IH, dict_set_wf.
Qed.

Lemma dict_pop_wf k d : json_wf (JObj d) -> json_wf (JObj (dict_pop k d)).
Proof.
  rewrite !json_wf_obj. intros [Hn Hf]. unfold dict_pop. split.
  - induction d as [|[k' v'] d IH]; [done|]. cbn [List.filter fst map] in *. apply NoDup_cons_iff in Hn as [Hx Hn].
    apply Forall_inv_tail in Hf. destruct (negb (String.eqb k k')); [|by apply IH]. cbn [map fst]. constructor; [|by apply IH].
    intros Hin. apply Hx. apply in_map_iff in Hin as ([] & <- & Hin). apply filter_In in Hin as [Hin _]. by apply (in_map fst) in Hin.
  - rewrite List.Forall_forall in *. intros x Hx. apply filter_In in Hx as [Hx _]. auto.
Qed.

Lemma dict_get_wf k d v : json_wf (JObj d) -> dict_get k d = Some v -> json_wf v.
Proof.
  rewrite json_wf_obj. intros [_ Hf]. unfold dict_get. destruct (List.find _ d) as [[k' v']|] eqn:E1; [|done].
  intros H. injection H as ->. apply find_some in E1 as [Hin _]. rewrite List.Forall_forall in Hf. by apply (Hf _ Hin).
Qed.

Lemma dedup_is_wf j : json_wf (dedup j).
Proof.
  induction j as [|b|z|s|l IH|kvs IH] using json_ind'; try done; cbn [dedup].
  - rewrite json_wf_arr. by apply List.Forall_map.
  - apply dict_update_wf; [by rewrite json_wf_obj; split; constructor|]. by rewrite (Forall_map_snd dedup json_wf).
Qed.

Lemma loads_wf s j : loads s = Some j -> json_wf j.
Proof.
  unfold loads. destruct (parse_value _ _) as [[j' r]|]; [|done]. cbn [mbind option_bind].
  destruct (skip_ws r); [|done]. intros [= <-]. apply dedup_is_wf.
Qed.

Lemma norm_false j : norm false j = j.
Proof.
  induction j as [|b|z|s|l IH|kvs IH] using json_ind'; try done; cbn [norm]; f_equal.
  - rewrite <- (map_id l) at 2. apply map_ext_in. by rewrite List.Forall_forall in IH.
  - rewrite <- (map_id kvs) at 2. apply map_ext_in. intros [k v] Hx.
    rewrite List.Forall_forall in IH. specialize (IH _ Hx). simpl in *. by rewrite IH.
Qed.

Lemma loads_dumps_with sort w1 w2 j :
  forallb is_ws w1 = true -> forallb is_ws w2 = true -> json_wf j ->
  loads (unchars (dumps_with sort (","%char :: w1) (":"%char :: w2) j)) = Some (norm sort j).
Proof.
  intros H1 H2 Hj. unfold loads. rewrite chars_unchars, py_len_unchars.
  rewrite <- (app_nil_r (dumps_with sort (","%char :: w1) (":"%char :: w2) j)) at 2.
  rewrite (reads_all sort w1 w2 H1 H2 j) by (done || lia). simpl.
  by rewrite dedup_wf by by apply norm_wf.
Qed.

Lemma loads_dumps j : json_wf j -> loads (dumps j) = Some j.
Proof.
  intros H. etransitivity; [by apply (loads_dumps_with false [" "%char] [" "%char])|].
  by rewrite norm_false.
Qed.

Lemma loads_canonical j : json_wf j -> loads (dumps_canonical j) = Some (norm true j).
Proof. intros H. by apply (loads_dumps_with true [] []). Qed.

#[export] Hint Resolve loads_dumps loads_canonical norm_wf : mintkey.

(** ** The same value up to key order *)

(** Two values are the same JSON value when they agree up to key order. *)
Definition json_same (a b : json) : Prop := norm true a = norm true b.

#[global] Instance json_same_equiv : Equivalence json_same.
Proof. split; unfold json_same; congruence. Qed.

Lemma norm_idem_wf a b : json_wf a -> json_wf b ->
  dumps_canonical a = dumps_canonical b -> json_same a b.
Proof.
  intros Ha Hb H. apply (f_equal loads) in H. rewrite !loads_canonical in H by done.
  unfold json_same. congruence.
Qed.

(** The canonical text as a function of the normal form. *)
Lemma dumps_norm isep ksep j :
  dumps_with true isep ksep j = dumps_with false isep ksep (norm true j).
Proof.
  induction j as [|b|z|s|l IH|kvs IH] using json_ind'; try done; cbn [dumps_with norm].
  - do 3 f_equal. rewrite map_map. apply map_ext_in. by rewrite List.Forall_forall in IH.
  - do 3 f_equal. rewrite !sort_keys_map, !map_map. apply map_ext_in. intros [k v] Hx.
    rewrite List.Forall_forall in IH.
    assert (Hin : In (k, v) kvs) by (eapply Permutation.Permutation_in; [apply sort_keys_perm|done]).
    specialize (IH _ Hin). simpl in *. by rewrite IH.
Qed.

#[global] Instance dumps_canonical_proper : Proper (json_same ==> eq) dumps_canonical.
Proof. intros a b H. unfold dumps_canonical. rewrite !dumps_norm. by rewrite H. Qed.

Lemma json_same_perm kvs kvs' :
  List.NoDup (map fst kvs) -> Permutation kvs kvs' -> json_same (JObj kvs) (JObj kvs').
Proof.
  intros Hn H. unfold json_same. cbn [norm]. f_equal. apply sort_keys_unique.
  - by apply Permutation_map.
  - by rewrite map_fst_snd.
Qed.
