(* ===== verification/PyTime.v ===== *)
(** * Dates and times

    Python's [datetime] as the modelled code uses it: an instant is the number
    of microseconds since 0001-01-01T00:00:00 UTC, and a [datetime] is an
    instant with an optional UTC offset ([None] when naive).  The calendar is
    the one of the standard library's [datetime] ([_ymd2ord], [_ord2ymd]).
    The library's refusal of years above 9999 is not modelled. *)

From S2P Require Import Prelude PyStr PyJson.

Local Open Scope string_scope.
Local Open Scope Z_scope.

(** ** The proleptic Gregorian calendar *)

Definition is_leap (y : Z) : bool :=
  (y mod 4 =? 0) && (negb (y mod 100 =? 0) || (y mod 400 =? 0)).

Definition days_before_year (y : Z) : Z :=
  let y := y - 1 in y * 365 + y / 4 - y / 100 + y / 400.

Definition days_before_month (m : Z) : Z :=
  nth (Z.to_nat m) [-1; 0; 31; 59; 90; 120; 151; 181; 212; 243; 273; 304; 334] 0.

Definition days_in_month (leap : bool) (m : Z) : Z :=
  if (m =? 2) && leap then 29
  else nth (Z.to_nat m) [-1; 31; 28; 31; 30; 31; 30; 31; 31; 30; 31; 30; 31] 0.

(** [datetime._ymd2ord]: 1 for 0001-01-01. *)
Definition ymd2ord (y m d : Z) : Z :=
  days_before_year y + (days_before_month m + (if (m >? 2) && is_leap y then 1 else 0)) + d.

(** The month and day of the 0-based day [n] of a year. *)
Definition month_day (leap : bool) (n : Z) : Z * Z :=
  let month := Z.shiftr (n + 50) 5 in
  let preceding := days_before_month month + (if (month >? 2) && leap then 1 else 0) in
  if preceding >? n
  then (month - 1, n - (preceding - days_in_month leap (month - 1)) + 1)
  else (month, n - preceding + 1).

(** [datetime._ord2ymd] *)
Definition ord2ymd (n : Z) : Z * Z * Z :=
  let n := n - 1 in
  let n400 := n / 146097 in let n := n mod 146097 in
  let n100 := n / 36524 in let n := n mod 36524 in
  let n4 := n / 1461 in let n := n mod 1461 in
  let n1 := n / 365 in let n := n mod 365 in
  let year := n400 * 400 + 1 + n100 * 100 + n4 * 4 + n1 in
  if (n1 =? 4) || (n100 =? 4) then (year - 1, 12, 31)
  else let leapyear := (n1 =? 3) && (negb (n4 =? 24) || (n100 =? 3)) in
       let '(month, day) := month_day leapyear n in (year, month, day).

(** ** Instants *)

Definition us_per_second : Z := 1000000.
Definition us_per_minute : Z := 60 * us_per_second.
Definition us_per_hour : Z := 60 * us_per_minute.
Definition us_per_day : Z := 24 * us_per_hour.

(** [t.toordinal()], [t.weekday()] (Monday is 0) of a UTC instant *)
Definition ordinal (t : Z) : Z := t / us_per_day + 1.
Definition weekday (t : Z) : Z := (ordinal t + 6) mod 7.
Definition ymd (t : Z) : Z * Z * Z := ord2ymd (ordinal t).

(** [datetime(y, m, d, tzinfo=utc)] *)
Definition midnight (y m d : Z) : Z := (ymd2ord y m d - 1) * us_per_day.

Record datetime := DateTime { dt_instant : Z; dt_offset : option Z }.

#[global] Instance datetime_eq_dec : EqDecision datetime.
Proof. solve_decision. Defined.

(** An aware UTC datetime. *)
Definition utc (t : Z) : datetime := DateTime t (Some 0).

(** [f"{n:0{w}d}"] for a nonnegative [n] *)
Definition zpad (w : nat) (n : Z) : string :=
  let s := print_Z n in unchars (repeat "0"%char (w - length s) ++ s).

(** [isoformat()] without the offset *)
Definition iso_local (t : Z) : string :=
  let '(y, m, d) := ymd t in
  let us := t mod us_per_day in
  zpad 4 y +:+ "-" +:+ zpad 2 m +:+ "-" +:+ zpad 2 d +:+ "T"
  +:+ zpad 2 (us / us_per_hour) +:+ ":" +:+ zpad 2 (us / us_per_minute mod 60)
  +:+ ":" +:+ zpad 2 (us / us_per_second mod 60)
  +:+ (if us mod us_per_second =? 0 then "" else "." +:+ zpad 6 (us mod us_per_second)).

(** [isoformat()] of an aware UTC datetime *)
Definition isoformat_utc (t : Z) : string := iso_local t +:+ "+00:00".

(** [isoformat()]: the wall clock and the offset, in microseconds. *)
Definition iso_offset (off : Z) : string :=
  let us := Z.abs off in
  (if off <? 0 then "-" else "+") +:+ zpad 2 (us / us_per_hour) +:+ ":" +:+ zpad 2 (us / us_per_minute mod 60)
  +:+ (if us mod us_per_minute =? 0 then ""
       else ":" +:+ zpad 2 (us / us_per_second mod 60)
            +:+ (if us mod us_per_second =? 0 then "" else "." +:+ zpad 6 (us mod us_per_second))).
Definition isoformat (d : datetime) : string :=
  match dt_offset d with
  | Some off => iso_local (dt_instant d + off) +:+ iso_offset off
  | None => iso_local (dt_instant d)
  end.

(** ** The calendar is correct *)

Definition valid_ymd (y m d : Z) : Prop :=
  1 <= m <= 12 /\ 1 <= d <= days_in_month (is_leap y) m.

(** Every property of the days of a year is checked on the 366 days. *)
Lemma Z_below_check (f : Z -> bool) (n : nat) :
  forallb f (map Z.of_nat (seq 0 n)) = true -> forall z, 0 <= z < Z.of_nat n -> f z = true.
Proof.
  intros H z Hz. rewrite forallb_forall in H. apply H.
  apply in_map_iff. exists (Z.to_nat z). split; [lia|]. apply in_seq. lia.
Qed.

Definition month_day_ok (leap : bool) (n : Z) : bool :=
  let '(m, d) := month_day leap n in
  (1 <=? m) && (m <=? 12) && (1 <=? d) && (d <=? days_in_month leap m) &&
  (days_before_month m + (if (m >? 2) && leap then 1 else 0) + d - 1 =? n).

Lemma month_day_spec (leap : bool) (n : Z) :
  0 <= n < 365 + (if leap then 1 else 0) -> month_day_ok leap n = true.
Proof.
  intros H. destruct leap.
  - apply (Z_below_check (month_day_ok true) 366); [vm_compute; reflexivity|lia].
  - apply (Z_below_check (month_day_ok false) 365); [vm_compute; reflexivity|lia].
Qed.

Definition day_of_year (leap : bool) (m d : Z) : Z :=
  days_before_month m + (if (m >? 2) && leap then 1 else 0) + d - 1.

Lemma month_day_inv (leap : bool) (n m d : Z) :
  0 <= n < 365 + (if leap then 1 else 0) -> month_day leap n = (m, d) ->
  1 <= m <= 12 /\ 1 <= d <= days_in_month leap m /\ day_of_year leap m d = n.
Proof.
  intros H E. apply month_day_spec in H. unfold month_day_ok in H. rewrite E in H.
  unfold day_of_year. bool_to_prop. lia.
Qed.

(** The number of multiples of [k] up to [y]. *)
Lemma div_step k y : 0 < k -> y / k = (y - 1) / k + (if y mod k =? 0 then 1 else 0).
Proof.
  intros Hk. pose proof (Z.div_mod y k) as E. pose proof (Z.mod_pos_bound y k) as B.
  destruct (Z.eqb_spec (y mod k) 0) as [H|H].
  - replace ((y - 1) / k) with (y / k - 1); [lia|].
    apply (Z.div_unique_pos _ _ _ (k - 1)); lia.
  - rewrite Z.add_0_r. apply (Z.div_unique_pos _ _ _ (y mod k - 1)); lia.
Qed.

Lemma mod_divides y : (y mod 400 = 0 -> y mod 100 = 0) /\ (y mod 100 = 0 -> y mod 4 = 0).
Proof. split; intros H; Z.to_euclidean_division_equations; lia. Qed.

Lemma days_before_next y : days_before_year (y + 1) = days_before_year y + 365 + (if is_leap y then 1 else 0).
Proof.
  unfold days_before_year, is_leap. cbv zeta. replace (y + 1 - 1) with y by lia.
  rewrite (div_step 4), (div_step 100), (div_step 400) by lia. pose proof (mod_divides y).
  destruct (Z.eqb_spec (y mod 4) 0), (Z.eqb_spec (y mod 100) 0), (Z.eqb_spec (y mod 400) 0);
    cbn [andb orb negb]; lia.
Qed.

Lemma ymd2ord_year y m d : valid_ymd y m d -> ymd2ord y m d = days_before_year y + day_of_year (is_leap y) m d + 1.
Proof. intros _. unfold ymd2ord, day_of_year. lia. Qed.

Definition doy_ok (leap : bool) (k : Z) : bool :=
  let m := k / 31 + 1 in let d := k mod 31 + 1 in
  negb (d <=? days_in_month leap m) ||
  let n := day_of_year leap m d in
  (0 <=? n) && (n <? 365 + (if leap then 1 else 0)) &&
  bool_decide (month_day leap n = (m, d)).

(** The day of the year is in range and determines the month and the day. *)
Lemma day_of_year_spec (leap : bool) (m d : Z) :
  1 <= m <= 12 -> 1 <= d <= days_in_month leap m ->
  0 <= day_of_year leap m d < 365 + (if leap then 1 else 0) /\ month_day leap (day_of_year leap m d) = (m, d).
Proof.
  intros Hm Hd.
  assert (Hd31 : d <= 31).
  { assert (E : (days_in_month leap m <=? 31) = true); [|lia].
    replace m with (m - 1 + 1) by lia.
    destruct leap; [apply (Z_below_check (fun k => days_in_month true (k + 1) <=? 31) 12)
                   |apply (Z_below_check (fun k => days_in_month false (k + 1) <=? 31) 12)];
      (vm_compute; reflexivity) || lia. }
  assert (Hk : doy_ok leap ((m - 1) * 31 + (d - 1)) = true).
  { destruct leap; [apply (Z_below_check (doy_ok true) 372)|apply (Z_below_check (doy_ok false) 372)];
      (vm_compute; reflexivity) || lia. }
  unfold doy_ok in Hk.
  assert (E1 : ((m - 1) * 31 + (d - 1)) / 31 = m - 1)
    by (symmetry; apply (Z.div_unique_pos _ _ _ (d - 1)); lia).
  assert (E2 : ((m - 1) * 31 + (d - 1)) mod 31 = d - 1)
    by (symmetry; apply (Z.mod_unique_pos _ _ (m - 1)); lia).
  rewrite E1, E2 in Hk. replace (m - 1 + 1) with m in Hk by lia. replace (d - 1 + 1) with d in Hk by lia.
  apply orb_true_iff in Hk as [Hk|Hk]; bool_to_prop; [lia|].
  split; [lia|done].
Qed.

Lemma days_before_mono y z : y <= z -> days_before_year y <= days_before_year z.
Proof.
  intros H. unfold days_before_year. cbv zeta.
  pose proof (Z.div_mod (y - 1) 4). pose proof (Z.mod_pos_bound (y - 1) 4).
  pose proof (Z.div_mod (z - 1) 4). pose proof (Z.mod_pos_bound (z - 1) 4).
  pose proof (Z.div_mod (y - 1) 100). pose proof (Z.mod_pos_bound (y - 1) 100).
  pose proof (Z.div_mod (z - 1) 100). pose proof (Z.mod_pos_bound (z - 1) 100).
  pose proof (Z.div_le_mono (y - 1) (z - 1) 400). lia.
Qed.

(** The day of the year [y] that is the day [n]. *)
Lemma ymd2ord_bounds y m d :
  valid_ymd y m d -> days_before_year y < ymd2ord y m d <= days_before_year (y + 1).
Proof.
  intros [Hm Hd]. rewrite ymd2ord_year, days_before_next by done.
  pose proof (day_of_year_spec _ _ _ Hm Hd). lia.
Qed.

Lemma ymd2ord_inj y m d y' m' d' :
  valid_ymd y m d -> valid_ymd y' m' d' -> ymd2ord y m d = ymd2ord y' m' d' ->
  y = y' /\ m = m' /\ d = d'.
Proof.
  intros H H' E. pose proof (ymd2ord_bounds _ _ _ H). pose proof (ymd2ord_bounds _ _ _ H').
  assert (y = y') as <-.
  { destruct (Z.lt_trichotomy y y') as [Hl|[Hl|Hl]]; [|done|].
    - pose proof (days_before_mono (y + 1) y'). lia.
    - pose proof (days_before_mono (y' + 1) y). lia. }
  rewrite !ymd2ord_year in E by done. destruct H as [Hm Hd], H' as [Hm' Hd'].
  destruct (day_of_year_spec _ _ _ Hm Hd) as [_ E1], (day_of_year_spec _ _ _ Hm' Hd') as [_ E2].
  assert (E3 : day_of_year (is_leap y) m d = day_of_year (is_leap y) m' d') by lia.
  rewrite E3 in E1. rewrite E1 in E2. injection E2 as <- <-. done.
Qed.

(** A date of the year [y]: its month and day come from the day of the year. *)
Lemma month_day_valid y n m d :
  0 <= n < 365 + (if is_leap y then 1 else 0) -> month_day (is_leap y) n = (m, d) ->
  valid_ymd y m d /\ ymd2ord y m d = days_before_year y + n + 1.
Proof.
  intros Hn E. destruct (month_day_inv _ _ _ _ Hn E) as (Hm & Hd & Ed).
  split; [done|]. rewrite ymd2ord_year, Ed by done. done.
Qed.

Lemma ord2ymd_spec n y m d :
  ord2ymd n = (y, m, d) -> valid_ymd y m d /\ ymd2ord y m d = n.
Proof.
  unfold ord2ymd. cbv zeta.
  set (a := (n - 1) / 146097). set (ra := (n - 1) mod 146097).
  set (b := ra / 36524). set (rb := ra mod 36524).
  set (c := rb / 1461). set (rc := rb mod 1461).
  set (e := rc / 365). set (re := rc mod 365).
  assert (Ha : n - 1 = 146097 * a + ra /\ 0 <= ra < 146097)
    by (unfold a, ra; split; [apply Z.div_mod; lia|apply Z.mod_pos_bound; lia]).
  assert (Hb : ra = 36524 * b + rb /\ 0 <= rb < 36524)
    by (unfold b, rb; split; [apply Z.div_mod; lia|apply Z.mod_pos_bound; lia]).
  assert (Hc : rb = 1461 * c + rc /\ 0 <= rc < 1461)
    by (unfold c, rc; split; [apply Z.div_mod; lia|apply Z.mod_pos_bound; lia]).
  assert (He : rc = 365 * e + re /\ 0 <= re < 365)
    by (unfold e, re; split; [apply Z.div_mod; lia|apply Z.mod_pos_bound; lia]).
  clearbody a ra b rb c rc e re.
  set (Y := a * 400 + 1 + b * 100 + c * 4 + e).
  assert (HY : days_before_year Y = 365 * (Y - 1) + (Y - 1) / 4 - (Y - 1) / 100 + (Y - 1) / 400)
    by (unfold days_before_year; lia).
  destruct (Z.eqb_spec e 4) as [He4|He4]; [|destruct (Z.eqb_spec b 4) as [Hb4|Hb4]]; cbn [orb].
  - intros [= <- <- <-]. subst e.
    assert (Hl : is_leap (Y - 1) = true).
    { unfold is_leap, Y. apply andb_true_iff. split; [apply Z.eqb_eq; Z.to_euclidean_division_equations; lia|].
      apply orb_true_iff. destruct (Z.eq_dec c 24) as [->|]; [lia|].
      left. apply negb_true_iff, Z.eqb_neq. Z.to_euclidean_division_equations; lia. }
    split; [split; [lia|unfold days_in_month; simpl; lia]|].
    rewrite ymd2ord_year by (split; [lia|unfold days_in_month; simpl; lia]). rewrite Hl.
    change (day_of_year true 12 31) with 365.
    replace (days_before_year (Y - 1)) with (n - 1 - 365); [lia|].
    unfold days_before_year, Y. Z.to_euclidean_division_equations; lia.
  - intros [= <- <- <-]. subst b. assert (c = 0 /\ e = 0 /\ re = 0) as (-> & -> & ->) by lia.
    assert (Hl : is_leap (Y - 1) = true).
    { unfold is_leap, Y. apply andb_true_iff. split; [apply Z.eqb_eq; Z.to_euclidean_division_equations; lia|].
      apply orb_true_iff. right. apply Z.eqb_eq. Z.to_euclidean_division_equations; lia. }
    split; [split; [lia|unfold days_in_month; simpl; lia]|].
    rewrite ymd2ord_year by (split; [lia|unfold days_in_month; simpl; lia]). rewrite Hl.
    change (day_of_year true 12 31) with 365.
    replace (days_before_year (Y - 1)) with (n - 1 - 365); [lia|].
    unfold days_before_year, Y. Z.to_euclidean_division_equations; lia.
  - assert (Hl : is_leap Y = (e =? 3) && (negb (c =? 24) || (b =? 3))).
    { unfold is_leap, Y.
      replace ((a * 400 + 1 + b * 100 + c * 4 + e) mod 4 =? 0) with (e =? 3)
        by (destruct (Z.eqb_spec e 3); symmetry; (apply Z.eqb_eq || apply Z.eqb_neq);
            Z.to_euclidean_division_equations; lia).
      destruct (Z.eqb_spec e 3) as [->|]; [|done]. cbn [andb].
      destruct (Z.eqb_spec c 24) as [->|]; cbn [negb orb].
      - replace ((a * 400 + 1 + b * 100 + 24 * 4 + 3) mod 100 =? 0) with true
          by (symmetry; apply Z.eqb_eq; Z.to_euclidean_division_equations; lia).
        cbn [negb orb]. destruct (Z.eqb_spec b 3); (apply Z.eqb_eq || apply Z.eqb_neq);
          Z.to_euclidean_division_equations; lia.
      - apply orb_true_iff. left. apply negb_true_iff, Z.eqb_neq.
        Z.to_euclidean_division_equations; lia. }
    rewrite <- Hl. destruct (month_day (is_leap Y) re) as [m' d'] eqn:E. intros [= <- <- <-].
    apply month_day_valid in E; [|destruct (is_leap Y); lia]. destruct E as [Hv E]. split; [done|]. rewrite E, HY.
    unfold Y. Z.to_euclidean_division_equations; lia.
Qed.
