(* ===== verification/Periods.v ===== *)
(** * Budget periods (admin_api/api/permissions.py, mintkey_models/schemas.py)

    The UTC-aligned periods a budget counter is kept for, and the validated
    budget configuration of a permission grant. *)

From S2P Require Import Prelude PyStr PyJson PyTime.

Local Open Scope string_scope.
Local Open Scope Z_scope.

(** ** Datetime arithmetic *)

(** [datetime.max] plus one microsecond. *)
Definition max_instant : Z := midnight 10000 1 1.

(** [t + timedelta(microseconds=delta)] *)
Definition add_timedelta (t delta : Z) : outcome Z :=
  let r := t + delta in
  if (0 <=? r) && (r <? max_instant) then Ok r else Raise (OverflowError "date value out of range").

(** [t.replace(hour=0, minute=0, second=0, microsecond=0)] *)
Definition replace_midnight (t : Z) : Z := let '(y, m, d) := ymd t in midnight y m d.
(** [t.replace(minute=0, second=0, microsecond=0)] *)
Definition replace_hour (t : Z) : Z := replace_midnight t + t mod us_per_day / us_per_hour * us_per_hour.
(** [t.replace(day=1, hour=0, minute=0, second=0, microsecond=0)] *)
Definition replace_first (t : Z) : Z := let '(y, m, _) := ymd t in midnight y m 1.

Definition _budget_period_bounds (period : string) (now : Z) : outcome (Z * Z) :=
  if String.eqb period "hourly" then
    let start := replace_hour now in
    end_ ← add_timedelta start us_per_hour; Ok (start, end_)
  else if String.eqb period "daily" then
    let start := replace_midnight now in
    end_ ← add_timedelta start us_per_day; Ok (start, end_)
  else if String.eqb period "weekly" then
    let days_since_monday := weekday now in
    monday ← add_timedelta now (- (days_since_monday * us_per_day));
    let start := replace_midnight monday in
    end_ ← add_timedelta start (7 * us_per_day); Ok (start, end_)
  else if String.eqb period "monthly" then
    let start := replace_first now in
    let '(year, month, _) := ymd now in
    end_ ← add_timedelta start (days_in_month (is_leap year) month * us_per_day); Ok (start, end_)
  else Raise (ValueError ("Unknown budget period: " +:+ period)).

(** ** Lemmas on the truncations *)

Lemma replace_midnight_div t : replace_midnight t = t / us_per_day * us_per_day.
Proof.
  unfold replace_midnight, ymd. destruct (ord2ymd (ordinal t)) as [[y m] d] eqn:Eo.
  apply ord2ymd_spec in Eo as [_ E]. unfold midnight. rewrite E. unfold ordinal. lia.
Qed.

Lemma replace_hour_div t : replace_hour t = t / us_per_hour * us_per_hour.
Proof.
  unfold replace_hour. rewrite replace_midnight_div.
  unfold us_per_day, us_per_hour, us_per_minute, us_per_second. Z.to_euclidean_division_equations. lia.
Qed.

(** A truncation to multiples of [k] is constant on the interval it starts. *)
Lemma div_block k t u : 0 < k -> t / k * k <= u < t / k * k + k -> u / k = t / k.
Proof. intros Hk H. symmetry. apply (Z.div_unique _ _ _ (u - t / k * k)); lia. Qed.

Lemma div_block_self k t : 0 < k -> t / k * k <= t < t / k * k + k.
Proof. intros Hk. pose proof (Z.div_mod t k ltac:(lia)). pose proof (Z.mod_pos_bound t k Hk). lia. Qed.

(** The Monday of a week, in microseconds. *)
Definition week_start (t : Z) : Z := (t / us_per_day - weekday t) * us_per_day.

Lemma us_per_day_pos : 0 < us_per_day.
Proof. done. Qed.
Lemma us_per_hour_pos : 0 < us_per_hour.
Proof. done. Qed.
#[local] Opaque us_per_day us_per_hour.

Lemma monday_start t : replace_midnight (t + - (weekday t * us_per_day)) = week_start t.
Proof.
  rewrite replace_midnight_div. unfold week_start. f_equal.
  replace (t + - (weekday t * us_per_day)) with (t + (- weekday t) * us_per_day) by lia.
  pose proof us_per_day_pos. rewrite Z.div_add by lia. lia.
Qed.

Lemma week_start_div t : week_start t = t / (7 * us_per_day) * (7 * us_per_day).
Proof.
  pose proof us_per_day_pos. unfold week_start, weekday, ordinal.
  replace (t / us_per_day + 1 + 6) with (t / us_per_day + 1 * 7) by lia. rewrite Z.mod_add by lia.
  rewrite (Z.mul_comm 7 us_per_day), <- Z.div_div by lia.
  pose proof (Z.div_mod (t / us_per_day) 7 ltac:(lia)). lia.
Qed.

Lemma ymd_month t y m d u :
  ymd t = (y, m, d) ->
  midnight y m 1 <= u < midnight y m 1 + days_in_month (is_leap y) m * us_per_day ->
  exists d', ymd u = (y, m, d').
Proof.
  intros E Hu. apply ord2ymd_spec in E as [[Hm Hd] _]. pose proof us_per_day_pos.
  set (d' := ordinal u - ymd2ord y m 1 + 1). exists d'.
  unfold midnight in Hu. unfold ymd. destruct (ord2ymd (ordinal u)) as [[y2 m2] d2] eqn:Eu.
  apply ord2ymd_spec in Eu as [Hv2 E2].
  assert (Hd' : 1 <= d' <= days_in_month (is_leap y) m).
  { unfold d', ordinal. pose proof (div_block_self us_per_day u us_per_day_pos). nia. }
  assert (Hv : valid_ymd y m d') by done.
  destruct (ymd2ord_inj y m d' y2 m2 d2) as (-> & -> & ->); [done|done| |done].
  rewrite E2. unfold d', ymd2ord. lia.
Qed.

Lemma ymd_month_self t y m d :
  ymd t = (y, m, d) -> midnight y m 1 <= t < midnight y m 1 + days_in_month (is_leap y) m * us_per_day.
Proof.
  intros E. apply ord2ymd_spec in E as [[Hm Hd] E]. pose proof us_per_day_pos.
  pose proof (div_block_self us_per_day t us_per_day_pos). unfold midnight. unfold ordinal in E.
  replace (ymd2ord y m 1) with (ymd2ord y m d - d + 1) by (unfold ymd2ord; lia). rewrite E. nia.
Qed.

(** ** The periods *)

Definition budget_periods : list string := ["hourly"; "daily"; "weekly"; "monthly"].

(** The interval of a period, without the range check. *)
Definition period_of (period : string) (now : Z) : Z * Z :=
  if String.eqb period "hourly" then (now / us_per_hour * us_per_hour, now / us_per_hour * us_per_hour + us_per_hour)
  else if String.eqb period "daily" then (now / us_per_day * us_per_day, now / us_per_day * us_per_day + us_per_day)
  else if String.eqb period "weekly" then (week_start now, week_start now + 7 * us_per_day)
  else let '(y, m, _) := ymd now in
       (midnight y m 1, midnight y m 1 + days_in_month (is_leap y) m * us_per_day).

Lemma add_timedelta_Ok t delta r :
  add_timedelta t delta = Ok r <-> r = t + delta /\ 0 <= t + delta < max_instant.
Proof.
  unfold add_timedelta. destruct (Z.leb_spec 0 (t + delta)), (Z.ltb_spec (t + delta) max_instant); cbn [andb];
    (split; [intros [= <-]; lia|intros [-> ?]; by first [reflexivity|lia]]).
Qed.

Lemma bounds_Ok p now s e :
  _budget_period_bounds p now = Ok (s, e) <->
  In p budget_periods /\ period_of p now = (s, e) /\ 0 <= e < max_instant /\
  (p = "weekly" -> 0 <= now - weekday now * us_per_day < max_instant).
Proof.
  unfold _budget_period_bounds, period_of, budget_periods. cbn [In].
  destruct (String.eqb_spec p "hourly") as [->|H1]; [|destruct (String.eqb_spec p "daily") as [->|H2];
    [|destruct (String.eqb_spec p "weekly") as [->|H3]; [|destruct (String.eqb_spec p "monthly") as [->|H4]]]].
  - rewrite replace_hour_div. set (a := now / us_per_hour * us_per_hour).
    destruct (add_timedelta a us_per_hour) as [r|x] eqn:Er; cbn [mbind outcome_bind].
    + apply add_timedelta_Ok in Er as [-> Hr]. split; [intros [= <- <-]; intuition discriminate|].
      by intros (_ & [= <- <-] & _).
    + split; [discriminate|]. intros (_ & [= <- <-] & Hr & _).
      pose proof (proj2 (add_timedelta_Ok a us_per_hour _) (conj eq_refl Hr)) as C. congruence.
  - rewrite replace_midnight_div. set (a := now / us_per_day * us_per_day).
    destruct (add_timedelta a us_per_day) as [r|x] eqn:Er; cbn [mbind outcome_bind].
    + apply add_timedelta_Ok in Er as [-> Hr]. split; [intros [= <- <-]; intuition discriminate|].
      by intros (_ & [= <- <-] & _).
    + split; [discriminate|]. intros (_ & [= <- <-] & Hr & _).
      pose proof (proj2 (add_timedelta_Ok a us_per_day _) (conj eq_refl Hr)) as C. congruence.
  - destruct (add_timedelta now (- (weekday now * us_per_day))) as [mon|x] eqn:Em; cbn [mbind outcome_bind].
    + apply add_timedelta_Ok in Em as [-> Hm]. rewrite monday_start.
      destruct (add_timedelta (week_start now) (7 * us_per_day)) as [r|x] eqn:Er; cbn [mbind outcome_bind].
      * apply add_timedelta_Ok in Er as [-> Hr]. split; [intros [= <- <-]; intuition lia|].
        by intros (_ & [= <- <-] & _).
      * split; [discriminate|]. intros (_ & [= <- <-] & Hr & _).
        pose proof (proj2 (add_timedelta_Ok (week_start now) (7 * us_per_day) _) (conj eq_refl Hr)) as C. congruence.
    + split; [discriminate|]. intros (_ & _ & _ & Hm). specialize (Hm eq_refl).
      pose proof (proj2 (add_timedelta_Ok now (- (weekday now * us_per_day)) _) (conj eq_refl Hm)) as C. congruence.
  - unfold replace_first. destruct (ymd now) as [[y m] d]. set (k := days_in_month _ _ * _).
    destruct (add_timedelta (midnight y m 1) k) as [r|x] eqn:Er; cbn [mbind outcome_bind].
    + apply add_timedelta_Ok in Er as [-> Hr]. split; [intros [= <- <-]; intuition discriminate|].
      by intros (_ & [= <- <-] & _).
    + split; [discriminate|]. intros (_ & [= <- <-] & Hr & _).
      pose proof (proj2 (add_timedelta_Ok (midnight y m 1) k _) (conj eq_refl Hr)) as C. congruence.
  - split; [discriminate|]. intros (Hin & _). exfalso. intuition congruence.
Qed.

(** A period contains the instant, and is the period of each of its instants. *)
Lemma period_of_block p now s e : period_of p now = (s, e) ->
  s <= now < e /\ forall u, s <= u < e -> period_of p u = (s, e).
Proof.
  pose proof us_per_day_pos. pose proof us_per_hour_pos. unfold period_of. destruct (String.eqb p "hourly").
  { intros [= <- <-]. split; [by apply div_block_self|]. intros u Hu. by rewrite (div_block us_per_hour now u). }
  destruct (String.eqb p "daily").
  { intros [= <- <-]. split; [by apply div_block_self|]. intros u Hu. by rewrite (div_block us_per_day now u). }
  destruct (String.eqb p "weekly").
  { rewrite week_start_div. intros [= <- <-]. split; [apply div_block_self; lia|]. intros u Hu.
    rewrite week_start_div. rewrite (div_block (7 * us_per_day) now u); [done|lia|done]. }
  destruct (ymd now) as [[y m] d] eqn:Ey. intros [= <- <-]. split; [by eapply ymd_month_self|].
  intros u Hu. destruct (ymd_month _ _ _ _ _ Ey Hu) as [d' ->]. done.
Qed.

Lemma week_start_le t : week_start t <= t - weekday t * us_per_day <= t.
Proof.
  pose proof us_per_day_pos. unfold week_start. pose proof (div_block_self us_per_day t us_per_day_pos).
  assert (0 <= weekday t) by (unfold weekday; apply Z.mod_pos_bound; lia). nia.
Qed.

Lemma bounds_block p now s e : _budget_period_bounds p now = Ok (s, e) ->
  s <= now < e /\ forall u, s <= u < e -> _budget_period_bounds p u = Ok (s, e).
Proof.
  intros H. apply bounds_Ok in H as (Hp & Hs & He & Hw).
  destruct (period_of_block _ _ _ _ Hs) as [Hnow Hu]. split; [done|].
  intros u Hin. apply bounds_Ok. split; [done|]. split; [by apply Hu|]. split; [done|].
  intros ->. specialize (Hw eq_refl). specialize (Hu u Hin). unfold period_of in Hs, Hu. cbn in Hs, Hu.
  injection Hs as Hs _. injection Hu as Hu _. pose proof (week_start_le u). split; [|lia].
  assert (0 <= s); [|lia]. rewrite <- Hs, <- monday_start, replace_midnight_div.
  pose proof us_per_day_pos. apply Z.mul_nonneg_nonneg; [|lia]. apply Z.div_pos; lia.
Qed.

Lemma days_in_month_le leap m : 1 <= m <= 12 -> days_in_month leap m <= 31.
Proof.
  intros H. assert (m ∈ [1;2;3;4;5;6;7;8;9;10;11;12]) as Hm by (rewrite !elem_of_cons; lia).
  repeat (apply elem_of_cons in Hm as [->|Hm]; [by destruct leap|]). by apply elem_of_nil in Hm.
Qed.

Lemma bounds_total p now : In p budget_periods -> 0 <= now < max_instant - 31 * us_per_day ->
  exists s e, _budget_period_bounds p now = Ok (s, e).
Proof.
  intros Hp Hn. destruct (period_of p now) as [s e] eqn:Eb. exists s, e. apply bounds_Ok.
  destruct (period_of_block _ _ _ _ Eb) as [Hnow _].
  pose proof us_per_day_pos. pose proof us_per_hour_pos. split; [done|]. split; [done|]. split.
  - assert (e <= s + 31 * us_per_day); [|lia].
    assert (us_per_hour <= us_per_day) by done.
    unfold period_of in Eb. repeat (destruct (String.eqb _ _); [injection Eb as <- <-; lia|]).
    destruct (ymd now) as [[y m] d] eqn:Ey. apply ord2ymd_spec in Ey as [[Hm _] _]. injection Eb as <- <-.
    assert (days_in_month (is_leap y) m <= 31); [|nia]. by apply days_in_month_le.
  - intros ->. pose proof (week_start_le now). split; [|lia].
    assert (0 <= week_start now); [|lia]. rewrite week_start_div. apply Z.mul_nonneg_nonneg; [|lia].
    apply Z.div_pos; lia.
Qed.

(** Up to a month before the end of the calendar every period has bounds; they contain the
    instant, are the bounds computed at every other instant between them, so that all requests of
    a period use the same counter row, and the next period starts where they end. *)
Theorem period_bounds_tile p now :
  In p budget_periods -> 0 <= now < max_instant - 31 * us_per_day ->
  exists s e, _budget_period_bounds p now = Ok (s, e) /\ s <= now < e /\
    (forall u, s <= u < e -> _budget_period_bounds p u = Ok (s, e)) /\
    (forall s' e', _budget_period_bounds p e = Ok (s', e') -> s' = e).
Proof.
  intros Hp Hn. destruct (bounds_total p now Hp Hn) as (s & e & H). exists s, e.
  destruct (bounds_block _ _ _ _ H) as [Hnow Hu]. do 3 (split; [done|]). intros s' e' H'.
  destruct (bounds_block _ _ _ _ H') as [Hnow' Hu']. destruct (Z.eq_dec s' e) as [|Hne]; [done|].
  pose proof (Hu (Z.max s s') ltac:(lia)) as E1.
  destruct (bounds_block _ _ _ _ H') as [_ Hu2]. rewrite (Hu2 (Z.max s s')) in E1 by lia.
  injection E1 as -> ->. lia.
Qed.

Lemma period_bounds_tile_witness :
  In "monthly" budget_periods /\ 0 <= 63835596800000000 < max_instant - 31 * us_per_day /\
  exists s e, _budget_period_bounds "monthly" 63835596800000000 = Ok (s, e) /\ s <= 63835596800000000 < e /\
    (forall u, s <= u < e -> _budget_period_bounds "monthly" u = Ok (s, e)) /\
    (forall s' e', _budget_period_bounds "monthly" e = Ok (s', e') -> s' = e).
Proof.
  assert (H1 : In "monthly" budget_periods) by (unfold budget_periods; simpl; auto).
  assert (H2 : 0 <= 63835596800000000 < max_instant - 31 * us_per_day) by (split; [lia|vm_compute; reflexivity]).
  split; [exact H1|]. split; [exact H2|]. exact (period_bounds_tile "monthly" _ H1 H2).
Defined.

(** ** The budget configuration of a grant *)

Record BudgetConfig := MkBudgetConfig {
  bc_ceiling : Z; bc_period : string; bc_alert_thresholds : list Z }.

(** [sorted(set(v))] *)
Fixpoint insert_unique (x : Z) (l : list Z) : list Z :=
  match l with
  | [] => [x]
  | y :: l' => if x <? y then x :: l else if x =? y then l else y :: insert_unique x l'
  end.
Definition sorted_set (v : list Z) : list Z := fold_right insert_unique [] v.

Definition thresholds_valid (v : list Z) : outcome (list Z) :=
  if existsb (fun t => (t <? 1) || (100 <? t)) v then
    Raise (ValueError "Each alert_threshold must be between 1 and 100")
  else Ok (sorted_set v).

Definition default_thresholds : list Z := [50; 80; 100].

(** The validation of the fields; a defaulted field is not validated. *)
Definition make_BudgetConfig (ceiling : Z) (period : string) (alert_thresholds : option (list Z)) : outcome BudgetConfig :=
  if ceiling <? 1 then Raise (ValueError "Input should be greater than or equal to 1")
  else if negb (existsb (String.eqb period) budget_periods) then
    Raise (ValueError "Input should be 'hourly', 'daily', 'weekly' or 'monthly'")
  else
    ts ← match alert_thresholds with
         | Some v => thresholds_valid v
         | None => Ok default_thresholds
         end;
    Ok (MkBudgetConfig ceiling period ts).

(** [model_dump()] *)
Definition budget_dump (b : BudgetConfig) : json :=
  JObj [("ceiling", JInt (bc_ceiling b)); ("period", JStr (bc_period b));
        ("alert_thresholds", JArr (map JInt (bc_alert_thresholds b)))].

Lemma insert_unique_In x y l : In y (insert_unique x l) <-> y = x \/ In y l.
Proof.
  induction l as [|a l IH]; simpl; [intuition|].
  destruct (Z.ltb_spec x a); [simpl; intuition|]. destruct (Z.eqb_spec x a) as [->|]; simpl; [|rewrite IH]; intuition.
Qed.

Lemma insert_unique_sorted x l : StronglySorted Z.lt l -> StronglySorted Z.lt (insert_unique x l).
Proof.
  induction 1 as [|a l Hs IH Ha]; simpl; [by repeat constructor|].
  destruct (Z.ltb_spec x a); [|destruct (Z.eqb_spec x a) as [->|]; [by constructor|]].
  - constructor; [by constructor|]. constructor; [done|]. eapply List.Forall_impl; [|exact Ha]. simpl. lia.
  - constructor; [done|]. apply List.Forall_forall. intros y. rewrite insert_unique_In. rewrite List.Forall_forall in Ha.
    intros [->|Hy]; [lia|]. by apply Ha.
Qed.

Lemma sorted_set_In y v : In y (sorted_set v) <-> In y v.
Proof. induction v as [|a v IH]; simpl; [done|]. rewrite insert_unique_In, IH. intuition congruence. Qed.

Lemma sorted_set_sorted v : StronglySorted Z.lt (sorted_set v).
Proof. induction v as [|a v IH]; simpl; [constructor|]. by apply insert_unique_sorted. Qed.

Lemma sorted_set_id v : StronglySorted Z.lt v -> sorted_set v = v.
Proof.
  induction 1 as [|a l Hs IH Ha]; simpl; [done|]. rewrite IH. destruct l as [|b l]; simpl; [done|].
  apply List.Forall_inv in Ha. by destruct (Z.ltb_spec a b); [|lia].
Qed.

Definition threshold_ok (t : Z) : Prop := 1 <= t <= 100.

Lemma thresholds_valid_Ok v ts :
  thresholds_valid v = Ok ts <-> Forall threshold_ok v /\ ts = sorted_set v.
Proof.
  unfold thresholds_valid. destruct (existsb _ v) eqn:Ex.
  - split; [done|]. intros [Hv _]. apply existsb_exists in Ex as (x & Hx & Eb).
    rewrite Forall_forall in Hv. apply list_elem_of_In in Hx. apply Hv in Hx. unfold threshold_ok in Hx.
    apply orb_true_iff in Eb as [Eb|Eb]; bool_to_prop; lia.
  - split; [intros [= <-]; split; [|done]|by intros [_ ->]]. apply Forall_forall. intros x Hx.
    apply list_elem_of_In in Hx.
    rewrite <- not_true_iff_false, existsb_exists in Ex. unfold threshold_ok.
    destruct (decide (1 <= x <= 100)) as [|Hn]; [done|]. destruct Ex. exists x. split; [done|].
    apply orb_true_iff. rewrite !Z.ltb_lt. lia.
Qed.

(** The values of the type. *)
Record budget_ok (b : BudgetConfig) : Prop := {
  bo_ceiling : 1 <= bc_ceiling b;
  bo_period : In (bc_period b) budget_periods;
  bo_sorted : StronglySorted Z.lt (bc_alert_thresholds b);
  bo_thresholds : Forall threshold_ok (bc_alert_thresholds b) }.

(** A budget configuration is accepted exactly when its ceiling is positive, its period is one
    of the four and its thresholds are percentages; an accepted one has its thresholds sorted
    without duplicates, and validating it again changes nothing. *)
Theorem budget_config_valid ceiling period ts b :
  (make_BudgetConfig ceiling period ts = Ok b <->
     1 <= ceiling /\ In period budget_periods /\
     (forall v, ts = Some v -> Forall threshold_ok v) /\
     b = MkBudgetConfig ceiling period (match ts with Some v => sorted_set v | None => default_thresholds end)) /\
  (make_BudgetConfig ceiling period ts = Ok b ->
     budget_ok b /\
     make_BudgetConfig (bc_ceiling b) (bc_period b) (Some (bc_alert_thresholds b)) = Ok b /\
     (forall v, ts = Some v -> forall t, In t (bc_alert_thresholds b) <-> In t v)).
Proof.
  assert (Hin : existsb (String.eqb period) budget_periods = true <-> In period budget_periods).
  { rewrite existsb_exists. split; [intros (x & Hx & E); apply String.eqb_eq in E; by subst|].
    intros Hx. exists period. by rewrite String.eqb_refl. }
  assert (Hiff : make_BudgetConfig ceiling period ts = Ok b <->
     1 <= ceiling /\ In period budget_periods /\ (forall v, ts = Some v -> Forall threshold_ok v) /\
     b = MkBudgetConfig ceiling period (match ts with Some v => sorted_set v | None => default_thresholds end)).
  { unfold make_BudgetConfig. destruct (Z.ltb_spec ceiling 1); [split; [done|lia]|].
    destruct (existsb _ _); cbn [negb]; [|split; [done|intros (_ & Hp & _); by apply Hin in Hp]].
    destruct ts as [v|]; cbn [mbind outcome_bind].
    - destruct (thresholds_valid v) as [r|e] eqn:Ev; cbn [mbind outcome_bind].
      + apply thresholds_valid_Ok in Ev as [Hv ->]. split; [intros [= <-]|intros (_ & _ & _ & ->); done].
        split; [done|]. split; [by apply Hin|]. split; [|done]. by intros v' [= <-].
      + split; [done|]. intros (_ & _ & Hv & _). specialize (Hv v eq_refl).
        pose proof (proj2 (thresholds_valid_Ok v _) (conj Hv eq_refl)). congruence.
    - split; [intros [= <-]; split; [done|]; split; [by apply Hin|done]|by intros (_ & _ & _ & ->)]. }
  split; [exact Hiff|]. intros H. apply Hiff in H as (Hc & Hp & Hv & ->).
  set (l := match ts with Some v => sorted_set v | None => default_thresholds end).
  assert (Hl : StronglySorted Z.lt l /\ Forall threshold_ok l).
  { unfold l. destruct ts as [v|].
    - split; [apply sorted_set_sorted|]. specialize (Hv v eq_refl). rewrite Forall_forall in Hv |- *.
      intros x Hx. apply Hv, list_elem_of_In, sorted_set_In. by apply list_elem_of_In.
    - split; [repeat constructor|]. repeat constructor; done. }
  destruct Hl as [Hs Ht]. split; [by split|]. split.
  - unfold make_BudgetConfig. cbn [bc_ceiling bc_period bc_alert_thresholds].
    destruct (Z.ltb_spec ceiling 1); [lia|]. rewrite (proj2 Hin Hp). cbn [negb].
    rewrite (proj2 (thresholds_valid_Ok l _) (conj Ht eq_refl)), sorted_set_id by done. done.
  - intros v -> y. apply sorted_set_In.
Qed.

Lemma budget_config_valid_witness :
  make_BudgetConfig 100 "daily" (Some [80; 50; 80]) = Ok (MkBudgetConfig 100 "daily" [50; 80]) /\
  budget_ok (MkBudgetConfig 100 "daily" [50; 80]).
Proof.
  assert (H : make_BudgetConfig 100 "daily" (Some [80; 50; 80]) = Ok (MkBudgetConfig 100 "daily" [50; 80]))
    by reflexivity.
  split; [exact H|]. exact (proj1 (proj2 (budget_config_valid _ _ _ _) H)).
Defined.
