(* ===== verification/PyFloat.v ===== *)
(** * Python floats

    A finite float is a rational; an operation returns the exact result
    rounded to binary64 (53 bits, ties to even).  The exponent is not
    bounded below, so the model has no subnormal numbers, and a result of
    2^1024 or more is an [OverflowError]. *)

From Stdlib Require Import QArith Qround Qpower Lqa.
From S2P Require Import Prelude.

Local Open Scope Q_scope.

Definition pow2 (k : Z) : Q := Qpower 2 k.

(** [floor(log2 x)] of a positive rational *)
Definition ilog2 (x : Q) : Z :=
  let k := (Z.log2 (Qnum x) - Z.log2 (Zpos (Qden x)))%Z in
  if Qle_bool (pow2 k) x then k else (k - 1)%Z.

(** To the nearest integer, ties to even. *)
Definition rne (q : Q) : Z :=
  let f := Qfloor q in
  match Qcompare (q - inject_Z f) (1 # 2) with
  | Lt => f
  | Gt => (f + 1)%Z
  | Eq => if Z.even f then f else (f + 1)%Z
  end.

(** 53 bits *)
Definition round_pos (x : Q) : Q :=
  let u := pow2 (ilog2 x - 52) in inject_Z (rne (x / u)) * u.

Definition rnd (x : Q) : Q :=
  Qred match Qcompare x 0 with
       | Eq => 0
       | Gt => round_pos x
       | Lt => - round_pos (- x)
       end.

Definition as_float (x : Q) : outcome Q :=
  if Qle_bool (pow2 1024) (rnd x) then Raise (OverflowError "int too large to convert to float") else Ok (rnd x).

(** [a / b] of two ints with [b <> 0], [float(a)], [x - y] *)
Definition int_truediv (a b : Z) : outcome Q := as_float (inject_Z a / inject_Z b).
Definition float_of_int (a : Z) : outcome Q := as_float (inject_Z a).
Definition float_sub (x y : Q) : Q := rnd (x - y).

(** ** Rounding is monotone *)

Lemma pow2_pos k : 0 < pow2 k.
Proof. apply Qpower_0_lt. reflexivity. Qed.

Lemma pow2_plus a b : pow2 (a + b) == pow2 a * pow2 b.
Proof. apply Qpower_plus. discriminate. Qed.

Lemma pow2_le a b : (a <= b)%Z -> pow2 a <= pow2 b.
Proof. intros H. apply Qpower_le_compat_l; [done|]. discriminate. Qed.

Lemma pow2_Z k : (0 <= k)%Z -> pow2 k == inject_Z (2 ^ k).
Proof. intros H. unfold pow2. symmetry. by apply (Zpower_Qpower 2). Qed.

Lemma pow2_sub a b : pow2 (a - b) == pow2 a / pow2 b.
Proof. unfold Z.sub. rewrite pow2_plus. unfold pow2. by rewrite Qpower_opp. Qed.

Lemma log2_bounds n : (0 < n)%Z -> pow2 (Z.log2 n) <= inject_Z n /\ inject_Z n < pow2 (Z.log2 n + 1).
Proof.
  intros H. pose proof (Z.log2_spec n H) as [H1 H2]. pose proof (Z.log2_nonneg n).
  rewrite !pow2_Z by lia. split; [by rewrite <- Zle_Qle|by rewrite <- Zlt_Qlt].
Qed.

Lemma ilog2_spec x : 0 < x -> pow2 (ilog2 x) <= x /\ x < pow2 (ilog2 x + 1).
Proof.
  intros Hx. destruct x as [n d]. assert (Hn : (0 < n)%Z) by (unfold Qlt in Hx; simpl in Hx; lia).
  unfold ilog2. cbn [Qnum Qden]. set (k := (Z.log2 n - Z.log2 (Zpos d))%Z).
  pose proof (log2_bounds n Hn) as [N1 N2]. pose proof (log2_bounds (Zpos d) ltac:(lia)) as [D1 D2].
  assert (E : n # d == inject_Z n / inject_Z (Zpos d)) by (rewrite Qmake_Qdiv; reflexivity).
  assert (Hd : 0 < inject_Z (Zpos d)) by (change 0 with (inject_Z 0); rewrite <- Zlt_Qlt; lia).
  assert (U : n # d < pow2 (k + 1)).
  { rewrite E. apply Qlt_shift_div_r; [done|]. eapply Qlt_le_trans; [exact N2|].
    replace (Z.log2 n + 1)%Z with (k + 1 + Z.log2 (Zpos d))%Z by lia. rewrite pow2_plus.
    apply Qmult_le_l; [apply pow2_pos|done]. }
  assert (L : pow2 (k - 1) <= n # d).
  { rewrite E. apply Qle_shift_div_l; [done|]. eapply Qle_trans; [|exact N1].
    replace (Z.log2 n) with (k - 1 + (Z.log2 (Zpos d) + 1))%Z by lia. rewrite pow2_plus.
    apply Qmult_le_l; [apply pow2_pos|]. by apply Qlt_le_weak. }
  destruct (Qle_bool _ _) eqn:Eb; [apply Qle_bool_iff in Eb; by split|].
  split; [done|]. replace (k - 1 + 1)%Z with k by lia. apply Qnot_le_lt. intros C.
  apply Qle_bool_iff in C. congruence.
Qed.

Lemma rne_bounds q : (Qfloor q <= rne q <= Qfloor q + 1)%Z.
Proof. unfold rne. destruct (Qcompare _ _); [destruct (Z.even _)|..]; lia. Qed.

Lemma rne_mono p q : p <= q -> (rne p <= rne q)%Z.
Proof.
  intros H. pose proof (rne_bounds p). pose proof (rne_bounds q). pose proof (Qfloor_resp_le p q H).
  destruct (Z.eq_dec (Qfloor p) (Qfloor q)) as [E|]; [|lia]. unfold rne. rewrite <- E.
  set (f := Qfloor p).
  destruct (Qcompare_spec (p - inject_Z f) (1 # 2)), (Qcompare_spec (q - inject_Z f) (1 # 2));
    repeat match goal with |- context [if ?b then _ else _] => destruct b end; try lia; exfalso; lra.
Qed.

Lemma rne_Z z : rne (inject_Z z) = z.
Proof.
  unfold rne. rewrite Qfloor_Z. destruct (Qcompare_spec (inject_Z z - inject_Z z) (1 # 2)); [exfalso; lra|done|exfalso; lra].
Qed.

#[local] Opaque pow2.

Lemma round_pos_bounds x : 0 < x -> pow2 (ilog2 x) <= round_pos x /\ round_pos x <= pow2 (ilog2 x + 1).
Proof.
  intros Hx. destruct (ilog2_spec x Hx) as [L U]. unfold round_pos. set (k := ilog2 x) in *.
  set (u := pow2 (k - 52)). assert (Hu : 0 < u) by apply pow2_pos.
  assert (L2 : pow2 k == inject_Z (2 ^ 52) * u).
  { unfold u. rewrite <- pow2_Z, <- pow2_plus by lia. by replace (52 + (k - 52))%Z with k by lia. }
  assert (U2 : pow2 (k + 1) == inject_Z (2 ^ 53) * u).
  { unfold u. rewrite <- pow2_Z, <- pow2_plus by lia. by replace (53 + (k - 52))%Z with (k + 1)%Z by lia. }
  rewrite L2, U2 in *. split.
  - apply Qmult_le_compat_r; [|by apply Qlt_le_weak]. rewrite <- Zle_Qle. rewrite <- (rne_Z (2 ^ 52)).
    apply rne_mono. by apply Qle_shift_div_l.
  - apply Qmult_le_compat_r; [|by apply Qlt_le_weak]. rewrite <- Zle_Qle. rewrite <- (rne_Z (2 ^ 53)).
    apply rne_mono. apply Qlt_le_weak. by apply Qlt_shift_div_r.
Qed.

Lemma ilog2_mono x y : 0 < x -> x <= y -> (ilog2 x <= ilog2 y)%Z.
Proof.
  intros Hx H. destruct (ilog2_spec x Hx) as [L _]. destruct (ilog2_spec y ltac:(lra)) as [_ U].
  destruct (Z.le_gt_cases (ilog2 x) (ilog2 y)) as [|C]; [done|]. exfalso.
  pose proof (pow2_le (ilog2 y + 1) (ilog2 x) ltac:(lia)). lra.
Qed.

Lemma round_pos_mono x y : 0 < x -> x <= y -> round_pos x <= round_pos y.
Proof.
  intros Hx H. pose proof (ilog2_mono x y Hx H) as Hk.
  destruct (Z.eq_dec (ilog2 x) (ilog2 y)) as [E|Hne].
  - unfold round_pos. rewrite <- E. pose proof (pow2_pos (ilog2 x - 52)) as Hu.
    apply Qmult_le_compat_r; [|by apply Qlt_le_weak]. rewrite <- Zle_Qle. apply rne_mono.
    unfold Qdiv. apply Qmult_le_compat_r; [done|]. apply Qlt_le_weak. by apply Qinv_lt_0_compat.
  - destruct (round_pos_bounds x Hx) as [_ U]. destruct (round_pos_bounds y ltac:(lra)) as [L _].
    pose proof (pow2_le (ilog2 x + 1) (ilog2 y) ltac:(lia)). lra.
Qed.

Lemma round_pos_pos x : 0 < x -> 0 < round_pos x.
Proof. intros Hx. destruct (round_pos_bounds x Hx) as [L _]. pose proof (pow2_pos (ilog2 x)). lra. Qed.

Lemma rnd_mono x y : x <= y -> rnd x <= rnd y.
Proof.
  intros H. unfold rnd. rewrite !Qred_correct.
  destruct (Qcompare_spec x 0) as [Ex|Ex|Ex], (Qcompare_spec y 0) as [Ey|Ey|Ey]; try lra.
  - pose proof (round_pos_pos y Ey). lra.
  - pose proof (round_pos_pos (- x) ltac:(lra)). lra.
  - pose proof (round_pos_mono (- y) (- x) ltac:(lra) ltac:(lra)). lra.
  - pose proof (round_pos_pos (- x) ltac:(lra)). pose proof (round_pos_pos y Ey). lra.
  - by apply round_pos_mono.
Qed.

#[global] Instance rnd_proper : Proper (Qeq ==> Qeq) rnd.
Proof. intros x y E. pose proof (rnd_mono x y). pose proof (rnd_mono y x). lra. Qed.

(** The cutoff of a later instant is not earlier. *)
Lemma float_sub_mono x y z : x <= y -> float_sub x z <= float_sub y z.
Proof. intros H. apply rnd_mono. lra. Qed.

(** [x * y], [int(x)] *)
Definition float_mul (x y : Q) : Q := rnd (x * y).
Definition int_of_float (x : Q) : Z := Z.quot (Qnum x) (Zpos (Qden x)).

(** ** Rounding errors *)

Definition eps : Q := 1 # 2 ^ 53.

Lemma rne_err q : inject_Z (rne q) <= q + (1 # 2).
Proof.
  unfold rne. pose proof (Qfloor_le q) as Hf. destruct (Qcompare_spec (q - inject_Z (Qfloor q)) (1 # 2));
    [destruct (Z.even _)|..]; rewrite ?inject_Z_plus; change (inject_Z 1) with 1; lra.
Qed.

Lemma round_pos_err x : 0 < x -> round_pos x <= x + x * eps.
Proof.
  intros Hx. destruct (ilog2_spec x Hx) as [L _]. unfold round_pos. set (u := pow2 (ilog2 x - 52)).
  assert (Hu : 0 < u) by apply pow2_pos.
  assert (E : u * (1 # 2) == pow2 (ilog2 x) * eps).
  { unfold u. rewrite pow2_sub. change (pow2 52) with (pow2 52). assert (E52 : pow2 52 == inject_Z (2 ^ 52)) by by apply pow2_Z.
    rewrite E52. unfold Qdiv, eps. rewrite <- !Qmult_assoc. by apply Qmult_comp. }
  pose proof (rne_err (x / u)) as He. assert (Hm : inject_Z (rne (x / u)) * u <= (x / u + (1 # 2)) * u) by (apply Qmult_le_compat_r; lra).
  assert (E2 : (x / u + (1 # 2)) * u == x + u * (1 # 2)) by (field; lra).
  assert (Hl : pow2 (ilog2 x) * eps <= x * eps) by (apply Qmult_le_compat_r; [done|discriminate]). lra.
Qed.

Lemma rnd_zero : rnd 0 == 0.
Proof. reflexivity. Qed.
Lemma rnd_nonneg x : 0 <= x -> 0 <= rnd x.
Proof. intros H. rewrite <- rnd_zero. by apply rnd_mono. Qed.
Lemma rnd_upper x : 0 <= x -> rnd x <= x + x * eps.
Proof.
  intros H. unfold rnd. rewrite Qred_correct. destruct (Qcompare_spec x 0) as [E|E|E]; [rewrite E; discriminate|lra|].
  by apply round_pos_err.
Qed.
