(* ===== verification/AuditHash.v ===== *)
(** * The audit hash chain (mintkey_models/audit_hash.py, audit-verify-job/verify.py)

    The canonical form of an audit event, the link hash, and the verifier
    that follows a tenant's chain by its links.  SHA-256 is a parameter: a
    function with 32-byte results; security statements speak of the digests of
    the very inputs the chain hashes, never of all texts. *)

From S2P Require Import Prelude PyStr PyJson PyJsonFacts PyTime WireIds.

Local Open Scope string_scope.

(** [hashlib.sha256(b).digest()] *)
Class Sha256 := {
  sha256 : string -> string;
  sha256_len : forall b, py_len (sha256 b) = 32%nat
}.

(** The two texts are different and have the same digest. *)
Definition collides `{Sha256} (x y : string) : Prop := x <> y /\ sha256 x = sha256 y.

(** [s.encode("utf-8")] *)
Definition utf8_char (c : ascii) : list ascii :=
  let n := code c in
  if (n <? 128)%N then [c] else [chr (192 + n / 64); chr (128 + n mod 64)].
Definition utf8 (s : string) : string := unchars (flat_map utf8_char (chars s)).

(** [bytes.hex()] and [bytes.fromhex] *)
Definition hex_bytes (b : string) : string :=
  unchars (flat_map (fun c => [hex_char (code c / 16); hex_char (code c mod 16)]) (chars b)).

Fixpoint unhex (l : list ascii) : option (list ascii) :=
  match l with
  | [] => Some []
  | a :: b :: l' =>
      match hex_val a, hex_val b, unhex l' with
      | Some x, Some y, Some r => Some (chr (x * 16 + y) :: r)
      | _, _, _ => None
      end
  | _ => None
  end.
Definition fromhex (s : string) : outcome string :=
  match unhex (chars s) with
  | Some l => Ok (unchars l)
  | None => Raise (ValueError "non-hexadecimal number found in fromhex() arg")
  end.

Lemma unhex_hex l :
  unhex (flat_map (fun c => [hex_char (code c / 16); hex_char (code c mod 16)]) l) = Some l.
Proof.
  induction l as [|c l IH]; [done|]. cbn [flat_map app unhex]. rewrite IH.
  pose proof (code_bound c) as Hb.
  rewrite !hex_char_val by (first [apply N.Div0.div_lt_upper_bound; lia | apply N.mod_lt; done]).
  by rewrite N.mul_comm, <- N.div_mod, chr_code by done.
Qed.

Lemma fromhex_hex b : fromhex (hex_bytes b) = Ok b.
Proof. unfold fromhex, hex_bytes. by rewrite chars_unchars, unhex_hex, unchars_chars. Qed.

(** ** Canonical form *)

Definition GENESIS_PREFIX : string := "mintkey-audit-genesis-v1:".

Definition opt_json (o : option string) : json :=
  match o with Some s => JStr s | None => JNull end.

Definition canonical_at (at_ : datetime) : outcome string :=
  match dt_offset at_ with
  | None => Raise (ValueError "at must be timezone-aware")
  | Some _ => Ok (isoformat_utc (dt_instant at_))
  end.

(** The argument is [str(value)], or [None]. *)
Definition canonical_id (value : option string) : option string :=
  match value with
  | None => None
  | Some text => match UUID text with Ok u => Some (uuid_str u) | Raise _ => Some text end
  end.

(** [dict(payload)] *)
Definition py_dict (payload : json) : outcome dict :=
  match payload with
  | JObj kvs => Ok kvs
  | JArr [] => Ok []
  | _ => Raise (TypeError "cannot convert dictionary update sequence")
  end.

Record event_args := EventArgs {
  ea_id : option string; ea_tenant_id : option string; ea_event_type : string;
  ea_actor_id : option string; ea_actor_type : option string;
  ea_target_id : option string; ea_target_type : option string;
  ea_payload : json; ea_at : datetime }.

Definition canonical_event_fields (a : event_args) : outcome dict :=
  payload ← py_dict (ea_payload a);
  at_ ← canonical_at (ea_at a);
  Ok [("id", opt_json (canonical_id (ea_id a)));
      ("tenant_id", opt_json (canonical_id (ea_tenant_id a)));
      ("event_type", JStr (ea_event_type a));
      ("actor_id", opt_json (canonical_id (ea_actor_id a)));
      ("actor_type", opt_json (ea_actor_type a));
      ("target_id", opt_json (canonical_id (ea_target_id a)));
      ("target_type", opt_json (ea_target_type a));
      ("payload", JObj payload);
      ("at", JStr at_)].

Definition canonical_json_bytes (fields : dict) : string :=
  dumps_canonical (JObj (List.filter (fun kv => negb (String.eqb (fst kv) "hash")) fields)).

(** ** The chain *)

Record ChainEvent := MkChainEvent {
  ce_id : string; ce_tenant_id : string; ce_event_type : string;
  ce_actor_id : option string; ce_actor_type : option string;
  ce_target_id : option string; ce_target_type : option string;
  ce_payload : json; ce_at : datetime;
  ce_prev_hash : string; ce_hash : string;
  ce_request_id : option string; ce_trace_id : option string }.

(** A row of [audit_events] as the driver returns it. *)
Record event_row := EventRow {
  r_id : option string; r_tenant_id : option string; r_event_type : string;
  r_actor_id : option string; r_actor_type : option string;
  r_target_id : option string; r_target_type : option string;
  r_payload : json; r_at : datetime; r_prev_hash : string; r_hash : string;
  r_request_id : option string; r_trace_id : option string }.

(** The outcome of verifying a chain. *)
Record ChainResult := MkChainResult {
  cr_ok : bool; cr_chain_length : nat; cr_last_event_id : option string;
  cr_first_bad_event_id : option string; cr_expected_hash : option string;
  cr_actual_hash : option string; cr_message : string }.

Section Chain.
Context `{Sha256}.

Definition genesis_hash (tenant_id : string) : string :=
  sha256 (utf8 (GENESIS_PREFIX +:+ tenant_id)).

Definition chain_hash (canonical prev_hash : string) : string :=
  sha256 (canonical +:+ prev_hash).

Definition event_fields (event : ChainEvent) : outcome dict :=
  canonical_event_fields {|
    ea_id := Some (ce_id event); ea_tenant_id := Some (ce_tenant_id event);
    ea_event_type := ce_event_type event; ea_actor_id := ce_actor_id event;
    ea_actor_type := ce_actor_type event; ea_target_id := ce_target_id event;
    ea_target_type := ce_target_type event; ea_payload := ce_payload event;
    ea_at := ce_at event |}.

Definition event_hash (event : ChainEvent) : outcome string :=
  fields ← event_fields event;
  Ok (chain_hash (canonical_json_bytes fields) (ce_prev_hash event)).

Definition chain_event_from_row (row : event_row) : outcome ChainEvent :=
  match canonical_id (r_id row), canonical_id (r_tenant_id row) with
  | Some event_id, Some tenant_id =>
      payload ← match r_payload row with
                | JNull => Ok (JObj [])
                | JStr s => match loads s with
                            | Some j => Ok j
                            | None => Raise (ValueError "JSONDecodeError")
                            end
                | j => Ok j
                end;
      Ok {| ce_id := event_id; ce_tenant_id := tenant_id;
            ce_event_type := r_event_type row;
            ce_actor_id := canonical_id (r_actor_id row); ce_actor_type := r_actor_type row;
            ce_target_id := canonical_id (r_target_id row); ce_target_type := r_target_type row;
            ce_payload := payload; ce_at := r_at row;
            ce_prev_hash := r_prev_hash row; ce_hash := r_hash row;
            ce_request_id := canonical_id (r_request_id row);
            ce_trace_id := canonical_id (r_trace_id row) |}
  | _, _ => Raise (ValueError "audit event row without id or tenant_id")
  end.

(** The first unvisited event whose [prev_hash] is [current]. *)
Definition next_index (events : list ChainEvent) (visited : list bool) (current : string) : option nat :=
  find_index (fun '(v, e) => negb v && String.eqb (ce_prev_hash e) current) (zip visited events).

(** The loop of [verify_events]: either it returns a result, or it ends with
    the visited marks, the current hash, the chain length and the last id. *)
Fixpoint verify_loop (n : nat) (events : list ChainEvent) (visited : list bool)
    (current : string) (chain_length : nat) (last_event_id : option string)
    : outcome (ChainResult + (list bool * string * nat * option string)) :=
  match n with
  | O => Ok (inr (visited, current, chain_length, last_event_id))
  | S n' =>
      match next_index events visited current with
      | None => Ok (inr (visited, current, chain_length, last_event_id))
      | Some index =>
          match events !! index with
          | None => Ok (inr (visited, current, chain_length, last_event_id))
          | Some event =>
              let visited := <[index := true]> visited in
              computed ← event_hash event;
              if negb (String.eqb computed (ce_hash event)) then
                Ok (inl (MkChainResult false chain_length last_event_id (Some (ce_id event))
                           (Some computed) (Some (ce_hash event))
                           ("hash mismatch at event " +:+ ce_id event)))
              else if bool_decide (ce_request_id event <> None) || bool_decide (ce_trace_id event <> None) then
                Ok (inl (MkChainResult false chain_length last_event_id (Some (ce_id event))
                           None None
                           ("event " +:+ ce_id event +:+ " has request_id or trace_id set")))
              else verify_loop n' events visited (ce_hash event) (S chain_length) (Some (ce_id event))
          end
      end
  end.

Definition verify_events (events : list ChainEvent) : outcome ChainResult :=
  match events with
  | [] => Ok (MkChainResult true 0 None None None None "empty chain")
  | e0 :: _ =>
      r ← verify_loop (length events) events (repeat false (length events))
            (genesis_hash (ce_tenant_id e0)) 0 None;
      match r with
      | inl res => Ok res
      | inr (visited, current, chain_length, last_event_id) =>
          if (chain_length <? length events)%nat then
            match find_index (fun v => negb v) visited with
            | Some i => match events !! i with
                        | Some first_bad =>
                            Ok (MkChainResult false chain_length last_event_id (Some (ce_id first_bad))
                                  (Some current) (Some (ce_prev_hash first_bad))
                                  ("event " +:+ ce_id first_bad +:+ " does not follow the chain"))
                        | None => Raise (RuntimeError "StopIteration")
                        end
            | None => Raise (RuntimeError "StopIteration")
            end
          else Ok (MkChainResult true chain_length last_event_id None None None "chain intact")
      end
  end.
End Chain.

(** ** The visited marks *)

Section Marks.
Context {A : Type}.

Fixpoint marked (b : bool) (vs : list bool) (es : list A) : list A :=
  match vs, es with
  | v :: vs', e :: es' => if Bool.eqb v b then e :: marked b vs' es' else marked b vs' es'
  | _, _ => []
  end.

Lemma marked_perm vs es :
  length vs = length es -> Permutation (marked true vs es ++ marked false vs es)%list es.
Proof.
  revert es; induction vs as [|v vs IH]; intros [|e es] H; simpl in *; [done..|].
  specialize (IH es ltac:(lia)). destruct v; simpl; rewrite <- ?Permutation.Permutation_middle; by rewrite IH.
Qed.

Lemma marked_repeat es : marked true (repeat false (length es)) es = [].
Proof. by induction es. Qed.

Lemma marked_insert vs es i e :
  vs !! i = Some false -> es !! i = Some e ->
  Permutation (marked true (<[i := true]> vs) es) (e :: marked true vs es) /\
  Permutation (marked false vs es) (e :: marked false (<[i := true]> vs) es).
Proof.
  revert vs es; induction i as [|i IH]; intros [|v vs] [|x es] Hv He; simpl in *; try done.
  - injection Hv as ->. by injection He as ->.
  - destruct (IH vs es Hv He) as [H1 H2].
    split; destruct v; simpl; rewrite ?H1, ?H2; try done; apply perm_swap.
Qed.

Lemma find_index_zip (f : A -> bool) vs es i :
  length vs = length es ->
  find_index (fun '(v, e) => negb v && f e) (zip vs es) = Some i ->
  exists e, vs !! i = Some false /\ es !! i = Some e /\ f e = true.
Proof.
  intros Hl H. apply find_index_Some in H as ([v e] & Hz & Hf & _).
  apply lookup_zip_with_Some in Hz as (v' & e' & [= -> ->] & Hv & He).
  apply andb_true_iff in Hf as [Hf ?]. apply negb_true_iff in Hf. subst v'. eauto.
Qed.

Lemma find_index_zip_None (f : A -> bool) vs es :
  find_index (fun '(v, e) => negb v && f e) (zip vs es) = None ->
  forall e, In e (marked false vs es) -> f e = false.
Proof.
  revert es; induction vs as [|v vs IH]; intros [|x es] H e Hin; simpl in *; try done.
  destruct v; simpl in *.
  - apply (IH es); [|done]. by destruct (find_index _ (zip vs es)).
  - destruct (f x) eqn:E; [done|]. destruct Hin as [<-|Hin]; [done|].
    apply (IH es); [|done]. by destruct (find_index _ (zip vs es)).
Qed.
End Marks.

(** ** Linked chains *)

Section Linked.
Context `{Sha256}.

(** [l], in order, is a chain that starts after the hash [cur]. *)
Inductive linked : string -> list ChainEvent -> Prop :=
  | linked_nil cur : linked cur []
  | linked_cons cur e l :
      ce_prev_hash e = cur -> event_hash e = Ok (ce_hash e) ->
      ce_request_id e = None -> ce_trace_id e = None ->
      linked (ce_hash e) l -> linked cur (e :: l).

(** The hash after the last event. *)
Fixpoint end_hash (cur : string) (l : list ChainEvent) : string :=
  match l with
  | [] => cur
  | e :: l' => end_hash (ce_hash e) l'
  end.

Lemma linked_app cur l k : linked cur (l ++ k)%list <-> linked cur l /\ linked (end_hash cur l) k.
Proof.
  revert cur; induction l as [|e l IH]; intros cur; simpl.
  - split; [intros ?; split; [constructor|done]|tauto].
  - split.
    + intros Hl. inversion Hl as [|? ? ? Hp Hh Hr Ht Hk]; subst. apply IH in Hk as [? ?]. split; [by constructor|done].
    + intros [Hl ?]. inversion Hl as [|? ? ? Hp Hh Hr Ht Hk]; subst. constructor; try done. apply IH. done.
Qed.

Lemma end_hash_app cur l k : end_hash cur (l ++ k)%list = end_hash (end_hash cur l) k.
Proof. revert cur; induction l as [|e l IH]; intros cur; simpl; auto. Qed.

(** Every [next_index] step is a step along a link. *)
Lemma next_index_Some events visited current i :
  length visited = length events -> next_index events visited current = Some i ->
  exists e, visited !! i = Some false /\ events !! i = Some e /\ ce_prev_hash e = current.
Proof.
  intros Hl Hi. apply (find_index_zip (fun e => String.eqb (ce_prev_hash e) current)) in Hi; [|done].
  destruct Hi as (e & Hv & He & Hp). apply String.eqb_eq in Hp. eauto.
Qed.

Lemma next_index_None events visited current :
  next_index events visited current = None ->
  forall e, In e (marked false visited events) -> ce_prev_hash e <> current.
Proof.
  intros Hi e He. eapply (find_index_zip_None (fun e => String.eqb (ce_prev_hash e) current)) in Hi; [|done].
  by apply String.eqb_neq.
Qed.

(** The loop extends the chain found so far. *)
Lemma verify_loop_sound n events : forall visited current len last l res g,
  length visited = length events -> linked g l -> end_hash g l = current ->
  length l = len -> Permutation l (marked true visited events) ->
  verify_loop n events visited current len last = Ok (inr res) ->
  exists visited' current' len' last' l',
    res = (visited', current', len', last') /\ length visited' = length events /\
    linked g l' /\ end_hash g l' = current' /\ length l' = len' /\
    Permutation l' (marked true visited' events).
Proof.
  induction n as [|n IH]; intros visited current len last l res g Hlen Hl He Hn Hp Hr; simpl in Hr.
  - injection Hr as <-. by exists visited, current, len, last, l.
  - destruct (next_index events visited current) as [i|] eqn:Hi.
    2:{ injection Hr as <-. by exists visited, current, len, last, l. }
    apply next_index_Some in Hi as (e & Hv & Hei & Hprev); [|done]. rewrite Hei in Hr.
    destruct (event_hash e) as [computed|] eqn:Eh; simpl in Hr; [|done].
    destruct (String.eqb_spec computed (ce_hash e)) as [->|]; simpl in Hr; [|done].
    destruct (bool_decide (ce_request_id e <> None)) eqn:Er; simpl in Hr; [done|].
    destruct (bool_decide (ce_trace_id e <> None)) eqn:Et; simpl in Hr; [done|].
    apply bool_decide_eq_false in Er, Et. apply dec_stable in Er, Et.
    eapply (IH _ _ _ _ (l ++ [e])%list); [..|exact Hr].
    + by rewrite length_insert.
    + apply linked_app. split; [done|]. rewrite He. constructor; try done. constructor.
    + rewrite end_hash_app. done.
    + rewrite length_app. simpl. lia.
    + destruct (marked_insert _ _ _ _ Hv Hei) as [Hm _]. rewrite Hm, <- Hp.
      symmetry. apply Permutation_cons_append.
Qed.
End Linked.

(** ** A concrete hash *)

(** A stand-in for SHA-256 that keeps the first 32 bytes. *)
Definition toy_sha256 : Sha256.
Proof.
  refine {| sha256 b := unchars (take 32 (chars b ++ repeat "0"%char 32)) |}.
  intros b. rewrite py_len_unchars, length_take, length_app, repeat_length. lia.
Defined.
