(* ===== verification/PyCodecs.v ===== *)
(** * Base 64, SHA-1 and name-based UUIDs (base64, hashlib.sha1, uuid.uuid5)

    [b64encode] and the lenient [b64decode] (validate=False): characters
    outside the alphabet are skipped, a complete padding ends the input.  The
    words of SHA-1 are 32-bit integers in N, the schedule of a chunk a window
    of the last sixteen words. *)

From S2P Require Import Prelude PyStr WireIds PyJson PyJsonFacts PyTime AuditHash.

Local Open Scope string_scope.
Local Open Scope N_scope.

Definition b64_alphabet : string := "ABCDEFGHIJKLMNOPQRSTUVWXYZabcdefghijklmnopqrstuvwxyz0123456789+/".
Definition b64_char (n : N) : ascii := char_at b64_alphabet n.
Definition b64_val (c : ascii) : option N := N.of_nat <$> find_index (Ascii.eqb c) (chars b64_alphabet).

Fixpoint b64encode_list (l : list ascii) : list ascii :=
  match l with
  | [] => []
  | [a] => let a := code a in [b64_char (a / 4); b64_char (a mod 4 * 16); "="; "="]%char
  | [a; b] => let a := code a in let b := code b in
              [b64_char (a / 4); b64_char (a mod 4 * 16 + b / 16); b64_char (b mod 16 * 4); "="%char]
  | a :: b :: c :: l' =>
      let a := code a in let b := code b in let c := code c in
      b64_char (a / 4) :: b64_char (a mod 4 * 16 + b / 16) :: b64_char (b mod 16 * 4 + c / 64) :: b64_char (c mod 64)
        :: b64encode_list l'
  end.
Definition b64encode (b : string) : string := unchars (b64encode_list (chars b)).

(** [base64.urlsafe_b64encode] *)
Definition urlsafe_b64encode (b : string) : string :=
  unchars (map (fun c => if Ascii.eqb c "+" then "-" else if Ascii.eqb c "/" then "_" else c)%char (chars (b64encode b))).

(** binascii.a2b_base64: the position in the group of four, the bits left over, the padding seen. *)
Fixpoint a2b (quad_pos leftchar pads : N) (l : list ascii) : option (list ascii) :=
  match l with
  | [] => if quad_pos =? 0 then Some [] else None
  | c :: l' =>
      if Ascii.eqb c "=" then
        if 2 <=? quad_pos then
          if 4 <=? quad_pos + (pads + 1) then Some [] else a2b quad_pos leftchar (pads + 1) l'
        else a2b quad_pos leftchar pads l'
      else
        match b64_val c with
        | None => a2b quad_pos leftchar pads l'
        | Some v =>
            if quad_pos =? 0 then a2b 1 v 0 l'
            else if quad_pos =? 1 then cons (chr (leftchar * 4 + v / 16)) <$> a2b 2 (v mod 16) 0 l'
            else if quad_pos =? 2 then cons (chr (leftchar * 16 + v / 4)) <$> a2b 3 (v mod 4) 0 l'
            else cons (chr (leftchar * 64 + v)) <$> a2b 0 0 0 l'
        end
  end.

Definition b64decode (s : string) : outcome string :=
  if existsb (fun c => 128 <=? code c) (chars s) then
    Raise (ValueError "string argument should contain only ASCII characters")
  else match a2b 0 0 0 (chars s) with
       | Some l => Ok (unchars l)
       | None => Raise (ValueError "Incorrect padding")
       end.

(** [s.split()]: the words between runs of white space. *)
Fixpoint words (cur : list ascii) (l : list ascii) : list string :=
  let word := match cur with [] => [] | _ => [unchars (rev cur)] end in
  match l with
  | [] => word
  | c :: l' => if is_space c then (word ++ words [] l')%list else words (c :: cur) l'
  end.
Definition py_words (s : string) : list string := words [] (chars s).

(** ** Round trip *)

Definition b64_char_ok (n : N) : bool :=
  bool_decide (b64_val (b64_char n) = Some n) && negb (Ascii.eqb (b64_char n) "=") && (code (b64_char n) <? 128).

Lemma b64_char_spec n : n < 64 ->
  b64_val (b64_char n) = Some n /\ Ascii.eqb (b64_char n) "=" = false /\ code (b64_char n) < 128.
Proof.
  intros H. apply (N_below_check b64_char_ok 64) in H; [|vm_compute; reflexivity].
  unfold b64_char_ok in H. rewrite !andb_true_iff, negb_true_iff, bool_decide_eq_true, N.ltb_lt in H. tauto.
Qed.

Lemma a2b_char q left pads n l : n < 64 ->
  a2b q left pads (b64_char n :: l) =
    (if q =? 0 then a2b 1 n 0 l
     else if q =? 1 then cons (chr (left * 4 + n / 16)) <$> a2b 2 (n mod 16) 0 l
     else if q =? 2 then cons (chr (left * 16 + n / 4)) <$> a2b 3 (n mod 4) 0 l
     else cons (chr (left * 64 + n)) <$> a2b 0 0 0 l).
Proof. intros H. apply b64_char_spec in H as (H1 & H2 & _). cbn [a2b]. by rewrite H2, H1. Qed.

Lemma b64_list_ind (P : list ascii -> Prop) :
  P [] -> (forall a, P [a]) -> (forall a b, P [a; b]) ->
  (forall a b c l, P l -> P (a :: b :: c :: l)) -> forall l, P l.
Proof.
  intros H0 H1 H2 H3. fix IH 1. intros [|a [|b [|c l]]]; [done..|]. apply H3, IH.
Qed.

Lemma join_digits k x y : y < k -> (x * k + y) / k = x /\ (x * k + y) mod k = y.
Proof.
  intros H. split; [by rewrite N.div_add_l, N.div_small, N.add_0_r by lia|].
  by rewrite N.add_comm, N.Div0.mod_add, N.mod_small.
Qed.
Lemma split_digits k m x : x < k * m -> 0 < k -> x / k < m /\ x mod k < k /\ x / k * k + x mod k = x.
Proof.
  intros H Hk. pose proof (N.mod_lt x k ltac:(lia)). pose proof (N.div_mod x k ltac:(lia)).
  split; [by apply N.Div0.div_lt_upper_bound|]. split; [done|]. lia.
Qed.

Lemma b64_group a b c l :
  a2b 0 0 0 (b64_char (code a / 4) :: b64_char (code a mod 4 * 16 + code b / 16)
    :: b64_char (code b mod 16 * 4 + code c / 64) :: l) =
  cons a <$> (cons b <$> a2b 3 (code c / 64) 0 l).
Proof.
  destruct (split_digits 4 64 (code a)) as (A1 & A2 & A3); [apply code_bound|done|].
  destruct (split_digits 16 16 (code b)) as (B1 & B2 & B3); [apply code_bound|done|].
  destruct (split_digits 64 4 (code c)) as (C1 & C2 & C3); [apply code_bound|done|].
  destruct (join_digits 16 (code a mod 4) (code b / 16) B1) as [J1 J2].
  destruct (join_digits 4 (code b mod 16) (code c / 64) C1) as [K1 K2].
  rewrite !a2b_char by nia. cbn [N.eqb Pos.eqb]. by rewrite J1, J2, K1, K2, A3, B3, !chr_code.
Qed.

Lemma a2b_encode l : a2b 0 0 0 (b64encode_list l) = Some l.
Proof.
  induction l as [|a|a b|a b c l IH] using b64_list_ind; [done|..]; cbn [b64encode_list].
  - destruct (split_digits 4 64 (code a)) as (A1 & A2 & A3); [apply code_bound|done|].
    destruct (join_digits 16 (code a mod 4) 0) as [J1 J2]; [done|]. rewrite N.add_0_r in J1, J2.
    rewrite !a2b_char by nia. cbn [N.eqb Pos.eqb]. rewrite J1, J2, A3, chr_code. reflexivity.
  - pose proof (b64_group a b "000"%char ["="%char]) as H. cbn [code] in H.
    change (code "000"%char / 64) with 0 in H. rewrite N.add_0_r in H. rewrite H. reflexivity.
  - rewrite b64_group. destruct (split_digits 64 4 (code c)) as (C1 & C2 & C3); [apply code_bound|done|].
    rewrite a2b_char by done. cbn [N.eqb Pos.eqb]. by rewrite C3, chr_code, IH.
Qed.

Lemma b64encode_ascii l : existsb (fun c => 128 <=? code c) (b64encode_list l) = false.
Proof.
  assert (Hc : forall n, n < 64 -> (128 <=? code (b64_char n)) = false) by (intros n Hn; apply N.leb_gt; by apply b64_char_spec).
  assert (Hb : forall a b : ascii, code a mod 4 * 16 + code b / 16 < 64).
  { intros a b. destruct (split_digits 16 16 (code b)) as (B1 & _); [apply code_bound|done|].
    pose proof (N.mod_lt (code a) 4 ltac:(done)). nia. }
  assert (Hd : forall a b : ascii, code a mod 16 * 4 + code b / 64 < 64).
  { intros a b. destruct (split_digits 64 4 (code b)) as (B1 & _); [apply code_bound|done|].
    pose proof (N.mod_lt (code a) 16 ltac:(done)). nia. }
  assert (Ha : forall a : ascii, code a / 4 < 64) by (intros a; apply N.Div0.div_lt_upper_bound, code_bound).
  assert (Hm : forall a k m : N, 0 < k -> k * m <= 64 -> 0 < m -> a mod k * m < 64).
  { intros a k m Hk Hkm Hm. pose proof (N.mod_lt a k ltac:(lia)). nia. }
  assert (Hl : forall a : N, a mod 64 < 64) by (intros a; by apply N.mod_lt).
  induction l as [|a|a b|a b c l IH] using b64_list_ind; [done|..]; cbn [b64encode_list existsb];
    rewrite ?(Hc _ (Ha _)), ?(Hc _ (Hb _ _)), ?(Hc _ (Hd _ _)), ?(Hc _ (Hl _)), ?(Hc _ (Hm _ 4 16 ltac:(done) ltac:(done) ltac:(done))),
      ?(Hc _ (Hm _ 16 4 ltac:(done) ltac:(done) ltac:(done))); done.
Qed.

(** Decoding what was encoded gives the bytes back. *)
Lemma b64_roundtrip b : b64decode (b64encode b) = Ok b.
Proof.
  unfold b64decode, b64encode. rewrite chars_unchars, b64encode_ascii, a2b_encode. by rewrite unchars_chars.
Qed.

(** The characters an encoding has. *)
Definition b64_class (c : ascii) : Prop := c = "="%char \/ exists n, (n < 64)%N /\ c = b64_char n.

Lemma b64_char_lt64 a k m : (0 < k)%N -> (0 < m)%N -> (k * m <= 64)%N -> (a mod k * m < 64)%N.
Proof. intros Hk Hm Hkm. pose proof (N.mod_lt a k ltac:(lia)). nia. Qed.

Lemma b64_digits a b : ((code a / 4 < 64) /\ (code a mod 4 * 16 + code b / 16 < 64)
  /\ (code a mod 16 * 4 + code b / 64 < 64) /\ code a mod 64 < 64)%N.
Proof.
  pose proof (code_bound a) as Ha. pose proof (code_bound b) as Hb.
  pose proof (N.mod_lt (code a) 4 ltac:(done)). pose proof (N.mod_lt (code a) 16 ltac:(done)).
  assert (code b / 16 < 16)%N by (apply N.Div0.div_lt_upper_bound; lia).
  assert (code b / 64 < 4)%N by (apply N.Div0.div_lt_upper_bound; lia).
  split; [apply N.Div0.div_lt_upper_bound; lia|]. split; [nia|]. split; [nia|]. by apply N.mod_lt.
Qed.

Lemma b64_classes l : Forall b64_class (b64encode_list l).
Proof.
  assert (Hn : forall n, (n < 64)%N -> b64_class (b64_char n)) by (intros n Hn; right; eauto).
  assert (He : b64_class "="%char) by (by left).
  induction l as [|a|a b|a b c l IH] using b64_list_ind; [done|..]; cbn [b64encode_list].
  - destruct (b64_digits a a) as (A1 & _ & _ & _). repeat apply List.Forall_cons; auto. by apply Hn, b64_char_lt64.
  - destruct (b64_digits a b) as (A1 & A2 & _ & _). repeat apply List.Forall_cons; auto. by apply Hn, b64_char_lt64.
  - destruct (b64_digits a b) as (A1 & A2 & _ & _). destruct (b64_digits b c) as (_ & _ & A3 & _).
    destruct (b64_digits c c) as (_ & _ & _ & A4). repeat apply List.Forall_cons; auto.
Qed.

Definition add32 (a b : N) : N := (a + b) mod 2 ^ 32.
Definition rotl32 (n x : N) : N := N.lor (N.shiftl x n mod 2 ^ 32) (N.shiftr x (32 - n)).
Definition not32 (x : N) : N := N.lxor x (2 ^ 32 - 1).

Record sha1_state := Sha1State { h0 : N; h1 : N; h2 : N; h3 : N; h4 : N }.

Definition round_function (t : nat) (b c d : N) : N * N :=
  if (t <? 20)%nat then (N.lor (N.land b c) (N.land (not32 b) d), 0x5A827999)
  else if (t <? 40)%nat then (N.lxor b (N.lxor c d), 0x6ED9EBA1)
  else if (t <? 60)%nat then (N.lor (N.land b c) (N.lor (N.land b d) (N.land c d)), 0x8F1BBCDC)
  else (N.lxor b (N.lxor c d), 0xCA62C1D6).

Definition next_word (window : list N) : N :=
  rotl32 1 (N.lxor (nth 13 window 0) (N.lxor (nth 8 window 0) (N.lxor (nth 2 window 0) (nth 0 window 0)))).

Fixpoint rounds (fuel t : nat) (window : list N) (s : sha1_state) : sha1_state :=
  match fuel with
  | O => s
  | S fuel' =>
      let '(f, k) := round_function t (h1 s) (h2 s) (h3 s) in
      let tmp := add32 (rotl32 5 (h0 s)) (add32 f (add32 (h4 s) (add32 k (nth 0 window 0)))) in
      rounds fuel' (S t) (tl window ++ [next_word window])%list
        (Sha1State tmp (h0 s) (rotl32 30 (h1 s)) (h2 s) (h3 s))
  end.

(** The big-endian number of some bytes, and the [n] bytes of a number. *)
Definition be_number (l : list N) : N := fold_left (fun acc b => acc * 256 + b) l 0.
Fixpoint be_bytes (n : nat) (x : N) : list N :=
  match n with
  | O => []
  | S n' => (be_bytes n' (x / 256) ++ [x mod 256])%list
  end.

Fixpoint chunks (fuel n : nat) (l : list N) : list (list N) :=
  match fuel, l with
  | S fuel', _ :: _ => take n l :: chunks fuel' n (drop n l)
  | _, _ => []
  end.

Definition compress (s : sha1_state) (block : list N) : sha1_state :=
  let r := rounds 80 0 (map be_number (chunks 16 4 block)) s in
  Sha1State (add32 (h0 s) (h0 r)) (add32 (h1 s) (h1 r)) (add32 (h2 s) (h2 r)) (add32 (h3 s) (h3 r)) (add32 (h4 s) (h4 r)).

Definition pad (l : list N) : list N :=
  let n := length l in
  (l ++ [0x80] ++ repeat 0 ((119 - n mod 64) mod 64) ++ be_bytes 8 (8 * N.of_nat n))%list.

(** [hashlib.sha1(b).digest()] *)
Definition sha1 (bytes : list N) : list N :=
  let p := pad bytes in
  let s := fold_left compress (chunks (length p) 64 p)
             (Sha1State 0x67452301 0xEFCDAB89 0x98BADCFE 0x10325476 0xC3D2E1F0) in
  flat_map (be_bytes 4) [h0 s; h1 s; h2 s; h3 s; h4 s].

(** [uuid.uuid5(namespace, name)]: version 5, variant RFC 4122. *)
Definition uuid5 (namespace : uuid) (name : string) : uuid :=
  let digest := be_number (take 16 (sha1 (be_bytes 16 namespace ++ map code (chars (utf8 name)))%list)) in
  let high := digest / 2 ^ 80 in                  (* the first six bytes *)
  let version := 0x5000 + digest / 2 ^ 64 mod 2 ^ 12 in
  let low := 2 ^ 63 + digest mod 2 ^ 62 in
  high * 2 ^ 80 + version * 2 ^ 64 + low.

Example uuid5_python_org :
  uuid_str (uuid5 0x6ba7b8109dad11d180b400c04fd430c8 "python.org") = "886313e1-3b8a-5372-9b90-0c9aee199e5d"%string.
Proof. vm_compute. reflexivity. Qed.

Lemma be_number_lt l : Forall (fun b => b < 256) l -> be_number l < 256 ^ N.of_nat (length l).
Proof.
  unfold be_number. intros H.
  assert (G : forall l acc k, Forall (fun b => b < 256) l -> acc < 256 ^ k ->
    fold_left (fun acc b => acc * 256 + b) l acc < 256 ^ (k + N.of_nat (length l))).
  { clear. induction l as [|b l IH]; intros acc k Hl Hacc; cbn [fold_left length].
    - by rewrite N.add_0_r.
    - apply Forall_cons in Hl as [Hb Hl]. replace (k + N.of_nat (S (length l))) with ((k + 1) + N.of_nat (length l)) by lia.
      apply IH; [done|]. rewrite N.pow_add_r. change (256 ^ 1) with 256. nia. }
  exact (G l 0 0 H eq_refl).
Qed.

Lemma be_bytes_lt n : forall x, Forall (fun b => b < 256) (be_bytes n x).
Proof.
  induction n as [|n IH]; intros x; cbn [be_bytes]; [constructor|].
  apply List.Forall_app. split; [apply IH|]. repeat constructor. by apply N.mod_lt.
Qed.

Lemma be_bytes_length n : forall x, length (be_bytes n x) = n.
Proof. induction n as [|n IH]; intros x; cbn [be_bytes]; [done|]. rewrite length_app, IH. simpl. lia. Qed.

Lemma sha1_bytes l : Forall (fun b => b < 256) (sha1 l) /\ length (sha1 l) = 20%nat.
Proof.
  unfold sha1. cbv zeta. cbn [flat_map]. rewrite !length_app, !be_bytes_length.
  split; [|reflexivity]. rewrite !List.Forall_app. repeat split; try apply be_bytes_lt. constructor.
Qed.

(** A name-based UUID has 128 bits. *)
Lemma uuid5_lt namespace name : uuid5 namespace name < uuid_limit.
Proof.
  unfold uuid5. destruct (sha1_bytes (be_bytes 16 namespace ++ map code (chars (utf8 name)))) as [Hb Hl].
  set (l := sha1 _) in *.
  assert (Hd : be_number (take 16 l) < 2 ^ 128).
  { eapply N.lt_le_trans; [apply be_number_lt; by apply Forall_take|]. rewrite length_take, Hl. by vm_compute. }
  set (d := be_number _) in *. cbv zeta.
  assert (Hz : d / 2 ^ 80 < 281474976710656) by (by apply N.Div0.div_lt_upper_bound).
  assert (Hy : d / 2 ^ 64 mod 2 ^ 12 < 4096) by (by apply N.mod_lt).
  assert (Hx : d mod 2 ^ 62 < 2 ^ 62) by (by apply N.mod_lt).
  set (z := d / 2 ^ 80) in *. set (y := d / 2 ^ 64 mod 2 ^ 12) in *. set (x := d mod 2 ^ 62) in *. clearbody x y z.
  change (2 ^ 128) with (281474976710656 * (65536 * (4 * 2 ^ 62))). change (2 ^ 80) with (65536 * (4 * 2 ^ 62)).
  change (2 ^ 64) with (4 * 2 ^ 62). change (2 ^ 63) with (2 * 2 ^ 62). generalize dependent (2 ^ 62). intros p Hp.
  pose proof (N.mul_le_mono_r (z + 1) 281474976710656 (65536 * (4 * p)) ltac:(lia)).
  pose proof (N.mul_le_mono_r y 4095 (4 * p) ltac:(lia)). lia.
Qed.
