(* ===== verification/PyText.v ===== *)
(** * More text operations

    [lower], substring search, [repr] of a string and the UTF-8 decoder with
    replacement, on strings of code points below 256. *)

From S2P Require Import Prelude PyStr PyJson PyJsonFacts PyTime WireIds AuditHash.

Local Open Scope string_scope.

(** [s.lower()] *)
Definition lower_char (c : ascii) : ascii :=
  let n := code c in
  if ((65 <=? n) && (n <=? 90))%N then chr (n + 32)
  else if ((192 <=? n) && (n <=? 222) && negb (n =? 215))%N then chr (n + 32)
  else c.
Definition lower (s : string) : string := unchars (map lower_char (chars s)).

(** [sub in s] *)
Fixpoint list_infixb (p l : list ascii) : bool :=
  list_prefixb p l || match l with [] => false | _ :: l' => list_infixb p l' end.
Definition py_in (sub s : string) : bool := list_infixb (chars sub) (chars s).

(** [repr(s)]: single quotes, unless the text has one and no double quote. *)
Definition repr_char (quote c : ascii) : list ascii :=
  let n := code c in
  if Ascii.eqb c "\" then ["\"; "\"]%char
  else if Ascii.eqb c quote then ["\"%char; c]
  else if (n =? 10)%N then ["\"; "n"]%char
  else if (n =? 13)%N then ["\"; "r"]%char
  else if (n =? 9)%N then ["\"; "t"]%char
  else if ((n <? 32) || (127 <=? n) && (n <=? 160) || (n =? 173))%N
       then ["\"%char; "x"%char; hex_char (n / 16); hex_char (n mod 16)]
  else [c].
Definition py_repr (s : string) : string :=
  let quote := if existsb (Ascii.eqb "'") (chars s) && negb (existsb (Ascii.eqb dquote) (chars s))
               then dquote else "'"%char in
  unchars (quote :: flat_map (repr_char quote) (chars s) ++ [quote])%list.

(** [b.decode("utf-8", errors="replace")]: a byte that starts no code point below 256 is replaced.
    The replacement character U+FFFD is outside the model's alphabet; a question mark stands for
    it. *)
Fixpoint utf8_decode_list (l : list ascii) : list ascii :=
  match l with
  | [] => []
  | c :: l' =>
      if (code c <? 128)%N then c :: utf8_decode_list l'
      else if ((194 <=? code c) && (code c <=? 195))%N then
        match l' with
        | d :: l'' =>
            if ((128 <=? code d) && (code d <? 192))%N
            then chr ((code c - 192) * 64 + (code d - 128)) :: utf8_decode_list l''
            else "?"%char :: utf8_decode_list l'
        | [] => ["?"%char]
        end
      else "?"%char :: utf8_decode_list l'
  end.
Definition utf8_decode (b : string) : string := unchars (utf8_decode_list (chars b)).

Lemma utf8_decode_char c l : utf8_decode_list (utf8_char c ++ l)%list = c :: utf8_decode_list l.
Proof.
  pose proof (code_bound c) as Hb. unfold utf8_char.
  destruct (N.ltb_spec (code c) 128) as [Hlt|Hge].
  { cbn [app utf8_decode_list]. by rewrite (proj2 (N.ltb_lt _ _) Hlt). }
  assert (Hd : (2 <= code c / 64 < 4)%N).
  { split; [apply N.div_le_lower_bound; lia|apply N.Div0.div_lt_upper_bound; lia]. }
  pose proof (N.mod_lt (code c) 64 ltac:(done)) as Hm.
  pose proof (N.div_mod (code c) 64 ltac:(done)) as E.
  revert Hd Hm E. generalize (code c / 64)%N (code c mod 64)%N. intros q m Hd Hm E.
  cbn [app utf8_decode_list]. rewrite !code_chr by lia.
  destruct (N.ltb_spec (192 + q) 128), (N.leb_spec 194 (192 + q)), (N.leb_spec (192 + q) 195),
    (N.leb_spec 128 (128 + m)), (N.ltb_spec (128 + m) 192); try lia.
  cbn [andb]. f_equal. rewrite <- (chr_code c), E. f_equal. lia.
Qed.

Lemma utf8_decode_utf8 s : utf8_decode (utf8 s) = s.
Proof.
  unfold utf8_decode, utf8. rewrite chars_unchars. rewrite <- (unchars_chars s) at 2. f_equal.
  induction (chars s) as [|c l IH]; [done|]. cbn [flat_map]. by rewrite utf8_decode_char, IH.
Qed.
