(* ===== verification/PyUrl.v ===== *)
(** * URLs and addresses (urllib.parse, ipaddress)

    [urlsplit] with the [hostname] and [port] of its result, and
    [ipaddress.ip_address] with membership in networks and the [is_*]
    predicates.  The NFKC test of [urlsplit] is left out: no code point below
    256 normalises to a delimiter. *)

From S2P Require Import Prelude PyStr PyText PyJson WireIds.

Local Open Scope string_scope.

(** ** Partitions *)

(** The characters before the first that satisfies [p], and the rest from it on. *)
Fixpoint break (p : ascii -> bool) (l : list ascii) : list ascii * list ascii :=
  match l with
  | [] => ([], [])
  | c :: l' => if p c then ([], l) else let '(a, b) := break p l' in (c :: a, b)
  end.

(** [l.partition(c)]: what is before [c], and what is after it when [c] occurs. *)
Definition partition (c : ascii) (l : list ascii) : list ascii * option (list ascii) :=
  let '(a, b) := break (Ascii.eqb c) l in
  (a, match b with [] => None | _ :: b' => Some b' end).

(** [l.rpartition(c)[2]] *)
Fixpoint after_last (c : ascii) (l : list ascii) : list ascii :=
  match l with
  | [] => []
  | a :: l' => if Ascii.eqb a c && negb (existsb (Ascii.eqb c) l') then l'
               else if existsb (Ascii.eqb c) l' then after_last c l' else l
  end.

Definition is_alpha (c : ascii) : bool :=
  let n := code c in ((65 <=? n) && (n <=? 90) || (97 <=? n) && (n <=? 122))%N.
Definition is_ascii_alnum (c : ascii) : bool := is_alpha c || is_digit c.

(** ** Addresses *)

Inductive ip := V4 (n : N) | V6 (n : N).

(** The value of decimal digits. *)
Definition dec_value (l : list ascii) : N := fold_left (fun n c => n * 10 + (code c - 48))%N l 0%N.

Definition _parse_octet (s : string) : option N :=
  let l := chars s in
  if (length l =? 0)%nat || negb (forallb is_digit l) || (3 <? length l)%nat then None
  else if negb (String.eqb s "0") && startswith s "0" then None
  else if (255 <? dec_value l)%N then None
  else Some (dec_value l).

Definition IPv4Address (s : string) : option N :=
  match py_split "." s with
  | [a; b; c; d] =>
      a ← _parse_octet a; b ← _parse_octet b; c ← _parse_octet c; d ← _parse_octet d;
      Some (((a * 256 + b) * 256 + c) * 256 + d)%N
  | _ => None
  end.

Definition _parse_hextet (s : string) : option N :=
  let l := chars s in
  if (length l =? 0)%nat || (4 <? length l)%nat then None
  else foldl (fun acc c => n ← acc; d ← hexd c; Some (n * 16 + d)%N) (Some 0%N) l.

Definition hextets (parts : list string) : option N :=
  foldl (fun acc s => n ← acc; d ← _parse_hextet s; Some (n * 65536 + d)%N) (Some 0%N) parts.

(** The positions of the empty parts that are not endpoints. *)
Definition inner_empty (parts : list string) : list nat :=
  List.filter (fun i => (1 <=? i)%nat && (i <? length parts - 1)%nat && String.eqb (nth i parts "x") "")
    (seq 0 (length parts)).

Definition _ip_int_from_string (s : string) : option N :=
  let parts := py_split ":" s in
  if String.eqb s "" || (length parts <? 3)%nat then None
  else
    let tail := List.last parts "" in
    parts ← (if py_in "." tail
             then n ← IPv4Address tail;
                  Some (removelast parts ++ [unchars [hex_char (n / 2 ^ 28); hex_char ((n / 2 ^ 24) mod 16);
                                                      hex_char ((n / 2 ^ 20) mod 16); hex_char ((n / 2 ^ 16) mod 16)];
                                             unchars [hex_char ((n / 2 ^ 12) mod 16); hex_char ((n / 2 ^ 8) mod 16);
                                                      hex_char ((n / 2 ^ 4) mod 16); hex_char (n mod 16)]])%list
             else Some parts);
    if (9 <? length parts)%nat then None
    else match inner_empty parts with
    | [] =>
        if (length parts =? 8)%nat then hextets parts else None
    | [skip] =>
        let hi := take skip parts in
        let lo := drop (S skip) parts in
        hi ← (match hi with "" :: hi' => if (length hi' =? 0)%nat then Some [] else None | _ => Some hi end);
        lo ← (if String.eqb (List.last lo "x") "" then if (length lo =? 1)%nat then Some [] else None else Some lo);
        if (length hi + length lo <? 8)%nat then
          a ← hextets hi; b ← hextets lo;
          Some (a * 2 ^ (16 * N.of_nat (8 - length hi)) + b)%N
        else None
    | _ => None
    end.

Definition IPv6Address (s : string) : option N :=
  match partition "%" (chars s) with
  | (addr, None) => _ip_int_from_string (unchars addr)
  | (addr, Some scope) =>
      if (length scope =? 0)%nat || existsb (Ascii.eqb "%") scope then None else _ip_int_from_string (unchars addr)
  end.

(** [ipaddress.ip_address(s)]; [None] for ValueError. *)
Definition ip_address (s : string) : option ip :=
  if py_in "/" s then None
  else match IPv4Address s with
       | Some n => Some (V4 n)
       | None => V6 <$> IPv6Address s
       end.

(** A network: its first address and the length of its prefix. *)
Definition in_v4 (n base len : N) : bool := (N.shiftr n (32 - len) =? N.shiftr base (32 - len))%N.
Definition in_v6 (n base len : N) : bool := (N.shiftr n (128 - len) =? N.shiftr base (128 - len))%N.
Definition v4 (a b c d : N) : N := (((a * 256 + b) * 256 + c) * 256 + d)%N.
(** An IPv6 address by its first two hextets, and by its first four. *)
Definition v6 (a b : N) : N := (a * 2 ^ 112 + b * 2 ^ 96)%N.
Definition v6_4 (a b c d : N) : N := (v6 a b + c * 2 ^ 80 + d * 2 ^ 64)%N.

Inductive network := Net4 (base len : N) | Net6 (base len : N).
Definition ip_in (a : ip) (net : network) : bool :=
  match a, net with
  | V4 n, Net4 base len => in_v4 n base len
  | V6 n, Net6 base len => in_v6 n base len
  | _, _ => false
  end.

Definition ipv4_mapped (n : N) : option N := if (N.shiftr n 32 =? 65535)%N then Some (n mod 2 ^ 32)%N else None.

Definition v4_private (n : N) : bool :=
  existsb (fun '(b, l) => in_v4 n b l)
    [(v4 0 0 0 0, 8); (v4 10 0 0 0, 8); (v4 127 0 0 0, 8); (v4 169 254 0 0, 16); (v4 172 16 0 0, 12);
     (v4 192 0 0 0, 24); (v4 192 0 0 170, 31); (v4 192 0 2 0, 24); (v4 192 168 0 0, 16); (v4 198 18 0 0, 15);
     (v4 198 51 100 0, 24); (v4 203 0 113 0, 24); (v4 240 0 0 0, 4); (v4 255 255 255 255, 32)]%N
  && negb (existsb (fun '(b, l) => in_v4 n b l) [(v4 192 0 0 9, 32); (v4 192 0 0 10, 32)]%N).

Definition v6_private (n : N) : bool :=
  existsb (fun '(b, l) => in_v6 n b l)
    [(1, 128); (0, 128); (65535 * 2 ^ 32, 96); (v6_4 0x64 0xff9b 1 0, 48); (v6 0x100 0, 64); (v6 0x2001 0, 23);
     (v6 0x2001 0xdb8, 32); (v6 0x2002 0, 16); (v6 0x3fff 0, 20); (v6 0xfc00 0, 7); (v6 0xfe80 0, 10)]%N
  && negb (existsb (fun '(b, l) => in_v6 n b l)
    [(v6 0x2001 1 + 1, 128); (v6 0x2001 1 + 2, 128); (v6 0x2001 3, 32); (v6_4 0x2001 4 0x112 0, 48);
     (v6 0x2001 0x20, 28); (v6 0x2001 0x30, 28)]%N).

Definition v6_reserved (n : N) : bool :=
  existsb (fun '(b, l) => in_v6 n b l)
    [(0, 8); (v6 0x100 0, 8); (v6 0x200 0, 7); (v6 0x400 0, 6); (v6 0x800 0, 5); (v6 0x1000 0, 4); (v6 0x4000 0, 3);
     (v6 0x6000 0, 3); (v6 0x8000 0, 3); (v6 0xa000 0, 3); (v6 0xc000 0, 3); (v6 0xe000 0, 4); (v6 0xf000 0, 5);
     (v6 0xf800 0, 6); (v6 0xfe00 0, 9)]%N.

(** The predicates of an IPv4 address, and those of an IPv6 address, which a mapped IPv4 address decides. *)
Definition is_private (a : ip) : bool :=
  match a with
  | V4 n => v4_private n
  | V6 n => match ipv4_mapped n with Some m => v4_private m | None => v6_private n end
  end.
Definition is_loopback (a : ip) : bool :=
  match a with
  | V4 n => in_v4 n (v4 127 0 0 0) 8
  | V6 n => match ipv4_mapped n with Some m => in_v4 m (v4 127 0 0 0) 8 | None => (n =? 1)%N end
  end.
Definition is_link_local (a : ip) : bool :=
  match a with
  | V4 n => in_v4 n (v4 169 254 0 0) 16
  | V6 n => match ipv4_mapped n with Some m => in_v4 m (v4 169 254 0 0) 16 | None => in_v6 n (v6 0xfe80 0) 10 end
  end.
Definition is_multicast (a : ip) : bool :=
  match a with
  | V4 n => in_v4 n (v4 224 0 0 0) 4
  | V6 n => match ipv4_mapped n with Some m => in_v4 m (v4 224 0 0 0) 4 | None => in_v6 n (v6 0xff00 0) 8 end
  end.
Definition is_reserved (a : ip) : bool :=
  match a with
  | V4 n => in_v4 n (v4 240 0 0 0) 4
  | V6 n => match ipv4_mapped n with Some m => in_v4 m (v4 240 0 0 0) 4 | None => v6_reserved n end
  end.
Definition is_unspecified (a : ip) : bool :=
  match a with
  | V4 n => (n =? 0)%N
  | V6 n => match ipv4_mapped n with Some m => (m =? 0)%N | None => (n =? 0)%N end
  end.

(** ** URLs *)

Record split_result := SplitResult {
  sr_scheme : string; sr_netloc : string; sr_path : string; sr_query : string; sr_fragment : string }.

Definition is_c0_or_space (c : ascii) : bool := (code c <=? 32)%N.
Definition is_unsafe (c : ascii) : bool := let n := code c in ((n =? 9) || (n =? 10) || (n =? 13))%N.
Definition scheme_char (c : ascii) : bool :=
  is_ascii_alnum c || Ascii.eqb c "+" || Ascii.eqb c "-" || Ascii.eqb c ".".
Definition url_delimiter (c : ascii) : bool := Ascii.eqb c "/" || Ascii.eqb c "?" || Ascii.eqb c "#".

(** The text that is parsed: no leading control characters and spaces, no tabs and line ends. *)
Definition url_clean (url : string) : list ascii :=
  List.filter (fun c => negb (is_unsafe c)) (snd (break (fun c => negb (is_c0_or_space c)) (chars url))).

(** The scheme in front of the first colon, when there is one, and the rest. *)
Definition split_scheme (l : list ascii) : string * list ascii :=
  match partition ":" l with
  | (c :: s, Some rest) => if is_alpha c && forallb scheme_char (c :: s) then (lower (unchars (c :: s)), rest) else ("", l)
  | _ => ("", l)
  end.

(** [_splitnetloc] after two slashes *)
Definition split_netloc (l : list ascii) : list ascii * list ascii :=
  match l with
  | "/"%char :: "/"%char :: l' => break url_delimiter l'
  | _ => ([], l)
  end.

(** [_hostinfo]: the host and the port of a netloc. *)
Definition hostinfo (netloc : list ascii) : list ascii * option (list ascii) :=
  let info := after_last "@" netloc in
  let '(host, port) :=
    match partition "[" info with
    | (_, Some bracketed) =>
        let '(host, rest) := partition "]" bracketed in
        (host, match rest with Some r => snd (partition ":" r) | None => None end)
    | (_, None) => partition ":" info
    end in
  (host, match port with Some [] => None | p => p end).

(** [re.match(r"\Av[a-fA-F0-9]+\..+\z", host)] *)
Definition is_ipvfuture (host : list ascii) : bool :=
  match partition "." host with
  | (v :: h, Some rest) => Ascii.eqb v "v" && negb (length h =? 0)%nat && forallb (fun c => if hexd c then true else false) h
                           && negb (length rest =? 0)%nat
  | _ => false
  end.

(** [_check_bracketed_netloc], after the test that both brackets or none occur *)
Definition netloc_ok (netloc : list ascii) : bool :=
  let has c := existsb (Ascii.eqb c) netloc in
  if negb (Bool.eqb (has "["%char) (has "]"%char)) then false
  else if negb (has "["%char) then true
  else
    let info := after_last "@" netloc in
    match partition "[" info with
    | (before, Some bracketed) =>
        let '(host, rest) := partition "]" bracketed in
        let port := default [] rest in
        (length before =? 0)%nat
        && (match port with [] => true | c :: _ => Ascii.eqb c ":" end)
        && (if startswith (unchars host) "v" then is_ipvfuture host
            else match ip_address (unchars host) with Some (V6 _) => true | _ => false end)
    | (host, None) =>
        let '(host, _) := partition ":" host in
        if startswith (unchars host) "v" then is_ipvfuture host
        else match ip_address (unchars host) with Some (V6 _) => true | _ => false end
    end.

Definition urlsplit (url : string) : outcome split_result :=
  let '(scheme, l) := split_scheme (url_clean url) in
  let '(netloc, l) := split_netloc l in
  if netloc_ok netloc then
    let '(l, fragment) := partition "#" l in
    let '(path, query) := partition "?" l in
    Ok (SplitResult scheme (unchars netloc) (unchars path) (unchars (default [] query)) (unchars (default [] fragment)))
  else Raise (ValueError "Invalid IPv6 URL").

(** [.hostname]: in lower case up to a zone. *)
Definition hostname (r : split_result) : option string :=
  match fst (hostinfo (chars (sr_netloc r))) with
  | [] => None
  | host => let '(h, zone) := break (Ascii.eqb "%") host in Some (lower (unchars h) +:+ unchars zone)
  end.

(** [.port] *)
Definition port (r : split_result) : outcome (option Z) :=
  match snd (hostinfo (chars (sr_netloc r))) with
  | None => Ok None
  | Some p =>
      if forallb is_digit p then
        if (dec_value p <=? 65535)%N then Ok (Some (Z.of_N (dec_value p))) else Raise (ValueError "Port out of range 0-65535")
      else Raise (ValueError "Port could not be cast to integer value")
  end.

(** [urlparse] splits parameters off the path: the rest is the same. *)
Definition url_hostname (url : string) : outcome (option string) := r ← urlsplit url; Ok (hostname r).
