(* ===== verification/Constraints.v ===== *)
(** * Grant constraints (mcp_server/policy/constraints.py)

    The sliding-window rate limiter and the time window the MCP server
    evaluates before it asks for a token.  The limiter is compared with a
    specification that keeps every admitted request and counts. *)

From Stdlib Require Import QArith Lqa.
From S2P Require Import Prelude PyStr PyJson PyJsonFacts PyTime PyFloat PyText.

Local Open Scope string_scope.

(** ** The rate limiter *)

(** [RateLimiter._buckets]: the admitted times of each key that have not expired. *)
Abbreviation buckets := (gmap string (list Q)) (only parsing).

(** [while bucket and bucket[0] <= cutoff: bucket.popleft()] *)
Fixpoint pop_expired (cutoff : Q) (bucket : list Q) : list Q :=
  match bucket with
  | t :: rest => if Qle_bool t cutoff then pop_expired cutoff rest else bucket
  | [] => []
  end.

Definition window_of (requests_per_second burst : Z) : outcome Q :=
  if (0 <? requests_per_second)%Z then int_truediv burst requests_per_second else float_of_int burst.

(** [RateLimiter.check] at the time [now] of the process's clock. *)
Definition check (now : Q) (key : string) (requests_per_second burst : Z) (b : buckets) : outcome (bool * buckets) :=
  window ← window_of requests_per_second burst;
  let bucket := default [] (b !! key) in
  let cutoff := float_sub now window in
  let bucket := pop_expired cutoff bucket in
  if (burst <=? Z.of_nat (length bucket))%Z then Ok (false, <[key := bucket]> b)
  else Ok (true, <[key := (bucket ++ [now])%list]> b).

(** A JSON value used as an int. *)
Definition py_int (j : json) : outcome Z :=
  match j with
  | JInt z => Ok z
  | JBool b => Ok (if b then 1 else 0)%Z
  | _ => Raise (TypeError "unsupported operand type")
  end.

(** [constraint.get(k, default)] *)
Definition json_get (k : string) (dflt : json) (j : json) : outcome json :=
  match j with
  | JObj d => Ok (default dflt (dict_get k d))
  | _ => Raise (AttributeError "object has no attribute 'get'")
  end.

(** The pair [(allowed, reason_code)] and the limiter's new state. *)
Definition evaluate_rate_limit (now : Q) (limiter : buckets) (key : string) (constraint : json)
    : outcome ((bool * string) * buckets) :=
  rps ← json_get "requests_per_second" (JInt 10) constraint;
  burst ← json_get "burst" (JInt 20) constraint;
  rps ← py_int rps; burst ← py_int burst;
  '(allowed, limiter) ← check now key rps burst limiter;
  Ok ((if allowed : bool then (true, "") else (false, "constraint_failed:rate_limit")), limiter).

(** ** Specification of the limiter *)

(** One check: its time and key. *)
Abbreviation request := (Q * string)%type (only parsing).

Section Limiter.
(** The parameters of the grant behind each key. *)
Context (rps burst : string -> Z).

(** The results of a sequence of checks, and the final state; a raising check changes nothing. *)
Fixpoint run {R S} (step : R -> S -> outcome (bool * S)) (s : S) (l : list R) : list (outcome bool) * S :=
  match l with
  | [] => ([], s)
  | r :: l' =>
      match step r s with
      | Ok (b, s1) => let (rs, s2) := run step s1 l' in (Ok b :: rs, s2)
      | Raise e => let (rs, s2) := run step s l' in (Raise e :: rs, s2)
      end
  end.

Definition check_step (r : request) (b : buckets) : outcome (bool * buckets) :=
  check (fst r) (snd r) (rps (snd r)) (burst (snd r)) b.

Definition later_than (cutoff t : Q) : bool := negb (Qle_bool t cutoff).

(** The specification: every admitted time of every key, and a request is admitted when fewer than
    [burst] of them lie after the cutoff. *)
Definition spec_step (r : request) (log : string -> list Q) : outcome (bool * (string -> list Q)) :=
  let '(now, key) := r in
  window ← window_of (rps key) (burst key);
  if (Z.of_nat (length (List.filter (later_than (float_sub now window)) (log key))) <? burst key)%Z
  then Ok (true, fun k => if String.eqb k key then (log key ++ [now])%list else log k)
  else Ok (false, log).

Definition no_log : string -> list Q := fun _ => [].

(** The clock does not go back. *)
Definition clock_ok (l : list request) : Prop := StronglySorted Qle (map fst l).

(** The times of the admitted requests of a key. *)
Fixpoint admitted (key : string) (l : list request) (rs : list (outcome bool)) : list Q :=
  match l, rs with
  | (t, k) :: l', r :: rs' =>
      if String.eqb k key && match r with Ok true => true | _ => false end
      then t :: admitted key l' rs' else admitted key l' rs'
  | _, _ => []
  end.
End Limiter.

(** ** The limiter implements the specification *)

Lemma Qle_bool_false x y : Qle_bool x y = false <-> (y < x)%Q.
Proof.
  rewrite <- not_true_iff_false, Qle_bool_iff. split; [apply Qnot_le_lt|]. intros H C. lra.
Qed.

Lemma later_than_spec c t : later_than c t = true <-> (c < t)%Q.
Proof. unfold later_than. rewrite negb_true_iff. apply Qle_bool_false. Qed.

(** On times in order the loop keeps the later ones. *)
Lemma pop_expired_filter c l : StronglySorted Qle l -> pop_expired c l = List.filter (later_than c) l.
Proof.
  induction 1 as [|t l Hs IH Ht]; simpl; [done|]. unfold later_than at 1.
  destruct (Qle_bool t c) eqn:Et; cbn [negb]; [done|]. symmetry. f_equal. apply filter_all.
  intros u Hu. rewrite List.Forall_forall in Ht. apply later_than_spec. apply Qle_bool_false in Et.
  specialize (Ht u Hu). lra.
Qed.

Lemma filter_later_drop c dropped l :
  Forall (fun t => t <= c)%Q dropped -> List.filter (later_than c) (dropped ++ l) = List.filter (later_than c) l.
Proof.
  intros H. rewrite List.filter_app. rewrite (filter_none _ dropped); [done|]. intros t Ht.
  rewrite Forall_forall in H. apply list_elem_of_In, H in Ht. unfold later_than. by rewrite (proj2 (Qle_bool_iff _ _) Ht).
Qed.

Lemma sorted_snoc l t : StronglySorted Qle l -> Forall (fun u => u <= t)%Q l -> StronglySorted Qle (l ++ [t]).
Proof.
  induction 1 as [|a l Hs IH Ha]; simpl; intros H; [by repeat constructor|].
  apply Forall_cons in H as [H1 H2]. constructor; [by apply IH|]. apply List.Forall_app. split; [done|].
  by repeat constructor.
Qed.

Lemma sorted_suffix l k : StronglySorted Qle (l ++ k) -> StronglySorted Qle k.
Proof. induction l as [|a l IH]; simpl; [done|]. intros H. inversion H; subst. by apply IH. Qed.

Section LimiterProofs.
Context (rps burst : string -> Z).

(** The bucket of a key is what is left of its log once expired times are dropped. *)
Definition represents (now : Q) (b : buckets) (log : string -> list Q) : Prop := forall key,
  exists dropped, log key = (dropped ++ default [] (b !! key))%list /\
    StronglySorted Qle (log key) /\ Forall (fun t => t <= now)%Q (log key) /\
    forall w, window_of (rps key) (burst key) = Ok w -> Forall (fun t => t <= float_sub now w)%Q dropped.

Lemma represents_later now now' b log : (now <= now')%Q -> represents now b log -> represents now' b log.
Proof.
  intros Hle H key. destruct (H key) as (dropped & E & Hs & Hn & Hd). exists dropped. split; [done|]. split; [done|].
  split; [eapply Forall_impl; [exact Hn|]; simpl; intros; lra|]. intros w Hw. eapply Forall_impl; [by apply Hd|].
  simpl. intros t Ht. pose proof (float_sub_mono now now' w Hle). lra.
Qed.

(** One check of the limiter is one step of the specification. *)
Lemma check_spec now key b log :
  represents now b log ->
  match check_step rps burst (now, key) b, spec_step rps burst (now, key) log with
  | Ok (r, b'), Ok (r', log') => r = r' /\ represents now b' log'
  | Raise e, Raise e' => e = e'
  | _, _ => False
  end.
Proof.
  intros H. unfold check_step, check, spec_step. cbn [fst snd].
  destruct (window_of _ _) as [w|e] eqn:Ew; cbn [mbind outcome_bind]; [|done].
  destruct (H key) as (dropped & E & Hs & Hn & Hd). specialize (Hd w Ew).
  set (c := float_sub now w). set (old := default [] (b !! key)) in *.
  assert (Hpop : pop_expired c old = List.filter (later_than c) (log key)).
  { rewrite E, filter_later_drop by done. apply pop_expired_filter. rewrite E in Hs. by eapply sorted_suffix. }
  assert (Hsplit : exists d2, log key = (d2 ++ pop_expired c old)%list /\ Forall (fun t => t <= c)%Q d2).
  { assert (exists d2, old = (d2 ++ pop_expired c old)%list /\ Forall (fun t => t <= c)%Q d2) as (d2 & E2 & F2).
    { clear. induction old as [|t l IH]; simpl; [by exists []|]. destruct (Qle_bool t c) eqn:Et; [|by exists []].
      destruct IH as (d2 & E2 & F2). exists (t :: d2). rewrite E2 at 1. split; [done|]. constructor; [|done].
      by apply Qle_bool_iff. }
    exists (dropped ++ d2)%list. split; [rewrite E, <- app_assoc; f_equal; exact E2|]. apply Forall_app. by split. }
  destruct Hsplit as (d2 & E2 & F2). rewrite <- Hpop. set (p := pop_expired c old) in *.
  assert (Hother : forall v k, k <> key -> exists dr, log k = (dr ++ default [] (<[key := v]> b !! k))%list /\
    StronglySorted Qle (log k) /\ Forall (fun t => t <= now)%Q (log k) /\
    forall w, window_of (rps k) (burst k) = Ok w -> Forall (fun t => t <= float_sub now w)%Q dr).
  { intros v k Hk. rewrite lookup_insert_ne by done. apply H. }
  assert (Hdrop : forall w', window_of (rps key) (burst key) = Ok w' -> Forall (fun t => t <= float_sub now w')%Q d2).
  { intros w' Hw'. rewrite Ew in Hw'. injection Hw' as <-. exact F2. }
  destruct (Z.leb_spec (burst key) (Z.of_nat (length p))), (Z.ltb_spec (Z.of_nat (length p)) (burst key)); try lia.
  - split; [done|]. intros k. destruct (String.eqb_spec k key) as [->|Hk]; [|by apply Hother].
    exists d2. rewrite lookup_insert_eq. done.
  - split; [done|]. intros k. destruct (String.eqb_spec k key) as [->|Hk]; [|by apply Hother].
    exists d2. rewrite lookup_insert_eq. cbn [default from_option id]. split; [rewrite E2 at 1; by rewrite <- app_assoc|].
    split; [by apply sorted_snoc|]. split; [|done]. apply Forall_app. split; [done|]. constructor; [lra|constructor].
Qed.

Lemma run_agree l : forall now b log, Forall (fun t => now <= t)%Q (map fst l) -> clock_ok l ->
  represents now b log ->
  fst (run (check_step rps burst) b l) = fst (run (spec_step rps burst) log l).
Proof.
  induction l as [|[t key] l IH]; intros now b log Hn Hc Hr; [done|].
  apply Forall_cons in Hn as [Ht Hn]. apply StronglySorted_inv in Hc as [Hc Hall]. cbn [map fst] in *.
  apply (represents_later _ t) in Hr; [|done]. pose proof (check_spec t key b log Hr) as Hck.
  assert (Hall2 : Forall (fun u => t <= u)%Q (map fst l)) by (rewrite Forall_forall; intros u Hu; rewrite List.Forall_forall in Hall; apply Hall; by apply list_elem_of_In).
  cbn [run]. destruct (check_step rps burst (t, key) b) as [[r b1]|e], (spec_step rps burst (t, key) log) as [[r' log1]|e'];
    try contradiction.
  - destruct Hck as [<- Hr1]. specialize (IH t b1 log1 Hall2 Hc Hr1).
    destruct (run _ b1 l), (run _ log1 l). cbn [fst] in *. by rewrite IH.
  - subst e'. specialize (IH t b log Hall2 Hc Hr). destruct (run _ b l), (run _ log l). cbn [fst] in *. by rewrite IH.
Qed.

Lemma represents_empty now : represents now ∅ no_log.
Proof. intros key. exists []. rewrite lookup_empty. repeat split; constructor. Qed.

(** With unchanging parameters per key, and a clock that does not go back, the limiter answers
    like the specification. *)
Lemma fixed_limits_window l :
  clock_ok l ->
  fst (run (check_step rps burst) ∅ l) = fst (run (spec_step rps burst) no_log l).
Proof.
  intros Hc. destruct l as [|[t key] l]; [done|].
  apply (run_agree _ t); [|done|apply represents_empty].
  pose proof Hc as Hc'. apply StronglySorted_inv in Hc' as [_ Hall]. cbn [map fst]. constructor; [lra|].
  rewrite Forall_forall. intros u Hu. rewrite List.Forall_forall in Hall. apply Hall. by apply list_elem_of_In.
Qed.
End LimiterProofs.

(** ** Grants that share a key *)

Lemma run_snoc {R S} (step : R -> S -> outcome (bool * S)) s l r :
  exists s1, run step s (l ++ [r])%list =
    ((fst (run step s l) ++ fst (run step s1 [r]))%list, snd (run step s1 [r])) /\ s1 = snd (run step s l).
Proof.
  revert s. induction l as [|a l IH]; intros s; cbn [app].
  - exists s. cbn [run fst snd app]. by destruct (step r s) as [[b s1]|e].
  - cbn [run]. destruct (step a s) as [[b s1]|e].
    + destruct (IH s1) as (s2 & E & ->). rewrite E. by destruct (run step s1 l); eexists.
    + destruct (IH s) as (s2 & E & ->). rewrite E. by destruct (run step s l); eexists.
Qed.

Lemma length_run {R S} (step : R -> S -> outcome (bool * S)) s l : length (fst (run step s l)) = length l.
Proof.
  revert s. induction l as [|a l IH]; intros s; cbn [run]; [done|].
  destruct (step a s) as [[b s1]|e]; [specialize (IH s1); by destruct (run step s1 l); cbn in *; rewrite IH|].
  specialize (IH s). by destruct (run step s l); cbn in *; rewrite IH.
Qed.

(** The arguments of one call of [check]; grants with different limits may share a key. *)
Record check_args := CheckArgs { ca_now : Q; ca_key : string; ca_rps : Z; ca_burst : Z }.

Definition check_call (c : check_args) (b : buckets) : outcome (bool * buckets) :=
  check (ca_now c) (ca_key c) (ca_rps c) (ca_burst c) b.

Definition cutoff_of (c : check_args) : outcome Q :=
  window ← window_of (ca_rps c) (ca_burst c); Ok (float_sub (ca_now c) window).

(** The time [t] lies after the cutoff of every call of [l] for the key. *)
Definition survives (key : string) (l : list check_args) (t : Q) : bool :=
  forallb (fun c => negb (String.eqb (ca_key c) key) ||
                    match cutoff_of c with Ok cut => later_than cut t | Raise _ => true end) l.

(** The times of the calls of the key that were admitted according to [rs] and lie after the
    cutoff of every later call of the key. *)
Fixpoint live (key : string) (l : list check_args) (rs : list (outcome bool)) : list Q :=
  match l, rs with
  | c :: l', r :: rs' =>
      if String.eqb (ca_key c) key && match r with Ok true => true | _ => false end
         && survives key l' (ca_now c)
      then ca_now c :: live key l' rs' else live key l' rs'
  | _, _ => []
  end.

Lemma survives_snoc key l c t :
  survives key (l ++ [c]) t =
    survives key l t && (negb (String.eqb (ca_key c) key) ||
                         match cutoff_of c with Ok cut => later_than cut t | Raise _ => true end).
Proof. unfold survives. rewrite forallb_app. cbn [forallb]. by rewrite andb_true_r. Qed.

Lemma live_snoc key l c rs r : length rs = length l ->
  live key (l ++ [c]) (rs ++ [r]) =
    (live key (l ++ [c]) rs ++
     if String.eqb (ca_key c) key && match r with Ok true => true | _ => false end then [ca_now c] else [])%list.
Proof.
  revert rs. induction l as [|d l IH]; intros [|r' rs] H; try discriminate; cbn [app live].
  - cbn [survives forallb]. rewrite andb_true_r. by destruct (_ && _).
  - injection H as H. rewrite (IH rs H). by destruct (_ && _ && _).
Qed.

(** A call drops the times of its key up to its cutoff. *)
Lemma live_later key l c rs : (length rs <= length l)%nat ->
  live key (l ++ [c]) rs =
    List.filter (fun t => negb (String.eqb (ca_key c) key) ||
                          match cutoff_of c with Ok cut => later_than cut t | Raise _ => true end) (live key l rs).
Proof.
  revert rs. induction l as [|d l IH]; intros [|r rs] H; cbn [length] in H; try lia; try done.
  cbn [app live]. rewrite survives_snoc, IH by lia.
  destruct (String.eqb (ca_key d) key && _); cbn [andb]; [|done].
  destruct (survives key l (ca_now d)); cbn [andb]; [|done]. cbn [List.filter]. by destruct (_ || _).
Qed.

Lemma live_sublist key l rs : sublist (live key l rs) (map ca_now l).
Proof.
  revert rs. induction l as [|c l IH]; intros rs; [by destruct rs|]. destruct rs as [|r rs]; cbn [live map].
  - apply sublist_nil_l.
  - destruct (_ && _ && _); [apply sublist_skip, IH|apply sublist_cons, IH].
Qed.

Lemma filter_sublist {A} (f : A -> bool) l k : sublist l k -> sublist (List.filter f l) (List.filter f k).
Proof.
  induction 1 as [|x l k H IH|x l k H IH]; cbn [List.filter]; [done|..]; destruct (f x); auto;
    first [by apply sublist_skip | by apply sublist_cons].
Qed.

Lemma pop_expired_sublist c l : sublist (List.filter (later_than c) l) (pop_expired c l).
Proof.
  induction l as [|t l IH]; cbn [pop_expired List.filter]; [done|]. unfold later_than at 1.
  destruct (Qle_bool t c); cbn [negb]; [done|]. apply sublist_skip.
  clear IH. induction l as [|u l IH]; cbn [List.filter]; [done|].
  destruct (later_than c u); [by apply sublist_skip|by apply sublist_cons].
Qed.

Lemma sorted_sublist l k : sublist l k -> StronglySorted Qle k -> StronglySorted Qle l.
Proof.
  induction 1 as [|x l k H IH|x l k H IH]; intros Hs; [done|..]; apply StronglySorted_inv in Hs as [Hs Hx].
  - constructor; [by apply IH|]. rewrite List.Forall_forall in *. intros y Hy. apply Hx.
    apply list_elem_of_In. apply list_elem_of_In in Hy. by eapply elem_of_sublist.
  - by apply IH.
Qed.

(** One call on a bucket that holds at least the live times, or exactly these. *)
Lemma check_call_live l c b rs :
  length rs = length l -> (forall key, sublist (live key l rs) (default [] (b !! key))) ->
  match cutoff_of c with
  | Raise e => check_call c b = Raise e
  | Ok _ => exists ok b', check_call c b = Ok (ok, b') /\
      (ok = true -> Z.of_nat (length (live (ca_key c) (l ++ [c]) rs)) < ca_burst c)%Z /\
      (forall key, sublist (live key (l ++ [c]) (rs ++ [Ok ok])) (default [] (b' !! key))) /\
      (StronglySorted Qle (map ca_now l) -> (forall key, default [] (b !! key) = live key l rs) ->
       ok = (Z.of_nat (length (live (ca_key c) (l ++ [c]) rs)) <? ca_burst c)%Z /\
       forall key, default [] (b' !! key) = live key (l ++ [c]) (rs ++ [Ok ok]))
  end.
Proof.
  intros Hlen Hsub. unfold check_call, check.
  assert (Hcut : cutoff_of c = (w ← window_of (ca_rps c) (ca_burst c); Ok (float_sub (ca_now c) w))) by done.
  destruct (window_of _ _) as [w|e]; cbn [mbind outcome_bind] in *; rewrite Hcut; [|done].
  set (cut := float_sub (ca_now c) w) in *.
  set (p := pop_expired cut (default [] (b !! ca_key c))).
  assert (Hlive : live (ca_key c) (l ++ [c]) rs = List.filter (later_than cut) (live (ca_key c) l rs)).
  { rewrite live_later by lia. rewrite Hcut, String.eqb_refl. done. }
  assert (Hother : forall key, ca_key c <> key -> live key (l ++ [c]) rs = live key l rs).
  { intros key Hk. rewrite live_later by lia. rewrite (proj2 (String.eqb_neq _ _) Hk). by apply filter_all. }
  assert (Hp : sublist (live (ca_key c) (l ++ [c]) rs) p).
  { rewrite Hlive. etransitivity; [apply filter_sublist, Hsub|apply pop_expired_sublist]. }
  assert (Hpe : StronglySorted Qle (map ca_now l) -> default [] (b !! ca_key c) = live (ca_key c) l rs ->
                p = live (ca_key c) (l ++ [c]) rs).
  { intros Hs He. unfold p. rewrite He, Hlive. apply pop_expired_filter.
    eapply sorted_sublist; [apply live_sublist|done]. }
  pose proof (sublist_length _ _ Hp) as Hle.
  set (ok := negb (ca_burst c <=? Z.of_nat (length p))%Z). exists ok.
  exists (<[ca_key c := if ok then (p ++ [ca_now c])%list else p]> b). split.
  { unfold ok. by destruct (_ <=? _)%Z. }
  assert (Hkey : forall key (P : list Q -> list Q -> Prop),
    P (live (ca_key c) (l ++ [c]) (rs ++ [Ok ok])) (if ok then (p ++ [ca_now c])%list else p) ->
    (ca_key c <> key -> P (live key l rs) (default [] (b !! key))) ->
    P (live key (l ++ [c]) (rs ++ [Ok ok]))
      (default [] (<[ca_key c := if ok then (p ++ [ca_now c])%list else p]> b !! key))).
  { intros key P H1 H2. destruct (String.eqb_spec (ca_key c) key) as [<-|Hk]; [by rewrite lookup_insert_eq|].
    rewrite lookup_insert_ne, live_snoc, Hother by done. rewrite (proj2 (String.eqb_neq _ _) Hk). cbn [andb].
    rewrite app_nil_r. by apply H2. }
  assert (Hnew : live (ca_key c) (l ++ [c]) (rs ++ [Ok ok]) =
                 (live (ca_key c) (l ++ [c]) rs ++ if ok then [ca_now c] else [])%list).
  { rewrite live_snoc, String.eqb_refl by done. by destruct ok. }
  split; [|split].
  - unfold ok. destruct (Z.leb_spec (ca_burst c) (Z.of_nat (length p))); [done|]. lia.
  - intros key. apply (Hkey key sublist); [|auto]. rewrite Hnew.
    destruct ok; [by apply sublist_app|by rewrite app_nil_r].
  - intros Hs He. specialize (Hpe Hs (He _)). split.
    + unfold ok. rewrite <- Hpe. symmetry. apply Z.ltb_antisym.
    + intros key. apply (Hkey key (fun x y => y = x)); [|auto]. rewrite Hnew, <- Hpe.
      destruct ok; [done|by rewrite app_nil_r].
Qed.

Lemma sorted_prefix l k : StronglySorted Qle (l ++ k)%list -> StronglySorted Qle l.
Proof. apply sorted_sublist, sublist_inserts_r. reflexivity. Qed.

(** The buckets after a sequence of calls. *)
Lemma run_live l :
  (forall key, sublist (live key l (fst (run check_call ∅ l))) (default [] (snd (run check_call ∅ l) !! key))) /\
  (StronglySorted Qle (map ca_now l) ->
   forall key, default [] (snd (run check_call ∅ l) !! key) = live key l (fst (run check_call ∅ l))).
Proof.
  induction l as [|c l [IHs IHe]] using rev_ind; [by split; [intros key|intros _ key]; cbn [run snd]; rewrite lookup_empty|].
  destruct (run_snoc check_call ∅ l c) as (b & E & Eb). rewrite E. cbn [fst snd]. rewrite <- Eb in IHs, IHe.
  pose proof (check_call_live l c b _ (length_run _ _ _) IHs) as Hc. rewrite map_app.
  destruct (cutoff_of c) as [cut|e] eqn:Ecut; cbn [run].
  - destruct Hc as (ok & b' & -> & _ & Hs & He). cbn [fst snd]. split; [done|].
    intros Hso. apply sorted_prefix in Hso. apply He; auto.
  - rewrite Hc. cbn [fst snd].
    assert (Hl : forall key, live key (l ++ [c]) (fst (run check_call ∅ l) ++ [Raise e]) =
                             live key l (fst (run check_call ∅ l))).
    { intros key. rewrite live_snoc by apply length_run. rewrite andb_false_r, app_nil_r.
      rewrite live_later by (rewrite length_run; lia). rewrite Ecut. apply filter_all. intros t _. apply orb_true_r. }
    split; [intros key; by rewrite Hl|]. intros Hso key. rewrite Hl. apply IHe. by apply sorted_prefix in Hso.
Qed.

(** C36: The limiter implements its window.  After any calls [l] of [check], for whatever keys
    and with whatever limits per call, a call whose window is defined is admitted only if fewer
    than its burst admitted calls of its key are live, that is, lie after its cutoff and the
    cutoff of every call of the key since; and as long as the clock ([time.time()]) has not
    gone back between the calls, it is admitted exactly then: the expired times that the code
    forgets never matter.  Cutoffs are the binary64 differences that the code computes. *)
Theorem limiter_implements_window l c :
  exists r, fst (run check_call ∅ (l ++ [c])) = (fst (run check_call ∅ l) ++ [r])%list /\
  let n := Z.of_nat (length (live (ca_key c) (l ++ [c]) (fst (run check_call ∅ l)))) in
  match cutoff_of c with
  | Raise e => r = Raise e
  | Ok _ => exists ok, r = Ok ok /\ (ok = true -> (n < ca_burst c)%Z) /\
                       (StronglySorted Qle (map ca_now l) -> ok = (n <? ca_burst c)%Z)
  end.
Proof.
  destruct (run_live l) as [IHs IHe].
  destruct (run_snoc check_call ∅ l c) as (b & E & Eb). rewrite E. cbn [fst snd]. rewrite <- Eb in IHs, IHe.
  pose proof (check_call_live l c b _ (length_run _ _ _) IHs) as Hc.
  destruct (cutoff_of c) as [cut|e] eqn:Ecut; cbn [run].
  - destruct Hc as (ok & b' & -> & Hb & _ & He). cbn [fst]. exists (Ok ok). split; [done|].
    exists ok. split; [done|]. split; [done|]. intros Hs. by apply He; auto.
  - rewrite Hc. by exists (Raise e).
Qed.

(** Two grants of one key: the second has a shorter window and a lower burst. *)
Lemma limiter_implements_window_witness :
  let l := [CheckArgs 0 "a" 1 2; CheckArgs 1 "a" 1 1; CheckArgs 1 "a" 1 2; CheckArgs (5 # 2) "a" 1 3]%Q in
  let c := CheckArgs (5 # 2) "a" 1 2 in
  fst (run check_call ∅ l) = [Ok true; Ok true; Ok true; Ok true] /\
  live "a" (l ++ [c]) (fst (run check_call ∅ l)) = [1; 1; 5 # 2]%Q /\
  fst (run check_call ∅ (l ++ [c])) = [Ok true; Ok true; Ok true; Ok true; Ok false].
Proof.
  intros l c. assert (Hs : StronglySorted Qle (map ca_now l)) by (repeat constructor; vm_compute; discriminate).
  assert (El : fst (run check_call ∅ l) = [Ok true; Ok true; Ok true; Ok true]) by (vm_compute; reflexivity).
  assert (Ev : live "a" (l ++ [c]) (fst (run check_call ∅ l)) = [1; 1; 5 # 2]%Q) by (vm_compute; reflexivity).
  split; [exact El|]. split; [exact Ev|].
  destruct (limiter_implements_window l c) as (r & -> & Hr). change (ca_key c) with "a" in Hr. rewrite Ev in Hr.
  change (match cutoff_of c with Ok _ => exists ok, r = Ok ok /\ (ok = true -> (3 < 2)%Z) /\
    (StronglySorted Qle (map ca_now l) -> ok = (3 <? 2)%Z) | Raise e => r = Raise e end) in Hr.
  assert (Hcut : exists q, cutoff_of c = Ok q) by (eexists; vm_compute; reflexivity).
  destruct Hcut as [q Hq]. rewrite Hq in Hr. destruct Hr as (ok & -> & _ & Hok). by rewrite El, (Hok Hs).
Defined.

(** ** What the window bounds *)

Section WindowBound.
Context (rps burst : string -> Z).

Lemma admitted_snoc key l t k rs r : length rs = length l ->
  admitted key (l ++ [(t, k)]) (rs ++ [r]) =
    (admitted key l rs ++ if String.eqb k key && match r with Ok true => true | _ => false end then [t] else [])%list.
Proof.
  revert rs. induction l as [|[t' k'] l IH]; intros [|r' rs] H; try discriminate; cbn [app admitted].
  - destruct (String.eqb k key), r as [[]|]; reflexivity.
  - injection H as H. rewrite (IH rs H). destruct (String.eqb k' key), r' as [[]|]; reflexivity.
Qed.

(** The log holds the admitted times. *)
Lemma spec_log l : forall key,
  snd (run (spec_step rps burst) no_log l) key = admitted key l (fst (run (spec_step rps burst) no_log l)).
Proof.
  induction l as [|[t k] l IH] using rev_ind; intros key; [done|].
  destruct (run_snoc (spec_step rps burst) no_log l (t, k)) as (s1 & E & Es). rewrite E. cbn [fst snd].
  cbn [run]. unfold spec_step at 1 3. destruct (window_of _ _) as [w|e]; cbn [mbind outcome_bind].
  - set (ok := (_ <? _)%Z). destruct ok; cbn [fst snd]; rewrite admitted_snoc by apply length_run.
    + rewrite andb_true_r. rewrite (String.eqb_sym key k). destruct (String.eqb_spec k key) as [->|]; subst s1;
        rewrite IH; [done|by rewrite app_nil_r].
    + rewrite andb_false_r, app_nil_r. subst s1. by rewrite IH.
  - cbn [fst snd]. rewrite admitted_snoc by apply length_run. rewrite andb_false_r, app_nil_r. subst s1. by rewrite IH.
Qed.

Lemma filter_later_mono c c' l : (c <= c')%Q ->
  (length (List.filter (later_than c') l) <= length (List.filter (later_than c) l))%nat.
Proof.
  intros H. induction l as [|t l IH]; simpl; [lia|].
  destruct (later_than c' t) eqn:E'; [|destruct (later_than c t); simpl; lia].
  apply later_than_spec in E'. rewrite (proj2 (later_than_spec c t)) by lra. simpl. lia.
Qed.

Lemma clock_snoc l r : clock_ok (l ++ [r]) -> clock_ok l /\ Forall (fun t => t <= fst r)%Q (map fst l).
Proof.
  unfold clock_ok. rewrite map_app. generalize (map fst l). cbn [map]. intros k.
  induction k as [|a k IH]; cbn [app]; intros H; [split; constructor|]. apply StronglySorted_inv in H as [H Ha].
  destruct (IH H) as [H1 H2]. apply List.Forall_app in Ha as [Ha Hl].
  split; [by constructor|]. constructor; [by apply List.Forall_inv in Hl|done].
Qed.

Definition in_window (now w : Q) (key : string) (l : list request) : list Q :=
  List.filter (later_than (float_sub now w)) (admitted key l (fst (run (check_step rps burst) ∅ l))).

(** However the checks are made, at most [burst] requests of a key are admitted in the window that
    ends at any later instant. *)
Theorem rate_limit_bound l now key w :
  clock_ok l -> Forall (fun t => t <= now)%Q (map fst l) -> window_of (rps key) (burst key) = Ok w ->
  (Z.of_nat (length (in_window now w key l)) <= Z.max 0 (burst key))%Z.
Proof.
  intros Hc Hn Hw. unfold in_window. rewrite fixed_limits_window by done. revert now Hn.
  induction l as [|[t k] l IH] using rev_ind; intros now Hn; [cbn; lia|].
  destruct (clock_snoc _ _ Hc) as [Hcl Hlt]. specialize (IH Hcl). cbn [fst] in Hlt.
  rewrite map_app, Forall_app in Hn. destruct Hn as [Hnl Hnt]. apply Forall_cons in Hnt as [Hnt _]. cbn [fst] in Hnt.
  destruct (run_snoc (spec_step rps burst) no_log l (t, k)) as (s1 & E & Es). rewrite E. cbn [fst].
  destruct (fst (run (spec_step rps burst) s1 [(t, k)])) as [|r [|? ?]] eqn:Er;
    pose proof (length_run (spec_step rps burst) s1 [(t, k)]) as Hl; rewrite Er in Hl; try discriminate Hl.
  rewrite admitted_snoc by apply length_run.
  destruct (String.eqb_spec k key) as [->|]; cbn [andb]; [|rewrite app_nil_r; by apply IH].
  destruct r as [[]|]; [|rewrite app_nil_r; by apply IH..].
  rewrite List.filter_app, length_app, <- spec_log, <- Es.
  cbn [run spec_step] in Er. rewrite Hw in Er. cbn [mbind outcome_bind] in Er.
  destruct (Z.ltb_spec (Z.of_nat (length (List.filter (later_than (float_sub t w)) (s1 key)))) (burst key)) as [Hlt2|];
    [|discriminate].
  pose proof (filter_later_mono _ _ (s1 key) (float_sub_mono t now w Hnt)).
  pose proof (filter_length_le (later_than (float_sub now w)) [t]). cbn [length] in *. lia.
Qed.

(** A key is never blocked for good: once a whole window has passed since its last admitted
    request the next check is admitted. *)
Theorem rate_limit_recovers l now key w :
  clock_ok (l ++ [(now, key)]) -> window_of (rps key) (burst key) = Ok w -> (0 < burst key)%Z ->
  Forall (fun t => t <= float_sub now w)%Q (admitted key l (fst (run (check_step rps burst) ∅ l))) ->
  exists rs, fst (run (check_step rps burst) ∅ (l ++ [(now, key)])) = (rs ++ [Ok true])%list.
Proof.
  intros Hc Hw Hb Hold. destruct (clock_snoc _ _ Hc) as [Hcl _].
  rewrite fixed_limits_window in Hold |- * by done.
  destruct (run_snoc (spec_step rps burst) no_log l (now, key)) as (s1 & E & Es). rewrite E. cbn [fst].
  eexists. f_equal. cbn [run spec_step]. rewrite Hw. cbn [mbind outcome_bind].
  subst s1. rewrite spec_log. rewrite filter_none.
  - destruct (Z.ltb_spec (Z.of_nat (length (@nil Q))) (burst key)) as [|C]; [reflexivity|]. simpl in C. lia.
  - intros t Ht. rewrite Forall_forall in Hold. apply list_elem_of_In, Hold in Ht. unfold later_than.
    by rewrite (proj2 (Qle_bool_iff _ _) Ht).
Qed.
End WindowBound.

Lemma rate_limit_bound_witness :
  let rps := fun _ : string => 1%Z in let burst := fun _ : string => 2%Z in
  let l := [(0%Q, "a"); (1%Q, "a"); (3 # 2, "a"); (5 # 2, "a")]%Q in
  (Z.of_nat (length (in_window rps burst (5 # 2) 2 "a" l)) <= Z.max 0 (burst "a"))%Z.
Proof.
  intros rps burst l. apply (rate_limit_bound rps burst l (5 # 2) "a" 2).
  - repeat constructor; vm_compute; discriminate.
  - repeat constructor; vm_compute; discriminate.
  - vm_compute. reflexivity.
Defined.

Lemma rate_limit_recovers_witness :
  let rps := fun _ : string => 1%Z in let burst := fun _ : string => 2%Z in
  exists rs, fst (run (check_step rps burst) ∅ ([(0%Q, "a"); (1%Q, "a"); (3 # 2, "a")] ++ [(4%Q, "a")])) = (rs ++ [Ok true])%list.
Proof.
  intros rps burst. apply (rate_limit_recovers rps burst _ 4 "a" 2).
  - repeat constructor; vm_compute; discriminate.
  - vm_compute. reflexivity.
  - reflexivity.
  - repeat constructor; vm_compute; discriminate.
Defined.

(** ** The time window *)

(** The IANA time zones: the offset from UTC of a zone at an instant, in microseconds. *)
Class Zones := zone_offset : string -> option (Z -> Z).

(** [ZoneInfo(key)] *)
Definition ZoneInfo `{Zones} (key : json) : outcome (Z -> Z) :=
  match key with
  | JStr name => match zone_offset name with
                 | Some f => Ok f
                 | None => Raise (KeyError ("No time zone found with key " +:+ name))
                 end
  | _ => Raise (TypeError "expected str")
  end.

(** [d[k]] *)
Definition json_item (k : string) (j : json) : outcome json :=
  match j with
  | JObj d => match dict_get k d with Some v => Ok v | None => Raise (KeyError k) end
  | _ => Raise (TypeError "indices must be integers")
  end.

Lemma json_get_wf k dflt j v : json_wf j -> json_wf dflt -> json_get k dflt j = Ok v -> json_wf v.
Proof.
  intros Hj Hd. destruct j; try done. cbn [json_get]. intros H. apply Ok_inj in H. subst v.
  destruct (dict_get k _) as [v|] eqn:Eg; [|done]. by apply dict_get_wf in Eg.
Qed.
Lemma json_item_wf k j v : json_wf j -> json_item k j = Ok v -> json_wf v.
Proof.
  intros Hj. destruct j; try done. cbn [json_item]. destruct (dict_get k _) as [u|] eqn:Eg; [|done].
  intros H. apply Ok_inj in H. subst v. by apply dict_get_wf in Eg.
Qed.

(** [name in container] *)
Definition py_contains (name : string) (container : json) : outcome bool :=
  match container with
  | JArr l => Ok (existsb (fun j => bool_decide (j = JStr name)) l)
  | JObj d => Ok (dict_mem name d)
  | JStr s => Ok (py_in name s)
  | _ => Raise (TypeError "argument is not iterable")
  end.

Definition py_str_of (j : json) : outcome string :=
  match j with JStr s => Ok s | _ => Raise (TypeError "'<=' not supported") end.

(** [strftime("%a")], [strftime("%H:%M")] of a wall-clock time *)
Definition day_names : list string := ["Mon"; "Tue"; "Wed"; "Thu"; "Fri"; "Sat"; "Sun"].
Definition strftime_a (t : Z) : string := nth (Z.to_nat (weekday t)) day_names "".
Definition hhmm (h m : Z) : string := zpad 2 h +:+ ":" +:+ zpad 2 m.
Definition strftime_HM (t : Z) : string :=
  let us := (t mod us_per_day)%Z in hhmm (us / us_per_hour) (us / us_per_minute mod 60).

Definition evaluate_time_window `{Zones} (now : Z) (constraint : json) : outcome (bool * string) :=
  zone ← json_item "timezone" constraint;
  tz ← ZoneInfo zone;
  let local_now := (now + tz now)%Z in
  let day_name := strftime_a local_now in
  days ← json_get "days" (JArr []) constraint;
  day_in ← py_contains day_name days;
  if negb day_in then Ok (false, "constraint_failed:time_window")
  else
    let current_time := strftime_HM local_now in
    start ← json_item "start_local" constraint;
    end_ ← json_item "end_local" constraint;
    start ← py_str_of start;
    if negb (String.leb start current_time) then Ok (false, "constraint_failed:time_window")
    else
      end_ ← py_str_of end_;
      if negb (String.leb current_time end_) then Ok (false, "constraint_failed:time_window")
      else Ok (true, "").

(** Comparing times of the same shape as text compares them as numbers. *)
Lemma compare_app a a' b b' : String.length a = String.length a' ->
  String.compare (a +:+ b) (a' +:+ b') =
    match String.compare a a' with Eq => String.compare b b' | c => c end.
Proof.
  revert a'. induction a as [|x a IH]; intros [|x' a'] H; try discriminate; [done|].
  injection H as H. change (String x a +:+ b) with (String x (a +:+ b)). change (String x' a' +:+ b') with (String x' (a' +:+ b')).
  cbn [String.compare]. destruct (Ascii.compare x x'); [by apply IH|done..].
Qed.

Definition zpad2_ok (p : nat * nat) : bool :=
  let (a, b) := p in
  (String.length (zpad 2 (Z.of_nat a)) =? 2)%nat &&
  match String.compare (zpad 2 (Z.of_nat a)) (zpad 2 (Z.of_nat b)), Nat.compare a b with
  | Eq, Eq | Lt, Lt | Gt, Gt => true
  | _, _ => false
  end.

Lemma zpad2_compare a b : (0 <= a < 60)%Z -> (0 <= b < 60)%Z ->
  String.length (zpad 2 a) = 2%nat /\ String.compare (zpad 2 a) (zpad 2 b) = Z.compare a b.
Proof.
  intros Ha Hb. assert (Hall : forallb zpad2_ok (list_prod (seq 0 60) (seq 0 60)) = true) by (vm_compute; reflexivity).
  rewrite forallb_forall in Hall. specialize (Hall (Z.to_nat a, Z.to_nat b)).
  assert (Hin : In (Z.to_nat a, Z.to_nat b) (list_prod (seq 0 60) (seq 0 60))) by (apply in_prod; apply in_seq; lia).
  specialize (Hall Hin). unfold zpad2_ok in Hall.
  rewrite <- Nat2Z.inj_compare in Hall. rewrite !Z2Nat.id in Hall by lia. apply andb_true_iff in Hall as [H1 H2].
  apply Nat.eqb_eq in H1. split; [done|]. by destruct (String.compare _ _), (a ?= b)%Z.
Qed.

Definition valid_hm (h m : Z) : Prop := (0 <= h < 24 /\ 0 <= m < 60)%Z.

Lemma hhmm_leb h m h' m' : valid_hm h m -> valid_hm h' m' ->
  String.leb (hhmm h m) (hhmm h' m') = (60 * h + m <=? 60 * h' + m')%Z.
Proof.
  intros [Hh Hm] [Hh' Hm']. unfold String.leb, hhmm.
  destruct (zpad2_compare h h') as [Lh Ch]; [lia..|]. destruct (zpad2_compare h' h) as [Lh' _]; [lia..|].
  destruct (zpad2_compare m m') as [_ Cm]; [lia..|].
  rewrite compare_app by congruence. rewrite Ch. rewrite (compare_app ":" ":") by done.
  change (String.compare ":" ":") with Eq. cbn iota. rewrite Cm.
  destruct (Z.compare_spec h h') as [->|H|H].
  - destruct (Z.compare_spec m m'); symmetry; [apply Z.leb_le|apply Z.leb_le|apply Z.leb_gt]; lia.
  - symmetry. apply Z.leb_le. lia.
  - symmetry. apply Z.leb_gt. lia.
Qed.

(** Minutes since midnight of a wall-clock time. *)
Definition minute_of_day (t : Z) : Z := (t mod us_per_day / us_per_minute)%Z.

Lemma strftime_HM_valid t : exists h m, strftime_HM t = hhmm h m /\ valid_hm h m /\ minute_of_day t = (60 * h + m)%Z.
Proof.
  unfold strftime_HM, minute_of_day. set (us := (t mod us_per_day)%Z). exists (us / us_per_hour)%Z, (us / us_per_minute mod 60)%Z.
  split; [done|]. assert (H : (0 <= us < us_per_day)%Z) by (apply Z.mod_pos_bound; done). clearbody us.
  unfold valid_hm, us_per_day, us_per_hour, us_per_minute, us_per_second in *. Z.to_euclidean_division_equations. lia.
Qed.

Definition window_constraint (tz : string) (days : list string) (h1 m1 h2 m2 : Z) : json :=
  JObj [("timezone", JStr tz); ("days", JArr (map JStr days)); ("start_local", JStr (hhmm h1 m1));
        ("end_local", JStr (hhmm h2 m2))].

(** A time window with times of the form HH:MM allows a request exactly when, on the wall clock of
    its zone, the day is listed and the minute of the day is between start and end, both included:
    the comparison of texts is the comparison of times.  A window whose end is before its start,
    such as one over midnight, allows nothing. *)
Theorem time_window_exact `{Zones} now tz f days h1 m1 h2 m2 :
  valid_hm h1 m1 -> valid_hm h2 m2 -> zone_offset tz = Some f ->
  let local := (now + f now)%Z in
  let allowed := existsb (String.eqb (strftime_a local)) days
                 && ((60 * h1 + m1 <=? minute_of_day local) && (minute_of_day local <=? 60 * h2 + m2))%Z in
  evaluate_time_window now (window_constraint tz days h1 m1 h2 m2) =
    Ok (if allowed then (true, "") else (false, "constraint_failed:time_window")) /\
  ((60 * h2 + m2 < 60 * h1 + m1)%Z -> allowed = false).
Proof.
  intros V1 V2 Htz local allowed. split.
  - unfold evaluate_time_window, window_constraint. cbn [json_item dict_get List.find fst snd fmap option_fmap option_map
      mbind outcome_bind ZoneInfo json_get default from_option id py_contains py_str_of String.eqb Ascii.eqb Bool.eqb].
    rewrite Htz. cbn [mbind outcome_bind]. fold local.
    assert (Ed : existsb (fun j => bool_decide (j = JStr (strftime_a local))) (map JStr days)
                 = existsb (String.eqb (strftime_a local)) days).
    { clear. induction days as [|d l IH]; cbn [map existsb]; [done|]. rewrite IH. f_equal.
      destruct (String.eqb_spec (strftime_a local) d) as [<-|Hne]; [by apply bool_decide_eq_true|].
      apply bool_decide_eq_false. intros E. injection E as E. by apply Hne. }
    rewrite Ed. unfold allowed. destruct (existsb _ days); cbn [negb andb]; [|done].
    destruct (strftime_HM_valid local) as (h & m & E & V & Em). rewrite E, Em, !hhmm_leb by done.
    destruct (60 * h1 + m1 <=? 60 * h + m)%Z, (60 * h + m <=? 60 * h2 + m2)%Z; reflexivity.
  - intros Hlt. unfold allowed. destruct (Z.leb_spec (60 * h1 + m1) (minute_of_day local)), (Z.leb_spec (minute_of_day local) (60 * h2 + m2));
      rewrite ?andb_false_r; try done. lia.
Qed.

(** A single zone. *)
Definition demo_zones : Zones := fun name => if String.eqb name "UTC" then Some (fun _ => 0%Z) else None.

Lemma time_window_exact_witness :
  @evaluate_time_window demo_zones 63835596800000000 (window_constraint "UTC" ["Tue"] 9 0 23 30) = Ok (true, "") /\
  @evaluate_time_window demo_zones 63835596800000000 (window_constraint "UTC" ["Tue"] 22 0 6 0) =
    Ok (false, "constraint_failed:time_window").
Proof.
  assert (V : forall h m, ((0 <=? h) && (h <? 24) && ((0 <=? m) && (m <? 60)))%Z = true -> valid_hm h m)
    by (intros h m E; unfold valid_hm; bool_to_prop; lia).
  pose proof (@time_window_exact demo_zones 63835596800000000 "UTC" (fun _ => 0%Z) ["Tue"] 9 0 23 30
    (V 9%Z 0%Z eq_refl) (V 23%Z 30%Z eq_refl) eq_refl) as [E1 _].
  pose proof (@time_window_exact demo_zones 63835596800000000 "UTC" (fun _ => 0%Z) ["Tue"] 22 0 6 0
    (V 22%Z 0%Z eq_refl) (V 6%Z 0%Z eq_refl) eq_refl) as [E2 H2]. cbv zeta in E1, E2, H2.
  split; [rewrite E1; vm_compute; reflexivity|]. rewrite H2 in E2 by lia. exact E2.
Defined.

(** The reason of an admitted request is empty. *)
Lemma rate_limit_reason now l key c allowed reason l' :
  evaluate_rate_limit now l key c = Ok ((allowed, reason), l') ->
  reason = if allowed then "" else "constraint_failed:rate_limit".
Proof.
  unfold evaluate_rate_limit.
  repeat (match goal with |- context [mbind _ ?m] => destruct m end; cbn [mbind outcome_bind]; [|discriminate]).
  match goal with x : bool * _ |- _ => destruct x as [[] ?] end; by intros [= <- <- _].
Qed.

Lemma time_window_reason `{Zones} now c allowed reason :
  evaluate_time_window now c = Ok (allowed, reason) ->
  reason = if allowed then "" else "constraint_failed:time_window".
Proof.
  unfold evaluate_time_window.
  repeat (match goal with |- context [mbind _ ?m] => destruct m end; cbn [mbind outcome_bind]; [|discriminate]).
  destruct (negb _); [by intros [= <- <-]|].
  repeat (match goal with |- context [mbind _ ?m] => destruct m end; cbn [mbind outcome_bind]; [|discriminate]).
  destruct (negb _); [by intros [= <- <-]|].
  repeat (match goal with |- context [mbind _ ?m] => destruct m end; cbn [mbind outcome_bind]; [|discriminate]).
  destruct (negb _); by intros [= <- <-].
Qed.
