(* ===== verification/AuditChain.v ===== *)
(** * Correctness of the chain verifier

    The verifier accepts exactly the sets of events that form one chain from
    the tenant's genesis hash, whatever their order, and two accepted chains
    that end in the same hash hold the same events, or the hashed bytes of
    two of their events collide. *)

From S2P Require Import Prelude PyStr PyJson PyJsonFacts PyTime WireIds AuditHash.

Local Open Scope string_scope.
Local Open Scope list_scope.

Section Verify.
Context `{Sha256}.

(** All events fit in one chain of the tenant. *)
Definition intact (tenant_id : string) (events : list ChainEvent) : Prop :=
  exists l, Permutation l events /\ linked (genesis_hash tenant_id) l.

Definition last_id (o : option string) (l : list ChainEvent) : option string :=
  match last l with Some e => Some (ce_id e) | None => o end.

Lemma last_id_cons o e l : last_id o (e :: l) = last_id (Some (ce_id e)) l.
Proof. unfold last_id. destruct l as [|e' l]; [done|]. by rewrite last_cons_cons; destruct (last (e' :: l)) eqn:E; [|apply last_None in E]. Qed.

Lemma verify_loop_complete n events : forall b visited current len o,
  length visited = length events -> List.NoDup (map ce_prev_hash events) ->
  linked current b -> Permutation b (marked false visited events) ->
  (length b <= n)%nat ->
  exists visited',
    verify_loop n events visited current len o
      = Ok (inr (visited', end_hash current b, (len + length b)%nat, last_id o b)).
Proof.
  induction n as [|n IH]; intros b visited current len o Hlen Hnd Hl Hp Hn.
  - destruct b; [|simpl in Hn; lia]. exists visited. simpl. by rewrite Nat.add_0_r.
  - destruct b as [|e b]; simpl verify_loop.
    { exists visited. rewrite Nat.add_0_r.
      destruct (next_index events visited current) as [i|] eqn:Hi; [|done].
      apply next_index_Some in Hi as (x & Hv & Hx & _); [|done].
      destruct (marked_insert _ _ _ _ Hv Hx) as [_ Hm]. rewrite Hm in Hp.
      apply Permutation.Permutation_nil in Hp. done. }
    inversion Hl as [|? ? ? Hprev Hh Hr Ht Hk]; subst.
    destruct (next_index events visited (ce_prev_hash e)) as [i|] eqn:Hi.
    2:{ exfalso. apply (next_index_None _ _ _ Hi e); [|done]. rewrite <- Hp. by left. }
    apply next_index_Some in Hi as (x & Hv & Hx & Hxp); [|done].
    assert (x = e) as ->.
    { assert (Hine : In e events).
      { rewrite <- (marked_perm visited events Hlen), in_app_iff, <- Hp. right. by left. }
      assert (Hinx : In x events) by (apply list_elem_of_In; by eapply list_elem_of_lookup_2).
      clear -Hine Hinx Hxp Hnd. induction events as [|y ys IHy]; [done|].
      simpl in Hnd. inversion Hnd as [|? ? Hny Hnys]; subst.
      destruct Hine as [->|Hine], Hinx as [->|Hinx]; auto.
      - exfalso. apply Hny. rewrite <- Hxp. by apply in_map.
      - exfalso. apply Hny. rewrite Hxp. by apply in_map. }
    rewrite Hx, Hh. cbn [mbind outcome_bind]. rewrite String.eqb_refl, Hr, Ht. cbn.
    destruct (marked_insert _ _ _ _ Hv Hx) as [_ Hm]. rewrite Hm in Hp.
    apply Permutation.Permutation_cons_inv in Hp.
    destruct (IH b (<[i:=true]> visited) (ce_hash e) (S len) (Some (ce_id e))) as [visited' E];
      [by rewrite length_insert|done..|simpl in Hn; lia|].
    exists visited'. rewrite E, last_id_cons. do 4 f_equal. simpl. lia.
Qed.

Lemma genesis_start e0 events :
  e0 :: events <> [] ->
  linked (genesis_hash (ce_tenant_id e0)) [] /\
  Permutation [] (marked true (repeat false (length (e0 :: events))) (e0 :: events)).
Proof. intros _. split; [constructor|]. by rewrite marked_repeat. Qed.

Lemma verify_events_sound_aux e0 events r :
  verify_events (e0 :: events) = Ok r -> cr_ok r = true ->
  intact (ce_tenant_id e0) (e0 :: events) /\ cr_chain_length r = length (e0 :: events).
Proof.
  unfold verify_events. intros Hr Hok.
  destruct (verify_loop _ _ _ _ _ _) as [[res|[[[visited current] len] last]]|] eqn:E;
    cbn [mbind outcome_bind] in Hr; [|..|done].
  - injection Hr as <-. exfalso. clear -E Hok.
    revert E. generalize (length (e0 :: events)) at 1 as n, (repeat false (length (e0 :: events))),
      (genesis_hash (ce_tenant_id e0)), 0%nat, (@None string).
    induction n as [|n IH]; intros vs cur len o E; simpl in E; [done|].
    repeat split_match_in E; try done; destruct (event_hash _); simpl in E; try done;
      repeat split_match_in E; try done; try (injection E as <-; done); eauto.
  - destruct (genesis_start e0 events) as [Hl Hp]; [done|].
    apply (verify_loop_sound _ _ _ _ _ _ [] _ (genesis_hash (ce_tenant_id e0))) in E
      as (v' & c' & n' & o' & l & [= <- <- <- <-] & Hlen & Hlk & _ & Hn & Hperm);
      [|by rewrite repeat_length|done..].
    pose proof (marked_perm visited (e0 :: events) Hlen) as Hm.
    destruct (Nat.ltb_spec len (length (e0 :: events))) as [Hlt|Hge].
    { exfalso. destruct (find_index _ _); [|done]. destruct (_ !! _); [|done].
      injection Hr as <-. done. }
    injection Hr as <-. cbn [cr_chain_length].
    assert (Hf : marked false visited (e0 :: events) = []).
    { apply length_zero_iff_nil. apply Permutation_length in Hm, Hperm. rewrite length_app in Hm. lia. }
    rewrite Hf, app_nil_r in Hm. split.
    + exists l. split; [by rewrite Hperm|done].
    + apply Permutation_length in Hm, Hperm. lia.
Qed.

Lemma verify_events_complete_aux t events l :
  events <> [] -> (forall e, In e events -> ce_tenant_id e = t) ->
  List.NoDup (map ce_prev_hash events) ->
  Permutation l events -> linked (genesis_hash t) l ->
  verify_events events = Ok (MkChainResult true (length events) (last_id None l) None None None "chain intact").
Proof.
  intros Hne Ht Hnd Hp Hl. destruct events as [|e0 events]; [done|].
  unfold verify_events. rewrite (Ht e0) by by left.
  destruct (verify_loop_complete (length (e0 :: events)) (e0 :: events) l
    (repeat false (length (e0 :: events))) (genesis_hash t) 0 None) as [v E].
  - by rewrite repeat_length.
  - done.
  - done.
  - pose proof (marked_perm (repeat false (length (e0 :: events))) (e0 :: events)) as Hm.
    rewrite marked_repeat in Hm. rewrite Hp. symmetry. apply Hm. by rewrite repeat_length.
  - apply Permutation_length in Hp. lia.
  - rewrite E. cbn [mbind outcome_bind]. apply Permutation_length in Hp. rewrite Nat.add_0_l, Hp.
    by rewrite Nat.ltb_irrefl.
Qed.

(** ** Binding *)

(** Two events whose canonical bytes agree. *)
Definition same_bytes (e1 e2 : ChainEvent) : Prop :=
  exists f1 f2, event_fields e1 = Ok f1 /\ event_fields e2 = Ok f2 /\
                canonical_json_bytes f1 = canonical_json_bytes f2.

Lemma append_inj_len (a b c d : string) :
  py_len b = py_len d -> a +:+ b = c +:+ d -> a = c /\ b = d.
Proof.
  intros Hl E. apply (f_equal chars) in E. rewrite !chars_app in E.
  apply app_inj_2 in E as [E1 E2]; [|exact Hl]. split; by apply chars_inj.
Qed.

Lemma sha_or_collides x y : sha256 x = sha256 y -> x = y \/ collides x y.
Proof. intros E. destruct (decide (x = y)) as [->|Hne]; [by left|]. by right. Qed.

(** The bytes whose digest is the event's hash. *)
Definition hash_input (e : ChainEvent) (inp : string) : Prop :=
  exists f, event_fields e = Ok f /\ inp = canonical_json_bytes f +:+ ce_prev_hash e.

(** The hashed bytes of an event of [l1] collide with those of one of [l2]. *)
Definition inputs_collide (l1 l2 : list ChainEvent) : Prop :=
  exists e1 e2 x y, In e1 l1 /\ In e2 l2 /\ hash_input e1 x /\ hash_input e2 y /\ collides x y.

Lemma event_hash_inv e h :
  event_hash e = Ok h -> exists f, event_fields e = Ok f /\
    h = sha256 (canonical_json_bytes f +:+ ce_prev_hash e).
Proof.
  unfold event_hash. destruct (event_fields e) as [f|]; simpl; [|done].
  intros [= <-]. by exists f.
Qed.

Lemma linked_end_len cur l : linked cur l -> py_len cur = 32%nat -> py_len (end_hash cur l) = 32%nat.
Proof.
  induction 1 as [|cur e l Hp Hh _ _ _ IH]; intros Hc; [done|]. simpl. apply IH.
  apply event_hash_inv in Hh as (f & _ & ->). apply sha256_len.
Qed.

Lemma chain_binding_aux l1 : forall l2 c1 c2,
  linked c1 l1 -> linked c2 l2 -> py_len c1 = 32%nat -> py_len c2 = 32%nat ->
  length l1 = length l2 -> end_hash c1 l1 = end_hash c2 l2 ->
  (c1 = c2 /\ Forall2 same_bytes l1 l2) \/ inputs_collide l1 l2.
Proof.
  induction l1 as [|e1 l1 IH] using rev_ind; intros l2 c1 c2 H1 H2 Hc1 Hc2 Hlen Hend.
  - destruct l2; [|done]. left. split; [done|constructor].
  - destruct l2 as [|e2 l2 _] using rev_ind; [rewrite length_app in Hlen; simpl in Hlen; lia|].
    rewrite !length_app in Hlen. simpl in Hlen.
    apply linked_app in H1 as [H1 K1], H2 as [H2 K2]. rewrite !end_hash_app in Hend. simpl in Hend.
    inversion K1 as [|? ? ? P1 E1 _ _ _]; subst. inversion K2 as [|? ? ? P2 E2 _ _ _]; subst.
    apply event_hash_inv in E1 as (f1 & F1 & E1), E2 as (f2 & F2 & E2).
    rewrite E1, E2 in Hend. apply sha_or_collides in Hend as [Hend|Hc].
    2:{ right. exists e1, e2. do 2 eexists. do 2 (split; [apply in_or_app; right; by left|]).
        split; [by exists f1|]. split; [by exists f2|done]. }
    rewrite P1, P2 in Hend.
    apply append_inj_len in Hend as [Hb Hp]; [|by rewrite !linked_end_len].
    destruct (IH l2 c1 c2) as [[-> Hf]|Hc]; [done..|lia|done|left|right].
    2:{ destruct Hc as (x1 & x2 & x & y & I1 & I2 & Hc). exists x1, x2, x, y.
        split; [|split; [|done]]; apply in_or_app; by left. }
    split; [done|]. apply Forall2_app; [done|]. constructor; [|constructor]. by exists f1, f2.
Qed.

Lemma genesis_len t : py_len (genesis_hash t) = 32%nat.
Proof. apply sha256_len. Qed.
End Verify.

(** ** From canonical bytes to field values *)

Lemma dict_get_cons k k' v d :
  dict_get k ((k', v) :: d) = if String.eqb k k' then Some v else dict_get k d.
Proof. unfold dict_get. simpl. by destruct (String.eqb k k'). Qed.

Lemma dict_get_perm k d d' :
  Permutation d d' -> List.NoDup (map fst d) -> dict_get k d = dict_get k d'.
Proof.
  induction 1 as [|[k1 v1] d d' H IH|[k1 v1] [k2 v2] d|d d' d'' H1 IH1 H2 IH2]; intros Hn; [done|..].
  - rewrite !dict_get_cons. inv Hn. by rewrite IH.
  - rewrite !dict_get_cons. destruct (String.eqb_spec k k1), (String.eqb_spec k k2); try done. subst.
    inv Hn. simpl in *. intuition.
  - rewrite IH1 by done. apply IH2. by rewrite <- H1.
Qed.

Lemma dict_get_map k (g : json -> json) d :
  dict_get k (map (fun kv => match kv with (k, v) => (k, g v) end) d) = g <$> dict_get k d.
Proof.
  induction d as [|[k' v'] d IH]; [done|]. simpl map. rewrite !dict_get_cons.
  by destruct (String.eqb k k').
Qed.

Lemma json_same_get k d d' :
  List.NoDup (map fst d) -> List.NoDup (map fst d') -> json_same (JObj d) (JObj d') ->
  norm true <$> dict_get k d = norm true <$> dict_get k d'.
Proof.
  intros Hd Hd' E. unfold json_same in E. cbn [norm] in E. injection E as E.
  apply (f_equal (dict_get k)) in E.
  rewrite <- !(dict_get_perm k _ _ (symmetry (sort_keys_perm _))) in E by (by rewrite map_fst_snd).
  by rewrite !dict_get_map in E.
Qed.

(** The two events have the same hashed field values. *)
Record same_event (e1 e2 : ChainEvent) : Prop := {
  se_id : canonical_id (Some (ce_id e1)) = canonical_id (Some (ce_id e2));
  se_tenant : canonical_id (Some (ce_tenant_id e1)) = canonical_id (Some (ce_tenant_id e2));
  se_type : ce_event_type e1 = ce_event_type e2;
  se_actor : canonical_id (ce_actor_id e1) = canonical_id (ce_actor_id e2);
  se_actor_type : ce_actor_type e1 = ce_actor_type e2;
  se_target : canonical_id (ce_target_id e1) = canonical_id (ce_target_id e2);
  se_target_type : ce_target_type e1 = ce_target_type e2;
  se_payload : exists p1 p2, py_dict (ce_payload e1) = Ok p1 /\ py_dict (ce_payload e2) = Ok p2 /\
                             json_same (JObj p1) (JObj p2);
  se_at : canonical_at (ce_at e1) = canonical_at (ce_at e2) }.

#[local] Opaque canonical_id canonical_at.

Lemma opt_json_inj a b : norm true (opt_json a) = norm true (opt_json b) -> a = b.
Proof. destruct a, b; simpl; congruence. Qed.

Lemma py_dict_wf p d : json_wf p -> py_dict p = Ok d -> json_wf (JObj d).
Proof. destruct p as [| | | |[|]|]; simpl; try done; intros H [= <-]; [split; [constructor|done]|done]. Qed.

Lemma event_fields_inv e f :
  event_fields e = Ok f -> exists p t, py_dict (ce_payload e) = Ok p /\ canonical_at (ce_at e) = Ok t /\
    f = [("id", opt_json (canonical_id (Some (ce_id e))));
         ("tenant_id", opt_json (canonical_id (Some (ce_tenant_id e))));
         ("event_type", JStr (ce_event_type e)); ("actor_id", opt_json (canonical_id (ce_actor_id e)));
         ("actor_type", opt_json (ce_actor_type e)); ("target_id", opt_json (canonical_id (ce_target_id e)));
         ("target_type", opt_json (ce_target_type e)); ("payload", JObj p); ("at", JStr t)].
Proof.
  unfold event_fields, canonical_event_fields. cbn [ea_id ea_tenant_id ea_event_type ea_actor_id
    ea_actor_type ea_target_id ea_target_type ea_payload ea_at].
  destruct (py_dict (ce_payload e)) as [p|]; cbn [mbind outcome_bind]; [|done].
  destruct (canonical_at (ce_at e)) as [t|]; cbn [mbind outcome_bind]; [|done].
  intros Hf. apply Ok_inj in Hf. exists p, t. rewrite <- Hf. clear Hf.
  split; [reflexivity|]. split; reflexivity.
Qed.

Lemma opt_json_wf o : json_wf (opt_json o).
Proof. by destruct o. Qed.

Lemma event_fields_wf e f :
  json_wf (ce_payload e) -> event_fields e = Ok f ->
  json_wf (JObj f) /\ List.filter (fun kv => negb (String.eqb (fst kv) "hash")) f = f.
Proof.
  intros Hw Hf. apply event_fields_inv in Hf as (p & t & Hp & _ & ->). split; [|done].
  apply json_wf_obj. split.
  - by apply NoDup_ListNoDup, (bool_decide_unpack _); vm_compute.
  - repeat apply Forall_cons_2; try apply opt_json_wf; try done. by eapply py_dict_wf.
Qed.

(** Reads the values of the key [k] off the agreement [G] of two field lists. *)
Ltac field_value G k :=
  specialize (G k); cbn -[norm opt_json canonical_id] in G;
  injection G as G; first [by apply opt_json_inj | cbn in G; congruence].

Lemma same_bytes_event `{Sha256} e1 e2 :
  json_wf (ce_payload e1) -> json_wf (ce_payload e2) -> same_bytes e1 e2 -> same_event e1 e2.
Proof.
  intros W1 W2 (f1 & f2 & F1 & F2 & E). unfold canonical_json_bytes in E.
  destruct (event_fields_wf _ _ W1 F1) as [V1 R1], (event_fields_wf _ _ W2 F2) as [V2 R2].
  rewrite R1, R2 in E. apply norm_idem_wf in E; [|done..].
  pose proof (proj1 (proj1 (json_wf_obj _) V1)) as N1. pose proof (proj1 (proj1 (json_wf_obj _) V2)) as N2.
  assert (G : forall k, norm true <$> dict_get k f1 = norm true <$> dict_get k f2)
    by (intros k; by apply json_same_get).
  apply event_fields_inv in F1 as (p1 & t1 & P1 & T1 & ->), F2 as (p2 & t2 & P2 & T2 & ->).
  clear R1 R2 E V1 V2 N1 N2. split.
  - field_value G "id".
  - field_value G "tenant_id".
  - field_value G "event_type".
  - field_value G "actor_id".
  - field_value G "actor_type".
  - field_value G "target_id".
  - field_value G "target_type".
  - exists p1, p2. specialize (G "payload"). cbn -[norm opt_json canonical_id] in G.
    repeat split; [done..|]. unfold json_same. congruence.
  - specialize (G "at"). cbn -[opt_json canonical_id] in G. rewrite T1, T2. congruence.
Qed.

(** ** Properties *)

(** The verifier accepts the events. *)
Definition accepts `{Sha256} (events : list ChainEvent) : Prop :=
  exists r, verify_events events = Ok r /\ cr_ok r = true.

Section Properties.
Context `{Sha256}.

Lemma accepts_intact t e0 events :
  ce_tenant_id e0 = t -> accepts (e0 :: events) -> intact t (e0 :: events).
Proof. intros <- (r & Hr & Hok). by eapply verify_events_sound_aux. Qed.

(** C1: soundness of the chain verifier.  When [verify_events] reports a nonempty set of
    events as ok, all of them, in some order, form one chain of links from the genesis hash
    of the first event's tenant: every stored hash is the hash recomputed from the event's
    fields, no event has a request or trace id, and the reported length counts every event. *)
Theorem verify_events_sound e0 events r :
  verify_events (e0 :: events) = Ok r -> cr_ok r = true ->
  exists l, Permutation l (e0 :: events) /\ linked (genesis_hash (ce_tenant_id e0)) l /\
            cr_chain_length r = length (e0 :: events).
Proof.
  intros Hr Hok. destruct (verify_events_sound_aux _ _ _ Hr Hok) as [(l & Hp & Hl) Hn].
  by exists l.
Qed.

(** Completeness of the chain verifier.  Events of one tenant that form a chain from its
    genesis hash are accepted in whatever order they are given, with the chain's length and
    its last event's id, provided no two of them continue the same hash. *)
Theorem verify_events_complete t events l :
  events <> [] -> (forall e, In e events -> ce_tenant_id e = t) ->
  List.NoDup (map ce_prev_hash events) ->
  Permutation l events -> linked (genesis_hash t) l ->
  verify_events events =
    Ok (MkChainResult true (length events) (last_id None l) None None None "chain intact").
Proof. apply verify_events_complete_aux. Qed.

(** The order of the events given to the verifier does not matter. *)
Theorem verify_events_order t events events' :
  (forall e, In e events -> ce_tenant_id e = t) -> List.NoDup (map ce_prev_hash events) ->
  Permutation events events' -> accepts events -> accepts events'.
Proof.
  intros Ht Hnd Hp Ha. destruct events as [|e0 events].
  { by apply Permutation.Permutation_nil in Hp as ->. }
  apply (accepts_intact t) in Ha as (l & Hl & Hlk); [|apply Ht; by left].
  assert (Ht' : forall e, In e events' -> ce_tenant_id e = t)
    by (intros e He; apply Ht; by rewrite Hp).
  eexists. split; [apply (verify_events_complete_aux t _ l); try done|done].
  - intros ->. by apply Permutation.Permutation_sym, Permutation.Permutation_nil in Hp.
  - by rewrite <- Hp.
  - by rewrite Hl.
Qed.

(** The head hash binds the whole log.  Two accepted sets of the same number of events of
    one tenant, whose chains end in the same hash, hold the same events in the same order (up
    to the key order of payload dicts), or the hashed bytes of two of their events collide. *)
Theorem accepted_chains_binding t d events d' events' :
  ce_tenant_id d = t -> ce_tenant_id d' = t ->
  (forall e, In e (d :: events ++ d' :: events') -> json_wf (ce_payload e)) ->
  accepts (d :: events) -> accepts (d' :: events') -> length events = length events' ->
  exists l l', Permutation l (d :: events) /\ Permutation l' (d' :: events') /\
    linked (genesis_hash t) l /\ linked (genesis_hash t) l' /\
    (end_hash (genesis_hash t) l = end_hash (genesis_hash t) l' ->
     Forall2 same_event l l' \/ inputs_collide l l').
Proof.
  intros Ht Ht' Hw Ha Ha' Hlen.
  apply (accepts_intact t) in Ha as (l & Hp & Hl); [|done].
  apply (accepts_intact t) in Ha' as (l' & Hp' & Hl'); [|done].
  exists l, l'. repeat split; [done..|]. intros He.
  apply Permutation_length in Hp as Hn, Hp' as Hn'. simpl in Hn, Hn'.
  destruct (chain_binding_aux l l' _ _ Hl Hl') as [[_ Hf]|]; [apply genesis_len..|lia|done|left|by right].
  apply Forall2_same_length_lookup. apply Forall2_same_length_lookup in Hf as [Hlf Hf].
  split; [done|]. intros i x y Hx Hy. apply same_bytes_event; [apply Hw..|by eapply Hf];
    rewrite app_comm_cons; apply in_or_app.
  - left. rewrite <- Hp. apply list_elem_of_In. by eapply list_elem_of_lookup_2.
  - right. rewrite <- Hp'. apply list_elem_of_In. by eapply list_elem_of_lookup_2.
Qed.

(** C2: tampering is detected.  Replace one event of an accepted set by another that keeps the
    stored [prev_hash] and [hash] but differs in a hashed field: the verifier no longer
    accepts, whenever the digests of the bytes hashed for the two events differ (that is,
    unless the change is itself a collision of SHA-256 with the original event). *)
Theorem tampered_event_rejected pre post e e' :
  accepts (pre ++ e :: post) ->
  json_wf (ce_payload e) -> json_wf (ce_payload e') ->
  ce_prev_hash e' = ce_prev_hash e -> ce_hash e' = ce_hash e ->
  ~ same_event e e' ->
  (forall x y, hash_input e x -> hash_input e' y -> ~ collides x y) ->
  ~ accepts (pre ++ e' :: post).
Proof.
  assert (Hin : forall x, accepts (pre ++ x :: post) -> event_hash x = Ok (ce_hash x)).
  { intros x Hx. destruct (pre ++ x :: post) as [|d ds] eqn:E; [by destruct pre|].
    apply (accepts_intact _ _ _ eq_refl) in Hx as (l & Hp & Hl).
    assert (Hxl : In x l) by (rewrite Hp, <- E; apply in_or_app; right; by left).
    clear -Hl Hxl. induction Hl as [|cur y l Hp Hh Hr Ht Hl IH]; [done|].
    destruct Hxl as [->|]; auto. }
  intros Ha Hw Hw' Hp Hh Hd Hc Ha'. apply Hin in Ha, Ha'.
  apply event_hash_inv in Ha as (f & F & Ha), Ha' as (f' & F' & Ha').
  rewrite Ha, Ha' in Hh. symmetry in Hh. apply sha_or_collides in Hh as [Hb|Hb].
  2:{ apply (Hc (canonical_json_bytes f +:+ ce_prev_hash e) (canonical_json_bytes f' +:+ ce_prev_hash e'));
        [by exists f|by exists f'|done]. }
  rewrite Hp in Hb. apply Hd. apply append_inj_len in Hb as [Hb _]; [|done].
  apply same_bytes_event; [done..|]. by exists f, f'.
Qed.
End Properties.

(** ** A concrete chain *)

#[local] Existing Instance toy_sha256.

Definition demo_event (id prev : string) : ChainEvent :=
  let e := MkChainEvent id "t1" "tenant.created" None (Some "operator") None None
             (JObj [("slug", JStr id)]) (utc 63000000000000000) prev "" None None in
  match event_hash e with
  | Ok h => MkChainEvent id "t1" "tenant.created" None (Some "operator") None None
              (JObj [("slug", JStr id)]) (utc 63000000000000000) prev h None None
  | Raise _ => e
  end.

Definition demo1 : ChainEvent := demo_event "e1" (genesis_hash "t1").
Definition demo2 : ChainEvent := demo_event "e2" (ce_hash demo1).

Lemma demo_linked : linked (genesis_hash "t1") [demo1; demo2].
Proof. repeat (constructor; try (vm_compute; reflexivity)). Qed.

Lemma demo_accepts l : l = [demo1; demo2] \/ l = [demo2; demo1] -> accepts l.
Proof. intros [->| ->]; (eexists; split; [vm_compute; reflexivity|vm_compute; reflexivity]). Qed.

Lemma verify_events_sound_witness :
  exists l, Permutation l [demo2; demo1] /\ linked (genesis_hash (ce_tenant_id demo2)) l /\
            cr_chain_length (MkChainResult true 2 (Some "e2") None None None "chain intact") = 2%nat.
Proof.
  apply (verify_events_sound demo2 [demo1]
           (MkChainResult true 2 (Some "e2") None None None "chain intact")); vm_compute; reflexivity.
Defined.

Lemma verify_events_complete_witness :
  verify_events [demo2; demo1] =
    Ok (MkChainResult true 2 (last_id None [demo1; demo2]) None None None "chain intact").
Proof.
  apply (verify_events_complete "t1" [demo2; demo1] [demo1; demo2]).
  - discriminate.
  - intros e [<-|[<-|[]]]; vm_compute; reflexivity.
  - apply NoDup_ListNoDup, (bool_decide_unpack _). vm_compute. reflexivity.
  - apply perm_swap.
  - apply demo_linked.
Defined.

Lemma verify_events_order_witness : accepts [demo1; demo2].
Proof.
  apply (verify_events_order "t1" [demo2; demo1]).
  - intros e [<-|[<-|[]]]; vm_compute; reflexivity.
  - apply NoDup_ListNoDup, (bool_decide_unpack _). vm_compute. reflexivity.
  - apply perm_swap.
  - apply demo_accepts. by right.
Defined.

Lemma accepted_chains_binding_witness :
  exists l l', Permutation l [demo1; demo2] /\ Permutation l' [demo2; demo1] /\
    linked (genesis_hash "t1") l /\ linked (genesis_hash "t1") l' /\
    (end_hash (genesis_hash "t1") l = end_hash (genesis_hash "t1") l' ->
     Forall2 same_event l l' \/ inputs_collide l l').
Proof.
  apply (accepted_chains_binding "t1" demo1 [demo2] demo2 [demo1]).
  - vm_compute; reflexivity.
  - vm_compute; reflexivity.
  - intros e [<-|[<-|[<-|[<-|[]]]]]; vm_compute; repeat constructor; intros [].
  - apply demo_accepts. by left.
  - apply demo_accepts. by right.
  - reflexivity.
Defined.

(** [demo2] attributed to another actor, with the same stored hashes. *)
Definition demo2_tampered : ChainEvent :=
  MkChainEvent "e2" "t1" "tenant.created" (Some "mallory") (Some "operator") None None
    (JObj [("slug", JStr "e2")]) (utc 63000000000000000)
    (ce_prev_hash demo2) (ce_hash demo2) None None.

Lemma tampered_event_rejected_witness : ~ accepts [demo1; demo2_tampered].
Proof.
  apply (tampered_event_rejected [demo1] [] demo2 demo2_tampered).
  - apply demo_accepts. by left.
  - vm_compute; repeat constructor; intros [].
  - vm_compute; repeat constructor; intros [].
  - reflexivity.
  - reflexivity.
  - intros Hs. apply se_actor in Hs. vm_compute in Hs. discriminate.
  - intros x y (f & Hf & ->) (f' & Hf' & ->) [_ Hd].
    vm_compute in Hf. injection Hf as <-. vm_compute in Hf'. injection Hf' as <-.
    vm_compute in Hd. discriminate.
Defined.
