(* ===== verification/Vault.v ===== *)
(** * The agent-secret vault (apps/vault-adapter)

    The interface the Python clients rely on: a store of sealed values keyed
    by tenant and secret identifier, with a put that replaces, a get that
    answers nothing when there is no blob, and an idempotent delete.  The
    instance [adapter] models the Go server and its Postgres store
    ([vault.agent_secrets], primary key [secret_id]) without the encryption
    envelope: a blob is its plaintext. *)

From S2P Require Import Prelude PyStr WireIds.

Local Open Scope string_scope.

(** Identifiers are the texts the clients send; values are bytes. *)
Class Vault := {
  vault_state : Type;
  vault_put : string -> string -> string -> vault_state -> outcome vault_state;
  vault_get : string -> string -> vault_state -> outcome (option string);
  vault_delete : string -> string -> vault_state -> outcome (vault_state * bool);
  (** A put is refused unless the value has between 1 and 65536 bytes. *)
  vault_put_size : forall t k v s s', vault_put t k v s = Ok s' -> (0 < Z.of_nat (py_len v) <= 65536)%Z;
  vault_get_put : forall t k v s s', vault_put t k v s = Ok s' -> vault_get t k s' = Ok (Some v);
  vault_get_put_other : forall t k t' k' v s s',
    (t < uuid_limit)%N -> (k < uuid_limit)%N -> (t' < uuid_limit)%N -> (k' < uuid_limit)%N -> k <> k' ->
    vault_put (uuid_str t) (uuid_str k) v s = Ok s' ->
    vault_get (uuid_str t') (uuid_str k') s' = vault_get (uuid_str t') (uuid_str k') s;
  (** A put makes no blob unreadable: another tenant's blob is not overwritten. *)
  vault_put_keeps : forall t k t' k' v s s' x,
    (t < uuid_limit)%N -> (k < uuid_limit)%N -> (t' < uuid_limit)%N -> (k' < uuid_limit)%N ->
    vault_put (uuid_str t) (uuid_str k) v s = Ok s' ->
    vault_get (uuid_str t') (uuid_str k') s = Ok (Some x) ->
    exists y, vault_get (uuid_str t') (uuid_str k') s' = Ok (Some y);
  vault_get_delete : forall t k s s' b, vault_delete t k s = Ok (s', b) -> vault_get t k s' = Ok None;
  vault_get_delete_other : forall t k t' k' s s' b,
    (t < uuid_limit)%N -> (k < uuid_limit)%N -> (t' < uuid_limit)%N -> (k' < uuid_limit)%N -> k <> k' ->
    vault_delete (uuid_str t) (uuid_str k) s = Ok (s', b) ->
    vault_get (uuid_str t') (uuid_str k') s' = vault_get (uuid_str t') (uuid_str k') s }.

(** ** The adapter *)

Module Adapter.

Section Adapter.
Context (pg_uuid : string -> option uuid).
Context (pg_uuid_str : forall u, (u < uuid_limit)%N -> pg_uuid (uuid_str u) = Some u).

Abbreviation state := (gmap N (N * string)).

Definition required (tenant_id secret_id : string) : bool :=
  negb (String.eqb tenant_id "") && negb (String.eqb secret_id "").

(** The identifiers as the driver binds them to the UUID columns. *)
Definition keys (tenant_id secret_id : string) : outcome (uuid * uuid) :=
  if required tenant_id secret_id then
    match pg_uuid tenant_id, pg_uuid secret_id with
    | Some t, Some k => Ok (t, k)
    | _, _ => Raise (GrpcError "Unavailable")
    end
  else Raise (GrpcError "InvalidArgument").

(** [PutAgentSecret]: an existing row of another tenant fails the row-level-security check. *)
Definition PutAgentSecret (tenant_id secret_id value : string) (s : state) : outcome state :=
  if negb (required tenant_id secret_id) then Raise (GrpcError "InvalidArgument")
  else if (py_len value =? 0)%nat then Raise (GrpcError "InvalidArgument")
  else if (64 * 1024 <? Z.of_nat (py_len value))%Z then Raise (GrpcError "InvalidArgument")
  else
    '(t, k) ← keys tenant_id secret_id;
    match s !! k with
    | Some (t', _) => if N.eqb t' t then Ok (<[k := (t, value)]> s) else Raise (GrpcError "Unavailable")
    | None => Ok (<[k := (t, value)]> s)
    end.

Definition GetAgentSecret (tenant_id secret_id : string) (s : state) : outcome (option string) :=
  '(t, k) ← keys tenant_id secret_id;
  match s !! k with
  | Some (t', v) => Ok (if N.eqb t' t then Some v else None)
  | None => Ok None
  end.

Definition DeleteAgentSecret (tenant_id secret_id : string) (s : state) : outcome (state * bool) :=
  '(t, k) ← keys tenant_id secret_id;
  match s !! k with
  | Some (t', _) => if N.eqb t' t then Ok (delete k s, true) else Ok (s, false)
  | None => Ok (s, false)
  end.

Lemma uuid_str_nonempty u : String.eqb (uuid_str u) "" = false.
Proof.
  apply String.eqb_neq. intros E. apply (f_equal chars) in E.
  unfold uuid_str in E. rewrite chars_dashed in E. apply (f_equal length) in E.
  rewrite !length_app in E. simpl in E. lia.
Qed.

Lemma keys_str t k : (t < uuid_limit)%N -> (k < uuid_limit)%N ->
  keys (uuid_str t) (uuid_str k) = Ok (t, k).
Proof.
  intros Ht Hk. unfold keys, required. rewrite !uuid_str_nonempty. cbn [negb andb].
  by rewrite !pg_uuid_str.
Qed.

Lemma put_inv t k v s s' : PutAgentSecret t k v s = Ok s' ->
  (0 < Z.of_nat (py_len v) <= 64 * 1024)%Z /\ exists t0 k0, keys t k = Ok (t0, k0) /\ s' = <[k0 := (t0, v)]> s.
Proof.
  unfold PutAgentSecret. destruct (negb _); [done|].
  destruct (py_len v =? 0)%nat eqn:E0; [done|]. destruct (_ <? _)%Z eqn:E1; [done|].
  bool_to_prop. destruct (keys t k) as [[t0 k0]|]; [|done]. cbn [mbind outcome_bind].
  intros H. split; [lia|]. exists t0, k0. split; [done|].
  destruct (s !! k0) as [[t' v']|]; [destruct (N.eqb t' t0)|]; congruence.
Qed.

Lemma delete_inv t k s s' b : DeleteAgentSecret t k s = Ok (s', b) ->
  exists t0 k0, keys t k = Ok (t0, k0) /\ (s' = delete k0 s \/ (s' = s /\ forall v, s !! k0 <> Some (t0, v))).
Proof.
  unfold DeleteAgentSecret. destruct (keys t k) as [[t0 k0]|]; [|done]. cbn [mbind outcome_bind].
  intros H. exists t0, k0. split; [done|].
  destruct (s !! k0) as [[t' v']|] eqn:E; [destruct (N.eqb_spec t' t0)|];
    injection H as <- <-; [by left|right..]; split; try done; congruence.
Qed.

#[global, program] Instance adapter : Vault := {|
  vault_state := state;
  vault_put := PutAgentSecret; vault_get := GetAgentSecret; vault_delete := DeleteAgentSecret |}.
Next Obligation. intros t k v s s' H. apply put_inv in H as [H _]. lia. Qed.
Next Obligation.
  intros t k v s s' H. apply put_inv in H as (_ & t0 & k0 & Hk & ->).
  unfold GetAgentSecret. rewrite Hk. cbn [mbind outcome_bind].
  rewrite lookup_insert_eq. by rewrite N.eqb_refl.
Qed.
Next Obligation.
  intros t k t' k' v s s' Ht Hk Ht' Hk' Hne H. apply put_inv in H as (_ & t0 & k0 & E & ->).
  rewrite keys_str in E by done. injection E as <- <-.
  unfold GetAgentSecret. rewrite keys_str by done. cbn [mbind outcome_bind].
  by rewrite lookup_insert_ne by done.
Qed.
Next Obligation.
  intros t k t' k' v s s' x Ht Hk Ht' Hk' H Hg. unfold PutAgentSecret in H.
  destruct (negb _); [done|]. destruct (py_len v =? 0)%nat; [done|]. destruct (_ <? _)%Z; [done|].
  unfold GetAgentSecret in *. rewrite keys_str in H, Hg |- * by done. cbn [mbind outcome_bind] in *.
  destruct (N.eq_dec k k') as [<-|Hne].
  - destruct (s !! k) as [[t0 v0]|]; [|done]. destruct (N.eqb_spec t0 t') as [->|]; [|done].
    destruct (N.eqb_spec t' t) as [->|]; [|done]. apply Ok_inj in H. subst s'.
    exists v. by rewrite lookup_insert_eq, N.eqb_refl.
  - exists x. destruct (s !! k) as [[t0 v0]|]; [destruct (N.eqb t0 t); [|done]|];
      apply Ok_inj in H; subst s'; by rewrite lookup_insert_ne.
Qed.
Next Obligation.
  intros t k s s' b H. apply delete_inv in H as (t0 & k0 & E & H).
  unfold GetAgentSecret. rewrite E. cbn [mbind outcome_bind].
  destruct H as [->|[-> Hn]]; [by rewrite lookup_delete_eq|].
  destruct (s !! k0) as [[t' v']|] eqn:El; [|done].
  destruct (N.eqb_spec t' t0) as [->|]; [|done]. by destruct (Hn v').
Qed.
Next Obligation.
  intros t k t' k' s s' b Ht Hk Ht' Hk' Hne H. apply delete_inv in H as (t0 & k0 & E & H).
  rewrite keys_str in E by done. injection E as <- <-.
  unfold GetAgentSecret. rewrite keys_str by done. cbn [mbind outcome_bind].
  destruct H as [->|[-> _]]; [|done]. by rewrite lookup_delete_ne by done.
Qed.

End Adapter.
End Adapter.
