(* ===== verification/Tables.v ===== *)
(** * The relational schema (apps/admin-api/db/changelog)

    The rows of the tables the modelled operations use, the database as a
    record of tables, and one [table] value per table: its accessors, the
    column its row-level-security policy compares with the tenant setting,
    the constraints an INSERT is checked against, and the rows a DELETE
    cascades to.  A TIMESTAMPTZ is its UTC instant in microseconds. *)

From S2P Require Import Prelude PyStr PyJson PyTime WireIds.

Local Open Scope string_scope.

(** ** Rows *)

(** 001-tenants.yaml *)
Record tenant_row := TenantRow {
  t_id : uuid; t_slug : string; t_display_name : string; t_isolation_mode : string;
  t_status : string; t_settings : json; t_created_at : Z; t_updated_at : Z }.

(** 002-operators.yaml *)
Record operator_row := OperatorRow {
  o_id : uuid; o_tenant_id : uuid; o_email : string; o_display_name : option string;
  o_internal_password_hash : option string; o_oidc_sub : option string; o_oidc_provider : option string;
  o_is_platform_admin : bool; o_status : string; o_created_at : Z }.
Record membership_row := MembershipRow {
  om_operator_id : uuid; om_tenant_id : uuid; om_role : string; om_created_at : Z }.
Record session_row := SessionRow {
  ss_id : uuid; ss_tenant_id : uuid; ss_operator_id : uuid; ss_expires_at : Z;
  ss_auth_method : option string }.

(** 003-agents.yaml, 013-agent-key-lifecycle.yaml, 021-ssh-pubkey-and-hostkeys.yaml *)
Record agent_row := AgentRow {
  a_id : uuid; a_tenant_id : uuid; a_name : string; a_description : option string;
  a_api_key_hash : string; a_api_key_fingerprint : string; a_mcp_endpoint : option string;
  a_status : string; a_rate_limit_rps : option Z; a_created_at : Z; a_updated_at : Z;
  a_api_key_expires_at : option Z; a_api_key_version : Z; a_api_key_last_rotated_at : option Z;
  a_ssh_pubkey : option string }.

(** 004-services.yaml, 017-services-template-id.yaml *)
Record service_row := ServiceRow {
  s_id : uuid; s_tenant_id : uuid; s_name : string; s_slug : string; s_display_name : option string;
  s_description : option string; s_base_url : string; s_auth_scheme : string; s_openapi_url : option string;
  s_status : string; s_template_id : option string; s_created_at : Z; s_updated_at : Z; s_current_key_version : Z;
  s_openapi_etag : option string }.

(** 005-credentials.yaml *)
Record credential_row := CredentialRow {
  cr_id : uuid; cr_tenant_id : uuid; cr_service_id : uuid; cr_key_version : Z; cr_auth_scheme : string;
  cr_status : string; cr_created_at : Z; cr_revoked_at : option Z }.

(** 018-vault-schema.yaml, 020-vault-ssh-cols.yaml: the credentials of the vault adapter; [vc_value] is
    what the encrypted columns open to. *)
Record vault_row := VaultRow {
  vc_tenant_id : uuid; vc_service_id : uuid; vc_key_version : Z; vc_auth_scheme : Z; vc_value : string;
  vc_is_current : bool; vc_is_revoked : bool; vc_target_url : string; vc_header_name : string; vc_query_param : string;
  vc_target_address : string; vc_ssh_user : string }.

(** 006-permission-grants.yaml *)
Record grant_row := GrantRow {
  g_id : uuid; g_tenant_id : uuid; g_agent_id : uuid; g_service_id : uuid;
  g_action : string; g_constraints : json; g_created_at : Z; g_created_by : uuid }.

(** 007-audit-events.yaml *)
Record audit_row := AuditRow {
  e_id : uuid; e_tenant_id : uuid; e_event_type : string;
  e_actor_id : option uuid; e_actor_type : option string;
  e_target_id : option uuid; e_target_type : option string;
  e_payload : json; e_prev_hash : string; e_hash : string; e_at : Z;
  e_request_id : option uuid; e_trace_id : option string }.

(** 008-platform-tables.yaml *)
Record chain_row := ChainRow {
  c_tenant_id : uuid; c_head_event_id : option uuid; c_head_hash : option string }.
Record setting_row := SettingRow { ts_tenant_id : uuid; ts_key : string; ts_value : json }.

(** 022-email-services.yaml, 024-email-service-tls-insecure-skip-verify.yaml,
    025-email-permission-grants.yaml *)
Record email_service_row := EmailServiceRow {
  es_id : uuid; es_tenant_id : uuid; es_provider : string; es_name : string;
  es_imap_host : string; es_imap_port : Z; es_smtp_host : string; es_smtp_port : Z; es_auth_scheme : string;
  es_allowed_recipient_domains : option string; es_pool_size_max : Z; es_tls_insecure_skip_verify : bool;
  es_created_at : Z; es_updated_at : Z; es_deleted_at : option Z }.
Definition es_deleted (r : email_service_row) : bool := match es_deleted_at r with Some _ => true | None => false end.
Record email_grant_row := EmailGrantRow {
  eg_id : uuid; eg_tenant_id : uuid; eg_agent_id : uuid; eg_email_service_id : uuid;
  eg_created_at : Z; eg_updated_at : Z }.

(** 027-agent-secrets.yaml, 028-agent-secrets-created-by.yaml *)
Record secret_row := SecretRow {
  k_id : uuid; k_tenant_id : uuid; k_agent_id : uuid; k_name : string;
  k_content_type : option string; k_size_bytes : Z; k_version : Z;
  k_created_by : option uuid; k_created_at : Z; k_updated_at : Z }.
Record secret_grant_row := SecretGrantRow {
  sg_id : uuid; sg_tenant_id : uuid; sg_secret_id : uuid; sg_recipient : uuid;
  sg_created_by : uuid; sg_created_at : Z }.

(** 029-budget-counters.yaml *)
Record counter_row := CounterRow {
  b_permission_id : uuid; b_period_start : Z; b_period_end : Z; b_ceiling : Z;
  b_used : Z; b_tenant_id : uuid }.

(** 012-service-api-keys.yaml *)
Record api_key_row := ApiKeyRow {
  y_id : uuid; y_tenant_id : uuid; y_agent_id : uuid; y_service_id : uuid; y_key_hash : string;
  y_key_fingerprint : string; y_allowed_actions : list string; y_constraints : option json;
  y_expires_at : option Z; y_last_used_at : option Z; y_revoked_at : option Z; y_revoke_reason : option string;
  y_created_at : Z; y_created_by : uuid }.

(** 029-oidc-login-state.yaml *)
Record login_state_row := LoginStateRow {
  ls_state : string; ls_code_verifier : string; ls_redirect_uri : string; ls_expires_at : Z }.

(** 023-oauth2-state.yaml, 026-oauth2-client-configs.yaml *)
Record oauth2_state_row := Oauth2StateRow {
  os_state_value : string; os_session_id : uuid; os_operator_id : uuid; os_tenant_id : uuid; os_provider : string;
  os_redirect_uri : string; os_created_at : Z; os_expires_at : Z; os_service_id : option uuid }.
Record client_config_row := ClientConfigRow {
  oc_tenant_id : uuid; oc_provider : string; oc_client_id : string; oc_created_at : Z; oc_updated_at : Z }.

(** ** The database *)

Record db := Db {
  tenants : list tenant_row;
  operators : list operator_row;
  sessions : list session_row;
  agents : list agent_row;
  services : list service_row;
  permission_grants : list grant_row;
  audit_events : list audit_row;
  audit_chain_state : list chain_row;
  email_services : list email_service_row;
  email_permission_grants : list email_grant_row;
  agent_secrets : list secret_row;
  agent_secret_grants : list secret_grant_row;
  budget_counters : list counter_row;
  service_api_keys : list api_key_row;
  operator_tenant_memberships : list membership_row;
  tenant_settings : list setting_row;
  oidc_login_state : list login_state_row;
  credentials : list credential_row;
  vault_credentials : list vault_row;
  oauth2_state : list oauth2_state_row;
  oauth2_client_configs : list client_config_row }.

Definition empty_db : db := Db [] [] [] [] [] [] [] [] [] [] [] [] [] [] [] [] [] [] [] [] [].

(** The tables no tenant's handlers on agents, grants or secrets write. *)
Definition platform_tables (d : db) :=
  (operator_tenant_memberships d, tenant_settings d, oidc_login_state d, credentials d, vault_credentials d,
   oauth2_state d, oauth2_client_configs d).

(** ** Tables *)

Record table (R : Type) := Table {
  tb_get : db -> list R;
  tb_set : list R -> db -> db;
  (** The column of the [tenant_isolation] policy; [None] when the table has no policy. *)
  tb_tenant : R -> option uuid;
  (** The name of the constraint an INSERT of the row violates. *)
  tb_check : db -> R -> option string;
  (** What ON DELETE CASCADE removes with the rows that satisfy a predicate. *)
  tb_cascade : (R -> bool) -> db -> db }.
Arguments tb_get {R} _ _.
Arguments tb_set {R} _ _ _.
Arguments tb_tenant {R} _ _.
Arguments tb_check {R} _ _ _.
Arguments tb_cascade {R} _ _ _.

Class TableLaws {R} (T : table R) : Prop := {
  tb_get_set : forall l d, tb_get T (tb_set T l d) = l;
  tb_set_get : forall d, tb_set T (tb_get T d) d = d;
  tb_set_set : forall l l' d, tb_set T l (tb_set T l' d) = tb_set T l d }.

(** The first violated constraint. *)
Fixpoint first_violation (cs : list (string * bool)) : option string :=
  match cs with
  | [] => None
  | (name, ok) :: cs' => if ok then first_violation cs' else Some name
  end.

Definition fresh {R} (key : R -> uuid) (id : uuid) (l : list R) : bool :=
  forallb (fun r => negb (N.eqb (key r) id)) l.
Definition present {R} (key : R -> uuid) (id : uuid) (l : list R) : bool :=
  existsb (fun r => N.eqb (key r) id) l.

Definition no_cascade {R} (p : R -> bool) (d : db) : db := d.

Definition tenants_t : table tenant_row := {|
  tb_get := tenants;
  tb_set l d := {| tenants := l; operators := operators d; sessions := sessions d; agents := agents d;
    services := services d; permission_grants := permission_grants d; audit_events := audit_events d;
    audit_chain_state := audit_chain_state d; email_services := email_services d;
    email_permission_grants := email_permission_grants d; agent_secrets := agent_secrets d;
    agent_secret_grants := agent_secret_grants d; budget_counters := budget_counters d; service_api_keys := service_api_keys d;
    operator_tenant_memberships := operator_tenant_memberships d; tenant_settings := tenant_settings d; oidc_login_state := oidc_login_state d; credentials := credentials d; vault_credentials := vault_credentials d;
    oauth2_state := oauth2_state d; oauth2_client_configs := oauth2_client_configs d |};
  tb_tenant r := Some (t_id r);
  tb_check d r := first_violation [
    ("tenants_pkey", fresh t_id (t_id r) (tenants d));
    ("tenants_slug_key", forallb (fun r' => negb (String.eqb (t_slug r') (t_slug r))) (tenants d))];
  tb_cascade := no_cascade |}.

Definition sessions_t : table session_row := {|
  tb_get := sessions;
  tb_set l d := {| tenants := tenants d; operators := operators d; sessions := l; agents := agents d;
    services := services d; permission_grants := permission_grants d; audit_events := audit_events d;
    audit_chain_state := audit_chain_state d; email_services := email_services d;
    email_permission_grants := email_permission_grants d; agent_secrets := agent_secrets d;
    agent_secret_grants := agent_secret_grants d; budget_counters := budget_counters d; service_api_keys := service_api_keys d;
    operator_tenant_memberships := operator_tenant_memberships d; tenant_settings := tenant_settings d; oidc_login_state := oidc_login_state d; credentials := credentials d; vault_credentials := vault_credentials d;
    oauth2_state := oauth2_state d; oauth2_client_configs := oauth2_client_configs d |};
  tb_tenant r := Some (ss_tenant_id r);
  tb_check d r := first_violation [
    ("sessions_pkey", fresh ss_id (ss_id r) (sessions d));
    ("fk_sessions_operator", present o_id (ss_operator_id r) (operators d));
    ("fk_sessions_tenant", present t_id (ss_tenant_id r) (tenants d))];
  tb_cascade := no_cascade |}.

(** Equality in a unique index: NULLs are distinct. *)
Definition same_text (a b : option string) : bool :=
  match a, b with Some x, Some y => String.eqb x y | _, _ => false end.

Definition operators_t : table operator_row := {|
  tb_get := operators;
  tb_set l d := {| tenants := tenants d; operators := l; sessions := sessions d; agents := agents d;
    services := services d; permission_grants := permission_grants d; audit_events := audit_events d;
    audit_chain_state := audit_chain_state d; email_services := email_services d;
    email_permission_grants := email_permission_grants d; agent_secrets := agent_secrets d;
    agent_secret_grants := agent_secret_grants d; budget_counters := budget_counters d; service_api_keys := service_api_keys d;
    operator_tenant_memberships := operator_tenant_memberships d; tenant_settings := tenant_settings d; oidc_login_state := oidc_login_state d; credentials := credentials d; vault_credentials := vault_credentials d;
    oauth2_state := oauth2_state d; oauth2_client_configs := oauth2_client_configs d |};
  tb_tenant r := Some (o_tenant_id r);
  tb_check d r := first_violation [
    ("operators_pkey", fresh o_id (o_id r) (operators d));
    ("idx_operators_oidc_sub", forallb (fun r' => negb (same_text (o_oidc_sub r') (o_oidc_sub r))) (operators d));
    ("idx_operators_tenant_email",
       forallb (fun r' => negb (N.eqb (o_tenant_id r') (o_tenant_id r)
                                && String.eqb (o_email r') (o_email r))) (operators d));
    ("fk_operators_tenant", present t_id (o_tenant_id r) (tenants d))];
  tb_cascade := no_cascade |}.

(** The CHECK constraints of agents, which an UPDATE is checked against too. *)
Definition later_opt (created : Z) (expires : option Z) : bool :=
  match expires with Some e => Z.ltb created e | None => true end.
Definition agents_checks (r : agent_row) : list (string * bool) :=
  [("chk_agents_api_key_expiry", later_opt (a_created_at r) (a_api_key_expires_at r));
   ("chk_agents_api_key_version_positive", Z.leb 1 (a_api_key_version r))].

Definition agents_t : table agent_row := {|
  tb_get := agents;
  tb_set l d := {| tenants := tenants d; operators := operators d; sessions := sessions d; agents := l;
    services := services d; permission_grants := permission_grants d; audit_events := audit_events d;
    audit_chain_state := audit_chain_state d; email_services := email_services d;
    email_permission_grants := email_permission_grants d; agent_secrets := agent_secrets d;
    agent_secret_grants := agent_secret_grants d; budget_counters := budget_counters d; service_api_keys := service_api_keys d;
    operator_tenant_memberships := operator_tenant_memberships d; tenant_settings := tenant_settings d; oidc_login_state := oidc_login_state d; credentials := credentials d; vault_credentials := vault_credentials d;
    oauth2_state := oauth2_state d; oauth2_client_configs := oauth2_client_configs d |};
  tb_tenant r := Some (a_tenant_id r);
  tb_check d r := first_violation ([
    ("agents_pkey", fresh a_id (a_id r) (agents d));
    ("fk_agents_tenant", present t_id (a_tenant_id r) (tenants d))] ++ agents_checks r)%list;
  tb_cascade := no_cascade |}.

Definition services_t : table service_row := {|
  tb_get := services;
  tb_set l d := {| tenants := tenants d; operators := operators d; sessions := sessions d; agents := agents d;
    services := l; permission_grants := permission_grants d; audit_events := audit_events d;
    audit_chain_state := audit_chain_state d; email_services := email_services d;
    email_permission_grants := email_permission_grants d; agent_secrets := agent_secrets d;
    agent_secret_grants := agent_secret_grants d; budget_counters := budget_counters d; service_api_keys := service_api_keys d;
    operator_tenant_memberships := operator_tenant_memberships d; tenant_settings := tenant_settings d; oidc_login_state := oidc_login_state d; credentials := credentials d; vault_credentials := vault_credentials d;
    oauth2_state := oauth2_state d; oauth2_client_configs := oauth2_client_configs d |};
  tb_tenant r := Some (s_tenant_id r);
  tb_check d r := first_violation [
    ("services_pkey", fresh s_id (s_id r) (services d));
    ("uq_services_tenant_slug",
       forallb (fun r' => negb (N.eqb (s_tenant_id r') (s_tenant_id r)
                                && String.eqb (s_slug r') (s_slug r))) (services d));
    ("fk_services_tenant", present t_id (s_tenant_id r) (tenants d))];
  tb_cascade := no_cascade |}.

Definition budget_counters_t : table counter_row := {|
  tb_get := budget_counters;
  tb_set l d := {| tenants := tenants d; operators := operators d; sessions := sessions d; agents := agents d;
    services := services d; permission_grants := permission_grants d; audit_events := audit_events d;
    audit_chain_state := audit_chain_state d; email_services := email_services d;
    email_permission_grants := email_permission_grants d; agent_secrets := agent_secrets d;
    agent_secret_grants := agent_secret_grants d; budget_counters := l; service_api_keys := service_api_keys d;
    operator_tenant_memberships := operator_tenant_memberships d; tenant_settings := tenant_settings d; oidc_login_state := oidc_login_state d; credentials := credentials d; vault_credentials := vault_credentials d;
    oauth2_state := oauth2_state d; oauth2_client_configs := oauth2_client_configs d |};
  tb_tenant r := Some (b_tenant_id r);
  tb_check d r := first_violation [
    ("pk_budget_counters",
       forallb (fun r' => negb (N.eqb (b_permission_id r') (b_permission_id r)
                                && Z.eqb (b_period_start r') (b_period_start r))) (budget_counters d));
    ("fk_budget_counters_permission", present g_id (b_permission_id r) (permission_grants d));
    ("fk_budget_counters_tenant", present t_id (b_tenant_id r) (tenants d))];
  tb_cascade := no_cascade |}.

Definition permission_grants_t : table grant_row := {|
  tb_get := permission_grants;
  tb_set l d := {| tenants := tenants d; operators := operators d; sessions := sessions d; agents := agents d;
    services := services d; permission_grants := l; audit_events := audit_events d;
    audit_chain_state := audit_chain_state d; email_services := email_services d;
    email_permission_grants := email_permission_grants d; agent_secrets := agent_secrets d;
    agent_secret_grants := agent_secret_grants d; budget_counters := budget_counters d; service_api_keys := service_api_keys d;
    operator_tenant_memberships := operator_tenant_memberships d; tenant_settings := tenant_settings d; oidc_login_state := oidc_login_state d; credentials := credentials d; vault_credentials := vault_credentials d;
    oauth2_state := oauth2_state d; oauth2_client_configs := oauth2_client_configs d |};
  tb_tenant r := Some (g_tenant_id r);
  tb_check d r := first_violation [
    ("permission_grants_pkey", fresh g_id (g_id r) (permission_grants d));
    ("fk_permission_grants_tenant", present t_id (g_tenant_id r) (tenants d));
    ("fk_permission_grants_agent", present a_id (g_agent_id r) (agents d));
    ("fk_permission_grants_service", present s_id (g_service_id r) (services d))];
  tb_cascade p d :=
    let gone := map g_id (List.filter p (permission_grants d)) in
    tb_set budget_counters_t
      (List.filter (fun b => negb (existsb (N.eqb (b_permission_id b)) gone)) (budget_counters d)) d |}.

Definition audit_events_t : table audit_row := {|
  tb_get := audit_events;
  tb_set l d := {| tenants := tenants d; operators := operators d; sessions := sessions d; agents := agents d;
    services := services d; permission_grants := permission_grants d; audit_events := l;
    audit_chain_state := audit_chain_state d; email_services := email_services d;
    email_permission_grants := email_permission_grants d; agent_secrets := agent_secrets d;
    agent_secret_grants := agent_secret_grants d; budget_counters := budget_counters d; service_api_keys := service_api_keys d;
    operator_tenant_memberships := operator_tenant_memberships d; tenant_settings := tenant_settings d; oidc_login_state := oidc_login_state d; credentials := credentials d; vault_credentials := vault_credentials d;
    oauth2_state := oauth2_state d; oauth2_client_configs := oauth2_client_configs d |};
  tb_tenant r := Some (e_tenant_id r);
  tb_check d r := first_violation [
    ("audit_events_pkey", fresh e_id (e_id r) (audit_events d));
    ("fk_audit_events_tenant", present t_id (e_tenant_id r) (tenants d))];
  tb_cascade := no_cascade |}.

(** 011-schema-fixes.yaml removes the policy of this table. *)
Definition audit_chain_state_t : table chain_row := {|
  tb_get := audit_chain_state;
  tb_set l d := {| tenants := tenants d; operators := operators d; sessions := sessions d; agents := agents d;
    services := services d; permission_grants := permission_grants d; audit_events := audit_events d;
    audit_chain_state := l; email_services := email_services d;
    email_permission_grants := email_permission_grants d; agent_secrets := agent_secrets d;
    agent_secret_grants := agent_secret_grants d; budget_counters := budget_counters d; service_api_keys := service_api_keys d;
    operator_tenant_memberships := operator_tenant_memberships d; tenant_settings := tenant_settings d; oidc_login_state := oidc_login_state d; credentials := credentials d; vault_credentials := vault_credentials d;
    oauth2_state := oauth2_state d; oauth2_client_configs := oauth2_client_configs d |};
  tb_tenant r := None;
  tb_check d r := first_violation [
    ("audit_chain_state_pkey", fresh c_tenant_id (c_tenant_id r) (audit_chain_state d));
    ("fk_audit_chain_state_tenant", present t_id (c_tenant_id r) (tenants d))];
  tb_cascade := no_cascade |}.

Definition email_services_t : table email_service_row := {|
  tb_get := email_services;
  tb_set l d := {| tenants := tenants d; operators := operators d; sessions := sessions d; agents := agents d;
    services := services d; permission_grants := permission_grants d; audit_events := audit_events d;
    audit_chain_state := audit_chain_state d; email_services := l;
    email_permission_grants := email_permission_grants d; agent_secrets := agent_secrets d;
    agent_secret_grants := agent_secret_grants d; budget_counters := budget_counters d; service_api_keys := service_api_keys d;
    operator_tenant_memberships := operator_tenant_memberships d; tenant_settings := tenant_settings d; oidc_login_state := oidc_login_state d; credentials := credentials d; vault_credentials := vault_credentials d;
    oauth2_state := oauth2_state d; oauth2_client_configs := oauth2_client_configs d |};
  tb_tenant r := Some (es_tenant_id r);
  tb_check d r := first_violation [
    ("email_services_auth_scheme_chk",
       existsb (String.eqb (es_auth_scheme r)) ["email_password"; "email_oauth2"; "email_app_password"]);
    ("email_services_provider_chk", existsb (String.eqb (es_provider r)) ["gmail"; "outlook"; "generic"]);
    ("email_services_pkey", fresh es_id (es_id r) (email_services d))];
  tb_cascade := no_cascade |}.

Definition email_permission_grants_t : table email_grant_row := {|
  tb_get := email_permission_grants;
  tb_set l d := {| tenants := tenants d; operators := operators d; sessions := sessions d; agents := agents d;
    services := services d; permission_grants := permission_grants d; audit_events := audit_events d;
    audit_chain_state := audit_chain_state d; email_services := email_services d;
    email_permission_grants := l; agent_secrets := agent_secrets d;
    agent_secret_grants := agent_secret_grants d; budget_counters := budget_counters d; service_api_keys := service_api_keys d;
    operator_tenant_memberships := operator_tenant_memberships d; tenant_settings := tenant_settings d; oidc_login_state := oidc_login_state d; credentials := credentials d; vault_credentials := vault_credentials d;
    oauth2_state := oauth2_state d; oauth2_client_configs := oauth2_client_configs d |};
  tb_tenant r := Some (eg_tenant_id r);
  tb_check d r := first_violation [
    ("email_permission_grants_pkey", fresh eg_id (eg_id r) (email_permission_grants d));
    ("uq_email_permission_grants",
       forallb (fun r' => negb (N.eqb (eg_tenant_id r') (eg_tenant_id r) && N.eqb (eg_agent_id r') (eg_agent_id r)
                                && N.eqb (eg_email_service_id r') (eg_email_service_id r)))
         (email_permission_grants d));
    ("fk_email_permission_grants_tenant", present t_id (eg_tenant_id r) (tenants d));
    ("fk_email_permission_grants_agent", present a_id (eg_agent_id r) (agents d));
    ("fk_email_permission_grants_email_service", present es_id (eg_email_service_id r) (email_services d))];
  tb_cascade := no_cascade |}.

Definition agent_secret_grants_t : table secret_grant_row := {|
  tb_get := agent_secret_grants;
  tb_set l d := {| tenants := tenants d; operators := operators d; sessions := sessions d; agents := agents d;
    services := services d; permission_grants := permission_grants d; audit_events := audit_events d;
    audit_chain_state := audit_chain_state d; email_services := email_services d;
    email_permission_grants := email_permission_grants d; agent_secrets := agent_secrets d;
    agent_secret_grants := l; budget_counters := budget_counters d; service_api_keys := service_api_keys d;
    operator_tenant_memberships := operator_tenant_memberships d; tenant_settings := tenant_settings d; oidc_login_state := oidc_login_state d; credentials := credentials d; vault_credentials := vault_credentials d;
    oauth2_state := oauth2_state d; oauth2_client_configs := oauth2_client_configs d |};
  tb_tenant r := Some (sg_tenant_id r);
  tb_check d r := first_violation [
    ("agent_secret_grants_pkey", fresh sg_id (sg_id r) (agent_secret_grants d));
    ("uq_agent_secret_grants",
       forallb (fun r' => negb (N.eqb (sg_tenant_id r') (sg_tenant_id r)
                                && N.eqb (sg_secret_id r') (sg_secret_id r)
                                && N.eqb (sg_recipient r') (sg_recipient r))) (agent_secret_grants d));
    ("fk_agent_secret_grants_tenant", present t_id (sg_tenant_id r) (tenants d));
    ("fk_agent_secret_grants_secret", present k_id (sg_secret_id r) (agent_secrets d));
    ("fk_agent_secret_grants_recipient", present a_id (sg_recipient r) (agents d))];
  tb_cascade := no_cascade |}.

Definition agent_secrets_t : table secret_row := {|
  tb_get := agent_secrets;
  tb_set l d := {| tenants := tenants d; operators := operators d; sessions := sessions d; agents := agents d;
    services := services d; permission_grants := permission_grants d; audit_events := audit_events d;
    audit_chain_state := audit_chain_state d; email_services := email_services d;
    email_permission_grants := email_permission_grants d; agent_secrets := l;
    agent_secret_grants := agent_secret_grants d; budget_counters := budget_counters d; service_api_keys := service_api_keys d;
    operator_tenant_memberships := operator_tenant_memberships d; tenant_settings := tenant_settings d; oidc_login_state := oidc_login_state d; credentials := credentials d; vault_credentials := vault_credentials d;
    oauth2_state := oauth2_state d; oauth2_client_configs := oauth2_client_configs d |};
  tb_tenant r := Some (k_tenant_id r);
  tb_check d r := first_violation [
    ("agent_secrets_pkey", fresh k_id (k_id r) (agent_secrets d));
    ("uq_agent_secrets_name",
       forallb (fun r' => negb (N.eqb (k_tenant_id r') (k_tenant_id r)
                                && N.eqb (k_agent_id r') (k_agent_id r)
                                && String.eqb (k_name r') (k_name r))) (agent_secrets d));
    ("fk_agent_secrets_tenant", present t_id (k_tenant_id r) (tenants d));
    ("fk_agent_secrets_agent", present a_id (k_agent_id r) (agents d))];
  tb_cascade p d :=
    let gone := map k_id (List.filter p (agent_secrets d)) in
    tb_set agent_secret_grants_t
      (List.filter (fun g => negb (existsb (N.eqb (sg_secret_id g)) gone)) (agent_secret_grants d)) d |}.

(** CHECK (array_length(allowed_actions, 1) >= 1) is NULL, and so satisfied, for the empty array. *)
Definition api_keys_checks (r : api_key_row) : list (string * bool) :=
  [("chk_service_api_keys_expiry", later_opt (y_created_at r) (y_expires_at r))].

Definition service_api_keys_t : table api_key_row := {|
  tb_get := service_api_keys;
  tb_set l d := {| tenants := tenants d; operators := operators d; sessions := sessions d; agents := agents d;
    services := services d; permission_grants := permission_grants d; audit_events := audit_events d;
    audit_chain_state := audit_chain_state d; email_services := email_services d;
    email_permission_grants := email_permission_grants d; agent_secrets := agent_secrets d;
    agent_secret_grants := agent_secret_grants d; budget_counters := budget_counters d; service_api_keys := l;
    operator_tenant_memberships := operator_tenant_memberships d; tenant_settings := tenant_settings d; oidc_login_state := oidc_login_state d; credentials := credentials d; vault_credentials := vault_credentials d;
    oauth2_state := oauth2_state d; oauth2_client_configs := oauth2_client_configs d |};
  tb_tenant r := Some (y_tenant_id r);
  tb_check d r := first_violation ([
    ("service_api_keys_pkey", fresh y_id (y_id r) (service_api_keys d));
    ("uq_service_api_keys_fingerprint",
       forallb (fun r' => negb (String.eqb (y_key_fingerprint r') (y_key_fingerprint r))) (service_api_keys d));
    ("fk_service_api_keys_tenant", present t_id (y_tenant_id r) (tenants d));
    ("fk_service_api_keys_agent", present a_id (y_agent_id r) (agents d));
    ("fk_service_api_keys_service", present s_id (y_service_id r) (services d))] ++ api_keys_checks r)%list;
  tb_cascade := no_cascade |}.

Definition operator_tenant_memberships_t : table membership_row := {|
  tb_get := operator_tenant_memberships;
  tb_set l d := {| tenants := tenants d; operators := operators d; sessions := sessions d; agents := agents d;
    services := services d; permission_grants := permission_grants d; audit_events := audit_events d;
    audit_chain_state := audit_chain_state d; email_services := email_services d;
    email_permission_grants := email_permission_grants d; agent_secrets := agent_secrets d;
    agent_secret_grants := agent_secret_grants d; budget_counters := budget_counters d; service_api_keys := service_api_keys d;
    operator_tenant_memberships := l; tenant_settings := tenant_settings d; oidc_login_state := oidc_login_state d; credentials := credentials d; vault_credentials := vault_credentials d;
    oauth2_state := oauth2_state d; oauth2_client_configs := oauth2_client_configs d |};
  tb_tenant r := Some (om_tenant_id r);
  tb_check d r := first_violation [
    ("pk_operator_tenant_memberships",
       forallb (fun r' => negb (N.eqb (om_operator_id r') (om_operator_id r)
                                && N.eqb (om_tenant_id r') (om_tenant_id r))) (operator_tenant_memberships d));
    ("fk_otm_operator", present o_id (om_operator_id r) (operators d));
    ("fk_otm_tenant", present t_id (om_tenant_id r) (tenants d))];
  tb_cascade := no_cascade |}.

Definition tenant_settings_t : table setting_row := {|
  tb_get := tenant_settings;
  tb_set l d := {| tenants := tenants d; operators := operators d; sessions := sessions d; agents := agents d;
    services := services d; permission_grants := permission_grants d; audit_events := audit_events d;
    audit_chain_state := audit_chain_state d; email_services := email_services d;
    email_permission_grants := email_permission_grants d; agent_secrets := agent_secrets d;
    agent_secret_grants := agent_secret_grants d; budget_counters := budget_counters d; service_api_keys := service_api_keys d;
    operator_tenant_memberships := operator_tenant_memberships d; tenant_settings := l; oidc_login_state := oidc_login_state d; credentials := credentials d; vault_credentials := vault_credentials d;
    oauth2_state := oauth2_state d; oauth2_client_configs := oauth2_client_configs d |};
  tb_tenant r := Some (ts_tenant_id r);
  tb_check d r := first_violation [
    ("pk_tenant_settings",
       forallb (fun r' => negb (N.eqb (ts_tenant_id r') (ts_tenant_id r)
                                && String.eqb (ts_key r') (ts_key r))) (tenant_settings d));
    ("fk_tenant_settings_tenant", present t_id (ts_tenant_id r) (tenants d))];
  tb_cascade := no_cascade |}.

(** This table has no policy. *)
Definition oidc_login_state_t : table login_state_row := {|
  tb_get := oidc_login_state;
  tb_set l d := {| tenants := tenants d; operators := operators d; sessions := sessions d; agents := agents d;
    services := services d; permission_grants := permission_grants d; audit_events := audit_events d;
    audit_chain_state := audit_chain_state d; email_services := email_services d;
    email_permission_grants := email_permission_grants d; agent_secrets := agent_secrets d;
    agent_secret_grants := agent_secret_grants d; budget_counters := budget_counters d; service_api_keys := service_api_keys d;
    operator_tenant_memberships := operator_tenant_memberships d; tenant_settings := tenant_settings d; oidc_login_state := l; credentials := credentials d; vault_credentials := vault_credentials d;
    oauth2_state := oauth2_state d; oauth2_client_configs := oauth2_client_configs d |};
  tb_tenant r := None;
  tb_check d r := first_violation [
    ("oidc_login_state_pkey",
       forallb (fun r' => negb (String.eqb (ls_state r') (ls_state r))) (oidc_login_state d))];
  tb_cascade := no_cascade |}.

Definition credentials_t : table credential_row := {|
  tb_get := credentials;
  tb_set l d := {| tenants := tenants d; operators := operators d; sessions := sessions d; agents := agents d;
    services := services d; permission_grants := permission_grants d; audit_events := audit_events d;
    audit_chain_state := audit_chain_state d; email_services := email_services d;
    email_permission_grants := email_permission_grants d; agent_secrets := agent_secrets d;
    agent_secret_grants := agent_secret_grants d; budget_counters := budget_counters d; service_api_keys := service_api_keys d;
    operator_tenant_memberships := operator_tenant_memberships d; tenant_settings := tenant_settings d; oidc_login_state := oidc_login_state d; credentials := l; vault_credentials := vault_credentials d;
    oauth2_state := oauth2_state d; oauth2_client_configs := oauth2_client_configs d |};
  tb_tenant r := Some (cr_tenant_id r);
  tb_check d r := first_violation [
    ("credentials_pkey", fresh cr_id (cr_id r) (credentials d));
    ("fk_credentials_tenant", present t_id (cr_tenant_id r) (tenants d));
    ("fk_credentials_service", present s_id (cr_service_id r) (services d))];
  tb_cascade := no_cascade |}.

Definition vault_credentials_t : table vault_row := {|
  tb_get := vault_credentials;
  tb_set l d := {| tenants := tenants d; operators := operators d; sessions := sessions d; agents := agents d;
    services := services d; permission_grants := permission_grants d; audit_events := audit_events d;
    audit_chain_state := audit_chain_state d; email_services := email_services d;
    email_permission_grants := email_permission_grants d; agent_secrets := agent_secrets d;
    agent_secret_grants := agent_secret_grants d; budget_counters := budget_counters d; service_api_keys := service_api_keys d;
    operator_tenant_memberships := operator_tenant_memberships d; tenant_settings := tenant_settings d; oidc_login_state := oidc_login_state d; credentials := credentials d; vault_credentials := l;
    oauth2_state := oauth2_state d; oauth2_client_configs := oauth2_client_configs d |};
  tb_tenant r := Some (vc_tenant_id r);
  tb_check d r := first_violation [
    ("credentials_tenant_id_service_id_key_version_key",
       forallb (fun r' => negb (N.eqb (vc_tenant_id r') (vc_tenant_id r) && N.eqb (vc_service_id r') (vc_service_id r)
                                && Z.eqb (vc_key_version r') (vc_key_version r))) (vault_credentials d))];
  tb_cascade := no_cascade |}.

Definition oauth2_state_t : table oauth2_state_row := {|
  tb_get := oauth2_state;
  tb_set l d := {| tenants := tenants d; operators := operators d; sessions := sessions d; agents := agents d;
    services := services d; permission_grants := permission_grants d; audit_events := audit_events d;
    audit_chain_state := audit_chain_state d; email_services := email_services d;
    email_permission_grants := email_permission_grants d; agent_secrets := agent_secrets d;
    agent_secret_grants := agent_secret_grants d; budget_counters := budget_counters d; service_api_keys := service_api_keys d;
    operator_tenant_memberships := operator_tenant_memberships d; tenant_settings := tenant_settings d; oidc_login_state := oidc_login_state d; credentials := credentials d; vault_credentials := vault_credentials d;
    oauth2_state := l; oauth2_client_configs := oauth2_client_configs d |};
  tb_tenant r := Some (os_tenant_id r);
  tb_check d r := first_violation [
    ("oauth2_state_provider_chk", existsb (String.eqb (os_provider r)) ["gmail"; "outlook"]);
    ("oauth2_state_pkey",
       forallb (fun r' => negb (String.eqb (os_state_value r') (os_state_value r))) (oauth2_state d))];
  tb_cascade := no_cascade |}.

Definition oauth2_client_configs_t : table client_config_row := {|
  tb_get := oauth2_client_configs;
  tb_set l d := {| tenants := tenants d; operators := operators d; sessions := sessions d; agents := agents d;
    services := services d; permission_grants := permission_grants d; audit_events := audit_events d;
    audit_chain_state := audit_chain_state d; email_services := email_services d;
    email_permission_grants := email_permission_grants d; agent_secrets := agent_secrets d;
    agent_secret_grants := agent_secret_grants d; budget_counters := budget_counters d; service_api_keys := service_api_keys d;
    operator_tenant_memberships := operator_tenant_memberships d; tenant_settings := tenant_settings d; oidc_login_state := oidc_login_state d; credentials := credentials d; vault_credentials := vault_credentials d;
    oauth2_state := oauth2_state d; oauth2_client_configs := l |};
  tb_tenant r := Some (oc_tenant_id r);
  tb_check d r := first_violation [
    ("chk_oauth2_client_configs_provider", existsb (String.eqb (oc_provider r)) ["gmail"; "outlook"]);
    ("uq_oauth2_client_configs_tenant_provider",
       forallb (fun r' => negb (N.eqb (oc_tenant_id r') (oc_tenant_id r) && String.eqb (oc_provider r') (oc_provider r)))
         (oauth2_client_configs d));
    ("fk_oauth2_client_configs_tenant", present t_id (oc_tenant_id r) (tenants d))];
  tb_cascade := no_cascade |}.

(** The foreign keys without ON DELETE CASCADE that keep a row of services from being deleted. *)
Definition services_references (d : db) (id : uuid) : option string :=
  first_violation [
    ("fk_permission_grants_service", fresh g_service_id id (permission_grants d));
    ("fk_service_api_keys_service", fresh y_service_id id (service_api_keys d));
    ("fk_credentials_service", fresh cr_service_id id (credentials d))].

(** The foreign keys without ON DELETE CASCADE that keep a row of agents from being deleted. *)
Definition agents_references (d : db) (id : uuid) : option string :=
  first_violation [
    ("fk_permission_grants_agent", fresh g_agent_id id (permission_grants d));
    ("fk_service_api_keys_agent", fresh y_agent_id id (service_api_keys d));
    ("fk_email_permission_grants_agent", fresh eg_agent_id id (email_permission_grants d));
    ("fk_agent_secrets_agent", fresh k_agent_id id (agent_secrets d));
    ("fk_agent_secret_grants_recipient", fresh sg_recipient id (agent_secret_grants d))].

(** Reads the fields of a database built by [tb_set]. *)
Ltac db_fields := cbn [tenants operators sessions agents services permission_grants audit_events audit_chain_state
    email_services email_permission_grants agent_secrets agent_secret_grants budget_counters service_api_keys
    operator_tenant_memberships tenant_settings oidc_login_state credentials vault_credentials oauth2_state
    oauth2_client_configs tb_get tb_set tb_cascade
    agents_t service_api_keys_t agent_secrets_t agent_secret_grants_t audit_events_t audit_chain_state_t permission_grants_t budget_counters_t].

Ltac table_laws := split; intros; by repeat match goal with d : db |- _ => destruct d end.

#[global] Instance tenants_laws : TableLaws tenants_t. Proof. table_laws. Qed.
#[global] Instance sessions_laws : TableLaws sessions_t. Proof. table_laws. Qed.
#[global] Instance operators_laws : TableLaws operators_t. Proof. table_laws. Qed.
#[global] Instance agents_laws : TableLaws agents_t. Proof. table_laws. Qed.
#[global] Instance services_laws : TableLaws services_t. Proof. table_laws. Qed.
#[global] Instance service_api_keys_laws : TableLaws service_api_keys_t. Proof. table_laws. Qed.
#[global] Instance budget_counters_laws : TableLaws budget_counters_t. Proof. table_laws. Qed.
#[global] Instance permission_grants_laws : TableLaws permission_grants_t. Proof. table_laws. Qed.
#[global] Instance audit_events_laws : TableLaws audit_events_t. Proof. table_laws. Qed.
#[global] Instance audit_chain_state_laws : TableLaws audit_chain_state_t. Proof. table_laws. Qed.
#[global] Instance email_services_laws : TableLaws email_services_t. Proof. table_laws. Qed.
#[global] Instance email_permission_grants_laws : TableLaws email_permission_grants_t. Proof. table_laws. Qed.
#[global] Instance agent_secrets_laws : TableLaws agent_secrets_t. Proof. table_laws. Qed.
#[global] Instance agent_secret_grants_laws : TableLaws agent_secret_grants_t. Proof. table_laws. Qed.

#[global] Instance memberships_laws : TableLaws operator_tenant_memberships_t. Proof. table_laws. Qed.
#[global] Instance tenant_settings_laws : TableLaws tenant_settings_t. Proof. table_laws. Qed.
#[global] Instance login_state_laws : TableLaws oidc_login_state_t. Proof. table_laws. Qed.
#[global] Instance credentials_laws : TableLaws credentials_t. Proof. table_laws. Qed.
#[global] Instance oauth2_state_laws : TableLaws oauth2_state_t. Proof. table_laws. Qed.
#[global] Instance oauth2_client_configs_laws : TableLaws oauth2_client_configs_t. Proof. table_laws. Qed.

(** ** Lemmas on constraints *)

Lemma fresh_spec {R} (key : R -> uuid) id l :
  fresh key id l = true <-> ~ In id (map key l).
Proof.
  unfold fresh. rewrite forallb_forall, in_map_iff. split.
  - intros H (r & <- & Hr). apply H in Hr. by rewrite N.eqb_refl in Hr.
  - intros H r Hr. apply negb_true_iff, N.eqb_neq. intros E. apply H. by exists r.
Qed.

Lemma present_spec {R} (key : R -> uuid) id l :
  present key id l = true <-> exists r, In r l /\ key r = id.
Proof.
  unfold present. rewrite existsb_exists. split; intros (r & Hr & E); exists r;
    (split; [done|]); by apply N.eqb_eq.
Qed.
