(* ===== verification/Like.v ===== *)
(** * Search patterns (_escape_like of the list endpoints)

    SQL's LIKE with a backslash escape, and the escaping the list endpoints
    apply to a user's search text before they wrap it in percent signs. *)

From S2P Require Import Prelude PyStr.

Local Open Scope string_scope.

(** [s.replace("\\", "\\\\").replace("%", "\\%").replace("_", "\\_")] *)
Definition _escape_like (value : string) : string :=
  replace_char "_" "\_" (replace_char "%" "\%" (replace_char "\" "\\" value)).

(** [f"%{_escape_like(q)}%"] *)
Definition search_pattern (q : string) : string := "%" +:+ _escape_like q +:+ "%".

Section Like.
(** The case folding of the database's locale, one character at a time. *)
Context (fold : ascii -> ascii).

Definition same_char (a b : ascii) : bool := Ascii.eqb (fold a) (fold b).

(** [s ILIKE p ESCAPE '\'] on characters. *)
Fixpoint like (p s : list ascii) {struct p} : bool :=
  match p with
  | [] => match s with [] => true | _ => false end
  | c :: p' =>
      if Ascii.eqb c "%" then
        (fix any (s : list ascii) : bool :=
           like p' s || match s with [] => false | _ :: s' => any s' end) s
      else if Ascii.eqb c "_" then
        match s with [] => false | _ :: s' => like p' s' end
      else if Ascii.eqb c "\" then
        match p', s with
        | x :: p'', y :: s' => same_char x y && like p'' s'
        | _, _ => false
        end
      else
        match s with [] => false | y :: s' => same_char c y && like p' s' end
  end.

Definition ilike (p s : string) : bool := like (chars p) (chars s).

(** ** The escaped text matches itself only *)

Definition escape_like_char (c : ascii) : list ascii :=
  if Ascii.eqb c "_" || Ascii.eqb c "%" || Ascii.eqb c "\" then ["\"%char; c] else [c].

Lemma replace_char_flat c r s :
  chars (replace_char c r s) = flat_map (fun x => if Ascii.eqb x c then chars r else [x]) (chars s).
Proof. unfold replace_char. by rewrite chars_unchars. Qed.

Lemma escape_like_flat q : chars (_escape_like q) = flat_map escape_like_char (chars q).
Proof.
  unfold _escape_like. rewrite !replace_char_flat.
  induction (chars q) as [|c l IH]; [done|]. cbn [flat_map]. rewrite !flat_map_app, IH. f_equal.
  unfold escape_like_char.
  destruct (Ascii.eqb_spec c "_") as [->|H1]; [done|].
  destruct (Ascii.eqb_spec c "%") as [->|H2]; [done|].
  destruct (Ascii.eqb_spec c "\") as [->|H3]; [done|].
  cbn [flat_map app orb]. destruct (Ascii.eqb_spec c "%"); [done|]. cbn [flat_map app].
  by destruct (Ascii.eqb_spec c "_").
Qed.

Lemma like_percent p s :
  like ("%"%char :: p) s = true <-> exists a b, s = (a ++ b)%list /\ like p b = true.
Proof.
  induction s as [|c s IH].
  - cbn [like]. change (Ascii.eqb "%" "%") with true. cbv iota. rewrite orb_false_r. split.
    + intros H. by exists [], [].
    + intros (a & b & E & H). symmetry in E. by apply app_eq_nil in E as [-> ->].
  - change (like ("%"%char :: p) (c :: s)) with (like p (c :: s) || like ("%"%char :: p) s).
    rewrite orb_true_iff, IH. split.
    + intros [H|(a & b & -> & H)]; [by exists [], (c :: s)|by exists (c :: a), b].
    + intros ([|x a] & b & E & H); cbn [app] in E; [left; by subst b|].
      injection E as <- ->. right. by exists a, b.
Qed.

(** An escaped text followed by [p] consumes exactly the characters it stands for. *)
Lemma like_escaped q p s :
  like (flat_map escape_like_char q ++ p)%list s = true <->
  exists m b, s = (m ++ b)%list /\ map fold m = map fold q /\ like p b = true.
Proof.
  revert s. induction q as [|c q IH]; intros s; cbn [flat_map app].
  - split; [intros H; by exists [], s|].
    intros (m & b & -> & Hm & H). destruct m; [done|discriminate].
  - assert (Hstep : like ((escape_like_char c ++ flat_map escape_like_char q) ++ p)%list s =
      match s with [] => false | y :: s' => same_char c y && like (flat_map escape_like_char q ++ p)%list s' end).
    { unfold escape_like_char.
      destruct (Ascii.eqb_spec c "_") as [->|H1]; [reflexivity|].
      destruct (Ascii.eqb_spec c "%") as [->|H2]; [reflexivity|].
      destruct (Ascii.eqb_spec c "\") as [->|H3]; [reflexivity|].
      cbn [orb app like].
      by rewrite (proj2 (Ascii.eqb_neq c "%")), (proj2 (Ascii.eqb_neq c "_")), (proj2 (Ascii.eqb_neq c "\")). }
    rewrite Hstep. destruct s as [|y s].
    + split; [done|]. intros (m & b & E & Hm & _). symmetry in E. apply app_eq_nil in E as [-> _]. done.
    + rewrite andb_true_iff, IH. unfold same_char. rewrite Ascii.eqb_eq. split.
      * intros [Hc (m & b & -> & Hm & H)]. exists (y :: m), b. cbn [map]. by rewrite Hc, Hm.
      * intros ([|x m] & b & E & Hm & H); [done|]. cbn [app map] in *. injection E as -> ->.
        injection Hm as Hc Hm. split; [done|]. by exists m, b.
Qed.

Lemma like_all s : like ["%"%char] s = true.
Proof. apply like_percent. exists s, []. by rewrite app_nil_r. Qed.

(** A search matches substrings, whatever characters the user types.  The pattern the list
    endpoints build from a search text matches a column value exactly when the value contains
    the text, up to case folding: no percent sign, underscore or backslash of the text acts as
    a wildcard or an escape. *)
Theorem search_is_substring q s :
  ilike (search_pattern q) s = true <->
  exists a m b, s = a +:+ m +:+ b /\ map fold (chars m) = map fold (chars q).
Proof.
  unfold ilike, search_pattern. rewrite !chars_app, escape_like_flat.
  change (chars "%") with ["%"%char]. cbn [app]. rewrite like_percent. split.
  - intros (a & b & E & H). apply like_escaped in H as (m & b' & -> & Hm & _).
    exists (unchars a), (unchars m), (unchars b'). rewrite chars_unchars. split; [|done].
    apply chars_inj. by rewrite !chars_app, !chars_unchars.
  - intros (a & m & b & -> & Hm). rewrite !chars_app.
    exists (chars a), (chars m ++ chars b)%list. split; [done|].
    apply like_escaped. exists (chars m), (chars b). split; [done|]. split; [done|]. apply like_all.
Qed.
End Like.
