(* ===== verification/Database.v ===== *)
(** * Sessions, transactions and effects

    The state a request handler runs in and the monad the handlers are
    written in.  A [world] holds the committed database, the working copy of
    the open transaction, the settings of [set_config], pending and sent
    notifications, the vault, and a counter that indexes the tapes of the
    environment ([uuid4], [now], failures).  Every statement can fail with
    the environment's fault at that point; a failed statement aborts the
    transaction, and the commit of an aborted transaction rolls back.  The file
    ends with the cursor pages of the list endpoints. *)

From Stdlib Require QArith_base.
From S2P Require Import Prelude PyStr PyJson PyJsonFacts PyTime WireIds Like Vault Tables.

Local Open Scope string_scope.

(** ** The environment *)

(** The dict [get_credential] makes of the reply; [cr_plaintext] is the decoded value. *)
Record credential_reply := CredentialReply {
  cr_plaintext : string; cr_scheme : Z; cr_version : Z; cr_header_name : string; cr_query_param : string;
  cr_target_address : string; cr_ssh_user : string }.

(** An answer of the HTTP client: status, headers (names in lower case), the bytes of the body, its
    decoded text, and its JSON value where it parses. *)
Record fetched := Fetched {
  ft_status : Z; ft_headers : list (string * string); ft_content : string; ft_text : string; ft_json : option json }.

(** What the program receives from outside: randomness, time, failures and
    the codecs of the database driver and of Postgres. *)
Class Env := {
  env_uuid4 : nat -> uuid;
  env_uuid4_lt : forall n, (env_uuid4 n < uuid_limit)%N;
  env_now : nat -> Z;
  (** The failure of the statement executed at this point. *)
  env_fault : nat -> option exn;
  (** The failure of the vault call at this point; [true] when the call took effect. *)
  env_vault_fault : nat -> option (bool * exn);
  (** How the driver encodes a [str] bound to a UUID column. *)
  bind_uuid : string -> option uuid;
  bind_uuid_str : forall u, (u < uuid_limit)%N -> bind_uuid (uuid_str u) = Some u;
  bind_uuid_lt : forall s u, bind_uuid s = Some u -> (u < uuid_limit)%N;
  bind_uuid_UUID : forall s u, bind_uuid s = Some u -> UUID s = Ok u;
  (** Postgres' [text::uuid] cast. *)
  pg_uuid_in : string -> option uuid;
  pg_uuid_in_str : forall u, (u < uuid_limit)%N -> pg_uuid_in (uuid_str u) = Some u;
  (** What [CAST(:p AS jsonb)] stores: the same value, keys in jsonb's order. *)
  jsonb : json -> json;
  jsonb_wf : forall j, json_wf j -> json_wf (jsonb j);
  jsonb_same : forall j, json_wf j -> json_same (jsonb j) j;
  (** Does the driver hand a jsonb column back as text? *)
  jsonb_as_text : bool;
  (** What the driver makes of a Python dict bound to a jsonb column without a cast. *)
  bind_jsonb : json -> option json;
  (** The case folding of ILIKE in the database's locale. *)
  env_fold : ascii -> ascii;
  (** [time.time()] *)
  env_time : nat -> QArith_base.Q;
  (** The IANA time zones: the offset from UTC, in microseconds, at an instant. *)
  env_zone : string -> option (Z -> Z);
  (** [os.getenv]; [None] when unset. *)
  env_var : string -> option string;
  (** The answer to an HTTP request made at this point: status and, when it parses, JSON body; or the
      exception of the client. *)
  env_http : nat -> outcome (Z * option json);
  (** [secrets.token_bytes(32)], as a big-endian number *)
  env_token_bytes : nat -> N;
  env_token_bytes_lt : forall n, (env_token_bytes n < 2 ^ 256)%N;
  (** [time.monotonic()] *)
  env_monotonic : nat -> QArith_base.Q;
  (** The instant of a wall clock in the zone of the process. *)
  env_local : Z -> Z;
  (** The values of the table admin_settings where somebody created it: no changelog does. *)
  env_admin_settings : option (list json);
  (** [secrets.token_urlsafe(n)] *)
  env_token_urlsafe : nat -> nat -> string;
  (** [open(path).read()]; [None] for OSError. *)
  env_file : string -> option string;
  (** What a backend answers to a forwarded request: status, body and content type. *)
  env_backend : nat -> outcome (Z * string * option string);
  (** [response.text]: the body decoded by the charset of the content type. *)
  httpx_text : string -> option string -> string;
  (** The token the vault adapter derives from the stored value of a credential whose scheme (by
      number) has it signed or fetched; [None] for an error. *)
  env_mint : nat -> Z -> string -> option string;
  (** The addresses [socket.getaddrinfo(host, None)] returns. *)
  env_getaddrinfo : nat -> string -> outcome (list string);
  (** Does [asyncssh.import_private_key] accept the key? *)
  env_ssh_key : string -> bool;
  (** The SSH connection and the command run on it: the banner, or the exception; an exception of
      another class than [exn] has is a [RuntimeError] with the name of its class. *)
  env_ssh : nat -> outcome string;
  (** The whole answer to an HTTP request, or the exception of the client. *)
  env_fetch : nat -> outcome fetched
}.

(** ** The state *)

(** A transaction is open, open after a failed statement, or finished. *)
Inductive tx_status := TxActive | TxAborted | TxDone.

#[global] Instance tx_status_eq_dec : EqDecision tx_status.
Proof. solve_decision. Defined.

(** A call of another service over HTTP: method, URL, JSON body, the headers set and the query
    parameters. *)
Record http_request := HttpRequest {
  rq_method : string; rq_url : string; rq_json : json; rq_headers : list (string * string);
  rq_params : list (string * string) }.

(** A request forwarded to a backend: method, URL, query parameters, headers, body. *)
Record backend_request := BackendRequest {
  fw_method : string; fw_url : string; fw_params : list (string * string); fw_headers : list (string * string);
  fw_content : option string }.

(** A connection to an SSH server: host, port, user and the key or password. *)
Record ssh_dial := SshDial { sd_host : string; sd_port : Z; sd_user : json; sd_secret : json }.

(** What the processes keep outside the database: the buckets of the MCP server's rate limiter, the
    HTTP requests the processes have made, the throttle of the admin API's key-expiry events, the token
    buckets of its audit ingress (tokens and time of the last refill), the cache of whoami and the
    number of its evictions, the cached key set and client secret of the OIDC client, the number of
    Argon2 verifications, the requests sent to backends, and the SSH connections opened. *)
Record process := Process {
  p_limiter : gmap string (list QArith_base.Q);
  p_calls : list http_request;
  p_expired : gmap string QArith_base.Q;
  p_buckets : gmap string (QArith_base.Q * QArith_base.Q);
  p_whoami : gmap string (dict * QArith_base.Q);
  p_evictions : nat;
  p_jwks : option (json * QArith_base.Q);
  p_secret : option string;
  p_verifies : nat;
  p_forwarded : list backend_request;
  p_dials : list ssh_dial }.

Definition set_limiter l (p : process) : process :=
  Process l (p_calls p) (p_expired p) (p_buckets p) (p_whoami p) (p_evictions p) (p_jwks p) (p_secret p) (p_verifies p) (p_forwarded p) (p_dials p).
Definition add_call c (p : process) : process :=
  Process (p_limiter p) (p_calls p ++ [c])%list (p_expired p) (p_buckets p) (p_whoami p) (p_evictions p) (p_jwks p) (p_secret p) (p_verifies p) (p_forwarded p) (p_dials p).
Definition set_expired l (p : process) : process :=
  Process (p_limiter p) (p_calls p) l (p_buckets p) (p_whoami p) (p_evictions p) (p_jwks p) (p_secret p) (p_verifies p) (p_forwarded p) (p_dials p).
Definition set_buckets l (p : process) : process :=
  Process (p_limiter p) (p_calls p) (p_expired p) l (p_whoami p) (p_evictions p) (p_jwks p) (p_secret p) (p_verifies p) (p_forwarded p) (p_dials p).
Definition set_whoami l n (p : process) : process :=
  Process (p_limiter p) (p_calls p) (p_expired p) (p_buckets p) l n (p_jwks p) (p_secret p) (p_verifies p) (p_forwarded p) (p_dials p).
Definition set_jwks k (p : process) : process :=
  Process (p_limiter p) (p_calls p) (p_expired p) (p_buckets p) (p_whoami p) (p_evictions p) k (p_secret p) (p_verifies p) (p_forwarded p) (p_dials p).
Definition set_secret s (p : process) : process :=
  Process (p_limiter p) (p_calls p) (p_expired p) (p_buckets p) (p_whoami p) (p_evictions p) (p_jwks p) s (p_verifies p) (p_forwarded p) (p_dials p).
Definition count_verify (p : process) : process :=
  Process (p_limiter p) (p_calls p) (p_expired p) (p_buckets p) (p_whoami p) (p_evictions p) (p_jwks p) (p_secret p) (S (p_verifies p)) (p_forwarded p) (p_dials p).
Definition add_forwarded r (p : process) : process :=
  Process (p_limiter p) (p_calls p) (p_expired p) (p_buckets p) (p_whoami p) (p_evictions p) (p_jwks p) (p_secret p) (p_verifies p) (p_forwarded p ++ [r])%list (p_dials p).

Definition add_dial r (p : process) : process :=
  Process (p_limiter p) (p_calls p) (p_expired p) (p_buckets p) (p_whoami p) (p_evictions p) (p_jwks p) (p_secret p) (p_verifies p) (p_forwarded p) (p_dials p ++ [r])%list.

Definition empty_process : process := Process ∅ [] ∅ ∅ ∅ 0 None None 0 [] [].

Record world `{Vault} := World {
  w_db : db;                          (** the open transaction's view *)
  w_base : db;                        (** the committed state *)
  w_tx : tx_status;
  w_tenant : option string;           (** [app.current_tenant] *)
  w_admin_view : bool;                (** [app.platform_admin_view = 'on'] *)
  w_pending : list (string * string); (** [pg_notify] of the open transaction *)
  w_sent : list (string * string);    (** delivered at commit *)
  w_vault : vault_state;
  w_tick : nat;
  w_proc : process }.

(** A response: status code and JSON content ([JNull]: no body). *)
Record response := Response { status_code : Z; content : json }.

(** ** The monad *)

Definition M `{Vault} (A : Type) : Type := world -> outcome A * world.

Section Monad.
Context `{V : Vault}.

Definition ret {A} (a : A) : M A := fun w => (Ok a, w).
Definition raise {A} (e : exn) : M A := fun w => (Raise e, w).
Definition bind {A B} (m : M A) (k : A -> M B) : M B := fun w =>
  match m w with
  | (Ok a, w') => k a w'
  | (Raise e, w') => (Raise e, w')
  end.
(** [try: m except e: h(e)] *)
Definition catch {A} (m : M A) (h : exn -> M A) : M A := fun w =>
  match m w with
  | (Ok a, w') => (Ok a, w')
  | (Raise e, w') => h e w'
  end.
Definition lift {A} (o : outcome A) : M A := fun w => (o, w).
End Monad.

Notation "'let!' x := m 'in' k" := (bind m (fun x => k))
  (at level 10, x pattern, m at level 100, k at level 200) : py_scope.
Notation "'do!' m 'in' k" := (bind m (fun _ => k))
  (at level 10, m at level 100, k at level 200) : py_scope.

Local Open Scope py_scope.

Section Effects.
Context `{E : Env} `{V : Vault}.

Definition set_db (d : db) (w : world) : world :=
  World _ d (w_base w) (w_tx w) (w_tenant w) (w_admin_view w) (w_pending w) (w_sent w) (w_vault w) (w_tick w) (w_proc w).
Definition set_tx (t : tx_status) (w : world) : world :=
  World _ (w_db w) (w_base w) t (w_tenant w) (w_admin_view w) (w_pending w) (w_sent w) (w_vault w) (w_tick w) (w_proc w).
Definition set_vault (v : vault_state) (w : world) : world :=
  World _ (w_db w) (w_base w) (w_tx w) (w_tenant w) (w_admin_view w) (w_pending w) (w_sent w) v (w_tick w) (w_proc w).
Definition tick (w : world) : world :=
  World _ (w_db w) (w_base w) (w_tx w) (w_tenant w) (w_admin_view w) (w_pending w) (w_sent w) (w_vault w) (S (w_tick w)) (w_proc w).
Definition set_guc (tenant : option string) (admin : bool) (w : world) : world :=
  World _ (w_db w) (w_base w) (w_tx w) tenant admin (w_pending w) (w_sent w) (w_vault w) (w_tick w) (w_proc w).
Definition add_pending (n : string * string) (w : world) : world :=
  World _ (w_db w) (w_base w) (w_tx w) (w_tenant w) (w_admin_view w) (w_pending w ++ [n])%list (w_sent w) (w_vault w) (w_tick w) (w_proc w).

Definition set_proc (p : process) (w : world) : world :=
  World _ (w_db w) (w_base w) (w_tx w) (w_tenant w) (w_admin_view w) (w_pending w) (w_sent w) (w_vault w) (w_tick w) p.

(** [uuid.uuid4()] and [datetime.now(timezone.utc)] *)
Definition uuid4 : M uuid := fun w => (Ok (env_uuid4 (w_tick w)), tick w).
Definition now_utc : M Z := fun w => (Ok (env_now (w_tick w)), tick w).

Definition time_time : M QArith_base.Q := fun w => (Ok (env_time (w_tick w)), tick w).
Definition token_bytes : M N := fun w => (Ok (env_token_bytes (w_tick w)), tick w).
Definition monotonic : M QArith_base.Q := fun w => (Ok (env_monotonic (w_tick w)), tick w).
Definition getenv (name : string) (dflt : string) : string := default dflt (env_var name).

(** A request of the HTTP client. *)
Definition http_post (url : string) (body : json) (headers : list (string * string)) : M (Z * option json) := fun w0 =>
  let w := tick w0 in
  (env_http (w_tick w),
   set_proc (add_call (HttpRequest "POST" url body headers []) (w_proc w)) w).

Definition http_get (url : string) : M (Z * option json) := fun w0 =>
  let w := tick w0 in
  (env_http (w_tick w), set_proc (add_call (HttpRequest "GET" url JNull [] []) (w_proc w)) w).

Definition http_get_with (url : string) (headers : list (string * string)) : M (Z * option json) := fun w0 =>
  let w := tick w0 in
  (env_http (w_tick w), set_proc (add_call (HttpRequest "GET" url JNull headers []) (w_proc w)) w).

(** A request whose whole answer matters. *)
Definition http_fetch (rq : http_request) : M fetched := fun w0 =>
  let w := tick w0 in
  (env_fetch (w_tick w), set_proc (add_call rq (w_proc w)) w).

(** The request the proxy forwards to a backend. *)
Definition http_forward (rq : backend_request) : M (Z * string * option string) := fun w0 =>
  let w := tick w0 in
  (env_backend (w_tick w), set_proc (add_forwarded rq (w_proc w)) w).

Definition getaddrinfo (host : string) : M (list string) := fun w => (env_getaddrinfo (w_tick w) host, tick w).

(** [asyncssh.connect(...)] and the command [true] on the connection. *)
Definition ssh_connect (d : ssh_dial) : M string := fun w0 =>
  let w := tick w0 in
  (env_ssh (w_tick w), set_proc (add_dial d (w_proc w)) w).

Definition token_urlsafe (n : nat) : M string := fun w => (Ok (env_token_urlsafe (w_tick w) n), tick w).

(** One statement of the session, on the state of the world. *)
Definition execute {A} (f : world -> outcome (A * world)) : M A := fun w0 =>
  let w := tick w0 in
  match w_tx w with
  | TxDone => (Raise (RuntimeError "Can't operate on closed transaction inside context manager"), w)
  | TxAborted => (Raise (DBError "current transaction is aborted"), w)
  | TxActive =>
      match env_fault (w_tick w) with
      | Some e => (Raise e, set_tx TxAborted w)
      | None =>
          match f w with
          | Ok (a, w') => (Ok a, w')
          | Raise e => (Raise e, set_tx TxAborted w)
          end
      end
  end.

(** A [str] parameter bound to a UUID column; the driver rejects it before sending. *)
Definition bound (s : string) : M uuid :=
  match bind_uuid s with
  | Some u => ret u
  | None => raise (DBError "invalid UUID")
  end.

(** The [tenant_isolation] policy on a row's tenant column. *)
Definition policy (w : world) : outcome (uuid -> bool) :=
  match w_tenant w with
  | None => Ok (fun _ => w_admin_view w)
  | Some s =>
      match pg_uuid_in s with
      | Some t => Ok (fun r => N.eqb r t || w_admin_view w)
      | None => Raise (DBError "invalid input syntax for type uuid")
      end
  end.

Definition sees {R} (T : table R) (pol : uuid -> bool) (r : R) : bool :=
  match tb_tenant T r with
  | Some t => pol t
  | None => true
  end.

(** [SELECT * FROM T WHERE p], in table order. *)
Definition select {R} (T : table R) (p : R -> bool) : M (list R) :=
  execute (fun w =>
    pol ← policy w;
    Ok (List.filter (fun r => sees T pol r && p r) (tb_get T (w_db w)), w)).

(** The rows of a table the policy shows. *)
Definition visible {R} (T : table R) (pol : uuid -> bool) (d : db) : list R :=
  List.filter (sees T pol) (tb_get T d).

(** A SELECT over several tables, written out on the visible rows. *)
Definition query {A} (f : (uuid -> bool) -> db -> A) : M A :=
  execute (fun w => pol ← policy w; Ok (f pol (w_db w), w)).

(** [INSERT INTO T VALUES r] *)
Definition insert_db {R} (T : table R) (r : R) (d : db) : outcome db :=
  match tb_check T d r with
  | Some c => Raise (IntegrityError c)
  | None => Ok (tb_set T (tb_get T d ++ [r])%list d)
  end.

Definition insert_into {R} (T : table R) (r : R) : M unit :=
  execute (fun w =>
    pol ← policy w;
    if sees T pol r then
      d ← insert_db T r (w_db w);
      Ok (tt, set_db d w)
    else Raise (DBError "new row violates row-level security policy")).

(** [UPDATE T SET f WHERE p] *)
Definition update_db {R} (T : table R) (p : R -> bool) (f : R -> R) (d : db) : db :=
  tb_set T (map (fun r => if p r then f r else r) (tb_get T d)) d.

Definition update_where {R} (T : table R) (p : R -> bool) (f : R -> R) : M unit :=
  execute (fun w =>
    pol ← policy w;
    Ok (tt, set_db (update_db T (fun r => sees T pol r && p r) f (w_db w)) w)).

(** [UPDATE T SET f WHERE p RETURNING *] *)
Definition update_returning {R} (T : table R) (p : R -> bool) (f : R -> R) : M (list R) :=
  execute (fun w =>
    pol ← policy w;
    let q := fun r => sees T pol r && p r in
    Ok (map f (List.filter q (tb_get T (w_db w))), set_db (update_db T q f (w_db w)) w)).

(** [INSERT INTO T VALUES r ON CONFLICT (key) DO NOTHING] *)
Definition insert_ignore {R} (T : table R) (key : R -> bool) (r : R) : M unit :=
  execute (fun w =>
    pol ← policy w;
    if negb (sees T pol r) then Raise (DBError "new row violates row-level security policy")
    else if existsb key (tb_get T (w_db w)) then Ok (tt, w)
    else
      d ← insert_db T r (w_db w);
      Ok (tt, set_db d w)).

(** [DELETE FROM T WHERE p] with its cascades; the number of rows deleted. *)
Definition delete_db {R} (T : table R) (p : R -> bool) (d : db) : db :=
  let d' := tb_cascade T p d in
  tb_set T (List.filter (fun r => negb (p r)) (tb_get T d')) d'.

Definition delete_from {R} (T : table R) (p : R -> bool) : M nat :=
  execute (fun w =>
    pol ← policy w;
    let q := fun r => sees T pol r && p r in
    Ok (length (List.filter q (tb_get T (w_db w))), set_db (delete_db T q (w_db w)) w)).

(** [DELETE FROM T WHERE p RETURNING *] *)
Definition delete_returning {R} (T : table R) (p : R -> bool) : M (list R) :=
  execute (fun w =>
    pol ← policy w;
    let q := fun r => sees T pol r && p r in
    Ok (List.filter q (tb_get T (w_db w)), set_db (delete_db T q (w_db w)) w)).

(** The first row that is still referenced. *)
Fixpoint first_reference (references : uuid -> option string) (ids : list uuid) : option string :=
  match ids with
  | [] => None
  | id :: ids' => match references id with Some c => Some c | None => first_reference references ids' end
  end.

(** The same for a table with CHECK constraints and for one that others reference without a cascade. *)
Definition update_checked {R} (T : table R) (checks : R -> list (string * bool)) (p : R -> bool) (f : R -> R) : M unit :=
  execute (fun w =>
    pol ← policy w;
    let q := fun r => sees T pol r && p r in
    match first_violation (flat_map (fun r => checks (f r)) (List.filter q (tb_get T (w_db w)))) with
    | Some c => Raise (IntegrityError c)
    | None => Ok (tt, set_db (update_db T q f (w_db w)) w)
    end).

Definition delete_restricted {R} (T : table R) (key : R -> uuid) (references : db -> uuid -> option string)
    (p : R -> bool) : M nat :=
  execute (fun w =>
    pol ← policy w;
    let q := fun r => sees T pol r && p r in
    let rows := List.filter q (tb_get T (w_db w)) in
    match first_reference (references (w_db w)) (map key rows) with
    | Some c => Raise (IntegrityError c)
    | None => Ok (length rows, set_db (delete_db T q (w_db w)) w)
    end).

(** [INSERT ... ON CONFLICT (key) DO UPDATE SET f]: [key] finds the conflicting row. *)
Definition upsert {R} (T : table R) (key : R -> bool) (f : R -> R) (r : R) : M unit :=
  execute (fun w =>
    pol ← policy w;
    if negb (sees T pol r) then Raise (DBError "new row violates row-level security policy")
    else if existsb key (tb_get T (w_db w)) then
      if forallb (fun r' => sees T pol r' || negb (key r')) (tb_get T (w_db w)) then
        Ok (tt, set_db (update_db T key f (w_db w)) w)
      else Raise (DBError "row violates row-level security policy (USING expression)")
    else
      d ← insert_db T r (w_db w);
      Ok (tt, set_db d w)).

(** [SELECT set_config('app.current_tenant', s, true)] *)
Definition set_config_tenant (s : string) : M unit :=
  execute (fun w => Ok (tt, set_guc (Some s) (w_admin_view w) w)).
Definition set_config_admin_view : M unit :=
  execute (fun w => Ok (tt, set_guc (w_tenant w) true w)).

(** [set_tenant_context] (mintkey_models/tenant_ctx.py); the argument is [str(tenant_id)]. *)
Definition set_tenant_context (tenant_id : string) (is_platform_admin_view : bool) : M unit :=
  do! set_config_tenant tenant_id in
  if is_platform_admin_view then set_config_admin_view else ret tt.

(** A jsonb column as the driver returns it: its text, or the value ([dedup]: jsonb holds no repeated key). *)
Definition from_jsonb (j : json) : json := if jsonb_as_text then JStr (dumps j) else dedup j.

(** [async with session.begin_nested(): m]: the savepoint is rolled back when [m] raises. *)
Definition begin_nested {A} (m : M A) : M A :=
  do! execute (fun w => Ok (tt, w)) in
  fun w => match m w with
           | (Ok a, w1) => (do! execute (fun w => Ok (tt, w)) in ret a) w1
           | (Raise e, w1) =>
               let w2 := tick w1 in
               match env_fault (w_tick w2) with
               | Some e' => (Raise e', set_tx TxAborted w2)
               | None => (Raise e, set_tx (w_tx w) (set_db (w_db w) (set_guc (w_tenant w) (w_admin_view w) w2)))
               end
           end.

(** [SELECT pg_notify(:channel, :payload)] *)
Definition pg_notify (channel payload : string) : M unit :=
  execute (fun w => Ok (tt, add_pending (channel, payload) w)).

(** The vault's calls; a failed call may have taken effect. *)
Definition vault_call {A} (f : vault_state -> outcome (A * vault_state)) : M A := fun w0 =>
  let w := tick w0 in
  match f (w_vault w), env_vault_fault (w_tick w) with
  | Ok (a, v), None => (Ok a, set_vault v w)
  | Ok (a, v), Some (true, e) => (Raise e, set_vault v w)
  | Ok _, Some (false, e) | Raise _, Some (_, e) => (Raise e, w)
  | Raise e, None => (Raise e, w)
  end.

(** ** Transactions *)

Definition begin (w : world) : world :=
  World _ (w_base w) (w_base w) TxActive None false [] (w_sent w) (w_vault w) (S (w_tick w)) (w_proc w).

Definition rolled_back (w : world) : world :=
  World _ (w_base w) (w_base w) TxDone None false [] (w_sent w) (w_vault w) (w_tick w) (w_proc w).

Definition committed (w : world) : world :=
  World _ (w_db w) (w_db w) TxDone None false [] (w_sent w ++ w_pending w)%list (w_vault w) (w_tick w) (w_proc w).

(** [session.commit()] *)
Definition commit : M unit := fun w0 =>
  let w := tick w0 in
  match w_tx w with
  | TxDone => (Raise (RuntimeError "Can't operate on closed transaction inside context manager"), w)
  | TxAborted => (Ok tt, rolled_back w)
  | TxActive =>
      match env_fault (w_tick w) with
      | Some e => (Raise e, rolled_back w)
      | None => (Ok tt, committed w)
      end
  end.

(** [get_db_session]: [async with session.begin(): yield session]. *)
Definition transaction {A} (m : M A) : M A := fun w =>
  match m (begin w) with
  | (Raise e, w1) =>
      (Raise e, match w_tx w1 with TxDone => w1 | _ => rolled_back w1 end)
  | (Ok a, w1) =>
      match w_tx w1 with
      | TxDone => (Ok a, w1)
      | _ => match commit w1 with
             | (Ok _, w2) => (Ok a, w2)
             | (Raise e, w2) => (Raise e, w2)
             end
      end
  end.

(** Runs [m] on a connection of its own while the caller's transaction stays open. *)
Definition on_own_connection {A} (m : M A) : M A := fun w =>
  let (o, w1) := m (World _ (w_base w) (w_base w) TxDone None false [] (w_sent w) (w_vault w) (w_tick w) (w_proc w)) in
  (o, World _ (w_db w) (w_base w1) (w_tx w) (w_tenant w) (w_admin_view w) (w_pending w) (w_sent w1)
        (w_vault w1) (w_tick w1) (w_proc w1)).

End Effects.

Lemma update_db_ext {R} (T : table R) p q f d :
  (forall r, In r (tb_get T d) -> p r = q r) -> update_db T p f d = update_db T q f d.
Proof. intros H. unfold update_db. f_equal. apply map_ext_in. intros r Hr. by rewrite H. Qed.

(** ** Responses and helpers on rows *)

Definition JSONResponse (status : Z) (body : dict) : response := Response status (JObj body).

(** [Response(status_code=n)] *)
Definition EmptyResponse (status : Z) : response := Response status JNull.

(** [x if x is not None else None], as JSON *)
Definition json_opt {A} (f : A -> json) (o : option A) : json :=
  match o with Some a => f a | None => JNull end.

(** [ORDER BY]: an insertion sort by a comparison. *)
Section SortBy.
Context {R : Type} (leb : R -> R -> bool).

Fixpoint insert_by (r : R) (l : list R) : list R :=
  match l with
  | [] => [r]
  | r' :: l' => if leb r r' then r :: l else r' :: insert_by r l'
  end.
Definition sort_by (l : list R) : list R := fold_right insert_by [] l.

Lemma insert_by_perm r l : Permutation (insert_by r l) (r :: l).
Proof.
  induction l as [|a l IH]; simpl; [done|]. destruct (leb r a); [done|].
  rewrite IH. apply perm_swap.
Qed.

Lemma sort_by_perm l : Permutation (sort_by l) l.
Proof. induction l as [|a l IH]; simpl; [done|]. by rewrite insert_by_perm, IH. Qed.
End SortBy.

(** [ORDER BY key] on a UUID column: Postgres compares the 16 bytes, i.e. the integers. *)
Definition order_by {R} (key : R -> N) : list R -> list R :=
  sort_by (fun a b => (key a <=? key b)%N).

Lemma order_by_perm {R} (key : R -> N) l : Permutation (order_by key l) l.
Proof. apply sort_by_perm. Qed.

Lemma order_by_sorted {R} (key : R -> N) l :
  StronglySorted (fun a b => (key a <= key b)%N) (order_by key l).
Proof.
  unfold order_by, sort_by. induction l as [|a l IH]; simpl; [constructor|].
  induction IH as [|b l' Hs IH' Hb]; simpl; [by repeat constructor|].
  destruct (N.leb_spec (key a) (key b)).
  - constructor; [by constructor|]. constructor; [done|].
    eapply List.Forall_impl; [|exact Hb]. simpl. lia.
  - constructor; [done|]. rewrite insert_by_perm. constructor; [lia|done].
Qed.

(** [result.fetchone()] *)
Definition fetchone {R} (rows : list R) : option R := head rows.

(** The first row of an ORDER BY is a least one. *)
Lemma sort_by_first {R} (leb : R -> R -> bool) :
  (forall a b, leb a b = true \/ leb b a = true) -> (forall a b c, leb a b = true -> leb b c = true -> leb a c = true) ->
  forall l, match fetchone (sort_by leb l) with
            | Some x => In x l /\ forall y, In y l -> leb x y = true
            | None => l = []
            end.
Proof.
  intros Htot Htr l. induction l as [|a l IH]; [done|]. cbn [sort_by fold_right]. fold (sort_by leb l).
  assert (Hrefl : leb a a = true) by (by destruct (Htot a a)).
  destruct (sort_by leb l) as [|x s]; cbn [fetchone head insert_by] in *.
  - subst l. split; [by left|]. by intros y [<-|[]].
  - destruct IH as [Hx Hmin]. destruct (leb a x) eqn:Eax; cbn [head].
    + split; [by left|]. intros y [<-|Hy]; [done|]. eapply Htr; [exact Eax|by apply Hmin].
    + split; [by right|]. intros y [<-|Hy]; [|by apply Hmin]. destruct (Htot a x); [congruence|done].
Qed.

(** ** Change events (admin_api/changes/publisher.py) *)

(** The published body. *)
Definition change_body (payload : dict) : dict :=
  match dict_get "event" payload with
  | Some ev => if dict_mem "event_type" payload then payload else dict_set "event_type" ev payload
  | None => payload
  end.

Definition notify_change `{E : Env} `{V : Vault} (channel : string) (payload : dict) : M unit :=
  pg_notify channel (dumps (JObj (change_body payload))).

(** ** Cursor pagination

    The list endpoints order rows by their UUID and take a page after a
    cursor.  The lemmas say that the rows after the last row of a page are
    exactly the rows the page left out. *)

Section Paging.
Context {R : Type} (key : R -> N).

Definition key_le (a b : R) : Prop := (key a <= key b)%N.
Definition key_lt (a b : R) : Prop := (key a < key b)%N.
Definition key_leb (a b : R) : bool := (key a <=? key b)%N.

(** [id > :after] *)
Definition is_after (u : N) (r : R) : bool := N.ltb u (key r).

Lemma insert_by_head x l :
  Forall (key_le x) l -> insert_by key_leb x l = x :: l.
Proof.
  destruct l as [|a l]; [done|]. inversion 1 as [|? ? Ha _]; subst. cbn [insert_by]. unfold key_leb.
  unfold key_le in Ha. by rewrite (proj2 (N.leb_le _ _) Ha).
Qed.

Lemma Forall_filter_bool (P : R -> Prop) (f : R -> bool) l : Forall P l -> Forall P (List.filter f l).
Proof. induction 1 as [|a l Ha Hl IH]; cbn [List.filter]; [constructor|]. destruct (f a); [by constructor|done]. Qed.

Lemma filter_insert_by (f : R -> bool) x l :
  StronglySorted key_le l ->
  List.filter f (insert_by key_leb x l) =
    if f x then insert_by key_leb x (List.filter f l) else List.filter f l.
Proof.
  induction 1 as [|a l Hs IH Ha].
  { cbn [insert_by List.filter]. by destruct (f x). }
  cbn [insert_by]. destruct (key_leb x a) eqn:Exa; unfold key_leb in Exa.
  - apply N.leb_le in Exa. cbn [List.filter]. destruct (f x); [|done].
    symmetry. apply insert_by_head.
    assert (Hx : Forall (key_le x) (a :: l)).
    { constructor; [done|]. eapply Forall_impl; [exact Ha|]. unfold key_le. lia. }
    apply (Forall_filter_bool _ f) in Hx. exact Hx.
  - cbn [List.filter]. rewrite IH. destruct (f a), (f x); try done.
    cbn [insert_by]. unfold key_leb at 2. by rewrite Exa.
Qed.

(** Filtering commutes with ordering. *)
Lemma filter_order_by (f : R -> bool) l :
  List.filter f (order_by key l) = order_by key (List.filter f l).
Proof.
  induction l as [|a l IH]; [done|]. change (order_by key (a :: l)) with (insert_by key_leb a (order_by key l)).
  rewrite filter_insert_by by apply order_by_sorted. rewrite IH. cbn [List.filter].
  by destruct (f a).
Qed.

Lemma sorted_strict l :
  StronglySorted key_le l -> List.NoDup (map key l) -> StronglySorted key_lt l.
Proof.
  induction 1 as [|a l Hs IH Ha]; intros Hn; [constructor|]. cbn [map] in Hn.
  apply List.NoDup_cons_iff in Hn as [Hni Hn]. constructor; [by apply IH|].
  rewrite Forall_forall in *. intros x Hx. specialize (Ha x Hx). unfold key_le, key_lt in *.
  assert (key x <> key a); [|lia]. intros Heq. apply Hni. rewrite <- Heq. apply in_map. by apply list_elem_of_In.
Qed.

Lemma is_after_suffix pre x suf :
  StronglySorted key_lt (pre ++ x :: suf) ->
  List.filter (is_after (key x)) (pre ++ x :: suf) = suf.
Proof.
  intros Hs. rewrite List.filter_app. induction pre as [|a pre IH]; cbn [app List.filter] in *.
  - unfold is_after at 1. rewrite N.ltb_irrefl. apply filter_all. intros y Hy.
    inversion Hs as [|? ? _ Hx]; subst. rewrite Forall_forall in Hx.
    apply list_elem_of_In, Hx in Hy. unfold key_lt in Hy. unfold is_after. by apply N.ltb_lt.
  - inversion Hs as [|? ? Hs' Ha]; subst. rewrite Forall_forall in Ha.
    assert (Hax : (key a < key x)%N) by (apply Ha; set_solver).
    unfold is_after at 1. rewrite (proj2 (N.ltb_ge _ _)) by lia. by apply IH.
Qed.

(** The rows after the last row of a page are the rows the page left out. *)
Lemma after_page l n x :
  StronglySorted key_lt l -> last (take n l) = Some x ->
  List.filter (is_after (key x)) l = drop n l.
Proof.
  intros Hs Hl. apply last_Some in Hl as [pre Hpre].
  rewrite <- (take_drop n l) in Hs |- * at 1. rewrite Hpre, <- app_assoc in *. cbn [app] in *.
  by apply is_after_suffix.
Qed.
End Paging.
