(* ===== verification/Logic.v ===== *)
(** * Reasoning about handlers

    Inversion rules: what a successful run of each primitive says of the
    states before and after.  Preservation rules: [respects R G m] when every
    run of [m], failures included, keeps the committed database and the open
    transaction's view related by the preorder [R] to where they started,
    provided the tenant setting satisfies [G]; handlers are proved by
    composing the rules, with [auto with respects]. *)

From S2P Require Import Prelude PyStr PyJson PyJsonFacts PyTime WireIds Vault Tables Database.

Local Open Scope string_scope.
Local Open Scope py_scope.

(** ** Inversion of successful runs *)

Section Inversion.
Context `{E : Env} `{V : Vault}.
Implicit Types w : world.

Lemma bind_Ok {A B} (m : M A) (k : A -> M B) w b w' :
  bind m k w = (Ok b, w') -> exists a w1, m w = (Ok a, w1) /\ k a w1 = (Ok b, w').
Proof. unfold bind. destruct (m w) as [[a|e] w1]; [eauto|done]. Qed.

Lemma ret_Ok {A} (a b : A) w w' : ret a w = (Ok b, w') -> b = a /\ w' = w.
Proof. unfold ret. intros [= <- <-]. done. Qed.

Lemma lift_Ok {A} (o : outcome A) w b w' : lift o w = (Ok b, w') -> o = Ok b /\ w' = w.
Proof. unfold lift. intros [= -> <-]. done. Qed.

Lemma raise_Ok {A} e w (b : A) w' : raise e w = (Ok b, w') -> False.
Proof. done. Qed.

Lemma bound_Ok s w u w' : bound s w = (Ok u, w') -> bind_uuid s = Some u /\ w' = w.
Proof. unfold bound. destruct (bind_uuid s); [by intros [= <- <-]|done]. Qed.

Lemma uuid4_Ok w u w' : uuid4 w = (Ok u, w') -> u = env_uuid4 (w_tick w) /\ w' = tick w.
Proof. by intros [= <- <-]. Qed.

(** Keeps the identifier abstract. *)
Lemma uuid4_fresh w u w' : uuid4 w = (Ok u, w') -> (u < uuid_limit)%N /\ w' = tick w.
Proof. intros [= <- <-]. split; [apply env_uuid4_lt|done]. Qed.

Lemma now_Ok w t w' : now_utc w = (Ok t, w') -> t = env_now (w_tick w) /\ w' = tick w.
Proof. by intros [= <- <-]. Qed.

Lemma execute_Ok {A} (f : world -> outcome (A * world)) w a w' :
  execute f w = (Ok a, w') -> w_tx w = TxActive /\ f (tick w) = Ok (a, w').
Proof.
  unfold execute. change (w_tx (tick w)) with (w_tx w). destruct (w_tx w); [|done..].
  destruct (env_fault _); [done|]. destruct (f (tick w)) as [[a1 w1]|]; [|done].
  by intros [= <- <-].
Qed.

Lemma select_Ok {R} (T : table R) p w l w' :
  select T p w = (Ok l, w') ->
  exists pol, policy w = Ok pol /\ w_tx w = TxActive /\ w' = tick w /\
    l = List.filter (fun r => sees T pol r && p r) (tb_get T (w_db w)).
Proof.
  intros H. apply execute_Ok in H as [Ht H].
  change (policy (tick w)) with (policy w) in H.
  destruct (policy w) as [pol|]; [|done]. injection H as <- <-. by exists pol.
Qed.

Lemma insert_Ok {R} (T : table R) r w w' u :
  insert_into T r w = (Ok u, w') ->
  exists pol, policy w = Ok pol /\ w_tx w = TxActive /\ sees T pol r = true /\
    tb_check T (w_db w) r = None /\
    w' = set_db (tb_set T (tb_get T (w_db w) ++ [r])%list (w_db w)) (tick w).
Proof.
  intros H. apply execute_Ok in H as [Ht H].
  change (policy (tick w)) with (policy w) in H.
  destruct (policy w) as [pol|]; [|done]. cbn [mbind outcome_bind] in H. exists pol.
  destruct (sees T pol r) eqn:Es; [|done]. unfold insert_db in H.
  change (w_db (tick w)) with (w_db w) in H.
  destruct (tb_check T (w_db w) r); [done|]. cbn [mbind outcome_bind] in H.
  by injection H as <- <-.
Qed.

Lemma update_Ok {R} (T : table R) p f w w' u :
  update_where T p f w = (Ok u, w') ->
  exists pol, policy w = Ok pol /\ w_tx w = TxActive /\
    w' = set_db (update_db T (fun r => sees T pol r && p r) f (w_db w)) (tick w).
Proof.
  intros H. apply execute_Ok in H as [Ht H].
  change (policy (tick w)) with (policy w) in H.
  destruct (policy w) as [pol|]; [|done]. exists pol. by injection H as <- <-.
Qed.

Lemma delete_Ok {R} (T : table R) p w w' n :
  delete_from T p w = (Ok n, w') ->
  exists pol, policy w = Ok pol /\ w_tx w = TxActive /\
    n = length (List.filter (fun r => sees T pol r && p r) (tb_get T (w_db w))) /\
    w' = set_db (delete_db T (fun r => sees T pol r && p r) (w_db w)) (tick w).
Proof.
  intros H. apply execute_Ok in H as [Ht H].
  change (policy (tick w)) with (policy w) in H.
  destruct (policy w) as [pol|]; [|done]. exists pol. by injection H as <- <-.
Qed.

Lemma upsert_Ok {R} (T : table R) key f r w w' u :
  upsert T key f r w = (Ok u, w') ->
  exists pol, policy w = Ok pol /\ w_tx w = TxActive /\ sees T pol r = true /\
    (if existsb key (tb_get T (w_db w)) then
       forallb (fun r' => sees T pol r' || negb (key r')) (tb_get T (w_db w)) = true /\
       w' = set_db (update_db T key f (w_db w)) (tick w)
     else tb_check T (w_db w) r = None /\
       w' = set_db (tb_set T (tb_get T (w_db w) ++ [r])%list (w_db w)) (tick w)).
Proof.
  intros H. apply execute_Ok in H as [Ht H].
  change (policy (tick w)) with (policy w) in H. change (w_db (tick w)) with (w_db w) in H.
  destruct (policy w) as [pol|]; [|done]. cbn [mbind outcome_bind] in H. exists pol.
  destruct (sees T pol r) eqn:Es; cbn [negb] in H; [|done].
  destruct (existsb _ _); [destruct (forallb _ _); [by injection H as <- <-|done]|].
  unfold insert_db in H. destruct (tb_check T (w_db w) r); [done|].
  cbn [mbind outcome_bind] in H. by injection H as <- <-.
Qed.

Lemma set_tenant_Ok s w w' u :
  set_tenant_context s false w = (Ok u, w') ->
  w_tx w = TxActive /\ w' = set_guc (Some s) (w_admin_view w) (tick w).
Proof.
  intros H. apply bind_Ok in H as (a & w1 & H & H2). apply execute_Ok in H as [Ht H].
  injection H as <- <-. apply ret_Ok in H2 as [_ ->]. done.
Qed.

Lemma admin_view_Ok w w' u :
  set_config_admin_view w = (Ok u, w') -> w_tx w = TxActive /\ w' = set_guc (w_tenant w) true (tick w).
Proof. intros H. apply execute_Ok in H as [Ht H]. by injection H as <- <-. Qed.

Lemma pg_notify_Ok c p w w' u :
  pg_notify c p w = (Ok u, w') -> w_tx w = TxActive /\ w' = add_pending (c, p) (tick w).
Proof. intros H. apply execute_Ok in H as [Ht H]. by injection H as <- <-. Qed.

Lemma vault_call_Ok {A} (f : vault_state -> outcome (A * vault_state)) w a w' :
  vault_call f w = (Ok a, w') ->
  exists v, f (w_vault w) = Ok (a, v) /\ w' = set_vault v (tick w).
Proof.
  unfold vault_call. change (w_vault (tick w)) with (w_vault w).
  destruct (f (w_vault w)) as [[a1 v]|]; [destruct (env_vault_fault _) as [[[] ?]|]|
    destruct (env_vault_fault _) as [[[] ?]|]]; try done.
  intros [= <- <-]. by exists v.
Qed.

Lemma commit_Ok w w' u :
  commit w = (Ok u, w') ->
  (w_tx w = TxActive /\ w' = committed (tick w)) \/ (w_tx w = TxAborted /\ w' = rolled_back (tick w)).
Proof.
  unfold commit. change (w_tx (tick w)) with (w_tx w).
  destruct (w_tx w); [destruct (env_fault _); [done|]| |done]; intros [= <- <-]; auto.
Qed.

(** What a successful statement keeps besides the open transaction's view.  The rules below leave
    the state after the statement abstract. *)
Record kept w w' : Prop := {
  kp_base : w_base w' = w_base w;
  kp_tx : w_tx w' = w_tx w;
  kp_tenant : w_tenant w' = w_tenant w;
  kp_admin : w_admin_view w' = w_admin_view w }.

#[global] Instance kept_preorder : PreOrder kept.
Proof. split; [done|]. intros a b c [] []. split; congruence. Qed.

Lemma kept_policy w w' : kept w w' -> policy w' = policy w.
Proof. intros [_ _ Et Ea]. unfold policy. by rewrite Et, Ea. Qed.

Lemma insert_eff {R} (T : table R) r w w' u :
  insert_into T r w = (Ok u, w') ->
  kept w w' /\ w_vault w' = w_vault w /\ tb_check T (w_db w) r = None /\
  w_db w' = tb_set T (tb_get T (w_db w) ++ [r])%list (w_db w).
Proof. intros H. by apply insert_Ok in H as (pol & _ & _ & _ & Hc & ->). Qed.

Lemma update_eff {R} (T : table R) p f w w' u :
  update_where T p f w = (Ok u, w') ->
  kept w w' /\ w_vault w' = w_vault w /\
  exists pol, policy w = Ok pol /\ w_db w' = update_db T (fun r => sees T pol r && p r) f (w_db w).
Proof. intros H. apply update_Ok in H as (pol & Hp & _ & ->). do 2 (split; [done|]). by exists pol. Qed.

Lemma delete_eff {R} (T : table R) p w w' n :
  delete_from T p w = (Ok n, w') ->
  kept w w' /\ w_vault w' = w_vault w /\
  exists pol, policy w = Ok pol /\ w_db w' = delete_db T (fun r => sees T pol r && p r) (w_db w) /\
    n = length (List.filter (fun r => sees T pol r && p r) (tb_get T (w_db w))).
Proof. intros H. apply delete_Ok in H as (pol & Hp & _ & -> & ->). do 2 (split; [done|]). by exists pol. Qed.

Lemma select_eff {R} (T : table R) p w l w' :
  select T p w = (Ok l, w') ->
  kept w w' /\ w_vault w' = w_vault w /\ w_db w' = w_db w /\
  exists pol, policy w = Ok pol /\ l = List.filter (fun r => sees T pol r && p r) (tb_get T (w_db w)).
Proof. intros H. apply select_Ok in H as (pol & Hp & _ & -> & ->). do 3 (split; [done|]). by exists pol. Qed.

Lemma query_eff {A} (f : (uuid -> bool) -> db -> A) w a w' :
  query f w = (Ok a, w') ->
  kept w w' /\ w_vault w' = w_vault w /\ w_db w' = w_db w /\
  exists pol, policy w = Ok pol /\ a = f pol (w_db w).
Proof.
  intros H. apply execute_Ok in H as [_ H]. change (policy (tick w)) with (policy w) in H.
  destruct (policy w) as [pol|]; [|done]. apply Ok_inj in H. injection H as <- <-.
  do 3 (split; [done|]). by exists pol.
Qed.

Lemma uuid4_eff w u w' :
  uuid4 w = (Ok u, w') -> kept w w' /\ w_vault w' = w_vault w /\ w_db w' = w_db w /\ (u < uuid_limit)%N.
Proof. intros H. by apply uuid4_fresh in H as [Hu ->]. Qed.

Lemma now_eff w u w' :
  now_utc w = (Ok u, w') -> kept w w' /\ w_vault w' = w_vault w /\ w_db w' = w_db w.
Proof. intros H. by apply now_Ok in H as [_ ->]. Qed.

Lemma time_eff w u w' :
  time_time w = (Ok u, w') -> kept w w' /\ w_vault w' = w_vault w /\ w_db w' = w_db w.
Proof. by intros [= <- <-]. Qed.

Lemma token_bytes_eff w n w' :
  token_bytes w = (Ok n, w') -> kept w w' /\ w_vault w' = w_vault w /\ w_db w' = w_db w /\ (n < 2 ^ 256)%N.
Proof. intros [= <- <-]. do 3 (split; [done|]). apply env_token_bytes_lt. Qed.

Lemma update_checked_eff {R} (T : table R) checks p f w w' u :
  update_checked T checks p f w = (Ok u, w') ->
  kept w w' /\ w_vault w' = w_vault w /\
  exists pol, policy w = Ok pol /\ w_db w' = update_db T (fun r => sees T pol r && p r) f (w_db w) /\
    first_violation (flat_map (fun r => checks (f r)) (List.filter (fun r => sees T pol r && p r) (tb_get T (w_db w)))) = None.
Proof.
  intros H. apply execute_Ok in H as [Ht H]. change (policy (tick w)) with (policy w) in H.
  destruct (policy w) as [pol|]; [|done]. cbn [mbind outcome_bind] in H. change (w_db (tick w)) with (w_db w) in H.
  destruct (first_violation _) eqn:Ev; [done|]. apply Ok_inj in H. injection H as <- <-.
  do 2 (split; [done|]). by exists pol.
Qed.

Lemma delete_restricted_eff {R} (T : table R) key refs p w w' n :
  delete_restricted T key refs p w = (Ok n, w') ->
  kept w w' /\ w_vault w' = w_vault w /\
  exists pol, policy w = Ok pol /\ w_db w' = delete_db T (fun r => sees T pol r && p r) (w_db w) /\
    n = length (List.filter (fun r => sees T pol r && p r) (tb_get T (w_db w))) /\
    first_reference (refs (w_db w)) (map key (List.filter (fun r => sees T pol r && p r) (tb_get T (w_db w)))) = None.
Proof.
  intros H. apply execute_Ok in H as [Ht H]. change (policy (tick w)) with (policy w) in H.
  destruct (policy w) as [pol|]; [|done]. cbn [mbind outcome_bind] in H. change (w_db (tick w)) with (w_db w) in H.
  destruct (first_reference _ _) eqn:Ev; [done|]. apply Ok_inj in H. injection H as <- <-.
  do 2 (split; [done|]). by exists pol.
Qed.

Lemma delete_returning_eff {R} (T : table R) p w w' l :
  delete_returning T p w = (Ok l, w') ->
  kept w w' /\ w_vault w' = w_vault w /\
  exists pol, policy w = Ok pol /\ w_db w' = delete_db T (fun r => sees T pol r && p r) (w_db w) /\
    l = List.filter (fun r => sees T pol r && p r) (tb_get T (w_db w)).
Proof.
  intros H. apply execute_Ok in H as [_ H]. change (policy (tick w)) with (policy w) in H.
  destruct (policy w) as [pol|]; [|done]. apply Ok_inj in H. injection H as <- <-.
  do 2 (split; [done|]). by exists pol.
Qed.

Lemma update_returning_eff {R} (T : table R) p f w w' l :
  update_returning T p f w = (Ok l, w') ->
  kept w w' /\ w_vault w' = w_vault w /\
  exists pol, policy w = Ok pol /\ w_db w' = update_db T (fun r => sees T pol r && p r) f (w_db w) /\
    l = map f (List.filter (fun r => sees T pol r && p r) (tb_get T (w_db w))).
Proof.
  intros H. apply execute_Ok in H as [_ H]. change (policy (tick w)) with (policy w) in H.
  destruct (policy w) as [pol|]; [|done]. apply Ok_inj in H. injection H as <- <-.
  do 2 (split; [done|]). by exists pol.
Qed.

Lemma insert_ignore_eff {R} (T : table R) key r w w' u :
  insert_ignore T key r w = (Ok u, w') ->
  kept w w' /\ w_vault w' = w_vault w /\
  (if existsb key (tb_get T (w_db w)) then w_db w' = w_db w
   else tb_check T (w_db w) r = None /\ w_db w' = tb_set T (tb_get T (w_db w) ++ [r])%list (w_db w)).
Proof.
  intros H. apply execute_Ok in H as [_ H]. change (policy (tick w)) with (policy w) in H.
  change (w_db (tick w)) with (w_db w) in H. destruct (policy w) as [pol|]; [|done]. cbn [mbind outcome_bind] in H.
  destruct (sees T pol r); cbn [negb] in H; [|done]. destruct (existsb _ _); [by injection H as _ <-|].
  unfold insert_db in H. destruct (tb_check T (w_db w) r); [done|]. cbn [mbind outcome_bind] in H. by injection H as _ <-.
Qed.

Lemma vault_eff {A} (f : vault_state -> outcome (A * vault_state)) w a w' :
  vault_call f w = (Ok a, w') ->
  kept w w' /\ w_db w' = w_db w /\ f (w_vault w) = Ok (a, w_vault w').
Proof. intros H. by apply vault_call_Ok in H as (v & Hf & ->). Qed.

Lemma notify_eff c p w w' u :
  pg_notify c p w = (Ok u, w') -> kept w w' /\ w_vault w' = w_vault w /\ w_db w' = w_db w.
Proof. intros H. by apply pg_notify_Ok in H as [_ ->]. Qed.

Lemma set_tenant_eff s w w' u :
  set_tenant_context s false w = (Ok u, w') ->
  w_tx w = TxActive /\ w_base w' = w_base w /\ w_tx w' = TxActive /\ w_db w' = w_db w /\ w_vault w' = w_vault w /\
  w_tenant w' = Some s /\ w_admin_view w' = w_admin_view w.
Proof. intros H. by apply set_tenant_Ok in H as [Ht ->]. Qed.

Lemma commit_eff w w' u :
  commit w = (Ok u, w') -> w_tx w = TxActive -> w_base w' = w_db w /\ w_tx w' = TxDone /\ w_vault w' = w_vault w.
Proof. intros H Ht. apply commit_Ok in H as [[_ ->]|[Ha _]]; [done|congruence]. Qed.

(** The state after [set_tenant_context] in a transaction that has not changed the settings. *)
Record in_tenant (t : uuid) w : Prop := {
  it_tx : w_tx w = TxActive;
  it_policy : policy w = Ok (fun r => N.eqb r t || false) }.

Lemma set_tenant_start t w w' u :
  (t < uuid_limit)%N -> w_admin_view w = false ->
  set_tenant_context (uuid_str t) false w = (Ok u, w') ->
  in_tenant t w' /\ w_base w' = w_base w /\ w_db w' = w_db w /\ w_vault w' = w_vault w.
Proof.
  intros Ht Ha H. apply set_tenant_eff in H as (_ & Eb & Etx & Ed & Ev & Ete & Ead).
  split; [|done]. split; [done|]. unfold policy. by rewrite Ete, Ead, Ha, pg_uuid_in_str.
Qed.

Lemma in_tenant_kept t w w' : kept w w' -> in_tenant t w -> in_tenant t w'.
Proof. intros K [Hx Hp]. split; [by rewrite (kp_tx _ _ K)|by rewrite (kept_policy _ _ K)]. Qed.

(** A failed statement leaves the data as it was and the transaction unusable. *)
Lemma execute_Raise {A} (f : world -> outcome (A * world)) w e w' :
  execute f w = (Raise e, w') ->
  w_base w' = w_base w /\ w_db w' = w_db w /\ w_tx w' <> TxActive.
Proof.
  unfold execute. change (w_tx (tick w)) with (w_tx w).
  destruct (w_tx w) eqn:Et; [|intros [= <- <-]; cbn; by rewrite Et..].
  destruct (env_fault _); [by intros [= <- <-]|]. destruct (f (tick w)) as [[a1 w1]|]; [done|].
  by intros [= <- <-].
Qed.

(** [m] either succeeds, or leaves the data of the open transaction as it was. *)
Definition atomic {A} (m : M A) : Prop := forall w e w', m w = (Raise e, w') ->
  w_base w' = w_base w /\ (w_tx w' = TxActive ->
    w_tx w = TxActive /\ w_db w' = w_db w /\ w_tenant w' = w_tenant w /\ w_admin_view w' = w_admin_view w).

(** [m] does not change the data or the settings. *)
Definition reads {A} (m : M A) : Prop := atomic m /\ forall w a w', m w = (Ok a, w') ->
  w_base w' = w_base w /\ w_db w' = w_db w /\ w_tx w' = w_tx w /\
  w_tenant w' = w_tenant w /\ w_admin_view w' = w_admin_view w.

Lemma atomic_execute {A} (f : world -> outcome (A * world)) : atomic (execute f).
Proof. intros w e w' H. apply execute_Raise in H as (? & ? & ?). by split. Qed.

Lemma atomic_bind {A B} (m : M A) (k : A -> M B) :
  reads m -> (forall a, atomic (k a)) -> atomic (bind m k).
Proof.
  intros [Hm1 Hm2] Hk w e w' H. unfold bind in H. destruct (m w) as [[a|e1] w1] eqn:Em.
  - apply Hm2 in Em as (E1 & E2 & E3 & E4 & E5). apply Hk in H as [H1 H2].
    rewrite E1 in H1. split; [done|]. intros Ht. rewrite <- E2, <- E3, <- E4, <- E5. by apply H2.
  - injection H as <- <-. by apply (Hm1 _ e1).
Qed.

(** After a write, the next statement fails only by ending the transaction. *)
Lemma atomic_write {A B} (m : M A) (k : A -> M B) :
  atomic m -> (forall w a w', m w = (Ok a, w') -> w_base w' = w_base w) ->
  (forall a w e w', k a w = (Raise e, w') -> w_base w' = w_base w /\ w_tx w' <> TxActive) ->
  atomic (bind m k).
Proof.
  intros Hm1 Hm2 Hk w e w' H. unfold bind in H. destruct (m w) as [[a|e1] w1] eqn:Em.
  - apply Hm2 in Em. apply Hk in H as [H1 H2]. split; [congruence|done].
  - injection H as <- <-. by apply (Hm1 _ e1).
Qed.

Lemma reads_pure {A} (m : M A) :
  (forall w, exists o, m w = (o, w) \/ m w = (o, tick w)) -> reads m.
Proof.
  intros H. split.
  - intros w e w' Hm. destruct (H w) as [o [E1|E1]]; rewrite E1 in Hm; by injection Hm as -> <-.
  - intros w a w' Hm. destruct (H w) as [o [E1|E1]]; rewrite E1 in Hm; by injection Hm as -> <-.
Qed.

Lemma reads_lift {A} (o : outcome A) : reads (lift o).
Proof. apply reads_pure. intros w. exists o. by left. Qed.
Lemma reads_ret {A} (a : A) : reads (ret a).
Proof. apply reads_pure. intros w. exists (Ok a). by left. Qed.
Lemma reads_bound s : reads (bound s).
Proof. apply reads_pure. intros w. unfold bound. destruct (bind_uuid s); eexists; by left. Qed.
Lemma reads_uuid4 : reads uuid4.
Proof. apply reads_pure. intros w. eexists; by right. Qed.
Lemma reads_now : reads now_utc.
Proof. apply reads_pure. intros w. eexists; by right. Qed.
Lemma reads_time : reads time_time.
Proof. apply reads_pure. intros w. eexists; by right. Qed.
Lemma reads_token_bytes : reads token_bytes.
Proof. apply reads_pure. intros w. eexists; by right. Qed.
Lemma reads_execute {A} (f : world -> outcome (A * world)) :
  (forall w a w', f w = Ok (a, w') -> w' = w) -> reads (execute f).
Proof.
  intros Hf. split; [apply atomic_execute|]. intros w a w' H. apply execute_Ok in H as [_ H].
  by apply Hf in H as ->.
Qed.
Lemma reads_select {R} (T : table R) p : reads (select T p).
Proof. apply reads_execute. intros w a w' H. destruct (policy w); [|done]. by injection H as <- <-. Qed.
Lemma reads_query {A} (f : (uuid -> bool) -> db -> A) : reads (query f).
Proof. apply reads_execute. intros w a w' H. destruct (policy w); [|done]. apply Ok_inj in H. by injection H as <- <-. Qed.
Lemma reads_bind {A B} (m : M A) (k : A -> M B) :
  reads m -> (forall a, reads (k a)) -> reads (bind m k).
Proof.
  intros Hm Hk. split; [apply atomic_bind; [done|]; intros a; by destruct (Hk a)|].
  intros w b w' H. apply bind_Ok in H as (a & w1 & H1 & H).
  apply Hm in H1 as (E1 & E2 & E3 & E4 & E5). apply Hk in H as (F1 & F2 & F3 & F4 & F5).
  repeat split; congruence.
Qed.

Lemma bind_ret {A B} (a : A) (k : A -> M B) : bind (ret a) k = k a.
Proof. reflexivity. Qed.

Lemma bind_raise {A B} e (k : A -> M B) : bind (raise e) k = raise e.
Proof. reflexivity. Qed.

Lemma atomic_uuid4 {B} (k : uuid -> M B) :
  (forall u, (u < uuid_limit)%N -> atomic (k u)) -> atomic (bind uuid4 k).
Proof. intros Hk w e w' H. unfold bind in H. cbn [uuid4] in H. by apply Hk in H; [|apply env_uuid4_lt]. Qed.

Lemma bound_str u : (u < uuid_limit)%N -> bound (uuid_str u) = ret u.
Proof. intros H. unfold bound. by rewrite bind_uuid_str. Qed.

End Inversion.

(** ** Transactions *)

Section Transactions.
Context `{E : Env} `{V : Vault}.

(** [m] leaves the open transaction's view as it was, even when it fails. *)
Definition still {A} (m : M A) : Prop := forall w, w_db (snd (m w)) = w_db w.

Lemma still_bind {A B} (m : M A) (k : A -> M B) : still m -> (forall a, still (k a)) -> still (bind m k).
Proof.
  intros Hm Hk w. unfold bind. specialize (Hm w). destruct (m w) as [[a|e] w1]; [|done]. cbn [snd] in Hm. rewrite <- Hm. apply Hk.
Qed.
Lemma still_execute {A} (f : world -> outcome (A * world)) :
  (forall w a w', f w = Ok (a, w') -> w' = w) -> still (execute f).
Proof.
  intros Hf w. destruct (execute f w) as [[a|e] w'] eqn:E1; [|by apply execute_Raise in E1 as (_ & ? & _)].
  apply execute_Ok in E1 as [_ E1]. by apply Hf in E1 as ->.
Qed.

(** A savepoint around such a computation. *)
Lemma still_nested {A} (m : M A) : still m -> still (begin_nested m).
Proof.
  intros Hm. apply still_bind; [apply still_execute; by intros w a w' [= <- <-]|intros _ w].
  specialize (Hm w). destruct (m w) as [[a|e] w1]; cbn [snd] in Hm.
  - rewrite <- Hm. apply (still_bind (execute (fun w => Ok (tt, w))) (fun _ => ret a)); [|done].
    apply still_execute. by intros w2 a2 w' [= <- <-].
  - cbv zeta. destruct (env_fault (w_tick (tick w1))); [exact Hm|reflexivity].
Qed.
Lemma still_catch {A} (m : M A) (h : exn -> M A) : still m -> (forall e, still (h e)) -> still (catch m h).
Proof.
  intros Hm Hh w. unfold catch. specialize (Hm w). destruct (m w) as [[a|e] w1]; [done|]. cbn [snd] in Hm. rewrite <- Hm. apply Hh.
Qed.

Lemma transaction_Ok {A} (m : M A) w a w' :
  transaction m w = (Ok a, w') ->
  exists w1, m (begin w) = (Ok a, w1) /\
    match w_tx w1 with
    | TxDone => w' = w1
    | TxActive => w' = committed (tick w1)
    | TxAborted => w' = rolled_back (tick w1)
    end.
Proof.
  unfold transaction. destruct (m (begin w)) as [[a1|e] w1]; [|done].
  destruct (w_tx w1) eqn:Et; [| |intros [= <- <-]; exists w1; by rewrite Et].
  - unfold commit. change (w_tx (tick w1)) with (w_tx w1). rewrite Et.
    destruct (env_fault _); [done|]. intros [= <- <-]. exists w1. by rewrite Et.
  - unfold commit. change (w_tx (tick w1)) with (w_tx w1). rewrite Et.
    intros [= <- <-]. exists w1. by rewrite Et.
Qed.

(** A transaction that only reads leaves the committed state as it was. *)
Lemma transaction_reads {A} (m : M A) w a w' :
  reads m -> transaction m w = (Ok a, w') ->
  exists w1, m (begin w) = (Ok a, w1) /\ w_tx w1 = TxActive /\ w' = committed (tick w1) /\
    w_base w' = w_base w.
Proof.
  intros [_ Hm] H. apply transaction_Ok in H as (w1 & Hr & H).
  destruct (Hm _ _ _ Hr) as (E1 & E2 & E3 & _). exists w1. rewrite E3 in H. cbn in H, E2. subst w'.
  by rewrite E3, <- E2.
Qed.

(** An environment without failures. *)
Definition no_faults : Prop := forall n, env_fault n = None.

Context (Hnf : no_faults).

Lemma execute_run {A} (f : world -> outcome (A * world)) w a w' :
  w_tx w = TxActive -> f (tick w) = Ok (a, w') -> execute f w = (Ok a, w').
Proof.
  intros Ht Hf. unfold execute. change (w_tx (tick w)) with (w_tx w). by rewrite Ht, Hnf, Hf.
Qed.

Lemma select_run {R} (T : table R) p w pol :
  w_tx w = TxActive -> policy w = Ok pol ->
  select T p w = (Ok (List.filter (fun r => sees T pol r && p r) (tb_get T (w_db w))), tick w).
Proof.
  intros Ht Hp. apply execute_run; [done|]. change (policy (tick w)) with (policy w). by rewrite Hp.
Qed.

Lemma set_config_run s w :
  w_tx w = TxActive -> set_config_tenant s w = (Ok tt, set_guc (Some s) (w_admin_view w) (tick w)).
Proof. intros Ht. by apply execute_run. Qed.

Lemma admin_view_run w :
  w_tx w = TxActive -> set_config_admin_view w = (Ok tt, set_guc (w_tenant w) true (tick w)).
Proof. intros Ht. by apply execute_run. Qed.

Lemma commit_run w : w_tx w = TxActive -> commit w = (Ok tt, committed (tick w)).
Proof. intros Ht. unfold commit. change (w_tx (tick w)) with (w_tx w). by rewrite Ht, Hnf. Qed.

Lemma transaction_run {A} (m : M A) w a w1 :
  m (begin w) = (Ok a, w1) -> w_tx w1 = TxActive -> transaction m w = (Ok a, committed (tick w1)).
Proof. intros Hm Ht. unfold transaction. rewrite Hm, Ht. by rewrite commit_run. Qed.

Lemma bind_run {A B} (m : M A) (k : A -> M B) w a w1 :
  m w = (Ok a, w1) -> bind m k w = k a w1.
Proof. intros H. unfold bind. by rewrite H. Qed.

End Transactions.

Section Binds.
Context `{V : Vault}.
Lemma bind_cong {A B} (m : M A) (k k' : A -> M B) w :
  (forall a w1, k a w1 = k' a w1) -> bind m k w = bind m k' w.
Proof. intros H. unfold bind. destruct (m w) as [[a|e] w1]; [apply H|done]. Qed.

Lemma bind_assoc {A B C} (m : M A) (k : A -> M B) (h : B -> M C) w :
  bind (bind m k) h w = bind m (fun a => bind (k a) h) w.
Proof. unfold bind. by destruct (m w) as [[a|e] w1]. Qed.
End Binds.

(** One inversion step on a hypothesis [m w = (Ok a, w')]. *)
Ltac run1 H :=
  lazymatch type of H with
  | bind _ _ _ = (Ok _, _) =>
      let a := fresh "a" in let w := fresh "w" in let H1 := fresh "Hr" in
      apply bind_Ok in H as (a & w & H1 & H); cbv beta in H
  | ret _ _ = (Ok _, _) => apply ret_Ok in H as [? ?]
  | raise _ _ = (Ok _, _) => exfalso; exact (raise_Ok _ _ _ _ H)
  | lift _ _ = (Ok _, _) => apply lift_Ok in H as [? ?]
  | bound _ _ = (Ok _, _) => apply bound_Ok in H as [? ?]
  | uuid4 _ = (Ok _, _) => apply uuid4_Ok in H as [? ?]
  | now_utc _ = (Ok _, _) => apply now_Ok in H as [? ?]
  | select _ _ _ = (Ok _, _) => apply select_Ok in H as (? & ? & ? & ? & ?)
  | insert_into _ _ _ = (Ok _, _) => apply insert_Ok in H as (? & ? & ? & ? & ? & ?)
  | update_where _ _ _ _ = (Ok _, _) => apply update_Ok in H as (? & ? & ? & ?)
  | delete_from _ _ _ = (Ok _, _) => apply delete_Ok in H as (? & ? & ? & ? & ?)
  | set_tenant_context _ false _ = (Ok _, _) => apply set_tenant_Ok in H as [? ?]
  | pg_notify _ _ _ = (Ok _, _) => apply pg_notify_Ok in H as [? ?]
  | vault_call _ _ = (Ok _, _) => apply vault_call_Ok in H as (? & ? & ?)
  end.

(** The same for a [bind], with names: the value, the state after it, its run. *)
Tactic Notation "step" hyp(H) "as" ident(x) ident(w) ident(Hr) :=
  apply bind_Ok in H as (x & w & Hr & H); cbv beta in H.

(** ** Preservation *)

Section Preservation.
Context `{E : Env} `{V : Vault}.
Context (R : relation db) `{!PreOrder R}.
Implicit Types (w : world) (G : option string -> bool -> Prop).

Definition any_guc : option string -> bool -> Prop := fun _ _ => True.
Definition no_guc (t : option string) (admin : bool) : Prop := t = None /\ admin = false.
Definition tenant_is (s : string) (t : option string) (admin : bool) : Prop := t = Some s /\ admin = false.

(** The committed state, and the open transaction's view, are related to [d0]. *)
Definition good G (d0 : db) w : Prop :=
  R d0 (w_base w) /\ (w_tx w = TxActive -> R d0 (w_db w) /\ G (w_tenant w) (w_admin_view w)).

Definition respects {A} G (m : M A) : Prop :=
  forall d0 w, good G d0 w -> good G d0 (snd (m w)).

(** The same, from a weaker setting: the final setting is not constrained. *)
Definition safe {A} G (m : M A) : Prop :=
  forall d0 w, good G d0 w -> good any_guc d0 (snd (m w)).

Lemma respects_safe {A} G (m : M A) : respects G m -> safe G m.
Proof. intros H d0 w Hg. destruct (H d0 w Hg) as [Hb Ha]. split; [done|]. intros Ht. by destruct (Ha Ht). Qed.

Lemma good_base G d0 w w' : R d0 (w_base w) -> w_base w' = w_base w -> w_tx w' <> TxActive -> good G d0 w'.
Proof. intros H E1 E2. split; [by rewrite E1|done]. Qed.

Lemma respects_ret {A} G (a : A) : respects G (ret a). Proof. by intros d0 w. Qed.
Lemma respects_raise {A} G e : respects G (raise e : M A). Proof. by intros d0 w. Qed.
Lemma respects_lift {A} G (o : outcome A) : respects G (lift o). Proof. by intros d0 w. Qed.
Lemma respects_bound G s : respects G (bound s).
Proof. intros d0 w H. unfold bound. by destruct (bind_uuid s). Qed.
Lemma respects_uuid4 G : respects G uuid4. Proof. by intros d0 w. Qed.
Lemma respects_now G : respects G now_utc. Proof. by intros d0 w. Qed.
Lemma respects_time G : respects G time_time. Proof. by intros d0 w. Qed.
Lemma respects_token_bytes G : respects G token_bytes. Proof. by intros d0 w. Qed.
Lemma respects_monotonic G : respects G monotonic. Proof. by intros d0 w. Qed.

Lemma respects_bind {A B} G (m : M A) (k : A -> M B) :
  respects G m -> (forall a, respects G (k a)) -> respects G (bind m k).
Proof.
  intros Hm Hk d0 w H. unfold bind. apply Hm in H.
  destruct (m w) as [[a|e] w1]; [by apply Hk|done].
Qed.

Lemma respects_catch {A} G (m : M A) (h : exn -> M A) :
  respects G m -> (forall e, respects G (h e)) -> respects G (catch m h).
Proof.
  intros Hm Hk d0 w H. unfold catch. apply Hm in H.
  destruct (m w) as [[a|e] w1]; [done|by apply Hk].
Qed.

Lemma respects_execute {A} G (f : world -> outcome (A * world)) :
  (forall w a w', G (w_tenant w) (w_admin_view w) -> f w = Ok (a, w') ->
     w_base w' = w_base w /\ w_tx w' = w_tx w /\ R (w_db w) (w_db w') /\
     w_tenant w' = w_tenant w /\ w_admin_view w' = w_admin_view w) ->
  respects G (execute f).
Proof.
  intros Hf d0 w [Hb Ha]. unfold execute. change (w_tx (tick w)) with (w_tx w).
  destruct (w_tx w) eqn:Et; [|split; cbn; [done|by rewrite Et]..].
  destruct (Ha eq_refl) as [Hd HG].
  destruct (env_fault _); [by eapply (good_base _ _ w)|].
  destruct (f (tick w)) as [[a w']|e] eqn:Ef; [|by eapply (good_base _ _ w)].
  apply Hf in Ef as (E1 & E2 & E3 & E4 & E5); [|done].
  split; cbn [snd]; [by rewrite E1|]. intros _. split; [by transitivity (w_db w)|].
  by rewrite E4, E5.
Qed.

Lemma respects_select {Row} G (T : table Row) p : respects G (select T p).
Proof.
  apply respects_execute. intros w a w' _ H.
  destruct (policy w); [|done]. injection H as <- <-. done.
Qed.

Lemma respects_query {A} G (f : (uuid -> bool) -> db -> A) : respects G (query f).
Proof.
  apply respects_execute. intros w a w' _ H.
  destruct (policy w); [|done]. apply Ok_inj in H. injection H as <- <-. done.
Qed.

Lemma respects_insert {Row} G (T : table Row) r :
  (forall d d', insert_db T r d = Ok d' -> R d d') -> respects G (insert_into T r).
Proof.
  intros HR. apply respects_execute. intros w a w' _ H.
  destruct (policy w); [|done]. cbn [mbind outcome_bind] in H. destruct (sees _ _ _); [|done].
  destruct (insert_db T r (w_db w)) eqn:Ei; [|done]. injection H as <- <-.
  repeat split; try done. by apply HR.
Qed.

Lemma respects_update {Row} G (T : table Row) p f :
  (forall w pol d, G (w_tenant w) (w_admin_view w) -> policy w = Ok pol ->
     R d (update_db T (fun r => sees T pol r && p r) f d)) ->
  respects G (update_where T p f).
Proof.
  intros HR. apply respects_execute. intros w a w' HG H.
  destruct (policy w) eqn:Ep; [|done]. injection H as <- <-.
  repeat split; try done. by eapply HR.
Qed.

Lemma respects_delete {Row} G (T : table Row) p :
  (forall w pol d, G (w_tenant w) (w_admin_view w) -> policy w = Ok pol ->
     R d (delete_db T (fun r => sees T pol r && p r) d)) ->
  respects G (delete_from T p).
Proof.
  intros HR. apply respects_execute. intros w a w' HG H.
  destruct (policy w) eqn:Ep; [|done]. injection H as <- <-.
  repeat split; try done. by eapply HR.
Qed.

Lemma respects_update_returning {Row} G (T : table Row) p f :
  (forall w pol d, G (w_tenant w) (w_admin_view w) -> policy w = Ok pol ->
     R d (update_db T (fun r => sees T pol r && p r) f d)) ->
  respects G (update_returning T p f).
Proof.
  intros HR. apply respects_execute. intros w a w' HG H.
  destruct (policy w) eqn:Ep; [|done]. apply Ok_inj in H. injection H as <- <-.
  repeat split; try done. by eapply HR.
Qed.

Lemma respects_delete_returning {Row} G (T : table Row) p :
  (forall w pol d, G (w_tenant w) (w_admin_view w) -> policy w = Ok pol ->
     R d (delete_db T (fun r => sees T pol r && p r) d)) ->
  respects G (delete_returning T p).
Proof.
  intros HR. apply respects_execute. intros w a w' HG H.
  destruct (policy w) eqn:Ep; [|done]. apply Ok_inj in H. injection H as <- <-.
  repeat split; try done. by eapply HR.
Qed.

Lemma respects_insert_ignore {Row} G (T : table Row) key r :
  (forall d d', insert_db T r d = Ok d' -> R d d') -> respects G (insert_ignore T key r).
Proof.
  intros HR. apply respects_execute. intros w a w' _ H.
  destruct (policy w); [|done]. cbn [mbind outcome_bind] in H. destruct (sees T a0 r); cbn [negb] in H; [|done].
  destruct (existsb _ _); [by injection H as _ <-|].
  destruct (insert_db T r (w_db w)) eqn:Ei; [|done]. apply Ok_inj in H. injection H as _ <-.
  repeat split; try done. by apply HR.
Qed.

Lemma respects_http_get G url : respects G (http_get url). Proof. by intros d0 w. Qed.
Lemma respects_http_get_with G url hs : respects G (http_get_with url hs). Proof. by intros d0 w. Qed.
Lemma respects_http_post G url body headers : respects G (http_post url body headers). Proof. by intros d0 w. Qed.
Lemma respects_http_fetch G rq : respects G (http_fetch rq). Proof. by intros d0 w. Qed.
Lemma respects_http_forward G rq : respects G (http_forward rq). Proof. by intros d0 w. Qed.
Lemma respects_getaddrinfo G host : respects G (getaddrinfo host). Proof. by intros d0 w. Qed.
Lemma respects_ssh_connect G d : respects G (ssh_connect d). Proof. by intros d0 w. Qed.
Lemma respects_token_urlsafe G n : respects G (token_urlsafe n). Proof. by intros d0 w. Qed.

Lemma respects_update_checked {Row} G (T : table Row) checks p f :
  (forall w pol d, G (w_tenant w) (w_admin_view w) -> policy w = Ok pol ->
     first_violation (flat_map (fun r => checks (f r)) (List.filter (fun r => sees T pol r && p r) (tb_get T d))) = None ->
     R d (update_db T (fun r => sees T pol r && p r) f d)) ->
  respects G (update_checked T checks p f).
Proof.
  intros HR. apply respects_execute. intros w a w' HG H.
  destruct (policy w) as [pol|] eqn:Ep; [|done]. cbn [mbind outcome_bind] in H.
  destruct (first_violation _) eqn:Ev; [done|]. injection H as <- <-. repeat split; try done. by eapply HR.
Qed.

Lemma respects_delete_restricted {Row} G (T : table Row) key refs p :
  (forall w pol d, G (w_tenant w) (w_admin_view w) -> policy w = Ok pol ->
     first_reference (refs d) (map key (List.filter (fun r => sees T pol r && p r) (tb_get T d))) = None ->
     R d (delete_db T (fun r => sees T pol r && p r) d)) ->
  respects G (delete_restricted T key refs p).
Proof.
  intros HR. apply respects_execute. intros w a w' HG H.
  destruct (policy w) as [pol|] eqn:Ep; [|done]. cbn [mbind outcome_bind] in H.
  destruct (first_reference _ _) eqn:Ev; [done|]. injection H as <- <-. repeat split; try done. by eapply HR.
Qed.

(** A savepoint around reads. *)
Lemma respects_begin_nested {A} G (m : M A) : respects G m -> reads m -> respects G (begin_nested m).
Proof.
  intros Hm [Hr _]. unfold begin_nested. apply respects_bind.
  { apply respects_execute. intros w a w' _ [= <- <-]. done. }
  intros _ d0 w Hg. pose proof (Hm d0 w Hg) as H1. destruct (m w) as [[a|e] w1] eqn:Em; cbn [snd] in H1.
  - assert (Hs : respects G (do! execute (fun w => Ok (tt, w)) in ret a)).
    { apply respects_bind; [|intros; apply respects_ret]. apply respects_execute. intros w2 a2 w' _ [= <- <-]. done. }
    by apply Hs.
  - apply Hr in Em as [Eb Hx]. change (w_tick (tick w1)) with (S (w_tick w1)).
    destruct (env_fault _); [apply (good_base _ _ w); [by destruct Hg|done|done]|].
    destruct Hg as [Hb Ha]. split; cbn; [by rewrite Eb|]. exact Ha.
Qed.

Lemma respects_upsert {Row} G (T : table Row) key f r :
  (forall d d', insert_db T r d = Ok d' -> R d d') ->
  (forall w pol d, G (w_tenant w) (w_admin_view w) -> policy w = Ok pol -> sees T pol r = true ->
     forallb (fun r' => sees T pol r' || negb (key r')) (tb_get T d) = true ->
     R d (update_db T key f d)) ->
  respects G (upsert T key f r).
Proof.
  intros HR HU. apply respects_execute. intros w a w' HG H.
  destruct (policy w) eqn:Ep; [|done]. cbn [mbind outcome_bind] in H.
  destruct (sees T a0 r) eqn:Es; cbn [negb] in H; [|done].
  destruct (existsb _ _).
  - destruct (forallb _ _) eqn:Ef; [|done]. injection H as <- <-.
    repeat split; try done. by eapply HU.
  - destruct (insert_db T r (w_db w)) eqn:Ei; [|done]. injection H as <- <-.
    repeat split; try done. by apply HR.
Qed.

Lemma respects_notify G c p : respects G (pg_notify c p).
Proof. apply respects_execute. intros w a w' _ H. injection H as <- <-. done. Qed.

Lemma respects_vault {A} G (f : vault_state -> outcome (A * vault_state)) : respects G (vault_call f).
Proof.
  intros d0 w H. unfold vault_call.
  destruct (f _) as [[a v]|]; destruct (env_vault_fault _) as [[[] ?]|]; exact H.
Qed.

Lemma respects_commit G : respects G commit.
Proof.
  intros d0 w [Hb Ha]. unfold commit. change (w_tx (tick w)) with (w_tx w).
  destruct (w_tx w) eqn:Et.
  - destruct (Ha eq_refl) as [Hd _].
    destruct (env_fault _); [by eapply (good_base _ _ w)|]. by split.
  - by eapply (good_base _ _ w).
  - split; cbn; [done|by rewrite Et].
Qed.

Lemma respects_set_config s G G' :
  (forall a t, G t a -> G' (Some s) a) ->
  forall d0 w, good G d0 w -> good G' d0 (snd (set_config_tenant s w)).
Proof.
  intros HG d0 w [Hb Ha]. unfold set_config_tenant, execute. change (w_tx (tick w)) with (w_tx w).
  destruct (w_tx w) eqn:Et; [|split; cbn; [done|by rewrite Et]..].
  destruct (Ha eq_refl) as [Hd HGw].
  destruct (env_fault _); [by eapply (good_base _ _ w)|].
  split; cbn; [done|]. intros _. split; [done|]. by eapply HG.
Qed.

(** The rest of a handler runs under the tenant it sets. *)
Lemma safe_set_tenant {A} s G (k : M A) :
  (forall a t, G t a -> a = false) ->
  safe (tenant_is s) k -> safe G (do! set_tenant_context s false in k).
Proof.
  intros HG Hk d0 w H. unfold bind at 1, set_tenant_context, bind.
  assert (H1 : good (tenant_is s) d0 (snd (set_config_tenant s w))).
  { eapply respects_set_config; [|done]. intros a t Ht. split; [done|by eapply HG]. }
  destruct (set_config_tenant s w) as [[u|e] w1]; [by apply Hk|].
  destruct H1 as [Hb Ha]. split; [done|]. intros Ht. by destruct (Ha Ht).
Qed.

(** The rest of a handler runs under the settings one statement makes. *)
Definition guc_is (t : option string) (a : bool) (t' : option string) (a' : bool) : Prop := t' = t /\ a' = a.

Lemma safe_set_guc {A B} t a G (k : B -> M A) (m : M B) (x : B) :
  (forall w, execute (fun w => Ok (x, set_guc t a w)) w = m w) ->
  (forall x, safe (guc_is t a) (k x)) -> safe G (bind m k).
Proof.
  intros Hm Hk d0 w [Hb Ha]. unfold bind. rewrite <- Hm. unfold execute. change (w_tx (tick w)) with (w_tx w).
  destruct (w_tx w) eqn:Et; [|split; cbn; [done|by rewrite Et]..].
  destruct (Ha eq_refl) as [Hd HG].
  destruct (env_fault _); [by eapply (good_base _ _ w)|].
  apply Hk. split; cbn; [done|]. by intros _.
Qed.

(** Statements that only change the settings, when the settings do not matter. *)
Lemma respects_any_guc {A} (f : world -> outcome (A * world)) :
  (forall w a w', f w = Ok (a, w') -> w_base w' = w_base w /\ w_tx w' = w_tx w /\ w_db w' = w_db w) ->
  respects any_guc (execute f).
Proof.
  intros Hf d0 w [Hb Ha]. unfold execute. change (w_tx (tick w)) with (w_tx w).
  destruct (w_tx w) eqn:Et; [|split; cbn; [done|by rewrite Et]..].
  destruct (Ha eq_refl) as [Hd HG].
  destruct (env_fault _); [by eapply (good_base _ _ w)|].
  destruct (f (tick w)) as [[x w']|e] eqn:Ef; [|by eapply (good_base _ _ w)].
  apply Hf in Ef as (E1 & E2 & E3). split; cbn [snd]; [by rewrite E1|]. intros _. by rewrite E3.
Qed.

Lemma safe_any {A} G (m : M A) : respects any_guc m -> safe G m.
Proof. intros H d0 w [Hb Ha]. apply H. split; [done|]. intros Ht. by destruct (Ha Ht). Qed.

Lemma safe_ret {A} G (a : A) : safe G (ret a). Proof. apply respects_safe, respects_ret. Qed.
Lemma safe_raise {A} G e : safe G (raise e : M A). Proof. apply respects_safe, respects_raise. Qed.
Lemma safe_bind {A B} G (m : M A) (k : A -> M B) :
  respects G m -> (forall a, safe G (k a)) -> safe G (bind m k).
Proof.
  intros Hm Hk d0 w H. unfold bind. apply Hm in H.
  destruct (m w) as [[a|e] w1]; [by apply Hk|]. destruct H as [Hb Ha].
  split; [done|]. intros Ht. by destruct (Ha Ht).
Qed.

(** The same rules when a fact on the open transaction's view is known: a read establishes it, and
    later reads keep it. *)
Definition respects_when (P : db -> Prop) {A} G (m : M A) : Prop :=
  forall d0 w, good G d0 w -> P (w_db w) -> good G d0 (snd (m w)).
Definition safe_when (P : db -> Prop) {A} G (m : M A) : Prop :=
  forall d0 w, good G d0 w -> P (w_db w) -> good any_guc d0 (snd (m w)).

Lemma reads_good {A} G d0 (m : M A) w : reads m -> good G d0 w -> good G d0 (snd (m w)).
Proof.
  intros [Ha Hr] [Hb Hg]. destruct (m w) as [[a|e] w1] eqn:E1; cbn [snd].
  - destruct (Hr _ _ _ E1) as (B & D & X & T & Ad). split; [by rewrite B|]. rewrite X, D, T, Ad. exact Hg.
  - destruct (Ha _ _ _ E1) as [B Hact]. split; [by rewrite B|]. intros X.
    destruct (Hact X) as (X0 & D & T & Ad). rewrite D, T, Ad. by apply Hg.
Qed.

Lemma good_any G d0 w : good G d0 w -> good any_guc d0 w.
Proof. intros [Hb Ha]. split; [done|]. intros Ht. by destruct (Ha Ht). Qed.

(** A read establishes a fact for the rest. *)
Lemma safe_bind_reads {A B} G (Q : A -> db -> Prop) (m : M A) (k : A -> M B) :
  reads m -> (forall w a w1, m w = (Ok a, w1) -> Q a (w_db w)) ->
  (forall a, safe_when (Q a) G (k a)) -> safe G (bind m k).
Proof.
  intros Hm HQ Hk d0 w Hg. pose proof (reads_good G d0 m w Hm Hg) as H1. unfold bind.
  destruct (m w) as [[a|e] w1] eqn:E1; [|by apply (good_any G)].
  apply Hk; [done|]. destruct Hm as [_ Hr]. destruct (Hr _ _ _ E1) as (_ & -> & _). by eapply HQ.
Qed.

Lemma safe_when_reads {A B} (P : db -> Prop) G (m : M A) (k : A -> M B) :
  reads m -> (forall a, safe_when P G (k a)) -> safe_when P G (bind m k).
Proof.
  intros Hm Hk d0 w Hg HP. pose proof (reads_good G d0 m w Hm Hg) as H1. unfold bind.
  destruct (m w) as [[a|e] w1] eqn:E1; [|by apply (good_any G)].
  apply Hk; [done|]. destruct Hm as [_ Hr]. by destruct (Hr _ _ _ E1) as (_ & -> & _).
Qed.

Lemma respects_when_reads {A B} (P : db -> Prop) G (m : M A) (k : A -> M B) :
  reads m -> (forall a, respects_when P G (k a)) -> respects_when P G (bind m k).
Proof.
  intros Hm Hk d0 w Hg HP. pose proof (reads_good G d0 m w Hm Hg) as H1. unfold bind.
  destruct (m w) as [[a|e] w1] eqn:E1; [|done].
  apply Hk; [done|]. destruct Hm as [_ Hr]. by destruct (Hr _ _ _ E1) as (_ & -> & _).
Qed.

Lemma safe_when_bind {A B} (P : db -> Prop) G (m : M A) (k : A -> M B) :
  respects_when P G m -> (forall a, safe G (k a)) -> safe_when P G (bind m k).
Proof.
  intros Hm Hk d0 w Hg HP. specialize (Hm d0 w Hg HP). unfold bind.
  destruct (m w) as [[a|e] w1]; [by apply Hk|by apply (good_any G)].
Qed.

Lemma respects_when_bind {A B} (P : db -> Prop) G (m : M A) (k : A -> M B) :
  respects_when P G m -> (forall a, respects G (k a)) -> respects_when P G (bind m k).
Proof.
  intros Hm Hk d0 w Hg HP. specialize (Hm d0 w Hg HP). unfold bind.
  destruct (m w) as [[a|e] w1]; [by apply Hk|done].
Qed.

Lemma respects_when_catch {A} (P : db -> Prop) G (m : M A) (h : exn -> M A) :
  respects_when P G m -> (forall e, respects G (h e)) -> respects_when P G (catch m h).
Proof.
  intros Hm Hh d0 w Hg HP. specialize (Hm d0 w Hg HP). unfold catch.
  destruct (m w) as [[a|e] w1]; [done|by apply Hh].
Qed.

Lemma respects_when_insert {Row} (P : db -> Prop) G (T : table Row) r :
  (forall d d', P d -> insert_db T r d = Ok d' -> R d d') -> respects_when P G (insert_into T r).
Proof.
  intros HR d0 w [Hb Ha] HP. unfold insert_into, execute. change (w_tx (tick w)) with (w_tx w).
  destruct (w_tx w) eqn:Et; [|split; cbn; [done|by rewrite Et]..].
  destruct (Ha eq_refl) as [Hd HG].
  destruct (env_fault _); [by eapply (good_base _ _ w)|].
  change (policy (tick w)) with (policy w). destruct (policy w) as [pol|]; [|by eapply (good_base _ _ w)].
  cbn [mbind outcome_bind]. destruct (sees T pol r); [|by eapply (good_base _ _ w)].
  change (w_db (tick w)) with (w_db w).
  destruct (insert_db T r (w_db w)) as [d'|] eqn:Ei; [|by eapply (good_base _ _ w)].
  cbn [mbind outcome_bind snd]. split; [exact Hb|]. intros _. cbn [set_db w_db w_tenant w_admin_view tick].
  split; [|done]. transitivity (w_db w); [done|]. by apply HR.
Qed.

(** A fact on the value of a step. *)
Lemma safe_bind_value {A B} G (Q : A -> Prop) (m : M A) (k : A -> M B) :
  respects G m -> (forall w a w1, m w = (Ok a, w1) -> Q a) -> (forall a, Q a -> safe G (k a)) -> safe G (bind m k).
Proof.
  intros Hm HQ Hk d0 w Hg. pose proof (Hm d0 w Hg) as H1. unfold bind.
  destruct (m w) as [[a|e] w1] eqn:E1; [|by apply (good_any G)]. apply Hk; [by eapply HQ|done].
Qed.
Lemma safe_when_value {A B} (P : db -> Prop) G (Q : A -> Prop) (m : M A) (k : A -> M B) :
  reads m -> (forall w a w1, m w = (Ok a, w1) -> Q a) -> (forall a, Q a -> safe_when P G (k a)) -> safe_when P G (bind m k).
Proof.
  intros Hm HQ Hk d0 w Hg HP. pose proof (reads_good G d0 m w Hm Hg) as H1. unfold bind.
  destruct (m w) as [[a|e] w1] eqn:E1; [|by apply (good_any G)].
  apply Hk; [by eapply HQ|done|]. destruct Hm as [_ Hr]. by destruct (Hr _ _ _ E1) as (_ & -> & _).
Qed.

Lemma safe_of_when {A} G (m : M A) : safe_when (fun _ => True) G m -> safe G m.
Proof. intros H d0 w Hg. by apply H. Qed.
Lemma respects_when_true {A} (P : db -> Prop) G (m : M A) : respects G m -> respects_when P G m.
Proof. intros H d0 w Hg _. by apply H. Qed.

(** A step that leaves a fact for the rest. *)
Lemma safe_when_next {A B} (P : db -> Prop) (Q : A -> db -> Prop) G (m : M A) (k : A -> M B) :
  respects_when P G m ->
  (forall w a w1, (w_tx w = TxActive -> G (w_tenant w) (w_admin_view w)) -> m w = (Ok a, w1) -> P (w_db w) -> Q a (w_db w1)) ->
  (forall a, safe_when (Q a) G (k a)) -> safe_when P G (bind m k).
Proof.
  intros Hm HQ Hk d0 w Hg HP. pose proof (Hm d0 w Hg HP) as H1. unfold bind.
  destruct (m w) as [[a|e] w1] eqn:E1; [|by apply (good_any G)].
  apply Hk; [done|]. apply (HQ w a w1); [|done..]. intros Hx. by apply (proj2 Hg).
Qed.

Lemma respects_when_next {A B} (P : db -> Prop) (Q : A -> db -> Prop) G (m : M A) (k : A -> M B) :
  respects_when P G m -> (forall w a w1, m w = (Ok a, w1) -> P (w_db w) -> Q a (w_db w1)) ->
  (forall a, respects_when (Q a) G (k a)) -> respects_when P G (bind m k).
Proof.
  intros Hm HQ Hk d0 w Hg HP. pose proof (Hm d0 w Hg HP) as H1. unfold bind.
  destruct (m w) as [[a|e] w1] eqn:E1; [|done]. apply Hk; [done|]. by apply (HQ w a w1).
Qed.

Lemma safe_when_lift {A B} (P : db -> Prop) G (o : outcome A) (k : A -> M B) :
  (forall a, o = Ok a -> safe_when P G (k a)) -> safe_when P G (bind (lift o) k).
Proof.
  intros Hk d0 w Hg HP. unfold bind, lift. destruct o as [a|e]; [by apply Hk|]. by apply (good_any G).
Qed.
Lemma safe_lift {A B} G (o : outcome A) (k : A -> M B) :
  (forall a, o = Ok a -> safe G (k a)) -> safe G (bind (lift o) k).
Proof. intros Hk d0 w Hg. unfold bind, lift. destruct o as [a|e]; [by apply Hk|]. by apply (good_any G). Qed.
Lemma respects_when_lift {A B} (P : db -> Prop) G (o : outcome A) (k : A -> M B) :
  (forall a, o = Ok a -> respects_when P G (k a)) -> respects_when P G (bind (lift o) k).
Proof. intros Hk d0 w Hg HP. unfold bind, lift. destruct o as [a|e]; [by apply Hk|done]. Qed.

Lemma respects_when_upsert {Row} (P : db -> Prop) G (T : table Row) key f r :
  (forall d d', P d -> insert_db T r d = Ok d' -> R d d') ->
  (forall w pol d, G (w_tenant w) (w_admin_view w) -> policy w = Ok pol -> sees T pol r = true ->
     forallb (fun r' => sees T pol r' || negb (key r')) (tb_get T d) = true ->
     R d (update_db T key f d)) ->
  respects_when P G (upsert T key f r).
Proof.
  intros HR HU d0 w [Hb Ha] HP. unfold upsert, execute. change (w_tx (tick w)) with (w_tx w).
  destruct (w_tx w) eqn:Et; [|split; cbn; [done|by rewrite Et]..].
  destruct (Ha eq_refl) as [Hd HG].
  destruct (env_fault _); [by eapply (good_base _ _ w)|].
  change (policy (tick w)) with (policy w). destruct (policy w) as [pol|] eqn:Ep; [|by eapply (good_base _ _ w)].
  cbn [mbind outcome_bind]. change (w_db (tick w)) with (w_db w).
  destruct (sees T pol r) eqn:Es; cbn [negb]; [|by eapply (good_base _ _ w)].
  destruct (existsb _ _).
  - destruct (forallb _ _) eqn:Ef; [|by eapply (good_base _ _ w)].
    split; [exact Hb|]. intros _. cbn [snd set_db w_db w_tenant w_admin_view tick].
    split; [|done]. transitivity (w_db w); [done|]. by eapply HU.
  - destruct (insert_db T r (w_db w)) as [d'|] eqn:Ei; [|by eapply (good_base _ _ w)].
    split; [exact Hb|]. intros _. cbn [snd set_db w_db w_tenant w_admin_view tick].
    split; [|done]. transitivity (w_db w); [done|]. by apply HR.
Qed.

Lemma safe_when_true {A} (P : db -> Prop) G (m : M A) : safe G m -> safe_when P G m.
Proof. intros H d0 w Hg _. by apply H. Qed.

(** A whole transaction relates the committed states before and after. *)
Theorem transaction_safe {A} (m : M A) w :
  safe no_guc m -> R (w_base w) (w_base (snd (transaction m w))).
Proof.
  intros Hm. unfold transaction.
  assert (Hg : good no_guc (w_base w) (begin w)) by by repeat split.
  apply Hm in Hg. destruct (m (begin w)) as [[a|e] w1]; cbn [snd] in Hg.
  - destruct (w_tx w1) eqn:Et; [|destruct Hg as [Hb _]|by destruct Hg].
    + destruct (respects_commit any_guc _ _ Hg) as [Hb _].
      by destruct (commit w1) as [[?|?] w2].
    + unfold commit. change (w_tx (tick w1)) with (w_tx w1). by rewrite Et.
  - destruct Hg as [Hb _]. by destruct (w_tx w1).
Qed.

End Preservation.

Create HintDb respects discriminated.
#[export] Hint Constants Opaque : respects.
#[export] Hint Resolve respects_ret respects_raise respects_lift respects_bound respects_uuid4
  respects_now respects_time respects_token_bytes respects_monotonic respects_http_get respects_http_get_with respects_http_post respects_http_fetch respects_http_forward
  respects_getaddrinfo respects_ssh_connect respects_token_urlsafe respects_select respects_query respects_notify respects_vault respects_commit safe_ret safe_raise : respects.

(** One step of a preservation proof, on the head of the computation. *)
Ltac preserved_step :=
  lazymatch goal with
  | |- respects _ _ (bind (ret _) _) => rewrite bind_ret
  | |- safe _ _ (bind (ret _) _) => rewrite bind_ret
  | |- respects _ _ (bind _ _) => apply respects_bind; [|intros ?]
  | |- respects _ _ (catch _ _) => apply respects_catch; [|intros ?]
  | |- respects _ _ (select _ _) => apply respects_select, _
  | |- respects _ _ (query _) => apply respects_query, _
  | |- respects _ _ (pg_notify _ _) => apply respects_notify, _
  | |- respects _ _ commit => apply respects_commit
  | |- respects _ _ (match ?x with _ => _ end) => destruct x
  | |- safe _ _ (bind (set_tenant_context _ false) _) =>
      apply safe_set_tenant; [by intros ? ? [_ ?]|]
  | |- safe _ _ (bind _ _) => apply safe_bind; [|intros ?]
  | |- safe _ _ (ret _) => apply safe_ret
  | |- safe _ _ (raise _) => apply safe_raise
  | |- safe _ _ (match ?x with _ => _ end) => destruct x
  | |- respects _ _ _ => solve [auto with respects]
  end.

(** ** The process part of the world *)

Section Process.
Context `{E : Env} `{V : Vault}.
Implicit Types w : world.

(** [m] leaves the process's state, and so the calls it has made, as they were. *)
Definition silent {A} (m : M A) : Prop := forall w, w_proc (snd (m w)) = w_proc w.

Lemma silent_ret {A} (a : A) : silent (ret a). Proof. done. Qed.
Lemma silent_raise {A} e : silent (raise e : M A). Proof. done. Qed.
Lemma silent_lift {A} (o : outcome A) : silent (lift o). Proof. done. Qed.
Lemma silent_bound s : silent (bound s). Proof. intros w. unfold bound. by destruct (bind_uuid s). Qed.
Lemma silent_uuid4 : silent uuid4. Proof. done. Qed.
Lemma silent_now : silent now_utc. Proof. done. Qed.
Lemma silent_time : silent time_time. Proof. done. Qed.
Lemma silent_token_bytes : silent token_bytes. Proof. done. Qed.
Lemma silent_monotonic : silent monotonic. Proof. done. Qed.

Lemma silent_bind {A B} (m : M A) (k : A -> M B) : silent m -> (forall a, silent (k a)) -> silent (bind m k).
Proof.
  intros Hm Hk w. unfold bind. specialize (Hm w). destruct (m w) as [[a|e] w1]; [|done].
  cbn [snd] in Hm. rewrite <- Hm. apply Hk.
Qed.

Lemma silent_catch {A} (m : M A) (h : exn -> M A) : silent m -> (forall e, silent (h e)) -> silent (catch m h).
Proof.
  intros Hm Hh w. unfold catch. specialize (Hm w). destruct (m w) as [[a|e] w1]; [done|].
  cbn [snd] in Hm. rewrite <- Hm. apply Hh.
Qed.

Lemma silent_execute {A} (f : world -> outcome (A * world)) :
  (forall w a w', f w = Ok (a, w') -> w_proc w' = w_proc w) -> silent (execute f).
Proof.
  intros Hf w. unfold execute. change (w_tx (tick w)) with (w_tx w). destruct (w_tx w); [|done..].
  destruct (env_fault _); [done|]. destruct (f (tick w)) as [[a w1]|] eqn:Ef; [|done]. by apply Hf in Ef.
Qed.

Lemma silent_select {R} (T : table R) p : silent (select T p).
Proof. apply silent_execute. intros w a w' H. destruct (policy w); [|done]. by injection H as <- <-. Qed.

Lemma silent_query {A} (f : (uuid -> bool) -> db -> A) : silent (query f).
Proof. apply silent_execute. intros w a w' H. destruct (policy w); [|done]. apply Ok_inj in H. by injection H as <- <-. Qed.

Lemma silent_insert {R} (T : table R) r : silent (insert_into T r).
Proof.
  apply silent_execute. intros w a w' H. destruct (policy w); [|done]. cbn [mbind outcome_bind] in H.
  destruct (sees T _ r); [|done]. destruct (insert_db T r (w_db w)); [|done]. by injection H as <- <-.
Qed.

Lemma silent_update {R} (T : table R) p f : silent (update_where T p f).
Proof. apply silent_execute. intros w a w' H. destruct (policy w); [|done]. by injection H as <- <-. Qed.

Lemma silent_delete {R} (T : table R) p : silent (delete_from T p).
Proof. apply silent_execute. intros w a w' H. destruct (policy w); [|done]. by injection H as <- <-. Qed.

Lemma silent_set_config s : silent (set_config_tenant s).
Proof. apply silent_execute. by intros w a w' [= <- <-]. Qed.

Lemma silent_set_tenant s : silent (set_tenant_context s false).
Proof. apply silent_bind; [apply silent_set_config|]. intros _. apply silent_ret. Qed.

Lemma silent_delete_returning {R} (T : table R) p : silent (delete_returning T p).
Proof. apply silent_execute. intros w a w' H. destruct (policy w); [|done]. apply Ok_inj in H. by injection H as <- <-. Qed.
Lemma silent_insert_ignore {R} (T : table R) key r : silent (insert_ignore T key r).
Proof.
  apply silent_execute. intros w a w' H. destruct (policy w); [|done]. cbn [mbind outcome_bind] in H.
  destruct (sees T _ r); cbn [negb] in H; [|done]. destruct (existsb _ _); [by injection H as _ <-|].
  destruct (insert_db T r (w_db w)); [|done]. by injection H as <- <-.
Qed.
Lemma silent_getaddrinfo host : silent (getaddrinfo host). Proof. done. Qed.
Lemma silent_token_urlsafe n : silent (token_urlsafe n). Proof. done. Qed.

Lemma silent_notify c p : silent (pg_notify c p).
Proof. apply silent_execute. by intros w a w' [= <- <-]. Qed.

Lemma silent_transaction {A} (m : M A) w :
  w_proc (snd (transaction m w)) = w_proc (snd (m (begin w))).
Proof.
  unfold transaction. destruct (m (begin w)) as [[a|e] w1]; cbn [snd]; [|by destruct (w_tx w1)].
  destruct (w_tx w1) eqn:Et; [| |done]; unfold commit; change (w_tx (tick w1)) with (w_tx w1); rewrite Et; [|done].
  by destruct (env_fault _).
Qed.

(** *** The tapes only advance *)

Definition later {A} (m : M A) : Prop := forall w, (w_tick w <= w_tick (snd (m w)))%nat.

Lemma later_run {A} (m : M A) w o w' : later m -> m w = (o, w') -> (w_tick w <= w_tick w')%nat.
Proof. intros Hm H. specialize (Hm w). by rewrite H in Hm. Qed.

Lemma later_ret {A} (a : A) : later (ret a). Proof. by intros w. Qed.
Lemma later_raise {A} e : later (raise e : M A). Proof. by intros w. Qed.
Lemma later_lift {A} (o : outcome A) : later (lift o). Proof. by intros w. Qed.
Lemma later_bound s : later (bound s). Proof. intros w. unfold bound. by destruct (bind_uuid s). Qed.
Lemma later_now : later now_utc. Proof. intros w. cbn. lia. Qed.
Lemma later_time : later time_time. Proof. intros w. cbn. lia. Qed.
Lemma later_post url j hs : later (http_post url j hs). Proof. intros w. cbn. lia. Qed.

Lemma later_bind {A B} (m : M A) (k : A -> M B) : later m -> (forall a, later (k a)) -> later (bind m k).
Proof.
  intros Hm Hk w. unfold bind. specialize (Hm w). destruct (m w) as [[a|e] w1]; [|done].
  cbn [snd] in Hm. specialize (Hk a w1). lia.
Qed.

Lemma later_execute {A} (f : world -> outcome (A * world)) :
  (forall w a w', f w = Ok (a, w') -> w_tick w' = w_tick w) -> later (execute f).
Proof.
  intros Hf w. unfold execute. change (w_tx (tick w)) with (w_tx w). destruct (w_tx w); [|cbn; lia..].
  destruct (env_fault _); [cbn; lia|]. destruct (f (tick w)) as [[a w1]|] eqn:Ef; [|cbn; lia].
  apply Hf in Ef. cbn [snd]. rewrite Ef. cbn. lia.
Qed.

Lemma later_select {R} (T : table R) p : later (select T p).
Proof. apply later_execute. intros w a w' H. destruct (policy w); [|done]. by injection H as <- <-. Qed.

Lemma later_set_tenant s : later (set_tenant_context s false).
Proof. apply later_bind; [|intros _; apply later_ret]. apply later_execute. by intros w a w' [= <- <-]. Qed.

Lemma later_transaction {A} (m : M A) w :
  (w_tick (snd (m (begin w))) <= w_tick (snd (transaction m w)))%nat.
Proof.
  unfold transaction. destruct (m (begin w)) as [[a|e] w1]; cbn [snd]; [|destruct (w_tx w1); cbn; lia].
  destruct (w_tx w1) eqn:Et; [| |done]; unfold commit; change (w_tx (tick w1)) with (w_tx w1); rewrite Et; [|cbn; lia].
  destruct (env_fault _); cbn; lia.
Qed.

(** A read keeps the tenant of the transaction and its data. *)
Lemma reads_in_tenant {A} (m : M A) t w a w' :
  reads m -> m w = (Ok a, w') -> in_tenant t w -> in_tenant t w' /\ w_db w' = w_db w /\ w_base w' = w_base w.
Proof.
  intros [_ Hm] H [Hx Hp]. apply Hm in H as (B & D & X & T & Ad). split; [|done].
  split; [congruence|]. rewrite <- Hp. unfold policy. by rewrite T, Ad.
Qed.
End Process.

Create HintDb silent discriminated.
#[export] Hint Constants Opaque : silent.
#[export] Hint Resolve silent_ret silent_raise silent_lift silent_bound silent_uuid4 silent_now silent_time silent_token_bytes silent_monotonic
  silent_select silent_query silent_insert silent_update silent_delete silent_delete_returning silent_insert_ignore silent_getaddrinfo silent_token_urlsafe silent_set_tenant silent_notify : silent.

Create HintDb later discriminated.
#[export] Hint Constants Opaque : later.
#[export] Hint Resolve later_ret later_raise later_lift later_bound later_now later_time later_post later_select
  later_set_tenant : later.

(** Composes the rules over a computation. *)
Ltac later_step :=
  lazymatch goal with
  | |- later (bind _ _) => apply later_bind; [|intros ?]
  | |- later (match ?x with _ => _ end) => destruct x
  | |- later _ => solve [auto with later]
  end.

(** Composes the rules over a computation. *)
Ltac silent_step :=
  lazymatch goal with
  | |- silent (bind _ _) => apply silent_bind; [|intros ?]
  | |- silent (catch _ _) => apply silent_catch; [|intros ?]
  | |- silent (match ?x with _ => _ end) => destruct x
  | |- silent _ => solve [auto with silent]
  end.
