(* ===== verification/Ulid.v ===== *)
(** * New identifiers (admin_api/api/tenants.py, permissions.py, agents.py)

    A new identifier is a ULID in Crockford base 32: ten characters of
    milliseconds and sixteen of random bits.  The row's UUID is read back
    from its characters. *)

From S2P Require Import Prelude PyStr PyJson PyTime PyFloat WireIds Vault Tables Database Logic.

Local Open Scope string_scope.
Local Open Scope py_scope.

(** Ten characters of milliseconds, sixteen of the first 80 bits of a random UUID. *)
Definition ulid (ts_ms : Z) (random : uuid) : string :=
  crockford 10 (Z.to_N ts_ms) +:+ crockford 16 (N.shiftr random 48).

Section New.
Context `{E : Env} `{V : Vault}.

(** [int(time.time() * 1000)] *)
Definition milliseconds (t : QArith_base.Q) : Z := int_of_float (float_mul t (QArith_base.inject_Z 1000)).

Definition new_id (prefix : string) : M string :=
  let! now := time_time in
  let! rand := uuid4 in
  ret (prefix +:+ ulid (milliseconds now) rand).

Definition _new_tenant_id : M string := new_id "tenant_".
Definition _new_perm_id : M string := new_id "perm_".
End New.

(** The 128 low bits of the characters after the prefix, as a UUID. *)
Definition ulid_uuid (id prefix : string) : outcome uuid :=
  val ← crockford_fold 0 (chars (upper (py_drop (py_len prefix) id)));
  Ok (N.land val (N.ones 128)).

(** ** The identifier names the row *)

Lemma crockford_app (n m : nat) (a b : N) :
  (b < 2 ^ (5 * N.of_nat m))%N ->
  crockford n a +:+ crockford m b = crockford (n + m) (a * 2 ^ (5 * N.of_nat m) + b).
Proof.
  intros Hb. unfold crockford. rewrite <- unchars_app, <- map_app. do 2 f_equal.
  rewrite <- (digits_undigits 5 (digits 5 n a ++ digits 5 m b)).
  2: { intros d Hd. apply in_app_or in Hd as [Hd|Hd]; by apply digits_bound in Hd. }
  rewrite length_app, !length_digits.
  assert (Hu : forall l k, undigits 5 (l ++ digits 5 k b)%list =
    (undigits 5 l * 2 ^ (5 * N.of_nat k) + b mod 2 ^ (5 * N.of_nat k))%N).
  { clear. intros l k. rewrite <- (undigits_digits 5 k b). generalize (digits_bound 5 k b).
    assert (Hlen : length (digits 5 k b) = k) by apply length_digits. revert Hlen.
    generalize (digits 5 k b). intros ds <- Hds.
    induction ds as [|d ds IH] using rev_ind; [rewrite app_nil_r; cbn; lia|].
    rewrite app_assoc, !undigits_snoc, !lor_shiftl_add by (apply Hds, in_or_app; right; by left).
    rewrite IH by (intros x Hx; apply Hds, in_or_app; by left).
    rewrite length_app. cbn [length]. rewrite Nat2N.inj_add. replace (5 * (N.of_nat (length ds) + N.of_nat 1))%N with (5 * N.of_nat (length ds) + 5)%N by lia.
    rewrite N.pow_add_r. lia. }
  rewrite Hu, undigits_digits, (N.mod_small b) by done.
  (* only the low n + m digits count *)
  rewrite <- (digits_undigits 5 (digits 5 (n + m) (a * 2 ^ (5 * N.of_nat m) + b))) by (intros d Hd; by apply digits_bound in Hd).
  rewrite length_digits, undigits_digits. f_equal.
  rewrite Nat2N.inj_add, N.mul_add_distr_l, N.pow_add_r.
  set (x := (2 ^ (5 * N.of_nat n))%N). set (y := (2 ^ (5 * N.of_nat m))%N) in *.
  assert (Hx : x <> 0%N) by (apply N.pow_nonzero; lia). assert (Hy : y <> 0%N) by (apply N.pow_nonzero; lia).
  rewrite (N.div_mod a x Hx) at 2. 
  replace ((x * (a / x) + a mod x) * y + b)%N with (a mod x * y + b + (a / x) * (x * y))%N by lia.
  rewrite N.Div0.mod_add. symmetry. apply N.mod_small. pose proof (N.mod_lt a x Hx). nia.
Qed.

(** The UUID the new identifier stands for. *)
Definition ulid_value (ts_ms : Z) (random : uuid) : uuid := (Z.to_N ts_ms * 2 ^ 80 + N.shiftr random 48)%N.

Lemma ulid_value_lt ts rand :
  (0 <= ts < 2 ^ 48)%Z -> (rand < uuid_limit)%N -> (ulid_value ts rand < uuid_limit)%N.
Proof.
  intros Hts Hr. unfold ulid_value. rewrite N.shiftr_div_pow2.
  assert (rand / 2 ^ 48 < 2 ^ 80)%N by (apply N.Div0.div_lt_upper_bound; exact Hr).
  assert (Z.to_N ts < 2 ^ 48)%N by lia. change uuid_limit with (2 ^ 48 * 2 ^ 80)%N. nia.
Qed.

Lemma ulid_crockford ts rand :
  (rand < uuid_limit)%N -> ulid ts rand = crockford 26 (ulid_value ts rand).
Proof.
  intros Hr. unfold ulid, ulid_value. apply (crockford_app 10 16). rewrite N.shiftr_div_pow2.
  apply N.Div0.div_lt_upper_bound. exact Hr.
Qed.

(** Until the year 10889 a new identifier is the wire form of the UUID read back from it. *)
Lemma ulid_uuid_spec p ts rand :
  (0 <= ts < 2 ^ 48)%Z -> (rand < uuid_limit)%N ->
  ulid_uuid (p +:+ ulid ts rand) p = Ok (ulid_value ts rand).
Proof.
  intros Hts Hr. unfold ulid_uuid. rewrite py_drop_app, ulid_crockford, crockford_decode by done.
  cbn [mbind outcome_bind]. pose proof (ulid_value_lt ts rand Hts Hr) as Hlt.
  assert (Hlt2 : (ulid_value ts rand < 2 ^ 128)%N) by exact Hlt.
  rewrite N.land_ones. rewrite (N.mod_small _ (2 ^ (5 * N.of_nat 26))); [by rewrite N.mod_small|].
  eapply N.lt_trans; [exact Hlt2|]. apply N.pow_lt_mono_r; lia.
Qed.

Lemma ulid_wire p ts rand : (rand < uuid_limit)%N -> wire (ulid_value ts rand) p = (p +:+ "_") +:+ ulid ts rand.
Proof. intros Hr. unfold wire. by rewrite ulid_crockford, app_string_assoc. Qed.
