(* ===== verification/PublicUrls.v ===== *)
(** * Public URLs (admin_api/config/public_urls.py, mcp_server/config/public_urls.py)

    The resolvers of operator-facing addresses from environment variables.
    The warning logged for a legacy name is left out. *)

From S2P Require Import Prelude PyStr PyJson PyTime WireIds Vault Tables Database.

Local Open Scope string_scope.

Section PublicUrls.
Context `{E : Env}.

Definition first_set (names : list string) : option string :=
  head (omap (fun name => match env_var name with
                          | Some val => if String.eqb val "" then None else Some val
                          | None => None
                          end) names).

Definition _read_with_fallback (canonical : string) (legacy_names : list string) (dflt : string) : string :=
  match first_set [canonical] with
  | Some val => rstrip "/" val
  | None => match first_set legacy_names with
            | Some val => rstrip "/" val
            | None => rstrip "/" dflt
            end
  end.

(** mcp-server *)
Definition resolve_mcp_public_url : string :=
  _read_with_fallback "MINTKEY_MCP_PUBLIC_URL" ["MINTKEY_MCP_URL"] "http://localhost:8082".
Definition resolve_proxy_public_url : string :=
  _read_with_fallback "MINTKEY_PROXY_PUBLIC_URL" ["MINTKEY_PROXY_URL"; "KONG_PROXY_URL"] "http://localhost:8000".

(** [int(s)] in base 10 ([None] for [ValueError]): optional white space and sign, digits with single
    underscores between them. *)
Fixpoint scan_dec (acc : Z) (read after_us : bool) (l : list ascii) : option (Z * bool * list ascii) :=
  match l with
  | [] => if after_us then None else Some (acc, read, [])
  | c :: l' =>
      if is_underscore c then (if after_us || negb read then None else scan_dec acc read true l')
      else if is_digit c then scan_dec (acc * 10 + Z.of_N (code c - 48))%Z true false l'
      else if after_us then None else Some (acc, read, l)
  end.

Definition py_int10 (s : string) : option Z :=
  let l := skip_cspace (chars s) in
  let '(neg, l) := match l with
                   | c :: l' => if (code c =? 45)%N then (true, l') else if (code c =? 43)%N then (false, l') else (false, l)
                   | [] => (false, [])
                   end in
  match scan_dec 0 false false l with
  | Some (v, true, rest) => match skip_cspace rest with
                            | [] => Some (if neg : bool then (- v)%Z else v)
                            | _ => None
                            end
  | _ => None
  end.

(** [s.rsplit(":", 1)] of a text with a colon *)
Definition rsplit_colon (s : string) : option (string * string) :=
  let r := rev (chars s) in
  match find_index (fun c => Ascii.eqb c ":") r with
  | Some i => Some (unchars (rev (drop (S i) r)), unchars (rev (take i r)))
  | None => None
  end.

(** [re.match(r"https?://([^/:]+)", val)]: the group *)
Fixpoint host_chars (l : list ascii) : list ascii :=
  match l with
  | c :: l' => if Ascii.eqb c "/" || Ascii.eqb c ":" then [] else c :: host_chars l'
  | [] => []
  end.
Definition url_host (val : string) : option string :=
  let rest := if startswith val "http://" then Some (py_drop 7 val)
              else if startswith val "https://" then Some (py_drop 8 val) else None in
  match rest with
  | Some r => match host_chars (chars r) with [] => None | h => Some (unchars h) end
  | None => None
  end.

(** The first address of an environment variable that is set and starts like a URL. *)
Definition derived_host : option string :=
  head (omap (fun name => let val := getenv name "" in if String.eqb val "" then None else url_host val)
          ["MINTKEY_MCP_PUBLIC_URL"; "MINTKEY_KEYCLOAK_PUBLIC_URL"]).

Definition resolve_ssh_proxy_public_host : string * Z :=
  let raw := getenv "MINTKEY_SSH_PROXY_PUBLIC_URL" "" in
  if negb (String.eqb raw "") then
    let raw := py_strip raw in
    let raw := if startswith raw "ssh://" then py_drop 6 raw else raw in
    match rsplit_colon raw with
    | Some (host_part, port_part) =>
        match py_int10 (py_strip port_part) with
        | Some port => (py_strip host_part, port)
        | None => (raw, 2222%Z)
        end
    | None => (raw, 2222%Z)
    end
  else
    match derived_host with
    | Some host => (host, 2222%Z)
    | None => ("ssh-proxy", 2222%Z)
    end.
End PublicUrls.

(** admin-api *)
Module AdminUrls.
Section AdminUrls.
Context `{E : Env}.
Definition _DEFAULT_MCP : string := "http://localhost:8082".
Definition resolve_mcp_public_url : string :=
  _read_with_fallback "MINTKEY_MCP_PUBLIC_URL" ["MCP_BASE_URL"] _DEFAULT_MCP.
Definition resolve_keycloak_public_url : string :=
  _read_with_fallback "MINTKEY_KEYCLOAK_PUBLIC_URL" [] "http://localhost:8443".
Definition resolve_keycloak_internal_url : string :=
  _read_with_fallback "MINTKEY_KEYCLOAK_INTERNAL_URL" [] "http://keycloak:8443".
Definition resolve_admin_api_public_url : string :=
  _read_with_fallback "MINTKEY_ADMIN_API_PUBLIC_URL" [] "http://localhost:8080".
Definition resolve_admin_ui_public_url : string :=
  _read_with_fallback "MINTKEY_ADMIN_UI_PUBLIC_URL" [] "http://localhost:8081".
End AdminUrls.
End AdminUrls.

(** ** Facts *)

Lemma drop_in_spec cs l : forall c, head (drop_in cs l) = Some c -> existsb (Ascii.eqb c) cs = false.
Proof.
  intros c H. induction l as [|a l IH]; simpl in H; [done|].
  destruct (existsb (Ascii.eqb a) cs) eqn:E; [by apply IH|]. simpl in H. by injection H as <-.
Qed.

(** No trailing slash: callers append [/v1/...]. *)
Lemma rstrip_slash s : endswith (rstrip "/" s) "/" = false.
Proof.
  unfold endswith, rstrip. rewrite chars_unchars, rev_involutive.
  destruct (drop_in (chars "/") (rev (chars s))) as [|c l] eqn:E; [done|].
  pose proof (drop_in_spec (chars "/") (rev (chars s)) c) as H. rewrite E in H. specialize (H eq_refl).
  cbn in H |- *. destruct (Ascii.eqb_spec "/" c) as [<-|]; [|done]. discriminate.
Qed.
