(* ===== verification/Resolve.v ===== *)
(** * Resolution of identifiers (mcp_server/utils/wire_ids.py)

    A service is named by its UUID, its wire form or its slug; an email
    service or a secret by its UUID or its wire form. *)

From S2P Require Import Prelude PyStr PyJson PyJsonFacts PyTime WireIds Vault Tables Database Logic.

Local Open Scope string_scope.
Local Open Scope py_scope.

(** [len(s) == 36 and s.count("-") == 4] *)
Definition looks_like_uuid (s : string) : bool :=
  (py_len s =? 36)%nat && (count_char "-" s =? 4)%nat.

(** [UUID(wire_to_db_uuid(s, prefix))] and the intermediate text. *)
Definition decode_wire (s prefix : string) : outcome (string * uuid) :=
  decoded ← wire_to_db_uuid s prefix; u ← UUID decoded; Ok (decoded, u).

Section Resolve.
Context `{E : Env} `{V : Vault}.

Definition slug_lookup (input_str tenant_id : string) : M uuid :=
  let! tid := bound tenant_id in
  let! rows := select services_t (fun s =>
    N.eqb (s_tenant_id s) tid && String.eqb (s_status s) "active" && String.eqb (s_slug s) input_str) in
  match rows with
  | [] => raise (ServiceNotFound input_str "service_not_found")
  | [row] => lift (UUID (uuid_str (s_id row)))
  | _ => raise (ServiceNotFound input_str "ambiguous_slug")
  end.

Definition resolve_service_id (input_str tenant_id : string) : M uuid :=
  let forms2_3 :=
    if startswith input_str "svc_" then
      match decode_wire input_str "svc" with
      | Ok (_, u) => ret u
      | Raise (ValueError _) | Raise (AttributeError _) => raise (ServiceNotFound input_str "service_not_found")
      | Raise e => raise e
      end
    else slug_lookup input_str tenant_id in
  if looks_like_uuid input_str then
    match UUID input_str with
    | Ok u => ret u
    | Raise (ValueError _) => forms2_3
    | Raise e => raise e
    end
  else forms2_3.

(** The text bound in the lookup of an email service or a secret; [None] answers nothing. *)
Definition lookup_candidate (input_str prefix : string) : outcome (option string) :=
  if looks_like_uuid input_str then
    match UUID input_str with
    | Ok u => Ok (Some (uuid_str u))
    | Raise (ValueError _) => Ok None
    | Raise e => Raise e
    end
  else if startswith input_str (prefix +:+ "_") then
    match decode_wire input_str prefix with
    | Ok (decoded, _) => Ok (Some decoded)
    | Raise (ValueError _) | Raise (AttributeError _) => Ok None
    | Raise e => Raise e
    end
  else Ok None.

(** [UUID(str(row.id))], [None] when it fails. *)
Definition row_uuid (id : uuid) : outcome (option uuid) :=
  match UUID (uuid_str id) with
  | Ok u => Ok (Some u)
  | Raise (ValueError _) | Raise (AttributeError _) => Ok None
  | Raise e => Raise e
  end.

Definition resolve_secret_id (input_str tenant_id : string) : M (option uuid) :=
  let! candidate := lift (lookup_candidate input_str "sec") in
  match candidate with
  | None => ret None
  | Some candidate =>
      let! sid := bound candidate in
      let! tid := bound tenant_id in
      let! rows := select agent_secrets_t (fun k => N.eqb (k_id k) sid && N.eqb (k_tenant_id k) tid) in
      match fetchone rows with
      | None => ret None
      | Some row => lift (row_uuid (k_id row))
      end
  end.

Definition resolve_email_service_id (input_str tenant_id : string) : M (option uuid) :=
  let! candidate := lift (lookup_candidate input_str "svc") in
  match candidate with
  | None => ret None
  | Some candidate =>
      let! esid := bound candidate in
      let! tid := bound tenant_id in
      let! rows := select email_services_t (fun s =>
        N.eqb (es_id s) esid && N.eqb (es_tenant_id s) tid && negb (es_deleted s)) in
      match fetchone rows with
      | None => ret None
      | Some row => lift (row_uuid (es_id row))
      end
  end.
End Resolve.
