(* ===== verification/Demo.v ===== *)
(** * A concrete environment

    An environment without failures, the vault adapter and a small database,
    on which the witnesses of the conditional properties run. *)

From Stdlib Require QArith_base.
From S2P Require Import Prelude PyStr PyJson PyJsonFacts PyTime WireIds AuditHash Vault Tables Database Logic.

Local Open Scope string_scope.

Definition demo_uuid_in (s : string) : option uuid :=
  match UUID s with
  | Ok u => if N.ltb u uuid_limit then Some u else None
  | Raise _ => None
  end.

Lemma demo_uuid_in_str u : (u < uuid_limit)%N -> demo_uuid_in (uuid_str u) = Some u.
Proof. intros H. unfold demo_uuid_in. rewrite UUID_uuid_str by done. by rewrite (proj2 (N.ltb_lt _ _) H). Qed.

Lemma demo_uuid_in_inv s u : demo_uuid_in s = Some u -> UUID s = Ok u /\ (u < uuid_limit)%N.
Proof.
  unfold demo_uuid_in. destruct (UUID s) as [v|]; [|done]. destruct (N.ltb_spec v uuid_limit) as [Hv|]; [|done].
  intros H. apply Some_inj in H. by subst v.
Qed.

(** Fresh identifiers from 1000 on. *)
Definition demo_uuid4 (n : nat) : uuid := (1000 + N.modulo (N.of_nat n) (uuid_limit - 1000))%N.

Lemma demo_uuid4_lt n : (demo_uuid4 n < uuid_limit)%N.
Proof.
  unfold demo_uuid4. pose proof (N.mod_lt (N.of_nat n) (uuid_limit - 1000) ltac:(done)) as H.
  revert H. generalize (N.of_nat n mod (uuid_limit - 1000))%N. unfold uuid_limit. lia.
Qed.

(** A clock that advances by one microsecond per step. *)
Definition demo_now (n : nat) : Z := (1700000000000000 + Z.of_nat n)%Z.

Definition demo_env : Env := {|
  env_uuid4 := demo_uuid4; env_uuid4_lt := demo_uuid4_lt; env_now := demo_now;
  env_fault _ := None; env_vault_fault _ := None;
  bind_uuid := demo_uuid_in; bind_uuid_str := demo_uuid_in_str;
  bind_uuid_lt s u H := proj2 (demo_uuid_in_inv s u H);
  bind_uuid_UUID s u H := proj1 (demo_uuid_in_inv s u H);
  pg_uuid_in := demo_uuid_in; pg_uuid_in_str := demo_uuid_in_str;
  jsonb j := j; jsonb_wf j H := H; jsonb_same j _ := eq_refl; jsonb_as_text := false;
  bind_jsonb j := Some j; env_fold c := c;
  env_time n := QArith_base.inject_Z (1700000000 + Z.of_nat n);
  env_zone name := if String.eqb name "UTC" then Some (fun _ => 0%Z) else None;
  env_var name := if String.eqb name "MINTKEY_BROKER_SERVICE_TOKEN" then Some "broker-token" else None;
  env_http _ := Ok (200%Z, Some (JObj [("token", JStr "jwt"); ("expires_at", JInt 1700000600)]));
  env_token_bytes n := N.modulo (N.of_nat n) (2 ^ 256); env_token_bytes_lt n := N.mod_lt _ (2 ^ 256) ltac:(discriminate);
  env_monotonic n := QArith_base.inject_Z (Z.of_nat n); env_local t := t; env_admin_settings := None;
  env_token_urlsafe n k := "urlsafe"; env_file path := None;
  env_backend _ := Ok (200%Z, "pong", Some "text/plain");
  httpx_text body _ := body; env_mint _ _ _ := None; env_getaddrinfo _ _ := Ok ["93.184.216.34"]; env_ssh_key _ := true; env_ssh _ := Ok "";
  env_fetch _ := Ok (Fetched 200 [] "" "" (Some (JObj []))) |}.

Definition demo_vault : Vault := Adapter.adapter demo_uuid_in demo_uuid_in_str.

#[local] Existing Instance demo_env.
#[local] Existing Instance demo_vault.
#[local] Existing Instance toy_sha256.

Lemma demo_no_faults : no_faults.
Proof. done. Qed.

Definition demo_agent (id : uuid) (name : string) : agent_row :=
  AgentRow id 1 name None "hash" "fingerprint" None "active" None 1700000000000000 1700000000000000 None 1 None None.

(** Tenant 1 with an operator, three agents, a service, a grant and two secrets, one of them
    shared, and a platform administrator of tenant 0. *)
Definition demo_db : db :=
  let now := 1700000000000000%Z in
  {| tenants := [TenantRow 0 "system" "System" "shared" "active" (JObj []) now now;
                 TenantRow 1 "acme" "Acme" "shared" "active" (JObj []) now now];
     operators := [OperatorRow 2 1 "op@acme" None (Some "argon2:secret") None None false "active" now;
                   OperatorRow 3 0 "admin@mintkey" None None (Some "sub-3") None true "active" now];
     sessions := [SessionRow 4 1 2 (now + 8 * us_per_hour) (Some "oidc"); SessionRow 5 0 3 (now + 8 * us_per_hour) None];
     agents := [demo_agent 6 "alpha"; demo_agent 7 "beta"; demo_agent 171 "gamma"];
     services := [ServiceRow 8 1 "Petstore" "petstore" None None "https://petstore.example" "header_key" None "active" None now now 1 None];
     permission_grants := [GrantRow 9 1 6 8 "read" (JObj []) now 2];
     audit_events := [];
     audit_chain_state := [ChainRow 1 None (Some (sha256 (utf8 (GENESIS_PREFIX +:+ uuid_str 1))))];
     email_services := []; email_permission_grants := [];
     agent_secrets := [SecretRow 10 1 6 "api-key" None 5 1 None now now;
                       SecretRow 11 1 171 "token" None 1 1 None now now];
     agent_secret_grants := [SecretGrantRow 12 1 10 7 2 now]; budget_counters := [];
     service_api_keys := []; operator_tenant_memberships := [MembershipRow 2 1 "Admin" now]; tenant_settings := [];
     oidc_login_state := []; credentials := [];
     vault_credentials := [VaultRow 1 8 1 3 "s3cret" true false "https://petstore.example" "" "" "" ""];
     oauth2_state := []; oauth2_client_configs := [] |}.

Definition demo_world : world :=
  World demo_vault demo_db demo_db TxDone None false [] [] (<[10%N := (1%N, "hello")]> (<[11%N := (1%N, "x")]> ∅)) 0 empty_process.

(** ** Running a handler in a witness *)

(** The outcome is a value that satisfies [p]. *)
Definition returns {A} (p : A -> bool) (o : outcome A) : bool :=
  match o with Ok a => p a | Raise _ => false end.

Lemma run_returns {A} (m : M A) (p : A -> bool) w :
  returns p (fst (m w)) = true -> exists a, p a = true /\ m w = (Ok a, snd (m w)).
Proof.
  destruct (m w) as [[a|e] w']; cbn [fst snd returns]; [|discriminate]. intros H. by exists a.
Qed.

Lemma run_value {A} (m : M A) a w : fst (m w) = Ok a -> m w = (Ok a, snd (m w)).
Proof. destruct (m w) as [o w']; cbn [fst snd]. by intros ->. Qed.
