(* ===== verification/Keys.v ===== *)
(** * Secret keys (agents.py, api_keys.py, internal.py)

    The plaintext of a key is a prefix and 256 random bits in Crockford base
    32; the database keeps its Argon2id hash and the first eight bytes of its
    SHA-256.  Argon2 is a parameter: a salted hash and a verify that never
    rejects the text that was hashed. *)

From S2P Require Import Prelude PyStr PyJson PyTime WireIds AuditHash Vault Tables Database Logic.

Local Open Scope string_scope.
Local Open Scope py_scope.

(** [argon2.PasswordHasher(...)]: the library's parameters, or the ones given. *)
Inductive argon2_params := DefaultParams | Params (time_cost memory_cost parallelism hash_len : Z).

(** [ph.verify(hash, secret)]: it returns, raises [VerificationError], raises [InvalidHashError], or
    breaks down. *)
Inductive verdict := Verified | Rejected | InvalidHash | Unavailable.

#[global] Instance verdict_eq_dec : EqDecision verdict.
Proof. solve_decision. Defined.

(** The first argument of both stands for what the call draws: the salt, the memory it is given. *)
Class Argon2 := {
  argon2_hash : argon2_params -> nat -> string -> string;
  argon2_verify : nat -> string -> string -> verdict;
  argon2_verify_hash : forall p n m s, argon2_verify m (argon2_hash p n s) s = Verified \/ argon2_verify m (argon2_hash p n s) s = Unavailable }.

(** [hashlib.sha256(plaintext.encode()).digest()[:8].hex()] *)
Definition _fingerprint `{Sha256} (plaintext : string) : string := hex_bytes (py_take 8 (sha256 (utf8 plaintext))).

Section Keys.
Context `{E : Env} `{V : Vault} `{Arg : Argon2}.

Definition ph_hash (p : argon2_params) (s : string) : M string := fun w => (Ok (argon2_hash p (w_tick w) s), tick w).
Definition ph_verify (h s : string) : M verdict := fun w =>
  (Ok (argon2_verify (w_tick w) h s), set_proc (count_verify (w_proc w)) (tick w)).

(** 52 characters of five bits hold the 256 random bits. *)
Definition random_key (prefix : string) : M string :=
  let! val := token_bytes in ret (prefix +:+ crockford 52 val).

(** [now()] in SQL is the start of the transaction; a handler reads it when it begins. *)
Definition transaction_timestamp : M Z := now_utc.

(** A [datetime] bound to a TIMESTAMPTZ: a naive one is a wall clock in the local zone. *)
Definition timestamptz (d : datetime) : Z :=
  match dt_offset d with Some _ => dt_instant d | None => env_local (dt_instant d) end.

(** A text stored in a VARCHAR(n). *)
Definition varchar (n : nat) (s : string) : M unit :=
  if (py_len s <=? n)%nat then ret tt else execute (fun _ => Raise (DBError "value too long for type character varying")).

(** ** Rules *)

Lemma ph_hash_eff p s w h w' : ph_hash p s w = (Ok h, w') ->
  kept w w' /\ w_vault w' = w_vault w /\ w_db w' = w_db w /\ h = argon2_hash p (w_tick w) s.
Proof. by intros [= <- <-]. Qed.
Lemma ph_verify_eff h s w v w' : ph_verify h s w = (Ok v, w') ->
  kept w w' /\ w_vault w' = w_vault w /\ w_db w' = w_db w /\ v = argon2_verify (w_tick w) h s.
Proof. by intros [= <- <-]. Qed.

Lemma random_key_eff prefix w k w' : random_key prefix w = (Ok k, w') ->
  kept w w' /\ w_vault w' = w_vault w /\ w_db w' = w_db w /\
  exists val, (val < 2 ^ 256)%N /\ k = prefix +:+ crockford 52 val.
Proof.
  intros H. unfold random_key in H. step H as val w1 Hr. apply token_bytes_eff in Hr as (K & Ev & Ed & Hv).
  apply ret_Ok in H as [-> ->]. do 3 (split; [done|]). by exists val.
Qed.

Lemma reads_ph_hash p s : reads (ph_hash p s).
Proof. apply reads_pure. intros w. eexists; by right. Qed.
Lemma reads_ph_verify h s : reads (ph_verify h s).
Proof. split; [by intros w e w'|]. by intros w a w' [= <- <-]. Qed.
Lemma reads_random_key prefix : reads (random_key prefix).
Proof. apply reads_bind; [apply reads_token_bytes|intros ?]. apply reads_ret. Qed.

Lemma respects_varchar (R : relation db) `{!PreOrder R} G n s : respects R G (varchar n s).
Proof. unfold varchar. destruct (_ <=? _)%nat; [apply respects_ret|]. apply respects_execute; [apply _|]. by intros w a w' _ H. Qed.
Lemma respects_ph_hash (R : relation db) `{!PreOrder R} G p s : respects R G (ph_hash p s).
Proof. by intros d0 w. Qed.
Lemma respects_ph_verify (R : relation db) `{!PreOrder R} G h s : respects R G (ph_verify h s).
Proof. by intros d0 w. Qed.
Lemma respects_random_key (R : relation db) `{!PreOrder R} G prefix : respects R G (random_key prefix).
Proof. apply respects_bind; [apply respects_token_bytes|intros ?]. apply respects_ret. Qed.

Lemma varchar_eff n s w u w' : varchar n s w = (Ok u, w') -> w' = w.
Proof.
  unfold varchar. destruct (_ <=? _)%nat; [by intros [= <- <-]|]. intros H. by apply execute_Ok in H as [_ H].
Qed.

(** Two draws give the same key only if they drew the same bits. *)
Lemma random_key_inj prefix a b : (a < 2 ^ 256)%N -> (b < 2 ^ 256)%N ->
  prefix +:+ crockford 52 a = prefix +:+ crockford 52 b -> a = b.
Proof.
  intros Ha Hb H. assert (Hc : crockford 52 a = crockford 52 b).
  { rewrite <- (py_drop_app prefix (crockford 52 a)), <- (py_drop_app prefix (crockford 52 b)). by rewrite H. }
  assert (E1 : Ok (a mod 2 ^ (5 * N.of_nat 52))%N = Ok (b mod 2 ^ (5 * N.of_nat 52))%N) by (by rewrite <- !crockford_decode, Hc).
  apply Ok_inj in E1. rewrite !N.mod_small in E1; [done|..];
    (eapply N.lt_trans; [eassumption|]; apply N.pow_lt_mono_r; lia).
Qed.
End Keys.

#[export] Hint Resolve respects_varchar respects_ph_hash respects_ph_verify respects_random_key : respects.

(** ** A concrete hasher *)

Definition demo_argon2 : Argon2.
Proof.
  refine {| argon2_hash p n s := "argon2:" +:+ s;
            argon2_verify n h s := if String.eqb h ("argon2:" +:+ s) then Verified else Rejected |}.
  intros p n m s. left. by rewrite String.eqb_refl.
Defined.
