(* ===== verification/EmitLimiter.v ===== *)
(** * The rate limiter of the audit ingress (admin_api/services/audit_emit_rate_limiter.py)

    One token bucket per service token, its capacity and its refill rate
    both the configured number of requests per second.  The arithmetic is in
    floats, so the bound on the admitted requests carries their rounding
    errors. *)

From Stdlib Require Import QArith Lqa.
From S2P Require Import Prelude PyStr PyJson PyTime PyFloat WireIds Vault Tables Database Logic PublicUrls Demo.

Local Open Scope string_scope.
Local Open Scope py_scope.

Section Limiter.
Context `{E : Env} `{V : Vault}.

Definition _rps_from_env : Z :=
  let raw := getenv "MINTKEY_AUDIT_EMIT_RATE_LIMIT_RPS" "100" in
  Z.max 0 (default 100%Z (py_int10 raw)).

(** A bucket: [tokens], [_last_refill]. *)
Definition bucket : Type := Q * Q.

(** [_refill] at the reading [now] of the clock. *)
Definition _refill (capacity rate now : Q) (b : bucket) : bucket :=
  let '(tokens, last_refill) := b in
  let elapsed := float_sub now last_refill in
  let gain := float_mul elapsed rate in
  let sum := rnd (tokens + gain)%Q in
  (if Qle_bool capacity sum then capacity else sum, now).

(** [_TokenBucket.try_acquire] *)
Definition acquire (capacity rate now : Q) (b : bucket) : bool * bucket :=
  let '(tokens, last_refill) := _refill capacity rate now b in
  if Qle_bool 1 tokens then (true, (float_sub tokens 1, last_refill)) else (false, (tokens, last_refill)).

Definition set_bucket (token : string) (b : bucket) : M unit := fun w =>
  (Ok tt, set_proc (set_buckets (<[token := b]> (p_buckets (w_proc w))) (w_proc w)) w).
Definition buckets_of : M (gmap string (Q * Q)) := fun w => (Ok (p_buckets (w_proc w)), w).

Definition _get_bucket (rps : Z) (token : string) : M (Q * bucket) :=
  let! capacity := lift (float_of_int rps) in
  let! bs := buckets_of in
  match bs !! token with
  | Some b => ret (capacity, b)
  | None =>
      let! now := monotonic in
      do! set_bucket token (capacity, now) in
      ret (capacity, (capacity, now))
  end.

(** [AuditEmitRateLimiter.try_acquire] of the module's instance *)
Definition try_acquire (token : string) : M bool :=
  let rps := _rps_from_env in
  if (rps =? 0)%Z then ret true
  else
    let! cb := _get_bucket rps token in
    let '(capacity, b) := cb in
    let! now := monotonic in
    let '(allowed, b') := acquire capacity capacity now b in
    do! set_bucket token b' in
    ret allowed.

(** Successive requests of service tokens, and which were admitted. *)
Fixpoint serve (tokens : list string) : M (list bool) :=
  match tokens with
  | [] => ret []
  | token :: tokens => let! a := try_acquire token in let! l := serve tokens in ret (a :: l)
  end.
End Limiter.

(** ** One bucket *)

Section Bucket.
Local Open Scope Q_scope.
Context (c start : Q) (Hc : 0 <= c).

(** The tokens are never negative, and the last refill is not in the future. *)
Definition bucket_ok (now : Q) (b : bucket) : Prop := 0 <= fst b /\ snd b <= now.

(** The error of a call: two roundings of at most the capacity. *)
Definition call_error : Q := c * (2 * eps).
(** The tokens that come in during [t] seconds, with the rounding of the gains. *)
Definition income (t : Q) : Q := t * (1 + eps) * c * (1 + eps).

(** After [n] calls since [start], of which [adm] were admitted. *)
Definition balance (n adm : Z) (b : bucket) : Prop :=
  (adm = 0%Z /\ snd b <= start) \/
  (start <= snd b /\ inject_Z adm + fst b <= c + income (snd b - start) + inject_Z n * call_error).

Lemma refill_ok now b : bucket_ok now b ->
  0 <= fst (_refill c c now b) /\ fst (_refill c c now b) <= c /\ snd (_refill c c now b) = now.
Proof.
  destruct b as [tok last]. unfold bucket_ok. cbn [fst snd]. intros (H0 & H2).
  unfold _refill. cbn [fst snd].
  assert (He : 0 <= float_sub now last) by (apply rnd_nonneg; lra).
  assert (Hg : 0 <= float_mul (float_sub now last) c) by (apply rnd_nonneg, Qmult_le_0_compat; lra).
  assert (Hs : 0 <= rnd (tok + float_mul (float_sub now last) c)) by (apply rnd_nonneg; lra).
  destruct (Qle_bool c _) eqn:Eb.
  - repeat split; lra.
  - assert (~ c <= rnd (tok + float_mul (float_sub now last) c)) by (intros C; apply Qle_bool_iff in C; congruence).
    repeat split; lra.
Qed.

(** What a refill adds. *)
Lemma refill_gain now b : bucket_ok now b ->
  fst (_refill c c now b) <= fst b + income (now - snd b) + c * eps.
Proof.
  destruct b as [tok last]. unfold bucket_ok. cbn [fst snd]. intros (H0 & H2). unfold _refill. cbn [fst snd].
  set (el := float_sub now last). set (g := float_mul el c).
  assert (E1 : el <= (now - last) + (now - last) * eps) by (apply rnd_upper; lra).
  assert (E0 : 0 <= el) by (apply rnd_nonneg; lra).
  assert (G1 : g <= el * c + el * c * eps) by (apply rnd_upper, Qmult_le_0_compat; lra).
  assert (Heps : 0 <= eps) by discriminate.
  assert (G : g <= income (now - last)).
  { eapply Qle_trans; [exact G1|]. unfold income.
    assert (el * c * (1 + eps) <= ((now - last) * (1 + eps)) * c * (1 + eps)).
    { apply Qmult_le_compat_r; [|lra]. apply Qmult_le_compat_r; [|done]. lra. }
    lra. }
  assert (G0 : 0 <= g) by (apply rnd_nonneg, Qmult_le_0_compat; lra).
  assert (S : rnd (tok + g) <= (tok + g) + (tok + g) * eps) by (apply rnd_upper; lra).
  assert (Hce : 0 <= c * eps) by (apply Qmult_le_0_compat; lra).
  destruct (Qlt_le_dec c (tok + g)) as [Hy|Hy].
  - destruct (Qle_bool c _) eqn:Eb; [lra|].
    assert (~ c <= rnd (tok + g)) by (intros C; apply Qle_bool_iff in C; congruence). lra.
  - assert ((tok + g) * eps <= c * eps) by (by apply Qmult_le_compat_r).
    destruct (Qle_bool c _) eqn:Eb; [apply Qle_bool_iff in Eb|]; lra.
Qed.

Lemma income_nonneg t : 0 <= t -> 0 <= income t.
Proof. intros H. unfold income. assert (0 <= eps) by discriminate. repeat apply Qmult_le_0_compat; lra. Qed.
Lemma income_split a b : income (a - start) + income (b - a) == income (b - start).
Proof. unfold income. ring. Qed.

Lemma acquire_balance n adm now b :
  (0 <= n)%Z -> start <= now -> bucket_ok now b -> balance n adm b ->
  let '(a, b') := acquire c c now b in
  bucket_ok now b' /\ balance (n + 1) (adm + if a then 1 else 0) b'.
Proof.
  intros Hn Hs Hok Hb. destruct (refill_ok now b Hok) as (R0 & R1 & R2). pose proof (refill_gain now b Hok) as Rg.
  unfold acquire. destruct (_refill c c now b) as [tok last]. cbn [fst snd] in *. subst last.
  assert (Hcall : c * eps + c * eps == call_error) by (unfold call_error; ring).
  assert (Hce : 0 <= c * eps) by (apply Qmult_le_0_compat; [done|discriminate]).
  assert (Hnc : 0 <= inject_Z n * call_error).
  { apply Qmult_le_0_compat; [change 0 with (inject_Z 0); by rewrite <- Zle_Qle|lra]. }
  assert (Hn1 : inject_Z (n + 1) * call_error == inject_Z n * call_error + call_error) by (rewrite inject_Z_plus; ring).
  pose proof (income_nonneg (now - start) ltac:(lra)) as Hi.
  (* the balance before the token is taken *)
  assert (Hpre : inject_Z adm + tok <= c + income (now - start) + inject_Z n * call_error + c * eps).
  { destruct Hb as [[-> Hl]|[Hl Hb]]; [change (inject_Z 0) with 0; lra|]. pose proof (income_split (snd b) now). lra. }
  destruct (Qle_bool 1 tok) eqn:E1.
  - apply Qle_bool_iff in E1. assert (T0 : 0 <= float_sub tok 1) by (apply rnd_nonneg; lra).
    assert (T1 : float_sub tok 1 <= (tok - 1) + (tok - 1) * eps) by (apply rnd_upper; lra).
    assert ((tok - 1) * eps <= c * eps) by (apply Qmult_le_compat_r; [lra|discriminate]).
    split; [split; cbn [fst snd]; lra|]. right. cbn [fst snd]. split; [done|].
    rewrite inject_Z_plus. change (inject_Z 1) with 1. lra.
  - split; [split; cbn [fst snd]; lra|]. right. cbn [fst snd]. split; [done|]. rewrite Z.add_0_r. lra.
Qed.

(** A token after a second: the bucket admits again. *)
Lemma acquire_recovers now b : 1 <= c -> bucket_ok now b -> snd b + 1 <= now -> fst (acquire c c now b) = true.
Proof.
  destruct b as [tok last]. unfold bucket_ok. cbn [fst snd]. intros H1 (H0 & H2) Hnow. unfold acquire, _refill.
  assert (E1 : 1 <= float_sub now last) by (change 1 with (rnd 1); apply rnd_mono; lra).
  assert (E2 : 1 <= float_mul (float_sub now last) c).
  { change 1 with (rnd 1) at 1. apply rnd_mono. assert (1 * 1 <= float_sub now last * c) by (apply Qmult_le_compat_nonneg; lra). lra. }
  assert (E3 : 1 <= rnd (tok + float_mul (float_sub now last) c)).
  { change 1 with (rnd 1) at 1. apply rnd_mono. lra. }
  destruct (Qle_bool c _); [apply Qle_bool_iff in H1; by rewrite H1|]. apply Qle_bool_iff in E3. by rewrite E3.
Qed.
End Bucket.

(** ** The limiter *)

(** The calls of a token, and those that were admitted. *)
Fixpoint calls_of (k : string) (tokens : list string) : Z :=
  match tokens with
  | [] => 0
  | token :: tokens => (if String.eqb token k then 1 else 0) + calls_of k tokens
  end.
Fixpoint admitted_of (k : string) (tokens : list string) (answers : list bool) : Z :=
  match tokens, answers with
  | token :: tokens, a :: answers => (if String.eqb token k && a then 1 else 0) + admitted_of k tokens answers
  | _, _ => 0
  end.

Section Bound.
Context `{E : Env} `{V : Vault}.
Local Open Scope Q_scope.

(** [time.monotonic()] does not go back. *)
Context (Hclock : forall m n : nat, (m <= n)%nat -> env_monotonic m <= env_monotonic n).
Definition clock (w : world) : Q := env_monotonic (w_tick w).

Definition limiter_ok (w : world) : Prop :=
  forall k b, p_buckets (w_proc w) !! k = Some b -> bucket_ok (clock w) b.

Context (c : Q) (Hrps : _rps_from_env <> 0%Z) (Hcap : float_of_int _rps_from_env = Ok c).

Lemma capacity_pos : 1 <= c.
Proof.
  revert Hcap. unfold float_of_int, as_float. destruct (Qle_bool _ _); [done|]. intros H. apply Ok_inj in H. subst c.
  change 1 with (rnd 1). apply rnd_mono. change 1 with (inject_Z 1). rewrite <- Zle_Qle. revert Hrps. unfold _rps_from_env. lia.
Qed.

#[local] Opaque acquire.

(** One call works on the bucket of its token. *)
Lemma try_acquire_run token w a w' : limiter_ok w -> try_acquire token w = (Ok a, w') ->
  (w_tick w <= w_tick w')%nat /\
  exists b now b', acquire c c now b = (a, b') /\ clock w <= now /\ now <= clock w' /\ bucket_ok now b /\
    match p_buckets (w_proc w) !! token with Some b0 => b = b0 | None => b = (c, clock w) end /\
    p_buckets (w_proc w') = <[token := b']> (p_buckets (w_proc w)).
Proof.
  intros Hok H. pose proof capacity_pos as Hc. unfold try_acquire in H.
  destruct (Z.eqb_spec _rps_from_env 0) as [Ez|_]; [done|]. unfold _get_bucket in H. rewrite Hcap in H.
  unfold bind, lift, buckets_of in H. cbv beta iota in H.
  destruct (p_buckets (w_proc w) !! token) as [b|] eqn:Eb.
  - cbn in H. destruct (acquire c c (env_monotonic (w_tick w)) b) as [a' b'] eqn:Ea. injection H as <- <-. cbn.
    split; [lia|]. exists b, (clock w), b'. unfold clock. cbn. split; [done|]. split; [apply Qle_refl|].
    split; [apply Hclock; lia|]. by split; [apply (Hok token)|].
  - cbn in H. destruct (acquire c c (env_monotonic (S (w_tick w))) (c, env_monotonic (w_tick w))) as [a' b'] eqn:Ea. injection H as <- <-. cbn.
    split; [lia|]. exists (c, clock w), (env_monotonic (S (w_tick w))), b'. unfold clock. cbn. split; [done|].
    split; [apply Hclock; lia|]. split; [apply Hclock; lia|].
    split; [split; cbn [fst snd]; [lra|apply Hclock; lia]|]. split; [done|]. by rewrite insert_insert_eq.
Qed.

(** The account of the token [k]. *)
Definition account (k : string) (start : Q) (n adm : Z) (w : world) : Prop :=
  match p_buckets (w_proc w) !! k with
  | None => adm = 0%Z
  | Some b => balance c start n adm b
  end.

Lemma try_acquire_account k start n adm token w a w' :
  (0 <= n)%Z -> start <= clock w -> limiter_ok w -> account k start n adm w -> try_acquire token w = (Ok a, w') ->
  (w_tick w <= w_tick w')%nat /\ limiter_ok w' /\
  account k start (n + if String.eqb token k then 1 else 0) (adm + if String.eqb token k && a then 1 else 0) w'.
Proof.
  intros Hn Hs Hok Hacc H. destruct (try_acquire_run token w a w' Hok H) as (Hle & b & now & b' & Ea & T1 & T2 & Hb & Eb & Ew).
  split; [done|]. pose proof capacity_pos as Hc.
  assert (Hb' : bucket_ok now b' /\
    (token = k -> balance c start (n + 1) (adm + if a then 1 else 0) b')).
  { pose proof (acquire_balance c now ltac:(lra) 0 0 now b ltac:(lia) ltac:(lra) Hb) as H1.
    rewrite Ea in H1. split; [apply H1; left; split; [done|apply Hb]|]. intros ->. unfold account in Hacc.
    assert (Hbal : balance c start n adm b).
    { destruct (p_buckets (w_proc w) !! k) as [b0|]; [by subst b|]. subst b adm.
      right. cbn [snd fst]. split; [done|]. pose proof (income_nonneg c ltac:(lra) (clock w - start) ltac:(lra)).
      assert (0 <= inject_Z n * call_error c).
      { apply Qmult_le_0_compat; [change 0 with (inject_Z 0); by rewrite <- Zle_Qle|].
        apply Qmult_le_0_compat; [lra|discriminate]. }
      change (inject_Z 0) with 0. lra. }
    pose proof (acquire_balance c start ltac:(lra) n adm now b Hn ltac:(lra) Hb Hbal) as H2.
    rewrite Ea in H2. apply H2. }
  destruct Hb' as [Hb1 Hb2]. split.
  - intros k' x. rewrite Ew. destruct (decide (token = k')) as [->|Hne].
    + rewrite lookup_insert_eq. intros [= <-]. destruct Hb1. split; [done|lra].
    + rewrite lookup_insert_ne by done. intros Hx. destruct (Hok k' x Hx) as [X1 X2]. split; [done|].
      pose proof (Hclock (w_tick w) (w_tick w') Hle). unfold clock in *. lra.
  - unfold account in *. rewrite Ew. destruct (String.eqb_spec token k) as [->|Hne].
    + rewrite lookup_insert_eq. cbn [andb]. by apply Hb2.
    + rewrite lookup_insert_ne by done. cbn [andb]. by rewrite !Z.add_0_r.
Qed.

Lemma serve_account k start tokens : forall n adm w bs w',
  (0 <= n)%Z -> start <= clock w -> limiter_ok w -> account k start n adm w -> serve tokens w = (Ok bs, w') ->
  (w_tick w <= w_tick w')%nat /\ limiter_ok w' /\ account k start (n + calls_of k tokens) (adm + admitted_of k tokens bs) w'.
Proof.
  induction tokens as [|token tokens IH]; intros n adm w bs w' Hn Hs Hok Hacc H; cbn [serve] in H.
  - apply ret_Ok in H as [-> ->]. cbn. by rewrite !Z.add_0_r.
  - step H as a w1 Ha. step H as l w2 Hl. apply ret_Ok in H as [-> ->].
    destruct (try_acquire_account k start n adm token w a w1 Hn Hs Hok Hacc Ha) as (L1 & O1 & A1).
    pose proof (Hclock (w_tick w) (w_tick w1) L1) as Hc1.
    assert (Hs1 : start <= clock w1) by (unfold clock in *; lra).
    assert (Hn1 : (0 <= n + if String.eqb token k then 1 else 0)%Z) by (destruct (String.eqb token k); lia).
    destruct (IH _ _ _ _ _ Hn1 Hs1 O1 A1 Hl) as (L2 & O2 & A2).
    split; [lia|]. split; [done|]. cbn [calls_of admitted_of]. by rewrite !Z.add_assoc.
Qed.

(** C39: The audit ingress admits a service token at the configured rate.  Over any sequence of requests, of
    this token and of others interleaved, while the clock does not go back, the number of requests
    of one token that are admitted is at most the capacity plus the capacity times the elapsed
    seconds, up to the rounding of floats: a relative error of [eps = 2^-53] for each of the two
    roundings of the income, and of twice [eps] of the capacity for each request. *)
Theorem emit_rate_bound k tokens w bs w' :
  limiter_ok w -> serve tokens w = (Ok bs, w') ->
  inject_Z (admitted_of k tokens bs) <=
    c + (clock w' - clock w) * (1 + eps) * c * (1 + eps) + inject_Z (calls_of k tokens) * (c * (2 * eps)).
Proof.
  intros Hok H. pose proof capacity_pos as Hc.
  assert (Hacc : account k (clock w) 0 0 w).
  { unfold account. destruct (p_buckets (w_proc w) !! k) as [b|] eqn:Eb; [|done]. left. split; [done|]. by apply (Hok k). }
  destruct (serve_account k (clock w) tokens 0 0 w bs w' ltac:(lia) (Qle_refl _) Hok Hacc H) as (L & O & A).
  pose proof (Hclock _ _ L) as Hle. rewrite !Z.add_0_l in A.
  assert (Hcalls : (0 <= calls_of k tokens)%Z).
  { clear. induction tokens as [|t l IH]; cbn [calls_of]; [done|]. destruct (String.eqb t k); lia. }
  assert (Hce : 0 <= inject_Z (calls_of k tokens) * (c * (2 * eps))).
  { apply Qmult_le_0_compat; [change 0 with (inject_Z 0); by rewrite <- Zle_Qle|].
    apply Qmult_le_0_compat; [lra|discriminate]. }
  pose proof (income_nonneg c ltac:(lra) (clock w' - clock w) ltac:(unfold clock; lra)) as Hi. unfold income in Hi.
  unfold account in A. destruct (p_buckets (w_proc w') !! k) as [b|] eqn:Eb.
  2: { rewrite A. change (inject_Z 0) with 0. lra. }
  destruct (O k b Eb) as [B0 B1]. destruct A as [[-> _]|[A1 A2]]; [change (inject_Z 0) with 0; lra|].
  pose proof (income_nonneg c ltac:(lra) (clock w' - snd b) ltac:(lra)) as Hr.
  pose proof (income_split c (clock w) (snd b) (clock w')) as Hsp. unfold call_error in A2.
  change ((clock w' - clock w) * (1 + eps) * c * (1 + eps)) with (income c (clock w' - clock w)). lra.
Qed.
End Bound.

Section Witnesses.
#[local] Existing Instance demo_env.
#[local] Existing Instance demo_vault.

Lemma emit_rate_bound_witness :
  (inject_Z (admitted_of "a" ["a"; "b"; "a"] [true; true; true]) <=
    100 + (clock (snd (serve ["a"; "b"; "a"] demo_world)) - clock demo_world) * (1 + eps) * 100 * (1 + eps)
        + inject_Z (calls_of "a" ["a"; "b"; "a"]) * (100 * (2 * eps)))%Q.
Proof.
  apply emit_rate_bound.
  - intros m n H. unfold env_monotonic, demo_env. rewrite <- Zle_Qle. lia.
  - discriminate.
  - reflexivity.
  - intros k b H. cbn [demo_world empty_process w_proc p_buckets] in H. by rewrite lookup_empty in H.
  - apply run_value. vm_compute. reflexivity.
Defined.
End Witnesses.
