(* ===== verification/Sessions.v ===== *)
(** * Operator sessions (admin_api/auth/sessions.py)

    Server-side sessions and the FastAPI dependencies that authorise a
    request.  Each function opens a transaction of its own; the policy of
    [sessions] and [operators] is lifted with [app.platform_admin_view]. *)

From S2P Require Import Prelude PyStr PyJson PyJsonFacts PyTime WireIds Vault Tables Database Logic AuditHash Demo.

Local Open Scope string_scope.
Local Open Scope py_scope.

(** The namespace [_Ctx]. *)
Record session_ctx := SessionCtx { ctx_operator_id : uuid; ctx_tenant_id : uuid }.

#[global] Instance session_ctx_eq_dec : EqDecision session_ctx.
Proof. solve_decision. Defined.

Definition nil_uuid_text : string := "00000000-0000-0000-0000-000000000000".

Section Sessions.
Context `{E : Env} `{V : Vault}.

Definition unauthenticated (title : string) : exn := HTTPException 401 "unauthenticated" title.

(** [row.one_or_none()] *)
Definition one_or_none {R} (rows : list R) : outcome (option R) :=
  match rows with
  | [] => Ok None
  | [r] => Ok (Some r)
  | _ => Raise (RuntimeError "MultipleResultsFound")
  end.

(** [CAST(:p AS uuid)] *)
Definition cast_uuid (s : string) : M uuid :=
  match pg_uuid_in s with
  | Some u => ret u
  | None => execute (fun _ => Raise (DBError "invalid input syntax for type uuid"))
  end.

Definition create_session (operator_id tenant_id : uuid) (auth_method : string) : M string :=
  let! session_id := uuid4 in
  let! now := now_utc in
  let expires_at := (now + 8 * us_per_hour)%Z in
  do! transaction (
    do! set_tenant_context (uuid_str tenant_id) false in
    insert_into sessions_t (SessionRow session_id tenant_id operator_id expires_at (Some auth_method))) in
  ret (uuid_str session_id).

Definition validate_session (token : string) : M (option session_ctx) :=
  match UUID token with
  | Raise _ => ret None
  | Ok _ =>
      let! result := transaction (
        do! set_config_tenant nil_uuid_text in
        do! set_config_admin_view in
        let! now := now_utc in
        let! id := cast_uuid token in
        let! row := select sessions_t (fun r => N.eqb (ss_id r) id && Z.ltb now (ss_expires_at r)) in
        lift (one_or_none row)) in
      ret ((fun r => SessionCtx (ss_operator_id r) (ss_tenant_id r)) <$> result)
  end.

Definition _is_operator_platform_admin (operator_id : uuid) : M bool :=
  let! result := transaction (
    do! execute (fun w => Ok (tt, set_guc (Some nil_uuid_text) true w)) in
    let! id := cast_uuid (uuid_str operator_id) in
    let! row := select operators_t (fun r => N.eqb (o_id r) id) in
    lift (one_or_none row)) in
  ret (match result with Some r => o_is_platform_admin r | None => false end).

(** [request.cookies.get("mintkey_session")] is falsy when absent or empty. *)
Definition session_token (cookie : option string) : option string :=
  match cookie with Some "" => None | c => c end.

Definition require_platform_admin_session (cookie : option string) : M unit :=
  match session_token cookie with
  | None => raise (unauthenticated "No session")
  | Some token =>
      let! ctx := validate_session token in
      match ctx with
      | None => raise (unauthenticated "Session not found or expired")
      | Some ctx =>
          let! admin := _is_operator_platform_admin (ctx_operator_id ctx) in
          if admin then ret tt
          else raise (HTTPException 403 "permission_denied" "Platform admin access required")
      end
  end.

Definition get_session_context (cookie : option string) : M (option session_ctx) :=
  match session_token cookie with
  | None => ret None
  | Some token => validate_session token
  end.

Definition require_tenant_session (cookie : option string) (tenant_id : uuid) : M unit :=
  match session_token cookie with
  | None => raise (unauthenticated "No session")
  | Some token =>
      let! ctx := validate_session token in
      match ctx with
      | None => raise (unauthenticated "Session not found or expired")
      | Some ctx =>
          let! admin := _is_operator_platform_admin (ctx_operator_id ctx) in
          if admin : bool then ret tt
          else if N.eqb (ctx_tenant_id ctx) tenant_id then ret tt
          else raise (HTTPException 403 "permission_denied" "Session tenant does not match the requested tenant")
      end
  end.

Definition delete_session (token : string) : M bool :=
  match UUID token with
  | Raise _ => ret false
  | Ok _ =>
      let! rowcount := transaction (
        do! set_config_tenant nil_uuid_text in
        do! set_config_admin_view in
        let! id := cast_uuid token in
        delete_from sessions_t (fun r => N.eqb (ss_id r) id)) in
      ret (0 <? rowcount)%nat
  end.

(** ** What the functions return *)

(** The unexpired session a token names. *)
Definition live_session (d : db) (now : Z) (id : uuid) : option session_row :=
  List.find (fun r => N.eqb (ss_id r) id && Z.ltb now (ss_expires_at r)) (sessions d).

Definition operator_of (d : db) (id : uuid) : option operator_row :=
  List.find (fun r => N.eqb (o_id r) id) (operators d).

Lemma filter_unique {A} (f : A -> bool) (key : A -> uuid) id l :
  List.NoDup (map key l) -> (forall x, f x = true -> key x = id) ->
  one_or_none (List.filter f l) = Ok (List.find f l).
Proof.
  intros Hn Hf. induction l as [|a l IH]; [done|]. cbn [map] in Hn.
  apply List.NoDup_cons_iff in Hn as [Hni Hn]. cbn [List.filter List.find].
  destruct (f a) eqn:Ea; [|by apply IH].
  rewrite filter_none; [done|]. intros x Hx. destruct (f x) eqn:Ex; [|done].
  destruct Hni. rewrite (Hf a Ea), <- (Hf x Ex). by apply in_map.
Qed.

Context (Hnf : no_faults).
Context (pg_nil : pg_uuid_in nil_uuid_text = Some 0%N).

(** The instant the query of a transaction started at [w] compares with. *)
Definition session_now (w : world) : Z := env_now (3 + w_tick w).

Lemma validate_session_run token w :
  List.NoDup (map ss_id (sessions (w_base w))) ->
  exists w', w_base w' = w_base w /\ w_vault w' = w_vault w /\ w_sent w' = w_sent w /\
  validate_session token w =
    (match UUID token with
     | Raise _ => Ok None
     | Ok _ => match pg_uuid_in token with
               | None => Raise (DBError "invalid input syntax for type uuid")
               | Some id => Ok ((fun r => SessionCtx (ss_operator_id r) (ss_tenant_id r))
                                  <$> live_session (w_base w) (session_now w) id)
               end
     end, w').
Proof.
  intros Hn. unfold validate_session. destruct (UUID token) as [u|e].
  2: { exists w. done. }
  unfold bind at 1. unfold transaction.
  erewrite bind_run; [|by apply set_config_run].
  erewrite bind_run; [|by apply admin_view_run].
  erewrite bind_run; [|reflexivity].
  unfold cast_uuid. destruct (pg_uuid_in token) as [id|].
  - rewrite bind_ret. unfold bind. erewrite select_run; [|done|done|]; [|unfold policy; cbn; by rewrite pg_nil].
    cbn [w_tx tick set_guc begin]. unfold lift.
    set (f := fun r : session_row => _).
    assert (Ef : forall l, List.filter f l =
      List.filter (fun r => N.eqb (ss_id r) id && Z.ltb (session_now w) (ss_expires_at r)) l).
    { intros l. apply filter_ext. intros r. unfold f. cbn. by rewrite orb_true_r. }
    rewrite Ef. cbn [tb_get sessions_t w_db tick set_guc begin].
    rewrite (filter_unique _ ss_id id) by (try exact Hn; intros r Hr; apply andb_true_iff in Hr as [Hr _]; by apply N.eqb_eq).
    cbn [w_tx tick set_guc begin]. rewrite commit_run by done.
    refine (ex_intro _ _ (conj _ (conj _ (conj _ eq_refl)))); first [reflexivity | apply app_nil_r].
  - unfold bind at 1. unfold execute. cbn [w_tx tick set_guc begin]. rewrite Hnf.
    refine (ex_intro _ _ (conj _ (conj _ (conj _ eq_refl)))); first [reflexivity | apply app_nil_r].
Qed.
Lemma is_platform_admin_run op w :
  (op < uuid_limit)%N -> List.NoDup (map o_id (operators (w_base w))) ->
  exists w', w_base w' = w_base w /\ w_vault w' = w_vault w /\ w_sent w' = w_sent w /\
  _is_operator_platform_admin op w =
    (Ok (match operator_of (w_base w) op with Some r => o_is_platform_admin r | None => false end), w').
Proof.
  intros Hop Hn. unfold _is_operator_platform_admin. unfold bind at 1. unfold transaction.
  erewrite bind_run; [|by apply execute_run].
  unfold cast_uuid. rewrite (pg_uuid_in_str _ Hop), bind_ret.
  unfold bind. erewrite select_run; [|done|done|]; [|unfold policy; cbn; by rewrite pg_nil].
  cbn [w_tx tick set_guc begin]. unfold lift.
  set (f := fun r : operator_row => _).
  assert (Ef : forall l, List.filter f l = List.filter (fun r => N.eqb (o_id r) op) l).
  { intros l. apply filter_ext. intros r. unfold f. cbn. by rewrite orb_true_r. }
  rewrite Ef. cbn [tb_get operators_t w_db tick set_guc begin].
  rewrite (filter_unique _ o_id op) by (try exact Hn; intros r Hr; by apply N.eqb_eq).
  cbn [w_tx tick set_guc begin]. rewrite commit_run by done.
  refine (ex_intro _ _ (conj _ (conj _ (conj _ eq_refl)))); first [reflexivity | apply app_nil_r].
Qed.

(** The decision of the authorisation dependencies. *)
Definition may_access (d : db) (now : Z) (tenant_id : uuid) (token : string) : bool :=
  match UUID token, pg_uuid_in token with
  | Ok _, Some id =>
      match live_session d now id with
      | Some r =>
          match operator_of d (ss_operator_id r) with Some o => o_is_platform_admin o | None => false end
          || N.eqb (ss_tenant_id r) tenant_id
      | None => false
      end
  | _, _ => false
  end.

Definition is_platform_session (d : db) (now : Z) (token : string) : bool :=
  match UUID token, pg_uuid_in token with
  | Ok _, Some id =>
      match live_session d now id with
      | Some r => match operator_of d (ss_operator_id r) with Some o => o_is_platform_admin o | None => false end
      | None => false
      end
  | _, _ => false
  end.

Record sessions_wf (d : db) : Prop := {
  sw_sessions : List.NoDup (map ss_id (sessions d));
  sw_operators : List.NoDup (map o_id (operators d));
  sw_ids : forall r, In r (sessions d) -> (ss_operator_id r < uuid_limit)%N }.

(** The decision on the cookie of a request. *)
Definition cookie_allows (cookie : option string) (decision : string -> bool) : bool :=
  match session_token cookie with Some token => decision token | None => false end.

(** The common prefix of the dependencies: the cookie names a live session, whose operator [r]
    is looked up; otherwise the request is refused. *)
Ltac session_prefix cookie w Hs Hid :=
  destruct cookie as [[|ch rest]|];
  [by eexists _, _| |by eexists _, _];
  generalize (String ch rest); intros tok;
  let w1 := fresh "w1" in
  destruct (validate_session_run tok w Hs) as (w1 & E1 & V1 & _ & Ev);
  unfold bind at 1; rewrite Ev;
  destruct (UUID tok) as [u|e]; [|by eexists _, _];
  destruct (pg_uuid_in tok) as [id|]; [|by eexists _, _];
  destruct (live_session (w_base w) (session_now w) id) as [r|] eqn:El;
    cbn [fmap option_fmap option_map]; [|by eexists _, _];
  cbn [ctx_operator_id ctx_tenant_id]; apply List.find_some in El as [Hin _];
  destruct (is_platform_admin_run (ss_operator_id r) w1) as (w2 & F1 & V2 & _ & Ea);
    [by apply Hid|by rewrite E1|];
  unfold bind; rewrite Ea, E1; rewrite E1 in F1; rewrite V1 in V2.

Lemma require_tenant_session_run cookie t w :
  sessions_wf (w_base w) ->
  exists w' o, require_tenant_session cookie t w = (o, w') /\ w_base w' = w_base w /\ w_vault w' = w_vault w /\
    (o = Ok tt <-> cookie_allows cookie (may_access (w_base w) (session_now w) t) = true).
Proof.
  intros [Hs Ho Hid]. unfold require_tenant_session, cookie_allows, session_token, may_access.
  session_prefix cookie w Hs Hid.
  destruct (operator_of (w_base w) (ss_operator_id r)) as [o|]; [destruct (o_is_platform_admin o)|];
    cbn [orb]; try (by eexists _, _); destruct (N.eqb (ss_tenant_id r) t); by eexists _, _.
Qed.

Lemma require_platform_admin_run cookie w :
  sessions_wf (w_base w) ->
  exists w' o, require_platform_admin_session cookie w = (o, w') /\ w_base w' = w_base w /\ w_vault w' = w_vault w /\
    (o = Ok tt <-> cookie_allows cookie (is_platform_session (w_base w) (session_now w)) = true).
Proof.
  intros [Hs Ho Hid]. unfold require_platform_admin_session, cookie_allows, session_token, is_platform_session.
  session_prefix cookie w Hs Hid.
  destruct (operator_of (w_base w) (ss_operator_id r)) as [o|]; [destruct (o_is_platform_admin o)|]; by eexists _, _.
Qed.
(** ** The life of a session *)

Lemma create_session_Ok op t meth w tok w1 :
  create_session op t meth w = (Ok tok, w1) ->
  exists r, tok = uuid_str (ss_id r) /\ (ss_id r < uuid_limit)%N /\ ss_tenant_id r = t /\ ss_operator_id r = op /\
    ss_expires_at r = (env_now (S (w_tick w)) + 8 * us_per_hour)%Z /\
    ~ In (ss_id r) (map ss_id (sessions (w_base w))) /\
    w_base w1 = tb_set sessions_t (sessions (w_base w) ++ [r])%list (w_base w).
Proof.
  unfold create_session. intros H. run1 H. run1 Hr. subst a w0. run1 H. run1 Hr. subst a w0.
  run1 H. apply ret_Ok in H as [-> ->].
  apply transaction_Ok in Hr as (w2 & Hr & Hw). run1 Hr. apply set_tenant_Ok in Hr0 as [_ ->].
  apply insert_Ok in Hr as (pol & _ & _ & _ & Hc & ->). cbn [w_tx set_db tick set_guc begin] in Hw.
  eexists (SessionRow _ _ _ _ _). cbn [ss_id ss_tenant_id ss_operator_id ss_expires_at].
  split; [done|]. split; [apply env_uuid4_lt|]. do 3 (split; [done|]). split; [|by subst w0].
  cbn [tb_check sessions_t first_violation ss_id] in Hc.
  destruct (fresh ss_id _ _) eqn:Ef; [|done]. by apply fresh_spec in Ef.
Qed.

Lemma find_app_fresh {A} (key : A -> uuid) (f : A -> bool) l r :
  (forall x, f x = true -> key x = key r) -> ~ In (key r) (map key l) ->
  List.find f (l ++ [r])%list = if f r then Some r else None.
Proof.
  intros Hf Hni. induction l as [|a l IH]; [done|]. cbn [app List.find map In] in *.
  destruct (f a) eqn:Ea; [|tauto]. destruct Hni. left. by apply Hf.
Qed.

Lemma delete_session_run tok u w :
  UUID tok = Ok u -> pg_uuid_in tok = Some u ->
  exists w', w_base w' = tb_set sessions_t (List.filter (fun r => negb (N.eqb (ss_id r) u)) (sessions (w_base w))) (w_base w) /\
    delete_session tok w = (Ok (existsb (fun r => N.eqb (ss_id r) u) (sessions (w_base w))), w').
Proof.
  intros Hu Hp. unfold delete_session. rewrite Hu. unfold bind at 1, transaction.
  erewrite bind_run; [|by apply set_config_run].
  erewrite bind_run; [|by apply admin_view_run].
  unfold cast_uuid. rewrite Hp, bind_ret.
  unfold delete_from. erewrite execute_run; [|done|done|unfold policy; cbn; by rewrite pg_nil].
  cbn [w_tx tick set_guc begin set_db]. rewrite commit_run by done.
  refine (ex_intro _ _ (conj _ _)); [|unfold ret; apply (f_equal2 pair); [|reflexivity]].
  - cbn. unfold delete_db. cbn. f_equal. apply filter_ext. intros r. by rewrite orb_true_r.
  - f_equal. cbn. induction (sessions (w_base w)) as [|r l IH]; [done|]. cbn [List.filter existsb].
    rewrite orb_true_r. cbn [andb]. by destruct (N.eqb (ss_id r) u).
Qed.
End Sessions.

(** ** Properties *)

Section Properties.
Context `{E : Env} `{V : Vault}.

(** C13: what the authorisation dependencies decide.  Without database failures,
    [require_tenant_session] lets a request through exactly when its cookie names an unexpired
    session of that tenant or of a platform administrator, [require_platform_admin_session]
    exactly when it names an unexpired session of a platform administrator; neither changes the
    committed data. *)
Theorem session_gates_exact cookie t w :
  no_faults -> pg_uuid_in nil_uuid_text = Some 0%N -> sessions_wf (w_base w) ->
  (fst (require_tenant_session cookie t w) = Ok tt <->
     cookie_allows cookie (may_access (w_base w) (session_now w) t) = true) /\
  (fst (require_platform_admin_session cookie w) = Ok tt <->
     cookie_allows cookie (is_platform_session (w_base w) (session_now w)) = true) /\
  w_base (snd (require_tenant_session cookie t w)) = w_base w /\
  w_base (snd (require_platform_admin_session cookie w)) = w_base w.
Proof.
  intros Hnf Hnil Hwf.
  destruct (require_tenant_session_run Hnf Hnil cookie t w Hwf) as (w1 & o1 & E1 & B1 & _ & H1).
  destruct (require_platform_admin_run Hnf Hnil cookie w Hwf) as (w2 & o2 & E2 & B2 & _ & H2).
  by rewrite E1, E2.
Qed.

(** The life of a session.  The token [create_session] returns validates to its operator and
    tenant until eight hours after the creation and to nothing afterwards; [delete_session]
    reports one deleted row, and from then on the token validates to nothing. *)
Theorem session_lifecycle op t meth w tok w1 :
  no_faults -> pg_uuid_in nil_uuid_text = Some 0%N -> sessions_wf (w_base w) ->
  create_session op t meth w = (Ok tok, w1) ->
  forall w2, w_base w2 = w_base w1 ->
    fst (validate_session tok w2) =
      Ok (if (session_now w2 <? env_now (S (w_tick w)) + 8 * us_per_hour)%Z
          then Some (SessionCtx op t) else None) /\
    exists w3, delete_session tok w2 = (Ok true, w3) /\
      forall w4, w_base w4 = w_base w3 -> fst (validate_session tok w4) = Ok None.
Proof.
  intros Hnf Hnil [Hs _ _] Hc w2 E2.
  destruct (create_session_Ok _ _ _ _ _ _ Hc) as (r & -> & Hlt & <- & <- & He & Hni & Eb).
  assert (Hs1 : List.NoDup (map ss_id (sessions (w_base w2)))).
  { rewrite E2, Eb. cbn [tb_set sessions_t sessions]. rewrite map_app. apply NoDup_ListNoDup, NoDup_app.
    split; [by apply NoDup_ListNoDup|]. split; [|apply NoDup_singleton].
    intros x Hx. cbn [map]. rewrite list_elem_of_singleton. intros ->. apply Hni. by apply list_elem_of_In. }
  split.
  - destruct (validate_session_run Hnf Hnil (uuid_str (ss_id r)) w2 Hs1) as (w' & _ & _ & _ & ->).
    cbn [fst]. rewrite (UUID_uuid_str _ Hlt), (pg_uuid_in_str _ Hlt). unfold live_session.
    rewrite E2, Eb. cbn [tb_set sessions_t sessions].
    rewrite (find_app_fresh ss_id) by (try done; intros x Hx; apply andb_true_iff in Hx as [Hx _]; by apply N.eqb_eq).
    rewrite N.eqb_refl, He. cbn [andb]. by destruct (_ <? _)%Z.
  - destruct (delete_session_run Hnf Hnil _ _ w2 (UUID_uuid_str _ Hlt) (pg_uuid_in_str _ Hlt)) as (w3 & E3 & Hd).
    exists w3. split.
    + rewrite Hd. do 2 f_equal. rewrite E2, Eb. cbn [tb_set sessions_t sessions]. rewrite existsb_app.
      cbn [existsb]. by rewrite N.eqb_refl, !orb_true_r.
    + intros w4 E4. destruct (validate_session_run Hnf Hnil (uuid_str (ss_id r)) w4) as (w' & _ & _ & _ & ->).
      { rewrite E4, E3. cbn [tb_set sessions_t sessions]. revert Hs1. generalize (sessions (w_base w2)). intros l Hs1.
        apply NoDup_ListNoDup. apply NoDup_ListNoDup in Hs1. eapply sublist_NoDup; [exact Hs1|].
        clear. induction l as [|a l IH]; [constructor|]. cbn [List.filter map].
        destruct (negb _); [by constructor|by apply sublist_cons]. }
      cbn [fst]. rewrite (UUID_uuid_str _ Hlt), (pg_uuid_in_str _ Hlt). unfold live_session.
      rewrite E4, E3. cbn [tb_set sessions_t sessions].
      destruct (List.find _ _) as [x|] eqn:Ex; [|done]. apply List.find_some in Ex as [Hin Hx].
      apply filter_In in Hin as [_ Hin]. apply andb_true_iff in Hx as [Hx _]. by rewrite Hx in Hin.
Qed.
End Properties.

(** ** Witnesses *)

Section Witnesses.
#[local] Existing Instance demo_env.
#[local] Existing Instance demo_vault.

Lemma demo_sessions_wf : sessions_wf (w_base demo_world).
Proof.
  split.
  - apply NoDup_ListNoDup, (bool_decide_unpack _). reflexivity.
  - apply NoDup_ListNoDup, (bool_decide_unpack _). reflexivity.
  - intros r [<-|[<-|[]]]; reflexivity.
Qed.

Lemma demo_nil : pg_uuid_in nil_uuid_text = Some 0%N.
Proof. vm_compute. reflexivity. Qed.

Lemma session_gates_exact_witness :
  fst (require_tenant_session (Some (uuid_str 4)) 1 demo_world) = Ok tt.
Proof.
  refine (proj2 (proj1 (session_gates_exact (Some (uuid_str 4)) 1%N demo_world demo_no_faults demo_nil demo_sessions_wf)) _).
  vm_compute. reflexivity.
Defined.

Lemma session_lifecycle_witness :
  let login := create_session 2 1 "oidc" demo_world in
  fst login = Ok (uuid_str 1000) /\
  fst (validate_session (uuid_str 1000) (snd login)) = Ok (Some (SessionCtx 2 1)).
Proof.
  assert (Hc : fst (create_session 2 1 "oidc" demo_world) = Ok (uuid_str 1000)) by (vm_compute; reflexivity).
  cbn zeta. split; [exact Hc|].
  destruct (session_lifecycle 2%N 1%N "oidc" demo_world _ _ demo_no_faults demo_nil demo_sessions_wf
    (run_value _ _ _ Hc) _ eq_refl) as [-> _].
  vm_compute. reflexivity.
Defined.
End Witnesses.
