(* ===== verification/AuditEmit.v ===== *)
(** * The audit chokepoint (mintkey_models/audit.py)

    [audit_emit] appends one event to a tenant's hash chain and advances the
    chain head, inside the caller's transaction.  [chain_ok d t] says that
    the rows of tenant [t] form an intact chain whose head is recorded in
    [audit_chain_state]; every [audit_emit] preserves it for every tenant. *)

From S2P Require Import Prelude PyStr PyJson PyJsonFacts PyTime WireIds AuditHash AuditChain.
From S2P Require Import Vault Tables Database Logic.

Local Open Scope string_scope.
Local Open Scope py_scope.

Section AuditEmit.
Context `{E : Env} `{V : Vault} `{Sha : Sha256}.

Definition compute_hash (event_dict : dict) (prev_hash : string) : string :=
  chain_hash (canonical_json_bytes event_dict) prev_hash.

(** [struct.unpack(">q", tenant_id.bytes[:8])[0]]: the first eight bytes as a signed integer. *)
Definition lock_id (tenant_id : uuid) : Z :=
  let n := Z.of_N (N.shiftr tenant_id 64) in
  if (n <? 2 ^ 63)%Z then n else (n - 2 ^ 64)%Z.

(** [SELECT pg_advisory_xact_lock(:lock_id)] *)
Definition pg_advisory_xact_lock (id : Z) : M unit := execute (fun w => Ok (tt, w)).

(** [str(x) if x is not None else None] and [str(x)] of a [UUID | str] *)
Definition str_of (v : uuid_value) : string :=
  match v with VUUID u => uuid_str u | VStr s => s end.

Definition bound_opt (o : option string) : M (option uuid) :=
  match o with
  | Some s => let! u := bound s in ret (Some u)
  | None => ret None
  end.

Definition audit_emit (tenant_id : uuid) (event_type : string) (actor_id : option uuid)
    (actor_type : string) (target_id : option uuid_value) (target_type : option string)
    (payload : dict) : M unit :=
  do! pg_advisory_xact_lock (lock_id tenant_id) in
  let! tid := bound (uuid_str tenant_id) in
  let! row := select audit_chain_state_t (fun r => N.eqb (c_tenant_id r) tid) in
  let prev_hash := match fetchone row with
                   | Some chain_row => c_head_hash chain_row
                   | None => Some (unchars (repeat (chr 0) 32))
                   end in
  let! now := now_utc in
  let! event_id := uuid4 in
  let! event_fields := lift (canonical_event_fields {|
    ea_id := Some (uuid_str event_id); ea_tenant_id := Some (uuid_str tenant_id);
    ea_event_type := event_type; ea_actor_id := uuid_str <$> actor_id;
    ea_actor_type := Some actor_type; ea_target_id := str_of <$> target_id;
    ea_target_type := target_type; ea_payload := JObj payload; ea_at := utc now |}) in
  let! prev_hash := lift (match prev_hash with
                          | Some h => Ok h
                          | None => Raise (TypeError "can't concat NoneType to bytes")
                          end) in
  let h := compute_hash event_fields prev_hash in
  let! id := bound (uuid_str event_id) in
  let! actor := bound_opt (uuid_str <$> actor_id) in
  let! target := bound_opt (str_of <$> target_id) in
  do! insert_into audit_events_t {|
    e_id := id; e_tenant_id := tid; e_event_type := event_type;
    e_actor_id := actor; e_actor_type := Some actor_type;
    e_target_id := target; e_target_type := target_type;
    e_payload := jsonb (JObj payload); e_prev_hash := prev_hash; e_hash := h; e_at := now;
    e_request_id := None; e_trace_id := None |} in
  let! id := bound (uuid_str event_id) in
  let! tid := bound (uuid_str tenant_id) in
  update_where audit_chain_state_t (fun r => N.eqb (c_tenant_id r) tid)
    (fun r => ChainRow (c_tenant_id r) (Some id) (Some h)).

(** ** What a reader of the log sees *)

(** The columns of an [audit_events] row as the driver returns them. *)
Definition row_view (r : audit_row) : event_row := {|
  r_id := Some (uuid_str (e_id r)); r_tenant_id := Some (uuid_str (e_tenant_id r));
  r_event_type := e_event_type r; r_actor_id := uuid_str <$> e_actor_id r;
  r_actor_type := e_actor_type r; r_target_id := uuid_str <$> e_target_id r;
  r_target_type := e_target_type r;
  r_payload := if jsonb_as_text then JStr (dumps (e_payload r)) else e_payload r;
  r_at := utc (e_at r); r_prev_hash := e_prev_hash r; r_hash := e_hash r;
  r_request_id := uuid_str <$> e_request_id r; r_trace_id := e_trace_id r |}.

Definition events_of (t : uuid) (d : db) : list audit_row :=
  List.filter (fun r => N.eqb (e_tenant_id r) t) (audit_events d).

Fixpoint mapM_out {A B} (f : A -> outcome B) (l : list A) : outcome (list B) :=
  match l with
  | [] => Ok []
  | a :: l' => b ← f a; bs ← mapM_out f l'; Ok (b :: bs)
  end.

(** [[chain_event_from_row(row) for row in rows]] *)
Definition chain_events (rows : list audit_row) : outcome (list ChainEvent) :=
  mapM_out (fun r => chain_event_from_row (row_view r)) rows.

Definition chain_state_of (t : uuid) (d : db) : list chain_row :=
  List.filter (fun r => N.eqb (c_tenant_id r) t) (audit_chain_state d).

(** A stored row has a UUID and a JSON object. *)
Definition row_ok (r : audit_row) : Prop :=
  (e_id r < uuid_limit)%N /\ exists p, e_payload r = JObj p /\ json_wf (JObj p).

(** The tenant's rows, in insertion order, form an intact chain from its genesis hash, and its
    head is recorded. *)
Record chain_ok (t : uuid) (d : db) : Prop := {
  ck_rows : Forall row_ok (events_of t d);
  ck_ids : List.NoDup (map e_id (events_of t d));
  ck_links : exists l head_id, chain_events (events_of t d) = Ok l /\
    linked (genesis_hash (uuid_str t)) l /\
    chain_state_of t d = [ChainRow t head_id (Some (end_hash (genesis_hash (uuid_str t)) l))] }.

(** Every chain that is intact before is intact after. *)
Definition chains_kept (d d' : db) : Prop := forall t, (t < uuid_limit)%N -> chain_ok t d -> chain_ok t d'.

#[export] Instance chains_kept_preorder : PreOrder chains_kept.
Proof. split; [by intros d t|]. intros d1 d2 d3 H1 H2 t Ht H. by apply H2, H1. Qed.

(** ** One event *)

Lemma canonical_id_uuid u : (u < uuid_limit)%N -> canonical_id (Some (uuid_str u)) = Some (uuid_str u).
Proof. intros H. unfold canonical_id. by rewrite UUID_uuid_str. Qed.

Lemma canonical_id_bound s u : bind_uuid s = Some u -> canonical_id (Some s) = Some (uuid_str u).
Proof. intros H. unfold canonical_id. by rewrite (bind_uuid_UUID _ _ H). Qed.

Lemma canonical_id_opt o : (forall u, o = Some u -> (u < uuid_limit)%N) ->
  canonical_id (uuid_str <$> o) = uuid_str <$> o.
Proof. destruct o as [u|]; [intros H; by apply canonical_id_uuid, H|done]. Qed.

Lemma jsonb_obj d : json_wf (JObj d) -> exists d', jsonb (JObj d) = JObj d' /\ json_wf (JObj d').
Proof.
  intros H. pose proof (jsonb_same _ H) as Hs. pose proof (jsonb_wf _ H) as Hw.
  unfold json_same in Hs. destruct (jsonb (JObj d)) as [|b|z|s|l|d']; try discriminate. eauto.
Qed.

(** The payload column read back, as text or decoded, is the same value. *)
Lemma read_payload d : json_wf (JObj d) ->
  exists d', jsonb (JObj d) = JObj d' /\ json_same (JObj d') (JObj d) /\ forall A (k : json -> outcome A),
    (payload ← match (if jsonb_as_text then JStr (dumps (JObj d')) else JObj d') with
               | JNull => Ok (JObj [])
               | JStr s => match loads s with
                           | Some j => Ok j
                           | None => Raise (ValueError "JSONDecodeError")
                           end
               | j => Ok j
               end; k payload) = k (JObj d').
Proof.
  intros H. destruct (jsonb_obj d H) as (d' & E1 & Hw). exists d'.
  split; [done|]. split; [rewrite <- E1; by apply jsonb_same|]. intros A k.
  destruct jsonb_as_text; [|done]. by rewrite loads_dumps.
Qed.

Lemma canonical_bytes_payload a p p' z :
  json_same (JObj p) (JObj p') ->
  canonical_json_bytes (a ++ [("payload", JObj p); z]) = canonical_json_bytes (a ++ [("payload", JObj p'); z]).
Proof.
  intros Hs. unfold canonical_json_bytes. apply dumps_canonical_proper.
  unfold json_same in *. cbn [norm]. do 2 f_equal.
  rewrite !List.filter_app, !map_app. f_equal. cbn [List.filter fst String.eqb Ascii.eqb Bool.eqb negb].
  destruct (negb (String.eqb z.1 "hash")); cbn [map fst snd]; rewrite Hs; reflexivity.
Qed.

(** A target given to [audit_emit] and the identifier stored for it. *)
Definition same_target (target : option string) (stored : option uuid) : Prop :=
  match target, stored with
  | Some s, Some u => bind_uuid s = Some u
  | None, None => True
  | _, _ => False
  end.

Lemma canonical_target target stored : same_target target stored ->
  canonical_id target = uuid_str <$> stored /\ canonical_id (uuid_str <$> stored) = uuid_str <$> stored.
Proof.
  destruct target as [s|], stored as [u|]; intros H; cbn [same_target] in H; try contradiction.
  - split; [exact (canonical_id_bound _ _ H)|exact (canonical_id_uuid _ (bind_uuid_lt _ _ H))].
  - split; reflexivity.
Qed.

(** The event a reader reconstructs from an inserted row hashes to the stored hash. *)
Lemma emitted_event r fields target payload :
  (e_id r < uuid_limit)%N -> (e_tenant_id r < uuid_limit)%N ->
  (forall u, e_actor_id r = Some u -> (u < uuid_limit)%N) ->
  same_target target (e_target_id r) ->
  json_wf (JObj payload) -> e_payload r = jsonb (JObj payload) ->
  e_request_id r = None -> e_trace_id r = None ->
  canonical_event_fields {|
    ea_id := Some (uuid_str (e_id r)); ea_tenant_id := Some (uuid_str (e_tenant_id r));
    ea_event_type := e_event_type r; ea_actor_id := uuid_str <$> e_actor_id r;
    ea_actor_type := e_actor_type r; ea_target_id := target;
    ea_target_type := e_target_type r; ea_payload := JObj payload; ea_at := utc (e_at r) |} = Ok fields ->
  e_hash r = compute_hash fields (e_prev_hash r) ->
  exists e, chain_event_from_row (row_view r) = Ok e /\ event_hash e = Ok (e_hash r) /\
    ce_hash e = e_hash r /\ ce_prev_hash e = e_prev_hash r /\
    ce_tenant_id e = uuid_str (e_tenant_id r) /\ ce_request_id e = None /\ ce_trace_id e = None.
Proof.
  intros Hid Htid Hact Htgt Hw Hp Hreq Htr Hf Hh.
  destruct (read_payload payload Hw) as (p' & Ep & Hs & Hread).
  destruct (canonical_target _ _ Htgt) as [Et1 Et2].
  pose proof (canonical_id_uuid _ Hid) as Ei. pose proof (canonical_id_uuid _ Htid) as Eti.
  pose proof (canonical_id_opt _ Hact) as Ea.
  unfold chain_event_from_row, row_view.
  cbn [r_id r_tenant_id r_payload r_event_type r_actor_id r_actor_type r_target_id r_target_type r_at
       r_prev_hash r_hash r_request_id r_trace_id].
  rewrite Ei, Eti, Hp, Ep, Hread, Hreq, Htr.
  eexists. split; [reflexivity|].
  cbn [ce_hash ce_prev_hash ce_tenant_id ce_request_id ce_trace_id].
  split; [|repeat split; reflexivity].
  revert Hf. unfold event_hash, event_fields, canonical_event_fields.
  cbn [ea_id ea_tenant_id ea_event_type ea_actor_id ea_actor_type ea_target_id ea_target_type ea_payload ea_at
       ce_id ce_tenant_id ce_event_type ce_actor_id ce_actor_type ce_target_id ce_target_type ce_payload ce_at
       ce_prev_hash py_dict mbind outcome_bind].
  rewrite Ei, Eti, Ea, Et2, Ea, Et1, Et2. destruct (canonical_at _) as [t|]; [|discriminate].
  cbn [mbind outcome_bind]. intros [= <-]. rewrite Hh. unfold compute_hash. do 2 f_equal.
  apply (canonical_bytes_payload [_; _; _; _; _; _; _] p' payload ("at", JStr t)). exact Hs.
Qed.
(** ** One call *)

(** The row [r] is the event a call with these arguments appends to [d]. *)
Record emitted (t : uuid) (event_type : string) (actor : option uuid) (actor_type : string)
    (target : option uuid_value) (target_type : option string) (payload : dict) (d : db)
    (r : audit_row) : Prop := {
  em_tenant : e_tenant_id r = t;
  em_id : (e_id r < uuid_limit)%N;
  em_type : e_event_type r = event_type;
  em_actor : e_actor_id r = actor;
  em_actor_type : e_actor_type r = Some actor_type;
  em_target : same_target (str_of <$> target) (e_target_id r);
  em_target_type : e_target_type r = target_type;
  em_payload : e_payload r = jsonb (JObj payload);
  em_request : e_request_id r = None /\ e_trace_id r = None;
  em_prev : match chain_state_of t d with
            | c :: _ => c_head_hash c = Some (e_prev_hash r)
            | [] => e_prev_hash r = unchars (repeat (chr 0) 32)
            end;
  em_check : tb_check audit_events_t d r = None;
  em_hash : exists fields, canonical_event_fields {|
    ea_id := Some (uuid_str (e_id r)); ea_tenant_id := Some (uuid_str t);
    ea_event_type := event_type; ea_actor_id := uuid_str <$> actor;
    ea_actor_type := Some actor_type; ea_target_id := str_of <$> target;
    ea_target_type := target_type; ea_payload := JObj payload; ea_at := utc (e_at r) |} = Ok fields /\
    e_hash r = compute_hash fields (e_prev_hash r) }.

(** The database after the event [r] of tenant [t] is appended and the head advanced. *)
Definition append_event (t : uuid) (r : audit_row) (d : db) : db :=
  let d1 := tb_set audit_events_t (audit_events d ++ [r])%list d in
  tb_set audit_chain_state_t
    (map (fun c => if N.eqb (c_tenant_id c) t then ChainRow (c_tenant_id c) (Some (e_id r)) (Some (e_hash r)) else c)
         (audit_chain_state d)) d1.

Definition uuid_opt_ok (o : option uuid) : Prop := forall u, o = Some u -> (u < uuid_limit)%N.

Lemma uuid_opt_none : uuid_opt_ok None.
Proof. by intros u. Qed.
Lemma uuid_opt_some u : (u < uuid_limit)%N -> uuid_opt_ok (Some u).
Proof. by intros H u' [= <-]. Qed.

Lemma bound_opt_Ok s w o w' : bound_opt s w = (Ok o, w') -> w' = w /\ same_target s o.
Proof.
  destruct s as [s|]; cbn [bound_opt]; intros H.
  - run1 H. apply bound_Ok in Hr as [Hb ->]. apply ret_Ok in H as [-> ->]. by split.
  - by apply ret_Ok in H as [-> ->].
Qed.

Lemma reads_bound_opt o : reads (bound_opt o).
Proof. destruct o as [s|]; [apply reads_bind; [apply reads_bound|intros; apply reads_ret]|apply reads_ret]. Qed.

Lemma audit_emit_Ok t event_type actor actor_type target target_type payload w w' u :
  (t < uuid_limit)%N -> uuid_opt_ok actor ->
  audit_emit t event_type actor actor_type target target_type payload w = (Ok u, w') ->
  exists r, emitted t event_type actor actor_type target target_type payload (w_db w) r /\
    w_tx w = TxActive /\ w_tx w' = TxActive /\ w_db w' = append_event t r (w_db w) /\
    w_base w' = w_base w /\ w_tenant w' = w_tenant w /\ w_admin_view w' = w_admin_view w /\
    w_pending w' = w_pending w /\ w_sent w' = w_sent w /\ w_vault w' = w_vault w /\
    exists pol, policy w = Ok pol /\ pol t = true.
Proof.
  intros Ht Ha H. unfold audit_emit in H. rewrite (bound_str t) in H by done.
  run1 H. apply execute_Ok in Hr as [Htx [= <- <-]]. rewrite bind_ret in H.
  run1 H. run1 Hr. subst w0 a. set (rows := List.filter _ _) in *.
  run1 H. run1 Hr. subst a w0. run1 H. run1 Hr. subst a w0. cbn [w_tick tick] in H.
  set (id := env_uuid4 _) in *. set (now := env_now _) in *.
  assert (Hid : (id < uuid_limit)%N) by apply env_uuid4_lt.
  run1 H. run1 Hr. subst w0. rename a into fields. rename H2 into Hf.
  run1 H. run1 Hr. subst w0. rename a into prev. rename H2 into Hprev.
  rewrite !(bound_str id), !bind_ret in H by done.
  run1 H. apply bound_opt_Ok in Hr as [-> Hact]. run1 H. apply bound_opt_Ok in Hr as [-> Htgt].
  run1 H. run1 Hr. subst w0. rewrite ?bind_ret in H. run1 H. subst w'. cbn [set_db tick w_db w_tx w_base w_tenant w_admin_view w_pending w_sent w_vault] in *.
  assert (a = actor) as ->.
  { destruct actor as [v|], a as [v'|]; cbn in Hact; try done.
    rewrite bind_uuid_str in Hact by by apply Ha. congruence. }
  match goal with Hc : tb_check audit_events_t _ ?r = None |- _ => exists r end.
  split; [|do 9 (split; [first [done | reflexivity]|]);
    match goal with Hs : sees audit_events_t ?p _ = true |- _ => exists p; split; [|exact Hs] end;
    match goal with Hp : policy _ = Ok ?p |- policy _ = Ok ?p => exact Hp end].
  constructor; try (reflexivity || assumption || (split; reflexivity)).
  - subst rows. change (List.filter _ _) with (chain_state_of t (w_db w)) in Hprev.
    destruct (chain_state_of t (w_db w)) as [|c ?]; cbn [fetchone head] in Hprev.
    + by injection Hprev as <-.
    + destruct (c_head_hash c); [by injection Hprev as <-|discriminate].
  - exists fields. split; [exact Hf|reflexivity].
Qed.

(** The same, with the state after the call abstract. *)
Lemma audit_emit_eff t event_type actor actor_type target target_type payload w w' u :
  (t < uuid_limit)%N -> uuid_opt_ok actor ->
  audit_emit t event_type actor actor_type target target_type payload w = (Ok u, w') ->
  kept w w' /\ w_vault w' = w_vault w /\
  exists r, emitted t event_type actor actor_type target target_type payload (w_db w) r /\
    w_db w' = append_event t r (w_db w).
Proof.
  intros Ht Ha H.
  apply audit_emit_Ok in H as (r & Hr & E1 & E2 & E3 & E4 & E5 & E6 & _ & _ & E7 & _); [|done..].
  split; [split; congruence|]. split; [done|]. by exists r.
Qed.

Lemma audit_emit_atomic t event_type actor actor_type target target_type payload :
  (t < uuid_limit)%N ->
  atomic (audit_emit t event_type actor actor_type target target_type payload).
Proof.
  intros Ht. unfold audit_emit. rewrite (bound_str t) by done.
  apply atomic_bind; [by apply reads_execute; intros w a w' [= <- <-]|intros _].
  rewrite bind_ret. apply atomic_bind; [apply reads_select|intros row]. apply atomic_bind; [apply reads_now|intros now].
  apply atomic_uuid4. intros id Hid. rewrite !(bound_str id) by done.
  repeat (apply atomic_bind; [first [apply reads_lift | apply reads_bound_opt]|intros ?]).
  apply atomic_write.
  - apply atomic_execute.
  - intros ? ? ? H. by apply insert_Ok in H as (? & _ & _ & _ & _ & ->).
  - intros _ ? ? ? H. rewrite !bind_ret in H. by apply execute_Raise in H as (? & _ & ?).
Qed.
(** ** The chain is preserved *)

#[local] Opaque genesis_hash uuid_str canonical_event_fields chain_event_from_row event_hash.

Lemma mapM_out_snoc {A B} (f : A -> outcome B) l a bs b :
  mapM_out f l = Ok bs -> f a = Ok b -> mapM_out f (l ++ [a])%list = Ok (bs ++ [b])%list.
Proof.
  intros Hl Ha. revert bs Hl. induction l as [|x l IH]; cbn [app mapM_out]; intros bs Hl.
  - injection Hl as <-. by rewrite Ha.
  - destruct (f x) as [y|]; [|done]. cbn [mbind outcome_bind] in *.
    destruct (mapM_out f l) as [ys|]; [|done]. injection Hl as <-. by rewrite (IH ys).
Qed.

Lemma append_event_other t t' r d :
  e_tenant_id r = t -> t' <> t ->
  events_of t' (append_event t r d) = events_of t' d /\
  chain_state_of t' (append_event t r d) = chain_state_of t' d.
Proof.
  intros Ht Hne. unfold events_of, chain_state_of, append_event. cbn. split.
  - rewrite List.filter_app. cbn [List.filter]. rewrite Ht.
    destruct (N.eqb_spec t t'); [congruence|]. by rewrite app_nil_r.
  - induction (audit_chain_state d) as [|c l IH]; [done|]. cbn [map List.filter].
    destruct (N.eqb_spec (c_tenant_id c) t) as [E1|]; cbn [c_tenant_id]; rewrite IH; [|done].
    destruct (N.eqb_spec (c_tenant_id c) t'); [congruence|done].
Qed.

Lemma append_event_same t r d :
  e_tenant_id r = t ->
  events_of t (append_event t r d) = (events_of t d ++ [r])%list /\
  chain_state_of t (append_event t r d) =
    map (fun c => ChainRow (c_tenant_id c) (Some (e_id r)) (Some (e_hash r))) (chain_state_of t d).
Proof.
  intros Ht. unfold events_of, chain_state_of, append_event. cbn. split.
  - rewrite List.filter_app. cbn [List.filter]. by rewrite Ht, N.eqb_refl.
  - induction (audit_chain_state d) as [|c l IH]; [done|]. cbn [map List.filter].
    destruct (N.eqb_spec (c_tenant_id c) t) as [E1|]; cbn [c_tenant_id map].
    + destruct (N.eqb_spec (c_tenant_id c) t); [|congruence]. by rewrite IH.
    + destruct (N.eqb_spec (c_tenant_id c) t); [congruence|done].
Qed.

(** The event a reader reconstructs from an emitted row. *)
Lemma emitted_view t event_type actor actor_type target target_type payload d r :
  (t < uuid_limit)%N -> uuid_opt_ok actor -> json_wf (JObj payload) ->
  emitted t event_type actor actor_type target target_type payload d r ->
  exists e, chain_event_from_row (row_view r) = Ok e /\ event_hash e = Ok (ce_hash e) /\
    ce_hash e = e_hash r /\ ce_prev_hash e = e_prev_hash r /\
    ce_request_id e = None /\ ce_trace_id e = None.
Proof.
  intros Ht Ha Hw [Et Hid Ety Eact Eat Etgt Ett Ep [Ereq Etr] Eprev Echk (fields & Hf & Hh)].
  destruct (emitted_event r fields (str_of <$> target) payload) as (e & Hv & He & F1 & F2 & F3 & F4 & F5);
    try assumption.
  - rewrite Et. exact Ht.
  - rewrite Eact. exact Ha.
  - rewrite Et, Ety, Eact, Eat, Ett. exact Hf.
  - exists e. rewrite F1. repeat split; assumption.
Qed.

(** The new row keeps the stored rows well formed. *)
Lemma emitted_rows t event_type actor actor_type target target_type payload d r :
  json_wf (JObj payload) -> emitted t event_type actor actor_type target target_type payload d r ->
  Forall row_ok (events_of t d) -> List.NoDup (map e_id (events_of t d)) ->
  Forall row_ok (events_of t d ++ [r]) /\ List.NoDup (map e_id (events_of t d ++ [r])).
Proof.
  intros Hw Hr Ho Hn. split.
  - apply Forall_app. split; [done|]. constructor; [|constructor]. split; [by apply (em_id _ _ _ _ _ _ _ _ _ Hr)|].
    rewrite (em_payload _ _ _ _ _ _ _ _ _ Hr). by apply jsonb_obj.
  - pose proof (em_check _ _ _ _ _ _ _ _ _ Hr) as Hc. cbn [tb_check audit_events_t first_violation] in Hc.
    destruct (fresh e_id (e_id r) (audit_events d)) eqn:Ef; [|done]. apply fresh_spec in Ef.
    rewrite map_app. apply NoDup_ListNoDup, NoDup_app. repeat split; [by apply NoDup_ListNoDup| |apply NoDup_singleton].
    intros x Hx. cbn [map]. rewrite list_elem_of_singleton. intros ->. apply Ef.
    apply list_elem_of_In, in_map_iff in Hx as (r' & E1 & Hx). apply filter_In in Hx as [Hx _].
    apply in_map_iff. by exists r'.
Qed.

Lemma append_event_chain t event_type actor actor_type target target_type payload d r :
  (t < uuid_limit)%N -> uuid_opt_ok actor -> json_wf (JObj payload) ->
  emitted t event_type actor actor_type target target_type payload d r ->
  chains_kept d (append_event t r d).
Proof.
  intros Ht Ha Hw Hr t' Ht' [Hro Hid (l & hid & Hl & Hlk & Hc)].
  pose proof (em_tenant _ _ _ _ _ _ _ _ _ Hr) as Et.
  destruct (N.eq_dec t' t) as [->|Hne].
  2: { destruct (append_event_other t t' r d Et Hne) as [E1 E2]. split; rewrite ?E1; [done..|].
       exists l, hid. by rewrite E2. }
  destruct (append_event_same t r d Et) as [E1 E2].
  destruct (emitted_rows _ _ _ _ _ _ _ _ _ Hw Hr Hro Hid) as [Hro' Hid'].
  pose proof (em_prev _ _ _ _ _ _ _ _ _ Hr) as Eprev.
  rewrite Hc in Eprev. cbn [c_head_hash] in Eprev. apply Some_inj in Eprev.
  destruct (emitted_view _ _ _ _ _ _ _ _ _ Ht Ha Hw Hr) as (e & Hv & He & F1 & F2 & F3 & F4).
  split; rewrite ?E1; [done..|].
  exists (l ++ [e])%list, (Some (e_id r)). rewrite E2, Hc. split; [|split].
  - by apply mapM_out_snoc.
  - apply linked_app. split; [done|]. rewrite Eprev, <- F2. by repeat constructor.
  - cbn [map c_tenant_id]. rewrite end_hash_app. cbn [end_hash]. by rewrite F1.
Qed.

(** Every call of [audit_emit], successful or not, preserves what appending an event preserves. *)
Lemma audit_emit_rule (R : relation db) `{!PreOrder R} G t event_type actor actor_type target target_type payload :
  (t < uuid_limit)%N -> uuid_opt_ok actor ->
  (forall d r, emitted t event_type actor actor_type target target_type payload d r -> R d (append_event t r d)) ->
  respects R G (audit_emit t event_type actor actor_type target target_type payload).
Proof.
  intros Ht Ha HR d0 w [Hb Hg].
  destruct (audit_emit _ _ _ _ _ _ _ w) as [[u|e] w'] eqn:E1; cbn [snd].
  - apply audit_emit_Ok in E1 as (r & Hr & Htx & Htx' & Edb & Ebase & Eten & Eadm & _); [|done..].
    destruct (Hg Htx) as [Hd HG]. split; [by rewrite Ebase|]. intros _. rewrite Edb, Eten, Eadm.
    split; [|done]. transitivity (w_db w); [done|]. by apply HR.
  - apply audit_emit_atomic in E1 as [Ebase Hact]; [|done]. split; [by rewrite Ebase|].
    intros Htx'. destruct (Hact Htx') as (Htx & Edb & Eten & Eadm). rewrite Edb, Eten, Eadm. by apply Hg.
Qed.

(** A relation that does not look at the log is kept without conditions. *)
Lemma audit_emit_apart (R : relation db) `{!PreOrder R} G t event_type actor actor_type target target_type payload :
  (forall l d, R d (tb_set audit_events_t l d)) -> (forall l d, R d (tb_set audit_chain_state_t l d)) ->
  respects R G (audit_emit t event_type actor actor_type target target_type payload).
Proof.
  intros He Hc. unfold audit_emit, pg_advisory_xact_lock, bound_opt.
  apply respects_bind; [apply respects_execute; [apply _|]; by intros w a w' _ [= <- <-]|intros _].
  repeat preserved_step.
  - apply respects_insert; [apply _|]. intros d d' Hi. unfold insert_db in Hi. destruct (tb_check _ _ _); [done|].
    apply Ok_inj in Hi. subst d'. apply He.
  - apply respects_update; [apply _|]. intros w pol d _ _. apply Hc.
Qed.

(** Every intact chain stays intact. *)
Lemma audit_emit_respects G t event_type actor actor_type target target_type payload :
  (t < uuid_limit)%N -> uuid_opt_ok actor -> json_wf (JObj payload) ->
  respects chains_kept G (audit_emit t event_type actor actor_type target target_type payload).
Proof. intros Ht Ha Hw. apply audit_emit_rule; [apply _|done..|]. intros d r Hr. by eapply append_event_chain. Qed.
End AuditEmit.

Lemma silent_audit_emit `{E : Env} `{V : Vault} `{Sha : Sha256} t event_type actor actor_type target target_type payload :
  silent (audit_emit t event_type actor actor_type target target_type payload).
Proof.
  unfold audit_emit, pg_advisory_xact_lock. apply silent_bind; [by apply silent_execute; intros w a w' [= <- <-]|intros _].
  unfold bound_opt. repeat silent_step.
Qed.
#[export] Hint Resolve silent_audit_emit : silent.
