(* ===== verification/VerifyJob.v ===== *)
(** * The chain verification job (apps/audit-verify-job)

    The job's adapters of the shared verifier, its loop over the tenants and
    its exit code; and the agreement of writer and verifier: what
    [audit_emit] writes, the job accepts. *)

From S2P Require Import Prelude PyStr PyJson PyJsonFacts PyTime WireIds AuditHash AuditChain.
From S2P Require Import Vault Tables Database Logic AuditEmit Demo.

Local Open Scope string_scope.
Local Open Scope py_scope.

(** ** verify.py *)

Record AuditEvent := MkAuditEvent {
  v_id : string; v_event_type : string; v_tenant_id : string; v_payload : json;
  v_hash : string; v_prev_hash : string;
  v_actor_id : option string; v_actor_type : option string;
  v_target_id : option string; v_target_type : option string;
  v_at : option datetime; v_request_id : option string; v_trace_id : option string }.

Record VerifyResult := MkVerifyResult {
  vr_ok : bool; vr_chain_length : nat; vr_first_bad_event_id : option string; vr_message : string }.

Section Verify.
Context `{Sha : Sha256}.

Definition _chain_event (event : AuditEvent) (prev_hash : string) : outcome ChainEvent :=
  match v_at event with
  | None => Raise (ValueError "event has no at")
  | Some at_ =>
      Ok {| ce_id := v_id event; ce_tenant_id := v_tenant_id event; ce_event_type := v_event_type event;
            ce_actor_id := v_actor_id event; ce_actor_type := v_actor_type event;
            ce_target_id := v_target_id event; ce_target_type := v_target_type event;
            ce_payload := v_payload event; ce_at := at_; ce_prev_hash := prev_hash;
            ce_hash := v_hash event; ce_request_id := v_request_id event; ce_trace_id := v_trace_id event |}
  end.

Definition compute_event_hash (event : AuditEvent) (prev_hash : string) : outcome string :=
  e ← _chain_event event prev_hash; event_hash e.

Definition to_result (result : ChainResult) : VerifyResult :=
  MkVerifyResult (cr_ok result) (cr_chain_length result) (cr_first_bad_event_id result) (cr_message result).

Definition verify_chain (events : list AuditEvent) : outcome VerifyResult :=
  l ← mapM_out (fun event => _chain_event event (v_prev_hash event)) events;
  result ← verify_events l;
  Ok (to_result result).

Definition verify_rows (rows : list event_row) : outcome VerifyResult :=
  l ← mapM_out chain_event_from_row rows;
  result ← verify_events l;
  Ok (to_result result).

(** ** main.py *)

Context `{E : Env} `{V : Vault}.

(** [ORDER BY at ASC, id ASC] *)
Definition by_at_id (a b : audit_row) : bool :=
  (Z.ltb (e_at a) (e_at b) || (Z.eqb (e_at a) (e_at b) && (e_id a <=? e_id b)%N)).

(** The rows one tenant's query returns; a role subject to row-level security sees none,
    since the job sets no tenant. *)
Definition tenant_rows (bypassrls : bool) (d : db) (tid : uuid) : list audit_row :=
  if bypassrls then sort_by by_at_id (events_of tid d) else [].

(** The loop over the tenants: [all_ok] afterwards. *)
Fixpoint check_tenants (bypassrls : bool) (d : db) (ids : list uuid) (all_ok : bool) : outcome bool :=
  match ids with
  | [] => Ok all_ok
  | tid :: ids' =>
      vr ← verify_rows (map row_view (tenant_rows bypassrls d tid));
      check_tenants bypassrls d ids' (if vr_ok vr then all_ok else false)
  end.

(** The exit code. *)
Definition _run (database_url tenant_id_filter : option string) (bypassrls : bool) (d : db) : outcome Z :=
  match database_url with
  | None | Some "" => Ok 1%Z
  | Some _ =>
      let visible := if bypassrls then tenants d else [] in
      tenant_ids ← match tenant_id_filter with
                   | None | Some "" =>
                       Ok (map t_id (sort_by (fun a b => Z.leb (t_created_at a) (t_created_at b)) visible))
                   | Some s =>
                       match bind_uuid s with
                       | Some u => Ok (map t_id (List.filter (fun t => N.eqb (t_id t) u) visible))
                       | None => Raise (DBError "invalid UUID")
                       end
                   end;
      all_ok ← check_tenants bypassrls d tenant_ids true;
      Ok (if all_ok : bool then 0 else 1)%Z
  end.

(** ** The links of a chain are distinct *)

Lemma linked_origin cur l x :
  linked cur l -> In x l ->
  ce_prev_hash x = cur \/ exists y, In y l /\ ce_prev_hash x = ce_hash y.
Proof.
  induction 1 as [|cur e l Hp Hh Hr Ht Hl IH]; [done|]. intros [->|Hx]; [by left|].
  right. destruct (IH Hx) as [E1|(y & Hy & E1)]; [exists e|exists y]; split; auto; first [by left | by right].
Qed.

Lemma linked_hash cur l x : linked cur l -> In x l ->
  exists inp, hash_input x inp /\ ce_hash x = sha256 inp.
Proof.
  induction 1 as [|cur e l Hp Hh Hr Ht Hl IH]; [done|]. intros [->|Hx]; [|auto].
  apply event_hash_inv in Hh as (f & Hf & ->). eexists. split; [by exists f|done].
Qed.

Lemma linked_prev_len cur l x : linked cur l -> py_len cur = 32%nat -> In x l -> py_len (ce_prev_hash x) = 32%nat.
Proof.
  intros Hl Hc Hx. destruct (linked_origin _ _ _ Hl Hx) as [->|(y & Hy & ->)]; [done|].
  destruct (linked_hash _ _ _ Hl Hy) as (inp & _ & ->). apply sha256_len.
Qed.

(** Two events of a chain with the same hashed bytes have the same identifier. *)
Lemma same_input_id x y inp :
  json_wf (ce_payload x) -> json_wf (ce_payload y) ->
  py_len (ce_prev_hash x) = 32%nat -> py_len (ce_prev_hash y) = 32%nat ->
  hash_input x inp -> hash_input y inp ->
  canonical_id (Some (ce_id x)) = canonical_id (Some (ce_id y)).
Proof.
  intros Wx Wy Lx Ly (f & F & ->) (g & G & E1).
  apply append_inj_len in E1 as [E1 _]; [|congruence].
  apply (same_bytes_event x y Wx Wy). by exists f, g.
Qed.

Lemma linked_prev_nodup (P : string -> Prop) cur inp l :
  (forall x y, P x -> P y -> sha256 x = sha256 y -> x = y) ->
  linked cur l -> cur = sha256 inp -> P inp -> (forall e x, In e l -> hash_input e x -> P x) ->
  py_len cur = 32%nat ->
  (forall e, In e l -> json_wf (ce_payload e)) ->
  (forall e, In e l -> ~ hash_input e inp) ->
  List.NoDup (map (fun e => canonical_id (Some (ce_id e))) l) ->
  List.NoDup (map ce_prev_hash l).
Proof.
  intros Hinj Hl. revert inp. induction Hl as [|cur e l Hp Hh Hr Ht Hl IH]; intros inp Ec Hpi HP Hlen Hw Hin Hnd.
  { constructor. }
  destruct (event_hash_inv _ _ Hh) as (f & Hf & Ehash). cbn [map] in Hnd. apply List.NoDup_cons_iff in Hnd as [Hni Hnd']. subst cur.
  set (inpe := canonical_json_bytes f +:+ ce_prev_hash e) in *.
  assert (Hie : hash_input e inpe) by by exists f.
  assert (Hlk : linked (ce_prev_hash e) (e :: l)) by by constructor.
  assert (IHn : List.NoDup (map ce_prev_hash l)).
  { apply (IH inpe); [done|apply (HP e); [by left|done]|intros x y Hx; apply (HP x); by right
      |rewrite Ehash; apply sha256_len|intros; apply Hw; by right| |done].
    intros x Hx Hix. apply Hni. apply in_map_iff. exists x. split; [|done].
    apply (same_input_id _ _ inpe); try done; [apply Hw; by right|apply Hw; by left|].
    apply (linked_prev_len _ _ _ Hlk Hlen). by right. }
  destruct (in_dec String.string_dec (ce_prev_hash e) (map ce_prev_hash l)) as [Hd|Hd]; [|by constructor].
  exfalso. apply in_map_iff in Hd as (x & Ex & Hx).
  assert (exists y, In y (e :: l) /\ ce_prev_hash x = ce_hash y) as (y & Hy & Ey).
  { destruct (linked_origin _ _ _ Hl Hx) as [E1|(y & Hy & E1)]; [exists e|exists y]; split; auto; first [by left | by right]. }
  destruct (linked_hash _ _ _ Hlk Hy) as (inpy & Hiy & Eyh).
  rewrite <- Ex, Ey, Eyh in Ec. apply Hinj in Ec as ->; [|by apply (HP y)|done].
  by destruct (Hin y Hy).
Qed.

(** The genesis input is not the input of an event. *)
Lemma genesis_not_event t e : ~ hash_input e (utf8 (GENESIS_PREFIX +:+ t)).
Proof.
  intros (f & _ & E1). apply (f_equal (fun s => head (chars s))) in E1. revert E1.
  unfold utf8, canonical_json_bytes, dumps_canonical. rewrite chars_app, !chars_unchars.
  cbn [dumps_with app head]. discriminate.
Qed.

(** ** Writer and verifier agree *)

Context (t : uuid) (Ht : (t < uuid_limit)%N).

#[local] Opaque uuid_str canonical_id.

Lemma view_event r e : row_ok r -> chain_event_from_row (row_view r) = Ok e ->
  ce_id e = uuid_str (e_id r) /\ ce_prev_hash e = e_prev_hash r /\ json_wf (ce_payload e) /\
  ((e_tenant_id r < uuid_limit)%N -> ce_tenant_id e = uuid_str (e_tenant_id r)).
Proof.
  intros [Hid (p & Ep & Hw)]. unfold chain_event_from_row, row_view.
  cbn [r_id r_tenant_id r_payload r_event_type r_actor_id r_actor_type r_target_id r_target_type r_at
       r_prev_hash r_hash r_request_id r_trace_id].
  rewrite (canonical_id_uuid _ Hid), Ep.
  destruct (canonical_id (Some (uuid_str (e_tenant_id r)))) as [tid|] eqn:Etid; [|done].
  assert (Hp : forall k : json -> outcome ChainEvent,
    (payload ← match (if jsonb_as_text then JStr (dumps (JObj p)) else JObj p) with
               | JNull => Ok (JObj [])
               | JStr s => match loads s with
                           | Some j => Ok j
                           | None => Raise (ValueError "JSONDecodeError")
                           end
               | j => Ok j
               end; k payload) = k (JObj p)).
  { intros k. destruct jsonb_as_text; [by rewrite loads_dumps|done]. }
  rewrite Hp. cbv beta. intros Hok. apply Ok_inj in Hok as <-. cbn [ce_id ce_prev_hash ce_payload ce_tenant_id].
  do 3 (split; [done|]). intros Htid. rewrite (canonical_id_uuid _ Htid) in Etid. congruence.
Qed.

Lemma mapM_out_Forall2 {A B} (f : A -> outcome B) l bs :
  mapM_out f l = Ok bs <-> Forall2 (fun a b => f a = Ok b) l bs.
Proof.
  revert bs. induction l as [|a l IH]; intros bs; cbn [mapM_out].
  - split; [by intros [= <-]|by inversion 1].
  - destruct (f a) as [b|] eqn:Ea; cbn [mbind outcome_bind].
    + destruct (mapM_out f l) as [bs'|]; cbn [mbind outcome_bind]; split.
      * intros [= <-]. constructor; [done|]. by apply IH.
      * inversion 1 as [|? b' ? bs2 Hb Hbs]; subst. apply IH in Hbs. congruence.
      * done.
      * inversion 1 as [|? b' ? bs2 Hb Hbs]; subst. by apply IH in Hbs.
    + split; [done|]. inversion 1; congruence.
Qed.

Lemma mapM_out_perm {A B} (f : A -> outcome B) l l' bs :
  Permutation l l' -> mapM_out f l = Ok bs -> exists bs', mapM_out f l' = Ok bs' /\ Permutation bs bs'.
Proof.
  intros Hp. revert bs. induction Hp as [|a l l' Hp IH|a b l|l l' l'' H1 IH1 H2 IH2]; intros bs Hm.
  - by exists bs.
  - cbn [mapM_out] in *. destruct (f a) as [x|]; [|done]. cbn [mbind outcome_bind] in *.
    destruct (mapM_out f l) as [xs|] eqn:El; [|done]. apply Ok_inj in Hm as <-.
    destruct (IH xs eq_refl) as (ys & -> & Hy). exists (x :: ys). split; [done|by constructor].
  - cbn [mapM_out] in *. destruct (f a) as [x|], (f b) as [y|]; try done.
    cbn [mbind outcome_bind] in *. destruct (mapM_out f l) as [xs|]; [|done].
    apply Ok_inj in Hm as <-. eexists. split; [done|apply perm_swap].
  - destruct (IH1 _ Hm) as (xs & Hx & P1). destruct (IH2 _ Hx) as (ys & Hy & P2).
    exists ys. split; [done|by transitivity xs].
Qed.

(** The texts hashed for the tenant's chain: its genesis text and the bytes of its events. *)
Definition tenant_input (d : db) (x : string) : Prop :=
  x = utf8 (GENESIS_PREFIX +:+ uuid_str t) \/
  exists r e, In r (events_of t d) /\ chain_event_from_row (row_view r) = Ok e /\ hash_input e x.

(** SHA-256 separates the texts hashed for the tenant's chain. *)
Definition digests_differ (d : db) : Prop :=
  forall x y, tenant_input d x -> tenant_input d y -> sha256 x = sha256 y -> x = y.

(** The events of an intact chain link up in one way only. *)
Lemma chain_ok_nodup d l :
  digests_differ d ->
  chain_ok t d -> chain_events (events_of t d) = Ok l -> linked (genesis_hash (uuid_str t)) l ->
  (forall e, In e l -> ce_tenant_id e = uuid_str t) /\ List.NoDup (map ce_prev_hash l).
Proof.
  intros Hdd [Hro Hid _] Hl Hlk. apply mapM_out_Forall2 in Hl.
  assert (Hview : forall e, In e l -> exists r, In r (events_of t d) /\ row_ok r /\
                    chain_event_from_row (row_view r) = Ok e).
  { intros e He. apply list_elem_of_In, list_elem_of_lookup_1 in He as [i He].
    destruct (Forall2_lookup_r _ _ _ _ _ Hl He) as (r & Hr & Hv). apply list_elem_of_lookup_2 in Hr.
    exists r. rewrite Forall_forall in Hro. split; [by apply list_elem_of_In|]. auto. }
  split.
  - intros e He. destruct (Hview e He) as (r & Hin & Hr & Hv). apply view_event in Hv as (_ & _ & _ & Hten); [|done].
    apply filter_In in Hin as [_ Hin]. apply N.eqb_eq in Hin. rewrite Hin in Hten. by apply Hten.
  - apply (linked_prev_nodup (tenant_input d) (genesis_hash (uuid_str t)) (utf8 (GENESIS_PREFIX +:+ uuid_str t))); try done.
    + by left.
    + intros e x He Hx. destruct (Hview e He) as (r & Hr & _ & Hv). right. by exists r, e.
    + apply genesis_len.
    + intros e He. destruct (Hview e He) as (r & _ & Hr & Hv). by apply view_event in Hv as (_ & _ & ? & _).
    + intros e _. apply genesis_not_event.
    + apply NoDup_ListNoDup. apply NoDup_ListNoDup in Hid.
      replace (map (fun e => canonical_id (Some (ce_id e))) l)
        with (map (fun u => Some (uuid_str u)) (map e_id (events_of t d))).
      * apply NoDup_fmap_2_strong; [|done]. intros u v Hu Hv Huv. apply Some_inj in Huv.
        assert (Hlt : forall x, x ∈ map e_id (events_of t d) -> (x < uuid_limit)%N).
        { intros x Hx. apply list_elem_of_fmap in Hx as (r & -> & Hx).
          rewrite Forall_forall in Hro. by apply Hro in Hx as [? _]. }
        apply uuid_str_inj; [by apply Hlt..|assumption].
      * clear Hid Hview Hlk. induction Hl as [|r e rs l Hv Hl IH]; [done|]. inversion Hro; subst.
        cbn [map]. f_equal; [|by apply IH]. apply view_event in Hv as (-> & _); [|done].
        symmetry. apply canonical_id_uuid. by destruct H1.
Qed.

Lemma mapM_out_map {A B C} (f : B -> outcome C) (g : A -> B) l :
  mapM_out f (map g l) = mapM_out (fun a => f (g a)) l.
Proof. induction l as [|a l IH]; [done|]. cbn [map mapM_out]. by rewrite IH. Qed.

Lemma rows_accepted d rows :
  digests_differ d -> chain_ok t d -> Permutation (events_of t d) rows ->
  exists r, verify_rows (map row_view rows) = Ok r /\ vr_ok r = true /\ vr_chain_length r = length rows.
Proof.
  intros Hdd Hck Hp. destruct (ck_links _ _ Hck) as (l & hid & Hl & Hlk & _).
  destruct (chain_ok_nodup _ _ Hdd Hck Hl Hlk) as [Hten Hnd].
  destruct (mapM_out_perm _ _ _ _ Hp Hl) as (l' & Hl' & Pl).
  assert (Hlen : length l' = length rows).
  { apply mapM_out_Forall2 in Hl'. symmetry. by eapply Forall2_length. }
  unfold verify_rows. rewrite mapM_out_map, Hl'. cbn [mbind outcome_bind].
  destruct l' as [|e0 l'].
  - destruct rows; [|done]. by eexists.
  - rewrite (verify_events_complete_aux (uuid_str t) (e0 :: l') l); try done.
    + eexists. split; [reflexivity|]. by split.
    + intros e He. apply Hten. by rewrite Pl.
    + by rewrite <- Pl.
Qed.
End Verify.

(** ** Properties *)

Section Properties.
Context `{Sha : Sha256} `{E : Env} `{V : Vault}.


Lemma check_tenants_ok d ids all_ok :
  (forall t, In t ids -> (t < uuid_limit)%N /\ digests_differ t d /\ chain_ok t d) ->
  check_tenants true d ids all_ok = Ok all_ok.
Proof.
  induction ids as [|t ids IH]; intros Hok; cbn [check_tenants]; [done|].
  destruct (Hok t) as (Ht & Hd & Hc); [by left|].
  destruct (rows_accepted t Ht d (tenant_rows true d t) Hd Hc) as (r & -> & Hr & _).
  { symmetry. apply sort_by_perm. }
  cbn [mbind outcome_bind]. rewrite Hr. apply IH. intros t' Ht'. apply Hok. by right.
Qed.

Lemma check_tenants_true bypassrls d ids all_ok :
  check_tenants bypassrls d ids all_ok = Ok true ->
  all_ok = true /\ forall t, In t ids ->
    exists r, verify_rows (map row_view (tenant_rows bypassrls d t)) = Ok r /\ vr_ok r = true.
Proof.
  revert all_ok. induction ids as [|t ids IH]; cbn [check_tenants]; intros all_ok H.
  { apply Ok_inj in H. split; [done|intros ? []]. }
  destruct (verify_rows _) as [r|] eqn:Er; cbn [mbind outcome_bind] in H; [|done].
  apply IH in H as [Hb H]. destruct (vr_ok r) eqn:Eo; [|done].
  split; [done|]. intros t' [<-|Hin]; [by exists r|auto].
Qed.

(** The job's verdict.  Run by a role that bypasses row-level security and without a filter,
    the job exits with 0 when the chain of every tenant is intact and its hashed texts have
    different digests, and an exit code 0 means that the rows of every tenant were accepted by the verifier. *)
Theorem run_exit_code url d :
  url <> "" ->
  ((forall t, In t (map t_id (tenants d)) -> (t < uuid_limit)%N /\ digests_differ t d /\ chain_ok t d) ->
   _run (Some url) None true d = Ok 0%Z) /\
  (_run (Some url) None true d = Ok 0%Z ->
   forall t, In t (map t_id (tenants d)) ->
     exists r, verify_rows (map row_view (sort_by by_at_id (events_of t d))) = Ok r /\ vr_ok r = true).
Proof.
  intros Hurl. unfold _run. destruct url as [|c url]; [done|]. cbn [mbind outcome_bind].
  set (ids := map t_id (sort_by _ _)).
  assert (Hids : forall t, In t (map t_id (tenants d)) <-> In t ids).
  { intros t. unfold ids. by rewrite (sort_by_perm _ (tenants d)). }
  split.
  - intros Hok. rewrite (check_tenants_ok d ids true); [done|].
    intros t Hin. apply Hok. by apply Hids.
  - intros H t Hin. apply Hids in Hin.
    destruct (check_tenants true d ids true) as [[]|] eqn:Ec; cbn [mbind outcome_bind] in H; [|done..].
    by apply (check_tenants_true _ _ _ _ Ec).
Qed.

(** the job run by a role subject to row-level security exits with 0 whatever the log holds:
    it sets no tenant, so it reads no tenant at all. *)
Theorem run_under_rls_exits_0 url d :
  url <> "" -> _run (Some url) None false d = Ok 0%Z.
Proof. by destruct url. Qed.
End Properties.

(** ** Witnesses *)

Section Witnesses.
#[local] Existing Instance demo_env.
#[local] Existing Instance demo_vault.
#[local] Existing Instance toy_sha256.

(** The demo world after one event of tenant 1. *)
Definition demo_audited : world :=
  snd (transaction (
    do! set_tenant_context (uuid_str 1) false in
    audit_emit 1 "agent.created" (Some 2%N) "operator" (Some (VUUID 6)) (Some "agent") [("name", JStr "alpha")])
  demo_world).

Lemma demo_chain_ok : chain_ok 1 (w_base demo_world).
Proof.
  split; [constructor|constructor|]. exists [], None. split; [reflexivity|]. split; [constructor|].
  vm_compute. reflexivity.
Qed.

Lemma demo_audited_ok : chain_ok 1 (w_base demo_audited).
Proof.
  unfold demo_audited. refine (transaction_safe chains_kept _ demo_world _ 1%N eq_refl demo_chain_ok).
  apply safe_set_tenant; [by intros a t [_ ?]|]. apply respects_safe, audit_emit_respects.
  - reflexivity.
  - by apply uuid_opt_some.
  - apply json_wf_obj. split; [|by repeat constructor].
    apply NoDup_ListNoDup, (bool_decide_unpack _). reflexivity.
Qed.

(** The digests of the genesis text and of the only event differ. *)
Lemma demo_digests_differ : digests_differ 1 (w_base demo_audited).
Proof.
  assert (Hv : exists r e f, events_of 1 (w_base demo_audited) = [r] /\ chain_event_from_row (row_view r) = Ok e /\
    event_fields e = Ok f /\ sha256 (canonical_json_bytes f +:+ ce_prev_hash e) <> genesis_hash (uuid_str 1)).
  { do 3 eexists. split; [vm_compute; reflexivity|]. split; [vm_compute; reflexivity|].
    split; [vm_compute; reflexivity|]. vm_compute. discriminate. }
  destruct Hv as (r & e & f & Hr & He & Hf & Hne).
  assert (Hin : forall x, tenant_input 1 (w_base demo_audited) x ->
    x = utf8 (GENESIS_PREFIX +:+ uuid_str 1) \/ x = canonical_json_bytes f +:+ ce_prev_hash e).
  { intros x [->|(r' & e' & Hin & He' & f' & Hf' & ->)]; [by left|right].
    rewrite Hr in Hin. destruct Hin as [<-|[]]. rewrite He in He'. injection He' as <-.
    rewrite Hf in Hf'. injection Hf' as <-. done. }
  intros x y Hx Hy Hd. apply Hin in Hx as [->| ->], Hy as [->| ->]; try done; by destruct Hne.
Qed.


Lemma chain_ok_tenants t l d : chain_ok t d -> chain_ok t (tb_set tenants_t l d).
Proof. intros [H1 H2 H3]. by split. Qed.

Lemma digests_differ_tenants t l d : digests_differ t d -> digests_differ t (tb_set tenants_t l d).
Proof. intros H x y Hx Hy. by apply (H x y). Qed.

Lemma run_exit_code_witness :
  let d := tb_set tenants_t (drop 1 (tenants demo_db)) (w_base demo_audited) in
  _run (Some "postgresql://") None true d = Ok 0%Z.
Proof.
  cbn zeta. refine (proj1 (run_exit_code "postgresql://" _ _) _); [discriminate|].
  intros t Hin. replace t with 1%N by (by destruct Hin as [<-|[]]).
  split; [reflexivity|]. split; [apply digests_differ_tenants, demo_digests_differ|apply chain_ok_tenants, demo_audited_ok].
Defined.

Lemma run_under_rls_exits_0_witness : _run (Some "postgresql://") None false demo_db = Ok 0%Z.
Proof. apply (run_under_rls_exits_0 "postgresql://"). discriminate. Defined.
End Witnesses.
