(* ===== verification/Tenants.v ===== *)
(** * Tenants (admin_api/api/tenants.py)

    The platform administrator's endpoints on the [tenants] table, under the
    settings of [_set_platform_admin_rls]. *)

From S2P Require Import Prelude PyStr PyJson PyJsonFacts PyTime WireIds AuditHash AuditChain.
From S2P Require Import Like Vault Tables Database Logic Ulid Sessions AuditEmit VerifyJob Demo.

Local Open Scope string_scope.
Local Open Scope py_scope.

Record CreateTenantRequest := MkCreateTenantRequest {
  ct_slug : string; ct_name : string; ct_isolation_mode : string }.

(** [settings] is a dict when given. *)
Record UpdateTenantRequest := MkUpdateTenantRequest {
  ut_display_name : option string; ut_status : option string; ut_settings : option dict }.

Section Tenants.
Context `{E : Env} `{V : Vault} `{Sha : Sha256}.

Definition _genesis_hash (tenant_id : string) : string :=
  hex_bytes (sha256 (utf8 (GENESIS_PREFIX +:+ tenant_id))).

Definition _set_platform_admin_rls : M unit :=
  execute (fun w => Ok (tt, set_guc (Some nil_uuid_text) true w)).

Definition create_tenant (body : CreateTenantRequest) : M response :=
  do! _set_platform_admin_rls in
  let! tenant_id := _new_tenant_id in
  let! internal_id := uuid4 in
  let! now := now_utc in
  let! inserted := catch
    (let! id := bound (uuid_str internal_id) in
     do! insert_into tenants_t {|
       t_id := id; t_slug := ct_slug body; t_display_name := ct_name body;
       t_isolation_mode := ct_isolation_mode body; t_status := "active"; t_settings := JObj [];
       t_created_at := now; t_updated_at := now |} in
     ret true)
    (fun e => match e with IntegrityError _ => ret false | _ => raise e end) in
  if inserted : bool then
    let genesis := _genesis_hash tenant_id in
    let! id := bound (uuid_str internal_id) in
    let! head := lift (fromhex genesis) in
    do! insert_into audit_chain_state_t (ChainRow id None (Some head)) in
    do! audit_emit internal_id "tenant.created" None "platform_admin" (Some (VUUID internal_id)) (Some "tenant")
      [("slug", JStr (ct_slug body)); ("name", JStr (ct_name body)); ("tenant_id", JStr tenant_id)] in
    ret (JSONResponse 201 [("tenant_id", JStr tenant_id); ("slug", JStr (ct_slug body))])
  else
    ret (JSONResponse 409 [("mintkey:code", JStr "tenant_already_exists");
                           ("title", JStr "A tenant with this slug already exists")]).

Definition tenant_json (row : tenant_row) : dict :=
  [("id", JStr (uuid_str (t_id row))); ("slug", JStr (t_slug row));
   ("display_name", JStr (t_display_name row)); ("isolation_mode", JStr (t_isolation_mode row));
   ("status", JStr (t_status row));
   ("settings", let s := from_jsonb (t_settings row) in if truthy s then s else JObj []);
   ("created_at", JStr (isoformat_utc (t_created_at row)));
   ("updated_at", JStr (isoformat_utc (t_updated_at row)))].

Definition list_tenants (q : option string) : M response :=
  do! _set_platform_admin_rls in
  let! rows := select tenants_t (fun t =>
    match q with
    | Some q => ilike env_fold (search_pattern q) (t_slug t) || ilike env_fold (search_pattern q) (t_display_name t)
    | None => true
    end) in
  let rows := sort_by (fun a b => Z.leb (t_created_at a) (t_created_at b)) rows in
  ret (JSONResponse 200 [("data", JArr (map (fun row => JObj (tenant_json row)) rows)); ("next_cursor", JNull)]).

Definition tenant_not_found : response :=
  JSONResponse 404 [("mintkey:code", JStr "not_found"); ("title", JStr "Tenant not found")].

Definition get_tenant (tid : string) : M response :=
  do! _set_platform_admin_rls in
  let! id := bound tid in
  let! rows := select tenants_t (fun t => N.eqb (t_id t) id) in
  match fetchone rows with
  | None => ret tenant_not_found
  | Some row => ret (JSONResponse 200 (tenant_json row))
  end.

(** [COALESCE(:p, column)] *)
Definition coalesce {A} (p : option A) (column : A) : A :=
  match p with Some a => a | None => column end.

Definition update_tenant (tid : string) (body : UpdateTenantRequest) : M response :=
  do! _set_platform_admin_rls in
  let! id := bound tid in
  let! rows := select tenants_t (fun t => N.eqb (t_id t) id) in
  match fetchone rows with
  | None => ret tenant_not_found
  | Some _ =>
      let! now := now_utc in
      let updates :=
        ((match ut_display_name body with Some n => [("display_name", JStr n)] | None => [] end) ++
         (match ut_status body with Some s => [("status", JStr s)] | None => [] end) ++
         (match ut_settings body with Some s => [("settings", JObj s)] | None => [] end))%list in
      do! (match updates with
           | [] => ret tt
           | _ =>
               let! settings := match ut_settings body with
                                | Some s => match bind_jsonb (JObj s) with
                                            | Some j => ret (Some j)
                                            | None => raise (DBError "expected str, got dict")
                                            end
                                | None => ret None
                                end in
               let! id := bound tid in
               update_where tenants_t (fun t => N.eqb (t_id t) id) (fun t => {|
                 t_id := t_id t; t_slug := t_slug t;
                 t_display_name := coalesce (ut_display_name body) (t_display_name t);
                 t_isolation_mode := t_isolation_mode t;
                 t_status := coalesce (ut_status body) (t_status t);
                 t_settings := coalesce settings (t_settings t);
                 t_created_at := t_created_at t; t_updated_at := now |})
           end) in
      let! tenant_uuid := lift (UUID tid) in
      do! audit_emit tenant_uuid "tenant.updated" None "platform_admin" (Some (VUUID tenant_uuid)) (Some "tenant")
        (dict_update [("tenant_id", JStr tid)] updates) in
      let! id := bound tid in
      let! rows := select tenants_t (fun t => N.eqb (t_id t) id) in
      match fetchone rows with
      | None => raise (RuntimeError "AssertionError")
      | Some updated => ret (JSONResponse 200 (tenant_json updated))
      end
  end.

Definition delete_tenant (tid : string) : M response :=
  do! _set_platform_admin_rls in
  let! id := bound tid in
  let! rows := select tenants_t (fun t => N.eqb (t_id t) id) in
  match fetchone rows with
  | None => ret tenant_not_found
  | Some row =>
      if String.eqb (t_status row) "deleted" then
        ret (JSONResponse 409 [("mintkey:code", JStr "tenant_already_deleted");
                               ("title", JStr "Tenant is already deleted")])
      else
        let! now := now_utc in
        let! id := bound tid in
        do! update_where tenants_t (fun t => N.eqb (t_id t) id) (fun t => {|
          t_id := t_id t; t_slug := t_slug t; t_display_name := t_display_name t;
          t_isolation_mode := t_isolation_mode t; t_status := "deleted"; t_settings := t_settings t;
          t_created_at := t_created_at t; t_updated_at := now |}) in
        let! tenant_uuid := lift (UUID tid) in
        do! audit_emit tenant_uuid "tenant.deleted" None "platform_admin" (Some (VUUID tenant_uuid)) (Some "tenant")
          [("tenant_id", JStr tid)] in
        ret (EmptyResponse 204)
  end.

(** ** A created tenant *)

(** The data after a successful creation. *)
Definition with_tenant (row : tenant_row) (head : string) (d : db) : db :=
  tb_set audit_chain_state_t (audit_chain_state d ++ [ChainRow (t_id row) None (Some head)])%list
    (tb_set tenants_t (tenants d ++ [row])%list d).

#[local] Opaque uuid_str genesis_hash utf8 ulid.

Lemma create_tenant_Ok body w r w' :
  transaction (create_tenant body) w = (Ok r, w') -> status_code r = 201%Z ->
  exists row ts rand ev,
    (t_id row < uuid_limit)%N /\ t_slug row = ct_slug body /\
    fresh t_id (t_id row) (tenants (w_base w)) = true /\
    chain_state_of (t_id row) (w_base w) = [] /\
    let d := with_tenant row (genesis_hash ("tenant_" +:+ ulid ts rand)) (w_base w) in
    emitted (t_id row) "tenant.created" None "platform_admin" (Some (VUUID (t_id row))) (Some "tenant")
      [("slug", JStr (ct_slug body)); ("name", JStr (ct_name body));
       ("tenant_id", JStr ("tenant_" +:+ ulid ts rand))] d ev /\
    w_base w' = append_event (t_id row) ev d.
Proof.
  intros H Hst. apply transaction_Ok in H as (w1 & H & Hw'). unfold create_tenant in H.
  step H as u1 wa Hr. apply execute_Ok in Hr as [_ Hr]. apply Ok_inj in Hr. injection Hr as <- <-.
  set (wa := set_guc _ _ _) in H. assert (Ka : w_base wa = w_base w /\ w_db wa = w_base w) by done. clearbody wa.
  destruct Ka as [Kb Kd].
  step H as tid wb Hr. unfold _new_tenant_id, new_id in Hr.
  step Hr as tq wc H1. apply time_eff in H1 as (K1 & _ & D1). set (ts := milliseconds tq) in *. step Hr as rand wd H1.
  apply uuid4_eff in H1 as (K2 & _ & D2 & _).
  apply ret_Ok in Hr as [-> ->]. set (tid := "tenant_" +:+ ulid ts rand) in *.
  step H as id we Hr. apply uuid4_eff in Hr as (K3 & _ & D3 & Hid).
  step H as now wf Hr. apply now_eff in Hr as (K4 & _ & D4).
  rewrite !(bound_str id) in H by done.
  step H as inserted wg Hr. rewrite bind_ret in Hr. unfold catch, bind in Hr.
  destruct (insert_into tenants_t _ _) as [[u|e] wi] eqn:Ei.
  2: { destruct e; try done. injection Hr as <- <-. apply ret_Ok in H as [-> _]. discriminate. }
  injection Hr as <- <-. apply insert_eff in Ei as (K5 & _ & Hc & D5). rewrite bind_ret in H.
  set (row := TenantRow id _ _ _ _ _ _ _) in *.
  step H as head wh Hr. apply lift_Ok in Hr as [Hr ->]. unfold _genesis_hash in Hr.
  rewrite fromhex_hex in Hr. apply Ok_inj in Hr. subst head.
  step H as u2 wk Hr. apply insert_eff in Hr as (K6 & _ & Hc2 & D6).
  step H as u3 wl Hr. apply ret_Ok in H as [-> ->].
  apply audit_emit_Ok in Hr as (ev & Hev & _ & Htx & Edb & _); [|done|done].
  rewrite Htx in Hw'. subst w'. cbn [w_base committed tick w_db].
  assert (Ed : w_db wf = w_base w) by congruence. rewrite D5, Ed in D6. rewrite Ed in Hc. rewrite D5, Ed in Hc2.
  clear K1 K2 K3 K4 K5 K6 D1 D2 D3 D4 D5.
  assert (Ewk : w_db wk = with_tenant row (genesis_hash tid) (w_base w)) by exact D6.
  rewrite Ewk in Hev, Edb. exists row, ts, rand, ev. split; [done|]. split; [done|].
  split; [|split; [|split; [exact Hev|exact Edb]]].
  - cbn [tb_check tenants_t first_violation] in Hc. cbn [t_id row] in *. by destruct (fresh t_id id _).
  - cbn [tb_check audit_chain_state_t first_violation c_tenant_id] in Hc2.
    destruct (fresh c_tenant_id id _) eqn:Ef; [|done]. cbn [tb_set tenants_t audit_chain_state] in Ef.
    apply filter_none. intros c Hin. apply N.eqb_neq. intros Heq.
    apply fresh_spec in Ef. apply Ef, in_map_iff. exists c. split; [exact Heq|exact Hin].
Qed.

(** A single event whose link is not the genesis hash of the stored tenant is rejected. *)
Lemma lone_event_rejected t r e :
  chain_event_from_row (row_view r) = Ok e -> ce_tenant_id e = uuid_str t ->
  ce_prev_hash e <> genesis_hash (uuid_str t) ->
  exists vr, verify_rows (map row_view [r]) = Ok vr /\ vr_ok vr = false.
Proof.
  intros He Ht Hp. unfold verify_rows. cbn [map mapM_out]. rewrite He. cbn [mbind outcome_bind].
  unfold verify_events. rewrite Ht. cbn [length repeat verify_loop].
  assert (Hn : next_index [e] [false] (genesis_hash (uuid_str t)) = None).
  { unfold next_index. cbn [zip zip_with find_index negb andb].
    by rewrite (proj2 (String.eqb_neq _ _) Hp). }
  rewrite Hn. cbn [mbind outcome_bind]. by eexists.
Qed.

(** Two genesis hashes of different texts differ, unless these texts collide. *)
Lemma genesis_neq a b : utf8 (GENESIS_PREFIX +:+ a) <> utf8 (GENESIS_PREFIX +:+ b) ->
  genesis_hash a <> genesis_hash b \/ collides (utf8 (GENESIS_PREFIX +:+ a)) (utf8 (GENESIS_PREFIX +:+ b)).
Proof. intros Hne. destruct (decide (genesis_hash a = genesis_hash b)) as [Heq|]; [by right|by left]. Qed.

#[local] Transparent uuid_str utf8.
Lemma tenant_text_not_uuid s u :
  utf8 (GENESIS_PREFIX +:+ "tenant_" +:+ s) <> utf8 (GENESIS_PREFIX +:+ uuid_str u).
Proof.
  intros H. apply (f_equal chars) in H. unfold utf8 in H. rewrite !chars_unchars, !chars_app, !flat_map_app in H.
  apply app_inv_head in H.
  pose proof (py_len_hex32 u) as Hlen. pose proof (hex32_low u) as Hlow.
  unfold uuid_str in H. rewrite chars_dashed in H. unfold py_len in Hlen.
  destruct (chars (hex32 u)) as [|c l]; [done|]. cbn [take app flat_map] in H.
  specialize (Hlow c (or_introl eq_refl)). change (chars "tenant_") with ["t"; "e"; "n"; "a"; "n"; "t"; "_"]%char in H.
  cbn [flat_map app] in H. change (utf8_char "t") with ["t"%char] in H.
  assert (Hc : utf8_char c = [c]).
  { revert Hlow. unfold is_hex_low, _HEX. cbn. intros Hlow. 
    repeat (apply orb_true_iff in Hlow as [Hlow|Hlow]; [apply Ascii.eqb_eq in Hlow as ->; reflexivity|]).
    discriminate. }
  rewrite Hc in H. cbn [app] in H. injection H as <- _. discriminate.
Qed.
#[local] Opaque uuid_str utf8.
End Tenants.

(** ** Properties *)

Section Properties.
Context `{E : Env} `{V : Vault} `{Sha : Sha256}.

(** Every audit event belongs to a stored tenant (fk_audit_events_tenant). *)
Definition events_fk (d : db) : Prop :=
  forall e, In e (audit_events d) -> In (e_tenant_id e) (map t_id (tenants d)).

(** Every tenant created through the API has a broken audit chain.  [create_tenant] seeds
    [audit_chain_state] with the genesis hash of the wire identifier [tenant_<ULID>], while the
    verifier starts from the genesis hash of the tenant's UUID, an independent random number:
    after a successful creation the new tenant has exactly one event, and the verification job
    rejects it, unless the two genesis texts collide. *)
Theorem created_tenant_chain_broken body w r w' :
  events_fk (w_base w) ->
  transaction (create_tenant body) w = (Ok r, w') -> status_code r = 201%Z ->
  exists t, In t (map t_id (tenants (w_base w'))) /\ length (events_of t (w_base w')) = 1%nat /\
    ((exists vr, verify_rows (map row_view (events_of t (w_base w'))) = Ok vr /\ vr_ok vr = false) \/
     exists ts rand, collides (utf8 (GENESIS_PREFIX +:+ "tenant_" +:+ ulid ts rand))
                              (utf8 (GENESIS_PREFIX +:+ uuid_str t))).
Proof.
  intros Hfk H Hst. destruct (create_tenant_Ok _ _ _ _ H Hst) as (row & ts & rand & ev & Hid & _ & Hf & Hcs & Hev & Hb).
  set (d := with_tenant row _ _) in *. exists (t_id row). rewrite Hb.
  pose proof (em_tenant _ _ _ _ _ _ _ _ _ Hev) as Et.
  assert (He0 : events_of (t_id row) d = []).
  { apply filter_none. intros e Hin. apply N.eqb_neq. intros Heq. apply Hfk in Hin.
    apply fresh_spec in Hf. by rewrite Heq in Hin. }
  destruct (append_event_same (t_id row) ev d Et) as [Ee _]. rewrite Ee, He0. cbn [app].
  split; [|split; [done|]].
  { change (tenants (append_event (t_id row) ev d)) with (tenants (w_base w) ++ [row])%list.
    rewrite map_app. apply in_or_app. right. by left. }
  assert (Hw : json_wf (JObj [("slug", JStr (ct_slug body)); ("name", JStr (ct_name body));
                              ("tenant_id", JStr ("tenant_" +:+ ulid ts rand))])).
  { apply json_wf_obj. split; [|by repeat constructor].
    apply NoDup_ListNoDup, (bool_decide_unpack _). reflexivity. }
  destruct (emitted_view _ _ _ _ _ _ _ _ _ Hid uuid_opt_none Hw Hev) as (e & Hv & _ & _ & Hp & _ & _).
  assert (Hro : row_ok ev).
  { split; [apply (em_id _ _ _ _ _ _ _ _ _ Hev)|].
    rewrite (em_payload _ _ _ _ _ _ _ _ _ Hev). by apply jsonb_obj. }
  destruct (view_event ev e Hro Hv) as (_ & _ & _ & Hten). rewrite Et in Hten. specialize (Hten Hid).
  destruct (genesis_neq ("tenant_" +:+ ulid ts rand) (uuid_str (t_id row))) as [Hne|]; [apply tenant_text_not_uuid| |by right; exists ts, rand].
  left. apply (lone_event_rejected _ _ _ Hv Hten). rewrite Hp.
  pose proof (em_prev _ _ _ _ _ _ _ _ _ Hev) as Eprev.
  assert (Ecs : chain_state_of (t_id row) d = [ChainRow (t_id row) None (Some (genesis_hash ("tenant_" +:+ ulid ts rand)))]).
  { unfold chain_state_of, d, with_tenant. cbn [tb_set audit_chain_state_t audit_chain_state].
    rewrite List.filter_app. unfold chain_state_of in Hcs. rewrite Hcs. cbn [List.filter c_tenant_id app].
    by rewrite N.eqb_refl. }
  rewrite Ecs in Eprev. cbn [c_head_hash] in Eprev. apply Some_inj in Eprev. by rewrite <- Eprev.
Qed.
End Properties.

(** ** Witnesses *)

Section Witnesses.
#[local] Existing Instance demo_env.
#[local] Existing Instance demo_vault.
#[local] Existing Instance toy_sha256.

Lemma created_tenant_chain_broken_witness :
  exists w', exists t, In t (map t_id (tenants (w_base w'))) /\ length (events_of t (w_base w')) = 1%nat /\
    ((exists vr, verify_rows (map row_view (events_of t (w_base w'))) = Ok vr /\ vr_ok vr = false) \/
     exists ts rand, collides (utf8 (GENESIS_PREFIX +:+ "tenant_" +:+ ulid ts rand))
                              (utf8 (GENESIS_PREFIX +:+ uuid_str t))).
Proof.
  destruct (run_returns (transaction (create_tenant (MkCreateTenantRequest "globex" "Globex" "shared")))
    (fun r => Z.eqb (status_code r) 201) demo_world) as (r & Hr & E1); [vm_compute; reflexivity|].
  eexists. apply Z.eqb_eq in Hr.
  refine (created_tenant_chain_broken (MkCreateTenantRequest "globex" "Globex" "shared") demo_world r _ _ E1 Hr).
  intros e [].
Defined.
End Witnesses.
