(* ===== verification/AuditAdmin.v ===== *)
(** * Audit endpoints of the admin API

    The platform administrator's on-demand verification and tamper
    acknowledgement (api/audit_admin.py), the access audit they emit
    (middleware/platform_admin_audit.py), and the tenant's event list
    (api/audit.py).  Timestamps of the list's filters are taken parsed. *)

From S2P Require Import Prelude PyStr PyJson PyJsonFacts PyTime WireIds AuditHash AuditChain.
From S2P Require Import Like Vault Tables Database Logic Sessions AuditEmit VerifyJob Demo.

Local Open Scope string_scope.
Local Open Scope py_scope.

(** The parts of the request the endpoints read. *)
Record request := Request { rq_session_cookie : option string; rq_method : string; rq_path : string }.

Section AuditAdmin.
Context `{E : Env} `{V : Vault} `{Sha : Sha256}.

(** The system tenant. *)
Definition _SYSTEM_TENANT_ID : uuid := 0.

Definition emit_platform_admin_access (rq : request) (tenant_id resource_type : string) : M unit :=
  match session_token (rq_session_cookie rq) with
  | None => ret tt
  | Some token =>
      let! ctx := on_own_connection (validate_session token) in
      match ctx with
      | None => ret tt
      | Some ctx =>
          let! admin := on_own_connection (_is_operator_platform_admin (ctx_operator_id ctx)) in
          if admin : bool then
            audit_emit _SYSTEM_TENANT_ID "platform_admin.access" (Some (ctx_operator_id ctx)) "platform_admin"
              None (Some resource_type)
              [("resource_type", JStr resource_type); ("viewed_tenant_id", JStr tenant_id);
               ("method", JStr (rq_method rq)); ("path", JStr (rq_path rq))]
          else ret tt
      end
  end.

Definition verify_chain_endpoint (rq : request) (tenant_id : string) : M response :=
  do! emit_platform_admin_access rq tenant_id "audit_verify_chain" in
  let! tid := bound tenant_id in
  let! rows := select audit_events_t (fun r => N.eqb (e_tenant_id r) tid) in
  let! events := lift (mapM_out (fun r => chain_event_from_row (row_view r)) (sort_by by_at_id rows)) in
  let! chain := lift (verify_events events) in
  if cr_ok chain then
    let! now := now_utc in
    ret (JSONResponse 200
      [("ok", JBool true); ("chain_length", JInt (Z.of_nat (cr_chain_length chain)));
       ("last_event_id", opt_json (cr_last_event_id chain)); ("verified_at", JStr (isoformat_utc now))])
  else
    ret (JSONResponse 200
      [("ok", JBool false); ("first_bad_event_id", opt_json (cr_first_bad_event_id chain));
       ("expected_hash", opt_json (hex_bytes <$> cr_expected_hash chain));
       ("actual_hash", opt_json (hex_bytes <$> cr_actual_hash chain))]).

(** The [tenant_id] of this handler is text: [audit_emit] reads [tenant_id.bytes]. *)
Definition acknowledge_tamper (tenant_id event_id : string) : M response :=
  let! tid := bound tenant_id in
  let! rows := select tenants_t (fun t => N.eqb (t_id t) tid) in
  match fetchone rows with
  | None => ret (JSONResponse 404 [("mintkey:code", JStr "tenant_not_found")])
  | Some _ => raise (AttributeError "'str' object has no attribute 'bytes'")
  end.

(** ** The tenant's event list *)

Record event_filter := EventFilter {
  ef_q : option string; ef_agent_id : option string; ef_service_id : option string;
  ef_event_type : option string; ef_actor_id : option string; ef_actor_type : option string;
  ef_target_id : option string; ef_target_type : option string;
  ef_from : option Z; ef_to : option Z; ef_after : option string; ef_limit : Z }.

(** [:p IS NULL OR test] *)
Definition unless_null {A} (p : option A) (test : A -> bool) : bool :=
  match p with None => true | Some a => test a end.

(** A comparison with a NULL column is not true. *)
Definition eq_opt (column : option string) (s : string) : bool :=
  match column with Some c => String.eqb c s | None => false end.

(** [payload->>key] *)
Definition payload_text (key : string) (payload : json) : option string :=
  match payload with
  | JObj kvs => match dict_get key kvs with
                | None | Some JNull => None
                | Some (JStr s) => Some s
                | Some j => Some (dumps j)
                end
  | _ => None
  end.

Definition matches (f : event_filter) (after : option uuid) (r : audit_row) : bool :=
  unless_null after (fun u => N.ltb u (e_id r))
  && unless_null (ef_event_type f) (String.eqb (e_event_type r))
  && unless_null (ef_q f) (fun q => ilike env_fold (search_pattern q) (e_event_type r))
  && unless_null (ef_from f) (fun t => Z.leb t (e_at r))
  && unless_null (ef_to f) (fun t => Z.ltb (e_at r) t)
  && unless_null (ef_agent_id f) (eq_opt (payload_text "agent_id" (e_payload r)))
  && unless_null (ef_service_id f) (eq_opt (payload_text "service_id" (e_payload r)))
  && unless_null (ef_actor_id f) (eq_opt (uuid_str <$> e_actor_id r))
  && unless_null (ef_actor_type f) (eq_opt (e_actor_type r))
  && unless_null (ef_target_id f) (eq_opt (uuid_str <$> e_target_id r))
  && unless_null (ef_target_type f) (eq_opt (e_target_type r)).

Definition _bytes_to_hex (value : option string) : option string := hex_bytes <$> value.

Definition _row_to_dict (row : audit_row) : dict :=
  [("id", JStr (uuid_str (e_id row))); ("event_type", JStr (e_event_type row));
   ("tenant_id", JStr (uuid_str (e_tenant_id row)));
   ("actor_id", opt_json (uuid_str <$> e_actor_id row)); ("actor_type", opt_json (e_actor_type row));
   ("target_id", opt_json (uuid_str <$> e_target_id row)); ("target_type", opt_json (e_target_type row));
   ("payload", match from_jsonb (e_payload row) with JObj p => JObj p | _ => JObj [] end);
   ("hash", opt_json (_bytes_to_hex (Some (e_hash row))));
   ("prev_hash", opt_json (_bytes_to_hex (Some (e_prev_hash row))));
   ("created_at", JStr (isoformat_utc (e_at row)))].

(** [LIMIT :limit] refuses a negative limit. *)
Definition limit_rows {R} (limit : Z) (rows : list R) : outcome (list R) :=
  if Z.ltb limit 0 then Raise (DBError "LIMIT must not be negative") else Ok (take (Z.to_nat limit) rows).

Definition list_audit_events (tenant_id : uuid) (f : event_filter) : M response :=
  do! set_tenant_context (uuid_str tenant_id) false in
  let! tid := bound (uuid_str tenant_id) in
  let! after := bound_opt (ef_after f) in
  let! rows := select audit_events_t (fun r => N.eqb (e_tenant_id r) tid && matches f after r) in
  let! rows := lift (limit_rows (ef_limit f) (order_by e_id rows)) in
  let events := map (fun r => JObj (_row_to_dict r)) rows in
  let! next_cursor := lift (if Z.eqb (Z.of_nat (length rows)) (ef_limit f)
                            then match last rows with
                                 | Some r => Ok (JStr (uuid_str (e_id r)))
                                 | None => Raise (IndexError "list index out of range")
                                 end
                            else Ok JNull) in
  ret (JSONResponse 200 [("events", JArr events); ("next_cursor", next_cursor)]).

End AuditAdmin.

(** ** Without a tenant setting *)

Section NoTenant.
Context `{E : Env} `{V : Vault} `{Sha : Sha256}.

(** The policy hides every row while no tenant is set. *)
Lemma policy_no_guc w : w_tenant w = None -> w_admin_view w = false -> policy w = Ok (fun _ => false).
Proof. intros Ht Ha. unfold policy. by rewrite Ht, Ha. Qed.

(** [audit_emit] cannot insert: the row violates the policy. *)
Lemma audit_emit_no_guc t event_type actor actor_type target target_type payload w u w' :
  (t < uuid_limit)%N -> uuid_opt_ok actor -> w_tenant w = None -> w_admin_view w = false ->
  audit_emit t event_type actor actor_type target target_type payload w = (Ok u, w') -> False.
Proof.
  intros Ht Ha Hten Hadm H.
  apply audit_emit_Ok in H as (r & _ & _ & _ & _ & _ & _ & _ & _ & _ & _ & pol & Hp & Hs); [|done..].
  rewrite policy_no_guc in Hp by done. apply Ok_inj in Hp. by subst pol.
Qed.

Lemma own_connection_run {A} (m : M A) w o :
  (forall w0, w_base w0 = w_base w -> w_tick w0 = w_tick w -> exists w1, m w0 = (o, w1) /\ w_base w1 = w_base w0) ->
  exists w1, on_own_connection m w = (o, w1) /\ w_base w1 = w_base w /\ w_tenant w1 = w_tenant w /\
    w_admin_view w1 = w_admin_view w /\ w_db w1 = w_db w.
Proof.
  intros H. unfold on_own_connection.
  set (w0 := World _ (w_base w) (w_base w) TxDone _ _ _ _ _ _ _).
  destruct (H w0 eq_refl eq_refl) as (w1 & -> & E1). eexists. split; [reflexivity|]. cbn. by rewrite E1.
Qed.

Lemma emit_access_refused rq tenant_id resource w :
  no_faults -> pg_uuid_in nil_uuid_text = Some 0%N -> sessions_wf (w_base w) ->
  w_tenant w = None -> w_admin_view w = false ->
  cookie_allows (rq_session_cookie rq) (is_platform_session (w_base w) (session_now w)) = true ->
  exists e w', emit_platform_admin_access rq tenant_id resource w = (Raise e, w').
Proof.
  intros Hnf Hnil [Hs Ho Hid] Hten Hadm Hc. unfold emit_platform_admin_access, cookie_allows in *.
  destruct (session_token (rq_session_cookie rq)) as [token|]; [|done].
  unfold is_platform_session in Hc.
  destruct (own_connection_run (validate_session token) w
    (match UUID token with
     | Raise _ => Ok None
     | Ok _ => match pg_uuid_in token with
               | None => Raise (DBError "invalid input syntax for type uuid")
               | Some id => Ok ((fun r => SessionCtx (ss_operator_id r) (ss_tenant_id r))
                                  <$> live_session (w_base w) (session_now w) id)
               end
     end)) as (w1 & Ev & Eb & Et & Ea & Ed).
  { intros w0 E0 Etk. rewrite <- E0 in Hs. destruct (validate_session_run Hnf Hnil token w0 Hs) as (w1 & E1 & _ & _ & Ev).
    exists w1. split; [|done]. rewrite Ev. unfold session_now. by rewrite E0, Etk. }
  unfold bind at 1. rewrite Ev. destruct (UUID token); [|done]. destruct (pg_uuid_in token) as [id|]; [|done].
  destruct (live_session (w_base w) (session_now w) id) as [r|] eqn:El; [|done].
  cbn [fmap option_fmap option_map ctx_operator_id].
  assert (Hop : (ss_operator_id r < uuid_limit)%N) by (apply List.find_some in El as [? _]; by apply Hid).
  destruct (own_connection_run (_is_operator_platform_admin (ss_operator_id r)) w1
    (Ok (match operator_of (w_base w) (ss_operator_id r) with Some o => o_is_platform_admin o | None => false end)))
    as (w2 & Ev2 & Eb2 & Et2 & Ea2 & Ed2).
  { intros w0 E0 _. rewrite <- Eb, <- E0 in Ho.
    destruct (is_platform_admin_run Hnf Hnil (ss_operator_id r) w0 Hop Ho) as (w3 & E3 & _ & _ & Ev3).
    exists w3. split; [|done]. by rewrite Ev3, E0, Eb. }
  unfold bind at 1. rewrite Ev2.
  destruct (operator_of (w_base w) (ss_operator_id r)) as [o|]; [|done]. rewrite Hc.
  destruct (audit_emit _ _ _ _ _ _ _ w2) as [[u|e] w3] eqn:Eemit; [exfalso|by eexists _, _].
  eapply audit_emit_no_guc; [| | | |exact Eemit].
  - done.
  - by apply uuid_opt_some.
  - by rewrite Et2, Et.
  - by rewrite Ea2, Ea.
Qed.
End NoTenant.

(** ** Properties *)

Section Properties.
Context `{E : Env} `{V : Vault} `{Sha : Sha256}.

(** the on-demand verification endpoint never answers.  It sets no tenant, so under the
    row-level-security policy of [audit_events] the access event it emits first, for every
    platform administrator, cannot be inserted: the request ends in an exception, and nothing is
    committed. *)
Theorem verify_chain_endpoint_fails rq tenant_id w :
  no_faults -> pg_uuid_in nil_uuid_text = Some 0%N -> sessions_wf (w_base w) ->
  cookie_allows (rq_session_cookie rq) (is_platform_session (w_base w) (session_now (begin w))) = true ->
  exists e w', transaction (verify_chain_endpoint rq tenant_id) w = (Raise e, w').
Proof.
  intros Hnf Hnil Hwf Hc. unfold transaction, verify_chain_endpoint, bind at 1.
  destruct (emit_access_refused rq tenant_id "audit_verify_chain" (begin w)) as (e & w1 & ->); try done.
  by eexists _, _.
Qed.

(** a tampered chain cannot be acknowledged.  For the same reason [acknowledge_tamper] finds
    no tenant: a request that gets an answer at all gets 404, whatever tenant it names, and the
    committed data is unchanged. *)
Theorem acknowledge_tamper_404 tenant_id event_id w r w' :
  transaction (acknowledge_tamper tenant_id event_id) w = (Ok r, w') ->
  r = JSONResponse 404 [("mintkey:code", JStr "tenant_not_found")] /\ w_base w' = w_base w.
Proof.
  intros H. apply transaction_Ok in H as (w1 & H & Hw). unfold acknowledge_tamper in H.
  step H as tid w2 Hr. apply bound_Ok in Hr as [_ ->]. step H as rows w2 Hr.
  apply select_Ok in Hr as (pol & Hp & _ & -> & ->).
  rewrite policy_no_guc in Hp by done. apply Ok_inj in Hp. subst pol.
  rewrite filter_none in H by done. cbn [fetchone head] in H.
  apply ret_Ok in H as [-> ->]. cbn [w_tx tick begin] in Hw. by subst w'.
Qed.

(** The rows a listing is about, in order. *)
Definition listing (t : uuid) (f : event_filter) (after : option uuid) (d : db) : list audit_row :=
  order_by e_id (List.filter (fun r => N.eqb (e_tenant_id r) t && matches f after r) (audit_events d)).

Lemma list_audit_events_Ok t f w r w' :
  (t < uuid_limit)%N -> transaction (list_audit_events t f) w = (Ok r, w') ->
  exists after, same_target (ef_after f) after /\ (0 <= ef_limit f)%Z /\
    let page := take (Z.to_nat (ef_limit f)) (listing t f after (w_base w)) in
    exists cursor, r = JSONResponse 200 [("events", JArr (map (fun r => JObj (_row_to_dict r)) page));
                                         ("next_cursor", cursor)] /\
      cursor = (if Z.eqb (Z.of_nat (length page)) (ef_limit f)
                then match last page with Some x => JStr (uuid_str (e_id x)) | None => JNull end else JNull) /\
      (Z.of_nat (length page) = ef_limit f -> page <> []).
Proof.
  intros Ht H. apply transaction_Ok in H as (w1 & H & _). unfold list_audit_events in H.
  step H as u w2 Hr. apply set_tenant_Ok in Hr as [_ ->]. rewrite bound_str, bind_ret in H by done.
  step H as after w2 Hr. apply bound_opt_Ok in Hr as [-> Hafter].
  step H as rows w2 Hr. apply select_Ok in Hr as (pol & Hp & _ & -> & ->).
  unfold policy in Hp. cbn [w_tenant set_guc w_admin_view tick begin] in Hp. rewrite pg_uuid_in_str in Hp by done.
  apply Ok_inj in Hp. subst pol.
  step H as page w2 Hr. apply lift_Ok in Hr as [Hl ->]. unfold limit_rows in Hl.
  destruct (Z.ltb_spec (ef_limit f) 0) as [|Hpos]; [done|]. apply Ok_inj in Hl.
  step H as cursor w2 Hr. apply lift_Ok in Hr as [Hc ->]. apply ret_Ok in H as [-> _].
  exists after. split; [done|]. split; [done|]. cbn zeta.
  assert (Epage : take (Z.to_nat (ef_limit f)) (listing t f after (w_base w)) = page).
  { rewrite <- Hl. unfold listing. do 2 f_equal. apply filter_ext. intros x. cbn.
    rewrite orb_false_r. destruct (N.eqb (e_tenant_id x) t); done. }
  rewrite Epage. exists cursor. split; [done|].
  destruct (Z.eqb (Z.of_nat (length page)) (ef_limit f)) eqn:El.
  - destruct (last page) as [x|] eqn:Ex; [|done]. apply Ok_inj in Hc. split; [done|]. intros _ ->. done.
  - apply Ok_inj in Hc. split; [done|]. intros Hlen. by rewrite (proj2 (Z.eqb_eq _ _) Hlen) in El.
Qed.


Lemma matches_after f after r :
  matches f after r = unless_null after (fun u => is_after e_id u r) && matches f None r.
Proof. unfold matches. cbn [unless_null]. by rewrite <- !andb_assoc. Qed.

(** The rows after a row of the listing are the listing with that row as its cursor. *)
Lemma listing_after t f after d x :
  In x (listing t f after d) ->
  List.filter (is_after e_id (e_id x)) (listing t f after d) = listing t f (Some (e_id x)) d.
Proof.
  intros Hx. unfold listing in *. rewrite filter_order_by, filter_filter. f_equal. apply filter_ext. intros r.
  apply (Permutation_in _ (order_by_perm _ _)), List.filter_In in Hx as [_ Hx].
  rewrite (matches_after f after x) in Hx. rewrite (matches_after f after r), (matches_after f (Some _) r).
  destruct after as [u|]; cbn [unless_null] in *; unfold is_after in *;
    [|destruct (e_id x <? e_id r)%N, (e_tenant_id r =? t)%N; reflexivity].
  apply andb_true_iff in Hx as [_ Hx]. apply andb_true_iff in Hx as [Hu _].
  destruct (N.ltb_spec (e_id x) (e_id r)); [|by rewrite andb_false_r].
  rewrite (proj2 (N.ltb_lt u (e_id r))); [done|]. apply N.ltb_lt in Hu. lia.
Qed.

Lemma listing_strict t f after d :
  List.NoDup (map e_id (audit_events d)) -> StronglySorted (key_lt e_id) (listing t f after d).
Proof.
  intros Hn. apply sorted_strict; [apply order_by_sorted|].
  eapply Permutation_NoDup; [apply Permutation_map; symmetry; apply order_by_perm|].
  by apply NoDup_map_filter.
Qed.

(** Paging through the event list visits every event once.  An answered request had a positive
    limit; the rows it is about (the tenant's, matching the filters, after the cursor) are its page
    followed by a rest, and the rest is empty when [next_cursor] is null and otherwise exactly the
    listing with [next_cursor] as its cursor. *)
Theorem audit_pages t f w r w' :
  (t < uuid_limit)%N -> List.NoDup (map e_id (audit_events (w_base w))) ->
  transaction (list_audit_events t f) w = (Ok r, w') ->
  (0 < ef_limit f)%Z /\
  exists after page rest cursor,
    same_target (ef_after f) after /\
    listing t f after (w_base w) = (page ++ rest)%list /\
    r = JSONResponse 200 [("events", JArr (map (fun r => JObj (_row_to_dict r)) page)); ("next_cursor", cursor)] /\
    ((cursor = JNull /\ rest = []) \/
     exists x, last page = Some x /\ cursor = JStr (uuid_str (e_id x)) /\
               rest = listing t f (Some (e_id x)) (w_base w)).
Proof.
  intros Ht Hn H. apply list_audit_events_Ok in H as (after & Ha & Hpos & cursor & -> & Hc & Hne); [|done].
  set (l := listing t f after (w_base w)) in *. set (n := Z.to_nat (ef_limit f)) in *.
  assert (Hlen : length (take n l) = Z.to_nat (ef_limit f) -> Z.of_nat (length (take n l)) = ef_limit f)
    by (intros ->; lia).
  split.
  { destruct (Z.eq_dec (ef_limit f) 0%Z) as [E0|]; [exfalso|lia]. apply Hne; [rewrite Hlen|];
      unfold n; rewrite E0; done. }
  exists after, (take n l), (drop n l), cursor. rewrite take_drop. split; [done|]. do 2 (split; [done|]).
  destruct (Z.eqb_spec (Z.of_nat (length (take n l))) (ef_limit f)) as [El|El].
  - right. destruct (last (take n l)) as [x|] eqn:Ex; [|by apply last_None in Ex; apply Hne in El].
    exists x. split; [done|]. split; [done|].
    assert (Hx : In x l).
    { apply last_Some in Ex as [pre Hp]. rewrite <- (take_drop n l), Hp. apply in_or_app. left. apply in_or_app. right. by left. }
    rewrite <- (after_page e_id l n x (listing_strict t f after _ Hn) Ex). by apply listing_after.
  - left. split; [done|]. apply drop_ge. rewrite length_take in El. unfold n in *. lia.
Qed.
End Properties.

(** ** Witnesses *)

Section Witnesses.
#[local] Existing Instance demo_env.
#[local] Existing Instance demo_vault.
#[local] Existing Instance toy_sha256.

Lemma verify_chain_endpoint_fails_witness :
  exists e w', transaction (verify_chain_endpoint (Request (Some (uuid_str 5)) "POST" "/v1/audit") (uuid_str 1)) demo_world
    = (Raise e, w').
Proof.
  refine (verify_chain_endpoint_fails (Request (Some (uuid_str 5)) "POST" "/v1/audit") (uuid_str 1) demo_world
    demo_no_faults demo_nil demo_sessions_wf _). vm_compute. reflexivity.
Defined.

Lemma acknowledge_tamper_404_witness :
  exists w', transaction (acknowledge_tamper (uuid_str 1) (uuid_str 2)) demo_world
    = (Ok (JSONResponse 404 [("mintkey:code", JStr "tenant_not_found")]), w') /\ w_base w' = demo_db.
Proof.
  destruct (run_returns (transaction (acknowledge_tamper (uuid_str 1) (uuid_str 2))) (fun _ => true) demo_world)
    as (r & _ & E1); [vm_compute; reflexivity|].
  eexists. rewrite E1.
  destruct (acknowledge_tamper_404 (uuid_str 1) (uuid_str 2) demo_world r _ E1) as [-> Eb].
  split; [reflexivity|exact Eb].
Defined.

Definition no_filter (limit : Z) : event_filter :=
  EventFilter None None None None None None None None None None None limit.

Lemma audit_pages_witness :
  exists r w', transaction (list_audit_events 1 (no_filter 1)) demo_audited = (Ok r, w') /\
  exists after page rest cursor, same_target None after /\
    listing 1 (no_filter 1) after (w_base demo_audited) = (page ++ rest)%list /\
    r = JSONResponse 200 [("events", JArr (map (fun r => JObj (_row_to_dict r)) page)); ("next_cursor", cursor)] /\
    ((cursor = JNull /\ rest = []) \/
     exists x, last page = Some x /\ cursor = JStr (uuid_str (e_id x)) /\
               rest = listing 1 (no_filter 1) (Some (e_id x)) (w_base demo_audited)).
Proof.
  destruct (run_returns (transaction (list_audit_events 1 (no_filter 1))) (fun _ => true) demo_audited)
    as (r & _ & E1); [vm_compute; reflexivity|].
  exists r. eexists. split; [exact E1|].
  refine (proj2 (audit_pages 1%N (no_filter 1) demo_audited r _ eq_refl _ E1)).
  apply NoDup_ListNoDup, (bool_decide_unpack _). vm_compute. reflexivity.
Defined.
End Witnesses.
