(* ===== verification/AgentSecrets.v ===== *)
(** * Agent secrets, operator surface (admin_api/api/agent_secrets.py)

    The REST handlers on secrets and share grants.  The authorisation
    dependency and the session context are of [Sessions]; [authorized]
    composes them with a handler as the router does. *)

From S2P Require Import Prelude PyStr PyJson PyJsonFacts PyTime WireIds AuditHash AuditChain PyText.
From S2P Require Import Vault Tables Database Logic Sessions AuditEmit.

Local Open Scope string_scope.
Local Open Scope py_scope.

(** [str(exc)] of an exception of an INSERT with these text parameters: the database names the
    unique constraint, and the driver appends the statement and its parameters. *)
Class ExcText := {
  exc_text : exn -> list string -> string;
  exc_text_unique : forall c ps, startswith c "fk_" = false ->
    py_in "unique" (lower (exc_text (IntegrityError c) ps)) = true }.

(** ** The vault clients *)

Section Client.
Context `{V : Vault} `{E : Env}.

Definition put_agent_secret (tenant_id secret_id value : string) : M unit :=
  vault_call (fun s => s' ← vault_put tenant_id secret_id value s; Ok (tt, s')).

(** [None] when the vault answers NOT_FOUND. *)
Definition get_agent_secret (tenant_id secret_id : string) : M (option string) :=
  vault_call (fun s => v ← vault_get tenant_id secret_id s; Ok (v, s)).

Definition delete_agent_secret_blob (tenant_id secret_id : string) : M bool :=
  vault_call (fun s => '(s', deleted) ← vault_delete tenant_id secret_id s; Ok (deleted, s')).

Lemma put_eff t k v w w' u : put_agent_secret t k v w = (Ok u, w') ->
  kept w w' /\ w_db w' = w_db w /\ vault_put t k v (w_vault w) = Ok (w_vault w').
Proof.
  unfold put_agent_secret, get_agent_secret, delete_agent_secret_blob. intros H.
  apply vault_eff in H as (K & D & H). destruct (vault_put _ _ _ _) as [s|]; [|done].
  apply Ok_inj in H. by injection H as _ ->.
Qed.

Lemma get_eff t k w w' o : get_agent_secret t k w = (Ok o, w') ->
  kept w w' /\ w_db w' = w_db w /\ w_vault w' = w_vault w /\ vault_get t k (w_vault w) = Ok o.
Proof.
  unfold put_agent_secret, get_agent_secret, delete_agent_secret_blob. intros H.
  apply vault_eff in H as (K & D & H). destruct (vault_get _ _ _) as [s|]; [|done].
  apply Ok_inj in H. by injection H as -> <-.
Qed.

Lemma delete_blob_eff t k w w' b : delete_agent_secret_blob t k w = (Ok b, w') ->
  kept w w' /\ w_db w' = w_db w /\ vault_delete t k (w_vault w) = Ok (w_vault w', b).
Proof.
  unfold put_agent_secret, get_agent_secret, delete_agent_secret_blob. intros H.
  apply vault_eff in H as (K & D & H). destruct (vault_delete _ _ _) as [[s b']|]; [|done].
  apply Ok_inj in H. by injection H as -> ->.
Qed.
End Client.

(** ** Decoding and validation *)

Definition _decode_secret_id (value : string) : outcome string :=
  if startswith value "sec_" then Admin.wire_to_db_uuid value "sec" else Ok value.
Definition _decode_agent_id (value : string) : outcome string :=
  if startswith value "agent_" then Admin.wire_to_db_uuid value "agent" else Ok value.
Definition _decode_grant_id (value : string) : outcome string :=
  if startswith value "secgrant_" then Admin.wire_to_db_uuid value "secgrant" else Ok value.

Definition name_char (c : ascii) : bool :=
  let n := code c in
  ((48 <=? n) && (n <=? 57) || (65 <=? n) && (n <=? 90) || (97 <=? n) && (n <=? 122)
   || (n =? 46) || (n =? 95) || (n =? 45))%N.

(** [re.match(r"^[A-Za-z0-9._-]{1,128}$", s)]: the dollar also matches before a final newline. *)
Definition _NAME_RE (s : string) : bool :=
  let l := chars s in
  let body := match rev l with c :: l' => if (code c =? 10)%N then rev l' else l | [] => [] end in
  (1 <=? length body)%nat && (length body <=? 128)%nat && forallb name_char body.

Definition _MAX_VALUE_BYTES : Z := 65536.

Record CreateAgentSecretRequest := MkCreateAgentSecretRequest {
  cs_agent_id : string; cs_name : string; cs_value : string; cs_content_type : option string }.
Record UpdateAgentSecretRequest := MkUpdateAgentSecretRequest {
  us_value : string; us_content_type : option string }.

(** ** Rows as the API shows them *)

(** [db_uuid_to_wire] of a UUID object is [wire]. *)
Definition _secret_row_to_dict (row : secret_row) : dict :=
  [("id", JStr (wire (k_id row) "sec")); ("tenant_id", JStr (wire (k_tenant_id row) "tenant"));
   ("agent_id", JStr (wire (k_agent_id row) "agent")); ("name", JStr (k_name row));
   ("version", JInt (k_version row)); ("size_bytes", JInt (k_size_bytes row));
   ("content_type", opt_json (k_content_type row));
   ("created_at", JStr (isoformat_utc (k_created_at row)));
   ("updated_at", JStr (isoformat_utc (k_updated_at row)))].

Definition _grant_row_to_dict (row : secret_grant_row) : dict :=
  [("id", JStr (wire (sg_id row) "secgrant")); ("tenant_id", JStr (wire (sg_tenant_id row) "tenant"));
   ("secret_id", JStr (wire (sg_secret_id row) "sec"));
   ("recipient_agent_id", JStr (wire (sg_recipient row) "agent"));
   ("created_by", JStr (wire (sg_created_by row) "operator"));
   ("created_at", JStr (isoformat_utc (sg_created_at row)))].

Definition problem (status : Z) (code title : string) : response :=
  JSONResponse status [("mintkey:code", JStr code); ("title", JStr title)].

(** [try: a = o except ValueError: return on_error] *)
Definition try_value `{V : Vault} {A B} (o : outcome A) (on_error : M B) (k : A -> M B) : M B :=
  match o with
  | Ok a => k a
  | Raise (ValueError _) => on_error
  | Raise e => raise e
  end.

Section Handlers.
Context `{E : Env} `{V : Vault} `{Sha : Sha256} `{X : ExcText}.
Implicit Types (ctx : option session_ctx) (tenant_id : uuid).

Definition operator_id_of ctx : uuid := match ctx with Some c => ctx_operator_id c | None => 0%N end.

(** [SELECT ... FROM agent_secrets WHERE id = :sid AND tenant_id = :tid] *)
Definition secret_by_id (secret_uuid : string) tenant_id : M (option secret_row) :=
  let! sid := bound secret_uuid in
  let! tid := bound (uuid_str tenant_id) in
  let! rows := select agent_secrets_t (fun k => N.eqb (k_id k) sid && N.eqb (k_tenant_id k) tid) in
  ret (fetchone rows).

(** [SELECT id FROM agents WHERE id = :aid AND tenant_id = :tid] *)
Definition agent_by_id (agent_uuid : string) tenant_id : M (option agent_row) :=
  let! aid := bound agent_uuid in
  let! tid := bound (uuid_str tenant_id) in
  let! rows := select agents_t (fun a => N.eqb (a_id a) aid && N.eqb (a_tenant_id a) tid) in
  ret (fetchone rows).

(** The test on [str(exc).lower()]. *)
Definition is_duplicate (constraint : string) (params : list string) (e : exn) : bool :=
  let s := lower (exc_text e params) in
  py_in "unique" s || py_in "duplicate" s || py_in constraint s.

Definition duplicate_secret : response :=
  problem 409 "duplicate_resource" "A secret with this name already exists for the target agent".

Definition create_agent_secret ctx tenant_id (body : CreateAgentSecretRequest) : M response :=
  if negb (_NAME_RE (cs_name body)) then
    ret (problem 422 "validation_failed"
           ("name must match ^[A-Za-z0-9._-]{1,128}$; got " +:+ py_repr (cs_name body)))
  else
  let value_bytes := utf8 (cs_value body) in
  let size := Z.of_nat (py_len value_bytes) in
  if (_MAX_VALUE_BYTES <? size)%Z then
    ret (problem 422 "validation_failed" "value exceeds 65536 bytes")
  else
  try_value (_decode_agent_id (cs_agent_id body))
    (ret (problem 422 "validation_failed" "Invalid agent_id")) (fun agent_uuid =>
  do! set_tenant_context (uuid_str tenant_id) false in
  let! agent := agent_by_id agent_uuid tenant_id in
  match agent with
  | None => ret (problem 422 "not_found" "Target agent not found or does not belong to this tenant")
  | Some _ =>
      let! tid := bound (uuid_str tenant_id) in
      let! aid := bound agent_uuid in
      let! dup := select agent_secrets_t (fun k =>
        N.eqb (k_tenant_id k) tid && N.eqb (k_agent_id k) aid && String.eqb (k_name k) (cs_name body)) in
      match fetchone dup with
      | Some _ => ret duplicate_secret
      | None =>
          let! secret_uuid := uuid4 in
          let secret_db_id := uuid_str secret_uuid in
          let! now := now_utc in
          let operator_id := operator_id_of ctx in
          do! put_agent_secret (uuid_str tenant_id) secret_db_id value_bytes in
          let! failed := catch
            (let! sid := bound secret_db_id in
             let! tid := bound (uuid_str tenant_id) in
             let! aid := bound agent_uuid in
             let! by_ := bound (uuid_str operator_id) in
             do! insert_into agent_secrets_t (SecretRow sid tid aid (cs_name body) (cs_content_type body)
                   size 1 (Some by_) now now) in
             ret false)
            (fun e =>
               if is_duplicate "uq_agent_secrets_name"
                    [secret_db_id; uuid_str tenant_id; agent_uuid; cs_name body;
                     match cs_content_type body with Some c => c | None => "None" end;
                     py_str_int size; uuid_str operator_id; isoformat_utc now] e
               then do! catch (do! delete_agent_secret_blob (uuid_str tenant_id) secret_db_id in ret tt)
                          (fun _ => ret tt) in
                    ret true
               else raise e) in
          if failed : bool then ret duplicate_secret
          else
          let secret_wire_id := wire secret_uuid "sec" in
          let! agent := lift (UUID agent_uuid) in
          let agent_wire_id := wire agent "agent" in
          do! audit_emit tenant_id "agent_secret.created" (Some operator_id) "operator"
            (Some (VUUID secret_uuid)) (Some "agent_secret")
            [("secret_id", JStr secret_wire_id); ("agent_id", JStr agent_wire_id);
             ("name", JStr (cs_name body)); ("version", JInt 1)] in
          do! notify_change "mintkey:agent"
            [("event", JStr "agent_secret.created"); ("tenant_id", JStr (uuid_str tenant_id));
             ("secret_id", JStr secret_wire_id); ("agent_id", JStr (cs_agent_id body))] in
          do! commit in
          ret (JSONResponse 201
            [("id", JStr secret_wire_id); ("tenant_id", JStr (wire tenant_id "tenant"));
             ("agent_id", JStr agent_wire_id); ("name", JStr (cs_name body)); ("version", JInt 1);
             ("size_bytes", JInt size); ("content_type", opt_json (cs_content_type body));
             ("created_at", JStr (isoformat_utc now)); ("updated_at", JStr (isoformat_utc now))])
      end
  end).

(** The clamp of [limit] to 1..200. *)
Definition clamp_limit (limit : Z) : Z :=
  let limit := if (limit <? 1)%Z then 1%Z else limit in
  if (200 <? limit)%Z then 200%Z else limit.

(** The rows of one query of a list endpoint, with [LIMIT limit + 1], and the answer's cursor. *)
Definition fetch_page {R} (limit : Z) (key : R -> uuid) (rows : list R) : list R :=
  take (Z.to_nat (limit + 1)) (order_by key rows).
Definition page_of {R} (limit : Z) (rows : list R) : list R := take (Z.to_nat limit) rows.
Definition next_cursor {R} (limit : Z) (key : R -> uuid) (prefix : string) (rows : list R) : json :=
  if (limit <? Z.of_nat (length rows))%Z then
    match last (page_of limit rows) with
    | Some r => JStr (wire (key r) prefix)
    | None => JNull
    end
  else JNull.

Definition list_agent_secrets tenant_id (after : option string) (limit : Z) : M response :=
  do! set_tenant_context (uuid_str tenant_id) false in
  let limit := clamp_limit limit in
  let answer (after_id : option uuid) (tid : uuid) : M response :=
    let! rows := select agent_secrets_t (fun k =>
      N.eqb (k_tenant_id k) tid && match after_id with Some u => N.ltb u (k_id k) | None => true end) in
    let rows := fetch_page limit k_id rows in
    ret (JSONResponse 200
      [("data", JArr (map (fun r => JObj (_secret_row_to_dict r)) (page_of limit rows)));
       ("next_cursor", next_cursor limit k_id "sec" rows)]) in
  match after with
  | Some after =>
      try_value (_decode_secret_id after) (ret (problem 422 "invalid_id" "Invalid after cursor")) (fun after_uuid =>
      let! tid := bound (uuid_str tenant_id) in
      let! after_id := bound after_uuid in
      answer (Some after_id) tid)
  | None => let! tid := bound (uuid_str tenant_id) in answer None tid
  end.

Definition get_agent_secret_metadata tenant_id (secret_id : string) : M response :=
  try_value (_decode_secret_id secret_id) (ret (problem 422 "invalid_id" "Invalid secret_id")) (fun secret_uuid =>
  do! set_tenant_context (uuid_str tenant_id) false in
  let! row := secret_by_id secret_uuid tenant_id in
  match row with
  | None => ret (problem 404 "not_found" "Agent secret not found")
  | Some row => ret (JSONResponse 200 (_secret_row_to_dict row))
  end).

Definition update_agent_secret ctx tenant_id (secret_id : string) (body : UpdateAgentSecretRequest) : M response :=
  let value_bytes := utf8 (us_value body) in
  let size := Z.of_nat (py_len value_bytes) in
  if (_MAX_VALUE_BYTES <? size)%Z then
    ret (problem 422 "validation_failed" "value exceeds 65536 bytes")
  else
  try_value (_decode_secret_id secret_id) (ret (problem 422 "validation_failed" "Invalid secret_id")) (fun secret_uuid =>
  do! set_tenant_context (uuid_str tenant_id) false in
  let! row := secret_by_id secret_uuid tenant_id in
  match row with
  | None => ret (problem 404 "secret_not_found" "Agent secret not found")
  | Some row =>
      let previous_version := k_version row in
      let new_version := (previous_version + 1)%Z in
      let! now := now_utc in
      let operator_id := operator_id_of ctx in
      do! put_agent_secret (uuid_str tenant_id) (uuid_str (k_id row)) value_bytes in
      let new_content_type := match us_content_type body with Some c => Some c | None => k_content_type row end in
      let! sid := bound secret_uuid in
      let! tid := bound (uuid_str tenant_id) in
      do! update_where agent_secrets_t (fun k => N.eqb (k_id k) sid && N.eqb (k_tenant_id k) tid) (fun k =>
        SecretRow (k_id k) (k_tenant_id k) (k_agent_id k) (k_name k) new_content_type size new_version
          (k_created_by k) (k_created_at k) now) in
      let secret_wire_id := wire (k_id row) "sec" in
      let agent_wire_id := wire (k_agent_id row) "agent" in
      do! audit_emit tenant_id "agent_secret.updated" (Some operator_id) "operator"
        (Some (VUUID (k_id row))) (Some "agent_secret")
        [("secret_id", JStr secret_wire_id); ("agent_id", JStr agent_wire_id); ("name", JStr (k_name row));
         ("version", JInt new_version); ("previous_version", JInt previous_version)] in
      do! notify_change "mintkey:agent"
        [("event", JStr "agent_secret.updated"); ("tenant_id", JStr (uuid_str tenant_id));
         ("secret_id", JStr secret_wire_id); ("agent_id", JStr agent_wire_id)] in
      do! commit in
      ret (JSONResponse 200
        [("id", JStr secret_wire_id); ("tenant_id", JStr (wire tenant_id "tenant"));
         ("agent_id", JStr agent_wire_id); ("name", JStr (k_name row)); ("version", JInt new_version);
         ("size_bytes", JInt size); ("content_type", opt_json new_content_type);
         ("created_at", JStr (isoformat_utc (k_created_at row))); ("updated_at", JStr (isoformat_utc now))])
  end).

Definition delete_agent_secret ctx tenant_id (secret_id : string) : M response :=
  try_value (_decode_secret_id secret_id) (ret (EmptyResponse 422)) (fun secret_uuid =>
  do! set_tenant_context (uuid_str tenant_id) false in
  let! row := secret_by_id secret_uuid tenant_id in
  do! (match row with
       | Some _ => let! _ := delete_agent_secret_blob (uuid_str tenant_id) secret_uuid in ret tt
       | None => ret tt
       end) in
  let! sid := bound secret_uuid in
  let! tid := bound (uuid_str tenant_id) in
  let! _ := delete_from agent_secrets_t (fun k => N.eqb (k_id k) sid && N.eqb (k_tenant_id k) tid) in
  let! secret := lift (UUID secret_uuid) in
  let secret_wire_id := wire secret "sec" in
  let! agent_wire_id := (match row with
    | Some row =>
        let agent_wire_id := wire (k_agent_id row) "agent" in
        do! audit_emit tenant_id "agent_secret.deleted" (ctx_operator_id <$> ctx) "operator" None
          (Some "agent_secret")
          [("secret_id", JStr secret_wire_id); ("agent_id", JStr agent_wire_id); ("name", JStr (k_name row))] in
        ret agent_wire_id
    | None => ret ""
    end) in
  do! notify_change "mintkey:agent"
    [("event", JStr "agent_secret.deleted"); ("tenant_id", JStr (uuid_str tenant_id));
     ("secret_id", JStr secret_wire_id); ("agent_id", JStr agent_wire_id)] in
  ret (EmptyResponse 204)).

(** ** Share grants *)

Definition create_agent_secret_grant ctx tenant_id (secret_id recipient_agent_id : string) : M response :=
  try_value (_decode_secret_id secret_id) (ret (problem 422 "invalid_id" "Invalid secret_id")) (fun secret_uuid =>
  try_value (_decode_agent_id recipient_agent_id)
    (ret (problem 422 "invalid_id" "Invalid recipient_agent_id")) (fun recipient_uuid =>
  do! set_tenant_context (uuid_str tenant_id) false in
  let! secret_row := secret_by_id secret_uuid tenant_id in
  match secret_row with
  | None => ret (problem 422 "not_found" "Agent secret not found or does not belong to this tenant")
  | Some secret_row =>
      let! agent := agent_by_id recipient_uuid tenant_id in
      match agent with
      | None => ret (problem 422 "not_found" "Recipient agent not found or does not belong to this tenant")
      | Some _ =>
          if String.eqb (replace_char "-" "" (uuid_str (k_agent_id secret_row))) (replace_char "-" "" recipient_uuid)
          then ret (problem 422 "grant_to_owner" "Cannot grant read access to the secret's own owner")
          else
          let! grant_id := uuid4 in
          let! now := now_utc in
          let created_by_id := operator_id_of ctx in
          let! failed := catch
            (let! gid := bound (uuid_str grant_id) in
             let! tid := bound (uuid_str tenant_id) in
             let! sid := bound secret_uuid in
             let! rid := bound recipient_uuid in
             let! by_ := bound (uuid_str created_by_id) in
             do! insert_into agent_secret_grants_t (SecretGrantRow gid tid sid rid by_ now) in
             ret false)
            (fun e =>
               if is_duplicate "uq_agent_secret_grants"
                    [uuid_str grant_id; uuid_str tenant_id; secret_uuid; recipient_uuid;
                     uuid_str created_by_id; isoformat_utc now] e
               then ret true else raise e) in
          if failed : bool then
            ret (problem 409 "already_exists" "A share grant for this secret and recipient already exists")
          else
          let! secret := lift (UUID secret_uuid) in
          let! recipient := lift (UUID recipient_uuid) in
          do! audit_emit tenant_id "agent_secret_grant.created" (ctx_operator_id <$> ctx) "operator"
            (Some (VUUID grant_id)) (Some "agent_secret_grant")
            [("grant_id", JStr (wire grant_id "secgrant")); ("secret_id", JStr (wire secret "sec"));
             ("owner_agent_id", JStr (wire (k_agent_id secret_row) "agent"));
             ("recipient_agent_id", JStr (wire recipient "agent"))] in
          do! notify_change "mintkey:agent"
            [("event", JStr "agent_secret_grant.created"); ("tenant_id", JStr (uuid_str tenant_id));
             ("grant_id", JStr (uuid_str grant_id)); ("secret_id", JStr secret_id);
             ("recipient_agent_id", JStr recipient_agent_id)] in
          ret (JSONResponse 201
            [("id", JStr (wire grant_id "secgrant")); ("tenant_id", JStr (wire tenant_id "tenant"));
             ("secret_id", JStr (wire secret "sec")); ("recipient_agent_id", JStr (wire recipient "agent"));
             ("created_by", JStr (wire created_by_id "operator")); ("created_at", JStr (isoformat_utc now))])
      end
  end)).

Definition list_agent_secret_grants tenant_id (secret_id : string) (after : option string) (limit : Z) : M response :=
  try_value (_decode_secret_id secret_id) (ret (problem 422 "invalid_id" "Invalid secret_id")) (fun secret_uuid =>
  do! set_tenant_context (uuid_str tenant_id) false in
  let! row := secret_by_id secret_uuid tenant_id in
  match row with
  | None => ret (problem 404 "not_found" "Agent secret not found")
  | Some _ =>
      let limit := clamp_limit limit in
      let answer (after_id : option uuid) (sid tid : uuid) : M response :=
        let! rows := select agent_secret_grants_t (fun g =>
          N.eqb (sg_secret_id g) sid && N.eqb (sg_tenant_id g) tid
          && match after_id with Some u => N.ltb u (sg_id g) | None => true end) in
        let rows := fetch_page limit sg_id rows in
        ret (JSONResponse 200
          [("data", JArr (map (fun r => JObj (_grant_row_to_dict r)) (page_of limit rows)));
           ("next_cursor", next_cursor limit sg_id "secgrant" rows)]) in
      match after with
      | Some after =>
          try_value (_decode_grant_id after) (ret (problem 422 "invalid_id" "Invalid after cursor")) (fun after_uuid =>
          let! sid := bound secret_uuid in
          let! tid := bound (uuid_str tenant_id) in
          let! after_id := bound after_uuid in
          answer (Some after_id) sid tid)
      | None =>
          let! sid := bound secret_uuid in
          let! tid := bound (uuid_str tenant_id) in
          answer None sid tid
      end
  end).

Definition delete_agent_secret_grant ctx tenant_id (secret_id grant_id : string) : M response :=
  try_value (_decode_secret_id secret_id) (ret (EmptyResponse 422)) (fun secret_uuid =>
  try_value (_decode_grant_id grant_id) (ret (EmptyResponse 422)) (fun grant_uuid =>
  do! set_tenant_context (uuid_str tenant_id) false in
  let! gid := bound grant_uuid in
  let! sid := bound secret_uuid in
  let! tid := bound (uuid_str tenant_id) in
  let! rows := query (fun pol d =>
    List.filter (fun '(g, s) =>
        N.eqb (k_id s) (sg_secret_id g) && N.eqb (k_tenant_id s) (sg_tenant_id g)
        && (N.eqb (sg_id g) gid && N.eqb (sg_secret_id g) sid && N.eqb (sg_tenant_id g) tid))
      (list_prod (visible agent_secret_grants_t pol d) (visible agent_secrets_t pol d))) in
  let! gid := bound grant_uuid in
  let! sid := bound secret_uuid in
  let! tid := bound (uuid_str tenant_id) in
  let! _ := delete_from agent_secret_grants_t (fun g =>
    N.eqb (sg_id g) gid && N.eqb (sg_secret_id g) sid && N.eqb (sg_tenant_id g) tid) in
  do! (match fetchone rows with
       | Some (g, s) =>
           let! grant := lift (UUID grant_uuid) in
           let! secret := lift (UUID secret_uuid) in
           audit_emit tenant_id "agent_secret_grant.revoked" (ctx_operator_id <$> ctx) "operator" None
             (Some "agent_secret_grant")
             [("grant_id", JStr (wire grant "secgrant")); ("secret_id", JStr (wire secret "sec"));
              ("owner_agent_id", JStr (wire (k_agent_id s) "agent"));
              ("recipient_agent_id", JStr (wire (sg_recipient g) "agent"))]
       | None => ret tt
       end) in
  do! notify_change "mintkey:agent"
    [("event", JStr "agent_secret_grant.revoked"); ("tenant_id", JStr (uuid_str tenant_id));
     ("grant_id", JStr grant_id); ("secret_id", JStr secret_id)] in
  ret (EmptyResponse 204))).

(** ** The router *)

Inductive secrets_request :=
  | PostSecret (body : CreateAgentSecretRequest)
  | ListSecrets (after : option string) (limit : Z)
  | GetSecret (secret_id : string)
  | PutSecret (secret_id : string) (body : UpdateAgentSecretRequest)
  | DeleteSecret (secret_id : string)
  | PostGrant (secret_id recipient_agent_id : string)
  | ListGrants (secret_id : string) (after : option string) (limit : Z)
  | DeleteGrant (secret_id grant_id : string).

Definition secrets_handler ctx tenant_id (rq : secrets_request) : M response :=
  match rq with
  | PostSecret body => create_agent_secret ctx tenant_id body
  | ListSecrets after limit => list_agent_secrets tenant_id after limit
  | GetSecret secret_id => get_agent_secret_metadata tenant_id secret_id
  | PutSecret secret_id body => update_agent_secret ctx tenant_id secret_id body
  | DeleteSecret secret_id => delete_agent_secret ctx tenant_id secret_id
  | PostGrant secret_id recipient => create_agent_secret_grant ctx tenant_id secret_id recipient
  | ListGrants secret_id after limit => list_agent_secret_grants tenant_id secret_id after limit
  | DeleteGrant secret_id grant_id => delete_agent_secret_grant ctx tenant_id secret_id grant_id
  end.

(** Endpoints that depend on [get_session_context]. *)
Definition uses_context (rq : secrets_request) : bool :=
  match rq with ListSecrets _ _ | GetSecret _ | ListGrants _ _ _ => false | _ => true end.

(** The dependencies of every endpoint: the session check, then the handler in a transaction. *)
Definition secrets_router (cookie : option string) tenant_id (rq : secrets_request) : M response :=
  do! require_tenant_session cookie tenant_id in
  let! ctx := if uses_context rq then get_session_context cookie else ret None in
  transaction (secrets_handler ctx tenant_id rq).
End Handlers.

(** ** Decoded identifiers *)

Section Decoded.
Context `{E : Env} `{V : Vault}.

(** The identifier a path or body names. *)
Definition named_id (decoded : outcome string) : option uuid :=
  match decoded with Ok s => bind_uuid s | Raise _ => None end.

Lemma try_value_Ok {A B} (o : outcome A) (on_error : M B) (k : A -> M B) w b w' :
  try_value o on_error k w = (Ok b, w') ->
  (on_error w = (Ok b, w')) \/ exists a, o = Ok a /\ k a w = (Ok b, w').
Proof. destruct o as [a|e]; cbn [try_value]; [by right; exists a|]. destruct e; try done. by left. Qed.
End Decoded.

(** ** Well-formed tables *)

(** Identifiers are 16 bytes and the primary key is a key. *)
Record secrets_ok (d : db) : Prop := {
  so_ids : forall k, In k (agent_secrets d) ->
    (k_id k < uuid_limit)%N /\ (k_tenant_id k < uuid_limit)%N /\ (k_agent_id k < uuid_limit)%N;
  so_key : List.NoDup (map k_id (agent_secrets d)) }.

Lemma secret_unique d k k' : secrets_ok d -> In k (agent_secrets d) -> In k' (agent_secrets d) ->
  k_id k = k_id k' -> k = k'.
Proof.
  intros [_ Hn]. by apply NoDup_key_unique.
Qed.

(** ** A concrete driver text *)

Definition demo_exc : ExcText.
Proof.
  refine {| exc_text e ps := match e with
    | IntegrityError c => if startswith c "fk_" then "violates foreign key constraint"
                          else "duplicate key value violates unique constraint"
    | _ => "error" end |}.
  intros c ps ->. vm_compute. reflexivity.
Defined.
