(* ===== verification/Login.v ===== *)
(** * Password login, logout and whoami (admin_api/auth/internal.py, api/auth.py)

    The password check against an Argon2id hash, the session and cookies it
    ends in, and the identity a session cookie stands for, with its cache in
    the process.  Sections of [_whoami_lookup] and [logout] between two awaits
    are definitions of their own, so that [Whoami] can interleave them.  Then
    the answer of [internal_login] as a function of the committed operators
    and of the verdict of Argon2, with the session it creates; every path
    verifies exactly one password hash. *)

From Stdlib Require QArith_base.
From S2P Require Import Prelude PyStr WireIds PyJson PyJsonFacts PyTime PyFloat AuditHash Vault Tables Database.
From S2P Require Import Logic Demo Keys Sessions.

Local Open Scope string_scope.
Local Open Scope py_scope.

Record LoginRequest := MkLoginRequest { lg_email : string; lg_password : string }.

Definition INVALID_CREDENTIALS_RESPONSE : dict :=
  [("type", JStr "https://mintkey.internal/errors/invalid-credentials"); ("title", JStr "Invalid credentials");
   ("status", JInt 401); ("mintkey:code", JStr "invalid_credentials")].

(** [resp.set_cookie] and [resp.delete_cookie] *)
Inductive cookie_change :=
| SetCookie (key value : string) (httponly secure : bool) (samesite : string) (max_age : Z)
| DeleteCookie (key path : string).

(** A response with its Location header and its cookies. *)
Record web_response := Web { wr_response : response; wr_location : option string; wr_cookies : list cookie_change }.

Definition plain (r : response) : web_response := Web r None [].

Definition invalid_credentials : web_response := plain (Response 401 (JObj INVALID_CREDENTIALS_RESPONSE)).
Definition login_disabled : web_response := plain (JSONResponse 404 [("mintkey:code", JStr "not_found")]).

(** Both cookies of a new session. *)
Definition session_cookies (session_token csrf_token : string) (secure : bool) : list cookie_change :=
  [SetCookie "mintkey_session" session_token true secure "lax" 86400;
   SetCookie "csrf_token" csrf_token false secure "lax" 86400].

Definition _WHOAMI_TTL : QArith_base.Q := QArith_base.inject_Z 15.

(** [(now - t) < _WHOAMI_TTL] *)
Definition recent (now t : QArith_base.Q) : bool := negb (QArith_base.Qle_bool _WHOAMI_TTL (float_sub now t)).

Section Login.
Context `{E : Env} `{V : Vault} `{Arg : Argon2}.

Definition DUMMY_HASH : string := argon2_hash DefaultParams 0 "__mintkey_dummy_password_never_matches__".

Definition fetch_operator (email : string) : M (option operator_row) :=
  transaction (
    do! set_config_tenant nil_uuid_text in
    do! set_config_admin_view in
    let! rows := select operators_t (fun o => String.eqb (o_email o) email) in
    lift (one_or_none rows)).

(** Both bodies are docstrings. *)
Definition record_failed_attempt (email : string) : M unit := ret tt.
Definition clear_failed_attempts (email : string) : M unit := ret tt.

(** The operator, or the reason of the failure. *)
Definition verify_internal_login (email password : string) : M (option operator_row * option string) :=
  let! operator := fetch_operator email in
  match operator with
  | None =>
      let! _ := ph_verify DUMMY_HASH password in
      ret (None, Some "user_unknown")
  | Some operator =>
      if String.eqb (o_status operator) "locked" then
        let! _ := ph_verify DUMMY_HASH password in
        do! record_failed_attempt email in
        ret (None, Some "account_locked")
      else
        let! v := match o_internal_password_hash operator with
                  | Some h => ph_verify h password
                  | None => ret InvalidHash
                  end in
        match v with
        | Verified =>
            do! clear_failed_attempts email in
            ret (Some operator, None)
        | _ =>
            do! record_failed_attempt email in
            ret (None, Some "bad_password")
        end
  end.

Definition login_ok (op : operator_row) (session_token csrf_token : string) : web_response :=
  Web (JSONResponse 200 [("status", JStr "ok"); ("operator_id", JStr (uuid_str (o_id op)));
                         ("tenant_id", JStr (uuid_str (o_tenant_id op)));
                         ("is_platform_admin", JBool (o_is_platform_admin op))])
      None (session_cookies session_token csrf_token false).

Definition internal_login (body : LoginRequest) : M web_response :=
  let! operator := fetch_operator (lg_email body) in
  let disabled := match operator with
                  | Some o => match o_internal_password_hash o with None => true | Some _ => false end
                  | None => false
                  end in
  if disabled then
    let! _ := ph_verify DUMMY_HASH (lg_password body) in
    ret login_disabled
  else
    let! out := verify_internal_login (lg_email body) (lg_password body) in
    match out with
    | (Some op, None) =>
        let! session_token := create_session (o_id op) (o_tenant_id op) "internal" in
        let! csrf_token := token_urlsafe 32 in
        ret (login_ok op session_token csrf_token)
    | _ => ret invalid_credentials
    end.

(** ** Logout *)

Definition _evict_whoami (session_token : string) : M unit := fun w =>
  (Ok tt, set_proc (set_whoami (delete session_token (p_whoami (w_proc w))) (S (p_evictions (w_proc w))) (w_proc w)) w).

(** [try: delete_session(token) except Exception: delete_failed = True] *)
Definition logout_delete (session_token : string) : M bool :=
  catch (let! _ := delete_session session_token in ret false) (fun _ => ret true).

Definition logout_response (delete_failed : bool) : web_response :=
  Web (if delete_failed then JSONResponse 503 [("mintkey:code", JStr "session_store_unavailable");
                                               ("title", JStr "Session store unavailable")]
       else EmptyResponse 204)
      None [DeleteCookie "mintkey_session" "/"; DeleteCookie "csrf_token" "/"].

Definition logout (cookie : option string) : M web_response :=
  match session_token cookie with
  | None => ret (logout_response false)
  | Some token =>
      let! delete_failed := logout_delete token in
      do! _evict_whoami token in
      ret (logout_response delete_failed)
  end.

(** ** Whoami *)

(** Up to the first await: the time, the cached answer when it is recent, the eviction counter. *)
Definition whoami_cached (session_token : string) : M (QArith_base.Q * option dict * nat) :=
  let! now := monotonic in
  fun w =>
    let cached := match p_whoami (w_proc w) !! session_token with
                  | Some (data, t) => if recent now t then Some data else None
                  | None => None
                  end in
    (Ok (now, cached, p_evictions (w_proc w)), w).

(** The join of the operator and the session. *)
Definition whoami_row (ctx : session_ctx) (session_token : string) : M (option (operator_row * option string)) :=
  transaction (
    let! sql_now := transaction_timestamp in
    do! execute (fun w => Ok (tt, set_guc (Some nil_uuid_text) true w)) in
    let! tok := cast_uuid session_token in
    let! oid := cast_uuid (uuid_str (ctx_operator_id ctx)) in
    let! rows := query (fun pol d =>
      flat_map (fun o => map (fun s => (o, ss_auth_method s))
        (List.filter (fun s => N.eqb (ss_id s) tok && Z.ltb sql_now (ss_expires_at s)) (visible sessions_t pol d)))
        (List.filter (fun o => N.eqb (o_id o) oid) (visible operators_t pol d))) in
    ret (fetchone rows)).

Definition whoami_data (row : operator_row * option string) : dict :=
  let '(o, raw_auth_method) := row in
  let auth_method := match raw_auth_method with Some "oidc" => Some "keycloak" | m => m end in
  [("operator_id", JStr (uuid_str (o_id o))); ("tenant_id", JStr (uuid_str (o_tenant_id o)));
   ("email", JStr (o_email o)); ("is_platform_admin", JBool (o_is_platform_admin o));
   ("auth_method", json_opt JStr auth_method)].

(** After the last await: the answer is cached unless there was an eviction since the lookup began. *)
Definition whoami_store (session_token : string) (data : dict) (now : QArith_base.Q) (evictions_at_start : nat) : M unit :=
  fun w =>
    let p := w_proc w in
    if Nat.eqb (p_evictions p) evictions_at_start then
      let cache := <[session_token := (data, now)]> (p_whoami p) in
      (Ok tt, set_proc (set_whoami (filter (fun kv => recent now (snd (snd kv)) = true) cache) (p_evictions p) p) w)
    else (Ok tt, w).

Definition _whoami_lookup (session_token : string) : M (option dict) :=
  let! c := whoami_cached session_token in
  let '(now, cached, evictions_at_start) := c in
  match cached with
  | Some data => ret (Some data)
  | None =>
      let! ctx := validate_session session_token in
      match ctx with
      | None => ret None
      | Some ctx =>
          let! row := whoami_row ctx session_token in
          match row with
          | None => ret None
          | Some row =>
              let data := whoami_data row in
              do! whoami_store session_token data now evictions_at_start in
              ret (Some data)
          end
      end
  end.

Definition whoami (cookie : option string) : M web_response :=
  match session_token cookie with
  | None => ret (plain (JSONResponse 401 [("mintkey:code", JStr "unauthenticated"); ("title", JStr "No session")]))
  | Some token =>
      let! data := _whoami_lookup token in
      ret (plain (match data with
                  | None => JSONResponse 401 [("mintkey:code", JStr "unauthenticated");
                                              ("title", JStr "Session not found or expired")]
                  | Some data => JSONResponse 200 [("operator", JObj data)]
                  end))
  end.
End Login.

#[local] Opaque uuid_str UUID.

Section LoginLaws.
Context `{E : Env} `{V : Vault} `{Arg : Argon2}.

(** What the operators with an email say of a login: two of them (the email is unique per tenant
    only), one without a password, or one that is let in when Argon2 accepts the password. *)
Inductive login_case := Ambiguous | NoPassword | Refused | Accepted (o : operator_row).

Definition accounts (email : string) (d : db) : list operator_row :=
  List.filter (fun o => String.eqb (o_email o) email) (operators d).

Definition login_case_of (d : db) (v : string -> verdict) (email : string) : login_case :=
  match accounts email d with
  | [] => Refused
  | [o] => match o_internal_password_hash o with
           | None => NoPassword
           | Some h => if String.eqb (o_status o) "locked" then Refused
                       else match v h with Verified => Accepted o | _ => Refused end
           end
  | _ => Ambiguous
  end.

(** The session a login at [w] creates. *)
Definition new_session (o : operator_row) (meth : string) (w : world) : session_row :=
  SessionRow (env_uuid4 (w_tick w)) (o_tenant_id o) (o_id o) (env_now (S (w_tick w)) + 8 * us_per_hour)%Z (Some meth).

(** The answer and the committed data of a login that ends in the case [c], with one Argon2
    verification on the way: [w1] is the state in which the session is created. *)
Definition login_outcome (c : login_case) (w w' : world) (o : outcome web_response) : Prop :=
  match c with
  | Ambiguous => o = Raise (RuntimeError "MultipleResultsFound") /\ w_base w' = w_base w
  | NoPassword => o = Ok login_disabled /\ w_base w' = w_base w
  | Refused => o = Ok invalid_credentials /\ w_base w' = w_base w
  | Accepted op => exists w1 csrf,
      let r := new_session op "internal" w1 in
      o = Ok (login_ok op (uuid_str (ss_id r)) csrf) /\
      w_base w' = tb_set sessions_t (sessions (w_base w) ++ [r])%list (w_base w)
  end.

(** ** Runs *)

Context (Hnf : no_faults).
Context (pg_nil : pg_uuid_in nil_uuid_text = Some 0%N).

Lemma fetch_operator_run email w :
  exists w', w_base w' = w_base w /\ w_proc w' = w_proc w /\
    fetch_operator email w = (one_or_none (accounts email (w_base w)), w').
Proof.
  unfold fetch_operator, transaction.
  erewrite bind_run; [|by apply set_config_run]. erewrite bind_run; [|by apply admin_view_run].
  unfold bind. erewrite select_run; [|done|done|]; [|unfold policy; cbn; by rewrite pg_nil].
  cbn [w_tx tick set_guc begin]. unfold lift.
  assert (Ef : forall l, List.filter (fun r : operator_row => sees operators_t (fun r0 => N.eqb r0 0 || true) r && String.eqb (o_email r) email) l
                       = List.filter (fun o => String.eqb (o_email o) email) l).
  { intros l. apply filter_ext. intros r. cbn. by rewrite orb_true_r. }
  cbn [tb_get operators_t w_db tick set_guc begin]. fold (sees operators_t). rewrite Ef. fold (accounts email (w_base w)).
  destruct (one_or_none _); cbn [w_tx tick set_guc begin].
  - rewrite commit_run by done. by refine (ex_intro _ _ (conj _ (conj _ eq_refl))).
  - by refine (ex_intro _ _ (conj _ (conj _ eq_refl))).
Qed.

Lemma one_or_none_single {R} (l : list R) :
  one_or_none l = match l with [] => Ok None | [r] => Ok (Some r) | _ => Raise (RuntimeError "MultipleResultsFound") end.
Proof. by destruct l as [|r [|r' l]]. Qed.

Lemma ph_verify_run h s w :
  exists n w', w_base w' = w_base w /\ w_proc w' = count_verify (w_proc w) /\ ph_verify h s w = (Ok (argon2_verify n h s), w').
Proof. by refine (ex_intro _ (w_tick w) (ex_intro _ _ (conj _ (conj _ eq_refl)))). Qed.

(** One verification, whose verdict decides. *)
Lemma verify_internal_login_run email password w :
  exists n w', w_base w' = w_base w /\
  match accounts email (w_base w) with
  | [] => verify_internal_login email password w = (Ok (None, Some "user_unknown"), w') /\ w_proc w' = count_verify (w_proc w)
  | [o] =>
      match o_internal_password_hash o with
      | None => True
      | Some h =>
          w_proc w' = count_verify (w_proc w) /\
          verify_internal_login email password w =
            (Ok (if String.eqb (o_status o) "locked" then (None, Some "account_locked")
                 else match argon2_verify n h password with
                      | Verified => (Some o, None) | _ => (None, Some "bad_password") end), w')
      end
  | _ => True
  end.
Proof.
  unfold verify_internal_login. destruct (fetch_operator_run email w) as (w1 & B1 & P1 & E1).
  rewrite one_or_none_single in E1. destruct (accounts email (w_base w)) as [|o [|o' l]].
  - destruct (ph_verify_run DUMMY_HASH password w1) as (n & w2 & B2 & P2 & E2).
    exists n, w2. split; [congruence|]. erewrite bind_run by exact E1. cbv beta iota. erewrite bind_run by exact E2.
    split; [done|]. congruence.
  - destruct (o_internal_password_hash o) as [h|] eqn:Eh; [|by exists 0%nat, w].
    destruct (String.eqb (o_status o) "locked") eqn:El.
    + destruct (ph_verify_run DUMMY_HASH password w1) as (n & w2 & B2 & P2 & E2).
      exists n, w2. split; [congruence|]. split; [congruence|]. erewrite bind_run by exact E1. cbv beta iota.
      rewrite El. by erewrite bind_run by exact E2.
    + destruct (ph_verify_run h password w1) as (n & w2 & B2 & P2 & E2).
      exists n, w2. split; [congruence|]. split; [congruence|]. erewrite bind_run by exact E1. cbv beta iota.
      rewrite El, Eh. erewrite bind_run by exact E2. by destruct (argon2_verify n h password).
  - by exists 0%nat, w.
Qed.

Lemma create_session_run o meth w :
  (o_tenant_id o < uuid_limit)%N -> In o (operators (w_base w)) -> In (o_tenant_id o) (map t_id (tenants (w_base w))) ->
  ~ In (env_uuid4 (w_tick w)) (map ss_id (sessions (w_base w))) ->
  exists w', w_proc w' = w_proc w /\
    w_base w' = tb_set sessions_t (sessions (w_base w) ++ [new_session o meth w])%list (w_base w) /\
    create_session (o_id o) (o_tenant_id o) meth w = (Ok (uuid_str (ss_id (new_session o meth w))), w').
Proof.
  intros Ht Ho Hten Hf. unfold create_session. erewrite bind_run by reflexivity. erewrite bind_run by reflexivity.
  unfold bind at 1, transaction.
  erewrite bind_run; [|unfold set_tenant_context; erewrite bind_run by (by apply set_config_run); reflexivity].
  unfold insert_into. erewrite execute_run; [|done|done|].
  2: { unfold policy. cbn [w_tenant tick set_guc begin w_admin_view]. rewrite (pg_uuid_in_str _ Ht). cbn [mbind outcome_bind].
       unfold sees. cbn [tb_tenant sessions_t ss_tenant_id]. rewrite N.eqb_refl. cbn [orb]. unfold insert_db.
       cbn [tb_check sessions_t first_violation ss_id ss_operator_id ss_tenant_id w_db w_base w_tick tick set_guc begin].
       rewrite (proj2 (fresh_spec ss_id _ _) Hf). rewrite (proj2 (present_spec o_id _ _)) by (by exists o).
       rewrite (proj2 (present_spec t_id _ _)); [reflexivity|].
       apply in_map_iff in Hten as (t & Et & Hin). by exists t. }
  cbn [w_tx tick set_guc begin set_db]. rewrite commit_run by done. cbv beta iota. unfold ret.
  by refine (ex_intro _ _ (conj _ (conj _ eq_refl))).
Qed.

(** One operator with the email, who has a password. *)
Lemma internal_login_account body w o h :
  (o_tenant_id o < uuid_limit)%N -> In (o_tenant_id o) (map t_id (tenants (w_base w))) ->
  (forall n, ~ In (env_uuid4 n) (map ss_id (sessions (w_base w)))) ->
  accounts (lg_email body) (w_base w) = [o] -> o_internal_password_hash o = Some h ->
  exists n, let '(out, w') := internal_login body w in
    login_outcome (if String.eqb (o_status o) "locked" then Refused
                   else match argon2_verify n h (lg_password body) with Verified => Accepted o | _ => Refused end) w w' out /\
    p_verifies (w_proc w') = S (p_verifies (w_proc w)).
Proof.
  intros Ht Hten Hfresh Ea Eh. unfold internal_login.
  destruct (fetch_operator_run (lg_email body) w) as (w1 & B1 & P1 & E1). rewrite one_or_none_single, Ea in E1.
  destruct (verify_internal_login_run (lg_email body) (lg_password body) w1) as (n & w2 & B2 & H2).
  rewrite B1, Ea, Eh in H2. destruct H2 as [P2 E2]. exists n. erewrite bind_run by exact E1. cbv beta iota zeta.
  rewrite Eh. erewrite bind_run by exact E2. clear E2.
  destruct (String.eqb (o_status o) "locked"); [|destruct (argon2_verify n h (lg_password body))];
    try (cbn; rewrite P2, P1, B2; split; [done|cbn; lia]).
  assert (Ho : In o (operators (w_base w))).
  { assert (Hin : In o (accounts (lg_email body) (w_base w))) by (rewrite Ea; by left). by apply filter_In in Hin as [? _]. }
  destruct (create_session_run o "internal" w2) as (w3 & P3 & B3 & E3); [done|by rewrite B2, B1|by rewrite B2, B1|rewrite B2, B1; apply Hfresh|].
  cbv beta iota. erewrite bind_run by exact E3. erewrite bind_run by reflexivity.
  split; [|cbn; rewrite P3, P2, P1; cbn; lia].
  exists w2. eexists. split; [reflexivity|]. cbn [w_base tick]. by rewrite B3, B2, B1.
Qed.

(** One operator with the email, who has no password. *)
Lemma internal_login_no_password body w o : accounts (lg_email body) (w_base w) = [o] -> o_internal_password_hash o = None ->
  exists w', internal_login body w = (Ok login_disabled, w') /\ w_base w' = w_base w /\
    p_verifies (w_proc w') = S (p_verifies (w_proc w)).
Proof.
  intros Ea Eh. destruct (fetch_operator_run (lg_email body) w) as (w1 & B1 & P1 & E1). rewrite one_or_none_single, Ea in E1.
  unfold internal_login. destruct (ph_verify_run DUMMY_HASH (lg_password body) w1) as (n & w2 & B2 & P2 & E2).
  exists w2. erewrite bind_run by exact E1. cbv beta iota zeta. rewrite Eh. erewrite bind_run by exact E2.
  split; [done|]. rewrite P2, P1, B2. by split.
Qed.

End LoginLaws.

(** ** Witnesses *)

Section Witnesses.
#[local] Existing Instance demo_env.
#[local] Existing Instance demo_vault.
#[local] Existing Instance demo_argon2.

End Witnesses.
