(* ===== verification/Whoami.v ===== *)
(** * Logout against concurrent whoami requests (admin_api/api/auth.py)

    The requests of one process interleave at their awaits.  A [task] is a
    whoami or logout request between two awaits; [advance] runs its next
    section, which is a section of the handlers of [Login]
    ([lookup_sections], [logout_sections]); [step] lets any request begin,
    advance, or anything else happen to the world. *)

From S2P Require Import Prelude PyStr PyJson PyJsonFacts PyTime PyFloat WireIds AuditHash.
From S2P Require Import Vault Tables Database Logic Demo Keys Sessions Login.
From Stdlib Require QArith_base.

Local Open Scope string_scope.
Local Open Scope py_scope.

#[local] Opaque uuid_str UUID.

(** What remains of a request: a lookup at its begin, at the await of [validate_session], at that of
    the join, before it caches, and answered; a logout at its begin, after [delete_session], and
    answered; a request that failed with an exception. *)
Inductive task :=
| Looking (tok : string)
| Validating (tok : string) (now : QArith_base.Q) (evictions_at_start : nat)
| Reading (tok : string) (now : QArith_base.Q) (evictions_at_start : nat) (ctx : session_ctx)
| Storing (tok : string) (now : QArith_base.Q) (evictions_at_start : nat) (data : dict)
| Answered (tok : string) (data : option dict)
| Deleting (tok : string)
| Evicting (tok : string) (delete_failed : bool)
| LoggedOut (tok : string) (delete_failed : bool)
| Failed.

Definition final (k : task) : bool :=
  match k with Answered _ _ | LoggedOut _ _ | Failed => true | _ => false end.
Definition initial (k : task) : bool :=
  match k with Looking _ | Deleting _ => true | _ => false end.

Section Tasks.
Context `{E : Env} `{V : Vault}.

Definition advance (k : task) : M task :=
  match k with
  | Looking tok =>
      let! c := whoami_cached tok in
      let '(now, cached, evictions_at_start) := c in
      ret (match cached with Some data => Answered tok (Some data) | None => Validating tok now evictions_at_start end)
  | Validating tok now ev =>
      let! ctx := validate_session tok in
      ret (match ctx with None => Answered tok None | Some ctx => Reading tok now ev ctx end)
  | Reading tok now ev ctx =>
      let! row := whoami_row ctx tok in
      ret (match row with None => Answered tok None | Some row => Storing tok now ev (whoami_data row) end)
  | Storing tok now ev data =>
      do! whoami_store tok data now ev in
      ret (Answered tok (Some data))
  | Deleting tok =>
      let! failed := logout_delete tok in
      ret (Evicting tok failed)
  | Evicting tok failed =>
      do! _evict_whoami tok in
      ret (LoggedOut tok failed)
  | k => ret k
  end.

(** The sections in a row. *)
Fixpoint drive (n : nat) (k : task) : M task :=
  match n with
  | O => ret k
  | S n => let! k := advance k in drive n k
  end.

Lemma drive_final n k w : final k = true -> drive n k w = (Ok k, w).
Proof. intros H. revert w. induction n as [|n IH]; intros w; [done|]. destruct k; try done; cbn [drive advance]; rewrite bind_ret; apply IH. Qed.

(** The sections of a lookup make up [_whoami_lookup], those of a logout [logout]. *)
Lemma lookup_sections tok w :
  drive 4 (Looking tok) w = (let! data := _whoami_lookup tok in ret (Answered tok data)) w.
Proof.
  cbn [drive]. unfold _whoami_lookup. rewrite bind_assoc. change (advance (Looking tok)) with
    (let! c := whoami_cached tok in let '(now, cached, evictions_at_start) := c in
     ret (match cached with Some data => Answered tok (Some data) | None => Validating tok now evictions_at_start end)).
  rewrite bind_assoc. apply bind_cong. intros [[now cached] ev] w1. cbv beta iota. rewrite bind_ret.
  destruct cached as [data|]; [by rewrite bind_ret; apply (drive_final 3)|].
  cbn [advance]. rewrite !bind_assoc. apply bind_cong. intros ctx w2. rewrite bind_ret.
  destruct ctx as [ctx|]; [|by rewrite bind_ret; apply (drive_final 2)].
  cbn [advance]. rewrite !bind_assoc. apply bind_cong. intros row w3. rewrite bind_ret.
  destruct row as [row|]; [|by rewrite bind_ret; apply (drive_final 1)].
  cbn [advance]. rewrite !bind_assoc. apply bind_cong. intros [] w4. by rewrite !bind_ret.
Qed.

Lemma logout_sections tok w : tok <> "" ->
  (let! k := drive 2 (Deleting tok) in
   ret (match k with LoggedOut _ failed => logout_response failed | _ => logout_response true end)) w
  = logout (Some tok) w.
Proof.
  intros Hne. unfold logout, session_token. destruct tok as [|c s]; [done|]. generalize (String c s). intros tok.
  cbn [drive advance]. rewrite !bind_assoc. apply bind_cong. intros failed w1. rewrite bind_ret.
  cbn [advance]. rewrite !bind_assoc. apply bind_cong. intros [] w2. by rewrite !bind_ret.
Qed.

(** ** What a section does to the sessions and to the cache *)

Definition session_ids (d : db) : list uuid := map ss_id (sessions d).
Definition fewer_sessions (d d' : db) : Prop := forall id, In id (session_ids d') -> In id (session_ids d).

#[global] Instance fewer_sessions_preorder : PreOrder fewer_sessions.
Proof. split; [by intros d id|]. intros a b c H1 H2 id H. by apply H1, H2. Qed.

Lemma fewer_delete p d : fewer_sessions d (delete_db sessions_t p d).
Proof.
  intros id. unfold session_ids, delete_db. cbn [tb_cascade sessions_t no_cascade tb_get tb_set sessions].
  rewrite !in_map_iff. intros (r & <- & H). apply filter_In in H as [H _]. by exists r.
Qed.

Lemma cast_uuid_any (R : relation db) `{!PreOrder R} G s : respects R G (cast_uuid s).
Proof. unfold cast_uuid. destruct (pg_uuid_in s); [apply respects_ret|]. by apply respects_execute. Qed.
Lemma silent_cast_uuid s : silent (cast_uuid s).
Proof. unfold cast_uuid. destruct (pg_uuid_in s); [apply silent_ret|]. by apply silent_execute. Qed.

Lemma validate_body_fewer token : respects fewer_sessions any_guc (
  do! set_config_tenant nil_uuid_text in
  do! set_config_admin_view in
  let! now := now_utc in
  let! id := cast_uuid token in
  let! row := select sessions_t (fun r => N.eqb (ss_id r) id && Z.ltb now (ss_expires_at r)) in
  lift (one_or_none row)).
Proof.
  apply respects_bind; [apply respects_any_guc; by intros w a w' [= <- <-]|intros _].
  apply respects_bind; [apply respects_any_guc; by intros w a w' [= <- <-]|intros _].
  apply respects_bind; [apply respects_now|intros now]. apply respects_bind; [apply cast_uuid_any; apply _|intros id].
  apply respects_bind; [apply respects_select, _|intros rows]. apply respects_lift.
Qed.

Lemma whoami_row_fewer ctx tok w : fewer_sessions (w_base w) (w_base (snd (whoami_row ctx tok w))).
Proof.
  unfold whoami_row. apply (transaction_safe fewer_sessions), safe_any.
  apply respects_bind; [apply respects_now|intros now].
  apply respects_bind; [apply respects_any_guc; by intros w0 a w' [= <- <-]|intros _].
  do 2 (apply respects_bind; [apply cast_uuid_any; apply _|intros ?]).
  apply respects_bind; [apply respects_query, _|intros rows]. apply respects_ret.
Qed.

Lemma whoami_row_silent ctx tok w : w_proc (snd (whoami_row ctx tok w)) = w_proc w.
Proof.
  unfold whoami_row. rewrite silent_transaction. change (w_proc w) with (w_proc (begin w)). generalize (begin w).
  change (silent (let! sql_now := transaction_timestamp in
    do! execute (fun w => Ok (tt, set_guc (Some nil_uuid_text) true w)) in
    let! tok := cast_uuid tok in
    let! oid := cast_uuid (uuid_str (ctx_operator_id ctx)) in
    let! rows := query (fun pol d =>
      flat_map (fun o => map (fun s => (o, ss_auth_method s))
        (List.filter (fun s => N.eqb (ss_id s) tok && Z.ltb sql_now (ss_expires_at s)) (visible sessions_t pol d)))
        (List.filter (fun o => N.eqb (o_id o) oid) (visible operators_t pol d))) in
    ret (fetchone rows))).
  apply silent_bind; [apply silent_now|intros now].
  apply silent_bind; [apply silent_execute; by intros w0 a w' [= <- <-]|intros _].
  do 2 (apply silent_bind; [apply silent_cast_uuid|intros ?]).
  apply silent_bind; [apply silent_query|intros rows]. apply silent_ret.
Qed.

(** No session has the identifier the token spells. *)
Definition gone (tok : string) (w : world) : Prop :=
  match UUID tok with
  | Raise _ => True
  | Ok _ => forall u, pg_uuid_in tok = Some u -> ~ In u (session_ids (w_base w))
  end.

Lemma gone_fewer tok w w' : fewer_sessions (w_base w) (w_base w') -> gone tok w -> gone tok w'.
Proof. unfold gone. destruct (UUID tok); [|done]. intros Hf H u Hu Hin. by apply (H u Hu), Hf. Qed.

Lemma cast_uuid_Ok s w u w' : cast_uuid s w = (Ok u, w') -> pg_uuid_in s = Some u /\ w' = w.
Proof.
  unfold cast_uuid. destruct (pg_uuid_in s); [by intros [= <- <-]|]. intros H. by apply execute_Ok in H as [_ H].
Qed.

Lemma one_or_none_in {R} (l : list R) r : one_or_none l = Ok (Some r) -> In r l.
Proof. destruct l as [|a [|b l]]; try done. intros [= <-]. by left. Qed.

Lemma validate_gone tok w c w' : gone tok w -> validate_session tok w = (Ok (Some c), w') -> False.
Proof.
  unfold gone, validate_session. destruct (UUID tok) as [v|]; [|by intros _ H].
  intros Hg H. step H as res w1 Hr. apply ret_Ok in H as [H _]. destruct res as [r|]; [|done]. clear H.
  apply transaction_Ok in Hr as (w2 & Hr & _). step Hr as x1 w3 H1. apply execute_Ok in H1 as [_ [= _ <-]].
  step Hr as x2 w4 H2. apply admin_view_Ok in H2 as [_ ->]. step Hr as now w5 H3. apply now_Ok in H3 as [_ ->].
  step Hr as id w6 H4. apply cast_uuid_Ok in H4 as [Hid ->]. step Hr as rows w7 H5.
  apply select_eff in H5 as (_ & _ & _ & pol & _ & ->). apply lift_Ok in Hr as [Hr _].
  apply one_or_none_in in Hr. apply filter_In in Hr as [Hin Hp]. apply (Hg id Hid).
  apply andb_true_iff in Hp as [_ Hp]. apply andb_true_iff in Hp as [Hp _]. apply N.eqb_eq in Hp.
  apply in_map_iff. exists r. split; [done|exact Hin].
Qed.

Lemma row_gone ctx tok v w r w' : UUID tok = Ok v -> gone tok w -> whoami_row ctx tok w = (Ok (Some r), w') -> False.
Proof.
  unfold gone. intros -> Hg H. unfold whoami_row in H. apply transaction_Ok in H as (w2 & Hr & _).
  step Hr as now w3 H1. apply now_Ok in H1 as [_ ->]. step Hr as x w4 H2. apply execute_Ok in H2 as [_ [= _ <-]].
  step Hr as id w5 H3. apply cast_uuid_Ok in H3 as [Hid ->]. step Hr as oid w6 H4. apply cast_uuid_Ok in H4 as [_ ->].
  step Hr as rows w7 H5. apply query_eff in H5 as (_ & _ & _ & pol & _ & ->). apply ret_Ok in Hr as [Hr _].
  unfold fetchone in Hr. symmetry in Hr. apply head_Some in Hr as [tl Hr].
  assert (Hin : In r (r :: tl)) by by left. rewrite <- Hr in Hin. apply in_flat_map in Hin as (o & _ & Hin).
  apply in_map_iff in Hin as (s & _ & Hin). apply filter_In in Hin as [Hin Hp]. apply filter_In in Hin as [Hin _].
  apply andb_true_iff in Hp as [Hp _]. apply N.eqb_eq in Hp. apply (Hg id Hid), in_map_iff. exists s. split; [done|exact Hin].
Qed.

Lemma delete_gone tok w b w' : delete_session tok w = (Ok b, w') -> gone tok w'.
Proof.
  unfold gone, delete_session. destruct (UUID tok) as [v|]; [|done]. intros H u Hu.
  step H as n w1 Hr. apply ret_Ok in H as [_ ->]. apply transaction_Ok in Hr as (w2 & Hr & Hw).
  step Hr as x1 w3 H1. apply execute_Ok in H1 as [Ht [= _ <-]]. step Hr as x2 w4 H2. apply admin_view_Ok in H2 as [_ ->].
  step Hr as id w6 H4. apply cast_uuid_Ok in H4 as [Hid ->]. rewrite Hu in Hid. injection Hid as <-.
  apply delete_Ok in Hr as (pol & Hp & _ & _ & ->). cbn [w_tx set_db tick set_guc begin] in Hw. subst w1.
  cbn [w_base committed tick set_db w_db]. unfold session_ids, delete_db.
  cbn [tb_cascade sessions_t no_cascade tb_get tb_set sessions]. rewrite in_map_iff. intros (r & Hr & Hin).
  apply filter_In in Hin as [_ Hin]. unfold sees, policy in *. cbn [w_tenant w_admin_view tick set_guc begin] in Hp.
  destruct (pg_uuid_in nil_uuid_text); [|done]. cbn [mbind outcome_bind] in Hp. apply Ok_inj in Hp. subst pol.
  cbn [tb_tenant sessions_t] in Hin. by rewrite orb_true_r, Hr, N.eqb_refl in Hin.
Qed.

Lemma logout_delete_gone tok w w' : logout_delete tok w = (Ok false, w') -> gone tok w'.
Proof.
  unfold logout_delete, catch, bind. destruct (delete_session tok w) as [[b|e] w1] eqn:Ed; [|done].
  intros [= <-]. by eapply delete_gone.
Qed.

Lemma delete_session_fewer tok w : fewer_sessions (w_base w) (w_base (snd (delete_session tok w))).
Proof.
  unfold delete_session. destruct (UUID tok); [|done]. unfold bind at 1.
  match goal with |- context [transaction ?m w] => pose proof (transaction_safe fewer_sessions m w) as H; destruct (transaction m w) as [[n|e] w1] end;
    (apply H; clear H; apply safe_any;
     apply respects_bind; [apply respects_any_guc; by intros w0 a0 w' [= <- <-]|intros _];
     apply respects_bind; [apply respects_any_guc; by intros w0 a0 w' [= <- <-]|intros _];
     apply respects_bind; [apply cast_uuid_any; apply _|intros id];
     apply respects_delete; [apply _|]; intros w0 pol d _ _; apply fewer_delete).
Qed.

Lemma validate_fewer tok w : fewer_sessions (w_base w) (w_base (snd (validate_session tok w))).
Proof.
  unfold validate_session. destruct (UUID tok); [|done]. unfold bind at 1.
  match goal with |- context [transaction ?m w] => pose proof (transaction_safe fewer_sessions m w) as H; destruct (transaction m w) as [[n|e] w1] end;
    (apply H, safe_any, validate_body_fewer).
Qed.

Lemma silent_validate tok : silent (validate_session tok).
Proof.
  unfold validate_session. destruct (UUID tok); [|apply silent_ret].
  apply silent_bind; [|intros; apply silent_ret]. intros w. rewrite silent_transaction.
  change (w_proc w) with (w_proc (begin w)). generalize (begin w). clear w.
  match goal with |- forall w, w_proc (snd (?m w)) = _ => change (silent m) end.
  apply silent_bind; [apply silent_set_config|intros _].
  apply silent_bind; [apply silent_execute; by intros w0 a0 w' [= <- <-]|intros _].
  apply silent_bind; [apply silent_now|intros now]. apply silent_bind; [apply silent_cast_uuid|intros id].
  apply silent_bind; [apply silent_select|intros rows]. apply silent_lift.
Qed.

Lemma silent_delete_session tok : silent (delete_session tok).
Proof.
  unfold delete_session. destruct (UUID tok); [|apply silent_ret].
  apply silent_bind; [|intros; apply silent_ret]. intros w. rewrite silent_transaction.
  change (w_proc w) with (w_proc (begin w)). generalize (begin w). clear w.
  match goal with |- forall w, w_proc (snd (?m w)) = _ => change (silent m) end.
  apply silent_bind; [apply silent_set_config|intros _].
  apply silent_bind; [apply silent_execute; by intros w0 a0 w' [= <- <-]|intros _].
  apply silent_bind; [apply silent_cast_uuid|intros id]. apply silent_delete.
Qed.

Lemma silent_logout_delete tok : silent (logout_delete tok).
Proof.
  apply silent_catch; [|intros; apply silent_ret]. apply silent_bind; [apply silent_delete_session|intros; apply silent_ret].
Qed.

Lemma base_bind_ret {A B} (m : M A) (g : A -> B) w :
  w_base (snd ((let! a := m in ret (g a)) w)) = w_base (snd (m w)) /\
  w_proc (snd ((let! a := m in ret (g a)) w)) = w_proc (snd (m w)).
Proof. unfold bind. by destruct (m w) as [[a|e] w1]. Qed.

Lemma logout_delete_fewer tok w : fewer_sessions (w_base w) (w_base (snd (logout_delete tok w))).
Proof.
  unfold logout_delete, catch. pose proof (delete_session_fewer tok w) as H.
  unfold bind. by destruct (delete_session tok w) as [[b|e] w1].
Qed.

(** No section creates a session, and only two touch the cache. *)
Lemma advance_fewer k w : fewer_sessions (w_base w) (w_base (snd (advance k w))).
Proof.
  destruct k; cbn [advance]; try done.
  - rewrite (proj1 (base_bind_ret _ _ _)). apply validate_fewer.
  - rewrite (proj1 (base_bind_ret _ _ _)). apply whoami_row_fewer.
  - unfold bind, whoami_store. by destruct (Nat.eqb _ _).
  - rewrite (proj1 (base_bind_ret _ _ _)). apply logout_delete_fewer.
Qed.

Lemma advance_proc k w :
  match k with Storing _ _ _ _ | Evicting _ _ => True | _ => w_proc (snd (advance k w)) = w_proc w end.
Proof.
  destruct k; cbn [advance]; try done.
  - rewrite (proj2 (base_bind_ret _ _ _)). apply silent_validate.
  - rewrite (proj2 (base_bind_ret _ _ _)). apply whoami_row_silent.
  - rewrite (proj2 (base_bind_ret _ _ _)). apply silent_logout_delete.
Qed.

(** ** Interleavings *)

(** A request with the times of its begin and of its last section. *)
Record entry := Entry { en_born : nat; en_last : nat; en_task : task }.
Record state := State { st_world : world; st_pool : list entry; st_clock : nat }.

Definition settle (o : outcome task) : task := match o with Ok k => k | Raise _ => Failed end.

(** What all other requests may do: anything to the world, but they do not touch the cache, and a
    login does not draw the identifier of a session that is gone. *)
Definition unrelated (tok : string) (w w' : world) : Prop :=
  p_whoami (w_proc w') = p_whoami (w_proc w) /\ p_evictions (w_proc w') = p_evictions (w_proc w) /\
  (gone tok w -> gone tok w').

Inductive step (tok : string) : state -> state -> Prop :=
| step_begin w pool n k :
    initial k = true -> step tok (State w pool n) (State w (pool ++ [Entry n n k]) (S n))
| step_advance w l1 b l k l2 n :
    final k = false ->
    step tok (State w (l1 ++ Entry b l k :: l2) n)
      (State (snd (advance k w)) (l1 ++ Entry b n (settle (fst (advance k w))) :: l2) (S n))
| step_other w w' pool n :
    unrelated tok w w' -> step tok (State w pool n) (State w' pool (S n)).

Inductive reachable (tok : string) : state -> Prop :=
| reach_start w : reachable tok (State w [] 0)
| reach_step s s' : reachable tok s -> step tok s s' -> reachable tok s'.

(** A request that began after [t] has seen no identity of the token, and none can store one
    under the eviction counter [evs]. *)
Definition quiet (tok : string) (t evs : nat) (e : entry) : Prop :=
  match en_task e with
  | Reading tok' _ _ _ | Answered tok' (Some _) => tok' = tok -> (en_born e <= t)%nat
  | Storing tok' _ ev _ => tok' = tok -> (ev < evs)%nat /\ (en_born e <= t)%nat
  | _ => True
  end.

Definition seen_evictions (k : task) : nat :=
  match k with Validating _ _ ev | Reading _ _ ev _ | Storing _ _ ev _ => ev | _ => 0 end.

(** The token is out: no session, no cached answer, and every request is quiet. *)
Definition out (tok : string) (t : nat) (s : state) : Prop :=
  gone tok (st_world s) /\ p_whoami (w_proc (st_world s)) !! tok = None /\
  forall e, In e (st_pool s) -> quiet tok t (p_evictions (w_proc (st_world s))) e.

Record inv (tok : string) (s : state) : Prop := {
  inv_born : forall e, In e (st_pool s) -> (en_born e < st_clock s)%nat;
  inv_seen : forall e, In e (st_pool s) -> (seen_evictions (en_task e) <= p_evictions (w_proc (st_world s)))%nat;
  inv_evicting : forall e, In e (st_pool s) -> en_task e = Evicting tok false -> gone tok (st_world s);
  inv_out : forall e, In e (st_pool s) -> en_task e = LoggedOut tok false -> out tok (en_last e) s }.

(** ** Preservation *)

Section Preserved.
Context (tok : string) (v : uuid) (Hv : UUID tok = Ok v).

(** The cache has no answer for a token that is out, whatever section runs. *)
Lemma advance_cache k w :
  p_whoami (w_proc w) !! tok = None ->
  match k with Storing tok' _ ev _ => tok' = tok -> (ev < p_evictions (w_proc w))%nat | _ => True end ->
  p_whoami (w_proc (snd (advance k w))) !! tok = None.
Proof.
  intros Hc Hk. pose proof (advance_proc k w) as Hp. destruct k; try (by rewrite Hp).
  - cbn [advance]. unfold bind, whoami_store. destruct (Nat.eqb_spec (p_evictions (w_proc w)) evictions_at_start) as [He|]; [|done].
    cbn [snd ret w_proc set_proc p_whoami set_whoami]. rewrite map_lookup_filter_None. left.
    destruct (decide (tok0 = tok)) as [->|Hne]; [specialize (Hk eq_refl); lia|by rewrite lookup_insert_ne].
  - cbn. destruct (decide (tok0 = tok)) as [->|Hne]; [apply lookup_delete_eq|by rewrite lookup_delete_ne].
Qed.

Lemma advance_evictions k w : (p_evictions (w_proc w) <= p_evictions (w_proc (snd (advance k w))))%nat.
Proof.
  pose proof (advance_proc k w) as Hp. destruct k; try (by rewrite Hp).
  - cbn [advance]. unfold bind, whoami_store. by destruct (Nat.eqb _ _).
  - cbn. lia.
Qed.

Lemma advance_seen k w :
  (seen_evictions k <= p_evictions (w_proc w))%nat ->
  (seen_evictions (settle (fst (advance k w))) <= p_evictions (w_proc w))%nat.
Proof.
  intros Hk. destruct k; cbn [advance]; try (cbn; lia).
  - cbn. destruct (p_whoami (w_proc w) !! tok0) as [[d t0]|]; [destruct (recent _ _)|]; cbn; lia.
  - unfold bind. destruct (validate_session tok0 w) as [[[c|]|e] w1]; cbn in *; lia.
  - unfold bind. destruct (whoami_row ctx tok0 w) as [[[c|]|e] w1]; cbn in *; lia.
  - unfold bind, whoami_store. destruct (Nat.eqb _ _); cbn; lia.
  - unfold bind. destruct (logout_delete tok0 w) as [[c|e] w1]; cbn; lia.
Qed.

(** Once the token is out, the next section of a request keeps it quiet. *)
Lemma advance_quiet b l n k w t :
  final k = false -> gone tok w -> p_whoami (w_proc w) !! tok = None -> 
  quiet tok t (p_evictions (w_proc w)) (Entry b l k) ->
  quiet tok t (p_evictions (w_proc (snd (advance k w)))) (Entry b n (settle (fst (advance k w)))).
Proof.
  intros Hk Hg Hc Hq. unfold quiet in *. cbn [en_task en_born] in *.
  destruct k; try done; cbn [advance] in *.
  - cbn. destruct (p_whoami (w_proc w) !! tok0) as [[d t0]|] eqn:Ec; [|done].
    destruct (recent _ _); [|done]. cbn. intros ->. by rewrite Hc in Ec.
  - unfold bind. destruct (validate_session tok0 w) as [[[c|]|e] w1] eqn:Ew; cbn; try done.
    intros ->. exfalso. by eapply validate_gone.
  - unfold bind. destruct (whoami_row ctx tok0 w) as [[[c|]|e] w1] eqn:Ew; cbn; try done.
    intros ->. exfalso. by eapply row_gone.
  - unfold bind, whoami_store. destruct (Nat.eqb _ _); cbn; intros ->; by apply Hq.
  - unfold bind. by destruct (logout_delete tok0 w) as [[c|e] w1].
Qed.

Lemma quiet_mono t evs evs' e : (evs <= evs')%nat -> quiet tok t evs e -> quiet tok t evs' e.
Proof. unfold quiet. intros Hle. destruct (en_task e); try done. intros H He. destruct (H He). split; [lia|done]. Qed.

Lemma pool_split {A} (l1 l2 : list A) x e : In e (l1 ++ x :: l2)%list -> e = x \/ In e (l1 ++ l2)%list.
Proof. rewrite !in_app_iff. cbn [In]. intuition congruence. Qed.
Lemma pool_keep {A} (l1 l2 : list A) x e : In e (l1 ++ l2)%list -> In e (l1 ++ x :: l2)%list.
Proof. rewrite !in_app_iff. cbn [In]. tauto. Qed.

Lemma out_step t s s' : step tok s s' -> out tok t s -> out tok t s'.
Proof.
  intros Hs (Hg & Hc & Hq). destruct Hs as [w pool n k Hk|w l1 b l k l2 n Hk|w w' pool n (H1 & H2 & H3)];
    cbn [st_world st_pool] in *.
  - split; [done|]. split; [done|]. intros e He. apply in_app_iff in He as [He|[<-|[]]]; [by apply Hq|]. by destruct k.
  - assert (He0 : quiet tok t (p_evictions (w_proc w)) (Entry b l k)) by (apply Hq, in_app_iff; right; by left).
    split; [|split]; cbn [st_world st_pool].
    + by apply (gone_fewer tok w), Hg; apply advance_fewer.
    + apply advance_cache; [done|]. destruct k; try done. intros He. by destruct (He0 He).
    + intros e He. apply pool_split in He as [->|He]; [by eapply advance_quiet|].
      apply (quiet_mono t (p_evictions (w_proc w))); [apply advance_evictions|]. apply Hq. by apply pool_keep.
  - split; [by apply H3|]. split; [by cbn [st_world]; rewrite H1|]. cbn [st_world st_pool]. intros e He. rewrite H2. by apply Hq.
Qed.

(** A logout that is answered puts the token out. *)
Lemma evict_out w l1 b l tok' l2 n :
  inv tok (State w (l1 ++ Entry b l (Evicting tok' false) :: l2) n) -> tok' = tok ->
  out tok n (State (snd (advance (Evicting tok' false) w)) (l1 ++ Entry b n (LoggedOut tok' false) :: l2) (S n)).
Proof.
  intros [Hb Hs He _] ->. cbn [st_world st_pool st_clock] in *.
  assert (Hg : gone tok w) by (apply (He (Entry b l (Evicting tok false))); [apply in_app_iff; right; by left|done]).
  split; [exact Hg|]. split; [apply lookup_delete_eq|]. cbn [st_pool st_world].
  intros e Hin. apply pool_split in Hin as [->|Hin]; [done|].
  specialize (Hb e (pool_keep _ _ _ _ Hin)). specialize (Hs e (pool_keep _ _ _ _ Hin)).
  unfold quiet. cbn [advance bind _evict_whoami snd w_proc set_proc p_evictions set_whoami ret].
  destruct (en_task e) as [| | | |? [|]| | | |]; try done; cbn in Hs; intros _; [lia|split; lia|lia].
Qed.

Lemma inv_step s s' : step tok s s' -> inv tok s -> inv tok s'.
Proof.
  intros Hst Hi. pose proof (fun t => out_step t s s' Hst) as Hout. destruct Hi as [Hb Hs He Ho].
  destruct Hst as [w pool n k Hk|w l1 b l k l2 n Hk|w w' pool n (H1 & H2 & H3)]; cbn [st_world st_pool st_clock] in *; split;
    cbn [st_world st_pool st_clock]; intros e Hin.
  - apply in_app_iff in Hin as [Hin|[<-|[]]]; [apply Hb in Hin; lia|cbn; lia].
  - apply in_app_iff in Hin as [Hin|[<-|[]]]; [by apply Hs|]. destruct k; try done; cbn; lia.
  - apply in_app_iff in Hin as [Hin|[<-|[]]]; [by apply He|]. by destruct k.
  - apply in_app_iff in Hin as [Hin|[<-|[]]]; [|by destruct k]. intros Hl. by apply Hout, Ho.
  - apply pool_split in Hin as [->|Hin]; [|apply (pool_keep _ _ (Entry b l k)), Hb in Hin; lia].
    assert (Hx : In (Entry b l k) (l1 ++ Entry b l k :: l2)) by (apply in_app_iff; right; by left). apply Hb in Hx. cbn in *. lia.
  - etransitivity; [|apply advance_evictions]. apply pool_split in Hin as [->|Hin].
    + apply advance_seen. apply (Hs (Entry b l k)). apply in_app_iff. right. by left.
    + by apply Hs, pool_keep.
  - intros Hl. apply pool_split in Hin as [->|Hin].
    + cbn [en_task] in Hl. destruct k; try done; cbn [advance] in Hl |- *.
      * cbn in Hl. destruct (p_whoami (w_proc w) !! tok0) as [[d t0]|]; [destruct (recent _ _)|]; done.
      * unfold bind in Hl. by destruct (validate_session tok0 w) as [[[c|]|e] w1].
      * unfold bind in Hl. by destruct (whoami_row ctx tok0 w) as [[[c|]|e] w1].
      * unfold bind, whoami_store in Hl. by destruct (Nat.eqb _ _).
      * unfold bind in *. destruct (logout_delete tok0 w) as [[c|e] w1] eqn:Ed; [|done]. cbn in Hl. injection Hl as -> ->.
        by apply logout_delete_gone in Ed.
    + apply (gone_fewer tok w); [apply advance_fewer|]. eapply He; [by apply pool_keep|done].
  - intros Hl. apply pool_split in Hin as [->|Hin]; [|by apply Hout, Ho; [apply pool_keep|]].
    cbn [en_task en_last] in *. destruct k; try done; cbn [advance] in Hl.
    + cbn in Hl. destruct (p_whoami (w_proc w) !! tok0) as [[d t0]|]; [destruct (recent _ _)|]; done.
    + unfold bind in Hl. by destruct (validate_session tok0 w) as [[[c|]|e] w1].
    + unfold bind in Hl. by destruct (whoami_row ctx tok0 w) as [[[c|]|e] w1].
    + unfold bind, whoami_store in Hl. by destruct (Nat.eqb _ _).
    + unfold bind in Hl. by destruct (logout_delete tok0 w) as [[c|e] w1].
    + cbn in Hl. injection Hl as -> ->. by apply (evict_out w l1 b l tok l2 n).
  - apply Hb in Hin. lia.
  - rewrite H2. by apply Hs.
  - intros Hl. apply H3. by apply (He e).
  - intros Hl. by apply Hout, Ho.
Qed.

Lemma reachable_inv s : reachable tok s -> inv tok s.
Proof. induction 1 as [w|s s' _ IH Hs]; [by split|by eapply inv_step]. Qed.
End Preserved.
End Tasks.

(** ** Properties *)

Section Properties.
Context `{E : Env} `{V : Vault}.

(** C23: a logout is final, however requests interleave.  The requests of a process (whoami lookups and
    logouts in any number, cut at their awaits, anything else in between, with any failures of the
    database) run in any order.  Once a logout of a session has been answered 204, the session is
    gone, the cache of whoami has no answer for its cookie, not even one stored by a lookup that was
    in flight, and no whoami request that began after the answer shows an identity for the cookie. *)
Theorem logout_final tok v s e :
  UUID tok = Ok v -> reachable tok s ->
  In e (st_pool s) -> en_task e = LoggedOut tok false ->
  gone tok (st_world s) /\ p_whoami (w_proc (st_world s)) !! tok = None /\
  forall e' data, In e' (st_pool s) -> en_task e' = Answered tok (Some data) -> (en_born e' <= en_last e)%nat.
Proof.
  intros Hv Hr Hin Hl. destruct (inv_out _ _ (reachable_inv tok v Hv s Hr) e Hin Hl) as (Hg & Hc & Hq).
  split; [done|]. split; [done|]. intros e' data Hin' Ha. specialize (Hq e' Hin'). unfold quiet in Hq.
  rewrite Ha in Hq. by apply Hq.
Qed.

End Properties.

(** ** Schedules *)

(** A run chosen by a list: a request begins, or the one at an index advances. *)
Definition choose `{E : Env} `{V : Vault} (c : task + nat) (s : state) : state :=
  let '(State w pool n) := s in
  match c with
  | inl k => if initial k then State w (pool ++ [Entry n n k])%list (S n) else s
  | inr i =>
      match pool !! i with
      | Some (Entry b l k) =>
          if final k then s
          else State (snd (advance k w)) (take i pool ++ Entry b n (settle (fst (advance k w))) :: drop (S i) pool)%list (S n)
      | None => s
      end
  end.
Definition schedule `{E : Env} `{V : Vault} (cs : list (task + nat)) (s : state) : state := fold_left (fun s c => choose c s) cs s.

Lemma choose_reachable `{E : Env} `{V : Vault} tok c s : reachable tok s -> reachable tok (choose c s).
Proof.
  intros Hr. destruct s as [w pool n]. destruct c as [k|i]; cbn [choose].
  - destruct (initial k) eqn:Hk; [|done]. eapply reach_step; [exact Hr|]. by apply step_begin.
  - destruct (pool !! i) as [[b l k]|] eqn:Ei; [|done]. destruct (final k) eqn:Hk; [done|].
    eapply reach_step; [exact Hr|]. rewrite <- (take_drop_middle pool i _ Ei) at 1. by apply step_advance.
Qed.

Lemma schedule_reachable `{E : Env} `{V : Vault} tok cs s : reachable tok s -> reachable tok (schedule cs s).
Proof. revert s. induction cs as [|c cs IH]; intros s Hr; [done|]. by apply IH, choose_reachable. Qed.

Section Witnesses.
#[local] Existing Instance demo_env.
#[local] Existing Instance demo_vault.

(** A lookup reads the session, a logout deletes it and is answered, the lookup ends, and a second
    lookup begins and ends. *)
Definition demo_race : state :=
  schedule [inl (Looking (uuid_str 4)); inr 0; inr 0; inr 0; inl (Deleting (uuid_str 4)); inr 1; inr 1; inr 0;
            inl (Looking (uuid_str 4)); inr 2; inr 2]%nat (State demo_world [] 0).

Lemma logout_final_witness :
  map (fun e => match en_task e with Answered _ (Some _) => 1 | LoggedOut _ false => 2 | Answered _ None => 3 | _ => 0 end)%nat
    (st_pool demo_race) = [1; 2; 3]%nat /\
  exists e, In e (st_pool demo_race) /\ gone (uuid_str 4) (st_world demo_race) /\
    p_whoami (w_proc (st_world demo_race)) !! uuid_str 4 = None /\
    forall e' data, In e' (st_pool demo_race) -> en_task e' = Answered (uuid_str 4) (Some data) -> (en_born e' <= en_last e)%nat.
Proof.
  split; [vm_compute; reflexivity|]. exists (nth 1 (st_pool demo_race) (Entry 0 0 Failed)).
  split; [vm_compute; tauto|]. apply (logout_final (uuid_str 4) 4%N demo_race).
  - apply UUID_uuid_str. reflexivity.
  - apply schedule_reachable. constructor.
  - vm_compute. tauto.
  - vm_compute. reflexivity.
Defined.

End Witnesses.
