(* ===== verification/Oidc.v ===== *)
(** * Login through the identity provider (admin_api/auth/oidc.py, auth/oidc_state.py, api/auth.py)

    The authorization-code flow with PKCE: a single-use state row per login,
    the exchange of the code, the verification of the ID token, and the
    operator its subject stands for.  Authlib's [jwt.decode] is a parameter;
    the lock around the key set is a no-op, as a request runs alone. *)

From Stdlib Require QArith_base.
From S2P Require Import Prelude PyStr PyText PyCodecs PyJson PyJsonFacts PyTime PyFloat WireIds AuditHash AuditChain.
From S2P Require Import Vault Tables Database Logic PublicUrls Demo Keys Sessions AuditEmit Login.

Local Open Scope string_scope.
Local Open Scope py_scope.

(** [JsonWebToken(...).decode(id_token, jwks, claims_options)] and [claims.validate()], for an issuer and
    an audience: the claims, a [JoseError], or another exception. *)
Inductive jose := Claims (claims : dict) | JoseFailure | JoseCrash (e : exn).
Class Jose := { jose_decode : nat -> json -> json -> string -> string -> jose }.

(** What the handler reads of the callback's request. *)
Record callback_request := MkCallback {
  cb_forwarded_for : option string; cb_client_host : option string;
  cb_forwarded_proto : option string; cb_url_scheme : string }.

Definition OIDC_CLIENT_ID : string := "mintkey-admin-api".
Definition _JWKS_TTL : QArith_base.Q := QArith_base.inject_Z 3600.

(** ** The state store *)

Section OidcState.
Context `{E : Env} `{V : Vault}.

(** [OidcStateRepository.put] *)
Definition put (state code_verifier redirect_uri : string) (ttl_seconds : Z) : M unit :=
  let! sql_now := transaction_timestamp in
  let! _ := delete_from oidc_login_state_t (fun r => Z.ltb (ls_expires_at r) sql_now) in
  insert_ignore oidc_login_state_t (fun r => String.eqb (ls_state r) state)
    (LoginStateRow state code_verifier redirect_uri (sql_now + ttl_seconds * us_per_second)%Z).

(** [OidcStateRepository.pop]: the verifier and the redirect URI *)
Definition pop (state : string) : M (option (string * string)) :=
  let! sql_now := transaction_timestamp in
  let! rows := delete_returning oidc_login_state_t
    (fun r => String.eqb (ls_state r) state && Z.ltb sql_now (ls_expires_at r)) in
  ret (match fetchone rows with
       | Some row => Some (ls_code_verifier row, ls_redirect_uri row)
       | None => None
       end).
End OidcState.

(** The stand-in of the unit tests, over a dict of tuples; the clock is an argument. *)
Module FakeOidcStateRepository.
Abbreviation store := (gmap string (string * string * QArith_base.Q)).

Definition put (now : QArith_base.Q) (state code_verifier redirect_uri : string) (ttl_seconds : Z) (s : store) : store :=
  let s := filter (fun kv => QArith_base.Qle_bool (snd (snd kv)) now = false) s in
  match s !! state with
  | Some _ => s
  | None => <[state := (code_verifier, redirect_uri, QArith_base.Qplus now (QArith_base.inject_Z ttl_seconds))]> s
  end.

Definition pop (now : QArith_base.Q) (state : string) (s : store) : option (string * string) * store :=
  match s !! state with
  | None => (None, s)
  | Some (code_verifier, redirect_uri, expires_at) =>
      let s := delete state s in
      if QArith_base.Qle_bool expires_at now then (None, s) else (Some (code_verifier, redirect_uri), s)
  end.
End FakeOidcStateRepository.

Section Oidc.
Context `{E : Env} `{V : Vault} `{Sha : Sha256} `{J : Jose}.

Definition KEYCLOAK_REALM : string := getenv "KEYCLOAK_REALM" "mintkey".
Definition _OIDC_CLIENT_SECRET_FILE : string :=
  getenv "OIDC_CLIENT_SECRET_FILE" "/run/secrets/mintkey/bootstrap-secrets/oidc_client_secret".

Definition _read_client_secret : M string := fun w =>
  match p_secret (w_proc w) with
  | Some s => (Ok s, w)
  | None =>
      match env_file _OIDC_CLIENT_SECRET_FILE with
      | Some text => let s := py_strip text in (Ok s, set_proc (set_secret (Some s) (w_proc w)) w)
      | None => (Ok "", w)
      end
  end.

Definition realm_url (base path : string) : string := base +:+ "/realms/" +:+ KEYCLOAK_REALM +:+ path.

(** [(now - _JWKS_FETCHED_AT) < _JWKS_TTL] *)
Definition fresh_jwks (now fetched_at : QArith_base.Q) : bool :=
  negb (QArith_base.Qle_bool _JWKS_TTL (float_sub now fetched_at)).

Definition cached_jwks (force : bool) (now : QArith_base.Q) : M (option json) := fun w =>
  (Ok (match p_jwks (w_proc w) with
       | Some (jwks, fetched_at) => if negb force && fresh_jwks now fetched_at then Some jwks else None
       | None => None
       end), w).

Definition _fetch_jwks (force : bool) : M json :=
  let! now := monotonic in
  let! cached := cached_jwks force now in
  match cached with
  | Some jwks => ret jwks
  | None =>
      let! resp := http_get (realm_url AdminUrls.resolve_keycloak_internal_url "/protocol/openid-connect/certs") in
      let '(status, body) := resp in
      if negb ((200 <=? status)%Z && (status <? 300)%Z) then raise (RuntimeError "HTTPStatusError")
      else match body with
           | None => raise (ValueError "JSONDecodeError")
           | Some jwks =>
               let! t := monotonic in
               fun w => (Ok jwks, set_proc (set_jwks (Some (jwks, t)) (w_proc w)) w)
           end
  end.

Definition generate_authorization_url : M (string * string * string) :=
  let redirect_uri := rstrip "/" (getenv "MINTKEY_ADMIN_API_PUBLIC_URL" "http://localhost:8080") +:+ "/v1/auth/oidc/callback" in
  let! state := token_urlsafe 32 in
  let! code_verifier := token_urlsafe 64 in
  let digest := sha256 (utf8 code_verifier) in
  let code_challenge := rstrip "=" (urlsafe_b64encode digest) in
  let! ttl := match py_int10 (getenv "MINTKEY_OIDC_STATE_TTL_SECONDS" "600") with
              | Some n => ret n
              | None => raise (ValueError "invalid literal for int() with base 10")
              end in
  do! put state code_verifier redirect_uri ttl in
  ret (realm_url AdminUrls.resolve_keycloak_public_url "/protocol/openid-connect/auth" +:+
       "?client_id=" +:+ OIDC_CLIENT_ID +:+ "&response_type=code" +:+ "&scope=openid+email+profile" +:+
       "&state=" +:+ state +:+ "&code_challenge=" +:+ code_challenge +:+ "&code_challenge_method=S256" +:+
       "&redirect_uri=" +:+ redirect_uri, state, code_verifier).

(** One verification; the key set is fetched again and the verification repeated on the first failure. *)
Definition verify_with (force_refresh : bool) (on_failure : M dict) (id_token : json) : M dict :=
  let expected_issuer := realm_url AdminUrls.resolve_keycloak_public_url "" in
  let! jwks := _fetch_jwks force_refresh in
  let! r := (fun w => (Ok (jose_decode (w_tick w) id_token jwks expected_issuer OIDC_CLIENT_ID), tick w)) in
  match r with
  | Claims claims => ret claims
  | JoseFailure => on_failure
  | JoseCrash e => raise e
  end.

Definition _verify_id_token (id_token : json) (force_refresh : bool) : M dict :=
  let failed := raise (RuntimeError "ID token signature verification failed") in
  if force_refresh then verify_with true failed id_token
  else verify_with false (verify_with true failed id_token) id_token.

Definition token_request (code code_verifier redirect_uri client_secret : string) : dict :=
  [("grant_type", JStr "authorization_code"); ("code", JStr code); ("code_verifier", JStr code_verifier);
   ("redirect_uri", JStr redirect_uri); ("client_id", JStr OIDC_CLIENT_ID); ("client_secret", JStr client_secret)].

Definition oidc_token_exchange (code state : string) : M dict :=
  let! stored := transaction (pop state) in
  match stored with
  | None => raise (ValueError "state_mismatch")
  | Some (code_verifier, redirect_uri) =>
      let! client_secret := _read_client_secret in
      let token_url := realm_url AdminUrls.resolve_keycloak_internal_url "/protocol/openid-connect/token" in
      let! resp := http_post token_url (JObj (token_request code code_verifier redirect_uri client_secret))
                     [("Content-Type", "application/x-www-form-urlencoded")] in
      let '(status, body) := resp in
      if negb (status =? 200)%Z then raise (RuntimeError "token exchange failed")
      else match body with
           | None => raise (ValueError "JSONDecodeError")
           | Some (JObj token_response) =>
               match dict_get "id_token" token_response with
               | Some id_token => if truthy id_token then _verify_id_token id_token false
                                  else raise (RuntimeError "id_token missing from token response")
               | None => raise (RuntimeError "id_token missing from token response")
               end
           | Some _ => raise (AttributeError "get")
           end
  end.

(** ** The operator of a subject *)

Definition by_sub (sub : string) : M (list operator_row) :=
  select operators_t (fun o => same_text (o_oidc_sub o) (Some sub)).

(** [UPDATE operators SET oidc_sub = :sub] *)
Definition set_oidc_sub (sub : string) (o : operator_row) : operator_row :=
  {| o_id := o_id o; o_tenant_id := o_tenant_id o; o_email := o_email o; o_display_name := o_display_name o;
     o_internal_password_hash := o_internal_password_hash o; o_oidc_sub := Some sub; o_oidc_provider := o_oidc_provider o;
     o_is_platform_admin := o_is_platform_admin o; o_status := o_status o; o_created_at := o_created_at o |}.

(** The row as read, before the link. *)
Definition lookup_operator_by_oidc_sub (sub : string) (email : json) : M (option operator_row) :=
  transaction (
    do! execute (fun w => Ok (tt, set_guc (Some nil_uuid_text) true w)) in
    let! rows := by_sub sub in
    match fetchone rows with
    | Some row => ret (Some row)
    | None =>
        if truthy email then
          match email with
          | JStr email =>
              let! rows2 := select operators_t (fun o => String.eqb (o_email o) email) in
              match fetchone rows2 with
              | Some row2 =>
                  let! oid := bound (uuid_str (o_id row2)) in
                  do! update_where operators_t (fun o => N.eqb (o_id o) oid) (set_oidc_sub sub) in
                  ret (Some row2)
              | None => ret None
              end
          | _ => raise (DBError "invalid input for query argument")
          end
        else ret None
    end).

(** ** The endpoints *)

Definition RedirectResponse (url : string) (cookies : list cookie_change) : web_response :=
  Web (EmptyResponse 302) (Some url) cookies.

Definition oidc_login : M web_response :=
  let! r := transaction generate_authorization_url in
  let '(auth_url, _, _) := r in
  ret (RedirectResponse auth_url []).

Definition _emit_session_created_audit (operator_id tenant_id : uuid) (keycloak_sub ip : string) : M unit :=
  transaction (
    do! set_tenant_context (uuid_str tenant_id) false in
    audit_emit tenant_id "operator.session.created" (Some operator_id) "operator" (Some (VUUID operator_id)) (Some "operator")
      [("auth_method", JStr "oidc"); ("keycloak_sub", JStr keycloak_sub); ("ip", JStr ip)]).

Definition auth_failed (reason : string) : web_response :=
  plain (JSONResponse 401 [("code", JStr "mintkey:auth_failed"); ("reason", JStr reason)]).
Definition no_local_operator : web_response := plain (JSONResponse 403 [("mintkey:code", JStr "no_local_operator")]).

(** [request.headers.get("X-Forwarded-For") or (host if request.client else "unknown")] *)
Definition callback_ip (rq : callback_request) : string :=
  match cb_forwarded_for rq with
  | Some "" | None => default "unknown" (cb_client_host rq)
  | Some ip => ip
  end.

(** The answers of the except clauses around [oidc_token_exchange]. *)
Definition exchange_failed (e : exn) : web_response :=
  match e with
  | ValueError msg => if py_in "state_mismatch" msg then auth_failed "state_mismatch" else auth_failed "id_token_invalid"
  | _ => auth_failed "id_token_invalid"
  end.

(** The callback with the claims of the ID token. *)
Definition callback_session (claims : dict) (rq : callback_request) : M web_response :=
  let ip := callback_ip rq in
  let email := default JNull (dict_get "email" claims) in
  match dict_get "sub" claims with
  | Some (JStr sub) =>
      let! operator := lookup_operator_by_oidc_sub sub email in
      match operator with
      | None => ret no_local_operator
      | Some operator =>
          let! session_token := create_session (o_id operator) (o_tenant_id operator) "oidc" in
          let! csrf_token := token_urlsafe 32 in
          do! catch (_emit_session_created_audit (o_id operator) (o_tenant_id operator) sub ip) (fun _ => ret tt) in
          let redirect_url := AdminUrls.resolve_admin_ui_public_url +:+ "/admin" in
          let scheme := default (cb_url_scheme rq) (cb_forwarded_proto rq) in
          ret (RedirectResponse redirect_url
                 (session_cookies session_token csrf_token (String.eqb scheme "https")))
      end
  | _ => ret (auth_failed "id_token_invalid")
  end.

Definition oidc_callback (code state : string) (rq : callback_request) : M web_response :=
  let! claims := catch (let! claims := oidc_token_exchange code state in ret (inl claims))
                       (fun e => ret (inr (exchange_failed e))) in
  match claims with
  | inr resp => ret resp
  | inl claims => callback_session claims rq
  end.
End Oidc.

(** [is_platform_admin_from_claims] *)
Definition extract_realm_roles (claims : dict) : outcome (list json) :=
  match default (JObj []) (dict_get "realm_access" claims) with
  | JObj realm_access =>
      match default (JArr []) (dict_get "roles" realm_access) with
      | JArr roles => Ok roles
      | JStr s => Ok (map (fun c => JStr (unchars [c])) (chars s))
      | JObj d => Ok (map (fun kv => JStr (fst kv)) d)
      | _ => Raise (TypeError "object is not iterable")
      end
  | _ => Raise (AttributeError "get")
  end.
Definition is_platform_admin_from_claims (claims : dict) : outcome bool :=
  roles ← extract_realm_roles claims;
  Ok (existsb (fun r => match r with JStr s => String.eqb s "mintkey-platform-admin" | _ => false end) roles).
