(* ===== verification/OidcLaws.v ===== *)
(** * What a login through the identity provider guarantees

    A login state is used once, and a session is created only for the
    operator the subject of verified claims stands for. *)

From S2P Require Import Prelude PyStr PyText PyCodecs PyJson PyJsonFacts PyTime WireIds AuditHash AuditChain.
From S2P Require Import Vault Tables Database Logic PublicUrls Demo Keys Sessions AuditEmit Login Oidc.

Local Open Scope string_scope.
Local Open Scope py_scope.

#[local] Opaque uuid_str UUID.

Section OidcLaws.
Context `{E : Env} `{V : Vault} `{Sha : Sha256} `{J : Jose}.

Definition state_used (state : string) (d : db) : Prop := forall r, In r (oidc_login_state d) -> ls_state r <> state.
Definition fewer_states (d d' : db) : Prop := forall r, In r (oidc_login_state d') -> In r (oidc_login_state d).

#[global] Instance fewer_states_preorder : PreOrder fewer_states.
Proof. split; [by intros d r|]. intros a b c H1 H2 r H. by apply H1, H2. Qed.

(** ** The state store *)

Lemma pop_used state w o w' : state_used state (w_base w) -> transaction (pop state) w = (o, w') ->
  (o = Ok None \/ exists e, o = Raise e) /\ w_base w' = w_base w /\ w_proc w' = w_proc w.
Proof.
  intros Hu. unfold transaction, pop. unfold bind at 1. cbn [transaction_timestamp now_utc].
  unfold bind, delete_returning, execute. change (w_tx (tick (tick (begin w)))) with TxActive. cbv iota.
  destruct (env_fault _); [intros [= <- <-]; split; [by right; eexists|done]|].
  change (policy (tick (tick (begin w)))) with (Ok (fun _ : uuid => false)). cbn [mbind outcome_bind].
  change (w_db (tick (tick (begin w)))) with (w_base w).
  assert (Hf : List.filter (fun r => sees oidc_login_state_t (fun _ => false) r && (String.eqb (ls_state r) state &&
    Z.ltb (env_now (w_tick (begin w))) (ls_expires_at r))) (tb_get oidc_login_state_t (w_base w)) = []).
  { apply filter_none. intros r Hr. apply Hu in Hr. by rewrite (proj2 (String.eqb_neq _ _) Hr), andb_false_r. }
  rewrite Hf. cbn [fetchone head ret]. unfold commit.
  assert (Hd : delete_db oidc_login_state_t (fun r => sees oidc_login_state_t (fun _ => false) r && (String.eqb (ls_state r) state &&
    Z.ltb (env_now (w_tick (begin w))) (ls_expires_at r))) (w_base w) = w_base w).
  { unfold delete_db. cbn [tb_cascade oidc_login_state_t no_cascade]. rewrite filter_all; [apply tb_set_get; apply _|].
    intros r Hr. apply Hu in Hr. by rewrite (proj2 (String.eqb_neq _ _) Hr), andb_false_r. }
  rewrite Hd. cbn [w_tx set_db tick begin].
  destruct (env_fault _); intros [= <- <-]; (split; [|done]); [by right; eexists|by left].
Qed.

Lemma pop_some state w x w' : List.NoDup (map ls_state (oidc_login_state (w_base w))) ->
  transaction (pop state) w = (Ok (Some x), w') ->
  (exists r, In r (oidc_login_state (w_base w)) /\ ls_state r = state /\ (env_now (S (w_tick w)) < ls_expires_at r)%Z) /\
  state_used state (w_base w').
Proof.
  intros Hn H. apply transaction_Ok in H as (w1 & H & Hw). unfold pop in H.
  step H as now w2 Hr. apply now_Ok in Hr as [-> ->]. step H as rows w3 Hr.
  apply delete_returning_eff in Hr as (K & _ & pol & Hp & Ed & ->). apply ret_Ok in H as [H ->].
  rewrite (kp_tx _ _ K) in Hw. cbn [w_tx tick begin] in Hw. subst w'.
  cbn [w_db tick begin w_base] in *. unfold fetchone in H. rewrite head_filter_find in H.
  destruct (List.find _ _) as [r|] eqn:Ef; [|done]. apply List.find_some in Ef as [Hin Hp'].
  apply andb_true_iff in Hp' as [_ Hp']. apply andb_true_iff in Hp' as [Hs He].
  apply String.eqb_eq in Hs. apply Z.ltb_lt in He. split; [by exists r|].
  intros r' Hr' Hs'. change (w_base (committed (tick w3))) with (w_db w3) in Hr'. rewrite Ed in Hr'. unfold delete_db in Hr'. cbn [tb_cascade oidc_login_state_t no_cascade tb_get tb_set oidc_login_state] in *.
  apply filter_In in Hr' as [Hr' Hk]. assert (r' = r) as ->.
  { apply (NoDup_key_unique ls_state _ r' r Hn); [exact Hr'|exact Hin|congruence]. }
  cbn [sees tb_tenant oidc_login_state_t] in Hk. unfold sees in Hk. cbn [tb_tenant oidc_login_state_t] in Hk.
  by rewrite Hs, String.eqb_refl, (proj2 (Z.ltb_lt _ _) He) in Hk.
Qed.

Lemma silent_pop state : silent (transaction (pop state)).
Proof.
  intros w. rewrite silent_transaction. change (w_proc w) with (w_proc (begin w)). generalize (begin w).
  change (silent (pop state)). unfold pop. apply silent_bind; [apply silent_now|intros now].
  apply silent_bind; [apply silent_delete_returning|intros rows]. apply silent_ret.
Qed.

(** ** The exchange *)

(** [m] does not touch the committed data. *)
Definition offline {A} (m : M A) : Prop := forall w, w_base (snd (m w)) = w_base w.

Lemma offline_bind {A B} (m : M A) (k : A -> M B) : offline m -> (forall a, offline (k a)) -> offline (bind m k).
Proof. intros Hm Hk w. unfold bind. specialize (Hm w). destruct (m w) as [[a|e] w1]; [|done]. cbn [snd] in Hm. rewrite <- Hm. apply Hk. Qed.

Lemma offline_jwks force : offline (_fetch_jwks force).
Proof.
  unfold _fetch_jwks. apply offline_bind; [done|intros now]. apply offline_bind; [done|intros [jwks|]]; [done|].
  apply offline_bind; [done|intros [status body]]. destruct (negb _); [done|]. destruct body; [|done]. by apply offline_bind.
Qed.

Lemma offline_verify_with force (k : M dict) id_token : offline k -> offline (verify_with force k id_token).
Proof.
  intros Hk. unfold verify_with. apply offline_bind; [apply offline_jwks|intros jwks].
  apply offline_bind; [done|intros [claims| |e]]; done.
Qed.

Lemma offline_verify id_token force : offline (_verify_id_token id_token force).
Proof. unfold _verify_id_token. destruct force; repeat apply offline_verify_with; done. Qed.

Lemma offline_secret : offline _read_client_secret.
Proof. intros w. unfold _read_client_secret. destruct (p_secret _); [done|]. by destruct (env_file _). Qed.

(** What the handlers call verified claims. *)
Definition verified (claims : dict) : Prop := exists n id_token jwks,
  jose_decode n id_token jwks (realm_url AdminUrls.resolve_keycloak_public_url "") OIDC_CLIENT_ID = Claims claims.

Lemma verify_with_Ok force (k : M dict) id_token w claims w' :
  (forall w1 w2, k w1 = (Ok claims, w2) -> verified claims) ->
  verify_with force k id_token w = (Ok claims, w') -> verified claims.
Proof.
  intros Hk H. unfold verify_with in H. step H as jwks w1 H1. step H as r w2 H2.
  injection H2 as Hr _. destruct r as [c| |e]; [|by apply (Hk _ _ H)|done].
  apply ret_Ok in H as [-> _]. by exists (w_tick w1), id_token, jwks.
Qed.

Lemma verify_Ok id_token force w claims w' : _verify_id_token id_token force w = (Ok claims, w') -> verified claims.
Proof.
  unfold _verify_id_token. destruct force; intros H.
  - eapply verify_with_Ok; [|exact H]. done.
  - eapply verify_with_Ok; [|exact H]. intros w1 w2 H1. eapply verify_with_Ok; [|exact H1]. done.
Qed.

(** After the state is consumed the exchange does not touch the database. *)
Lemma exchange_split code state w o w' : oidc_token_exchange code state w = (o, w') ->
  exists p w1, transaction (pop state) w = (p, w1) /\ w_base w' = w_base w1 /\
    match p with
    | Ok (Some _) => forall claims, o = Ok claims -> verified claims
    | _ => (exists e, o = Raise e) /\ w' = w1
    end.
Proof.
  unfold oidc_token_exchange. unfold bind at 1. destruct (transaction (pop state) w) as [[[[cv ru]|]|e] w1].
  2: { intros [= <- <-]. exists (Ok None), w1. split; [done|]. split; [done|]. split; [by eexists|done]. }
  2: { intros [= <- <-]. exists (Raise e), w1. split; [done|]. split; [done|]. split; [by eexists|done]. }
  intros H. exists (Ok (Some (cv, ru))), w1. split; [done|]. split.
  - match type of H with ?m w1 = _ => assert (Ho : offline m) end.
    { apply offline_bind; [apply offline_secret|intros secret]. apply offline_bind; [done|intros [status body]].
      destruct (negb _); [done|]. destruct body as [[| | | | |d]|]; try done.
      destruct (dict_get "id_token" d) as [t|]; [|done]. destruct (truthy t); [|done]. apply offline_verify. }
    specialize (Ho w1). by rewrite H in Ho.
  - intros claims ->. step H as secret w2 H1. step H as resp w3 H2. destruct resp as [status body].
    destruct (negb _); [done|]. destruct body as [[| | | | |d]|]; try done.
    destruct (dict_get "id_token" d) as [t|]; [|done]. destruct (truthy t); [|done]. by eapply verify_Ok.
Qed.

(** ** The session *)

Lemma fewer_states_same d d' : oidc_login_state d' = oidc_login_state d -> fewer_states d d'.
Proof. intros H r. by rewrite H. Qed.

Lemma lookup_fewer sub email w : fewer_states (w_base w) (w_base (snd (lookup_operator_by_oidc_sub sub email w))).
Proof.
  apply (transaction_safe fewer_states), safe_any. apply respects_bind.
  { apply respects_any_guc. by intros w0 a w' [= <- <-]. }
  intros _. apply respects_bind; [apply respects_select, _|intros rows]. destruct (fetchone rows); [apply respects_ret|].
  destruct (truthy email); [|apply respects_ret]. destruct email; try apply respects_raise.
  apply respects_bind; [apply respects_select, _|intros rows2]. destruct (fetchone rows2) as [o|]; [|apply respects_ret].
  apply respects_bind; [apply respects_bound|intros oid]. apply respects_bind; [|intros; apply respects_ret].
  apply respects_update; [apply _|]. intros w0 pol d _ _. by apply fewer_states_same.
Qed.

Lemma create_fewer op t meth w : fewer_states (w_base w) (w_base (snd (create_session op t meth w))).
Proof.
  unfold create_session. erewrite bind_run by reflexivity. erewrite bind_run by reflexivity.
  unfold bind at 1. match goal with |- context [transaction ?m ?w0] =>
    pose proof (transaction_safe fewer_states m w0) as H; destruct (transaction m w0) as [[n|e] w1] end;
  (apply H; clear H; apply safe_set_tenant; [by intros ? ? [_ ?]|]; apply respects_safe, respects_insert; [apply _|];
   intros d d' Hi; unfold insert_db in Hi; destruct (tb_check _ _ _); [done|]; apply Ok_inj in Hi; subst d';
   by apply fewer_states_same).
Qed.

Lemma audit_fewer op t sub ip w : fewer_states (w_base w) (w_base (snd (_emit_session_created_audit op t sub ip w))).
Proof.
  apply (transaction_safe fewer_states). apply safe_set_tenant; [by intros ? ? [_ ?]|]. apply respects_safe.
  by apply audit_emit_apart; [apply _|..]; intros l d r.
Qed.

Lemma session_fewer claims rq w : fewer_states (w_base w) (w_base (snd (callback_session claims rq w))).
Proof.
  unfold callback_session. destruct (dict_get "sub" claims) as [[| | |sub| |]|]; try done.
  unfold bind at 1. pose proof (lookup_fewer sub (default JNull (dict_get "email" claims)) w) as H1.
  destruct (lookup_operator_by_oidc_sub _ _ w) as [[[o|]|e] w1]; cbn [snd] in H1; [|done|done].
  unfold bind at 1. pose proof (create_fewer (o_id o) (o_tenant_id o) "oidc" w1) as H2.
  destruct (create_session _ _ _ w1) as [[tok|e] w2]; cbn [snd] in H2; [|by transitivity (w_base w1)].
  unfold bind at 1. cbn [token_urlsafe]. unfold bind at 1, catch.
  pose proof (audit_fewer (o_id o) (o_tenant_id o) sub (callback_ip rq) (tick w2)) as H3.
  destruct (_emit_session_created_audit _ _ _ _ (tick w2)) as [[u|e] w3]; cbn [snd ret] in *;
    (transitivity (w_base w1); [done|]; transitivity (w_base w2); done).
Qed.

(** A callback whose state is used ends in a refusal, without a call or a change. *)
Lemma callback_used code state rq w : state_used state (w_base w) ->
  exists reason w', oidc_callback code state rq w = (Ok (auth_failed reason), w') /\
    w_base w' = w_base w /\ p_calls (w_proc w') = p_calls (w_proc w).
Proof.
  intros Hu. unfold oidc_callback. unfold bind at 1, catch, bind at 1.
  destruct (oidc_token_exchange code state w) as [o w'] eqn:E1.
  apply exchange_split in E1 as (p & w1 & Hp & Hb & Hc). destruct (pop_used _ _ _ _ Hu Hp) as (Ho & Hb1 & Hp1).
  assert (Hx : (exists e, o = Raise e) /\ w' = w1) by (destruct Ho as [->|[e ->]]; exact Hc).
  destruct Hx as [[e ->] ->]. cbn [ret].
  assert (Hr : exists reason, exchange_failed e = auth_failed reason).
  { destruct e; cbn [exchange_failed]; try by eexists. destruct (py_in _ _); by eexists. }
  destruct Hr as [reason ->]. exists reason, w1. by rewrite Hp1.
Qed.

(** ** The operator *)

Definition sub_of (sub : string) (o : operator_row) : Prop := o_oidc_sub o = Some sub.

Lemma same_text_eq a s : same_text a (Some s) = true <-> a = Some s.
Proof. destruct a as [x|]; cbn [same_text]; [rewrite String.eqb_eq; split; congruence|done]. Qed.

(** Under the platform view every row is visible. *)
Lemma admin_policy w pol r : w_admin_view w = true -> policy w = Ok pol -> pol r = true.
Proof.
  intros Ha. unfold policy. rewrite Ha. destruct (w_tenant w) as [s|]; [|by intros [= <-]].
  destruct (pg_uuid_in s); [|done]. intros [= <-]. apply orb_true_r.
Qed.

Lemma lookup_Ok sub email w op w' :
  (forall o, In o (operators (w_base w)) -> (o_id o < uuid_limit)%N) ->
  lookup_operator_by_oidc_sub sub email w = (Ok (Some op), w') ->
  In op (operators (w_base w)) /\
  (sub_of sub op /\ w_base w' = w_base w \/
   (forall o, In o (operators (w_base w)) -> ~ sub_of sub o) /\ email = JStr (o_email op) /\
   w_base w' = update_db operators_t (fun o => N.eqb (o_id o) (o_id op)) (set_oidc_sub sub) (w_base w)).
Proof.
  intros Hlt H. apply transaction_Ok in H as (w1 & H & Hw). step H as u wa Hr. apply execute_Ok in Hr as [_ [= _ <-]].
  set (wa := set_guc _ _ _) in H.
  assert (Ka : w_tx wa = TxActive /\ w_db wa = w_base w /\ w_admin_view wa = true) by done. clearbody wa.
  destruct Ka as (Kx & Kd & Ka). unfold by_sub in H. step H as rows wb Hr.
  apply select_eff in Hr as (K1 & _ & D1 & pol & Hp & Hrows). pose proof (fun r => admin_policy wa pol r Ka Hp) as Hpol.
  cbn [tb_get operators_t] in Hrows. rewrite Kd in Hrows.
  destruct (fetchone rows) as [row|] eqn:Ef.
  - apply ret_Ok in H as [H ->]. injection H as ->. rewrite (kp_tx _ _ K1), Kx in Hw. subst w'.
    unfold fetchone in Ef. rewrite Hrows, head_filter_find in Ef. apply List.find_some in Ef as [Hin Hs].
    apply andb_true_iff in Hs as [_ Hs]. apply same_text_eq in Hs. split; [done|]. left.
    split; [done|]. cbn [w_base committed tick w_db]. congruence.
  - assert (Hno : forall o, In o (operators (w_base w)) -> ~ sub_of sub o).
    { intros o Ho Hs. unfold fetchone in Ef. rewrite Hrows, head_filter_find in Ef.
      apply (List.find_none _ _ Ef) in Ho. apply same_text_eq in Hs. unfold sees in Ho. cbn [tb_tenant operators_t] in Ho.
      by rewrite Hpol, Hs in Ho. }
    destruct (truthy email); [|by apply ret_Ok in H as [H _]]. destruct email as [| | |email| |]; try done.
    step H as rows2 wc Hr. apply select_eff in Hr as (K2 & _ & D2 & pol2 & Hp2 & Hrows2).
    cbn [tb_get operators_t] in Hrows2. rewrite D1, Kd in Hrows2.
    destruct (fetchone rows2) as [row2|] eqn:Ef2; [|by apply ret_Ok in H as [H _]].
    unfold fetchone in Ef2. rewrite Hrows2, head_filter_find in Ef2. apply List.find_some in Ef2 as [Hin Hs].
    apply andb_true_iff in Hs as [_ Hs]. apply String.eqb_eq in Hs.
    step H as oid wd Hr. apply bound_Ok in Hr as [Hoid ->]. rewrite (bind_uuid_str _ (Hlt _ Hin)) in Hoid. injection Hoid as <-.
    step H as u2 we Hr. apply update_eff in Hr as (K3 & _ & pol3 & Hp3 & D3). apply ret_Ok in H as [H ->]. injection H as ->.
    rewrite (kp_tx _ _ K3), (kp_tx _ _ K2), (kp_tx _ _ K1), Kx in Hw. subst w'. split; [done|]. right.
    split; [done|]. split; [by rewrite Hs|]. cbn [w_base committed tick w_db]. rewrite D3, D2, D1, Kd.
    apply update_db_ext. intros r _. unfold sees. cbn [tb_tenant operators_t].
    rewrite (kept_policy _ _ K2), (kept_policy _ _ K1) in Hp3. by rewrite (admin_policy wa pol3 _ Ka Hp3).
Qed.

(** Neither the state store nor the audit event changes the operators or the sessions. *)
Definition same_logins (d d' : db) : Prop := operators d' = operators d /\ sessions d' = sessions d.
#[global] Instance same_logins_preorder : PreOrder same_logins.
Proof. split; [done|]. intros a b c [] []. split; congruence. Qed.

Lemma pop_logins state w : same_logins (w_base w) (w_base (snd (transaction (pop state) w))).
Proof.
  apply (transaction_safe same_logins), safe_any. unfold pop. apply respects_bind; [apply respects_now|intros now].
  apply respects_bind; [|intros; apply respects_ret]. apply respects_delete_returning; [apply _|]. by intros.
Qed.

Lemma audit_logins op t sub ip w : same_logins (w_base w) (w_base (snd (_emit_session_created_audit op t sub ip w))).
Proof.
  apply (transaction_safe same_logins). apply safe_set_tenant; [by intros ? ? [_ ?]|]. apply respects_safe.
  by apply audit_emit_apart; [apply _|..].
Qed.
End OidcLaws.

(** ** Properties *)

Section Properties.
Context `{E : Env} `{V : Vault} `{Sha : Sha256} `{J : Jose}.

(** C25: a login state is used at most once.  If a callback gets as far as calling the identity
    provider, or sets a cookie, then its state was the one of a stored, unexpired login, and that row
    is gone, whatever happened after: a second callback with the state, in any later state of the
    database in which no login has drawn the same state again, is refused with 401 before any call
    of the identity provider and without any change, whatever code it brings. *)
Theorem oidc_state_single_use code state rq w o w' :
  List.NoDup (map ls_state (oidc_login_state (w_base w))) ->
  oidc_callback code state rq w = (o, w') ->
  p_calls (w_proc w') <> p_calls (w_proc w) \/ (exists resp, o = Ok resp /\ wr_cookies resp <> []) ->
  (exists r, In r (oidc_login_state (w_base w)) /\ ls_state r = state /\ (env_now (S (w_tick w)) < ls_expires_at r)%Z) /\
  state_used state (w_base w') /\
  forall code2 rq2 w2, (state_used state (w_base w') -> state_used state (w_base w2)) ->
    exists reason w2', oidc_callback code2 state rq2 w2 = (Ok (auth_failed reason), w2') /\
      w_base w2' = w_base w2 /\ p_calls (w_proc w2') = p_calls (w_proc w2).
Proof.
  intros Hn H Hact.
  assert (Hused : state_used state (w_base w') /\ exists r, In r (oidc_login_state (w_base w)) /\ ls_state r = state /\
                  (env_now (S (w_tick w)) < ls_expires_at r)%Z).
  { unfold oidc_callback in H. unfold bind at 1, catch, bind at 1 in H.
    destruct (oidc_token_exchange code state w) as [ox wx] eqn:E1.
    apply exchange_split in E1 as (p & w1 & Hp & Hb & Hc).
    assert (Hpr : w_proc w1 = w_proc w) by (pose proof (silent_pop state w) as Hs; by rewrite Hp in Hs).
    destruct p as [[x|]|e].
    - destruct (pop_some state w x w1 Hn Hp) as [Hr Hu]. split; [|done]. rewrite <- Hb in Hu.
      destruct ox as [claims|e]; cbn [ret] in H.
      + intros r Hin. apply Hu. pose proof (session_fewer claims rq wx) as Hf. rewrite H in Hf. by apply Hf.
      + by injection H as _ <-.
    - destruct Hc as [[e ->] ->]. cbn [ret] in H. injection H as <- <-. rewrite Hpr in Hact.
      destruct Hact as [Hx|(resp & [= <-] & Hx)]; [done|]. destruct e; cbn [exchange_failed] in Hx; try done.
      by destruct (py_in _ _).
    - destruct Hc as [[e' ->] ->]. cbn [ret] in H. injection H as <- <-. rewrite Hpr in Hact.
      destruct Hact as [Hx|(resp & [= <-] & Hx)]; [done|]. destruct e'; cbn [exchange_failed] in Hx; try done.
      by destruct (py_in _ _). }
  destruct Hused as [Hu Hr]. split; [done|]. split; [done|]. intros code2 rq2 w2 H2. apply callback_used. by apply H2.
Qed.

(** The identity provider vouches for every session.  A callback that sets cookies has verified an
    ID token for the configured issuer and client, and its session, of eight hours, is that of an
    operator who was registered before: the one bound to the token's subject or, when nobody is
    bound to it, one with the token's email, who is bound to the subject from now on.  The session
    cookie names that session. *)
Theorem oidc_session_subject code state rq w resp w' :
  (forall o, In o (operators (w_base w)) -> (o_id o < uuid_limit)%N) ->
  oidc_callback code state rq w = (Ok resp, w') -> wr_cookies resp <> [] ->
  exists claims sub op s csrf secure,
    verified claims /\ dict_get "sub" claims = Some (JStr sub) /\ In op (operators (w_base w)) /\
    (sub_of sub op \/ (forall o, In o (operators (w_base w)) -> ~ sub_of sub o) /\
                      dict_get "email" claims = Some (JStr (o_email op))) /\
    In s (sessions (w_base w')) /\ ss_operator_id s = o_id op /\ ss_tenant_id s = o_tenant_id op /\
    wr_cookies resp = session_cookies (uuid_str (ss_id s)) csrf secure /\
    exists op', In op' (operators (w_base w')) /\ o_id op' = o_id op /\ sub_of sub op'.
Proof.
  intros Hlt H Hc. unfold oidc_callback in H. unfold bind at 1, catch, bind at 1 in H.
  destruct (oidc_token_exchange code state w) as [ox wx] eqn:E1.
  apply exchange_split in E1 as (p & w1 & Hp & Hb & Hv).
  assert (Hsame : operators (w_base wx) = operators (w_base w)).
  { rewrite Hb. pose proof (pop_logins state w) as [Ho _]. by rewrite Hp in Ho. }
  destruct ox as [claims|e].
  2: { exfalso. cbn [ret] in H. injection H as <- _. destruct e; cbn [exchange_failed] in Hc; try done. by destruct (py_in _ _). }
  cbn [ret] in H. assert (Hver : verified claims).
  { destruct p as [[x|]|e0]; [by apply Hv|by destruct Hv as [[e1 He] _]..]. }
  exists claims. unfold callback_session in H.
  destruct (dict_get "sub" claims) as [[| | |sub| |]|] eqn:Es;
    try (exfalso; apply ret_Ok in H as [-> _]; by apply Hc).
  step H as op wl Hr. destruct op as [op|]; [|exfalso; apply ret_Ok in H as [-> _]; by apply Hc].
  apply lookup_Ok in Hr as [Hin Hop]; [|by rewrite Hsame].
  step H as tok wc Hr. apply create_session_Ok in Hr as (s & -> & _ & Ht & Ho & _ & _ & Eb).
  step H as csrf wu Hr. injection Hr as _ <-. step H as u wa Hr. apply ret_Ok in H as [-> ->].
  assert (Ha : same_logins (w_base wc) (w_base wa)).
  { unfold catch in Hr. pose proof (audit_logins (o_id op) (o_tenant_id op) sub (callback_ip rq) (tick wc)) as Ha.
    destruct (_emit_session_created_audit _ _ _ _ _) as [[u'|e] wz]; by injection Hr as _ <-. }
  destruct Ha as [HO HS]. exists sub, op, s, csrf, (String.eqb (default (cb_url_scheme rq) (cb_forwarded_proto rq)) "https").
  rewrite Hsame in Hin, Hop. do 3 (split; [done|]).
  split; [destruct Hop as [[Hs _]|(Hno & He & _)]; [by left|right; split; [done|]]|].
  { destruct (dict_get "email" claims) as [j|]; cbn in He; [by rewrite He|done]. }
  split; [rewrite HS, Eb; apply in_app_iff; right; by left|]. do 3 (split; [done|]).
  rewrite HO, Eb. cbn [tb_set sessions_t operators]. destruct Hop as [[Hs ->]|(Hno & _ & ->)].
  - exists op. by rewrite Hsame.
  - exists (set_oidc_sub sub op). split; [|done]. cbn [update_db tb_set operators_t tb_get operators].
    rewrite Hsame. apply in_map_iff. exists op. by rewrite N.eqb_refl.
Qed.
End Properties.

(** ** Witnesses *)

Section Witnesses.
Definition oidc_env : Env := {|
  env_uuid4 := demo_uuid4; env_uuid4_lt := demo_uuid4_lt; env_now := demo_now;
  env_fault _ := None; env_vault_fault _ := None;
  bind_uuid := demo_uuid_in; bind_uuid_str := demo_uuid_in_str;
  bind_uuid_lt s u H := proj2 (demo_uuid_in_inv s u H); bind_uuid_UUID s u H := proj1 (demo_uuid_in_inv s u H);
  pg_uuid_in := demo_uuid_in; pg_uuid_in_str := demo_uuid_in_str;
  jsonb j := j; jsonb_wf j H := H; jsonb_same j _ := eq_refl; jsonb_as_text := false;
  bind_jsonb j := Some j; env_fold c := c; env_time := @env_time demo_env; env_zone := @env_zone demo_env;
  env_var := @env_var demo_env; env_http _ := Ok (200%Z, Some (JObj [("id_token", JStr "token")]));
  env_token_bytes := @env_token_bytes demo_env; env_token_bytes_lt := @env_token_bytes_lt demo_env;
  env_monotonic := @env_monotonic demo_env; env_local t := t; env_admin_settings := None;
  env_token_urlsafe := @env_token_urlsafe demo_env; env_file := @env_file demo_env; env_backend := @env_backend demo_env; httpx_text := @httpx_text demo_env;
  env_mint := @env_mint demo_env; env_getaddrinfo := @env_getaddrinfo demo_env; env_ssh_key := @env_ssh_key demo_env;
  env_ssh := @env_ssh demo_env; env_fetch := @env_fetch demo_env |}.

(** Tokens whose subject and email are the ones given. *)
Definition demo_jose (sub email : string) : Jose := {|
  jose_decode _ _ _ _ _ := Claims [("sub", JStr sub); ("email", JStr email)] |}.

#[local] Existing Instance oidc_env.
#[local] Existing Instance demo_vault.
#[local] Existing Instance toy_sha256.

Definition with_logins (ops : list operator_row) (d : db) : db :=
  tb_set oidc_login_state_t [LoginStateRow "state" "verifier" "uri" 1800000000000000] (tb_set operators_t ops d).
Definition oidc_world (ops : list operator_row) : world :=
  let d := with_logins ops demo_db in World demo_vault d d TxDone None false [] [] ∅ 0 empty_process.
Definition demo_callback : callback_request := MkCallback None (Some "10.0.0.1") None "https".

Abbreviation login_as sub email ops :=
  (@oidc_callback oidc_env demo_vault toy_sha256 (demo_jose sub email) "code" "state" demo_callback (oidc_world ops)).

Lemma oidc_state_single_use_witness : exists w', exists resp,
  login_as "sub-3" "admin@mintkey" (operators demo_db) = (Ok resp, w') /\ status_code (wr_response resp) = 302%Z /\
  state_used "state" (w_base w') /\
  exists reason w2', @oidc_callback oidc_env demo_vault toy_sha256 (demo_jose "sub-3" "admin@mintkey") "code2" "state" demo_callback w'
    = (Ok (auth_failed reason), w2').
Proof.
  destruct (run_returns (@oidc_callback oidc_env demo_vault toy_sha256 (demo_jose "sub-3" "admin@mintkey") "code" "state" demo_callback)
    (fun r => Z.eqb (status_code (wr_response r)) 302 && negb (bool_decide (length (wr_cookies r) = 0%nat))) (oidc_world (operators demo_db)))
    as (resp & Hr & E1); [vm_compute; reflexivity|].
  apply andb_true_iff in Hr as [Hs Hc]. apply Z.eqb_eq in Hs. apply negb_true_iff, bool_decide_eq_false in Hc.
  eexists. exists resp. split; [exact E1|]. split; [exact Hs|].
  destruct (@oidc_state_single_use oidc_env demo_vault toy_sha256 (demo_jose "sub-3" "admin@mintkey") "code" "state" demo_callback
    (oidc_world (operators demo_db)) _ _ ltac:(repeat constructor; by intros []) E1) as (_ & Hu & Hsecond).
  { right. exists resp. split; [exact eq_refl|exact (fun Hx => Hc (f_equal length Hx))]. }
  split; [exact Hu|]. destruct (Hsecond "code2" demo_callback _ (fun H => H)) as (reason & w2' & H2 & _). exists reason, w2'. exact H2.
Defined.

Lemma oidc_session_subject_witness : exists resp w' s,
  login_as "sub-3" "admin@mintkey" (operators demo_db) = (Ok resp, w') /\ In s (sessions (w_base w')) /\
  exists csrf secure, wr_cookies resp = session_cookies (uuid_str (ss_id s)) csrf secure.
Proof.
  destruct (run_returns (@oidc_callback oidc_env demo_vault toy_sha256 (demo_jose "sub-3" "admin@mintkey") "code" "state" demo_callback)
    (fun r => Z.eqb (status_code (wr_response r)) 302 && negb (bool_decide (length (wr_cookies r) = 0%nat))) (oidc_world (operators demo_db)))
    as (resp & Hr & E1); [vm_compute; reflexivity|].
  apply andb_true_iff in Hr as [_ Hc]. apply negb_true_iff, bool_decide_eq_false in Hc.
  destruct (@oidc_session_subject oidc_env demo_vault toy_sha256 (demo_jose "sub-3" "admin@mintkey") "code" "state" demo_callback
    (oidc_world (operators demo_db)) resp _ ltac:(intros o [<-|[<-|[]]]; reflexivity) E1) as (c & sub & op & s & csrf & sec & _ & _ & _ & _ & Hs & _ & _ & Hk & _).
  { exact (fun Hx => Hc (f_equal length Hx)). }
  exists resp. eexists. exists s. split; [exact E1|]. split; [exact Hs|]. exists csrf, sec. exact Hk.
Defined.

(** A disabled operator logs in, and a subject takes over the operator, bound to another subject, whose email it has. *)
Lemma disabled_operator_logs_in :
  returns (fun r => Z.eqb (status_code (wr_response r)) 302)
    (fst (login_as "sub-3" "" [OperatorRow 3 0 "admin@mintkey" None None (Some "sub-3") None true "disabled" 0])) = true.
Proof. vm_compute. reflexivity. Qed.

Lemma email_takes_over :
  map o_oidc_sub (operators (w_base (snd (login_as "other" "admin@mintkey"
    [OperatorRow 3 0 "admin@mintkey" None None (Some "sub-3") None true "active" 0])))) = [Some "other"].
Proof. vm_compute. reflexivity. Qed.
End Witnesses.
