(* ===== verification/Internal.v ===== *)
(** * Internal endpoints (admin_api/api/internal.py)

    The validation of an agent's key for the MCP server, the proxy's hit
    record, and the audit ingress of the broker and the proxy. *)

From Stdlib Require QArith_base.
From S2P Require Import Prelude PyStr PyJson PyJsonFacts PyTime PyFloat PyText WireIds AuditHash AuditChain.
From S2P Require Import Vault Tables Database Logic Demo Keys EmitLimiter Sessions Login AuditEmit AgentSecrets.

Local Open Scope string_scope.
Local Open Scope py_scope.

Definition INVALID_KEY_RESPONSE : dict :=
  [("type", JStr "https://mintkey.internal/errors/invalid-agent-key"); ("title", JStr "Invalid agent key");
   ("status", JInt 401); ("mintkey:code", JStr "mintkey:invalid_agent_key")].
Definition VERIFY_UNAVAILABLE_RESPONSE : dict := [("mintkey:code", JStr "mintkey:verify_unavailable")].

(** Seconds *)
Definition _WINDOW_SEC : QArith_base.Q := QArith_base.inject_Z 60.

(** The throttle's dictionary after an emission at [t]. *)
Definition record_emission (agent_id : string) (t : QArith_base.Q) (last : gmap string QArith_base.Q)
    : gmap string QArith_base.Q :=
  let last := <[agent_id := t]> last in
  if (10000 <? size last)%nat then
    filter (fun kv => QArith_base.Qle_bool (float_sub t _WINDOW_SEC) (snd kv) = true) last
  else last.

Section Internal.
Context `{E : Env} `{V : Vault} `{Sha : Sha256} `{Arg : Argon2}.

(** [_ExpiredAuditThrottle.should_emit] *)
Definition should_emit (agent_id : string) : M bool :=
  let! t := monotonic in
  fun w =>
    let last := default (QArith_base.inject_Z 0) (p_expired (w_proc w) !! agent_id) in
    if QArith_base.Qle_bool _WINDOW_SEC (float_sub t last) then
      (Ok true, set_proc (set_expired (record_emission agent_id t (p_expired (w_proc w))) (w_proc w)) w)
    else (Ok false, w).

(** One statement sets the tenant to the nil UUID and the platform view. *)
Definition cross_tenant_view : M unit := execute (fun w => Ok (tt, set_guc (Some nil_uuid_text) true w)).

Definition invalid_key : response := Response 401 (JObj INVALID_KEY_RESPONSE).

Definition expired_key (expired_at : Z) : response :=
  Response 401 (JObj
    [("type", JStr "https://mintkey.internal/errors/agent-key-expired"); ("title", JStr "API key expired");
     ("status", JInt 401); ("mintkey:code", JStr "agent_api_key_expired");
     ("hint", JStr ("This agent's API key expired on " +:+ isoformat_utc expired_at +:+
                    ". Operator must rotate the key via the admin UI Rotate Key action."))]).

Definition valid_key (row : agent_row) : response :=
  JSONResponse 200
    [("agent_id", JStr (uuid_str (a_id row))); ("tenant_id", JStr (uuid_str (a_tenant_id row)));
     ("status", JStr (a_status row))].

Definition validate_agent_key (api_key : string) : M response :=
  let fingerprint := _fingerprint api_key in
  do! cross_tenant_view in
  let! rows := select agents_t (fun a => String.eqb (a_api_key_fingerprint a) fingerprint) in
  match fetchone rows with
  | None =>
      let! _ := ph_verify DUMMY_HASH api_key in
      ret invalid_key
  | Some row =>
      let! v := ph_verify (a_api_key_hash row) api_key in
      match v with
      | Rejected | InvalidHash => ret invalid_key
      | Unavailable => ret (Response 503 (JObj VERIFY_UNAVAILABLE_RESPONSE))
      | Verified =>
          if negb (String.eqb (a_status row) "active") then ret invalid_key
          else
            match a_api_key_expires_at row with
            | None => ret (valid_key row)
            | Some e =>
                let! now := now_utc in
                if (e <? now)%Z then
                  let! emit := should_emit (uuid_str (a_id row)) in
                  do! (if emit : bool then
                         audit_emit (a_tenant_id row) "agent.api_key_expired" None "system" (Some (VUUID (a_id row)))
                           (Some "agent")
                           [("agent_id", JStr (uuid_str (a_id row)));
                            ("api_key_fingerprint", JStr (a_api_key_fingerprint row));
                            ("expired_at", JStr (isoformat_utc e))]
                       else ret tt) in
                  ret (expired_key e)
                else ret (valid_key row)
            end
      end
  end.

(** ** The proxy's hits *)

Record ProxyHitRequest := MkProxyHit {
  ph_service_id : string; ph_status_code : Z; ph_method : string; ph_path_template : string; ph_latency_ms : Z;
  ph_tenant_id : option string; ph_auth_method : option string; ph_api_key_id : option string;
  ph_key_fingerprint : option string; ph_used_at : option datetime }.

(** [if s:] of an optional text *)
Definition nonempty (s : option string) : option string := match s with Some "" => None | _ => s end.

(** [try: UUID(s) if s else None except (ValueError, TypeError): None] *)
Definition optional_uuid (s : option string) : option uuid :=
  match nonempty s with Some s => match UUID s with Ok u => Some u | Raise _ => None end | None => None end.

Definition ok_response : response := JSONResponse 200 [("status", JStr "ok")].

Definition proxy_hit_payload (body : ProxyHitRequest) : dict :=
  let opt (name : string) (o : option string) : dict := match nonempty o with Some s => [(name, JStr s)] | None => [] end in
  ([("service_id", JStr (ph_service_id body)); ("status_code", JInt (ph_status_code body));
    ("method", JStr (ph_method body)); ("path_template", JStr (ph_path_template body));
    ("latency_ms", JInt (ph_latency_ms body))]
   ++ opt "auth_method" (ph_auth_method body) ++ opt "api_key_id" (ph_api_key_id body)
   ++ opt "key_fingerprint" (ph_key_fingerprint body)
   ++ match ph_used_at body with Some d => [("used_at", JStr (isoformat d))] | None => [] end)%list.

(** [SET last_used_at = GREATEST(last_used_at, :used_at)] *)
Definition touch_key (used_at : Z) (y : api_key_row) : api_key_row :=
  {| y_id := y_id y; y_tenant_id := y_tenant_id y; y_agent_id := y_agent_id y; y_service_id := y_service_id y;
     y_key_hash := y_key_hash y; y_key_fingerprint := y_key_fingerprint y; y_allowed_actions := y_allowed_actions y;
     y_constraints := y_constraints y; y_expires_at := y_expires_at y;
     y_last_used_at := Some (match y_last_used_at y with Some t => Z.max t used_at | None => used_at end);
     y_revoked_at := y_revoked_at y; y_revoke_reason := y_revoke_reason y; y_created_at := y_created_at y;
     y_created_by := y_created_by y |}.

Definition proxy_hit (body : ProxyHitRequest) : M response :=
  match optional_uuid (ph_tenant_id body) with
  | None => ret ok_response
  | Some tenant_uuid =>
      do! set_tenant_context (uuid_str tenant_uuid) false in
      let! target := uuid4 in
      do! audit_emit tenant_uuid "proxy.hit" None "proxy" (Some (VUUID target)) (Some "proxy_request")
        (proxy_hit_payload body) in
      do! (match ph_auth_method body, nonempty (ph_api_key_id body), ph_used_at body with
           | Some "api_key", Some kid, Some used_at =>
               let! kid := bound kid in
               let! tid := bound (uuid_str tenant_uuid) in
               update_checked service_api_keys_t api_keys_checks (fun y => N.eqb (y_id y) kid && N.eqb (y_tenant_id y) tid)
                 (touch_key (timestamptz used_at))
           | _, _, _ => ret tt
           end) in
      ret ok_response
  end.

(** ** The audit ingress *)

Definition _ALLOWED_EVENT_TYPES : list string :=
  ["token.issued"; "token.exchanged"; "proxy.hit"; "proxy.error"; "proxy.aud_mismatch_rejected"].
Definition _SERVICE_TOKEN_VARS : list string :=
  ["MINTKEY_BROKER_SERVICE_TOKEN"; "MINTKEY_PROXY_SERVICE_TOKEN"; "MINTKEY_MCP_SERVICE_TOKEN"].

Definition _get_allowed_service_tokens : list string :=
  List.filter (fun t => negb (String.eqb t "")) (map (fun var => getenv var "") _SERVICE_TOKEN_VARS).

Record AuditEmitRequest := MkAuditEmit {
  ae_event_type : string; ae_tenant_id : string; ae_actor_id : option string; ae_actor_type : string;
  ae_target_id : option string; ae_target_type : option string; ae_payload : dict }.

(** The actor, unless it is empty, a word for the system, or not a UUID. *)
Definition emit_actor (actor_id : option string) : option uuid :=
  match actor_id with
  | Some s => if existsb (String.eqb (lower s)) [""; "system"; "null"] then None
              else optional_uuid (Some s)
  | None => None
  end.

Definition rejected_actor (title : string) : response := problem 403 "aud_mismatch_rejected" title.

(** The tenant of the actor, an agent or an operator. *)
Definition actor_tenant (actor : uuid) : M (option uuid) :=
  do! cross_tenant_view in
  let! id := bound (uuid_str actor) in
  let! agents := select agents_t (fun a => N.eqb (a_id a) id) in
  match fetchone agents with
  | Some a => ret (Some (a_tenant_id a))
  | None =>
      let! id := bound (uuid_str actor) in
      let! ops := select operators_t (fun o => N.eqb (o_id o) id) in
      ret (o_tenant_id <$> fetchone ops)
  end.

(** The checks on the actor: the answer that rejects the event. *)
Definition check_actor (actor : option uuid) (tenant_uuid : uuid) : M (option response) :=
  match actor with
  | None => ret None
  | Some actor =>
      let! t := actor_tenant actor in
      match t with
      | None => ret (Some (rejected_actor "actor_id not found"))
      | Some t => if N.eqb t tenant_uuid then ret None
                  else ret (Some (rejected_actor "actor_id does not belong to the claimed tenant_id"))
      end
  end.

(** The answer 429 also carries the header [Retry-After]. *)
Definition audit_emit_endpoint (svc_token : string) (body : AuditEmitRequest) : M response :=
  if String.eqb svc_token "" || negb (existsb (String.eqb svc_token) _get_allowed_service_tokens)
  then ret (JSONResponse 401 [("mintkey:code", JStr "unauthenticated")])
  else
    let! admitted := try_acquire svc_token in
    if negb admitted then ret (problem 429 "rate_limited" "audit_emit rate limit exceeded")
    else if negb (existsb (String.eqb (ae_event_type body)) _ALLOWED_EVENT_TYPES)
    then ret (problem 422 "invalid_event_type" ("event_type '" +:+ ae_event_type body +:+ "' not in allowlist"))
    else
      match UUID (ae_tenant_id body) with
      | Raise _ => ret (JSONResponse 422 [("mintkey:code", JStr "invalid_tenant_id")])
      | Ok tenant_uuid =>
          let actor_uuid := emit_actor (ae_actor_id body) in
          let! rejected := check_actor actor_uuid tenant_uuid in
          match rejected with
          | Some answer => ret answer
          | None =>
              do! set_tenant_context (uuid_str tenant_uuid) false in
              do! audit_emit tenant_uuid (ae_event_type body) actor_uuid (ae_actor_type body)
                (VUUID <$> optional_uuid (ae_target_id body)) (ae_target_type body) (ae_payload body) in
              ret ok_response
          end
      end.

(** ** The router: no session, a transaction per request *)

Inductive internal_request :=
  | PostValidateAgentKey (api_key : string)
  | PostProxyHit (body : ProxyHitRequest)
  | PostAuditEmit (svc_token : string) (body : AuditEmitRequest).

Definition internal_handler (rq : internal_request) : M response :=
  match rq with
  | PostValidateAgentKey api_key => validate_agent_key api_key
  | PostProxyHit body => proxy_hit body
  | PostAuditEmit svc_token body => audit_emit_endpoint svc_token body
  end.
End Internal.
