(* ===== verification/SecretTools.v ===== *)
(** * Agent secrets, agent surface (mcp_server/tools/secret_*.py)

    The MCP tools of an authenticated agent on the secrets it owns or that
    are shared with it. *)

From S2P Require Import Prelude PyStr PyJson PyJsonFacts PyTime WireIds AuditHash AuditChain PyText.
From S2P Require Import Vault Tables Database Logic Demo Sessions AuditEmit AgentSecrets.

Local Open Scope string_scope.
Local Open Scope py_scope.

(** The validated agent of the request. *)
Record agent_context := AgentContext { ac_agent_id : string; ac_tenant_id : string }.

Record SecretPutRequest := MkSecretPutRequest {
  sp_name : string; sp_value : string; sp_content_type : option string }.

Definition code_title (status : Z) (code title : string) : response :=
  JSONResponse status [("code", JStr code); ("title", JStr title)].

Definition auth_required : response := JSONResponse 401 [("code", JStr "mintkey:auth_required")].

(** [secret_get]'s and [secret_delete]'s constant answers. *)
Definition _SECRET_NOT_FOUND : response :=
  code_title 404 "mintkey:secret_not_found" "Secret not found or not visible".
Definition _SECRET_NOT_FOUND_DELETE : response :=
  code_title 404 "mintkey:secret_not_found" "Secret not found or not owned by calling agent".

Section Tools.
Context `{E : Env} `{V : Vault} `{Sha : Sha256}.

(** [uuid.UUID(agent_id) if agent_id else None] *)
Definition actor_of (agent_id : string) : outcome (option uuid) :=
  if String.eqb agent_id "" then Ok None else u ← UUID agent_id; Ok (Some u).

(** [wire_to_db_uuid(secret_id, "sec")], validated; [None] when the text is not an identifier. *)
Definition decode_sec (secret_id : string) : outcome (option string) :=
  if startswith secret_id "sec_" then
    match wire_to_db_uuid secret_id "sec" with
    | Ok secret_db_id =>
        match UUID secret_db_id with
        | Ok _ => Ok (Some secret_db_id)
        | Raise (ValueError _) | Raise (AttributeError _) => Ok None
        | Raise e => Raise e
        end
    | Raise (ValueError _) | Raise (AttributeError _) => Ok None
    | Raise e => Raise e
    end
  else Ok None.

Definition secret_put (agent_ctx : option agent_context) (body : SecretPutRequest) : M response :=
  match agent_ctx with
  | None => ret auth_required
  | Some (AgentContext agent_id tenant_id) =>
      if negb (_NAME_RE (sp_name body)) then
        ret (code_title 422 "mintkey:invalid_argument"
               ("name must match ^[a-zA-Z0-9._-]{1,128}$; got " +:+ py_repr (sp_name body)))
      else
      let value_bytes := utf8 (sp_value body) in
      let size := Z.of_nat (py_len value_bytes) in
      if (_MAX_VALUE_BYTES <? size)%Z then
        ret (code_title 422 "mintkey:invalid_argument" "value exceeds 65536 bytes")
      else
      do! set_tenant_context tenant_id false in
      let! tid := bound tenant_id in
      let! aid := bound agent_id in
      let! existing := select agent_secrets_t (fun k =>
        N.eqb (k_tenant_id k) tid && N.eqb (k_agent_id k) aid && String.eqb (k_name k) (sp_name body)) in
      let! x := match fetchone existing with
                | None => let! new_uuid := uuid4 in ret (uuid_str new_uuid, 1%Z, true)
                | Some row => ret (uuid_str (k_id row), (k_version row + 1)%Z, false)
                end in
      let '(secret_db_id, new_version, is_create) := x in
      let! wire_id := lift (db_uuid_to_wire (VStr secret_db_id) "sec") in
      do! put_agent_secret tenant_id secret_db_id value_bytes in
      do! (if is_create : bool then
             let! sid := bound secret_db_id in
             let! stid := bound tenant_id in
             let! sagent := bound agent_id in
             let! now := now_utc in
             insert_into agent_secrets_t
               (SecretRow sid stid sagent (sp_name body) (sp_content_type body) size 1 None now now)
           else
             let! sid := bound secret_db_id in
             let! stid := bound tenant_id in
             let! now := now_utc in
             update_where agent_secrets_t (fun k => N.eqb (k_id k) sid && N.eqb (k_tenant_id k) stid) (fun k =>
               SecretRow (k_id k) (k_tenant_id k) (k_agent_id k) (k_name k) (sp_content_type body) size new_version
                 (k_created_by k) (k_created_at k) now)) in
      let event_type := if is_create then "agent_secret.created" else "agent_secret.updated" in
      let! agent_wire_id := lift (db_uuid_to_wire (VStr agent_id) "agent") in
      let audit_payload :=
        ([("secret_id", JStr wire_id); ("agent_id", JStr agent_wire_id); ("name", JStr (sp_name body));
          ("version", JInt new_version)]
         ++ (if is_create then [] else [("previous_version", JInt (new_version - 1))]))%list in
      let! tenant := lift (UUID tenant_id) in
      let! actor := lift (actor_of agent_id) in
      let! secret := lift (UUID secret_db_id) in
      do! audit_emit tenant event_type actor "agent" (Some (VUUID secret)) (Some "agent_secret") audit_payload in
      do! commit in
      ret (JSONResponse 200
        [("secret_id", JStr wire_id); ("name", JStr (sp_name body)); ("version", JInt new_version)])
  end.

(** [WHERE s.id = .. AND s.tenant_id = .. AND (s.agent_id = .. OR EXISTS (grant to the agent))] *)
Definition visible_secret (pol : uuid -> bool) (d : db) (sid tid aid : uuid) : list secret_row :=
  List.filter (fun s => N.eqb (k_id s) sid && N.eqb (k_tenant_id s) tid
    && (N.eqb (k_agent_id s) aid
        || existsb (fun g => N.eqb (sg_secret_id g) (k_id s) && N.eqb (sg_recipient g) aid
                             && N.eqb (sg_tenant_id g) tid)
             (visible agent_secret_grants_t pol d)))
    (visible agent_secrets_t pol d).

Definition secret_get (agent_ctx : option agent_context) (secret_id : string) : M response :=
  match agent_ctx with
  | None => ret auth_required
  | Some (AgentContext agent_id tenant_id) =>
      let! secret_db_id := lift (decode_sec secret_id) in
      match secret_db_id with
      | None => ret _SECRET_NOT_FOUND
      | Some secret_db_id =>
          do! set_tenant_context tenant_id false in
          let! aid := bound agent_id in
          let! sid := bound secret_db_id in
          let! tid := bound tenant_id in
          let! vis := query (fun pol d => visible_secret pol d sid tid aid) in
          match fetchone vis with
          | None => ret _SECRET_NOT_FOUND
          | Some row =>
              let meta_secret_id := uuid_str (k_id row) in
              let access := if N.eqb (k_agent_id row) aid then "owner" else "shared" in
              let! wire_id := lift (db_uuid_to_wire (VStr meta_secret_id) "sec") in
              let! plaintext := get_agent_secret tenant_id meta_secret_id in
              match plaintext with
              | None => ret _SECRET_NOT_FOUND
              | Some plaintext =>
                  let! reader := lift (db_uuid_to_wire (VStr agent_id) "agent") in
                  let! tenant := lift (UUID tenant_id) in
                  let! actor := lift (actor_of agent_id) in
                  let! target := lift (UUID meta_secret_id) in
                  do! audit_emit tenant "agent_secret.read" actor "agent" (Some (VUUID target))
                    (Some "agent_secret")
                    [("secret_id", JStr wire_id); ("version", JInt (k_version row));
                     ("reader_agent_id", JStr reader); ("access", JStr access)] in
                  do! commit in
                  ret (JSONResponse 200
                    ([("secret_id", JStr wire_id); ("name", JStr (k_name row)); ("version", JInt (k_version row));
                      ("value", JStr (utf8_decode plaintext)); ("access", JStr access)]
                     ++ match k_content_type row with Some c => [("content_type", JStr c)] | None => [] end)%list)
              end
          end
      end
  end.

Definition secret_delete (agent_ctx : option agent_context) (secret_id : string) : M response :=
  match agent_ctx with
  | None => ret auth_required
  | Some (AgentContext agent_id tenant_id) =>
      let! secret_db_id := lift (decode_sec secret_id) in
      match secret_db_id with
      | None => ret _SECRET_NOT_FOUND_DELETE
      | Some secret_db_id =>
          do! set_tenant_context tenant_id false in
          let! sid := bound secret_db_id in
          let! tid := bound tenant_id in
          let! aid := bound agent_id in
          let! ownership := select agent_secrets_t (fun k =>
            N.eqb (k_id k) sid && N.eqb (k_tenant_id k) tid && N.eqb (k_agent_id k) aid) in
          match fetchone ownership with
          | None => ret _SECRET_NOT_FOUND_DELETE
          | Some row =>
              let! wire_id := lift (db_uuid_to_wire (VStr secret_db_id) "sec") in
              let! _ := delete_agent_secret_blob tenant_id secret_db_id in
              let! sid := bound secret_db_id in
              let! tid := bound tenant_id in
              let! _ := delete_from agent_secrets_t (fun k => N.eqb (k_id k) sid && N.eqb (k_tenant_id k) tid) in
              let! agent_wire_id := lift (db_uuid_to_wire (VStr agent_id) "agent") in
              let! tenant := lift (UUID tenant_id) in
              let! actor := lift (actor_of agent_id) in
              let! target := lift (UUID secret_db_id) in
              do! audit_emit tenant "agent_secret.deleted" actor "agent" (Some (VUUID target)) (Some "agent_secret")
                [("secret_id", JStr wire_id); ("agent_id", JStr agent_wire_id); ("name", JStr (k_name row))] in
              do! commit in
              ret (JSONResponse 200 [])
          end
      end
  end.

(** The rows of the union query, each with its [access] column. *)
Definition owned_and_shared (pol : uuid -> bool) (d : db) (tid aid : uuid) (after : option uuid)
    : list (secret_row * string) :=
  let later := fun s => match after with Some u => N.ltb u (k_id s) | None => true end in
  (map (fun s => (s, "owner"))
     (List.filter (fun s => N.eqb (k_agent_id s) aid && N.eqb (k_tenant_id s) tid && later s)
        (visible agent_secrets_t pol d))
   ++ map (fun '(s, _) => (s, "shared"))
        (List.filter (fun '(s, g) => N.eqb (sg_secret_id g) (k_id s)
                        && (N.eqb (sg_recipient g) aid && N.eqb (sg_tenant_id g) tid && later s))
           (list_prod (visible agent_secrets_t pol d) (visible agent_secret_grants_t pol d))))%list.

Definition secret_item (r : secret_row * string) : json :=
  let '(row, access) := r in
  JObj [("secret_id", JStr (wire (k_id row) "sec")); ("name", JStr (k_name row)); ("version", JInt (k_version row));
        ("size_bytes", JInt (k_size_bytes row)); ("content_type", opt_json (k_content_type row));
        ("access", JStr access); ("created_at", JStr (isoformat_utc (k_created_at row)));
        ("updated_at", JStr (isoformat_utc (k_updated_at row)))].

(** [limit] is between 1 and 200, checked by the framework. *)
Definition secret_list (agent_ctx : option agent_context) (after : option string) (limit : Z) : M response :=
  match agent_ctx with
  | None => ret auth_required
  | Some (AgentContext agent_id tenant_id) =>
      let answer (after_uuid : option string) : M response :=
        do! set_tenant_context tenant_id false in
        let! aid := bound agent_id in
        let! tid := bound tenant_id in
        let! lafter := bound_opt after_uuid in
        let! rows := query (fun pol d => owned_and_shared pol d tid aid lafter) in
        let rows := fetch_page limit (fun r => k_id (fst r)) rows in
        ret (JSONResponse 200
          [("secrets", JArr (map secret_item (page_of limit rows)));
           ("next_cursor", next_cursor limit (fun r => k_id (fst r)) "sec" rows)]) in
      match after with
      | None => answer None
      | Some after =>
          if startswith after "sec_" then
            let! after_uuid := lift (decode_sec after) in
            match after_uuid with
            | Some u => answer (Some u)
            | None => ret (code_title 422 "mintkey:invalid_argument" "after cursor is malformed")
            end
          else ret (code_title 422 "mintkey:invalid_argument" "after cursor must be a sec_ wire ID")
      end
  end.

Inductive tool_request :=
  | ToolPut (body : SecretPutRequest)
  | ToolGet (secret_id : string)
  | ToolDelete (secret_id : string)
  | ToolList (after : option string) (limit : Z).

Definition tool_handler (agent_ctx : option agent_context) (rq : tool_request) : M response :=
  match rq with
  | ToolPut body => secret_put agent_ctx body
  | ToolGet secret_id => secret_get agent_ctx secret_id
  | ToolDelete secret_id => secret_delete agent_ctx secret_id
  | ToolList after limit => secret_list agent_ctx after limit
  end.
End Tools.

(** ** Who can read a secret *)

#[local] Opaque uuid_str wire UUID.

(** The agent [a] of tenant [t] owns the secret or was granted it in the tenant. *)
Definition can_read (d : db) (t a : uuid) (s : secret_row) : bool :=
  N.eqb (k_tenant_id s) t &&
  (N.eqb (k_agent_id s) a
   || existsb (fun g => N.eqb (sg_secret_id g) (k_id s) && N.eqb (sg_recipient g) a && N.eqb (sg_tenant_id g) t)
        (agent_secret_grants d)).

Definition readable (d : db) (t a sid : uuid) : option secret_row :=
  List.find (fun s => N.eqb (k_id s) sid && can_read d t a s) (agent_secrets d).

(** The secret a request names. *)
Definition requested `{E : Env} (secret_id : string) : option uuid :=
  match decode_sec secret_id with
  | Ok (Some s) => bind_uuid s
  | _ => None
  end.

Definition access_of (a : uuid) (row : secret_row) : string := if N.eqb (k_agent_id row) a then "owner" else "shared".

(** The answer with a secret's plaintext. *)
Definition secret_answer (a : uuid) (row : secret_row) (blob : string) : response :=
  JSONResponse 200
    ([("secret_id", JStr (wire (k_id row) "sec")); ("name", JStr (k_name row)); ("version", JInt (k_version row));
      ("value", JStr (utf8_decode blob)); ("access", JStr (access_of a row))]
     ++ match k_content_type row with Some c => [("content_type", JStr c)] | None => [] end)%list.

Definition agent_ctx (a t : uuid) : option agent_context := Some (AgentContext (uuid_str a) (uuid_str t)).

Section Visibility.
Context `{E : Env} `{V : Vault} `{Sha : Sha256}.

Lemma visible_secret_head t a sid d :
  head (visible_secret (fun r => N.eqb r t || false) d sid t a) = readable d t a sid.
Proof.
  unfold visible_secret, visible, readable. rewrite filter_filter, head_filter_find. apply find_ext. intros s.
  cbn [sees tb_tenant agent_secrets_t]. unfold can_read. rewrite existsb_filter, orb_false_r. cbn [tb_get agent_secret_grants_t].
  rewrite (existsb_ext _ (fun g => N.eqb (sg_secret_id g) (k_id s) && N.eqb (sg_recipient g) a && N.eqb (sg_tenant_id g) t)).
  - by destruct (N.eqb (k_tenant_id s) t), (N.eqb (k_id s) sid); rewrite ?andb_false_r, ?andb_true_r.
  - intros g. unfold sees. cbn [tb_tenant agent_secret_grants_t].
    by destruct (N.eqb (sg_tenant_id g) t); rewrite ?andb_false_r, ?andb_true_r.
Qed.

Lemma wire_of_text u p : (u < uuid_limit)%N -> db_uuid_to_wire (VStr (uuid_str u)) p = Ok (wire u p).
Proof.
  intros H. unfold db_uuid_to_wire. cbn [uuid_value_int]. by rewrite replace_dash_uuid_str, UUID_hex32.
Qed.

Lemma actor_of_str a : (a < uuid_limit)%N -> actor_of (uuid_str a) = Ok (Some a).
Proof. intros H. unfold actor_of. by rewrite Adapter.uuid_str_nonempty, UUID_uuid_str. Qed.
End Visibility.

Section Get.
Context `{E : Env} `{V : Vault} `{Sha : Sha256}.

(** What an answered [secret_get] did. *)
Lemma secret_get_Ok a t secret_id w r w' :
  (a < uuid_limit)%N -> (t < uuid_limit)%N ->
  transaction (secret_get (agent_ctx a t) secret_id) w = (Ok r, w') ->
  (r = _SECRET_NOT_FOUND /\ w_base w' = w_base w /\ w_vault w' = w_vault w /\
   forall sid row, requested secret_id = Some sid -> readable (w_base w) t a sid = Some row ->
     vault_get (uuid_str t) (uuid_str (k_id row)) (w_vault w) = Ok None) \/
  exists sid row blob ev,
    requested secret_id = Some sid /\ readable (w_base w) t a sid = Some row /\
    (k_id row < uuid_limit)%N /\
    vault_get (uuid_str t) (uuid_str (k_id row)) (w_vault w) = Ok (Some blob) /\
    r = secret_answer a row blob /\ w_vault w' = w_vault w /\
    emitted t "agent_secret.read" (Some a) "agent" (Some (VUUID (k_id row))) (Some "agent_secret")
      [("secret_id", JStr (wire (k_id row) "sec")); ("version", JInt (k_version row));
       ("reader_agent_id", JStr (wire a "agent")); ("access", JStr (access_of a row))] (w_base w) ev /\
    w_base w' = append_event t ev (w_base w).
Proof.
  intros Ha Ht H. apply transaction_Ok in H as (w1 & H & Hw'). unfold secret_get, agent_ctx in H.
  step H as dec w2 Hr. apply lift_Ok in Hr as [Hdec ->]. unfold requested.
  rewrite Hdec. destruct dec as [s|].
  2: { apply ret_Ok in H as [-> ->]. left. cbn in Hw'. by subst w'. }
  step H as u w2 Hr. apply set_tenant_start in Hr as (T2 & B2 & D2 & V2); [|done..].
  rewrite bound_str, bind_ret in H by done. step H as sid w3 Hr. apply bound_Ok in Hr as [Hsid ->].
  rewrite bound_str, bind_ret in H by done.
  step H as vis w3 Hr. apply query_eff in Hr as (K3 & V3 & D3 & pol & Hp & ->).
  rewrite (it_policy _ _ T2) in Hp. apply Ok_inj in Hp. subst pol.
  apply (in_tenant_kept _ _ _ K3) in T2. pose proof (kp_base _ _ K3) as B3.
  unfold fetchone in H. rewrite visible_secret_head, D2 in H. cbn [w_db begin] in H.
  rewrite Hsid. set (Q := readable (w_base w) t a sid) in *.
  assert (Hid : forall row, Q = Some row -> k_id row = sid).
  { intros row HQ. apply List.find_some in HQ as [_ HQ]. apply andb_true_iff in HQ as [HQ _]. by apply N.eqb_eq in HQ. }
  pose proof (bind_uuid_lt _ _ Hsid) as Hlt.
  destruct Q as [row|] eqn:EQ.
  2: { apply ret_Ok in H as [-> ->]. left. rewrite (it_tx _ _ T2) in Hw'. subst w'.
       split; [done|]. cbn [committed tick w_base w_vault w_db]. rewrite D3, D2, V3, V2. do 2 (split; [done|]).
       intros ? ? [= <-]. unfold Q in EQ. rewrite EQ. done. }
  specialize (Hid row eq_refl). subst sid. rewrite wire_of_text in H by done.
  step H as wid w4 Hr. apply lift_Ok in Hr as [Hr ->]. apply Ok_inj in Hr. subst wid.
  step H as o w4 Hr. apply get_eff in Hr as (K4 & D4 & Hv & Hg).
  rewrite V3, V2 in Hv, Hg. cbn [w_vault begin] in Hv, Hg.
  pose proof (kp_base _ _ K4) as B4. apply (in_tenant_kept _ _ _ K4) in T2.
  destruct o as [blob|].
  2: { apply ret_Ok in H as [-> ->]. left. rewrite (it_tx _ _ T2) in Hw'. subst w'.
       split; [done|]. cbn [committed tick w_base w_vault w_db]. rewrite D4, D3, D2, Hv. do 2 (split; [done|]).
       intros sid row' [= <-] HQ. unfold Q in EQ. rewrite EQ in HQ. by injection HQ as <-. }
  right. exists (k_id row), row, blob.
  rewrite wire_of_text, (UUID_uuid_str t), (UUID_uuid_str (k_id row)), actor_of_str in H by done.
  do 4 (step H as x wx Hr; apply lift_Ok in Hr as [Hr ->]; apply Ok_inj in Hr; subst x).
  step H as u5 w5 Hr. apply audit_emit_eff in Hr as (K5 & V5 & ev & Hev & D5); [|done|by apply uuid_opt_some].
  apply (in_tenant_kept _ _ _ K5) in T2.
  step H as u6 w6 Hr. apply commit_eff in Hr as (B6 & X6 & V6); [|apply (it_tx _ _ T2)].
  apply ret_Ok in H as [-> ->]. rewrite X6 in Hw'. subst w'.
  assert (D : w_db w4 = w_base w) by (rewrite D4, D3, D2; done).
  rewrite D in Hev, D5. exists ev. rewrite B6, V6, V5, Hv.
  do 5 (split; [done|]). split; [done|]. split; [exact Hev|exact D5].
Qed.
End Get.

(** ** Storing a secret *)

Definition named (d : db) (t a : uuid) (name : string) : option secret_row :=
  List.find (fun k => N.eqb (k_tenant_id k) t && N.eqb (k_agent_id k) a && String.eqb (k_name k) name) (agent_secrets d).

(** The row after a new value is stored. *)
Definition with_value (ct : option string) (size version now : Z) (k : secret_row) : secret_row :=
  SecretRow (k_id k) (k_tenant_id k) (k_agent_id k) (k_name k) ct size version (k_created_by k) (k_created_at k) now.

(** [row] holds the value of [body]: it is new, with version 1, or replaces the row of that name
    with the next version. *)
Definition stored (d : db) (t a : uuid) (body : SecretPutRequest) (row : secret_row) (d1 : db) : Prop :=
  let size := Z.of_nat (py_len (utf8 (sp_value body))) in
  match named d t a (sp_name body) with
  | None => k_version row = 1%Z /\ k_size_bytes row = size /\ k_content_type row = sp_content_type body /\
      k_tenant_id row = t /\ k_agent_id row = a /\ k_name row = sp_name body /\
      ~ In (k_id row) (map k_id (agent_secrets d)) /\
      d1 = tb_set agent_secrets_t (agent_secrets d ++ [row])%list d
  | Some old => exists now,
      row = with_value (sp_content_type body) size (k_version old + 1) now old /\
      d1 = tb_set agent_secrets_t
             (map (fun k => if N.eqb (k_id k) (k_id old) then row else k) (agent_secrets d)) d
  end.

Section Put.
Context `{E : Env} `{V : Vault} `{Sha : Sha256}.

Lemma named_In d t a name k : named d t a name = Some k ->
  In k (agent_secrets d) /\ k_tenant_id k = t /\ k_agent_id k = a /\ k_name k = name.
Proof.
  intros H. apply List.find_some in H as [Hin H]. split; [done|].
  apply andb_true_iff in H as [H H3]. apply andb_true_iff in H as [H1 H2].
  apply N.eqb_eq in H1, H2. by apply String.eqb_eq in H3.
Qed.

(** A row is replaced where it is the only one with its identifier. *)
Lemma update_one d t old f :
  secrets_ok d -> In old (agent_secrets d) -> k_tenant_id old = t ->
  update_db agent_secrets_t (fun r => sees agent_secrets_t (fun r => N.eqb r t || false) r &&
      (N.eqb (k_id r) (k_id old) && N.eqb (k_tenant_id r) t)) f d =
  tb_set agent_secrets_t (map (fun k => if N.eqb (k_id k) (k_id old) then f old else k) (agent_secrets d)) d.
Proof.
  intros Hd Hin Ht. unfold update_db. f_equal. cbn [tb_get agent_secrets_t]. apply map_ext_in. intros k Hk.
  cbn [sees tb_tenant agent_secrets_t]. destruct (N.eqb_spec (k_id k) (k_id old)) as [E1|].
  - rewrite (secret_unique d k old Hd Hk Hin E1), Ht, N.eqb_refl. done.
  - by rewrite !andb_false_r.
Qed.

(** The end of the agent's writing tools: the event, the commit, the answer. *)
Lemma audited_commit a t id event_type (payload : string -> dict) R w r w' :
  (a < uuid_limit)%N -> (t < uuid_limit)%N -> (id < uuid_limit)%N -> in_tenant t w ->
  (let! agent_wire_id := lift (db_uuid_to_wire (VStr (uuid_str a)) "agent") in
   let! tenant := lift (UUID (uuid_str t)) in
   let! actor := lift (actor_of (uuid_str a)) in
   let! target := lift (UUID (uuid_str id)) in
   do! audit_emit tenant event_type actor "agent" (Some (VUUID target)) (Some "agent_secret")
     (payload agent_wire_id) in
   do! commit in
   ret R : M response) w = (Ok r, w') ->
  r = R /\ w_tx w' = TxDone /\ w_vault w' = w_vault w /\
  exists ev, emitted t event_type (Some a) "agent" (Some (VUUID id)) (Some "agent_secret")
      (payload (wire a "agent")) (w_db w) ev /\ w_base w' = append_event t ev (w_db w).
Proof.
  intros Ha Ht Hid T H. rewrite wire_of_text, !UUID_uuid_str, actor_of_str in H by done.
  do 4 (step H as x wx Hr; apply lift_Ok in Hr as [Hr ->]; apply Ok_inj in Hr; subst x).
  step H as u5 w5 Hr. apply audit_emit_eff in Hr as (K5 & V5 & ev & Hev & D5); [|done|by apply uuid_opt_some].
  step H as u6 w6 Hr. apply commit_eff in Hr as (B6 & X6 & V6); [|rewrite (kp_tx _ _ K5); apply (it_tx _ _ T)].
  apply ret_Ok in H as [-> ->]. split; [done|]. split; [done|]. split; [congruence|]. exists ev.
  split; [exact Hev|congruence].
Qed.

Lemma secret_put_Ok a t body w r w' :
  (a < uuid_limit)%N -> (t < uuid_limit)%N -> secrets_ok (w_base w) ->
  transaction (secret_put (agent_ctx a t) body) w = (Ok r, w') ->
  (status_code r = 422%Z /\ w_base w' = w_base w /\ w_vault w' = w_vault w) \/
  exists row d1 ev,
    _NAME_RE (sp_name body) = true /\ (Z.of_nat (py_len (utf8 (sp_value body))) <= _MAX_VALUE_BYTES)%Z /\
    stored (w_base w) t a body row d1 /\ (k_id row < uuid_limit)%N /\
    vault_put (uuid_str t) (uuid_str (k_id row)) (utf8 (sp_value body)) (w_vault w) = Ok (w_vault w') /\
    r = JSONResponse 200 [("secret_id", JStr (wire (k_id row) "sec")); ("name", JStr (sp_name body));
                          ("version", JInt (k_version row))] /\
    w_base w' = append_event t ev d1 /\ e_tenant_id ev = t.
Proof.
  intros Ha Ht Hok H. apply transaction_Ok in H as (w1 & H & Hw'). unfold secret_put, agent_ctx in H.
  destruct (_NAME_RE (sp_name body)) eqn:En; cbn [negb] in H.
  2: { apply ret_Ok in H as [-> ->]. left. cbn in Hw'. by subst w'. }
  set (size := Z.of_nat (py_len (utf8 (sp_value body)))) in *.
  destruct (Z.ltb_spec _MAX_VALUE_BYTES size) as [|Hsize].
  { apply ret_Ok in H as [-> ->]. left. cbn in Hw'. by subst w'. }
  right. step H as u w2 Hr. apply set_tenant_start in Hr as (T2 & B2 & D2 & V2); [|done..].
  rewrite bound_str, !bind_ret in H by done. rewrite bound_str, !bind_ret in H by done.
  step H as existing w3 Hr. apply select_eff in Hr as (K3 & V3 & D3 & pol & Hp & ->).
  rewrite (it_policy _ _ T2) in Hp. apply Ok_inj in Hp. subst pol.
  apply (in_tenant_kept _ _ _ K3) in T2. pose proof (kp_base _ _ K3) as B3.
  rewrite D2 in H, D3. rewrite V2 in V3. rewrite B2 in B3. cbn [w_db w_base w_vault begin] in *.
  assert (Hh : fetchone (List.filter (fun r0 => sees agent_secrets_t (fun r1 => N.eqb r1 t || false) r0 &&
      (N.eqb (k_tenant_id r0) t && N.eqb (k_agent_id r0) a && String.eqb (k_name r0) (sp_name body)))
      (agent_secrets (w_base w))) = named (w_base w) t a (sp_name body)).
  { unfold fetchone, named. rewrite head_filter_find. apply find_ext. intros k.
    cbn [sees tb_tenant agent_secrets_t]. by destruct (N.eqb (k_tenant_id k) t). }
  cbn [tb_get agent_secrets_t] in H. rewrite Hh in H. clear Hh. unfold stored. fold size.
  destruct (named (w_base w) t a (sp_name body)) as [old|] eqn:Eold.
  - apply named_In in Eold as (Hin & Htn & Han & Hnm). destruct (so_ids _ Hok old Hin) as (Hid & _ & _).
    rewrite bind_ret, wire_of_text in H by done.
    step H as wid w4 Hr. apply lift_Ok in Hr as [Hr ->]. apply Ok_inj in Hr. subst wid.
    step H as u4 w4 Hr. apply put_eff in Hr as (K4 & D4 & V4). apply (in_tenant_kept _ _ _ K4) in T2.
    step H as u5 w5 Hr. rewrite (bound_str (k_id old)), !bind_ret in Hr by done.
    step Hr as now w6 Hn. apply now_eff in Hn as (K6 & V6 & D6). apply (in_tenant_kept _ _ _ K6) in T2.
    apply update_eff in Hr as (K5 & V5 & pol & Hp & D5). rewrite (it_policy _ _ T2) in Hp. apply Ok_inj in Hp. subst pol.
    apply (in_tenant_kept _ _ _ K5) in T2. rewrite D6, D4, D3 in D5.
    apply (fun e => eq_trans e (update_one (w_base w) t old (with_value (sp_content_type body) size (k_version old + 1) now) Hok Hin Htn)) in D5.
    eapply audited_commit in H as (-> & X & V7 & ev & Hev & B7); [|done..].
    rewrite X in Hw'. subst w'. pose proof (em_tenant _ _ _ _ _ _ _ _ _ Hev) as Etv.
    exists (with_value (sp_content_type body) size (k_version old + 1) now old), (w_db w5), ev.
    split; [done|]. split; [done|]. split; [exists now; split; [done|exact D5]|]. split; [done|].
    rewrite V7, V5, V6. rewrite V3 in V4. split; [exact V4|]. split; [done|]. split; [exact B7|done].
  - step H as x w4 Hr. step Hr as id w5 Hu. apply uuid4_eff in Hu as (K5 & V5 & D5 & Hid).
    apply ret_Ok in Hr as [-> ->]. apply (in_tenant_kept _ _ _ K5) in T2. rewrite wire_of_text in H by done.
    step H as wid wx Hr. apply lift_Ok in Hr as [Hr ->]. apply Ok_inj in Hr. subst wid.
    step H as u4 w4 Hr. apply put_eff in Hr as (K4 & D4 & V4). apply (in_tenant_kept _ _ _ K4) in T2.
    step H as u6 w6 Hr. rewrite (bound_str id), !bind_ret in Hr by done.
    step Hr as now w7 Hn. apply now_eff in Hn as (K7 & V7 & D7). apply (in_tenant_kept _ _ _ K7) in T2.
    apply insert_eff in Hr as (K6 & V6 & Hc & D6). apply (in_tenant_kept _ _ _ K6) in T2.
    rewrite D7, D4, D5, D3 in Hc, D6.
    eapply audited_commit in H as (-> & X & V8 & ev & Hev & B8); [|done..].
    rewrite X in Hw'. subst w'. pose proof (em_tenant _ _ _ _ _ _ _ _ _ Hev) as Etv.
    exists (SecretRow id t a (sp_name body) (sp_content_type body) size 1 None now now), (w_db w6), ev.
    split; [done|]. split; [done|].
    assert (Hf : ~ In id (map k_id (agent_secrets (w_base w)))).
    { cbn [tb_check agent_secrets_t first_violation k_id] in Hc.
      destruct (fresh k_id id _) eqn:Ef; [|done]. by apply fresh_spec in Ef. }
    split; [do 6 (split; [done|]); split; [exact Hf|exact D6]|]. split; [done|].
    rewrite V8, V6, V7. rewrite V5, V3 in V4. split; [exact V4|]. split; [done|]. split; [exact B8|done].
Qed.
End Put.

Section Facts.
Context `{E : Env}.

Lemma requested_wire sid : (sid < uuid_limit)%N -> requested (wire sid "sec") = Some sid.
Proof.
  intros H. unfold requested, decode_sec. change "sec_" with ("sec" +:+ "_").
  by rewrite startswith_wire, wire_decode, N.mod_small, UUID_uuid_str, bind_uuid_str.
Qed.

Lemma find_replaced (P : secret_row -> bool) old row l :
  In old l -> k_id row = k_id old -> P row = true ->
  List.find (fun s => N.eqb (k_id s) (k_id row) && P s) (map (fun k => if N.eqb (k_id k) (k_id old) then row else k) l)
    = Some row.
Proof.
  intros Hin Hid HP. induction l as [|k l IH]; [done|]. cbn [map List.find].
  destruct (N.eqb_spec (k_id k) (k_id old)) as [Ek|Ek]; [by rewrite N.eqb_refl, HP|].
  rewrite Hid at 1. rewrite (proj2 (N.eqb_neq _ _) Ek). cbn [andb]. apply IH. by destruct Hin as [->|].
Qed.

Lemma can_read_owner d k : can_read d (k_tenant_id k) (k_agent_id k) k = true.
Proof. unfold can_read. by rewrite !N.eqb_refl. Qed.

Lemma stored_readable d t a body row d1 :
  stored d t a body row d1 ->
  readable d1 t a (k_id row) = Some row /\ k_content_type row = sp_content_type body /\
  k_agent_id row = a /\ k_name row = sp_name body.
Proof.
  unfold stored. destruct (named d t a (sp_name body)) as [old|] eqn:En.
  - intros (now & -> & ->). apply named_In in En as (Hin & <- & <- & <-). split; [|done].
    unfold readable. cbn [tb_set agent_secrets_t agent_secrets].
    apply (find_replaced (fun s => can_read _ (k_tenant_id old) (k_agent_id old) s) old
      (with_value _ _ _ _ old) (agent_secrets d) Hin eq_refl). apply (can_read_owner _ (with_value _ _ _ _ old)).
  - intros (_ & _ & Hct & <- & <- & Hn & Hf & ->). split; [|done].
    unfold readable. cbn [tb_set agent_secrets_t agent_secrets].
    rewrite (find_app_fresh k_id).
    + by rewrite N.eqb_refl, can_read_owner.
    + intros x Hx. apply andb_true_iff in Hx as [Hx _]. by apply N.eqb_eq.
    + exact Hf.
Qed.

Lemma readable_append_event t' ev d t a sid : readable (append_event t' ev d) t a sid = readable d t a sid.
Proof. reflexivity. Qed.
End Facts.

(** ** Properties *)

Section Properties.
Context `{E : Env} `{V : Vault} `{Sha : Sha256}.

(** What a request of agent [a] of tenant [t] may see: the row and the plaintext, when the
    identifier names a secret the agent can read and the vault holds its blob. *)
Definition read_secret (d : db) (v : vault_state) (t a : uuid) (secret_id : string) : option (secret_row * string) :=
  match requested secret_id with
  | Some sid =>
      match readable d t a sid with
      | Some row =>
          match vault_get (uuid_str t) (uuid_str (k_id row)) v with
          | Ok (Some blob) => Some (row, blob)
          | _ => None
          end
      | None => None
      end
  | None => None
  end.

(** C7: [secret_get] implements [read_secret].  An answered request returns the plaintext exactly
    when the agent owns the secret or was granted it in its own tenant and the blob exists; in
    every other case (no such secret, another tenant's, not shared, no blob, not an identifier)
    the answer is one and the same 404.  The only change a read makes is the
    [agent_secret.read] event of the reader, and no blob changes. *)
Theorem secret_get_refines a t secret_id w r w' :
  (a < uuid_limit)%N -> (t < uuid_limit)%N ->
  transaction (secret_get (agent_ctx a t) secret_id) w = (Ok r, w') ->
  w_vault w' = w_vault w /\
  match read_secret (w_base w) (w_vault w) t a secret_id with
  | Some (row, blob) =>
      r = secret_answer a row blob /\
      exists ev, emitted t "agent_secret.read" (Some a) "agent" (Some (VUUID (k_id row))) (Some "agent_secret")
        [("secret_id", JStr (wire (k_id row) "sec")); ("version", JInt (k_version row));
         ("reader_agent_id", JStr (wire a "agent")); ("access", JStr (access_of a row))] (w_base w) ev /\
        w_base w' = append_event t ev (w_base w)
  | None => r = _SECRET_NOT_FOUND /\ w_base w' = w_base w
  end.
Proof.
  intros Ha Ht H. unfold read_secret.
  destruct (secret_get_Ok _ _ _ _ _ _ Ha Ht H) as [(-> & Eb & Ev & Hno)|(sid & row & blob & ev & Hq & HR & _ & Hg & -> & Ev & Hev & Eb)].
  - split; [done|]. destruct (requested secret_id) as [sid|]; [|done].
    destruct (readable (w_base w) t a sid) as [row|] eqn:ER; [|done]. by rewrite (Hno sid row eq_refl ER).
  - split; [done|]. rewrite Hq, HR, Hg. split; [done|]. by exists ev.
Qed.

(** C37: what [secret_put] stores, [secret_get] returns.  After an accepted put, a read by the same
    agent of the identifier in the answer returns the value that was put, as its owner, with the
    version and the content type of the put. *)
Theorem put_get_roundtrip a t body w r1 w2 :
  (a < uuid_limit)%N -> (t < uuid_limit)%N -> secrets_ok (w_base w) ->
  transaction (secret_put (agent_ctx a t) body) w = (Ok r1, w2) -> status_code r1 = 200%Z ->
  exists sid version,
    r1 = JSONResponse 200 [("secret_id", JStr (wire sid "sec")); ("name", JStr (sp_name body));
                           ("version", JInt version)] /\
    forall w3 r3 w4, w_base w3 = w_base w2 -> w_vault w3 = w_vault w2 ->
      transaction (secret_get (agent_ctx a t) (wire sid "sec")) w3 = (Ok r3, w4) ->
      r3 = JSONResponse 200
        ([("secret_id", JStr (wire sid "sec")); ("name", JStr (sp_name body)); ("version", JInt version);
          ("value", JStr (sp_value body)); ("access", JStr "owner")]
         ++ match sp_content_type body with Some c => [("content_type", JStr c)] | None => [] end)%list.
Proof.
  intros Ha Ht Hok H Hst.
  destruct (secret_put_Ok _ _ _ _ _ _ Ha Ht Hok H) as [(E1 & _)|(row & d1 & ev & _ & _ & Hs & Hid & Hv & -> & Eb & _)];
    [congruence|].
  apply stored_readable in Hs as (HR & Hct & Hag & Hn). exists (k_id row), (k_version row). split; [done|].
  intros w3 r3 w4 B3 V3 Hg.
  destruct (secret_get_Ok _ _ _ _ _ _ Ha Ht Hg) as [(-> & _ & _ & Hno)|(sid & row' & blob & ev' & Hq & HR' & _ & Hg' & -> & _)].
  - exfalso. rewrite B3, Eb, V3 in Hno. specialize (Hno (k_id row) row (requested_wire _ Hid) HR).
    rewrite (vault_get_put _ _ _ _ _ Hv) in Hno. done.
  - rewrite requested_wire in Hq by done. injection Hq as <-. rewrite B3, Eb, readable_append_event, HR in HR'.
    injection HR' as <-. rewrite V3, (vault_get_put _ _ _ _ _ Hv) in Hg'. apply Ok_inj in Hg'. injection Hg' as <-.
    unfold secret_answer, access_of. by rewrite Hag, N.eqb_refl, utf8_decode_utf8, Hct, Hn.
Qed.
End Properties.

(** ** Witnesses *)

Section Witnesses.
#[local] Existing Instance demo_env.
#[local] Existing Instance demo_vault.
#[local] Existing Instance toy_sha256.

Lemma demo_secrets_ok : secrets_ok (w_base demo_world).
Proof.
  split.
  - intros k [<-|[<-|[]]]; repeat split; reflexivity.
  - apply NoDup_ListNoDup, (bool_decide_unpack _). reflexivity.
Qed.

Lemma secret_get_refines_witness :
  exists r w', transaction (secret_get (agent_ctx 7 1) (wire 10 "sec")) demo_world = (Ok r, w') /\
    status_code r = 200%Z /\ w_vault w' = w_vault demo_world.
Proof.
  destruct (run_returns (transaction (secret_get (agent_ctx 7 1) (wire 10 "sec")))
    (fun r => Z.eqb (status_code r) 200) demo_world) as (r & Hr & E1); [vm_compute; reflexivity|].
  exists r. eexists. split; [exact E1|]. split; [by apply Z.eqb_eq|].
  exact (proj1 (secret_get_refines 7 1 (wire 10 "sec") demo_world r _ eq_refl eq_refl E1)).
Defined.

Lemma put_get_roundtrip_witness :
  exists r1 w2, transaction (secret_put (agent_ctx 6 1) (MkSecretPutRequest "api-key" "s3cret" None)) demo_world
    = (Ok r1, w2) /\
  exists sid version, r1 = JSONResponse 200 [("secret_id", JStr (wire sid "sec")); ("name", JStr "api-key");
                                             ("version", JInt version)].
Proof.
  destruct (run_returns (transaction (secret_put (agent_ctx 6 1) (MkSecretPutRequest "api-key" "s3cret" None)))
    (fun r => Z.eqb (status_code r) 200) demo_world) as (r & Hr & E1); [vm_compute; reflexivity|].
  exists r. eexists. split; [exact E1|]. apply Z.eqb_eq in Hr.
  destruct (put_get_roundtrip 6 1 (MkSecretPutRequest "api-key" "s3cret" None) demo_world r _ eq_refl eq_refl
    demo_secrets_ok E1 Hr) as (sid & version & H & _).
  exists sid, version. exact H.
Defined.
End Witnesses.
