(* ===== verification/SecretsSafety.v ===== *)
(** * What the secret handlers preserve

    Tenant isolation and the audit chains: whatever the outcome of a request
    of one tenant (success, refusal, failure of the database or the vault),
    the secrets, grants and events of the other tenants are unchanged and
    every intact audit chain stays intact. *)

From S2P Require Import Prelude PyStr PyJson PyJsonFacts PyTime WireIds AuditHash AuditChain PyText.
From S2P Require Import Vault Tables Database Logic Demo Sessions AuditEmit AgentSecrets SecretTools.

Local Open Scope string_scope.
Local Open Scope py_scope.

(** ** The relation *)

Definition not_of {R} (key : R -> uuid) (t : uuid) (l : list R) : list R :=
  List.filter (fun r => negb (N.eqb (key r) t)) l.

(** The two states agree on everything that is not of tenant [t]'s secrets, grants and events. *)
Record isolated (t : uuid) (d d' : db) : Prop := {
  iso_secrets : not_of k_tenant_id t (agent_secrets d') = not_of k_tenant_id t (agent_secrets d);
  iso_grants : not_of sg_tenant_id t (agent_secret_grants d') = not_of sg_tenant_id t (agent_secret_grants d);
  iso_events : not_of e_tenant_id t (audit_events d') = not_of e_tenant_id t (audit_events d);
  iso_heads : not_of c_tenant_id t (audit_chain_state d') = not_of c_tenant_id t (audit_chain_state d);
  iso_rest : (tenants d', operators d', sessions d', agents d', services d') =
             (tenants d, operators d, sessions d, agents d, services d);
  iso_rest' : (permission_grants d', email_services d', email_permission_grants d', budget_counters d', service_api_keys d') =
              (permission_grants d, email_services d, email_permission_grants d, budget_counters d, service_api_keys d);
  iso_platform : platform_tables d' = platform_tables d }.

(** A grant is of the tenant of its secret. *)
Record grants_ok (d : db) : Prop := {
  go_key : List.NoDup (map k_id (agent_secrets d));
  go_tenant : forall g, In g (agent_secret_grants d) ->
    exists k, In k (agent_secrets d) /\ k_id k = sg_secret_id g /\ k_tenant_id k = sg_tenant_id g }.

Definition confined `{Sha256} `{Env} (t : uuid) (d d' : db) : Prop :=
  chains_kept d d' /\ (grants_ok d -> grants_ok d' /\ isolated t d d').

#[export] Instance confined_preorder `{Sha256} `{Env} t : PreOrder (confined t).
Proof.
  split.
  - intros d. split; [reflexivity|]. intros Hg. by repeat split; destruct Hg.
  - intros d1 d2 d3 [C1 I1] [C2 I2]. split; [by transitivity d2|]. intros Hg.
    destruct (I1 Hg) as [Hg2 J1]. destruct (I2 Hg2) as [Hg3 J2]. split; [done|].
    destruct J1, J2. split; congruence.
Qed.

(** ** Frames *)

Section Frames.
Context {R : Type} (key : R -> uuid) (t : uuid).

Lemma not_of_snoc l r : key r = t -> not_of key t (l ++ [r]) = not_of key t l.
Proof.
  intros H. unfold not_of. rewrite List.filter_app. cbn [List.filter].
  by rewrite H, N.eqb_refl, app_nil_r.
Qed.

Lemma not_of_map f l :
  (forall r, key (f r) = key r) -> (forall r, key r <> t -> f r = r) -> not_of key t (map f l) = not_of key t l.
Proof.
  intros Hk Hf. unfold not_of. induction l as [|r l IH]; [done|]. cbn [map List.filter]. rewrite Hk, IH.
  destruct (N.eqb_spec (key r) t); [done|]. cbn [negb]. by rewrite Hf.
Qed.

Lemma not_of_filter p l :
  (forall r, In r l -> key r <> t -> p r = true) -> not_of key t (List.filter p l) = not_of key t l.
Proof.
  intros Hp. unfold not_of. induction l as [|r l IH]; [done|]. cbn [List.filter].
  destruct (N.eqb_spec (key r) t) as [E|E]; destruct (p r) eqn:Ep; cbn [List.filter negb];
    rewrite ?(proj2 (N.eqb_eq _ _) E), ?(proj2 (N.eqb_neq _ _) E); cbn [negb];
    rewrite ?IH by (intros x Hx; apply Hp; by right); try done.
  rewrite (Hp r) in Ep by (done || by left). done.
Qed.
End Frames.

Section Steps.
Context `{E : Env} `{V : Vault} `{Sha : Sha256}.
Context (t : uuid) (Ht : (t < uuid_limit)%N).

Lemma confined_of d d' :
  audit_events d' = audit_events d -> audit_chain_state d' = audit_chain_state d ->
  (grants_ok d -> grants_ok d' /\ isolated t d d') -> confined t d d'.
Proof.
  intros E1 E2 HI. split; [|done]. intros u Hu [H1 H2 H3].
  split; unfold chain_state_of, events_of in *; by rewrite ?E1, ?E2.
Qed.

(** Under the tenant's setting. *)
Lemma tenant_policy w pol : tenant_is (uuid_str t) (w_tenant w) (w_admin_view w) -> policy w = Ok pol ->
  forall r, pol r = true -> r = t.
Proof.
  intros [E1 E2] Hp r Hr. unfold policy in Hp. rewrite E1, E2, pg_uuid_in_str in Hp by done.
  apply Ok_inj in Hp. subst pol. rewrite orb_false_r in Hr. by apply N.eqb_eq.
Qed.

Lemma confined_insert_secret r d d' :
  k_tenant_id r = t -> insert_db agent_secrets_t r d = Ok d' -> confined t d d'.
Proof.
  intros Hr H. unfold insert_db in H. destruct (tb_check agent_secrets_t d r) eqn:Ec; [done|].
  apply Ok_inj in H. subst d'. cbn [tb_get tb_set agent_secrets_t]. apply confined_of; [done..|].
  intros [Hk Hg]. cbn [tb_check agent_secrets_t first_violation] in Ec.
  destruct (fresh k_id (k_id r) _) eqn:Ef; [|done]. apply fresh_spec in Ef.
  split; split; db_fields; try done.
  - rewrite map_app. apply NoDup_ListNoDup, NoDup_app. split; [by apply NoDup_ListNoDup|].
    split; [|apply NoDup_singleton]. intros x Hx. cbn [map]. rewrite list_elem_of_singleton. intros ->.
    apply Ef. by apply list_elem_of_In.
  - intros g Hin. destruct (Hg g Hin) as (k & Hk' & E1 & E2). exists k. split; [|done]. apply in_or_app. by left.
  - by apply not_of_snoc.
Qed.

Lemma confined_update_secrets p f d :
  (forall r, p r = true -> k_tenant_id r = t) ->
  (forall r, k_id (f r) = k_id r) -> (forall r, k_tenant_id (f r) = k_tenant_id r) ->
  confined t d (update_db agent_secrets_t p f d).
Proof.
  intros Hp Hid Hten. unfold update_db. cbn [tb_get tb_set agent_secrets_t]. apply confined_of; [done..|].
  intros [Hk Hg].
  split; split; db_fields; try done.
  - rewrite map_map. erewrite map_ext; [exact Hk|]. intros r. by destruct (p r).
  - intros g Hin. destruct (Hg g Hin) as (k & Hk' & E1 & E2). exists (if p k then f k else k).
    split; [by apply in_map_iff; exists k|]. destruct (p k); [by rewrite Hid, Hten|done].
  - apply not_of_map; intros r; destruct (p r) eqn:Er; try done. intros Hne. by apply Hp in Er.
Qed.

Lemma confined_delete_secrets p d :
  (forall r, p r = true -> k_tenant_id r = t) -> confined t d (delete_db agent_secrets_t p d).
Proof.
  intros Hp. unfold delete_db. cbn [tb_cascade tb_get tb_set agent_secrets_t agent_secret_grants_t].
  apply confined_of; [done..|]. intros [Hk Hg].
  split; split; db_fields; try done.
  - by apply NoDup_map_filter.
  - intros g Hin. apply filter_In in Hin as [Hin Hgone]. destruct (Hg g Hin) as (k & Hk' & E1 & E2).
    exists k. split; [|done]. apply filter_In. split; [done|]. apply negb_true_iff in Hgone.
    destruct (p k) eqn:Ek; [exfalso|done]. revert Hgone. apply not_false_iff_true, existsb_exists.
    exists (k_id k). split; [|by rewrite E1, N.eqb_refl]. apply in_map, filter_In. done.
  - apply not_of_filter. intros r _ Hr. destruct (p r) eqn:Er; [by apply Hp in Er|done].
  - apply not_of_filter. intros g Hin Hne. destruct (Hg g Hin) as (k & Hk' & E1 & E2).
    apply negb_true_iff. apply not_true_is_false. intros Hex. apply existsb_exists in Hex as (id & Hid & Heq).
    apply N.eqb_eq in Heq. subst id. apply in_map_iff in Hid as (k' & E3 & Hk3).
    apply filter_In in Hk3 as [Hk3 Hpk]. apply Hp in Hpk.
    assert (k' = k); [|congruence].
    apply (NoDup_key_unique k_id (agent_secrets d)); [done..|congruence].
Qed.

(** The secret of the grant is of the tenant. *)
Definition secret_here (sid : uuid) (d : db) : Prop :=
  exists k, In k (agent_secrets d) /\ k_id k = sid /\ k_tenant_id k = t.

Lemma confined_insert_grant g d d' :
  sg_tenant_id g = t -> secret_here (sg_secret_id g) d -> insert_db agent_secret_grants_t g d = Ok d' ->
  confined t d d'.
Proof.
  intros Hg (k & Hk & E1 & E2) H. unfold insert_db in H. destruct (tb_check agent_secret_grants_t d g); [done|].
  apply Ok_inj in H. subst d'. apply confined_of; [done..|]. intros [Hkey Hten].
  split; split; db_fields; try done.
  - intros g' Hin. apply in_app_or in Hin as [Hin|[<-|[]]]; [by apply Hten|]. exists k. by rewrite Hg.
  - by apply not_of_snoc.
Qed.

Lemma confined_delete_grants p d :
  (forall g, p g = true -> sg_tenant_id g = t) -> confined t d (delete_db agent_secret_grants_t p d).
Proof.
  intros Hp. unfold delete_db. apply confined_of; [done..|]. intros [Hkey Hten].
  split; split; db_fields; try done.
  - intros g Hin. apply filter_In in Hin as [Hin _]. by apply Hten.
  - apply not_of_filter. intros g _ Hne. destruct (p g) eqn:Eg; [by apply Hp in Eg|done].
Qed.

Lemma confined_append r d : e_tenant_id r = t -> chains_kept d (append_event t r d) -> confined t d (append_event t r d).
Proof.
  intros Er Hc. split; [done|]. intros [Hkey Hten]. unfold append_event.
  split; split; db_fields; try done.
  - by apply not_of_snoc.
  - apply not_of_map; intros c; destruct (N.eqb_spec (c_tenant_id c) t); done.
Qed.

Lemma audit_emit_confined G event_type actor actor_type target target_type payload :
  uuid_opt_ok actor -> json_wf (JObj payload) ->
  respects (confined t) G (audit_emit t event_type actor actor_type target target_type payload).
Proof.
  intros Ha Hw. apply audit_emit_rule; [apply _|done..|]. intros d r Hr.
  apply confined_append; [by apply (em_tenant _ _ _ _ _ _ _ _ _ Hr)|]. by eapply append_event_chain.
Qed.

(** The statements, under the tenant's setting. *)
Abbreviation here := (tenant_is (uuid_str t)).

Lemma resp_insert_secret r : k_tenant_id r = t -> respects (confined t) here (insert_into agent_secrets_t r).
Proof. intros Hr. apply respects_insert; [apply _|]. intros d d'. by apply confined_insert_secret. Qed.

Lemma resp_update_secrets p f :
  (forall r, k_id (f r) = k_id r) -> (forall r, k_tenant_id (f r) = k_tenant_id r) ->
  respects (confined t) here (update_where agent_secrets_t p f).
Proof.
  intros Hi Hten. apply respects_update; [apply _|]. intros w pol d HG Hp.
  apply confined_update_secrets; [|done..]. intros r Hr. apply andb_true_iff in Hr as [Hr _].
  by apply (tenant_policy w pol HG Hp).
Qed.

Lemma resp_delete_secrets p : respects (confined t) here (delete_from agent_secrets_t p).
Proof.
  apply respects_delete; [apply _|]. intros w pol d HG Hp. apply confined_delete_secrets.
  intros r Hr. apply andb_true_iff in Hr as [Hr _]. by apply (tenant_policy w pol HG Hp).
Qed.

Lemma resp_delete_grants p : respects (confined t) here (delete_from agent_secret_grants_t p).
Proof.
  apply respects_delete; [apply _|]. intros w pol d HG Hp. apply confined_delete_grants.
  intros r Hr. apply andb_true_iff in Hr as [Hr _]. by apply (tenant_policy w pol HG Hp).
Qed.
End Steps.

(** ** The handlers *)

(** Side conditions of an event: its payload has distinct keys. *)
Ltac payload_wf :=
  apply json_wf_obj; split; [apply NoDup_ListNoDup, (bool_decide_unpack _); reflexivity|repeat constructor].

Section Handlers.
Context `{E : Env} `{V : Vault} `{Sha : Sha256} `{X : ExcText}.
Context (t : uuid) (Ht : (t < uuid_limit)%N).
Abbreviation conf := (confined t).
Abbreviation here := (tenant_is (uuid_str t)).

Lemma safe_try_value {A B} G (o : outcome A) (on_error : M B) (k : A -> M B) :
  safe conf G on_error -> (forall a, safe conf G (k a)) -> safe conf G (try_value o on_error k).
Proof. intros H1 H2. destruct o as [a|[]]; cbn [try_value]; auto using safe_raise. Qed.

Lemma resp_vault_put G a b c : respects conf G (put_agent_secret a b c).
Proof. apply respects_vault. Qed.
Lemma resp_vault_delete G a b : respects conf G (delete_agent_secret_blob a b).
Proof. apply respects_vault. Qed.
Lemma resp_vault_get G a b : respects conf G (get_agent_secret a b).
Proof. apply respects_vault. Qed.
Lemma resp_notify_change G c p : respects conf G (notify_change c p).
Proof. apply respects_notify, _. Qed.
Lemma resp_secret_by_id G s u : respects conf G (secret_by_id s u).
Proof. unfold secret_by_id. repeat preserved_step. Qed.
Lemma resp_agent_by_id G s u : respects conf G (agent_by_id s u).
Proof. unfold agent_by_id. repeat preserved_step. Qed.

Ltac handler_step :=
  first
    [ lazymatch goal with
      | |- safe _ _ (try_value _ _ _) => apply safe_try_value; [|intros ?]
      | |- respects _ _ (put_agent_secret _ _ _) => apply resp_vault_put
      | |- respects _ _ (delete_agent_secret_blob _ _) => apply resp_vault_delete
      | |- respects _ _ (get_agent_secret _ _) => apply resp_vault_get
      | |- respects _ _ (notify_change _ _) => apply resp_notify_change
      | |- respects _ _ (secret_by_id _ _) => apply resp_secret_by_id
      | |- respects _ _ (agent_by_id _ _) => apply resp_agent_by_id
      | |- respects _ _ (insert_into agent_secrets_t _) => apply resp_insert_secret
      | |- respects _ _ (update_where agent_secrets_t _ _) => apply resp_update_secrets
      | |- respects _ _ (delete_from agent_secrets_t _) => apply resp_delete_secrets
      | |- respects _ _ (delete_from agent_secret_grants_t _) => apply resp_delete_grants
      | |- respects _ _ (audit_emit _ _ _ _ _ _ _) => apply audit_emit_confined; [done| |payload_wf]
      end
    | preserved_step ].

Lemma operator_ok ctx : uuid_opt_ok (ctx_operator_id <$> ctx) -> (operator_id_of ctx < uuid_limit)%N.
Proof. intros H. destruct ctx as [c|]; [by apply H|done]. Qed.

Ltac open_handler := rewrite ?(bound_str t), ?bind_ret by done; repeat handler_step; try done.

Lemma safe_create ctx body : uuid_opt_ok (ctx_operator_id <$> ctx) -> safe conf no_guc (create_agent_secret ctx t body).
Proof.
  intros Hc. pose proof (operator_ok ctx Hc) as Ho. unfold create_agent_secret. open_handler.
  by apply uuid_opt_some.
Qed.

Lemma safe_list after limit : safe conf no_guc (list_agent_secrets t after limit).
Proof. unfold list_agent_secrets. open_handler. Qed.

Lemma safe_get sid : safe conf no_guc (get_agent_secret_metadata t sid).
Proof. unfold get_agent_secret_metadata. open_handler. Qed.

Lemma safe_update ctx sid body : uuid_opt_ok (ctx_operator_id <$> ctx) -> safe conf no_guc (update_agent_secret ctx t sid body).
Proof.
  intros Hc. pose proof (operator_ok ctx Hc) as Ho. unfold update_agent_secret. open_handler.
  by apply uuid_opt_some.
Qed.

Lemma safe_delete ctx sid : uuid_opt_ok (ctx_operator_id <$> ctx) -> safe conf no_guc (delete_agent_secret ctx t sid).
Proof. intros Hc. unfold delete_agent_secret. open_handler. Qed.

Lemma safe_list_grants sid after limit : safe conf no_guc (list_agent_secret_grants t sid after limit).
Proof. unfold list_agent_secret_grants. open_handler. Qed.

Lemma safe_delete_grant ctx sid gid : uuid_opt_ok (ctx_operator_id <$> ctx) ->
  safe conf no_guc (delete_agent_secret_grant ctx t sid gid).
Proof. intros Hc. unfold delete_agent_secret_grant. open_handler. Qed.

(** The secret a lookup found is in the open transaction's view. *)
Definition found (secret_uuid : string) (row : option secret_row) (d : db) : Prop :=
  match row, bind_uuid secret_uuid with
  | Some _, Some sid => secret_here t sid d
  | _, _ => True
  end.

Lemma secret_by_id_found s w row w' : secret_by_id s t w = (Ok row, w') -> found s row (w_db w).
Proof.
  intros H. unfold secret_by_id in H. step H as sid w1 Hr. apply bound_Ok in Hr as [Hs ->].
  rewrite (bound_str t), bind_ret in H by done. step H as rows w1 Hr.
  apply select_eff in Hr as (_ & _ & _ & pol & _ & ->). apply ret_Ok in H as [-> _]. unfold found. rewrite Hs.
  unfold fetchone. rewrite head_filter_find. destruct (List.find _ _) as [k|] eqn:Ek; [|done].
  apply List.find_some in Ek as [Hin Hk]. apply andb_true_iff in Hk as [_ Hk]. apply andb_true_iff in Hk as [H1 H2].
  apply N.eqb_eq in H1, H2. by exists k.
Qed.

Lemma reads_secret_by_id s u : reads (secret_by_id s u).
Proof.
  unfold secret_by_id. apply reads_bind; [apply reads_bound|intros ?]. apply reads_bind; [apply reads_bound|intros ?].
  apply reads_bind; [apply reads_select|intros ?]. apply reads_ret.
Qed.

Lemma reads_agent_by_id s u : reads (agent_by_id s u).
Proof.
  unfold agent_by_id. apply reads_bind; [apply reads_bound|intros ?]. apply reads_bind; [apply reads_bound|intros ?].
  apply reads_bind; [apply reads_select|intros ?]. apply reads_ret.
Qed.

Lemma insert_grant_found s row gid rid op now :
  row <> None ->
  respects_when conf (found s row) here
    (let! gid := bound (uuid_str gid) in
     let! tid := bound (uuid_str t) in
     let! sid := bound s in
     let! rid := bound rid in
     let! by_ := bound (uuid_str op) in
     do! insert_into agent_secret_grants_t (SecretGrantRow gid tid sid rid by_ now) in
     ret false).
Proof.
  intros Hrow. apply respects_when_reads; [apply reads_bound|intros g].
  rewrite bound_str, bind_ret by done. unfold bound at 1. destruct (bind_uuid s) as [sid|] eqn:Es.
  2: { by intros d0 w Hg _. }
  rewrite bind_ret. do 2 (apply respects_when_reads; [apply reads_bound|intros ?]).
  apply respects_when_bind; [|intros; apply respects_ret].
  apply respects_when_insert; [apply _|]. intros d d' Hf. apply confined_insert_grant; [done|].
  unfold found in Hf. rewrite Es in Hf. by destruct row.
Qed.

Lemma safe_create_grant ctx sid rid : uuid_opt_ok (ctx_operator_id <$> ctx) ->
  safe conf no_guc (create_agent_secret_grant ctx t sid rid).
Proof.
  intros Hc. unfold create_agent_secret_grant.
  apply safe_try_value; [apply safe_ret|intros s]. apply safe_try_value; [apply safe_ret|intros r].
  apply safe_set_tenant; [by intros ? ? [_ ?]|].
  apply (safe_bind_reads conf here (found s)); [apply reads_secret_by_id|intros w a w1; apply secret_by_id_found|].
  intros [row|]; [|apply safe_when_true, safe_ret].
  apply safe_when_reads; [apply reads_agent_by_id|intros [ag|]]; [|apply safe_when_true, safe_ret].
  destruct (String.eqb _ _); [apply safe_when_true, safe_ret|].
  apply safe_when_reads; [apply reads_uuid4|intros gid]. apply safe_when_reads; [apply reads_now|intros now].
  apply safe_when_bind.
  - apply respects_when_catch; [by apply insert_grant_found|]. intros e. repeat handler_step.
  - intros failed. repeat handler_step. done.
Qed.

Lemma safe_handler ctx rq : uuid_opt_ok (ctx_operator_id <$> ctx) -> safe conf no_guc (secrets_handler ctx t rq).
Proof.
  intros Hc. destruct rq; cbn [secrets_handler];
    auto using safe_create, safe_list, safe_get, safe_update, safe_delete, safe_create_grant, safe_list_grants,
      safe_delete_grant.
Qed.

(** The agent's tools. *)
Context (a : uuid) (Ha : (a < uuid_limit)%N).

Lemma lift_value {A B} (x : A) (k : A -> M B) : bind (lift (Ok x)) k = k x.
Proof. reflexivity. Qed.

Ltac open_tool :=
  rewrite ?(bound_str t), ?(bound_str a), ?(UUID_uuid_str t), ?(actor_of_str a), ?bind_ret by done;
  repeat first [progress (rewrite ?lift_value, ?bind_ret) | handler_step]; try done; try by apply uuid_opt_some.

Lemma safe_tool rq : safe conf no_guc (tool_handler (agent_ctx a t) rq).
Proof.
  destruct rq; cbn [tool_handler];
    unfold secret_put, secret_get, secret_delete, secret_list, agent_ctx; open_tool.
  - apply audit_emit_confined; [done|by apply uuid_opt_some|].
    match goal with |- context [if ?b then [] else _] => destruct b end; cbn [app]; payload_wf.
  - cbn [bound_opt]. repeat preserved_step.
  - cbn [bound_opt]. repeat preserved_step.
Qed.
End Handlers.

(** ** Properties *)

Section Properties.
Context `{E : Env} `{V : Vault} `{Sha : Sha256} `{X : ExcText}.

(** C8: a request on secrets is confined to its tenant and to the log.  Whatever an operator's
    request or an agent's tool call under tenant [t] does, and however it ends (a success, a
    refusal, a failure of the database at any statement, of the commit or of the vault), every
    audit chain that was intact is intact afterwards; and the secrets, grants, events and chain
    heads of every other tenant and all other tables are exactly as before, and every grant is
    still of the tenant of its secret. *)
Theorem secrets_requests_confined t ctx a w :
  (t < uuid_limit)%N -> uuid_opt_ok (ctx_operator_id <$> ctx) -> (a < uuid_limit)%N ->
  (forall rq, confined t (w_base w) (w_base (snd (transaction (secrets_handler ctx t rq) w)))) /\
  (forall rq, confined t (w_base w) (w_base (snd (transaction (tool_handler (agent_ctx a t) rq) w)))).
Proof.
  intros Ht Hc Ha. split; intros rq; apply (transaction_safe (confined t)).
  - by apply safe_handler.
  - by apply safe_tool.
Qed.
End Properties.

(** ** Witnesses *)

Section Witnesses.
#[local] Existing Instance demo_env.
#[local] Existing Instance demo_vault.
#[local] Existing Instance toy_sha256.
#[local] Existing Instance demo_exc.

Lemma secrets_requests_confined_witness :
  confined 1 demo_db (w_base (snd (transaction (tool_handler (agent_ctx 6 1)
    (ToolPut (MkSecretPutRequest "new" "v" None))) demo_world))).
Proof.
  refine (proj2 (secrets_requests_confined 1 (Some (SessionCtx 2 1)) 6 demo_world eq_refl _ eq_refl) _).
  apply uuid_opt_some. reflexivity.
Defined.
End Witnesses.
