(* ===== verification/Blobs.v ===== *)
(** * Metadata and blobs

    The writers of secrets call the vault before they change the metadata, so
    that whatever fails in between, every committed row still has a readable
    blob.  The invariant is on the whole state: the committed rows, the rows
    of the open transaction and the vault. *)

From S2P Require Import Prelude PyStr PyJson PyJsonFacts PyTime WireIds AuditHash AuditChain PyText.
From S2P Require Import Vault Tables Database Logic Demo Sessions AuditEmit AgentSecrets SecretTools.
From S2P Require Import SecretsSafety.

Local Open Scope string_scope.
Local Open Scope py_scope.

Section Blobs.
Context `{E : Env} `{V : Vault}.
Implicit Types (w : world) (P : world -> Prop).

(** The vault answers for the row. *)
Definition backed (v : vault_state) (k : secret_row) : Prop :=
  (k_id k < uuid_limit)%N /\ (k_tenant_id k < uuid_limit)%N /\
  exists b, vault_get (uuid_str (k_tenant_id k)) (uuid_str (k_id k)) v = Ok (Some b).

Definition all_backed (v : vault_state) (d : db) : Prop := Forall (backed v) (agent_secrets d).

Record blobs w : Prop := {
  bl_base : all_backed (w_vault w) (w_base w);
  bl_db : w_tx w = TxActive -> all_backed (w_vault w) (w_db w) }.

(** [m], from a state where [P] is known, preserves the invariant whatever its outcome. *)
Definition keeps P {A} (m : M A) : Prop := forall w, blobs w -> P w -> blobs (snd (m w)).
Definition anything w : Prop := True.

(** ** Computations that leave rows and blobs alone *)

Definition quiet {A} (m : M A) : Prop := forall w, let w' := snd (m w) in
  w_base w' = w_base w /\ w_vault w' = w_vault w /\
  (w_tx w' = TxActive -> w_tx w = TxActive /\ agent_secrets (w_db w') = agent_secrets (w_db w)).

(** Facts that quiet computations do not disturb. *)
Definition stable P : Prop := forall w w',
  w_base w' = w_base w -> w_vault w' = w_vault w ->
  (w_tx w' = TxActive -> w_tx w = TxActive /\ agent_secrets (w_db w') = agent_secrets (w_db w)) -> P w -> P w'.

Lemma stable_anything : stable anything.
Proof. done. Qed.

Lemma quiet_blobs {A} (m : M A) w : quiet m -> blobs w -> blobs (snd (m w)).
Proof.
  intros Hm [Hb Hd]. destruct (Hm w) as (E1 & E2 & E3). split; rewrite E2; [by rewrite E1|].
  intros X. destruct (E3 X) as [X0 Es]. unfold all_backed. rewrite Es. by apply Hd.
Qed.

Lemma quiet_same {A} (o : outcome A) w' w : w_base w' = w_base w -> w_vault w' = w_vault w ->
  w_tx w' = w_tx w -> w_db w' = w_db w -> forall m : M A, m w = (o, w') -> let w'' := snd (m w) in
  w_base w'' = w_base w /\ w_vault w'' = w_vault w /\
  (w_tx w'' = TxActive -> w_tx w = TxActive /\ agent_secrets (w_db w'') = agent_secrets (w_db w)).
Proof. intros E1 E2 E3 E4 m ->. cbn [snd]. rewrite E1, E2, E3, E4. done. Qed.

Lemma quiet_ret {A} (a : A) : quiet (ret a). Proof. by intros w. Qed.
Lemma quiet_raise {A} e : quiet (raise e : M A). Proof. by intros w. Qed.
Lemma quiet_lift {A} (o : outcome A) : quiet (lift o). Proof. by intros w. Qed.
Lemma quiet_bound s : quiet (bound s). Proof. intros w. unfold bound. by destruct (bind_uuid s). Qed.
Lemma quiet_uuid4 : quiet uuid4. Proof. by intros w. Qed.
Lemma quiet_now : quiet now_utc. Proof. by intros w. Qed.

Lemma quiet_bind {A B} (m : M A) (k : A -> M B) : quiet m -> (forall a, quiet (k a)) -> quiet (bind m k).
Proof.
  intros Hm Hk w. unfold bind. destruct (Hm w) as (E1 & E2 & E3).
  destruct (m w) as [[a|e] w1]; cbn [snd] in *; [|done]. destruct (Hk a w1) as (F1 & F2 & F3).
  rewrite F1, F2, E1, E2. do 2 (split; [done|]). intros X. destruct (F3 X) as [X1 ->]. by apply E3.
Qed.

Lemma quiet_execute {A} (f : world -> outcome (A * world)) :
  (forall w a w', f w = Ok (a, w') -> w_base w' = w_base w /\ w_vault w' = w_vault w /\ w_tx w' = w_tx w /\
     agent_secrets (w_db w') = agent_secrets (w_db w)) -> quiet (execute f).
Proof.
  intros Hf w. unfold execute. change (w_tx (tick w)) with (w_tx w).
  destruct (w_tx w) eqn:Et; cbn [snd]; [|do 2 (split; [done|]); intros X; change (w_tx (tick w)) with (w_tx w) in X; congruence..].
  destruct (env_fault _); [done|]. destruct (f (tick w)) as [[a w']|e] eqn:Ef; [|done].
  destruct (Hf _ _ _ Ef) as (E1 & E2 & E3 & E4). cbn [snd]. by rewrite E1, E2, E4.
Qed.

Lemma quiet_select {R} (T : table R) p : quiet (select T p).
Proof. apply quiet_execute. intros w a w' H. destruct (policy w); [|done]. apply Ok_inj in H. by injection H as <- <-. Qed.
Lemma quiet_query {A} (f : (uuid -> bool) -> db -> A) : quiet (query f).
Proof. apply quiet_execute. intros w a w' H. destruct (policy w); [|done]. apply Ok_inj in H. by injection H as <- <-. Qed.
Lemma quiet_set_tenant s : quiet (set_tenant_context s false).
Proof.
  apply quiet_bind; [|intros; apply quiet_ret]. apply quiet_execute. intros w a w' H. apply Ok_inj in H.
  by injection H as <- <-.
Qed.
Lemma quiet_notify c p : quiet (notify_change c p).
Proof. apply quiet_execute. intros w a w' H. apply Ok_inj in H. by injection H as <- <-. Qed.

(** Writes to other tables. *)
Lemma quiet_insert {R} (T : table R) r :
  (forall l d, agent_secrets (tb_set T l d) = agent_secrets d) -> quiet (insert_into T r).
Proof.
  intros HT. apply quiet_execute. intros w a w' H. destruct (policy w); [|done]. cbn [mbind outcome_bind] in H.
  destruct (sees T a0 r); [|done]. unfold insert_db in H. destruct (tb_check T (w_db w) r); [done|].
  cbn [mbind outcome_bind] in H. apply Ok_inj in H. injection H as <- <-. cbn [set_db w_db]. by rewrite HT.
Qed.

Lemma quiet_update {R} (T : table R) p f :
  (forall l d, agent_secrets (tb_set T l d) = agent_secrets d) -> quiet (update_where T p f).
Proof.
  intros HT. apply quiet_execute. intros w a w' H. destruct (policy w); [|done].
  apply Ok_inj in H. injection H as <- <-. cbn [set_db w_db]. unfold update_db. by rewrite HT.
Qed.

Lemma quiet_bound_opt o : quiet (bound_opt o).
Proof. destruct o; [apply quiet_bind; [apply quiet_bound|intros; apply quiet_ret]|apply quiet_ret]. Qed.

Lemma quiet_audit_emit `{Sha : Sha256} t event_type actor actor_type target target_type payload :
  quiet (audit_emit t event_type actor actor_type target target_type payload).
Proof.
  unfold audit_emit. apply quiet_bind; [|intros _].
  { apply quiet_execute. intros w a w' H. apply Ok_inj in H. by injection H as <- <-. }
  repeat first
    [ apply quiet_bind; [|intros ?] | apply quiet_bound | apply quiet_bound_opt | apply quiet_select
    | apply quiet_now | apply quiet_uuid4 | apply quiet_lift | by apply quiet_insert | by apply quiet_update ].
Qed.

(** ** Rules *)

Lemma keeps_quiet P {A} (m : M A) : quiet m -> keeps P m.
Proof. intros Hm w Hw _. by apply quiet_blobs. Qed.

Lemma keeps_quiet_bind P {A B} (m : M A) (k : A -> M B) :
  quiet m -> stable P -> (forall a, keeps P (k a)) -> keeps P (bind m k).
Proof.
  intros Hm HP Hk w Hw Hp. pose proof (quiet_blobs m w Hm Hw) as H1. destruct (Hm w) as (E1 & E2 & E3).
  unfold bind. destruct (m w) as [[a|e] w1]; cbn [snd] in *; [|done]. apply Hk; [done|]. by apply (HP w).
Qed.

Lemma keeps_bind P {A B} (m : M A) (k : A -> M B) : keeps P m -> (forall a, keeps anything (k a)) -> keeps P (bind m k).
Proof.
  intros Hm Hk w Hw Hp. specialize (Hm w Hw Hp). unfold bind. destruct (m w) as [[a|e] w1]; cbn [snd] in *; [|done].
  by apply Hk.
Qed.

Lemma keeps_assoc P {A B C} (m : M A) (f : A -> M B) (k : B -> M C) :
  keeps P (bind m (fun a => bind (f a) k)) -> keeps P (bind (bind m f) k).
Proof.
  intros H w Hw Hp. specialize (H w Hw Hp). unfold bind in *. by destruct (m w) as [[a|e] w1].
Qed.

Lemma keeps_uuid4 P Q {B} (k : uuid -> M B) :
  (forall w, P w -> Q (env_uuid4 (w_tick w)) (tick w)) ->
  (forall u, (u < uuid_limit)%N -> keeps (Q u) (k u)) -> keeps P (bind uuid4 k).
Proof.
  intros HQ Hk w [Hb Hd] Hp. unfold bind. cbn [uuid4]. apply Hk; [apply env_uuid4_lt|by split|by apply HQ].
Qed.

Lemma keeps_catch P Q {A} (m : M A) (h : exn -> M A) :
  keeps P m -> (forall w e w', P w -> m w = (Raise e, w') -> Q w') -> (forall e, keeps Q (h e)) ->
  keeps P (catch m h).
Proof.
  intros Hm HQ Hh w Hw Hp. pose proof (Hm w Hw Hp) as H1. unfold catch.
  destruct (m w) as [[a|e] w1] eqn:Em; cbn [snd] in *; [done|]. apply Hh; [done|]. by eapply HQ.
Qed.

Lemma keeps_weaken P Q {A} (m : M A) : keeps Q m -> (forall w, P w -> Q w) -> keeps P m.
Proof. intros Hm HPQ w Hw Hp. apply Hm; auto. Qed.

Lemma keeps_commit P : keeps P commit.
Proof.
  intros w [Hb Hd] _. unfold commit. change (w_tx (tick w)) with (w_tx w). destruct (w_tx w) eqn:Et.
  - destruct (env_fault _); split; cbn; try done. by apply Hd.
  - by split.
  - split; cbn; [done|by rewrite Et].
Qed.

(** A put keeps every blob readable, and makes its own readable. *)
Lemma all_backed_put t id v s s' d : (t < uuid_limit)%N -> (id < uuid_limit)%N ->
  vault_put (uuid_str t) (uuid_str id) v s = Ok s' -> all_backed s d -> all_backed s' d.
Proof.
  intros Ht Hid Hv Hd. eapply Forall_impl; [exact Hd|]. intros k (H1 & H2 & b & Hg).
  split; [done|]. split; [done|]. by eapply (vault_put_keeps t id).
Qed.

Definition holds (t id : uuid) w : Prop :=
  exists b, vault_get (uuid_str t) (uuid_str id) (w_vault w) = Ok (Some b).

Lemma stable_holds t id : stable (holds t id).
Proof. intros w w' _ E2 _ (b & Hb). exists b. by rewrite E2. Qed.

Lemma blobs_put t id v s' w : (t < uuid_limit)%N -> (id < uuid_limit)%N -> blobs w ->
  vault_put (uuid_str t) (uuid_str id) v (w_vault w) = Ok s' -> blobs (set_vault s' (tick w)).
Proof.
  intros Ht Hid [Hb Hd] Hv. split; cbn [w_vault w_base w_db w_tx set_vault tick].
  - exact (all_backed_put t id v _ s' _ Ht Hid Hv Hb).
  - intros X. exact (all_backed_put t id v _ s' _ Ht Hid Hv (Hd X)).
Qed.

Lemma keeps_put P Q {B} t id v (k : unit -> M B) :
  (t < uuid_limit)%N -> (id < uuid_limit)%N ->
  (forall w s', P w -> vault_put (uuid_str t) (uuid_str id) v (w_vault w) = Ok s' -> Q (set_vault s' (tick w))) ->
  (forall u, keeps (fun w => holds t id w /\ Q w) (k u)) ->
  keeps P (bind (put_agent_secret (uuid_str t) (uuid_str id) v) k).
Proof.
  intros Ht Hid HQ Hk w Hw Hp. unfold bind, put_agent_secret, vault_call.
  change (w_vault (tick w)) with (w_vault w). cbn beta.
  destruct (vault_put (uuid_str t) (uuid_str id) v (w_vault w)) as [s'|e] eqn:Ev; cbn [mbind outcome_bind].
  2: { destruct (env_vault_fault _) as [[[] ?]|]; cbn [snd]; destruct Hw; by split. }
  assert (Hs : blobs (set_vault s' (tick w))) by exact (blobs_put t id v s' w Ht Hid Hw Ev).
  destruct (env_vault_fault _) as [[[] ?]|]; cbn [snd]; [exact Hs|destruct Hw; by split|].
  apply Hk; [exact Hs|]. split; [|by apply HQ]. exists v. by apply (vault_get_put _ _ _ _ _ Ev).
Qed.

(** Inserting the row of a blob that is there. *)
Lemma keeps_insert_secret r :
  (k_id r < uuid_limit)%N -> (k_tenant_id r < uuid_limit)%N ->
  keeps (holds (k_tenant_id r) (k_id r)) (insert_into agent_secrets_t r).
Proof.
  intros H1 H2 w [Hb Hd] Hh. unfold insert_into, execute. change (w_tx (tick w)) with (w_tx w).
  destruct (w_tx w) eqn:Et; [|split; cbn; [done|by rewrite Et]..].
  destruct (env_fault _); [by split|]. destruct (policy (tick w)) as [pol|]; [|by split].
  cbn [mbind outcome_bind]. destruct (sees agent_secrets_t pol r); [|by split].
  unfold insert_db. destruct (tb_check agent_secrets_t (w_db (tick w)) r); [by split|].
  cbn [mbind outcome_bind snd]. split; cbn [set_db w_base w_vault w_db w_tx tick]; [done|]. intros _.
  unfold all_backed. cbn [tb_set agent_secrets_t agent_secrets tb_get]. apply Forall_app.
  split; [by apply Hd|]. repeat constructor; done.
Qed.

Lemma keeps_update_secrets P p f :
  (forall r, k_id (f r) = k_id r) -> (forall r, k_tenant_id (f r) = k_tenant_id r) ->
  keeps P (update_where agent_secrets_t p f).
Proof.
  intros Hi Ht w [Hb Hd] _. unfold update_where, execute. change (w_tx (tick w)) with (w_tx w).
  destruct (w_tx w) eqn:Et; [|split; cbn; [done|by rewrite Et]..].
  destruct (env_fault _); [by split|]. destruct (policy (tick w)) as [pol|]; [|by split].
  cbn [mbind outcome_bind snd]. split; cbn [set_db w_base w_vault w_db w_tx tick]; [done|]. intros _.
  unfold all_backed, update_db. cbn [tb_set agent_secrets_t agent_secrets tb_get]. apply Forall_map.
  eapply Forall_impl; [by apply Hd|]. intros k Hk. unfold compose. destruct (_ && _); [|done].
  unfold backed in *. by rewrite Hi, Ht.
Qed.

(** A whole transaction. *)
Lemma transaction_blobs {A} (m : M A) w :
  keeps (fun w1 => w_base w1 = w_base w /\ w_db w1 = w_base w) m ->
  all_backed (w_vault w) (w_base w) ->
  all_backed (w_vault (snd (transaction m w))) (w_base (snd (transaction m w))).
Proof.
  intros Hm Hw. assert (Hb : blobs (begin w)) by by split.
  specialize (Hm (begin w) Hb (conj eq_refl eq_refl)). unfold transaction.
  destruct (m (begin w)) as [[a|e] w1]; cbn [snd] in Hm.
  - destruct (w_tx w1) eqn:Et; [|unfold commit; change (w_tx (tick w1)) with (w_tx w1); rewrite Et; apply Hm|apply Hm].
    pose proof (keeps_commit anything w1 Hm I) as H2. destruct (commit w1) as [[?|?] w2]; apply H2.
  - destruct (w_tx w1) eqn:Et; cbn [snd rolled_back w_vault w_base]; apply Hm.
Qed.
End Blobs.

(** ** The writers *)

Section Writers.
Context `{E : Env} `{V : Vault} `{Sha : Sha256} `{X : ExcText}.
Context (t : uuid) (Ht : (t < uuid_limit)%N).
Implicit Types (w : world) (P : world -> Prop).

Lemma keeps_select_bind P {B} p (k : list secret_row -> M B) :
  stable P -> (forall rows, Forall (fun r => (k_id r < uuid_limit)%N) rows -> keeps P (k rows)) ->
  keeps P (bind (select agent_secrets_t p) k).
Proof.
  intros HP Hk w Hw Hp. pose proof (quiet_blobs _ w (quiet_select agent_secrets_t p) Hw) as H1.
  destruct (quiet_select agent_secrets_t p w) as (E1 & E2 & E3). unfold bind.
  destruct (select agent_secrets_t p w) as [[rows|e] w1] eqn:Es; cbn [snd] in *; [|done].
  apply Hk; [|done|by apply (HP w)]. apply select_Ok in Es as (pol & _ & Htx & _ & ->).
  apply List.Forall_forall. intros r Hr. apply filter_In in Hr as [Hr _].
  pose proof (bl_db _ Hw Htx) as Hd. unfold all_backed in Hd. rewrite Forall_forall in Hd. by apply Hd, list_elem_of_In.
Qed.

Ltac quiet_tac :=
  unfold agent_by_id;
  repeat first
    [ apply quiet_bound | apply quiet_bound_opt | apply quiet_select
    | apply quiet_query | apply quiet_now | apply quiet_uuid4 | apply quiet_lift | apply quiet_ret
    | apply quiet_raise | apply quiet_set_tenant | apply quiet_notify | apply quiet_audit_emit
    | apply quiet_bind; [|intros ?] ].

Lemma keeps_secret_by_id P {B} s u (k : option secret_row -> M B) :
  stable P -> (forall o, (forall r, o = Some r -> (k_id r < uuid_limit)%N) -> keeps P (k o)) ->
  keeps P (bind (secret_by_id s u) k).
Proof.
  intros HP Hk w Hw Hp. assert (Hq : quiet (secret_by_id s u)) by (unfold secret_by_id; quiet_tac).
  pose proof (quiet_blobs _ w Hq Hw) as H1. destruct (Hq w) as (E1 & E2 & E3). unfold bind at 1.
  destruct (secret_by_id s u w) as [[o|e] w1] eqn:Es; cbn [snd] in *; [|done].
  apply Hk; [|done|by apply (HP w)]. intros r ->. unfold secret_by_id in Es.
  step Es as sid w2 Hr. apply bound_Ok in Hr as [_ ->]. step Es as tid w2 Hr. apply bound_Ok in Hr as [_ ->].
  step Es as rows w2 Hr. apply select_Ok in Hr as (pol & _ & Htx & _ & ->). apply ret_Ok in Es as [Eo _].
  unfold fetchone in Eo. rewrite head_filter_find in Eo. symmetry in Eo. apply List.find_some in Eo as [Hin _].
  pose proof (bl_db _ Hw Htx) as Hd. unfold all_backed in Hd. rewrite Forall_forall in Hd.
  by apply Hd, list_elem_of_In.
Qed.

Ltac keeps_step :=
  lazymatch goal with
  | |- keeps _ (bind (ret _) _) => rewrite bind_ret
  | |- keeps _ (bind (lift (Ok _)) _) => rewrite lift_value
  | |- keeps _ (bind (select agent_secrets_t _) _) => apply keeps_select_bind; [apply stable_anything|intros ? ?]
  | |- keeps _ (bind commit _) => apply keeps_bind; [apply keeps_commit|intros ?]
  | |- keeps _ (bind _ _) => apply keeps_quiet_bind; [by quiet_tac|apply stable_anything|intros ?]
  | |- keeps _ (match ?x with _ => _ end) => destruct x eqn:?
  | |- keeps _ _ => apply keeps_quiet; by quiet_tac
  end.

Lemma fetch_id rows row :
  Forall (fun r => (k_id r < uuid_limit)%N) rows -> fetchone rows = Some row -> (k_id row < uuid_limit)%N.
Proof. intros H E1. destruct rows as [|r l]; [done|]. injection E1 as <-. by inversion H. Qed.

Lemma keeps_secret_put a body : (a < uuid_limit)%N -> keeps anything (secret_put (agent_ctx a t) body).
Proof.
  intros Ha. unfold secret_put, agent_ctx.
  rewrite ?(bound_str t), ?(bound_str a), ?(UUID_uuid_str t), ?(actor_of_str a), ?bind_ret by done.
  destruct (negb _); [keeps_step|]. destruct (Z.ltb _ _); [keeps_step|]. keeps_step.
  apply keeps_select_bind; [apply stable_anything|intros rows Hrows].
  destruct (fetchone rows) as [row|] eqn:Er.
  - apply (fetch_id _ _ Hrows) in Er. rewrite bind_ret, wire_of_text, lift_value by done.
    apply (keeps_put anything anything); [done..|intros _].
    apply keeps_bind; [|intros _; repeat keeps_step].
    apply (keeps_weaken _ anything); [|done]. rewrite (bound_str (k_id row)) by done. do 3 keeps_step.
    by apply keeps_update_secrets.
  - apply keeps_assoc, (keeps_uuid4 _ (fun _ => anything)); [done|intros id Hid].
    rewrite bind_ret, wire_of_text, lift_value by done.
    apply (keeps_put anything anything); [done..|intros _].
    apply keeps_bind; [|intros _; repeat keeps_step].
    apply (keeps_weaken _ (holds t id)); [|by intros w [? _]]. rewrite (bound_str id), !bind_ret by done.
    apply keeps_quiet_bind; [quiet_tac|apply stable_holds|intros now].
    exact (keeps_insert_secret (SecretRow id t _ _ _ _ _ _ _ _) Hid Ht).
Qed.

Lemma keeps_update ctx sid body : keeps anything (update_agent_secret ctx t sid body).
Proof.
  unfold update_agent_secret. destruct (Z.ltb _ _); [keeps_step|].
  destruct (_decode_secret_id sid) as [s|e]; cbn [try_value]; [|destruct e; keeps_step].
  keeps_step. apply keeps_secret_by_id; [apply stable_anything|intros o Ho].
  destruct o as [row|]; [|keeps_step]. specialize (Ho row eq_refl). keeps_step.
  apply (keeps_put anything anything); [done..|intros _].
  apply (keeps_weaken _ anything); [|done]. do 2 keeps_step.
  apply keeps_bind; [by apply keeps_update_secrets|intros _]. repeat keeps_step.
Qed.

(** ** The operator's create: a refused INSERT purges the new blob *)

(** Nothing is written yet. *)
Definition start (b0 : db) w : Prop :=
  w_base w = b0 /\ (w_tx w = TxActive -> agent_secrets (w_db w) = agent_secrets b0).

Definition start_with (b0 : db) (u : uuid) w : Prop := start b0 w /\ ~ In u (map k_id (agent_secrets b0)).

Lemma stable_start b0 : stable (start b0).
Proof. intros w w' E1 _ E3 [H1 H2]. split; [congruence|]. intros Hx. destruct (E3 Hx) as [H0 ->]. by apply H2. Qed.

Lemma stable_start_with b0 u : stable (start_with b0 u).
Proof. intros w w' E1 E2 E3 [H1 H2]. split; [|done]. by apply (stable_start b0 w). Qed.

Lemma backed_delete u v s' b l :
  (u < uuid_limit)%N -> vault_delete (uuid_str t) (uuid_str u) v = Ok (s', b) ->
  ~ In u (map k_id l) -> Forall (backed v) l -> Forall (backed s') l.
Proof.
  intros Hu Hv Hn Hl. induction Hl as [|k l (H1 & H2 & x & Hg) Hl IH]; [constructor|].
  cbn [map] in Hn. constructor; [|apply IH; intros Hin; apply Hn; by right].
  split; [done|]. split; [done|]. exists x. rewrite <- Hg.
  apply (vault_get_delete_other t u _ _ v s' b); try done. intros ->. apply Hn. by left.
Qed.

Lemma keeps_purge b0 u : (u < uuid_limit)%N ->
  keeps (start_with b0 u) (delete_agent_secret_blob (uuid_str t) (uuid_str u)).
Proof.
  intros Hu w Hw [[Hb Hd] Hn]. unfold delete_agent_secret_blob, vault_call. cbn beta.
  change (w_vault (tick w)) with (w_vault w).
  destruct (vault_delete _ _ (w_vault w)) as [[s' b]|e] eqn:Ev; cbn [mbind outcome_bind].
  2: { destruct (env_vault_fault _) as [[[] ?]|]; cbn [snd]; destruct Hw; by split. }
  assert (Hs : blobs (set_vault s' (tick w))).
  { destruct Hw as [B1 B2]. split; cbn [set_vault w_vault w_base w_db w_tx tick]; unfold all_backed in *.
    - rewrite Hb in *. exact (backed_delete _ _ _ _ _ Hu Ev Hn B1).
    - intros Hx. specialize (B2 Hx). rewrite (Hd Hx) in *. exact (backed_delete _ _ _ _ _ Hu Ev Hn B2). }
  destruct (env_vault_fault _) as [[[] ?]|]; cbn [snd]; [exact Hs|destruct Hw; by split|exact Hs].
Qed.

Lemma atomic_start {A} b0 u (m : M A) w e w' : atomic m -> start_with b0 u w -> m w = (Raise e, w') -> start_with b0 u w'.
Proof.
  intros Hm [[H1 H2] Hn] H. destruct (Hm _ _ _ H) as [E1 E2]. split; [|done]. split; [congruence|].
  intros Hx. destruct (E2 Hx) as (H0 & -> & _). by apply H2.
Qed.

Lemma keeps_create b0 ctx body :
  (forall n, ~ In (env_uuid4 n) (map k_id (agent_secrets b0))) ->
  keeps (start b0) (create_agent_secret ctx t body).
Proof.
  intros Hfresh. unfold create_agent_secret. destruct (negb _); [keeps_step|]. destruct (Z.ltb _ _); [keeps_step|].
  destruct (_decode_agent_id _) as [ag|e]; cbn [try_value]; [|destruct e; keeps_step].
  rewrite ?(bound_str t) by done.
  apply keeps_quiet_bind; [quiet_tac|apply stable_start|intros _].
  apply keeps_quiet_bind; [quiet_tac|apply stable_start|intros agent]. destruct agent as [?|]; [|keeps_step].
  rewrite bind_ret. apply keeps_quiet_bind; [quiet_tac|apply stable_start|intros aid].
  apply keeps_quiet_bind; [quiet_tac|apply stable_start|intros dup]. destruct (fetchone dup); [keeps_step|].
  apply (keeps_uuid4 _ (start_with b0)); [by intros w Hw|intros u Hu].
  apply keeps_quiet_bind; [quiet_tac|apply stable_start_with|intros now].
  apply (keeps_put _ (start_with b0 u)); [done..|by intros w s' Hw _|intros _].
  rewrite ?(bound_str u) by done.
  apply keeps_bind; [|intros failed; repeat keeps_step].
  apply (keeps_catch _ (start_with b0 u)).
  - apply (keeps_weaken _ (holds t u)); [|by intros w [? _]]. rewrite !bind_ret.
    do 2 (apply keeps_quiet_bind; [quiet_tac|apply stable_holds|intros ?]).
    apply keeps_bind; [|intros _; keeps_step].
    exact (keeps_insert_secret (SecretRow u t _ _ _ _ _ _ _ _) Hu Ht).
  - intros w e w' [_ Hs]. apply atomic_start; [|done]. rewrite !bind_ret.
    do 2 (apply atomic_bind; [apply reads_bound|intros ?]).
    apply atomic_write; [apply atomic_execute| |].
    + intros ? ? ? H. by apply insert_Ok in H as (? & _ & _ & _ & _ & ->).
    + intros _ ? ? ? H. done.
  - intros e. destruct (is_duplicate _ _ _); [|keeps_step].
    apply keeps_bind; [|intros _; keeps_step].
    apply (keeps_catch _ anything); [|done|intros _; keeps_step].
    apply keeps_bind; [by apply keeps_purge|intros _; keeps_step].
Qed.
End Writers.

(** ** Properties *)

Section Properties.
Context `{E : Env} `{V : Vault} `{Sha : Sha256} `{X : ExcText}.

(** C12: blob first.  If every committed row of [agent_secrets] has a readable blob, this is still
    so after an operator's create or rotate and after an agent's [secret_put], however they end:
    when the vault fails before or after it took effect, when a statement or the commit fails, and
    when a concurrent writer's unique name makes the INSERT fail and the new blob is purged (for
    that purge, identifiers are fresh). *)
Theorem writers_keep_blobs t a ctx w :
  (t < uuid_limit)%N -> (a < uuid_limit)%N ->
  (forall n, ~ In (env_uuid4 n) (map k_id (agent_secrets (w_base w)))) ->
  all_backed (w_vault w) (w_base w) ->
  (forall body, let w' := snd (transaction (create_agent_secret ctx t body) w) in all_backed (w_vault w') (w_base w')) /\
  (forall sid body, let w' := snd (transaction (update_agent_secret ctx t sid body) w) in
     all_backed (w_vault w') (w_base w')) /\
  (forall body, let w' := snd (transaction (secret_put (agent_ctx a t) body) w) in all_backed (w_vault w') (w_base w')).
Proof.
  intros Ht Ha Hf Hw. split; [|split]; intros; apply transaction_blobs; try done.
  - apply (keeps_weaken _ (start (w_base w))); [by apply keeps_create|]. intros w1 [H1 H2]. split; [done|]. intros _. by rewrite H2.
  - apply (keeps_weaken _ anything); [by apply keeps_update|done].
  - apply (keeps_weaken _ anything); [by apply keeps_secret_put|done].
Qed.
End Properties.

(** ** Witnesses *)

Section Witnesses.
#[local] Existing Instance demo_env.
#[local] Existing Instance demo_vault.
#[local] Existing Instance toy_sha256.
#[local] Existing Instance demo_exc.

Lemma demo_all_backed : all_backed (w_vault demo_world) (w_base demo_world).
Proof.
  repeat constructor; try reflexivity.
  - exists "hello". vm_compute. reflexivity.
  - exists "x". vm_compute. reflexivity.
Qed.

Lemma demo_uuid4_fresh n : ~ In (env_uuid4 n) (map k_id (agent_secrets (w_base demo_world))).
Proof.
  cbn [env_uuid4 demo_env w_base demo_world demo_db agent_secrets map k_id In]. unfold demo_uuid4.
  generalize (N.of_nat n mod (uuid_limit - 1000))%N. intros m H. lia.
Qed.

Lemma writers_keep_blobs_witness :
  let w' := snd (transaction (secret_put (agent_ctx 6 1) (MkSecretPutRequest "api-key" "s3cret" None)) demo_world) in
  all_backed (w_vault w') (w_base w').
Proof.
  exact (proj2 (proj2 (writers_keep_blobs 1 6 None demo_world eq_refl eq_refl demo_uuid4_fresh demo_all_backed))
    (MkSecretPutRequest "api-key" "s3cret" None)).
Defined.
End Witnesses.
