(* ===== verification/Sharing.v ===== *)
(** * Sharing, listing and deleting secrets

    What the share grants and the deletions mean for the readers: the effect
    of a successful grant, revocation or deletion on what [secret_get] shows.
    Then the cursor pages of [list_agent_secrets] and of the agent's
    [secret_list], and what the latter shows. *)

From S2P Require Import Prelude PyStr WireIds PyJson PyJsonFacts PyTime AuditHash PyText AuditChain Vault.
From S2P Require Import Tables Database Logic Demo Sessions AuditEmit AgentSecrets SecretTools.
From S2P Require Import SecretsSafety.

Local Open Scope string_scope.
Local Open Scope py_scope.

#[local] Opaque uuid_str wire UUID.

Section Effects.
Context `{E : Env} `{V : Vault} `{Sha : Sha256} `{X : ExcText}.
Context (t : uuid) (Ht : (t < uuid_limit)%N).
Implicit Types (w : world).

Lemma secret_by_id_eff s w o w' : in_tenant t w -> secret_by_id s t w = (Ok o, w') ->
  kept w w' /\ w_vault w' = w_vault w /\ w_db w' = w_db w /\
  exists sid, bind_uuid s = Some sid /\ (sid < uuid_limit)%N /\
    o = List.find (fun k => N.eqb (k_id k) sid && N.eqb (k_tenant_id k) t) (agent_secrets (w_db w)).
Proof.
  intros T H. unfold secret_by_id in H. step H as sid w1 Hr. apply bound_Ok in Hr as [Hs ->].
  rewrite (bound_str t), bind_ret in H by done. step H as rows w1 Hr.
  apply select_eff in Hr as (K & Hv & Hd & pol & Hp & ->). apply ret_Ok in H as [-> ->].
  rewrite (it_policy _ _ T) in Hp. apply Ok_inj in Hp. subst pol. do 3 (split; [done|]). exists sid.
  split; [done|]. split; [by eapply bind_uuid_lt|]. unfold fetchone. rewrite head_filter_find. apply find_ext.
  intros k. cbn [sees tb_tenant agent_secrets_t tb_get]. destruct (N.eqb (k_tenant_id k) t); [done|by rewrite andb_false_r].
Qed.

Lemma agent_by_id_eff s w o w' : in_tenant t w -> agent_by_id s t w = (Ok o, w') ->
  kept w w' /\ w_vault w' = w_vault w /\ w_db w' = w_db w /\
  exists aid, bind_uuid s = Some aid /\ (aid < uuid_limit)%N /\
    o = List.find (fun a => N.eqb (a_id a) aid && N.eqb (a_tenant_id a) t) (agents (w_db w)).
Proof.
  intros T H. unfold agent_by_id in H. step H as sid w1 Hr. apply bound_Ok in Hr as [Hs ->].
  rewrite (bound_str t), bind_ret in H by done. step H as rows w1 Hr.
  apply select_eff in Hr as (K & Hv & Hd & pol & Hp & ->). apply ret_Ok in H as [-> ->].
  rewrite (it_policy _ _ T) in Hp. apply Ok_inj in Hp. subst pol. do 3 (split; [done|]). exists sid.
  split; [done|]. split; [by eapply bind_uuid_lt|]. unfold fetchone. rewrite head_filter_find. apply find_ext.
  intros k. cbn [sees tb_tenant agents_t tb_get]. destruct (N.eqb (a_tenant_id k) t); [done|by rewrite andb_false_r].
Qed.

Definition with_grant (g : secret_grant_row) (d : db) : db :=
  tb_set agent_secret_grants_t (agent_secret_grants d ++ [g])%list d.

Lemma create_grant_Ok ctx secret_id recipient w r w' :
  uuid_opt_ok (ctx_operator_id <$> ctx) ->
  transaction (create_agent_secret_grant ctx t secret_id recipient) w = (Ok r, w') -> status_code r = 201%Z ->
  exists row g ev,
    named_id (_decode_secret_id secret_id) = Some (k_id row) /\
    named_id (_decode_agent_id recipient) = Some (sg_recipient g) /\
    In row (agent_secrets (w_base w)) /\ k_tenant_id row = t /\
    (exists ag, In ag (agents (w_base w)) /\ a_id ag = sg_recipient g /\ a_tenant_id ag = t) /\
    sg_secret_id g = k_id row /\ sg_tenant_id g = t /\
    w_vault w' = w_vault w /\ e_tenant_id ev = t /\
    w_base w' = append_event t ev (with_grant g (w_base w)).
Proof.
  intros Hc H Hst. apply transaction_Ok in H as (w1 & H & Hw'). unfold create_agent_secret_grant in H.
  apply try_value_Ok in H as [H|(s & Hs & H)]; [apply ret_Ok in H as [-> _]; discriminate|].
  apply try_value_Ok in H as [H|(p & Hp & H)]; [apply ret_Ok in H as [-> _]; discriminate|].
  rewrite Hs, Hp. cbn [named_id].
  step H as u w2 Hr. apply set_tenant_start in Hr as (T2 & B2 & D2 & V2); [|done..].
  step H as o w3 Hr. apply secret_by_id_eff in Hr as (K3 & V3 & D3 & sid & Hsid & Hlt & ->); [|done].
  apply (in_tenant_kept _ _ _ K3) in T2. rewrite D2 in H. cbn [w_db begin] in H.
  destruct (List.find _ (agent_secrets (w_base w))) as [row|] eqn:Erow; [|apply ret_Ok in H as [-> _]; discriminate].
  apply List.find_some in Erow as [Hin Hrow]. apply andb_true_iff in Hrow as [E1 E2]. apply N.eqb_eq in E1, E2.
  step H as o w4 Hr. apply agent_by_id_eff in Hr as (K4 & V4 & D4 & rid & Hrid & Hrlt & ->); [|done].
  apply (in_tenant_kept _ _ _ K4) in T2. rewrite D3, D2 in H. cbn [w_db begin] in H.
  destruct (List.find _ (agents (w_base w))) as [ag|] eqn:Eag; [|apply ret_Ok in H as [-> _]; discriminate].
  apply List.find_some in Eag as [Hag Hagt]. apply andb_true_iff in Hagt as [F1 F2]. apply N.eqb_eq in F1, F2.
  destruct (String.eqb _ _); [apply ret_Ok in H as [-> _]; discriminate|].
  step H as gid w5 Hr. apply uuid4_eff in Hr as (K5 & V5 & D5 & Hgid). apply (in_tenant_kept _ _ _ K5) in T2.
  step H as now w6 Hr. apply now_eff in Hr as (K6 & V6 & D6). apply (in_tenant_kept _ _ _ K6) in T2.
  step H as failed w7 Hr. unfold catch in Hr.
  rewrite (bound_str gid), bind_ret, (bound_str t), bind_ret in Hr by done.
  unfold bound at 1 in Hr. rewrite Hsid, bind_ret in Hr. unfold bound at 1 in Hr. rewrite Hrid, bind_ret in Hr.
  rewrite bound_str, bind_ret in Hr by by apply operator_ok.
  destruct (bind (insert_into _ _) _ w6) as [[b|e] wi] eqn:Ei.
  2: { destruct (is_duplicate _ _ e); [|done]. apply ret_Ok in Hr as [-> ->]. apply ret_Ok in H as [-> _]. discriminate. }
  injection Hr as -> ->. step Ei as u2 w8 Hr. apply insert_eff in Hr as (K8 & V8 & _ & D8).
  apply ret_Ok in Ei as [-> ->]. apply (in_tenant_kept _ _ _ K8) in T2. cbn [fst] in H.
  step H as secret wx Hr. apply lift_Ok in Hr as [_ ->]. step H as rcp wx Hr. apply lift_Ok in Hr as [_ ->].
  step H as u9 w9 Hr. apply audit_emit_eff in Hr as (K9 & V9 & ev & Hev & D9); [|done..].
  apply (in_tenant_kept _ _ _ K9) in T2.
  step H as u10 w10 Hr. apply notify_eff in Hr as (K10 & V10 & D10). apply (in_tenant_kept _ _ _ K10) in T2.
  apply ret_Ok in H as [-> ->]. rewrite (it_tx _ _ T2) in Hw'. subst w'.
  assert (D7 : w_db w8 = with_grant (SecretGrantRow gid t sid rid (operator_id_of ctx) now) (w_base w)).
  { rewrite D8, D6, D5, D4, D3, D2. done. }
  exists row, (SecretGrantRow gid t sid rid (operator_id_of ctx) now), ev.
  cbn [sg_recipient sg_secret_id sg_tenant_id committed tick w_base w_vault w_db].
  split; [by rewrite Hsid, E1|]. split; [done|]. split; [done|]. split; [done|].
  split; [by exists ag|]. split; [done|]. split; [done|].
  split; [rewrite V10, V9, V8, V6, V5, V4, V3, V2; done|].
  split; [by apply (em_tenant _ _ _ _ _ _ _ _ _ Hev)|]. by rewrite D10, D9, D7.
Qed.

Lemma delete_grant_Ok ctx secret_id grant_id w r w' :
  uuid_opt_ok (ctx_operator_id <$> ctx) ->
  transaction (delete_agent_secret_grant ctx t secret_id grant_id) w = (Ok r, w') -> status_code r = 204%Z ->
  exists sid gid d1, named_id (_decode_secret_id secret_id) = Some sid /\
    named_id (_decode_grant_id grant_id) = Some gid /\ w_vault w' = w_vault w /\
    d1 = tb_set agent_secret_grants_t
           (List.filter (fun g => negb (N.eqb (sg_tenant_id g) t && (N.eqb (sg_id g) gid && N.eqb (sg_secret_id g) sid)))
              (agent_secret_grants (w_base w))) (w_base w) /\
    (w_base w' = d1 \/ exists ev, e_tenant_id ev = t /\ w_base w' = append_event t ev d1).
Proof.
  intros Hc H Hst. apply transaction_Ok in H as (w1 & H & Hw'). unfold delete_agent_secret_grant in H.
  apply try_value_Ok in H as [H|(s & Hs & H)]; [apply ret_Ok in H as [-> _]; discriminate|].
  apply try_value_Ok in H as [H|(p & Hp & H)]; [apply ret_Ok in H as [-> _]; discriminate|].
  rewrite Hs, Hp. cbn [named_id].
  step H as u w2 Hr. apply set_tenant_start in Hr as (T2 & B2 & D2 & V2); [|done..].
  step H as gid wx Hr. apply bound_Ok in Hr as [Hgid ->]. step H as sid wx Hr. apply bound_Ok in Hr as [Hsid ->].
  rewrite (bound_str t), !bind_ret in H by done.
  step H as rows w3 Hr. apply query_eff in Hr as (K3 & V3 & D3 & pol & _ & Hrows). clear Hrows.
  apply (in_tenant_kept _ _ _ K3) in T2.
  unfold bound at 1 in H. rewrite Hgid, bind_ret in H. unfold bound at 1 in H. rewrite Hsid, bind_ret in H.
  rewrite bind_ret in H.
  step H as n w4 Hr. apply delete_eff in Hr as (K4 & V4 & pol' & Hpol & D4 & _).
  rewrite (it_policy _ _ T2) in Hpol. apply Ok_inj in Hpol. subst pol'. apply (in_tenant_kept _ _ _ K4) in T2.
  exists sid, gid, (w_db w4). do 2 (split; [done|]).
  assert (E4 : w_db w4 = tb_set agent_secret_grants_t
           (List.filter (fun g => negb (N.eqb (sg_tenant_id g) t && (N.eqb (sg_id g) gid && N.eqb (sg_secret_id g) sid)))
              (agent_secret_grants (w_base w))) (w_base w)).
  { rewrite D4, D3, D2. unfold delete_db. cbn [tb_cascade tb_get agent_secret_grants_t no_cascade w_db begin].
    f_equal. apply filter_ext. intros g. cbn [sees tb_tenant agent_secret_grants_t].
    by destruct (N.eqb (sg_tenant_id g) t); rewrite ?andb_false_r, ?andb_true_r. }
  step H as u5 w5 Hr.
  assert (Hev : kept w4 w5 /\ w_vault w5 = w_vault w4 /\
    (w_db w5 = w_db w4 \/ exists ev, e_tenant_id ev = t /\ w_db w5 = append_event t ev (w_db w4))).
  { destruct (fetchone rows) as [[g k]|]; [|apply ret_Ok in Hr as [_ ->]; split; [reflexivity|]; by auto].
    step Hr as g1 wx H1. apply lift_Ok in H1 as [_ ->]. step Hr as s1 wx H1. apply lift_Ok in H1 as [_ ->].
    apply audit_emit_eff in Hr as (K5 & V5 & ev & Hev & D5); [|done..]. split; [done|]. split; [done|]. right.
    exists ev. split; [by apply (em_tenant _ _ _ _ _ _ _ _ _ Hev)|done]. }
  clear Hr. destruct Hev as (K5 & V5 & D5). apply (in_tenant_kept _ _ _ K5) in T2.
  step H as u6 w6 Hr. apply notify_eff in Hr as (K6 & V6 & D6). apply (in_tenant_kept _ _ _ K6) in T2.
  apply ret_Ok in H as [-> ->]. rewrite (it_tx _ _ T2) in Hw'. subst w'.
  cbn [committed tick w_base w_vault w_db]. split; [rewrite V6, V5, V4, V3, V2; done|]. split; [done|].
  rewrite D6. exact D5.
Qed.

(** ** Deletions *)

Definition is_secret (sid : uuid) (k : secret_row) : bool := N.eqb (k_tenant_id k) t && N.eqb (k_id k) sid.

(** The tables after the secret and its grants are deleted. *)
Definition without_secret (sid : uuid) (d : db) : db := delete_db agent_secrets_t (is_secret sid) d.

Lemma delete_secret_eff sid w w' n : in_tenant t w ->
  delete_from agent_secrets_t (fun k => N.eqb (k_id k) sid && N.eqb (k_tenant_id k) t) w = (Ok n, w') ->
  kept w w' /\ w_vault w' = w_vault w /\ w_db w' = without_secret sid (w_db w).
Proof.
  intros T H. apply delete_eff in H as (K & Hv & pol & Hp & Hd & _). rewrite (it_policy _ _ T) in Hp.
  apply Ok_inj in Hp. subst pol. do 2 (split; [done|]). rewrite Hd. unfold without_secret, delete_db.
  assert (Hx : forall k, (sees agent_secrets_t (fun r => N.eqb r t || false) k &&
      (N.eqb (k_id k) sid && N.eqb (k_tenant_id k) t)) = is_secret sid k).
  { intros k. unfold is_secret. cbn [sees tb_tenant agent_secrets_t].
    by destruct (N.eqb (k_tenant_id k) t); rewrite ?andb_false_r, ?andb_true_r. }
  cbn [tb_cascade tb_get tb_set agent_secrets_t agent_secret_grants_t agent_secrets agent_secret_grants].
  rewrite (filter_ext _ _ Hx). f_equal. apply filter_ext. intros k. by rewrite Hx.
Qed.

Lemma delete_secret_Ok ctx secret_id w r w' :
  uuid_opt_ok (ctx_operator_id <$> ctx) ->
  transaction (delete_agent_secret ctx t secret_id) w = (Ok r, w') -> status_code r = 204%Z ->
  exists s sid, _decode_secret_id secret_id = Ok s /\ bind_uuid s = Some sid /\
    match List.find (fun k => N.eqb (k_id k) sid && N.eqb (k_tenant_id k) t) (agent_secrets (w_base w)) with
    | Some _ => vault_get (uuid_str t) s (w_vault w') = Ok None
    | None => w_vault w' = w_vault w
    end /\
    (w_base w' = without_secret sid (w_base w) \/
     exists ev, e_tenant_id ev = t /\ w_base w' = append_event t ev (without_secret sid (w_base w))).
Proof.
  intros Hc H Hst. apply transaction_Ok in H as (w1 & H & Hw'). unfold delete_agent_secret in H.
  apply try_value_Ok in H as [H|(s & Hs & H)]; [apply ret_Ok in H as [-> _]; discriminate|].
  step H as u w2 Hr. apply set_tenant_start in Hr as (T2 & B2 & D2 & V2); [|done..].
  step H as o w3 Hr. apply secret_by_id_eff in Hr as (K3 & V3 & D3 & sid & Hsid & Hlt & ->); [|done].
  apply (in_tenant_kept _ _ _ K3) in T2. rewrite D2 in H. cbn [w_db begin] in H.
  exists s, sid. do 2 (split; [done|]).
  set (o := List.find _ (agent_secrets (w_base w))) in *.
  step H as u4 w4 Hr.
  assert (Hv : kept w3 w4 /\ w_db w4 = w_db w3 /\ match o with
    | Some _ => vault_get (uuid_str t) s (w_vault w4) = Ok None | None => w_vault w4 = w_vault w3 end).
  { destruct o as [row|]; [|apply ret_Ok in Hr as [_ ->]; split; [reflexivity|done]].
    step Hr as b w5 H1. apply ret_Ok in Hr as [_ ->]. apply delete_blob_eff in H1 as (K & D & Hdel).
    split; [done|]. split; [done|]. by apply (vault_get_delete _ _ _ _ _ Hdel). }
  clear Hr. destruct Hv as (K4 & D4 & V4). apply (in_tenant_kept _ _ _ K4) in T2.
  unfold bound at 1 in H. rewrite Hsid, bind_ret, (bound_str t), bind_ret in H by done.
  step H as n w5 Hr. apply delete_secret_eff in Hr as (K5 & V5 & D5); [|done]. apply (in_tenant_kept _ _ _ K5) in T2.
  step H as sec wx Hr. apply lift_Ok in Hr as [_ ->]. step H as wire_id w6 Hr.
  assert (Hev : kept w5 w6 /\ w_vault w6 = w_vault w5 /\
    (w_db w6 = w_db w5 \/ exists ev, e_tenant_id ev = t /\ w_db w6 = append_event t ev (w_db w5))).
  { destruct o as [row|]; [|apply ret_Ok in Hr as [_ ->]; split; [reflexivity|]; by auto].
    step Hr as u6 w7 H1. apply ret_Ok in Hr as [_ ->].
    apply audit_emit_eff in H1 as (K6 & V6 & ev & Hev & D6); [|done..]. split; [done|]. split; [done|]. right.
    exists ev. split; [by apply (em_tenant _ _ _ _ _ _ _ _ _ Hev)|done]. }
  clear Hr. destruct Hev as (K6 & V6 & D6). apply (in_tenant_kept _ _ _ K6) in T2.
  step H as u7 w7 Hr. apply notify_eff in Hr as (K7 & V7 & D7). apply (in_tenant_kept _ _ _ K7) in T2.
  apply ret_Ok in H as [-> ->]. rewrite (it_tx _ _ T2) in Hw'. subst w'.
  cbn [committed tick w_base w_vault w_db].
  assert (D : w_db w5 = without_secret sid (w_base w)) by (rewrite D5, D4, D3, D2; done).
  rewrite D in D6. rewrite D7. split; [|exact D6].
  destruct o; [by rewrite V7, V6, V5|]. rewrite V7, V6, V5, V4, V3, V2. done.
Qed.

Lemma secret_delete_Ok a secret_id w r w' :
  (a < uuid_limit)%N ->
  transaction (secret_delete (agent_ctx a t) secret_id) w = (Ok r, w') ->
  (r = _SECRET_NOT_FOUND_DELETE /\ w_base w' = w_base w /\ w_vault w' = w_vault w /\
   forall sid k, requested secret_id = Some sid -> In k (agent_secrets (w_base w)) ->
     k_id k = sid -> k_tenant_id k = t -> k_agent_id k <> a) \/
  exists s sid row ev, decode_sec secret_id = Ok (Some s) /\ bind_uuid s = Some sid /\
    In row (agent_secrets (w_base w)) /\ k_id row = sid /\ k_tenant_id row = t /\ k_agent_id row = a /\
    r = JSONResponse 200 [] /\ vault_get (uuid_str t) s (w_vault w') = Ok None /\
    e_tenant_id ev = t /\ w_base w' = append_event t ev (without_secret sid (w_base w)).
Proof.
  intros Ha H. apply transaction_Ok in H as (w1 & H & Hw'). unfold secret_delete, agent_ctx in H.
  step H as dec w2 Hr. apply lift_Ok in Hr as [Hdec ->]. unfold requested.
  rewrite Hdec. destruct dec as [s|].
  2: { apply ret_Ok in H as [-> ->]. left. cbn in Hw'. by subst w'. }
  step H as u w2 Hr. apply set_tenant_start in Hr as (T2 & B2 & D2 & V2); [|done..].
  step H as sid w3 Hr. apply bound_Ok in Hr as [Hsid ->].
  rewrite !bound_str, !bind_ret in H by done.
  step H as own w3 Hr. apply select_eff in Hr as (K3 & V3 & D3 & pol & Hp & ->).
  rewrite (it_policy _ _ T2) in Hp. apply Ok_inj in Hp. subst pol. apply (in_tenant_kept _ _ _ K3) in T2.
  rewrite D2 in H. cbn [w_db begin] in H. rewrite Hsid. unfold fetchone in H. rewrite head_filter_find in H.
  destruct (List.find _ _) as [row|] eqn:Erow.
  2: { apply ret_Ok in H as [-> ->]. left. rewrite (it_tx _ _ T2) in Hw'. subst w'.
       split; [done|]. cbn [committed tick w_base w_vault w_db]. rewrite D3, D2, V3, V2. do 2 (split; [done|]).
       intros ? k [= <-] Hk E1 E2 E3. pose proof (List.find_none _ _ Erow k Hk) as Hn.
       cbn [sees tb_tenant agent_secrets_t] in Hn. by rewrite E1, E2, E3, !N.eqb_refl in Hn. }
  apply List.find_some in Erow as [Hin Hrow]. cbn [sees tb_tenant agent_secrets_t] in Hrow.
  apply andb_true_iff in Hrow as [_ Hrow]. apply andb_true_iff in Hrow as [Hrow F3].
  apply andb_true_iff in Hrow as [F1 F2]. apply N.eqb_eq in F1, F2, F3.
  right. step H as wid wx Hr. apply lift_Ok in Hr as [_ ->].
  step H as b w4 Hr. apply delete_blob_eff in Hr as (K4 & D4 & Hdel). apply (in_tenant_kept _ _ _ K4) in T2.
  unfold bound at 1 in H. rewrite Hsid, !bind_ret in H.
  step H as n w5 Hr. apply delete_secret_eff in Hr as (K5 & V5 & D5); [|done]. apply (in_tenant_kept _ _ _ K5) in T2.
  rewrite wire_of_text, UUID_uuid_str, actor_of_str, (bind_uuid_UUID _ _ Hsid), !lift_value in H by done.
  step H as u6 w6 Hr. apply audit_emit_eff in Hr as (K6 & V6 & ev & Hev & D6); [|done|by apply uuid_opt_some].
  apply (in_tenant_kept _ _ _ K6) in T2.
  step H as u7 w7 Hr. apply commit_eff in Hr as (B7 & X7 & V7); [|apply (it_tx _ _ T2)].
  apply ret_Ok in H as [-> ->]. rewrite X7 in Hw'. subst w'. exists s, sid, row, ev.
  do 7 (split; [done|]). split; [rewrite V7, V6, V5; by apply (vault_get_delete _ _ _ _ _ Hdel)|].
  split; [by apply (em_tenant _ _ _ _ _ _ _ _ _ Hev)|]. rewrite B7, D6, D5, D4, D3, D2. done.
Qed.
End Effects.

(** ** Properties *)

Section Properties.
Context `{E : Env} `{V : Vault} `{Sha : Sha256} `{X : ExcText}.

Lemma readable_without d t sid a : readable (without_secret t sid d) t a sid = None.
Proof.
  unfold readable. destruct (List.find _ _) as [k|] eqn:Ek; [exfalso|done].
  apply List.find_some in Ek as [Hin Hk]. apply filter_In in Hin as [_ Hn].
  apply andb_true_iff in Hk as [H1 H2]. unfold can_read in H2. apply andb_true_iff in H2 as [H2 _].
  unfold is_secret in Hn. by rewrite H1, H2 in Hn.
Qed.

(** A grant lets its recipient read, and only within the tenant.  When an operator's grant is
    accepted, the secret and the recipient are of the operator's tenant, and a [secret_get] by the
    recipient sees that secret: [readable] gives its row, shared unless the recipient owns it. *)
Theorem grant_lets_read t ctx secret_id recipient w r w' :
  (t < uuid_limit)%N -> uuid_opt_ok (ctx_operator_id <$> ctx) -> secrets_ok (w_base w) ->
  transaction (create_agent_secret_grant ctx t secret_id recipient) w = (Ok r, w') -> status_code r = 201%Z ->
  exists row rid,
    named_id (_decode_secret_id secret_id) = Some (k_id row) /\ named_id (_decode_agent_id recipient) = Some rid /\
    In row (agent_secrets (w_base w)) /\ k_tenant_id row = t /\
    (exists ag, In ag (agents (w_base w)) /\ a_id ag = rid /\ a_tenant_id ag = t) /\
    readable (w_base w') t rid (k_id row) = Some row /\
    access_of rid row = (if N.eqb (k_agent_id row) rid then "owner" else "shared").
Proof.
  intros Ht Hc Hok H Hst.
  destruct (create_grant_Ok t Ht ctx secret_id recipient w r w' Hc H Hst)
    as (row & g & ev & H1 & H2 & Hin & Hten & Hag & Hg1 & Hg2 & _ & _ & Eb).
  exists row, (sg_recipient g). do 5 (split; [done|]). split; [|done].
  rewrite Eb, readable_append_event. unfold readable, with_grant. cbn [tb_set agent_secret_grants_t agent_secrets].
  destruct (List.find _ (agent_secrets (w_base w))) as [k|] eqn:Ek.
  - apply List.find_some in Ek as [Hk Hid]. apply andb_true_iff in Hid as [Hid _]. apply N.eqb_eq in Hid.
    f_equal. by apply (secret_unique (w_base w)).
  - exfalso. pose proof (List.find_none _ _ Ek row Hin) as Hn. cbn beta in Hn. rewrite N.eqb_refl in Hn.
    unfold can_read in Hn. cbn [agent_secret_grants] in Hn.
    rewrite Hten, N.eqb_refl, existsb_app in Hn. cbn [existsb] in Hn.
    by rewrite Hg1, Hg2, !N.eqb_refl, !orb_true_r in Hn.
Qed.

(** A revoked grant no longer lets its recipient read.  After an accepted revocation of the
    grant [gid] the agent it named cannot read the secret, unless it owns it: the table has at most
    one grant per tenant, secret and recipient. *)
Theorem revoke_stops_reading t ctx secret_id grant_id w r w' g :
  (t < uuid_limit)%N -> uuid_opt_ok (ctx_operator_id <$> ctx) ->
  transaction (delete_agent_secret_grant ctx t secret_id grant_id) w = (Ok r, w') -> status_code r = 204%Z ->
  named_id (_decode_grant_id grant_id) = Some (sg_id g) ->
  named_id (_decode_secret_id secret_id) = Some (sg_secret_id g) ->
  In g (agent_secret_grants (w_base w)) -> sg_tenant_id g = t ->
  (forall g', In g' (agent_secret_grants (w_base w)) -> sg_tenant_id g' = t -> sg_secret_id g' = sg_secret_id g ->
     sg_recipient g' = sg_recipient g -> g' = g) ->
  forall row, readable (w_base w') t (sg_recipient g) (sg_secret_id g) = Some row ->
    k_agent_id row = sg_recipient g.
Proof.
  intros Ht Hc H Hst Hgid Hsid Hin Hten Hu row HR.
  destruct (delete_grant_Ok t Ht ctx secret_id grant_id w r w' Hc H Hst) as (sid & gid & d1 & H1 & H2 & _ & Ed & Eb).
  rewrite Hsid in H1. rewrite Hgid in H2. injection H1 as <-. injection H2 as <-.
  assert (HR1 : readable d1 t (sg_recipient g) (sg_secret_id g) = Some row).
  { destruct Eb as [Eb|(ev & _ & Eb)]; rewrite Eb in HR; [done|by rewrite readable_append_event in HR]. }
  apply List.find_some in HR1 as [_ HR1]. apply andb_true_iff in HR1 as [Hid HR1]. apply N.eqb_eq in Hid.
  unfold can_read in HR1. apply andb_true_iff in HR1 as [_ HR1]. apply orb_true_iff in HR1 as [HR1|HR1];
    [by apply N.eqb_eq in HR1|exfalso].
  apply existsb_exists in HR1 as (g' & Hg' & Hm). apply andb_true_iff in Hm as [Hm M3]. apply andb_true_iff in Hm as [M1 M2].
  apply N.eqb_eq in M1, M2, M3. rewrite Ed in Hg'. cbn [tb_set agent_secret_grants_t agent_secret_grants] in Hg'.
  apply filter_In in Hg' as [Hg' Hne]. rewrite (Hu g' Hg' M3 (eq_trans M1 Hid) M2) in Hne.
  by rewrite Hten, !N.eqb_refl in Hne.
Qed.

(** A deleted secret is gone for every reader.  When an operator's delete is accepted, or an
    agent's [secret_delete] answers 200, no agent of the tenant can read the secret any more, and
    the vault answers nothing for its identifier if there was a row; only the owner's
    [secret_delete] answers 200, and every other one changes nothing. *)
Theorem deleted_secret_gone t :
  (t < uuid_limit)%N ->
  (forall ctx secret_id w r w', uuid_opt_ok (ctx_operator_id <$> ctx) ->
     transaction (delete_agent_secret ctx t secret_id) w = (Ok r, w') -> status_code r = 204%Z ->
     exists s sid, _decode_secret_id secret_id = Ok s /\ bind_uuid s = Some sid /\
       (forall a, readable (w_base w') t a sid = None) /\
       ((exists k, In k (agent_secrets (w_base w)) /\ k_id k = sid /\ k_tenant_id k = t) ->
        vault_get (uuid_str t) s (w_vault w') = Ok None)) /\
  (forall a secret_id w r w', (a < uuid_limit)%N ->
     transaction (secret_delete (agent_ctx a t) secret_id) w = (Ok r, w') ->
     (r = _SECRET_NOT_FOUND_DELETE /\ w_base w' = w_base w /\ w_vault w' = w_vault w /\
      forall sid k, requested secret_id = Some sid -> In k (agent_secrets (w_base w)) ->
        k_id k = sid -> k_tenant_id k = t -> k_agent_id k <> a) \/
     (r = JSONResponse 200 [] /\ exists s sid, decode_sec secret_id = Ok (Some s) /\ bind_uuid s = Some sid /\
        (exists k, In k (agent_secrets (w_base w)) /\ k_id k = sid /\ k_tenant_id k = t /\ k_agent_id k = a) /\
        (forall b, readable (w_base w') t b sid = None) /\
        vault_get (uuid_str t) s (w_vault w') = Ok None)).
Proof.
  intros Ht. split.
  - intros ctx secret_id w r w' Hc H Hst.
    destruct (delete_secret_Ok t Ht ctx secret_id w r w' Hc H Hst) as (s & sid & Hs & Hsid & Hv & Eb).
    exists s, sid. do 2 (split; [done|]). split.
    + intros a. destruct Eb as [->|(ev & _ & ->)]; [|rewrite readable_append_event]; apply readable_without.
    + intros (k & Hk & E1 & E2). destruct (List.find _ _) as [row|] eqn:Er; [done|].
      pose proof (List.find_none _ _ Er k Hk) as Hn. cbn beta in Hn. by rewrite E1, E2, !N.eqb_refl in Hn.
  - intros a secret_id w r w' Ha H.
    destruct (secret_delete_Ok t Ht a secret_id w r w' Ha H)
      as [?|(s & sid & row & ev & Hs & Hsid & Hin & E1 & E2 & E3 & -> & Hv & _ & Eb)]; [by left|right].
    split; [done|]. exists s, sid. do 2 (split; [done|]). split; [by exists row|]. split; [|done].
    intros b. rewrite Eb, readable_append_event. apply readable_without.
Qed.

(** the session gate of the secret endpoints.  Without failures of the database, a request
    whose cookie does not name an unexpired session of the tenant or of a platform administrator
    ends in an exception before any handler runs: neither the committed data nor the vault
    changes. *)
Theorem secrets_router_gate cookie t rq w :
  no_faults -> pg_uuid_in nil_uuid_text = Some 0%N -> sessions_wf (w_base w) ->
  cookie_allows cookie (may_access (w_base w) (session_now w) t) = false ->
  exists e w', secrets_router cookie t rq w = (Raise e, w') /\ w_base w' = w_base w /\ w_vault w' = w_vault w.
Proof.
  intros Hnf Hnil Hwf Hc.
  destruct (require_tenant_session_run Hnf Hnil cookie t w Hwf) as (w1 & o1 & E1 & B1 & V1 & H1).
  unfold secrets_router, bind at 1. rewrite E1. destruct o1 as [[]|e]; [|by exists e, w1].
  rewrite (proj1 H1 eq_refl) in Hc. discriminate.
Qed.
End Properties.

(** ** Witnesses *)

Section Witnesses.
#[local] Existing Instance demo_env.
#[local] Existing Instance demo_vault.
#[local] Existing Instance toy_sha256.
#[local] Existing Instance demo_exc.

Abbreviation demo_ctx := (Some (SessionCtx 2 1)).

Lemma demo_ctx_ok : uuid_opt_ok (ctx_operator_id <$> demo_ctx).
Proof. apply uuid_opt_some. reflexivity. Qed.

Lemma grant_lets_read_witness :
  exists w' row rid, readable (w_base w') 1 rid (k_id row) = Some row.
Proof.
  destruct (run_returns (transaction (create_agent_secret_grant demo_ctx 1 (wire 11 "sec") (uuid_str 6)))
    (fun r => Z.eqb (status_code r) 201) demo_world) as (r & Hr & E1); [vm_compute; reflexivity|].
  apply Z.eqb_eq in Hr.
  destruct (grant_lets_read 1 demo_ctx (wire 11 "sec") (uuid_str 6) demo_world r _ eq_refl demo_ctx_ok
    demo_secrets_ok E1 Hr) as (row & rid & _ & _ & _ & _ & _ & H & _).
  eexists _, row, rid. exact H.
Defined.

Lemma revoke_stops_reading_witness :
  exists w', forall row, readable (w_base w') 1 7 10 = Some row -> k_agent_id row = 7%N.
Proof.
  destruct (run_returns (transaction (delete_agent_secret_grant demo_ctx 1 (uuid_str 10) (uuid_str 12)))
    (fun r => Z.eqb (status_code r) 204) demo_world) as (r & Hr & E1); [vm_compute; reflexivity|].
  apply Z.eqb_eq in Hr. eexists.
  refine (revoke_stops_reading 1 demo_ctx (uuid_str 10) (uuid_str 12) demo_world r _
    (SecretGrantRow 12 1 10 7 2 1700000000000000) eq_refl demo_ctx_ok E1 Hr _ _ _ eq_refl _).
  - vm_compute. reflexivity.
  - vm_compute. reflexivity.
  - by left.
  - intros g' [<-|[]] _ _ _. reflexivity.
Defined.

Lemma deleted_secret_gone_witness :
  exists r w', transaction (delete_agent_secret demo_ctx 1 (uuid_str 10)) demo_world = (Ok r, w') /\
    exists s sid, _decode_secret_id (uuid_str 10) = Ok s /\ bind_uuid s = Some sid /\
      forall a, readable (w_base w') 1 a sid = None.
Proof.
  destruct (run_returns (transaction (delete_agent_secret demo_ctx 1 (uuid_str 10)))
    (fun r => Z.eqb (status_code r) 204) demo_world) as (r & Hr & E1); [vm_compute; reflexivity|].
  apply Z.eqb_eq in Hr. exists r. eexists. split; [exact E1|].
  destruct (proj1 (deleted_secret_gone 1 eq_refl) demo_ctx (uuid_str 10) demo_world r _ demo_ctx_ok E1 Hr)
    as (s & sid & H1 & H2 & H3 & _).
  exists s, sid. split; [exact H1|]. split; [exact H2|exact H3].
Defined.

Lemma secrets_router_gate_witness :
  exists e w', secrets_router None 1 (GetSecret (uuid_str 10)) demo_world = (Raise e, w') /\
    w_base w' = w_base demo_world /\ w_vault w' = w_vault demo_world.
Proof.
  refine (secrets_router_gate None 1 (GetSecret (uuid_str 10)) demo_world demo_no_faults demo_nil demo_sessions_wf _).
  reflexivity.
Defined.

(** the check against a grant to the owner compares texts.  A bare UUID in upper case is the
    same agent to the database and another text to the check: the grant to the owner is accepted. *)
Theorem grant_to_owner_accepted :
  let owner := "00000000-0000-0000-0000-0000000000AB" in
  let run := transaction (create_agent_secret_grant demo_ctx 1 (wire 11 "sec") owner) demo_world in
  returns (fun r => Z.eqb (status_code r) 201) (fst run) = true /\
  existsb (fun g => existsb (fun k => N.eqb (k_id k) (sg_secret_id g) && N.eqb (k_agent_id k) (sg_recipient g))
                      (agent_secrets (w_base (snd run)))) (agent_secret_grants (w_base (snd run))) = true.
Proof. vm_compute. done. Qed.
End Witnesses.

(** ** Pages fetched with one extra row *)

Section Pages.
Context {R : Type} (key : R -> uuid) (prefix : string).

Lemma page_of_fetch limit (l : list R) : (1 <= limit)%Z ->
  page_of limit (fetch_page limit key l) = take (Z.to_nat limit) (order_by key l).
Proof. intros H. unfold page_of, fetch_page. rewrite take_take. f_equal. lia. Qed.

(** A page, the rest, and the cursor between them. *)
Lemma pages_cover limit (l : list R) :
  (1 <= limit)%Z -> List.NoDup (map key l) ->
  exists rest, order_by key l = (page_of limit (fetch_page limit key l) ++ rest)%list /\
    ((next_cursor limit key prefix (fetch_page limit key l) = JNull /\ rest = []) \/
     exists x, last (page_of limit (fetch_page limit key l)) = Some x /\
       next_cursor limit key prefix (fetch_page limit key l) = JStr (wire (key x) prefix) /\
       rest = List.filter (is_after key (key x)) (order_by key l)).
Proof.
  intros Hl Hn. rewrite page_of_fetch by done. set (n := Z.to_nat limit). exists (drop n (order_by key l)).
  rewrite take_drop. split; [done|]. unfold next_cursor. rewrite page_of_fetch by done. fold n.
  assert (Hs : StronglySorted (key_lt key) (order_by key l)).
  { apply sorted_strict; [apply order_by_sorted|].
    eapply Permutation_NoDup; [apply Permutation_map; symmetry; apply order_by_perm|done]. }
  unfold fetch_page. rewrite length_take.
  destruct (Z.ltb_spec limit (Z.of_nat (Z.to_nat (limit + 1) `min` length (order_by key l)))) as [Hlt|Hge].
  - right. assert (Hlen : (n < length (order_by key l))%nat) by lia.
    destruct (last (take n (order_by key l))) as [x|] eqn:Ex.
    + exists x. split; [done|]. split; [done|]. symmetry. by apply after_page.
    + apply last_None in Ex. apply (f_equal length) in Ex. rewrite length_take in Ex. cbn [length] in Ex. lia.
  - left. split; [done|]. apply drop_ge. lia.
Qed.

Lemma NoDup_key_filter (f : R -> bool) l : List.NoDup (map key l) -> List.NoDup (map key (List.filter f l)).
Proof. apply NoDup_map_filter. Qed.
End Pages.

(** ** The operator's list *)

Section Operator.
Context `{E : Env} `{V : Vault} `{Sha : Sha256}.

(** The tenant's secrets after a cursor, in the order of their identifiers. *)
Definition listed (d : db) (t : uuid) (after : option uuid) : list secret_row :=
  order_by k_id (List.filter (fun k => N.eqb (k_tenant_id k) t &&
    match after with Some u => N.ltb u (k_id k) | None => true end) (agent_secrets d)).

Lemma listed_after d t after x : In x (listed d t after) ->
  List.filter (is_after k_id (k_id x)) (listed d t after) = listed d t (Some (k_id x)).
Proof.
  intros Hx. unfold listed in *. rewrite filter_order_by, filter_filter. f_equal. apply filter_ext. intros k.
  apply (Permutation_in _ (order_by_perm _ _)), List.filter_In in Hx as [_ Hx]. unfold is_after.
  destruct after as [u|]; [|by rewrite andb_true_r, andb_comm].
  apply andb_true_iff in Hx as [_ Hx]. apply N.ltb_lt in Hx.
  destruct (N.ltb_spec (k_id x) (k_id k)); [|by rewrite andb_false_r].
  rewrite (proj2 (N.ltb_lt u (k_id k))) by lia. done.
Qed.

Lemma clamp_bounds limit : (1 <= clamp_limit limit <= 200)%Z.
Proof.
  unfold clamp_limit. destruct (Z.ltb_spec limit 1); [|destruct (Z.ltb_spec 200 limit)]; cbn; lia.
Qed.

(** the operator's pages.  Any [limit] is brought to 1..200; an answered page and the listing
    from its [next_cursor] are together the whole listing of the tenant's secrets after the given
    cursor, in the order of the identifiers, and a null cursor means that nothing is left. *)
Theorem list_agent_secrets_pages t after limit w r w' :
  (t < uuid_limit)%N -> secrets_ok (w_base w) ->
  transaction (list_agent_secrets t after limit) w = (Ok r, w') -> status_code r = 200%Z ->
  exists from page rest cursor,
    (forall s, after = Some s -> exists u, named_id (_decode_secret_id s) = Some u /\ from = Some u) /\
    listed (w_base w) t from = (page ++ rest)%list /\ (length page <= 200)%nat /\
    r = JSONResponse 200 [("data", JArr (map (fun r => JObj (_secret_row_to_dict r)) page)); ("next_cursor", cursor)] /\
    ((cursor = JNull /\ rest = []) \/
     exists x, last page = Some x /\ cursor = JStr (wire (k_id x) "sec") /\
       rest = listed (w_base w) t (Some (k_id x))).
Proof.
  intros Ht Hok H Hst. apply transaction_Ok in H as (w1 & H & _). unfold list_agent_secrets in H.
  step H as u w2 Hr. apply set_tenant_start in Hr as (T2 & B2 & D2 & V2); [|done..].
  pose proof (clamp_bounds limit) as Hb. set (n := clamp_limit limit) in *.
  assert (Hans : forall from w3 w4, in_tenant t w3 -> w_db w3 = w_base w ->
    (let! rows := select agent_secrets_t (fun k => N.eqb (k_tenant_id k) t &&
       match from with Some u => N.ltb u (k_id k) | None => true end) in
     ret (JSONResponse 200
      [("data", JArr (map (fun r => JObj (_secret_row_to_dict r)) (page_of n (fetch_page n k_id rows))));
       ("next_cursor", next_cursor n k_id "sec" (fetch_page n k_id rows))])) w3 = (Ok r, w4) ->
    exists page rest cursor, listed (w_base w) t from = (page ++ rest)%list /\ (length page <= 200)%nat /\
      r = JSONResponse 200 [("data", JArr (map (fun r => JObj (_secret_row_to_dict r)) page)); ("next_cursor", cursor)] /\
      ((cursor = JNull /\ rest = []) \/
       exists x, last page = Some x /\ cursor = JStr (wire (k_id x) "sec") /\
         rest = listed (w_base w) t (Some (k_id x)))).
  { intros from w3 w4 T3 D3 Hs. step Hs as rows w5 Hr. apply select_eff in Hr as (_ & _ & _ & pol & Hp & ->).
    rewrite (it_policy _ _ T3) in Hp. apply Ok_inj in Hp. subst pol. rewrite D3 in Hs.
    set (rows := List.filter _ _) in Hs. apply ret_Ok in Hs as [-> _].
    assert (Erows : order_by k_id rows = listed (w_base w) t from).
    { unfold rows, listed. f_equal. apply filter_ext. intros k. cbn [sees tb_tenant agent_secrets_t tb_get].
      by destruct (N.eqb (k_tenant_id k) t). }
    destruct (pages_cover k_id "sec" n rows) as (rest & E1 & Hc); [lia|apply NoDup_map_filter, Hok|].
    rewrite Erows in E1, Hc. exists (page_of n (fetch_page n k_id rows)), rest, (next_cursor n k_id "sec" (fetch_page n k_id rows)).
    split; [done|]. split; [unfold page_of; rewrite length_take; lia|]. split; [done|].
    destruct Hc as [Hc|(x & Hx & Hcur & Hrest)]; [by left|right]. exists x. do 2 (split; [done|]).
    rewrite Hrest. apply listed_after. rewrite E1. apply in_or_app. left.
    apply last_Some in Hx as [pre ->]. apply in_or_app. right. by left. }
  destruct after as [s|].
  - apply try_value_Ok in H as [H|(s' & Hs & H)]; [apply ret_Ok in H as [-> _]; discriminate|].
    rewrite bound_str, bind_ret in H by done. step H as id w3 Hr. apply bound_Ok in Hr as [Hid ->].
    destruct (Hans (Some id) w2 w1 T2 D2 H) as (page & rest & cursor & ?). exists (Some id), page, rest, cursor.
    split; [|done]. intros ? [= <-]. exists id. by rewrite Hs.
  - rewrite bound_str, bind_ret in H by done.
    destruct (Hans None w2 w1 T2 D2 H) as (page & rest & cursor & ?). by exists None, page, rest, cursor.
Qed.
End Operator.

(** ** The agent's list *)

Section Agent.
Context `{E : Env} `{V : Vault} `{Sha : Sha256}.

(** What the union query returns to agent [a] of tenant [t], in the order of the identifiers. *)
Definition shown (d : db) (t a : uuid) (after : option uuid) : list (secret_row * string) :=
  order_by (fun r => k_id (fst r)) (owned_and_shared (fun r => N.eqb r t || false) d t a after).

Abbreviation pair_id := (fun r : secret_row * string => k_id (fst r)).

Lemma filter_map {A B} (f : B -> bool) (g : A -> B) l :
  List.filter f (map g l) = map g (List.filter (fun x => f (g x)) l).
Proof. induction l as [|x l IH]; [done|]. cbn [map List.filter]. rewrite IH. by destruct (f (g x)). Qed.

Lemma owned_and_shared_filter pol d t a after u :
  match after with Some v => (v < u)%N | None => True end ->
  List.filter (is_after pair_id u) (owned_and_shared pol d t a after) = owned_and_shared pol d t a (Some u).
Proof.
  intros Hu. assert (Hlater : forall s, is_after k_id u s &&
      match after with Some v => N.ltb v (k_id s) | None => true end = N.ltb u (k_id s)).
  { intros s. unfold is_after. destruct (N.ltb_spec u (k_id s)); [|done]. destruct after as [v|]; [|done].
    cbn [andb]. apply N.ltb_lt. lia. }
  unfold owned_and_shared. rewrite List.filter_app, !filter_map, !filter_filter. f_equal; f_equal.
  - apply filter_ext. intros s. rewrite <- (Hlater s).
    change (is_after pair_id u (s, "owner")) with (is_after k_id u s).
    by destruct (N.eqb (k_agent_id s) a), (N.eqb (k_tenant_id s) t), (is_after k_id u s).
  - apply filter_ext. intros [s g]. rewrite <- (Hlater s).
    change (is_after pair_id u (s, "shared")) with (is_after k_id u s).
    by destruct (N.eqb (sg_secret_id g) (k_id s)), (N.eqb (sg_recipient g) a), (N.eqb (sg_tenant_id g) t),
      (is_after k_id u s).
Qed.

Lemma shown_after_Some pol d t a after x :
  In x (owned_and_shared pol d t a after) -> match after with Some v => (v < pair_id x)%N | None => True end.
Proof.
  intros Hx. destruct after as [v|]; [|done]. unfold owned_and_shared in Hx.
  apply in_app_or in Hx as [Hx|Hx]; apply in_map_iff in Hx as (y & <- & Hy); apply filter_In in Hy as [_ Hy].
  - cbn [fst]. apply andb_true_iff in Hy as [_ Hy]. by apply N.ltb_lt.
  - destruct y as [s g]. cbn [fst]. apply andb_true_iff in Hy as [_ Hy]. apply andb_true_iff in Hy as [_ Hy].
    by apply N.ltb_lt.
Qed.

Lemma shown_after d t a after x : In x (shown d t a after) ->
  List.filter (is_after pair_id (pair_id x)) (shown d t a after) = shown d t a (Some (pair_id x)).
Proof.
  intros Hx. unfold shown in *. rewrite filter_order_by. f_equal. apply owned_and_shared_filter.
  apply (Permutation_in _ (order_by_perm _ _)) in Hx. by apply shown_after_Some in Hx.
Qed.

(** The list shows the readable secrets. *)
Lemma shown_readable d t a row :
  (exists access, In (row, access) (shown d t a None)) <-> In row (agent_secrets d) /\ can_read d t a row = true.
Proof.
  assert (Hp : forall x, In x (shown d t a None) <-> In x (owned_and_shared (fun r => N.eqb r t || false) d t a None)).
  { intros x. unfold shown. split; apply Permutation_in; [|symmetry]; apply order_by_perm. }
  unfold owned_and_shared, visible in Hp. unfold can_read. split.
  - intros (access & Hx). apply Hp, in_app_or in Hx as [Hx|Hx]; apply in_map_iff in Hx as (y & E1 & Hy);
      apply filter_In in Hy as [Hin Hy].
    + injection E1 as -> _. apply filter_In in Hin as [Hin _]. split; [done|]. rewrite andb_true_r in Hy.
      apply andb_true_iff in Hy as [-> ->]. done.
    + destruct y as [s g]. injection E1 as -> _. apply in_prod_iff in Hin as [Hs Hg].
      apply filter_In in Hs as [Hs Hst]. apply filter_In in Hg as [Hg _]. split; [done|].
      cbn [sees tb_tenant agent_secrets_t] in Hst. rewrite orb_false_r in Hst. rewrite Hst, andb_true_r in *.
      cbn [andb]. apply orb_true_iff. right. apply existsb_exists. exists g. split; [done|].
      rewrite <- andb_assoc. done.
  - intros [Hin Hr]. apply andb_true_iff in Hr as [Ht Hr].
    assert (Hv : In row (List.filter (sees agent_secrets_t (fun r => N.eqb r t || false)) (tb_get agent_secrets_t d))).
    { apply filter_In. split; [done|]. cbn [sees tb_tenant agent_secrets_t]. by rewrite Ht. }
    apply orb_true_iff in Hr as [Hr|Hr].
    + exists "owner". apply Hp, in_or_app. left. apply in_map_iff. exists row. split; [done|].
      apply filter_In. split; [done|]. by rewrite Hr, Ht.
    + apply existsb_exists in Hr as (g & Hg & Hm). exists "shared". apply Hp, in_or_app. right. apply in_map_iff.
      exists (row, g). split; [done|]. rewrite <- andb_assoc in Hm. apply andb_true_iff in Hm as [M1 M2].
      apply filter_In. split; [|by rewrite M1, M2]. apply in_prod_iff. split; [done|]. apply filter_In.
      split; [done|]. cbn [sees tb_tenant agent_secret_grants_t]. apply andb_true_iff in M2 as [_ M2]. by rewrite M2.
Qed.

(** The agent's pages.  [secret_list] shows exactly the secrets that [secret_get] can read; a
    page and the listing from its [next_cursor] are together the whole listing after the given
    cursor, in the order of the identifiers, and a null cursor means that nothing is left, provided
    no secret is shown twice (an agent that owns a secret is not also granted it). *)
Theorem secret_list_pages t a after limit w r w' :
  (t < uuid_limit)%N -> (a < uuid_limit)%N -> (1 <= limit <= 200)%Z ->
  (forall from, List.NoDup (map (fun x => k_id (fst x)) (shown (w_base w) t a from))) ->
  transaction (secret_list (agent_ctx a t) after limit) w = (Ok r, w') -> status_code r = 200%Z ->
  (forall row, (exists access, In (row, access) (shown (w_base w) t a None)) <->
               In row (agent_secrets (w_base w)) /\ can_read (w_base w) t a row = true) /\
  exists from page rest cursor,
    (forall s, after = Some s -> exists u, requested s = Some u /\ from = Some u) /\
    shown (w_base w) t a from = (page ++ rest)%list /\
    r = JSONResponse 200 [("secrets", JArr (map secret_item page)); ("next_cursor", cursor)] /\
    ((cursor = JNull /\ rest = []) \/
     exists x, last page = Some x /\ cursor = JStr (wire (k_id (fst x)) "sec") /\
       rest = shown (w_base w) t a (Some (k_id (fst x)))).
Proof.
  intros Ht Ha Hl Hn H Hst. split; [by intros row; apply shown_readable|].
  apply transaction_Ok in H as (w1 & H & _). unfold secret_list, agent_ctx in H.
  assert (Hans : forall o w4,
    (do! set_tenant_context (uuid_str t) false in
     let! aid := bound (uuid_str a) in
     let! tid := bound (uuid_str t) in
     let! lafter := bound_opt o in
     let! rows := query (fun pol d => owned_and_shared pol d tid aid lafter) in
     ret (JSONResponse 200
      [("secrets", JArr (map secret_item (page_of limit (fetch_page limit pair_id rows))));
       ("next_cursor", next_cursor limit pair_id "sec" (fetch_page limit pair_id rows))])) (begin w) = (Ok r, w4) ->
    exists from page rest cursor, same_target o from /\ shown (w_base w) t a from = (page ++ rest)%list /\
      r = JSONResponse 200 [("secrets", JArr (map secret_item page)); ("next_cursor", cursor)] /\
      ((cursor = JNull /\ rest = []) \/
       exists x, last page = Some x /\ cursor = JStr (wire (pair_id x) "sec") /\
         rest = shown (w_base w) t a (Some (pair_id x)))).
  { intros o w4 Hs. step Hs as u w2 Hr. apply set_tenant_start in Hr as (T2 & B2 & D2 & V2); [|done..].
    rewrite bound_str, bind_ret, bound_str, bind_ret in Hs by done.
    step Hs as from w5 Hr. apply bound_opt_Ok in Hr as [-> Hfrom].
    step Hs as rows w5 Hr. apply query_eff in Hr as (_ & _ & _ & pol & Hp & ->).
    rewrite (it_policy _ _ T2) in Hp. apply Ok_inj in Hp. subst pol. rewrite D2 in Hs. cbn [w_db begin] in Hs.
    set (rows := owned_and_shared _ _ _ _ _) in Hs. apply ret_Ok in Hs as [-> _].
    assert (Hnd : List.NoDup (map pair_id rows)).
    { eapply Permutation_NoDup; [|apply (Hn from)]. apply Permutation_map, order_by_perm. }
    destruct (pages_cover pair_id "sec" limit rows) as (rest & E1 & Hc); [lia|done|].
    change (order_by pair_id rows) with (shown (w_base w) t a from) in E1, Hc.
    exists from, (page_of limit (fetch_page limit pair_id rows)), rest, (next_cursor limit pair_id "sec" (fetch_page limit pair_id rows)).
    do 3 (split; [done|]). destruct Hc as [Hc|(x & Hx & Hcur & Hrest)]; [by left|right]. exists x.
    do 2 (split; [done|]). rewrite Hrest. apply shown_after. rewrite E1. apply in_or_app. left.
    apply last_Some in Hx as [pre ->]. apply in_or_app. right. by left. }
  destruct after as [s|].
  - destruct (startswith s "sec_"); [|apply ret_Ok in H as [-> _]; discriminate].
    step H as dec w2 Hr. apply lift_Ok in Hr as [Hdec ->].
    destruct dec as [s'|]; [|apply ret_Ok in H as [-> _]; discriminate].
    destruct (Hans (Some s') w1 H) as (from & page & rest & cursor & Hfrom & Hrest). exists from, page, rest, cursor.
    split; [|done]. intros ? [= <-]. unfold requested. rewrite Hdec. destruct from as [u|]; [|done].
    exists u. split; [exact Hfrom|done].
  - destruct (Hans None w1 H) as (from & page & rest & cursor & Hfrom & Hrest). by exists from, page, rest, cursor.
Qed.
End Agent.

(** ** Witnesses *)

Section Witnesses.
#[local] Existing Instance demo_env.
#[local] Existing Instance demo_vault.
#[local] Existing Instance toy_sha256.

Lemma list_agent_secrets_pages_witness :
  exists r w', transaction (list_agent_secrets 1 None 1) demo_world = (Ok r, w') /\
    exists from page rest, listed (w_base demo_world) 1 from = (page ++ rest)%list.
Proof.
  destruct (run_returns (transaction (list_agent_secrets 1 None 1))
    (fun r => Z.eqb (status_code r) 200) demo_world) as (r & Hr & E1); [vm_compute; reflexivity|].
  apply Z.eqb_eq in Hr. exists r. eexists. split; [exact E1|].
  destruct (list_agent_secrets_pages 1 None 1 demo_world r _ eq_refl demo_secrets_ok E1 Hr)
    as (from & page & rest & cursor & _ & H & _).
  exists from, page, rest. exact H.
Defined.

Lemma demo_shown_once from : List.NoDup (map (fun x => k_id (fst x)) (shown (w_base demo_world) 1 6 from)).
Proof.
  unfold shown. eapply Permutation_NoDup; [apply Permutation_map; symmetry; apply order_by_perm|].
  unfold owned_and_shared, visible. cbn.
  destruct (match from with Some u => _ | None => _ end); repeat constructor; cbn; auto.
Qed.

Lemma secret_list_pages_witness :
  exists r w', transaction (secret_list (agent_ctx 6 1) None 50) demo_world = (Ok r, w') /\
    exists from page rest, shown (w_base demo_world) 1 6 from = (page ++ rest)%list.
Proof.
  destruct (run_returns (transaction (secret_list (agent_ctx 6 1) None 50))
    (fun r => Z.eqb (status_code r) 200) demo_world) as (r & Hr & E1); [vm_compute; reflexivity|].
  apply Z.eqb_eq in Hr. exists r. eexists. split; [exact E1|].
  destruct (secret_list_pages 1 6 None 50 demo_world r _ eq_refl eq_refl ltac:(lia) demo_shown_once E1 Hr)
    as (_ & from & page & rest & cursor & _ & H & _).
  exists from, page, rest. exact H.
Defined.
End Witnesses.
