(* ===== verification/Permissions.v ===== *)
(** * Permission grants (admin_api/api/permissions.py)

    The grants of an agent on the actions of a service, their closed
    constraint schema, and the budget counters kept for a grant.  A column
    selected through the typed Table API is decoded by SQLAlchemy; a jsonb
    column of a raw query comes as the driver returns it ([from_jsonb]). *)

From S2P Require Import Prelude PyStr PyJson PyJsonFacts PyTime Periods PyText WireIds AuditHash AuditChain Constraints.
From S2P Require Import Like Vault Tables Database Logic Ulid AuditEmit AgentSecrets.

Local Open Scope string_scope.
Local Open Scope py_scope.

(** ** The request models *)

Record RateLimitConstraint := MkRateLimit { rl_requests_per_second : Z; rl_burst : Z }.
Record TimeWindowConstraint := MkTimeWindow {
  tw_timezone : string; tw_days : list string; tw_start_local : string; tw_end_local : string }.

(** [cs_budget_set]: is [budget] in [model_fields_set]? *)
Record Constraints := MkConstraints {
  cs_rate_limit : option RateLimitConstraint; cs_time_window : option TimeWindowConstraint;
  cs_request_path_prefix : option string; cs_source_ip_allowlist : option (list string);
  cs_budget : option BudgetConfig; cs_budget_set : bool }.

Record PermissionGrantRequest := MkPermissionGrantRequest {
  pg_service_id : string; pg_action : string; pg_constraints : option Constraints; pg_granted_by : option string }.

(** [model_dump(exclude_none=True)] *)
Definition dump_field {A} (name : string) (f : A -> json) (o : option A) : dict :=
  match o with Some a => [(name, f a)] | None => [] end.

Definition model_dump (c : Constraints) : dict :=
  (dump_field "rate_limit" (fun r => JObj [("requests_per_second", JInt (rl_requests_per_second r));
                                           ("burst", JInt (rl_burst r))]) (cs_rate_limit c)
   ++ dump_field "time_window" (fun w => JObj [("timezone", JStr (tw_timezone w));
                                               ("days", JArr (map JStr (tw_days w)));
                                               ("start_local", JStr (tw_start_local w));
                                               ("end_local", JStr (tw_end_local w))]) (cs_time_window c)
   ++ dump_field "request_path_prefix" (fun p => JObj [("prefix", JStr p)]) (cs_request_path_prefix c)
   ++ dump_field "source_ip_allowlist" (fun l => JObj [("cidrs", JArr (map JStr l))]) (cs_source_ip_allowlist c)
   ++ dump_field "budget" budget_dump (cs_budget c))%list.

(** Python's [==] on JSON values: the order of keys does not matter, and [True == 1]. *)
Fixpoint unbool (j : json) : json :=
  match j with
  | JBool b => JInt (if b then 1 else 0)
  | JArr l => JArr (map unbool l)
  | JObj kvs => JObj (map (fun kv => match kv with (k, v) => (k, unbool v) end) kvs)
  | _ => j
  end.
Definition py_eq (a b : json) : bool := bool_decide (norm true (unbool a) = norm true (unbool b)).

(** ** Helpers *)

Definition title (status : Z) (t : string) : response := JSONResponse status [("title", JStr t)].

(** [json.loads(s)] *)
Definition json_loads (s : string) : outcome json :=
  match loads s with Some j => Ok j | None => Raise (ValueError "JSONDecodeError") end.

(** The [constraints] of a row: a dict, a text to parse, or nothing ([dflt]). *)
Definition parse_constraints (dflt : json) (raw : json) : outcome json :=
  match raw with
  | JStr s => json_loads s
  | JNull => Ok dflt
  | j => Ok j
  end.

(** [c if isinstance(c, dict) else (json.loads(c) if c else dflt)] *)
Definition constraints_json (dflt : json) (raw : json) : outcome json :=
  match raw with
  | JObj d => Ok (JObj d)
  | j => if truthy j then match j with
                          | JStr s => json_loads s
                          | _ => Raise (TypeError "the JSON object must be str")
                          end
         else Ok dflt
  end.

(** [exc_text e []] stands for [str(exc)]; the handler's own exceptions carry their text. *)
Definition exc_str `{ExcText} (e : exn) : string :=
  match e with RuntimeError s => s | e => exc_text e [] end.

Section Permissions.
Context `{E : Env} `{V : Vault} `{Sha : Sha256} `{X : ExcText}.

(** An int bound to an INTEGER column. *)
Definition bound_int4 (j : json) : M Z :=
  match j with
  | JInt z => if ((- 2 ^ 31 <=? z) && (z <? 2 ^ 31))%Z then ret z else raise (DBError "value out of int32 range")
  | _ => raise (DBError "an integer is required")
  end.

(** The event [service.registered] whose payload names the wire identifier. *)
Definition registered_as (svc_wire : string) (e : audit_row) : bool :=
  String.eqb (e_event_type e) "service.registered" &&
  match e_payload e with
  | JObj p => match dict_get "svc_id" p with Some (JStr s) => String.eqb s svc_wire | _ => false end
  | _ => false
  end.

Definition _resolve_service_uuid (tenant_id : uuid) (svc_input : string) : M string :=
  if negb (startswith svc_input "svc_") then ret svc_input
  else
    match Admin._wire_id_to_uuid svc_input "svc_" with
    | Raise (ValueError _) => raise (RuntimeError "invalid_service_id")
    | Raise e => raise e
    | Ok decoded_uuid =>
        let! sid := bound decoded_uuid in
        let! tid := bound (uuid_str tenant_id) in
        let! exists_ := select services_t (fun s => N.eqb (s_id s) sid && N.eqb (s_tenant_id s) tid) in
        match fetchone exists_ with
        | Some _ => ret decoded_uuid
        | None =>
            let! tid := bound (uuid_str tenant_id) in
            let! rows := select audit_events_t (fun e => N.eqb (e_tenant_id e) tid && registered_as svc_input e) in
            match fetchone rows with
            | None => raise (RuntimeError "not_found")
            | Some row => ret (match e_target_id row with Some u => uuid_str u | None => "None" end)
            end
        end
    end.

(** A row of a listing. *)
Definition grant_json (row : grant_row) (constraints : json) : dict :=
  [("id", JStr (wire (g_id row) "perm")); ("tenant_id", JStr (uuid_str (g_tenant_id row)));
   ("agent_id", JStr (wire (g_agent_id row) "agent")); ("service_id", JStr (wire (g_service_id row) "svc"));
   ("action", JStr (g_action row)); ("constraints", constraints);
   ("created_at", JStr (isoformat_utc (g_created_at row))); ("created_by", JStr (uuid_str (g_created_by row)))].

Definition by_created_at : list grant_row -> list grant_row :=
  sort_by (fun a b => Z.leb (g_created_at a) (g_created_at b)).

Definition list_permissions (tenant_id : uuid) (agent_id : string) (service_id : option string) : M response :=
  try_value (Admin._wire_id_to_uuid agent_id "agent_")
    (ret (problem 422 "invalid_id" "Invalid agent_id")) (fun agent_uuid =>
  do! set_tenant_context (uuid_str tenant_id) false in
  let! svc_uuid_val := match service_id with
                       | Some s => let! u := lift (Admin.wire_to_db_uuid s "svc") in ret (Some u)
                       | None => ret None
                       end in
  let! aid := bound agent_uuid in
  let! tid := bound (uuid_str tenant_id) in
  let! sid := bound_opt svc_uuid_val in
  let! rows := select permission_grants_t (fun g => N.eqb (g_agent_id g) aid && N.eqb (g_tenant_id g) tid
    && match sid with Some s => N.eqb (g_service_id g) s | None => true end) in
  let! grants := lift (mapM_out (fun row =>
    c ← constraints_json JNull (from_jsonb (g_constraints row)); Ok (JObj (grant_json row c))) (by_created_at rows)) in
  ret (JSONResponse 200 [("grants", JArr grants)])).

(** The rows of the two outer joins. *)
Definition joined (pol : uuid -> bool) (d : db) (g : grant_row) : list (grant_row * option service_row * option agent_row) :=
  let left {R} (rows : list R) : list (option R) := match rows with [] => [None] | _ => map Some rows end in
  let ss := left (List.filter (fun s => N.eqb (s_id s) (g_service_id g) && N.eqb (s_tenant_id s) (g_tenant_id g))
                    (visible services_t pol d)) in
  let aa := left (List.filter (fun a => N.eqb (a_id a) (g_agent_id g) && N.eqb (a_tenant_id a) (g_tenant_id g))
                    (visible agents_t pol d)) in
  flat_map (fun s => map (fun a => (g, s, a)) aa) ss.

Definition list_tenant_permissions (tenant_id : uuid) (service_id agent_id q : option string) : M response :=
  do! set_tenant_context (uuid_str tenant_id) false in
  let run (agent_uuid : option string) : M response :=
    let! svc_uuid := match service_id with
                     | Some s => let! u := lift (Admin.wire_to_db_uuid s "svc") in ret (Some u)
                     | None => ret None
                     end in
    let! tid := bound (uuid_str tenant_id) in
    let! aid := bound_opt agent_uuid in
    let! sid := bound_opt svc_uuid in
    let search := match q with Some q => if String.eqb (py_strip q) "" then None else Some (py_strip q) | None => None end in
    let! rows := query (fun pol d => flat_map (joined pol d) (by_created_at (List.filter (fun g =>
        N.eqb (g_tenant_id g) tid
        && match aid with Some a => N.eqb (g_agent_id g) a | None => true end
        && match sid with Some s => N.eqb (g_service_id g) s | None => true end
        && match search with Some s => ilike env_fold (search_pattern s) (g_action g) | None => true end)
      (visible permission_grants_t pol d)))) in
    let! permissions := lift (mapM_out (fun '(row, s, a) =>
      c ← constraints_json JNull (g_constraints row);
      Ok (JObj (grant_json row c ++
        [("service_name", json_opt (fun s => JStr (s_name s)) s); ("service_slug", json_opt (fun s => JStr (s_slug s)) s);
         ("agent_name", json_opt (fun a => JStr (a_name a)) a)])%list)) rows) in
    ret (JSONResponse 200 [("permissions", JArr permissions)]) in
  match agent_id with
  | None => run None
  | Some agent_id =>
      try_value (Admin._wire_id_to_uuid agent_id "agent_")
        (ret (problem 422 "invalid_id" "Invalid agent_id")) (fun u => run (Some u))
  end.

(** [SELECT ... FROM permission_grants WHERE id = .. AND tenant_id = ..] *)
Definition grant_by_id (perm_id : string) (tenant_id : uuid) : M (option grant_row) :=
  let! pid := bound perm_id in
  let! tid := bound (uuid_str tenant_id) in
  let! rows := select permission_grants_t (fun g => N.eqb (g_id g) pid && N.eqb (g_tenant_id g) tid) in
  ret (fetchone rows).

(** [ORDER BY period_start DESC] *)
Definition latest_first : list counter_row -> list counter_row :=
  sort_by (fun a b => Z.leb (b_period_start b) (b_period_start a)).

Definition get_permission_budget (tenant_id : uuid) (permission_id : string) : M response :=
  do! set_tenant_context (uuid_str tenant_id) false in
  try_value (Admin.wire_to_db_uuid permission_id "perm") (ret (title 422 "Invalid permission_id")) (fun perm_uuid =>
  let! row := grant_by_id perm_uuid tenant_id in
  match row with
  | None => ret (title 404 "Permission not found")
  | Some row =>
      let! constraints := lift (constraints_json (JObj []) (g_constraints row)) in
      let! budget := lift (json_get "budget" JNull constraints) in
      if negb (truthy budget) then ret (title 404 "No budget configured")
      else
        let! pid := bound perm_uuid in
        let! counters := select budget_counters_t (fun b => N.eqb (b_permission_id b) pid) in
        let counter := fetchone (latest_first counters) in
        let! ceiling := lift (json_item "ceiling" budget) in
        let! period := lift (json_item "period" budget) in
        let! alert_thresholds := lift (json_get "alert_thresholds" (JArr []) budget) in
        ret (JSONResponse 200
          [("ceiling", ceiling); ("period", period);
           ("used", JInt (match counter with Some c => b_used c | None => 0 end));
           ("alert_thresholds", alert_thresholds);
           ("period_start", json_opt (fun c => JStr (isoformat_utc (b_period_start c))) counter);
           ("period_end", json_opt (fun c => JStr (isoformat_utc (b_period_end c))) counter)])
  end).

Definition get_permission (tenant_id : uuid) (permission_id : string) : M response :=
  do! set_tenant_context (uuid_str tenant_id) false in
  try_value (Admin.wire_to_db_uuid permission_id "perm") (ret (title 422 "Invalid permission_id")) (fun perm_uuid =>
  let! row := grant_by_id perm_uuid tenant_id in
  match row with
  | None => ret (title 404 "Permission not found")
  | Some row =>
      let! constraints := lift (constraints_json JNull (g_constraints row)) in
      ret (JSONResponse 200
        [("id", JStr (wire (g_id row) "perm")); ("agent_id", JStr (wire (g_agent_id row) "agent"));
         ("service_id", JStr (wire (g_service_id row) "svc")); ("action", JStr (g_action row));
         ("constraints", constraints)])
  end).

(** [INSERT INTO budget_counters ... VALUES (.., used = 0, ..)
    ON CONFLICT (permission_id, period_start) DO UPDATE SET f] *)
Definition upsert_counter (perm_id : string) (period_start period_end : Z) (ceiling : json) (tenant_id : uuid)
    (f : Z -> counter_row -> counter_row) : M unit :=
  let! pid := bound perm_id in
  let! c := bound_int4 ceiling in
  let! tid := bound (uuid_str tenant_id) in
  upsert budget_counters_t
    (fun b => N.eqb (b_permission_id b) pid && Z.eqb (b_period_start b) period_start)
    (f c) (CounterRow pid period_start period_end c 0 tid).

(** [SET ceiling = :ceiling], [SET ceiling = :ceiling, period_end = :pe],
    [SET ceiling = :ceiling, period_end = :pe, used = 0] *)
Definition set_ceiling (c : Z) (b : counter_row) : counter_row :=
  CounterRow (b_permission_id b) (b_period_start b) (b_period_end b) c (b_used b) (b_tenant_id b).
Definition set_ceiling_end (pe c : Z) (b : counter_row) : counter_row :=
  CounterRow (b_permission_id b) (b_period_start b) pe c (b_used b) (b_tenant_id b).
Definition restart_counter (pe c : Z) (b : counter_row) : counter_row :=
  CounterRow (b_permission_id b) (b_period_start b) pe c 0 (b_tenant_id b).

(** [try: svc_uuid = ... except Exception as exc]: the service's identifier or the answer. *)
Definition service_or_error (m : M string) (k : string -> M response) : M response :=
  let! r := catch (let! s := m in ret (inl s))
    (fun e => ret (inr (if py_in "not_found" (exc_str e) then problem 404 "not_found" "Service not found"
                        else problem 422 "invalid_service_id" "Invalid service_id"))) in
  match r with
  | inl s => k s
  | inr r => ret r
  end.

(** [_budget_period_bounds(budget["period"], now)] *)
Definition bounds_of (period : json) (now : Z) : outcome (Z * Z) :=
  match period with
  | JStr p => _budget_period_bounds p now
  | _ => Raise (ValueError "Unknown budget period")
  end.

(** Step 9 of a grant. *)
Definition grant_counter (constraints_dict : dict) (internal_id tenant_id : uuid) (now : Z) : M unit :=
  let budget_cfg := default JNull (dict_get "budget" constraints_dict) in
  if truthy budget_cfg then
    let! period := lift (json_item "period" budget_cfg) in
    let! b := lift (bounds_of period now) in
    let '(period_start, period_end) := b in
    let! ceiling := lift (json_item "ceiling" budget_cfg) in
    upsert_counter (uuid_str internal_id) period_start period_end ceiling tenant_id (set_ceiling_end period_end)
  else ret tt.

Definition grant_permission (tenant_id : uuid) (agent_id : string) (body : PermissionGrantRequest) : M response :=
  try_value (Admin._wire_id_to_uuid agent_id "agent_") (ret (problem 422 "invalid_id" "Invalid agent_id")) (fun agent_uuid =>
  do! set_tenant_context (uuid_str tenant_id) false in
  let! aid := bound agent_uuid in
  let! tid := bound (uuid_str tenant_id) in
  let! agent := select agents_t (fun a => N.eqb (a_id a) aid && N.eqb (a_tenant_id a) tid) in
  match fetchone agent with
  | None => ret (problem 404 "not_found" "Agent not found")
  | Some _ =>
      service_or_error (_resolve_service_uuid tenant_id (pg_service_id body)) (fun svc_uuid =>
      let constraints_dict := match pg_constraints body with Some c => model_dump c | None => [] end in
      let! aid := bound agent_uuid in
      let! sid := bound svc_uuid in
      let! tid := bound (uuid_str tenant_id) in
      let! existing := select permission_grants_t (fun g =>
        N.eqb (g_agent_id g) aid && N.eqb (g_service_id g) sid && String.eqb (g_action g) (pg_action body)
        && N.eqb (g_tenant_id g) tid) in
      match fetchone existing with
      | Some row =>
          let! stored := lift (parse_constraints JNull (from_jsonb (g_constraints row))) in
          if py_eq stored (JObj constraints_dict) then
            ret (JSONResponse 200
              [("id", JStr (uuid_str (g_id row))); ("agent_id", JStr agent_id); ("service_id", JStr (pg_service_id body));
               ("action", JStr (pg_action body)); ("constraints", JObj constraints_dict)])
          else
            ret (problem 409 "permission_constraints_conflict"
                   "A permission grant with different constraints already exists")
      | None =>
          let! perm_id := _new_perm_id in
          let! internal_id := lift (ulid_uuid perm_id "perm_") in
          let! now := now_utc in
          let granted_by := match pg_granted_by body with
                            | Some s => if String.eqb s "" then agent_uuid else s
                            | None => agent_uuid
                            end in
          let! id := bound (uuid_str internal_id) in
          let! tid := bound (uuid_str tenant_id) in
          let! aid := bound agent_uuid in
          let! sid := bound svc_uuid in
          let! creator := bound granted_by in
          do! insert_into permission_grants_t
            (GrantRow id tid aid sid (pg_action body) (jsonb (JObj constraints_dict)) now creator) in
          do! grant_counter constraints_dict internal_id tenant_id now in
          do! audit_emit tenant_id "agent.permission.granted" None "operator" (Some (VUUID internal_id)) (Some "permission")
            [("perm_id", JStr perm_id); ("agent_id", JStr agent_id); ("service_id", JStr (pg_service_id body));
             ("action", JStr (pg_action body)); ("constraints", JObj constraints_dict)] in
          ret (JSONResponse 201
            [("id", JStr perm_id); ("tenant_id", JStr (uuid_str tenant_id)); ("agent_id", JStr agent_id);
             ("service_id", JStr (pg_service_id body)); ("action", JStr (pg_action body));
             ("constraints", JObj constraints_dict); ("created_at", JStr (isoformat_utc now));
             ("updated_at", JStr (isoformat_utc now))])
      end)
  end).

(** [_decode_agent_wire_id(agent_id, "agent_") if agent_id.startswith("agent_") else agent_id] *)
Definition agent_db_id (agent_id : string) : outcome string :=
  if startswith agent_id "agent_" then Admin._wire_id_to_uuid agent_id "agent_" else Ok agent_id.

Definition revoke_permission (tenant_id : uuid) (agent_id permission_id : string) : M response :=
  do! set_tenant_context (uuid_str tenant_id) false in
  try_value (perm_db_id ← Admin.wire_to_db_uuid permission_id "perm"; agent ← agent_db_id agent_id; Ok (perm_db_id, agent))
    (ret (EmptyResponse 422)) (fun '(perm_db_id, agent) =>
  let! pid := bound perm_db_id in
  let! aid := bound agent in
  let! tid := bound (uuid_str tenant_id) in
  let! _ := delete_from permission_grants_t (fun g =>
    N.eqb (g_id g) pid && N.eqb (g_agent_id g) aid && N.eqb (g_tenant_id g) tid) in
  do! audit_emit tenant_id "agent.permission.revoked" None "operator" None (Some "permission")
    [("permission_id", JStr permission_id); ("agent_id", JStr agent_id)] in
  do! notify_change "mintkey:agent"
    [("event", JStr "agent.permission.revoked"); ("tenant_id", JStr (uuid_str tenant_id));
     ("agent_id", JStr agent_id); ("permission_id", JStr permission_id)] in
  ret (EmptyResponse 204)).

(** [{**d}] and [d.get(..)] need a dict. *)
Definition json_dict (j : json) : outcome dict :=
  match j with JObj d => Ok d | _ => Raise (TypeError "object is not a mapping") end.

(** [b.get(k) if b else None], [b[k] if b else None] *)
Definition get_if (k : string) (b : json) : outcome json :=
  if truthy b then json_get k JNull b else Ok JNull.
Definition item_if (k : string) (b : json) : outcome json :=
  if truthy b then json_item k b else Ok JNull.

(** [UPDATE permission_grants SET constraints = .. WHERE id = .. AND tenant_id = ..] *)
Definition set_constraints (perm_id : string) (tenant_id : uuid) (constraints : dict) : M unit :=
  let! pid := bound perm_id in
  let! tid := bound (uuid_str tenant_id) in
  update_where permission_grants_t (fun g => N.eqb (g_id g) pid && N.eqb (g_tenant_id g) tid) (fun g =>
    GrantRow (g_id g) (g_tenant_id g) (g_agent_id g) (g_service_id g) (g_action g) (jsonb (JObj constraints))
      (g_created_at g) (g_created_by g)).

Definition update_answer (permission_id : string) (tenant_id : uuid) (constraints : dict) (now : Z) : response :=
  JSONResponse 200
    [("id", JStr permission_id); ("tenant_id", JStr (uuid_str tenant_id)); ("constraints", JObj constraints);
     ("updated_at", JStr (isoformat_utc now))].

(** Step 4b: the body names the budget as null. *)
Definition remove_budget (tenant_id : uuid) (permission_id perm_db_id : string) (old_constraints : dict)
    (old_budget : json) (body : Constraints) : M response :=
  let new_constraints := dict_update (dict_pop "budget" old_constraints) (dict_pop "budget" (model_dump body)) in
  do! set_constraints perm_db_id tenant_id new_constraints in
  let! pid := bound perm_db_id in
  let! _ := delete_from budget_counters_t (fun b => N.eqb (b_permission_id b) pid) in
  let! now := now_utc in
  let! perm_uuid := lift (UUID perm_db_id) in
  let! old_ceiling := lift (get_if "ceiling" old_budget) in
  let! old_period := lift (get_if "period" old_budget) in
  do! audit_emit tenant_id "budget.config_updated" None "operator" (Some (VUUID perm_uuid)) (Some "permission")
    [("permission_id", JStr permission_id); ("action", JStr "removed"); ("old_ceiling", old_ceiling);
     ("old_period", old_period)] in
  do! notify_change "mintkey:agent"
    [("event_type", JStr "budget.config_updated"); ("tenant_id", JStr (uuid_str tenant_id));
     ("target_id", JStr permission_id); ("payload", JObj [("action", JStr "removed")]);
     ("at", JStr (isoformat_utc now))] in
  ret (update_answer permission_id tenant_id new_constraints now).

(** Step 7: the counter of the current period. *)
Definition update_counter (tenant_id : uuid) (perm_db_id : string) (old_budget new_budget : json) (now : Z) : M unit :=
  if truthy new_budget then
    let! new_period := lift (json_item "period" new_budget) in
    let! new_ceiling := lift (json_item "ceiling" new_budget) in
    let! old_period := lift (get_if "period" old_budget) in
    let! b := lift (bounds_of new_period now) in
    let '(period_start, period_end) := b in
    if truthy old_period && negb (py_eq old_period new_period) then
      upsert_counter perm_db_id period_start period_end new_ceiling tenant_id (restart_counter period_end)
    else
      upsert_counter perm_db_id period_start period_end new_ceiling tenant_id set_ceiling
  else ret tt.

(** The body is the [constraints] of the request. *)
Definition update_permission (tenant_id : uuid) (agent_id permission_id : string) (body : Constraints) : M response :=
  try_value (perm_db_id ← Admin.wire_to_db_uuid permission_id "perm"; _ ← agent_db_id agent_id; Ok perm_db_id)
    (ret (problem 422 "invalid_id" "Invalid ID format")) (fun perm_db_id =>
  do! set_tenant_context (uuid_str tenant_id) false in
  let! row := grant_by_id perm_db_id tenant_id in
  match row with
  | None => ret (problem 404 "not_found" "Permission grant not found")
  | Some row =>
      let! old := lift (parse_constraints (JObj []) (from_jsonb (g_constraints row))) in
      let! old_budget := lift (json_get "budget" JNull old) in
      let! old_constraints := lift (json_dict old) in
      if cs_budget_set body && negb (match cs_budget body with Some _ => true | None => false end) then
        remove_budget tenant_id permission_id perm_db_id old_constraints old_budget body
      else
        let new_constraints := dict_update old_constraints (model_dump body) in
        let new_budget := default JNull (dict_get "budget" new_constraints) in
        do! set_constraints perm_db_id tenant_id new_constraints in
        let! now := now_utc in
        do! update_counter tenant_id perm_db_id old_budget new_budget now in
        let! perm_uuid := lift (UUID perm_db_id) in
        let! old_ceiling := lift (get_if "ceiling" old_budget) in
        let! new_ceiling := lift (item_if "ceiling" new_budget) in
        let! old_period := lift (get_if "period" old_budget) in
        let! new_period := lift (item_if "period" new_budget) in
        do! audit_emit tenant_id "budget.config_updated" None "operator" (Some (VUUID perm_uuid)) (Some "permission")
          [("permission_id", JStr permission_id); ("old_ceiling", old_ceiling); ("new_ceiling", new_ceiling);
           ("old_period", old_period); ("new_period", new_period)] in
        do! notify_change "mintkey:agent"
          [("event_type", JStr "budget.config_updated"); ("tenant_id", JStr (uuid_str tenant_id));
           ("target_id", JStr permission_id);
           ("payload", JObj [("ceiling", new_ceiling); ("period", new_period)]); ("at", JStr (isoformat_utc now))] in
        ret (update_answer permission_id tenant_id new_constraints now)
  end).

(** [UPDATE budget_counters SET used = 0 WHERE permission_id = .. AND period_start = (SELECT ..
    ORDER BY period_start DESC LIMIT 1)] *)
Definition reset_latest (pid : uuid) : M unit :=
  execute (fun w =>
    pol ← policy w;
    let of_perm := List.filter (fun b => N.eqb (b_permission_id b) pid) (visible budget_counters_t pol (w_db w)) in
    let latest := b_period_start <$> fetchone (latest_first of_perm) in
    Ok (tt, set_db (update_db budget_counters_t (fun b => sees budget_counters_t pol b
      && (N.eqb (b_permission_id b) pid && bool_decide (Some (b_period_start b) = latest)))
      (fun b => CounterRow (b_permission_id b) (b_period_start b) (b_period_end b) (b_ceiling b) 0 (b_tenant_id b))
      (w_db w)) w)).

Definition reset_budget_counter (tenant_id : uuid) (agent_id permission_id : string) : M response :=
  do! set_tenant_context (uuid_str tenant_id) false in
  try_value (Admin.wire_to_db_uuid permission_id "perm") (ret (title 422 "Invalid permission_id")) (fun perm_uuid =>
  let! row := grant_by_id perm_uuid tenant_id in
  match row with
  | None => ret (title 404 "Permission not found")
  | Some _ =>
      let! now := now_utc in
      let! pid := bound perm_uuid in
      do! reset_latest pid in
      do! audit_emit tenant_id "budget.reset" None "operator" (Some (VStr perm_uuid)) (Some "permission")
        [("permission_id", JStr permission_id); ("at", JStr (isoformat_utc now))] in
      do! commit in
      ret (JSONResponse 200
        [("permission_id", JStr permission_id); ("used", JInt 0); ("reset_at", JStr (isoformat_utc now))])
  end).
End Permissions.
