(* ===== verification/Erasure.v ===== *)
(** * Computations that do not read a part of the database

    [blind g m] says that rewriting the data by [g] before or after the
    computation [m] comes to the same: nothing [g] rewrites flows into the
    result of [m] or into anything else it leaves.  The rules compose it over
    a handler; [Unread g T] is what they need of a table that [g] leaves
    alone. *)

From S2P Require Import Prelude PyStr PyJson PyJsonFacts PyTime WireIds AuditHash AuditChain.
From S2P Require Import Vault Tables Database Logic Keys AuditEmit AgentSecrets.

Local Open Scope string_scope.
Local Open Scope py_scope.

Definition rewritten `{Vault} (g : db -> db) (w : world) : world :=
  World _ (g (w_db w)) (g (w_base w)) (w_tx w) (w_tenant w) (w_admin_view w) (w_pending w) (w_sent w)
    (w_vault w) (w_tick w) (w_proc w).

(** A table [g] does not touch, whose constraints do not read what [g] rewrites. *)
Class Unread (g : db -> db) {R} (T : table R) : Prop := {
  ur_get : forall d, tb_get T (g d) = tb_get T d;
  ur_set : forall l d, tb_set T l (g d) = g (tb_set T l d);
  ur_check : forall d r, tb_check T (g d) r = tb_check T d r }.

Section Blind.
Context `{E : Env} `{V : Vault} `{Sha : Sha256}.
Context (g : db -> db).
Implicit Types w : world.
Local Abbreviation erase := (rewritten g).
(** [m] does not depend on what [g] rewrites. *)
Definition blind {A} (m : M A) : Prop := forall w, m (erase w) = (fst (m w), erase (snd (m w))).

Lemma blind_pure {A} (f : nat -> outcome A) : blind (fun w => (f (w_tick w), tick w)). Proof. done. Qed.
Lemma blind_ret {A} (a : A) : blind (ret a). Proof. done. Qed.
Lemma blind_raise {A} e : blind (raise e : M A). Proof. done. Qed.
Lemma blind_lift {A} (o : outcome A) : blind (lift o). Proof. done. Qed.
Lemma blind_bound s : blind (bound s). Proof. intros w. unfold bound. by destruct (bind_uuid s). Qed.
Lemma blind_uuid4 : blind uuid4. Proof. done. Qed.
Lemma blind_now : blind now_utc. Proof. done. Qed.

Lemma blind_bind {A B} (m : M A) (k : A -> M B) : blind m -> (forall a, blind (k a)) -> blind (bind m k).
Proof.
  intros Hm Hk w. unfold bind. rewrite Hm. destruct (m w) as [[a|e] w1]; cbn [fst snd]; [apply Hk|done].
Qed.

Lemma blind_catch {A} (m : M A) (h : exn -> M A) : blind m -> (forall e, blind (h e)) -> blind (catch m h).
Proof.
  intros Hm Hh w. unfold catch. rewrite Hm. destruct (m w) as [[a|e] w1]; cbn [fst snd]; [done|apply Hh].
Qed.

(** A statement whose effect commutes with the erasure. *)
Lemma blind_execute {A} (f : world -> outcome (A * world)) :
  (forall w, f (erase w) = match f w with Ok (a, w') => Ok (a, erase w') | Raise e => Raise e end) -> blind (execute f).
Proof.
  intros Hf w. unfold execute. change (tick (erase w)) with (erase (tick w)).
  change (w_tx (erase (tick w))) with (w_tx (tick w)). change (w_tick (erase (tick w))) with (w_tick (tick w)).
  destruct (w_tx (tick w)); [|done..]. destruct (env_fault _); [done|]. rewrite Hf.
  by destruct (f (tick w)) as [[a w']|e].
Qed.

Lemma policy_erase w : policy (erase w) = policy w. Proof. done. Qed.

Lemma blind_select {R} (T : table R) `{!Unread g T} p : blind (select T p).
Proof.
  apply blind_execute. intros w. rewrite policy_erase. destruct (policy w); [|done]. cbn [mbind outcome_bind].
  change (w_db (rewritten g w)) with (g (w_db w)). by rewrite ur_get.
Qed.

Lemma blind_insert {R} (T : table R) `{!Unread g T} r : blind (insert_into T r).
Proof.
  apply blind_execute. intros w. rewrite policy_erase. destruct (policy w) as [pol|]; [|done]. cbn [mbind outcome_bind].
  destruct (sees T pol r); [|done]. unfold insert_db. change (w_db (erase w)) with (g (w_db w)).
  rewrite ur_check, ur_get. destruct (tb_check T (w_db w) r); [done|]. cbn [mbind outcome_bind].
  rewrite ur_set. done.
Qed.

Lemma blind_insert_ignore {R} (T : table R) `{!Unread g T} key r : blind (insert_ignore T key r).
Proof.
  apply blind_execute. intros w. rewrite policy_erase. destruct (policy w) as [pol|]; [|done]. cbn [mbind outcome_bind].
  destruct (sees T pol r); [|done]. unfold insert_db. change (w_db (erase w)) with (g (w_db w)). cbn [negb].
  rewrite ur_check, ur_get. destruct (existsb _ _); [done|]. destruct (tb_check T (w_db w) r); [done|].
  cbn [mbind outcome_bind]. rewrite ur_set. done.
Qed.

Lemma blind_update {R} (T : table R) `{!Unread g T} p f : blind (update_where T p f).
Proof.
  apply blind_execute. intros w. rewrite policy_erase. destruct (policy w) as [pol|]; [|done]. cbn [mbind outcome_bind].
  unfold update_db. change (w_db (erase w)) with (g (w_db w)). rewrite ur_get, ur_set. done.
Qed.

(** The whole transaction. *)
Lemma blind_transaction {A} (m : M A) : blind m -> blind (transaction m).
Proof.
  intros Hm w. unfold transaction. change (begin (erase w)) with (erase (begin w)). rewrite Hm.
  destruct (m (begin w)) as [[a|e] w1]; cbn [fst snd]; change (w_tx (erase w1)) with (w_tx w1).
  - destruct (w_tx w1) eqn:Et; [| |done]; unfold commit; change (w_tx (tick (erase w1))) with (w_tx w1);
      change (w_tx (tick w1)) with (w_tx w1); rewrite Et; [|done].
    change (w_tick (tick (erase w1))) with (w_tick (tick w1)). by destruct (env_fault _).
  - by destruct (w_tx w1).
Qed.
Lemma blind_guc t a : blind (execute (fun w => Ok (tt, set_guc t a w))).
Proof. by apply blind_execute. Qed.

Lemma blind_varchar n s : blind (varchar n s).
Proof. unfold varchar. destruct (_ <=? _)%nat; [apply blind_ret|]. by apply blind_execute. Qed.
Lemma blind_bound_opt o : blind (bound_opt o).
Proof. destruct o; [|apply blind_ret]. apply blind_bind; [apply blind_bound|intros; apply blind_ret]. Qed.

Lemma blind_audit `{!Unread g audit_chain_state_t} `{!Unread g audit_events_t} t ty actor aty target tty payload : blind (audit_emit t ty actor aty target tty payload).
Proof.
  unfold audit_emit, pg_advisory_xact_lock. apply blind_bind; [by apply blind_execute|intros _].
  apply blind_bind; [apply blind_bound|intros tid]. apply blind_bind; [apply blind_select, _|intros row].
  apply blind_bind; [apply blind_now|intros now]. apply blind_bind; [apply blind_uuid4|intros eid].
  apply blind_bind; [apply blind_lift|intros fields]. apply blind_bind; [apply blind_lift|intros prev].
  apply blind_bind; [apply blind_bound|intros id]. do 2 (apply blind_bind; [apply blind_bound_opt|intros ?]).
  apply blind_bind; [apply blind_insert, _|intros _]. do 2 (apply blind_bind; [apply blind_bound|intros ?]).
  apply blind_update, _.
Qed.

Lemma blind_try_value {A B} (o : outcome A) (m : M B) (k : A -> M B) :
  blind m -> (forall a, blind (k a)) -> blind (try_value o m k).
Proof. intros Hm Hk. destruct o as [a|[]]; try apply blind_raise; [apply Hk|exact Hm]. Qed.
End Blind.
