(* ===== verification/Ssrf.v ===== *)
(** * Guards on outgoing addresses (services/credential_service.py, api/services.py)

    The resolver that decides whether a host is private, the checks of the
    base URL of a service, of a token URL and of the URL of a test call, and
    the host and port of an ssh:// URL. *)

From S2P Require Import Prelude PyStr PyText PyJson PyJsonFacts PyTime PyUrl WireIds AuditHash AuditChain.
From S2P Require Import Vault Tables Database Logic.

Local Open Scope string_scope.
Local Open Scope py_scope.

Definition _FORBIDDEN_NETWORKS : list network :=
  [Net4 (v4 10 0 0 0) 8; Net4 (v4 172 16 0 0) 12; Net4 (v4 192 168 0 0) 16; Net4 (v4 127 0 0 0) 8;
   Net4 (v4 169 254 0 0) 16; Net6 (v6 0xfc00 0) 7; Net6 1 128].

(** [ip.is_private or ip.is_loopback or ...] *)
Definition is_special (a : ip) : bool :=
  is_private a || is_loopback a || is_link_local a || is_multicast a || is_reserved a || is_unspecified a.

(** [socket.gaierror] *)
Definition is_gaierror (e : exn) : bool := match e with RuntimeError s => String.eqb s "gaierror" | _ => false end.

Section Ssrf.
Context `{E : Env} `{V : Vault}.

Definition resolve_hostname_is_private (hostname : string) : M bool :=
  match ip_address hostname with
  | Some a => ret (existsb (ip_in a) _FORBIDDEN_NETWORKS)
  | None =>
      catch
        (let! resolved := getaddrinfo hostname in
         ret (existsb (fun addr => match ip_address addr with Some a => is_special a | None => false end) resolved))
        (fun e => if is_gaierror e then ret false else raise e)
  end.

(** MINTKEY_SSRF_ALLOW_PRIVATE *)
Definition private_allowed : bool := bool_decide (env_var "MINTKEY_SSRF_ALLOW_PRIVATE" = Some "1").

Definition validate_token_url_ssrf (url : string) : M (bool * string) :=
  let! parts := lift (urlsplit url) in
  if negb (String.eqb (sr_scheme parts) "https") then ret (false, "scheme_must_be_https")
  else match hostname parts with
       | None => ret (false, "missing_host")
       | Some host =>
           if private_allowed then ret (true, "")
           else
             let! private := resolve_hostname_is_private host in
             ret (if private : bool then (false, "private_or_loopback_ip_blocked") else (true, ""))
       end.

Definition _is_forbidden_destination (base_url : string) : M bool :=
  catch
    (let! host := lift (url_hostname base_url) in
     match host with
     | None => ret false
     | Some host => if private_allowed then ret false else resolve_hostname_is_private host
     end)
    (fun _ => ret false).

Definition _check_ssrf_hostname (final_url base_url : string) : outcome string :=
  base_host ← url_hostname base_url;
  final_host ← url_hostname final_url;
  if String.eqb (lower (default "" final_host)) (lower (default "" base_host)) then Ok final_url
  else Raise (HTTPException 400 "ssrf_blocked" "Outbound hostname does not match the service base_url").

(** The loop over the resolved addresses. *)
Fixpoint first_special (addrs : list string) : outcome bool :=
  match addrs with
  | [] => Ok false
  | addr :: rest =>
      match ip_address addr with
      | None => Raise (ValueError "does not appear to be an IPv4 or IPv6 address")
      | Some a => if is_special a then Ok true else first_special rest
      end
  end.

Definition _validate_test_url (url : string) : M (bool * option string) :=
  let! parts := lift (urlsplit url) in
  if negb (existsb (String.eqb (sr_scheme parts)) ["http"; "https"]) then ret (false, Some "scheme_not_allowed")
  else match hostname parts with
       | None => ret (false, Some "missing_host")
       | Some host =>
           let! resolved := catch (let! l := getaddrinfo host in ret (Some l))
                                  (fun e => if is_gaierror e then ret None else raise e) in
           match resolved with
           | None => ret (false, Some "dns_resolution_failed")
           | Some addrs =>
               if private_allowed then ret (true, None)
               else
                 let! special := lift (first_special addrs) in
                 ret (if special : bool then (false, Some "private_or_special_ip_blocked") else (true, None))
           end
       end.

Definition _parse_ssh_host_port (base_url : string) : outcome string :=
  parsed ← urlsplit base_url;
  if negb (String.eqb (sr_scheme parsed) "ssh") then Raise (ValueError "Expected ssh:// scheme")
  else match hostname parsed with
       | None => Raise (ValueError "ssh:// URL missing hostname")
       | Some host =>
           p ← port parsed;
           match p with
           | None => Raise (ValueError "ssh:// URL missing port (required for SSH routing)")
           | Some p => Ok (if py_in ":" host then "[" +:+ host +:+ "]:" +:+ py_str_int p
                           else host +:+ ":" +:+ py_str_int p)
           end
       end.
End Ssrf.

(** ** Appending a path keeps the host *)

Lemma break_app p l k : snd (break p l) <> [] -> break p (l ++ k)%list = (fst (break p l), snd (break p l) ++ k)%list.
Proof.
  induction l as [|c l IH]; cbn [break app]; [done|]. destruct (p c); [done|].
  destruct (break p l) as [a b]; cbn [fst snd] in *. intros H. by rewrite IH.
Qed.

Lemma break_none p l : snd (break p l) = [] -> fst (break p l) = l /\ forallb (fun c => negb (p c)) l = true.
Proof.
  induction l as [|c l IH]; cbn [break]; [done|]. destruct (p c) eqn:E; [done|].
  destruct (break p l) as [a b]; cbn [fst snd] in *. intros H. destruct (IH H) as [-> Hf]. cbn [forallb]. by rewrite E, Hf.
Qed.

Lemma break_all p l k : forallb (fun c => negb (p c)) l = true ->
  break p (l ++ k)%list = ((l ++ fst (break p k))%list, snd (break p k)).
Proof.
  induction l as [|c l IH]; cbn [app forallb break]; [by destruct (break p k)|]. intros H. apply andb_true_iff in H as [Hc Hl].
  apply negb_true_iff in Hc. rewrite Hc, IH by done. done.
Qed.

Lemma break_slashes k : fst (break url_delimiter (repeat "/"%char k)) = [].
Proof. by destruct k. Qed.

Lemma split_netloc_path d k p n :
  n <> [] -> fst (split_netloc (d ++ repeat "/"%char k)%list) = n -> fst (split_netloc (d ++ "/"%char :: p)%list) = n.
Proof.
  intros Hn. destruct d as [|x [|y d]]; cbn [app].
  - destruct k as [|[|k]]; cbn [repeat split_netloc fst]; [congruence..|]. rewrite break_slashes. congruence.
  - destruct k as [|k]; cbn [repeat]; [destruct x as [[] [] [] [] [] [] [] []]; cbn; congruence|].
    assert (E : fst (split_netloc (x :: "/"%char :: repeat "/"%char k)) = []).
    { destruct x as [[] [] [] [] [] [] [] []]; cbn [split_netloc]; try done. apply break_slashes. }
    rewrite E. congruence.
  - assert (Hs : forall m, split_netloc (x :: y :: d ++ m)%list =
      if Ascii.eqb x "/" && Ascii.eqb y "/" then break url_delimiter (d ++ m) else ([], x :: y :: d ++ m)%list).
    { intros m. destruct (Ascii.eqb_spec x "/") as [->|Hx]; cbn [andb]; [|by destruct x as [[] [] [] [] [] [] [] []]].
      destruct (Ascii.eqb_spec y "/") as [->|Hy]; [done|]. by destruct y as [[] [] [] [] [] [] [] []]. }
    rewrite !Hs. destruct (Ascii.eqb x "/" && Ascii.eqb y "/"); [|done].
    destruct (decide (snd (break url_delimiter d) = [])) as [E|E]; [|by rewrite !(fun k => break_app _ _ k E)].
    destruct (break_none _ _ E) as [_ Hf]. rewrite !(fun k => break_all _ _ k Hf). cbn [fst]. rewrite break_slashes. done.
Qed.

(** Behind a text [c], a path changes neither the scheme nor what follows it. *)
Lemma split_scheme_path c k p : exists s d,
  split_scheme (c ++ repeat "/"%char k)%list = (s, (d ++ repeat "/"%char k)%list) /\
  split_scheme (c ++ "/"%char :: p)%list = (s, (d ++ "/"%char :: p)%list).
Proof.
  unfold split_scheme, partition. destruct (decide (snd (break (Ascii.eqb ":") c) = [])) as [E|E].
  - exists "", c. destruct (break_none _ _ E) as [_ Hf]. rewrite !(fun k => break_all _ _ k Hf).
    assert (Hk : break (Ascii.eqb ":") (repeat "/"%char k) = (repeat "/"%char k, [])).
    { clear. induction k as [|k IH]; [done|]. cbn [repeat break]. by rewrite IH. }
    rewrite Hk. cbn [snd]. split; [by destruct (c ++ _)%list|].
    cbn [break]. replace (Ascii.eqb ":" "/") with false by done. destruct (break _ p) as [a b]. cbn [fst snd].
    destruct (c ++ "/"%char :: a)%list as [|x s] eqn:El; [done|]. destruct b as [|y b]; [done|].
    assert (Hbad : forallb scheme_char (x :: s) = false).
    { apply not_true_is_false. intros Hall. rewrite forallb_forall in Hall.
      assert (Hin : In "/"%char (x :: s)) by (rewrite <- El; apply in_app_iff; right; by left).
      by specialize (Hall _ Hin). }
    by rewrite Hbad, andb_false_r.
  - rewrite !(fun k => break_app _ _ k E). destruct (break (Ascii.eqb ":") c) as [[|x s] [|y b]] eqn:Eb; cbn [fst snd app] in *; try done.
    + by exists "", c.
    + destruct (is_alpha x && forallb scheme_char (x :: s)); [|by exists "", c]. by exists (lower (unchars (x :: s))), b.
Qed.

Lemma url_clean_app (u : string) l m :
  chars u = (l ++ m)%list ->
  (exists c, forall u m', chars u = (l ++ m')%list -> url_clean u = (c ++ List.filter (fun c => negb (is_unsafe c)) m')%list) \/
  url_clean u = url_clean (unchars m).
Proof.
  intros Hu. destruct (decide (snd (break (fun c => negb (is_c0_or_space c)) l) = [])) as [E|E].
  - right. destruct (break_none _ _ E) as [_ Hf]. unfold url_clean. rewrite Hu, chars_unchars. by rewrite (break_all _ _ _ Hf).
  - left. exists (List.filter (fun c => negb (is_unsafe c)) (snd (break (fun c => negb (is_c0_or_space c)) l))).
    intros u' m' Hu'. unfold url_clean. rewrite Hu', (break_app _ _ _ E). cbn [snd]. by rewrite List.filter_app.
Qed.

Lemma rstrip_slashes s : exists k, chars s = (chars (rstrip "/" s) ++ repeat "/"%char k)%list.
Proof.
  unfold rstrip. rewrite chars_unchars.
  assert (H : forall l, exists k, rev l = (rev (drop_in (chars "/") l) ++ repeat "/"%char k)%list).
  2: { destruct (H (rev (chars s))) as [k Hk]. exists k. by rewrite rev_involutive in Hk. }
  clear s. induction l as [|c l [k IH]]; [by exists 0%nat|]. cbn [drop_in]. destruct (existsb _ _) eqn:E.
  - exists (S k). cbn [rev]. rewrite IH, <- app_assoc. f_equal. apply orb_true_iff in E as [E|E]; [|done].
    apply Ascii.eqb_eq in E as ->. clear. induction k as [|k IH]; [done|]. cbn [repeat app]. by rewrite IH.
  - exists 0%nat. by rewrite app_nil_r.
Qed.

Lemma urlsplit_netloc u : urlsplit u =
  let l := snd (split_scheme (url_clean u)) in
  let netloc := fst (split_netloc l) in
  if netloc_ok netloc then
    let '(r, fragment) := partition "#" (snd (split_netloc l)) in
    let '(path, query) := partition "?" r in
    Ok (SplitResult (fst (split_scheme (url_clean u))) (unchars netloc) (unchars path) (unchars (default [] query))
          (unchars (default [] fragment)))
  else Raise (ValueError "Invalid IPv6 URL").
Proof. unfold urlsplit. destruct (split_scheme _) as [s l]; cbn [fst snd]. by destruct (split_netloc l). Qed.

Lemma url_hostname_netloc u : url_hostname u =
  let netloc := fst (split_netloc (snd (split_scheme (url_clean u)))) in
  if netloc_ok netloc then Ok (hostname (SplitResult "" (unchars netloc) "" "" "")) else Raise (ValueError "Invalid IPv6 URL").
Proof.
  unfold url_hostname. rewrite urlsplit_netloc. cbv zeta. destruct (netloc_ok _); [|done].
  destruct (partition "#" _) as [r f]. by destruct (partition "?" r).
Qed.

(** A path appended to a base URL with a host leads to the same host, whatever the path holds. *)
Lemma path_keeps_host base path host :
  url_hostname base = Ok (Some host) -> startswith path "/" = true ->
  url_hostname (rstrip "/" base +:+ path) = Ok (Some host).
Proof.
  intros Hb Hp. apply startswith_spec in Hp as [p ->]. rewrite url_hostname_netloc in *. cbv zeta in *.
  destruct (rstrip_slashes base) as [k Hk].
  assert (Hn : fst (split_netloc (snd (split_scheme (url_clean base)))) <> []).
  { intros E. rewrite E in Hb. done. }
  destruct (url_clean_app base _ _ Hk) as [[c Hc]|Hc].
  - rewrite (Hc base _ Hk) in *. rewrite (Hc (rstrip "/" base +:+ ("/" +:+ p)) ("/"%char :: chars p)) by (by rewrite !chars_app).
    assert (Hf : List.filter (fun c => negb (is_unsafe c)) (repeat "/"%char k) = repeat "/"%char k).
    { clear. induction k as [|k IH]; [done|]. cbn. by rewrite IH. }
    rewrite Hf in *. cbn [List.filter]. replace (negb (is_unsafe "/")) with true by done.
    destruct (split_scheme_path c k (List.filter (fun c => negb (is_unsafe c)) (chars p))) as (s & d & E1 & E2).
    rewrite E1 in Hb, Hn. rewrite E2. cbn [snd] in *. by rewrite (split_netloc_path d k _ _ Hn eq_refl).
  - exfalso. apply Hn. rewrite Hc. clear. unfold url_clean. rewrite chars_unchars. destruct k as [|[|k]]; [done..|].
    cbn [repeat break]. replace (negb (is_c0_or_space "/")) with true by done. cbn [snd List.filter].
    replace (negb (is_unsafe "/")) with true by done. unfold split_scheme, partition.
    assert (Hk : forall k, break (Ascii.eqb ":") (repeat "/"%char k) = (repeat "/"%char k, [])).
    { clear. intros k. induction k as [|k IH]; [done|]. cbn [repeat break]. by rewrite IH. }
    assert (Hf : forall k, List.filter (fun c => negb (is_unsafe c)) (repeat "/"%char k) = repeat "/"%char k).
    { clear. intros k. induction k as [|k IH]; [done|]. cbn. by rewrite IH. }
    rewrite Hf. pose proof (Hk (S (S k))) as E. cbn [repeat] in E. rewrite E. cbn [snd]. cbn [split_netloc].
    apply break_slashes.
Qed.
