(* ===== verification/VaultClient.v ===== *)
(** * Service credentials in the vault (admin_api/services/vault_client.py)

    The client of the vault adapter for the credentials of services, and the
    adapter itself (apps/vault-adapter, VaultService and PostgresStore) over
    the table vault.credentials, without the encryption envelope.  The adapter
    works on a connection of its own: what it writes is committed at once, and
    it reads the committed state.  No handler both writes the table and calls
    the adapter. *)

From Stdlib Require QArith_base.
From S2P Require Import Prelude PyStr PyText PyJson PyJsonFacts PyTime PyFloat WireIds AuditHash AuditChain.
From S2P Require Import Vault Tables Database Logic Erasure.

Local Open Scope string_scope.
Local Open Scope py_scope.

Definition _AUTH_SCHEME_MAP : list (string * Z) :=
  [("api_key_header", 1); ("api_key_query", 2); ("bearer_token", 3); ("basic_auth", 4);
   ("oauth2_client_credentials", 5); ("oidc_client_secret", 6); ("mtls", 7); ("oauth2_password_grant", 8);
   ("apple_jwt", 9); ("google_service_account", 10); ("ssh_private_key", 11); ("ssh_ca", 12); ("ssh_password", 13);
   ("email_password", 14); ("email_oauth2", 15); ("email_app_password", 16); ("email_oauth2_client", 17);
   ("http_digest", 18)]%Z.

Definition scheme_number (auth_scheme : string) : Z :=
  default 0%Z (snd <$> List.find (fun kv => String.eqb auth_scheme (fst kv)) _AUTH_SCHEME_MAP).

(** The fields of a PutCredentialRequest besides the tenant and the service. *)
Record put_args := PutArgs {
  pa_scheme : Z; pa_value : string; pa_target_url : string; pa_header_name : string; pa_query_param : string;
  pa_target_address : string; pa_ssh_user : string }.

Record put_reply := PutReply { pr_credential_id : string; pr_key_version : Z; pr_created_at : QArith_base.Q }.

(** ** The adapter *)

Module CredentialAdapter.
Section Adapter.
Context `{E : Env}.

Definition of_service (t s : uuid) (r : vault_row) : bool := N.eqb (vc_tenant_id r) t && N.eqb (vc_service_id r) s.

(** [COALESCE(MAX(key_version), 0) + 1] *)
Definition next_version (t s : uuid) (rows : list vault_row) : Z :=
  (fold_right Z.max 0 (map vc_key_version (List.filter (of_service t s) rows)) + 1)%Z.

Definition demote (t s : uuid) (r : vault_row) : vault_row :=
  if of_service t s r && vc_is_current r then
    VaultRow (vc_tenant_id r) (vc_service_id r) (vc_key_version r) (vc_auth_scheme r) (vc_value r) false (vc_is_revoked r)
      (vc_target_url r) (vc_header_name r) (vc_query_param r) (vc_target_address r) (vc_ssh_user r)
  else r.

Definition new_row (t s : uuid) (version : Z) (a : put_args) : vault_row :=
  VaultRow t s version (pa_scheme a) (pa_value a) true false (pa_target_url a) (pa_header_name a) (pa_query_param a)
    (pa_target_address a) (pa_ssh_user a).

(** [PostgresStore.Put]; the INTEGER column refuses what exceeds it. *)
Definition Put (t s : uuid) (a : put_args) (rows : list vault_row) : outcome (Z * list vault_row) :=
  let version := next_version t s rows in
  if Z.ltb 2147483647 version then Raise (GrpcError "INTERNAL")
  else Ok (version, map (demote t s) rows ++ [new_row t s version a])%list.

(** [VaultService.PutCredential] *)
Definition PutCredential (tenant_id service_id : string) (a : put_args) (rows : list vault_row)
    : outcome (Z * list vault_row) :=
  let size := py_len (pa_value a) in
  if String.eqb tenant_id "" || String.eqb service_id "" || (size =? 0)%nat || (64 * 1024 <? Z.of_nat size)%Z
  then Raise (GrpcError "INTERNAL")
  else match pg_uuid_in tenant_id, pg_uuid_in service_id with
       | Some t, Some s => Put t s a rows
       | _, _ => Raise (GrpcError "INTERNAL")
       end.

(** [PostgresStore.Get] of the current version *)
Definition Get (t s : uuid) (rows : list vault_row) : option vault_row :=
  List.find (fun r => of_service t s r && vc_is_current r) rows.

(** [grpcVaultServer.GetCredential] of the current version; [mint] signs or fetches the token of the
    schemes that store an envelope. *)
Definition GetCredential (mint : Z -> string -> option string) (tenant_id service_id : string) (rows : list vault_row)
    : option credential_reply :=
  t ← pg_uuid_in tenant_id;
  s ← pg_uuid_in service_id;
  r ← Get t s rows;
  if vc_is_revoked r then None
  else if Z.eqb (vc_auth_scheme r) 9 || Z.eqb (vc_auth_scheme r) 10 then
    token ← mint (vc_auth_scheme r) (vc_value r);
    Some (CredentialReply token (vc_auth_scheme r) (vc_key_version r) (vc_header_name r) (vc_query_param r) "" "")
  else
    Some (CredentialReply (vc_value r) (vc_auth_scheme r) (vc_key_version r) (vc_header_name r) (vc_query_param r)
            (vc_target_address r) (vc_ssh_user r)).
End Adapter.
End CredentialAdapter.
Import CredentialAdapter.

(** ** The client *)

Section Client.
Context `{E : Env} `{V : Vault}.

(** The adapter commits its rows, which the open transaction sees from then on. *)
Definition adapter_commit (rows : list vault_row) (w : world) : world :=
  World _ (tb_set vault_credentials_t rows (w_db w)) (tb_set vault_credentials_t rows (w_base w)) (w_tx w) (w_tenant w)
    (w_admin_view w) (w_pending w) (w_sent w) (w_vault w) (w_tick w) (w_proc w).

(** The call of the stub; a failed call may have taken effect. *)
Definition call_put (tenant_id service_id : string) (a : put_args) : M Z := fun w0 =>
  let w := tick w0 in
  match PutCredential tenant_id service_id a (vault_credentials (w_base w)), env_vault_fault (w_tick w) with
  | Ok (version, rows), None => (Ok version, adapter_commit rows w)
  | Ok (_, rows), Some (true, e) => (Raise e, adapter_commit rows w)
  | Ok _, Some (false, e) | Raise _, Some (_, e) => (Raise e, w)
  | Raise e, None => (Raise e, w)
  end.

Definition put_credential (tenant_id service_id auth_scheme plaintext target_url header_name query_param
    target_address ssh_user : string) : M put_reply :=
  let! key_version := call_put tenant_id service_id
    (PutArgs (scheme_number auth_scheme) (utf8 plaintext) target_url header_name query_param target_address ssh_user) in
  let! now := time_time in
  ret (PutReply ("cred_" +:+ py_take 8 tenant_id +:+ "_" +:+ py_take 8 service_id) key_version now).

(** The dict for a reply of the adapter. *)
Definition decoded (c : credential_reply) : credential_reply :=
  CredentialReply (utf8_decode (cr_plaintext c)) (cr_scheme c) (cr_version c) (cr_header_name c) (cr_query_param c)
    (cr_target_address c) (cr_ssh_user c).

(** What a call at the point [n] gets where the data [d] is committed. *)
Definition vault_credential (n : nat) (tenant_id service_id : string) (d : db) : option credential_reply :=
  decoded <$> GetCredential (env_mint n) tenant_id service_id (vault_credentials d).

Definition get_credential (tenant_id service_id : string) : M (option credential_reply) := fun w0 =>
  let w := tick w0 in
  match env_vault_fault (w_tick w) with
  | Some (_, GrpcError _) => (Ok None, w)
  | Some (_, e) => (Raise e, w)
  | None => (Ok (vault_credential (w_tick w) tenant_id service_id (w_base w)), w)
  end.
End Client.

(** ** Rules *)

Section Rules.
Context `{E : Env} `{V : Vault}.

Lemma silent_put_credential t s sc p u h q ta su : silent (put_credential t s sc p u h q ta su).
Proof.
  apply silent_bind; [|intros; apply silent_bind; [done|intros; apply silent_ret]].
  intros w. unfold call_put. by destruct (PutCredential _ _ _ _) as [[? ?]|?], (env_vault_fault _) as [[[] ?]|].
Qed.

Lemma silent_get_credential t s : silent (get_credential t s).
Proof. intros w. unfold get_credential. by destruct (env_vault_fault _) as [[? []]|]. Qed.

(** Reading leaves everything but the counter. *)
Lemma get_credential_eff t s w o w' : get_credential t s w = (o, w') -> w' = tick w.
Proof. unfold get_credential. intros H. by destruct (env_vault_fault _) as [[? []]|]; injection H as _ <-. Qed.

Lemma get_credential_Ok t s w o w' :
  get_credential t s w = (Ok o, w') -> o = None \/ exists n, o = vault_credential n t s (w_base w).
Proof.
  unfold get_credential. destruct (env_vault_fault _) as [[? []]|]; intros H; try discriminate; injection H as <- _; eauto.
Qed.

Section Preservation.
Context (R : relation db) `{!PreOrder R}.

Lemma respects_get_credential G t s : respects R G (get_credential t s).
Proof.
  intros d0 w H. destruct (get_credential t s w) as [o w'] eqn:Eg. apply get_credential_eff in Eg as ->. exact H.
Qed.

(** A put keeps a relation that the new rows keep, on the open transaction's data and on the committed. *)
Lemma respects_put_rule G t s sc p u h q ta su :
  (forall d0 d dbase a v rows, R d0 d -> R d0 dbase -> PutCredential t s a (vault_credentials dbase) = Ok (v, rows) ->
     R d0 (tb_set vault_credentials_t rows d)) ->
  respects R G (put_credential t s sc p u h q ta su).
Proof.
  intros HR. unfold put_credential.
  apply respects_bind; [|intros; apply respects_bind; [apply respects_time|intros; apply respects_ret]].
  intros d0 w Hg. unfold call_put. destruct (PutCredential _ _ _ _) as [[v0 rows]|e] eqn:Ep.
  2: { by destruct (env_vault_fault _) as [[? ?]|]. }
  change (w_base (tick w)) with (w_base w) in Ep.
  assert (Hc : good R G d0 (adapter_commit rows (tick w))).
  { destruct Hg as [Hb Ha]. split; [exact (HR d0 _ _ _ v0 rows Hb Hb Ep)|]. intros Htx.
    destruct (Ha Htx) as [Hd HG]. split; [exact (HR d0 _ _ _ v0 rows Hd Hb Ep)|exact HG]. }
  by destruct (env_vault_fault _) as [[[] ?]|].
Qed.

Lemma respects_put_credential G t s sc p u h q ta su :
  (forall d rows, R d (tb_set vault_credentials_t rows d)) -> respects R G (put_credential t s sc p u h q ta su).
Proof.
  intros HR. apply respects_bind; [|intros; apply respects_bind; [apply respects_time|intros; apply respects_ret]].
  intros d0 w Hg. unfold call_put.
  assert (Hc : forall rows, good R G d0 (adapter_commit rows (tick w))).
  { intros rows. destruct Hg as [Hb Ha]. split; cbn; [by etransitivity; [exact Hb|apply HR]|].
    intros Ht. destruct (Ha Ht) as [Hd Hguc]. split; [by etransitivity; [exact Hd|apply HR]|done]. }
  by destruct (PutCredential _ _ _ _) as [[v rows]|?], (env_vault_fault _) as [[[] ?]|]; cbn [snd].
Qed.
End Preservation.

Lemma blind_get_credential (g : db -> db) t s :
  (forall d, vault_credentials (g d) = vault_credentials d) -> blind g (get_credential t s).
Proof.
  intros Hg w. unfold get_credential. change (w_tick (tick (rewritten g w))) with (w_tick (tick w)).
  change (w_base (tick (rewritten g w))) with (g (w_base w)). unfold vault_credential. rewrite Hg.
  by destruct (env_vault_fault _) as [[? []]|].
Qed.
End Rules.
