(* ===== verification/Templates.v ===== *)
(** * Service templates (admin_api/templates, admin_api/api/service_templates.py)

    The registry of templates and its two read-only endpoints.  The list of
    templates is what [_load_templates] makes of the bundled YAML file. *)

From S2P Require Import Prelude PyStr PyText PyJson PyJsonFacts PyTime WireIds AuditHash Vault Tables Database AgentSecrets.

Local Open Scope string_scope.

Record CredentialHint := MkCredentialHint {
  ch_field : option string; ch_help : option string; ch_format : option string; ch_token_url : option string;
  ch_credential_fields : option (list (string * string)); ch_token_response_path : option string;
  ch_token_request_headers : option (list (string * string)) }.

Inductive template_kind := http_service | email_service.
Definition kind_str (k : template_kind) : string :=
  match k with http_service => "http_service" | email_service => "email_service" end.

Record ServiceTemplate := MkServiceTemplate {
  st_template_id : string; st_kind : template_kind; st_name : string; st_display_name : string; st_description : string;
  st_base_url : option string; st_auth_type : option string; st_openapi_spec_url : option string; st_category : string;
  st_version : string; st_config_notes : option string; st_credential_hint : option CredentialHint;
  st_test_path : option string; st_provider : option string; st_imap_host : option string; st_imap_port : option Z;
  st_smtp_host : option string; st_smtp_port : option Z; st_auth_scheme : option string }.

(** ** The registry *)

Definition has_id (template_id : string) (t : ServiceTemplate) : bool := String.eqb (st_template_id t) template_id.

(** [self._by_id.get(template_id)]: a later template replaces an earlier one of the same identifier. *)
Definition registry_get (templates : list ServiceTemplate) (template_id : string) : option ServiceTemplate :=
  List.find (has_id template_id) (rev templates).

Definition list_all (templates : list ServiceTemplate) (category search : option string) : list ServiceTemplate :=
  let results := match category with
                 | Some c => List.filter (fun t => String.eqb (st_category t) c) templates
                 | None => templates
                 end in
  match search with
  | Some search =>
      let term := lower search in
      List.filter (fun t => py_in term (lower (st_name t)) || py_in term (lower (st_display_name t))
                            || py_in term (lower (st_description t))) results
  | None => results
  end.

(** ** The endpoints *)

Definition _template_to_list_item (t : ServiceTemplate) : dict :=
  ([("template_id", JStr (st_template_id t)); ("kind", JStr (kind_str (st_kind t))); ("name", JStr (st_name t));
    ("display_name", JStr (st_display_name t)); ("description", JStr (st_description t));
    ("base_url", opt_json (st_base_url t)); ("auth_type", opt_json (st_auth_type t));
    ("auth_scheme", opt_json (st_auth_scheme t)); ("openapi_spec_url", opt_json (st_openapi_spec_url t));
    ("category", JStr (st_category t)); ("version", JStr (st_version t))]
   ++ match st_kind t with
      | email_service =>
          [("provider", opt_json (st_provider t)); ("imap_host", opt_json (st_imap_host t));
           ("imap_port", json_opt JInt (st_imap_port t)); ("smtp_host", opt_json (st_smtp_host t));
           ("smtp_port", json_opt JInt (st_smtp_port t))]
      | http_service => []
      end)%list.

Definition text_map (m : list (string * string)) : json := JObj (map (fun kv => (fst kv, JStr (snd kv))) m).

(** The entries whose value is not None. *)
Definition exclude_none (d : list (string * option json)) : dict :=
  flat_map (fun kv => match snd kv with Some v => [(fst kv, v)] | None => [] end) d.

Definition hint_dump (h : CredentialHint) : dict :=
  exclude_none [("field", JStr <$> ch_field h); ("help", JStr <$> ch_help h); ("format", JStr <$> ch_format h);
    ("token_url", JStr <$> ch_token_url h); ("credential_fields", text_map <$> ch_credential_fields h);
    ("token_response_path", JStr <$> ch_token_response_path h);
    ("token_request_headers", text_map <$> ch_token_request_headers h)].

Definition list_templates (registry : list ServiceTemplate) (category search : option string) : response :=
  JSONResponse 200
    [("templates", JArr (map (fun t => JObj (_template_to_list_item t)) (list_all registry category search)))].

Definition template_not_found (template_id : string) : response :=
  problem 404 "template_not_found" ("Template '" +:+ template_id +:+ "' not found").

Definition get_template (registry : list ServiceTemplate) (template_id : string) : response :=
  match registry_get registry template_id with
  | None => template_not_found template_id
  | Some t =>
      JSONResponse 200 (_template_to_list_item t
        ++ [("config_notes", opt_json (st_config_notes t)); ("test_path", opt_json (st_test_path t));
            ("credential_hint", match st_credential_hint t with Some h => JObj (hint_dump h) | None => JNull end)])%list
  end.

(** ** Facts *)

Lemma registry_get_id ts i t : registry_get ts i = Some t -> In t ts /\ st_template_id t = i.
Proof. intros H. apply find_some in H as [H1 H2]. split; [by apply in_rev|]. by apply String.eqb_eq. Qed.

(** Every listed template can be fetched by its identifier. *)
Lemma listed_found ts c s t : In t (list_all ts c s) -> exists t', registry_get ts (st_template_id t) = Some t' /\ st_template_id t' = st_template_id t.
Proof.
  intros H. assert (Hin : In t ts).
  { unfold list_all in H. destruct s, c; repeat (apply filter_In in H as [H _]); done. }
  unfold registry_get. destruct (List.find _ _) as [t'|] eqn:Ef.
  - exists t'. apply find_some in Ef as [_ Ef]. split; [done|]. by apply String.eqb_eq.
  - exfalso. apply in_rev in Hin. pose proof (find_none _ _ Ef t Hin) as Hn. unfold has_id in Hn. by rewrite String.eqb_refl in Hn.
Qed.
