(* ===== verification/SshTest.v ===== *)
(** * The SSH connection test (admin_api/api/_ssh_test.py)

    Dialling an SSH server with an inline credential, and what is answered of
    it.  The connection is recorded with its host, port, user and secret. *)

From Stdlib Require QArith_base.
From S2P Require Import Prelude PyStr PyText PyJson PyJsonFacts PyTime PyFloat PyUrl WireIds AuditHash AuditChain.
From S2P Require Import Vault Tables Database Logic.

Local Open Scope string_scope.
Local Open Scope py_scope.

Definition SSH_SCHEMES : list string := ["ssh_private_key"; "ssh_password"].
Definition is_ssh (auth_scheme : string) : bool := existsb (String.eqb auth_scheme) SSH_SCHEMES.

(** ** Python's text of a value *)

(** [", ".join(parts)] *)
Fixpoint comma_join (parts : list string) : string :=
  match parts with
  | [] => ""
  | [s] => s
  | s :: rest => s +:+ ", " +:+ comma_join rest
  end.

(** [repr(v)] *)
Fixpoint json_repr (j : json) : string :=
  match j with
  | JNull => "None"
  | JBool b => if b then "True" else "False"
  | JInt z => py_str_int z
  | JStr s => py_repr s
  | JArr l => "[" +:+ comma_join (map json_repr l) +:+ "]"
  | JObj kvs => "{" +:+ comma_join (map (fun kv => match kv with (k, v) => py_repr k +:+ ": " +:+ json_repr v end) kvs) +:+ "}"
  end.

(** [str(v)] *)
Definition json_str (j : json) : string := match j with JStr s => s | _ => json_repr j end.

(** ** The pieces of a target *)

(** [s.rsplit(":", 1)] when it has two parts *)
Definition rsplit_colon (s : string) : option (string * string) :=
  match break (Ascii.eqb ":") (rev (chars s)) with
  | (after, _ :: before) => Some (unchars (rev before), unchars (rev after))
  | _ => None
  end.

(** [s.isdigit()]: the superscripts are digits too. *)
Definition py_isdigit (s : string) : bool :=
  negb (String.eqb s "") && forallb (fun c => is_digit c || existsb (N.eqb (code c)) [178; 179; 185]%N) (chars s).

(** [int(s)] of a text of digits; not of superscripts, and not of more than 4300. *)
Definition digits_int (s : string) : outcome Z :=
  if forallb is_digit (chars s) && (py_len s <=? 4300)%nat then Ok (Z.of_N (dec_value (chars s)))
  else Raise (ValueError "invalid literal for int() with base 10").

(** The first line. *)
Definition is_line_end (c : ascii) : bool :=
  let n := code c in ((10 <=? n) && (n <=? 13) || (28 <=? n) && (n <=? 30) || (n =? 133))%N.
Definition first_line (s : string) : string := unchars (fst (break is_line_end (chars s))).

(** ** Exceptions *)

(** [type(exc).__name__] *)
Definition exn_class (e : exn) : string :=
  match e with
  | ValueError _ => "ValueError" | KeyError _ => "KeyError" | TypeError _ => "TypeError"
  | AttributeError _ => "AttributeError" | IndexError _ => "IndexError" | OverflowError _ => "OverflowError"
  | ServiceNotFound _ _ => "ServiceNotFound" | HTTPException _ _ _ => "HTTPException"
  | IntegrityError _ => "IntegrityError" | DBError _ => "DBAPIError" | GrpcError _ => "AioRpcError"
  | RuntimeError s => s
  end.

(** The subclasses of OSError other than TimeoutError *)
Definition _OS_ERRORS : list string :=
  ["OSError"; "BlockingIOError"; "ChildProcessError"; "ConnectionError"; "BrokenPipeError"; "ConnectionAbortedError";
   "ConnectionRefusedError"; "ConnectionResetError"; "FileExistsError"; "FileNotFoundError"; "InterruptedError";
   "IsADirectoryError"; "NotADirectoryError"; "PermissionError"; "ProcessLookupError"; "gaierror"; "herror"].

(** The status and the text for a failed connection. *)
Definition ssh_failure (e : exn) (latency_ms : Z) : Z * string :=
  let name := exn_class e in
  if String.eqb name "PermissionDenied" then (401%Z, "SSH authentication failed")
  else if String.eqb name "TimeoutError" then (504%Z, "SSH test timed out after " +:+ py_str_int latency_ms +:+ "ms")
  else if existsb (String.eqb name) _OS_ERRORS then (502%Z, "SSH connect failed")
  else (502%Z, "SSH test error: " +:+ name).

Definition ssh_result (ok : bool) (status_code latency_ms : Z) (final_url body : string) : dict :=
  [("ok", JBool ok); ("status_code", JInt status_code); ("latency_ms", JInt latency_ms);
   ("final_url", JStr final_url); ("response_body_truncated", JStr body)].

(** [int((now - start) * 1000)] *)
Definition elapsed_ms (start now : QArith_base.Q) : Z :=
  int_of_float (float_mul (float_sub now start) (QArith_base.inject_Z 1000)).

Section Test.
Context `{E : Env} `{V : Vault}.

(** [a or b] *)
Definition py_or (a b : json) : json := if truthy a then a else b.

(** What is dialled: the user and the secret, or the text of the refusal. *)
Definition ssh_login (scheme : string) (cred : dict) : outcome (json * json + string) :=
  let get k := default (JStr "") (dict_get k cred) in
  if String.eqb scheme "ssh_private_key" then
    let username := py_or (get "ssh_user") (get "username") in
    if negb (truthy (get "private_key_pem")) || negb (truthy username)
    then Ok (inr "ssh_private_key credential requires 'private_key_pem' and 'ssh_user'")
    else match get "private_key_pem" with
         | JStr pem => Ok (if env_ssh_key (utf8 pem) then inl (username, JStr pem)
                           else inr "Cannot import private key: invalid PEM format")
         | _ => Raise (AttributeError "encode")
         end
  else
    let username := py_or (get "username") (get "ssh_user") in
    Ok (if negb (truthy username) || negb (truthy (get "password"))
        then inr "ssh_password credential requires 'username' and 'password'"
        else inl (username, get "password")).

(** The address to dial: the credential's, or the one of the base URL. *)
Definition ssh_target (cred : dict) (base_url : string) : outcome string :=
  let raw_target := default (JStr "") (dict_get "target_address" cred) in
  if truthy raw_target then
    match raw_target with JStr s => Ok s | _ => Raise (AttributeError "rsplit") end
  else
    parsed ← urlsplit base_url;
    p ← port parsed;
    let p := match p with Some 0%Z | None => 22%Z | Some p => p end in
    Ok (default "" (hostname parsed) +:+ ":" +:+ py_str_int p).

Definition test_ssh_credential (scheme credential_value base_url : string) (timeout_ms : Z) : M dict :=
  let! start := monotonic in
  match loads credential_value with
  | None => ret (ssh_result false 400 0 base_url "Invalid credential JSON")
  | Some (JObj cred) =>
      let! raw_target := lift (ssh_target cred base_url) in
      let refused := (let! now := monotonic in
        ret (ssh_result false 400 (elapsed_ms start now) base_url
               ("Cannot resolve SSH target \u2014 expected 'host:port', got: " +:+ py_repr raw_target))) in
      match rsplit_colon raw_target with
      | None => refused
      | Some (host, port) =>
          if negb (py_isdigit port) then refused
          else
            let! port := lift (digits_int port) in
            let address := host +:+ ":" +:+ py_str_int port in
            let final_url := "ssh://" +:+ address in
            let! login := lift (ssh_login scheme cred) in
            match login with
            | inr reason =>
                let! now := monotonic in
                ret (ssh_result false 400 (elapsed_ms start now) final_url reason)
            | inl (username, secret) =>
                let! _ := lift (float_of_int timeout_ms) in
                let! outcome := catch (let! b := ssh_connect (SshDial host port username secret) in ret (Ok b))
                                      (fun e => ret (Raise e)) in
                let! now := monotonic in
                let latency_ms := elapsed_ms start now in
                ret (match outcome with
                     | Ok banner =>
                         let banner_line := py_strip (first_line banner) in
                         ssh_result true 200 latency_ms final_url
                           ("SSH connection succeeded as " +:+ json_str username +:+ "@" +:+ address
                            +:+ (if String.eqb banner_line "" then "" else " (banner: " +:+ banner_line +:+ ")"))
                     | Raise e =>
                         let '(status, body) := ssh_failure e latency_ms in
                         ssh_result false status latency_ms final_url body
                     end)
            end
      end
  | Some _ => raise (AttributeError "get")
  end.
End Test.
