(* ===== verification/Proxy.v ===== *)
(** * The credential-injecting proxy of the admin API (admin_api/api/proxy.py)

    A request with a service API key is forwarded to the service's backend
    with the stored credential.  The theorems say for which keys a request is
    forwarded and what of it, and that neither the service nor the actions a
    key was issued for restrict it. *)

From S2P Require Import Prelude PyStr PyText PyCodecs PyJson PyJsonFacts PyTime WireIds AuditHash AuditChain.
From S2P Require Import Vault Tables Database Logic Demo Keys Sessions Erasure VaultClient.

Local Open Scope string_scope.
Local Open Scope py_scope.

(** The parts of the request the proxy reads; the query parameters as the dict it makes of them. *)
Record proxy_request := MkProxyRequest {
  px_method : string; px_authorization : option string; px_query_params : list (string * string); px_body : string }.

(** A JSON answer of the proxy, or the backend's answer: status, body and media type. *)
Inductive proxy_response :=
| ProxyJson (r : response)
| ProxyRaw (status : Z) (body : string) (media_type : option string).

Definition proxy_error (status : Z) (c : string) : proxy_response := ProxyJson (JSONResponse status [("code", JStr c)]).

(** [httpx.ConnectError] and the subclasses of [httpx.TimeoutException] *)
Definition is_unreachable (e : exn) : bool :=
  match e with
  | RuntimeError s => existsb (String.eqb s) ["ConnectError"; "ConnectTimeout"; "ReadTimeout"; "WriteTimeout"; "PoolTimeout"]
  | _ => false
  end.

(** [base_url.rstrip("/")] and [suffix.lstrip("/")], joined *)
Definition target_url (base_url path_suffix : string) : string :=
  let base := rstrip "/" base_url in
  let suffix := lstrip "/" path_suffix in
  if String.eqb suffix "" then base else base +:+ "/" +:+ suffix.

Definition outbound_headers (auth_scheme plaintext : string) : list (string * string) :=
  if String.eqb auth_scheme "basic_auth" then [("Authorization", "Basic " +:+ b64encode (utf8 plaintext))]
  else if String.eqb auth_scheme "bearer_token" then [("Authorization", "Bearer " +:+ plaintext)]
  else if String.eqb auth_scheme "api_key_header" then [("X-Api-Key", plaintext)]
  else [].

(** The request that goes to the backend. *)
Definition forwarded (request : proxy_request) (path_suffix : string) (svc : service_row) (plaintext : string) : backend_request :=
  BackendRequest (px_method request) (target_url (s_base_url svc) path_suffix) (px_query_params request)
    (outbound_headers (s_auth_scheme svc) plaintext)
    (if String.eqb (px_body request) "" then None else Some (px_body request)).

(** The row of the join that authenticates the key. *)
Record key_join := KeyJoin {
  kj_key_hash : string; kj_expires_at : option Z; kj_revoked_at : option Z; kj_tenant_id : uuid }.

Section Proxy.
Context `{E : Env} `{V : Vault} `{Sha : Sha256} `{Arg : Argon2}.

(** [service_api_keys sk JOIN agents a ON a.id = sk.agent_id WHERE sk.key_fingerprint = :fp LIMIT 1] *)
Definition keys_with_fingerprint (fp : string) (pol : uuid -> bool) (d : db) : list key_join :=
  flat_map (fun y => map (fun a => KeyJoin (y_key_hash y) (y_expires_at y) (y_revoked_at y) (a_tenant_id a))
    (List.filter (fun a => N.eqb (a_id a) (y_agent_id y)) (visible agents_t pol d)))
    (List.filter (fun y => String.eqb (y_key_fingerprint y) fp) (visible service_api_keys_t pol d)).

Definition _proxy_call (service_id path_suffix : string) (request : proxy_request) : M proxy_response :=
  let auth_header := default "" (px_authorization request) in
  if negb (startswith auth_header "Bearer ") then ret (proxy_error 401 "mintkey:auth_required")
  else
    let api_key := py_drop (py_len "Bearer ") auth_header in
    let fingerprint := _fingerprint api_key in
    do! execute (fun w => Ok (tt, set_guc (Some nil_uuid_text) true w)) in
    let! rows := query (keys_with_fingerprint fingerprint) in
    match fetchone rows with
    | None => ret (proxy_error 401 "mintkey:invalid_key")
    | Some row =>
        let! v := ph_verify (kj_key_hash row) api_key in
        match v with
        | Rejected => ret (proxy_error 401 "mintkey:invalid_key")
        | InvalidHash => raise (ValueError "InvalidHashError")
        | Unavailable => raise (RuntimeError "MemoryError")
        | Verified =>
            match kj_revoked_at row with
            | Some _ => ret (proxy_error 401 "mintkey:invalid_key")
            | None =>
                let! expired := match kj_expires_at row with
                                | Some e => let! now := now_utc in ret (Z.ltb e now)
                                | None => ret false
                                end in
                if expired : bool then ret (proxy_error 401 "mintkey:invalid_key")
                else
                  let tenant_id := kj_tenant_id row in
                  do! set_tenant_context (uuid_str tenant_id) false in
                  let! sid := bound service_id in
                  let! svcs := select services_t (fun s => N.eqb (s_id s) sid) in
                  match fetchone svcs with
                  | None => ret (proxy_error 401 "mintkey:invalid_key")
                  | Some svc_row =>
                      let! credential := get_credential (uuid_str tenant_id) service_id in
                      match credential with
                      | None => ret (proxy_error 424 "mintkey:credential_unavailable")
                      | Some c =>
                          catch
                            (let! b := http_forward (forwarded request path_suffix svc_row (cr_plaintext c)) in
                             let '(status, body, media_type) := b in
                             ret (ProxyRaw status body media_type))
                            (fun e => if is_unreachable e then ret (proxy_error 502 "mintkey:backend_unavailable") else raise e)
                      end
                  end
            end
        end
    end.

(** The endpoint: its handler in a transaction. *)
Definition proxy_call (service_id path_suffix : string) (request : proxy_request) : M proxy_response :=
  transaction (_proxy_call service_id path_suffix request).
End Proxy.

(** ** What is forwarded *)

Section Forwarding.
Context `{E : Env} `{V : Vault} `{Sha : Sha256} `{Arg : Argon2}.

(** The key [k] authenticates the agent [a] at the database [d] and the instant [now]. *)
Record in_force (d : db) (k : string) (now : Z) (y : api_key_row) (a : agent_row) : Prop := {
  if_key : In y (service_api_keys d);
  if_agent : In a (agents d) /\ a_id a = y_agent_id y;
  if_fingerprint : y_key_fingerprint y = _fingerprint k;
  if_hash : exists n, argon2_verify n (y_key_hash y) k = Verified;
  if_live : y_revoked_at y = None /\ (forall e, y_expires_at y = Some e -> (now <= e)%Z) }.

(** Request [rq] to service [service_id] may be forwarded as [b]: the key of its bearer token is in
    force, the service exists, and the vault has a credential for it in the tenant of the key's agent. *)
Definition may_forward (d : db) (service_id path_suffix : string) (rq : proxy_request) (b : backend_request) : Prop :=
  exists k n y a svc m c,
    px_authorization rq = Some ("Bearer " +:+ k) /\ in_force d k (env_now n) y a /\
    In svc (services d) /\ bind_uuid service_id = Some (s_id svc) /\
    vault_credential m (uuid_str (a_tenant_id a)) service_id d = Some c /\
    b = forwarded rq path_suffix svc (cr_plaintext c).

(** [m] forwards nothing. *)
Definition quiet_backend {A} (m : M A) : Prop := forall w, p_forwarded (w_proc (snd (m w))) = p_forwarded (w_proc w).

Lemma silent_quiet {A} (m : M A) : silent m -> quiet_backend m.
Proof. intros H w. by rewrite H. Qed.

Lemma quiet_verify h s : quiet_backend (ph_verify h s). Proof. done. Qed.

(** [m], started at [w], leaves the forwarded requests as they were, or adds one that satisfies [P]. *)
Definition forwards {A} (P : backend_request -> Prop) (w : world) (m : M A) : Prop :=
  let w' := snd (m w) in
  p_forwarded (w_proc w') = p_forwarded (w_proc w) \/
  exists b, p_forwarded (w_proc w') = (p_forwarded (w_proc w) ++ [b])%list /\ P b.

Lemma forwards_ret {A} P w (a : A) : forwards P w (ret a). Proof. by left. Qed.
Lemma forwards_raise {A} P w e : forwards P w (raise e : M A). Proof. by left. Qed.

Lemma forwards_bind {A B} P (m : M A) (k : A -> M B) w :
  quiet_backend m -> (forall a w1, m w = (Ok a, w1) -> forwards P w1 (k a)) -> forwards P w (bind m k).
Proof.
  intros Hm Hk. specialize (Hm w). unfold forwards, bind. destruct (m w) as [[a|e] w1]; cbn [snd] in *; [|by left].
  rewrite <- Hm. by apply (Hk a w1).
Qed.

Lemma forwards_assoc {A B C} P (m : M A) (k : A -> M B) (h : B -> M C) w :
  forwards P w (bind m (fun a => bind (k a) h)) -> forwards P w (bind (bind m k) h).
Proof. unfold forwards. by rewrite bind_assoc. Qed.

(** The request that is forwarded, in the transaction of the handler. *)
Lemma proxy_forwards service_id path_suffix rq w :
  w_base w = w_db w -> forwards (may_forward (w_db w) service_id path_suffix rq) w (_proxy_call service_id path_suffix rq).
Proof.
  intros B0. unfold _proxy_call. destruct (startswith (default "" (px_authorization rq)) "Bearer ") eqn:Eh; cbn [negb]; [|apply forwards_ret].
  apply startswith_spec in Eh as [k Ek]. rewrite Ek, py_drop_app.
  assert (Hauth : px_authorization rq = Some ("Bearer " +:+ k)).
  { destruct (px_authorization rq) as [h|]; cbn in Ek; [by subst h|discriminate]. }
  apply forwards_bind; [apply silent_quiet, silent_execute; by intros w0 a w' [= <- <-]|intros u w1 H].
  apply execute_Ok in H as [_ [= _ <-]]. set (w1 := set_guc _ _ _). assert (D1 : w_db w1 = w_db w) by done.
  assert (B1 : w_base w1 = w_db w) by done. clearbody w1.
  apply forwards_bind; [apply silent_quiet, silent_query|intros rows w2 H].
  apply query_eff in H as ([B2 _ _ _] & _ & D2 & pol & _ & Hrows). rewrite D1 in *. rewrite B1 in B2.
  destruct (fetchone rows) as [row|] eqn:Ef; [|apply forwards_ret].
  assert (Hrow : exists y a, In y (service_api_keys (w_db w)) /\ In a (agents (w_db w)) /\ a_id a = y_agent_id y /\
    y_key_fingerprint y = _fingerprint k /\ row = KeyJoin (y_key_hash y) (y_expires_at y) (y_revoked_at y) (a_tenant_id a)).
  { unfold fetchone in Ef. apply head_Some in Ef as [tl Ef]. assert (Hin : In row rows) by (rewrite Ef; by left).
    rewrite Hrows in Hin. apply in_flat_map in Hin as (y & Hy & Hin). apply in_map_iff in Hin as (a & <- & Ha).
    apply filter_In in Hy as [Hy Hfp]. apply filter_In in Hy as [Hy _]. apply filter_In in Ha as [Ha Hid].
    apply filter_In in Ha as [Ha _]. apply String.eqb_eq in Hfp. apply N.eqb_eq in Hid. by exists y, a. }
  destruct Hrow as (y & a & Hy & Ha & Hid & Hfp & ->). cbn [kj_key_hash kj_expires_at kj_revoked_at kj_tenant_id].
  apply forwards_bind; [apply quiet_verify|intros v w3 H]. apply ph_verify_eff in H as ([B3 _ _ _] & _ & D3 & Hv).
  destruct v; try first [apply forwards_ret | apply forwards_raise].
  destruct (y_revoked_at y) eqn:Erev; [apply forwards_ret|].
  assert (Hbody : forall n w4, (forall e, y_expires_at y = Some e -> (env_now n <= e)%Z) -> w_db w4 = w_db w -> w_base w4 = w_db w ->
    forwards (may_forward (w_db w) service_id path_suffix rq) w4 (
      do! set_tenant_context (uuid_str (a_tenant_id a)) false in
      let! sid := bound service_id in
      let! svcs := select services_t (fun s => N.eqb (s_id s) sid) in
      match fetchone svcs with
      | None => ret (proxy_error 401 "mintkey:invalid_key")
      | Some svc_row =>
          let! credential := get_credential (uuid_str (a_tenant_id a)) service_id in
          match credential with
          | None => ret (proxy_error 424 "mintkey:credential_unavailable")
          | Some c =>
              catch
                (let! b := http_forward (forwarded rq path_suffix svc_row (cr_plaintext c)) in
                 let '(status, body, media_type) := b in
                 ret (ProxyRaw status body media_type))
                (fun e => if is_unreachable e then ret (proxy_error 502 "mintkey:backend_unavailable") else raise e)
          end
      end)).
  { intros n w4 Hexp D4 B4. apply forwards_bind; [apply silent_quiet, silent_set_tenant|intros u2 w5 H].
    apply set_tenant_eff in H as (_ & B5 & _ & D5 & _). apply forwards_bind; [apply silent_quiet, silent_bound|intros sid w6 H].
    apply bound_Ok in H as [Hsid ->]. apply forwards_bind; [apply silent_quiet, silent_select|intros svcs w7 H].
    apply select_eff in H as ([B6 _ _ _] & _ & _ & pol2 & _ & ->). rewrite D5, D4.
    unfold fetchone. rewrite head_filter_find. destruct (List.find _ _) as [svc|] eqn:Es; [|apply forwards_ret].
    apply List.find_some in Es as [Hsvc Hse]. apply andb_true_iff in Hse as [_ Hse]. apply N.eqb_eq in Hse.
    apply forwards_bind; [apply silent_quiet, silent_get_credential|intros c w8 H]. apply get_credential_Ok in H as [->|[m Hc]]; [apply forwards_ret|].
    rewrite B6, B5, B4 in Hc. destruct c as [c|]; [|apply forwards_ret]. right. exists (forwarded rq path_suffix svc (cr_plaintext c)). split.
    - unfold catch, bind, http_forward. destruct (env_backend _) as [[[st b] mt]|e]; [done|]. by destruct (is_unreachable e).
    - exists k, n, y, a, svc, m, c. rewrite Hse. repeat split; try done. by exists (w_tick w2). }
  destruct (y_expires_at y) as [e|] eqn:Ee.
  - apply forwards_assoc.
    apply forwards_bind; [by apply silent_quiet|intros now w4 H]. apply now_Ok in H as [-> ->]. rewrite bind_ret.
    destruct (Z.ltb_spec e (env_now (w_tick w3))) as [|Hle]; [apply forwards_ret|]. apply (Hbody (w_tick w3)); [|cbn [tick w_db w_base]; congruence..].
    intros e' [= <-]. exact Hle.
  - rewrite bind_ret. apply (Hbody 0%nat); [done|congruence..].
Qed.

Lemma proxy_base service_id path_suffix rq w : w_base w = w_base (snd (proxy_call service_id path_suffix rq w)).
Proof.
  apply (transaction_safe eq), safe_any. unfold _proxy_call. destruct (negb _); [apply respects_ret|].
  apply respects_bind; [apply respects_any_guc; by intros w0 a w' [= <- <-]|intros _].
  apply respects_bind; [apply respects_query, _|intros rows]. destruct (fetchone rows) as [row|]; [|apply respects_ret].
  apply respects_bind; [apply respects_ph_verify, _|intros []]; try first [apply respects_ret | apply respects_raise].
  destruct (kj_revoked_at row); [apply respects_ret|]. apply respects_bind.
  { destruct (kj_expires_at row); [|apply respects_ret]. apply respects_bind; [apply respects_now|intros; apply respects_ret]. }
  intros []; [apply respects_ret|]. apply respects_bind.
  { unfold set_tenant_context. apply respects_bind; [|intros; apply respects_ret].
    apply respects_any_guc. by intros w0 a w' [= <- <-]. }
  intros _. apply respects_bind; [apply respects_bound|intros sid]. apply respects_bind; [apply respects_select, _|intros svcs].
  destruct (fetchone svcs); [|apply respects_ret]. apply respects_bind; [apply respects_get_credential|intros [c|]]; [|apply respects_ret].
  apply respects_catch; [|intros e; destruct (is_unreachable e); [apply respects_ret|apply respects_raise]].
  apply respects_bind; [apply respects_http_forward|intros [[st b] mt]]. apply respects_ret.
Qed.
End Forwarding.

(** ** The scope of a key *)

(** Gives every API key the service, the actions and the constraints of the choice. *)
Definition rescope (sv : api_key_row -> uuid) (acts : api_key_row -> list string) (cs : api_key_row -> option json)
    (y : api_key_row) : api_key_row :=
  {| y_id := y_id y; y_tenant_id := y_tenant_id y; y_agent_id := y_agent_id y; y_service_id := sv y;
     y_key_hash := y_key_hash y; y_key_fingerprint := y_key_fingerprint y; y_allowed_actions := acts y;
     y_constraints := cs y; y_expires_at := y_expires_at y; y_last_used_at := y_last_used_at y;
     y_revoked_at := y_revoked_at y; y_revoke_reason := y_revoke_reason y; y_created_at := y_created_at y;
     y_created_by := y_created_by y |}.

(** And every agent the status of the choice. *)
Definition restatus (st : agent_row -> string) (a : agent_row) : agent_row :=
  {| a_id := a_id a; a_tenant_id := a_tenant_id a; a_name := a_name a; a_description := a_description a;
     a_api_key_hash := a_api_key_hash a; a_api_key_fingerprint := a_api_key_fingerprint a;
     a_mcp_endpoint := a_mcp_endpoint a; a_status := st a; a_rate_limit_rps := a_rate_limit_rps a;
     a_created_at := a_created_at a; a_updated_at := a_updated_at a; a_api_key_expires_at := a_api_key_expires_at a;
     a_api_key_version := a_api_key_version a; a_api_key_last_rotated_at := a_api_key_last_rotated_at a;
     a_ssh_pubkey := a_ssh_pubkey a |}.

Definition rescoped sv acts cs st (d : db) : db :=
  tb_set agents_t (map (restatus st) (agents d)) (tb_set service_api_keys_t (map (rescope sv acts cs) (service_api_keys d)) d).

Section Scope.
Context `{E : Env} `{V : Vault} `{Sha : Sha256} `{Arg : Argon2}.
Context (sv : api_key_row -> uuid) (acts : api_key_row -> list string) (cs : api_key_row -> option json) (st : agent_row -> string).
Local Abbreviation g := (rescoped sv acts cs st).
Local Abbreviation blind := (blind g).

#[local] Instance services_unread : Unread g services_t.
Proof. split; intros; by repeat match goal with d : db |- _ => destruct d end. Qed.

Lemma filter_map_same {A} (p : A -> bool) (h : A -> A) l : (forall x, p (h x) = p x) ->
  List.filter p (map h l) = map h (List.filter p l).
Proof. intros Hp. induction l as [|x l IH]; [done|]. cbn [map List.filter]. rewrite Hp. destruct (p x); cbn [map]; by rewrite IH. Qed.

Lemma keys_rescoped fp pol d : keys_with_fingerprint fp pol (g d) = keys_with_fingerprint fp pol d.
Proof.
  unfold keys_with_fingerprint, visible.
  change (tb_get agents_t (g d)) with (map (restatus st) (agents d)).
  change (tb_get service_api_keys_t (g d)) with (map (rescope sv acts cs) (service_api_keys d)).
  rewrite !(filter_map_same _ (rescope sv acts cs)) by done.
  rewrite (filter_map_same (sees agents_t pol) (restatus st)) by done.
  induction (List.filter (fun y => String.eqb (y_key_fingerprint y) fp) _) as [|y l IH]; [done|].
  cbn [map flat_map]. rewrite IH. f_equal. rewrite filter_map_same by done. rewrite map_map. done.
Qed.

Lemma blind_call service_id path_suffix rq : blind (_proxy_call service_id path_suffix rq).
Proof.
  unfold _proxy_call. destruct (negb _); [apply blind_ret|].
  apply blind_bind; [apply blind_guc|intros _]. apply blind_bind.
  { apply blind_execute. intros w. rewrite policy_erase. destruct (policy w); [|done]. cbn [mbind outcome_bind].
    change (w_db (rewritten g w)) with (g (w_db w)). by rewrite keys_rescoped. }
  intros rows. destruct (fetchone rows) as [row|]; [|apply blind_ret].
  apply blind_bind; [done|intros []]; try first [apply blind_ret | apply blind_raise].
  destruct (kj_revoked_at row); [apply blind_ret|]. apply blind_bind.
  { destruct (kj_expires_at row); [|apply blind_ret]. apply blind_bind; [apply blind_now|intros; apply blind_ret]. }
  intros []; [apply blind_ret|]. apply blind_bind.
  { unfold set_tenant_context. apply blind_bind; [|intros; apply blind_ret]. by apply blind_execute. }
  intros _. apply blind_bind; [apply blind_bound|intros sid]. apply blind_bind; [apply blind_select, _|intros svcs].
  destruct (fetchone svcs); [|apply blind_ret]. apply blind_bind; [by apply blind_get_credential|intros [c|]]; [|apply blind_ret].
  apply blind_catch; [|intros e; destruct (is_unreachable e); [apply blind_ret|apply blind_raise]].
  apply blind_bind; [done|intros [[sc b] mt]]. apply blind_ret.
Qed.
End Scope.

(** ** Properties *)

Section Properties.
Context `{E : Env} `{V : Vault} `{Sha : Sha256} `{Arg : Argon2}.


(** A key is not bound to its service.  The outcome of a proxy call, the forwarded request included,
    does not depend on the service, the allowed actions and the constraints the key was issued with,
    nor on the status of its agent: whatever these columns of the stored keys and agents are changed
    to, the answer and the requests forwarded are the same. *)
Theorem proxy_ignores_key_scope sv acts cs st service_id path_suffix rq w :
  let '(o, w1) := proxy_call service_id path_suffix rq w in
  exists w2, proxy_call service_id path_suffix rq (rewritten (rescoped sv acts cs st) w) = (o, w2) /\
    p_forwarded (w_proc w2) = p_forwarded (w_proc w1).
Proof.
  pose proof (blind_transaction (rescoped sv acts cs st) _ (blind_call sv acts cs st service_id path_suffix rq) w) as H.
  unfold proxy_call. destruct (transaction _ w) as [o w1]. eexists. split; [exact H|done].
Qed.
End Properties.
