(* ===== verification/Operators.v ===== *)
(** * Operators (admin_api/api/operators.py)

    The platform administrator's endpoints on the operators of all tenants:
    listing, promotion, update and deactivation, each write with an audit
    event in the operator's home tenant. *)

From S2P Require Import Prelude PyStr PyJson PyJsonFacts PyTime WireIds AuditHash AuditChain.
From S2P Require Import Like Vault Tables Database Logic Demo Keys Sessions AuditEmit AgentSecrets Tenants.

Local Open Scope string_scope.
Local Open Scope py_scope.

Record CreateOperatorRequest := MkCreateOperator {
  co_email : string; co_tenant_id : string; co_display_name : option string; co_oidc_sub : option string;
  co_is_platform_admin : bool }.

(** [status] is "active" or "disabled": the type of the field refuses anything else. *)
Inductive operator_status := Active | Disabled.
Definition status_text (s : operator_status) : string := match s with Active => "active" | Disabled => "disabled" end.

Record UpdateOperatorRequest := MkUpdateOperator {
  uo_display_name : option string; uo_is_platform_admin : option bool; uo_status : option operator_status }.

Definition _operator_row_to_dict (row : operator_row) : dict :=
  [("id", JStr (wire (o_id row) "op")); ("tenant_id", JStr (wire (o_tenant_id row) "tenant"));
   ("email", JStr (o_email row)); ("display_name", opt_json (o_display_name row));
   ("oidc_sub", opt_json (o_oidc_sub row)); ("oidc_provider", opt_json (o_oidc_provider row));
   ("is_platform_admin", JBool (o_is_platform_admin row)); ("status", JStr (o_status row));
   ("created_at", JStr (isoformat_utc (o_created_at row)))].

Definition _actor_id (ctx : option session_ctx) : option uuid := ctx_operator_id <$> ctx.

Definition operator_not_found : response := problem 404 "not_found" "Operator not found".
Definition invalid_operator_id : response := problem 422 "invalid_id" "Invalid operator_id".
Definition invalid_tenant_id : response := problem 422 "invalid_id" "Invalid tenant_id".
Definition duplicate_operator : response :=
  problem 409 "duplicate_resource" "An operator with this email or oidc_sub already exists".

Definition by_creation : list operator_row -> list operator_row :=
  sort_by (fun a b => Z.leb (o_created_at a) (o_created_at b)).

(** [display_name = COALESCE(..), is_platform_admin = COALESCE(..), status = COALESCE(..)] *)
Definition coalesce_operator (body : UpdateOperatorRequest) (o : operator_row) : operator_row :=
  {| o_id := o_id o; o_tenant_id := o_tenant_id o; o_email := o_email o;
     o_display_name := match uo_display_name body with Some n => Some n | None => o_display_name o end;
     o_internal_password_hash := o_internal_password_hash o; o_oidc_sub := o_oidc_sub o;
     o_oidc_provider := o_oidc_provider o;
     o_is_platform_admin := coalesce (uo_is_platform_admin body) (o_is_platform_admin o);
     o_status := coalesce (status_text <$> uo_status body) (o_status o); o_created_at := o_created_at o |}.

Definition set_disabled (o : operator_row) : operator_row :=
  {| o_id := o_id o; o_tenant_id := o_tenant_id o; o_email := o_email o; o_display_name := o_display_name o;
     o_internal_password_hash := o_internal_password_hash o; o_oidc_sub := o_oidc_sub o;
     o_oidc_provider := o_oidc_provider o; o_is_platform_admin := o_is_platform_admin o; o_status := "disabled";
     o_created_at := o_created_at o |}.

(** The names of the fields that are given. *)
Definition fields_changed (body : UpdateOperatorRequest) : list json :=
  ((if uo_display_name body then [JStr "display_name"] else []) ++
   (if uo_is_platform_admin body then [JStr "is_platform_admin"] else []) ++
   (if uo_status body then [JStr "status"] else []))%list.

(** [body.display_name or body.email] *)
Definition username (body : CreateOperatorRequest) : string :=
  match co_display_name body with Some "" | None => co_email body | Some n => n end.

Section Operators.
Context `{E : Env} `{V : Vault} `{Sha : Sha256}.

Definition operators_rls : M unit := execute (fun w => Ok (tt, set_guc (Some nil_uuid_text) true w)).

Definition varchar_opt (n : nat) (o : option string) : M unit :=
  match o with Some s => varchar n s | None => ret tt end.

Definition list_operators (q tenant_id : option string) : M response :=
  do! operators_rls in
  let run (tenant_uuid : option string) : M response :=
    let! t := bound_opt tenant_uuid in
    let! rows := select operators_t (fun o =>
      match t with Some t => N.eqb (o_tenant_id o) t | None => true end
      && match q with
         | Some q => ilike env_fold (search_pattern q) (o_email o)
                     || match o_display_name o with Some n => ilike env_fold (search_pattern q) n | None => false end
         | None => true
         end) in
    ret (JSONResponse 200 [("data", JArr (map (fun r => JObj (_operator_row_to_dict r)) (by_creation rows)));
                           ("next_cursor", JNull)]) in
  match tenant_id with
  | None => run None
  | Some s => try_value (Admin.wire_to_db_uuid s "tenant") (ret invalid_tenant_id) (fun u => run (Some u))
  end.

(** The row the INSERT returns; [None] after an IntegrityError. *)
Definition insert_operator (sql_now : Z) (tenant_uuid : string) (body : CreateOperatorRequest) : M (option operator_row) :=
  catch
    (let! id := uuid4 in
     let! t := bound tenant_uuid in
     do! varchar 256 (co_email body) in
     do! varchar_opt 256 (co_display_name body) in
     let row := {| o_id := id; o_tenant_id := t; o_email := co_email body; o_display_name := co_display_name body;
                   o_internal_password_hash := None; o_oidc_sub := co_oidc_sub body; o_oidc_provider := None;
                   o_is_platform_admin := co_is_platform_admin body; o_status := "active"; o_created_at := sql_now |} in
     do! insert_into operators_t row in
     ret (Some row))
    (fun e => match e with IntegrityError _ => ret None | _ => raise e end).

Definition create_operator (ctx : option session_ctx) (body : CreateOperatorRequest) : M response :=
  let! sql_now := transaction_timestamp in
  do! operators_rls in
  try_value (Admin.wire_to_db_uuid (co_tenant_id body) "tenant") (ret invalid_tenant_id) (fun tenant_uuid =>
  let! row := insert_operator sql_now tenant_uuid body in
  match row with
  | None => ret duplicate_operator
  | Some row =>
      let! tenant_id_uuid := lift (UUID tenant_uuid) in
      let! oid := bound (uuid_str (o_id row)) in
      let! t := bound tenant_uuid in
      do! insert_ignore operator_tenant_memberships_t
        (fun r => N.eqb (om_operator_id r) oid && N.eqb (om_tenant_id r) t)
        (MembershipRow oid t "Admin" sql_now) in
      do! audit_emit tenant_id_uuid "operator.created" (_actor_id ctx) "platform_admin" (Some (VUUID (o_id row)))
        (Some "operator")
        [("operator_id", JStr (wire (o_id row) "operator")); ("username", JStr (username body));
         ("email", JStr (co_email body)); ("platform_admin", JBool (co_is_platform_admin body))] in
      ret (JSONResponse 201 (_operator_row_to_dict row))
  end).

Definition operator_by_id (operator_uuid : string) : M (option operator_row) :=
  let! oid := bound operator_uuid in
  let! rows := select operators_t (fun o => N.eqb (o_id o) oid) in
  ret (fetchone rows).

Definition update_operator (ctx : option session_ctx) (operator_id : string) (body : UpdateOperatorRequest) : M response :=
  try_value (Admin.wire_to_db_uuid operator_id "op") (ret invalid_operator_id) (fun operator_uuid =>
  do! operators_rls in
  let! row := operator_by_id operator_uuid in
  match row with
  | None => ret operator_not_found
  | Some row =>
      let! oid := bound operator_uuid in
      do! varchar_opt 256 (uo_display_name body) in
      let! updated := update_returning operators_t (fun o => N.eqb (o_id o) oid) (coalesce_operator body) in
      match fetchone updated with
      | None => raise (RuntimeError "AssertionError")
      | Some updated_row =>
          do! audit_emit (o_tenant_id row) "operator.updated" (_actor_id ctx) "platform_admin" (Some (VUUID (o_id row)))
            (Some "operator")
            [("operator_id", JStr (wire (o_id row) "operator")); ("fields_changed", JArr (fields_changed body))] in
          ret (JSONResponse 200 (_operator_row_to_dict updated_row))
      end
  end).

Definition delete_operator (ctx : option session_ctx) (operator_id : string) : M response :=
  try_value (Admin.wire_to_db_uuid operator_id "op") (ret invalid_operator_id) (fun operator_uuid =>
  do! operators_rls in
  let! row := operator_by_id operator_uuid in
  match row with
  | None => ret operator_not_found
  | Some row =>
      do! (if String.eqb (o_status row) "disabled" then ret tt
           else
             let! oid := bound operator_uuid in
             do! update_where operators_t (fun o => N.eqb (o_id o) oid) set_disabled in
             audit_emit (o_tenant_id row) "operator.deleted" (_actor_id ctx) "platform_admin" (Some (VUUID (o_id row)))
               (Some "operator") [("operator_id", JStr (wire (o_id row) "operator"))]) in
      ret (EmptyResponse 204)
  end).

(** ** The router *)

Inductive operators_request :=
| ListOperators (q tenant_id : option string)
| PostOperator (body : CreateOperatorRequest)
| PatchOperator (operator_id : string) (body : UpdateOperatorRequest)
| DeleteOperator (operator_id : string).

Definition operators_handler (ctx : option session_ctx) (rq : operators_request) : M response :=
  match rq with
  | ListOperators q t => list_operators q t
  | PostOperator body => create_operator ctx body
  | PatchOperator oid body => update_operator ctx oid body
  | DeleteOperator oid => delete_operator ctx oid
  end.

Definition operators_router (cookie : option string) (rq : operators_request) : M response :=
  do! require_platform_admin_session cookie in
  let! ctx := match rq with ListOperators _ _ => ret None | _ => get_session_context cookie end in
  transaction (operators_handler ctx rq).
End Operators.
