(* ===== verification/Services.v ===== *)
(** * The service registry (admin_api/api/services.py)

    Registration of services, directly and from a template, their listing,
    update and deletion, and the test calls, which go out over HTTP or SSH
    with an inline credential or with the stored one. *)

From Stdlib Require QArith_base.
From S2P Require Import Prelude PyStr PyText PyJson PyJsonFacts PyTime PyFloat PyUrl WireIds AuditHash AuditChain.
From S2P Require Import Like Vault Tables Database Logic Ulid Keys Sessions AuditEmit AgentSecrets.
From S2P Require Import Ssrf VaultClient Templates SshTest Proxy Operators.

Local Open Scope string_scope.
Local Open Scope py_scope.

(** ** Requests *)

Record ServiceCreate := MkServiceCreate {
  sc_name : string; sc_base_url : string; sc_auth_scheme : string; sc_display_name : option string;
  sc_description : option string; sc_openapi_url : option string }.

Record ServiceUpdate := MkServiceUpdate {
  su_name : option string; su_base_url : option string; su_auth_scheme : option string;
  su_display_name : option string; su_description : option string; su_openapi_url : option string;
  su_status : option string }.

Record ServiceOverrides := MkServiceOverrides {
  so_name : option string; so_display_name : option string; so_description : option string; so_base_url : option string }.

Record FromTemplateRequest := MkFromTemplateRequest { ft_template_id : string; ft_overrides : option ServiceOverrides }.

Record TestRunRequest := MkTestRunRequest {
  tr_method : string; tr_path : string; tr_headers : option (list (string * string)); tr_body : option string;
  tr_timeout_ms : option Z }.
Definition default_test_run : TestRunRequest := MkTestRunRequest "GET" "/health" None None (Some 5000%Z).

(** TransientTestRequest: the candidate service, its credential and the call. *)
Record TransientTestRequest := MkTransientTestRequest {
  tt_base_url : string; tt_auth_scheme : string; tt_value : string; tt_header_name : option string;
  tt_query_param : option string; tt_method : string; tt_path : string; tt_headers : option (list (string * string));
  tt_body : option string; tt_timeout_ms : Z }.

(** ** Pieces *)

(** [name.lower().replace(" ", "-")] *)
Definition slug_of (name : string) : string := replace_char " " "-" (lower name).

Definition _forbidden_response : response :=
  problem 422 "forbidden_destination" "The base_url resolves to a forbidden destination".
Definition service_not_found : response := problem 404 "not_found" "Service not found".

(** A row with the greatest version of its active credentials. *)
Definition _service_row_to_dict (row : service_row * Z) : dict :=
  let '(s, current_key_version) := row in
  ([("id", JStr (wire (s_id s) "svc")); ("tenant_id", JStr (uuid_str (s_tenant_id s))); ("name", JStr (s_name s));
    ("slug", JStr (s_slug s)); ("display_name", opt_json (s_display_name s)); ("description", opt_json (s_description s));
    ("base_url", JStr (s_base_url s)); ("auth_scheme", JStr (s_auth_scheme s)); ("openapi_url", opt_json (s_openapi_url s));
    ("status", JStr (s_status s)); ("current_key_version", JInt current_key_version);
    ("created_at", JStr (isoformat_utc (s_created_at s))); ("updated_at", JStr (isoformat_utc (s_updated_at s)))]
   ++ match s_template_id s with Some t => [("template_id", JStr t)] | None => [] end)%list.

(** The URL of a test call. *)
Definition test_url (base_url path : string) : string :=
  rstrip "/" base_url +:+ (if startswith path "/" then path else "/" +:+ path).

(** The header with the credential, and the URL with it for the scheme that puts it there. *)
Definition test_auth (auth_scheme plaintext header_name query_param final_url : string) : list (string * string) * string :=
  if String.eqb auth_scheme "bearer_token" then ([("Authorization", "Bearer " +:+ plaintext)], final_url)
  else if String.eqb auth_scheme "api_key_header" then
    ([(if String.eqb header_name "" then "X-API-Key" else header_name, plaintext)], final_url)
  else if String.eqb auth_scheme "api_key_query" then
    let query_param := if String.eqb query_param "" then "api_key" else query_param in
    let separator := if py_in "?" final_url then "&" else "?" in
    ([], final_url +:+ separator +:+ query_param +:+ "=" +:+ plaintext)
  else ([], final_url).

(** [{**a, **b}] *)
Fixpoint text_set (k v : string) (d : list (string * string)) : list (string * string) :=
  match d with
  | [] => [(k, v)]
  | (k', v') :: d' => if String.eqb k k' then (k', v) :: d' else (k', v') :: text_set k v d'
  end.
Definition merge_headers (a b : list (string * string)) : list (string * string) :=
  fold_left (fun acc kv => text_set (fst kv) (snd kv) acc) b a.

(** [httpx.TimeoutException] *)
Definition is_timeout (e : exn) : bool :=
  match e with
  | RuntimeError s => existsb (String.eqb s) ["TimeoutException"; "ConnectTimeout"; "ReadTimeout"; "WriteTimeout"; "PoolTimeout"]
  | _ => false
  end.

Definition coalesce {A} (o : option A) (a : A) : A := default a o.
Definition coalesce_opt {A} (o : option A) (a : option A) : option A := match o with Some _ => o | None => a end.

(** The SET clause of the update. *)
Definition apply_update (body : ServiceUpdate) (now : Z) (s : service_row) : service_row :=
  ServiceRow (s_id s) (s_tenant_id s) (coalesce (su_name body) (s_name s)) (s_slug s)
    (coalesce_opt (su_display_name body) (s_display_name s)) (coalesce_opt (su_description body) (s_description s))
    (coalesce (su_base_url body) (s_base_url s)) (coalesce (su_auth_scheme body) (s_auth_scheme s))
    (coalesce_opt (su_openapi_url body) (s_openapi_url s)) (coalesce (su_status body) (s_status s)) (s_template_id s)
    (s_created_at s) now (s_current_key_version s) (s_openapi_etag s).

Definition set_target_address (a : string) (r : vault_row) : vault_row :=
  VaultRow (vc_tenant_id r) (vc_service_id r) (vc_key_version r) (vc_auth_scheme r) (vc_value r) (vc_is_current r)
    (vc_is_revoked r) (vc_target_url r) (vc_header_name r) (vc_query_param r) a (vc_ssh_user r).

Section Services.
Context `{E : Env} `{V : Vault} `{Sha : Sha256}.

Definition _new_svc_id : M string := new_id "svc_".

Definition _wire_id_to_db_uuid (wire_id : string) : outcome string := Admin.wire_to_db_uuid wire_id "svc".

(** The INSERT of both ways to register a service; a missing scheme violates NOT NULL. *)
Definition insert_service (internal_id tenant_id : uuid) (name slug : string) (display_name description : option string)
    (base_url : string) (auth_scheme openapi_url template_id : option string) (now : Z) : M unit :=
  let! id := bound (uuid_str internal_id) in
  let! tid := bound (uuid_str tenant_id) in
  do! varchar 256 name in do! varchar 128 slug in do! varchar_opt 256 display_name in
  do! varchar_opt 64 auth_scheme in do! varchar_opt 128 template_id in
  match auth_scheme with
  | None => execute (fun _ => Raise (IntegrityError "services_auth_scheme_not_null"))
  | Some auth_scheme =>
      insert_into services_t (ServiceRow id tid name slug display_name description base_url auth_scheme openapi_url
        "active" template_id now now 1 None)
  end.

Definition create_service (tenant_id : uuid) (body : ServiceCreate) : M response :=
  let! forbidden := _is_forbidden_destination (sc_base_url body) in
  if forbidden : bool then ret _forbidden_response
  else
    do! set_tenant_context (uuid_str tenant_id) false in
    let! svc_id := _new_svc_id in
    let! internal_id := lift (ulid_uuid svc_id "svc_") in
    let! now := now_utc in
    let slug := slug_of (sc_name body) in
    do! insert_service internal_id tenant_id (sc_name body) slug (sc_display_name body) (sc_description body)
      (sc_base_url body) (Some (sc_auth_scheme body)) (sc_openapi_url body) None now in
    do! audit_emit tenant_id "service.registered" None "operator" (Some (VUUID internal_id)) (Some "service")
      [("name", JStr (sc_name body)); ("auth_scheme", JStr (sc_auth_scheme body)); ("svc_id", JStr svc_id)] in
    do! notify_change "mintkey:service"
      [("event", JStr "service.registered"); ("tenant_id", JStr (uuid_str tenant_id)); ("service_id", JStr svc_id)] in
    ret (JSONResponse 201
      [("id", JStr svc_id); ("tenant_id", JStr (uuid_str tenant_id)); ("name", JStr (sc_name body)); ("slug", JStr slug);
       ("display_name", opt_json (sc_display_name body)); ("description", opt_json (sc_description body));
       ("base_url", JStr (sc_base_url body)); ("auth_scheme", JStr (sc_auth_scheme body));
       ("openapi_url", opt_json (sc_openapi_url body)); ("status", JStr "active");
       ("created_at", JStr (isoformat_utc now)); ("updated_at", JStr (isoformat_utc now))]).

(** [body.overrides.x if body.overrides and body.overrides.x else t] *)
Definition override {A} (overrides : option ServiceOverrides) (field : ServiceOverrides -> option string)
    (from : string -> A) (template : A) : A :=
  match overrides with
  | Some o => match field o with Some s => if String.eqb s "" then template else from s | None => template end
  | None => template
  end.

(** The payload that tells the operator which credential to supply. *)
Definition credential_hint_payload (hint : option CredentialHint) : json :=
  match hint with
  | None => JNull
  | Some hint =>
      match ch_token_url hint with
      | Some token_url =>
          JObj [("token_url", JStr token_url); ("credential_fields", json_opt text_map (ch_credential_fields hint));
                ("token_response_path", opt_json (ch_token_response_path hint));
                ("token_request_headers", json_opt text_map (ch_token_request_headers hint))]
      | None =>
          match exclude_none [("field", JStr <$> ch_field hint); ("help", JStr <$> ch_help hint); ("format", JStr <$> ch_format hint)] with
          | [] => JNull
          | d => JObj d
          end
      end
  end.

Definition base_url_required : response :=
  problem 422 "base_url_required"
    "Template has no base_url \u2014 email_service templates must be instantiated via POST /v1/tenants/{tid}/email-services/from-template".

Definition create_service_from_template (registry : list ServiceTemplate) (tenant_id : uuid) (body : FromTemplateRequest)
    : M response :=
  match registry_get registry (ft_template_id body) with
  | None => ret (template_not_found (ft_template_id body))
  | Some template =>
      let o := ft_overrides body in
      let name := override o so_name id (st_name template) in
      let display_name := override o so_display_name id (st_display_name template) in
      let description := override o so_description id (st_description template) in
      match override o so_base_url Some (st_base_url template) with
      | None => ret base_url_required
      | Some base_url =>
          let! forbidden := _is_forbidden_destination base_url in
          if forbidden : bool then ret _forbidden_response
          else
            do! set_tenant_context (uuid_str tenant_id) false in
            let slug := slug_of name in
            let! svc_id := _new_svc_id in
            let! internal_id := lift (ulid_uuid svc_id "svc_") in
            let! now := now_utc in
            let! taken := catch
              (do! insert_service internal_id tenant_id name slug (Some display_name) (Some description) base_url
                     (st_auth_type template) (st_openapi_spec_url template) (Some (st_template_id template)) now in
               ret false)
              (fun e => match e with IntegrityError _ => ret true | _ => raise e end) in
            if taken : bool then
              ret (problem 409 "service_name_taken" ("A service with name '" +:+ name +:+ "' already exists in this tenant"))
            else
              do! audit_emit tenant_id "service.registered" None "operator" (Some (VUUID internal_id)) (Some "service")
                [("name", JStr name); ("auth_scheme", opt_json (st_auth_type template)); ("svc_id", JStr svc_id);
                 ("template_id", JStr (st_template_id template))] in
              do! notify_change "mintkey:service"
                [("event", JStr "service.registered"); ("tenant_id", JStr (uuid_str tenant_id)); ("service_id", JStr svc_id);
                 ("template_id", JStr (st_template_id template))] in
              ret (JSONResponse 201
                [("id", JStr svc_id); ("tenant_id", JStr (uuid_str tenant_id)); ("name", JStr name); ("slug", JStr slug);
                 ("display_name", JStr display_name); ("description", JStr description); ("base_url", JStr base_url);
                 ("auth_scheme", opt_json (st_auth_type template)); ("openapi_url", opt_json (st_openapi_spec_url template));
                 ("status", JStr "active"); ("template_id", JStr (st_template_id template));
                 ("created_at", JStr (isoformat_utc now)); ("updated_at", JStr (isoformat_utc now));
                 ("credential_hint", credential_hint_payload (st_credential_hint template))])
      end
  end.

(** ** Reading *)

(** [COALESCE((SELECT MAX(c.key_version) FROM credentials c WHERE ..), 0)] *)
Definition max_key_version (pol : uuid -> bool) (d : db) (s : service_row) : Z :=
  match map cr_key_version (List.filter (fun c => N.eqb (cr_service_id c) (s_id s) && N.eqb (cr_tenant_id c) (s_tenant_id s)
                              && String.eqb (cr_status c) "active") (visible credentials_t pol d)) with
  | [] => 0%Z
  | v :: vs => fold_right Z.max v vs
  end.
Definition with_version pol d s := (s, max_key_version pol d s).

Definition services_by_age : list service_row -> list service_row :=
  sort_by (fun a b => Z.leb (s_created_at a) (s_created_at b)).

Definition like_opt (pat : string) (o : option string) : bool :=
  match o with Some s => ilike env_fold pat s | None => false end.

Definition list_services (tenant_id : uuid) (q : option string) : M response :=
  do! set_tenant_context (uuid_str tenant_id) false in
  let! tid := bound (uuid_str tenant_id) in
  let! rows := query (fun pol d => map (with_version pol d) (services_by_age (List.filter (fun s =>
    N.eqb (s_tenant_id s) tid
    && match q with
       | Some q => let pat := search_pattern q in
                   ilike env_fold pat (s_name s) || ilike env_fold pat (s_slug s) || like_opt pat (s_description s)
                   || ilike env_fold pat (s_base_url s)
       | None => true
       end) (visible services_t pol d)))) in
  ret (JSONResponse 200 [("services", JArr (map (fun r => JObj (_service_row_to_dict r)) rows))]).

(** [WHERE s.id = :sid AND s.tenant_id = :tid] *)
Definition is_service (sid tid : uuid) (s : service_row) : bool := N.eqb (s_id s) sid && N.eqb (s_tenant_id s) tid.

(** The SELECT of one service for its representation. *)
Definition describe (db_uuid : string) (tenant_id : uuid) : M response :=
  let! sid := bound db_uuid in
  let! tid := bound (uuid_str tenant_id) in
  let! rows := query (fun pol d => map (with_version pol d) (List.filter (is_service sid tid) (visible services_t pol d))) in
  ret (match fetchone rows with
       | None => service_not_found
       | Some row => JSONResponse 200 (_service_row_to_dict row)
       end).

Definition get_service (tenant_id : uuid) (service_id : string) : M response :=
  do! set_tenant_context (uuid_str tenant_id) false in
  let! db_uuid := lift (_wire_id_to_db_uuid service_id) in
  describe db_uuid tenant_id.

(** ** Test calls *)

(** [try: await audit_emit(..) except Exception: log] *)
Definition emit_quietly (m : M unit) : M unit := catch m (fun _ => ret tt).

(** The call a test makes: what answered, or the exception, and the milliseconds it took. *)
Definition outbound (rq : backend_request) : M (outcome (Z * string) * Z) :=
  let! start := monotonic in
  let! answer := catch (let! b := http_forward rq in
                        let '(status, body, media_type) := b in
                        ret (Ok (status, py_take 500 (httpx_text body media_type))))
                       (fun e => ret (Raise e)) in
  let! now := monotonic in
  ret (answer, elapsed_ms start now).

Definition is_success (status : Z) : bool := (200 <=? status)%Z && (status <? 300)%Z.

(** The checks between the assembled URL and the call; they raise the answer. *)
Definition checked_url (final_url base_url : string) (timeout_ms : Z) : M string :=
  let! final_url := lift (_check_ssrf_hostname final_url base_url) in
  let! _ := lift (float_of_int timeout_ms) in
  let! safe := _validate_test_url final_url in
  match safe with
  | (true, _) => ret final_url
  | (false, reason) => raise (HTTPException 400 "mintkey:ssrf_rejected" (default "" reason))
  end.

Definition get_str (k : string) (d : dict) : string := match dict_get k d with Some (JStr s) => s | _ => "" end.

Definition test_service_transient (tenant_id : uuid) (body : TransientTestRequest) : M response :=
  let! forbidden := _is_forbidden_destination (tt_base_url body) in
  if forbidden : bool then ret _forbidden_response
  else
    do! set_tenant_context (uuid_str tenant_id) false in
    let base_url := tt_base_url body in
    let auth_scheme := tt_auth_scheme body in
    let emit (payload : dict) :=
      audit_emit tenant_id "service.test_executed" None "operator" None (Some "service") payload in
    if is_ssh auth_scheme then
      let! result := test_ssh_credential auth_scheme (tt_value body) base_url (tt_timeout_ms body) in
      do! emit_quietly
        (let! host := lift (url_hostname (get_str "final_url" result)) in
         emit [("method", JStr "SSH"); ("path_template", JStr (tt_path body)); ("base_url", JStr base_url);
               ("auth_scheme", JStr auth_scheme); ("target_host", opt_json host);
               ("status_code", dict_default "status_code" (JInt 0) result);
               ("latency_ms", dict_default "latency_ms" (JInt 0) result);
               ("ok", dict_default "ok" (JBool false) result); ("transient", JBool true)]) in
      ret (JSONResponse 200 result)
    else
      let '(headers, final_url) :=
        test_auth auth_scheme (tt_value body) (default "" (tt_header_name body)) (default "" (tt_query_param body))
          (test_url base_url (tt_path body)) in
      let! final_url := checked_url final_url base_url (tt_timeout_ms body) in
      let! call := outbound (BackendRequest (tt_method body) final_url []
                     (merge_headers headers (default [] (tt_headers body))) (tt_body body)) in
      let '(answer, latency_ms) := call in
      let ok := match answer with Ok (status, _) => is_success status | Raise _ => false end in
      let status_code := match answer with Ok (status, _) => status | Raise _ => 0%Z end in
      do! emit_quietly
        (emit [("method", JStr (tt_method body)); ("path_template", JStr (tt_path body)); ("base_url", JStr base_url);
               ("auth_scheme", JStr auth_scheme); ("status_code", JInt status_code); ("latency_ms", JInt latency_ms);
               ("ok", JBool ok); ("transient", JBool true)]) in
      ret (JSONResponse 200
        ([("ok", JBool ok); ("latency_ms", JInt latency_ms); ("final_url", JStr final_url)]
         ++ (if Z.eqb status_code 0 then [] else [("status_code", JInt status_code)])
         ++ match answer with
            | Ok (_, text) => if String.eqb text "" then [] else [("response_body_truncated", JStr text)]
            | Raise e => [("error", JStr (if is_timeout e then "timeout" else exn_class e))]
            end)%list).

(** The envelope of the stored credential of an SSH service. *)
Definition _run_ssh_post_save_test (auth_scheme : string) (cred_entry : option credential_reply) (base_url : string)
    (timeout_ms : Z) : M dict :=
  match cred_entry with
  | None => ret (ssh_result false 400 0 base_url "No credential found for this service.")
  | Some c =>
      if String.eqb (cr_target_address c) "" || String.eqb (cr_ssh_user c) "" then
        ret (ssh_result false 400 0 base_url
               "Credential is missing target_address or ssh_user metadata. Re-create the credential to populate these fields.")
      else
        test_ssh_credential auth_scheme
          (dumps (JObj (if String.eqb auth_scheme "ssh_private_key" then
             [("scheme", JStr auth_scheme); ("private_key_pem", JStr (cr_plaintext c)); ("ssh_user", JStr (cr_ssh_user c));
              ("target_address", JStr (cr_target_address c))]
           else
             [("scheme", JStr auth_scheme); ("username", JStr (cr_ssh_user c)); ("password", JStr (cr_plaintext c));
              ("target_address", JStr (cr_target_address c))])))
          base_url timeout_ms
  end.

(** [t or n] *)
Definition int_or (t : option Z) (n : Z) : Z := match t with Some 0%Z | None => n | Some t => t end.

Definition test_service (tenant_id : uuid) (service_id : string) (req : option TestRunRequest) : M response :=
  let req := default default_test_run req in
  do! set_tenant_context (uuid_str tenant_id) false in
  let! db_uuid := lift (_wire_id_to_db_uuid service_id) in
  let! sid := bound db_uuid in
  let! tid := bound (uuid_str tenant_id) in
  let! rows := select services_t (is_service sid tid) in
  match fetchone rows with
  | None => ret service_not_found
  | Some row =>
      let base_url := s_base_url row in
      let auth_scheme := s_auth_scheme row in
      let! forbidden := _is_forbidden_destination base_url in
      if forbidden : bool then ret _forbidden_response
      else
        let emit (payload : dict) :=
          audit_emit tenant_id "service.test_executed" None "operator" (Some (VUUID (s_id row))) (Some "service") payload in
        let! cred_entry := get_credential (uuid_str tenant_id) (uuid_str (s_id row)) in
        if is_ssh auth_scheme then
          let! result := _run_ssh_post_save_test auth_scheme cred_entry base_url (int_or (tr_timeout_ms req) 10000) in
          let get k dflt := dict_default k dflt result in
          do! emit_quietly
            (emit [("method", JStr "SSH"); ("auth_scheme", JStr auth_scheme);
                   ("target_host_port", JStr (remove_sub "ssh://"
                      (let u := get_str "final_url" result in if String.eqb u "" then base_url else u)));
                   ("status_code", get "status_code" (JInt 0)); ("latency_ms", get "latency_ms" (JInt 0));
                   ("ok", get "ok" (JBool false)); ("transient", JBool false)]) in
          ret (JSONResponse 200
            [("ok", get "ok" (JBool false)); ("status_code", get "status_code" (JInt 0));
             ("latency_ms", get "latency_ms" (JInt 0)); ("response_body_truncated", get "response_body_truncated" (JStr ""));
             ("final_url", get "final_url" (JStr base_url))])
        else
          let '(headers, final_url) :=
            match cred_entry with
            | Some c => if String.eqb (cr_plaintext c) "" then ([], test_url base_url (tr_path req))
                        else test_auth auth_scheme (cr_plaintext c) (cr_header_name c) (cr_query_param c)
                               (test_url base_url (tr_path req))
            | None => ([], test_url base_url (tr_path req))
            end in
          let! final_url := checked_url final_url base_url (int_or (tr_timeout_ms req) 5000) in
          let! call := outbound (BackendRequest (tr_method req) final_url []
                         (merge_headers headers (default [] (tr_headers req))) (tr_body req)) in
          let '(answer, latency_ms) := call in
          let emit_call status ok error :=
            emit_quietly (emit ([("method", JStr (tr_method req)); ("path_template", JStr (tr_path req));
              ("auth_scheme", JStr auth_scheme); ("status_code", JInt status); ("latency_ms", JInt latency_ms);
              ("ok", JBool ok); ("transient", JBool false)]
              ++ match error with Some e => [("error", JStr e)] | None => [] end)%list) in
          match answer with
          | Ok (status, text) =>
              do! emit_call status (is_success status) None in
              ret (JSONResponse 200
                [("ok", JBool (is_success status)); ("status_code", JInt status); ("latency_ms", JInt latency_ms);
                 ("response_body_truncated", JStr text); ("final_url", JStr final_url)])
          | Raise e =>
              if is_timeout e then
                do! emit_call 0%Z false (Some "timeout") in
                ret (JSONResponse 200 [("ok", JBool false); ("latency_ms", JInt latency_ms); ("error", JStr "timeout")])
              else
                do! emit_call 0%Z false (Some "internal_error") in
                ret (JSONResponse 200 [("ok", JBool false); ("error", JStr "internal_error")])
          end
  end.

(** ** Update and deletion *)

Definition invalid_ssh_base_url : response :=
  problem 400 "invalid_ssh_base_url" "Malformed ssh:// base_url \u2014 expected ssh://host:port or host:port".

(** The target address parsed before the database is read. *)
Definition early_target (body : ServiceUpdate) : outcome (option string) :=
  match su_base_url body with
  | None => Ok None
  | Some base_url =>
      if match su_auth_scheme body with Some s => startswith s "ssh_" | None => startswith base_url "ssh://" end
      then a ← _parse_ssh_host_port base_url; Ok (Some a)
      else Ok None
  end.

Definition update_service (tenant_id : uuid) (service_id : string) (body : ServiceUpdate) : M response :=
  let! forbidden := match su_base_url body with
                    | Some base_url => _is_forbidden_destination base_url
                    | None => ret false
                    end in
  if forbidden : bool then ret _forbidden_response
  else
  try_value (early_target body) (ret invalid_ssh_base_url) (fun new_target_address =>
  do! set_tenant_context (uuid_str tenant_id) false in
  let! db_uuid := lift (_wire_id_to_db_uuid service_id) in
  let! now := now_utc in
  let! stored_auth_scheme :=
    match su_base_url body, su_auth_scheme body with
    | Some _, None =>
        let! sid := bound db_uuid in
        let! tid := bound (uuid_str tenant_id) in
        let! rows := select services_t (is_service sid tid) in
        ret (s_auth_scheme <$> fetchone rows)
    | _, _ => ret None
    end in
  try_value
    (match su_base_url body, new_target_address with
     | Some base_url, None =>
         if startswith (default "" stored_auth_scheme) "ssh_" then a ← _parse_ssh_host_port base_url; Ok (Some a)
         else Ok None
     | _, a => Ok a
     end) (ret invalid_ssh_base_url) (fun new_target_address =>
  let! sid := bound db_uuid in
  let! tid := bound (uuid_str tenant_id) in
  do! update_where services_t (is_service sid tid) (apply_update body now) in
  let effective_auth_scheme :=
    match su_auth_scheme body with Some s => if String.eqb s "" then default "" stored_auth_scheme else s
                                 | None => default "" stored_auth_scheme end in
  do! match su_base_url body, new_target_address with
      | Some _, Some address =>
          if startswith effective_auth_scheme "ssh_" then
            update_where vault_credentials_t
              (fun r => N.eqb (vc_service_id r) sid && N.eqb (vc_tenant_id r) tid && vc_is_current r)
              (set_target_address address)
          else ret tt
      | _, _ => ret tt
      end in
  do! audit_emit tenant_id "service.updated" None "operator" None (Some "service") [("service_id", JStr service_id)] in
  do! notify_change "mintkey:service"
    [("event", JStr "service.updated"); ("tenant_id", JStr (uuid_str tenant_id)); ("service_id", JStr service_id)] in
  describe db_uuid tenant_id)).

(** The deletion of the dependent rows of one table, and its event. *)
Definition cascade {R} (T : table R) (of_row : uuid -> uuid -> R -> bool) (tenant_id sid tid : uuid) (service_id event_type : string) : M unit :=
  let! gone := delete_returning T (of_row sid tid) in
  audit_emit tenant_id event_type None "operator" None (Some "service")
    [("service_id", JStr service_id); ("count", JInt (Z.of_nat (length gone)))].

Definition key_of_service (sid tid : uuid) (y : api_key_row) : bool := N.eqb (y_service_id y) sid && N.eqb (y_tenant_id y) tid.
Definition grant_of_service (sid tid : uuid) (g : grant_row) : bool := N.eqb (g_service_id g) sid && N.eqb (g_tenant_id g) tid.
Definition credential_of_service (sid tid : uuid) (c : credential_row) : bool := N.eqb (cr_service_id c) sid && N.eqb (cr_tenant_id c) tid.

Definition delete_service (tenant_id : uuid) (service_id : string) : M response :=
  do! set_tenant_context (uuid_str tenant_id) false in
  let! db_uuid := lift (_wire_id_to_db_uuid service_id) in
  let! sid := bound db_uuid in
  let! tid := bound (uuid_str tenant_id) in
  do! cascade service_api_keys_t key_of_service tenant_id sid tid service_id "service.api_keys.cascade_deleted" in
  do! cascade permission_grants_t grant_of_service tenant_id sid tid service_id "service.permission_grants.cascade_deleted" in
  do! cascade credentials_t credential_of_service tenant_id sid tid service_id "service.credentials.cascade_deleted" in
  let! _ := delete_restricted services_t s_id services_references (is_service sid tid) in
  do! audit_emit tenant_id "service.deleted" None "operator" None (Some "service") [("service_id", JStr service_id)] in
  do! notify_change "mintkey:service"
    [("event", JStr "service.deleted"); ("tenant_id", JStr (uuid_str tenant_id)); ("service_id", JStr service_id)] in
  ret (EmptyResponse 204).

(** ** The router *)

Inductive services_request :=
  | PostService (body : ServiceCreate)
  | PostFromTemplate (body : FromTemplateRequest)
  | ListServices (q : option string)
  | GetService (service_id : string)
  | PostTestTransient (body : TransientTestRequest)
  | PostTest (service_id : string) (req : option TestRunRequest)
  | PatchService (service_id : string) (body : ServiceUpdate)
  | DeleteService (service_id : string).

Definition services_handler (registry : list ServiceTemplate) tenant_id (rq : services_request) : M response :=
  match rq with
  | PostService body => create_service tenant_id body
  | PostFromTemplate body => create_service_from_template registry tenant_id body
  | ListServices q => list_services tenant_id q
  | GetService service_id => get_service tenant_id service_id
  | PostTestTransient body => test_service_transient tenant_id body
  | PostTest service_id req => test_service tenant_id service_id req
  | PatchService service_id body => update_service tenant_id service_id body
  | DeleteService service_id => delete_service tenant_id service_id
  end.

(** Every endpoint depends on [require_tenant_session]. *)
Definition services_router (registry : list ServiceTemplate) (cookie : option string) tenant_id (rq : services_request) : M response :=
  do! require_tenant_session cookie tenant_id in
  transaction (services_handler registry tenant_id rq).
End Services.
