(* ===== verification/Credentials.v ===== *)
(** * Credentials of services (admin_api/api/credentials.py)

    Registration, rotation, revocation and listing.  The value goes to the
    vault, whose adapter commits it at once; the table credentials holds the
    versions and their status. *)

From Stdlib Require QArith_base.
From S2P Require Import Prelude PyStr PyText PyJson PyJsonFacts PyTime PyFloat PyUrl WireIds AuditHash AuditChain.
From S2P Require Import Like Vault Tables Database Logic Ulid Keys Sessions AuditEmit AgentSecrets Permissions.
From S2P Require Import Ssrf VaultClient SshTest CredPayloads Services.

Local Open Scope string_scope.
Local Open Scope py_scope.

Record CredentialCreate := MkCredentialCreate {
  cd_auth_scheme : string; cd_value : string; cd_header_name : option string; cd_query_param : option string }.

(** The new value: a text or a dict. *)
Inductive rotate_value := RotateText (s : string) | RotateDict (d : dict).
Record CredentialRotateRequest := MkCredentialRotateRequest {
  rr_auth_scheme : string; rr_rotate_from : option string; rr_value : option rotate_value }.

(** What validation makes of a value: the payload of a structured scheme, or the value as it is. *)
Inductive payload :=
  | Plain
  | Apple (p : AppleJWTPayload)
  | Google (p : GoogleServiceAccountPayload)
  | SshKey (p : SSHPrivateKeyPayload)
  | SshPassword (p : SSHPasswordPayload)
  | ClientCredentials (p : OAuth2ClientCredentialsPayload)
  | Digest (p : HTTPDigestPayload).

(** ** Answers to an invalid value *)

Definition validation_error (detail : json) : dict :=
  [("type", JStr "about:blank"); ("title", JStr "validation error"); ("detail", detail)].

Definition not_an_object (scheme : string) : response :=
  let message := scheme +:+ " value must be a valid JSON object" in
  if String.eqb scheme "oauth2_password_grant" then problem 422 "invalid_oauth2_payload" message
  else if String.eqb scheme "apple_jwt" then problem 400 "invalid_apple_jwt_payload" message
  else if String.eqb scheme "oauth2_client_credentials" then problem 422 "invalid_oauth2_client_credentials_payload" message
  else if String.eqb scheme "http_digest" then problem 422 "invalid_http_digest_payload" message
  else JSONResponse 400 (validation_error (JStr message)).

Definition invalid_fields (scheme : string) (errors : list field_error) : response :=
  let body := validation_error (errors_json errors) in
  JSONResponse 400 (if String.eqb scheme "apple_jwt" then ("mintkey:code", JStr "invalid_apple_jwt_payload") :: body else body).

(** The schemes whose value is validated: on registration, and on rotation. *)
Definition STRUCTURED : list string :=
  ["oauth2_password_grant"; "apple_jwt"; "google_service_account"; "ssh_private_key"; "ssh_password";
   "oauth2_client_credentials"; "http_digest"].
Definition ROTATE_STRUCTURED : list string :=
  ["oauth2_password_grant"; "apple_jwt"; "google_service_account"; "ssh_private_key"; "ssh_password"].

(** What the vault stores of a registered value, and where SSH connects with it. *)
Definition vault_plaintext (p : payload) (value : string) : string :=
  match p with
  | Plain => value
  | Apple p => apple_envelope p
  | Google p => google_envelope p
  | SshKey p => sk_private_key_pem p
  | SshPassword p => sp_password p
  | ClientCredentials p => client_credentials_envelope p
  | Digest p => digest_envelope p
  end.
Definition vault_target_address (p : payload) : string :=
  match p with SshKey p => sk_target_address p | SshPassword p => sp_target_address p | _ => "" end.
Definition vault_ssh_user (p : payload) : string :=
  match p with SshKey p => sk_ssh_user p | SshPassword p => sp_username p | _ => "" end.

(** The entries of the audit payload that describe the secret. *)
Definition secret_metadata `{Env} `{Pbkdf2} (p : payload) : outcome dict :=
  let fp k s := f ← audit_fingerprint (utf8 s) 16; Ok [(k, JStr f); ("fingerprint_scheme", JStr "pbkdf2_hmac_sha256_v1")] in
  match p with
  | Apple p =>
      f ← fp "p8_fingerprint" (ap_p8_key_pem p);
      Ok ([("key_id", JStr (ap_key_id p)); ("issuer_id", JStr (ap_issuer_id p))] ++ f)%list
  | Google p =>
      parsed ← (match loads (gp_service_account_json p) with
                | Some (JObj d) => Ok d
                | _ => Raise (AttributeError "get")
                end);
      f ← fp "json_key_fingerprint" (gp_service_account_json p);
      let get k := JStr (json_str (dict_default k (JStr "") parsed)) in
      Ok ([("service_account_email", get "client_email"); ("project_id", get "project_id")] ++ f)%list
  | SshKey p =>
      f ← fp "key_fingerprint" (sk_private_key_pem p);
      Ok ([("target_address", JStr (sk_target_address p)); ("ssh_user", JStr (sk_ssh_user p))] ++ f)%list
  | SshPassword p =>
      f ← fp "password_fingerprint" (sp_password p);
      Ok ([("username", JStr (sp_username p)); ("target_address", JStr (sp_target_address p))] ++ f)%list
  | Plain | ClientCredentials _ | Digest _ => Ok []
  end.

Section Credentials.
Context `{E : Env} `{V : Vault} `{Sha : Sha256} `{Pyd : Pydantic} `{Pbk : Pbkdf2}.

Definition _new_cred_id : M string := new_id "cred_".
Definition _svc_wire_to_db_uuid (wire_id : string) : outcome string := Admin.wire_to_db_uuid wire_id "svc".

(** [uuid.UUID(_wire_to_db(id, "cred"))] *)
Definition credential_uuid (cred_wire_id : string) : outcome uuid := s ← Admin.wire_to_db_uuid cred_wire_id "cred"; UUID s.

(** The payload of a structured scheme, or the answer; a TypeError counts as not an object. *)
Definition validate_dict (scheme : string) (d : dict) : M (checked payload) :=
  let wrap {A} (f : A -> payload) (m : M (checked A)) : M (checked payload) :=
    let! c := m in ret (match c with inl a => inl (f a) | inr e => inr e end) in
  if String.eqb scheme "oauth2_password_grant" then wrap (fun _ => Plain) (OAuth2PasswordGrantPayload d)
  else if String.eqb scheme "apple_jwt" then wrap Apple (AppleJWTPayload_of d)
  else if String.eqb scheme "google_service_account" then wrap Google (GoogleServiceAccountPayload_of d)
  else if String.eqb scheme "ssh_private_key" then wrap SshKey (SSHPrivateKeyPayload_of d)
  else if String.eqb scheme "ssh_password" then wrap SshPassword (SSHPasswordPayload_of d)
  else if String.eqb scheme "oauth2_client_credentials" then wrap ClientCredentials (OAuth2ClientCredentialsPayload_of d)
  else if String.eqb scheme "http_digest" then wrap Digest (HTTPDigestPayload_of d)
  else ret (inl Plain).

Definition validate_value (schemes : list string) (scheme : string) (value : rotate_value) : M (payload + response) :=
  if negb (existsb (String.eqb scheme) schemes) then ret (inl Plain)
  else
    match match value with RotateText s => loads s | RotateDict d => Some (JObj d) end with
    | Some (JObj d) =>
        let! c := catch (let! c := validate_dict scheme d in ret (Some c))
                        (fun e => match e with TypeError _ => ret None | _ => raise e end) in
        ret (match c with
             | None => inr (not_an_object scheme)
             | Some (inl p) => inl p
             | Some (inr errors) => inr (invalid_fields scheme errors)
             end)
    | _ => ret (inr (not_an_object scheme))
    end.

(** ** The rows of a new version *)

Definition active_of (sid tid : uuid) (scheme : string) (c : credential_row) : bool :=
  N.eqb (cr_service_id c) sid && N.eqb (cr_tenant_id c) tid && String.eqb (cr_auth_scheme c) scheme
  && String.eqb (cr_status c) "active".

Definition set_status (status : string) (revoked_at : option Z) (c : credential_row) : credential_row :=
  CredentialRow (cr_id c) (cr_tenant_id c) (cr_service_id c) (cr_key_version c) (cr_auth_scheme c) status (cr_created_at c) revoked_at.
Definition supersede (c : credential_row) : credential_row := set_status "superseded" (cr_revoked_at c) c.

Definition set_key_version (kv now : Z) (s : service_row) : service_row :=
  ServiceRow (s_id s) (s_tenant_id s) (s_name s) (s_slug s) (s_display_name s) (s_description s) (s_base_url s)
    (s_auth_scheme s) (s_openapi_url s) (s_status s) (s_template_id s) (s_created_at s) now kv (s_openapi_etag s).

(** The other active versions are superseded, the new one is inserted, the service points to it. *)
Definition store_version (tenant_id : uuid) (db_svc_uuid scheme : string) (internal_id : uuid) (key_version now : Z) : M unit :=
  let! sid := bound db_svc_uuid in
  let! tid := bound (uuid_str tenant_id) in
  let! new_id := bound (uuid_str internal_id) in
  do! update_where credentials_t (fun c => active_of sid tid scheme c && negb (N.eqb (cr_id c) new_id)) supersede in
  do! varchar 64 scheme in
  do! insert_into credentials_t (CredentialRow new_id tid sid key_version scheme "active" now None) in
  update_where services_t (is_service sid tid) (set_key_version key_version now).

(** The service of the path, in the tenant. *)
Definition service_by_id (db_svc_uuid : string) (tenant_id : uuid) : M (option service_row) :=
  let! sid := bound db_svc_uuid in
  let! tid := bound (uuid_str tenant_id) in
  let! rows := select services_t (is_service sid tid) in
  ret (fetchone rows).

Definition create_credential (tenant_id : uuid) (service_id : string) (body : CredentialCreate) : M response :=
  let! db_svc_uuid := lift (_svc_wire_to_db_uuid service_id) in
  do! set_tenant_context (uuid_str tenant_id) false in
  let! svc_row := service_by_id db_svc_uuid tenant_id in
  match svc_row with
  | None => ret (problem 422 "not_found" "Service not found")
  | Some svc_row =>
      let scheme := cd_auth_scheme body in
      let! verdict := validate_value STRUCTURED scheme (RotateText (cd_value body)) in
      match verdict with
      | inr answer => ret answer
      | inl p =>
          let! vault_result := put_credential (uuid_str tenant_id) db_svc_uuid scheme (vault_plaintext p (cd_value body))
            (s_base_url svc_row) (default "" (cd_header_name body)) (default "" (cd_query_param body))
            (vault_target_address p) (vault_ssh_user p) in
          let key_version := pr_key_version vault_result in
          let! cred_wire_id := _new_cred_id in
          let! internal_id := lift (credential_uuid cred_wire_id) in
          let! now := now_utc in
          do! store_version tenant_id db_svc_uuid scheme internal_id key_version now in
          let is_rotation := Z.ltb 1 key_version in
          let event_type := if is_rotation then "credential.rotated" else "credential.registered" in
          let! metadata := lift (secret_metadata p) in
          do! audit_emit tenant_id event_type None "operator" (Some (VUUID internal_id)) (Some "credential")
            ([("credential_id", JStr cred_wire_id); ("service_id", JStr service_id); ("key_version", JInt key_version);
              ("auth_scheme", JStr scheme)]
             ++ (if is_rotation then [("previous_key_version", JInt (key_version - 1))] else [])
             ++ metadata)%list in
          do! notify_change "mintkey:credential"
            [("event", JStr event_type); ("tenant_id", JStr (uuid_str tenant_id)); ("service_id", JStr service_id);
             ("credential_id", JStr cred_wire_id)] in
          ret (JSONResponse 201
            [("id", JStr cred_wire_id); ("key_version", JInt key_version); ("auth_scheme", JStr scheme);
             ("created_at", JStr (isoformat_utc now))])
      end
  end.

(** [ORDER BY key_version DESC] *)
Definition newest_version : list credential_row -> list credential_row :=
  sort_by (fun a b => Z.leb (cr_key_version b) (cr_key_version a)).

(** The routing data a rotation takes from the request. *)
Definition new_routing (p : payload) : option (string * string) :=
  match p with
  | SshKey p => Some (sk_target_address p, sk_ssh_user p)
  | SshPassword p => Some (sp_target_address p, sp_username p)
  | _ => None
  end.

(** The text that is stored on a rotation: the text as it came, or [str] of the dict, from which the
    validation of four schemes has popped the key "scheme". *)
Definition rotate_plaintext (scheme : string) (value : rotate_value) : string :=
  match value with
  | RotateText s => s
  | RotateDict d =>
      json_str (JObj (if existsb (String.eqb scheme) ["apple_jwt"; "google_service_account"; "ssh_private_key"; "ssh_password"]
                      then dict_pop "scheme" d else d))
  end.

Definition rotate_credential (tenant_id : uuid) (service_id : string) (body : CredentialRotateRequest) : M response :=
  do! set_tenant_context (uuid_str tenant_id) false in
  let! db_svc_uuid := lift (_svc_wire_to_db_uuid service_id) in
  let! svc_row := service_by_id db_svc_uuid tenant_id in
  match svc_row with
  | None => ret service_not_found
  | Some svc_row =>
      let scheme := rr_auth_scheme body in
      try_value (match rr_rotate_from body with
                 | Some s => u ← Admin.wire_to_db_uuid s "cred"; _ ← UUID u; Ok (Some u)
                 | None => Ok None
                 end)
        (ret (problem 422 "invalid_rotate_from" "rotate_from is not a valid cred_ wire-form ID"))
        (fun rotate_from_uuid =>
      let! tid := bound (uuid_str tenant_id) in
      let! sid := bound db_svc_uuid in
      let! from := bound_opt rotate_from_uuid in
      let! olds := query (fun pol d => newest_version (List.filter (fun c =>
        active_of sid tid scheme c && match from with Some u => N.eqb (cr_id c) u | None => true end)
        (visible credentials_t pol d))) in
      match fetchone olds with
      | None =>
          ret (problem 404 "not_found"
                 (match rr_rotate_from body with
                  | Some _ => "Credential specified by rotate_from not found or not active"
                  | None => "No active credential to rotate"
                  end))
      | Some old_row =>
          let! verdict := match rr_value body with
                          | Some value => validate_value ROTATE_STRUCTURED scheme value
                          | None => ret (inl Plain)
                          end in
          match verdict with
          | inr answer => ret answer
          | inl p =>
              let! prior := catch (get_credential (uuid_str tenant_id) db_svc_uuid) (fun _ => ret None) in
              let of_prior (f : credential_reply -> string) := match prior with Some c => f c | None => "" end in
              let '(target_address, ssh_user) :=
                default (of_prior cr_target_address, of_prior cr_ssh_user) (new_routing p) in
              let! plaintext := match rr_value body with
                                | Some value => ret (rotate_plaintext scheme value)
                                | None => token_urlsafe 32
                                end in
              let! vault_result := put_credential (uuid_str tenant_id) db_svc_uuid scheme plaintext (s_base_url svc_row)
                (of_prior cr_header_name) (of_prior cr_query_param) target_address ssh_user in
              let new_key_version := pr_key_version vault_result in
              let! new_cred_wire_id := _new_cred_id in
              let! new_internal_id := lift (credential_uuid new_cred_wire_id) in
              let! now := now_utc in
              do! store_version tenant_id db_svc_uuid scheme new_internal_id new_key_version now in
              do! audit_emit tenant_id "credential.rotated" None "operator" (Some (VUUID new_internal_id)) (Some "credential")
                ([("credential_id", JStr new_cred_wire_id); ("service_id", JStr service_id); ("key_version", JInt new_key_version);
                  ("auth_scheme", JStr scheme); ("superseded_credential_id", JStr (uuid_str (cr_id old_row)))]
                 ++ match rr_rotate_from body with Some s => [("rotate_from", JStr s)] | None => [] end)%list in
              do! notify_change "mintkey:credential"
                [("event", JStr "credential.rotated"); ("tenant_id", JStr (uuid_str tenant_id)); ("service_id", JStr service_id);
                 ("credential_id", JStr new_cred_wire_id)] in
              ret (JSONResponse 200
                [("id", JStr new_cred_wire_id); ("key_version", JInt new_key_version); ("auth_scheme", JStr scheme);
                 ("effective_at", JStr (isoformat_utc now))])
          end
      end)
  end.

(** [WHERE service_id = :sid AND tenant_id = :tid AND key_version = :kv] *)
Definition is_version (sid tid : uuid) (kv : Z) (c : credential_row) : bool :=
  N.eqb (cr_service_id c) sid && N.eqb (cr_tenant_id c) tid && Z.eqb (cr_key_version c) kv.

Definition delete_credential_version (tenant_id : uuid) (service_id : string) (key_version : Z) : M response :=
  let! db_svc_uuid := lift (_svc_wire_to_db_uuid service_id) in
  do! set_tenant_context (uuid_str tenant_id) false in
  let! sid := bound db_svc_uuid in
  let! tid := bound (uuid_str tenant_id) in
  let! kv := bound_int4 (JInt key_version) in
  let! rows := select credentials_t (is_version sid tid kv) in
  match fetchone rows with
  | None => ret (problem 404 "not_found" "Credential version not found")
  | Some row =>
      if String.eqb (cr_status row) "revoked" then
        ret (problem 409 "already_revoked" "Credential version already revoked")
      else
        let! now := now_utc in
        do! update_where credentials_t (is_version sid tid kv) (set_status "revoked" (Some now)) in
        do! audit_emit tenant_id "credential.revoked" None "operator" (Some (VUUID (cr_id row))) (Some "credential")
          [("service_id", JStr service_id); ("key_version", JInt key_version)] in
        do! notify_change "mintkey:credential"
          [("event", JStr "credential.revoked"); ("tenant_id", JStr (uuid_str tenant_id)); ("service_id", JStr service_id);
           ("key_version", JInt key_version)] in
        ret (EmptyResponse 204)
  end.

Definition version_json (c : credential_row) : json :=
  JObj [("key_version", JInt (cr_key_version c)); ("auth_scheme", JStr (cr_auth_scheme c)); ("status", JStr (cr_status c));
        ("created_at", JStr (isoformat_utc (cr_created_at c)));
        ("revoked_at", json_opt (fun t => JStr (isoformat_utc t)) (cr_revoked_at c))].

Definition list_credential_versions (tenant_id : uuid) (service_id : string) (q : option string) : M response :=
  let! db_svc_uuid := lift (_svc_wire_to_db_uuid service_id) in
  do! set_tenant_context (uuid_str tenant_id) false in
  let! sid := bound db_svc_uuid in
  let! tid := bound (uuid_str tenant_id) in
  let! rows := query (fun pol d => newest_version (List.filter (fun c =>
    N.eqb (cr_service_id c) sid && N.eqb (cr_tenant_id c) tid
    && match q with Some q => ilike env_fold (search_pattern q) (cr_auth_scheme c) | None => true end)
    (visible credentials_t pol d))) in
  ret (JSONResponse 200 [("versions", JArr (map version_json rows))]).

(** ** The router *)

Inductive credentials_request :=
  | PostCredential (body : CredentialCreate)
  | PostRotate (body : CredentialRotateRequest)
  | DeleteVersion (key_version : Z)
  | ListVersions (q : option string).

Definition credentials_handler tenant_id service_id (rq : credentials_request) : M response :=
  match rq with
  | PostCredential body => create_credential tenant_id service_id body
  | PostRotate body => rotate_credential tenant_id service_id body
  | DeleteVersion kv => delete_credential_version tenant_id service_id kv
  | ListVersions q => list_credential_versions tenant_id service_id q
  end.

(** Every endpoint depends on [require_tenant_session]. *)
Definition credentials_router (cookie : option string) tenant_id service_id (rq : credentials_request) : M response :=
  do! require_tenant_session cookie tenant_id in
  transaction (credentials_handler tenant_id service_id rq).
End Credentials.
