(* ===== verification/EmailServices.v ===== *)
(** * Email services (admin_api/api/email_services.py)

    Registration (directly or from a template), listing, reading, update, soft
    deletion and the password credential of the IMAP/SMTP services of a
    tenant, and the grants that let an agent use one
    (admin_api/api/email_permission_grants.py).  The OAuth2 flow is in
    [EmailOauth]. *)

From S2P Require Import Prelude PyStr PyText PyJson PyJsonFacts PyTime WireIds AuditHash.
From S2P Require Import Vault Tables Database Logic Sessions AuditEmit AgentSecrets Permissions.
From S2P Require Import VaultClient Templates SshTest CredPayloads.

Local Open Scope string_scope.
Local Open Scope py_scope.

Definition _VALID_PROVIDERS : list string := ["generic"; "gmail"; "outlook"].
Definition _VALID_AUTH_SCHEMES : list string := ["email_app_password"; "email_oauth2"; "email_password"].
Definition _OAUTH2_PROVIDERS : list string := ["gmail"; "outlook"].
Definition _AUTH_SCHEME_EMAIL_OAUTH2 : Z := 15.
Definition _CREDENTIAL_SET_ALLOWED_SCHEMES : list string := ["email_app_password"; "email_password"].

(** The schemes of a provider; the sets of the source are written in sorted order. *)
Definition _PROVIDER_AUTH_SCHEMES : list (string * list string) :=
  [("gmail", _VALID_AUTH_SCHEMES); ("outlook", _VALID_AUTH_SCHEMES);
   ("generic", ["email_app_password"; "email_password"])].
Definition schemes_of (provider : string) : list string :=
  default [] (snd <$> List.find (fun kv => String.eqb provider (fst kv)) _PROVIDER_AUTH_SCHEMES).

Definition in_set (l : list string) (s : string) : bool := existsb (String.eqb s) l.

(** [str(sorted(..))] *)
Definition list_repr (l : list string) : string := json_repr (JArr (map JStr l)).

Definition _valid_host_port (host : string) (port : Z) : bool :=
  negb (String.eqb (py_strip host) "") && ((1 <=? port) && (port <=? 65535))%Z.

Definition _is_valid_uuid (value : string) : bool := is_ok (UUID value).

(** ** Request bodies *)

Record EmailServiceCreate := MkEmailServiceCreate {
  ec_provider : string; ec_name : string; ec_imap_host : string; ec_imap_port : Z; ec_smtp_host : string;
  ec_smtp_port : Z; ec_auth_scheme : string; ec_allowed_recipient_domains : option string; ec_pool_size_max : Z;
  ec_tls_insecure_skip_verify : bool }.

(** What a validator raises becomes an error of its field. *)
Definition rejected (field message : string) (ok : bool) : list field_error :=
  if ok then [] else [FieldError "value_error" ["body"; field] ("Value error, " +:+ message)].

Definition validate_auth_scheme (v : string) : list field_error :=
  rejected "auth_scheme" ("auth_scheme must be one of " +:+ list_repr _VALID_AUTH_SCHEMES) (in_set _VALID_AUTH_SCHEMES v).
Definition validate_port (field : string) (v : Z) : list field_error :=
  rejected field "port must be between 1 and 65535" ((1 <=? v) && (v <=? 65535))%Z.

Definition create_errors (body : EmailServiceCreate) : list field_error :=
  (rejected "provider" ("provider must be one of " +:+ list_repr _VALID_PROVIDERS) (in_set _VALID_PROVIDERS (ec_provider body))
   ++ validate_port "imap_port" (ec_imap_port body) ++ validate_port "smtp_port" (ec_smtp_port body)
   ++ validate_auth_scheme (ec_auth_scheme body))%list.

Record EmailServiceFromTemplate := MkEmailServiceFromTemplate { ft_template_id : string; ft_name : option string }.

Record EmailServiceCredentialBody := MkEmailServiceCredentialBody {
  eb_username : string; eb_password : string; eb_auth_scheme : string }.

(** The mutable fields, [None] for null or absent, and the keys of the request's object. *)
Record EmailServicePatch := MkEmailServicePatch {
  ep_keys : list string; ep_name : option string; ep_allowed_recipient_domains : option string;
  ep_pool_size_max : option Z; ep_tls_insecure_skip_verify : option bool }.

Definition _IMMUTABLE_EMAIL_FIELDS : list string :=
  ["auth_scheme"; "imap_host"; "imap_port"; "provider"; "smtp_host"; "smtp_port"].
Definition PATCH_FIELDS : list string :=
  ["allowed_recipient_domains"; "name"; "pool_size_max"; "tls_insecure_skip_verify"].
(** [sorted(body.model_fields_set)] *)
Definition model_fields_set (body : EmailServicePatch) : list string :=
  List.filter (in_set (ep_keys body)) PATCH_FIELDS.

(** ** Rows *)

Definition email_service_json (r : email_service_row) : dict :=
  [("id", JStr (uuid_str (es_id r))); ("tenant_id", JStr (uuid_str (es_tenant_id r))); ("provider", JStr (es_provider r));
   ("name", JStr (es_name r)); ("imap_host", JStr (es_imap_host r)); ("imap_port", JInt (es_imap_port r));
   ("smtp_host", JStr (es_smtp_host r)); ("smtp_port", JInt (es_smtp_port r)); ("auth_scheme", JStr (es_auth_scheme r));
   ("allowed_recipient_domains", opt_json (es_allowed_recipient_domains r)); ("pool_size_max", JInt (es_pool_size_max r));
   ("tls_insecure_skip_verify", JBool (es_tls_insecure_skip_verify r));
   ("created_at", JStr (isoformat_utc (es_created_at r))); ("updated_at", JStr (isoformat_utc (es_updated_at r)))].

(** [WHERE id = :sid AND tenant_id = :tid AND deleted_at IS NULL] *)
Definition live_email_service (sid tid : uuid) (r : email_service_row) : bool :=
  N.eqb (es_id r) sid && N.eqb (es_tenant_id r) tid && negb (es_deleted r).

Definition email_services_by_age : list email_service_row -> list email_service_row :=
  sort_by (fun a b => Z.leb (es_created_at a) (es_created_at b)).

(** [SET f = COALESCE(:f, f), ..., updated_at = :updated_at] *)
Definition apply_patch (body : EmailServicePatch) (now : Z) (r : email_service_row) : email_service_row :=
  EmailServiceRow (es_id r) (es_tenant_id r) (es_provider r) (default (es_name r) (ep_name body))
    (es_imap_host r) (es_imap_port r) (es_smtp_host r) (es_smtp_port r) (es_auth_scheme r)
    (match ep_allowed_recipient_domains body with Some d => Some d | None => es_allowed_recipient_domains r end)
    (default (es_pool_size_max r) (ep_pool_size_max body))
    (default (es_tls_insecure_skip_verify r) (ep_tls_insecure_skip_verify body))
    (es_created_at r) now (es_deleted_at r).

Definition soft_delete (now : Z) (r : email_service_row) : email_service_row :=
  EmailServiceRow (es_id r) (es_tenant_id r) (es_provider r) (es_name r) (es_imap_host r) (es_imap_port r) (es_smtp_host r)
    (es_smtp_port r) (es_auth_scheme r) (es_allowed_recipient_domains r) (es_pool_size_max r)
    (es_tls_insecure_skip_verify r) (es_created_at r) now (Some now).

Section EmailServices.
Context `{E : Env} `{V : Vault} `{Sha : Sha256}.

(** [UUID(service_id) if _is_valid_uuid(service_id) else uuid.uuid4()] *)
Definition target_uuid (service_id : string) : M (option uuid_value) :=
  match UUID service_id with
  | Ok u => ret (Some (VUUID u))
  | Raise _ => let! u := uuid4 in ret (Some (VUUID u))
  end.

Definition create_email_service (tenant_id : uuid) (body : EmailServiceCreate) : M response :=
  let allowed := schemes_of (ec_provider body) in
  if negb (in_set allowed (ec_auth_scheme body)) then
    ret (problem 422 "incompatible_auth_scheme"
      ("auth_scheme '" +:+ ec_auth_scheme body +:+ "' is not compatible with provider '" +:+ ec_provider body +:+
       "'. Allowed: " +:+ list_repr allowed))
  else if negb (_valid_host_port (ec_imap_host body) (ec_imap_port body)) then
    ret (problem 422 "invalid_imap" "Invalid IMAP host or port")
  else if negb (_valid_host_port (ec_smtp_host body) (ec_smtp_port body)) then
    ret (problem 422 "invalid_smtp" "Invalid SMTP host or port")
  else
    do! set_tenant_context (uuid_str tenant_id) false in
    let! svc_id := uuid4 in
    let! now := now_utc in
    let! sid := bound (uuid_str svc_id) in
    let! tid := bound (uuid_str tenant_id) in
    let! imap_port := bound_int4 (JInt (ec_imap_port body)) in
    let! smtp_port := bound_int4 (JInt (ec_smtp_port body)) in
    let! pool_size := bound_int4 (JInt (ec_pool_size_max body)) in
    do! insert_into email_services_t
      (EmailServiceRow sid tid (ec_provider body) (ec_name body) (ec_imap_host body) imap_port (ec_smtp_host body) smtp_port
         (ec_auth_scheme body) (ec_allowed_recipient_domains body) pool_size (ec_tls_insecure_skip_verify body) now now None) in
    do! audit_emit tenant_id "email.service.registered" None "operator" (Some (VUUID svc_id)) (Some "email_service")
      [("service_id", JStr (uuid_str svc_id)); ("provider", JStr (ec_provider body)); ("name", JStr (ec_name body));
       ("auth_scheme", JStr (ec_auth_scheme body)); ("imap_host", JStr (ec_imap_host body));
       ("imap_port", JInt (ec_imap_port body)); ("smtp_host", JStr (ec_smtp_host body));
       ("smtp_port", JInt (ec_smtp_port body)); ("tls_insecure_skip_verify", JBool (ec_tls_insecure_skip_verify body))] in
    ret (JSONResponse 201
      [("id", JStr (uuid_str svc_id)); ("tenant_id", JStr (uuid_str tenant_id)); ("provider", JStr (ec_provider body));
       ("name", JStr (ec_name body)); ("auth_scheme", JStr (ec_auth_scheme body)); ("imap_host", JStr (ec_imap_host body));
       ("imap_port", JInt (ec_imap_port body)); ("smtp_host", JStr (ec_smtp_host body));
       ("smtp_port", JInt (ec_smtp_port body)); ("tls_insecure_skip_verify", JBool (ec_tls_insecure_skip_verify body));
       ("created_at", JStr (isoformat_utc now))]).

(** [x or dflt] of an optional text, and of an optional number *)
Definition str_or (x : option string) (dflt : string) : string :=
  match x with Some s => if String.eqb s "" then dflt else s | None => dflt end.
Definition port_or (x : option Z) (dflt : Z) : Z :=
  match x with Some z => if Z.eqb z 0 then dflt else z | None => dflt end.

Definition create_email_service_from_template (registry : list ServiceTemplate) (tenant_id : uuid)
    (body : EmailServiceFromTemplate) : M response :=
  match registry_get registry (ft_template_id body) with
  | None => ret (problem 404 "template_not_found" ("Template '" +:+ ft_template_id body +:+ "' not found"))
  | Some template =>
      match st_kind template with
      | http_service =>
          ret (problem 422 "wrong_template_kind"
            ("Template '" +:+ ft_template_id body +:+ "' has kind='" +:+ kind_str (st_kind template) +:+
             "'; expected kind='email_service'"))
      | email_service =>
          let name := str_or (ft_name body) (st_name template) in
          let provider := str_or (st_provider template) "generic" in
          let imap_host := str_or (st_imap_host template) "" in
          let imap_port := port_or (st_imap_port template) 993 in
          let smtp_host := str_or (st_smtp_host template) "" in
          let smtp_port := port_or (st_smtp_port template) 587 in
          let auth_scheme := str_or (st_auth_scheme template) "email_password" in
          do! set_tenant_context (uuid_str tenant_id) false in
          let! svc_id := uuid4 in
          let! now := now_utc in
          let! sid := bound (uuid_str svc_id) in
          let! tid := bound (uuid_str tenant_id) in
          let! imap_port4 := bound_int4 (JInt imap_port) in
          let! smtp_port4 := bound_int4 (JInt smtp_port) in
          do! insert_into email_services_t
            (EmailServiceRow sid tid provider name imap_host imap_port4 smtp_host smtp_port4 auth_scheme None 5 false
               now now None) in
          do! audit_emit tenant_id "email.service.registered" None "operator" (Some (VUUID svc_id)) (Some "email_service")
            [("service_id", JStr (uuid_str svc_id)); ("provider", JStr provider); ("name", JStr name);
             ("auth_scheme", JStr auth_scheme); ("imap_host", JStr imap_host); ("imap_port", JInt imap_port);
             ("smtp_host", JStr smtp_host); ("smtp_port", JInt smtp_port);
             ("template_id", JStr (st_template_id template))] in
          ret (JSONResponse 201
            [("id", JStr (uuid_str svc_id)); ("tenant_id", JStr (uuid_str tenant_id)); ("provider", JStr provider);
             ("name", JStr name); ("auth_scheme", JStr auth_scheme); ("imap_host", JStr imap_host);
             ("imap_port", JInt imap_port); ("smtp_host", JStr smtp_host); ("smtp_port", JInt smtp_port);
             ("template_id", JStr (st_template_id template)); ("created_at", JStr (isoformat_utc now))])
      end
  end.

(** ** The password credential *)

Definition email_service_of (tenant_id : uuid) (service_id : string) : M (option email_service_row) :=
  let! sid := bound service_id in
  let! tid := bound (uuid_str tenant_id) in
  let! rows := select email_services_t (live_email_service sid tid) in
  ret (fetchone rows).

Definition no_email_service : response :=
  problem 422 "not_found" "Email service not found or does not belong to this tenant.".

(** [try: m except Exception: return on_error] *)
Definition guarded {A B} (m : M A) (on_error : M B) (k : A -> M B) : M B :=
  let! r := catch (let! a := m in ret (Some a)) (fun _ => ret None) in
  match r with Some a => k a | None => on_error end.

Definition set_email_service_credential (tenant_id : uuid) (service_id : string) (body : EmailServiceCredentialBody)
    : M response :=
  let scheme := eb_auth_scheme body in
  if String.eqb scheme "email_oauth2" then
    ret (problem 422 "use_oauth2_flow"
      ("auth_scheme 'email_oauth2' requires the OAuth2 authorization flow. Use POST " +:+
       "/v1/tenants/{tid}/email-services/{sid}/oauth2/{provider}/authorize instead."))
  else if negb (in_set _CREDENTIAL_SET_ALLOWED_SCHEMES scheme) then
    ret (problem 422 "invalid_auth_scheme"
      ("auth_scheme '" +:+ scheme +:+ "' is not valid for this endpoint. Allowed: " +:+
       list_repr _CREDENTIAL_SET_ALLOWED_SCHEMES))
  else
    do! set_tenant_context (uuid_str tenant_id) false in
    let! svc_row := email_service_of tenant_id service_id in
    match svc_row with
    | None => ret no_email_service
    | Some svc_row =>
        if negb (String.eqb (es_auth_scheme svc_row) scheme) then
          ret (problem 422 "auth_scheme_mismatch"
            ("The email service has auth_scheme='" +:+ es_auth_scheme svc_row +:+
             "' but the request body specifies auth_scheme='" +:+ scheme +:+ "'. They must match."))
        else
          let plaintext := dumps (JObj [("username", JStr (eb_username body)); ("password", JStr (eb_password body))]) in
          guarded (put_credential (uuid_str tenant_id) service_id scheme plaintext "" "" "" "" "")
            (ret (problem 502 "vault_error" "Failed to store credential in vault"))
            (fun vault_result =>
          let! target := target_uuid service_id in
          do! audit_emit tenant_id "email.credential.set" None "operator" target (Some "email_service")
            [("service_id", JStr service_id); ("auth_scheme", JStr scheme)] in
          ret (JSONResponse 201
            [("id", JStr (pr_credential_id vault_result)); ("auth_scheme", JStr scheme); ("status", JStr "set")]))
    end.

Definition delete_email_service_credential (tenant_id : uuid) (service_id : string) : M response :=
  do! set_tenant_context (uuid_str tenant_id) false in
  let! svc_row := email_service_of tenant_id service_id in
  match svc_row with
  | None => ret no_email_service
  | Some svc_row =>
      guarded (let! existing := get_credential (uuid_str tenant_id) service_id in
               match existing with
               | Some _ => let! _ := put_credential (uuid_str tenant_id) service_id (es_auth_scheme svc_row) "" "" "" "" "" "" in
                           ret tt
               | None => ret tt
               end)
        (ret (problem 502 "vault_error" "Failed to revoke credential in vault"))
        (fun _ =>
      let! target := target_uuid service_id in
      do! audit_emit tenant_id "email.credential.deleted" None "operator" target (Some "email_service")
        [("service_id", JStr service_id)] in
      ret (EmptyResponse 204))
  end.

(** ** Reading, update, deletion *)

Definition email_service_not_found : response := problem 404 "not_found" "Email service not found".

(** [limit] is between 1 and 100 and [offset] is not negative. *)
Definition list_email_services (tenant_id : uuid) (limit offset : nat) : M response :=
  do! set_tenant_context (uuid_str tenant_id) false in
  let! tid := bound (uuid_str tenant_id) in
  let live r := N.eqb (es_tenant_id r) tid && negb (es_deleted r) in
  let! all := select email_services_t live in
  let! rows := query (fun pol d => take limit (drop offset
    (email_services_by_age (List.filter live (visible email_services_t pol d))))) in
  ret (JSONResponse 200
    [("email_services", JArr (map (fun r => JObj (email_service_json r)) rows));
     ("pagination", JObj [("limit", JInt (Z.of_nat limit)); ("offset", JInt (Z.of_nat offset));
                          ("total", JInt (Z.of_nat (length all)))])]).

Definition get_email_service (tenant_id : uuid) (service_id : string) : M response :=
  do! set_tenant_context (uuid_str tenant_id) false in
  let! row := email_service_of tenant_id service_id in
  match row with
  | None => ret email_service_not_found
  | Some row =>
      let! oauth2_authorized :=
        guarded (get_credential (uuid_str tenant_id) service_id) (ret false)
          (fun cred => ret match cred with
                           | Some c => Z.eqb (cr_scheme c) _AUTH_SCHEME_EMAIL_OAUTH2
                           | None => false
                           end) in
      ret (JSONResponse 200 (email_service_json row ++ [("oauth2_authorized", JBool oauth2_authorized)])%list)
  end.

Definition bound_opt_int4 (o : option Z) : M (option Z) :=
  match o with Some z => let! z := bound_int4 (JInt z) in ret (Some z) | None => ret None end.

Definition patch_email_service (tenant_id : uuid) (service_id : string) (body : EmailServicePatch) : M response :=
  let bad_fields := List.filter (in_set (ep_keys body)) _IMMUTABLE_EMAIL_FIELDS in
  if negb (length bad_fields =? 0)%nat then
    ret (problem 422 "immutable_fields"
      ("Fields " +:+ list_repr bad_fields +:+ " cannot be changed after creation." +:+
       " To change provider, hosts, ports, or auth_scheme: remove and re-create."))
  else if (length (model_fields_set body) =? 0)%nat then
    ret (problem 422 "no_fields_to_update" "Request body contains no fields to update.")
  else
    do! set_tenant_context (uuid_str tenant_id) false in
    let! found := email_service_of tenant_id service_id in
    match found with
    | None => ret email_service_not_found
    | Some _ =>
        let! now := now_utc in
        let! sid := bound service_id in
        let! tid := bound (uuid_str tenant_id) in
        let! _ := bound_opt_int4 (ep_pool_size_max body) in
        do! update_where email_services_t (live_email_service sid tid) (apply_patch body now) in
        let! target := target_uuid service_id in
        do! audit_emit tenant_id "email.service.updated" None "operator" target (Some "email_service")
          [("service_id", JStr service_id); ("changed_fields", JArr (map JStr (model_fields_set body)))] in
        let! row := email_service_of tenant_id service_id in
        match row with
        | None => ret email_service_not_found
        | Some row => ret (JSONResponse 200 (email_service_json row))
        end
    end.

Definition delete_email_service (tenant_id : uuid) (service_id : string) : M response :=
  do! set_tenant_context (uuid_str tenant_id) false in
  let! now := now_utc in
  let! sid := bound service_id in
  let! tid := bound (uuid_str tenant_id) in
  do! update_where email_services_t (live_email_service sid tid) (soft_delete now) in
  let! target := target_uuid service_id in
  do! audit_emit tenant_id "email.service.deleted" None "operator" target (Some "email_service")
    [("service_id", JStr service_id)] in
  ret (EmptyResponse 204).
End EmailServices.

(** ** Grants on email services (admin_api/api/email_permission_grants.py) *)

Record EmailPermissionGrantCreate := MkEmailPermissionGrantCreate { gc_agent_id : string; gc_email_service_id : string }.

(** A value without the prefix is returned as it is. *)
Definition _decode_id (value prefix : string) : outcome string :=
  if startswith value (prefix +:+ "_") then Admin.wire_to_db_uuid value prefix else Ok value.

(** The message of the exception of a violated constraint: its kind and its name. *)
Definition violation_text (constraint : string) : string :=
  (if endswith constraint "_pkey" || startswith constraint "uq_" then "duplicate key value violates unique constraint "
   else "insert or update violates foreign key constraint ") +:+ constraint.

(** [str(exc).lower()] names a unique constraint. *)
Definition mentions_unique (e : exn) : bool :=
  let text := lower match e with
                    | IntegrityError c => violation_text c
                    | ValueError s | KeyError s | TypeError s | AttributeError s | RuntimeError s | IndexError s
                    | OverflowError s | DBError s | GrpcError s => s
                    | ServiceNotFound s _ | HTTPException _ s _ => s
                    end in
  py_in "unique" text || py_in "duplicate" text || py_in "uq_email_permission_grants" text.

Definition email_grant_json (r : email_grant_row) : dict :=
  [("id", JStr (uuid_str (eg_id r))); ("tenant_id", JStr (uuid_str (eg_tenant_id r)));
   ("agent_id", JStr (uuid_str (eg_agent_id r))); ("email_service_id", JStr (uuid_str (eg_email_service_id r)));
   ("created_at", JStr (isoformat_utc (eg_created_at r))); ("updated_at", JStr (isoformat_utc (eg_updated_at r)))].

(** [ORDER BY created_at] *)
Definition email_grants_by_age : list email_grant_row -> list email_grant_row :=
  sort_by (fun a b => Z.leb (eg_created_at a) (eg_created_at b)).

Section EmailGrants.
Context `{E : Env} `{V : Vault} `{Sha : Sha256}.

Definition create_email_permission_grant (tenant_id : uuid) (body : EmailPermissionGrantCreate) : M response :=
  do! set_tenant_context (uuid_str tenant_id) false in
  try_value (a ← _decode_id (gc_agent_id body) "agent"; s ← _decode_id (gc_email_service_id body) "esvc"; Ok (a, s))
    (ret (problem 422 "invalid_id" "agent_id or email_service_id is not a valid wire-form or UUID"))
    (fun ids =>
  let '(agent_uuid, email_service_uuid) := ids in
  let! tid := bound (uuid_str tenant_id) in
  let! aid := bound agent_uuid in
  let! agents := select agents_t (fun a => N.eqb (a_id a) aid && N.eqb (a_tenant_id a) tid) in
  match fetchone agents with
  | None => ret (problem 422 "not_found" "Agent not found or does not belong to this tenant")
  | Some _ =>
      let! esid := bound email_service_uuid in
      let! services := select email_services_t (fun s =>
        N.eqb (es_id s) esid && N.eqb (es_tenant_id s) tid && negb (es_deleted s)) in
      match fetchone services with
      | None => ret (problem 422 "not_found" "Email service not found or does not belong to this tenant")
      | Some _ =>
          let! grant_id := uuid4 in
          let! now := now_utc in
          let! inserted := catch (let! gid := bound (uuid_str grant_id) in
                                  do! insert_into email_permission_grants_t (EmailGrantRow gid tid aid esid now now) in
                                  ret true)
                                 (fun e => if mentions_unique e then ret false else raise e) in
          if negb inserted then
            ret (problem 409 "already_exists" "An email permission grant for this agent and email service already exists")
          else
            do! audit_emit tenant_id "email_permission_grant.created" None "operator" (Some (VUUID grant_id))
              (Some "email_permission_grant")
              [("agent_id", JStr agent_uuid); ("email_service_id", JStr email_service_uuid)] in
            do! notify_change "mintkey:agent"
              [("event", JStr "email_permission_grant.created"); ("tenant_id", JStr (uuid_str tenant_id));
               ("agent_id", JStr agent_uuid); ("email_service_id", JStr email_service_uuid);
               ("grant_id", JStr (uuid_str grant_id))] in
            ret (JSONResponse 201
              [("id", JStr (uuid_str grant_id)); ("tenant_id", JStr (uuid_str tenant_id)); ("agent_id", JStr agent_uuid);
               ("email_service_id", JStr email_service_uuid); ("created_at", JStr (isoformat_utc now));
               ("updated_at", JStr (isoformat_utc now))])
      end
  end).

Definition list_email_permission_grants (tenant_id : uuid) : M response :=
  do! set_tenant_context (uuid_str tenant_id) false in
  let! tid := bound (uuid_str tenant_id) in
  let! rows := query (fun pol d => email_grants_by_age
    (List.filter (fun g => N.eqb (eg_tenant_id g) tid) (visible email_permission_grants_t pol d))) in
  ret (JSONResponse 200 [("grants", JArr (map (fun g => JObj (email_grant_json g)) rows))]).

(** [WHERE id = :gid AND tenant_id = :tid] *)
Definition email_grant (gid tid : uuid) (g : email_grant_row) : bool := N.eqb (eg_id g) gid && N.eqb (eg_tenant_id g) tid.

Definition get_email_permission_grant (tenant_id : uuid) (grant_id : string) : M response :=
  do! set_tenant_context (uuid_str tenant_id) false in
  let! gid := bound grant_id in
  let! tid := bound (uuid_str tenant_id) in
  let! rows := select email_permission_grants_t (email_grant gid tid) in
  match fetchone rows with
  | None => ret (problem 404 "not_found" "Email permission grant not found")
  | Some row => ret (JSONResponse 200 (email_grant_json row))
  end.

Definition delete_email_permission_grant (tenant_id : uuid) (grant_id : string) : M response :=
  do! set_tenant_context (uuid_str tenant_id) false in
  let! gid := bound grant_id in
  let! tid := bound (uuid_str tenant_id) in
  let! rows := select email_permission_grants_t (email_grant gid tid) in
  let row := fetchone rows in
  let! _ := delete_from email_permission_grants_t (email_grant gid tid) in
  let agent_id_val := match row with Some r => uuid_str (eg_agent_id r) | None => grant_id end in
  let esvc_id_val := match row with Some r => uuid_str (eg_email_service_id r) | None => "" end in
  do! audit_emit tenant_id "email_permission_grant.revoked" None "operator" None (Some "email_permission_grant")
    [("grant_id", JStr grant_id); ("agent_id", JStr agent_id_val); ("email_service_id", JStr esvc_id_val)] in
  do! notify_change "mintkey:agent"
    [("event", JStr "email_permission_grant.revoked"); ("tenant_id", JStr (uuid_str tenant_id));
     ("agent_id", JStr agent_id_val); ("email_service_id", JStr esvc_id_val); ("grant_id", JStr grant_id)] in
  ret (EmptyResponse 204).

(** ** The router *)

Inductive email_grants_request :=
  | PostEmailGrant (body : EmailPermissionGrantCreate)
  | ListEmailGrants
  | GetEmailGrant (grant_id : string)
  | DeleteEmailGrant (grant_id : string).

Definition email_grants_handler (tenant_id : uuid) (rq : email_grants_request) : M response :=
  match rq with
  | PostEmailGrant body => create_email_permission_grant tenant_id body
  | ListEmailGrants => list_email_permission_grants tenant_id
  | GetEmailGrant grant_id => get_email_permission_grant tenant_id grant_id
  | DeleteEmailGrant grant_id => delete_email_permission_grant tenant_id grant_id
  end.

(** Every endpoint depends on [require_tenant_session]. *)
Definition email_grants_router (cookie : option string) (tenant_id : uuid) (rq : email_grants_request) : M response :=
  do! require_tenant_session cookie tenant_id in
  transaction (email_grants_handler tenant_id rq).
End EmailGrants.
