(* ===== verification/EmailOauth.v ===== *)
(** * The OAuth2 flow of email services (admin_api/api/email_services.py)

    The client configurations of a tenant (admin_api/api/oauth2_providers.py),
    and the authorization of a service at Google or Microsoft: the state row a
    flow starts with, the exchange of the code for a refresh token, which goes
    to the vault, the four callbacks (per service or per tenant, as JSON or as
    a page), and the refresh the email proxy asks for. *)

From S2P Require Import Prelude PyStr PyText PyJson PyJsonFacts PyTime Periods WireIds AuditHash PyCodecs PublicUrls.
From S2P Require Import Vault Tables Database Logic Keys Sessions AuditEmit AgentSecrets Permissions.
From S2P Require Import VaultClient Templates SshTest CredPayloads EmailServices.

Local Open Scope string_scope.
Local Open Scope py_scope.

(** ** Client configurations

    The client identifier of a tenant for an OAuth2 provider is a row of
    oauth2_client_configs; its secret is in the vault, under an identifier
    derived from tenant and provider. *)

Definition _VAULT_AUTH_SCHEME : string := "email_oauth2_client".
Definition _OAUTH2_CLIENT_VAULT_NAMESPACE : uuid := 0x2f3a7b914c4e5d6a9e0fa1b2c3d4e5f6%N.

Definition _vault_service_id (tenant_id : uuid) (provider : string) : string :=
  uuid_str (uuid5 _OAUTH2_CLIENT_VAULT_NAMESPACE (uuid_str tenant_id +:+ ":" +:+ provider)).

Definition _client_id_last4 (client_id : string) : string :=
  if (4 <=? py_len client_id)%nat then py_drop (py_len client_id - 4) client_id else client_id.

Record OAuth2ProviderConfigBody := MkOAuth2ProviderConfigBody { pc_client_id : string; pc_client_secret : string }.

Definition not_empty (field v : string) : list field_error :=
  rejected field "must not be empty" (negb (String.eqb (py_strip v) "")).
Definition config_errors (body : OAuth2ProviderConfigBody) : list field_error :=
  (not_empty "client_id" (pc_client_id body) ++ not_empty "client_secret" (pc_client_secret body))%list.

Definition unsupported_provider (provider : string) : response :=
  problem 422 "unsupported_provider"
    ("provider '" +:+ provider +:+ "' is not supported. Supported: " +:+ list_repr _OAUTH2_PROVIDERS).

Definition config_json (r : client_config_row) : dict :=
  [("provider", JStr (oc_provider r)); ("client_id_last4", JStr (_client_id_last4 (oc_client_id r)));
   ("configured_at", JStr (isoformat_utc (oc_updated_at r)))].

(** [WHERE tenant_id = :tid AND provider = :provider] *)
Definition config_of (tid : uuid) (provider : string) (r : client_config_row) : bool :=
  N.eqb (oc_tenant_id r) tid && String.eqb (oc_provider r) provider.

(** [DO UPDATE SET client_id = :client_id, updated_at = :now] *)
Definition set_client_id (client_id : string) (now : Z) (r : client_config_row) : client_config_row :=
  ClientConfigRow (oc_tenant_id r) (oc_provider r) client_id (oc_created_at r) now.

Section Oauth2Providers.
Context `{E : Env} `{V : Vault} `{Sha : Sha256}.

Definition configure_oauth2_provider (tenant_id : uuid) (provider : string) (body : OAuth2ProviderConfigBody) : M response :=
  if negb (in_set _OAUTH2_PROVIDERS provider) then ret (unsupported_provider provider)
  else
    let client_id := py_strip (pc_client_id body) in
    let client_secret := py_strip (pc_client_secret body) in
    if String.eqb client_id "" then ret (problem 422 "invalid_client_id" "client_id must not be empty or whitespace")
    else if String.eqb client_secret "" then
      ret (problem 422 "invalid_client_secret" "client_secret must not be empty or whitespace")
    else
      do! set_tenant_context (uuid_str tenant_id) false in
      guarded (put_credential (uuid_str tenant_id) (_vault_service_id tenant_id provider) _VAULT_AUTH_SCHEME client_secret
                 "" "" "" "" "")
        (ret (problem 502 "vault_error" "Failed to store credential in vault"))
        (fun _ =>
      let! now := now_utc in
      let last4 := _client_id_last4 client_id in
      let! tid := bound (uuid_str tenant_id) in
      do! upsert oauth2_client_configs_t (config_of tid provider) (set_client_id client_id now)
            (ClientConfigRow tid provider client_id now now) in
      do! audit_emit tenant_id "oauth2_provider.configured" None "operator" (Some (VUUID tenant_id)) (Some "tenant")
        [("provider", JStr provider); ("client_id_last4", JStr last4)] in
      ret (JSONResponse 201
        [("provider", JStr provider); ("client_id_last4", JStr last4); ("configured_at", JStr (isoformat_utc now))])).

Definition list_oauth2_providers (tenant_id : uuid) : M response :=
  do! set_tenant_context (uuid_str tenant_id) false in
  let! tid := bound (uuid_str tenant_id) in
  let! rows := query (fun pol d => sort_by (fun a b => String.leb (oc_provider a) (oc_provider b))
    (List.filter (fun r => N.eqb (oc_tenant_id r) tid) (visible oauth2_client_configs_t pol d))) in
  ret (JSONResponse 200 [("providers", JArr (map (fun r => JObj (config_json r)) rows))]).

Definition not_configured (provider : string) : response :=
  problem 404 "not_found" ("OAuth2 provider '" +:+ provider +:+ "' is not configured for this tenant").

Definition get_oauth2_provider (tenant_id : uuid) (provider : string) : M response :=
  if negb (in_set _OAUTH2_PROVIDERS provider) then ret (unsupported_provider provider)
  else
    do! set_tenant_context (uuid_str tenant_id) false in
    let! tid := bound (uuid_str tenant_id) in
    let! rows := select oauth2_client_configs_t (config_of tid provider) in
    match fetchone rows with
    | None => ret (not_configured provider)
    | Some row => ret (JSONResponse 200 (config_json row))
    end.

Definition delete_oauth2_provider (tenant_id : uuid) (provider : string) : M response :=
  if negb (in_set _OAUTH2_PROVIDERS provider) then ret (unsupported_provider provider)
  else
    do! set_tenant_context (uuid_str tenant_id) false in
    let! tid := bound (uuid_str tenant_id) in
    let! rows := delete_returning oauth2_client_configs_t (config_of tid provider) in
    match fetchone rows with
    | None => ret (not_configured provider)
    | Some _ =>
        let vault_service_id := _vault_service_id tenant_id provider in
        do! catch (let! existing := get_credential (uuid_str tenant_id) vault_service_id in
                   match existing with
                   | Some _ => let! _ := put_credential (uuid_str tenant_id) vault_service_id _VAULT_AUTH_SCHEME ""
                                           "" "" "" "" "" in ret tt
                   | None => ret tt
                   end)
                  (fun _ => ret tt) in
        do! audit_emit tenant_id "oauth2_provider.deleted" None "operator" (Some (VUUID tenant_id)) (Some "tenant")
          [("provider", JStr provider)] in
        ret (EmptyResponse 204)
    end.
End Oauth2Providers.

(** ** The flow *)

Definition _GMAIL_TOKEN_URL : string := "https://oauth2.googleapis.com/token".
Definition _OUTLOOK_TOKEN_URL : string := "https://login.microsoftonline.com/common/oauth2/v2.0/token".
Definition _GMAIL_AUTH_URL : string := "https://accounts.google.com/o/oauth2/v2/auth".
Definition _OUTLOOK_AUTH_URL : string := "https://login.microsoftonline.com/common/oauth2/v2.0/authorize".
Definition _GMAIL_USERINFO_URL : string := "https://www.googleapis.com/gmail/v1/users/me/profile".
Definition _GMAIL_SCOPES : string :=
  "https://mail.google.com/ https://www.googleapis.com/auth/gmail.send https://www.googleapis.com/auth/gmail.readonly".
Definition _OUTLOOK_SCOPES : string :=
  "https://outlook.office.com/IMAP.AccessAsUser.All https://outlook.office.com/SMTP.Send offline_access".

Definition token_url (provider : string) : string :=
  if String.eqb provider "gmail" then _GMAIL_TOKEN_URL else _OUTLOOK_TOKEN_URL.

(** [httpx.HTTPError] and its subclasses *)
Definition is_http_error (e : exn) : bool :=
  match e with
  | RuntimeError s =>
      in_set ["HTTPError"; "RequestError"; "TransportError"; "TimeoutException"; "ConnectTimeout"; "ReadTimeout";
              "WriteTimeout"; "PoolTimeout"; "NetworkError"; "ConnectError"; "ReadError"; "WriteError"; "CloseError";
              "ProxyError"; "UnsupportedProtocol"; "ProtocolError"; "LocalProtocolError"; "RemoteProtocolError";
              "DecodingError"; "TooManyRedirects"; "HTTPStatusError"] s
  | _ => false
  end.

(** [resp.json()] as a dict, for a caller that applies [get] to it; of a repeated key the last counts. *)
Definition json_object (body : option json) : outcome dict :=
  match dedup <$> body with
  | None => Raise (ValueError "JSONDecodeError")
  | Some (JObj d) => Ok d
  | Some _ => Raise (AttributeError "get")
  end.

(** [int(v)] of a JSON value *)
Definition int_of_json (j : json) : outcome Z :=
  match j with
  | JInt z => Ok z
  | JBool b => Ok (if b then 1 else 0)%Z
  | JStr s => match py_int10 s with Some z => Ok z | None => Raise (ValueError "invalid literal for int()") end
  | _ => Raise (TypeError "int() argument must be a string, a bytes-like object or a real number")
  end.

(** ** The page of a callback *)

(** [html.escape(s)] *)
Definition escape_char (c : ascii) : list ascii :=
  let n := code c in
  if (n =? 38)%N then chars "&amp;" else if (n =? 60)%N then chars "&lt;" else if (n =? 62)%N then chars "&gt;"
  else if (n =? 34)%N then chars "&quot;" else if (n =? 39)%N then chars "&#x27;" else [c].
Definition html_escape (s : string) : string := unchars (flat_map escape_char (chars s)).

Definition _ERROR_MESSAGES : list (string * string) :=
  [("access_denied", "You declined to grant access. Please try again and click Allow.");
   ("invalid_request", "The OAuth2 request was invalid. Please contact support.");
   ("unauthorized_client", "This application is not authorized to request access. Please contact support.");
   ("unsupported_response_type", "OAuth2 configuration error. Please contact support.");
   ("invalid_scope", "The requested permissions are not available. Please contact support.");
   ("server_error", "The authorization server encountered an error. Please try again.");
   ("temporarily_unavailable", "The authorization server is temporarily unavailable. Please try again later.")].

(** Constant text, with backquotes for its double quotes and bars for its line feeds; the source has neither. *)
Definition quoted (s : string) : string :=
  replace_char "|" (unchars [chr 10]) (replace_char "`" (unchars [chr 34]) s).

(** [first or second or dflt] of texts *)
Definition first_text (l : list string) (dflt : string) : string :=
  default dflt (List.find (fun s => negb (String.eqb s "")) l).

Record page := Page {
  pg_status : string; pg_heading : string; pg_body : string; pg_class : string; pg_title : string; pg_query : string }.

Definition page_of (success : bool) (error_code error_description : string) : page :=
  if success then Page "ok" "Authorization complete" "You can close this window." "success" "complete" "oauth2_authorized=true"
  else
    let friendly := first_text [default "" (snd <$> List.find (fun kv => String.eqb error_code (fst kv)) _ERROR_MESSAGES)]
                      (html_escape (first_text [error_description; error_code] "Unknown error")) in
    Page "error" "Authorization failed" friendly "error" "error"
      ("oauth2_error=" +:+ html_escape (first_text [error_code] "unknown_error")).

Definition show_url (admin_ui_origin safe_service_id redirect_qs : string) : string :=
  admin_ui_origin +:+ "/admin/resources/email_services/records/" +:+ safe_service_id +:+ "/show?" +:+ redirect_qs.

Definition _oauth2_callback_html (success : bool) (service_id error_code error_description admin_ui_origin : string) : string :=
  let p := page_of success error_code error_description in
  let safe_service_id := html_escape service_id in
  quoted "<!DOCTYPE html>|<html lang=`en`>|<head>|  <meta charset=`utf-8`>|  <meta name=`viewport` content=`width=device-width,initial-scale=1`>|  <title>Mintkey \u2013 OAuth2 "
  +:+ pg_title p +:+
  quoted "</title>|  <style>|    body{margin:0;padding:0;font-family:system-ui,sans-serif;|         background:#f0f4f8;display:flex;align-items:center;justify-content:center;min-height:100vh}|    .card{background:#fff;border-radius:8px;box-shadow:0 2px 12px rgba(0,0,0,.12);|           padding:2rem 2.5rem;max-width:400px;width:100%;text-align:center}|    .success h1{color:#166534} .error h1{color:#991b1b}|    h1{font-size:1.25rem;margin:0 0 .75rem} p{color:#374151;margin:0 0 1rem;font-size:.95rem}|    small{color:#6b7280;font-size:.8rem}|  </style>|</head>|<body>|  <div class=`card "
  +:+ pg_class p +:+ quoted "`>|    <h1>" +:+ pg_heading p +:+ quoted "</h1>|    <p>" +:+ pg_body p +:+
  quoted "</p>|    <small>This window will close automatically.</small>|  </div>|  <script>|    (function(){|      var MSG = {type:`oauth2_callback`,status:`"
  +:+ pg_status p +:+ quoted "`,service_id:`" +:+ safe_service_id +:+ quoted "`};|      var SHOW_URL = "
  +:+ py_repr (show_url admin_ui_origin safe_service_id (pg_query p)) +:+
  quoted ";|      try {|        if (window.opener && !window.opener.closed) {|          window.opener.postMessage(MSG, "
  +:+ py_repr admin_ui_origin +:+
  quoted ");|          window.close();|        } else {|          window.location.replace(SHOW_URL);|        }|      } catch(e) {|        window.location.replace(SHOW_URL);|      }|    })();|  </script>|</body>|</html>".

(** ** Client configuration and public URLs *)

Section EmailOauth.
Context `{E : Env} `{V : Vault} `{Sha : Sha256}.

Definition _oauth2_config (provider : string) : option (string * string) :=
  let read prefix :=
    let cid := getenv (prefix +:+ "_CLIENT_ID") "" in
    let csecret := getenv (prefix +:+ "_CLIENT_SECRET") "" in
    if String.eqb cid "" || String.eqb csecret "" then None else Some (cid, csecret) in
  if String.eqb provider "gmail" then read "MINTKEY_OAUTH2_GMAIL"
  else if String.eqb provider "outlook" then read "MINTKEY_OAUTH2_OUTLOOK"
  else None.

Definition _oauth2_config_from_db (tenant_id : uuid) (provider : string) : M (option (string * string)) :=
  guarded (let! tid := bound (uuid_str tenant_id) in
           let! rows := select oauth2_client_configs_t (config_of tid provider) in
           ret (fetchone rows))
    (ret None)
    (fun row =>
  match row with
  | Some row =>
      guarded (get_credential (uuid_str tenant_id) (_vault_service_id tenant_id provider)) (ret None)
        (fun cred => ret match cred with
                         | Some c => if String.eqb (cr_plaintext c) "" then None else Some (oc_client_id row, cr_plaintext c)
                         | None => None
                         end)
  | None => ret (_oauth2_config provider)
  end).

Definition _oauth2_redirect_base : string := rstrip "/" (getenv "MINTKEY_ADMIN_API_PUBLIC_URL" "http://localhost:8080").
Definition _admin_ui_base : string := rstrip "/" (getenv "MINTKEY_ADMIN_UI_PUBLIC_URL" "http://localhost:8081").

Definition unsupported_oauth2 : response :=
  problem 422 "unsupported_provider" ("OAuth2 is only supported for " +:+ list_repr _OAUTH2_PROVIDERS).
Definition oauth2_not_configured (provider : string) : response :=
  problem 503 "oauth2_not_configured" ("OAuth2 credentials for provider '" +:+ provider +:+ "' are not configured").

(** ** Authorization *)

Definition authorize_url (provider client_id redirect_uri state : string) : string :=
  let spaces := replace_char " " "%20" in
  if String.eqb provider "gmail" then
    _GMAIL_AUTH_URL +:+ "?client_id=" +:+ client_id +:+ "&response_type=code" +:+ "&scope=" +:+ spaces _GMAIL_SCOPES +:+
    "&redirect_uri=" +:+ redirect_uri +:+ "&state=" +:+ state +:+ "&access_type=offline" +:+ "&prompt=consent"
  else
    _OUTLOOK_AUTH_URL +:+ "?client_id=" +:+ client_id +:+ "&response_type=code" +:+ "&scope=" +:+ spaces _OUTLOOK_SCOPES +:+
    "&redirect_uri=" +:+ redirect_uri +:+ "&state=" +:+ state.

(** The operator and the session the state is recorded for: those of the cookie where it is valid. *)
Definition state_owner (session_token : string) : M (uuid * uuid) :=
  let! generated := uuid4 in
  if String.eqb session_token "" then ret (0%N, generated)
  else
    let! ctx := on_own_connection (validate_session session_token) in
    ret match ctx with
        | Some c => (ctx_operator_id c, match UUID session_token with Ok u => u | Raise _ => generated end)
        | None => (0%N, generated)
        end.

Definition oauth2_authorize (tenant_id : uuid) (service_id provider session_token : string) : M response :=
  if negb (in_set _OAUTH2_PROVIDERS provider) then ret unsupported_oauth2
  else
    do! set_tenant_context (uuid_str tenant_id) false in
    let! creds := _oauth2_config_from_db tenant_id provider in
    match creds with
    | None => ret (oauth2_not_configured provider)
    | Some (client_id, _) =>
        let! svc_row := email_service_of tenant_id service_id in
        match svc_row with
        | None => ret email_service_not_found
        | Some _ =>
            let! sql_now := transaction_timestamp in
            let! _ := delete_from oauth2_state_t (fun r => Z.ltb (os_expires_at r) sql_now) in
            let! state_value := token_urlsafe 32 in
            let! now := now_utc in
            let expires_at := (now + 10 * us_per_minute)%Z in
            let! owner := state_owner session_token in
            let '(operator_id, session_id) := owner in
            let redirect_uri := _oauth2_redirect_base +:+ "/v1/tenants/" +:+ uuid_str tenant_id +:+ "/oauth2/" +:+ provider +:+ "/callback" in
            let! sid := bound service_id in
            let! tid := bound (uuid_str tenant_id) in
            let! session_id := bound (uuid_str session_id) in
            let! operator_id := bound (uuid_str operator_id) in
            do! insert_into oauth2_state_t
              (Oauth2StateRow state_value session_id operator_id tid provider redirect_uri now expires_at (Some sid)) in
            let! target := target_uuid service_id in
            do! audit_emit tenant_id "email.oauth2.authorize_initiated" None "operator" target (Some "email_service")
              [("tenant_id", JStr (uuid_str tenant_id)); ("service_id", JStr service_id); ("provider", JStr provider);
               ("state_token_hash", JStr (hex_bytes (sha256 (utf8 state_value))))] in
            ret (JSONResponse 200
              [("authorize_url", JStr (authorize_url provider client_id redirect_uri state_value));
               ("state", JStr state_value); ("expires_at", JStr (isoformat_utc expires_at))])
        end
    end.

(** ** The exchange of a code *)

Definition _parse_oauth2_plaintext (plaintext : string) : string :=
  if String.eqb plaintext "" then ""
  else match loads plaintext with
       | Some (JObj envelope) =>
           match dict_get "refresh_token" envelope with Some (JStr rt) => rt | _ => plaintext end
       | _ => plaintext
       end.

Inductive _ExchangeResult :=
  | ExchangeOk (service_id authorized_at : string) (token_type : json) (email_address : string)
  | ExchangeFailed (error_code error_title : string) (http_status : Z).

(** [WHERE state_value = :state AND tenant_id = :tid AND provider = :provider AND expires_at > now()] *)
Definition pending_state (state : string) (tid : uuid) (provider : string) (now : Z) (r : oauth2_state_row) : bool :=
  String.eqb (os_state_value r) state && N.eqb (os_tenant_id r) tid && String.eqb (os_provider r) provider
  && Z.ltb now (os_expires_at r).

Definition form : list (string * string) := [("Content-Type", "application/x-www-form-urlencoded")].

(** The address of the Gmail account; empty when the profile cannot be read. *)
Definition gmail_address (access_token : json) : M string :=
  let! resp := catch (let! r := http_get_with _GMAIL_USERINFO_URL [("Authorization", "Bearer " +:+ json_str access_token)] in
                      ret (Some r))
                     (fun e => if is_http_error e then ret None else raise e) in
  match resp with
  | Some (status, body) =>
      if (status =? 200)%Z then
        let! profile := lift (json_object body) in
        ret match dict_get "emailAddress" profile with Some (JStr a) => a | _ => "" end
      else ret ""
  | None => ret ""
  end.

Definition vault_envelope (provider : string) (refresh_token : json) (email_address : string) : string :=
  dumps (JObj [("provider", JStr provider); ("refresh_token", refresh_token); ("email_address", JStr email_address)]).

Definition _exchange_oauth2_code_for_refresh_token (tenant_id : uuid) (service_id provider code state client_id
    client_secret : string) : M _ExchangeResult :=
  let! tid := bound (uuid_str tenant_id) in
  let! sql_now := transaction_timestamp in
  let! rows := delete_returning oauth2_state_t (pending_state state tid provider sql_now) in
  match fetchone rows with
  | None => ret (ExchangeFailed "invalid_state" "OAuth2 state is invalid, expired, or already used" 422)
  | Some state_row =>
      let resolved_service_id := match os_service_id state_row with Some s => uuid_str s | None => service_id end in
      let exchange_payload :=
        [("code", JStr code); ("client_id", JStr client_id); ("client_secret", JStr client_secret);
         ("redirect_uri", JStr (os_redirect_uri state_row)); ("grant_type", JStr "authorization_code")] in
      let! resp := catch (let! r := http_post (token_url provider) (JObj exchange_payload) form in ret (Some r))
                         (fun e => if is_http_error e then ret None else raise e) in
      match resp with
      | None => ret (ExchangeFailed "provider_unreachable" "Provider token endpoint unreachable" 502)
      | Some (status, body) =>
          if negb (status =? 200)%Z then
            ret (ExchangeFailed "provider_token_error"
                   ("Provider returned " +:+ py_str_int status +:+ " during token exchange") 502)
          else
            let! token_data := lift (json_object body) in
            let refresh_token := default (JStr "") (dict_get "refresh_token" token_data) in
            if negb (truthy refresh_token) then
              ret (ExchangeFailed "no_refresh_token" "Provider did not return a refresh_token" 502)
            else
              let access_token := default (JStr "") (dict_get "access_token" token_data) in
              let! email_address := if String.eqb provider "gmail" then gmail_address access_token else ret "" in
              guarded (put_credential (uuid_str tenant_id) resolved_service_id "email_oauth2"
                         (vault_envelope provider refresh_token email_address) "" "" "" "" "")
                (ret (ExchangeFailed "vault_error" "Failed to store credential in vault" 502))
                (fun _ =>
              let! now := now_utc in
              ret (ExchangeOk resolved_service_id (isoformat_utc now)
                     (default (JStr "Bearer") (dict_get "token_type" token_data)) email_address))
      end
  end.

(** The event of a successful exchange, which every callback emits. *)
Definition emit_authorized (tenant_id : uuid) (provider service_id authorized_at : string) (token_type : json)
    (email_address : string) : M unit :=
  let! target := target_uuid service_id in
  audit_emit tenant_id "email.oauth2.authorized" None "operator" target (Some "email_service")
    [("service_id", JStr service_id); ("provider", JStr provider); ("authorized_at", JStr authorized_at);
     ("token_type", token_type); ("email_address", JStr email_address)].

(** What a callback answers: JSON, or a page. *)
Inductive callback_response :=
  | CallbackJson (r : response)
  | HTMLResponse (status : Z) (content : string).

Record OAuth2CallbackBody := MkOAuth2CallbackBody { cb_code : string; cb_state : string }.

Definition oauth2_callback (tenant_id : uuid) (service_id provider : string) (body : OAuth2CallbackBody) : M callback_response :=
  if negb (in_set _OAUTH2_PROVIDERS provider) then ret (CallbackJson unsupported_oauth2)
  else
    do! set_tenant_context (uuid_str tenant_id) false in
    let! creds := _oauth2_config_from_db tenant_id provider in
    match creds with
    | None => ret (CallbackJson (oauth2_not_configured provider))
    | Some (client_id, client_secret) =>
        let! result := _exchange_oauth2_code_for_refresh_token tenant_id service_id provider (cb_code body) (cb_state body)
                         client_id client_secret in
        match result with
        | ExchangeFailed error_code error_title http_status => ret (CallbackJson (problem http_status error_code error_title))
        | ExchangeOk sid authorized_at token_type email_address =>
            do! emit_authorized tenant_id provider sid authorized_at token_type email_address in
            ret (CallbackJson (JSONResponse 200
              [("service_id", JStr sid); ("provider", JStr provider); ("authorized_at", JStr authorized_at)]))
        end
    end.

(** The query parameters of the browser's redirect. *)
Record callback_query := CallbackQuery {
  cq_code : option string; cq_state : option string; cq_error : option string; cq_error_description : option string }.

Definition oauth2_callback_view (tenant_id : uuid) (service_id provider : string) (q : callback_query) : M callback_response :=
  let failed status error_code error_description :=
    HTMLResponse status (_oauth2_callback_html false service_id error_code error_description _admin_ui_base) in
  match str_or (cq_error q) "", str_or (cq_code q) "", str_or (cq_state q) "" with
  | "", code, state =>
      if negb (in_set _OAUTH2_PROVIDERS provider) then
        ret (failed 422%Z "unsupported_provider" ("OAuth2 is only supported for " +:+ list_repr _OAUTH2_PROVIDERS))
      else if String.eqb code "" || String.eqb state "" then
        ret (failed 422%Z "missing_params" "OAuth2 callback is missing required parameters (code or state).")
      else
        do! set_tenant_context (uuid_str tenant_id) false in
        let! creds := _oauth2_config_from_db tenant_id provider in
        match creds with
        | None =>
            ret (failed 503%Z "oauth2_not_configured"
                   ("OAuth2 credentials for provider '" +:+ provider +:+ "' are not configured"))
        | Some (client_id, client_secret) =>
            let! result := _exchange_oauth2_code_for_refresh_token tenant_id service_id provider code state client_id client_secret in
            match result with
            | ExchangeFailed error_code error_title http_status => ret (failed http_status error_code error_title)
            | ExchangeOk sid authorized_at token_type email_address =>
                do! emit_authorized tenant_id provider sid authorized_at token_type email_address in
                ret (HTMLResponse 200 (_oauth2_callback_html true sid "" "" _admin_ui_base))
            end
        end
  | error, _, _ => ret (failed 200%Z error (default "" (cq_error_description q)))
  end.

(** The callbacks of a tenant take the service from the state row. *)
Definition oauth2_callback_per_tenant (tenant_id : uuid) (provider : string) (body : OAuth2CallbackBody) : M callback_response :=
  oauth2_callback tenant_id "" provider body.
Definition oauth2_callback_per_tenant_view (tenant_id : uuid) (provider : string) (q : callback_query) : M callback_response :=
  oauth2_callback_view tenant_id "" provider q.

(** ** The refresh for the email proxy *)

Definition _get_email_proxy_token : string := getenv "MINTKEY_EMAIL_PROXY_SERVICE_TOKEN" "".

Definition oauth2_refresh (svc_token provider service_id tenant_id : string) : M response :=
  let expected_token := _get_email_proxy_token in
  if String.eqb expected_token "" || String.eqb svc_token "" || negb (String.eqb svc_token expected_token) then
    ret (JSONResponse 401 [("mintkey:code", JStr "unauthenticated")])
  else if negb (in_set _OAUTH2_PROVIDERS provider) then
    ret (problem 422 "unsupported_provider" ("OAuth2 refresh only supported for " +:+ list_repr _OAUTH2_PROVIDERS))
  else
    try_value (UUID tenant_id) (ret (problem 422 "invalid_tenant_id" "tenant_id is not a valid UUID")) (fun tenant_uuid =>
    do! set_tenant_context (uuid_str tenant_uuid) false in
    let! creds := _oauth2_config_from_db tenant_uuid provider in
    match creds with
    | None => ret (oauth2_not_configured provider)
    | Some (client_id, client_secret) =>
        guarded (get_credential tenant_id service_id)
          (ret (problem 502 "vault_error" "Could not retrieve credential from vault"))
          (fun cred =>
        match cred with
        | None => ret (problem 404 "not_found" "No credential found for this email service")
        | Some cred =>
            let refresh_token := _parse_oauth2_plaintext (cr_plaintext cred) in
            if String.eqb refresh_token "" then ret (problem 404 "not_found" "Stored credential is empty")
            else
              let refresh_payload :=
                [("grant_type", JStr "refresh_token"); ("refresh_token", JStr refresh_token); ("client_id", JStr client_id);
                 ("client_secret", JStr client_secret)] in
              let! resp := catch (let! r := http_post (token_url provider) (JObj refresh_payload) form in ret (Some r))
                                 (fun e => if is_http_error e then ret None else raise e) in
              match resp with
              | None => ret (problem 502 "provider_unreachable" "Provider token endpoint unreachable")
              | Some (status, body) =>
                  if (status =? 401)%Z then
                    let! target := target_uuid service_id in
                    let! now := now_utc in
                    do! audit_emit tenant_uuid "email.oauth2.expired" None "system" target (Some "email_service")
                      [("service_id", JStr service_id); ("provider", JStr provider);
                       ("error", JStr "refresh_token_expired_or_revoked"); ("expired_at", JStr (isoformat_utc now))] in
                    ret (problem 401 "oauth2_token_expired" "OAuth2 refresh token has expired or been revoked")
                  else if negb (status =? 200)%Z then
                    ret (problem 502 "provider_token_error"
                           ("Provider returned " +:+ py_str_int status +:+ " during token refresh"))
                  else
                    let! token_data := lift (json_object body) in
                    let access_token := default (JStr "") (dict_get "access_token" token_data) in
                    let! expires_in := lift (int_of_json (default (JInt 3600) (dict_get "expires_in" token_data))) in
                    let! now := now_utc in
                    let! expires_at := lift (add_timedelta now (expires_in * us_per_second)) in
                    let! target := target_uuid service_id in
                    do! audit_emit tenant_uuid "email.oauth2.refreshed" None "system" target (Some "email_service")
                      [("service_id", JStr service_id); ("provider", JStr provider); ("expires_in", JInt expires_in)] in
                    ret (JSONResponse 200
                      [("access_token", access_token); ("expires_at", JStr (isoformat_utc expires_at));
                       ("token_type", default (JStr "Bearer") (dict_get "token_type" token_data))])
              end
        end)
    end).

(** ** The routers *)

Inductive email_request :=
  | PostEmailService (body : EmailServiceCreate)
  | PostEmailFromTemplate (body : EmailServiceFromTemplate)
  | ListEmailServices (limit offset : nat)
  | GetEmailService (service_id : string)
  | PatchEmailService (service_id : string) (body : EmailServicePatch)
  | DeleteEmailService (service_id : string)
  | PostEmailCredential (service_id : string) (body : EmailServiceCredentialBody)
  | DeleteEmailCredential (service_id : string)
  | PostAuthorize (service_id provider session_token : string)
  | PostCallback (service_id provider : string) (body : OAuth2CallbackBody)
  | GetCallback (service_id provider : string) (q : callback_query)
  | PostTenantCallback (provider : string) (body : OAuth2CallbackBody)
  | GetTenantCallback (provider : string) (q : callback_query)
  | PostProvider (provider : string) (body : OAuth2ProviderConfigBody)
  | ListProviders
  | GetProvider (provider : string)
  | DeleteProvider (provider : string).

(** Errors of the body's validation answer before the endpoint runs. *)
Definition validated `{Pyd : Pydantic} (errors : list field_error) (m : M response) : M response :=
  match errors with [] => m | _ => ret (problem 422 "validation_failed" (errors_text errors)) end.

Definition email_handler `{Pyd : Pydantic} (registry : list ServiceTemplate) (tenant_id : uuid) (rq : email_request)
    : M callback_response :=
  let json m := let! r := m in ret (CallbackJson r) in
  match rq with
  | PostEmailService body => json (validated (create_errors body) (create_email_service tenant_id body))
  | PostEmailFromTemplate body => json (create_email_service_from_template registry tenant_id body)
  | ListEmailServices limit offset => json (list_email_services tenant_id limit offset)
  | GetEmailService service_id => json (get_email_service tenant_id service_id)
  | PatchEmailService service_id body => json (patch_email_service tenant_id service_id body)
  | DeleteEmailService service_id => json (delete_email_service tenant_id service_id)
  | PostEmailCredential service_id body =>
      json (validated (validate_auth_scheme (eb_auth_scheme body)) (set_email_service_credential tenant_id service_id body))
  | DeleteEmailCredential service_id => json (delete_email_service_credential tenant_id service_id)
  | PostAuthorize service_id provider session_token => json (oauth2_authorize tenant_id service_id provider session_token)
  | PostCallback service_id provider body => oauth2_callback tenant_id service_id provider body
  | GetCallback service_id provider q => oauth2_callback_view tenant_id service_id provider q
  | PostTenantCallback provider body => oauth2_callback_per_tenant tenant_id provider body
  | GetTenantCallback provider q => oauth2_callback_per_tenant_view tenant_id provider q
  | PostProvider provider body => json (validated (config_errors body) (configure_oauth2_provider tenant_id provider body))
  | ListProviders => json (list_oauth2_providers tenant_id)
  | GetProvider provider => json (get_oauth2_provider tenant_id provider)
  | DeleteProvider provider => json (delete_oauth2_provider tenant_id provider)
  end.

(** The endpoints that depend on [require_tenant_session]: all but the callbacks. *)
Definition email_requires_session (rq : email_request) : bool :=
  match rq with
  | PostCallback _ _ _ | GetCallback _ _ _ | PostTenantCallback _ _ | GetTenantCallback _ _ => false
  | _ => true
  end.

Definition email_router `{Pyd : Pydantic} (registry : list ServiceTemplate) (cookie : option string) (tenant_id : uuid)
    (rq : email_request) : M callback_response :=
  do! (if email_requires_session rq then require_tenant_session cookie tenant_id else ret tt) in
  transaction (email_handler registry tenant_id rq).
End EmailOauth.
