(* ===== verification/OperatorLaws.v ===== *)
(** * What the operators' endpoints guarantee

    The password hashes do not influence any answer or event (they commute
    with erasing the hashes), a request is confined to the operators, their
    memberships and the audit log, and a deactivated operator still logs in. *)

From S2P Require Import Prelude PyStr PyJson PyJsonFacts PyTime WireIds AuditHash AuditChain.
From S2P Require Import Like Vault Tables Database Logic Demo Keys Sessions Login AuditEmit AgentSecrets Tenants Erasure Operators.

Local Open Scope string_scope.
Local Open Scope py_scope.

#[local] Opaque uuid_str UUID wire isoformat_utc.

(** ** Erasing the password hashes *)

Definition erase_hash (o : operator_row) : operator_row :=
  {| o_id := o_id o; o_tenant_id := o_tenant_id o; o_email := o_email o; o_display_name := o_display_name o;
     o_internal_password_hash := None; o_oidc_sub := o_oidc_sub o; o_oidc_provider := o_oidc_provider o;
     o_is_platform_admin := o_is_platform_admin o; o_status := o_status o; o_created_at := o_created_at o |}.

Definition erase_db (d : db) : db := tb_set operators_t (map erase_hash (operators d)) d.
Abbreviation erase := (rewritten erase_db).

Section Blind.
Context `{E : Env} `{V : Vault} `{Sha : Sha256}.
Implicit Types w : world.
Local Abbreviation blind := (blind erase_db).

(** The operators themselves: conditions and updates that do not read the hashes, and continuations
    that do not either. *)
Lemma filter_erase (p : operator_row -> bool) l : (forall o, p (erase_hash o) = p o) ->
  List.filter p (map erase_hash l) = map erase_hash (List.filter p l).
Proof.
  intros Hp. induction l as [|o l IH]; [done|]. cbn [map List.filter]. rewrite Hp. destruct (p o); cbn [map]; by rewrite IH.
Qed.

Lemma blind_select_operators {B} p (k : list operator_row -> M B) :
  (forall o, p (erase_hash o) = p o) -> (forall rows, blind (k rows)) ->
  (forall rows w, k (map erase_hash rows) w = k rows w) -> blind (bind (select operators_t p) k).
Proof.
  intros Hp Hk Hrows w. unfold bind, select, execute. change (tick (erase w)) with (erase (tick w)).
  change (w_tx (erase (tick w))) with (w_tx (tick w)). change (w_tick (erase (tick w))) with (w_tick (tick w)).
  destruct (w_tx (tick w)); [|done..]. destruct (env_fault _); [done|]. rewrite policy_erase.
  destruct (policy (tick w)) as [pol|]; [|done]. cbn [mbind outcome_bind fst snd].
  change (tb_get operators_t (w_db (erase (tick w)))) with (map erase_hash (operators (w_db (tick w)))).
  rewrite filter_erase by (intros o; unfold sees; cbn [tb_tenant operators_t]; by rewrite Hp).
  rewrite Hrows. apply Hk.
Qed.

Lemma forallb_erase (p : operator_row -> bool) l : (forall o, p (erase_hash o) = p o) -> forallb p (map erase_hash l) = forallb p l.
Proof. intros Hp. induction l as [|o l IH]; [done|]. cbn [map forallb]. by rewrite Hp, IH. Qed.

Lemma blind_insert_operator r : erase_hash r = r -> blind (insert_into operators_t r).
Proof.
  intros Hr. apply blind_execute. intros w. rewrite policy_erase. destruct (policy w) as [pol|]; [|done]. cbn [mbind outcome_bind].
  destruct (sees operators_t pol r); [|done]. unfold insert_db. change (w_db (erase w)) with (erase_db (w_db w)).
  assert (Hc : tb_check operators_t (erase_db (w_db w)) r = tb_check operators_t (w_db w) r).
  { cbn [tb_check operators_t operators erase_db tb_set tenants]. unfold fresh. by rewrite !forallb_erase. }
  rewrite Hc. destruct (tb_check operators_t (w_db w) r); [done|]. cbn [mbind outcome_bind].
  assert (Hs : forall d, tb_set operators_t (tb_get operators_t (erase_db d) ++ [r])%list (erase_db d) =
               erase_db (tb_set operators_t (tb_get operators_t d ++ [r])%list d)).
  { intros d. unfold erase_db. cbn [tb_get operators_t tb_set operators]. by rewrite map_app; cbn [map]; rewrite Hr. }
  unfold set_db at 1. rewrite Hs. done.
Qed.

Lemma update_erase p f d : (forall o, p (erase_hash o) = p o) -> (forall o, f (erase_hash o) = erase_hash (f o)) ->
  update_db operators_t p f (erase_db d) = erase_db (update_db operators_t p f d).
Proof.
  intros Hp Hf. unfold update_db, erase_db. cbn [tb_get operators_t tb_set operators].
  assert (Hm : map (fun r => if p r then f r else r) (map erase_hash (operators d)) =
               map erase_hash (map (fun r => if p r then f r else r) (operators d))).
  { rewrite !map_map. apply map_ext. intros o. rewrite Hp. destruct (p o); [apply Hf|done]. }
  by rewrite Hm.
Qed.

Lemma blind_update_operators p f :
  (forall o, p (erase_hash o) = p o) -> (forall o, f (erase_hash o) = erase_hash (f o)) -> blind (update_where operators_t p f).
Proof.
  intros Hp Hf. apply blind_execute. intros w. rewrite policy_erase. destruct (policy w) as [pol|]; [|done].
  cbn [mbind outcome_bind]. change (w_db (erase w)) with (erase_db (w_db w)). rewrite update_erase; [done| |done].
  intros o. unfold sees. cbn [tb_tenant operators_t]. by rewrite Hp.
Qed.

Lemma blind_update_returning {B} p f (k : list operator_row -> M B) :
  (forall o, p (erase_hash o) = p o) -> (forall o, f (erase_hash o) = erase_hash (f o)) ->
  (forall rows, blind (k rows)) -> (forall rows w, k (map erase_hash rows) w = k rows w) ->
  blind (bind (update_returning operators_t p f) k).
Proof.
  intros Hp Hf Hk Hrows w. unfold bind, update_returning, execute. change (tick (erase w)) with (erase (tick w)).
  change (w_tx (erase (tick w))) with (w_tx (tick w)). change (w_tick (erase (tick w))) with (w_tick (tick w)).
  destruct (w_tx (tick w)); [|done..]. destruct (env_fault _); [done|]. rewrite policy_erase.
  destruct (policy (tick w)) as [pol|]; [|done]. cbn [mbind outcome_bind fst snd].
  change (tb_get operators_t (w_db (erase (tick w)))) with (map erase_hash (operators (w_db (tick w)))).
  assert (Hq : forall o, sees operators_t pol (erase_hash o) && p (erase_hash o) = sees operators_t pol o && p o).
  { intros o. unfold sees. cbn [tb_tenant operators_t]. by rewrite Hp. }
  rewrite (filter_erase _ _ Hq), map_map, (map_ext _ (fun o => erase_hash (f o)) Hf), <- (map_map f erase_hash), Hrows.
  change (w_db (erase (tick w))) with (erase_db (w_db (tick w))). rewrite update_erase by done.
  exact (Hk (map f (List.filter _ (operators (w_db (tick w))))) (set_db (update_db operators_t _ f (w_db (tick w))) (tick w))).
Qed.
End Blind.

Ltac hash_free := split; intros; by repeat match goal with d : db |- _ => destruct d end.
#[global] Instance chain_hash_free : Unread erase_db audit_chain_state_t. Proof. hash_free. Qed.
#[global] Instance events_hash_free : Unread erase_db audit_events_t. Proof. hash_free. Qed.
#[global] Instance memberships_hash_free : Unread erase_db operator_tenant_memberships_t.
Proof.
  split; [by intros []..|]. intros d r. cbn [tb_check operator_tenant_memberships_t erase_db tb_set operators_t operators
    tenants operator_tenant_memberships].
  assert (Hp : present o_id (om_operator_id r) (map erase_hash (operators d)) = present o_id (om_operator_id r) (operators d)).
  { unfold present. induction (operators d) as [|o l IH]; [done|]. cbn [map existsb]. by rewrite IH. }
  by rewrite Hp.
Qed.

(** ** The handlers do not depend on the hashes *)

Section Handlers.
Context `{E : Env} `{V : Vault} `{Sha : Sha256}.

Local Abbreviation blind := (blind erase_db).

Lemma blind_varchar_opt n o : blind (varchar_opt n o).
Proof. destruct o; [apply blind_varchar|apply blind_ret]. Qed.

Lemma by_creation_erase l : by_creation (map erase_hash l) = map erase_hash (by_creation l).
Proof.
  unfold by_creation, sort_by. induction l as [|o l IH]; [done|]. cbn [map fold_right]. rewrite IH.
  generalize (fold_right (insert_by (fun a b => (o_created_at a <=? o_created_at b)%Z)) [] l). intros s.
  induction s as [|o' s IHs]; [done|]. cbn [map insert_by o_created_at erase_hash].
  destruct (_ <=? _)%Z; [done|]. cbn [map]. by rewrite IHs.
Qed.

Lemma rows_json_erase l :
  map (fun r => JObj (_operator_row_to_dict r)) (by_creation (map erase_hash l)) =
  map (fun r => JObj (_operator_row_to_dict r)) (by_creation l).
Proof. rewrite by_creation_erase, map_map. by apply map_ext. Qed.

Lemma fetchone_erase l : fetchone (map erase_hash l) = erase_hash <$> fetchone l.
Proof. by destruct l. Qed.

Lemma blind_by_id {B} s (k : option operator_row -> M B) :
  (forall o, blind (k o)) -> (forall o w, k (Some (erase_hash o)) w = k (Some o) w) -> blind (bind (operator_by_id s) k).
Proof.
  intros Hk He. unfold operator_by_id. intros w. rewrite !bind_assoc. revert w.
  change (blind (bind (bound s) (fun a => bind (bind (select operators_t (fun o => N.eqb (o_id o) a)) (fun rows => ret (fetchone rows))) k))).
  apply blind_bind; [apply blind_bound|intros oid]. intros w. rewrite !bind_assoc. revert w.
  match goal with |- forall w, ?m (erase w) = _ => change (blind m) end.
  apply blind_select_operators; [done|intros rows w; rewrite bind_ret; apply Hk|].
  intros rows w. rewrite !bind_ret, fetchone_erase. destruct (fetchone rows); [apply He|done].
Qed.

Lemma blind_list q t : blind (list_operators q t).
Proof.
  unfold list_operators. apply blind_bind; [apply blind_guc|intros _].
  assert (Hrun : forall tu, blind (let! t := bound_opt tu in
    let! rows := select operators_t (fun o => match t with Some t => N.eqb (o_tenant_id o) t | None => true end
      && match q with
         | Some q => ilike env_fold (search_pattern q) (o_email o)
                     || match o_display_name o with Some n => ilike env_fold (search_pattern q) n | None => false end
         | None => true end) in
    ret (JSONResponse 200 [("data", JArr (map (fun r => JObj (_operator_row_to_dict r)) (by_creation rows))); ("next_cursor", JNull)]))).
  { intros tu. apply blind_bind; [apply blind_bound_opt|intros tid]. apply blind_select_operators; [done|intros; apply blind_ret|].
    intros rows w. by rewrite rows_json_erase. }
  destruct t as [s|]; [|apply Hrun]. apply blind_try_value; [apply blind_ret|intros u; apply Hrun].
Qed.

Lemma blind_create ctx body : blind (create_operator ctx body).
Proof.
  unfold create_operator. apply blind_bind; [apply blind_now|intros now]. apply blind_bind; [apply blind_guc|intros _].
  apply blind_try_value; [apply blind_ret|intros tu]. apply blind_bind.
  - unfold insert_operator. apply blind_catch; [|intros []; try apply blind_raise; apply blind_ret].
    apply blind_bind; [apply blind_uuid4|intros id]. apply blind_bind; [apply blind_bound|intros t].
    apply blind_bind; [apply blind_varchar|intros _]. apply blind_bind; [apply blind_varchar_opt|intros _].
    apply blind_bind; [by apply blind_insert_operator|intros _]. apply blind_ret.
  - intros [row|]; [|apply blind_ret]. apply blind_bind; [apply blind_lift|intros tid].
    do 2 (apply blind_bind; [apply blind_bound|intros ?]). apply blind_bind; [apply blind_insert_ignore, _|intros _].
    apply blind_bind; [apply blind_audit; apply _|intros _]. apply blind_ret.
Qed.

Lemma blind_update_operator ctx oid body : blind (update_operator ctx oid body).
Proof.
  unfold update_operator. apply blind_try_value; [apply blind_ret|intros u]. apply blind_bind; [apply blind_guc|intros _].
  apply blind_by_id; [|done]. intros [row|]; [|apply blind_ret]. apply blind_bind; [apply blind_bound|intros id].
  apply blind_bind; [apply blind_varchar_opt|intros _]. apply blind_update_returning; [done|done|..].
  - intros rows. destruct (fetchone rows); [|apply blind_raise]. apply blind_bind; [apply blind_audit; apply _|intros _]. apply blind_ret.
  - intros rows w. rewrite fetchone_erase. by destruct (fetchone rows).
Qed.

Lemma blind_delete_operator ctx oid : blind (delete_operator ctx oid).
Proof.
  unfold delete_operator. apply blind_try_value; [apply blind_ret|intros u]. apply blind_bind; [apply blind_guc|intros _].
  apply blind_by_id; [|done]. intros [row|]; [|apply blind_ret]. apply blind_bind; [|intros; apply blind_ret].
  destruct (String.eqb _ _); [apply blind_ret|]. apply blind_bind; [apply blind_bound|intros id].
  apply blind_bind; [by apply blind_update_operators|intros _]. apply blind_audit; apply _.
Qed.

Lemma blind_handler ctx rq : blind (operators_handler ctx rq).
Proof. destruct rq; cbn [operators_handler]; auto using blind_list, blind_create, blind_update_operator, blind_delete_operator. Qed.
End Handlers.

(** ** A deactivation *)

Section Deactivation.
Context `{E : Env} `{V : Vault} `{Sha : Sha256} `{Arg : Argon2}.

(** The operators the identifier in the path names. *)
Definition names (oid : string) (id : uuid) : Prop := named_id (Admin.wire_to_db_uuid oid "op") = Some id.

Record operators_wf (d : db) : Prop := {
  ow_ids : List.NoDup (map o_id (operators d));
  ow_tenants : forall o, In o (operators d) -> (o_tenant_id o < uuid_limit)%N /\ In (o_tenant_id o) (map t_id (tenants d)) }.

Lemma operator_by_id_Ok s w row w1 : w_admin_view w = true -> operator_by_id s w = (Ok row, w1) ->
  exists id, bind_uuid s = Some id /\ row = List.find (fun o => N.eqb (o_id o) id) (operators (w_db w)) /\
    kept w w1 /\ w_db w1 = w_db w.
Proof.
  intros Ha H. unfold operator_by_id in H. step H as id w2 Hr. apply bound_Ok in Hr as [Hs ->].
  step H as rows w3 Hr. apply select_eff in Hr as (K & _ & Ed & pol & Hp & ->). apply ret_Ok in H as [-> ->].
  exists id. split; [done|]. split; [|done]. unfold fetchone. rewrite head_filter_find. apply find_ext.
  intros o. unfold sees. cbn [tb_tenant operators_t].
  unfold policy in Hp. rewrite Ha in Hp. destruct (w_tenant w) as [x|]; [destruct (pg_uuid_in x); [|done]|];
    apply Ok_inj in Hp; subst pol; [by rewrite orb_true_r|done].
Qed.

Lemma delete_operator_Ok ctx oid w r w1 :
  uuid_opt_ok (_actor_id ctx) -> operators_wf (w_base w) ->
  transaction (delete_operator ctx oid) w = (Ok r, w1) -> status_code r = 204%Z ->
  exists id o, names oid id /\ In o (operators (w_base w)) /\ o_id o = id /\
    sessions (w_base w1) = sessions (w_base w) /\ tenants (w_base w1) = tenants (w_base w) /\
    operators (w_base w1) = map (fun x => if N.eqb (o_id x) id then set_disabled x else x) (operators (w_base w)).
Proof.
  intros Hctx [Hnd Hten] H Hst. apply transaction_Ok in H as (w2 & H & Hw). unfold delete_operator, try_value in H.
  destruct (Admin.wire_to_db_uuid oid "op") as [ou|e] eqn:Eo.
  2: { destruct e; try done. apply ret_Ok in H as [-> _]. discriminate. }
  step H as u wa Hr. apply execute_Ok in Hr as [_ [= _ <-]]. set (wa := set_guc _ _ _) in H.
  assert (Ka : w_tx wa = TxActive /\ w_base wa = w_base w /\ w_db wa = w_base w /\ w_admin_view wa = true) by done. clearbody wa.
  destruct Ka as (Kx & Kb & Kd & Kadm). step H as row wb Hr.
  apply operator_by_id_Ok in Hr as (id & Hid & Hrow & K1 & D1); [|done]. rewrite Kd in Hrow.
  destruct row as [row|]; [|apply ret_Ok in H as [-> _]; discriminate].
  symmetry in Hrow. apply List.find_some in Hrow as [Hin Heq]. apply N.eqb_eq in Heq.
  exists id, row. split; [by unfold names, named_id; rewrite Eo|]. split; [done|]. split; [done|].
  step H as u2 wc Hr. apply ret_Ok in H as [-> ->].
  destruct (String.eqb (o_status row) "disabled") eqn:Es.
  - apply ret_Ok in Hr as [_ ->]. rewrite (kp_tx _ _ K1), Kx in Hw. subst w1. cbn [w_base committed tick w_db].
    rewrite D1, Kd. do 2 (split; [done|]). symmetry. transitivity (map (fun x => x) (operators (w_base w))); [|apply map_id].
    apply map_ext_in. intros x Hx. destruct (N.eqb_spec (o_id x) id) as [He|]; [|done].
    assert (x = row) as -> by (apply (NoDup_key_unique o_id (operators (w_base w))); [done..|congruence]).
    apply String.eqb_eq in Es. destruct row. cbn in Es. by subst.
  - step Hr as id2 wd Hb. apply bound_Ok in Hb as [Hid2 ->]. rewrite Hid in Hid2. injection Hid2 as <-.
    step Hr as u3 we Hb. apply update_eff in Hb as (K2 & _ & pol & Hp & D2).
    destruct (Hten row Hin) as [Hlt _]. apply audit_emit_eff in Hr as (K3 & _ & ev & _ & D3); [|done..].
    rewrite (kp_tx _ _ K3), (kp_tx _ _ K2), (kp_tx _ _ K1), Kx in Hw. subst w1. cbn [w_base committed tick w_db].
    rewrite D3, D2, D1, Kd. do 2 (split; [done|]). cbn [append_event update_db tb_set tb_get operators_t operators].
    change (operators (append_event (o_tenant_id row) ev ?d)) with (operators d).
    apply map_ext. intros x. unfold sees. cbn [tb_tenant operators_t]. rewrite (kept_policy _ _ K1) in Hp.
    unfold policy in Hp. rewrite Kadm in Hp.
    destruct (w_tenant wa) as [y|]; [destruct (pg_uuid_in y); [|done]|]; apply Ok_inj in Hp; subst pol; [by rewrite orb_true_r|done].
Qed.

(** An update that keeps the emails updates the operators with an email. *)
Lemma accounts_map p f email l : (forall o, o_email (f o) = o_email o) ->
  List.filter (fun o => String.eqb (o_email o) email) (map (fun x : operator_row => if p x : bool then f x else x) l) =
  map (fun x => if p x then f x else x) (List.filter (fun o => String.eqb (o_email o) email) l).
Proof.
  intros Hf. induction l as [|o l IH]; [done|]. cbn [map List.filter].
  assert (He : o_email (if p o then f o else o) = o_email o) by (destruct (p o); [apply Hf|done]).
  rewrite He. destruct (String.eqb (o_email o) email); cbn [map]; by rewrite IH.
Qed.
End Deactivation.

(** ** Properties *)

Section Properties.
Context `{E : Env} `{V : Vault} `{Sha : Sha256} `{Arg : Argon2}.

(** Password hashes do not leave the table.  Whatever an operators request and its outcome, with any
    failures of the database, the answer, the audit events, the notifications and everything else it
    leaves is the same when all password hashes are erased before the request: none of them flows
    into an answer, an event or an exception. *)
Theorem operators_hash_free ctx rq w :
  let '(o, w1) := transaction (operators_handler ctx rq) w in
  transaction (operators_handler ctx rq) (erase w) = (o, erase w1) /\
  audit_events (w_base (erase w1)) = audit_events (w_base w1).
Proof.
  pose proof (blind_transaction erase_db _ (blind_handler ctx rq) w) as H.
  destruct (transaction (operators_handler ctx rq) w) as [o w1]. split; [exact H|done].
Qed.

(** A deactivated operator still logs in.  After an accepted deletion of an operator who has a
    password, in any later state with the same committed data, [internal_login] with that password
    answers 200 with a new session: it refuses the status "locked" only, which nothing sets, and the
    sessions the operator had are still there. *)
Theorem deactivated_operator_logs_in ctx oid w r w1 id o h email password :
  no_faults -> pg_uuid_in nil_uuid_text = Some 0%N -> uuid_opt_ok (_actor_id ctx) -> operators_wf (w_base w) ->
  transaction (delete_operator ctx oid) w = (Ok r, w1) -> status_code r = 204%Z ->
  names oid id -> accounts email (w_base w) = [o] -> o_id o = id -> o_internal_password_hash o = Some h ->
  (forall n, argon2_verify n h password = Verified) ->
  sessions (w_base w1) = sessions (w_base w) /\
  forall w2, w_base w2 = w_base w1 -> (forall n, ~ In (env_uuid4 n) (map ss_id (sessions (w_base w2)))) ->
    exists tok csrf w3, internal_login (MkLoginRequest email password) w2 = (Ok (login_ok (set_disabled o) tok csrf), w3).
Proof.
  intros Hnf Hnil Hctx Hwf H Hst Hid Hacc Ho Hh Hver.
  destruct (delete_operator_Ok ctx oid w r w1 Hctx Hwf H Hst) as (id2 & o2 & Hid2 & _ & _ & Hs & Hten & Hops).
  unfold names in *. rewrite Hid in Hid2. injection Hid2 as <-. split; [done|]. intros w2 Hw2 Hf.
  assert (Hacc2 : accounts email (w_base w2) = [set_disabled o]).
  { unfold accounts in *. rewrite Hw2, Hops, (accounts_map (fun x => N.eqb (o_id x) id) set_disabled) by done. rewrite Hacc. cbn [map]. by rewrite Ho, N.eqb_refl. }
  assert (Hin : In (set_disabled o) (operators (w_base w2))).
  { assert (Hin : In (set_disabled o) (accounts email (w_base w2))) by (rewrite Hacc2; by left). by apply filter_In in Hin as [? _]. }
  assert (Hten2 : (o_tenant_id (set_disabled o) < uuid_limit)%N /\ In (o_tenant_id (set_disabled o)) (map t_id (tenants (w_base w2)))).
  { rewrite Hw2, Hops in Hin. rewrite Hw2, Hten. apply in_map_iff in Hin as (y & Ey & Hy). destruct Hwf as [_ Ht].
    specialize (Ht y Hy). rewrite <- Ey. by destruct (N.eqb _ _). }
  destruct Hten2 as [Hlt Hten2].
  destruct (internal_login_account Hnf Hnil (MkLoginRequest email password) w2 (set_disabled o) h Hlt Hten2 Hf Hacc2 Hh) as [n Hn].
  destruct (internal_login _ w2) as [ol w3]. destruct Hn as [Hn _]. cbn [lg_password] in Hn. rewrite Hver in Hn.
  destruct Hn as (w4 & csrf & -> & _). by eexists _, csrf, w3.
Qed.
End Properties.

Section Witnesses.
#[local] Existing Instance demo_env.
#[local] Existing Instance demo_vault.
#[local] Existing Instance toy_sha256.
#[local] Existing Instance demo_argon2.

Abbreviation deactivation := (transaction (delete_operator (Some (SessionCtx 3 0)) (wire 2 "op"))).

Lemma deactivated_operator_logs_in_witness : exists r w1,
  deactivation demo_world = (Ok r, w1) /\ status_code r = 204%Z /\
  exists tok csrf w3, internal_login (MkLoginRequest "op@acme" "secret") w1 =
    (Ok (login_ok (set_disabled (OperatorRow 2 1 "op@acme" None (Some "argon2:secret") None None false "active" 1700000000000000)) tok csrf), w3).
Proof.
  destruct (run_returns deactivation (fun r => Z.eqb (status_code r) 204) demo_world) as (r & Hr & Hrun); [vm_compute; reflexivity|].
  apply Z.eqb_eq in Hr. exists r, (snd (deactivation demo_world)). split; [exact Hrun|]. split; [exact Hr|].
  refine (proj2 (deactivated_operator_logs_in (Some (SessionCtx 3 0)) (wire 2 "op") demo_world r _ 2%N _ "argon2:secret" "op@acme"
    "secret" demo_no_faults demo_nil _ _ Hrun Hr _ eq_refl eq_refl eq_refl _) _ eq_refl _).
  - intros u [= <-]. reflexivity.
  - split; [apply NoDup_ListNoDup, (bool_decide_unpack _); reflexivity|].
    intros o [<-|[<-|[]]]; (split; [reflexivity|]); [right; left|left]; reflexivity.
  - vm_compute. reflexivity.
  - intros n. reflexivity.
  - intros n. assert (Hs : sessions (w_base (snd (deactivation demo_world))) = sessions demo_db) by (vm_compute; reflexivity).
    rewrite Hs. clear. intros [H|[H|[]]]; cbn [ss_id env_uuid4 demo_env] in H; unfold demo_uuid4 in H;
      generalize dependent (N.modulo (N.of_nat n) (uuid_limit - 1000)); intros x H; lia.
Defined.
End Witnesses.
