(* ===== verification/Agents.v ===== *)
(** * Agents and their keys (admin_api/api/agents.py)

    Registration, key rotation, revocation and deletion of agents, and the
    SSH public key.  The authorisation dependency is of [Sessions]. *)

From S2P Require Import Prelude PyStr PyJson PyJsonFacts PyTime Periods PyText PyCodecs WireIds AuditHash AuditChain.
From S2P Require Import Like Vault Tables Database Logic Ulid PublicUrls Demo Keys Sessions AuditEmit AgentSecrets Permissions.

Local Open Scope string_scope.
Local Open Scope py_scope.

Record AgentCreate := MkAgentCreate {
  ac_name : string; ac_description : option string; ac_rate_limit_rps : option Z; ac_expires_in : option string }.

Definition days (n : Z) : Z := (n * us_per_day)%Z.
Definition _ALLOWED_EXPIRY_VALUES : list (string * Z) :=
  [("30d", days 30); ("90d", days 90); ("180d", days 180); ("365d", days 365)].

Fixpoint assoc {A} (k : string) (l : list (string * A)) : option A :=
  match l with
  | [] => None
  | (k', a) :: l' => if String.eqb k k' then Some a else assoc k l'
  end.

Definition _resolve_expires_at (expires_in : option string) (now_utc : Z) : outcome (option Z) :=
  match expires_in with
  | None => Ok None
  | Some s =>
      if String.eqb s "" then Ok None
      else match assoc s _ALLOWED_EXPIRY_VALUES with
           | None => Raise (ValueError ("expires_in must be one of 30d/90d/180d/365d or null, got: " +:+ s))
           | Some delta => t ← add_timedelta now_utc delta; Ok (Some t)
           end
  end.

Definition expiry_json (o : option Z) : json := json_opt (fun t => JStr (isoformat_utc t)) o.

(** A row with its number of grants. *)
Definition _agent_row_to_dict (row : agent_row * nat) : dict :=
  let '(a, grants_count) := row in
  [("id", JStr (wire (a_id a) "agent")); ("tenant_id", JStr (uuid_str (a_tenant_id a))); ("name", JStr (a_name a));
   ("description", opt_json (a_description a)); ("api_key_fingerprint", JStr (a_api_key_fingerprint a));
   ("mcp_endpoint", opt_json (a_mcp_endpoint a)); ("status", JStr (a_status a));
   ("rate_limit_rps", json_opt JInt (a_rate_limit_rps a)); ("created_at", JStr (isoformat_utc (a_created_at a)));
   ("updated_at", JStr (isoformat_utc (a_updated_at a))); ("grants_count", JInt (Z.of_nat grants_count));
   ("api_key_expires_at", expiry_json (a_api_key_expires_at a)); ("api_key_version", JInt (a_api_key_version a));
   ("api_key_last_rotated_at", expiry_json (a_api_key_last_rotated_at a))].

(** [pubkey.startswith] one of the recognised key types *)
Definition _VALID_PREFIXES : list string :=
  ["ssh-ed25519 "; "ssh-rsa "; "ecdsa-sha2-nistp256 "; "ecdsa-sha2-nistp384 "; "ecdsa-sha2-nistp521 ";
   "sk-ssh-ed25519@openssh.com "; "sk-ecdsa-sha2-nistp256@openssh.com "].

Definition ssh_error (title : string) : response := problem 422 "invalid_ssh_pubkey" title.

(** OpenSSH's fingerprint of the key bytes. *)
Definition ssh_fingerprint `{Sha256} (key_bytes : string) : string :=
  "SHA256:" +:+ rstrip "=" (b64encode (sha256 key_bytes)).

(** The checks on a submitted key: its stripped text and its bytes, or the answer. *)
Definition check_ssh_pubkey (ssh_pubkey : string) : string * string + response :=
  let pubkey := py_strip ssh_pubkey in
  if String.eqb pubkey "" then inr (ssh_error "ssh_pubkey is required")
  else if existsb (fun c => (code c =? 10)%N) (chars pubkey) || existsb (fun c => (code c =? 13)%N) (chars pubkey)
       then inr (ssh_error "ssh_pubkey must be a single line")
  else if negb (existsb (startswith pubkey) _VALID_PREFIXES)
       then inr (ssh_error "ssh_pubkey must start with a recognized key type (ssh-ed25519, ssh-rsa, ecdsa-sha2-*)")
  else match py_words pubkey with
       | _ :: body :: _ =>
           match b64decode body with
           | Raise _ => inr (ssh_error "ssh_pubkey base64 body is invalid")
           | Ok key_bytes => if (py_len key_bytes <? 4)%nat then inr (ssh_error "ssh_pubkey key body is too short")
                             else inl (pubkey, key_bytes)
           end
       | _ => inr (ssh_error "ssh_pubkey has no key body")
       end.

(** The fingerprint of the key that is replaced; [None] when it cannot be decoded. *)
Definition old_ssh_fingerprint `{Sha256} (old_pubkey : string) : option string :=
  match py_words (py_strip old_pubkey) with
  | _ :: body :: _ => match b64decode body with Ok b => Some (ssh_fingerprint b) | Raise _ => None end
  | _ => None
  end.

Section Agents.
Context `{E : Env} `{V : Vault} `{Sha : Sha256} `{Arg : Argon2}.

Definition _new_agent_id : M string := new_id "agent_".

(** The plaintext, its Argon2id hash and its fingerprint. *)
Definition _generate_agent_api_key : M (string * string * string) :=
  let! plaintext := random_key "mk_agent_" in
  let fingerprint := _fingerprint plaintext in
  let! api_key_hash := ph_hash DefaultParams plaintext in
  ret (plaintext, api_key_hash, fingerprint).

Definition invalid_agent_id : response := problem 422 "invalid_id" "Invalid agent_id".
Definition agent_not_found : response := problem 404 "not_found" "Agent not found".

Definition create_agent (tenant_id : uuid) (body : AgentCreate) : M response :=
  do! set_tenant_context (uuid_str tenant_id) false in
  let! t0 := now_utc in
  try_value (_resolve_expires_at (ac_expires_in body) t0)
    (ret (problem 422 "invalid_expires_in"
            ("expires_in must be one of 30d/90d/180d/365d or null, got: " +:+ default "None" (ac_expires_in body))))
    (fun expires_at =>
  let! agent_id := _new_agent_id in
  let! internal_id := lift (ulid_uuid agent_id "agent_") in
  let! now := now_utc in
  let! key := _generate_agent_api_key in
  let '(plaintext, api_key_hash, fingerprint) := key in
  let mcp_endpoint := AdminUrls.resolve_mcp_public_url +:+ "/v1/agents/" +:+ agent_id in
  let! id := bound (uuid_str internal_id) in
  let! tid := bound (uuid_str tenant_id) in
  let! rps := match ac_rate_limit_rps body with
              | Some z => let! z := bound_int4 (JInt z) in ret (Some z)
              | None => ret None
              end in
  do! varchar 256 (ac_name body) in
  do! insert_into agents_t {|
    a_id := id; a_tenant_id := tid; a_name := ac_name body; a_description := ac_description body;
    a_api_key_hash := api_key_hash; a_api_key_fingerprint := fingerprint; a_mcp_endpoint := Some mcp_endpoint;
    a_status := "active"; a_rate_limit_rps := rps; a_created_at := now; a_updated_at := now;
    a_api_key_expires_at := expires_at; a_api_key_version := 1; a_api_key_last_rotated_at := None;
    a_ssh_pubkey := None |} in
  do! audit_emit tenant_id "agent.created" None "operator" (Some (VUUID internal_id)) (Some "agent")
    [("agent_id", JStr agent_id); ("api_key_fingerprint", JStr fingerprint);
     ("api_key_expires_at", expiry_json expires_at)] in
  do! notify_change "mintkey:agent"
    [("event", JStr "agent.created"); ("tenant_id", JStr (uuid_str tenant_id)); ("agent_id", JStr agent_id)] in
  ret (JSONResponse 201
    [("id", JStr agent_id); ("tenant_id", JStr (uuid_str tenant_id)); ("name", JStr (ac_name body));
     ("description", opt_json (ac_description body)); ("api_key", JStr plaintext);
     ("api_key_fingerprint", JStr fingerprint); ("mcp_endpoint", JStr mcp_endpoint); ("status", JStr "active");
     ("rate_limit_rps", json_opt JInt (ac_rate_limit_rps body)); ("created_at", JStr (isoformat_utc now));
     ("updated_at", JStr (isoformat_utc now)); ("api_key_expires_at", expiry_json expires_at);
     ("api_key_version", JInt 1); ("api_key_last_rotated_at", JNull)])).

(** The subquery on the grants of an agent. *)
Definition grants_count (pol : uuid -> bool) (d : db) (a : agent_row) : nat :=
  length (List.filter (fun g => N.eqb (g_agent_id g) (a_id a) && N.eqb (g_tenant_id g) (a_tenant_id a))
            (visible permission_grants_t pol d)).

Definition by_age : list agent_row -> list agent_row :=
  sort_by (fun a b => Z.leb (a_created_at a) (a_created_at b)).

Definition list_agents (tenant_id : uuid) (q has_access_to_service_id : option string) : M response :=
  do! set_tenant_context (uuid_str tenant_id) false in
  let run (svc_uuid : option string) : M response :=
    let! tid := bound (uuid_str tenant_id) in
    let! svc := bound_opt svc_uuid in
    let! rows := query (fun pol d => map (fun a => (a, grants_count pol d a)) (by_age (List.filter (fun a =>
      N.eqb (a_tenant_id a) tid
      && match q with
         | Some q => ilike env_fold (search_pattern q) (a_name a)
                     || match a_description a with Some s => ilike env_fold (search_pattern q) s | None => false end
         | None => true
         end
      && match svc with
         | Some s => existsb (fun g => N.eqb (g_agent_id g) (a_id a) && N.eqb (g_tenant_id g) tid && N.eqb (g_service_id g) s)
                       (visible permission_grants_t pol d)
         | None => true
         end) (visible agents_t pol d)))) in
    ret (JSONResponse 200 [("agents", JArr (map (fun r => JObj (_agent_row_to_dict r)) rows))]) in
  match has_access_to_service_id with
  | None => run None
  | Some s => try_value (Admin._wire_id_to_uuid s "svc_")
                (ret (problem 422 "invalid_id" "Invalid has_access_to_service_id")) (fun u => run (Some u))
  end.

Definition get_agent (tenant_id : uuid) (agent_id : string) : M response :=
  try_value (Admin._wire_id_to_uuid agent_id "agent_") (ret invalid_agent_id) (fun agent_uuid =>
  do! set_tenant_context (uuid_str tenant_id) false in
  let! aid := bound agent_uuid in
  let! tid := bound (uuid_str tenant_id) in
  let! rows := query (fun pol d => map (fun a => (a, grants_count pol d a))
    (List.filter (fun a => N.eqb (a_id a) aid && N.eqb (a_tenant_id a) tid) (visible agents_t pol d))) in
  ret (match fetchone rows with
       | None => agent_not_found
       | Some row => JSONResponse 200 (_agent_row_to_dict row)
       end)).

(** [UPDATE agents SET f WHERE id = .. AND tenant_id = ..] *)
Definition update_agent (agent_uuid : string) (tenant_id : uuid) (f : agent_row -> agent_row) : M unit :=
  let! aid := bound agent_uuid in
  let! tid := bound (uuid_str tenant_id) in
  update_checked agents_t agents_checks (fun a => N.eqb (a_id a) aid && N.eqb (a_tenant_id a) tid) f.

Definition set_revoked (now : Z) (a : agent_row) : agent_row :=
  {| a_id := a_id a; a_tenant_id := a_tenant_id a; a_name := a_name a; a_description := a_description a;
     a_api_key_hash := a_api_key_hash a; a_api_key_fingerprint := a_api_key_fingerprint a;
     a_mcp_endpoint := a_mcp_endpoint a; a_status := "revoked"; a_rate_limit_rps := a_rate_limit_rps a;
     a_created_at := a_created_at a; a_updated_at := now; a_api_key_expires_at := a_api_key_expires_at a;
     a_api_key_version := a_api_key_version a; a_api_key_last_rotated_at := a_api_key_last_rotated_at a;
     a_ssh_pubkey := a_ssh_pubkey a |}.

Definition revoke_agent (tenant_id : uuid) (agent_id : string) : M response :=
  try_value (Admin._wire_id_to_uuid agent_id "agent_") (ret invalid_agent_id) (fun agent_uuid =>
  let! sql_now := transaction_timestamp in
  do! set_tenant_context (uuid_str tenant_id) false in
  let! row := agent_by_id agent_uuid tenant_id in
  match row with
  | None => ret agent_not_found
  | Some _ =>
      do! update_agent agent_uuid tenant_id (set_revoked sql_now) in
      let! aid := bound agent_uuid in
      let! tid := bound (uuid_str tenant_id) in
      let! keys := select service_api_keys_t (fun y => N.eqb (y_agent_id y) aid && N.eqb (y_tenant_id y) tid
        && match y_revoked_at y with None => true | Some _ => false end
        && match y_expires_at y with None => true | Some t => Z.ltb sql_now t end) in
      let active_api_keys_count := Z.of_nat (length keys) in
      do! audit_emit tenant_id "agent.revoked" None "operator" None (Some "agent")
        [("agent_id", JStr agent_id); ("active_api_keys_count", JInt active_api_keys_count)] in
      do! notify_change "mintkey:agent"
        [("event", JStr "agent.revoked"); ("tenant_id", JStr (uuid_str tenant_id)); ("agent_id", JStr agent_id)] in
      ret (JSONResponse 200
        [("status", JStr "ok"); ("agent_id", JStr agent_id); ("active_api_keys_count", JInt active_api_keys_count)])
  end).

(** The expiry of the new key. *)
Definition rotated_expiry (expires_in : option string) (row : agent_row) (now : Z) : outcome (option Z) :=
  match expires_in with
  | None => match a_api_key_expires_at row with
            | Some e => t ← add_timedelta now (e - a_created_at row); Ok (Some t)
            | None => Ok None
            end
  | Some s => if String.eqb s "" then Ok None else _resolve_expires_at expires_in now
  end.

Definition set_key (hash fp : string) (ver now : Z) (expires_at : option Z) (a : agent_row) : agent_row :=
  {| a_id := a_id a; a_tenant_id := a_tenant_id a; a_name := a_name a; a_description := a_description a;
     a_api_key_hash := hash; a_api_key_fingerprint := fp; a_mcp_endpoint := a_mcp_endpoint a;
     a_status := a_status a; a_rate_limit_rps := a_rate_limit_rps a; a_created_at := a_created_at a;
     a_updated_at := now; a_api_key_expires_at := expires_at; a_api_key_version := ver;
     a_api_key_last_rotated_at := Some now; a_ssh_pubkey := a_ssh_pubkey a |}.

Definition rotate_agent_key (tenant_id : uuid) (agent_id : string) (expires_in : option string) : M response :=
  try_value (Admin._wire_id_to_uuid agent_id "agent_") (ret invalid_agent_id) (fun agent_uuid =>
  do! set_tenant_context (uuid_str tenant_id) false in
  let! row := agent_by_id agent_uuid tenant_id in
  match row with
  | None => ret agent_not_found
  | Some row =>
      let! now := now_utc in
      let version_before := a_api_key_version row in
      let version_after := (version_before + 1)%Z in
      try_value (rotated_expiry expires_in row now)
        (ret (problem 422 "invalid_expires_in" "expires_in must be one of 30d/90d/180d/365d or empty string"))
        (fun new_expires_at =>
      let! key := _generate_agent_api_key in
      let '(plaintext, new_hash, new_fp) := key in
      let! ver := bound_int4 (JInt version_after) in
      do! update_agent agent_uuid tenant_id (set_key new_hash new_fp ver now new_expires_at) in
      do! audit_emit tenant_id "agent.api_key_rotated" None "operator" (Some (VUUID (a_id row))) (Some "agent")
        [("agent_id", JStr agent_id); ("old_fingerprint", JStr (a_api_key_fingerprint row));
         ("new_fingerprint", JStr new_fp); ("version_before", JInt version_before);
         ("version_after", JInt version_after); ("old_expires_at", expiry_json (a_api_key_expires_at row));
         ("new_expires_at", expiry_json new_expires_at)] in
      do! notify_change "mintkey:agent"
        [("event", JStr "agent.api_key_rotated"); ("tenant_id", JStr (uuid_str tenant_id));
         ("agent_id", JStr agent_id); ("new_fingerprint", JStr new_fp)] in
      ret (JSONResponse 200
        [("agent_id", JStr agent_id); ("api_key", JStr plaintext); ("api_key_fingerprint", JStr new_fp);
         ("api_key_version", JInt version_after); ("api_key_last_rotated_at", JStr (isoformat_utc now));
         ("api_key_expires_at", expiry_json new_expires_at)]))
  end).

Definition set_pubkey (pubkey : string) (now : Z) (a : agent_row) : agent_row :=
  {| a_id := a_id a; a_tenant_id := a_tenant_id a; a_name := a_name a; a_description := a_description a;
     a_api_key_hash := a_api_key_hash a; a_api_key_fingerprint := a_api_key_fingerprint a;
     a_mcp_endpoint := a_mcp_endpoint a; a_status := a_status a; a_rate_limit_rps := a_rate_limit_rps a;
     a_created_at := a_created_at a; a_updated_at := now; a_api_key_expires_at := a_api_key_expires_at a;
     a_api_key_version := a_api_key_version a; a_api_key_last_rotated_at := a_api_key_last_rotated_at a;
     a_ssh_pubkey := Some pubkey |}.

Definition set_agent_ssh_pubkey (tenant_id : uuid) (agent_id ssh_pubkey : string) : M response :=
  try_value (Admin._wire_id_to_uuid agent_id "agent_") (ret invalid_agent_id) (fun agent_uuid =>
  let! sql_now := transaction_timestamp in
  do! set_tenant_context (uuid_str tenant_id) false in
  match check_ssh_pubkey ssh_pubkey with
  | inr answer => ret answer
  | inl (pubkey, key_bytes) =>
      let fingerprint := ssh_fingerprint key_bytes in
      let! row := agent_by_id agent_uuid tenant_id in
      match row with
      | None => ret agent_not_found
      | Some row =>
          let old_pubkey := match a_ssh_pubkey row with Some "" => None | o => o end in
          let event_type := match old_pubkey with Some _ => "agent.ssh_pubkey.rotated" | None => "agent.ssh_pubkey.set" end in
          let old_fingerprint := match old_pubkey with Some s => old_ssh_fingerprint s | None => None end in
          do! update_agent agent_uuid tenant_id (set_pubkey pubkey sql_now) in
          do! audit_emit tenant_id event_type None "operator" (Some (VUUID (a_id row))) (Some "agent")
            ([("agent_id", JStr agent_id); ("new_fingerprint", JStr fingerprint)]
             ++ match old_fingerprint with Some f => [("old_fingerprint", JStr f)] | None => [] end)%list in
          do! notify_change "mintkey:agent"
            [("event", JStr event_type); ("tenant_id", JStr (uuid_str tenant_id)); ("agent_id", JStr agent_id)] in
          ret (JSONResponse 200
            [("agent_id", JStr agent_id); ("ssh_pubkey_fingerprint", JStr fingerprint); ("event", JStr event_type)])
      end
  end).

Definition delete_agent (tenant_id : uuid) (agent_id : string) : M response :=
  try_value (Admin._wire_id_to_uuid agent_id "agent_") (ret (EmptyResponse 422)) (fun agent_uuid =>
  do! set_tenant_context (uuid_str tenant_id) false in
  let! aid := bound agent_uuid in
  let! tid := bound (uuid_str tenant_id) in
  let! _ := delete_restricted agents_t a_id agents_references (fun a => N.eqb (a_id a) aid && N.eqb (a_tenant_id a) tid) in
  do! audit_emit tenant_id "agent.deleted" None "operator" None (Some "agent") [("agent_id", JStr agent_id)] in
  do! notify_change "mintkey:agent"
    [("event", JStr "agent.revoked"); ("tenant_id", JStr (uuid_str tenant_id)); ("agent_id", JStr agent_id)] in
  ret (EmptyResponse 204)).

(** ** The router *)

Inductive agents_request :=
  | PostAgent (body : AgentCreate)
  | ListAgents (q has_access_to_service_id : option string)
  | GetAgent (agent_id : string)
  | PostRevokeAgent (agent_id : string)
  | PostRotateKey (agent_id : string) (expires_in : option string)
  | PostSshPubkey (agent_id ssh_pubkey : string)
  | DeleteAgent (agent_id : string).

Definition agents_handler tenant_id (rq : agents_request) : M response :=
  match rq with
  | PostAgent body => create_agent tenant_id body
  | ListAgents q svc => list_agents tenant_id q svc
  | GetAgent agent_id => get_agent tenant_id agent_id
  | PostRevokeAgent agent_id => revoke_agent tenant_id agent_id
  | PostRotateKey agent_id expires_in => rotate_agent_key tenant_id agent_id expires_in
  | PostSshPubkey agent_id ssh_pubkey => set_agent_ssh_pubkey tenant_id agent_id ssh_pubkey
  | DeleteAgent agent_id => delete_agent tenant_id agent_id
  end.

(** Every endpoint depends on [require_tenant_session]. *)
Definition agents_router (cookie : option string) tenant_id (rq : agents_request) : M response :=
  do! require_tenant_session cookie tenant_id in
  transaction (agents_handler tenant_id rq).
End Agents.
