(* ===== verification/ApiKeys.v ===== *)
(** * Service API keys (admin_api/api/api_keys.py, api_keys_shortcut.py)

    Long-lived keys of an agent for one service.  The policy of the operator
    is read from the table [admin_settings], which no changelog creates. *)

From S2P Require Import Prelude PyStr PyJson PyJsonFacts PyTime Periods PyText WireIds AuditHash AuditChain Constraints.
From S2P Require Import Like Vault Tables Database Logic Ulid Demo Keys Sessions AuditEmit AgentSecrets Permissions Agents.

Local Open Scope string_scope.
Local Open Scope py_scope.

Record ServiceApiKeyCreate := MkServiceApiKeyCreate {
  yc_service_id : string; yc_allowed_actions : list string; yc_constraints : option dict;
  yc_expires_at : option datetime }.

(** [dict(api_key_block)], with the defaults of the code. *)
Definition api_key_defaults : dict :=
  [("proxy_cache_ttl_seconds", JInt 60); ("require_expiry", JBool false); ("allow_no_expiry", JBool true);
   ("max_expiry_days", JInt 365); ("require_ip_allowlist", JBool false)].

(** [body.constraints or {}] *)
Definition or_empty (c : option dict) : dict := default [] c.

(** [json.loads(c) if c else None] *)
Definition loads_if (raw : json) : outcome json :=
  if truthy raw then match raw with
                     | JStr s => json_loads s
                     | _ => Raise (TypeError "the JSON object must be str, bytes or bytearray")
                     end
  else Ok JNull.

Section ApiKeys.
Context `{E : Env} `{V : Vault} `{Sha : Sha256} `{Arg : Argon2}.

Definition _new_svckey_id : M string := new_id "svckey_".
Definition _generate_plaintext : M string := random_key "mk_svckey_".
(** [argon2.PasswordHasher(time_cost=1, memory_cost=65536, parallelism=4, hash_len=32)] *)
Definition _ph : argon2_params := Params 1 65536 4 32.

(** [SELECT value FROM admin_settings LIMIT 1] *)
Definition admin_settings_value : M (option json) :=
  execute (fun w => match env_admin_settings with
                    | None => Raise (DBError "relation admin_settings does not exist")
                    | Some rows => Ok (head rows, w)
                    end).

(** The block of the settings: [None] when no row is stored. *)
Definition read_settings : M (option dict) :=
  let! r := admin_settings_value in
  match r with
  | None => ret None
  | Some value =>
      let! data := lift (match value with JStr s => json_loads s | _ => Raise (TypeError "the JSON object must be str") end) in
      let! api_key_block := lift (json_get "api_key" (JObj api_key_defaults) data) in
      ret (Some (match api_key_block with JObj d => d | _ => api_key_defaults end))
  end.

Definition _load_api_key_settings : M dict :=
  let! r := catch (begin_nested read_settings) (fun _ => ret None) in
  ret (default api_key_defaults r).

(** [expires.replace(tzinfo=utc)] of a naive datetime, then its instant *)
Definition as_utc (d : datetime) : Z := dt_instant d.

(** The code of the violated policy. *)
Definition _check_policy (settings : dict) (body : ServiceApiKeyCreate) : M (option string) :=
  let require_expiry := dict_default "require_expiry" (JBool false) settings in
  let allow_no_expiry := dict_default "allow_no_expiry" (JBool true) settings in
  let max_expiry_days := dict_default "max_expiry_days" (JInt 365) settings in
  let require_ip_allowlist := dict_default "require_ip_allowlist" (JBool false) settings in
  let violation : M (option string) := ret (Some "api_key_policy_violation") in
  let ip_check : M (option string) :=
    if truthy require_ip_allowlist then
      if truthy (dict_default "source_ip_allowlist" JNull (or_empty (yc_constraints body))) then ret None else violation
    else ret None in
  match yc_expires_at body with
  | None => if truthy require_expiry && negb (truthy allow_no_expiry) then violation else ip_check
  | Some e =>
      let! now := now_utc in
      let! limit := lift (py_int max_expiry_days) in
      if (limit <? (as_utc e - now) / us_per_day)%Z then violation else ip_check
  end.

(** Not called: the handlers bind the identifier they are given. *)
Definition _resolve_api_key_id (api_key_id : string) (tenant_id : uuid) : M (option string) :=
  if negb (startswith api_key_id "svckey_") then ret (Some api_key_id)
  else
    let! tid := bound (uuid_str tenant_id) in
    let names (k : string) (e : audit_row) : bool :=
      match e_payload e with
      | JObj p => match dict_get k p with Some (JStr s) => String.eqb s api_key_id | _ => false end
      | _ => false
      end in
    let! rows := select audit_events_t (fun e =>
      (String.eqb (e_event_type e) "api_key.created" || String.eqb (e_event_type e) "api_key.rotated")
      && N.eqb (e_tenant_id e) tid && (names "api_key_id" e || names "new_api_key_id" e)) in
    ret ((fun row => match e_target_id row with Some u => uuid_str u | None => "None" end) <$> fetchone rows).

(** Step 2: the service's UUID, or the answer. *)
Definition api_key_service (tenant_id : uuid) (svc_input : string) : M (string + response) :=
  if startswith svc_input "svc_" then
    match Admin._wire_id_to_uuid svc_input "svc_" with
    | Raise (ValueError _) => ret (inr (problem 422 "invalid_service_id" "Invalid service_id"))
    | Raise e => raise e
    | Ok decoded_svc_uuid =>
        let! sid := bound decoded_svc_uuid in
        let! tid := bound (uuid_str tenant_id) in
        let! exists_ := select services_t (fun s => N.eqb (s_id s) sid && N.eqb (s_tenant_id s) tid) in
        match fetchone exists_ with
        | Some _ => ret (inl decoded_svc_uuid)
        | None =>
            let! tid := bound (uuid_str tenant_id) in
            let! rows := select audit_events_t (fun e => N.eqb (e_tenant_id e) tid && registered_as svc_input e) in
            match fetchone rows with
            | None => ret (inr (problem 404 "not_found" "Service not found"))
            | Some row => ret (inl (match e_target_id row with Some u => uuid_str u | None => "None" end))
            end
        end
    end
  else ret (inl svc_input).

(** [set(requested).issubset(grant_actions)] *)
Definition issubset (requested granted : list string) : bool :=
  forallb (fun a => existsb (String.eqb a) granted) requested.

(** [CAST(:constraints AS jsonb)] of [json.dumps(constraints) if constraints else None] *)
Definition stored_constraints (c : option dict) : option json :=
  match c with
  | None | Some [] => None
  | Some d => Some (jsonb (JObj d))
  end.

Definition create_api_key (tenant_id : uuid) (agent_id : string) (body : ServiceApiKeyCreate) : M response :=
  try_value (Admin._wire_id_to_uuid agent_id "agent_") (ret invalid_agent_id) (fun agent_uuid =>
  do! set_tenant_context (uuid_str tenant_id) false in
  let! agent := agent_by_id agent_uuid tenant_id in
  match agent with
  | None => ret agent_not_found
  | Some _ =>
      let! svc := api_key_service tenant_id (yc_service_id body) in
      match svc with
      | inr answer => ret answer
      | inl svc_uuid =>
          let! aid := bound agent_uuid in
          let! sid := bound svc_uuid in
          let! tid := bound (uuid_str tenant_id) in
          let! grants := select permission_grants_t (fun g =>
            N.eqb (g_agent_id g) aid && N.eqb (g_service_id g) sid && N.eqb (g_tenant_id g) tid) in
          if negb (issubset (yc_allowed_actions body) (map g_action grants)) then
            ret (problem 422 "api_key_actions_exceed_grant"
                   "allowed_actions exceed the agent's permission grants for this service")
          else
            let! settings := _load_api_key_settings in
            let! policy_violation := _check_policy settings body in
            match policy_violation with
            | Some code => ret (problem 422 code "Operator policy violation")
            | None =>
                let! plaintext := _generate_plaintext in
                let fp := _fingerprint plaintext in
                let! key_hash := ph_hash _ph plaintext in
                let! key_id := _new_svckey_id in
                let! internal_id := lift (ulid_uuid key_id "svckey_") in
                let! now := now_utc in
                let! id := bound (uuid_str internal_id) in
                let! tid := bound (uuid_str tenant_id) in
                let! aid := bound agent_uuid in
                let! sid := bound svc_uuid in
                let! creator := bound agent_uuid in
                do! insert_into service_api_keys_t {|
                  y_id := id; y_tenant_id := tid; y_agent_id := aid; y_service_id := sid; y_key_hash := key_hash;
                  y_key_fingerprint := fp; y_allowed_actions := yc_allowed_actions body;
                  y_constraints := stored_constraints (yc_constraints body);
                  y_expires_at := timestamptz <$> yc_expires_at body; y_last_used_at := None; y_revoked_at := None;
                  y_revoke_reason := None; y_created_at := now; y_created_by := creator |} in
                do! audit_emit tenant_id "api_key.created" None "operator" (Some (VUUID internal_id)) (Some "api_key")
                  [("api_key_id", JStr key_id); ("agent_id", JStr agent_uuid); ("service_id", JStr (yc_service_id body));
                   ("key_fingerprint", JStr fp); ("allowed_actions", JArr (map JStr (yc_allowed_actions body)))] in
                ret (JSONResponse 201
                  [("api_key_id", JStr key_id); ("plaintext_key", JStr plaintext); ("key_fingerprint", JStr fp);
                   ("agent_id", JStr agent_id); ("service_id", JStr (yc_service_id body));
                   ("allowed_actions", JArr (map JStr (yc_allowed_actions body)));
                   ("constraints", json_opt JObj (yc_constraints body));
                   ("expires_at", json_opt (fun d => JStr (isoformat d)) (yc_expires_at body));
                   ("created_at", JStr (isoformat_utc now))])
            end
      end
  end).

(** [status] of a listed key; the clock is read for a key that expires and is not revoked. *)
Definition key_status (y : api_key_row) : M string :=
  match y_revoked_at y, y_expires_at y with
  | Some _, _ => ret "revoked"
  | None, Some expires => let! now := now_utc in ret (if (expires <? now)%Z then "expired" else "active")
  | None, None => ret "active"
  end.

(** [row.constraints] *)
Definition raw_constraints (y : api_key_row) : json :=
  match y_constraints y with Some j => from_jsonb j | None => JNull end.

Definition api_key_json (y : api_key_row) (constraints : json) (status : string) : dict :=
  [("api_key_id", JStr (wire (y_id y) "svckey")); ("key_fingerprint", JStr (y_key_fingerprint y));
   ("service_id", JStr (wire (y_service_id y) "svc")); ("allowed_actions", JArr (map JStr (y_allowed_actions y)));
   ("constraints", constraints); ("expires_at", expiry_json (y_expires_at y));
   ("last_used_at", expiry_json (y_last_used_at y)); ("created_at", JStr (isoformat_utc (y_created_at y)));
   ("created_by", JStr (uuid_str (y_created_by y))); ("status", JStr status)].

(** [ORDER BY created_at DESC] *)
Definition newest_first : list api_key_row -> list api_key_row :=
  sort_by (fun a b => Z.leb (y_created_at b) (y_created_at a)).

(** The loop over the rows of a listing. *)
Fixpoint key_items (item : api_key_row -> json -> string -> dict) (rows : list api_key_row) : M (list json) :=
  match rows with
  | [] => ret []
  | r :: rows =>
      let! status := key_status r in
      let! constraints := lift (loads_if (raw_constraints r)) in
      let! items := key_items item rows in
      ret (JObj (item r constraints status) :: items)
  end.

(** The conditions on the fingerprint and the service. *)
Definition key_matches (q : option string) (svc : option uuid) (y : api_key_row) : bool :=
  match q with Some q => ilike env_fold (search_pattern q) (y_key_fingerprint y) | None => true end
  && match svc with Some s => N.eqb (y_service_id y) s | None => true end.

Definition list_api_keys (tenant_id : uuid) (agent_id : string) (q service_id : option string) : M response :=
  try_value (Admin._wire_id_to_uuid agent_id "agent_") (ret invalid_agent_id) (fun agent_uuid =>
  do! set_tenant_context (uuid_str tenant_id) false in
  let! svc_uuid := match service_id with
                   | Some s => let! u := lift (Admin.wire_to_db_uuid s "svc") in ret (Some u)
                   | None => ret None
                   end in
  let! aid := bound agent_uuid in
  let! tid := bound (uuid_str tenant_id) in
  let! svc := bound_opt svc_uuid in
  let! rows := select service_api_keys_t (fun y =>
    N.eqb (y_agent_id y) aid && N.eqb (y_tenant_id y) tid && key_matches q svc y) in
  let! items := key_items api_key_json (newest_first rows) in
  ret (Response 200 (JArr items))).

Definition api_key_not_found : response := problem 404 "not_found" "API key not found".

(** [SELECT ... WHERE agent_id = .. AND tenant_id = .. AND id = .. LIMIT 1] *)
Definition api_key_by_id (agent_uuid : string) (tenant_id : uuid) (api_key_id : string) : M (option api_key_row) :=
  let! aid := bound agent_uuid in
  let! tid := bound (uuid_str tenant_id) in
  let! kid := bound api_key_id in
  let! rows := select service_api_keys_t (fun y => N.eqb (y_agent_id y) aid && N.eqb (y_tenant_id y) tid && N.eqb (y_id y) kid) in
  ret (fetchone rows).

Definition get_api_key (tenant_id : uuid) (agent_id api_key_id : string) : M response :=
  try_value (Admin._wire_id_to_uuid agent_id "agent_") (ret invalid_agent_id) (fun agent_uuid =>
  do! set_tenant_context (uuid_str tenant_id) false in
  let! row := api_key_by_id agent_uuid tenant_id api_key_id in
  match row with
  | None => ret api_key_not_found
  | Some row =>
      let! constraints := lift (loads_if (raw_constraints row)) in
      ret (JSONResponse 200 (api_key_json row constraints
             (match y_revoked_at row with Some _ => "revoked" | None => "active" end)))
  end).

Definition set_key_revoked (now : Z) (reason : option string) (y : api_key_row) : api_key_row :=
  {| y_id := y_id y; y_tenant_id := y_tenant_id y; y_agent_id := y_agent_id y; y_service_id := y_service_id y;
     y_key_hash := y_key_hash y; y_key_fingerprint := y_key_fingerprint y; y_allowed_actions := y_allowed_actions y;
     y_constraints := y_constraints y; y_expires_at := y_expires_at y; y_last_used_at := y_last_used_at y;
     y_revoked_at := Some now; y_revoke_reason := reason; y_created_at := y_created_at y;
     y_created_by := y_created_by y |}.

Definition revoke_api_key (tenant_id : uuid) (agent_id api_key_id : string) (reason : option string) : M response :=
  try_value (Admin._wire_id_to_uuid agent_id "agent_") (ret invalid_agent_id) (fun agent_uuid =>
  do! set_tenant_context (uuid_str tenant_id) false in
  let! row := api_key_by_id agent_uuid tenant_id api_key_id in
  match row with
  | None => ret api_key_not_found
  | Some row =>
      match y_revoked_at row with
      | Some _ => ret (JSONResponse 200 [("status", JStr "already_revoked")])
      | None =>
          let! now := now_utc in
          let! kid := bound api_key_id in
          let! tid := bound (uuid_str tenant_id) in
          do! update_checked service_api_keys_t api_keys_checks (fun y => N.eqb (y_id y) kid && N.eqb (y_tenant_id y) tid)
            (set_key_revoked now reason) in
          do! audit_emit tenant_id "api_key.revoked" None "operator" None (Some "api_key")
            [("api_key_id", JStr api_key_id); ("agent_id", JStr agent_id); ("service_id", JStr (uuid_str (y_service_id row)));
             ("key_fingerprint", JStr (y_key_fingerprint row)); ("reason", opt_json reason)] in
          do! notify_change "mintkey:agent"
            [("event", JStr "api_key.revoked"); ("tenant_id", JStr (uuid_str tenant_id)); ("api_key_id", JStr api_key_id);
             ("key_fingerprint", JStr (y_key_fingerprint row)); ("reason", opt_json reason)] in
          ret (JSONResponse 200 [("status", JStr "revoked")])
      end
  end).

(** [CAST(:constraints AS jsonb)] of the column's value as it was read. *)
Definition rebound_constraints (raw : json) : M (option json) :=
  match raw with
  | JNull => ret None
  | JStr s => match loads s with
              | Some j => ret (Some (jsonb j))
              | None => execute (fun _ => Raise (DBError "invalid input syntax for type json"))
              end
  | j => match bind_jsonb j with
         | Some j => ret (Some j)
         | None => raise (DBError "invalid input for query argument")
         end
  end.

Definition rotate_api_key (tenant_id : uuid) (agent_id api_key_id : string) : M response :=
  try_value (Admin._wire_id_to_uuid agent_id "agent_") (ret invalid_agent_id) (fun agent_uuid =>
  do! set_tenant_context (uuid_str tenant_id) false in
  let! old_row := api_key_by_id agent_uuid tenant_id api_key_id in
  match old_row with
  | None => ret api_key_not_found
  | Some old_row =>
      let! new_expires_at := match y_expires_at old_row with
                             | Some e =>
                                 let! now := now_utc in
                                 let! t := lift (add_timedelta now (e - y_created_at old_row)) in ret (Some t)
                             | None => ret None
                             end in
      let! plaintext := _generate_plaintext in
      let fp := _fingerprint plaintext in
      let! key_hash := ph_hash _ph plaintext in
      let! new_key_id := _new_svckey_id in
      let! new_internal_id := lift (ulid_uuid new_key_id "svckey_") in
      let! now := now_utc in
      let! id := bound (uuid_str new_internal_id) in
      let! tid := bound (uuid_str tenant_id) in
      let! aid := bound agent_uuid in
      let! constraints := rebound_constraints (raw_constraints old_row) in
      let! creator := bound agent_uuid in
      do! insert_into service_api_keys_t {|
        y_id := id; y_tenant_id := tid; y_agent_id := aid; y_service_id := y_service_id old_row; y_key_hash := key_hash;
        y_key_fingerprint := fp; y_allowed_actions := y_allowed_actions old_row; y_constraints := constraints;
        y_expires_at := new_expires_at; y_last_used_at := None; y_revoked_at := None; y_revoke_reason := None;
        y_created_at := now; y_created_by := creator |} in
      let service_id := JStr (uuid_str (y_service_id old_row)) in
      do! audit_emit tenant_id "api_key.rotated" None "operator" (Some (VUUID new_internal_id)) (Some "api_key")
        [("old_api_key_id", JStr api_key_id); ("new_api_key_id", JStr new_key_id); ("agent_id", JStr agent_id);
         ("service_id", service_id); ("key_fingerprint", JStr fp)] in
      ret (JSONResponse 201
        [("api_key_id", JStr new_key_id); ("plaintext_key", JStr plaintext); ("key_fingerprint", JStr fp);
         ("agent_id", JStr agent_id); ("service_id", service_id);
         ("allowed_actions", JArr (map JStr (y_allowed_actions old_row))); ("expires_at", expiry_json new_expires_at);
         ("created_at", JStr (isoformat_utc now))])
  end).

(** ** api_keys_shortcut.py *)

Definition tenant_key_json (y : api_key_row) (constraints : json) (status : string) : dict :=
  [("id", JStr (uuid_str (y_id y))); ("agent_id", JStr (uuid_str (y_agent_id y)));
   ("key_fingerprint", JStr (y_key_fingerprint y)); ("service_id", JStr (uuid_str (y_service_id y)));
   ("allowed_actions", JArr (map JStr (y_allowed_actions y))); ("constraints", constraints);
   ("expires_at", expiry_json (y_expires_at y)); ("last_used_at", expiry_json (y_last_used_at y));
   ("created_at", JStr (isoformat_utc (y_created_at y))); ("created_by", JStr (uuid_str (y_created_by y)));
   ("status", JStr status)].

(** The legacy form of a service identifier, with the dashes put back. *)
Definition shortcut_service (service_id : string) : string :=
  if startswith service_id "svc_" then
    let hex_part := py_drop 4 service_id in
    if (py_len hex_part =? 32)%nat then
      py_take 8 hex_part +:+ "-" +:+ py_take 4 (py_drop 8 hex_part) +:+ "-" +:+ py_take 4 (py_drop 12 hex_part)
      +:+ "-" +:+ py_take 4 (py_drop 16 hex_part) +:+ "-" +:+ py_drop 20 hex_part
    else service_id
  else service_id.

Definition list_tenant_api_keys (tenant_id : uuid) (q service_id : option string) : M response :=
  do! set_tenant_context (uuid_str tenant_id) false in
  let! tid := bound (uuid_str tenant_id) in
  let! svc := bound_opt (shortcut_service <$> service_id) in
  let! rows := select service_api_keys_t (fun y => N.eqb (y_tenant_id y) tid && key_matches q svc y) in
  let! items := key_items tenant_key_json (newest_first rows) in
  ret (JSONResponse 200 [("api_keys", JArr items)]).

(** ** The routers *)

Inductive api_keys_request :=
  | PostApiKey (agent_id : string) (body : ServiceApiKeyCreate)
  | ListApiKeys (agent_id : string) (q service_id : option string)
  | GetApiKey (agent_id api_key_id : string)
  | PostRevokeApiKey (agent_id api_key_id : string) (reason : option string)
  | PostRotateApiKey (agent_id api_key_id : string)
  | ListTenantApiKeys (q service_id : option string).

Definition api_keys_handler tenant_id (rq : api_keys_request) : M response :=
  match rq with
  | PostApiKey agent_id body => create_api_key tenant_id agent_id body
  | ListApiKeys agent_id q svc => list_api_keys tenant_id agent_id q svc
  | GetApiKey agent_id api_key_id => get_api_key tenant_id agent_id api_key_id
  | PostRevokeApiKey agent_id api_key_id reason => revoke_api_key tenant_id agent_id api_key_id reason
  | PostRotateApiKey agent_id api_key_id => rotate_api_key tenant_id agent_id api_key_id
  | ListTenantApiKeys q svc => list_tenant_api_keys tenant_id q svc
  end.

(** Every endpoint depends on [require_tenant_session]. *)
Definition api_keys_router (cookie : option string) tenant_id (rq : api_keys_request) : M response :=
  do! require_tenant_session cookie tenant_id in
  transaction (api_keys_handler tenant_id rq).
End ApiKeys.
