(* ===== verification/InternalLaws.v ===== *)
(** * What the internal endpoints promise

    The answer to the validation of a key as a function of the committed
    rows; the guard of the audit ingress. *)

From Stdlib Require QArith_base.
From S2P Require Import Prelude PyStr PyJson PyJsonFacts PyTime PyFloat PyText WireIds AuditHash AuditChain.
From S2P Require Import Vault Tables Database Logic Demo Keys EmitLimiter Sessions AuditEmit AgentSecrets Internal.

Local Open Scope string_scope.
Local Open Scope py_scope.

Section Validate.
Context `{E : Env} `{V : Vault} `{Sha : Sha256} `{Arg : Argon2}.
Context (pg_nil : pg_uuid_in nil_uuid_text = Some 0%N).

(** The agent a key names: the first row with its fingerprint. *)
Definition key_holder (d : db) (api_key : string) : option agent_row :=
  List.find (fun a => String.eqb (a_api_key_fingerprint a) (_fingerprint api_key)) (agents d).

(** The answer, from the row, the verdict on the hash and the time. *)
Definition key_answer (row : option agent_row) (v : verdict) (now : Z) : response :=
  match row with
  | None => invalid_key
  | Some a =>
      match v with
      | Rejected | InvalidHash => invalid_key
      | Unavailable => Response 503 (JObj VERIFY_UNAVAILABLE_RESPONSE)
      | Verified =>
          if String.eqb (a_status a) "active" then
            match a_api_key_expires_at a with
            | Some e => if (e <? now)%Z then expired_key e else valid_key a
            | None => valid_key a
            end
          else invalid_key
      end
  end.

Definition row_verdict (n : nat) (row : option agent_row) (api_key : string) : verdict :=
  match row with Some a => argon2_verify n (a_api_key_hash a) api_key | None => Rejected end.

(** Under the platform view every row is visible. *)
Lemma cross_tenant_eff w u w' : cross_tenant_view w = (Ok u, w') ->
  w_base w' = w_base w /\ w_db w' = w_db w /\ w_tx w = TxActive /\ w_tx w' = TxActive /\ w_vault w' = w_vault w /\
  policy w' = Ok (fun r => N.eqb r 0 || true).
Proof.
  intros H. apply execute_Ok in H as [Ht H]. injection H as <- <-. do 5 (split; [done|]). unfold policy. cbn. by rewrite pg_nil.
Qed.

Lemma filter_all_seen {R} (T : table R) p l :
  List.filter (fun r => sees T (fun u => N.eqb u 0 || true) r && p r) l = List.filter p l.
Proof. apply filter_ext. intros r. unfold sees. destruct (tb_tenant T r); [by rewrite orb_true_r|done]. Qed.

Lemma validate_answer api_key w r w' : validate_agent_key api_key w = (Ok r, w') ->
  exists n m, r = key_answer (key_holder (w_db w) api_key) (row_verdict n (key_holder (w_db w) api_key) api_key) (env_now m).
Proof.
  intros H. unfold validate_agent_key in H. step H as u w1 H1.
  apply cross_tenant_eff in H1 as (_ & Ed & _ & _ & _ & Hp). step H as rows w2 H2.
  apply select_eff in H2 as (_ & _ & Ed2 & pol & Hpol & ->). rewrite Hp in Hpol. apply Ok_inj in Hpol. subst pol.
  rewrite filter_all_seen in H. unfold fetchone in H. rewrite head_filter_find in H. cbn [tb_get agents_t] in H.
  rewrite Ed in H. change (List.find _ (agents (w_db w))) with (key_holder (w_db w) api_key) in H.
  destruct (key_holder (w_db w) api_key) as [a|]; step H as v w3 H3;
    [|apply ret_Ok in H as [-> _]; by exists 0%nat, 0%nat].
  apply ph_verify_eff in H3 as (_ & _ & _ & ->). exists (w_tick w2). unfold row_verdict, key_answer.
  destruct (argon2_verify _ _ _); [|apply ret_Ok in H as [-> _]; by exists 0%nat..].
  destruct (String.eqb (a_status a) "active"); cbn [negb] in H; [|apply ret_Ok in H as [-> _]; by exists 0%nat].
  destruct (a_api_key_expires_at a) as [e|]; [|apply ret_Ok in H as [-> _]; by exists 0%nat].
  step H as now w4 H4. apply now_Ok in H4 as [-> _]. exists (w_tick w3).
  destruct (_ <? _)%Z; [|by apply ret_Ok in H as [-> _]].
  step H as em w5 H5. step H as u2 w6 H6. by apply ret_Ok in H as [-> _].
Qed.

(** The answer to an agent's key is this function of the committed rows.  The row is the first whose
    fingerprint is the key's; without one, or when Argon2 rejects the key for the row's hash, or when
    the agent is not active, the answer is one and the same 401; an expired key is answered 401 with
    its own code; otherwise the answer names the agent and its tenant.  The verdict is that of the
    row's hash, and the time is read after it. *)
Theorem validate_exact api_key w r w' :
  transaction (validate_agent_key api_key) w = (Ok r, w') ->
  exists n m, let row := key_holder (w_base w) api_key in
    r = key_answer row (row_verdict n row api_key) (env_now m).
Proof. intros H. apply transaction_Ok in H as (w1 & H & _). by apply validate_answer in H. Qed.
End Validate.

(** ** The audit ingress *)

(** What [m] writes stays in the open transaction. *)
Definition uncommitted `{E : Env} `{V : Vault} {A} (m : M A) : Prop := forall w, w_base (snd (m w)) = w_base w.

Section Ingress.
Context `{E : Env} `{V : Vault} `{Sha : Sha256} `{Arg : Argon2}.
Context (pg_nil : pg_uuid_in nil_uuid_text = Some 0%N).

Lemma uncommitted_reads {A} (m : M A) : reads m -> uncommitted m.
Proof.
  intros [Ha Ho] w. destruct (m w) as [[a|e] w1] eqn:Em; cbn [snd]; [by apply Ho in Em as (? & _)|by apply Ha in Em as (? & _)].
Qed.

Lemma uncommitted_bind {A B} (m : M A) (k : A -> M B) : uncommitted m -> (forall a, uncommitted (k a)) -> uncommitted (bind m k).
Proof.
  intros Hm Hk w. unfold bind. specialize (Hm w). destruct (m w) as [[a|e] w1]; cbn [snd] in *; [|done]. by rewrite (Hk a w1).
Qed.

Lemma uncommitted_audit_emit t ev actor kind target tt0 payload : (t < uuid_limit)%N -> uuid_opt_ok actor ->
  uncommitted (audit_emit t ev actor kind target tt0 payload).
Proof.
  intros Ht Ha w. destruct (audit_emit _ _ _ _ _ _ _ w) as [[u|e] w1] eqn:Em; cbn [snd].
  - by apply audit_emit_Ok in Em as (r & _ & _ & _ & _ & ? & _).
  - by apply (audit_emit_atomic t ev actor kind target tt0 payload Ht) in Em as [? _].
Qed.

Lemma uncommitted_view : uncommitted cross_tenant_view.
Proof.
  intros w. unfold cross_tenant_view, execute. change (w_tx (tick w)) with (w_tx w). destruct (w_tx w); [|done..].
  by destruct (env_fault _).
Qed.

Lemma transaction_undone {A} (m : M A) w e w' : uncommitted m -> transaction m w = (Raise e, w') -> w_base w' = w_base w.
Proof.
  intros Hm H. specialize (Hm (begin w)). unfold transaction in H. destruct (m (begin w)) as [[a|e1] w1]; cbn [snd] in Hm.
  - destruct (w_tx w1) eqn:Et; unfold commit in H; change (w_tx (tick w1)) with (w_tx w1) in H; try rewrite Et in H; try done.
    destruct (env_fault _); [|done]. by injection H as _ <-.
  - destruct (w_tx w1); by injection H as _ <-.
Qed.

(** The tenant of the agent, or else of the operator, with this identifier. *)
Definition actor_home (d : db) (u : uuid) : option uuid :=
  match List.find (fun a => N.eqb (a_id a) u) (agents d) with
  | Some a => Some (a_tenant_id a)
  | None => o_tenant_id <$> List.find (fun o => N.eqb (o_id o) u) (operators d)
  end.

Lemma actor_tenant_eff u w o w' : (u < uuid_limit)%N -> actor_tenant u w = (Ok o, w') ->
  w_base w' = w_base w /\ w_db w' = w_db w /\ o = actor_home (w_db w) u.
Proof.
  intros Hu H. unfold actor_tenant in H. step H as x w1 H1. apply (cross_tenant_eff pg_nil) in H1 as (B1 & D1 & _ & _ & _ & Hp).
  rewrite (bound_str u), bind_ret in H by done. step H as rows w2 H2. apply select_eff in H2 as (K2 & _ & D2 & pol & Hpol & ->).
  rewrite Hp in Hpol. apply Ok_inj in Hpol. subst pol. rewrite filter_all_seen in H. unfold fetchone in H.
  rewrite head_filter_find in H. cbn [tb_get agents_t] in H. rewrite D1 in H. unfold actor_home.
  destruct (List.find _ (agents (w_db w))) as [a|].
  { apply ret_Ok in H as [-> ->]. rewrite (kp_base _ _ K2), D2. done. }
  rewrite bind_ret in H. step H as rows w3 H3. apply select_eff in H3 as (K3 & _ & D3 & pol & Hpol & ->).
  rewrite (kept_policy _ _ K2), Hp in Hpol. apply Ok_inj in Hpol. subst pol. rewrite filter_all_seen in H. unfold fetchone in H.
  rewrite head_filter_find in H. cbn [tb_get operators_t] in H. rewrite D2, D1 in H. apply ret_Ok in H as [-> ->].
  by rewrite (kp_base _ _ K3), D3, (kp_base _ _ K2), D2.
Qed.

Lemma reads_try_acquire token : reads (try_acquire token).
Proof.
  assert (Hset : forall k b, reads (set_bucket k b)).
  { intros k b. split; [done|]. intros w a w' H. unfold set_bucket in H. by injection H as _ <-. }
  unfold try_acquire. destruct (_ =? 0)%Z; [apply reads_ret|]. apply reads_bind.
  - unfold _get_bucket. apply reads_bind; [apply reads_lift|intros c]. apply reads_bind; [apply reads_pure; intros w; eexists; by left|intros bs].
    destruct (bs !! token); [apply reads_ret|]. apply reads_bind; [by apply reads_pure; intros w; eexists; right|intros now].
    apply reads_bind; [apply Hset|intros _; apply reads_ret].
  - intros [c b]. apply reads_bind; [by apply reads_pure; intros w; eexists; right|intros now].
    destruct (acquire c c now b) as [a b']. apply reads_bind; [apply Hset|intros _; apply reads_ret].
Qed.
End Ingress.

Section Gate.
Context `{E : Env} `{V : Vault} `{Sha : Sha256} `{Arg : Argon2}.
Context (pg_nil : pg_uuid_in nil_uuid_text = Some 0%N).

(** An admitted event: the service's token is registered, the type may be sent, and the actor, when
    there is one, is an agent or an operator of the tenant. *)
Record admissible (d : db) (token : string) (body : AuditEmitRequest) (t : uuid) : Prop := {
  ad_token : token <> "" /\ In token _get_allowed_service_tokens;
  ad_type : In (ae_event_type body) _ALLOWED_EVENT_TYPES;
  ad_tenant : UUID (ae_tenant_id body) = Ok t;
  ad_actor : forall u, emit_actor (ae_actor_id body) = Some u -> actor_home d u = Some t }.

Lemma optional_uuid_lt s u : optional_uuid s = Some u -> (u < uuid_limit)%N.
Proof.
  unfold optional_uuid. destruct (nonempty s) as [x|]; [|done]. destruct (UUID x) as [v|] eqn:Ev; [|done].
  intros H. apply Some_inj in H. subst v. by eapply UUID_lt.
Qed.

Lemma emit_actor_lt o : uuid_opt_ok (emit_actor o).
Proof. intros u H. unfold emit_actor in H. destruct o as [s|]; [|done]. destruct (existsb _ _); [done|]. by eapply optional_uuid_lt. Qed.

Lemma existsb_In x l : existsb (String.eqb x) l = true -> In x l.
Proof. intros H. apply existsb_exists in H as (y & Hy & E1). apply String.eqb_eq in E1. by subst y. Qed.

Lemma check_actor_eff o t w r w' : uuid_opt_ok o -> check_actor o t w = (Ok r, w') ->
  w_base w' = w_base w /\ w_db w' = w_db w /\
  match r with
  | None => forall u, o = Some u -> actor_home (w_db w) u = Some t
  | Some r => status_code r = 403%Z
  end.
Proof.
  intros Ho H. unfold check_actor in H. destruct o as [u|]; [|by apply ret_Ok in H as [-> ->]].
  step H as home w1 H1. apply (actor_tenant_eff pg_nil) in H1 as (B1 & D1 & ->); [|by apply Ho].
  destruct (actor_home (w_db w) u) as [t0|] eqn:Eh; [|by apply ret_Ok in H as [-> ->]].
  destruct (N.eqb_spec t0 t) as [->|]; apply ret_Ok in H as [-> ->]; [|done]. do 2 (split; [done|]). intros v Hv. congruence.
Qed.

Lemma uncommitted_raise {A} e : uncommitted (raise e : M A). Proof. done. Qed.
Lemma uncommitted_ret {A} (a : A) : uncommitted (ret a). Proof. done. Qed.

Lemma uncommitted_set_tenant s : uncommitted (set_tenant_context s false).
Proof.
  intros w. unfold set_tenant_context, bind, set_config_tenant, execute. change (w_tx (tick w)) with (w_tx w).
  destruct (w_tx w); [|done..]. by destruct (env_fault _).
Qed.

Lemma uncommitted_ingress token body : uncommitted (audit_emit_endpoint token body).
Proof.
  unfold audit_emit_endpoint. destruct (_ || _); [done|]. apply uncommitted_bind; [apply uncommitted_reads, reads_try_acquire|intros a].
  destruct (negb a); [done|]. destruct (negb _); [done|]. destruct (UUID (ae_tenant_id body)) as [t|] eqn:Et; [|done].
  apply UUID_lt in Et. apply uncommitted_bind.
  - unfold check_actor. destruct (emit_actor _) as [u|]; [|done]. apply uncommitted_bind; [|intros [t0|]; [by destruct (N.eqb t0 t)|done]].
    unfold actor_tenant. apply uncommitted_bind; [apply uncommitted_view|intros _]. apply uncommitted_reads.
    apply reads_bind; [apply reads_bound|intros ?]. apply reads_bind; [apply reads_select|intros l].
    destruct (fetchone l); [apply reads_ret|]. apply reads_bind; [apply reads_bound|intros ?].
    apply reads_bind; [apply reads_select|intros ?]. apply reads_ret.
  - intros [r|]; [done|]. apply uncommitted_bind; [apply uncommitted_set_tenant|intros _].
    apply uncommitted_bind; [apply uncommitted_audit_emit; [done|apply emit_actor_lt]|done].
Qed.

(** C21: The audit ingress appends an event only for a registered service, of an allowed type, and for an
    actor of the tenant.  The answer is 200 exactly when one event was committed: then the service's
    token is registered, the type is one of the five, the tenant is a UUID, and the actor, unless it
    is empty, a word for the system or no UUID at all, is an agent or an operator of that tenant; the
    event is linked into the tenant's chain with the type, the tenant and the actor that were
    checked.  In every other case, failures included, nothing is committed. *)
Theorem ingress_gate token body w o w' :
  transaction (internal_handler (PostAuditEmit token body)) w = (o, w') ->
  (o = Ok ok_response /\ exists t e, admissible (w_base w) token body t /\
     w_base w' = append_event t e (w_base w) /\
     emitted t (ae_event_type body) (emit_actor (ae_actor_id body)) (ae_actor_type body)
       (VUUID <$> optional_uuid (ae_target_id body)) (ae_target_type body) (ae_payload body) (w_base w) e) \/
  ((forall r, o = Ok r -> status_code r <> 200%Z) /\ w_base w' = w_base w).
Proof.
  intros H. cbn [internal_handler] in H. destruct o as [r|e].
  2: { right. split; [done|]. by apply transaction_undone in H; [|apply uncommitted_ingress]. }
  apply transaction_Ok in H as (w1 & H & Hend).
  assert (Href : status_code r <> 200%Z -> w_db w1 = w_base w -> w_base w1 = w_base w -> w_base w' = w_base w).
  { intros _ D B. destruct (w_tx w1); subst w'; [exact D|exact B|exact B]. }
  assert (Hno : forall r', r = r' -> w_db w1 = w_base w -> w_base w1 = w_base w -> status_code r' <> 200%Z ->
    (forall r0, Ok r = Ok r0 -> status_code r0 <> 200%Z) /\ w_base w' = w_base w).
  { intros r' <- D B Hs. split; [|by apply Href]. intros r0 Hr0. apply Ok_inj in Hr0. by subst r0. }
  unfold audit_emit_endpoint in H. destruct (String.eqb_spec token "") as [|Htok]; cbn [orb] in H.
  { right. apply ret_Ok in H as [-> ->]. by eapply Hno. }
  destruct (existsb _ _) eqn:Ereg; cbn [negb] in H; [apply existsb_In in Ereg|right; apply ret_Ok in H as [-> ->]; by eapply Hno].
  step H as a w2 H2. apply (proj2 (reads_try_acquire token)) in H2 as (B2 & D2 & X2 & _).
  change (w_base (begin w)) with (w_base w) in B2. change (w_db (begin w)) with (w_base w) in D2.
  destruct a; cbn [negb] in H; [|right; apply ret_Ok in H as [-> ->]; by eapply Hno].
  destruct (existsb _ _) eqn:Etype; cbn [negb] in H; [apply existsb_In in Etype|right; apply ret_Ok in H as [-> ->]; by eapply Hno].
  destruct (UUID (ae_tenant_id body)) as [t|] eqn:Et; [|right; apply ret_Ok in H as [-> ->]; by eapply Hno].
  pose proof (UUID_lt _ _ Et) as Ht. step H as rej w3 H3.
  apply check_actor_eff in H3 as (B3 & D3 & Hact); [|apply emit_actor_lt]. rewrite D2 in *. rewrite B2 in B3.
  destruct rej as [r0|]; [right; apply ret_Ok in H as [-> ->]; eapply Hno; [done..|by rewrite Hact]|].
  left. step H as u w4 H4. apply set_tenant_eff in H4 as (_ & B4 & _ & D4 & _). step H as u2 w5 H5.
  apply audit_emit_Ok in H5 as (e & He & _ & Hx & D5 & _); [|done|apply emit_actor_lt]. apply ret_Ok in H as [-> ->].
  split; [done|]. exists t, e. rewrite D4, D3 in *. rewrite Hx in Hend. subst w'. done.
Qed.
End Gate.

Section Witnesses.
#[local] Existing Instance demo_env.
#[local] Existing Instance demo_vault.
#[local] Existing Instance toy_sha256.
#[local] Existing Instance demo_argon2.

Abbreviation demo_validate := (transaction (validate_agent_key "no-such-key")).

Lemma validate_exact_witness :
  exists r n m, fst (demo_validate demo_world) = Ok r /\
    r = key_answer (key_holder demo_db "no-such-key") (row_verdict n (key_holder demo_db "no-such-key") "no-such-key") (env_now m).
Proof.
  destruct (run_returns demo_validate (fun r => Z.eqb (status_code r) 401) demo_world) as (r & Hr & Hrun); [vm_compute; reflexivity|].
  destruct (validate_exact demo_nil "no-such-key" demo_world r _ Hrun) as (n & m & H). exists r, n, m. split; [|exact H].
  now rewrite Hrun.
Defined.

(** The broker reports a token it issued to an agent of the demonstration tenant. *)
Definition demo_event : AuditEmitRequest :=
  MkAuditEmit "token.issued" (uuid_str 1) (Some (uuid_str 6)) "agent" None None [("service_id", JStr "svc")].
Abbreviation demo_ingress := (transaction (internal_handler (PostAuditEmit "broker-token" demo_event))).

Lemma ingress_gate_witness :
  exists t e, admissible demo_db "broker-token" demo_event t /\
    w_base (snd (demo_ingress demo_world)) = append_event t e demo_db.
Proof.
  destruct (run_returns demo_ingress (fun r => Z.eqb (status_code r) 200) demo_world) as (r & Hr & Hrun); [vm_compute; reflexivity|].
  apply Z.eqb_eq in Hr.
  destruct (ingress_gate demo_nil "broker-token" demo_event demo_world (Ok r) _ Hrun) as [(_ & t & e & Ha & Hb & _)|[Hno _]].
  - exists t, e. split; [exact Ha|exact Hb].
  - destruct (Hno r eq_refl Hr).
Defined.
End Witnesses.
