(* ===== verification/AgentLaws.v ===== *)
(** * What the agent endpoints achieve

    The key a creation or a rotation returns is the one that is validated
    from then on; a revoked or deleted agent is locked out. *)

From S2P Require Import Prelude PyStr PyJson PyJsonFacts PyTime Periods PyText WireIds AuditHash AuditChain.
From S2P Require Import Like Vault Tables Database Logic Ulid PublicUrls Demo Keys EmitLimiter Sessions AuditEmit AgentSecrets.
From S2P Require Import Sharing Permissions Agents Internal InternalLaws.

Local Open Scope string_scope.
Local Open Scope py_scope.

#[local] Opaque uuid_str wire UUID isoformat_utc.

(** A field of a response's body. *)
Definition response_field (name : string) (r : response) : option json :=
  match content r with JObj d => dict_get name d | _ => None end.

Section Effects.
Context `{E : Env} `{V : Vault} `{Sha : Sha256} `{Arg : Argon2}.
Context (t : uuid) (Ht : (t < uuid_limit)%N).
Implicit Types w : world.

Definition is_agent (aid : uuid) (a : agent_row) : bool := N.eqb (a_id a) aid && N.eqb (a_tenant_id a) t.
Definition with_agents (l : list agent_row) (d : db) : db := tb_set agents_t l d.

(** The row holds the key [k]. *)
Definition holds_key (k : string) (a : agent_row) : Prop :=
  a_api_key_fingerprint a = _fingerprint k /\ exists n, a_api_key_hash a = argon2_hash DefaultParams n k.

Lemma update_agent_eff s f w u w' : in_tenant t w -> update_agent s t f w = (Ok u, w') ->
  kept w w' /\ exists aid, bind_uuid s = Some aid /\
    w_db w' = with_agents (map (fun a => if is_agent aid a then f a else a) (agents (w_db w))) (w_db w).
Proof.
  intros T H. unfold update_agent in H. step H as aid w1 Hr. apply bound_Ok in Hr as [Hs ->].
  rewrite (bound_str t), bind_ret in H by done. apply update_checked_eff in H as (K & _ & pol & Hp & Hd & _).
  rewrite (it_policy _ _ T) in Hp. apply Ok_inj in Hp. subst pol. split; [done|]. exists aid. split; [done|].
  rewrite Hd. unfold update_db, with_agents. cbn [tb_get agents_t]. f_equal. apply map_ext. intros a. unfold is_agent.
  cbn [sees tb_tenant agents_t]. destruct (N.eqb (a_tenant_id a) t); [done|by rewrite andb_false_r].
Qed.

Lemma generate_key_eff w k h f w' : _generate_agent_api_key w = (Ok (k, h, f), w') ->
  kept w w' /\ w_db w' = w_db w /\ f = _fingerprint k /\ (exists n, h = argon2_hash DefaultParams n k).
Proof.
  intros H. unfold _generate_agent_api_key in H. step H as p w1 H1. apply random_key_eff in H1 as (K1 & _ & D1 & _).
  step H as h' w2 H2. apply ph_hash_eff in H2 as (K2 & _ & D2 & Eh). apply ret_Ok in H as [H ->]. injection H as -> -> ->.
  split; [by transitivity w1|]. split; [congruence|]. split; [done|]. by exists (w_tick w1).
Qed.

(** An event and a notification leave the agents as they are. *)
Lemma announce_eff ev target payload ch body (r0 : response) w r w' : in_tenant t w ->
  (do! audit_emit t ev None "operator" target (Some "agent") payload in do! notify_change ch body in ret r0) w = (Ok r, w') ->
  r = r0 /\ w_tx w' = TxActive /\ agents (w_db w') = agents (w_db w) /\ kept w w'.
Proof.
  intros T H. step H as u w1 H1. apply audit_emit_eff in H1 as (K1 & _ & e & _ & D1); [|done|apply uuid_opt_none].
  step H as u2 w2 H2. apply notify_eff in H2 as (K2 & _ & D2). apply ret_Ok in H as [-> ->].
  split; [done|]. split; [by rewrite (kp_tx _ _ K2), (kp_tx _ _ K1); apply T|]. split; [by rewrite D2, D1|by transitivity w1].
Qed.

(** The end of an accepted request: the open view is committed. *)
Lemma transaction_commits {A} (m : M A) w a w' :
  transaction m w = (Ok a, w') ->
  exists w1, m (begin w) = (Ok a, w1) /\ (w_tx w1 = TxActive -> w_base w' = w_db w1).
Proof.
  intros H. apply transaction_Ok in H as (w1 & H & Hend). exists w1. split; [done|]. intros Hx. rewrite Hx in Hend. by subst w'.
Qed.

Lemma rotate_Ok agent_id e w r w' :
  transaction (rotate_agent_key t agent_id e) w = (Ok r, w') -> status_code r = 200%Z ->
  exists aid row k h now expires,
    named_id (Admin._wire_id_to_uuid agent_id "agent_") = Some aid /\
    List.find (is_agent aid) (agents (w_base w)) = Some row /\
    response_field "api_key" r = Some (JStr k) /\ rotated_expiry e row now = Ok expires /\
    (exists n, h = argon2_hash DefaultParams n k) /\
    agents (w_base w') = map (fun a => if is_agent aid a
      then set_key h (_fingerprint k) (a_api_key_version row + 1) now expires a else a) (agents (w_base w)).
Proof.
  intros H Hst. apply transaction_commits in H as (w1 & H & Hend). unfold rotate_agent_key in H.
  apply try_value_Ok in H as [H|(s & Es & H)]; [apply ret_Ok in H as [-> _]; discriminate|].
  step H as u w2 H2. apply set_tenant_start in H2 as (T2 & B2 & D2 & _); [|done..].
  step H as row w3 H3. apply agent_by_id_eff in H3 as (K3 & _ & D3 & aid & Haid & _ & ->); [|done..].
  fold (is_agent aid) in H. rewrite D2 in H. change (w_db (begin w)) with (w_base w) in *.
  destruct (List.find (is_agent aid) (agents (w_base w))) as [row|] eqn:Ef; [|apply ret_Ok in H as [-> _]; discriminate].
  step H as now w4 H4. apply now_eff in H4 as (K4 & _ & D4).
  apply try_value_Ok in H as [H|(expires & Ex & H)]; [apply ret_Ok in H as [-> _]; discriminate|].
  step H as key w5 H5. destruct key as [[k h] f]. apply generate_key_eff in H5 as (K5 & D5 & -> & Hh).
  step H as ver w6 H6. unfold bound_int4 in H6. destruct (_ && _); [|done]. apply ret_Ok in H6 as [-> ->].
  assert (T5 : in_tenant t w5) by (by eapply in_tenant_kept; [exact K5|]; eapply in_tenant_kept; [exact K4|]; eapply in_tenant_kept).
  step H as u6 w6 H6. apply update_agent_eff in H6 as (K6 & aid' & Haid' & D6); [|done].
  assert (aid' = aid) as -> by congruence.
  apply announce_eff in H as (-> & Hx & Ha & _); [|by eapply in_tenant_kept].
  exists aid, row, k, h, now, expires. unfold named_id. rewrite Es. do 2 (split; [done|]). split; [reflexivity|]. split; [done|].
  split; [done|]. rewrite (Hend Hx), Ha, D6. unfold with_agents. db_fields. by rewrite D5, D4, D3, D2.
Qed.

Lemma find_is_agent aid l a : List.find (is_agent aid) l = Some a -> In a l /\ a_id a = aid /\ a_tenant_id a = t.
Proof.
  intros H. apply List.find_some in H as [H1 H2]. unfold is_agent in H2. apply andb_true_iff in H2 as [H2 H3].
  by apply N.eqb_eq in H2, H3.
Qed.

Lemma is_agent_true a : a_tenant_id a = t -> is_agent (a_id a) a = true.
Proof. intros H. unfold is_agent. by rewrite H, !N.eqb_refl. Qed.

Lemma create_Ok body w r w' :
  transaction (create_agent t body) w = (Ok r, w') -> status_code r = 201%Z ->
  exists a k, agents (w_base w') = (agents (w_base w) ++ [a])%list /\ response_field "api_key" r = Some (JStr k) /\
    holds_key k a /\ a_tenant_id a = t /\ a_status a = "active" /\ a_name a = ac_name body /\
    ~ In (a_id a) (map a_id (agents (w_base w))).
Proof.
  intros H Hst. apply transaction_commits in H as (w1 & H & Hend). unfold create_agent in H.
  step H as u w2 H2. apply set_tenant_start in H2 as (T2 & B2 & D2 & _); [|done..].
  step H as t0 w3 H3. apply now_eff in H3 as (K3 & _ & D3).
  apply try_value_Ok in H as [H|(expires & Ex & H)]; [apply ret_Ok in H as [-> _]; discriminate|].
  step H as agent_id w4 H4. unfold _new_agent_id, new_id in H4. step H4 as tm w4a H4a. apply time_eff in H4a as (K4a & _ & D4a).
  step H4 as ra w4b H4b. apply uuid4_eff in H4b as (K4b & _ & D4b & _). apply ret_Ok in H4 as [-> ->].
  step H as iid w5 H5. apply lift_Ok in H5 as [_ ->]. step H as now w5 H5. apply now_eff in H5 as (K5 & _ & D5).
  step H as key w6 H6. destruct key as [[k h] f]. apply generate_key_eff in H6 as (K6 & D6 & -> & Hh).
  step H as id w7 H7. apply bound_Ok in H7 as [_ ->]. rewrite (bound_str t), bind_ret in H by done.
  step H as rps w7 Hrps.
  assert (w7 = w6) as ->.
  { destruct (ac_rate_limit_rps body) as [z|]; [|by apply ret_Ok in Hrps as [_ ->]]. step Hrps as z' w8 H8.
    unfold bound_int4 in H8. destruct (_ && _); [|done]. apply ret_Ok in H8 as [-> ->]. by apply ret_Ok in Hrps as [_ ->]. }
  step H as u7 w7 H7. apply varchar_eff in H7. subst w7. step H as u8 w8 H8. apply insert_eff in H8 as (K8 & _ & Hc & D8).
  assert (T6 : in_tenant t w6).
  { do 5 (eapply in_tenant_kept; [eassumption|]). done. }
  apply announce_eff in H as (-> & Hx & Ha & _); [|by eapply in_tenant_kept].
  assert (Hd6 : agents (w_db w6) = agents (w_base w)) by (by rewrite D6, D5, D4b, D4a, D3, D2).
  cbn [tb_check agents_t first_violation app] in Hc. rewrite Hd6 in Hc. cbn [a_id] in Hc.
  destruct (fresh a_id id (agents (w_base w))) eqn:Efr; [|done]. apply fresh_spec in Efr.
  eexists _, k. rewrite (Hend Hx), Ha, D8. db_fields. rewrite Hd6. split; [reflexivity|]. split; [reflexivity|]. by split.
Qed.
Lemma revoke_agent_Ok agent_id w r w' :
  transaction (revoke_agent t agent_id) w = (Ok r, w') -> status_code r = 200%Z ->
  exists aid now, named_id (Admin._wire_id_to_uuid agent_id "agent_") = Some aid /\
    agents (w_base w') = map (fun a => if is_agent aid a then set_revoked now a else a) (agents (w_base w)).
Proof.
  intros H Hst. apply transaction_commits in H as (w1 & H & Hend). unfold revoke_agent in H.
  apply try_value_Ok in H as [H|(s & Es & H)]; [apply ret_Ok in H as [-> _]; discriminate|].
  step H as now w2 H2. apply now_Ok in H2 as [_ ->].
  step H as u w3 H3. apply set_tenant_start in H3 as (T3 & B3 & D3 & _); [|done..].
  step H as row w4 H4. apply agent_by_id_eff in H4 as (K4 & _ & D4 & aid & Haid & _ & _); [|done..].
  destruct row as [row|]; [|apply ret_Ok in H as [-> _]; discriminate].
  pose proof (in_tenant_kept _ _ _ K4 T3) as T4.
  step H as u5 w5 H5. apply update_agent_eff in H5 as (K5 & aid' & Haid' & D5); [|done].
  assert (aid' = aid) as -> by congruence. pose proof (in_tenant_kept _ _ _ K5 T4) as T5.
  step H as aid2 w6 H6. apply bound_Ok in H6 as [_ ->]. rewrite (bound_str t), bind_ret in H by done.
  step H as keys w6 H6. apply select_eff in H6 as (K6 & _ & D6 & _).
  apply announce_eff in H as (_ & Hx & Ha & _); [|by eapply in_tenant_kept].
  exists aid, now. unfold named_id. rewrite Es. split; [done|]. rewrite (Hend Hx), Ha, D6, D5. unfold with_agents. db_fields.
  by rewrite D4, D3.
Qed.

Lemma delete_agent_Ok agent_id w r w' :
  transaction (delete_agent t agent_id) w = (Ok r, w') -> status_code r = 204%Z ->
  exists aid, named_id (Admin._wire_id_to_uuid agent_id "agent_") = Some aid /\
    agents (w_base w') = List.filter (fun a => negb (is_agent aid a)) (agents (w_base w)).
Proof.
  intros H Hst. apply transaction_commits in H as (w1 & H & Hend). unfold delete_agent in H.
  apply try_value_Ok in H as [H|(s & Es & H)]; [apply ret_Ok in H as [-> _]; discriminate|].
  step H as u w3 H3. apply set_tenant_start in H3 as (T3 & B3 & D3 & _); [|done..].
  step H as aid w4 H4. apply bound_Ok in H4 as [Haid ->]. rewrite (bound_str t), bind_ret in H by done.
  step H as n w4 H4. apply delete_restricted_eff in H4 as (K4 & _ & pol & Hp & D4 & _).
  rewrite (it_policy _ _ T3) in Hp. apply Ok_inj in Hp. subst pol.
  apply announce_eff in H as (_ & Hx & Ha & _); [|by eapply in_tenant_kept].
  exists aid. unfold named_id. rewrite Es. split; [done|]. rewrite (Hend Hx), Ha, D4. unfold delete_db. db_fields. rewrite D3.
  change (w_db (begin w)) with (w_base w). apply filter_ext. intros a. f_equal. unfold is_agent. cbn [sees tb_tenant agents_t].
  destruct (N.eqb (a_tenant_id a) t); [done|by rewrite andb_false_r].
Qed.
End Effects.

(** ** The validation of issued keys *)

Section Accepted.
Context `{E : Env} `{V : Vault} `{Sha : Sha256} `{Arg : Argon2}.
Context (pg_nil : pg_uuid_in nil_uuid_text = Some 0%N).

Lemma validated_holder k w r w' : transaction (validate_agent_key k) w = (Ok r, w') -> status_code r = 200%Z ->
  exists a n, key_holder (w_base w) k = Some a /\ argon2_verify n (a_api_key_hash a) k = Verified /\
    a_status a = "active" /\ r = valid_key a.
Proof.
  intros H Hst. destruct (validate_exact pg_nil k w r w' H) as (n & m & Hr). cbn zeta in Hr. subst r.
  destruct (key_holder (w_base w) k) as [a|] eqn:Ek; [|discriminate]. cbn [row_verdict key_answer] in *.
  destruct (argon2_verify n _ _) eqn:Ev; [|discriminate..]. destruct (String.eqb_spec (a_status a) "active"); [|discriminate].
  exists a, n. do 3 (split; [done|]). destruct (a_api_key_expires_at a) as [e0|]; [|done].
  destruct (_ <? _)%Z; [discriminate|done].
Qed.

Lemma validated_row k w r w' : transaction (validate_agent_key k) w = (Ok r, w') -> status_code r = 200%Z ->
  exists a n, In a (agents (w_base w)) /\ a_api_key_fingerprint a = _fingerprint k /\
    argon2_verify n (a_api_key_hash a) k = Verified /\ a_status a = "active" /\ r = valid_key a.
Proof.
  intros H Hst. destruct (validated_holder k w r w' H Hst) as (a & n & Ek & Hver & Hact & ->). unfold key_holder in Ek.
  apply List.find_some in Ek as [Hin Hfp]. apply String.eqb_eq in Hfp. by exists a, n.
Qed.

(** A faultless run of the validation of a key that is in force. *)
Lemma validate_run k a w : no_faults -> key_holder (w_base w) k = Some a ->
  (forall n, argon2_verify n (a_api_key_hash a) k = Verified) -> a_status a = "active" ->
  (forall e n, a_api_key_expires_at a = Some e -> (env_now n <= e)%Z) ->
  exists w', transaction (validate_agent_key k) w = (Ok (valid_key a), w').
Proof.
  intros Hnf Hk Hv Hs He. unfold transaction, validate_agent_key.
  erewrite bind_run; [|by apply execute_run].
  erewrite bind_run; [|apply select_run; [done|done|unfold policy; cbn; by rewrite pg_nil]].
  rewrite filter_all_seen. unfold fetchone. rewrite head_filter_find.
  change (List.find _ _) with (key_holder (w_base w) k). rewrite Hk.
  erewrite bind_run; [|reflexivity]. rewrite Hv, Hs, String.eqb_refl. cbn [negb].
  destruct (a_api_key_expires_at a) as [e0|] eqn:Ee.
  - erewrite bind_run; [|reflexivity]. rewrite (proj2 (Z.ltb_ge _ _)) by (by apply He).
    cbn [ret w_tx tick set_guc begin]. rewrite commit_run by done. by eexists.
  - cbn [ret w_tx tick set_guc begin]. rewrite commit_run by done. by eexists.
Qed.
End Accepted.

(** ** The life of a key *)

Section Laws.
Context `{E : Env} `{V : Vault} `{Sha : Sha256} `{Arg : Argon2}.
Context (pg_nil : pg_uuid_in nil_uuid_text = Some 0%N).
Context (t : uuid) (Ht : (t < uuid_limit)%N).
Implicit Types w : world.

(** The requests that issue a key, when they are accepted. *)
Definition issues (rq : agents_request) (r : response) : Prop :=
  match rq with
  | PostAgent _ => status_code r = 201%Z
  | PostRotateKey _ _ => status_code r = 200%Z
  | _ => False
  end.

(** The key a creation or a rotation returns is the agent's key.  The answer carries a plaintext [k],
    and one committed agent of the tenant holds it: its fingerprint is the one of [k] and its hash an
    Argon2id hash of [k].  From then on, as long as the agents are as this request left them, [k] is
    validated as this agent: without failures of the database, when no other agent has the same
    64-bit fingerprint, the agent is active, the expiry is not past and Argon2 does not break down. *)
Theorem issued_key_accepted rq w r w' :
  List.NoDup (map a_id (agents (w_base w))) ->
  transaction (agents_handler t rq) w = (Ok r, w') -> issues rq r ->
  exists a k, In a (agents (w_base w')) /\ a_tenant_id a = t /\ holds_key k a /\
    response_field "api_key" r = Some (JStr k) /\
    forall w1, agents (w_base w1) = agents (w_base w') -> no_faults ->
      (forall n h s, argon2_verify n h s <> Unavailable) ->
      (forall b, In b (agents (w_base w')) -> a_api_key_fingerprint b = a_api_key_fingerprint a -> b = a) ->
      a_status a = "active" -> (forall e n, a_api_key_expires_at a = Some e -> (env_now n <= e)%Z) ->
      exists w1', transaction (validate_agent_key k) w1 = (Ok (valid_key a), w1').
Proof.
  intros Hnd H Hi.
  assert (Hex : exists a k, In a (agents (w_base w')) /\ a_tenant_id a = t /\ holds_key k a /\
    response_field "api_key" r = Some (JStr k)).
  { destruct rq as [body| | | |agent_id e| |]; try done; cbn [agents_handler issues] in *.
    - destruct (create_Ok t Ht body w r w' H Hi) as (a & k & Ea & Er & Hk & Hten & _).
      exists a, k. rewrite Ea. split; [apply in_or_app; right; by left|done].
    - destruct (rotate_Ok t Ht agent_id e w r w' H Hi) as (aid & row & k & h & now & expires & _ & Hf & Er & _ & Hh & Ea).
      apply find_is_agent in Hf as (Hin & <- & Hten).
      exists (set_key h (_fingerprint k) (a_api_key_version row + 1) now expires row), k. rewrite Ea.
      split; [apply in_map_iff; exists row; by rewrite is_agent_true|]. done. }
  destruct Hex as (a & k & Hin & Hten & [Hfp [n Hh]] & Hr). exists a, k. do 2 (split; [done|]).
  split; [by split; [|exists n]|]. split; [done|]. intros w1 Hw1 Hnf Hav Huniq Hact Hexp. apply validate_run; try done.
  - unfold key_holder. rewrite Hw1. destruct (List.find _ _) as [b|] eqn:Eb.
    + apply List.find_some in Eb as [Hb Hbf]. apply String.eqb_eq in Hbf. f_equal. apply Huniq; [done|]. by rewrite Hfp.
    + exfalso. apply (List.find_none _ _ Eb) in Hin. by rewrite Hfp, String.eqb_refl in Hin.
  - intros m. rewrite Hh. pose proof (argon2_verify_hash DefaultParams n m k). specialize (Hav m (argon2_hash DefaultParams n k) k).
    tauto.
Qed.

(** C19: A rotation replaces the key.  After it, whatever key is validated as the agent, in any later state
    with these agents, has the fingerprint of the new key and is accepted by Argon2 for the hash of
    the new key: the replaced key is refused at once, unless it collides with the new one in both.
    The rotation counts the version up and changes nothing else of the other agents. *)
Theorem rotation_replaces_key agent_id expires_in w r w' aid :
  List.NoDup (map a_id (agents (w_base w))) ->
  transaction (agents_handler t (PostRotateKey agent_id expires_in)) w = (Ok r, w') -> status_code r = 200%Z ->
  named_id (Admin._wire_id_to_uuid agent_id "agent_") = Some aid ->
  exists row k n now expires,
    List.find (is_agent t aid) (agents (w_base w)) = Some row /\ response_field "api_key" r = Some (JStr k) /\
    rotated_expiry expires_in row now = Ok expires /\
    agents (w_base w') = map (fun a => if N.eqb (a_id a) aid
      then set_key (argon2_hash DefaultParams n k) (_fingerprint k) (a_api_key_version row + 1) now expires a else a)
      (agents (w_base w)) /\
    forall w1 k' r1 w1', agents (w_base w1) = agents (w_base w') ->
      transaction (validate_agent_key k') w1 = (Ok r1, w1') -> status_code r1 = 200%Z ->
      exists a, In a (agents (w_base w1)) /\ r1 = valid_key a /\
        (a_id a = aid -> _fingerprint k' = _fingerprint k /\
           exists m, argon2_verify m (argon2_hash DefaultParams n k) k' = Verified).
Proof.
  intros Hnd H Hst Hn. cbn [agents_handler] in H.
  destruct (rotate_Ok t Ht agent_id expires_in w r w' H Hst) as (aid' & row & k & h & now & expires & Hn' & Hf & Er & He & [n ->] & Ea).
  rewrite Hn in Hn'. apply Some_inj in Hn'. subst aid'. exists row, k, n, now, expires.
  pose proof (find_is_agent t aid _ _ Hf) as (Hin & Hid & Hten).
  assert (Ha : forall a, In a (agents (w_base w)) -> is_agent t aid a = N.eqb (a_id a) aid).
  { intros a Hina. unfold is_agent. destruct (N.eqb_spec (a_id a) aid) as [Eid|]; [|done].
    assert (a = row) as -> by (apply (NoDup_key_unique a_id (agents (w_base w))); [done..|congruence]).
    by rewrite Hten, N.eqb_refl. }
  do 3 (split; [done|]). split.
  { rewrite Ea. apply map_ext_in. intros a Hina. by rewrite Ha. }
  intros w1 k' r1 w1' Hw1 Hv Hs1. destruct (validated_row pg_nil k' w1 r1 w1' Hv Hs1) as (a & m & Hina & Hfp & Hver & _ & ->).
  exists a. split; [done|]. split; [done|]. intros Hida. rewrite Hw1, Ea in Hina. apply in_map_iff in Hina as (b & Eb & Hb).
  rewrite Ha in Eb by done. destruct (N.eqb_spec (a_id b) aid) as [Eid|Hne].
  - subst a. cbn [set_key a_api_key_fingerprint a_api_key_hash] in *. split; [done|]. by exists m.
  - subst a. done.
Qed.

(** The requests that end an agent's access, when they are accepted. *)
Definition ends_access (rq : agents_request) (agent_id : string) (r : response) : Prop :=
  (rq = PostRevokeAgent agent_id /\ status_code r = 200%Z) \/ (rq = DeleteAgent agent_id /\ status_code r = 204%Z).

(** With these agents no key whatever is validated as the agent [aid]. *)
Definition locked_out (l : list agent_row) (aid : uuid) : Prop := forall w1 k r1 w1',
  agents (w_base w1) = l -> transaction (validate_agent_key k) w1 = (Ok r1, w1') -> status_code r1 = 200%Z ->
  exists a, In a l /\ a_id a <> aid /\ r1 = valid_key a.

(** C20: A revoked or deleted agent is locked out.  After an accepted revocation or deletion, in any later
    state with the agents as it left them, no key whatever is validated as that agent. *)
Theorem ended_agent_locked_out rq agent_id w r w' aid a0 :
  List.NoDup (map a_id (agents (w_base w))) -> In a0 (agents (w_base w)) -> a_id a0 = aid -> a_tenant_id a0 = t ->
  transaction (agents_handler t rq) w = (Ok r, w') -> ends_access rq agent_id r ->
  named_id (Admin._wire_id_to_uuid agent_id "agent_") = Some aid ->
  locked_out (agents (w_base w')) aid.
Proof.
  intros Hnd Hin0 Hid0 Hten0 H He Hn w1 k r1 w1' Hw1 Hv Hs1.
  destruct (validated_row pg_nil k w1 r1 w1' Hv Hs1) as (a & m & Hina & _ & _ & Hact & ->). rewrite Hw1 in Hina.
  exists a. split; [done|]. split; [|done]. intros Hida.
  assert (Hone : forall b, In b (agents (w_base w)) -> a_id b = aid -> is_agent t aid b = true).
  { intros b Hb Hidb. assert (b = a0) as -> by (apply (NoDup_key_unique a_id (agents (w_base w))); [done..|congruence]).
    unfold is_agent. by rewrite Hid0, Hten0, !N.eqb_refl. }
  destruct He as [[-> Hst]|[-> Hst]]; cbn [agents_handler] in H.
  - destruct (revoke_agent_Ok t Ht agent_id w r w' H Hst) as (aid' & now & Hn' & Ea).
    rewrite Hn in Hn'. apply Some_inj in Hn'. subst aid'. rewrite Ea in Hina. apply in_map_iff in Hina as (b & Eb & Hb).
    destruct (is_agent t aid b) eqn:Ei; subst a; [discriminate|]. by rewrite Hone in Ei.
  - destruct (delete_agent_Ok t Ht agent_id w r w' H Hst) as (aid' & Hn' & Ea).
    rewrite Hn in Hn'. apply Some_inj in Hn'. subst aid'. rewrite Ea in Hina. apply filter_In in Hina as [Hb Hne].
    by rewrite Hone in Hne.
Qed.
End Laws.

Section Witnesses.
#[local] Existing Instance demo_env.
#[local] Existing Instance demo_vault.
#[local] Existing Instance toy_sha256.
#[local] Existing Instance demo_argon2.

Definition demo_agent_body : AgentCreate := MkAgentCreate "delta" None (Some 10%Z) None.
Abbreviation demo_create := (transaction (agents_handler 1 (PostAgent demo_agent_body))).
Abbreviation demo_rotate := (transaction (agents_handler 1 (PostRotateKey (wire 6 "agent") (Some "30d")))).
Abbreviation demo_revoke := (transaction (agents_handler 1 (PostRevokeAgent (wire 6 "agent")))).

Lemma demo_agents_distinct : List.NoDup (map a_id (agents demo_db)).
Proof. apply NoDup_ListNoDup, (bool_decide_unpack _). reflexivity. Qed.

Lemma demo_available : forall n h s, argon2_verify n h s <> Unavailable.
Proof. intros n h s. cbn [argon2_verify demo_argon2]. by destruct (String.eqb _ _). Qed.

Lemma demo_named_6 : named_id (Admin._wire_id_to_uuid (wire 6 "agent") "agent_") = Some 6%N.
Proof. vm_compute. reflexivity. Qed.

(** The agents after the creation. *)
Lemma demo_created_agents : exists x, agents (w_base (snd (demo_create demo_world))) = (agents demo_db ++ [x])%list /\
  a_api_key_fingerprint x <> "fingerprint" /\ a_status x = "active" /\ a_api_key_expires_at x = None.
Proof. eexists. split; [vm_compute; reflexivity|]. split; [discriminate|done]. Qed.

Lemma demo_agents_old b : In b (agents demo_db) -> a_api_key_fingerprint b = "fingerprint" /\ a_api_key_hash b = "hash".
Proof. intros [<-|[<-|[<-|[]]]]; split; reflexivity. Qed.

(** The only agent that holds a key is the new one. *)
Lemma demo_created_holder k a : In a (agents (w_base (snd (demo_create demo_world)))) -> holds_key k a ->
  a_status a = "active" /\ a_api_key_expires_at a = None /\
  forall b, In b (agents (w_base (snd (demo_create demo_world)))) -> a_api_key_fingerprint b = a_api_key_fingerprint a -> b = a.
Proof.
  destruct demo_created_agents as (x & Ex & Hfp & Hs & He). rewrite Ex. intros Hin [_ [n Hn]].
  assert (a = x) as ->.
  { apply in_app_or in Hin as [Hin|[<-|[]]]; [exfalso|done]. apply demo_agents_old in Hin as [_ Hh]. rewrite Hn in Hh. discriminate. }
  do 2 (split; [done|]). intros b Hb Hf. apply in_app_or in Hb as [Hb|[<-|[]]]; [exfalso|done].
  apply demo_agents_old in Hb as [Hb _]. congruence.
Qed.

Lemma issued_key_accepted_witness :
  exists a k w1', holds_key k a /\ transaction (validate_agent_key k) (snd (demo_create demo_world)) = (Ok (valid_key a), w1').
Proof.
  destruct (run_returns demo_create (fun r => Z.eqb (status_code r) 201) demo_world) as (r & Hr & Hrun); [vm_compute; reflexivity|].
  apply Z.eqb_eq in Hr.
  destruct (issued_key_accepted demo_nil 1 eq_refl (PostAgent demo_agent_body) demo_world r _ demo_agents_distinct Hrun Hr)
    as (a & k & Hin & _ & Hk & _ & H). exists a, k.
  destruct (demo_created_holder k a Hin Hk) as (Hs & He & Hone).
  destruct (H (snd (demo_create demo_world)) eq_refl demo_no_faults demo_available Hone Hs) as (w1' & Hw).
  - intros e n Hen. rewrite He in Hen. discriminate Hen.
  - exists w1'. split; [exact Hk|exact Hw].
Defined.

Lemma rotation_replaces_key_witness :
  exists row k n now expires,
    List.find (is_agent 1 6) (agents demo_db) = Some row /\ rotated_expiry (Some "30d") row now = Ok expires /\
    agents (w_base (snd (demo_rotate demo_world))) = map (fun a => if N.eqb (a_id a) 6
      then set_key (argon2_hash DefaultParams n k) (_fingerprint k) (a_api_key_version row + 1) now expires a else a)
      (agents demo_db).
Proof.
  destruct (run_returns demo_rotate (fun r => Z.eqb (status_code r) 200) demo_world) as (r & Hr & Hrun); [vm_compute; reflexivity|].
  apply Z.eqb_eq in Hr.
  destruct (rotation_replaces_key demo_nil 1 eq_refl (wire 6 "agent") (Some "30d") demo_world r _ 6 demo_agents_distinct Hrun Hr
    demo_named_6) as (row & k & n & now & expires & H1 & _ & H2 & H3 & _).
  exists row, k, n, now, expires. split; [exact H1|]. split; [exact H2|exact H3].
Defined.

Lemma ended_agent_locked_out_witness :
  w_base (snd (demo_revoke demo_world)) <> demo_db /\ locked_out (agents (w_base (snd (demo_revoke demo_world)))) 6.
Proof.
  destruct (run_returns demo_revoke (fun r => Z.eqb (status_code r) 200) demo_world) as (r & Hr & Hrun); [vm_compute; reflexivity|].
  apply Z.eqb_eq in Hr.
  split; [intros Hd; apply (f_equal (fun d => length (audit_events d))) in Hd; revert Hd; vm_compute; discriminate|].
  exact (ended_agent_locked_out demo_nil 1 eq_refl (PostRevokeAgent (wire 6 "agent")) (wire 6 "agent") demo_world r _ 6
    (demo_agent 6 "alpha") demo_agents_distinct (or_introl eq_refl) eq_refl eq_refl Hrun (or_introl (conj eq_refl Hr)) demo_named_6).
Defined.
End Witnesses.
