(* ===== verification/Budgets.v ===== *)
(** * Budget status and reset (admin_api/api/budgets.py, budget_consumers.py)

    The endpoints that show and restart the counter of the current period,
    and the listing of the consumers of a tenant. *)

From S2P Require Import Prelude PyStr PyJson PyJsonFacts PyTime Periods PyFloat PyText WireIds AuditHash AuditChain Constraints.
From S2P Require Import Vault Tables Database Logic PublicUrls Sessions AuditEmit AgentSecrets Permissions.

Local Open Scope string_scope.
Local Open Scope py_scope.

Section Budgets.
Context `{E : Env} `{V : Vault} `{Sha : Sha256}.

Definition budget_not_found : response := problem 404 "not_found" "Permission grant not found".
Definition no_budget : response := problem 404 "no_budget" "No budget configured for this grant".

(** [WHERE permission_id = .. AND period_start <= :now AND period_end > :now ORDER BY period_start DESC LIMIT 1] *)
Definition covers (now : Z) (b : counter_row) : bool :=
  (Z.leb (b_period_start b) now && Z.ltb now (b_period_end b))%bool.
Definition current_counter (perm_db_id : string) (now : Z) : M (option counter_row) :=
  let! pid := bound perm_db_id in
  let! rows := select budget_counters_t (fun b => N.eqb (b_permission_id b) pid && covers now b) in
  ret (fetchone (latest_first rows)).

(** The grant's budget configuration, or the answer when there is none. *)
Definition with_budget (tenant_id : uuid) (perm_db_id : string) (k : json -> M response) : M response :=
  let! row := grant_by_id perm_db_id tenant_id in
  match row with
  | None => ret budget_not_found
  | Some row =>
      let! constraints := lift (parse_constraints (JObj []) (from_jsonb (g_constraints row))) in
      let! budget_cfg := lift (json_get "budget" JNull constraints) in
      if truthy budget_cfg then k budget_cfg else ret no_budget
  end.

Definition thresholds_of (budget_cfg : json) : outcome json :=
  json_get "alert_thresholds" (JArr (map JInt default_thresholds)) budget_cfg.

(** [max(0, ceiling - used)] *)
Definition remaining_of (ceiling : json) (used : Z) : outcome Z :=
  c ← py_int ceiling; Ok (Z.max 0 (c - used)).

Definition get_budget_status (tenant_id : uuid) (agent_id permission_id : string) : M response :=
  let! perm_db_id := lift (Admin.wire_to_db_uuid permission_id "perm") in
  do! set_tenant_context (uuid_str tenant_id) false in
  with_budget tenant_id perm_db_id (fun budget_cfg =>
  let! now := now_utc in
  let! counter_row := current_counter perm_db_id now in
  let! x := lift (match counter_row with
                  | Some c => Ok (JInt (b_ceiling c), b_used c, b_period_start c, b_period_end c)
                  | None => ceiling ← json_item "ceiling" budget_cfg;
                            period ← json_item "period" budget_cfg;
                            '(ps, pe) ← bounds_of period now;
                            Ok (ceiling, 0%Z, ps, pe)
                  end) in
  let '(ceiling, used, period_start, period_end) := x in
  let! remaining := lift (remaining_of ceiling used) in
  let! alert_thresholds := lift (thresholds_of budget_cfg) in
  let! period := lift (json_item "period" budget_cfg) in
  ret (JSONResponse 200
    [("ceiling", ceiling); ("period", period); ("used", JInt used); ("remaining", JInt remaining);
     ("period_start", JStr (isoformat_utc period_start)); ("period_end", JStr (isoformat_utc period_end));
     ("alert_thresholds", alert_thresholds)])).

Definition reset_budget (tenant_id : uuid) (agent_id permission_id : string) : M response :=
  let! perm_db_id := lift (Admin.wire_to_db_uuid permission_id "perm") in
  do! set_tenant_context (uuid_str tenant_id) false in
  with_budget tenant_id perm_db_id (fun budget_cfg =>
  let! now := now_utc in
  let! current_row := current_counter perm_db_id now in
  let previous_used := match current_row with Some c => b_used c | None => 0%Z end in
  let! previous_ceiling := lift (match current_row with
                                 | Some c => Ok (JInt (b_ceiling c))
                                 | None => json_item "ceiling" budget_cfg
                                 end) in
  let! period := lift (json_item "period" budget_cfg) in
  let! b := lift (bounds_of period now) in
  let '(_, period_end) := b in
  let! ceiling := lift (json_item "ceiling" budget_cfg) in
  do! upsert_counter perm_db_id now period_end ceiling tenant_id (restart_counter period_end) in
  let! perm_uuid := lift (UUID perm_db_id) in
  do! audit_emit tenant_id "budget.reset" None "operator" (Some (VUUID perm_uuid)) (Some "permission")
    [("permission_id", JStr permission_id); ("previous_used", JInt previous_used);
     ("previous_ceiling", previous_ceiling); ("new_period_start", JStr (isoformat_utc now))] in
  do! notify_change "mintkey:agent"
    [("event_type", JStr "budget.config_updated"); ("tenant_id", JStr (uuid_str tenant_id));
     ("target_id", JStr permission_id);
     ("payload", JObj [("ceiling", ceiling); ("period", period); ("reset", JBool true)]);
     ("at", JStr (isoformat_utc now))] in
  let! alert_thresholds := lift (thresholds_of budget_cfg) in
  ret (JSONResponse 200
    [("ceiling", ceiling); ("period", period); ("used", JInt 0); ("remaining", ceiling);
     ("period_start", JStr (isoformat_utc now)); ("period_end", JStr (isoformat_utc period_end));
     ("alert_thresholds", alert_thresholds)])).

(** ** The consumers *)

(** [j->>k] of a jsonb value, for the scalars *)
Definition json_text (k : string) (j : json) : option string :=
  match j with
  | JObj d => match dict_get k d with
              | Some (JStr s) => Some s
              | Some (JInt z) => Some (py_str_int z)
              | Some (JBool b) => Some (if b then "true" else "false")
              | Some (JArr l) => Some (dumps (JArr l))
              | Some (JObj o) => Some (dumps (JObj o))
              | _ => None
              end
  | _ => None
  end.
(** [j->k] *)
Definition json_field (k : string) (j : json) : json :=
  match j with JObj d => default JNull (dict_get k d) | _ => JNull end.

(** [text::int] *)
Definition pg_int (s : option string) : outcome (option Z) :=
  match s with
  | None => Ok None
  | Some s => match py_int10 s with
              | Some z => if ((- 2 ^ 31 <=? z) && (z <? 2 ^ 31))%Z then Ok (Some z)
                          else Raise (DBError "value out of range for type integer")
              | None => Raise (DBError "invalid input syntax for type integer")
              end
  end.

Record consumer := Consumer {
  u_grant : grant_row; u_agent : agent_row; u_service : service_row; u_ceiling : option Z; u_period : option string;
  u_counter : option counter_row; u_requests_last_30_min : Z }.

(** Issued tokens of the grant in the last half hour. *)
Definition recent_requests (tid : uuid) (now : Z) (g : grant_row) (events : list audit_row) : Z :=
  Z.of_nat (length (List.filter (fun e =>
    String.eqb (e_event_type e) "token.issued"
    && match json_text "permission_id" (e_payload e) with Some s => String.eqb s (uuid_str (g_id g)) | None => false end
    && Z.ltb (now - 30 * us_per_minute) (e_at e) && N.eqb (e_tenant_id e) tid)%bool events)).

(** One grant joined with its agent, its service and the counters of the instant. *)
Definition consumers_of (pol : uuid -> bool) (d : db) (tid : uuid) (now : Z) (g : grant_row) : outcome (list consumer) :=
  ceiling ← pg_int (json_text "ceiling" (json_field "budget" (g_constraints g)));
  let period := json_text "period" (json_field "budget" (g_constraints g)) in
  let counters := List.filter (fun b => N.eqb (b_permission_id b) (g_id g)
    && (Z.leb (b_period_start b) now && Z.leb now (b_period_end b)))%bool (visible budget_counters_t pol d) in
  let left := match counters with [] => [None] | _ => map Some counters end in
  let recent := recent_requests tid now g (visible audit_events_t pol d) in
  Ok (flat_map (fun a => flat_map (fun s => map (fun c => Consumer g a s ceiling period c recent) left)
        (List.filter (fun s => N.eqb (s_id s) (g_service_id g) && N.eqb (s_tenant_id s) tid)%bool (visible services_t pol d)))
      (List.filter (fun a => N.eqb (a_id a) (g_agent_id g) && N.eqb (a_tenant_id a) tid)%bool (visible agents_t pol d))).

(** The ORDER BY: exhausted first, then by consumption, largest first, unknown last. *)
Definition u_used (u : consumer) : Z := match u_counter u with Some c => b_used c | None => 0 end.
Definition exhausted (u : consumer) : bool := Z.leb (default 2147483647%Z (u_ceiling u)) (u_used u).
Definition consumption (u : consumer) : option QArith_base.Q :=
  match u_ceiling u with
  | Some c => if Z.eqb c 0 then None
              else Some (rnd (QArith_base.Qdiv (QArith_base.inject_Z (u_used u)) (QArith_base.inject_Z c)))
  | None => None
  end.
Definition consumer_leb (x y : consumer) : bool :=
  match exhausted x, exhausted y with
  | true, false => true
  | false, true => false
  | _, _ => match consumption x, consumption y with
            | Some p, Some q => QArith_base.Qle_bool q p
            | Some _, None => true
            | None, Some _ => false
            | None, None => true
            end
  end.

(** [round((used / ceiling) * 100)] *)
Definition consumption_percentage (u : consumer) : outcome json :=
  match u_ceiling u, u_counter u with
  | Some ceiling, Some c =>
      if (0 <? ceiling)%Z then
        q ← int_truediv (b_used c) ceiling;
        Ok (JInt (rne (float_mul q (QArith_base.inject_Z 100))))
      else Ok JNull
  | _, _ => Ok JNull
  end.

Definition consumer_json (u : consumer) : outcome json :=
  percentage ← consumption_percentage u;
  Ok (JObj [("permission_id", JStr (uuid_str (g_id (u_grant u)))); ("agent_id", JStr (uuid_str (a_id (u_agent u))));
    ("agent_name", JStr (a_name (u_agent u))); ("service_id", JStr (uuid_str (s_id (u_service u))));
    ("service_name", JStr (s_name (u_service u))); ("consumption_percentage", percentage);
    ("used", json_opt (fun c => JInt (b_used c)) (u_counter u)); ("ceiling", json_opt JInt (u_ceiling u));
    ("period", json_opt JStr (u_period u));
    ("period_start", json_opt (fun c => JStr (isoformat_utc (b_period_start c))) (u_counter u));
    ("period_end", json_opt (fun c => JStr (isoformat_utc (b_period_end c))) (u_counter u));
    ("requests_last_30_min", JInt (u_requests_last_30_min u))]).

Definition list_budget_consumers (tenant_id : uuid) : M response :=
  do! set_tenant_context (uuid_str tenant_id) false in
  let! tid := bound (uuid_str tenant_id) in
  let! now := now_utc in
  let! rows := execute (fun w =>
    pol ← policy w;
    rows ← mapM_out (consumers_of pol (w_db w) tid now)
      (List.filter (fun g => N.eqb (g_tenant_id g) tid) (visible permission_grants_t pol (w_db w)));
    Ok (rows, w)) in
  let! records := lift (mapM_out consumer_json (sort_by consumer_leb (concat rows))) in
  ret (Response 200 (JArr records)).
End Budgets.

(** ** The routers *)

Section Router.
Context `{E : Env} `{V : Vault} `{Sha : Sha256} `{X : ExcText}.

Inductive permission_request :=
  | ListAgentPermissions (agent_id : string) (service_id : option string)
  | ListTenantPermissions (service_id agent_id q : option string)
  | GetPermissionBudget (permission_id : string)
  | GetPermission (permission_id : string)
  | PostPermission (agent_id : string) (body : PermissionGrantRequest)
  | DeletePermission (agent_id permission_id : string)
  | PatchPermission (agent_id permission_id : string) (body : Constraints)
  | PostCounterReset (agent_id permission_id : string)
  | GetBudget (agent_id permission_id : string)
  | PostBudgetReset (agent_id permission_id : string)
  | GetBudgetConsumers.

Definition permissions_handler tenant_id (rq : permission_request) : M response :=
  match rq with
  | ListAgentPermissions agent_id service_id => list_permissions tenant_id agent_id service_id
  | ListTenantPermissions service_id agent_id q => list_tenant_permissions tenant_id service_id agent_id q
  | GetPermissionBudget permission_id => get_permission_budget tenant_id permission_id
  | GetPermission permission_id => get_permission tenant_id permission_id
  | PostPermission agent_id body => grant_permission tenant_id agent_id body
  | DeletePermission agent_id permission_id => revoke_permission tenant_id agent_id permission_id
  | PatchPermission agent_id permission_id body => update_permission tenant_id agent_id permission_id body
  | PostCounterReset agent_id permission_id => reset_budget_counter tenant_id agent_id permission_id
  | GetBudget agent_id permission_id => get_budget_status tenant_id agent_id permission_id
  | PostBudgetReset agent_id permission_id => reset_budget tenant_id agent_id permission_id
  | GetBudgetConsumers => list_budget_consumers tenant_id
  end.

(** Endpoints that depend on [require_tenant_session]. *)
Definition requires_session (rq : permission_request) : bool :=
  match rq with
  | ListAgentPermissions _ _ | ListTenantPermissions _ _ _ | PostPermission _ _ | DeletePermission _ _ => true
  | _ => false
  end.

(** A request with its dependencies. *)
Definition permissions_router (cookie : option string) tenant_id (rq : permission_request) : M response :=
  do! (if requires_session rq then require_tenant_session cookie tenant_id else ret tt) in
  transaction (permissions_handler tenant_id rq).
End Router.
