(* ===== verification/RequestToken.v ===== *)
(** * The token request (mcp_server/tools/request_token.py)

    The MCP tool by which an agent obtains a short-lived token for a service
    it was granted: resolution of the service, the grant, the constraints
    evaluated here, and the call of the broker.  The limiter and the calls
    made live in the process part of the world.  Characters beyond Latin-1
    of constant hint texts are written as their \u escapes. *)

From S2P Require Import Prelude PyStr PyJson PyJsonFacts PyTime WireIds AuditHash AuditChain PyText Constraints.
From S2P Require Import Vault Tables Database Logic PublicUrls Resolve Demo AuditEmit AgentSecrets SecretTools.

Local Open Scope string_scope.
Local Open Scope py_scope.

Record TokenRequest := MkTokenRequest {
  tr_service_id : string; tr_action : string;
  tr_methods : option (list string); tr_path_prefix : option string }.

Definition _SSH_AUTH_SCHEMES : list string := ["ssh_private_key"; "ssh_password"; "ssh_ca"].

Definition _denial_hint (reason agent_id service_id action : string) : option string :=
  if String.eqb reason "permission_not_found" then
    Some ("No permission grant exists for this (agent, service, action) triple. "
      +:+ "Ask the operator to grant '" +:+ action +:+ "' on service '" +:+ service_id +:+ "' to agent "
      +:+ "'" +:+ agent_id +:+ "'. Operators do this in the admin UI under Permissions > New.")
  else if String.eqb reason "constraint_failed:rate_limit" then
    Some ("Rate limit exceeded for this grant. Back off and retry; check "
      +:+ "describe_service.your_constraints.rate_limit for the cap.")
  else if String.eqb reason "constraint_failed:time_window" then
    Some ("Current time is outside the time_window constraint on this grant. "
      +:+ "Check describe_service.your_constraints.time_window for allowed hours/days.")
  else None.

Definition _scope_claims_http_only : response :=
  JSONResponse 400
    [("code", JStr "mintkey:validation_failed"); ("reason_code", JStr "scope_claims_http_only");
     ("hint", JStr ("methods and path_prefix apply to HTTP services only; "
                    +:+ "omit them for SSH and email services."))].

Definition service_not_found (service_id_input : string) : response :=
  JSONResponse 404
    [("code", JStr "mintkey:not_found"); ("reason_code", JStr "service_not_found");
     ("service_id_input", JStr service_id_input);
     ("hint", JStr ("Use the 'id' field from list_services (e.g., 'svc_\u2026') "
                    +:+ "or the service slug ('github'). Slugs are case-sensitive."))].

(** The 403 body of a denial. *)
Definition not_authorized (reason agent_id service_id action : string) (hint : option string) : response :=
  JSONResponse 403
    ([("code", JStr "mintkey:not_authorized"); ("reason_code", JStr reason); ("agent_id", JStr agent_id);
      ("service_id", JStr service_id); ("action", JStr action)]
     ++ match hint with Some h => [("hint", JStr h)] | None => [] end)%list.

Definition broker_error : response := code_title 502 "mintkey:broker_error" "Broker unavailable".

Definition denial_payload (agent_id service_id action reason_code : string) (hint : option string) : dict :=
  ([("agent_id", JStr agent_id); ("service_id", JStr service_id); ("action", JStr action);
    ("reason_code", JStr reason_code)]
   ++ match hint with Some h => [("remediation_hint", JStr h)] | None => [] end)%list.

Section RequestToken.
Context `{E : Env} `{V : Vault} `{Sha : Sha256}.

Definition _emit_denial (tenant_id agent_id service_id action reason_code : string) (hint : option string) : M unit :=
  let! tid := lift (UUID tenant_id) in
  audit_emit tid "token.denied" None "agent" None (Some "service")
    (denial_payload agent_id service_id action reason_code hint).

(** The emission and answer of a denial with a known reason. *)
Definition deny (tenant_id agent_id wire_service_id action reason : string) : M response :=
  let hint := _denial_hint reason agent_id wire_service_id action in
  do! _emit_denial tenant_id agent_id wire_service_id action reason hint in
  ret (not_authorized reason agent_id wire_service_id action hint).

(** [evaluate_rate_limit(_rate_limiter, key, rate_limit)] on the process's limiter. *)
Definition check_rate_limit (key : string) (constraint : json) : M (bool * string) :=
  let! now := time_time in
  fun w => match evaluate_rate_limit now (p_limiter (w_proc w)) key constraint with
           | Ok (r, limiter) => (Ok r, set_proc (set_limiter limiter (w_proc w)) w)
           | Raise e => (Raise e, w)
           end.

Definition check_time_window (constraint : json) : M (bool * string) :=
  let! now := now_utc in
  lift (@evaluate_time_window env_zone now constraint).

(** [resp.json()] *)
Definition response_json (body : option json) : outcome json :=
  match body with Some j => Ok j | None => Raise (ValueError "JSONDecodeError") end.

Definition broker_url : string := getenv "BROKER_BASE_URL" "http://broker:8083".

(** The headers of a call of the broker. *)
Definition service_token : list (string * string) :=
  [("X-Mintkey-Service-Token", getenv "MINTKEY_MCP_SERVICE_TOKEN" "")].

Definition broker_payload (agent_id service_id tenant_id : string) (body : TokenRequest) : dict :=
  ([("agent_id", JStr agent_id); ("service_id", JStr service_id); ("tenant_id", JStr tenant_id);
    ("scope", JStr (tr_action body)); ("ttl_seconds", JInt 600)]
   ++ match tr_methods body with Some m => [("methods", JArr (map JStr m))] | None => [] end
   ++ match tr_path_prefix body with Some p => [("path_prefix", JStr p)] | None => [] end)%list.

Definition email_payload (agent_id service_id tenant_id : string) : dict :=
  [("agent_id", JStr agent_id); ("service_id", JStr service_id); ("tenant_id", JStr tenant_id);
   ("scope", JStr "read:email send:email"); ("service_kind", JStr "email"); ("ttl_seconds", JInt 600)].

Definition email_hint (email_proxy_url wire_service_id : string) : string :=
  "Recommended path \u2014 call the MCP email tools (email_list_mailboxes, "
  +:+ "email_search_messages, email_fetch_message, email_send) on this "
  +:+ "MCP server; they take ?email_service_id=" +:+ wire_service_id +:+ " (alias: "
  +:+ "?service_id=...). Direct path \u2014 set 'Authorization: Bearer <token>' "
  +:+ "and call " +:+ email_proxy_url +:+ "/v1/email-proxy/* with "
  +:+ "?service_id=" +:+ wire_service_id +:+ ".".

Definition _handle_email_service_token (agent_id tenant_id db_service_id wire_service_id action : string) : M response :=
  let! aid := bound agent_id in
  let! esid := bound db_service_id in
  let! grants := select email_permission_grants_t (fun g =>
    N.eqb (eg_agent_id g) aid && N.eqb (eg_email_service_id g) esid) in
  match fetchone grants with
  | None =>
      let hint := "No email_permission_grant exists for this agent on email service "
        +:+ "'" +:+ wire_service_id +:+ "'. Ask the operator to add one in the admin UI under "
        +:+ "Email Permission Grants > New." in
      do! _emit_denial tenant_id agent_id wire_service_id action "permission_not_found" (Some hint) in
      ret (not_authorized "permission_not_found" agent_id wire_service_id action (Some hint))
  | Some _ =>
      let! resp := http_post (broker_url +:+ "/v1/issue") (JObj (email_payload agent_id db_service_id tenant_id)) service_token in
      let '(status_code, content) := resp in
      if negb (Z.eqb status_code 200) then ret broker_error
      else
        let! data := lift (response_json content) in
        let email_proxy_url := getenv "EMAIL_PROXY_BASE_URL" "http://email-proxy:8088" in
        let! token := lift (json_item "token" data) in
        let! expires_at := lift (json_item "expires_at" data) in
        ret (JSONResponse 200
          [("token", token); ("expires_at", expires_at); ("service_id", JStr wire_service_id);
           ("service_kind", JStr "email"); ("email_proxy_url", JStr email_proxy_url);
           ("hint", JStr (email_hint email_proxy_url wire_service_id))])
  end.

Definition ssh_connect (agent_id : string) : json :=
  let '(ext_host, ext_port) := resolve_ssh_proxy_public_host in
  JObj [("host", JStr "ssh-proxy"); ("port", JInt 2222); ("external_host", JStr ext_host);
        ("external_port", JInt ext_port); ("ssh_user", JStr agent_id); ("auth_method", JStr "password");
        ("password_is_jwt", JBool true);
        ("hint", JStr (
           "Connect: ssh -p " +:+ py_str_int ext_port +:+ " "
           +:+ "-o PreferredAuthentications=password -o PubkeyAuthentication=no "
           +:+ agent_id +:+ "@" +:+ ext_host +:+ ". "
           +:+ "SSH username MUST be exactly '" +:+ agent_id +:+ "' (the ssh_user value shown "
           +:+ "above), used verbatim \u2014 do NOT substitute a service, target, or other "
           +:+ "user. SSH password is THIS response's 'token' value (a short-lived JWT) "
           +:+ "\u2014 NOT your mk_agent MCP key and NOT the 'Bearer mk_agent...' string. "
           +:+ "The token is fresh per request (~10-min TTL, single-use); call "
           +:+ "request_token again to get a new one."))].

Definition is_some {A} (o : option A) : bool := match o with Some _ => true | None => false end.

(** The title of a 400 of the broker. *)
Definition broker_title (content : option json) : json :=
  match content with
  | Some (JObj d) => let title := default JNull (dict_get "title" d) in
                     if truthy title then title else JStr "Invalid token request"
  | _ => JStr "Invalid token request"
  end.

(** Steps 4 to 6: the transport, the broker and the answer. *)
Definition issue (agent_id tenant_id db_service_id wire_service_id : string) (body : TokenRequest) : M response :=
  let! sid := bound db_service_id in
  let! svc := select services_t (fun s => N.eqb (s_id s) sid) in
  let svc_auth_scheme := match fetchone svc with Some row => s_auth_scheme row | None => "" end in
  let is_ssh := existsb (String.eqb svc_auth_scheme) _SSH_AUTH_SCHEMES in
  if is_ssh && (is_some (tr_methods body) || is_some (tr_path_prefix body)) then ret _scope_claims_http_only
  else
    let! resp := http_post (broker_url +:+ "/v1/issue")
                   (JObj (broker_payload agent_id db_service_id tenant_id body)) service_token in
    let '(status_code, content) := resp in
    if Z.eqb status_code 400 then
      ret (JSONResponse 400 [("code", JStr "mintkey:validation_failed"); ("title", broker_title content)])
    else if negb (Z.eqb status_code 200) then ret broker_error
    else
      let! data := lift (response_json content) in
      let! token := lift (json_item "token" data) in
      let! expires_at := lift (json_item "expires_at" data) in
      if is_ssh then
        ret (JSONResponse 200
          [("token", token); ("ssh_connect", ssh_connect agent_id); ("expires_at", expires_at);
           ("service_id", JStr wire_service_id); ("action", JStr (tr_action body))])
      else
        ret (JSONResponse 200 [("token", token); ("expires_at", expires_at); ("service_id", JStr wire_service_id)]).

(** Step 3: the time window of the grant. *)
Definition time_window_stage (agent_id tenant_id wire_service_id : string) (constraints : json) (body : TokenRequest)
    (k : M response) : M response :=
  let! time_window := lift (json_get "time_window" JNull constraints) in
  if truthy time_window then
    let! r := check_time_window time_window in
    let '(allowed, reason) := r in
    if allowed : bool then k else deny tenant_id agent_id wire_service_id (tr_action body) reason
  else k.

(** Step 2: the rate limit of the grant. *)
Definition rate_limit_stage (agent_id tenant_id wire_service_id : string) (constraints : json) (body : TokenRequest)
    (k : M response) : M response :=
  let! rate_limit := lift (json_get "rate_limit" JNull constraints) in
  if truthy rate_limit then
    let! r := check_rate_limit (agent_id +:+ ":" +:+ wire_service_id +:+ ":" +:+ tr_action body) rate_limit in
    let '(allowed, reason) := r in
    if allowed : bool then k else deny tenant_id agent_id wire_service_id (tr_action body) reason
  else k.

(** [grant.constraints or {}] *)
Definition grant_constraints (g : grant_row) : json :=
  let c := from_jsonb (g_constraints g) in if truthy c then c else JObj [].

(** [except ServiceNotFound as exc] *)
Definition resolve_or_404 {A} (m : M A) (k : A -> M response) : M response := fun w =>
  match m w with
  | (Ok a, w') => k a w'
  | (Raise (ServiceNotFound input _), w') => (Ok (service_not_found input), w')
  | (Raise e, w') => (Raise e, w')
  end.

Definition request_token (agent_ctx : option agent_context) (body : TokenRequest) : M response :=
  match agent_ctx with
  | None => ret auth_required
  | Some (AgentContext agent_id tenant_id) =>
      do! set_tenant_context tenant_id false in
      resolve_or_404 (resolve_service_id (tr_service_id body) tenant_id) (fun db_service_uuid =>
      let db_service_id := uuid_str db_service_uuid in
      let wire_service_id := match db_uuid_to_wire (VStr db_service_id) "svc" with
                             | Ok s => s
                             | Raise _ => tr_service_id body
                             end in
      let _is_wire_or_uuid := startswith (tr_service_id body) "svc_" || looks_like_uuid (tr_service_id body) in
      let! aid := bound agent_id in
      let! sid := bound db_service_id in
      let! grants := select permission_grants_t (fun g =>
        N.eqb (g_agent_id g) aid && N.eqb (g_service_id g) sid && String.eqb (g_action g) (tr_action body)) in
      match fetchone grants with
      | None =>
          let! email_esvc_uuid := (if _is_wire_or_uuid : bool
                                   then resolve_email_service_id (tr_service_id body) tenant_id
                                   else ret None) in
          match email_esvc_uuid with
          | Some email_esvc_uuid =>
              if is_some (tr_methods body) || is_some (tr_path_prefix body) then ret _scope_claims_http_only
              else
                let! email_wire := lift (db_uuid_to_wire (VStr (uuid_str email_esvc_uuid)) "svc") in
                _handle_email_service_token agent_id tenant_id (uuid_str email_esvc_uuid) email_wire (tr_action body)
          | None => deny tenant_id agent_id wire_service_id (tr_action body) "permission_not_found"
          end
      | Some grant =>
          let constraints := grant_constraints grant in
          rate_limit_stage agent_id tenant_id wire_service_id constraints body (
          time_window_stage agent_id tenant_id wire_service_id constraints body (
          issue agent_id tenant_id db_service_id wire_service_id body))
      end)
  end.
End RequestToken.
