(* ===== verification/TokenSafety.v ===== *)
(** * What the token request guarantees

    The broker is asked for a token only for a grant whose constraints hold,
    every denial is in the audit log, and the request changes nothing else. *)

From S2P Require Import Prelude PyStr PyJson PyJsonFacts PyTime WireIds AuditHash AuditChain PyText Constraints.
From S2P Require Import Vault Tables Database Logic PublicUrls Resolve Demo AuditEmit AgentSecrets SecretTools SecretsSafety RequestToken.

Local Open Scope string_scope.
Local Open Scope py_scope.

Lemma uuid_str_mod u : uuid_str (u mod uuid_limit) = uuid_str u.
Proof.
  unfold uuid_str, hex32. do 3 f_equal.
  rewrite <- (digits_undigits 4 (digits 4 32 u)) by (intros d Hd; by apply digits_bound in Hd).
  rewrite undigits_digits, length_digits. reflexivity.
Qed.

#[local] Opaque uuid_str wire UUID db_uuid_to_wire.

Section Safety.
Context `{E : Env} `{V : Vault} `{Sha : Sha256}.
Implicit Types w : world.

Lemma bind_uuid_text u sid : bind_uuid (uuid_str u) = Some sid -> uuid_str sid = uuid_str u.
Proof.
  intros H. rewrite <- (uuid_str_mod u) in H.
  rewrite bind_uuid_str in H by (apply N.mod_lt; discriminate). injection H as <-. apply uuid_str_mod.
Qed.

Definition calls w : list http_request := p_calls (w_proc w).

(** Either no call was made and no token is in the answer, or one call was made, and [P] holds of it
    in the final state. *)
Definition issues (P : http_request -> world -> Prop) w (ow : outcome response * world) : Prop :=
  (calls (snd ow) = calls w /\ forall r, fst ow = Ok r -> status_code r <> 200%Z) \/
  (exists rq, calls (snd ow) = (calls w ++ [rq])%list /\ P rq (snd ow)).

(** The limiter is the same and the tapes have not gone back. *)
Definition same_limiter w w' : Prop :=
  p_limiter (w_proc w') = p_limiter (w_proc w) /\ (w_tick w <= w_tick w')%nat.

Lemma issues_ret P r w : status_code r <> 200%Z -> issues P w (ret r w).
Proof. intros H. left. cbn [ret fst snd]. split; [done|]. intros r' E'. apply Ok_inj in E'. by subst r'. Qed.

Lemma issues_bind {A} P (m : M A) (k : A -> M response) w :
  silent m -> (forall a w1, m w = (Ok a, w1) -> w_proc w1 = w_proc w -> issues P w1 (k a w1)) ->
  issues P w (bind m k w).
Proof.
  intros Hs Hk. unfold bind. specialize (Hs w). destruct (m w) as [[a|e] w1]; cbn [snd] in Hs.
  - specialize (Hk a w1 eq_refl Hs). unfold issues, calls in *. by rewrite Hs in Hk.
  - left. unfold calls. cbn [fst snd]. by rewrite Hs.
Qed.

Lemma issues_post P url j hs (k : Z * option json -> M response) w :
  (forall w', same_limiter w w' -> P (HttpRequest "POST" url j hs []) w') ->
  (forall a, silent (k a)) -> (forall a, later (k a)) -> issues P w (bind (http_post url j hs) k w).
Proof.
  intros HP Hk Hl. right. exists (HttpRequest "POST" url j hs []). unfold bind, http_post.
  cbn [w_tick tick]. destruct (env_http _) as [a|e].
  - split; [unfold calls; by rewrite Hk|]. apply HP. split; [by rewrite Hk|].
    etransitivity; [|apply Hl]. cbn. lia.
  - split; [done|]. apply HP. split; [done|]. cbn. lia.
Qed.

Lemma issues_deny P tenant agent svc action reason w : issues P w (deny tenant agent svc action reason w).
Proof.
  apply issues_bind; [unfold _emit_denial; repeat silent_step|]. intros u w1 _ _. by apply issues_ret.
Qed.

Lemma reads_resolve_service s t : reads (resolve_service_id s t).
Proof.
  assert (Hslug : reads (slug_lookup s t)).
  { unfold slug_lookup. apply reads_bind; [apply reads_bound|intros tid]. apply reads_bind; [apply reads_select|].
    intros [|r [|]]; [apply (reads_lift (Raise _))|apply reads_lift|apply (reads_lift (Raise _))]. }
  assert (Hraise : forall A e, reads (raise e : M A)) by (intros A e; apply (reads_lift (Raise e))).
  unfold resolve_service_id.
  repeat match goal with
  | |- reads (match ?x with _ => _ end) => destruct x
  | |- reads (ret _) => apply reads_ret
  | |- reads (raise _) => apply Hraise
  | |- reads (slug_lookup _ _) => exact Hslug
  end.
Qed.

Lemma silent_resolve_service s t : silent (resolve_service_id s t).
Proof. unfold resolve_service_id, slug_lookup. repeat silent_step. Qed.

Lemma silent_resolve_email s t : silent (resolve_email_service_id s t).
Proof. unfold resolve_email_service_id. repeat silent_step. Qed.

Lemma later_resolve_service s t : later (resolve_service_id s t).
Proof. unfold resolve_service_id, slug_lookup. repeat later_step. Qed.

Lemma reads_resolve_email s t : reads (resolve_email_service_id s t).
Proof.
  unfold resolve_email_service_id. apply reads_bind; [apply reads_lift|intros [c|]; [|apply reads_ret]].
  do 2 (apply reads_bind; [apply reads_bound|intros ?]). apply reads_bind; [apply reads_select|intros rows].
  destruct (fetchone rows); [apply reads_lift|apply reads_ret].
Qed.

(** ** The grant behind a call *)

(** The rate limit of the constraints, if there is one, was evaluated on the state [limiter] of the
    limiter at a reading of the clock made since the point [n0] of the tapes and before [w]; it
    admitted the request, and the limiter of [w] is what the evaluation left.  Without a rate limit
    the limiter is as it was. *)
Definition rate_held (n0 : nat) (limiter : gmap string (list QArith_base.Q)) (key : string) (c : json) w : Prop :=
  exists rl, json_get "rate_limit" JNull c = Ok rl /\
    if truthy rl then
      exists n, (n0 <= n < w_tick w)%nat /\
        evaluate_rate_limit (env_time n) limiter key rl = Ok ((true, ""), p_limiter (w_proc w))
    else p_limiter (w_proc w) = limiter.

(** The time window, if there is one, was open at such a reading of the clock. *)
Definition window_held (n0 : nat) (c : json) w : Prop :=
  exists tw, json_get "time_window" JNull c = Ok tw /\ (truthy tw = true ->
    exists n, (n0 <= n < w_tick w)%nat /\ @evaluate_time_window env_zone (env_now n) tw = Ok (true, "")).

Lemma rate_held_later n0 n1 l key c w w' :
  (n0 <= n1)%nat -> same_limiter w w' -> rate_held n1 l key c w -> rate_held n0 l key c w'.
Proof.
  intros Hn [Hl Ht] (rl & Hrl & H). exists rl. split; [done|]. rewrite Hl. destruct (truthy rl); [|done].
  destruct H as (n & Hb & He). exists n. split; [lia|done].
Qed.

Lemma window_held_later n0 n1 c w w' :
  (n0 <= n1)%nat -> (w_tick w <= w_tick w')%nat -> window_held n1 c w -> window_held n0 c w'.
Proof.
  intros Hn Ht (tw & Htw & H). exists tw. split; [done|]. intros Hb. destruct (H Hb) as (n & Hr & He).
  exists n. split; [lia|done].
Qed.

(** The agent [a] of tenant [t] has a grant for the action whose constraints held during the request
    that began at the point [n0] with the limiter [limiter] and ended in [w], and the broker is
    asked for a token of the granted service. *)
Definition grant_call (t a : uuid) (body : TokenRequest) (d : db) (n0 : nat) limiter (rq : http_request) w : Prop :=
  exists g, In g (permission_grants d) /\ g_tenant_id g = t /\ g_agent_id g = a /\ g_action g = tr_action body /\
    rq = HttpRequest "POST" (broker_url +:+ "/v1/issue")
           (JObj (broker_payload (uuid_str a) (uuid_str (g_service_id g)) (uuid_str t) body)) service_token [] /\
    rate_held n0 limiter
      (uuid_str a +:+ ":" +:+ match db_uuid_to_wire (VStr (uuid_str (g_service_id g))) "svc" with
                              | Ok s => s | Raise _ => tr_service_id body end
       +:+ ":" +:+ tr_action body) (grant_constraints g) w /\
    window_held n0 (grant_constraints g) w.

Definition email_call (t a : uuid) (body : TokenRequest) (d : db) (rq : http_request) : Prop :=
  tr_methods body = None /\ tr_path_prefix body = None /\
  exists eg es, In eg (email_permission_grants d) /\ eg_tenant_id eg = t /\ eg_agent_id eg = a /\
    In es (email_services d) /\ es_tenant_id es = t /\ es_deleted es = false /\
    uuid_str (es_id es) = uuid_str (eg_email_service_id eg) /\
    rq = HttpRequest "POST" (broker_url +:+ "/v1/issue")
           (JObj (email_payload (uuid_str a) (uuid_str (es_id es)) (uuid_str t))) service_token [].

Definition granted_call t a body d n0 limiter rq w : Prop :=
  grant_call t a body d n0 limiter rq w \/ email_call t a body d rq.

Lemma granted_call_later t a body d n0 n1 limiter rq w w' : (n0 <= n1)%nat ->
  same_limiter w w' -> granted_call t a body d n1 limiter rq w -> granted_call t a body d n0 limiter rq w'.
Proof.
  intros Hn Hs [(g & Hin & Ht & Ha & Hact & Hrq & Hr & Hw)|H]; [left|by right].
  exists g. do 5 (split; [done|]). split; [by eapply rate_held_later|].
  by eapply window_held_later; [|apply Hs|].
Qed.

Context (t a : uuid) (Ht : (t < uuid_limit)%N) (Ha : (a < uuid_limit)%N).

(** The rows a select shows in a tenant's transaction. *)
Lemma select_in_tenant {R} (T : table R) p w rows w' : in_tenant t w -> select T p w = (Ok rows, w') ->
  in_tenant t w' /\ w_db w' = w_db w /\
  forall r, In r rows -> In r (tb_get T (w_db w)) /\ p r = true /\ forall u, tb_tenant T r = Some u -> u = t.
Proof.
  intros T0 H. apply select_eff in H as (K & _ & D & pol & Hp & ->). split; [by eapply in_tenant_kept|].
  split; [done|]. rewrite (it_policy _ _ T0) in Hp. apply Ok_inj in Hp. subst pol. intros r Hr.
  apply filter_In in Hr as [Hr Hb]. apply andb_true_iff in Hb as [Hs Hb]. split; [done|]. split; [done|].
  intros u Hu. unfold sees in Hs. rewrite Hu, orb_false_r in Hs. by apply N.eqb_eq.
Qed.

Lemma fetchone_In {R} (rows : list R) r : fetchone rows = Some r -> In r rows.
Proof. destruct rows; [done|]. intros [= ->]. by left. Qed.

Lemma issue_calls P svc_uuid wire body w sid :
  in_tenant t w -> bind_uuid svc_uuid = Some sid ->
  (forall w', same_limiter w w' ->
     P (HttpRequest "POST" (broker_url +:+ "/v1/issue") (JObj (broker_payload (uuid_str a) svc_uuid (uuid_str t) body)) service_token []) w') ->
  issues P w (issue (uuid_str a) (uuid_str t) svc_uuid wire body w).
Proof.
  intros T0 Hs HP. unfold issue. apply issues_bind; [apply silent_bound|]. intros s w1 H1 P1.
  apply issues_bind; [apply silent_select|]. intros rows w2 H2 P2.
  apply (later_run _ _ _ _ (later_bound _)) in H1. apply (later_run _ _ _ _ (later_select _ _)) in H2.
  match goal with |- context [if ?b then _ else _] => destruct b end; [by apply issues_ret|].
  apply issues_post.
  - intros w' [Hl Hn]. apply HP. split; [by rewrite Hl, P2, P1|lia].
  - intros [st c]. repeat silent_step.
  - intros [st c]. repeat later_step.
Qed.

Lemma rate_stage_calls P tenant agent svc c body k w :
  (forall w1, calls w1 = calls w -> w_db w1 = w_db w -> (in_tenant t w -> in_tenant t w1) ->
     (w_tick w <= w_tick w1)%nat ->
     rate_held (w_tick w) (p_limiter (w_proc w)) (agent +:+ ":" +:+ svc +:+ ":" +:+ tr_action body) c w1 ->
     issues P w1 (k w1)) ->
  issues P w (rate_limit_stage agent tenant svc c body k w).
Proof.
  intros Hk. unfold rate_limit_stage. apply issues_bind; [apply silent_lift|]. intros rl w1 H1 _.
  apply lift_Ok in H1 as [Erl ->]. destruct (truthy rl) eqn:Et.
  2: { apply Hk; [done..|]. exists rl. split; [done|]. by rewrite Et. }
  unfold check_rate_limit, bind at 1, bind at 1. cbn [time_time].
  change (w_proc (tick w)) with (w_proc w).
  destruct (evaluate_rate_limit _ _ _ _) as [[[allowed reason] l']|e] eqn:Ee; [|left; done].
  destruct allowed.
  - pose proof (rate_limit_reason _ _ _ _ _ _ _ Ee) as ->.
    match goal with |- issues P w (k ?w1) => change (issues P w1 (k w1)) end.
    apply Hk; [done|done|by intros []|cbn; lia|]. exists rl. split; [done|]. rewrite Et.
    exists (w_tick w). split; [cbn; lia|exact Ee].
  - match goal with |- issues P w (deny ?x1 ?x2 ?x3 ?x4 ?x5 ?w1) => pose proof (issues_deny P x1 x2 x3 x4 x5 w1) as H end.
    exact H.
Qed.

Lemma window_stage_calls P tenant agent svc c body k w :
  (forall w1, same_limiter w w1 -> w_db w1 = w_db w -> (in_tenant t w -> in_tenant t w1) ->
     window_held (w_tick w) c w1 -> calls w1 = calls w ->
     issues P w1 (k w1)) ->
  issues P w (time_window_stage agent tenant svc c body k w).
Proof.
  intros Hk. unfold time_window_stage. apply issues_bind; [apply silent_lift|]. intros tw w1 H1 _.
  apply lift_Ok in H1 as [Etw ->]. destruct (truthy tw) eqn:Et.
  2: { apply Hk; [done..| |done]. exists tw. split; [done|]. congruence. }
  apply issues_bind; [unfold check_time_window; repeat silent_step|]. intros [allowed reason] w2 H2 Hp.
  unfold check_time_window in H2. step H2 as now w3 Hr. pose proof Hr as Hr'. apply now_eff in Hr as (K & _ & D).
  apply lift_Ok in H2 as [E2 ->]. destruct allowed; [|apply issues_deny]. injection Hr' as Enow Ew3.
  apply Hk; [split; [by rewrite Hp|subst w3; cbn; lia]|done|by apply in_tenant_kept| |unfold calls; by rewrite Hp].
  exists tw. split; [done|]. intros _. exists (w_tick w). split; [subst w3; cbn; lia|]. rewrite Enow, E2. by rewrite (time_window_reason _ _ _ _ E2).
Qed.

Lemma email_calls P esid wire action w :
  in_tenant t w ->
  (forall g u, In g (email_permission_grants (w_db w)) -> eg_tenant_id g = t -> eg_agent_id g = a ->
     bind_uuid (uuid_str esid) = Some u -> eg_email_service_id g = u ->
     forall w', P (HttpRequest "POST" (broker_url +:+ "/v1/issue") (JObj (email_payload (uuid_str a) (uuid_str esid) (uuid_str t))) service_token []) w') ->
  issues P w (_handle_email_service_token (uuid_str a) (uuid_str t) (uuid_str esid) wire action w).
Proof.
  intros T0 HP. unfold _handle_email_service_token. rewrite (bound_str a), bind_ret by done.
  apply issues_bind; [apply silent_bound|]. intros u w1 H1 _. apply bound_Ok in H1 as [Hu ->].
  apply issues_bind; [apply silent_select|]. intros rows w1 H1 _.
  destruct (select_in_tenant _ _ _ _ _ T0 H1) as (T1 & D1 & Hrows).
  destruct (fetchone rows) as [g|] eqn:Eg.
  - apply fetchone_In, Hrows in Eg as (Hin & Hb & Hten). apply andb_true_iff in Hb as [B1 B2]. apply N.eqb_eq in B1, B2.
    apply issues_post; [by intros w' _; apply (HP g u); [| apply Hten| | |]|..]; intros [st c];
      [repeat silent_step|repeat later_step].
  - apply issues_bind; [unfold _emit_denial; repeat silent_step|]. intros x w2 _ _. by apply issues_ret.
Qed.

Lemma resolve_email_In s w u w' : in_tenant t w -> resolve_email_service_id s (uuid_str t) w = (Ok (Some u), w') ->
  exists es, In es (email_services (w_db w)) /\ es_tenant_id es = t /\ es_deleted es = false /\
    uuid_str (es_id es) = uuid_str u.
Proof.
  intros T0 H. unfold resolve_email_service_id in H. step H as c w1 Hr. apply lift_Ok in Hr as [_ ->].
  destruct c as [c|]; [|by apply ret_Ok in H as [? _]]. step H as esid w1 Hr. apply bound_Ok in Hr as [Hc ->].
  rewrite (bound_str t), bind_ret in H by done. step H as rows w1 Hr.
  destruct (select_in_tenant _ _ _ _ _ T0 Hr) as (T1 & D1 & Hrows).
  destruct (fetchone rows) as [es|] eqn:Ee; [|by apply ret_Ok in H as [? _]].
  apply fetchone_In, Hrows in Ee as (Hin & Hb & Hten). bool_to_prop. apply lift_Ok in H as [E1 ->].
  exists es. split; [done|]. split; [by apply Hten|]. split; [done|].
  assert (Hlt : (es_id es < uuid_limit)%N) by (subst; by eapply bind_uuid_lt).
  unfold row_uuid in E1. rewrite UUID_uuid_str in E1 by done. apply Ok_inj, Some_inj in E1. by rewrite E1.
Qed.

Lemma request_token_issues body w :
  w_admin_view w = false ->
  issues (granted_call t a body (w_db w) (w_tick w) (p_limiter (w_proc w))) w
    (request_token (Some (AgentContext (uuid_str a) (uuid_str t))) body w).
Proof.
  intros Hadm. unfold request_token. apply issues_bind; [apply silent_set_tenant|]. intros u w1 H1 P1.
  pose proof (later_run _ _ _ _ (later_set_tenant _) H1) as L1. apply set_tenant_start in H1 as (T1 & B1 & D1 & _); [|done..].
  unfold resolve_or_404. destruct (resolve_service_id _ _ w1) as [[svc|e] w2] eqn:Er.
  2: { pose proof (silent_resolve_service (tr_service_id body) (uuid_str t) w1) as Hs. rewrite Er in Hs. cbn [snd] in Hs.
       destruct e; left; (split; [unfold calls; cbn [snd]; by rewrite Hs|]); intros r Hr; cbn [fst] in Hr; try discriminate.
       apply Ok_inj in Hr. by subst r. }
  pose proof (silent_resolve_service (tr_service_id body) (uuid_str t) w1) as P2. rewrite Er in P2. cbn [snd] in P2.
  destruct (reads_in_tenant _ t _ _ _ (reads_resolve_service _ _) Er T1) as (T2 & D2 & B2).
  rewrite <- D1, <- D2, <- P1, <- P2. pose proof (later_run _ _ _ _ (later_resolve_service _ _) Er) as L2. clear Er.
  assert (L0 : (w_tick w <= w_tick w2)%nat) by lia. clear L1 L2. revert L0. generalize (w_tick w) as n0. intros n0 L0.
  assert (Hw : forall m, issues (granted_call t a body (w_db w2) n0 (p_limiter (w_proc w2))) w2 m ->
                         issues (granted_call t a body (w_db w2) n0 (p_limiter (w_proc w2))) w1 m).
  { intros m. unfold issues, calls. by rewrite P2. }
  apply Hw. rewrite (bound_str a), bind_ret by done.
  apply issues_bind; [apply silent_bound|]. intros sid w3 H3 _. apply bound_Ok in H3 as [Hsid ->].
  apply issues_bind; [apply silent_select|]. intros rows w3 H3 P3.
  destruct (select_in_tenant _ _ _ _ _ T2 H3) as (T3 & D3 & Hrows).
  apply (later_run _ _ _ _ (later_select _ _)) in H3.
  pose proof (bind_uuid_text _ _ Hsid) as Etext.
  destruct (fetchone rows) as [g|] eqn:Eg.
  - apply fetchone_In, Hrows in Eg as (Hin & Hb & Hten). apply andb_true_iff in Hb as [Hb B3].
    apply andb_true_iff in Hb as [B1' B2']. apply N.eqb_eq in B1', B2'. apply String.eqb_eq in B3.
    apply rate_stage_calls. intros w4 C4 D4 T4 L4 Hrl. specialize (T4 T3).
    apply window_stage_calls. intros w5 C5 D5 T5 Htw _. specialize (T5 T4).
    apply (issue_calls _ _ _ _ _ sid); [done|done|]. intros w' Hw'. left. exists g. split; [done|]. split; [by apply Hten|].
    do 2 (split; [done|]). rewrite B2', Etext. split; [done|]. rewrite P3 in Hrl. split.
    + eapply rate_held_later; [|exact Hw'|eapply rate_held_later; [reflexivity|exact C5|exact Hrl]]. lia.
    + eapply window_held_later; [|apply Hw'|exact Htw]. lia.
  - apply issues_bind; [destruct (_ || _); [apply silent_resolve_email|apply silent_ret]|]. intros o w4 H4 P4.
    destruct o as [esid|]; [|apply issues_deny].
    destruct (_ || _) in H4; [|by apply ret_Ok in H4 as [? _]].
    destruct (is_some (tr_methods body) || is_some (tr_path_prefix body)) eqn:Esc; [by apply issues_ret|].
    destruct (resolve_email_In _ _ _ _ T3 H4) as (es & Hes & Est & Edel & Eid).
    destruct (reads_in_tenant _ t _ _ _ (reads_resolve_email _ _) H4 T3) as (T4 & D4 & B4).
    apply issues_bind; [apply silent_lift|]. intros wire w5 H5 _. apply lift_Ok in H5 as [_ ->].
    apply email_calls; [done|]. intros eg u2 Heg Et Ea Hu Eu w'. rewrite D4, D3 in Heg. rewrite D3 in Hes. right.
    apply orb_false_iff in Esc as [Em Ep]. split; [by destruct (tr_methods body)|]. split; [by destruct (tr_path_prefix body)|].
    exists eg, es. repeat (split; [done|]). split; [|by rewrite Eid].
    by rewrite Eu, (bind_uuid_text _ _ Hu).
Qed.

(** The same for the whole transaction. *)
Lemma transaction_issues body w :
  issues (granted_call t a body (w_base w) (w_tick w) (p_limiter (w_proc w))) w
    (transaction (request_token (Some (AgentContext (uuid_str a) (uuid_str t))) body) w).
Proof.
  pose proof (request_token_issues body (begin w) eq_refl) as H.
  set (ow := transaction _ w).
  assert (E1 : calls (snd ow) = calls (snd (request_token (Some (AgentContext (uuid_str a) (uuid_str t))) body (begin w)))).
  { unfold calls. subst ow. by rewrite silent_transaction. }
  assert (E2 : forall r, fst ow = Ok r -> fst (request_token (Some (AgentContext (uuid_str a) (uuid_str t))) body (begin w)) = Ok r).
  { intros r Hr. subst ow. destruct (transaction _ w) as [o w'] eqn:Eo. cbn [fst] in Hr. subst o.
    apply transaction_Ok in Eo as (w1 & -> & _). done. }
  destruct H as [[H1 H2]|(rq & H1 & H2)]; [left|right; exists rq]; rewrite E1; (split; [exact H1|]).
  - intros r Hr. by apply H2, E2.
  - refine (granted_call_later _ _ _ _ _ _ _ _ _ _ _ _ H2); [cbn; lia|]. split; [subst ow; by rewrite silent_transaction|apply later_transaction].
Qed.

(** C3: Whatever happens during a token request, the broker is asked at most once, and only for an
    agent that holds a grant on the email service, or a grant of the named action on the service in
    its tenant whose constraints held during the request: the process's limiter as the request found
    it admitted the grant's rate limit at a reading of the clock made by the request, and the request
    leaves the limiter as this admission made it; and the grant's time window was open at a reading
    of the clock made by the request.  No answer carries a token unless the broker was asked. *)
Theorem token_only_with_grant body w :
  let ow := transaction (request_token (Some (AgentContext (uuid_str a) (uuid_str t))) body) w in
  (calls (snd ow) = calls w /\ forall r, fst ow = Ok r -> status_code r <> 200%Z) \/
  (exists rq, calls (snd ow) = (calls w ++ [rq])%list /\
     granted_call t a body (w_base w) (w_tick w) (p_limiter (w_proc w)) rq (snd ow)).
Proof. exact (transaction_issues body w). Qed.
End Safety.

(** ** Denials and writes *)

(** Only the audit log of tenant [t] changed, and every intact chain is intact. *)
Definition erase_audit (d : db) : db := tb_set audit_events_t [] (tb_set audit_chain_state_t [] d).
Record audit_only `{E : Env} `{Sha : Sha256} (t : uuid) (d d' : db) : Prop := {
  ao_chains : chains_kept d d';
  ao_rest : erase_audit d' = erase_audit d;
  ao_others : forall t', t' <> t -> events_of t' d' = events_of t' d /\ chain_state_of t' d' = chain_state_of t' d }.

#[export] Instance audit_only_preorder `{E : Env} `{Sha : Sha256} t : PreOrder (audit_only t).
Proof.
  split; [by intros d|]. intros d1 d2 d3 [C1 R1 O1] [C2 R2 O2]. split; [by transitivity d2|congruence|].
  intros t' Hne. destruct (O1 t' Hne), (O2 t' Hne). split; congruence.
Qed.

Section Writes.
Context `{E : Env} `{V : Vault} `{Sha : Sha256}.
Context (t : uuid) (Ht : (t < uuid_limit)%N).
Implicit Types w : world.

Lemma audit_only_append event_type actor actor_type target target_type payload d r :
  uuid_opt_ok actor -> json_wf (JObj payload) ->
  emitted t event_type actor actor_type target target_type payload d r -> audit_only t d (append_event t r d).
Proof.
  intros Ha Hw Hr. split; [by eapply append_event_chain|done|]. intros t' Hne.
  apply append_event_other; [by apply (em_tenant _ _ _ _ _ _ _ _ _ Hr)|done].
Qed.

Lemma audit_emit_only G event_type actor actor_type target target_type payload :
  uuid_opt_ok actor -> json_wf (JObj payload) ->
  respects (audit_only t) G (audit_emit t event_type actor actor_type target target_type payload).
Proof. intros Ha Hw. apply audit_emit_rule; [apply _|done..|]. intros d r. by apply audit_only_append. Qed.

Lemma denial_wf agent svc action reason hint : json_wf (JObj (denial_payload agent svc action reason hint)).
Proof. destruct hint; payload_wf. Qed.

Lemma emit_denial_only G agent svc action reason hint :
  respects (audit_only t) G (_emit_denial (uuid_str t) agent svc action reason hint).
Proof.
  unfold _emit_denial. rewrite UUID_uuid_str by done. intros d0 w Hg.
  by apply audit_emit_only; [apply uuid_opt_none|apply denial_wf|].
Qed.

Lemma deny_only G agent svc action reason : respects (audit_only t) G (deny (uuid_str t) agent svc action reason).
Proof. unfold deny. apply respects_bind; [apply emit_denial_only|]. intros u. apply respects_ret. Qed.

Lemma respects_post (R : relation db) G url j hs : respects R G (http_post url j hs).
Proof. by intros d0 w H. Qed.
Lemma respects_rate (R : relation db) G key c : respects R G (check_rate_limit key c).
Proof.
  intros d0 w H. unfold check_rate_limit, bind. cbn [time_time]. destruct (evaluate_rate_limit _ _ _ _) as [[r l]|e]; done.
Qed.
Lemma respects_window (R : relation db) G c : respects R G (check_time_window c).
Proof. unfold check_time_window. repeat preserved_step. Qed.
Lemma respects_resolve_service (R : relation db) `{!PreOrder R} G s i : respects R G (resolve_service_id s i).
Proof. unfold resolve_service_id, slug_lookup. repeat preserved_step. Qed.
Lemma respects_resolve_email (R : relation db) `{!PreOrder R} G s i : respects R G (resolve_email_service_id s i).
Proof. unfold resolve_email_service_id. repeat preserved_step. Qed.

Lemma safe_resolve_or_404 {A} (R : relation db) G (m : M A) (k : A -> M response) :
  respects R G m -> (forall a, safe R G (k a)) -> safe R G (resolve_or_404 m k).
Proof.
  intros Hm Hk d0 w H. unfold resolve_or_404. apply Hm in H. destruct (m w) as [[a|e] w1]; [by apply Hk|].
  cbn [snd] in H. apply good_any in H. by destruct e.
Qed.

Ltac token_step :=
  first
    [ lazymatch goal with
      | |- respects _ _ (deny _ _ _ _ _) => apply deny_only
      | |- respects _ _ (_emit_denial _ _ _ _ _ _) => apply emit_denial_only
      | |- respects _ _ (http_post _ _ _) => apply respects_post
      | |- respects _ _ (check_rate_limit _ _) => apply respects_rate
      | |- respects _ _ (check_time_window _) => apply respects_window
      | |- respects _ _ (resolve_service_id _ _) => apply respects_resolve_service, _
      | |- respects _ _ (resolve_email_service_id _ _) => apply respects_resolve_email, _
      | |- safe _ _ (deny _ _ _ _ _) => apply respects_safe, deny_only
      | |- safe _ _ (resolve_or_404 _ _) => apply safe_resolve_or_404; [|intros ?]
      end
    | preserved_step ].

Lemma request_token_safe agent_id body :
  safe (audit_only t) no_guc (request_token (Some (AgentContext agent_id (uuid_str t))) body).
Proof.
  unfold request_token. cbv zeta.
  unfold rate_limit_stage, time_window_stage, issue, _handle_email_service_token. repeat token_step.
Qed.

(** A token request, answered or failed, changes nothing but the audit log of the agent's tenant,
    and keeps every hash chain intact. *)
Theorem token_request_audit_only agent_id body w :
  audit_only t (w_base w)
    (w_base (snd (transaction (request_token (Some (AgentContext agent_id (uuid_str t))) body) w))).
Proof. apply (transaction_safe (audit_only t)). apply request_token_safe. Qed.
End Writes.

(** ** Every denial is audited *)

Section Denials.
Context `{E : Env} `{V : Vault} `{Sha : Sha256}.
Context (t a : uuid) (Ht : (t < uuid_limit)%N) (Ha : (a < uuid_limit)%N).
Implicit Types w : world.

(** The answer [r] is a 403 whose denial is the event [ev] on [d]. *)
Definition audited_denial (action : string) (d : db) (r : response) (ev : audit_row) : Prop :=
  exists reason svc hint, r = not_authorized reason (uuid_str a) svc action hint /\
    emitted t "token.denied" None "agent" None (Some "service")
      (denial_payload (uuid_str a) svc action reason hint) d ev.

Definition denies (action : string) (d : db) (m : M response) : Prop := forall w r w',
  in_tenant t w -> w_db w = d -> m w = (Ok r, w') -> status_code r = 403%Z ->
  w_tx w' = TxActive /\ exists ev, audited_denial action d r ev /\ w_db w' = append_event t ev d.

Lemma denies_ret action d r : status_code r <> 403%Z -> denies action d (ret r).
Proof. intros Hr w r' w' _ _ H Hst. by apply ret_Ok in H as [-> _]. Qed.

Lemma denies_bind {A} action d (m : M A) (k : A -> M response) :
  reads m -> (forall x, denies action d (k x)) -> denies action d (bind m k).
Proof.
  intros Hm Hk w r w' T0 D H Hst. step H as x w1 Hr.
  destruct (reads_in_tenant _ t _ _ _ Hm Hr T0) as (T1 & D1 & _).
  apply (Hk x w1 r w'); [done|congruence|done|done].
Qed.

Lemma reads_rate key c : reads (check_rate_limit key c).
Proof.
  split.
  - intros w e w' H. unfold check_rate_limit, bind in H. cbn [time_time] in H.
    destruct (evaluate_rate_limit _ _ _ _) as [[x l]|]; [done|]. by injection H as <- <-.
  - intros w x w' H. unfold check_rate_limit, bind in H. cbn [time_time] in H.
    destruct (evaluate_rate_limit _ _ _ _) as [[y l]|]; [|done]. by injection H as <- <-.
Qed.

Lemma reads_window c : reads (check_time_window c).
Proof. apply reads_bind; [apply reads_now|intros now; apply reads_lift]. Qed.

Lemma reads_post url j hs : reads (http_post url j hs).
Proof. by split; intros w x w' H; injection H as _ <-. Qed.

(** The event and the answer of a denial. *)
Lemma denies_emit svc action reason hint d :
  denies action d (do! _emit_denial (uuid_str t) (uuid_str a) svc action reason hint in
                   ret (not_authorized reason (uuid_str a) svc action hint)).
Proof.
  intros w r w' T0 D H _. step H as u w1 Hr. unfold _emit_denial in Hr. rewrite UUID_uuid_str in Hr by done.
  step Hr as tid w2 H2. apply lift_Ok in H2 as [E1 ->]. apply Ok_inj in E1. subst tid.
  apply audit_emit_eff in Hr as (K & _ & ev & Hev & Dv); [|done|apply uuid_opt_none].
  apply ret_Ok in H as [-> ->]. rewrite D in Hev, Dv. split; [by rewrite (kp_tx _ _ K), (it_tx _ _ T0)|].
  exists ev. split; [|done]. by exists reason, svc, hint.
Qed.

Ltac denial_step :=
  lazymatch goal with
  | |- denies _ _ (ret _) => by apply denies_ret
  | |- denies _ _ (deny _ _ _ _ _) => apply denies_emit
  | |- denies _ _ (do! _emit_denial _ _ _ _ _ _ in _) => apply denies_emit
  | |- denies _ _ (bind _ _) => apply denies_bind; [|intros ?]
  | |- denies _ _ (match ?x with _ => _ end) => destruct x
  | |- reads (bound _) => apply reads_bound
  | |- reads (lift _) => apply reads_lift
  | |- reads (select _ _) => apply reads_select
  | |- reads (check_rate_limit _ _) => apply reads_rate
  | |- reads (check_time_window _) => apply reads_window
  | |- reads (http_post _ _ _) => apply reads_post
  | |- reads (resolve_email_service_id _ _) => apply reads_resolve_email
  | |- reads (ret _) => apply reads_ret
  | |- reads (match ?x with _ => _ end) => destruct x
  end.

(** A request answered with 403 has appended exactly the event of its denial, with the reason and
    the hint of the answer, to the audit chain of the agent's tenant. *)
Theorem denial_audited body w r w' :
  transaction (request_token (Some (AgentContext (uuid_str a) (uuid_str t))) body) w = (Ok r, w') ->
  status_code r = 403%Z ->
  exists ev, audited_denial (tr_action body) (w_base w) r ev /\ w_base w' = append_event t ev (w_base w).
Proof.
  intros H Hst. apply transaction_Ok in H as (w1 & H & Hw'). unfold request_token in H.
  step H as u w2 Hr. apply set_tenant_start in Hr as (T2 & B2 & D2 & _); [|done..].
  unfold resolve_or_404 in H. destruct (resolve_service_id _ _ w2) as [[svc|e] w3] eqn:Er.
  2: { destruct e; try discriminate H. injection H as <- <-. discriminate Hst. }
  destruct (reads_in_tenant _ t _ _ _ (reads_resolve_service _ _) Er T2) as (T3 & D3 & B3).
  revert H. cbv zeta. set (wsid := match db_uuid_to_wire _ _ with Ok s => s | Raise _ => _ end). intros H.
  match type of H with ?m w3 = _ => assert (Hm : denies (tr_action body) (w_base w) m) end.
  { unfold rate_limit_stage, time_window_stage, issue, _handle_email_service_token. repeat denial_step. }
  destruct (Hm w3 r w1) as (Htx & ev & Hev & Ed); [done|by rewrite D3, D2|done|done|].
  exists ev. split; [done|]. rewrite Htx in Hw'. subst w'. by rewrite <- Ed.
Qed.
End Denials.

(** ** Constraints read as text *)

Section TextConstraints.
Context `{E : Env} `{V : Vault} `{Sha : Sha256}.

Lemma dumps_nonempty j : String.eqb (dumps j) "" = false.
Proof.
  apply String.eqb_neq. intros Hd. unfold dumps in Hd.
  apply (f_equal (fun s => length (chars s))) in Hd. rewrite chars_unchars in Hd.
  match type of Hd with length (?p j) = _ => idtac end.
  pose proof (dumps_head false (chars ", ") (chars ": ") j) as (c & l & E1 & _). rewrite E1 in Hd. discriminate.
Qed.

Lemma grant_constraints_text g : jsonb_as_text = true -> exists s, grant_constraints g = JStr s.
Proof.
  intros H. unfold grant_constraints, from_jsonb. rewrite H. cbn [truthy]. rewrite dumps_nonempty. by eexists.
Qed.

(** Where the driver hands jsonb columns back as text, which the sibling endpoints allow for, no
    token for a service can be issued: the text of the constraints has no [get], and the broker is
    only ever asked for email services. *)
Theorem text_constraints_block_tokens t a body w :
  (t < uuid_limit)%N -> (a < uuid_limit)%N -> jsonb_as_text = true ->
  let ow := transaction (request_token (Some (AgentContext (uuid_str a) (uuid_str t))) body) w in
  (calls (snd ow) = calls w /\ forall r, fst ow = Ok r -> status_code r <> 200%Z) \/
  (exists rq, calls (snd ow) = (calls w ++ [rq])%list /\ email_call t a body (w_base w) rq).
Proof.
  intros Ht Ha Htext ow. pose proof (request_token_issues t a Ht Ha body (begin w) eq_refl) as H.
  assert (E1 : calls (snd ow) = calls (snd (request_token (Some (AgentContext (uuid_str a) (uuid_str t))) body (begin w)))).
  { unfold calls. subst ow. by rewrite silent_transaction. }
  rewrite E1. destruct H as [[H1 H2]|(rq & H1 & H2)].
  - left. split; [exact H1|]. intros r Hr. apply H2. subst ow. destruct (transaction _ w) as [o w'] eqn:Eo.
    cbn [fst] in Hr. subst o. apply transaction_Ok in Eo as (w1 & -> & _). done.
  - right. exists rq. split; [exact H1|]. destruct H2 as [(g & _ & _ & _ & _ & _ & (rl & Hrl & _) & _)|H2]; [|exact H2].
    destruct (grant_constraints_text g Htext) as [s Es]. rewrite Es in Hrl. discriminate.
Qed.
End TextConstraints.

(** ** Witnesses *)

Section Witnesses.
#[local] Existing Instance demo_env.
#[local] Existing Instance demo_vault.
#[local] Existing Instance toy_sha256.

Definition demo_request : TokenRequest := MkTokenRequest "petstore" "read" None None.

Lemma token_only_with_grant_witness :
  (exists rq, calls (snd (transaction (request_token (Some (AgentContext (uuid_str 6) (uuid_str 1))) demo_request)
                       demo_world)) = [rq] /\
     granted_call 1 6 demo_request demo_db 0 ∅ rq
       (snd (transaction (request_token (Some (AgentContext (uuid_str 6) (uuid_str 1))) demo_request) demo_world))).
Proof.
  destruct (token_only_with_grant 1 6 eq_refl eq_refl demo_request demo_world) as [[_ H]|H]; [|exact H].
  destruct (run_returns (transaction (request_token (Some (AgentContext (uuid_str 6) (uuid_str 1))) demo_request))
              (fun r => Z.eqb (status_code r) 200) demo_world) as (r & Hr & Hrun); [vm_compute; reflexivity|].
  exfalso. apply (H r); [rewrite Hrun; reflexivity|by apply Z.eqb_eq].
Defined.

Lemma token_request_audit_only_witness :
  audit_only 1 demo_db (w_base (snd (transaction
    (request_token (Some (AgentContext (uuid_str 6) (uuid_str 1))) demo_request) demo_world))).
Proof. exact (token_request_audit_only 1 eq_refl (uuid_str 6) demo_request demo_world). Defined.

(** Agent 7 has no grant. *)
Lemma denial_audited_witness :
  exists r w' ev, transaction (request_token (Some (AgentContext (uuid_str 7) (uuid_str 1))) demo_request) demo_world
      = (Ok r, w') /\ status_code r = 403%Z /\ w_base w' = append_event 1 ev demo_db.
Proof.
  destruct (run_returns (transaction (request_token (Some (AgentContext (uuid_str 7) (uuid_str 1))) demo_request))
              (fun r => Z.eqb (status_code r) 403) demo_world) as (r & Hr & Hrun); [vm_compute; reflexivity|].
  apply Z.eqb_eq in Hr.
  destruct (denial_audited 1 7 eq_refl demo_request demo_world r _ Hrun Hr) as (ev & _ & Hev).
  exists r, (snd (transaction (request_token (Some (AgentContext (uuid_str 7) (uuid_str 1))) demo_request) demo_world)), ev.
  split; [exact Hrun|]. split; [exact Hr|exact Hev].
Defined.
End Witnesses.

(** The same environment with jsonb columns as text. *)
Definition demo_text_env : Env := {|
  env_uuid4 := demo_uuid4; env_uuid4_lt := demo_uuid4_lt; env_now := demo_now;
  env_fault _ := None; env_vault_fault _ := None;
  bind_uuid := demo_uuid_in; bind_uuid_str := demo_uuid_in_str;
  bind_uuid_lt s u H := proj2 (demo_uuid_in_inv s u H);
  bind_uuid_UUID s u H := proj1 (demo_uuid_in_inv s u H);
  pg_uuid_in := demo_uuid_in; pg_uuid_in_str := demo_uuid_in_str;
  jsonb j := j; jsonb_wf j H := H; jsonb_same j _ := eq_refl; jsonb_as_text := true;
  bind_jsonb j := Some j; env_fold c := c;
  env_time n := QArith_base.inject_Z (1700000000 + Z.of_nat n); env_zone _ := None; env_var _ := None;
  env_http _ := Ok (200%Z, Some (JObj []));
  env_token_bytes := @env_token_bytes demo_env; env_token_bytes_lt := @env_token_bytes_lt demo_env;
  env_monotonic := @env_monotonic demo_env; env_local t := t; env_admin_settings := None;
  env_token_urlsafe := @env_token_urlsafe demo_env; env_file := @env_file demo_env; env_backend := @env_backend demo_env; httpx_text := @httpx_text demo_env;
  env_mint := @env_mint demo_env; env_getaddrinfo := @env_getaddrinfo demo_env; env_ssh_key := @env_ssh_key demo_env;
  env_ssh := @env_ssh demo_env; env_fetch := @env_fetch demo_env |}.

Lemma text_constraints_block_tokens_witness :
  let ow := @transaction demo_text_env demo_vault _
              (@request_token demo_text_env demo_vault toy_sha256 (Some (AgentContext (uuid_str 6) (uuid_str 1))) demo_request)
              demo_world in
  (calls (snd ow) = [] /\ forall r, fst ow = Ok r -> status_code r <> 200%Z) \/
  (exists rq, calls (snd ow) = [rq] /\ @email_call demo_text_env 1 6 demo_request demo_db rq).
Proof.
  exact (@text_constraints_block_tokens demo_text_env demo_vault toy_sha256 1 6 demo_request demo_world
           eq_refl eq_refl eq_refl).
Defined.
