(* ===== verification/PermissionsSafety.v ===== *)
(** * What the permission handlers preserve

    Tenant isolation, the audit chains and the shape of the permission data:
    grants have distinct identifiers and distinct (agent, service, action),
    every budget counter is of the tenant of its grant, and a grant has one
    counter per period start. *)

From S2P Require Import Prelude PyStr PyJson PyJsonFacts PyTime Periods WireIds AuditHash AuditChain PyText Constraints.
From S2P Require Import Vault Tables Like Database Logic Ulid Demo Sessions AuditEmit AgentSecrets SecretTools SecretsSafety Permissions Budgets.

Local Open Scope string_scope.
Local Open Scope py_scope.

(** ** The relation *)

(** The two states agree on everything that is not of tenant [t]'s grants, counters and events. *)
Record grants_isolated (t : uuid) (d d' : db) : Prop := {
  gi_grants : not_of g_tenant_id t (permission_grants d') = not_of g_tenant_id t (permission_grants d);
  gi_counters : not_of b_tenant_id t (budget_counters d') = not_of b_tenant_id t (budget_counters d);
  gi_events : not_of e_tenant_id t (audit_events d') = not_of e_tenant_id t (audit_events d);
  gi_heads : not_of c_tenant_id t (audit_chain_state d') = not_of c_tenant_id t (audit_chain_state d);
  gi_rest : (tenants d', operators d', sessions d', agents d', services d') =
            (tenants d, operators d, sessions d, agents d, services d);
  gi_rest' : (email_services d', email_permission_grants d', agent_secrets d', agent_secret_grants d', service_api_keys d') =
             (email_services d, email_permission_grants d, agent_secrets d, agent_secret_grants d, service_api_keys d);
  gi_platform : platform_tables d' = platform_tables d }.

(** What a grant is about, and what a counter counts. *)
Definition grant_key (g : grant_row) : uuid * uuid * uuid * string :=
  (g_tenant_id g, g_agent_id g, g_service_id g, g_action g).
Definition counter_key (b : counter_row) : uuid * Z := (b_permission_id b, b_period_start b).

Record permissions_ok (d : db) : Prop := {
  po_id : List.NoDup (map g_id (permission_grants d));
  po_key : List.NoDup (map grant_key (permission_grants d));
  po_slot : List.NoDup (map counter_key (budget_counters d));
  po_counter : forall b, In b (budget_counters d) ->
    exists g, In g (permission_grants d) /\ g_id g = b_permission_id b /\ g_tenant_id g = b_tenant_id b }.

Definition perms_confined `{Sha256} `{Env} (t : uuid) (d d' : db) : Prop :=
  chains_kept d d' /\ (permissions_ok d -> permissions_ok d' /\ grants_isolated t d d').

#[export] Instance perms_confined_preorder `{Sha256} `{Env} t : PreOrder (perms_confined t).
Proof.
  split.
  - intros d. split; [reflexivity|]. intros Hg. by repeat split; destruct Hg.
  - intros d1 d2 d3 [C1 I1] [C2 I2]. split; [by transitivity d2|]. intros Hg.
    destruct (I1 Hg) as [Hg2 J1]. destruct (I2 Hg2) as [Hg3 J2]. split; [done|].
    destruct J1, J2. split; congruence.
Qed.

(** ** The statements *)

Section Steps.
Context `{E : Env} `{V : Vault} `{Sha : Sha256}.
Context (t : uuid) (Ht : (t < uuid_limit)%N).
Abbreviation conf := (perms_confined t).

Lemma perms_confined_of d d' :
  audit_events d' = audit_events d -> audit_chain_state d' = audit_chain_state d ->
  (permissions_ok d -> permissions_ok d' /\ grants_isolated t d d') -> conf d d'.
Proof.
  intros E1 E2 HI. split; [|done]. intros u Hu [H1 H2 H3].
  split; unfold chain_state_of, events_of in *; by rewrite ?E1, ?E2.
Qed.

(** A grant of the tenant with this identifier exists. *)
Definition grant_here (pid : uuid) (d : db) : Prop :=
  exists g, In g (permission_grants d) /\ g_id g = pid /\ g_tenant_id g = t.

Lemma NoDup_snoc {A} (l : list A) x : List.NoDup l -> ~ In x l -> List.NoDup (l ++ [x])%list.
Proof.
  intros Hl Hx. apply NoDup_ListNoDup, NoDup_app. split; [by apply NoDup_ListNoDup|].
  split; [|apply NoDup_singleton]. intros y Hy. rewrite list_elem_of_singleton. intros ->.
  by apply Hx, list_elem_of_In.
Qed.

Lemma confined_insert_grant_row g d d' :
  g_tenant_id g = t -> ~ In (grant_key g) (map grant_key (permission_grants d)) ->
  insert_db permission_grants_t g d = Ok d' -> conf d d'.
Proof.
  intros Hg Hkey H. unfold insert_db in H. destruct (tb_check permission_grants_t d g) eqn:Ec; [done|].
  apply Ok_inj in H. subst d'. apply perms_confined_of; [done..|]. intros [Hi Hk Hs Hc].
  cbn [tb_check permission_grants_t first_violation] in Ec.
  destruct (fresh g_id (g_id g) _) eqn:Ef; [|done]. apply fresh_spec in Ef.
  split; split; db_fields; try done.
  - rewrite map_app. by apply NoDup_snoc.
  - rewrite map_app. by apply NoDup_snoc.
  - intros b Hb. destruct (Hc b Hb) as (x & Hx & Ex). exists x. split; [|done]. apply in_or_app. by left.
  - by apply not_of_snoc.
Qed.

Lemma confined_update_grants p f d :
  (forall r, p r = true -> g_tenant_id r = t) ->
  (forall r, g_id (f r) = g_id r /\ grant_key (f r) = grant_key r) ->
  conf d (update_db permission_grants_t p f d).
Proof.
  intros Hp Hf. unfold update_db. apply perms_confined_of; [done..|]. intros [Hi Hk Hs Hc].
  assert (Hten : forall r, g_tenant_id (f r) = g_tenant_id r) by (intros r; destruct (Hf r) as [_ H]; by injection H).
  assert (Hm : forall {A} (k : grant_row -> A), (forall r, k (f r) = k r) ->
    map k (map (fun r => if p r then f r else r) (permission_grants d)) = map k (permission_grants d)).
  { intros A k E1. rewrite map_map. apply map_ext. intros r. by destruct (p r). }
  split; split; db_fields; try done.
  - rewrite Hm; [done|]. by intros r; apply Hf.
  - rewrite Hm; [done|]. by intros r; apply Hf.
  - intros b Hb. destruct (Hc b Hb) as (x & Hx & E1 & E2). exists (if p x then f x else x).
    split; [by apply in_map_iff; exists x|]. destruct (p x); [|done]. by rewrite Hten, (proj1 (Hf x)).
  - apply not_of_map; intros r; destruct (p r) eqn:Er; try done. intros Hne. by apply Hp in Er.
Qed.

Lemma confined_delete_grant_rows p d :
  (forall r, p r = true -> g_tenant_id r = t) -> conf d (delete_db permission_grants_t p d).
Proof.
  intros Hp. unfold delete_db. apply perms_confined_of; [done..|]. intros [Hi Hk Hs Hc].
  split; split; db_fields; try done; try by apply NoDup_map_filter.
  - intros b Hb. apply filter_In in Hb as [Hb Hgone]. destruct (Hc b Hb) as (x & Hx & E1 & E2).
    exists x. split; [|done]. apply filter_In. split; [done|]. apply negb_true_iff in Hgone.
    destruct (p x) eqn:Ex; [exfalso|done]. revert Hgone. apply not_false_iff_true, existsb_exists.
    exists (g_id x). split; [|by rewrite E1, N.eqb_refl]. by apply in_map, filter_In.
  - apply not_of_filter. intros r _ Hr. destruct (p r) eqn:Er; [by apply Hp in Er|done].
  - apply not_of_filter. intros b Hb Hne. destruct (Hc b Hb) as (x & Hx & E1 & E2).
    apply negb_true_iff, not_true_is_false. intros Hex. apply existsb_exists in Hex as (id & Hid & Heq).
    apply N.eqb_eq in Heq. subst id. apply in_map_iff in Hid as (x' & E3 & Hx3).
    apply filter_In in Hx3 as [Hx3 Hpx]. apply Hp in Hpx.
    assert (x' = x); [|congruence]. apply (NoDup_key_unique g_id (permission_grants d)); [done..|congruence].
Qed.

Lemma confined_insert_counter b d d' :
  b_tenant_id b = t -> grant_here (b_permission_id b) d ->
  insert_db budget_counters_t b d = Ok d' -> conf d d'.
Proof.
  intros Hb (g & Hg & E1 & E2) H. unfold insert_db in H. destruct (tb_check budget_counters_t d b) eqn:Ec; [done|].
  apply Ok_inj in H. subst d'. apply perms_confined_of; [done..|]. intros [Hi Hk Hs Hc].
  cbn [tb_check budget_counters_t first_violation] in Ec. destruct (forallb _ _) eqn:Ef; [|done].
  split; split; db_fields; try done.
  - rewrite map_app. apply NoDup_snoc; [done|]. intros Hin. apply in_map_iff in Hin as (b' & Hk' & Hb').
    rewrite forallb_forall in Ef. apply Ef in Hb'. injection Hk' as E3 E4. by rewrite E3, E4, N.eqb_refl, Z.eqb_refl in Hb'.
  - intros b' Hin. apply in_app_or in Hin as [Hin|[<-|[]]]; [by apply Hc|]. exists g. by rewrite Hb.
  - by apply not_of_snoc.
Qed.

Lemma confined_update_counters p f d :
  (forall b, p b = true -> b_tenant_id b = t) ->
  (forall b, counter_key (f b) = counter_key b /\ b_tenant_id (f b) = b_tenant_id b) ->
  conf d (update_db budget_counters_t p f d).
Proof.
  intros Hp Hf. unfold update_db. apply perms_confined_of; [done..|]. intros [Hi Hk Hs Hc].
  split; split; db_fields; try done.
  - rewrite map_map. erewrite map_ext; [exact Hs|]. intros b. destruct (p b); [by apply Hf|done].
  - intros b Hin. apply in_map_iff in Hin as (b' & <- & Hb'). destruct (Hc b' Hb') as (g & Hg & E1 & E2). exists g.
    destruct (p b'); [|done]. destruct (Hf b') as [H1 ->]. injection H1 as -> _. done.
  - apply not_of_map; intros b; destruct (p b) eqn:Er; try done; [by intros; apply Hf|]. intros Hne. by apply Hp in Er.
Qed.

Lemma confined_delete_counters p d :
  (forall b, p b = true -> b_tenant_id b = t) -> conf d (delete_db budget_counters_t p d).
Proof.
  intros Hp. unfold delete_db. apply perms_confined_of; [done..|]. intros [Hi Hk Hs Hc].
  split; split; db_fields; try done; try by apply NoDup_map_filter.
  - intros b Hb. apply filter_In in Hb as [Hb _]. by apply Hc.
  - apply not_of_filter. intros b _ Hne. destruct (p b) eqn:Eb; [by apply Hp in Eb|done].
Qed.

Lemma confined_event r d : e_tenant_id r = t -> chains_kept d (append_event t r d) -> conf d (append_event t r d).
Proof.
  intros Er Hc. split; [done|]. intros [Hi Hk Hs Hb]. unfold append_event.
  split; split; db_fields; try done.
  - by apply not_of_snoc.
  - apply not_of_map; intros c; destruct (N.eqb_spec (c_tenant_id c) t); done.
Qed.
End Steps.

(** ** Well-formed values *)

Section Values.
Context `{E : Env}.

Lemma json_loads_wf s j : json_loads s = Ok j -> json_wf j.
Proof. unfold json_loads. destruct (loads s) as [j'|] eqn:El; [|done]. intros H. apply Ok_inj in H. subst. by apply loads_wf in El. Qed.

Lemma from_jsonb_wf j : json_wf (from_jsonb j).
Proof. unfold from_jsonb. destruct jsonb_as_text; [done|apply dedup_is_wf]. Qed.

Lemma parse_constraints_wf dflt j v : json_wf dflt -> json_wf j -> parse_constraints dflt j = Ok v -> json_wf v.
Proof.
  intros Hd Hj. destruct j; cbn [parse_constraints]; try (intros H; apply Ok_inj in H; by subst v).
  apply json_loads_wf.
Qed.

Lemma get_if_wf k j v : json_wf j -> get_if k j = Ok v -> json_wf v.
Proof.
  intros Hj. unfold get_if. destruct (truthy j); [by apply json_get_wf|]. intros H. apply Ok_inj in H. by subst v.
Qed.
Lemma item_if_wf k j v : json_wf j -> item_if k j = Ok v -> json_wf v.
Proof.
  intros Hj. unfold item_if. destruct (truthy j); [by apply json_item_wf|]. intros H. apply Ok_inj in H. by subst v.
Qed.
Lemma json_dict_wf j d : json_wf j -> json_dict j = Ok d -> json_wf (JObj d).
Proof. intros Hj. destruct j; try done. cbn. intros H. apply Ok_inj in H. by subst d. Qed.

Lemma strings_wf l : json_wf (JArr (map JStr l)).
Proof. apply json_wf_arr. rewrite Forall_map. by apply Forall_true. Qed.
Lemma ints_wf l : json_wf (JArr (map JInt l)).
Proof. apply json_wf_arr. rewrite Forall_map. by apply Forall_true. Qed.

Ltac object_wf :=
  apply json_wf_obj; split; [apply NoDup_ListNoDup, (bool_decide_unpack _); reflexivity|];
  repeat constructor; eauto using strings_wf, ints_wf.

Lemma budget_dump_wf b : json_wf (budget_dump b).
Proof. unfold budget_dump. object_wf. Qed.

Lemma dump_field_wf {A} name (f : A -> json) o :
  (forall a, json_wf (f a)) -> Forall (fun kv => json_wf (snd kv)) (dump_field name f o).
Proof. intros Hf. destruct o; repeat constructor. apply Hf. Qed.

Lemma model_dump_wf c : json_wf (JObj (model_dump c)).
Proof.
  destruct c as [rl tw pp ip bu bs]. unfold model_dump. cbn [cs_rate_limit cs_time_window cs_request_path_prefix cs_source_ip_allowlist cs_budget].
  apply json_wf_obj. split.
  - destruct rl, tw, pp, ip, bu; cbn [dump_field app map fst]; apply NoDup_ListNoDup, (bool_decide_unpack _); reflexivity.
  - repeat (apply Forall_app; split); apply dump_field_wf; intros a; try apply budget_dump_wf; object_wf.
Qed.

Lemma dict_get_default_wf k d : json_wf (JObj d) -> json_wf (default JNull (dict_get k d)).
Proof. intros Hd. destruct (dict_get k d) eqn:Eg; [|done]. by apply dict_get_wf in Eg. Qed.

Lemma merged_wf old body : json_wf (JObj old) -> json_wf (JObj (dict_update old (model_dump body))).
Proof. intros Ho. apply dict_update_wf; [done|]. by apply json_wf_obj, model_dump_wf. Qed.
End Values.

(** ** The handlers *)

Section Handlers.
Context `{E : Env} `{V : Vault} `{Sha : Sha256} `{X : ExcText}.
Context (t : uuid) (Ht : (t < uuid_limit)%N).
Abbreviation conf := (perms_confined t).
Abbreviation here := (tenant_is (uuid_str t)).

Lemma emit_perms G event_type actor actor_type target target_type payload :
  uuid_opt_ok actor -> json_wf (JObj payload) ->
  respects conf G (audit_emit t event_type actor actor_type target target_type payload).
Proof.
  intros Ha Hw. apply audit_emit_rule; [apply _|done..|]. intros d r Hr.
  apply confined_event; [by apply (em_tenant _ _ _ _ _ _ _ _ _ Hr)|]. by eapply append_event_chain.
Qed.

Lemma perms_try_value {A B} G (o : outcome A) (on_error : M B) (k : A -> M B) :
  safe conf G on_error -> (forall a, o = Ok a -> safe conf G (k a)) -> safe conf G (try_value o on_error k).
Proof. intros H1 H2. destruct o as [a|[]]; cbn [try_value]; auto using safe_raise. Qed.

Lemma perms_bound_opt G o : respects conf G (bound_opt o).
Proof. unfold bound_opt. repeat preserved_step. Qed.

Lemma perms_grant_by_id G s u : respects conf G (grant_by_id s u).
Proof. unfold grant_by_id. repeat preserved_step. Qed.

Lemma perms_query_now {A} G (f : world -> outcome (A * world)) :
  (forall w a w', f w = Ok (a, w') -> w' = w) -> respects conf G (execute f).
Proof. intros Hf. apply respects_execute; [apply _|]. intros w a w' _ H. by apply Hf in H as ->. Qed.

Lemma perms_set_constraints s c : respects conf here (set_constraints s t c).
Proof.
  unfold set_constraints. apply respects_bind; [apply respects_bound|intros pid]. rewrite bound_str, bind_ret by done.
  apply respects_update; [apply _|]. intros w pol d HG Hp. apply confined_update_grants; [|done].
  intros r Hr. apply andb_true_iff in Hr as [Hr _]. by apply (tenant_policy t Ht w pol HG Hp).
Qed.

Lemma perms_delete_counters p : respects conf here (delete_from budget_counters_t p).
Proof.
  apply respects_delete; [apply _|]. intros w pol d HG Hp. apply confined_delete_counters.
  intros r Hr. apply andb_true_iff in Hr as [Hr _]. by apply (tenant_policy t Ht w pol HG Hp).
Qed.

Lemma perms_delete_grants p : respects conf here (delete_from permission_grants_t p).
Proof.
  apply respects_delete; [apply _|]. intros w pol d HG Hp. apply confined_delete_grant_rows.
  intros r Hr. apply andb_true_iff in Hr as [Hr _]. by apply (tenant_policy t Ht w pol HG Hp).
Qed.

Lemma perms_reset_latest pid : respects conf here (reset_latest pid).
Proof.
  unfold reset_latest. apply respects_execute; [apply _|]. intros w a w' HG H. destruct (policy w) as [pol|] eqn:Ep; [|done].
  cbn [mbind outcome_bind] in H. apply Ok_inj in H. injection H as _ <-. do 2 (split; [done|]). split; [|done].
  apply confined_update_counters; [|done]. intros b Hb. apply andb_true_iff in Hb as [Hb _].
  by apply (tenant_policy t Ht w pol HG Ep).
Qed.

(** The grant the identifier names is in the open transaction's view. *)
Definition grant_at (s : string) (d : db) : Prop :=
  match bind_uuid s with Some pid => grant_here t pid d | None => True end.

Lemma perms_upsert_counter s ps pe ceiling f :
  (forall c b, counter_key (f c b) = counter_key b /\ b_tenant_id (f c b) = b_tenant_id b) ->
  respects_when conf (grant_at s) here (upsert_counter s ps pe ceiling t f).
Proof.
  intros Hf. unfold upsert_counter, grant_at, bound at 1. destruct (bind_uuid s) as [pid|]; [|by intros d0 w Hg _].
  rewrite bind_ret. apply respects_when_reads.
  { unfold bound_int4. destruct ceiling; try apply reads_pure; intros; eauto. destruct (_ && _); eauto. }
  intros c. rewrite bound_str, bind_ret by done. apply respects_when_upsert; [apply _|..].
  - intros d d' Hd. by apply confined_insert_counter.
  - intros w pol d HG Hp _ Hall.
    rewrite (update_db_ext _ _ (fun b => sees budget_counters_t pol b && (N.eqb (b_permission_id b) pid && Z.eqb (b_period_start b) ps))).
    { apply confined_update_counters; [|done]. intros b Hb. apply andb_true_iff in Hb as [Hb _].
      by apply (tenant_policy t Ht w pol HG Hp). }
    intros b Hb. rewrite forallb_forall in Hall. apply Hall in Hb. by destruct (sees _ pol b), (_ && _).
Qed.

(** Reads are steps of a handler. *)
Lemma reads_bound_int4 j : reads (bound_int4 j).
Proof. unfold bound_int4. destruct j; try (apply reads_pure; intros; eexists; by left). destruct (_ && _); apply reads_pure; intros; eexists; by left. Qed.

Lemma reads_grant_by_id s u : reads (grant_by_id s u).
Proof.
  unfold grant_by_id. do 2 (apply reads_bind; [apply reads_bound|intros ?]).
  apply reads_bind; [apply reads_select|intros ?]. apply reads_ret.
Qed.

Lemma perms_new_id G p : respects conf G (new_id p).
Proof. unfold new_id. repeat preserved_step. Qed.

Lemma perms_service G s : respects conf G (_resolve_service_uuid t s).
Proof.
  unfold _resolve_service_uuid. destruct (negb _); [apply respects_ret|].
  destruct (Admin._wire_id_to_uuid s "svc_") as [u|[]]; try apply respects_raise. repeat preserved_step.
Qed.

Lemma perms_notify G c p : respects conf G (notify_change c p).
Proof. apply respects_notify, _. Qed.

Ltac value_wf :=
  repeat lazymatch goal with
  | |- json_wf (default JNull (dict_get _ _)) => apply dict_get_default_wf
  | |- json_wf (JObj (dict_update _ (model_dump _))) => apply merged_wf
  | |- json_wf (JObj (model_dump _)) => apply model_dump_wf
  | H : json_get _ _ _ = Ok ?v |- json_wf ?v => eapply json_get_wf; [| |exact H]
  | H : json_item _ _ = Ok ?v |- json_wf ?v => eapply json_item_wf; [|exact H]
  | H : get_if _ _ = Ok ?v |- json_wf ?v => eapply get_if_wf; [|exact H]
  | H : item_if _ _ = Ok ?v |- json_wf ?v => eapply item_if_wf; [|exact H]
  | H : parse_constraints _ _ = Ok ?v |- json_wf ?v => eapply parse_constraints_wf; [| |exact H]
  | |- json_wf (from_jsonb _) => apply from_jsonb_wf
  | |- json_wf _ => first [assumption | exact I | (repeat constructor)]
  end.
Ltac fields_wf :=
  apply json_wf_obj; split; [apply NoDup_ListNoDup, (bool_decide_unpack _); reflexivity|];
  repeat apply Forall_cons_2; try apply Forall_nil_2; cbn [snd]; value_wf.

Ltac perm_step :=
  first
    [ lazymatch goal with
      | |- safe _ _ (try_value _ _ _) => apply perms_try_value; [|intros ? ?]
      | |- safe _ _ (bind (lift _) _) => apply safe_lift; intros ? ?
      | |- respects _ _ (bound_opt _) => apply perms_bound_opt
      | |- respects _ _ (grant_by_id _ _) => apply perms_grant_by_id
      | |- respects _ _ (notify_change _ _) => apply perms_notify
      | |- respects _ _ (set_constraints _ _ _) => apply perms_set_constraints
      | |- respects _ _ (delete_from budget_counters_t _) => apply perms_delete_counters
      | |- respects _ _ (delete_from permission_grants_t _) => apply perms_delete_grants
      | |- respects _ _ (reset_latest _) => apply perms_reset_latest
      | |- respects _ _ (audit_emit _ _ _ _ _ _ _) => apply emit_perms; [done|]
      end
    | preserved_step ].

Ltac open_perms := rewrite ?(bound_str t), ?bind_ret by done; repeat perm_step; try done.

Lemma perms_list agent_id service_id : safe conf no_guc (list_permissions t agent_id service_id).
Proof. unfold list_permissions. open_perms. Qed.

Lemma perms_list_tenant service_id agent_id q : safe conf no_guc (list_tenant_permissions t service_id agent_id q).
Proof. unfold list_tenant_permissions. open_perms. Qed.

Lemma perms_budget pid : safe conf no_guc (get_permission_budget t pid).
Proof. unfold get_permission_budget. open_perms. Qed.

Lemma perms_get pid : safe conf no_guc (get_permission t pid).
Proof. unfold get_permission. open_perms. Qed.

Lemma perms_revoke agent_id pid : safe conf no_guc (revoke_permission t agent_id pid).
Proof. unfold revoke_permission. open_perms. fields_wf. Qed.

Lemma perms_remove_budget pid s old ob body :
  json_wf (JObj old) -> json_wf ob -> safe conf here (remove_budget t pid s old ob body).
Proof. intros Ho Hb. unfold remove_budget. open_perms. fields_wf. Qed.

(** A lookup of a grant leaves the fact that it is there. *)
Lemma grant_by_id_here s w row w1 :
  grant_by_id s t w = (Ok row, w1) -> match row with Some _ => grant_at s (w_db w) | None => True end.
Proof.
  intros H. unfold grant_by_id in H. step H as pid w2 Hr. apply bound_Ok in Hr as [Hs ->].
  rewrite (bound_str t), bind_ret in H by done. step H as rows w2 Hr.
  apply select_eff in Hr as (_ & _ & _ & pol & _ & ->). apply ret_Ok in H as [-> _]. unfold grant_at. rewrite Hs.
  unfold fetchone. rewrite head_filter_find. destruct (List.find _ _) as [g|] eqn:Eg; [|done].
  apply List.find_some in Eg as [Hin Hg]. apply andb_true_iff in Hg as [_ Hg]. apply andb_true_iff in Hg as [H1 H2].
  apply N.eqb_eq in H1, H2. by exists g.
Qed.

Lemma set_constraints_keeps s c w u w1 :
  set_constraints s t c w = (Ok u, w1) -> grant_at s (w_db w) -> grant_at s (w_db w1).
Proof.
  intros H. unfold set_constraints in H. step H as pid w2 Hr. apply bound_Ok in Hr as [Hs ->].
  rewrite (bound_str t), bind_ret in H by done. apply update_eff in H as (_ & _ & pol & _ & ->).
  unfold grant_at. rewrite Hs. intros (g & Hg & E1 & E2). unfold update_db. 
  eexists. split; [apply in_map_iff; exists g; split; [reflexivity|done]|]. by destruct (_ && _).
Qed.

Lemma perms_update_counter s ob nb now :
  respects_when conf (grant_at s) here (update_counter t s ob nb now).
Proof.
  unfold update_counter. destruct (truthy nb); [|apply respects_when_true, respects_ret].
  do 4 (apply respects_when_lift; intros ? _). destruct a2 as [ps pe].
  destruct (_ && _); by apply perms_upsert_counter.
Qed.

Lemma perms_update agent_id pid body : safe conf no_guc (update_permission t agent_id pid body).
Proof.
  unfold update_permission. apply perms_try_value; [apply safe_ret|intros s _].
  apply safe_set_tenant; [by intros ? ? [_ ?]|].
  apply (safe_bind_reads conf here (fun row d => match row with Some _ => grant_at s d | None => True end));
    [apply reads_grant_by_id|intros w a w1; apply grant_by_id_here|].
  intros [row|]; [|apply safe_when_true, safe_ret].
  apply safe_when_lift. intros old Hold. apply safe_when_lift. intros ob Hob. apply safe_when_lift. intros oc Hoc.
  assert (Wold : json_wf old) by (eapply parse_constraints_wf; [| |exact Hold]; [by repeat constructor|apply from_jsonb_wf]).
  assert (Wob : json_wf ob) by (by eapply json_get_wf in Hob).
  apply json_dict_wf in Hoc; [|done].
  destruct (_ && _); [apply safe_when_true; by apply perms_remove_budget|].
  apply (safe_when_next conf _ (fun _ => grant_at s)).
  { apply respects_when_true, perms_set_constraints. }
  { intros w u w1 _. apply set_constraints_keeps. }
  intros _. apply safe_when_reads; [apply reads_now|intros now].
  apply safe_when_bind; [apply perms_update_counter|intros _]. open_perms.
  pose proof (merged_wf oc body Hoc) as Hm. pose proof (dict_get_default_wf "budget" _ Hm). fields_wf.
Qed.

Lemma perms_reset_counter agent_id pid : safe conf no_guc (reset_budget_counter t agent_id pid).
Proof. unfold reset_budget_counter. open_perms. fields_wf. Qed.

Lemma perms_current_counter G s now : respects conf G (current_counter s now).
Proof. unfold current_counter. repeat preserved_step. Qed.
Lemma reads_current_counter s now : reads (current_counter s now).
Proof.
  unfold current_counter. apply reads_bind; [apply reads_bound|intros ?].
  apply reads_bind; [apply reads_select|intros ?]. apply reads_ret.
Qed.

(** The rest of a handler runs with the grant in view. *)
Lemma perms_with_budget s k :
  (forall b, json_wf b -> safe_when conf (grant_at s) here (k b)) -> safe conf here (with_budget t s k).
Proof.
  intros Hk. unfold with_budget.
  apply (safe_bind_reads conf here (fun row d => match row with Some _ => grant_at s d | None => True end));
    [apply reads_grant_by_id|intros w a w1; apply grant_by_id_here|].
  intros [row|]; [|apply safe_when_true, safe_ret].
  apply safe_when_lift. intros c Hc. apply safe_when_lift. intros b Hb.
  destruct (truthy b); [|apply safe_when_true, safe_ret]. apply Hk. value_wf.
Qed.

Lemma perms_status agent_id pid : safe conf no_guc (get_budget_status t agent_id pid).
Proof.
  unfold get_budget_status. apply safe_lift. intros s _. apply safe_set_tenant; [by intros ? ? [_ ?]|].
  apply perms_with_budget. intros b Hb. apply safe_when_true. apply safe_bind; [apply respects_now|intros now].
  apply safe_bind; [apply perms_current_counter|intros row]. open_perms.
Qed.

Lemma perms_reset agent_id pid : safe conf no_guc (reset_budget t agent_id pid).
Proof.
  unfold reset_budget. apply safe_lift. intros s _. apply safe_set_tenant; [by intros ? ? [_ ?]|].
  apply perms_with_budget. intros b Hb. apply safe_when_reads; [apply reads_now|intros now].
  apply safe_when_reads; [apply reads_current_counter|intros row].
  apply safe_when_lift. intros pc Hpc. do 2 (apply safe_when_lift; intros ? ?). destruct a0 as [ps pe].
  apply safe_when_lift. intros ceiling Hce. apply safe_when_bind; [by apply perms_upsert_counter|intros _].
  open_perms. destruct row; [apply Ok_inj in Hpc; subst pc|]; fields_wf.
Qed.

Lemma perms_consumers : safe conf no_guc (list_budget_consumers t).
Proof.
  unfold list_budget_consumers. apply safe_set_tenant; [by intros ? ? [_ ?]|]. rewrite bound_str, bind_ret by done.
  apply safe_bind; [apply respects_now|intros now]. apply safe_bind.
  { apply perms_query_now. intros w a w' H. destruct (policy w); [|done]. cbn [mbind outcome_bind] in H.
    destruct (mapM_out _ _); [|done]. by injection H as _ <-. }
  intros rows. open_perms.
Qed.

(** ** Granting *)

(** No grant of the tenant for this agent, service and action. *)
Definition no_grant (aid sid : uuid) (action : string) (d : db) : Prop :=
  ~ In (t, aid, sid, action) (map grant_key (permission_grants d)).

Lemma select_no_grant aid sid action w rows w1 :
  (w_tx w = TxActive -> here (w_tenant w) (w_admin_view w)) ->
  select permission_grants_t (fun g => N.eqb (g_agent_id g) aid && N.eqb (g_service_id g) sid
    && String.eqb (g_action g) action && N.eqb (g_tenant_id g) t) w = (Ok rows, w1) ->
  match fetchone rows with Some _ => True | None => no_grant aid sid action (w_db w) end.
Proof.
  intros HG H. apply select_Ok in H as (pol & Hp & Htx & _ & ->). specialize (HG Htx) as [E1 E2].
  unfold policy in Hp. rewrite E1, E2, pg_uuid_in_str in Hp by done. apply Ok_inj in Hp. subst pol.
  unfold fetchone. rewrite head_filter_find. destruct (List.find _ _) as [g|] eqn:Eg; [done|].
  intros Hin. apply in_map_iff in Hin as (g & Hg & Hin). apply (List.find_none _ _ Eg) in Hin.
  unfold grant_key in Hg. injection Hg as H1 H2 H3 H4. cbn [sees tb_tenant permission_grants_t] in Hin.
  by rewrite H1, H2, H3, H4, !N.eqb_refl, String.eqb_refl in Hin.
Qed.

Lemma reads_new_perm_id : reads _new_perm_id.
Proof.
  apply reads_bind; [apply reads_time|intros ?]. apply reads_bind; [apply reads_uuid4|intros ?]. apply reads_ret.
Qed.

Lemma perms_grant_counter d id now :
  respects_when conf (grant_at (uuid_str id)) here (grant_counter d id t now).
Proof.
  unfold grant_counter. destruct (truthy _); [|apply respects_when_true, respects_ret].
  do 2 (apply respects_when_lift; intros ? _). destruct a0 as [ps pe].
  apply respects_when_lift; intros ? _. by apply perms_upsert_counter.
Qed.

(** The row of a new grant, and what it leaves. *)
Lemma perms_insert_grant id aid sid action c now creator :
  respects_when conf (no_grant aid sid action) here
    (insert_into permission_grants_t (GrantRow id t aid sid action c now creator)).
Proof. apply respects_when_insert; [apply _|]. intros d d' Hno. by apply confined_insert_grant_row. Qed.

Lemma insert_grant_at s id aid sid action c now creator w u w1 :
  bind_uuid s = Some id ->
  insert_into permission_grants_t (GrantRow id t aid sid action c now creator) w = (Ok u, w1) -> grant_at s (w_db w1).
Proof.
  intros Hs H. apply insert_eff in H as (_ & _ & _ & ->). unfold grant_at. rewrite Hs.
  eexists. split; [apply in_or_app; right; by left|done].
Qed.

Lemma perms_grant agent_id body : safe conf no_guc (grant_permission t agent_id body).
Proof.
  unfold grant_permission. apply perms_try_value; [apply safe_ret|intros agent _].
  apply safe_set_tenant; [by intros ? ? [_ ?]|]. apply safe_bind; [apply respects_bound|intros aid0].
  rewrite bound_str, bind_ret by done. apply safe_bind; [apply respects_select, _|intros ags].
  destruct (fetchone ags); [|apply safe_ret]. unfold service_or_error. apply safe_bind.
  { apply respects_catch; [apply respects_bind; [apply perms_service|intros; apply respects_ret]|intros; apply respects_ret]. }
  intros [svc|r]; [|apply safe_ret].
  unfold bound at 1. destruct (bind_uuid agent) as [aid|] eqn:Ea; [rewrite bind_ret|rewrite bind_raise; apply safe_raise].
  unfold bound at 1. destruct (bind_uuid svc) as [sid|] eqn:Es; [rewrite bind_ret|rewrite bind_raise; apply safe_raise].
  apply safe_of_when.
  apply (safe_when_next conf _ (fun rows d => match fetchone rows with Some _ => True | None => no_grant aid sid (pg_action body) d end)).
  { apply respects_when_true, respects_select, _. }
  { intros w rows w1 HG H _. pose proof H as H'. apply select_eff in H' as (_ & _ & -> & _). by eapply select_no_grant. }
  intros rows. destruct (fetchone rows) as [row|].
  { apply safe_when_true. open_perms. }
  apply safe_when_reads; [apply reads_new_perm_id|intros perm]. apply safe_when_lift. intros id _.
  apply safe_when_reads; [apply reads_now|intros now].
  unfold bound at 1. destruct (bind_uuid (uuid_str id)) as [id'|] eqn:Ei;
    [rewrite bind_ret|rewrite bind_raise; apply safe_when_true, safe_raise].
  rewrite !bind_ret. unfold bound at 1. rewrite Ea, bind_ret. unfold bound at 1. rewrite Es, bind_ret.
  apply safe_when_reads; [apply reads_bound|intros creator].
  apply (safe_when_next conf _ (fun _ => grant_at (uuid_str id))); [apply perms_insert_grant| |].
  { intros w u w1 _ H _. by eapply insert_grant_at. }
  intros _. apply safe_when_bind; [apply perms_grant_counter|intros _]. open_perms.
  destruct (pg_constraints body); fields_wf.
Qed.

Lemma perms_handler rq : safe conf no_guc (permissions_handler t rq).
Proof.
  destruct rq; cbn [permissions_handler];
    auto using perms_list, perms_list_tenant, perms_budget, perms_get, perms_grant, perms_revoke, perms_update,
      perms_reset_counter, perms_status, perms_reset, perms_consumers.
Qed.
End Handlers.

(** ** The property *)

(** C9: A request on permissions or budgets is confined to its tenant and keeps the permission data in
    shape.  Whatever the request and its outcome (a success, a refusal, a failure of any statement
    or of the commit), every intact audit chain stays intact; and where grants had distinct
    identifiers and no agent held two grants of one action on one service, where a grant had one
    counter per period start and every counter was of the tenant of its grant, this still holds, and
    the grants, counters, events and chain heads of the other tenants and all other tables are
    exactly as before. *)
Theorem permission_requests_confined `{E : Env} `{V : Vault} `{Sha : Sha256} `{X : ExcText} t rq w :
  (t < uuid_limit)%N ->
  perms_confined t (w_base w) (w_base (snd (transaction (permissions_handler t rq) w))).
Proof. intros Ht. apply (transaction_safe (perms_confined t)). by apply perms_handler. Qed.

Section Witnesses.
#[local] Existing Instance demo_env.
#[local] Existing Instance demo_vault.
#[local] Existing Instance toy_sha256.
#[local] Existing Instance demo_exc.

(** A grant with a budget in the demonstration tenant. *)
Definition demo_grant_request : permission_request :=
  PostPermission (wire 6 "agent") (MkPermissionGrantRequest (uuid_str 8) "write"
    (Some (MkConstraints None None None None (Some (MkBudgetConfig 100 "daily" default_thresholds)) true)) None).

Lemma permission_requests_confined_witness :
  perms_confined 1 demo_db (w_base (snd (transaction (permissions_handler 1 demo_grant_request) demo_world))).
Proof. exact (permission_requests_confined 1 demo_grant_request demo_world eq_refl). Defined.
End Witnesses.
