(* ===== verification/PermissionLaws.v ===== *)
(** * What the permission and budget endpoints achieve

    The effect of a revocation on the tokens an agent can get, and of a
    counter reset on the budget status. *)

From S2P Require Import Prelude PyStr PyJson PyJsonFacts PyTime Periods WireIds AuditHash AuditChain PyText Constraints.
From S2P Require Import Vault Tables Like Database Logic Ulid Demo Sessions AuditEmit AgentSecrets SecretTools SecretsSafety.
From S2P Require Import RequestToken TokenSafety Permissions Budgets PermissionsSafety.

Local Open Scope string_scope.
Local Open Scope py_scope.

#[local] Opaque uuid_str wire UUID.

(** ** Revoking *)

Section Revoke.
Context `{E : Env} `{V : Vault} `{Sha : Sha256}.
Context (t : uuid) (Ht : (t < uuid_limit)%N).
Implicit Types w : world.

(** The grant the path of a revocation names. *)
Definition named_grant (pid aid : uuid) (g : grant_row) : bool :=
  N.eqb (g_id g) pid && N.eqb (g_agent_id g) aid && N.eqb (g_tenant_id g) t.

Lemma revoke_Ok agent_id permission_id w r w' :
  transaction (revoke_permission t agent_id permission_id) w = (Ok r, w') -> status_code r = 204%Z ->
  exists pid aid,
    named_id (Admin.wire_to_db_uuid permission_id "perm") = Some pid /\ named_id (agent_db_id agent_id) = Some aid /\
    permission_grants (w_base w') = List.filter (fun g => negb (named_grant pid aid g)) (permission_grants (w_base w)) /\
    email_permission_grants (w_base w') = email_permission_grants (w_base w) /\
    email_services (w_base w') = email_services (w_base w).
Proof.
  intros H Hst. apply transaction_Ok in H as (w1 & H & Hend). unfold revoke_permission in H.
  step H as u w2 H2. apply set_tenant_start in H2 as (T2 & B2 & D2 & _); [|done..].
  apply try_value_Ok in H as [H|([s ag] & Es & H)]; [apply ret_Ok in H as [-> _]; discriminate|].
  step H as pid w3 H3. apply bound_Ok in H3 as [Hpid ->]. step H as aid w3 H3. apply bound_Ok in H3 as [Haid ->].
  rewrite (bound_str t), bind_ret in H by done. step H as n w3 H3.
  apply delete_eff in H3 as (K3 & _ & pol & Hpol & D3 & _).
  rewrite (it_policy _ _ T2) in Hpol. apply Ok_inj in Hpol. subst pol.
  step H as u4 w4 H4. apply audit_emit_eff in H4 as (K4 & _ & ev & _ & D4); [|done|apply uuid_opt_none].
  step H as u5 w5 H5. apply notify_eff in H5 as (K5 & _ & D5). apply ret_Ok in H as [_ ->].
  pose proof (in_tenant_kept _ _ _ K5 (in_tenant_kept _ _ _ K4 (in_tenant_kept _ _ _ K3 T2))) as T5.
  rewrite (it_tx _ _ T5) in Hend. subst w'. cbn [committed w_base tick w_db].
  assert (Hb : w_db w2 = w_base w) by (by rewrite D2).
  rewrite D5, D4, D3, Hb.
  destruct (Admin.wire_to_db_uuid permission_id "perm") as [s'|] eqn:E1; [|done].
  destruct (agent_db_id agent_id) as [ag'|] eqn:E2; [|done]. cbn [mbind outcome_bind] in Es.
  injection Es as -> ->. exists pid, aid. do 2 (split; [done|]). unfold append_event, delete_db. db_fields.
  split; [|done]. apply filter_ext. intros g. f_equal. cbn [sees tb_tenant permission_grants_t]. unfold named_grant.
  destruct (N.eqb (g_tenant_id g) t); [done|]. by rewrite !andb_false_r.
Qed.

(** C16: A revoked grant gives no more tokens.  After an accepted revocation of a grant of agent [a],
    no token request of that agent for the granted action makes the broker issue a token for the
    granted service: if the broker is asked at all, it is for another service the agent still has a
    grant on, or for an email service. *)
Theorem revoke_stops_tokens agent_id permission_id w r w' g body w1 :
  (g_agent_id g < uuid_limit)%N -> permissions_ok (w_base w) ->
  transaction (revoke_permission t agent_id permission_id) w = (Ok r, w') -> status_code r = 204%Z ->
  In g (permission_grants (w_base w)) -> g_tenant_id g = t ->
  named_id (Admin.wire_to_db_uuid permission_id "perm") = Some (g_id g) ->
  named_id (agent_db_id agent_id) = Some (g_agent_id g) ->
  w_base w1 = w_base w' -> tr_action body = g_action g ->
  let ow := transaction (request_token (Some (AgentContext (uuid_str (g_agent_id g)) (uuid_str t))) body) w1 in
  (calls (snd ow) = calls w1 /\ forall r', fst ow = Ok r' -> status_code r' <> 200%Z) \/
  exists rq, calls (snd ow) = (calls w1 ++ [rq])%list /\
    (email_call t (g_agent_id g) body (w_base w) rq \/
     exists g', In g' (permission_grants (w_base w)) /\ g_service_id g' <> g_service_id g /\
       rq = HttpRequest "POST" (broker_url +:+ "/v1/issue")
         (JObj (broker_payload (uuid_str (g_agent_id g)) (uuid_str (g_service_id g')) (uuid_str t) body)) service_token []).
Proof.
  intros Ha [_ Hkey _ _] H Hst Hin Hten Hp Hag Hw1 Hact ow.
  destruct (revoke_Ok agent_id permission_id w r w' H Hst) as (pid & aid & E1 & E2 & Eg & Ee & Es).
  rewrite Hp in E1. rewrite Hag in E2. injection E1 as <-. injection E2 as <-.
  destruct (transaction_issues t (g_agent_id g) Ht Ha body w1) as [H1|(rq & H1 & H2)]; [by left|right].
  exists rq. split; [exact H1|]. rewrite Hw1 in H2. destruct H2 as [(g' & I1 & I2 & I3 & I4 & I5 & _)|H2]; [right|left].
  - rewrite Eg in I1. apply filter_In in I1 as [I1 Hne]. exists g'. split; [done|]. split; [|done].
    intros Hs. enough (g' = g) as ->.
    { unfold named_grant in Hne. by rewrite Hten, !N.eqb_refl in Hne. }
    apply (NoDup_key_unique grant_key (permission_grants (w_base w))); [done..|].
    unfold grant_key. by rewrite I2, I3, I4, Hs, Hact, Hten.
  - destruct H2 as (M & P & eg & es & H2). split; [done|]. split; [done|]. exists eg, es. by rewrite Ee, Es in H2.
Qed.
End Revoke.

(** ** Resetting *)

Section Reset.
Context `{E : Env} `{V : Vault} `{Sha : Sha256}.
Context (t : uuid) (Ht : (t < uuid_limit)%N).
Implicit Types w : world.

(** The counters of a grant that the tenant sees. *)
Definition counters_of (pid : uuid) (d : db) : list counter_row :=
  List.filter (fun b => N.eqb (b_tenant_id b) t && N.eqb (b_permission_id b) pid) (budget_counters d).

Lemma latest_first_spec l :
  match fetchone (latest_first l) with
  | Some x => In x l /\ forall y, In y l -> (b_period_start y <= b_period_start x)%Z
  | None => l = []
  end.
Proof.
  pose proof (sort_by_first (fun a b => Z.leb (b_period_start b) (b_period_start a))) as H.
  specialize (H ltac:(intros; rewrite !Z.leb_le; lia) ltac:(intros ? ? ?; rewrite !Z.leb_le; lia) l). unfold latest_first. destruct (fetchone _); [|done].
  destruct H as [H1 H2]. split; [done|]. intros y Hy. apply H2 in Hy. lia.
Qed.

(** The row the reset writes to: the visible counter of the grant with the latest start. *)
Definition is_latest (pid : uuid) (d : db) (b : counter_row) : bool :=
  N.eqb (b_tenant_id b) t && N.eqb (b_permission_id b) pid
  && bool_decide (Some (b_period_start b) = b_period_start <$> fetchone (latest_first (counters_of pid d))).
Definition zeroed (b : counter_row) : counter_row :=
  CounterRow (b_permission_id b) (b_period_start b) (b_period_end b) (b_ceiling b) 0 (b_tenant_id b).

Lemma reset_latest_eff pid w u w' :
  in_tenant t w -> reset_latest pid w = (Ok u, w') ->
  in_tenant t w' /\
  budget_counters (w_db w') = map (fun b => if is_latest pid (w_db w) b then zeroed b else b) (budget_counters (w_db w)).
Proof.
  intros T H. apply execute_Ok in H as [_ H]. change (policy (tick w)) with (policy w) in H.
  rewrite (it_policy _ _ T) in H. cbn [mbind outcome_bind] in H. apply Ok_inj in H. injection H as _ <-.
  split; [by apply (in_tenant_kept _ w)|].
  assert (Hv : List.filter (fun b => N.eqb (b_permission_id b) pid)
      (visible budget_counters_t (fun r => N.eqb r t || false) (w_db w)) = counters_of pid (w_db w)).
  { unfold visible, counters_of. rewrite filter_filter. apply filter_ext. intros b.
    cbn [sees tb_tenant budget_counters_t]. by rewrite orb_false_r, andb_comm. }
  rewrite Hv. unfold update_db. cbn [set_db w_db]. db_fields. apply map_ext. intros b. unfold is_latest, zeroed. cbn [sees tb_tenant budget_counters_t].
  by rewrite orb_false_r, andb_assoc.
Qed.

Lemma reset_counter_Ok agent_id permission_id w r w' :
  transaction (reset_budget_counter t agent_id permission_id) w = (Ok r, w') -> status_code r = 200%Z ->
  exists pid, named_id (Admin.wire_to_db_uuid permission_id "perm") = Some pid /\
    budget_counters (w_base w') =
      map (fun b => if is_latest pid (w_base w) b then zeroed b else b) (budget_counters (w_base w)).
Proof.
  intros H Hst. apply transaction_Ok in H as (w1 & H & Hend). unfold reset_budget_counter in H.
  step H as u w2 H2. apply set_tenant_start in H2 as (T2 & B2 & D2 & _); [|done..].
  apply try_value_Ok in H as [H|(s & Es & H)]; [apply ret_Ok in H as [-> _]; discriminate|].
  step H as row w3 H3. destruct (reads_in_tenant _ t _ _ _ (reads_grant_by_id _ _) H3 T2) as (T3 & D3 & _).
  destruct row as [row|]; [|apply ret_Ok in H as [-> _]; discriminate].
  step H as now w4 H4. apply now_eff in H4 as (K4 & _ & D4).
  step H as pid w5 H5. apply bound_Ok in H5 as [Hpid ->].
  step H as u6 w6 H6. destruct (reset_latest_eff _ _ _ _ (in_tenant_kept _ _ _ K4 T3) H6) as (T6 & D6).
  step H as u7 w7 H7. apply audit_emit_eff in H7 as (K7 & _ & ev & _ & D7); [|done|apply uuid_opt_none].
  step H as u8 w8 H8. apply commit_eff in H8 as (B8 & X8 & _); [|by rewrite (kp_tx _ _ K7), (it_tx _ _ T6)].
  apply ret_Ok in H as [_ ->]. rewrite X8 in Hend. subst w'. exists pid. split; [by rewrite Es|].
  rewrite B8, D7. unfold append_event. db_fields. rewrite D6, D4, D3, D2. reflexivity.
Qed.

(** What the status shows as used. *)
Lemma budget_status_Ok agent_id permission_id w r w' :
  transaction (get_budget_status t agent_id permission_id) w = (Ok r, w') -> status_code r = 200%Z ->
  exists pid n j, named_id (Admin.wire_to_db_uuid permission_id "perm") = Some pid /\ content r = JObj j /\
    dict_get "used" j = Some (JInt
      match fetchone (latest_first (List.filter (covers (env_now n)) (counters_of pid (w_base w)))) with
      | Some b => b_used b
      | None => 0
      end).
Proof.
  intros H Hst. apply transaction_Ok in H as (w1 & H & _). unfold get_budget_status in H.
  step H as s w2 H2. apply lift_Ok in H2 as [Es ->].
  step H as u w2 H2. apply set_tenant_start in H2 as (T2 & B2 & D2 & _); [|done..].
  unfold with_budget in H. step H as row w3 H3.
  destruct (reads_in_tenant _ t _ _ _ (reads_grant_by_id _ _) H3 T2) as (T3 & D3 & _).
  destruct row as [row|]; [|apply ret_Ok in H as [-> _]; discriminate].
  step H as c w4 H4. apply lift_Ok in H4 as [_ ->]. step H as b w4 H4. apply lift_Ok in H4 as [_ ->].
  destruct (truthy b); [|apply ret_Ok in H as [-> _]; discriminate].
  step H as now w4 H4. pose proof H4 as H4'. apply now_Ok in H4' as [En _]. apply now_eff in H4 as (K4 & _ & D4).
  step H as counter w5 H5. unfold current_counter in H5. step H5 as pid w6 H6. apply bound_Ok in H6 as [Hpid ->].
  step H5 as rows w6 H6. apply select_eff in H6 as (_ & _ & _ & pol & Hp & Erows).
  rewrite (it_policy _ _ (in_tenant_kept _ _ _ K4 T3)) in Hp. apply Ok_inj in Hp. subst pol.
  apply ret_Ok in H5 as [Ec ->].
  assert (Er : rows = List.filter (covers now) (counters_of pid (w_base w))).
  { rewrite Erows, D4, D3, D2. unfold counters_of. rewrite filter_filter. apply filter_ext. intros b'.
    cbn [sees tb_tenant budget_counters_t]. destruct (N.eqb (b_tenant_id b') t), (N.eqb _ pid), (covers now b'); reflexivity. }
  step H as x w5 H5. apply lift_Ok in H5 as [Ex ->]. destruct x as [[[ceiling used] ps] pe].
  step H as rem w5 H5. apply lift_Ok in H5 as [_ ->]. step H as th w5 H5. apply lift_Ok in H5 as [_ ->].
  step H as per w5 H5. apply lift_Ok in H5 as [_ ->]. apply ret_Ok in H as [-> _].
  exists pid, (w_tick w3). eexists. split; [by rewrite Es|]. split; [reflexivity|].
  cbn [dict_get List.find fst String.eqb Ascii.eqb Bool.eqb]. cbn. do 2 f_equal. rewrite <- En, <- Er, <- Ec.
  destruct counter as [b'|]; [by injection Ex|].
  destruct (json_item "ceiling" b); [|done]. cbn [mbind outcome_bind] in Ex. destruct (json_item "period" b); [|done].
  cbn [mbind outcome_bind] in Ex. destruct (bounds_of _ now) as [[? ?]|]; [|done]. by injection Ex.
Qed.

Lemma counters_of_In pid d b : In b (counters_of pid d) <-> In b (budget_counters d) /\ b_tenant_id b = t /\ b_permission_id b = pid.
Proof. unfold counters_of. rewrite filter_In, andb_true_iff, !N.eqb_eq. tauto. Qed.

(** A counter reset takes effect.  After an accepted reset of a grant's counter, the budget status
    of the grant shows nothing used, whoever asks and whenever, until the proxy counts again: provided
    the counters of the grant are of disjoint periods, a counter ending before the next one starts, and
    none starts in the future.  (The reset writes to the counter that starts last, the status reads
    the one that covers the present.) *)
Theorem reset_counter_effective agent_id agent_id' permission_id pid w r w' w1 r1 w1' :
  named_id (Admin.wire_to_db_uuid permission_id "perm") = Some pid ->
  (forall b n, In b (counters_of pid (w_base w)) -> (b_period_start b <= env_now n)%Z) ->
  (forall b b', In b (counters_of pid (w_base w)) -> In b' (counters_of pid (w_base w)) ->
     (b_period_start b < b_period_start b')%Z -> (b_period_end b <= b_period_start b')%Z) ->
  transaction (reset_budget_counter t agent_id permission_id) w = (Ok r, w') -> status_code r = 200%Z ->
  budget_counters (w_base w1) = budget_counters (w_base w') ->
  transaction (get_budget_status t agent_id' permission_id) w1 = (Ok r1, w1') -> status_code r1 = 200%Z ->
  exists j, content r1 = JObj j /\ dict_get "used" j = Some (JInt 0).
Proof.
  intros Hp Hpast Hdis H Hst Hw1 H1 Hst1.
  destruct (reset_counter_Ok agent_id permission_id w r w' H Hst) as (pid' & Hp' & Ec). rewrite Hp in Hp'. injection Hp' as <-.
  destruct (budget_status_Ok agent_id' permission_id w1 r1 w1' H1 Hst1) as (pid' & n & j & Hp' & Ej & Eu).
  rewrite Hp in Hp'. injection Hp' as <-. exists j. split; [done|]. rewrite Eu. do 2 f_equal.
  pose proof (latest_first_spec (List.filter (covers (env_now n)) (counters_of pid (w_base w1)))) as Hl.
  destruct (fetchone _) as [b'|]; [|done]. destruct Hl as [Hin _]. apply filter_In in Hin as [Hin Hcov].
  apply counters_of_In in Hin as (Hin & Hten & Hpid). rewrite Hw1, Ec in Hin. apply in_map_iff in Hin as (b & Eb & Hin).
  destruct (is_latest pid (w_base w) b) eqn:El; [by subst b'|subst b'; exfalso].
  assert (Hb : In b (counters_of pid (w_base w))) by (by apply counters_of_In).
  unfold is_latest in El. rewrite Hten, Hpid, !N.eqb_refl in El. cbn [andb] in El. apply bool_decide_eq_false in El.
  pose proof (latest_first_spec (counters_of pid (w_base w))) as Hl. destruct (fetchone _) as [l|]; [|by rewrite Hl in Hb].
  destruct Hl as [Hl Hmax]. specialize (Hmax b Hb). apply andb_true_iff in Hcov as [C1 C2].
  assert (b_period_start b <> b_period_start l) by (intros E1; apply El; cbn; by rewrite E1).
  pose proof (Hdis b l Hb Hl ltac:(lia)). pose proof (Hpast l n Hl). lia.
Qed.
End Reset.

(** ** Witnesses *)

Section Witnesses.
#[local] Existing Instance demo_env.
#[local] Existing Instance demo_vault.
#[local] Existing Instance toy_sha256.

Definition demo_grant : grant_row := GrantRow 9 1 6 8 "read" (JObj []) 1700000000000000 2.

Lemma demo_permissions_ok : permissions_ok demo_db.
Proof. split; [apply NoDup_ListNoDup, (bool_decide_unpack _); reflexivity..|]. intros b []. Qed.

(** The state after the revocation. *)
Definition demo_revoked : outcome response * world :=
  transaction (revoke_permission 1 (wire 6 "agent") (wire 9 "perm")) demo_world.

Lemma revoke_stops_tokens_witness :
  let w1 := snd demo_revoked in
  let ow := transaction (request_token (Some (AgentContext (uuid_str 6) (uuid_str 1))) demo_request) w1 in
  (calls (snd ow) = calls w1 /\ forall r', fst ow = Ok r' -> status_code r' <> 200%Z) \/
  exists rq, calls (snd ow) = (calls w1 ++ [rq])%list /\
    (email_call 1 6 demo_request demo_db rq \/
     exists g', In g' (permission_grants demo_db) /\ g_service_id g' <> 8%N /\
       rq = HttpRequest "POST" (broker_url +:+ "/v1/issue")
         (JObj (broker_payload (uuid_str 6) (uuid_str (g_service_id g')) (uuid_str 1) demo_request)) service_token []).
Proof.
  destruct (run_returns (transaction (revoke_permission 1 (wire 6 "agent") (wire 9 "perm")))
              (fun r => Z.eqb (status_code r) 204) demo_world) as (r & Hr & Hrun); [vm_compute; reflexivity|].
  apply Z.eqb_eq in Hr.
  exact (revoke_stops_tokens 1 eq_refl (wire 6 "agent") (wire 9 "perm") demo_world r (snd demo_revoked) demo_grant
    demo_request (snd demo_revoked) eq_refl demo_permissions_ok Hrun Hr (or_introl eq_refl) eq_refl
    ltac:(vm_compute; reflexivity) ltac:(vm_compute; reflexivity) eq_refl eq_refl).
Defined.

(** The demonstration tenant with a daily budget on its grant, of which 7 requests are used. *)
Definition demo_budget_db : db :=
  tb_set permission_grants_t
    [GrantRow 9 1 6 8 "read" (JObj [("budget", JObj [("ceiling", JInt 100); ("period", JStr "daily")])]) 1700000000000000 2]
  (tb_set budget_counters_t [CounterRow 9 1699920000000000 1700006400000000 100 7 1] demo_db).
Definition demo_budget_world : world :=
  World demo_vault demo_budget_db demo_budget_db TxDone None false [] [] ∅ 0 empty_process.
Definition demo_reset : outcome response * world :=
  transaction (reset_budget_counter 1 (wire 6 "agent") (wire 9 "perm")) demo_budget_world.

Lemma reset_counter_effective_witness :
  exists r j, fst (transaction (get_budget_status 1 (wire 6 "agent") (wire 9 "perm")) (snd demo_reset)) = Ok r /\
    content r = JObj j /\ dict_get "used" j = Some (JInt 0).
Proof.
  destruct (run_returns (transaction (reset_budget_counter 1 (wire 6 "agent") (wire 9 "perm")))
              (fun r => Z.eqb (status_code r) 200) demo_budget_world) as (r & Hr & Hrun); [vm_compute; reflexivity|].
  destruct (run_returns (transaction (get_budget_status 1 (wire 6 "agent") (wire 9 "perm")))
              (fun r => Z.eqb (status_code r) 200) (snd demo_reset)) as (r1 & Hr1 & Hrun1); [vm_compute; reflexivity|].
  apply Z.eqb_eq in Hr, Hr1. exists r1.
  assert (Hn : named_id (Admin.wire_to_db_uuid (wire 9 "perm") "perm") = Some 9%N) by (vm_compute; reflexivity).
  assert (Hone : forall b, In b (counters_of 1 9 (w_base demo_budget_world)) ->
    b = CounterRow 9 1699920000000000 1700006400000000 100 7 1) by (intros b [<-|[]]; reflexivity).
  assert (Hpast : forall b n, In b (counters_of 1 9 (w_base demo_budget_world)) -> (b_period_start b <= env_now n)%Z)
    by (intros b n Hb; rewrite (Hone b Hb); cbn [b_period_start env_now demo_env]; unfold demo_now; lia).
  assert (Hdis : forall b b', In b (counters_of 1 9 (w_base demo_budget_world)) ->
      In b' (counters_of 1 9 (w_base demo_budget_world)) -> (b_period_start b < b_period_start b')%Z ->
      (b_period_end b <= b_period_start b')%Z) by (intros b b' Hb Hb'; rewrite (Hone b Hb), (Hone b' Hb'); lia).
  destruct (reset_counter_effective 1 eq_refl (wire 6 "agent") (wire 6 "agent") (wire 9 "perm") 9 demo_budget_world r
    (snd demo_reset) (snd demo_reset) r1 (snd (transaction (get_budget_status 1 (wire 6 "agent") (wire 9 "perm")) (snd demo_reset)))
    Hn Hpast Hdis Hrun Hr eq_refl Hrun1 Hr1) as (j & Hj). exists j. split; [by rewrite Hrun1|done].
Defined.
End Witnesses.
