(* ===== verification/KeysSafety.v ===== *)
(** * What the agent and API key handlers preserve

    Tenant isolation, the audit chains and the shape of the key data: what is
    stored of a key is the fingerprint and an Argon2id hash of one plaintext,
    identifiers and fingerprints are distinct, an expiry is after the
    creation, and the agent of an API key exists in the key's tenant. *)

From S2P Require Import Prelude PyStr PyJson PyJsonFacts PyTime Periods PyText PyCodecs WireIds AuditHash AuditChain Constraints.
From S2P Require Import Like Vault Tables Database Logic Ulid PublicUrls Demo Keys Sessions AuditEmit AgentSecrets.
From S2P Require Import SecretTools SecretsSafety Permissions Budgets PermissionsSafety Agents ApiKeys.

Local Open Scope string_scope.
Local Open Scope py_scope.

(** ** The relation *)

(** The two states agree on everything that is not of tenant [t]'s agents, API keys and events. *)
Record keys_isolated (t : uuid) (d d' : db) : Prop := {
  ki_agents : not_of a_tenant_id t (agents d') = not_of a_tenant_id t (agents d);
  ki_keys : not_of y_tenant_id t (service_api_keys d') = not_of y_tenant_id t (service_api_keys d);
  ki_events : not_of e_tenant_id t (audit_events d') = not_of e_tenant_id t (audit_events d);
  ki_heads : not_of c_tenant_id t (audit_chain_state d') = not_of c_tenant_id t (audit_chain_state d);
  ki_rest : (tenants d', operators d', sessions d', services d', permission_grants d') =
            (tenants d, operators d, sessions d, services d, permission_grants d);
  ki_rest' : (email_services d', email_permission_grants d', agent_secrets d', agent_secret_grants d', budget_counters d') =
             (email_services d, email_permission_grants d, agent_secrets d, agent_secret_grants d, budget_counters d);
  ki_platform : platform_tables d' = platform_tables d }.

(** What is stored of a key: the fingerprint and an Argon2id hash of one plaintext. *)
Definition issued_pair `{Sha256} `{Argon2} (fp h : string) : Prop :=
  exists k p n, fp = _fingerprint k /\ h = argon2_hash p n k.

Record agent_key_ok `{Sha256} `{Argon2} (a : agent_row) : Prop := {
  ak_pair : issued_pair (a_api_key_fingerprint a) (a_api_key_hash a);
  ak_checks : first_violation (agents_checks a) = None }.
Record api_key_ok `{Sha256} `{Argon2} (d : db) (y : api_key_row) : Prop := {
  yk_pair : issued_pair (y_key_fingerprint y) (y_key_hash y);
  yk_checks : first_violation (api_keys_checks y) = None;
  yk_agent : exists a, In a (agents d) /\ a_id a = y_agent_id y /\ a_tenant_id a = y_tenant_id y }.

Record keys_ok `{Sha256} `{Argon2} (d : db) : Prop := {
  ko_agents : List.NoDup (map a_id (agents d));
  ko_keys : List.NoDup (map y_id (service_api_keys d));
  ko_fps : List.NoDup (map y_key_fingerprint (service_api_keys d));
  ko_agent : Forall agent_key_ok (agents d);
  ko_key : Forall (api_key_ok d) (service_api_keys d) }.

Definition keys_confined `{Sha256} `{Argon2} `{Env} (t : uuid) (d d' : db) : Prop :=
  chains_kept d d' /\ keys_isolated t d d' /\ (keys_ok d -> keys_ok d').

#[export] Instance keys_confined_preorder `{Sha256} `{Argon2} `{Env} t : PreOrder (keys_confined t).
Proof.
  split.
  - intros d. split; [reflexivity|]. by split.
  - intros d1 d2 d3 (C1 & I1 & O1) (C2 & I2 & O2). split; [by transitivity d2|]. split; [|by intros Hk; apply O2, O1].
    destruct I1, I2. split; congruence.
Qed.

(** ** The statements *)

Section Steps.
Context `{E : Env} `{V : Vault} `{Sha : Sha256} `{Arg : Argon2}.
Context (t : uuid) (Ht : (t < uuid_limit)%N).
Abbreviation conf := (keys_confined t).

Lemma keys_confined_of d d' :
  audit_events d' = audit_events d -> audit_chain_state d' = audit_chain_state d ->
  keys_isolated t d d' -> (keys_ok d -> keys_ok d') -> conf d d'.
Proof.
  intros E1 E2 HI HK. split; [|done]. intros u Hu [H1 H2 H3].
  split; unfold chain_state_of, events_of in *; by rewrite ?E1, ?E2.
Qed.

Lemma first_violation_app a b : first_violation (a ++ b) = None <-> first_violation a = None /\ first_violation b = None.
Proof. induction a as [|[c []] a IH]; cbn [app first_violation]; [tauto|done|]. split; [done|by intros [H _]]. Qed.
Lemma first_violation_flat {R} (checks : R -> list (string * bool)) l :
  first_violation (flat_map checks l) = None -> forall r, In r l -> first_violation (checks r) = None.
Proof.
  induction l as [|x l IH]; [done|]. cbn [flat_map]. rewrite first_violation_app. intros [H1 H2] r [<-|Hr]; [done|by apply IH].
Qed.

Lemma confined_insert_agent r d d' :
  a_tenant_id r = t -> issued_pair (a_api_key_fingerprint r) (a_api_key_hash r) ->
  insert_db agents_t r d = Ok d' -> conf d d'.
Proof.
  intros Hr Hp H. unfold insert_db in H. destruct (tb_check agents_t d r) eqn:Ec; [done|].
  apply Ok_inj in H. subst d'. cbn [tb_check agents_t] in Ec. apply first_violation_app in Ec as [Ec Hch].
  cbn [first_violation] in Ec. destruct (fresh a_id (a_id r) _) eqn:Ef; [|done]. apply fresh_spec in Ef.
  apply keys_confined_of; [done..| |].
  - split; db_fields; try done. by apply not_of_snoc.
  - intros [Ha Hk Hfp Hag Hky]. split; db_fields; try done.
    + rewrite map_app. by apply NoDup_snoc.
    + apply Forall_app. split; [done|]. by repeat constructor.
    + eapply List.Forall_impl; [|exact Hky]. intros y [P1 P2 (a & A1 & A2)]. split; [done..|]. exists a.
      split; [|done]. db_fields. apply in_or_app. by left.
Qed.

Lemma confined_update_agents p f d :
  (forall r, p r = true -> a_tenant_id r = t) ->
  (forall r, a_id (f r) = a_id r /\ a_tenant_id (f r) = a_tenant_id r) ->
  (forall r, agent_key_ok r -> issued_pair (a_api_key_fingerprint (f r)) (a_api_key_hash (f r))) ->
  first_violation (flat_map (fun r => agents_checks (f r)) (List.filter p (agents d))) = None ->
  conf d (update_db agents_t p f d).
Proof.
  intros Hp Hf Hpair Hch. unfold update_db. apply keys_confined_of; [done..| |].
  - split; db_fields; try done.
    apply not_of_map; intros r; destruct (p r) eqn:Er; try done; [by intros; apply Hf|]. intros Hne. by apply Hp in Er.
  - intros [Ha Hk Hfp Hag Hky]. split; db_fields; try done.
    + rewrite map_map. erewrite map_ext; [exact Ha|]. intros r. destruct (p r); [by apply Hf|done].
    + apply List.Forall_forall. intros r Hr. apply in_map_iff in Hr as (x & <- & Hx). rewrite List.Forall_forall in Hag.
      destruct (p x) eqn:Ex; [|by apply Hag]. split; [by apply Hpair, Hag|].
      apply (first_violation_flat _ _ Hch), filter_In. done.
    + eapply List.Forall_impl; [|exact Hky]. intros y [P1 P2 (a & A1 & A2 & A3)]. split; [done..|].
      exists (if p a then f a else a). split; [db_fields; apply in_map_iff; by exists a|]. destruct (p a); [|done].
      destruct (Hf a) as [-> ->]. done.
Qed.

(** A row that an API key still names is not deleted. *)
Lemma confined_delete_agents p d :
  (forall r, p r = true -> a_tenant_id r = t) ->
  first_reference (agents_references d) (map a_id (List.filter p (agents d))) = None ->
  conf d (delete_db agents_t p d).
Proof.
  intros Hp Href. unfold delete_db. apply keys_confined_of; [done..| |].
  - split; db_fields; try done. apply not_of_filter. intros r _ Hr. destruct (p r) eqn:Er; [by apply Hp in Er|done].
  - intros [Ha Hk Hfp Hag Hky]. split; db_fields; try done; [by apply NoDup_map_filter|..].
    + apply List.Forall_forall. intros r Hr. apply filter_In in Hr as [Hr _]. rewrite List.Forall_forall in Hag. by apply Hag.
    + apply List.Forall_forall. intros y Hy. rewrite List.Forall_forall in Hky. destruct (Hky y Hy) as [P1 P2 (a & A1 & A2 & A3)].
      split; [done..|]. exists a. split; [|done]. db_fields. apply filter_In. split; [done|].
      destruct (p a) eqn:Ea; [exfalso|done].
      assert (Hno : agents_references d (a_id a) = None).
      { assert (Hin : In (a_id a) (map a_id (List.filter p (agents d)))) by (apply in_map, filter_In; done).
        revert Href Hin. generalize (map a_id (List.filter p (agents d))). clear. intros l. induction l as [|i l IH]; [done|].
        cbn [first_reference]. destruct (agents_references d i) eqn:Ei; [done|]. intros H [->|Hin]; [done|by apply IH]. }
      unfold agents_references in Hno. cbn [first_violation] in Hno. destruct (fresh g_agent_id _ _); [|done].
      destruct (fresh y_agent_id (a_id a) (service_api_keys d)) eqn:Ef; [|done]. apply fresh_spec in Ef. apply Ef.
      rewrite A2. by apply in_map.
Qed.

(** The agent of a key is in its tenant: it is there, or a key of the tenant already names it. *)
Definition agent_here (aid : uuid) (d : db) : Prop :=
  (exists a, In a (agents d) /\ a_id a = aid /\ a_tenant_id a = t) \/
  (exists y, In y (service_api_keys d) /\ y_agent_id y = aid /\ y_tenant_id y = t).

Lemma agent_here_row aid d : keys_ok d -> agent_here aid d -> exists a, In a (agents d) /\ a_id a = aid /\ a_tenant_id a = t.
Proof.
  intros [_ _ _ _ Hky] [H|(y & Hy & Ea & Et)]; [done|]. rewrite List.Forall_forall in Hky.
  destruct (Hky y Hy) as [_ _ (a & A1 & A2 & A3)]. exists a. by rewrite A2, A3.
Qed.

Lemma confined_insert_key y d d' :
  y_tenant_id y = t -> issued_pair (y_key_fingerprint y) (y_key_hash y) -> agent_here (y_agent_id y) d ->
  insert_db service_api_keys_t y d = Ok d' -> conf d d'.
Proof.
  intros Hy Hp Hag H. unfold insert_db in H. destruct (tb_check service_api_keys_t d y) eqn:Ec; [done|].
  apply Ok_inj in H. subst d'. cbn [tb_check service_api_keys_t] in Ec. apply first_violation_app in Ec as [Ec Hch].
  cbn [first_violation] in Ec. destruct (fresh y_id (y_id y) _) eqn:Ef; [|done]. apply fresh_spec in Ef.
  destruct (forallb _ _) eqn:Efp; [|done]. clear Ec. apply keys_confined_of; [done..| |].
  - split; db_fields; try done. by apply not_of_snoc.
  - intros Hok. pose proof (agent_here_row _ _ Hok Hag) as (a & A1 & A2 & A3). destruct Hok as [Ha Hk Hfp Hags Hky].
    split; db_fields; try done.
    + rewrite map_app. by apply NoDup_snoc.
    + rewrite map_app. apply NoDup_snoc; [done|]. intros Hin. apply in_map_iff in Hin as (y' & E1 & Hy').
      rewrite forallb_forall in Efp. apply Efp in Hy'. by rewrite E1, String.eqb_refl in Hy'.
    + apply Forall_app. split.
      * eapply List.Forall_impl; [|exact Hky]. intros y' [P1 P2 P3]. by split.
      * repeat constructor; [done..|]. exists a. by rewrite Hy.
Qed.

Lemma confined_update_keys p f d :
  (forall y, p y = true -> y_tenant_id y = t) ->
  (forall y, (y_id (f y), y_tenant_id (f y), y_agent_id (f y), y_key_fingerprint (f y), y_key_hash (f y)) =
             (y_id y, y_tenant_id y, y_agent_id y, y_key_fingerprint y, y_key_hash y)) ->
  first_violation (flat_map (fun y => api_keys_checks (f y)) (List.filter p (service_api_keys d))) = None ->
  conf d (update_db service_api_keys_t p f d).
Proof.
  intros Hp Hf Hch. unfold update_db.
  assert (Hm : forall {A} (g : api_key_row -> A), (forall y, g (f y) = g y) ->
    map g (map (fun y => if p y then f y else y) (service_api_keys d)) = map g (service_api_keys d)).
  { intros A g Hg. rewrite map_map. apply map_ext. intros y. by destruct (p y). }
  apply keys_confined_of; [done..| |].
  - split; db_fields; try done. apply not_of_map; intros y; destruct (p y) eqn:Ey; try done.
    + by injection (Hf y).
    + intros Hne. by apply Hp in Ey.
  - intros [Ha Hk Hfp Hags Hky]. split; db_fields; try done.
    + rewrite Hm; [done|]. intros y. by injection (Hf y).
    + rewrite Hm; [done|]. intros y. by injection (Hf y).
    + apply List.Forall_forall. intros y Hy. apply in_map_iff in Hy as (x & <- & Hx). rewrite List.Forall_forall in Hky.
      destruct (Hky x Hx) as [P1 P2 P3]. destruct (p x) eqn:Ex; [|by split].
      injection (Hf x) as F1 F2 F3 F4 F5. split; [by rewrite F4, F5| |db_fields; by rewrite F2, F3].
      apply (first_violation_flat _ _ Hch), filter_In. done.
Qed.

Lemma keys_confined_event r d : e_tenant_id r = t -> chains_kept d (append_event t r d) -> conf d (append_event t r d).
Proof.
  intros Er Hc. split; [done|]. split.
  - unfold append_event. split; db_fields; try done; [by apply not_of_snoc|].
    apply not_of_map; intros c; destruct (N.eqb_spec (c_tenant_id c) t); done.
  - unfold append_event. intros [Ha Hk Hfp Hags Hky]. split; db_fields; try done.
    eapply List.Forall_impl; [|exact Hky]. intros y [P1 P2 P3]. by split.
Qed.
End Steps.

(** ** The handlers *)

Section Handlers.
Context `{E : Env} `{V : Vault} `{Sha : Sha256} `{Arg : Argon2}.
Context (t : uuid) (Ht : (t < uuid_limit)%N).
Abbreviation conf := (keys_confined t).
Abbreviation here := (tenant_is (uuid_str t)).

Lemma emit_keys G event_type actor actor_type target target_type payload :
  uuid_opt_ok actor -> json_wf (JObj payload) ->
  respects conf G (audit_emit t event_type actor actor_type target target_type payload).
Proof.
  intros Ha Hw. apply audit_emit_rule; [apply _|done..|]. intros d r Hr.
  apply keys_confined_event; [by apply (em_tenant _ _ _ _ _ _ _ _ _ Hr)|]. by eapply append_event_chain.
Qed.

Lemma keys_try_value {A B} G (o : outcome A) (on_error : M B) (k : A -> M B) :
  safe conf G on_error -> (forall a, o = Ok a -> safe conf G (k a)) -> safe conf G (try_value o on_error k).
Proof. intros H1 H2. destruct o as [a|[]]; cbn [try_value]; auto using safe_raise. Qed.

Lemma keys_bound_opt G o : respects conf G (bound_opt o).
Proof. unfold bound_opt. repeat preserved_step. Qed.
Lemma keys_bound_int4 G j : respects conf G (bound_int4 j).
Proof. unfold bound_int4. repeat preserved_step. Qed.
Lemma keys_notify G c p : respects conf G (notify_change c p).
Proof. apply respects_notify, _. Qed.
Lemma keys_new_id G p : respects conf G (new_id p).
Proof. unfold new_id. repeat preserved_step. Qed.
Lemma keys_agent_by_id G s : respects conf G (agent_by_id s t).
Proof. unfold agent_by_id. repeat preserved_step. Qed.
Lemma keys_varchar G n s : respects conf G (varchar n s).
Proof. apply respects_varchar, _. Qed.

Lemma keys_generate G : respects conf G _generate_agent_api_key.
Proof.
  unfold _generate_agent_api_key. apply respects_bind; [apply respects_random_key, _|intros k].
  apply respects_bind; [apply respects_ph_hash, _|intros h]. apply respects_ret.
Qed.
Lemma generated_pair w k h f w' : _generate_agent_api_key w = (Ok (k, h, f), w') -> issued_pair f h.
Proof.
  intros H. unfold _generate_agent_api_key in H. step H as p w1 H1. step H as h' w2 H2.
  apply ph_hash_eff in H2 as (_ & _ & _ & ->). apply ret_Ok in H as [H _]. injection H as -> -> ->.
  by exists p, DefaultParams, (w_tick w1).
Qed.

Lemma keys_update_agent s f :
  (forall r, a_id (f r) = a_id r /\ a_tenant_id (f r) = a_tenant_id r) ->
  (forall r, agent_key_ok r -> issued_pair (a_api_key_fingerprint (f r)) (a_api_key_hash (f r))) ->
  respects conf here (update_agent s t f).
Proof.
  intros Hf Hp. unfold update_agent. apply respects_bind; [apply respects_bound|intros aid]. rewrite bound_str, bind_ret by done.
  apply respects_update_checked; [apply _|]. intros w pol d HG Hpol Hch. apply confined_update_agents; try done.
  intros r Hr. apply andb_true_iff in Hr as [Hr _]. by apply (tenant_policy t Ht w pol HG Hpol).
Qed.

Lemma keys_set_revoked s now : respects conf here (update_agent s t (set_revoked now)).
Proof. apply keys_update_agent; [done|]. by intros r []. Qed.
Lemma keys_set_pubkey s k now : respects conf here (update_agent s t (set_pubkey k now)).
Proof. apply keys_update_agent; [done|]. by intros r []. Qed.

Lemma keys_delete_agents p : respects conf here (delete_restricted agents_t a_id agents_references p).
Proof.
  apply respects_delete_restricted; [apply _|]. intros w pol d HG Hpol Href. apply confined_delete_agents; [|done].
  intros r Hr. apply andb_true_iff in Hr as [Hr _]. by apply (tenant_policy t Ht w pol HG Hpol).
Qed.

Lemma expiry_wf o : json_wf (expiry_json o).
Proof. by destruct o. Qed.
Lemma opt_text_wf o : json_wf (opt_json o).
Proof. by destruct o. Qed.

Ltac key_fields :=
  apply json_wf_obj; split; [apply NoDup_ListNoDup, (bool_decide_unpack _); reflexivity|];
  repeat apply Forall_cons_2; try apply Forall_nil_2; cbn [snd];
  first [exact I | apply expiry_wf | apply opt_text_wf | apply strings_wf].

Ltac key_step :=
  first
    [ lazymatch goal with
      | |- safe _ _ (try_value _ _ _) => apply keys_try_value; [|intros ? ?]
      | |- safe _ _ (bind (lift _) _) => apply safe_lift; intros ? ?
      | |- respects _ _ (bound_opt _) => apply keys_bound_opt
      | |- respects _ _ (bound_int4 _) => apply keys_bound_int4
      | |- respects _ _ (varchar _ _) => apply keys_varchar
      | |- respects _ _ (notify_change _ _) => apply keys_notify
      | |- respects _ _ (agent_by_id _ _) => apply keys_agent_by_id
      | |- respects _ _ (new_id _) => apply keys_new_id
      | |- respects _ _ _new_agent_id => apply keys_new_id
      | |- respects _ _ transaction_timestamp => apply respects_now
      | |- respects _ _ _generate_agent_api_key => apply keys_generate
      | |- respects _ _ (update_agent _ _ (set_revoked _)) => apply keys_set_revoked
      | |- respects _ _ (update_agent _ _ (set_pubkey _ _)) => apply keys_set_pubkey
      | |- respects _ _ (delete_restricted _ _ _ _) => apply keys_delete_agents
      | |- respects _ _ (audit_emit _ _ _ _ _ _ _) => apply emit_keys; [done|]
      end
    | preserved_step ].

Ltac open_keys := rewrite ?(bound_str t), ?bind_ret by done; repeat key_step; try done.

Lemma keys_list_agents q svc : safe conf no_guc (list_agents t q svc).
Proof. unfold list_agents. open_keys. Qed.
Lemma keys_get_agent s : safe conf no_guc (get_agent t s).
Proof. unfold get_agent. open_keys. Qed.
Lemma keys_revoke_agent s : safe conf no_guc (revoke_agent t s).
Proof. unfold revoke_agent. open_keys. key_fields. Qed.
Lemma keys_delete_agent s : safe conf no_guc (delete_agent t s).
Proof. unfold delete_agent. open_keys. key_fields. Qed.

Lemma keys_pubkey s k : safe conf no_guc (set_agent_ssh_pubkey t s k).
Proof. unfold set_agent_ssh_pubkey. open_keys.
  all: match goal with |- context [match ?x with Some f => [("old_fingerprint", JStr f)] | None => [] end] => destruct x end; key_fields.
Qed.

Lemma keys_rotate_agent s e : safe conf no_guc (rotate_agent_key t s e).
Proof.
  unfold rotate_agent_key. apply keys_try_value; [apply safe_ret|intros aid _]. apply safe_set_tenant; [by intros ? ? [_ ?]|].
  apply safe_bind; [apply keys_agent_by_id|intros [row|]]; [|apply safe_ret]. apply safe_bind; [apply respects_now|intros now].
  apply keys_try_value; [apply safe_ret|intros expires _].
  apply (safe_bind_value conf here (fun key => issued_pair (snd key) (snd (fst key)))); [apply keys_generate| |].
  { intros w [[k h] f] w1. apply generated_pair. }
  intros [[k h] f] Hp. cbn [fst snd] in Hp. apply safe_bind; [apply keys_bound_int4|intros ver].
  apply safe_bind; [by apply keys_update_agent|intros _]. open_keys. key_fields.
Qed.

Lemma keys_create_agent body : safe conf no_guc (create_agent t body).
Proof.
  unfold create_agent. apply safe_set_tenant; [by intros ? ? [_ ?]|]. apply safe_bind; [apply respects_now|intros t0].
  apply keys_try_value; [apply safe_ret|intros expires _]. apply safe_bind; [apply keys_new_id|intros agent_id].
  apply safe_lift. intros iid _. apply safe_bind; [apply respects_now|intros now].
  apply (safe_bind_value conf here (fun key => issued_pair (snd key) (snd (fst key)))); [apply keys_generate| |].
  { intros w [[k h] f] w1. apply generated_pair. }
  intros [[k h] f] Hp. cbn [fst snd] in Hp. apply safe_bind; [apply respects_bound|intros id].
  rewrite (bound_str t), bind_ret by done. apply safe_bind; [repeat key_step|intros rps].
  apply safe_bind; [apply keys_varchar|intros _].
  apply safe_bind; [apply respects_insert; [apply _|]; intros d d'; by apply confined_insert_agent|intros _].
  open_keys. key_fields.
Qed.

Lemma keys_agents_handler rq : safe conf no_guc (agents_handler t rq).
Proof.
  destruct rq; cbn [agents_handler];
    auto using keys_create_agent, keys_list_agents, keys_get_agent, keys_revoke_agent, keys_rotate_agent, keys_pubkey, keys_delete_agent.
Qed.
(** ** API keys *)

Lemma reads_new_id p : reads (new_id p).
Proof.
  apply reads_bind; [apply reads_time|intros ?]. apply reads_bind; [apply reads_uuid4|intros ?]. apply reads_ret.
Qed.

Lemma reads_api_key_service s : reads (api_key_service t s).
Proof.
  unfold api_key_service. destruct (startswith s "svc_"); [|apply reads_ret].
  assert (Hraise : forall e, reads (raise e : M (string + response))) by (intros e; apply (reads_lift (Raise e))).
  destruct (Admin._wire_id_to_uuid s "svc_") as [u|[]]; try apply Hraise; try apply reads_ret.
  do 2 (apply reads_bind; [apply reads_bound|intros ?]). apply reads_bind; [apply reads_select|intros rows].
  destruct (fetchone rows); [apply reads_ret|]. apply reads_bind; [apply reads_bound|intros ?].
  apply reads_bind; [apply reads_select|intros rows']. destruct (fetchone rows'); apply reads_ret.
Qed.

Lemma reads_admin_settings : reads admin_settings_value.
Proof. apply reads_execute. intros w a w' H. destruct env_admin_settings; [|done]. apply Ok_inj in H. by injection H as _ <-. Qed.
Lemma reads_read_settings : reads read_settings.
Proof.
  apply reads_bind; [apply reads_admin_settings|intros [v|]]; [|apply reads_ret].
  do 2 (apply reads_bind; [apply reads_lift|intros ?]). apply reads_ret.
Qed.

Lemma keys_settings G : respects conf G _load_api_key_settings.
Proof.
  unfold _load_api_key_settings. apply respects_bind; [|intros; apply respects_ret].
  apply respects_catch; [|intros; apply respects_ret]. apply respects_begin_nested; [apply _| |apply reads_read_settings].
  unfold read_settings. apply respects_bind.
  { apply respects_execute; [apply _|]. intros w a w' _ H. destruct env_admin_settings; [|done]. apply Ok_inj in H. by injection H as _ <-. }
  intros [v|]; repeat preserved_step.
Qed.

Lemma still_settings : still _load_api_key_settings.
Proof.
  unfold _load_api_key_settings. apply still_bind; [|done]. apply still_catch; [|done]. apply still_nested.
  unfold read_settings. apply still_bind.
  { apply still_execute. intros w a w' H. destruct env_admin_settings; [|done]. apply Ok_inj in H. by injection H as _ <-. }
  intros [v|]; [|done]. apply still_bind; [done|intros ?]. by apply still_bind.
Qed.

Lemma reads_check_policy st body : reads (_check_policy st body).
Proof.
  unfold _check_policy. destruct (yc_expires_at body).
  - apply reads_bind; [apply reads_now|intros ?]. apply reads_bind; [apply reads_lift|intros ?].
    repeat match goal with |- reads (if ?b then _ else _) => destruct b end; apply reads_ret.
  - repeat match goal with |- reads (if ?b then _ else _) => destruct b end; apply reads_ret.
Qed.

Lemma keys_items G item rows : respects conf G (key_items item rows).
Proof.
  induction rows as [|r rows IH]; cbn [key_items]; [apply respects_ret|].
  apply respects_bind; [unfold key_status; repeat preserved_step|intros st].
  apply respects_bind; [apply respects_lift|intros c]. apply respects_bind; [exact IH|intros items]. apply respects_ret.
Qed.

Lemma keys_api_key_by_id G s kid : respects conf G (api_key_by_id s t kid).
Proof. unfold api_key_by_id. repeat preserved_step. Qed.

Lemma keys_update_keys p f :
  (forall y, (y_id (f y), y_tenant_id (f y), y_agent_id (f y), y_key_fingerprint (f y), y_key_hash (f y)) =
             (y_id y, y_tenant_id y, y_agent_id y, y_key_fingerprint y, y_key_hash y)) ->
  respects conf here (update_checked service_api_keys_t api_keys_checks p f).
Proof.
  intros Hf. apply respects_update_checked; [apply _|]. intros w pol d HG Hpol Hch. apply confined_update_keys; try done.
  intros r Hr. apply andb_true_iff in Hr as [Hr _]. by apply (tenant_policy t Ht w pol HG Hpol).
Qed.

Lemma keys_list_api_keys s q svc : safe conf no_guc (list_api_keys t s q svc).
Proof.
  unfold list_api_keys. apply keys_try_value; [apply safe_ret|intros u _]. apply safe_set_tenant; [by intros ? ? [_ ?]|].
  open_keys. apply keys_items.
Qed.
Lemma keys_list_tenant_api_keys q svc : safe conf no_guc (list_tenant_api_keys t q svc).
Proof. unfold list_tenant_api_keys. open_keys. apply keys_items. Qed.

Lemma keys_get_api_key s kid : safe conf no_guc (get_api_key t s kid).
Proof.
  unfold get_api_key. apply keys_try_value; [apply safe_ret|intros u _]. apply safe_set_tenant; [by intros ? ? [_ ?]|].
  apply safe_bind; [apply keys_api_key_by_id|intros row]. open_keys.
Qed.

Lemma keys_revoke_api_key s kid reason : safe conf no_guc (revoke_api_key t s kid reason).
Proof.
  unfold revoke_api_key. apply keys_try_value; [apply safe_ret|intros u _]. apply safe_set_tenant; [by intros ? ? [_ ?]|].
  apply safe_bind; [apply keys_api_key_by_id|intros [row|]]; [|apply safe_ret]. destruct (y_revoked_at row); [apply safe_ret|].
  apply safe_bind; [apply respects_now|intros now]. apply safe_bind; [apply respects_bound|intros k].
  rewrite (bound_str t), bind_ret by done. apply safe_bind; [by apply keys_update_keys|intros _]. open_keys. key_fields.
Qed.

(** The agent a path names is in the tenant. *)
Definition agent_at (s : string) (d : db) : Prop :=
  match bind_uuid s with Some aid => agent_here t aid d | None => True end.

Lemma agent_by_id_at s w row w1 : agent_by_id s t w = (Ok row, w1) ->
  match row with Some _ => agent_at s (w_db w) | None => True end.
Proof.
  intros H. unfold agent_by_id in H. step H as aid w2 Hr. apply bound_Ok in Hr as [Hs ->].
  rewrite (bound_str t), bind_ret in H by done. step H as rows w2 Hr.
  apply select_eff in Hr as (_ & _ & _ & pol & _ & ->). apply ret_Ok in H as [-> _]. unfold agent_at. rewrite Hs.
  unfold fetchone. rewrite head_filter_find. destruct (List.find _ _) as [a|] eqn:Ea; [|done].
  apply List.find_some in Ea as [Hin Ha]. apply andb_true_iff in Ha as [_ Ha]. apply andb_true_iff in Ha as [H1 H2].
  apply N.eqb_eq in H1, H2. left. by exists a.
Qed.

Lemma api_key_by_id_at s kid w row w1 : api_key_by_id s t kid w = (Ok row, w1) ->
  match row with Some _ => agent_at s (w_db w) | None => True end.
Proof.
  intros H. unfold api_key_by_id in H. step H as aid w2 Hr. apply bound_Ok in Hr as [Hs ->].
  rewrite (bound_str t), bind_ret in H by done. step H as k w2 Hr. apply bound_Ok in Hr as [_ ->]. step H as rows w2 Hr.
  apply select_eff in Hr as (_ & _ & _ & pol & _ & ->). apply ret_Ok in H as [-> _]. unfold agent_at. rewrite Hs.
  unfold fetchone. rewrite head_filter_find. destruct (List.find _ _) as [y|] eqn:Ey; [|done].
  apply List.find_some in Ey as [Hin Hy]. apply andb_true_iff in Hy as [_ Hy]. apply andb_true_iff in Hy as [Hy _].
  apply andb_true_iff in Hy as [H1 H2]. apply N.eqb_eq in H1, H2. right. by exists y.
Qed.

Lemma hashed_pair k p w h w' : ph_hash p k w = (Ok h, w') -> issued_pair (_fingerprint k) h.
Proof. intros H. apply ph_hash_eff in H as (_ & _ & _ & ->). by exists k, p, (w_tick w). Qed.

Lemma keys_insert_key s aid y :
  bind_uuid s = Some aid -> y_agent_id y = aid -> y_tenant_id y = t -> issued_pair (y_key_fingerprint y) (y_key_hash y) ->
  respects_when conf (agent_at s) here (insert_into service_api_keys_t y).
Proof.
  intros Hs Ha Hy Hp. apply respects_when_insert; [apply _|]. intros d d' Hag. apply confined_insert_key; try done.
  unfold agent_at in Hag. rewrite Hs in Hag. by rewrite Ha.
Qed.
Lemma keys_create_api_key s body : safe conf no_guc (create_api_key t s body).
Proof.
  unfold create_api_key. apply keys_try_value; [apply safe_ret|intros agent _]. apply safe_set_tenant; [by intros ? ? [_ ?]|].
  apply (safe_bind_reads conf here (fun row d => match row with Some _ => agent_at agent d | None => True end)).
  { unfold agent_by_id. do 2 (apply reads_bind; [apply reads_bound|intros ?]). apply reads_bind; [apply reads_select|intros ?]. apply reads_ret. }
  { intros w a w1. apply agent_by_id_at. }
  intros [row|]; [|apply safe_when_true, safe_ret]. apply safe_when_reads; [apply reads_api_key_service|intros [svc|r]]; [|apply safe_when_true, safe_ret].
  unfold bound at 1. destruct (bind_uuid agent) as [aid|] eqn:Ea; [rewrite bind_ret|rewrite bind_raise; apply safe_when_true, safe_raise].
  unfold bound at 1. destruct (bind_uuid svc) as [sid|] eqn:Es; [rewrite bind_ret|rewrite bind_raise; apply safe_when_true, safe_raise].
  rewrite (bound_str t), bind_ret by done. apply safe_when_reads; [apply reads_select|intros grants].
  destruct (negb _); [apply safe_when_true, safe_ret|].
  apply (safe_when_next conf _ (fun _ => agent_at agent)); [apply respects_when_true, keys_settings| |].
  { intros w a w1 _ H HP. pose proof (still_settings w) as Hs. rewrite H in Hs. cbn [snd] in Hs. by rewrite Hs. }
  intros st. apply safe_when_reads; [apply reads_check_policy|intros [code|]]; [apply safe_when_true, safe_ret|].
  apply safe_when_reads; [apply reads_random_key|intros k].
  apply (safe_when_value conf _ _ (fun h => issued_pair (_fingerprint k) h)); [apply reads_ph_hash|intros w h w1; apply hashed_pair|].
  intros h Hp. apply safe_when_reads; [apply reads_new_id|intros kid]. apply safe_when_lift. intros iid _.
  apply safe_when_reads; [apply reads_now|intros now]. apply safe_when_reads; [apply reads_bound|intros id].
  rewrite ?bind_ret. unfold bound at 1. rewrite Ea, bind_ret. unfold bound at 1. rewrite Es, bind_ret. unfold bound at 1. rewrite Ea, bind_ret.
  apply safe_when_bind; [by eapply keys_insert_key|intros _]. open_keys. key_fields.
Qed.

Lemma reads_raw_expiry (o : option Z) created : reads (match o with
  | Some e => let! now := now_utc in let! t := lift (add_timedelta now (e - created)) in ret (Some t)
  | None => ret None
  end).
Proof.
  destruct o; [|apply reads_ret]. apply reads_bind; [apply reads_now|intros ?]. apply reads_bind; [apply reads_lift|intros ?]. apply reads_ret.
Qed.

Lemma reads_rebound j : reads (rebound_constraints j).
Proof.
  assert (Hraise : forall e, reads (raise e : M (option json))) by (intros e; apply (reads_lift (Raise e))).
  unfold rebound_constraints. destruct j; try apply reads_ret;
    try (destruct (bind_jsonb _); [apply reads_ret|apply Hraise]).
  destruct (loads s); [apply reads_ret|]. apply reads_execute. by intros w a w' H.
Qed.

Lemma keys_rotate_api_key s kid : safe conf no_guc (rotate_api_key t s kid).
Proof.
  unfold rotate_api_key. apply keys_try_value; [apply safe_ret|intros agent _]. apply safe_set_tenant; [by intros ? ? [_ ?]|].
  apply (safe_bind_reads conf here (fun row d => match row with Some _ => agent_at agent d | None => True end)).
  { unfold api_key_by_id. do 3 (apply reads_bind; [apply reads_bound|intros ?]). apply reads_bind; [apply reads_select|intros ?]. apply reads_ret. }
  { intros w a w1. apply api_key_by_id_at. }
  intros [row|]; [|apply safe_when_true, safe_ret]. apply safe_when_reads; [apply reads_raw_expiry|intros expires].
  apply safe_when_reads; [apply reads_random_key|intros k].
  apply (safe_when_value conf _ _ (fun h => issued_pair (_fingerprint k) h)); [apply reads_ph_hash|intros w h w1; apply hashed_pair|].
  intros h Hp. apply safe_when_reads; [apply reads_new_id|intros nid]. apply safe_when_lift. intros iid _.
  apply safe_when_reads; [apply reads_now|intros now]. apply safe_when_reads; [apply reads_bound|intros id].
  rewrite (bound_str t), bind_ret by done.
  unfold bound at 1. destruct (bind_uuid agent) as [aid|] eqn:Ea; [rewrite bind_ret|rewrite bind_raise; apply safe_when_true, safe_raise].
  apply safe_when_reads; [apply reads_rebound|intros c]. unfold bound at 1. rewrite Ea, bind_ret.
  apply safe_when_bind; [by eapply keys_insert_key|intros _]. open_keys. key_fields.
Qed.

Lemma keys_api_keys_handler rq : safe conf no_guc (api_keys_handler t rq).
Proof.
  destruct rq; cbn [api_keys_handler];
    auto using keys_create_api_key, keys_list_api_keys, keys_get_api_key, keys_revoke_api_key, keys_rotate_api_key, keys_list_tenant_api_keys.
Qed.
End Handlers.

(** ** The property *)

(** C18: A request on agents or API keys is confined to its tenant and keeps the key data in shape.
    Whatever the request and its outcome (a success, a refusal, a failure of any statement or of the
    commit), the other tenants' agents, API keys, events and chain heads and all other tables are
    exactly as before, and every intact audit chain stays intact.  What is stored of a key stays the
    fingerprint and an Argon2id hash of one plaintext, with distinct identifiers and fingerprints,
    versions from 1 up, expiries after the creation, and the agent of every API key in the key's
    tenant: an agent that an API key names is not deleted. *)
Theorem key_requests_confined `{E : Env} `{V : Vault} `{Sha : Sha256} `{Arg : Argon2} t w :
  (t < uuid_limit)%N ->
  (forall rq, keys_confined t (w_base w) (w_base (snd (transaction (agents_handler t rq) w)))) /\
  (forall rq, keys_confined t (w_base w) (w_base (snd (transaction (api_keys_handler t rq) w)))).
Proof.
  intros Ht. split; intros rq; apply (transaction_safe (keys_confined t)); [by apply keys_agents_handler|by apply keys_api_keys_handler].
Qed.

Section Witnesses.
#[local] Existing Instance demo_env.
#[local] Existing Instance demo_vault.
#[local] Existing Instance toy_sha256.
#[local] Existing Instance demo_argon2.

(** An API key for the granted action of the demonstration tenant. *)
Definition demo_key_body : ServiceApiKeyCreate := MkServiceApiKeyCreate (uuid_str 8) ["read"] None None.

Lemma key_requests_confined_witness :
  keys_confined 1 demo_db (w_base (snd (transaction (api_keys_handler 1 (PostApiKey (wire 6 "agent") demo_key_body)) demo_world))).
Proof. exact (proj2 (key_requests_confined 1 demo_world eq_refl) (PostApiKey (wire 6 "agent") demo_key_body)). Defined.
End Witnesses.
