(* ===== verification/RegistrySafety.v ===== *)
(** * What the handlers on services and credentials preserve

    Tenant isolation, the audit chains and the shape of the registry:
    services have distinct identifiers and slugs, what refers to a service
    refers to one that exists, a service has at most one active credential of
    a scheme, and the vault one current version of its credential.  Every
    endpoint of [Services] and [Credentials] keeps the relation, whatever
    fails. *)

From S2P Require Import Prelude PyStr WireIds PyJson PyJsonFacts PyTime AuditHash PyText AuditChain Vault.
From S2P Require Import Tables Like Database Logic Ulid Demo Keys Sessions AuditEmit AgentSecrets.
From S2P Require Import SecretTools SecretsSafety Permissions Ssrf VaultClient Templates SshTest Proxy.
From S2P Require Import Operators Services CredPayloads Credentials PermissionsSafety.

Local Open Scope string_scope.
Local Open Scope py_scope.

(** ** The relation *)

(** The two states agree on everything that is not of tenant [t]'s services, of what depends on them,
    and of its events. *)
Record registry_isolated (t : uuid) (d d' : db) : Prop := {
  ri_services : not_of s_tenant_id t (services d') = not_of s_tenant_id t (services d);
  ri_grants : not_of g_tenant_id t (permission_grants d') = not_of g_tenant_id t (permission_grants d);
  ri_counters : not_of b_tenant_id t (budget_counters d') = not_of b_tenant_id t (budget_counters d);
  ri_keys : not_of y_tenant_id t (service_api_keys d') = not_of y_tenant_id t (service_api_keys d);
  ri_credentials : not_of cr_tenant_id t (credentials d') = not_of cr_tenant_id t (credentials d);
  ri_vault : not_of vc_tenant_id t (vault_credentials d') = not_of vc_tenant_id t (vault_credentials d);
  ri_events : not_of e_tenant_id t (audit_events d') = not_of e_tenant_id t (audit_events d);
  ri_heads : not_of c_tenant_id t (audit_chain_state d') = not_of c_tenant_id t (audit_chain_state d);
  ri_rest : (tenants d', operators d', sessions d', agents d') = (tenants d, operators d, sessions d, agents d);
  ri_rest' : (email_services d', email_permission_grants d', agent_secrets d', agent_secret_grants d') =
             (email_services d, email_permission_grants d, agent_secrets d, agent_secret_grants d);
  ri_platform : (operator_tenant_memberships d', tenant_settings d', oidc_login_state d', oauth2_state d', oauth2_client_configs d') =
                (operator_tenant_memberships d, tenant_settings d, oidc_login_state d, oauth2_state d, oauth2_client_configs d) }.

Definition slug_key (s : service_row) : uuid * string := (s_tenant_id s, s_slug s).
Definition is_active (c : credential_row) : bool := String.eqb (cr_status c) "active".
Definition scheme_key (c : credential_row) : uuid * uuid * string := (cr_tenant_id c, cr_service_id c, cr_auth_scheme c).
Definition vault_key (r : vault_row) : uuid * uuid := (vc_tenant_id r, vc_service_id r).
Definition vault_slot (r : vault_row) : uuid * uuid * Z := (vc_tenant_id r, vc_service_id r, vc_key_version r).

(** The services that other rows name. *)
Definition service_refs (d : db) : list uuid :=
  (map g_service_id (permission_grants d) ++ map y_service_id (service_api_keys d) ++ map cr_service_id (credentials d))%list.

Record vault_ok (rows : list vault_row) : Prop := {
  vo_slot : List.NoDup (map vault_slot rows);
  vo_current : List.NoDup (map vault_key (List.filter vc_is_current rows)) }.

Record registry_ok (d : db) : Prop := {
  ro_services : List.NoDup (map s_id (services d));
  ro_slugs : List.NoDup (map slug_key (services d));
  ro_refs : forall s, In s (service_refs d) -> In s (map s_id (services d));
  ro_credentials : List.NoDup (map cr_id (credentials d));
  ro_active : List.NoDup (map scheme_key (List.filter is_active (credentials d)));
  ro_vault : vault_ok (vault_credentials d);
  ro_grants : List.NoDup (map g_id (permission_grants d));
  ro_counters : forall b, In b (budget_counters d) ->
    exists g, In g (permission_grants d) /\ g_id g = b_permission_id b /\ g_tenant_id g = b_tenant_id b }.

Definition registry_confined `{Sha256} `{Env} (t : uuid) (d d' : db) : Prop :=
  chains_kept d d' /\ (registry_ok d -> registry_ok d' /\ registry_isolated t d d').

Lemma registry_isolated_refl t d : registry_isolated t d d.
Proof. by split. Qed.
Lemma registry_isolated_trans t d1 d2 d3 : registry_isolated t d1 d2 -> registry_isolated t d2 d3 -> registry_isolated t d1 d3.
Proof. intros [] []. split; congruence. Qed.

#[export] Instance registry_confined_preorder `{Sha256} `{Env} t : PreOrder (registry_confined t).
Proof.
  split.
  - intros d. split; [reflexivity|]. intros H1. split; [done|apply registry_isolated_refl].
  - intros d1 d2 d3 [C1 I1] [C2 I2]. split; [by transitivity d2|]. intros H1.
    destruct (I1 H1) as [H2 J1]. destruct (I2 H2) as [H3 J2]. split; [done|]. by eapply registry_isolated_trans.
Qed.

(** ** Lists *)

Lemma NoDup_filter_map {A B} (key : A -> B) (q : A -> bool) (f : A -> A) l :
  (forall r, q (f r) = true -> q r = true /\ key (f r) = key r) ->
  List.NoDup (map key (List.filter q l)) -> List.NoDup (map key (List.filter q (map f l))).
Proof.
  intros Hf. induction l as [|a l IH]; [done|]. cbn [map List.filter].
  assert (Hin : forall x, In x (map key (List.filter q (map f l))) -> In x (map key (List.filter q l))).
  { intros x Hx. apply in_map_iff in Hx as (r & <- & Hr). apply filter_In in Hr as [Hr Hq].
    apply in_map_iff in Hr as (r' & <- & Hr'). destruct (Hf _ Hq) as [Hq' ->]. by apply in_map, filter_In. }
  destruct (q (f a)) eqn:Ef.
  - destruct (Hf _ Ef) as [-> Hk]. cbn [map]. rewrite !List.NoDup_cons_iff, Hk. intros [Hn Hd]. auto.
  - destruct (q a); [|done]. cbn [map]. rewrite List.NoDup_cons_iff. intros [_ Hd]. auto.
Qed.

Lemma NoDup_sub_filter {A B} (key : A -> B) p q (l : list A) :
  List.NoDup (map key (List.filter q l)) -> List.NoDup (map key (List.filter q (List.filter p l))).
Proof.
  induction l as [|a l IH]; [done|]. cbn [List.filter].
  destruct (p a) eqn:Ep, (q a) eqn:Eq; cbn [List.filter]; rewrite ?Eq; cbn [map]; rewrite ?List.NoDup_cons_iff; try tauto.
  intros [Hn Hd]. split; [|by apply IH]. intros Hin. apply Hn. apply in_map_iff in Hin as (x & <- & Hx).
  apply filter_In in Hx as [Hx Hq]. apply filter_In in Hx as [Hx _]. by apply in_map, filter_In.
Qed.

Lemma map_if_key {A B} (key : A -> B) (p : A -> bool) f l :
  (forall r, key (f r) = key r) -> map key (map (fun r => if p r then f r else r) l) = map key l.
Proof. intros Hk. rewrite map_map. apply map_ext. intros r. by destruct (p r). Qed.

(** ** The adapter *)

Section Adapter.
Context `{E : Env}.
Import CredentialAdapter.

Lemma demote_slot t s r : vault_slot (demote t s r) = vault_slot r.
Proof. unfold demote. by destruct (_ && _). Qed.

Lemma of_service_spec t s r : of_service t s r = true <-> vault_key r = (t, s).
Proof.
  unfold of_service, vault_key. rewrite andb_true_iff, !N.eqb_eq. split; [by intros [-> ->]|intros H; by injection H].
Qed.

Lemma max_version l v : In v l -> (v <= fold_right Z.max 0 l)%Z.
Proof. induction l as [|x l IH]; [done|]. cbn [fold_right]. intros [->|H]; [lia|]. apply IH in H. lia. Qed.

(** A new version comes after every other, and is the only current one. *)
Lemma Put_vault_ok t s a rows v rows' : Put t s a rows = Ok (v, rows') -> vault_ok rows -> vault_ok rows'.
Proof.
  unfold Put. destruct (Z.ltb _ _); [done|]. intros H. apply Ok_inj in H. injection H as <- <-. intros [H1 H2]. split.
  - rewrite map_app, map_map. rewrite (map_ext _ vault_slot) by apply demote_slot. apply NoDup_snoc; [done|].
    intros Hin. apply in_map_iff in Hin as (r & Er & Hr). unfold vault_slot in Er. cbn in Er. injection Er as E1 E2 E3.
    assert (Ho : of_service t s r = true) by (unfold of_service; by rewrite E1, E2, !N.eqb_refl).
    assert (Hv : (vc_key_version r <= fold_right Z.max 0 (map vc_key_version (List.filter (of_service t s) rows)))%Z).
    { apply max_version, in_map, filter_In. done. }
    unfold next_version in E3. lia.
  - rewrite List.filter_app, map_app. cbn [List.filter new_row vc_is_current]. cbn [map]. apply NoDup_snoc.
    + apply NoDup_filter_map; [|done]. intros r. unfold demote. destruct (_ && _) eqn:Ed; [done|]. by intros ->.
    + intros Hin. apply in_map_iff in Hin as (r & Er & Hr). apply filter_In in Hr as [Hr Hc].
      apply in_map_iff in Hr as (r' & <- & Hr'). unfold demote in *. destruct (of_service t s r' && vc_is_current r') eqn:Ed; [done|].
      apply andb_false_iff in Ed as [Ed|Ed]; [|congruence].
      assert (Ho : of_service t s r' = true) by by apply of_service_spec. congruence.
Qed.

Lemma Put_not_of t s a rows v rows' : Put t s a rows = Ok (v, rows') -> not_of vc_tenant_id t rows' = not_of vc_tenant_id t rows.
Proof.
  unfold Put. destruct (Z.ltb _ _); [done|]. intros H. apply Ok_inj in H. injection H as <- <-.
  rewrite not_of_snoc by done. apply not_of_map.
  - intros r. unfold demote. by destruct (_ && _).
  - intros r Hr. unfold demote, of_service. apply N.eqb_neq in Hr. by rewrite Hr.
Qed.

Lemma PutCredential_Put t s a rows v rows' : (t < uuid_limit)%N -> PutCredential (uuid_str t) s a rows = Ok (v, rows') ->
  exists sid, pg_uuid_in s = Some sid /\ Put t sid a rows = Ok (v, rows').
Proof.
  intros Ht. unfold PutCredential. destruct (_ || _); [done|]. rewrite pg_uuid_in_str by done.
  destruct (pg_uuid_in s) as [sid|]; [|done]. intros H. by exists sid.
Qed.
End Adapter.

(** ** The statements *)

Ltac registry_fields := cbn [tenants operators sessions agents services permission_grants audit_events audit_chain_state
    email_services email_permission_grants agent_secrets agent_secret_grants budget_counters service_api_keys
    operator_tenant_memberships tenant_settings oidc_login_state credentials vault_credentials oauth2_state oauth2_client_configs tb_get tb_set tb_cascade
    no_cascade services_t credentials_t vault_credentials_t service_api_keys_t audit_events_t audit_chain_state_t
    permission_grants_t budget_counters_t].

Section Steps.
Context `{E : Env} `{V : Vault} `{Sha : Sha256}.
Context (t : uuid) (Ht : (t < uuid_limit)%N).
Abbreviation conf := (registry_confined t).

Lemma registry_confined_of d d' :
  audit_events d' = audit_events d -> audit_chain_state d' = audit_chain_state d ->
  (registry_ok d -> registry_ok d' /\ registry_isolated t d d') -> conf d d'.
Proof.
  intros E1 E2 HI. split; [|done]. intros u Hu [H1 H2 H3].
  split; unfold chain_state_of, events_of in *; by rewrite ?E1, ?E2.
Qed.

Lemma confined_insert_service s d d' :
  s_tenant_id s = t -> insert_db services_t s d = Ok d' -> conf d d'.
Proof.
  intros Hs H. unfold insert_db in H. destruct (tb_check services_t d s) eqn:Ec; [done|].
  apply Ok_inj in H. subst d'. cbn [tb_check services_t first_violation] in Ec.
  destruct (fresh s_id (s_id s) _) eqn:Ef; [|done]. apply fresh_spec in Ef.
  destruct (forallb _ _) eqn:Esl; [|done]. clear Ec.
  apply registry_confined_of; [done..|]. intros [H1 H2 H3 H4 H5 H6 H7 H8].
  split; split; registry_fields; try done.
  - rewrite map_app. by apply NoDup_snoc.
  - rewrite map_app. apply NoDup_snoc; [done|]. intros Hin. apply in_map_iff in Hin as (x & Ex & Hx).
    rewrite forallb_forall in Esl. apply Esl in Hx. unfold slug_key in Ex. injection Ex as E1 E2.
    by rewrite E1, E2, N.eqb_refl, String.eqb_refl in Hx.
  - intros x Hx. rewrite map_app. apply in_or_app. left. by apply H3.
  - by apply not_of_snoc.
Qed.

Lemma confined_update_services p f d :
  (forall s, p s = true -> s_tenant_id s = t) ->
  (forall s, s_id (f s) = s_id s /\ slug_key (f s) = slug_key s) ->
  conf d (update_db services_t p f d).
Proof.
  intros Hp Hf. unfold update_db. apply registry_confined_of; [done..|]. intros [H1 H2 H3 H4 H5 H6 H7 H8].
  split; split; registry_fields; try done.
  - rewrite map_if_key; [done|]. intros s. apply Hf.
  - rewrite map_if_key; [done|]. intros s. apply Hf.
  - intros x Hx. rewrite map_if_key; [by apply H3|]. intros s. apply Hf.
  - apply not_of_map; intros s; destruct (p s) eqn:Es; try done.
    + destruct (Hf s) as [_ H]. by injection H.
    + intros Hne. by apply Hp in Es.
Qed.

Lemma confined_delete_services p d :
  (forall s, p s = true -> s_tenant_id s = t) ->
  first_reference (services_references d) (map s_id (List.filter p (services d))) = None ->
  conf d (delete_db services_t p d).
Proof.
  intros Hp Href. unfold delete_db. apply registry_confined_of; [done..|]. intros [H1 H2 H3 H4 H5 H6 H7 H8].
  split; split; registry_fields; try done; try by apply NoDup_map_filter.
  - intros x Hx. pose proof (H3 x Hx) as Hin. apply in_map_iff in Hin as (s & <- & Hs). apply in_map, filter_In. split; [done|].
    destruct (p s) eqn:Es; [exfalso|done].
    assert (Hno : services_references d (s_id s) = None).
    { assert (Hin : In (s_id s) (map s_id (List.filter p (services d)))) by (apply in_map, filter_In; done).
      revert Href Hin. generalize (map s_id (List.filter p (services d))). clear. intros l. induction l as [|i l IH]; [done|].
      cbn [first_reference]. destruct (services_references d i) eqn:Ei; [done|]. intros H [->|Hin]; [done|by apply IH]. }
    unfold services_references in Hno. cbn [first_violation] in Hno.
    destruct (fresh g_service_id _ _) eqn:F1; [|done]. destruct (fresh y_service_id _ _) eqn:F2; [|done].
    destruct (fresh cr_service_id _ _) eqn:F3; [|done]. apply fresh_spec in F1, F2, F3.
    unfold service_refs in Hx. rewrite !in_app_iff in Hx. tauto.
  - apply not_of_filter. intros s _ Hne. destruct (p s) eqn:Es; [by apply Hp in Es|done].
Qed.

Lemma confined_delete_api_keys p d :
  (forall y, p y = true -> y_tenant_id y = t) -> conf d (delete_db service_api_keys_t p d).
Proof.
  intros Hp. unfold delete_db. apply registry_confined_of; [done..|]. intros [H1 H2 H3 H4 H5 H6 H7 H8].
  split; split; registry_fields; try done.
  - intros x Hx. apply H3. unfold service_refs in *. registry_fields. revert Hx. registry_fields. rewrite !in_app_iff. intros [Hx|[Hx|Hx]]; [tauto| |tauto].
    right; left. apply in_map_iff in Hx as (y & <- & Hy). apply filter_In in Hy as [Hy _]. by apply in_map.
  - apply not_of_filter. intros y _ Hne. destruct (p y) eqn:Ey; [by apply Hp in Ey|done].
Qed.

Lemma confined_delete_credentials p d :
  (forall c, p c = true -> cr_tenant_id c = t) -> conf d (delete_db credentials_t p d).
Proof.
  intros Hp. unfold delete_db. apply registry_confined_of; [done..|]. intros [H1 H2 H3 H4 H5 H6 H7 H8].
  split; split; registry_fields; try done; try by apply NoDup_map_filter.
  - intros x Hx. apply H3. revert Hx. unfold service_refs. registry_fields. rewrite !in_app_iff. intros [Hx|[Hx|Hx]]; [tauto..|].
    right; right. apply in_map_iff in Hx as (y & <- & Hy). apply filter_In in Hy as [Hy _]. by apply in_map.
  - by apply NoDup_sub_filter.
  - apply not_of_filter. intros c _ Hne. destruct (p c) eqn:Ec; [by apply Hp in Ec|done].
Qed.

Lemma confined_delete_service_grants p d :
  (forall g, p g = true -> g_tenant_id g = t) -> conf d (delete_db permission_grants_t p d).
Proof.
  intros Hp. unfold delete_db. apply registry_confined_of; [done..|]. intros [H1 H2 H3 H4 H5 H6 H7 H8].
  assert (Hgone : forall b, In b (budget_counters d) -> forall g, In g (permission_grants d) ->
    g_id g = b_permission_id b -> existsb (N.eqb (b_permission_id b)) (map g_id (List.filter p (permission_grants d))) = p g).
  { intros b Hb g Hg Eg. destruct (p g) eqn:Ep.
    - apply existsb_exists. exists (g_id g). rewrite Eg at 2. split; [by apply in_map, filter_In|apply N.eqb_refl].
    - apply not_true_is_false. intros Hex. apply existsb_exists in Hex as (i & Hi & Ei). apply N.eqb_eq in Ei.
      apply in_map_iff in Hi as (g' & <- & Hg'). apply filter_In in Hg' as [Hg' Hp'].
      assert (g' = g); [|congruence]. apply (NoDup_key_unique g_id (permission_grants d)); [done..|congruence]. }
  split; split; registry_fields; try done; try by apply NoDup_map_filter.
  - intros x Hx. apply H3. revert Hx. unfold service_refs. registry_fields. rewrite !in_app_iff. intros [Hx|[Hx|Hx]]; [|tauto..].
    left. apply in_map_iff in Hx as (y & <- & Hy). apply filter_In in Hy as [Hy _]. by apply in_map.
  - intros b Hb. apply filter_In in Hb as [Hb Hn]. destruct (H8 b Hb) as (g & Hg & E1 & E2).
    exists g. split; [|done]. apply filter_In. split; [done|]. by rewrite <- (Hgone b Hb g Hg E1).
  - apply not_of_filter. intros g _ Hne. destruct (p g) eqn:Eg; [by apply Hp in Eg|done].
  - apply not_of_filter. intros b Hb Hne. destruct (H8 b Hb) as (g & Hg & E1 & E2). rewrite (Hgone b Hb g Hg E1).
    destruct (p g) eqn:Eg; [|done]. apply Hp in Eg. congruence.
Qed.

Lemma confined_update_vault p f d :
  (forall r, p r = true -> vc_tenant_id r = t) ->
  (forall r, vault_slot (f r) = vault_slot r /\ vc_is_current (f r) = vc_is_current r) ->
  conf d (update_db vault_credentials_t p f d).
Proof.
  intros Hp Hf. unfold update_db. apply registry_confined_of; [done..|]. intros [H1 H2 H3 H4 H5 [H6 H6'] H7 H8].
  split; split; registry_fields; try done.
  - split.
    + rewrite map_if_key; [done|]. intros r. apply Hf.
    + apply NoDup_filter_map; [|done]. intros r Hr. destruct (p r); [|done]. destruct (Hf r) as [Hs Hc].
      split; [congruence|]. unfold vault_key. unfold vault_slot in Hs. by injection Hs as -> ->.
  - apply not_of_map; intros r; destruct (p r) eqn:Er; try done.
    + destruct (Hf r) as [H _]. unfold vault_slot in H. by injection H.
    + intros Hne. by apply Hp in Er.
Qed.

Lemma confined_update_credentials p f d :
  (forall c, p c = true -> cr_tenant_id c = t) ->
  (forall c, cr_id (f c) = cr_id c /\ scheme_key (f c) = scheme_key c /\ is_active (f c) = false) ->
  conf d (update_db credentials_t p f d).
Proof.
  intros Hp Hf. unfold update_db. apply registry_confined_of; [done..|]. intros [H1 H2 H3 H4 H5 H6 H7 H8].
  assert (Hs : forall c, cr_service_id (f c) = cr_service_id c).
  { intros c. destruct (Hf c) as (_ & H & _). by injection H. }
  split; split; registry_fields; try done.
  - intros x Hx. apply H3. revert Hx. unfold service_refs. registry_fields. by rewrite map_if_key.
  - rewrite map_if_key; [done|]. intros c. apply Hf.
  - apply NoDup_filter_map; [|done]. intros c Hc. destruct (p c); [|done]. destruct (Hf c) as (_ & _ & Hn). congruence.
  - apply not_of_map; intros c; destruct (p c) eqn:Ec; try done.
    + destruct (Hf c) as (_ & H & _). by injection H.
    + intros Hne. by apply Hp in Ec.
Qed.

(** No active credential of this scheme, except one with this identifier. *)
Definition none_active (sid : uuid) (scheme : string) (id : uuid) (d : db) : Prop :=
  forall c, In c (credentials d) -> active_of sid t scheme c = true -> cr_id c = id.

Lemma confined_insert_credential c d d' :
  cr_tenant_id c = t -> none_active (cr_service_id c) (cr_auth_scheme c) (cr_id c) d ->
  insert_db credentials_t c d = Ok d' -> conf d d'.
Proof.
  intros Hc Hno H. unfold insert_db in H. destruct (tb_check credentials_t d c) eqn:Ec; [done|].
  apply Ok_inj in H. subst d'. cbn [tb_check credentials_t first_violation] in Ec.
  destruct (fresh cr_id (cr_id c) _) eqn:Ef; [|done]. apply fresh_spec in Ef.
  destruct (present t_id _ _); [|done]. destruct (present s_id _ _) eqn:Es; [|done]. apply present_spec in Es as (s & Hs & Es).
  clear Ec. apply registry_confined_of; [done..|]. intros [H1 H2 H3 H4 H5 H6 H7 H8].
  split; split; registry_fields; try done.
  - intros x Hx. revert Hx. unfold service_refs. registry_fields. rewrite map_app, !in_app_iff. cbn [map In].
    intros [Hx|[Hx|[Hx|[Hx|[]]]]]; try (apply H3; unfold service_refs; rewrite !in_app_iff; tauto).
    rewrite <- Hx, <- Es. by apply in_map.
  - rewrite map_app. by apply NoDup_snoc.
  - rewrite List.filter_app, map_app. cbn [List.filter]. destruct (is_active c) eqn:Ea; cbn [map]; [|by rewrite app_nil_r].
    apply NoDup_snoc; [done|]. intros Hin. apply in_map_iff in Hin as (x & Ex & Hx). apply filter_In in Hx as [Hx Ax].
    apply Ef. unfold scheme_key in Ex. injection Ex as E1 E2 E3. rewrite <- (Hno x Hx); [by apply in_map|].
    unfold active_of. rewrite E1, E2, E3, Hc, !N.eqb_refl, String.eqb_refl. exact Ax.
  - by apply not_of_snoc.
Qed.

(** A new version of the vault's credential, on the data of the open transaction or on the committed. *)
Lemma confined_put d0 d dbase s a v rows :
  conf d0 d -> conf d0 dbase -> CredentialAdapter.PutCredential (uuid_str t) s a (vault_credentials dbase) = Ok (v, rows) ->
  conf d0 (tb_set vault_credentials_t rows d).
Proof.
  intros [C1 I1] [_ I2] Hput. apply PutCredential_Put in Hput as (sid & _ & Hput); [|done].
  split.
  - transitivity d; [done|]. intros u Hu [K1 K2 K3]. by split.
  - intros H0. destruct (I1 H0) as [[H1 H2 H3 H4 H5 H6 H7 H8] J1]. destruct (I2 H0) as [[_ _ _ _ _ B6 _ _] J2]. split.
    + split; registry_fields; try done. by eapply Put_vault_ok.
    + destruct J1, J2. split; registry_fields; try done. by rewrite (Put_not_of _ _ _ _ _ _ Hput).
Qed.

Lemma registry_confined_event r d : e_tenant_id r = t -> chains_kept d (append_event t r d) -> conf d (append_event t r d).
Proof.
  intros Er Hc. split; [done|]. intros [H1 H2 H3 H4 H5 H6 H7 H8]. unfold append_event.
  split; split; registry_fields; try done.
  - by apply not_of_snoc.
  - apply not_of_map; intros c; destruct (N.eqb_spec (c_tenant_id c) t); done.
Qed.
End Steps.

(** ** The handlers *)

Section Rules.
Context `{E : Env} `{V : Vault}.
Context (R : relation db) `{!PreOrder R}.

(** [respects_when_next], with the setting of the statement. *)
Lemma respects_then {A B} G (Q : A -> db -> Prop) (m : M A) (k : A -> M B) :
  respects R G m ->
  (forall w a w1, (w_tx w = TxActive -> G (w_tenant w) (w_admin_view w)) -> m w = (Ok a, w1) -> Q a (w_db w1)) ->
  (forall a, respects_when R (Q a) G (k a)) -> respects R G (bind m k).
Proof.
  intros Hm HQ Hk d0 w Hg. pose proof (Hm d0 w Hg) as H1. unfold bind.
  destruct (m w) as [[a|e] w1] eqn:E1; [|done]. apply Hk; [done|]. apply (HQ w a w1); [|done]. intros Hx. by apply (proj2 Hg).
Qed.

(** What only asks for names, time or a connection. *)
Lemma respects_private G host : respects R G (resolve_hostname_is_private host).
Proof. unfold resolve_hostname_is_private. repeat preserved_step. Qed.
Lemma respects_forbidden G url : respects R G (_is_forbidden_destination url).
Proof.
  unfold _is_forbidden_destination. apply respects_catch; [|intros; apply respects_ret].
  apply respects_bind; [apply respects_lift|intros [host|]]; [|apply respects_ret].
  destruct private_allowed; [apply respects_ret|apply respects_private].
Qed.
Lemma respects_validate_url G url : respects R G (_validate_test_url url).
Proof. unfold _validate_test_url. repeat preserved_step. Qed.
Lemma respects_checked_url G f b n : respects R G (checked_url f b n).
Proof.
  unfold checked_url. do 2 (apply respects_bind; [apply respects_lift|intros ?]).
  apply respects_bind; [apply respects_validate_url|intros [[] reason]]; auto with respects.
Qed.
Lemma respects_outbound G rq : respects R G (outbound rq).
Proof. unfold outbound. repeat preserved_step. Qed.
Lemma respects_test_ssh G s c b n : respects R G (test_ssh_credential s c b n).
Proof. unfold test_ssh_credential. cbv zeta. repeat preserved_step. Qed.
Lemma respects_post_save G s c b n : respects R G (_run_ssh_post_save_test s c b n).
Proof. unfold _run_ssh_post_save_test. repeat first [apply respects_test_ssh | preserved_step]. Qed.
End Rules.

(** The entries of an SSH result are plain values. *)
Definition entries_wf (r : dict) : Prop := Forall (fun kv => json_wf (snd kv)) r.

Lemma dict_default_wf k dflt r : json_wf dflt -> entries_wf r -> json_wf (dict_default k dflt r).
Proof.
  intros Hd Hr. unfold dict_default, dict_get. destruct (List.find _ r) as [[k' v]|] eqn:Ef; [|done].
  apply find_some in Ef as [Hin _]. unfold entries_wf in Hr. rewrite List.Forall_forall in Hr. exact (Hr _ Hin).
Qed.

Lemma ssh_result_wf ok s l f b : entries_wf (ssh_result ok s l f b).
Proof. by repeat constructor. Qed.

Section Results.
Context `{E : Env} `{V : Vault}.

Lemma test_ssh_wf s c b n w r w' : test_ssh_credential s c b n w = (Ok r, w') -> entries_wf r.
Proof.
  unfold test_ssh_credential. intros H. step H as start w1 H1. destruct (loads c) as [[| | | | |cred]|]; try done.
  2: { apply ret_Ok in H as [-> _]. apply ssh_result_wf. }
  step H as target w2 H2.
  assert (Hrefused : forall w, (let! now := monotonic in ret (ssh_result false 400 (elapsed_ms start now) b
    ("Cannot resolve SSH target \u2014 expected 'host:port', got: " +:+ py_repr target))) w = (Ok r, w') -> entries_wf r).
  { intros w3 H3. step H3 as now w4 H4. apply ret_Ok in H3 as [-> _]. apply ssh_result_wf. }
  destruct (rsplit_colon target) as [[host p]|]; [|by eapply Hrefused]. destruct (negb _); [by eapply Hrefused|].
  step H as p' w3 H3. step H as login w4 H4. destruct login as [[user secret]|reason].
  - step H as x w5 H5. step H as o w6 H6. step H as now w7 H7. apply ret_Ok in H as [-> _]. destruct o as [banner|e].
    + apply ssh_result_wf.
    + destruct (ssh_failure e _). apply ssh_result_wf.
  - step H as now w5 H5. apply ret_Ok in H as [-> _]. apply ssh_result_wf.
Qed.

Lemma post_save_wf s c b n w r w' : _run_ssh_post_save_test s c b n w = (Ok r, w') -> entries_wf r.
Proof.
  unfold _run_ssh_post_save_test. destruct c as [c|].
  - destruct (_ || _); [|apply test_ssh_wf]. intros H. apply ret_Ok in H as [-> _]. apply ssh_result_wf.
  - intros H. apply ret_Ok in H as [-> _]. apply ssh_result_wf.
Qed.
End Results.

Section Handlers.
Context `{E : Env} `{V : Vault} `{Sha : Sha256} `{Pyd : Pydantic} `{Pbk : Pbkdf2}.
Context (t : uuid) (Ht : (t < uuid_limit)%N).
Abbreviation conf := (registry_confined t).
Abbreviation here := (tenant_is (uuid_str t)).

Lemma emit_registry G event_type actor actor_type target target_type payload :
  uuid_opt_ok actor -> json_wf (JObj payload) ->
  respects conf G (audit_emit t event_type actor actor_type target target_type payload).
Proof.
  intros Ha Hw. apply audit_emit_rule; [apply _|done..|]. intros d r Hr.
  apply registry_confined_event; [by apply (em_tenant _ _ _ _ _ _ _ _ _ Hr)|]. by eapply append_event_chain.
Qed.

Lemma registry_try_value {A B} G (o : outcome A) (on_error : M B) (k : A -> M B) :
  safe conf G on_error -> (forall a, o = Ok a -> safe conf G (k a)) -> safe conf G (try_value o on_error k).
Proof. intros H1 H2. destruct o as [a|[]]; cbn [try_value]; auto using safe_raise. Qed.

Lemma registry_new_id G p : respects conf G (new_id p).
Proof. unfold new_id. repeat preserved_step. Qed.
Lemma registry_varchar_opt G n o : respects conf G (varchar_opt n o).
Proof. destruct o; [apply respects_varchar, _|apply respects_ret]. Qed.
Lemma registry_bound_opt G o : respects conf G (bound_opt o).
Proof. unfold bound_opt. repeat preserved_step. Qed.

(** The rows of a statement on a table with the tenant's policy. *)
Lemma registry_seen {R} (T : table R) (ten : R -> uuid) w pol p :
  (forall r, tb_tenant T r = Some (ten r)) -> here (w_tenant w) (w_admin_view w) -> policy w = Ok pol ->
  forall r, sees T pol r && p r = true -> ten r = t.
Proof.
  intros HT HG Hpol r Hr. apply andb_true_iff in Hr as [Hr _]. unfold sees in Hr. rewrite HT in Hr.
  by apply (tenant_policy t Ht w pol HG Hpol).
Qed.

Lemma registry_insert_service s : s_tenant_id s = t -> respects conf here (insert_into services_t s).
Proof. intros Hs. apply respects_insert; [apply _|]. intros d d'. by apply confined_insert_service. Qed.
Lemma registry_update_services p f :
  (forall s, s_id (f s) = s_id s /\ slug_key (f s) = slug_key s) -> respects conf here (update_where services_t p f).
Proof.
  intros Hf. apply respects_update; [apply _|]. intros w pol d HG Hpol. apply confined_update_services; [|done].
  by apply (registry_seen services_t s_tenant_id w).
Qed.
Lemma registry_delete_services p : respects conf here (delete_restricted services_t s_id services_references p).
Proof.
  apply respects_delete_restricted; [apply _|]. intros w pol d HG Hpol Href. apply confined_delete_services; [|done].
  by apply (registry_seen services_t s_tenant_id w).
Qed.
Lemma registry_delete_api_keys p : respects conf here (delete_returning service_api_keys_t p).
Proof.
  apply respects_delete_returning; [apply _|]. intros w pol d HG Hpol. apply confined_delete_api_keys.
  by apply (registry_seen service_api_keys_t y_tenant_id w).
Qed.
Lemma registry_delete_grants p : respects conf here (delete_returning permission_grants_t p).
Proof.
  apply respects_delete_returning; [apply _|]. intros w pol d HG Hpol. apply confined_delete_service_grants.
  by apply (registry_seen permission_grants_t g_tenant_id w).
Qed.
Lemma registry_delete_credentials p : respects conf here (delete_returning credentials_t p).
Proof.
  apply respects_delete_returning; [apply _|]. intros w pol d HG Hpol. apply confined_delete_credentials.
  by apply (registry_seen credentials_t cr_tenant_id w).
Qed.
Lemma registry_retarget p a : respects conf here (update_where vault_credentials_t p (set_target_address a)).
Proof.
  apply respects_update; [apply _|]. intros w pol d HG Hpol. apply confined_update_vault; [|done].
  by apply (registry_seen vault_credentials_t vc_tenant_id w).
Qed.
Lemma registry_update_credentials p f :
  (forall c, cr_id (f c) = cr_id c /\ scheme_key (f c) = scheme_key c /\ is_active (f c) = false) ->
  respects conf here (update_where credentials_t p f).
Proof.
  intros Hf. apply respects_update; [apply _|]. intros w pol d HG Hpol. apply confined_update_credentials; [|done].
  by apply (registry_seen credentials_t cr_tenant_id w).
Qed.

(** The calls of the vault. *)
Lemma registry_put G s sc v u h q ta su : respects conf G (put_credential (uuid_str t) s sc v u h q ta su).
Proof. apply respects_put_rule. intros d0 d dbase a v0 rows. by apply confined_put. Qed.

Lemma reads_varchar n s : reads (varchar n s).
Proof. unfold varchar. destruct (_ <=? _)%nat; [apply reads_ret|]. apply reads_execute. by intros w a w' H. Qed.

(** The rows of a new version. *)
Lemma update_none_active sid id scheme w u w1 :
  (w_tx w = TxActive -> here (w_tenant w) (w_admin_view w)) ->
  update_where credentials_t (fun c => active_of sid t scheme c && negb (N.eqb (cr_id c) id)) supersede w = (Ok u, w1) ->
  none_active t sid scheme id (w_db w1).
Proof.
  intros HG H. apply update_Ok in H as (pol & Hp & Htx & ->). destruct (HG Htx) as [E1 E2].
  unfold policy in Hp. rewrite E1, E2, pg_uuid_in_str in Hp by done. apply Ok_inj in Hp. subst pol.
  intros c Hc Hact. cbn [set_db w_db] in Hc. unfold update_db in Hc. registry_fields. revert Hc. registry_fields. intros Hc.
  apply in_map_iff in Hc as (x & Hx & _). cbn [sees tb_tenant credentials_t] in Hx.
  destruct ((N.eqb (cr_tenant_id x) t || false) && (active_of sid t scheme x && negb (N.eqb (cr_id x) id))) eqn:Ex.
  - subst c. unfold active_of in Hact. cbn in Hact. by rewrite andb_false_r in Hact.
  - subst c. rewrite Hact in Ex. unfold active_of in Hact. rewrite !andb_true_iff in Hact. destruct Hact as [[[_ Hten] _] _].
    rewrite Hten in Ex. cbn in Ex. apply negb_false_iff, N.eqb_eq in Ex. done.
Qed.

Lemma registry_store s scheme id kv now : respects conf here (store_version t s scheme id kv now).
Proof.
  unfold store_version. apply respects_bind; [apply respects_bound|intros sid]. rewrite (bound_str t), bind_ret by done.
  apply respects_bind; [apply respects_bound|intros nid].
  apply (respects_then conf here (fun _ => none_active t sid scheme nid)).
  - by apply registry_update_credentials.
  - intros w u w1 HG. by apply update_none_active.
  - intros _. apply respects_when_reads; [apply reads_varchar|intros _]. apply respects_when_bind.
    + apply respects_when_insert; [apply _|]. intros d d' Hno. by apply confined_insert_credential.
    + intros _. by apply registry_update_services.
Qed.

(** A rule, with its instance when it asks for one. *)
Ltac rule lem := first [apply lem, _ | apply lem].

(** Well-formed payloads. *)
Lemma registry_value_wf k r dflt : json_wf dflt -> entries_wf r -> json_wf (dict_default k dflt r).
Proof. apply dict_default_wf. Qed.

Ltac registry_wf :=
  apply json_wf_obj; split; [apply NoDup_ListNoDup, (bool_decide_unpack _); reflexivity|];
  repeat apply Forall_cons_2; try apply Forall_nil_2; cbn [snd];
  first [exact I | by apply registry_value_wf | match goal with |- json_wf (opt_json ?o) => by destruct o end].

Ltac registry_step :=
  first
    [ lazymatch goal with
      | |- safe _ _ (try_value _ _ _) => apply registry_try_value; [|intros ? ?]
      | |- safe _ _ (bind (lift _) _) => apply safe_lift; intros ? ?
      | |- respects _ _ (bound_opt _) => apply registry_bound_opt
      | |- respects _ _ (varchar _ _) => apply respects_varchar, _
      | |- respects _ _ (varchar_opt _ _) => apply registry_varchar_opt
      | |- respects _ _ (notify_change _ _) => apply respects_notify, _
      | |- respects _ _ (new_id _) => apply registry_new_id
      | |- respects _ _ _new_svc_id => apply registry_new_id
      | |- respects _ _ _new_cred_id => apply registry_new_id
      | |- respects _ _ (_is_forbidden_destination _) => rule respects_forbidden
      | |- respects _ _ (checked_url _ _ _) => rule respects_checked_url
      | |- respects _ _ (outbound _) => rule respects_outbound
      | |- respects _ _ (get_credential _ _) => rule respects_get_credential
      | |- respects _ _ (insert_into services_t _) => by apply registry_insert_service
      | |- respects _ _ (update_where services_t _ _) => by apply registry_update_services
      | |- respects _ _ (update_where vault_credentials_t _ _) => apply registry_retarget
      | |- respects _ _ (update_where credentials_t _ _) => by apply registry_update_credentials
      | |- respects _ _ (delete_returning service_api_keys_t _) => apply registry_delete_api_keys
      | |- respects _ _ (delete_returning permission_grants_t _) => apply registry_delete_grants
      | |- respects _ _ (delete_returning credentials_t _) => apply registry_delete_credentials
      | |- respects _ _ (delete_restricted services_t _ _ _) => apply registry_delete_services
      | |- respects _ _ (store_version _ _ _ _ _ _) => apply registry_store
      | |- respects _ _ (put_credential _ _ _ _ _ _ _ _ _) => apply registry_put
      | |- respects _ _ (emit_quietly _) => apply respects_catch; [|intros ?; apply respects_ret]
      | |- respects _ _ (audit_emit _ _ _ _ _ _ _) => apply emit_registry; [done|]
      end
    | preserved_step ].

Ltac open_registry := rewrite ?(bound_str t), ?bind_ret by done; repeat registry_step; try done.

(** ** Services *)

Lemma registry_insert iid name slug dn desc url sch op tmpl now :
  respects conf here (insert_service iid t name slug dn desc url sch op tmpl now).
Proof.
  unfold insert_service. apply respects_bind; [apply respects_bound|intros id]. rewrite (bound_str t), bind_ret by done.
  do 3 (apply respects_bind; [first [apply respects_varchar, _|apply registry_varchar_opt]|intros _]).
  apply respects_bind; [apply registry_varchar_opt|intros _]. apply respects_bind; [apply registry_varchar_opt|intros _].
  destruct sch; [by apply registry_insert_service|].
  apply respects_execute; [apply _|]. by intros w a w' _ H.
Qed.

Lemma registry_create_service body : safe conf no_guc (create_service t body).
Proof.
  unfold create_service. cbv zeta. apply safe_bind; [rule respects_forbidden|intros []]; [apply safe_ret|].
  apply safe_set_tenant; [by intros ? ? [_ ?]|]. apply safe_bind; [apply registry_new_id|intros svc].
  apply safe_lift. intros iid _. apply safe_bind; [apply respects_now|intros now].
  apply safe_bind; [apply registry_insert|intros _]. open_registry. registry_wf.
Qed.

Lemma registry_from_template reg body : safe conf no_guc (create_service_from_template reg t body).
Proof.
  unfold create_service_from_template. cbv zeta. destruct (registry_get _ _) as [tm|]; [|apply safe_ret].
  destruct (override _ so_base_url _ _) as [url|]; [|apply safe_ret].
  apply safe_bind; [rule respects_forbidden|intros []]; [apply safe_ret|].
  apply safe_set_tenant; [by intros ? ? [_ ?]|]. apply safe_bind; [apply registry_new_id|intros svc].
  apply safe_lift. intros iid _. apply safe_bind; [apply respects_now|intros now].
  apply safe_bind.
  { apply respects_catch; [apply respects_bind; [apply registry_insert|intros; apply respects_ret]|].
    intros e. destruct e; auto with respects. }
  intros []; [apply safe_ret|]. open_registry. registry_wf.
Qed.

Lemma registry_list q : safe conf no_guc (list_services t q).
Proof. unfold list_services. open_registry. Qed.
Lemma registry_describe G s : safe conf G (describe s t).
Proof. unfold describe. open_registry. Qed.
Lemma registry_get s : safe conf no_guc (get_service t s).
Proof. unfold get_service. apply safe_set_tenant; [by intros ? ? [_ ?]|]. apply safe_lift. intros u _. apply registry_describe. Qed.

Lemma registry_test_transient body : safe conf no_guc (test_service_transient t body).
Proof.
  unfold test_service_transient. cbv zeta. apply safe_bind; [rule respects_forbidden|intros []]; [apply safe_ret|].
  apply safe_set_tenant; [by intros ? ? [_ ?]|]. destruct (is_ssh _).
  - apply (safe_bind_value conf here entries_wf); [rule respects_test_ssh|intros w r w'; apply test_ssh_wf|].
    intros r Hr. apply safe_bind; [|intros; apply safe_ret]. apply respects_catch; [|intros; apply respects_ret].
    apply respects_bind; [apply respects_lift|intros host]. apply emit_registry; [done|]. registry_wf.
  - destruct (test_auth _ _ _ _ _) as [headers url]. open_registry. registry_wf.
Qed.

Lemma registry_test s req : safe conf no_guc (test_service t s req).
Proof.
  unfold test_service. cbv zeta. apply safe_set_tenant; [by intros ? ? [_ ?]|]. apply safe_lift. intros u _.
  apply safe_bind; [apply respects_bound|intros sid]. rewrite (bound_str t), bind_ret by done.
  apply safe_bind; [apply respects_select, _|intros rows]. destruct (fetchone rows) as [row|]; [|apply safe_ret].
  apply safe_bind; [rule respects_forbidden|intros []]; [apply safe_ret|].
  apply safe_bind; [rule respects_get_credential|intros cred]. destruct (is_ssh _).
  - apply (safe_bind_value conf here entries_wf); [rule respects_post_save|intros w r w'; apply post_save_wf|].
    intros r Hr. open_registry. registry_wf.
  - destruct (match cred with Some _ => _ | None => _ end) as [headers url]. apply safe_bind; [rule respects_checked_url|intros f].
    apply safe_bind; [rule respects_outbound|intros [[[st text]|e] ms]]; [|destruct (is_timeout e)];
      (apply safe_bind; [|intros; apply safe_ret]); (apply respects_catch; [|intros; apply respects_ret]);
      (apply emit_registry; [done|]); registry_wf.
Qed.

Lemma apply_update_keeps body now s :
  s_id (apply_update body now s) = s_id s /\ slug_key (apply_update body now s) = slug_key s.
Proof. done. Qed.

Lemma registry_update s body : safe conf no_guc (update_service t s body).
Proof.
  unfold update_service. cbv zeta. apply safe_bind; [destruct (su_base_url body); [rule respects_forbidden|apply respects_ret]|intros []]; [apply safe_ret|].
  apply registry_try_value; [apply safe_ret|intros early _]. apply safe_set_tenant; [by intros ? ? [_ ?]|].
  apply safe_lift. intros u _. apply safe_bind; [apply respects_now|intros now]. apply safe_bind; [repeat registry_step|intros stored].
  apply registry_try_value; [apply safe_ret|intros target _]. apply safe_bind; [apply respects_bound|intros sid].
  rewrite ?(bound_str t), ?bind_ret by done. apply safe_bind; [by apply registry_update_services|intros _].
  apply safe_bind; [destruct (su_base_url body), target; repeat registry_step|intros _].
  apply safe_bind; [apply emit_registry; [done|registry_wf]|intros _]. apply safe_bind; [apply respects_notify, _|intros _].
  apply registry_describe.
Qed.

Lemma registry_delete s : safe conf no_guc (delete_service t s).
Proof. unfold delete_service, cascade. open_registry; registry_wf. Qed.

Lemma registry_services reg rq : safe conf no_guc (services_handler reg t rq).
Proof.
  destruct rq; cbn [services_handler];
    auto using registry_create_service, registry_from_template, registry_list, registry_get, registry_test_transient,
      registry_test, registry_update, registry_delete.
Qed.

(** ** Credentials *)

Lemma registry_validated {A} G k (c : checked A) v : (forall a, respects conf G (v a)) -> respects conf G (validated k c v).
Proof.
  intros Hv. unfold validated. destruct c as [a|e]; [|apply respects_ret]. apply respects_catch.
  - apply respects_bind; [apply Hv|intros; apply respects_ret].
  - intros []; auto with respects.
Qed.

Lemma registry_token_url G d : respects conf G (token_url_field d).
Proof.
  unfold token_url_field. apply respects_bind; [apply registry_validated; intros; apply respects_lift|intros c].
  apply registry_validated. intros url. unfold validate_ssrf, validate_token_url_ssrf.
  repeat first [rule respects_private | preserved_step].
Qed.

Ltac payload_step :=
  first
    [ lazymatch goal with
      | |- respects _ _ (validated _ _ _) => apply registry_validated; intros ?
      | |- respects _ _ (token_url_field _) => apply registry_token_url
      end
    | preserved_step ].

Lemma registry_validate_dict G scheme d : respects conf G (validate_dict scheme d).
Proof.
  unfold validate_dict. cbv zeta.
  unfold OAuth2PasswordGrantPayload, AppleJWTPayload_of, GoogleServiceAccountPayload_of, SSHPrivateKeyPayload_of,
    SSHPasswordPayload_of, OAuth2ClientCredentialsPayload_of, HTTPDigestPayload_of. cbv zeta. repeat payload_step.
Qed.

Lemma registry_validate G l scheme v : respects conf G (validate_value l scheme v).
Proof.
  unfold validate_value. destruct (negb _); [apply respects_ret|].
  destruct (match v with RotateText s => loads s | RotateDict d => Some (JObj d) end) as [[]|]; try apply respects_ret.
  apply respects_bind; [|intros; apply respects_ret]. apply respects_catch.
  - apply respects_bind; [apply registry_validate_dict|intros; apply respects_ret].
  - intros []; auto with respects.
Qed.

Lemma metadata_wf p md base :
  secret_metadata p = Ok md -> Forall (fun kv => (exists v, snd kv = JStr v) \/ exists z, snd kv = JInt z) base ->
  bool_decide (NoDup (map fst base)) = true ->
  forallb (fun k => negb (existsb (String.eqb k) (map fst base)))
    ["key_id"; "issuer_id"; "p8_fingerprint"; "fingerprint_scheme"; "service_account_email"; "project_id";
     "json_key_fingerprint"; "target_address"; "ssh_user"; "key_fingerprint"; "username"; "password_fingerprint"] = true ->
  json_wf (JObj (base ++ md)).
Proof.
  intros H Hb Hn Hk.
  assert (Hmd : exists ks, map fst md = ks /\ Forall (fun kv => exists v, snd kv = JStr v) md /\ NoDup ks /\
    forall k, In k ks -> existsb (String.eqb k) (map fst base) = false).
  { assert (Hin : forall ks, forallb (fun k => existsb (String.eqb k)
        ["key_id"; "issuer_id"; "p8_fingerprint"; "fingerprint_scheme"; "service_account_email"; "project_id";
         "json_key_fingerprint"; "target_address"; "ssh_user"; "key_fingerprint"; "username"; "password_fingerprint"]) ks = true ->
        forall k, In k ks -> existsb (String.eqb k) (map fst base) = false).
    { intros ks Hks k Hin. rewrite forallb_forall in Hks, Hk. apply Hks in Hin. apply existsb_exists in Hin as (k' & Hk' & Ek).
      apply String.eqb_eq in Ek. subst k'. apply Hk in Hk'. by apply negb_true_iff in Hk'. }
    assert (Hfp : forall k s f, (f0 ← audit_fingerprint (utf8 s) 16; Ok [(k, JStr f0); ("fingerprint_scheme", JStr "pbkdf2_hmac_sha256_v1")]) = Ok f ->
      exists f0, f = [(k, JStr f0); ("fingerprint_scheme", JStr "pbkdf2_hmac_sha256_v1")]).
    { intros k s f Hf. destruct (audit_fingerprint _ _); [|done]. apply Ok_inj in Hf. subst f. eauto. }
    unfold secret_metadata in H. destruct p as [|p|p|p|p|p|p];
      try (apply Ok_inj in H; subst md; exists []; repeat split; [constructor|constructor|done]).
    2: destruct (loads _) as [[| | | | |d]|]; try done; cbn [mbind outcome_bind] in H.
    all: destruct (audit_fingerprint _ _) as [f|]; [|done]; apply Ok_inj in H; subst md; eexists; split; [reflexivity|];
      cbn [app]; split; [repeat constructor; eexists; reflexivity|]; split;
      [apply (bool_decide_unpack _); vm_compute; exact I|apply Hin; vm_compute; reflexivity]. }
  destruct Hmd as (ks & E1 & Hs & Hnd & Hdis). apply json_wf_obj. split.
  - apply NoDup_ListNoDup. rewrite map_app, E1. apply NoDup_app. split; [by apply bool_decide_eq_true in Hn|]. split; [|done].
    intros k Hin Hk2. apply list_elem_of_In in Hin, Hk2. apply Hdis in Hk2. apply not_true_iff_false in Hk2. apply Hk2.
    apply existsb_exists. exists k. split; [done|apply String.eqb_refl].
  - apply Forall_app. split.
    + eapply Forall_impl; [exact Hb|]. intros [k v] [[x Hx]|[z Hx]]; cbn [snd] in *; by subst v.
    + eapply Forall_impl; [exact Hs|]. intros [k v] [x Hx]; cbn [snd] in *; by subst v.
Qed.

Ltac base_entries := repeat apply Forall_cons_2; try apply Forall_nil_2; first [left; eexists; reflexivity | right; eexists; reflexivity].

Lemma registry_create_credential s body : safe conf no_guc (create_credential t s body).
Proof.
  unfold create_credential. cbv zeta. apply safe_lift. intros u _. apply safe_set_tenant; [by intros ? ? [_ ?]|].
  apply safe_bind; [unfold service_by_id; repeat registry_step|intros [svc|]]; [|apply safe_ret].
  apply safe_bind; [apply registry_validate|intros [p|answer]]; [|apply safe_ret].
  apply safe_bind; [apply registry_put|intros r]. apply safe_bind; [apply registry_new_id|intros cid].
  apply safe_lift. intros iid _. apply safe_bind; [apply respects_now|intros now]. apply safe_bind; [apply registry_store|intros _].
  apply safe_lift. intros md Hmd. rewrite app_assoc. destruct (Z.ltb 1 (pr_key_version r)); cbn [app].
  all: apply safe_bind; [apply emit_registry; [done|]|intros _; open_registry].
  - apply (metadata_wf p md [_; _; _; _; _]); [done|base_entries|reflexivity..].
  - apply (metadata_wf p md [_; _; _; _]); [done|base_entries|reflexivity..].
Qed.

Lemma registry_rotate s body : safe conf no_guc (rotate_credential t s body).
Proof.
  unfold rotate_credential. cbv zeta. apply safe_set_tenant; [by intros ? ? [_ ?]|]. apply safe_lift. intros u _.
  apply safe_bind; [unfold service_by_id; repeat registry_step|intros [svc|]]; [|apply safe_ret].
  apply registry_try_value; [apply safe_ret|intros from _]. rewrite (bound_str t), bind_ret by done.
  do 2 (apply safe_bind; [repeat registry_step|intros ?]). apply safe_bind; [apply respects_query, _|intros olds].
  destruct (fetchone olds) as [old|]; [|apply safe_ret].
  apply safe_bind; [destruct (rr_value body); [apply registry_validate|apply respects_ret]|intros [p|answer]]; [|apply safe_ret].
  apply safe_bind; [apply respects_catch; [rule respects_get_credential|intros; apply respects_ret]|intros prior].
  destruct (default _ (new_routing p)) as [ta su]. apply safe_bind; [repeat registry_step|intros plaintext].
  apply safe_bind; [apply registry_put|intros r]. apply safe_bind; [apply registry_new_id|intros cid].
  apply safe_lift. intros iid _. apply safe_bind; [apply respects_now|intros now]. apply safe_bind; [apply registry_store|intros _].
  destruct (rr_rotate_from body); cbn [app]; open_registry; registry_wf.
Qed.

Lemma registry_delete_version s kv : safe conf no_guc (delete_credential_version t s kv).
Proof.
  unfold delete_credential_version. apply safe_lift. intros u _. apply safe_set_tenant; [by intros ? ? [_ ?]|].
  apply safe_bind; [apply respects_bound|intros sid]. rewrite (bound_str t), bind_ret by done.
  apply safe_bind; [unfold bound_int4; repeat preserved_step|intros z]. open_registry. registry_wf.
Qed.

Lemma registry_list_versions s q : safe conf no_guc (list_credential_versions t s q).
Proof. unfold list_credential_versions. open_registry. Qed.

Lemma registry_credentials s rq : safe conf no_guc (credentials_handler t s rq).
Proof.
  destruct rq; cbn [credentials_handler];
    auto using registry_create_credential, registry_rotate, registry_delete_version, registry_list_versions.
Qed.
End Handlers.

(** ** The property *)

(** C10: A request on services or credentials is confined to its tenant and keeps the registry in shape,
    the vault's table included.  Whatever the request and its outcome (a success, a refusal, a
    failure of any statement, of the commit or of the vault, which may have stored the secret all the
    same), every intact audit chain stays intact; and where service identifiers and slugs were
    distinct, every grant, API key and credential named an existing service, a service had at most one
    active credential of a scheme and the vault at most one current version of its credential, all
    this still holds, and the services, credentials, secrets, grants, counters, keys, events and
    chain heads of the other tenants and all other tables are exactly as before. *)
Theorem registry_requests_confined `{E : Env} `{V : Vault} `{Sha : Sha256} `{Pyd : Pydantic} `{Pbk : Pbkdf2} t w :
  (t < uuid_limit)%N ->
  (forall registry rq, registry_confined t (w_base w) (w_base (snd (transaction (services_handler registry t rq) w)))) /\
  (forall service_id rq, registry_confined t (w_base w) (w_base (snd (transaction (credentials_handler t service_id rq) w)))).
Proof.
  intros Ht. split; intros ? rq; apply (transaction_safe (registry_confined t)); [by apply registry_services|by apply registry_credentials].
Qed.

(** A toy key derivation and integer parser for the witnesses. *)
Definition toy_pydantic : Pydantic := {| int_of_text s := None; errors_text l := "" |}.
Definition toy_hmac (p s : string) (n : N) (k : nat) : string := unchars (repeat "x"%char k).
Lemma toy_hmac_length p s n k : py_len (toy_hmac p s n k) = k.
Proof. unfold py_len, toy_hmac. by rewrite chars_unchars, repeat_length. Qed.
Definition toy_pbkdf2 : Pbkdf2 := {| pbkdf2_hmac := toy_hmac; pbkdf2_hmac_length := toy_hmac_length |}.

Section Witnesses.
#[local] Existing Instance demo_env.
#[local] Existing Instance demo_vault.
#[local] Existing Instance toy_sha256.
#[local] Existing Instance toy_pydantic.
#[local] Existing Instance toy_pbkdf2.

Lemma registry_requests_confined_witness :
  registry_confined 1 demo_db (w_base (snd (transaction
    (credentials_handler 1 (wire 8 "svc") (PostCredential (MkCredentialCreate "bearer_token" "t0ken" None None))) demo_world))).
Proof.
  exact (proj2 (registry_requests_confined 1 demo_world eq_refl) (wire 8 "svc")
           (PostCredential (MkCredentialCreate "bearer_token" "t0ken" None None))).
Defined.
End Witnesses.
