(* ===== verification/EmailSafety.v ===== *)
(** * What the endpoints on email services preserve

    The relation between the committed states before and after a request on
    email services, their grants and their OAuth2 flow; the statements that
    keep it; and that every endpoint of [EmailServices]
    and [EmailOauth] keeps it, whatever fails. *)

From S2P Require Import Prelude PyStr WireIds PyJson PyJsonFacts PyTime AuditHash PyText AuditChain Vault.
From S2P Require Import Tables Database Logic Demo Keys Sessions AuditEmit AgentSecrets Login Whoami.
From S2P Require Import SecretTools SecretsSafety Permissions VaultClient Templates SshTest CredPayloads.
From S2P Require Import EmailServices EmailOauth PermissionsSafety RegistrySafety.
From S2P Require Import RegistrySafety.

Local Open Scope string_scope.

Record email_isolated (t : uuid) (d d' : db) : Prop := {
  ei_services : not_of es_tenant_id t (email_services d') = not_of es_tenant_id t (email_services d);
  ei_grants : not_of eg_tenant_id t (email_permission_grants d') = not_of eg_tenant_id t (email_permission_grants d);
  ei_states : not_of os_tenant_id t (oauth2_state d') = not_of os_tenant_id t (oauth2_state d);
  ei_configs : not_of oc_tenant_id t (oauth2_client_configs d') = not_of oc_tenant_id t (oauth2_client_configs d);
  ei_vault : not_of vc_tenant_id t (vault_credentials d') = not_of vc_tenant_id t (vault_credentials d);
  ei_events : not_of e_tenant_id t (audit_events d') = not_of e_tenant_id t (audit_events d);
  ei_heads : not_of c_tenant_id t (audit_chain_state d') = not_of c_tenant_id t (audit_chain_state d);
  ei_rest : (tenants d', operators d', sessions d', agents d', services d', permission_grants d', budget_counters d') =
            (tenants d, operators d, sessions d, agents d, services d, permission_grants d, budget_counters d);
  ei_rest' : (service_api_keys d', agent_secrets d', agent_secret_grants d', credentials d') =
             (service_api_keys d, agent_secrets d, agent_secret_grants d, credentials d);
  ei_platform : (operator_tenant_memberships d', tenant_settings d', oidc_login_state d') =
                (operator_tenant_memberships d, tenant_settings d, oidc_login_state d) }.

Definition email_key (g : email_grant_row) : uuid * uuid * uuid := (eg_tenant_id g, eg_agent_id g, eg_email_service_id g).
Definition config_key (r : client_config_row) : uuid * string := (oc_tenant_id r, oc_provider r).

(** The agent and the email service of a grant are stored and of its tenant. *)
Definition grant_rooted (d : db) (g : email_grant_row) : Prop :=
  (exists a, In a (agents d) /\ a_id a = eg_agent_id g /\ a_tenant_id a = eg_tenant_id g) /\
  (exists s, In s (email_services d) /\ es_id s = eg_email_service_id g /\ es_tenant_id s = eg_tenant_id g).

Record email_ok (d : db) : Prop := {
  eo_services : List.NoDup (map es_id (email_services d));
  eo_grants : List.NoDup (map email_key (email_permission_grants d));
  eo_rooted : forall g, In g (email_permission_grants d) -> grant_rooted d g;
  eo_states : List.NoDup (map os_state_value (oauth2_state d));
  eo_configs : List.NoDup (map config_key (oauth2_client_configs d));
  eo_vault : vault_ok (vault_credentials d) }.

Definition email_confined `{Sha256} `{Env} (t : uuid) (d d' : db) : Prop :=
  chains_kept d d' /\ (email_ok d -> email_ok d' /\ email_isolated t d d').

Lemma email_isolated_refl t d : email_isolated t d d.
Proof. by split. Qed.
Lemma email_isolated_trans t d1 d2 d3 : email_isolated t d1 d2 -> email_isolated t d2 d3 -> email_isolated t d1 d3.
Proof. intros [] []. split; congruence. Qed.

#[export] Instance email_confined_preorder `{Sha256} `{Env} t : PreOrder (email_confined t).
Proof.
  split.
  - intros d. split; [reflexivity|]. intros H1. split; [done|apply email_isolated_refl].
  - intros d1 d2 d3 [C1 I1] [C2 I2]. split; [by transitivity d2|]. intros H1.
    destruct (I1 H1) as [H2 J1]. destruct (I2 H2) as [H3 J2]. split; [done|]. by eapply email_isolated_trans.
Qed.

Ltac email_fields := cbn [tenants operators sessions agents services permission_grants audit_events audit_chain_state
    email_services email_permission_grants agent_secrets agent_secret_grants budget_counters service_api_keys
    operator_tenant_memberships tenant_settings oidc_login_state credentials vault_credentials oauth2_state
    oauth2_client_configs tb_get tb_set tb_cascade no_cascade email_services_t email_permission_grants_t oauth2_state_t
    oauth2_client_configs_t vault_credentials_t audit_events_t audit_chain_state_t].

Section Steps.
Context `{E : Env} `{V : Vault} `{Sha : Sha256}.
Context (t : uuid) (Ht : (t < uuid_limit)%N).
Abbreviation conf := (email_confined t).

Lemma email_confined_of d d' :
  audit_events d' = audit_events d -> audit_chain_state d' = audit_chain_state d ->
  (email_ok d -> email_ok d' /\ email_isolated t d d') -> conf d d'.
Proof.
  intros E1 E2 HI. split; [|done]. intros u Hu [H1 H2 H3].
  split; unfold chain_state_of, events_of in *; by rewrite ?E1, ?E2.
Qed.

Lemma confined_insert_email_service s d d' :
  es_tenant_id s = t -> insert_db email_services_t s d = Ok d' -> conf d d'.
Proof.
  intros Hs H. unfold insert_db in H. destruct (tb_check email_services_t d s) eqn:Ec; [done|].
  apply Ok_inj in H. subst d'. cbn [tb_check email_services_t first_violation] in Ec.
  destruct (existsb _ _); [|done]. destruct (existsb _ _); [|done].
  destruct (fresh es_id (es_id s) _) eqn:Ef; [|done]. apply fresh_spec in Ef. clear Ec.
  apply email_confined_of; [done..|]. intros [H1 H2 H3 H4 H5 H6]. split; split; email_fields; try done.
  - rewrite map_app. by apply NoDup_snoc.
  - intros g Hg. destruct (H3 g Hg) as [Ha (x & Hx & E1)]. split; [exact Ha|]. exists x. email_fields.
    split; [|done]. apply in_or_app. by left.
  - by apply not_of_snoc.
Qed.

Lemma confined_update_email_services p f d :
  (forall s, p s = true -> es_tenant_id s = t) ->
  (forall s, es_id (f s) = es_id s /\ es_tenant_id (f s) = es_tenant_id s) ->
  conf d (update_db email_services_t p f d).
Proof.
  intros Hp Hf. unfold update_db. apply email_confined_of; [done..|]. intros [H1 H2 H3 H4 H5 H6].
  split; split; email_fields; try done.
  - rewrite map_if_key; [done|]. intros s. apply Hf.
  - intros g Hg. destruct (H3 g Hg) as [Ha (x & Hx & E1 & E2)]. split; [exact Ha|].
    exists (if p x then f x else x). email_fields. split; [by apply (in_map (fun r => if p r then f r else r))|].
    destruct (p x); [|done]. destruct (Hf x) as [-> ->]. done.
  - apply not_of_map; intros s; destruct (p s) eqn:Es; try done; [apply Hf|]. intros Hne. by apply Hp in Es.
Qed.

Lemma confined_insert_email_grant g d d' :
  eg_tenant_id g = t -> grant_rooted d g -> insert_db email_permission_grants_t g d = Ok d' -> conf d d'.
Proof.
  intros Hg Hr H. unfold insert_db in H. destruct (tb_check email_permission_grants_t d g) eqn:Ec; [done|].
  apply Ok_inj in H. subst d'. cbn [tb_check email_permission_grants_t first_violation] in Ec.
  destruct (fresh eg_id _ _); [|done]. destruct (forallb _ _) eqn:Eu; [|done]. clear Ec.
  apply email_confined_of; [done..|]. intros [H1 H2 H3 H4 H5 H6]. split; split; email_fields; try done.
  - rewrite map_app. apply NoDup_snoc; [done|]. intros Hin. apply in_map_iff in Hin as (x & Ex & Hx).
    rewrite forallb_forall in Eu. apply Eu in Hx. unfold email_key in Ex. injection Ex as E1 E2 E3.
    by rewrite E1, E2, E3, !N.eqb_refl in Hx.
  - intros x Hx. apply in_app_or in Hx as [Hx|[<-|[]]]; [by apply H3|exact Hr].
  - by apply not_of_snoc.
Qed.

Lemma confined_delete_email_grants p d :
  (forall g, p g = true -> eg_tenant_id g = t) -> conf d (delete_db email_permission_grants_t p d).
Proof.
  intros Hp. unfold delete_db. apply email_confined_of; [done..|]. intros [H1 H2 H3 H4 H5 H6].
  split; split; email_fields; try done.
  - by apply NoDup_map_filter.
  - intros g Hg. apply filter_In in Hg as [Hg _]. by apply H3.
  - apply not_of_filter. intros g _ Hne. destruct (p g) eqn:Eg; [by apply Hp in Eg|done].
Qed.

Lemma confined_insert_state s d d' :
  os_tenant_id s = t -> insert_db oauth2_state_t s d = Ok d' -> conf d d'.
Proof.
  intros Hs H. unfold insert_db in H. destruct (tb_check oauth2_state_t d s) eqn:Ec; [done|].
  apply Ok_inj in H. subst d'. cbn [tb_check oauth2_state_t first_violation] in Ec.
  destruct (existsb _ _); [|done]. destruct (forallb _ _) eqn:Eu; [|done]. clear Ec.
  apply email_confined_of; [done..|]. intros [H1 H2 H3 H4 H5 H6]. split; split; email_fields; try done.
  - rewrite map_app. apply NoDup_snoc; [done|]. intros Hin. apply in_map_iff in Hin as (x & Ex & Hx).
    rewrite forallb_forall in Eu. apply Eu in Hx. by rewrite Ex, String.eqb_refl in Hx.
  - by apply not_of_snoc.
Qed.

Lemma confined_delete_states p d :
  (forall s, p s = true -> os_tenant_id s = t) -> conf d (delete_db oauth2_state_t p d).
Proof.
  intros Hp. unfold delete_db. apply email_confined_of; [done..|]. intros [H1 H2 H3 H4 H5 H6].
  split; split; email_fields; try done.
  - by apply NoDup_map_filter.
  - apply not_of_filter. intros s _ Hne. destruct (p s) eqn:Es; [by apply Hp in Es|done].
Qed.

Lemma confined_insert_config r d d' :
  oc_tenant_id r = t -> insert_db oauth2_client_configs_t r d = Ok d' -> conf d d'.
Proof.
  intros Hs H. unfold insert_db in H. destruct (tb_check oauth2_client_configs_t d r) eqn:Ec; [done|].
  apply Ok_inj in H. subst d'. cbn [tb_check oauth2_client_configs_t first_violation] in Ec.
  destruct (existsb _ _); [|done]. destruct (forallb _ _) eqn:Eu; [|done]. clear Ec.
  apply email_confined_of; [done..|]. intros [H1 H2 H3 H4 H5 H6]. split; split; email_fields; try done.
  - rewrite map_app. apply NoDup_snoc; [done|]. intros Hin. apply in_map_iff in Hin as (x & Ex & Hx).
    rewrite forallb_forall in Eu. apply Eu in Hx. unfold config_key in Ex. injection Ex as E1 E2.
    by rewrite E1, E2, N.eqb_refl, String.eqb_refl in Hx.
  - by apply not_of_snoc.
Qed.

Lemma confined_update_configs p f d :
  (forall r, In r (oauth2_client_configs d) -> p r = true -> oc_tenant_id r = t) ->
  (forall r, config_key (f r) = config_key r) -> conf d (update_db oauth2_client_configs_t p f d).
Proof.
  intros Hp Hf. unfold update_db. apply email_confined_of; [done..|]. intros [H1 H2 H3 H4 H5 H6].
  split; split; email_fields; try done.
  - by rewrite map_if_key.
  - clear -Hp Hf. revert Hp. generalize (oauth2_client_configs d). intros l Hp. unfold not_of. induction l as [|r l IH]; [done|].
    assert (Hk : oc_tenant_id (f r) = oc_tenant_id r) by (pose proof (Hf r) as H; unfold config_key in H; by injection H).
    cbn [map List.filter]. rewrite IH by (intros x Hx; apply Hp; by right).
    destruct (p r) eqn:Ep; [|done]. rewrite Hk. rewrite (Hp r (or_introl eq_refl) Ep). by rewrite N.eqb_refl.
Qed.

Lemma confined_delete_configs p d :
  (forall r, p r = true -> oc_tenant_id r = t) -> conf d (delete_db oauth2_client_configs_t p d).
Proof.
  intros Hp. unfold delete_db. apply email_confined_of; [done..|]. intros [H1 H2 H3 H4 H5 H6].
  split; split; email_fields; try done.
  - by apply NoDup_map_filter.
  - apply not_of_filter. intros r _ Hne. destruct (p r) eqn:Er; [by apply Hp in Er|done].
Qed.

(** A new version of the vault's credential, on the data of the open transaction or on the committed. *)
Lemma email_confined_put d0 d dbase s a v rows :
  conf d0 d -> conf d0 dbase -> CredentialAdapter.PutCredential (uuid_str t) s a (vault_credentials dbase) = Ok (v, rows) ->
  conf d0 (tb_set vault_credentials_t rows d).
Proof.
  intros [C1 I1] [_ I2] Hput. apply PutCredential_Put in Hput as (sid & _ & Hput); [|done].
  split.
  - transitivity d; [done|]. intros u Hu [K1 K2 K3]. by split.
  - intros H0. destruct (I1 H0) as [[H1 H2 H3 H4 H5 H6] J1]. destruct (I2 H0) as [[_ _ _ _ _ B6] J2]. split.
    + split; email_fields; try done. by eapply Put_vault_ok.
    + destruct J1, J2. split; email_fields; try done. by rewrite (Put_not_of _ _ _ _ _ _ Hput).
Qed.

Lemma email_confined_event r d : e_tenant_id r = t -> chains_kept d (append_event t r d) -> conf d (append_event t r d).
Proof.
  intros Er Hc. split; [done|]. intros [H1 H2 H3 H4 H5 H6]. unfold append_event.
  split; split; email_fields; try done.
  - by apply not_of_snoc.
  - apply not_of_map; intros c; destruct (N.eqb_spec (c_tenant_id c) t); done.
Qed.
End Steps.

Local Open Scope py_scope.

(** Something done on a connection of its own: its transactions relate the committed states. *)
Lemma respects_own_connection `{E : Env} `{V : Vault} (R : relation db) `{!PreOrder R} {A} G (m : M A) :
  (forall w, R (w_base w) (w_base (snd (m w)))) -> respects R G (on_own_connection m).
Proof.
  intros Hm d0 w [Hb Ha]. unfold on_own_connection. set (w0 := World _ _ _ _ _ _ _ _ _ _ _).
  specialize (Hm w0). destruct (m w0) as [o w1]. cbn [snd] in *. split; [|exact Ha].
  transitivity (w_base w); [exact Hb|exact Hm].
Qed.

Lemma validate_session_rule `{E : Env} `{V : Vault} (R : relation db) `{!PreOrder R} tok w :
  R (w_base w) (w_base (snd (validate_session tok w))).
Proof.
  unfold validate_session. destruct (UUID tok) as [u|e]; [|done]. unfold bind at 1.
  match goal with |- context [transaction ?m w] => assert (H : R (w_base w) (w_base (snd (transaction m w)))); [|by destruct (transaction m w) as [[?|?] ?]] end.
  apply (transaction_safe R), (safe_any R).
  apply respects_bind; [apply (respects_any_guc R); by intros ? ? ? [= <- <-]|intros _].
  apply respects_bind; [apply (respects_any_guc R); by intros ? ? ? [= <- <-]|intros _].
  apply respects_bind; [apply respects_now|intros now].
  apply respects_bind; [apply cast_uuid_any; apply _|intros id].
  apply respects_bind; [apply respects_select, _|intros rows]. apply respects_lift.
Qed.

Section Handlers.
Context `{E : Env} `{V : Vault} `{Sha : Sha256} `{Pyd : Pydantic}.
Context (t : uuid) (Ht : (t < uuid_limit)%N).
Abbreviation conf := (email_confined t).
Abbreviation here := (tenant_is (uuid_str t)).

Lemma emit_email G event_type actor actor_type target target_type payload :
  uuid_opt_ok actor -> json_wf (JObj payload) ->
  respects conf G (audit_emit t event_type actor actor_type target target_type payload).
Proof.
  intros Ha Hw. apply audit_emit_rule; [apply _|done..|]. intros d r Hr.
  apply email_confined_event; [by apply (em_tenant _ _ _ _ _ _ _ _ _ Hr)|]. by eapply append_event_chain.
Qed.

Lemma safe_then_ret {A B} G (m : M A) (f : A -> B) : safe conf G m -> safe conf G (let! r := m in ret (f r)).
Proof.
  intros Hm d0 w Hg. specialize (Hm d0 w Hg). unfold bind. by destruct (m w) as [[a|e] w1].
Qed.

Lemma email_reads {A} G (m : M A) : reads m -> respects conf G m.
Proof. intros Hm d0 w Hg. by apply reads_good. Qed.

Lemma email_try_value {A B} G (o : outcome A) (on_error : M B) (k : A -> M B) :
  safe conf G on_error -> (forall a, o = Ok a -> safe conf G (k a)) -> safe conf G (try_value o on_error k).
Proof. intros H1 H2. destruct o as [a|[]]; cbn [try_value]; auto using safe_raise. Qed.

Lemma email_guarded {A B} G (m : M A) (on_error : M B) (k : A -> M B) :
  respects conf G m -> safe conf G on_error -> (forall a, safe conf G (k a)) -> safe conf G (guarded m on_error k).
Proof.
  intros Hm He Hk. unfold guarded. apply safe_bind; [|by intros [a|]].
  apply respects_catch; [apply respects_bind; [done|intros; apply respects_ret]|intros; apply respects_ret].
Qed.
Lemma email_guarded_respects {A B} G (m : M A) (on_error : M B) (k : A -> M B) :
  respects conf G m -> respects conf G on_error -> (forall a, respects conf G (k a)) -> respects conf G (guarded m on_error k).
Proof.
  intros Hm He Hk. unfold guarded. apply respects_bind; [|by intros [a|]].
  apply respects_catch; [apply respects_bind; [done|intros; apply respects_ret]|intros; apply respects_ret].
Qed.

(** ** The statements *)

Lemma email_seen {R} (T : table R) (ten : R -> uuid) w pol p :
  (forall r, tb_tenant T r = Some (ten r)) -> here (w_tenant w) (w_admin_view w) -> policy w = Ok pol ->
  forall r, sees T pol r && p r = true -> ten r = t.
Proof.
  intros HT HG Hpol r Hr. apply andb_true_iff in Hr as [Hr _]. unfold sees in Hr. rewrite HT in Hr.
  by apply (tenant_policy t Ht w pol HG Hpol).
Qed.

Lemma email_insert_service s : es_tenant_id s = t -> respects conf here (insert_into email_services_t s).
Proof. intros Hs. apply respects_insert; [apply _|]. intros d d'. by apply confined_insert_email_service. Qed.
Lemma email_update_services p f :
  (forall s, es_id (f s) = es_id s /\ es_tenant_id (f s) = es_tenant_id s) -> respects conf here (update_where email_services_t p f).
Proof.
  intros Hf. apply respects_update; [apply _|]. intros w pol d HG Hpol. apply confined_update_email_services; [|done].
  by apply (email_seen email_services_t es_tenant_id w).
Qed.
Lemma email_delete_grants p : respects conf here (delete_from email_permission_grants_t p).
Proof.
  apply respects_delete; [apply _|]. intros w pol d HG Hpol. apply confined_delete_email_grants.
  by apply (email_seen email_permission_grants_t eg_tenant_id w).
Qed.
Lemma email_insert_state s : os_tenant_id s = t -> respects conf here (insert_into oauth2_state_t s).
Proof. intros Hs. apply respects_insert; [apply _|]. intros d d'. by apply confined_insert_state. Qed.
Lemma email_gc_states p : respects conf here (delete_from oauth2_state_t p).
Proof.
  apply respects_delete; [apply _|]. intros w pol d HG Hpol. apply confined_delete_states.
  by apply (email_seen oauth2_state_t os_tenant_id w).
Qed.
Lemma email_take_states p : respects conf here (delete_returning oauth2_state_t p).
Proof.
  apply respects_delete_returning; [apply _|]. intros w pol d HG Hpol. apply confined_delete_states.
  by apply (email_seen oauth2_state_t os_tenant_id w).
Qed.
Lemma email_delete_configs p : respects conf here (delete_returning oauth2_client_configs_t p).
Proof.
  apply respects_delete_returning; [apply _|]. intros w pol d HG Hpol. apply confined_delete_configs.
  by apply (email_seen oauth2_client_configs_t oc_tenant_id w).
Qed.
Lemma email_upsert_config provider f r :
  oc_tenant_id r = t -> (forall x, config_key (f x) = config_key x) ->
  respects conf here (upsert oauth2_client_configs_t (config_of t provider) f r).
Proof.
  intros Hr Hf. apply respects_upsert; [apply _| |].
  - intros d d'. by apply confined_insert_config.
  - intros w pol d _ _ _ _. apply confined_update_configs; [|done]. intros x _ Hx. unfold config_of in Hx.
    apply andb_true_iff in Hx as [Hx _]. by apply N.eqb_eq in Hx.
Qed.
Lemma email_put G s sc v u h q ta su : respects conf G (put_credential (uuid_str t) s sc v u h q ta su).
Proof. apply respects_put_rule. intros d0 d dbase a v0 rows. by apply email_confined_put. Qed.
Lemma email_get G tn s : respects conf G (get_credential tn s).
Proof. apply respects_get_credential. Qed.

Lemma email_service_of_reads s : reads (email_service_of t s).
Proof. unfold email_service_of. repeat (apply reads_bind; [first [apply reads_bound|apply reads_select]|intros ?]). apply reads_ret. Qed.
Lemma target_uuid_reads s : reads (target_uuid s).
Proof. unfold target_uuid. destruct (UUID s); [apply reads_ret|]. apply reads_bind; [apply reads_uuid4|intros; apply reads_ret]. Qed.
Lemma bound_opt_int4_reads o : reads (bound_opt_int4 o).
Proof. unfold bound_opt_int4. destruct o; [apply reads_bind; [apply reads_bound_int4|intros]|]; apply reads_ret. Qed.

Lemma email_config G provider : respects conf G (_oauth2_config_from_db t provider).
Proof.
  unfold _oauth2_config_from_db. apply email_guarded_respects; [repeat preserved_step|apply respects_ret|].
  intros [row|]; [|apply respects_ret].
  apply email_guarded_respects; [apply email_get|apply respects_ret|intros; apply respects_ret].
Qed.

Lemma email_state_owner G tok : respects conf G (state_owner tok).
Proof.
  unfold state_owner. apply respects_bind; [apply respects_uuid4|intros g]. destruct (String.eqb tok ""); [apply respects_ret|].
  apply respects_bind; [apply respects_own_connection; [apply _|]; intros w; by apply (validate_session_rule conf)|].
  intros; apply respects_ret.
Qed.

Ltac email_wf :=
  apply json_wf_obj; split; [apply NoDup_ListNoDup, (bool_decide_unpack _); reflexivity|];
  repeat apply Forall_cons_2; try apply Forall_nil_2; cbn [snd]; first [exact I | assumption | apply strings_wf].

Ltac email_step :=
  first
    [ lazymatch goal with
      | |- safe _ _ (try_value _ _ _) => apply email_try_value; [|intros ? ?]
      | |- safe _ _ (guarded _ _ _) => apply email_guarded; [| |intros ?]
      | |- safe _ _ (bind (lift _) _) => apply safe_lift; intros ? ?
      | |- respects _ _ (notify_change _ _) => apply respects_notify, _
      | |- respects _ _ transaction_timestamp => apply respects_now
      | |- respects _ _ (bound_int4 _) => apply email_reads, reads_bound_int4
      | |- respects _ _ (bound_opt_int4 _) => apply email_reads, bound_opt_int4_reads
      | |- respects _ _ (email_service_of _ _) => apply email_reads, email_service_of_reads
      | |- respects _ _ (target_uuid _) => apply email_reads, target_uuid_reads
      | |- respects _ _ (get_credential _ _) => apply email_get
      | |- respects _ _ (put_credential _ _ _ _ _ _ _ _ _) => apply email_put
      | |- respects _ _ (_oauth2_config_from_db _ _) => apply email_config
      | |- respects _ _ (state_owner _) => apply email_state_owner
      | |- respects _ _ (insert_into email_services_t _) => by apply email_insert_service
      | |- respects _ _ (update_where email_services_t _ _) => by apply email_update_services
      | |- respects _ _ (delete_from email_permission_grants_t _) => apply email_delete_grants
      | |- respects _ _ (insert_into oauth2_state_t _) => by apply email_insert_state
      | |- respects _ _ (delete_from oauth2_state_t _) => apply email_gc_states
      | |- respects _ _ (delete_returning oauth2_state_t _) => apply email_take_states
      | |- respects _ _ (delete_returning oauth2_client_configs_t _) => apply email_delete_configs
      | |- respects _ _ (upsert oauth2_client_configs_t _ _ _) => by apply email_upsert_config
      | |- respects _ _ (audit_emit _ _ _ _ _ _ _) => apply emit_email; [done|email_wf]
      end
    | preserved_step ].

Ltac open_email := rewrite ?(bound_str t), ?bind_ret by done; repeat (email_step; rewrite ?(bound_str t), ?bind_ret by done); try done.

(** ** Email services and client configurations *)

Lemma email_create body : safe conf no_guc (create_email_service t body).
Proof. unfold create_email_service. cbv zeta. open_email. Qed.

Lemma email_from_template reg body : safe conf no_guc (create_email_service_from_template reg t body).
Proof. unfold create_email_service_from_template. cbv zeta. open_email. Qed.

Lemma email_set_credential s body : safe conf no_guc (set_email_service_credential t s body).
Proof. unfold set_email_service_credential. cbv zeta. open_email. Qed.
Lemma email_delete_credential s : safe conf no_guc (delete_email_service_credential t s).
Proof. unfold delete_email_service_credential. open_email. Qed.
Lemma email_list limit offset : safe conf no_guc (list_email_services t limit offset).
Proof. unfold list_email_services. cbv zeta. open_email. Qed.
Lemma email_get_service s : safe conf no_guc (get_email_service t s).
Proof.
  unfold get_email_service. apply safe_set_tenant; [by intros ? ? [_ ?]|].
  apply safe_bind; [email_step|intros [row|]; [|apply safe_ret]]. apply safe_bind; [|intros; apply safe_ret].
  apply email_guarded_respects; [apply email_get|apply respects_ret|intros; apply respects_ret].
Qed.
Lemma email_patch s body : safe conf no_guc (patch_email_service t s body).
Proof. unfold patch_email_service. cbv zeta. open_email. Qed.
Lemma email_delete s : safe conf no_guc (delete_email_service t s).
Proof. unfold delete_email_service. open_email. Qed.

Lemma email_configure provider body : safe conf no_guc (configure_oauth2_provider t provider body).
Proof. unfold configure_oauth2_provider. cbv zeta. open_email. Qed.
Lemma email_list_providers : safe conf no_guc (list_oauth2_providers t).
Proof. unfold list_oauth2_providers. open_email. Qed.
Lemma email_get_provider provider : safe conf no_guc (get_oauth2_provider t provider).
Proof. unfold get_oauth2_provider. open_email. Qed.
Lemma email_delete_provider provider : safe conf no_guc (delete_oauth2_provider t provider).
Proof. unfold delete_oauth2_provider. cbv zeta. open_email. Qed.

(** ** The OAuth2 flow *)

Lemma email_authorize s provider tok : safe conf no_guc (oauth2_authorize t s provider tok).
Proof. unfold oauth2_authorize. cbv zeta. open_email. Qed.

Definition result_wf (r : _ExchangeResult) : Prop := match r with ExchangeOk _ _ token_type _ => json_wf token_type | _ => True end.

Lemma json_object_wf body d : json_object body = Ok d -> json_wf (JObj d).
Proof.
  unfold json_object. destruct body as [j|]; [|done]. cbn [fmap option_fmap option_map].
  destruct (dedup j) eqn:Ed; try done. intros H. apply Ok_inj in H. subst d. rewrite <- Ed. apply dedup_is_wf.
Qed.

Lemma field_wf k dflt d : json_wf (JObj d) -> json_wf dflt -> json_wf (default dflt (dict_get k d)).
Proof.
  intros Hd Hdf. apply json_wf_obj in Hd as [_ Hd]. by apply (dict_default_wf k).
Qed.

Lemma exchange_wf s provider code state cid cs w r w' :
  _exchange_oauth2_code_for_refresh_token t s provider code state cid cs w = (Ok r, w') -> result_wf r.
Proof.
  unfold _exchange_oauth2_code_for_refresh_token. intros H. step H as tid w1 H1. step H as now w2 H2. step H as rows w3 H3.
  destruct (fetchone rows) as [row|]; [|by apply ret_Ok in H as [-> _]].
  step H as resp w4 H4. destruct resp as [[status body]|]; [|by apply ret_Ok in H as [-> _]].
  destruct (negb _); [by apply ret_Ok in H as [-> _]|]. step H as data w5 H5. apply lift_Ok in H5 as [H5 _].
  apply json_object_wf in H5. cbv zeta in H. destruct (negb _); [by apply ret_Ok in H as [-> _]|].
  step H as addr w6 H6. unfold guarded in H. step H as o w7 H7. destruct o; [|by apply ret_Ok in H as [-> _]].
  step H as now' w8 H8. apply ret_Ok in H as [-> _]. cbn [result_wf]. by apply field_wf.
Qed.

Lemma email_gmail G tok : respects conf G (gmail_address tok).
Proof. unfold gmail_address. repeat preserved_step. Qed.

Lemma email_exchange s provider code state cid cs : respects conf here (_exchange_oauth2_code_for_refresh_token t s provider code state cid cs).
Proof.
  unfold _exchange_oauth2_code_for_refresh_token. cbv zeta. rewrite (bound_str t), bind_ret by done.
  apply respects_bind; [apply respects_now|intros now]. apply respects_bind; [apply email_take_states|intros rows].
  destruct (fetchone rows) as [row|]; [|apply respects_ret].
  apply respects_bind; [repeat preserved_step|intros [[status body]|]]; [|apply respects_ret].
  destruct (negb _); [apply respects_ret|]. apply respects_bind; [apply respects_lift|intros data].
  destruct (negb _); [apply respects_ret|]. apply respects_bind; [destruct (String.eqb _ _); [apply email_gmail|apply respects_ret]|intros addr].
  apply email_guarded_respects; [apply email_put|apply respects_ret|intros _].
  apply respects_bind; [apply respects_now|intros; apply respects_ret].
Qed.

Lemma email_emit_authorized G provider sid at_ tt_ addr :
  json_wf tt_ -> respects conf G (emit_authorized t provider sid at_ tt_ addr).
Proof.
  intros Hw. unfold emit_authorized. apply respects_bind; [apply email_reads, target_uuid_reads|intros u].
  apply emit_email; [done|email_wf].
Qed.

Lemma email_callback s provider body : safe conf no_guc (oauth2_callback t s provider body).
Proof.
  unfold oauth2_callback. destruct (negb _); [apply safe_ret|]. apply safe_set_tenant; [by intros ? ? [_ ?]|].
  apply safe_bind; [apply email_config|intros [[cid cs]|]]; [|apply safe_ret].
  apply (safe_bind_value conf here result_wf); [apply email_exchange|intros w r w'; apply exchange_wf|].
  intros [sid at_ tt_ addr|c ti st] Hr; [|apply safe_ret]. apply safe_bind; [by apply email_emit_authorized|intros; apply safe_ret].
Qed.

Lemma email_callback_view s provider q : safe conf no_guc (oauth2_callback_view t s provider q).
Proof.
  unfold oauth2_callback_view. cbv zeta. destruct (str_or (cq_error q) ""); [|apply safe_ret].
  destruct (negb _); [apply safe_ret|]. destruct (_ || _); [apply safe_ret|]. apply safe_set_tenant; [by intros ? ? [_ ?]|].
  apply safe_bind; [apply email_config|intros [[cid cs]|]]; [|apply safe_ret].
  apply (safe_bind_value conf here result_wf); [apply email_exchange|intros w r w'; apply exchange_wf|].
  intros [sid at_ tt_ addr|c ti st] Hr; [|apply safe_ret]. apply safe_bind; [by apply email_emit_authorized|intros; apply safe_ret].
Qed.

Lemma email_refresh token provider s tn : UUID tn = Ok t -> safe conf no_guc (oauth2_refresh token provider s tn).
Proof.
  intros Htn. unfold oauth2_refresh. cbv zeta. destruct (_ || _); [apply safe_ret|]. destruct (negb _); [apply safe_ret|].
  rewrite Htn. cbn [try_value]. open_email.
Qed.

Lemma email_validated errors m : safe conf no_guc m -> safe conf no_guc (validated errors m).
Proof. intros Hm. destruct errors; [done|apply safe_ret]. Qed.

Lemma email_requests reg rq : safe conf no_guc (email_handler reg t rq).
Proof.
  destruct rq; cbn [email_handler]; cbv zeta;
    try (apply safe_then_ret;
         first [ apply email_validated | idtac ];
         first [ apply email_create | apply email_from_template | apply email_list | apply email_get_service | apply email_patch
               | apply email_delete | apply email_set_credential | apply email_delete_credential | apply email_authorize
               | apply email_configure | apply email_list_providers | apply email_get_provider | apply email_delete_provider ]);
    first [ apply email_callback | apply email_callback_view ].
Qed.
(** ** Grants *)

Definition agent_found (aid : uuid) (d : db) : Prop := exists a, In a (agents d) /\ a_id a = aid /\ a_tenant_id a = t.
Definition service_found (sid : uuid) (d : db) : Prop :=
  exists s, In s (email_services d) /\ es_id s = sid /\ es_tenant_id s = t.

Lemma email_insert_grant gid aid sid now :
  respects_when conf (fun d => agent_found aid d /\ service_found sid d) here
    (catch (let! gid := bound (uuid_str gid) in
            do! insert_into email_permission_grants_t (EmailGrantRow gid t aid sid now now) in ret true)
           (fun e => if mentions_unique e then ret false else raise e)).
Proof.
  apply respects_when_catch; [|intros e; destruct (mentions_unique e); [apply respects_ret|apply respects_raise]].
  apply respects_when_reads; [apply reads_bound|intros g]. apply respects_when_bind; [|intros; apply respects_ret].
  apply respects_when_insert; [apply _|]. intros d d' [Ha Hs]. by apply confined_insert_email_grant.
Qed.

Lemma email_create_grant body : safe conf no_guc (create_email_permission_grant t body).
Proof.
  unfold create_email_permission_grant. apply safe_set_tenant; [by intros ? ? [_ ?]|].
  apply email_try_value; [apply safe_ret|intros [agent esvc] _]. rewrite (bound_str t), bind_ret by done.
  apply safe_bind; [apply respects_bound|intros aid].
  apply (safe_bind_reads conf here (fun rows d => forall a, fetchone rows = Some a -> agent_found aid d)); [apply reads_select| |intros rows].
  { intros w l w1 H a Ha. apply select_Ok in H as (pol & _ & _ & _ & ->). unfold fetchone in Ha. rewrite head_filter_find in Ha. apply find_some in Ha as [Hin Hp].
    rewrite !andb_true_iff, !N.eqb_eq in Hp. exists a. tauto. }
  destruct (fetchone rows) as [a0|]; [|apply safe_when_true, safe_ret].
  apply safe_when_reads; [apply reads_bound|intros sid].
  apply (safe_when_next conf _ (fun found d => agent_found aid d /\ forall s, fetchone found = Some s -> service_found sid d)).
  { apply respects_when_true, respects_select, _. }
  { intros w l w1 _ H HP. apply select_Ok in H as (pol & _ & _ & -> & ->). split; [by apply (HP a0)|].
    intros s Hs. unfold fetchone in Hs. rewrite head_filter_find in Hs. apply find_some in Hs as [Hin Hp].
    rewrite !andb_true_iff, !N.eqb_eq in Hp. exists s. tauto. }
  intros found. destruct (fetchone found) as [s0|]; [|apply safe_when_true, safe_ret].
  apply safe_when_reads; [apply reads_uuid4|intros gid]. apply safe_when_reads; [apply reads_now|intros now].
  apply safe_when_bind.
  { intros d0 w Hg [Ha Hs]. apply email_insert_grant; [done|]. split; [done|]. by apply (Hs s0). }
  intros ok. destruct (negb ok); [apply safe_ret|]. open_email.
Qed.

Lemma email_grants_requests rq : safe conf no_guc (email_grants_handler t rq).
Proof.
  destruct rq; cbn [email_grants_handler]; [apply email_create_grant|..].
  - unfold list_email_permission_grants. open_email.
  - unfold get_email_permission_grant. open_email.
  - unfold delete_email_permission_grant. cbv zeta. open_email.
Qed.
End Handlers.

(** ** The property *)

(** C11: A request on email services is confined to its tenant and keeps its tables in shape.  Whatever
    the request (on services, their credentials, grants, client configurations, a step of the OAuth2
    flow or a refresh for the proxy) and its outcome, a failure of any statement, of the commit, of the
    provider or of the vault included, every intact audit chain stays intact; and where identifiers of
    services, pending states, configurations of a provider and grants were unique, the agent and the
    service of every grant were stored and of its tenant, and the vault had at most one current version
    of a credential, all this still holds, and the email services, grants, states, configurations,
    secrets, events and chain heads of the other tenants and all other tables are exactly as before. *)
Theorem email_requests_confined `{E : Env} `{V : Vault} `{Sha : Sha256} `{Pyd : Pydantic} t w :
  (t < uuid_limit)%N ->
  (forall registry rq, email_confined t (w_base w) (w_base (snd (transaction (email_handler registry t rq) w)))) /\
  (forall rq, email_confined t (w_base w) (w_base (snd (transaction (email_grants_handler t rq) w)))) /\
  (forall token provider service_id tenant_id, UUID tenant_id = Ok t ->
     email_confined t (w_base w) (w_base (snd (transaction (oauth2_refresh token provider service_id tenant_id) w)))).
Proof.
  intros Ht. split; [|split].
  - intros registry rq. by apply (transaction_safe (email_confined t)), email_requests.
  - intros rq. by apply (transaction_safe (email_confined t)), email_grants_requests.
  - intros token provider service_id tenant_id Hu. by apply (transaction_safe (email_confined t)), email_refresh.
Qed.

Section Witnesses.
#[local] Existing Instance demo_env.
#[local] Existing Instance demo_vault.
#[local] Existing Instance toy_sha256.
#[local] Existing Instance toy_pydantic.

Definition new_mailbox : email_request :=
  PostEmailService (MkEmailServiceCreate "gmail" "Mail" "imap.gmail.com" 993 "smtp.gmail.com" 587 "email_oauth2" None 5 false).

Lemma email_requests_confined_witness :
  email_confined 1 demo_db (w_base (snd (transaction (email_handler [] 1 new_mailbox) demo_world))).
Proof. exact (proj1 (email_requests_confined 1 demo_world eq_refl) [] new_mailbox). Defined.
End Witnesses.
