(* ===== verification/TestCalls.v ===== *)
(** * Where the test calls of services go

    A test call goes to the host of the tested service and nowhere else; an
    SSH test goes wherever the credential says. *)

From Stdlib Require QArith_base.
From S2P Require Import Prelude PyStr PyText PyJson PyJsonFacts PyTime PyFloat PyUrl WireIds AuditHash AuditChain.
From S2P Require Import Like Vault Tables Database Logic Ulid Demo Keys Sessions AuditEmit AgentSecrets.
From S2P Require Import Sharing Permissions Erasure Ssrf VaultClient Templates SshTest Proxy Operators Services AgentLaws.
From S2P Require Import RegistrySafety.

Local Open Scope string_scope.
Local Open Scope py_scope.

#[local] Opaque uuid_str wire UUID isoformat_utc.

(** ** Where a test call goes *)

Section TestCalls.
Context `{E : Env} `{V : Vault} `{Sha : Sha256}.
Implicit Types w : world.

(** The URL is of HTTP, has the host of the base URL, and the host was resolved to no special address
    (where MINTKEY_SSRF_ALLOW_PRIVATE does not switch the check off). *)
Definition test_target (base_url url : string) : Prop :=
  exists parts host base_host n addrs,
    urlsplit url = Ok parts /\ In (sr_scheme parts) ["http"; "https"] /\ hostname parts = Some host /\
    url_hostname base_url = Ok (Some base_host) /\ lower base_host = lower host /\
    env_getaddrinfo n host = Ok addrs /\
    (private_allowed = true \/ forall s, In s addrs -> exists a, ip_address s = Some a /\ is_special a = false).

(** The headers and the URL a test of the stored service [s] with the credential [c] starts from. *)
Definition stored_auth (s : service_row) (c : option credential_reply) (path : string) : list (string * string) * string :=
  match c with
  | Some c => if String.eqb (cr_plaintext c) "" then ([], test_url (s_base_url s) path)
              else test_auth (s_auth_scheme s) (cr_plaintext c) (cr_header_name c) (cr_query_param c)
                     (test_url (s_base_url s) path)
  | None => ([], test_url (s_base_url s) path)
  end.

(** A request of a test of a stored service of the tenant [t]: to the service, with the credential the
    vault has for it and no other. *)
Definition stored_test (t : uuid) (d : db) (req : TestRunRequest) (b : backend_request) : Prop :=
  exists s c, In s (services d) /\ s_tenant_id s = t /\
    (c = None \/ exists n, c = vault_credential n (uuid_str t) (uuid_str (s_id s)) d) /\
    let '(headers, url) := stored_auth s c (tr_path req) in
    b = BackendRequest (tr_method req) url [] (merge_headers headers (default [] (tr_headers req))) (tr_body req) /\
    test_target (s_base_url s) url.

(** A request of a transient test: to the candidate, with its inline credential. *)
Definition transient_test (body : TransientTestRequest) (b : backend_request) : Prop :=
  let '(headers, url) := test_auth (tt_auth_scheme body) (tt_value body) (default "" (tt_header_name body))
    (default "" (tt_query_param body)) (test_url (tt_base_url body) (tt_path body)) in
  b = BackendRequest (tt_method body) url [] (merge_headers headers (default [] (tt_headers body))) (tt_body body) /\
  test_target (tt_base_url body) url.

Definition test_call (t : uuid) (d : db) (rq : services_request) (b : backend_request) : Prop :=
  match rq with
  | PostTest _ req => stored_test t d (default default_test_run req) b
  | PostTestTransient body => transient_test body b
  | _ => False
  end.

(** *** Computations that only ask *)

(** [m] leaves the data and the transaction as they are, whatever comes of it. *)
Definition idle {A} (m : M A) : Prop := forall w, kept w (snd (m w)) /\ w_db (snd (m w)) = w_db w.

Lemma idle_bind {A B} (m : M A) (k : A -> M B) : idle m -> (forall a, idle (k a)) -> idle (bind m k).
Proof.
  intros Hm Hk w. unfold bind. destruct (Hm w) as [K D]. destruct (m w) as [[a|e] w1]; [|done].
  cbn [snd] in *. destruct (Hk a w1) as [K1 D1]. split; [by transitivity w1|congruence].
Qed.
Lemma idle_catch {A} (m : M A) (h : exn -> M A) : idle m -> (forall e, idle (h e)) -> idle (catch m h).
Proof.
  intros Hm Hh w. unfold catch. destruct (Hm w) as [K D]. destruct (m w) as [[a|e] w1]; [done|].
  cbn [snd] in *. destruct (Hh e w1) as [K1 D1]. split; [by transitivity w1|congruence].
Qed.
Lemma idle_ret {A} (a : A) : idle (ret a). Proof. done. Qed.
Lemma idle_raise {A} e : idle (raise e : M A). Proof. done. Qed.
Lemma idle_lift {A} (o : outcome A) : idle (lift o). Proof. done. Qed.
Lemma idle_getaddrinfo host : idle (getaddrinfo host). Proof. done. Qed.
Lemma idle_resolve host : idle (resolve_hostname_is_private host).
Proof.
  unfold resolve_hostname_is_private. destruct (ip_address host); [apply idle_ret|].
  apply idle_catch; [by apply idle_bind|]. intros e. by destruct (is_gaierror e).
Qed.
Lemma idle_forbidden url : idle (_is_forbidden_destination url).
Proof.
  apply idle_catch; [|by intros e w]. apply idle_bind; [apply idle_lift|]. intros [host|]; [|apply idle_ret].
  destruct private_allowed; [apply idle_ret|apply idle_resolve].
Qed.
Lemma catch_Ok {A} (m : M A) (h : exn -> M A) w a w' : catch m h w = (Ok a, w') ->
  m w = (Ok a, w') \/ exists e w1, m w = (Raise e, w1) /\ h e w1 = (Ok a, w').
Proof. unfold catch. destruct (m w) as [[b|e] w1]; [by left|right; eauto]. Qed.
Lemma forbidden_eff url w o w' : _is_forbidden_destination url w = (o, w') -> kept w w' /\ w_db w' = w_db w.
Proof. intros H. pose proof (idle_forbidden url w) as Hi. by rewrite H in Hi. Qed.

(** *** Computations that send nothing to a backend *)

Lemma quiet_call_bind {A B} (m : M A) (k : A -> M B) : quiet_backend m -> (forall a, quiet_backend (k a)) -> quiet_backend (bind m k).
Proof.
  intros Hm Hk w. unfold bind. specialize (Hm w). destruct (m w) as [[a|e] w1]; [|done].
  cbn [snd] in Hm. rewrite <- Hm. apply Hk.
Qed.
Lemma quiet_catch {A} (m : M A) (h : exn -> M A) : quiet_backend m -> (forall e, quiet_backend (h e)) -> quiet_backend (catch m h).
Proof.
  intros Hm Hh w. unfold catch. specialize (Hm w). destruct (m w) as [[a|e] w1]; [done|].
  cbn [snd] in Hm. rewrite <- Hm. apply Hh.
Qed.
Lemma quiet_ssh_connect d : quiet_backend (ssh_connect d). Proof. done. Qed.

Lemma forwards_quiet {A} P w (m : M A) : quiet_backend m -> forwards P w m.
Proof. intros H. left. apply H. Qed.

Lemma forwards_outbound {A} (P : backend_request -> Prop) rq (k : outcome (Z * string) * Z -> M A) w :
  P rq -> (forall a, quiet_backend (k a)) -> forwards P w (bind (outbound rq) k).
Proof.
  intros HP Hk. right. exists rq. split; [|done]. unfold bind. destruct (outbound rq w) as [o w1] eqn:Eo.
  assert (Hw : p_forwarded (w_proc w1) = (p_forwarded (w_proc w) ++ [rq])%list /\ exists a, o = Ok a).
  { revert Eo. unfold outbound, bind, catch, monotonic, http_forward. destruct (env_backend _) as [[[st b] mt]|e]; cbn;
      intros [= <- <-]; by split; [|eexists]. }
  destruct Hw as [Hw [a ->]]. by rewrite Hk, Hw.
Qed.

Lemma forwards_transaction {A} P w (m : M A) : forwards P (begin w) m -> forwards P w (transaction m).
Proof. unfold forwards. by rewrite silent_transaction. Qed.
End TestCalls.

(** *** What the guards establish *)

Lemma hostname_nonempty r h : hostname r = Some h -> lower h <> "".
Proof.
  unfold hostname. destruct (fst (hostinfo _)) as [|c host]; [done|]. cbn [break].
  destruct (Ascii.eqb "%" c); [by intros [= <-]|]. destruct (break _ host) as [a z]. by intros [= <-].
Qed.

Section Guards.
Context `{E : Env} `{V : Vault} `{Sha : Sha256}.
Implicit Types w : world.

Lemma check_hostname_Ok final base u : _check_ssrf_hostname final base = Ok u ->
  u = final /\ exists bh fh, url_hostname base = Ok bh /\ url_hostname final = Ok fh /\
    lower (default "" fh) = lower (default "" bh).
Proof.
  unfold _check_ssrf_hostname. destruct (url_hostname base) as [bh|]; [|done]. destruct (url_hostname final) as [fh|]; [|done].
  cbn [mbind outcome_bind]. destruct (String.eqb_spec (lower (default "" fh)) (lower (default "" bh))); [|done].
  intros [= <-]. split; [done|]. by exists bh, fh.
Qed.

Lemma first_special_false addrs : first_special addrs = Ok false ->
  forall s, In s addrs -> exists a, ip_address s = Some a /\ is_special a = false.
Proof.
  induction addrs as [|s l IH]; [done|]. cbn [first_special]. destruct (ip_address s) as [a|] eqn:Ea; [|done].
  destruct (is_special a) eqn:Es; [done|]. intros H x [<-|Hx]; [by exists a|by apply IH].
Qed.

Lemma validate_url_Ok url reason w w' : _validate_test_url url w = (Ok (true, reason), w') ->
  exists parts host n addrs, urlsplit url = Ok parts /\ In (sr_scheme parts) ["http"; "https"] /\ hostname parts = Some host /\
    env_getaddrinfo n host = Ok addrs /\
    (private_allowed = true \/ forall s, In s addrs -> exists a, ip_address s = Some a /\ is_special a = false).
Proof.
  intros H. unfold _validate_test_url in H. step H as parts w1 H1. apply lift_Ok in H1 as [Hp ->].
  destruct (existsb _ _) eqn:Es; cbn [negb] in H; [|by apply ret_Ok in H as [H _]].
  destruct (hostname parts) as [host|] eqn:Eh; [|by apply ret_Ok in H as [H _]].
  step H as res w1 H1. unfold catch, bind, getaddrinfo in H1.
  destruct (env_getaddrinfo (w_tick w) host) as [addrs|e] eqn:Eg.
  2: { destruct (is_gaierror e); [|done]. apply ret_Ok in H1 as [-> _]. by apply ret_Ok in H as [H _]. }
  apply ret_Ok in H1 as [-> ->]. exists parts, host, (w_tick w), addrs. split; [done|]. split.
  { apply existsb_exists in Es as (s & Hs & E1). apply String.eqb_eq in E1. by rewrite E1. }
  split; [done|]. split; [done|]. destruct private_allowed; [by left|]. right.
  step H as sp w2 H2. apply lift_Ok in H2 as [H2 ->]. destruct sp; [by apply ret_Ok in H as [H _]|]. by apply first_special_false.
Qed.

(** A URL that passes the checks is a target of a test of its base URL. *)
Lemma checked_url_Ok final base n w u w' : checked_url final base n w = (Ok u, w') -> u = final /\ test_target base final.
Proof.
  intros H. unfold checked_url in H. step H as u1 w1 H1. apply lift_Ok in H1 as [H1 ->].
  apply check_hostname_Ok in H1 as [-> (bh & fh & Hb & Hf & Hl)]. step H as f w1 H1. apply lift_Ok in H1 as [_ ->].
  step H as safe w1 H1. destruct safe as [[] reason]; [|done]. apply ret_Ok in H as [-> _]. split; [done|].
  apply validate_url_Ok in H1 as (parts & host & k & addrs & Hp & Hs & Hh & Hg & Ha).
  unfold url_hostname in Hf. rewrite Hp in Hf. apply Ok_inj in Hf. subst fh. rewrite Hh in Hl. cbn [default] in Hl.
  destruct bh as [bh|]; [|by apply hostname_nonempty in Hh].
  by exists parts, host, bh, k, addrs.
Qed.

(** *** The silent parts *)

Lemma silent_varchar n s : silent (varchar n s).
Proof. unfold varchar. destruct (_ <=? _)%nat; [apply silent_ret|]. by apply silent_execute. Qed.
Lemma silent_resolve host : silent (resolve_hostname_is_private host).
Proof.
  unfold resolve_hostname_is_private. destruct (ip_address host); [apply silent_ret|].
  apply silent_catch; [by apply silent_bind|]. intros e. by destruct (is_gaierror e).
Qed.
Lemma silent_forbidden url : silent (_is_forbidden_destination url).
Proof.
  apply silent_catch; [|by intros e w]. apply silent_bind; [apply silent_lift|]. intros [host|]; [|apply silent_ret].
  destruct private_allowed; [apply silent_ret|apply silent_resolve].
Qed.
Lemma silent_validate_url url : silent (_validate_test_url url).
Proof. unfold _validate_test_url. repeat silent_step. Qed.
Lemma silent_checked_url f b n : silent (checked_url f b n).
Proof. unfold checked_url. repeat first [apply silent_validate_url | silent_step]. Qed.
Lemma silent_new_id p : silent (new_id p).
Proof. unfold new_id. repeat silent_step. Qed.
Lemma silent_delete_restricted {R} (T : table R) key refs p : silent (delete_restricted T key refs p).
Proof.
  apply silent_execute. intros w a w' H. destruct (policy w); [|done]. cbn [mbind outcome_bind] in H.
  match goal with H : context [match ?x with _ => _ end] |- _ => destruct x end; [done|]. apply Ok_inj in H. by injection H as <- <-.
Qed.
Lemma silent_try_value {A B} (o : outcome A) (m : M B) (k : A -> M B) :
  silent m -> (forall a, silent (k a)) -> silent (try_value o m k).
Proof. intros Hm Hk. destruct o as [a|[]]; try apply silent_raise; [apply Hk|exact Hm]. Qed.
Lemma silent_notify_change ch b : silent (notify_change ch b).
Proof. unfold notify_change. repeat silent_step. Qed.
End Guards.

#[export] Hint Resolve silent_varchar silent_forbidden silent_checked_url silent_new_id silent_delete_restricted
  silent_notify_change silent_get_credential silent_put_credential : silent.

Section Calls.
Context `{E : Env} `{V : Vault} `{Sha : Sha256}.
Implicit Types w : world.

Ltac handler_step :=
  lazymatch goal with
  | |- silent (try_value _ _ _) => apply silent_try_value; [|intros ?]
  | _ => silent_step
  end.

Lemma silent_describe s t : silent (describe s t).
Proof. unfold describe. repeat handler_step. Qed.
Lemma silent_insert_service iid t name slug dn desc url sch op tmpl now :
  silent (insert_service iid t name slug dn desc url sch op tmpl now).
Proof.
  unfold insert_service, varchar_opt. repeat handler_step.
  all: apply silent_execute; by intros w0 x w1 H.
Qed.
Lemma silent_cascade {R} (T : table R) of_row t sid tid s ev : silent (cascade T of_row t sid tid s ev).
Proof. unfold cascade. repeat handler_step. Qed.

Lemma silent_create_service t body : silent (create_service t body).
Proof. unfold create_service, _new_svc_id. repeat first [apply silent_insert_service | handler_step]. Qed.
Lemma silent_from_template reg t body : silent (create_service_from_template reg t body).
Proof. unfold create_service_from_template, _new_svc_id. repeat first [apply silent_insert_service | handler_step]. Qed.
Lemma silent_list_services t q : silent (list_services t q).
Proof. unfold list_services. repeat handler_step. Qed.
Lemma silent_get_service t s : silent (get_service t s).
Proof. unfold get_service. repeat first [apply silent_describe | handler_step]. Qed.
Lemma silent_update_service t s body : silent (update_service t s body).
Proof. unfold update_service. repeat first [apply silent_describe | handler_step]. Qed.
Lemma silent_delete_service t s : silent (delete_service t s).
Proof. unfold delete_service. repeat first [apply silent_cascade | handler_step]. Qed.

(** *** The test calls *)

Lemma quiet_emit (m : M unit) : silent m -> quiet_backend (emit_quietly m).
Proof. intros H. apply silent_quiet, silent_catch; [done|]. intros e. apply silent_ret. Qed.

Lemma quiet_ssh s c b n : quiet_backend (test_ssh_credential s c b n).
Proof.
  unfold test_ssh_credential.
  repeat first [ by apply silent_quiet, silent_monotonic | by apply silent_quiet, silent_lift | by apply silent_quiet, silent_ret
               | by apply silent_quiet, silent_raise | apply quiet_ssh_connect
               | apply quiet_call_bind; [|intros ?] | apply quiet_catch; [|intros ?]
               | match goal with |- quiet_backend (match ?x with _ => _ end) => destruct x
                 | |- quiet_backend (let _ := _ in _) => cbv zeta end].
Qed.
Lemma quiet_post_save s c b n : quiet_backend (_run_ssh_post_save_test s c b n).
Proof.
  unfold _run_ssh_post_save_test. destruct c as [c|]; [|by apply silent_quiet, silent_ret].
  destruct (_ || _); [by apply silent_quiet, silent_ret|apply quiet_ssh].
Qed.

Lemma forwards_transient t body w : forwards (transient_test body) w (test_service_transient t body).
Proof.
  unfold test_service_transient. apply forwards_bind; [apply silent_quiet, silent_forbidden|intros [] w1 _]; [apply forwards_ret|].
  apply forwards_bind; [apply silent_quiet, silent_set_tenant|intros u w2 _]. cbv zeta. destruct (is_ssh _).
  - apply forwards_quiet, quiet_call_bind; [apply quiet_ssh|intros r]. apply quiet_call_bind; [|intros _; by apply silent_quiet, silent_ret].
    apply quiet_emit, silent_bind; [apply silent_lift|intros host]. apply silent_audit_emit.
  - unfold transient_test. destruct (test_auth _ _ _ _ _) as [headers url].
    apply forwards_bind; [apply silent_quiet, silent_checked_url|intros u' w3 H]. apply checked_url_Ok in H as [-> Ht].
    apply forwards_outbound; [done|]. intros [answer latency]. apply quiet_call_bind; [apply quiet_emit, silent_audit_emit|].
    intros _. by apply silent_quiet, silent_ret.
Qed.

Lemma forwards_test t s req w : (t < uuid_limit)%N -> w_base w = w_db w -> w_admin_view w = false ->
  forwards (stored_test t (w_db w) (default default_test_run req)) w (test_service t s req).
Proof.
  intros Ht B0 A0. unfold test_service. cbv zeta. generalize (default default_test_run req). clear req. intros req.
  apply forwards_bind; [apply silent_quiet, silent_set_tenant|intros u w1 H].
  apply set_tenant_start in H as (T1 & B1 & D1 & _); [|done..].
  apply forwards_bind; [apply silent_quiet, silent_lift|intros db_uuid w2 H]. apply lift_Ok in H as [_ ->].
  apply forwards_bind; [apply silent_quiet, silent_bound|intros sid w2 H]. apply bound_Ok in H as [_ ->].
  rewrite (bound_str t), bind_ret by done.
  apply forwards_bind; [apply silent_quiet, silent_select|intros rows w2 H].
  apply select_eff in H as ([B2 _ _ _] & _ & D2 & pol & _ & ->).
  destruct (fetchone _) as [row|] eqn:Ef; [|apply forwards_ret].
  unfold fetchone in Ef. rewrite head_filter_find in Ef. apply List.find_some in Ef as [Hrow Ef].
  apply andb_true_iff in Ef as [_ Ef]. apply andb_true_iff in Ef as [_ Hrt]. apply N.eqb_eq in Hrt. rewrite D1 in Hrow. cbn in Hrow.
  apply forwards_bind; [apply silent_quiet, silent_forbidden|intros forbidden w3 H3]. apply forbidden_eff in H3 as ([B3 _ _ _] & _).
  destruct forbidden; [apply forwards_ret|].
  apply forwards_bind; [apply silent_quiet, silent_get_credential|intros c w4 H4]. apply get_credential_Ok in H4.
  rewrite B3, B2, B1, B0 in H4.
  destruct (is_ssh _).
  - apply forwards_quiet, quiet_call_bind; [apply quiet_post_save|intros r]. apply quiet_call_bind; [|intros _; by apply silent_quiet, silent_ret].
    apply quiet_emit, silent_audit_emit.
  - assert (Hauth : exists headers url, stored_auth row c (tr_path req) = (headers, url)) by (destruct (stored_auth _ _ _); eauto).
    destruct Hauth as (headers & url & Ha). pose proof Ha as Ha'. unfold stored_auth in Ha'. rewrite Ha'.
    apply forwards_bind; [apply silent_quiet, silent_checked_url|intros u' w5 H5]. apply checked_url_Ok in H5 as [-> Hg].
    apply forwards_outbound.
    + exists row, c. rewrite Ha. do 4 (split; [done|]). done.
    + intros [answer latency].
      destruct answer as [[st text]|e]; [|destruct (is_timeout e)];
        (apply quiet_call_bind; [apply quiet_emit, silent_audit_emit|intros _; by apply silent_quiet, silent_ret]).
Qed.

(** A request on services sends at most one request to a backend, and none that is not a test call. *)
Lemma services_forward registry t rq w : (t < uuid_limit)%N -> w_base w = w_db w -> w_admin_view w = false ->
  forwards (test_call t (w_db w) rq) w (services_handler registry t rq).
Proof.
  intros Ht B0 A0.
  destruct rq; cbn [services_handler test_call]; [| | | |apply forwards_transient|by apply forwards_test| |];
    apply forwards_quiet, silent_quiet.
  - apply silent_create_service.
  - apply silent_from_template.
  - apply silent_list_services.
  - apply silent_get_service.
  - apply silent_update_service.
  - apply silent_delete_service.
Qed.

(** C15: A test call goes to the service that is tested, with its own credential.  Whatever a request on
    services does, it sends at most one request to a backend, and only a test: its URL has the scheme
    http or https and the host of the base URL, and this host was resolved to addresses none of which
    is private, loopback, link-local, multicast, reserved or unspecified, unless
    MINTKEY_SSRF_ALLOW_PRIVATE switches this check off.  The test of a stored
    service is one of the caller's tenant and carries the credential the vault has for that service
    or none; a transient test carries the credential of its request. *)
Theorem test_calls_confined registry t rq w : (t < uuid_limit)%N ->
  let w' := snd (transaction (services_handler registry t rq) w) in
  p_forwarded (w_proc w') = p_forwarded (w_proc w) \/
  exists b, p_forwarded (w_proc w') = (p_forwarded (w_proc w) ++ [b])%list /\ test_call t (w_base w) rq b.
Proof. intros Ht. by apply forwards_transaction, (services_forward registry t rq (begin w)). Qed.
End Calls.

(** ** SSH tests *)

Lemma break_at p l c k : forallb (fun x => negb (p x)) l = true -> p c = true -> break p (l ++ c :: k)%list = (l, c :: k).
Proof. intros Hl Hc. rewrite break_all by done. cbn [break]. rewrite Hc. cbn [fst snd]. by rewrite app_nil_r. Qed.

Lemma rsplit_colon_port host port : forallb is_digit (chars port) = true ->
  rsplit_colon (host +:+ ":" +:+ port) = Some (host, port).
Proof.
  intros Hp. unfold rsplit_colon. rewrite !chars_app, !rev_app_distr, <- app_assoc. change (rev (chars ":")) with [":"%char].
  cbn [app]. rewrite break_at; [by rewrite !rev_involutive, !unchars_chars| |done].
  rewrite forallb_forall in *. intros c Hc. apply in_rev in Hc. apply Hp in Hc.
  destruct (Ascii.eqb_spec ":" c) as [<-|]; [done|]. done.
Qed.

Lemma digits_are_digits port : forallb is_digit (chars port) = true -> port <> "" -> py_isdigit port = true.
Proof.
  intros Hp Hn. unfold py_isdigit. destruct (String.eqb_spec port "") as [|_]; [done|]. cbn [negb andb].
  rewrite forallb_forall in *. intros c Hc. by rewrite Hp.
Qed.

Section Ssh.
Context `{E : Env} `{V : Vault} `{Sha : Sha256}.
Implicit Types w : world.

(** The inline value of an SSH password, as the UI sends it. *)
Definition ssh_password_value (user password target : string) : string :=
  dumps (JObj [("username", JStr user); ("password", JStr password); ("target_address", JStr target)]).

Lemma ssh_password_dials user password host port base n q w :
  user <> "" -> password <> "" -> forallb is_digit (chars port) = true -> port <> "" -> (py_len port <= 4300)%nat ->
  float_of_int n = Ok q ->
  exists r w', test_ssh_credential "ssh_password" (ssh_password_value user password (host +:+ ":" +:+ port)) base n w = (Ok r, w') /\
    p_dials (w_proc w') = (p_dials (w_proc w) ++ [SshDial host (Z.of_N (dec_value (chars port))) (JStr user) (JStr password)])%list.
Proof.
  intros Hu Hpw Hd Hne Hlen Hn. unfold test_ssh_credential, ssh_password_value. rewrite loads_dumps; [|apply json_wf_obj; split; [by repeat constructor; cbn; intuition congruence|by repeat constructor]].
  set (cred := [("username", JStr user); ("password", JStr password); ("target_address", JStr (host +:+ ":" +:+ port))]).
  assert (Ht : ssh_target cred base = Ok (host +:+ ":" +:+ port)).
  { unfold ssh_target. change (dict_get "target_address" cred) with (Some (JStr (host +:+ ":" +:+ port))). cbn [default id truthy].
    destruct (String.eqb_spec (host +:+ ":" +:+ port) "") as [E0|]; [by destruct host|done]. }
  assert (Hl : ssh_login "ssh_password" cred = Ok (inl (JStr user, JStr password))).
  { unfold ssh_login. change (dict_get "username" cred) with (Some (JStr user)). change (dict_get "password" cred) with (Some (JStr password)).
    cbn [String.eqb Ascii.eqb Bool.eqb default id]. unfold py_or. cbn [truthy].
    destruct (String.eqb_spec user "") as [|_]; [done|]. cbn [negb truthy].
    destruct (String.eqb_spec user "") as [|_]; [done|]. by destruct (String.eqb_spec password "") as [|_]. }
  assert (Hp : digits_int port = Ok (Z.of_N (dec_value (chars port)))).
  { unfold digits_int. rewrite Hd. by destruct (Nat.leb_spec (py_len port) 4300); [|lia]. }
  cbv beta iota delta [bind monotonic lift ret catch ssh_connect]. rewrite Ht, rsplit_colon_port, (digits_are_digits port Hd Hne) by done.
  cbn [negb]. rewrite Hp, Hl, Hn. cbn [tick set_proc w_tick]. destruct (env_ssh _) as [banner|e]; [by eexists _, _|].
  destruct (ssh_failure e _) as [status body]. by eexists _, _.
Qed.

(** An SSH test connects to whatever address the credential names.  Where a transient test of the
    scheme ssh_password has a base URL without a host (and so passes the check of forbidden
    destinations), a user, a password and a target address of a host and a decimal port, the server
    opens an SSH connection to that host and port with that user and password: no check of the
    address stands between, so the loopback interface, private networks and metadata services are
    reached, and the base URL does not matter. *)
Theorem ssh_test_unguarded registry t body user password host port q w :
  (t < uuid_limit)%N -> no_faults -> url_hostname (tt_base_url body) = Ok None ->
  tt_auth_scheme body = "ssh_password" -> tt_value body = ssh_password_value user password (host +:+ ":" +:+ port) ->
  float_of_int (tt_timeout_ms body) = Ok q ->
  user <> "" -> password <> "" -> forallb is_digit (chars port) = true -> port <> "" -> (py_len port <= 4300)%nat ->
  p_dials (w_proc (snd (transaction (services_handler registry t (PostTestTransient body)) w))) =
    (p_dials (w_proc w) ++ [SshDial host (Z.of_N (dec_value (chars port))) (JStr user) (JStr password)])%list.
Proof.
  intros Ht Hnf Hb Hs Hv Hq Hu Hpw Hd Hne Hlen. rewrite silent_transaction. cbn [services_handler].
  unfold test_service_transient. cbv zeta.
  assert (Hf : _is_forbidden_destination (tt_base_url body) (begin w) = (Ok false, begin w)).
  { unfold _is_forbidden_destination, catch, bind, lift. by rewrite Hb. }
  rewrite (bind_run _ _ _ _ _ Hf).
  assert (H1 : set_tenant_context (uuid_str t) false (begin w) = (Ok tt, set_guc (Some (uuid_str t)) false (tick (begin w)))).
  { unfold set_tenant_context. rewrite (bind_run _ _ _ tt (set_guc (Some (uuid_str t)) false (tick (begin w)))); [done|].
    by apply (set_config_run Hnf). }
  rewrite (bind_run _ _ _ _ _ H1), Hs, Hv.
  destruct (ssh_password_dials user password host port (tt_base_url body) (tt_timeout_ms body) q
    (set_guc (Some (uuid_str t)) false (tick (begin w)))) as (r & w2 & Hr & Hp); [done..|].
  change (is_ssh "ssh_password") with true. cbv iota. rewrite (bind_run _ _ _ _ _ Hr). change (p_dials (w_proc (set_guc (Some (uuid_str t)) false (tick (begin w))))) with (p_dials (w_proc w)) in Hp. rewrite <- Hp.
  assert (Hsil : forall (m : M unit) x, silent m -> silent (do! emit_quietly m in ret (x : response))).
  { intros m x Hm. apply silent_bind; [apply silent_catch; [done|intros e; apply silent_ret]|intros _; apply silent_ret]. }
  rewrite Hsil; [done|]. apply silent_bind; [apply silent_lift|intros h; apply silent_audit_emit].
Qed.
End Ssh.

Section Witnesses.
#[local] Existing Instance demo_env.
#[local] Existing Instance demo_vault.
#[local] Existing Instance toy_sha256.

(** A test of the demo service with its stored credential. *)
Lemma test_calls_confined_witness :
  exists b, p_forwarded (w_proc (snd (transaction (services_handler [] 1 (PostTest (wire 8 "svc") None)) demo_world))) = [b] /\
    test_call 1 demo_db (PostTest (wire 8 "svc") None) b.
Proof.
  destruct (test_calls_confined [] 1 (PostTest (wire 8 "svc") None) demo_world eq_refl) as [H|(b & H & Hb)].
  - exfalso. vm_compute in H. discriminate.
  - exists b. split; [exact H|exact Hb].
Defined.

(** A test that reaches the SSH server of the machine itself. *)
Definition local_ssh_test : TransientTestRequest :=
  MkTransientTestRequest "" "ssh_password" (ssh_password_value "root" "toor" "127.0.0.1:22") None None "GET" "/" None None 5000.

Lemma ssh_test_unguarded_witness :
  p_dials (w_proc (snd (transaction (services_handler [] 1 (PostTestTransient local_ssh_test)) demo_world))) =
    [SshDial "127.0.0.1" 22 (JStr "root") (JStr "toor")].
Proof.
  assert (Hnf : no_faults) by (intros n; reflexivity).
  assert (Hq : exists q, float_of_int 5000 = Ok q) by (eexists; vm_compute; reflexivity). destruct Hq as [q Hq].
  exact (ssh_test_unguarded [] 1 local_ssh_test "root" "toor" "127.0.0.1" "22" q demo_world eq_refl Hnf eq_refl eq_refl eq_refl Hq
           ltac:(discriminate) ltac:(discriminate) eq_refl ltac:(discriminate) ltac:(vm_compute; lia)).
Defined.
End Witnesses.
