(* ===== verification/ServiceLaws.v ===== *)
(** * What the service endpoints achieve

    A deleted service takes its keys, grants and credentials along and cannot
    be called any more; a registered service is shown as it was registered;
    a new base URL of an SSH service moves the target of its credential. *)

From Stdlib Require QArith_base.
From S2P Require Import Prelude PyStr PyText PyJson PyJsonFacts PyTime PyFloat PyUrl WireIds AuditHash AuditChain.
From S2P Require Import Like Vault Tables Database Logic Ulid Demo Keys Sessions AuditEmit AgentSecrets.
From S2P Require Import Sharing Permissions Erasure Ssrf VaultClient Templates SshTest Proxy Operators Services AgentLaws.
From S2P Require Import RegistrySafety TestCalls.

Local Open Scope string_scope.
Local Open Scope py_scope.

#[local] Opaque uuid_str wire UUID isoformat_utc.

(** ** A deleted service *)

Section Deletion.
Context `{E : Env} `{V : Vault} `{Sha : Sha256}.
Context (t : uuid) (Ht : (t < uuid_limit)%N).
Implicit Types w : world.

Lemma cascade_eff {R} (T : table R) of_row sid s ev w u w' : in_tenant t w ->
  cascade T of_row t sid t s ev w = (Ok u, w') ->
  in_tenant t w' /\ exists r, w_db w' = append_event t r (delete_db T (fun x => sees T (fun y => N.eqb y t || false) x && of_row sid t x) (w_db w)).
Proof.
  intros T0 H. unfold cascade in H. step H as gone w1 H1. apply delete_returning_eff in H1 as (K1 & _ & pol & Hp & D1 & _).
  rewrite (it_policy _ _ T0) in Hp. apply Ok_inj in Hp. subst pol.
  apply audit_emit_eff in H as (K2 & _ & r & _ & D2); [|done|apply uuid_opt_none].
  split; [eapply in_tenant_kept; [exact K2|by eapply in_tenant_kept]|]. exists r. by rewrite D2, D1.
Qed.

(** What a deletion leaves. *)
Lemma delete_service_Ok service_id w r w' :
  transaction (delete_service t service_id) w = (Ok r, w') ->
  status_code r = 204%Z /\
  exists sid, named_id (Admin.wire_to_db_uuid service_id "svc") = Some sid /\
    services (w_base w') = List.filter (fun s => negb (is_service sid t s)) (services (w_base w)) /\
    service_api_keys (w_base w') = List.filter (fun y => negb (key_of_service sid t y)) (service_api_keys (w_base w)) /\
    permission_grants (w_base w') = List.filter (fun g => negb (grant_of_service sid t g)) (permission_grants (w_base w)) /\
    credentials (w_base w') = List.filter (fun c => negb (credential_of_service sid t c)) (credentials (w_base w)) /\
    vault_credentials (w_base w') = vault_credentials (w_base w).
Proof.
  intros H. apply transaction_commits in H as (w1 & H & Hend). unfold delete_service in H.
  step H as u w2 H2. apply set_tenant_start in H2 as (T2 & B2 & D2 & _); [|done..].
  step H as s w3 H3. apply lift_Ok in H3 as [Hs ->]. step H as sid w3 H3. apply bound_Ok in H3 as [Hsid ->].
  rewrite (bound_str t), bind_ret in H by done.
  step H as u3 w3 H3. apply cascade_eff in H3 as (T3 & r3 & D3); [|done].
  step H as u4 w4 H4. apply cascade_eff in H4 as (T4 & r4 & D4); [|done].
  step H as u5 w5 H5. apply cascade_eff in H5 as (T5 & r5 & D5); [|done].
  step H as n w6 H6. apply delete_restricted_eff in H6 as (K6 & _ & pol & Hp & D6 & _).
  rewrite (it_policy _ _ T5) in Hp. apply Ok_inj in Hp. subst pol.
  step H as u7 w7 H7. apply audit_emit_eff in H7 as (K7 & _ & r7 & _ & D7); [|done|apply uuid_opt_none].
  step H as u8 w8 H8. apply notify_eff in H8 as (K8 & _ & D8). apply ret_Ok in H as [-> ->]. split; [done|].
  exists sid. unfold named_id. unfold _wire_id_to_db_uuid in Hs. rewrite Hs. split; [done|].
  assert (Hx : w_tx w8 = TxActive) by (rewrite (kp_tx _ _ K8), (kp_tx _ _ K7), (kp_tx _ _ K6); apply T5).
  rewrite (Hend Hx), D8, D7, D6, D5, D4, D3, D2. change (w_db (begin w)) with (w_base w).
  unfold append_event, delete_db. registry_fields.
  repeat apply conj; try done; apply filter_ext; intros x; f_equal; unfold sees; cbn [tb_tenant services_t service_api_keys_t
    permission_grants_t credentials_t];
    unfold is_service, key_of_service, grant_of_service, credential_of_service;
    match goal with |- context [N.eqb ?a t] => destruct (N.eqb a t) end; by rewrite ?andb_false_r.
Qed.

(** Without the service there is nothing to forward. *)
Lemma no_service_no_call `{Arg : Argon2} text path rq w sid :
  bind_uuid text = Some sid -> ~ In sid (map s_id (services (w_base w))) ->
  p_forwarded (w_proc (snd (proxy_call text path rq w))) = p_forwarded (w_proc w).
Proof.
  intros Hs Hn. unfold proxy_call. rewrite silent_transaction.
  destruct (proxy_forwards text path rq (begin w) eq_refl) as [H|(b & _ & k & n & y & a & svc & m & c & _ & _ & Hin & Hb & _)]; [exact H|].
  exfalso. apply Hn. assert (s_id svc = sid) as <- by congruence. by apply in_map.
Qed.
End Deletion.

(** A deletion of a service takes along everything that names it.  An accepted deletion removes the
    services row, the API keys, the grants and the credential versions of the service in the tenant
    and nothing else of these tables; where service identifiers are distinct and the service was the
    tenant's, no service has its identifier any more, and whatever key a later proxy call shows,
    nothing is forwarded to it.  The vault keeps the secret. *)
Theorem deleted_service_uncallable `{E : Env} `{V : Vault} `{Sha : Sha256} `{Arg : Argon2} t service_id w r w' :
  (t < uuid_limit)%N -> transaction (delete_service t service_id) w = (Ok r, w') ->
  exists sid, named_id (Admin.wire_to_db_uuid service_id "svc") = Some sid /\
    services (w_base w') = List.filter (fun s => negb (is_service sid t s)) (services (w_base w)) /\
    service_api_keys (w_base w') = List.filter (fun y => negb (key_of_service sid t y)) (service_api_keys (w_base w)) /\
    permission_grants (w_base w') = List.filter (fun g => negb (grant_of_service sid t g)) (permission_grants (w_base w)) /\
    credentials (w_base w') = List.filter (fun c => negb (credential_of_service sid t c)) (credentials (w_base w)) /\
    vault_credentials (w_base w') = vault_credentials (w_base w) /\
    forall s, In s (services (w_base w)) -> s_id s = sid -> s_tenant_id s = t -> List.NoDup (map s_id (services (w_base w))) ->
      ~ In sid (map s_id (services (w_base w'))) /\
      forall text path rq w1, services (w_base w1) = services (w_base w') -> bind_uuid text = Some sid ->
        p_forwarded (w_proc (snd (proxy_call text path rq w1))) = p_forwarded (w_proc w1).
Proof.
  intros Ht H. apply delete_service_Ok in H as (_ & sid & Hsid & Hs & Hk & Hg & Hc & Hv); [|done].
  exists sid. do 6 (split; [done|]). intros s Hin <- Hst Hnd.
  assert (Hgone : ~ In (s_id s) (map s_id (services (w_base w')))).
  { rewrite Hs. intros Hi. apply in_map_iff in Hi as (x & Ex & Hx). apply filter_In in Hx as [Hx Hn].
    assert (x = s) as -> by (by eapply (NoDup_key_unique s_id)). unfold is_service in Hn. by rewrite Hst, !N.eqb_refl in Hn. }
  split; [done|]. intros text path rq w1 E1 Hb. apply (no_service_no_call text path rq w1 (s_id s) Hb). by rewrite E1.
Qed.

(** ** A registered service *)

Lemma admin_wire_decode u p : (u < uuid_limit)%N -> Admin.wire_to_db_uuid (wire u p) p = Ok (uuid_str u).
Proof. intros Hu. by rewrite admin_codec_decode, N.mod_small. Qed.

Section Registration.
Context `{E : Env} `{V : Vault} `{Sha : Sha256}.
Context (t : uuid) (Ht : (t < uuid_limit)%N).
Implicit Types w : world.

(** The wall clock shows a time before the year 10889. *)
Definition clock_in_range : Prop := forall n, (0 <= milliseconds (env_time n) < 2 ^ 48)%Z.

Lemma new_svc_id_eff w s w' : clock_in_range -> _new_svc_id w = (Ok s, w') ->
  kept w w' /\ w_db w' = w_db w /\ exists u, (u < uuid_limit)%N /\ ulid_uuid s "svc_" = Ok u /\ s = wire u "svc".
Proof.
  intros Hc H. unfold _new_svc_id, new_id in H. step H as tm w1 H1. unfold time_time in H1. injection H1 as <- <-.
  step H as u w2 H2. apply uuid4_fresh in H2 as [Hu ->]. apply ret_Ok in H as [-> ->].
  split; [done|]. split; [done|]. exists (ulid_value (milliseconds (env_time (w_tick w))) u).
  split; [by apply ulid_value_lt|]. split; [by apply ulid_uuid_spec|]. by rewrite ulid_wire.
Qed.

Lemma insert_service_eff iid name slug dn desc url sch op tmpl now w u w' :
  (iid < uuid_limit)%N -> insert_service iid t name slug dn desc url sch op tmpl now w = (Ok u, w') ->
  exists a, sch = Some a /\ kept w w' /\ ~ In iid (map s_id (services (w_db w))) /\
    w_db w' = tb_set services_t (services (w_db w)
      ++ [ServiceRow iid t name slug dn desc url a op "active" tmpl now now 1 None])%list (w_db w).
Proof.
  intros Hi H. unfold insert_service in H. rewrite !bound_str, !bind_ret in H by done.
  step H as u1 w1 H1. apply varchar_eff in H1 as ->. step H as u2 w2 H2. apply varchar_eff in H2 as ->.
  assert (Ho : forall n o w1 u w2, varchar_opt n o w1 = (Ok u, w2) -> w2 = w1).
  { intros n o w1 x w2 Hv. destruct o; [by apply varchar_eff in Hv|by apply ret_Ok in Hv as [_ ->]]. }
  step H as u3 w3 H3. apply Ho in H3 as ->. step H as u4 w4 H4. apply Ho in H4 as ->. step H as u5 w5 H5. apply Ho in H5 as ->.
  destruct sch as [a|]; [|by apply execute_Ok in H as [_ H]]. apply insert_eff in H as (K & _ & Hck & D).
  exists a. do 2 (split; [done|]). split; [|exact D]. cbn [tb_check services_t first_violation s_id] in Hck.
  destruct (fresh s_id iid (services (w_db w))) eqn:Ef; [|done]. by apply fresh_spec in Ef.
Qed.

(** Announcing a registration leaves the services as they are. *)
Lemma announce_service_eff ev target payload ch body (r0 : response) w r w' : in_tenant t w ->
  (do! audit_emit t ev None "operator" (VUUID <$> target) (Some "service") payload in do! notify_change ch body in ret r0) w = (Ok r, w') ->
  r = r0 /\ w_tx w' = TxActive /\ services (w_db w') = services (w_db w).
Proof.
  intros T H. step H as u w1 H1. apply audit_emit_eff in H1 as (K1 & _ & e & _ & D1); [|done|apply uuid_opt_none].
  step H as u2 w2 H2. apply notify_eff in H2 as (K2 & _ & D2). apply ret_Ok in H as [-> ->].
  split; [done|]. split; [by rewrite (kp_tx _ _ K2), (kp_tx _ _ K1); apply T|by rewrite D2, D1].
Qed.

(** The fields of a service that registration and reading both answer. *)
Definition SHOWN : list string :=
  ["id"; "tenant_id"; "name"; "slug"; "display_name"; "description"; "base_url"; "auth_scheme"; "openapi_url"; "status";
   "created_at"; "updated_at"; "template_id"].

Definition registers_service (rq : services_request) : Prop :=
  match rq with PostService _ | PostFromTemplate _ => True | _ => False end.

Lemma shown_field f d1 d2 : (forall g, In g SHOWN -> dict_get g d1 = dict_get g d2) -> In f SHOWN ->
  response_field f (JSONResponse 201 d1) = dict_get f d2.
Proof. intros H Hf. exact (H f Hf). Qed.

Lemma register_Ok registry rq w r w' : clock_in_range -> registers_service rq ->
  transaction (services_handler registry t rq) w = (Ok r, w') -> status_code r = 201%Z ->
  exists s, services (w_base w') = (services (w_base w) ++ [s])%list /\ ~ In (s_id s) (map s_id (services (w_base w))) /\
    s_tenant_id s = t /\ (s_id s < uuid_limit)%N /\
    forall f, In f SHOWN -> response_field f r = dict_get f (_service_row_to_dict (s, 0%Z)).
Proof.
  intros Hc Hrq H Hst. apply transaction_commits in H as (w1 & H & Hend). destruct rq; try done; cbn [services_handler] in H.
  - unfold create_service in H. step H as fb w2 H2. apply forbidden_eff in H2 as ([_ _ _ A2] & E2).
    destruct fb; [by apply ret_Ok in H as [-> _]|].
    step H as u w3 H3. apply set_tenant_start in H3 as (T3 & B3 & D3 & _); [|done|by rewrite A2].
    step H as svc w4 H4. apply new_svc_id_eff in H4 as (K4 & D4 & iid & Hi & Hu & ->); [|done].
    step H as i2 w5 H5. apply lift_Ok in H5 as [H5 ->]. rewrite Hu in H5. apply Ok_inj in H5. subst i2.
    step H as now w5 H5. apply now_eff in H5 as (K5 & _ & D5).
    step H as u6 w6 H6. apply insert_service_eff in H6 as (a & Ea & K6 & Hn & D6); [|done..]. injection Ea as <-.
    apply (announce_service_eff _ (Some iid)) in H as (-> & Hx & Hs); [|do 2 (eapply in_tenant_kept; [eassumption|]); by eapply in_tenant_kept].
    eexists. rewrite (Hend Hx), Hs, D6. registry_fields. rewrite D5, D4, D3, E2 in Hn |- *.
    repeat apply conj; try done. intros f Hf. apply shown_field; [|exact Hf]. clear. intros g Hg.
    repeat (destruct Hg as [<-|Hg]; [reflexivity|]). destruct Hg.
  - unfold create_service_from_template in H.
    destruct (Templates.registry_get _ _) as [tmpl|]; [|by apply ret_Ok in H as [-> _]]. cbv zeta in H.
    destruct (override _ so_base_url _ _) as [url|]; [|by apply ret_Ok in H as [-> _]].
    step H as fb w2 H2. apply forbidden_eff in H2 as ([_ _ _ A2] & E2).
    destruct fb; [by apply ret_Ok in H as [-> _]|].
    step H as u w3 H3. apply set_tenant_start in H3 as (T3 & B3 & D3 & _); [|done|by rewrite A2].
    step H as svc w4 H4. apply new_svc_id_eff in H4 as (K4 & D4 & iid & Hi & Hu & ->); [|done].
    step H as i2 w5 H5. apply lift_Ok in H5 as [H5 ->]. rewrite Hu in H5. apply Ok_inj in H5. subst i2.
    step H as now w5 H5. apply now_eff in H5 as (K5 & _ & D5).
    step H as taken w6 H6. destruct taken; [by apply ret_Ok in H as [-> _]|].
    apply catch_Ok in H6 as [H6|(e & wx & _ & H6)]; [|by destruct e].
    step H6 as u6 w7 H7. apply ret_Ok in H6 as [_ ->].
    apply insert_service_eff in H7 as (a & Ea & K6 & Hn & D6); [|done..].
    apply (announce_service_eff _ (Some iid)) in H as (-> & Hx & Hs); [|do 2 (eapply in_tenant_kept; [eassumption|]); by eapply in_tenant_kept].
    eexists. rewrite (Hend Hx), Hs, D6. registry_fields. rewrite D5, D4, D3, E2 in Hn |- *.
    repeat apply conj; try done. intros f Hf. rewrite Ea. apply shown_field; [|exact Hf]. clear. intros g Hg.
    repeat (destruct Hg as [<-|Hg]; [reflexivity|]). destruct Hg.
Qed.

(** What reading a service answers, when its identifier is unique. *)
Lemma get_service_run s l w : no_faults -> services (w_base w) = (l ++ [s])%list -> ~ In (s_id s) (map s_id l) ->
  s_tenant_id s = t -> (s_id s < uuid_limit)%N ->
  exists v w', transaction (get_service t (wire (s_id s) "svc")) w = (Ok (JSONResponse 200 (_service_row_to_dict (s, v))), w').
Proof.
  intros Hnf Hl Hn Hst Hi. unfold get_service.
  unfold _wire_id_to_db_uuid. rewrite (admin_wire_decode (s_id s)) by done.
  set (wt := set_guc (Some (uuid_str t)) false (tick (begin w))).
  assert (H1 : set_tenant_context (uuid_str t) false (begin w) = (Ok tt, wt)).
  { unfold set_tenant_context. rewrite (bind_run _ _ _ tt wt); [done|]. by apply (set_config_run Hnf). }
  set (pol := fun r : uuid => N.eqb r t || false).
  assert (Hq : exists v, (query (fun pol d => map (with_version pol d)
      (List.filter (is_service (s_id s) t) (visible services_t pol d)))) wt = (Ok [(s, v)], tick wt)).
  { exists (max_key_version pol (w_base w) s). apply (execute_run Hnf); [done|].
    assert (Hp : policy (tick wt) = Ok pol) by (unfold policy; cbn; by rewrite pg_uuid_in_str).
    rewrite Hp. cbn [mbind outcome_bind]. change (w_db (tick wt)) with (w_base w). do 2 f_equal.
    unfold visible. cbn [tb_get services_t]. rewrite Hl, !List.filter_app. 
    rewrite (filter_none _ (List.filter (sees services_t pol) l)).
    2: { intros x Hx. apply filter_In in Hx as [Hx _]. unfold is_service. destruct (N.eqb_spec (s_id x) (s_id s)) as [E1|]; [|done].
         exfalso. apply Hn. rewrite <- E1. by apply in_map. }
    cbn [List.filter]. unfold sees, pol, is_service. cbn [tb_tenant services_t orb]. rewrite Hst, N.eqb_refl. cbn [orb List.filter app]. by rewrite Hst, !N.eqb_refl. }
  destruct Hq as [v Hq]. exists v. eexists. apply (transaction_run Hnf _ _ _ (tick wt)); [|done].
  rewrite (bind_run _ _ _ _ _ H1). change (@lift _ string (Ok (uuid_str (s_id s)))) with (@ret _ string (uuid_str (s_id s))).
  rewrite bind_ret. unfold describe.
  rewrite !bound_str, !bind_ret by done. by rewrite (bind_run _ _ _ _ _ Hq).
Qed.
End Registration.

(** A registered service is shown as it was registered.  After an accepted registration, directly or
    from a template, a read of the identifier it answered finds the service, and shows the same
    identifier, tenant, name, slug, display name, description, base URL, scheme, OpenAPI URL, status,
    template and times as the registration did: the identifier in the answer is the wire form of the
    row's, and no other row has it. *)
Theorem registered_service_shown `{E : Env} `{V : Vault} `{Sha : Sha256} t registry rq w r w' :
  (t < uuid_limit)%N -> no_faults -> clock_in_range -> registers_service rq ->
  transaction (services_handler registry t rq) w = (Ok r, w') -> status_code r = 201%Z ->
  exists id, response_field "id" r = Some (JStr id) /\
    forall w1, services (w_base w1) = services (w_base w') ->
      exists r1 w2, transaction (services_handler registry t (GetService id)) w1 = (Ok r1, w2) /\ status_code r1 = 200%Z /\
        forall f, In f SHOWN -> response_field f r1 = response_field f r.
Proof.
  intros Ht Hnf Hc Hrq H Hst. destruct (register_Ok t Ht registry rq w r w' Hc Hrq H Hst) as (s & Hs & Hn & Hst' & Hi & Hf).
  exists (wire (s_id s) "svc"). split; [rewrite Hf by (by left); by cbn|]. intros w1 E1. rewrite Hs in E1.
  destruct (get_service_run t Ht s _ w1 Hnf E1 Hn Hst' Hi) as (v & w2 & Hrun).
  eexists _, w2. split; [exact Hrun|]. split; [done|]. intros f Hin. rewrite (Hf f Hin).
  clear -Hin. repeat (destruct Hin as [<-|Hin]; [reflexivity|]). destruct Hin.
Qed.

(** ** The update of an SSH service *)

Section Update.
Context `{E : Env} `{V : Vault} `{Sha : Sha256}.
Context (t : uuid) (Ht : (t < uuid_limit)%N).
Implicit Types w : world.

Lemma update_in_tenant {R} (T : table R) p f w w' u : in_tenant t w -> update_where T p f w = (Ok u, w') ->
  in_tenant t w' /\ w_db w' = update_db T (fun r => sees T (fun y => N.eqb y t || false) r && p r) f (w_db w).
Proof.
  intros T0 H. apply update_eff in H as (K & _ & pol & Hp & D). rewrite (it_policy _ _ T0) in Hp. apply Ok_inj in Hp. subst pol.
  split; [by eapply in_tenant_kept|done].
Qed.

(** The scheme the service has after the update. *)
Definition new_scheme (body : ServiceUpdate) (s : service_row) : string := coalesce (su_auth_scheme body) (s_auth_scheme s).

(** The vault's rows after the update of the service [s]. *)
Definition retargeted (sid : uuid) (body : ServiceUpdate) (s : service_row) (rows rows' : list vault_row) : Prop :=
  match su_base_url body with
  | Some url =>
      if startswith (new_scheme body s) "ssh_" then
        exists a, _parse_ssh_host_port url = Ok a /\
          rows' = map (fun r => if N.eqb (vc_service_id r) sid && N.eqb (vc_tenant_id r) t && vc_is_current r
                                then set_target_address a r else r) rows
      else rows' = rows
  | None => rows' = rows
  end.

Lemma bound_Ok_eq s sid : bind_uuid s = Some sid -> bound s = ret sid.
Proof. intros H. unfold bound. by rewrite H. Qed.

Lemma is_service_tenant sid s : is_service sid t s = true -> s_tenant_id s = t.
Proof. intros H. apply andb_true_iff in H as [_ H]. by apply N.eqb_eq. Qed.

(** The first row of a SELECT on the rows of the tenant. *)
Lemma find_in_tenant p w rows w' : in_tenant t w -> (forall s, p s = true -> s_tenant_id s = t) ->
  select services_t p w = (Ok rows, w') ->
  in_tenant t w' /\ w_db w' = w_db w /\ fetchone rows = List.find p (services (w_db w)).
Proof.
  intros T0 Hp H. apply select_eff in H as (K & _ & D & pol & Hpol & ->). rewrite (it_policy _ _ T0) in Hpol. apply Ok_inj in Hpol. subst pol.
  split; [by eapply in_tenant_kept|]. split; [done|]. unfold fetchone. rewrite head_filter_find. apply find_ext. intros s.
  unfold sees. cbn [tb_tenant services_t]. destruct (p s) eqn:Ep; [|by rewrite andb_false_r]. by rewrite (Hp _ Ep), N.eqb_refl.
Qed.

Lemma describe_find s sid w r w' : in_tenant t w -> bind_uuid s = Some sid -> status_code r = 200%Z ->
  describe s t w = (Ok r, w') ->
  w_tx w' = TxActive /\ w_db w' = w_db w /\ exists x, List.find (is_service sid t) (services (w_db w)) = Some x.
Proof.
  intros T0 Hs Hst H. unfold describe in H. rewrite (bound_Ok_eq _ _ Hs), bind_ret, (bound_str t), bind_ret in H by done.
  step H as rows w1 H1. apply query_eff in H1 as (K & _ & D & pol & Hp & ->). rewrite (it_policy _ _ T0) in Hp. apply Ok_inj in Hp. subst pol.
  apply ret_Ok in H as [-> ->]. split; [rewrite (kp_tx _ _ K); apply T0|]. split; [done|].
  destruct (List.find (is_service sid t) (services (w_db w))) as [x|] eqn:Ef; [by exists x|]. exfalso.
  assert (Hnil : List.filter (is_service sid t) (visible services_t (fun r => N.eqb r t || false) (w_db w)) = []).
  { apply filter_none. intros x Hx. apply filter_In in Hx as [Hx _]. by eapply List.find_none. }
  rewrite Hnil in Hst. discriminate.
Qed.

(** The target that is written. *)
Definition effective (body : ServiceUpdate) (stored : option string) : string :=
  match su_auth_scheme body with Some s => if String.eqb s "" then default "" stored else s | None => default "" stored end.

Lemma update_service_Ok service_id body w r w' :
  transaction (update_service t service_id body) w = (Ok r, w') -> status_code r = 200%Z ->
  exists sid s now, named_id (Admin.wire_to_db_uuid service_id "svc") = Some sid /\
    List.find (is_service sid t) (services (w_base w)) = Some s /\
    services (w_base w') = map (fun x => if is_service sid t x then apply_update body now x else x) (services (w_base w)) /\
    retargeted sid body s (vault_credentials (w_base w)) (vault_credentials (w_base w')).
Proof.
  intros H Hst. apply transaction_commits in H as (w1 & H & Hend). unfold update_service in H.
  step H as fb w2 H2.
  assert (K2 : w_admin_view w2 = false /\ w_db w2 = w_base w).
  { destruct (su_base_url body); [|by apply ret_Ok in H2 as [_ ->]]. apply forbidden_eff in H2 as ([_ _ _ A2] & E2). by rewrite A2, E2. }
  destruct fb; [by apply ret_Ok in H as [-> _]|]. destruct K2 as [A2 E2]. clear H2.
  apply try_value_Ok in H as [H|(early & Hearly & H)]; [by apply ret_Ok in H as [-> _]|].
  step H as u w3 H3. apply set_tenant_start in H3 as (T3 & B3 & D3 & _); [|done..]. rewrite E2 in D3.
  step H as s0 w4 H4. apply lift_Ok in H4 as [Hs0 ->]. step H as now w4 H4. apply now_eff in H4 as (K4 & _ & D4).
  pose proof (in_tenant_kept _ _ _ K4 T3) as T4. rewrite D3 in D4.
  step H as stored w5 H5.
  apply try_value_Ok in H as [H|(target & Htarget & H)]; [by apply ret_Ok in H as [-> _]|].
  step H as sid w6 H6. apply bound_Ok in H6 as [Hsid ->]. rewrite (bound_str t), bind_ret in H by done.
  assert (Hstored : in_tenant t w5 /\ w_db w5 = w_base w /\ (su_base_url body <> None -> stored =
    match su_auth_scheme body with None => s_auth_scheme <$> List.find (is_service sid t) (services (w_base w)) | Some _ => None end)).
  { destruct (su_base_url body) as [url|]; [destruct (su_auth_scheme body)|];
      try (by apply ret_Ok in H5 as [-> ->]).
    rewrite (bound_Ok_eq _ _ Hsid), bind_ret, (bound_str t), bind_ret in H5 by done.
    step H5 as rows w7 H7. apply find_in_tenant in H7 as (T7 & D7 & Hrows); [|done|apply is_service_tenant].
    apply ret_Ok in H5 as [-> ->]. rewrite D7. split; [done|]. split; [done|]. intros _. by rewrite Hrows, D4. }
  clear H5. destruct Hstored as (T5 & D5 & Hstored).
  step H as u6 w6 H6. apply update_in_tenant in H6 as [T6 D6]; [|done].
  step H as u7 w7 H7. step H as u8 w8 H8. step H as u9 w9 H9.
  set (target_rows := fun a => map (fun r => if N.eqb (vc_service_id r) sid && N.eqb (vc_tenant_id r) t && vc_is_current r
    then set_target_address a r else r)).
  assert (H7' : in_tenant t w7 /\ services (w_db w7) = services (w_db w6) /\
    vault_credentials (w_db w7) = match su_base_url body, target with
      | Some _, Some a => if startswith (effective body stored) "ssh_" then target_rows a (vault_credentials (w_base w))
                          else vault_credentials (w_base w)
      | _, _ => vault_credentials (w_base w)
      end).
  { assert (V6 : vault_credentials (w_db w6) = vault_credentials (w_base w)) by (by rewrite D6, <- D5).
    rewrite <- V6. destruct (su_base_url body); [destruct target as [a|]|]; try (by apply ret_Ok in H7 as [_ ->]).
    fold (effective body stored) in H7. revert H7. destruct (startswith (effective body stored) "ssh_"); intros H7; [|by apply ret_Ok in H7 as [_ ->]].
    apply update_in_tenant in H7 as [T7 D7]; [|done]. rewrite D7. unfold update_db. registry_fields. split; [done|]. split; [done|].
    apply map_ext. intros x. unfold sees. cbn [tb_tenant vault_credentials_t].
    destruct (N.eqb (vc_tenant_id x) t); [done|]. cbn [orb andb]. by rewrite andb_false_r. }
  clear H7. destruct H7' as (T7 & S7 & V7).
  apply audit_emit_eff in H8 as (K8 & _ & r8 & _ & D8); [|done|apply uuid_opt_none].
  apply notify_eff in H9 as (K9 & _ & D9).
  apply (describe_find _ sid) in H as (X9 & D10 & s' & Hs'); [|by do 2 (eapply in_tenant_kept; [eassumption|])|done|done].
  assert (Hsv : services (w_db w9) = map (fun x => if is_service sid t x then apply_update body now x else x) (services (w_base w))).
  { rewrite D9, D8. transitivity (services (w_db w7)); [done|]. rewrite S7, D6. unfold update_db. registry_fields. rewrite D5.
    apply map_ext. intros x. unfold sees, is_service. cbn [tb_tenant services_t].
    destruct (N.eqb (s_tenant_id x) t); [done|by rewrite andb_false_r]. }
  assert (Hs : exists s, List.find (is_service sid t) (services (w_base w)) = Some s).
  { rewrite Hsv in Hs'. clear -Hs'. induction (services (w_base w)) as [|x l IH]; [done|]. cbn [map List.find] in *.
    destruct (is_service sid t x) eqn:Ex; [by exists x|]. rewrite Ex in Hs'. by apply IH. }
  destruct Hs as [s Hs]. exists sid, s, now. unfold named_id. unfold _wire_id_to_db_uuid in Hs0. rewrite Hs0.
  split; [done|]. split; [done|]. rewrite (Hend X9), D10. split; [done|].
  assert (Hvv : vault_credentials (w_db w9) = vault_credentials (w_db w7)) by (by rewrite D9, D8). rewrite Hvv, V7.
  rewrite Hs in Hstored. cbn [fmap option_fmap option_map] in Hstored.
  unfold retargeted, new_scheme, early_target in *. fold target_rows. clear -Hstored Hearly Htarget.
  destruct (su_base_url body) as [url|]; [|done]. specialize (Hstored ltac:(done)). unfold effective.
  assert (Hparse : forall x, (a ← _parse_ssh_host_port url; Ok (Some a)) = Ok x ->
    exists a, _parse_ssh_host_port url = Ok a /\ x = Some a).
  { intros x. destruct (_parse_ssh_host_port url) as [a|]; [|done]. cbn. intros [= <-]. by exists a. }
  destruct (su_auth_scheme body) as [sch|]; subst stored; cbn [coalesce default id] in *.
  - destruct (startswith sch "ssh_") eqn:Es.
    + apply Hparse in Hearly as (a & Ha & ->). injection Htarget as <-. exists a. split; [done|].
      destruct (String.eqb_spec sch "") as [->|]; [done|]. by rewrite Es.
    + injection Hearly as <-. cbn in Htarget. injection Htarget as <-. done.
  - destruct (startswith (s_auth_scheme s) "ssh_") eqn:Es; cbn [default id] in *; rewrite ?Es in Htarget |- *.
    + destruct (startswith url "ssh://").
      * apply Hparse in Hearly as (a & Ha & ->). injection Htarget as <-. by exists a.
      * injection Hearly as <-. apply Hparse in Htarget as (a & Ha & ->). by exists a.
    + by destruct target.
Qed.
End Update.

Import CredentialAdapter.

(** An update is applied to its service, and a new base URL of an SSH service moves its credential in
    the same transaction.  An accepted update changes exactly the fields it names, of exactly the
    service of the path in the tenant; where it names a base URL and the scheme the service then has
    is one of SSH, the URL has a host and a port, and the current version in the vault, with which
    the SSH proxy connects, has this host and port as its target address and is otherwise as it was;
    in all other cases the vault's rows stay as they were. *)
Theorem update_moves_ssh_target `{E : Env} `{V : Vault} `{Sha : Sha256} t service_id body w r w' :
  (t < uuid_limit)%N -> transaction (update_service t service_id body) w = (Ok r, w') -> status_code r = 200%Z ->
  exists sid s now, named_id (Admin.wire_to_db_uuid service_id "svc") = Some sid /\
    List.find (is_service sid t) (services (w_base w)) = Some s /\
    services (w_base w') = map (fun x => if is_service sid t x then apply_update body now x else x) (services (w_base w)) /\
    retargeted t sid body s (vault_credentials (w_base w)) (vault_credentials (w_base w')) /\
    forall url row, su_base_url body = Some url -> startswith (new_scheme body s) "ssh_" = true ->
      Get t sid (vault_credentials (w_base w')) = Some row -> _parse_ssh_host_port url = Ok (vc_target_address row).
Proof.
  intros Ht H Hst. apply update_service_Ok in H as (sid & s & now & Hsid & Hs & Hsv & Hv); [|done..].
  exists sid, s, now. do 4 (split; [done|]). intros url row Hu Hssh Hg. unfold retargeted in Hv. rewrite Hu, Hssh in Hv.
  destruct Hv as (a & Ha & Hv). rewrite Ha. f_equal. rewrite Hv in Hg. apply List.find_some in Hg as [Hin Hg].
  apply in_map_iff in Hin as (x & Ex & _). apply andb_true_iff in Hg as [Ho Hc]. apply andb_true_iff in Ho as [Ho1 Ho2].
  destruct (N.eqb (vc_service_id x) sid && N.eqb (vc_tenant_id x) t && vc_is_current x) eqn:Eq; subst row; [done|].
  by rewrite Ho1, Ho2, Hc in Eq.
Qed.

Section Witnesses.
#[local] Existing Instance demo_env.
#[local] Existing Instance demo_vault.
#[local] Existing Instance toy_sha256.
#[local] Existing Instance demo_argon2.

(** The demo service is deleted; a proxy call of it with the key of the demo agent sends nothing. *)
Lemma deleted_service_uncallable_witness :
  exists w', transaction (delete_service 1 (wire 8 "svc")) demo_world = (Ok (EmptyResponse 204), w') /\
    services (w_base w') = [] /\
    p_forwarded (w_proc (snd (proxy_call (uuid_str 8) "/pets" (MkProxyRequest "GET" (Some "Bearer k") [] "") w'))) = p_forwarded (w_proc w').
Proof.
  assert (Hrun : transaction (delete_service 1 (wire 8 "svc")) demo_world
      = (Ok (EmptyResponse 204), snd (transaction (delete_service 1 (wire 8 "svc")) demo_world)))
    by (apply run_value; vm_compute; reflexivity).
  set (w' := snd _) in Hrun. exists w'. split; [exact Hrun|].
  destruct (deleted_service_uncallable 1 (wire 8 "svc") demo_world _ w' eq_refl Hrun) as (sid & Hsid & Hs & _ & _ & _ & _ & Hcall).
  assert (sid = 8%N) as -> by (vm_compute in Hsid; congruence).
  assert (Hnd : List.NoDup (map s_id (services (w_base demo_world)))) by (vm_compute; repeat constructor; cbn; tauto).
  split; [rewrite Hs; reflexivity|].
  destruct (Hcall _ (or_introl eq_refl) eq_refl eq_refl Hnd) as [_ Hp]. apply Hp; [reflexivity|vm_compute; reflexivity].
Defined.
End Witnesses.

Section SshWitness.
#[local] Existing Instance demo_env.
#[local] Existing Instance demo_vault.
#[local] Existing Instance toy_sha256.

(** The demo service becomes one of SSH at a new address. *)
Definition to_ssh : ServiceUpdate := MkServiceUpdate None (Some "ssh://shell.example:2222") (Some "ssh_password") None None None None.

Lemma update_moves_ssh_target_witness :
  exists row, CredentialAdapter.Get 1 8 (vault_credentials (w_base (snd (transaction (update_service 1 (wire 8 "svc") to_ssh) demo_world)))) = Some row /\
    vc_target_address row = "shell.example:2222".
Proof.
  destruct (run_returns (transaction (update_service 1 (wire 8 "svc") to_ssh)) (fun r => Z.eqb (status_code r) 200) demo_world)
    as (r & Hr & Hrun); [vm_compute; reflexivity|]. apply Z.eqb_eq in Hr.
  assert (Hget : exists row, CredentialAdapter.Get 1 8 (vault_credentials (w_base
    (snd (transaction (update_service 1 (wire 8 "svc") to_ssh) demo_world)))) = Some row) by (eexists; vm_compute; reflexivity).
  destruct Hget as [row Hget]. exists row. split; [exact Hget|].
  destruct (update_moves_ssh_target 1 (wire 8 "svc") to_ssh demo_world r _ eq_refl Hrun Hr) as (sid & s & now & Hsid & _ & _ & _ & Hm).
  assert (sid = 8%N) as -> by (vm_compute in Hsid; congruence).
  specialize (Hm "ssh://shell.example:2222" row eq_refl eq_refl Hget).
  assert (Hp : _parse_ssh_host_port "ssh://shell.example:2222" = Ok "shell.example:2222") by (vm_compute; reflexivity).
  rewrite Hp in Hm. injection Hm as <-. reflexivity.
Defined.
End SshWitness.

(** The demo environment with a clock that stands still. *)
Definition steady_env : Env := {|
  env_uuid4 := demo_uuid4; env_uuid4_lt := demo_uuid4_lt; env_now := demo_now;
  env_fault _ := None; env_vault_fault _ := None;
  bind_uuid := demo_uuid_in; bind_uuid_str := demo_uuid_in_str;
  bind_uuid_lt s u H := proj2 (demo_uuid_in_inv s u H);
  bind_uuid_UUID s u H := proj1 (demo_uuid_in_inv s u H);
  pg_uuid_in := demo_uuid_in; pg_uuid_in_str := demo_uuid_in_str;
  jsonb j := j; jsonb_wf j H := H; jsonb_same j _ := eq_refl; jsonb_as_text := false;
  bind_jsonb j := Some j; env_fold c := c;
  env_time n := QArith_base.inject_Z 1700000000; env_zone := @env_zone demo_env; env_var := @env_var demo_env;
  env_http := @env_http demo_env;
  env_token_bytes := @env_token_bytes demo_env; env_token_bytes_lt := @env_token_bytes_lt demo_env;
  env_monotonic := @env_monotonic demo_env; env_local t := t; env_admin_settings := None;
  env_token_urlsafe := @env_token_urlsafe demo_env; env_file := @env_file demo_env; env_backend := @env_backend demo_env; httpx_text := @httpx_text demo_env;
  env_mint := @env_mint demo_env; env_getaddrinfo := @env_getaddrinfo demo_env; env_ssh_key := @env_ssh_key demo_env;
  env_ssh := @env_ssh demo_env; env_fetch := @env_fetch demo_env |}.

Section SteadyWitnesses.
#[local] Existing Instance steady_env.
#[local] Existing Instance demo_vault.
#[local] Existing Instance toy_sha256.

Definition demo_service : ServiceCreate := MkServiceCreate "Weather API" "https://weather.example" "bearer_token" None None None.

(** A second service is registered and read back. *)
Lemma registered_service_shown_witness :
  let '(o, w') := transaction (services_handler [] 1 (PostService demo_service)) demo_world in
  exists r id, o = Ok r /\ response_field "id" r = Some (JStr id) /\
    exists r1 w2, transaction (services_handler [] 1 (GetService id)) w' = (Ok r1, w2) /\
      response_field "slug" r1 = Some (JStr "weather-api").
Proof.
  assert (Hnf : no_faults) by (intros n; reflexivity).
  destruct (run_returns (transaction (services_handler [] 1 (PostService demo_service)))
    (fun r => Z.eqb (status_code r) 201 && bool_decide (response_field "slug" r = Some (JStr "weather-api"))) demo_world)
    as (r & Hr & Hrun); [vm_compute; reflexivity|].
  apply andb_true_iff in Hr as [Hr Hslug]. apply Z.eqb_eq in Hr. apply bool_decide_eq_true in Hslug.
  destruct (transaction _ demo_world) as [o w'] eqn:E. cbn [snd] in Hrun. injection Hrun as ->.
  assert (Hclock : clock_in_range) by (intros n; vm_compute; split; congruence).
  destruct (registered_service_shown 1 [] (PostService demo_service) demo_world r w' eq_refl Hnf Hclock I E Hr)
    as (id & Hid & Hget).
  exists r, id. split; [reflexivity|]. split; [exact Hid|].
  destruct (Hget w' eq_refl) as (r1 & w2 & Hrun1 & _ & Hf). exists r1, w2. split; [exact Hrun1|].
  rewrite Hf; [exact Hslug|]. unfold SHOWN. do 3 right. left. reflexivity.
Defined.
End SteadyWitnesses.
