(* ===== verification/CredentialLaws.v ===== *)
(** * What the credential endpoints achieve

    The version a registration or a rotation answers is the current one of
    the vault, the one active row of its scheme and the one its service
    points to, and is what the proxy injects; nothing but the vault depends
    on the value; a revocation does not reach the vault. *)

From Stdlib Require QArith_base.
From S2P Require Import Prelude PyStr PyText PyJson PyJsonFacts PyTime PyFloat PyUrl WireIds AuditHash AuditChain.
From S2P Require Import Like Vault Tables Database Logic Ulid Demo Keys Sessions AuditEmit AgentSecrets.
From S2P Require Import Sharing Permissions Erasure Ssrf VaultClient SshTest CredPayloads Proxy Services Credentials AgentLaws.
From S2P Require Import RegistrySafety TestCalls ServiceLaws.
Import CredentialAdapter.

Local Open Scope string_scope.
Local Open Scope py_scope.

#[local] Opaque uuid_str wire UUID isoformat_utc.

(** ** The adapter *)

Section Adapter.
Context `{E : Env} `{V : Vault}.
Implicit Types w : world.

Lemma Put_Get t s a rows v rows' : Put t s a rows = Ok (v, rows') ->
  v = next_version t s rows /\ Get t s rows' = Some (new_row t s v a).
Proof.
  unfold Put. destruct (_ <? _)%Z; [done|]. intros H. apply Ok_inj in H. injection H as <- <-. split; [done|].
  unfold Get. generalize (next_version t s rows). intros v. induction rows as [|r l IH]; cbn [map app List.find].
  - unfold of_service. cbn [new_row vc_tenant_id vc_service_id vc_is_current]. by rewrite !N.eqb_refl.
  - unfold demote at 1 2. destruct (of_service t s r && vc_is_current r) eqn:Er; [|by rewrite Er].
    cbn [vc_is_current]. by rewrite andb_false_r.
Qed.

(** A stored secret of the schemes that are not exchanged for a token is served as it is. *)
Lemma vault_credential_current n t sid d row : (t < uuid_limit)%N -> (sid < uuid_limit)%N ->
  Get t sid (vault_credentials d) = Some row -> vc_is_revoked row = false ->
  negb (Z.eqb (vc_auth_scheme row) 9 || Z.eqb (vc_auth_scheme row) 10) = true ->
  vault_credential n (uuid_str t) (uuid_str sid) d =
    Some (CredentialReply (utf8_decode (vc_value row)) (vc_auth_scheme row) (vc_key_version row) (vc_header_name row)
            (vc_query_param row) (vc_target_address row) (vc_ssh_user row)).
Proof.
  intros Ht Hs Hg Hr Hn. unfold vault_credential, GetCredential. rewrite !pg_uuid_in_str by done. cbn [mbind option_bind].
  rewrite Hg. cbn [mbind option_bind]. rewrite Hr. apply negb_true_iff in Hn. by rewrite Hn.
Qed.

Lemma put_credential_stores t s sc p u h q ta su w rep w' : (t < uuid_limit)%N ->
  put_credential (uuid_str t) s sc p u h q ta su w = (Ok rep, w') ->
  exists sid rows, pg_uuid_in s = Some sid /\
    Put t sid (PutArgs (scheme_number sc) (utf8 p) u h q ta su) (vault_credentials (w_base w)) = Ok (pr_key_version rep, rows) /\
    w_db w' = tb_set vault_credentials_t rows (w_db w) /\ w_base w' = tb_set vault_credentials_t rows (w_base w) /\
    w_tx w' = w_tx w /\ policy w' = policy w.
Proof.
  intros Ht H. unfold put_credential in H. step H as kv w1 H1. step H as now w2 H2. unfold time_time in H2. injection H2 as _ <-.
  apply ret_Ok in H as [-> ->]. unfold call_put in H1.
  destruct (PutCredential _ _ _ _) as [[v rows]|e] eqn:Ep; destruct (env_vault_fault _) as [[[] e']|]; try done.
  injection H1 as <- <-. apply PutCredential_Put in Ep as (sid & Hs & Ep); [|done].
  exists sid, rows. cbn [pr_key_version]. split; [exact Hs|]. split; [exact Ep|]. done.
Qed.

Lemma put_credential_eff t sid sc p u h q ta su w rep w' : (t < uuid_limit)%N -> (sid < uuid_limit)%N ->
  put_credential (uuid_str t) (uuid_str sid) sc p u h q ta su w = (Ok rep, w') ->
  exists rows, Put t sid (PutArgs (scheme_number sc) (utf8 p) u h q ta su) (vault_credentials (w_base w)) = Ok (pr_key_version rep, rows) /\
    w_db w' = tb_set vault_credentials_t rows (w_db w) /\ w_base w' = tb_set vault_credentials_t rows (w_base w) /\
    w_tx w' = w_tx w /\ policy w' = policy w.
Proof.
  intros Ht Hs H. apply put_credential_stores in H as (s' & rows & Hs' & H); [|done].
  rewrite pg_uuid_in_str in Hs' by done. injection Hs' as <-. by exists rows.
Qed.
End Adapter.

(** ** Validation only asks *)

Section Asking.
Context `{E : Env} `{V : Vault} `{Pyd : Pydantic}.

Lemma idle_validated {A} k (c : checked A) v : (forall a, idle (v a)) -> idle (validated k c v).
Proof.
  intros Hv. unfold validated. destruct c as [a|e]; [|apply idle_ret]. apply idle_catch.
  - apply idle_bind; [apply Hv|intros; apply idle_ret].
  - intros []; first [apply idle_ret | apply idle_raise].
Qed.

Ltac idle_step :=
  lazymatch goal with
  | |- idle (validated _ _ _) => apply idle_validated; intros ?
  | |- idle (bind _ _) => apply idle_bind; [|intros ?]
  | |- idle (ret _) => apply idle_ret
  | |- idle (raise _) => apply idle_raise
  | |- idle (lift _) => apply idle_lift
  | |- idle (resolve_hostname_is_private _) => apply idle_resolve
  | |- idle (match ?x with _ => _ end) => destruct x
  end.

Lemma idle_token_url d : idle (token_url_field d).
Proof. unfold token_url_field, validate_ssrf, validate_token_url_ssrf. repeat idle_step. Qed.

Lemma idle_validate_dict scheme d : idle (validate_dict scheme d).
Proof.
  unfold validate_dict. cbv zeta.
  unfold OAuth2PasswordGrantPayload, AppleJWTPayload_of, GoogleServiceAccountPayload_of, SSHPrivateKeyPayload_of,
    SSHPasswordPayload_of, OAuth2ClientCredentialsPayload_of, HTTPDigestPayload_of. cbv zeta.
  repeat first [apply idle_token_url | idle_step].
Qed.

Lemma idle_validate l scheme v : idle (validate_value l scheme v).
Proof.
  unfold validate_value. destruct (negb _); [apply idle_ret|].
  destruct (match v with RotateText s => loads s | RotateDict d => Some (JObj d) end) as [[]|]; try apply idle_ret.
  apply idle_bind; [|intros; apply idle_ret]. apply idle_catch.
  - apply idle_bind; [apply idle_validate_dict|intros; apply idle_ret].
  - intros []; first [apply idle_ret | apply idle_raise].
Qed.

Lemma idle_eff {A} (m : M A) w o w' : idle m -> m w = (o, w') -> kept w w' /\ w_db w' = w_db w.
Proof. intros Hm H. specialize (Hm w). by rewrite H in Hm. Qed.
End Asking.

(** ** The version that is stored *)

Section Stored.
Context `{E : Env} `{V : Vault} `{Sha : Sha256} `{Pyd : Pydantic} `{Pbk : Pbkdf2}.
Context (t sid : uuid) (Ht : (t < uuid_limit)%N) (Hsid : (sid < uuid_limit)%N).
Implicit Types w : world.

(** The version [kv] with the text [value] is current: in the vault, among the versions of its scheme,
    and in the row of its service. *)
Record version_current (scheme value : string) (kv : Z) (d : db) : Prop := {
  vs_vault : exists row, Get t sid (vault_credentials d) = Some row /\ vc_key_version row = kv /\
    vc_auth_scheme row = scheme_number scheme /\ vc_value row = utf8 value /\ vc_is_revoked row = false;
  vs_active : exists c, In c (credentials d) /\ active_of sid t scheme c = true /\ cr_key_version c = kv /\
    forall c', In c' (credentials d) -> active_of sid t scheme c' = true -> c' = c;
  vs_service : forall s, In s (services d) -> is_service sid t s = true -> s_current_key_version s = kv }.

Lemma store_version_eff scheme nid kv now w u w' : in_tenant t w -> (nid < uuid_limit)%N ->
  store_version t (uuid_str sid) scheme nid kv now w = (Ok u, w') ->
  in_tenant t w' /\ w_base w' = w_base w /\ vault_credentials (w_db w') = vault_credentials (w_db w) /\
  (exists c, In c (credentials (w_db w')) /\ active_of sid t scheme c = true /\ cr_key_version c = kv /\
    forall c', In c' (credentials (w_db w')) -> active_of sid t scheme c' = true -> c' = c) /\
  (forall s, In s (services (w_db w')) -> is_service sid t s = true -> s_current_key_version s = kv).
Proof.
  intros T0 Hn H. unfold store_version in H. rewrite !bound_str, !bind_ret in H by done.
  step H as u1 w1 H1. pose proof H1 as B1. apply update_eff in B1 as ([B1 _ _ _] & _).
  apply (update_in_tenant t) in H1 as [T1 D1]; [|done].
  step H as u2 w2 H2. apply varchar_eff in H2 as ->.
  step H as u3 w3 H3. apply insert_eff in H3 as (K3 & _ & Hck & D3). pose proof (in_tenant_kept _ _ _ K3 T1) as T3.
  pose proof H as B4. apply update_eff in B4 as ([B4 _ _ _] & _). apply (update_in_tenant t) in H as [T4 D4]; [|done].
  assert (Hfresh : ~ In nid (map cr_id (credentials (w_db w1)))).
  { cbn [tb_check credentials_t first_violation cr_id] in Hck.
    destruct (fresh cr_id nid (credentials (w_db w1))) eqn:Ef; [by apply fresh_spec in Ef|done]. }
  assert (Hno : forall c, In c (credentials (w_db w1)) -> active_of sid t scheme c = false).
  { intros c Hc. assert (Hid : cr_id c <> nid) by (intros E1; apply Hfresh; rewrite <- E1; by apply in_map).
    rewrite D1 in Hc. unfold update_db in Hc. revert Hc. registry_fields. intros Hc.
    apply in_map_iff in Hc as (x & Hx & _). cbn [sees tb_tenant credentials_t] in Hx.
    destruct ((N.eqb (cr_tenant_id x) t || false) && (active_of sid t scheme x && negb (N.eqb (cr_id x) nid))) eqn:Ex.
    - subst c. unfold active_of, supersede, set_status. cbn. by rewrite andb_false_r.
    - subst c. destruct (active_of sid t scheme x) eqn:Ea; [|done]. unfold active_of in Ea. rewrite !andb_true_iff in Ea.
      destruct Ea as [[[_ Ea] _] _]. rewrite Ea in Ex. apply N.eqb_neq in Hid. by rewrite Hid in Ex. }
  split; [done|]. split; [by rewrite B4, (kp_base _ _ K3), B1|].
  split; [by rewrite D4, D3, D1|]. split.
  - rewrite D4, D3. unfold update_db. registry_fields. eexists. split; [apply in_app_iff; right; by left|].
    split; [unfold active_of; cbn; by rewrite !N.eqb_refl, String.eqb_refl|]. split; [done|].
    intros c' Hc' Ha. apply in_app_iff in Hc' as [Hc'|[<-|[]]]; [|done]. by rewrite Hno in Ha.
  - intros s Hs Hi. rewrite D4 in Hs. unfold update_db in Hs. revert Hs. registry_fields. intros Hs.
    apply in_map_iff in Hs as (x & <- & _). cbn [sees tb_tenant services_t] in *.
    destruct ((N.eqb (s_tenant_id x) t || false) && is_service sid t x) eqn:Ex; [done|].
    pose proof (is_service_tenant t sid _ Hi) as Hx. by rewrite Hx, N.eqb_refl, Hi in Ex.
Qed.

(** The event and the notification. *)
Lemma announce_version_eff ev target payload ch body (r0 : response) w r w' : in_tenant t w ->
  (do! audit_emit t ev None "operator" target (Some "credential") payload in do! notify_change ch body in ret r0) w = (Ok r, w') ->
  r = r0 /\ w_tx w' = TxActive /\ exists e, w_db w' = append_event t e (w_db w).
Proof.
  intros T H. step H as u w1 H1. apply audit_emit_eff in H1 as (K1 & _ & e & _ & D1); [|done|apply uuid_opt_none].
  step H as u2 w2 H2. apply notify_eff in H2 as (K2 & _ & D2). apply ret_Ok in H as [-> ->].
  split; [done|]. split; [by rewrite (kp_tx _ _ K2), (kp_tx _ _ K1); apply T|exists e; by rewrite D2, D1].
Qed.

Lemma service_by_id_eff s w row w' : in_tenant t w -> service_by_id s t w = (Ok row, w') -> kept w w' /\ w_db w' = w_db w.
Proof.
  intros T0 H. unfold service_by_id in H. step H as x w1 H1. apply bound_Ok in H1 as [_ ->]. rewrite (bound_str t), bind_ret in H by done.
  step H as rows w1 H1. apply select_eff in H1 as (K & _ & D & _). by apply ret_Ok in H as [_ ->].
Qed.

Lemma new_cred_id_eff w s w' : _new_cred_id w = (Ok s, w') -> kept w w' /\ w_db w' = w_db w.
Proof.
  intros H. unfold _new_cred_id, new_id in H. step H as tm w1 H1. apply time_eff in H1 as (K1 & _ & D1).
  step H as u w2 H2. apply uuid4_eff in H2 as (K2 & _ & D2 & _). apply ret_Ok in H as [_ ->].
  split; [by transitivity w1|congruence].
Qed.

Lemma credential_uuid_lt s u : credential_uuid s = Ok u -> (u < uuid_limit)%N.
Proof. unfold credential_uuid. destruct (Admin.wire_to_db_uuid _ _); [|done]. apply UUID_lt. Qed.

(** From the call of the vault to the end of the handler. *)
Lemma stored_current sc p url h q ta su w rep w1 cid w2 nid now w3 u w4 :
  in_tenant t w -> put_credential (uuid_str t) (uuid_str sid) sc p url h q ta su w = (Ok rep, w1) ->
  _new_cred_id w1 = (Ok cid, w2) -> credential_uuid cid = Ok nid -> now_utc w2 = (Ok now, w3) ->
  store_version t (uuid_str sid) sc nid (pr_key_version rep) now w3 = (Ok u, w4) ->
  in_tenant t w4 /\ forall e, version_current sc p (pr_key_version rep) (append_event t e (w_db w4)).
Proof.
  intros T0 H1 H2 Hn H3 H4.
  apply put_credential_eff in H1 as (rows & HP & D1 & _ & X1 & P1); [|done..].
  assert (T1 : in_tenant t w1) by (split; [by rewrite X1; apply T0|by rewrite P1; apply T0]).
  apply new_cred_id_eff in H2 as [K2 D2]. apply now_eff in H3 as (K3 & _ & D3).
  assert (T3 : in_tenant t w3) by (apply (in_tenant_kept _ w2); [exact K3|]; by apply (in_tenant_kept _ w1)).
  apply store_version_eff in H4 as (T4 & _ & V4 & A4 & S4); [|done|by eapply credential_uuid_lt].
  split; [done|]. intros e. split.
  - apply Put_Get in HP as [_ Hg].
    assert (Hv : vault_credentials (append_event t e (w_db w4)) = rows) by (etransitivity; [exact V4|]; by rewrite D3, D2, D1).
    eexists. split; [rewrite Hv; exact Hg|]. by repeat split.
  - exact A4.
  - exact S4.
Qed.

(** What is stored of an accepted value: of the payload it was validated as, or of the text of a rotation. *)
Definition stored_value (rq : credentials_request) (value : string) : Prop :=
  match rq with
  | PostCredential body => exists p w1 w2, validate_value STRUCTURED (cd_auth_scheme body) (RotateText (cd_value body)) w1 = (Ok (inl p), w2) /\
      value = vault_plaintext p (cd_value body)
  | PostRotate body => match rr_value body with
      | Some v => value = rotate_plaintext (rr_auth_scheme body) v
      | None => exists n, value = env_token_urlsafe n 32
      end
  | _ => False
  end.
Definition stored_scheme (rq : credentials_request) : string :=
  match rq with PostCredential body => cd_auth_scheme body | PostRotate body => rr_auth_scheme body | _ => "" end.
Definition stores (rq : credentials_request) (r : response) : Prop :=
  match rq with
  | PostCredential _ => status_code r = 201%Z
  | PostRotate _ => status_code r = 200%Z
  | _ => False
  end.

(** A refused value is answered with 400 or 422. *)
Lemma refused_answer l scheme v w a w' : validate_value l scheme v w = (Ok (inr a), w') -> status_code a = 400%Z \/ status_code a = 422%Z.
Proof.
  assert (Hobj : status_code (not_an_object scheme) = 400%Z \/ status_code (not_an_object scheme) = 422%Z).
  { unfold not_an_object. repeat match goal with |- context [String.eqb scheme ?s] => destruct (String.eqb scheme s) end;
      first [by left | by right]. }
  unfold validate_value. destruct (negb _); [done|].
  destruct (match v with RotateText s => loads s | RotateDict d => Some (JObj d) end) as [[]|];
    try (intros H; apply ret_Ok in H as [H _]; by injection H as ->).
  intros H. step H as c w1 H1. apply ret_Ok in H as [H _]. destruct c as [[p|errors]|]; [done| |by injection H as ->].
  injection H as ->. left. by unfold invalid_fields.
Qed.

Lemma create_credential_Ok body w r w' : transaction (create_credential t (wire sid "svc") body) w = (Ok r, w') -> status_code r = 201%Z ->
  exists kv value, response_field "key_version" r = Some (JInt kv) /\ stored_value (PostCredential body) value /\
    version_current (cd_auth_scheme body) value kv (w_base w').
Proof.
  intros H Hst. apply transaction_commits in H as (w1 & H & Hend). unfold create_credential in H.
  unfold _svc_wire_to_db_uuid in H. rewrite (admin_wire_decode sid) in H by done.
  step H as s0 w2 H2. apply lift_Ok in H2 as [H2 ->]. injection H2 as <-.
  step H as u w2 H2. apply set_tenant_start in H2 as (T2 & _ & _ & _); [|done..].
  step H as svc w3 H3. apply service_by_id_eff in H3 as [K3 D3]; [|done]. pose proof (in_tenant_kept _ _ _ K3 T2) as T3.
  destruct svc as [svc|]; [|by apply ret_Ok in H as [-> _]].
  step H as verdict w4 H4. pose proof (idle_eff _ _ _ _ (idle_validate _ _ _) H4) as [K4 D4].
  destruct verdict as [p|answer].
  2: { apply ret_Ok in H as [-> _]. apply refused_answer in H4 as [Ec|Ec]; congruence. }
  pose proof (in_tenant_kept _ _ _ K4 T3) as T4.
  step H as rep w5 H5. step H as cid w6 H6. step H as nid w7 H7. apply lift_Ok in H7 as [Hn ->].
  step H as now w7 H7. step H as u8 w8 H8. step H as md w9 H9. apply lift_Ok in H9 as [_ ->].
  destruct (stored_current _ _ _ _ _ _ _ _ _ _ _ _ _ _ _ _ _ T4 H5 H6 Hn H7 H8) as [T8 Hv].
  apply announce_version_eff in H as (-> & Hx & e & D); [|done].
  exists (pr_key_version rep), (vault_plaintext p (cd_value body)). split; [done|]. split; [by exists p, w3, w4|].
  rewrite (Hend Hx), D. apply Hv.
Qed.

Lemma rotate_credential_Ok body w r w' : transaction (rotate_credential t (wire sid "svc") body) w = (Ok r, w') -> status_code r = 200%Z ->
  exists kv value, response_field "key_version" r = Some (JInt kv) /\ stored_value (PostRotate body) value /\
    version_current (rr_auth_scheme body) value kv (w_base w').
Proof.
  intros H Hst. apply transaction_commits in H as (w1 & H & Hend). unfold rotate_credential in H.
  step H as u w2 H2. apply set_tenant_start in H2 as (T2 & _ & _ & _); [|done..].
  unfold _svc_wire_to_db_uuid in H. rewrite (admin_wire_decode sid) in H by done.
  step H as s0 w3 H3. apply lift_Ok in H3 as [H3 ->]. injection H3 as <-.
  step H as svc w3 H3. apply service_by_id_eff in H3 as [K3 D3]; [|done]. pose proof (in_tenant_kept _ _ _ K3 T2) as T3.
  destruct svc as [svc|]; [|by apply ret_Ok in H as [-> _]].
  apply try_value_Ok in H as [H|(from & _ & H)]; [by apply ret_Ok in H as [-> _]|].
  rewrite !bound_str, !bind_ret in H by done.
  step H as fr w4 H4. assert (w4 = w3) as ->.
  { unfold bound_opt in H4. destruct from; [|by apply ret_Ok in H4 as [_ ->]]. step H4 as y w5 H5. apply bound_Ok in H5 as [_ ->].
    by apply ret_Ok in H4 as [_ ->]. }
  step H as olds w5 H5. apply query_eff in H5 as (K5 & _ & D5 & _). pose proof (in_tenant_kept _ _ _ K5 T3) as T5.
  destruct (fetchone olds) as [old|]; [|by apply ret_Ok in H as [-> _]].
  step H as verdict w6 H6.
  assert (Hi : kept w5 w6 /\ match verdict with inr a => status_code a <> 200%Z | inl _ => True end).
  { destruct (rr_value body) as [v|]; [|by apply ret_Ok in H6 as [-> ->]].
    split; [by apply (idle_eff _ _ _ _ (idle_validate _ _ _) H6)|]. destruct verdict as [p|a]; [done|].
    apply refused_answer in H6 as [Ec|Ec]; congruence. }
  destruct Hi as [K6 Ha]. destruct verdict as [p|answer]; [|by apply ret_Ok in H as [-> _]].
  pose proof (in_tenant_kept _ _ _ K6 T5) as T6.
  step H as prior w7 H7.
  assert (T7 : in_tenant t w7).
  { apply catch_Ok in H7 as [H7|(e & w7' & H7 & H7')]; [apply get_credential_eff in H7 as ->; by destruct T6|].
    apply get_credential_eff in H7 as ->. apply ret_Ok in H7' as [_ ->]. by destruct T6. }
  cbv zeta in H. destruct (default _ (new_routing p)) as [ta su].
  step H as value w8 H8.
  assert (Hv8 : in_tenant t w8 /\ stored_value (PostRotate body) value).
  { cbn [stored_value]. destruct (rr_value body) as [v|]; [apply ret_Ok in H8 as [-> ->]; by split|].
    unfold token_urlsafe in H8. injection H8 as <- <-. split; [by destruct T7|]. by eexists. }
  destruct Hv8 as [T8 Hval].
  step H as rep w9 H9. step H as cid w10 H10. step H as nid w11 H11. apply lift_Ok in H11 as [Hn ->].
  step H as now w11 H11. step H as u12 w12 H12.
  destruct (stored_current _ _ _ _ _ _ _ _ _ _ _ _ _ _ _ _ _ T8 H9 H10 Hn H11 H12) as [T12 Hv].
  apply announce_version_eff in H as (-> & Hx & e & D); [|done].
  exists (pr_key_version rep), value. split; [done|]. split; [done|]. rewrite (Hend Hx), D. apply Hv.
Qed.
End Stored.

(** C17: The version a registration or a rotation answers is the one in force everywhere.  When a
    credential is registered (201) or rotated (200) for a service, the answer names a version whose
    value, the one the validated payload is stored as, or the text of the rotation, is the current,
    unrevoked one of the service in the vault, with the number of the scheme; among the versions of
    the service of that scheme it is the one active row; and the service's current_key_version is
    that version.  From then on the vault serves exactly this value to the proxy, unless the scheme
    is one whose value is exchanged for a token. *)
Theorem stored_version_served `{E : Env} `{V : Vault} `{Sha : Sha256} `{Pyd : Pydantic} `{Pbk : Pbkdf2} t sid rq w r w' :
  (t < uuid_limit)%N -> (sid < uuid_limit)%N ->
  transaction (credentials_handler t (wire sid "svc") rq) w = (Ok r, w') -> stores rq r ->
  exists kv value, response_field "key_version" r = Some (JInt kv) /\ stored_value rq value /\
    version_current t sid (stored_scheme rq) value kv (w_base w') /\
    (negb (Z.eqb (scheme_number (stored_scheme rq)) 9 || Z.eqb (scheme_number (stored_scheme rq)) 10) = true ->
     forall n, exists c, vault_credential n (uuid_str t) (uuid_str sid) (w_base w') = Some c /\
       cr_plaintext c = value /\ cr_version c = kv).
Proof.
  intros Ht Hs H Hst.
  assert (Hc : exists kv value, response_field "key_version" r = Some (JInt kv) /\ stored_value rq value /\
    version_current t sid (stored_scheme rq) value kv (w_base w')).
  { destruct rq; try done; cbn [credentials_handler stores stored_scheme] in *;
      [by eapply create_credential_Ok|by eapply rotate_credential_Ok]. }
  destruct Hc as (kv & value & Hkv & Hval & Hcur). exists kv, value. do 3 (split; [done|]). intros Hn n.
  destruct (vs_vault _ _ _ _ _ _ Hcur) as (row & Hg & Hv & Hsc & Hval' & Hr). rewrite <- Hsc in Hn.
  eexists. split; [by apply vault_credential_current|]. cbn [cr_plaintext cr_version]. by rewrite Hval', utf8_decode_utf8.
Qed.

(** ** Revocation *)

Section Revocation.
Context `{E : Env} `{V : Vault} `{Sha : Sha256} `{Pyd : Pydantic} `{Pbk : Pbkdf2}.
Context (t : uuid) (Ht : (t < uuid_limit)%N).

Lemma delete_version_Ok s kv w r w' : transaction (delete_credential_version t s kv) w = (Ok r, w') -> status_code r = 204%Z ->
  exists sid now, named_id (Admin.wire_to_db_uuid s "svc") = Some sid /\
    credentials (w_base w') = map (fun c => if is_version sid t kv c then set_status "revoked" (Some now) c else c) (credentials (w_base w)) /\
    vault_credentials (w_base w') = vault_credentials (w_base w) /\ services (w_base w') = services (w_base w) /\
    service_api_keys (w_base w') = service_api_keys (w_base w) /\ agents (w_base w') = agents (w_base w).
Proof.
  intros H Hst. apply transaction_commits in H as (w1 & H & Hend). unfold delete_credential_version in H.
  step H as s0 w2 H2. apply lift_Ok in H2 as [Hs ->]. step H as u w2 H2. apply set_tenant_start in H2 as (T2 & _ & D2 & _); [|done..].
  step H as sid w3 H3. apply bound_Ok in H3 as [Hsid ->]. rewrite (bound_str t), bind_ret in H by done.
  step H as kv' w3 H3. unfold bound_int4 in H3. destruct (_ && _); [|done]. apply ret_Ok in H3 as [-> ->].
  step H as rows w3 H3. apply select_eff in H3 as (K3 & _ & D3 & _). pose proof (in_tenant_kept _ _ _ K3 T2) as T3.
  destruct (fetchone rows) as [row|]; [|by apply ret_Ok in H as [-> _]].
  destruct (String.eqb _ _); [by apply ret_Ok in H as [-> _]|].
  step H as now w4 H4. apply now_eff in H4 as (K4 & _ & D4). pose proof (in_tenant_kept _ _ _ K4 T3) as T4.
  step H as u5 w5 H5. apply (update_in_tenant t) in H5 as [T5 D5]; [|done].
  apply (announce_version_eff t Ht) in H as (-> & Hx & e & D); [|done].
  exists sid, now. unfold named_id. unfold _svc_wire_to_db_uuid in Hs. rewrite Hs. split; [done|].
  rewrite (Hend Hx), D, D5, D4, D3, D2. change (w_db (begin w)) with (w_base w). unfold append_event, update_db. registry_fields.
  repeat apply conj; try done. apply map_ext. intros c. cbn [sees tb_tenant credentials_t]. unfold is_version.
  destruct (N.eqb (cr_tenant_id c) t); [done|]. by rewrite !andb_false_r.
Qed.
End Revocation.

(** Revoking a version does not stop its use.  After an accepted revocation the rows of the version say
    revoked, and nothing else has changed that the proxy reads: the vault's rows are as before, so
    for every service the vault serves the credential it served before, the revoked version itself
    where it was the current one, and the keys, agents and services a call goes through are the same. *)
Theorem revoked_version_served `{E : Env} `{V : Vault} `{Sha : Sha256} `{Pyd : Pydantic} `{Pbk : Pbkdf2} t service_id kv w r w' :
  (t < uuid_limit)%N ->
  transaction (credentials_handler t service_id (DeleteVersion kv)) w = (Ok r, w') -> status_code r = 204%Z ->
  exists sid now, named_id (Admin.wire_to_db_uuid service_id "svc") = Some sid /\
    credentials (w_base w') = map (fun c => if is_version sid t kv c then set_status "revoked" (Some now) c else c) (credentials (w_base w)) /\
    (forall n tenant service, vault_credential n tenant service (w_base w') = vault_credential n tenant service (w_base w)) /\
    services (w_base w') = services (w_base w) /\ service_api_keys (w_base w') = service_api_keys (w_base w) /\
    agents (w_base w') = agents (w_base w).
Proof.
  intros Ht H Hst. apply delete_version_Ok in H as (sid & now & Hsid & Hc & Hv & Hs & Hk & Ha); [|done..].
  exists sid, now. do 2 (split; [done|]). split; [|done]. intros n tenant service. unfold vault_credential. by rewrite Hv.
Qed.

Section Witnesses.
#[local] Existing Instance demo_env.
#[local] Existing Instance demo_vault.
#[local] Existing Instance toy_sha256.
#[local] Existing Instance toy_pydantic.
#[local] Existing Instance toy_pbkdf2.

Definition new_token : credentials_request := PostCredential (MkCredentialCreate "bearer_token" "n3w" None None).

(** A token is registered for the demo service and served. *)
Lemma stored_version_served_witness :
  exists kv, forall n, exists c,
    vault_credential n (uuid_str 1) (uuid_str 8) (w_base (snd (transaction (credentials_handler 1 (wire 8 "svc") new_token) demo_world))) = Some c /\
    cr_plaintext c = "n3w" /\ cr_version c = kv.
Proof.
  destruct (run_returns (transaction (credentials_handler 1 (wire 8 "svc") new_token)) (fun r => Z.eqb (status_code r) 201) demo_world)
    as (r & Hr & Hrun); [vm_compute; reflexivity|]. apply Z.eqb_eq in Hr.
  destruct (stored_version_served 1 8 new_token demo_world r _ eq_refl eq_refl Hrun Hr) as (kv & value & _ & Hval & _ & Hserved).
  destruct Hval as (p & w1 & w2 & Hp & ->). assert (p = Plain) as -> by (injection Hp as <- _; reflexivity).
  exists kv. exact (Hserved eq_refl).
Defined.

(** The version it has is revoked, and still served. *)
Definition revoke_new : credentials_request := DeleteVersion 2.
Lemma revoked_version_served_witness :
  let w1 := snd (transaction (credentials_handler 1 (wire 8 "svc") new_token) demo_world) in
  let w2 := snd (transaction (credentials_handler 1 (wire 8 "svc") revoke_new) w1) in
  map cr_status (credentials (w_base w2)) = ["revoked"] /\
  forall n, cr_plaintext <$> vault_credential n (uuid_str 1) (uuid_str 8) (w_base w2) = Some "n3w".
Proof.
  cbv zeta.
  destruct (run_returns (transaction (credentials_handler 1 (wire 8 "svc") revoke_new)) (fun r => Z.eqb (status_code r) 204)
    (snd (transaction (credentials_handler 1 (wire 8 "svc") new_token) demo_world))) as (r & Hr & Hrun); [vm_compute; reflexivity|].
  apply Z.eqb_eq in Hr. split; [vm_compute; reflexivity|]. intros n.
  destruct (revoked_version_served 1 (wire 8 "svc") 2 _ r _ eq_refl Hrun Hr) as (sid & now & _ & _ & Hv & _).
  rewrite Hv. vm_compute. reflexivity.
Defined.
End Witnesses.
