(* ===== verification/ValueSecrecy.v ===== *)
(** * Where a credential's value goes

    Two registrations, or two rotations, that differ in the value alone have
    the same answer and leave the same state but for the value column of the
    vault's table: the value reaches neither the answer nor the tables, the
    audit log, the notifications or the process. *)

From S2P Require Import Prelude PyStr PyText PyJson PyJsonFacts PyTime WireIds AuditHash AuditChain.
From S2P Require Import Vault Tables Database Logic Ulid Demo Keys AuditEmit AgentSecrets Permissions.
From S2P Require Import Erasure VaultClient CredPayloads Services Credentials RegistrySafety.
Import CredentialAdapter.

Local Open Scope string_scope.
Local Open Scope py_scope.

#[local] Opaque uuid_str wire UUID isoformat_utc.

(** The vault's rows without their values. *)
Definition hide_row (r : vault_row) : vault_row :=
  VaultRow (vc_tenant_id r) (vc_service_id r) (vc_key_version r) (vc_auth_scheme r) "" (vc_is_current r) (vc_is_revoked r)
    (vc_target_url r) (vc_header_name r) (vc_query_param r) (vc_target_address r) (vc_ssh_user r).
Definition hide (d : db) : db := tb_set vault_credentials_t (map hide_row (vault_credentials d)) d.

(** A value the adapter takes: one to 65536 bytes. *)
Definition storable (value : string) : Prop := (1 <= Z.of_nat (py_len (utf8 value)) <= 65536)%Z.

Lemma hide_of_service t s r : of_service t s (hide_row r) = of_service t s r. Proof. done. Qed.

Lemma hide_demote t s r : hide_row (demote t s r) = demote t s (hide_row r).
Proof. unfold demote. rewrite hide_of_service. cbn [hide_row vc_is_current]. by destruct (of_service t s r && vc_is_current r). Qed.

Lemma hide_next t s rows : next_version t s (map hide_row rows) = next_version t s rows.
Proof.
  unfold next_version. do 2 f_equal. induction rows as [|r l IH]; [done|]. cbn [map List.filter]. rewrite hide_of_service.
  destruct (of_service t s r); cbn [map]; by rewrite IH.
Qed.

(** The reply of the adapter and its rows but for the value. *)
Definition masked (o : outcome (Z * list vault_row)) : outcome (Z * list vault_row) :=
  match o with Ok (v, rows) => Ok (v, map hide_row rows) | Raise e => Raise e end.

Lemma Put_masked t s sc v1 v2 u h q ta su rows1 rows2 : map hide_row rows1 = map hide_row rows2 ->
  masked (Put t s (PutArgs sc v1 u h q ta su) rows1) = masked (Put t s (PutArgs sc v2 u h q ta su) rows2).
Proof.
  intros H. unfold Put. rewrite <- (hide_next t s rows1), H, hide_next. destruct (_ <? _)%Z; [done|].
  cbn [masked]. rewrite !map_app, !map_map. do 3 f_equal.
  - rewrite !(map_ext (fun x => hide_row (demote t s x)) (fun x => demote t s (hide_row x))) by (apply hide_demote).
    by rewrite <- !(map_map hide_row), H.
Qed.

Lemma PutCredential_masked `{E : Env} t s sc v1 v2 u h q ta su rows1 rows2 : storable v1 -> storable v2 ->
  map hide_row rows1 = map hide_row rows2 ->
  masked (PutCredential t s (PutArgs sc (utf8 v1) u h q ta su) rows1) = masked (PutCredential t s (PutArgs sc (utf8 v2) u h q ta su) rows2).
Proof.
  intros [L1 U1] [L2 U2] H. unfold PutCredential. cbn [pa_value].
  assert (Hs : forall v, (1 <= Z.of_nat (py_len (utf8 v)) <= 65536)%Z -> (py_len (utf8 v) =? 0)%nat || (64 * 1024 <? Z.of_nat (py_len (utf8 v)))%Z = false).
  { intros v Hv. apply orb_false_iff. split; [apply Nat.eqb_neq; lia|apply Z.ltb_ge; lia]. }
  rewrite <- !orb_assoc, !Hs by lia. destruct (_ || _); [done|].
  destruct (pg_uuid_in t), (pg_uuid_in s); try done. by apply Put_masked.
Qed.

(** ** Runs that differ in the vault's values alone *)

Section Alike.
Context `{E : Env} `{V : Vault} `{Sha : Sha256} `{Pyd : Pydantic} `{Pbk : Pbkdf2}.
Implicit Types w : world.

Definition same_but_values w1 w2 : Prop := rewritten hide w1 = rewritten hide w2.

(** From states that differ in the vault's values alone, [m1] and [m2] answer the same and leave such states. *)
Definition alike {A} (m1 m2 : M A) : Prop := forall w1 w2, same_but_values w1 w2 ->
  fst (m1 w1) = fst (m2 w2) /\ same_but_values (snd (m1 w1)) (snd (m2 w2)).

Lemma alike_blind {A} (m : M A) : blind hide m -> alike m m.
Proof.
  intros Hm w1 w2 H. pose proof (Hm w1) as H1. pose proof (Hm w2) as H2. unfold same_but_values in *. rewrite H in H1.
  rewrite H1 in H2. split; [exact (f_equal fst H2)|exact (f_equal snd H2)].
Qed.

Lemma alike_bind {A B} (m1 m2 : M A) (k1 k2 : A -> M B) : alike m1 m2 -> (forall a, alike (k1 a) (k2 a)) -> alike (bind m1 k1) (bind m2 k2).
Proof.
  intros Hm Hk w1 w2 H. unfold bind. destruct (Hm w1 w2 H) as [E1 E2].
  destruct (m1 w1) as [[a|e] u1], (m2 w2) as [[b|e'] u2]; cbn [fst snd] in *; try discriminate.
  - apply Ok_inj in E1 as ->. by apply Hk.
  - split; [congruence|done].
Qed.

Lemma blind_alike_bind {A B} (m : M A) (k1 k2 : A -> M B) : blind hide m -> (forall a, alike (k1 a) (k2 a)) -> alike (bind m k1) (bind m k2).
Proof. intros Hm. by apply alike_bind, alike_blind. Qed.

Lemma alike_ret {A} (a : A) : alike (ret a) (ret a). Proof. done. Qed.

(** The call of the vault, with values it takes. *)
Lemma alike_put t s sc v1 v2 u h q ta su : storable v1 -> storable v2 ->
  alike (put_credential t s sc v1 u h q ta su) (put_credential t s sc v2 u h q ta su).
Proof.
  intros L1 L2. apply alike_bind; [|intros kv; apply alike_blind; by apply blind_bind; [|intros; apply blind_ret]].
  intros w1 w2 H. unfold call_put.
  assert (Hb : map hide_row (vault_credentials (w_base w1)) = map hide_row (vault_credentials (w_base w2))).
  { change (vault_credentials (w_base (rewritten hide w1)) = vault_credentials (w_base (rewritten hide w2))). by rewrite H. }
  assert (Hn : w_tick (tick w1) = w_tick (tick w2)).
  { change (w_tick (tick (rewritten hide w1)) = w_tick (tick (rewritten hide w2))). by rewrite H. }
  assert (Hk : same_but_values (tick w1) (tick w2)).
  { unfold same_but_values. change (tick (rewritten hide w1) = tick (rewritten hide w2)). by rewrite H. }
  assert (Hc : forall r1 r2, map hide_row r1 = map hide_row r2 -> same_but_values (adapter_commit r1 (tick w1)) (adapter_commit r2 (tick w2))).
  { intros r1 r2 Hr. unfold same_but_values.
    assert (Ha : forall rows w, rewritten hide (adapter_commit rows w) = adapter_commit (map hide_row rows) (rewritten hide w)).
    { intros rows w. unfold rewritten, adapter_commit. reflexivity. }
    rewrite !Ha, Hr. by rewrite Hk. }
  change (w_base (tick w1)) with (w_base w1). change (w_base (tick w2)) with (w_base w2). rewrite Hn.
  pose proof (PutCredential_masked t s (scheme_number sc) v1 v2 u h q ta su _ _ L1 L2 Hb) as Hm.
  destruct (PutCredential _ _ _ _) as [[n1 r1]|e1], (PutCredential _ _ _ _) as [[n2 r2]|e2]; cbn [masked] in Hm; try done.
  - injection Hm as -> Hm. destruct (env_vault_fault _) as [[[] e]|]; split; try done; by apply Hc.
  - injection Hm as ->. by destruct (env_vault_fault _) as [[b e]|].
Qed.

(** The end of a transaction. *)
Definition settle {A} (ow : outcome A * world) : outcome A * world :=
  match ow with
  | (Raise e, w1) => (Raise e, match w_tx w1 with TxDone => w1 | _ => rolled_back w1 end)
  | (Ok a, w1) =>
      match w_tx w1 with
      | TxDone => (Ok a, w1)
      | _ => match commit w1 with (Ok _, w2) => (Ok a, w2) | (Raise e, w2) => (Raise e, w2) end
      end
  end.

Lemma settle_hide {A} (o : outcome A) w : settle (o, rewritten hide w) = (fst (settle (o, w)), rewritten hide (snd (settle (o, w)))).
Proof.
  unfold settle. change (w_tx (rewritten hide w)) with (w_tx w). destruct o as [a|e]; [|by destruct (w_tx w)].
  destruct (w_tx w) eqn:Et; [| |done]; unfold commit; change (w_tx (tick (rewritten hide w))) with (w_tx w);
    change (w_tx (tick w)) with (w_tx w); rewrite Et; [|done].
  change (w_tick (tick (rewritten hide w))) with (w_tick (tick w)). by destruct (env_fault _).
Qed.

Lemma alike_transaction {A} (m1 m2 : M A) w :
  fst (m1 (begin w)) = fst (m2 (begin w)) /\ same_but_values (snd (m1 (begin w))) (snd (m2 (begin w))) ->
  fst (transaction m1 w) = fst (transaction m2 w) /\ same_but_values (snd (transaction m1 w)) (snd (transaction m2 w)).
Proof.
  change (transaction m1 w) with (settle (m1 (begin w))). change (transaction m2 w) with (settle (m2 (begin w))).
  destruct (m1 (begin w)) as [o1 u1], (m2 (begin w)) as [o2 u2]; cbn [fst snd]. intros [-> H].
  pose proof (settle_hide o2 u1) as E1. pose proof (settle_hide o2 u2) as E2. unfold same_but_values in *. rewrite H, E2 in E1.
  split; [symmetry; exact (f_equal fst E1)|symmetry; exact (f_equal snd E1)].
Qed.

(** The same beginning in both runs. *)
Lemma alike_after {A B} (m : M A) (k1 k2 : A -> M B) w :
  (forall a w1, m w = (Ok a, w1) -> fst (k1 a w1) = fst (k2 a w1) /\ same_but_values (snd (k1 a w1)) (snd (k2 a w1))) ->
  fst (bind m k1 w) = fst (bind m k2 w) /\ same_but_values (snd (bind m k1 w)) (snd (bind m k2 w)).
Proof. intros H. unfold bind. destruct (m w) as [[a|e] w1]; [by apply H|done]. Qed.

(** *** What does not read the values *)

#[local] Instance hide_services : Unread hide services_t. Proof. by split. Qed.
#[local] Instance hide_credentials : Unread hide credentials_t. Proof. by split. Qed.
#[local] Instance hide_chain : Unread hide audit_chain_state_t. Proof. by split. Qed.
#[local] Instance hide_events : Unread hide audit_events_t. Proof. by split. Qed.

Lemma blind_notify_change ch payload : blind hide (notify_change ch payload).
Proof. unfold notify_change, pg_notify. by apply blind_execute. Qed.

Lemma blind_new_cred : blind hide _new_cred_id.
Proof. unfold _new_cred_id, new_id. apply blind_bind; [done|intros tm]. apply blind_bind; [done|intros u]. apply blind_ret. Qed.

Lemma blind_store t s scheme id kv now : blind hide (store_version t s scheme id kv now).
Proof.
  unfold store_version. do 3 (apply blind_bind; [apply blind_bound|intros ?]).
  apply blind_bind; [apply blind_update, _|intros _]. apply blind_bind; [apply blind_varchar|intros _].
  apply blind_bind; [apply blind_insert, _|intros _]. apply blind_update, _.
Qed.

Lemma blind_announce t ev target payload ch body (r : response) :
  blind hide (do! audit_emit t ev None "operator" target (Some "credential") payload in do! notify_change ch body in ret r).
Proof.
  apply blind_bind; [apply blind_audit; apply _|intros _]. apply blind_bind; [apply blind_notify_change|intros _]. apply blind_ret.
Qed.

End Alike.

Section Secrecy.
Context `{E : Env} `{V : Vault} `{Sha : Sha256} `{Pyd : Pydantic} `{Pbk : Pbkdf2}.
Implicit Types w : world.

Lemma not_structured l scheme v : ~ In scheme l -> validate_value l scheme v = ret (inl Plain).
Proof.
  intros Hn. unfold validate_value. destruct (existsb (String.eqb scheme) l) eqn:Ee; [|done].
  exfalso. apply Hn. apply existsb_exists in Ee as (x & Hx & Ex). by apply String.eqb_eq in Ex as ->.
Qed.

Ltac blind_tail :=
  repeat first
    [ apply blind_ret | apply blind_new_cred | apply blind_lift | apply blind_store | apply blind_announce
    | apply blind_now | apply blind_bind; [|intros ?] ].

Lemma create_alike t s scheme v1 v2 h q w : ~ In scheme STRUCTURED -> storable v1 -> storable v2 ->
  let run v := transaction (create_credential t s (MkCredentialCreate scheme v h q)) w in
  fst (run v1) = fst (run v2) /\ same_but_values (snd (run v1)) (snd (run v2)).
Proof.
  intros Hn L1 L2. cbv zeta. apply alike_transaction. unfold create_credential.
  cbn [cd_auth_scheme cd_value cd_header_name cd_query_param]. rewrite !not_structured by done.
  do 2 (apply alike_after; intros ? ? _). apply alike_after. intros [row|] wr _; [|done]. rewrite !bind_ret.
  cbn [vault_plaintext vault_target_address vault_ssh_user].
  refine (alike_bind _ _ _ _ (alike_put _ _ _ _ _ _ _ _ _ _ L1 L2) (fun rep => alike_blind _ _) wr wr eq_refl).
  blind_tail.
Qed.

Lemma rotate_alike t s scheme v1 v2 from w : ~ In scheme ROTATE_STRUCTURED -> storable v1 -> storable v2 ->
  let run v := transaction (rotate_credential t s (MkCredentialRotateRequest scheme from (Some (RotateText v)))) w in
  fst (run v1) = fst (run v2) /\ same_but_values (snd (run v1)) (snd (run v2)).
Proof.
  intros Hn L1 L2. cbv zeta. apply alike_transaction. unfold rotate_credential.
  cbn [rr_auth_scheme rr_rotate_from rr_value]. rewrite !not_structured by done.
  do 2 (apply alike_after; intros ? ? _). apply alike_after. intros [row|] wr _; [|done].
  destruct (match from with Some _ => _ | None => _ end) as [u|[]]; cbn [try_value]; try done.
  do 3 (apply alike_after; intros ? ? _). apply alike_after. intros olds wo _. destruct (fetchone olds) as [old|]; [|done].
  rewrite !bind_ret. apply alike_after. intros prior wp _. cbv zeta. destruct (default _ _) as [ta su]. rewrite !bind_ret.
  cbn [rotate_plaintext].
  refine (alike_bind _ _ _ _ (alike_put _ _ _ _ _ _ _ _ _ _ L1 L2) (fun rep => alike_blind _ _) wp wp eq_refl).
  blind_tail.
Qed.
End Secrecy.

(** C14: The value of a credential goes to the vault and nowhere else.  Let two registrations of a scheme
    whose value is not structured, or two rotations of a scheme whose value rotation does not
    inspect, differ in the value alone, both values of one to 65536 bytes.  Whatever happens to the
    requests (faults of the database or the vault included), they have the same outcome, answer or
    exception, and leave the same state but for the value column of the vault's table: no table, no
    audit event, no notification and nothing the process keeps depends on the value. *)
Theorem value_stays_in_vault `{E : Env} `{V : Vault} `{Sha : Sha256} `{Pyd : Pydantic} `{Pbk : Pbkdf2} t service_id scheme v1 v2 w :
  storable v1 -> storable v2 ->
  (forall h q, ~ In scheme STRUCTURED ->
    let run v := transaction (credentials_handler t service_id (PostCredential (MkCredentialCreate scheme v h q))) w in
    fst (run v1) = fst (run v2) /\ same_but_values (snd (run v1)) (snd (run v2))) /\
  (forall from, ~ In scheme ROTATE_STRUCTURED ->
    let run v := transaction (credentials_handler t service_id (PostRotate (MkCredentialRotateRequest scheme from (Some (RotateText v))))) w in
    fst (run v1) = fst (run v2) /\ same_but_values (snd (run v1)) (snd (run v2))).
Proof.
  intros L1 L2. split.
  - intros h q Hn. exact (create_alike t service_id scheme v1 v2 h q w Hn L1 L2).
  - intros from Hn. exact (rotate_alike t service_id scheme v1 v2 from w Hn L1 L2).
Qed.

Section Witnesses.
#[local] Existing Instance demo_env.
#[local] Existing Instance demo_vault.
#[local] Existing Instance toy_sha256.
#[local] Existing Instance toy_pydantic.
#[local] Existing Instance toy_pbkdf2.

Definition demo_token (v : string) : CredentialCreate := MkCredentialCreate "bearer_token" v None None.

(** Two registrations with different tokens: the same answer and the same events. *)
Lemma value_stays_in_vault_witness :
  let run v := transaction (credentials_handler 1 (wire 8 "svc") (PostCredential (demo_token v))) demo_world in
  fst (run "one") = fst (run "two") /\ same_but_values (snd (run "one")) (snd (run "two")) /\
  map vc_value (vault_credentials (w_base (snd (run "one")))) = ["s3cret"; "one"].
Proof.
  assert (L1 : storable "one") by (unfold storable; change (py_len (utf8 "one")) with 3%nat; lia).
  assert (L2 : storable "two") by (unfold storable; change (py_len (utf8 "two")) with 3%nat; lia).
  assert (Hn : ~ In "bearer_token" STRUCTURED) by (intros H; repeat (destruct H as [H|H]; [discriminate|]); destruct H).
  destruct (proj1 (value_stays_in_vault 1 (wire 8 "svc") "bearer_token" "one" "two" demo_world L1 L2) None None Hn) as [H1 H2].
  split; [exact H1|]. split; [exact H2|]. vm_compute. reflexivity.
Defined.
End Witnesses.
