(* ===== verification/EmailLaws.v ===== *)
(** * What the OAuth2 flow of email services guarantees

    A state value stores one credential at most, the page of a callback shows
    nothing of its inputs as markup, and a stored password cannot be deleted. *)

From Stdlib Require QArith_base.
From S2P Require Import Prelude PyStr PyText PyJson PyJsonFacts PyTime WireIds AuditHash AuditChain.
From S2P Require Import Vault Tables Database Logic Demo Keys Sessions AuditEmit AgentSecrets Permissions.
From S2P Require Import Erasure VaultClient SshTest CredPayloads AgentLaws RegistrySafety TestCalls CredentialLaws.
From S2P Require Import EmailServices EmailOauth EmailSafety.
Import CredentialAdapter.

Local Open Scope string_scope.
Local Open Scope py_scope.

#[local] Opaque uuid_str wire UUID isoformat_utc.

Section EmailLaws.
Context `{E : Env} `{V : Vault} `{Sha : Sha256}.
Context (t : uuid) (Ht : (t < uuid_limit)%N).
Implicit Types w : world.

(** ** Statements *)

(** No state row has this value (any more). *)
Definition state_gone (state : string) (d : db) : Prop := forall r, In r (oauth2_state d) -> os_state_value r <> state.

(** What is done to data without the state: nothing. *)
Definition unless_pending (state : string) (d d' : db) : Prop := state_gone state d -> d' = d.

#[local] Instance unless_pending_preorder state : PreOrder (unless_pending state).
Proof. split; [done|]. intros a b c H1 H2 Hg. pose proof (H1 Hg) as ->. by apply H2. Qed.

Lemma idle_gmail tok : idle (gmail_address tok).
Proof.
  unfold gmail_address. apply idle_bind.
  - apply idle_catch; [by apply idle_bind|]. intros e. by destruct (is_http_error e).
  - intros [[status body]|]; [|apply idle_ret]. destruct (_ =? _)%Z; [|apply idle_ret].
    apply idle_bind; [apply idle_lift|intros; apply idle_ret].
Qed.

Lemma guarded_Ok {A B} (m : M A) (on_error : M B) (k : A -> M B) w b w' : guarded m on_error k w = (Ok b, w') ->
  (exists a w1, m w = (Ok a, w1) /\ k a w1 = (Ok b, w')) \/ (exists e w1, m w = (Raise e, w1) /\ on_error w1 = (Ok b, w')).
Proof.
  unfold guarded, bind, catch. intros H. destruct (m w) as [[a|e] w1]; cbn [ret] in H; [left|right]; eauto.
Qed.

Lemma bind_eval {A B} (m : M A) (k : A -> M B) w o w1 : m w = (o, w1) ->
  bind m k w = match o with Ok a => k a w1 | Raise e => (Raise e, w1) end.
Proof. unfold bind. by intros ->. Qed.

(** The client configuration leaves the data; in a transaction that is still usable, the settings too. *)
Lemma config_eff provider w o w' : _oauth2_config_from_db t provider w = (o, w') ->
  w_base w' = w_base w /\ (w_tx w' = TxActive -> w_tx w = TxActive /\ w_db w' = w_db w /\ policy w' = policy w).
Proof.
  unfold _oauth2_config_from_db, guarded. rewrite (bound_str t), bind_ret by done. intros H.
  unfold bind at 1, catch, bind at 1 in H. unfold bind at 1 in H.
  destruct (select oauth2_client_configs_t (config_of t provider) w) as [[rows|e] w1] eqn:Es; cbn [ret] in H.
  - apply select_eff in Es as (K1 & _ & D1 & _).
    pose proof (kp_base _ _ K1) as B1. pose proof (kp_tx _ _ K1) as X1. pose proof (kept_policy _ _ K1) as P1. destruct (fetchone rows) as [row|]; [|injection H as <- <-; split; [exact B1|]; rewrite X1; by intros ->].
    unfold bind at 1, bind at 1 in H. destruct (get_credential (uuid_str t) (_vault_service_id t provider) w1) as [[c|e] w2] eqn:Eg;
      apply get_credential_eff in Eg as ->; cbn [ret] in H; injection H as <- <-; (split; [exact B1|]);
      cbn [w_tx tick]; rewrite X1; by intros ->.
  - apply execute_Raise in Es as (B1 & D1 & X1). injection H as <- <-. split; [exact B1|done].
Qed.

(** A state without a row is not found. *)
Lemma gone_rows state tid provider now pol d : state_gone state d ->
  List.filter (fun r => sees oauth2_state_t pol r && pending_state state tid provider now r) (oauth2_state d) = [] /\
  delete_db oauth2_state_t (fun r => sees oauth2_state_t pol r && pending_state state tid provider now r) d = d.
Proof.
  intros Hg. assert (Hno : forall r, In r (oauth2_state d) ->
    sees oauth2_state_t pol r && pending_state state tid provider now r = false).
  { intros r Hr. apply Hg in Hr. unfold pending_state. by rewrite (proj2 (String.eqb_neq _ _) Hr), andb_false_r. }
  split; [by apply filter_none|]. unfold delete_db. cbn [tb_cascade oauth2_state_t no_cascade].
  rewrite filter_all; [apply tb_set_get; apply _|]. intros r Hr. by rewrite Hno.
Qed.

(** The exchange for a state that is not pending ends before the provider is asked. *)
Lemma exchange_gone s provider code state cid cs w o w' :
  _exchange_oauth2_code_for_refresh_token t s provider code state cid cs w = (o, w') ->
  (w_tx w = TxActive -> state_gone state (w_db w)) ->
  w_base w' = w_base w /\ (w_tx w' = TxActive -> w_db w' = w_db w /\ w_tx w = TxActive) /\ p_calls (w_proc w') = p_calls (w_proc w) /\
  match o with Ok (ExchangeOk _ _ _ _) => False | Ok (ExchangeFailed _ _ status) => status = 422%Z | Raise _ => True end.
Proof.
  unfold _exchange_oauth2_code_for_refresh_token. rewrite (bound_str t), bind_ret by done. unfold transaction_timestamp.
  unfold bind at 1. cbn [now_utc]. unfold bind at 1. generalize (env_now (w_tick w)). intros now H Hg.
  unfold delete_returning, execute in H. change (w_tx (tick (tick w))) with (w_tx w) in H.
  destruct (w_tx w) eqn:Ex; [|injection H as <- <-; cbn; by rewrite Ex..]. specialize (Hg eq_refl).
  destruct (env_fault _); [injection H as <- <-; done|].
  destruct (policy (tick (tick w))) as [pol|e]; [|injection H as <- <-; done]. cbn [mbind outcome_bind] in H.
  change (w_db (tick (tick w))) with (w_db w) in H. cbn [tb_get oauth2_state_t] in H.
  destruct (gone_rows state t provider now pol _ Hg) as [E1 E2]. rewrite E1, E2 in H. cbn [fetchone head] in H.
  injection H as <- <-. done.
Qed.

Lemma silent_config provider : silent (_oauth2_config_from_db t provider).
Proof.
  assert (Hg : forall A B (m : M A) (on_error : M B) k, silent m -> silent on_error -> (forall a, silent (k a)) -> silent (guarded m on_error k)).
  { intros A B m oe k Hm Ho Hk. apply silent_bind; [|by intros [a|]].
    apply silent_catch; [apply silent_bind; [done|intros; apply silent_ret]|intros; apply silent_ret]. }
  unfold _oauth2_config_from_db. apply Hg; [|apply silent_ret|].
  - apply silent_bind; [apply silent_bound|intros tid]. apply silent_bind; [apply silent_select|intros; apply silent_ret].
  - intros [row|]; [|apply silent_ret]. apply Hg; [apply silent_get_credential|apply silent_ret|intros; apply silent_ret].
Qed.

(** ** A callback that succeeds *)

(** The current version of the credential [vid] is not revoked and has this scheme and value. *)
Definition credential_is (vid : uuid) (scheme : Z) (value : string) (d : db) : Prop :=
  exists row, Get t vid (vault_credentials d) = Some row /\ vc_auth_scheme row = scheme /\ vc_value row = value /\
    vc_is_revoked row = false.

(** The service of a flow: that of its state, or of the path. *)
Definition flow_service (st : oauth2_state_row) (path_service : string) : string :=
  match os_service_id st with Some s => uuid_str s | None => path_service end.

(** The flow [st] ended with the credential of its service. *)
Record flow_ended (state s provider sid addr : string) (before after : db) : Prop := {
  fe_state : exists st vid refresh_token, In st (oauth2_state before) /\ os_state_value st = state /\
    os_tenant_id st = t /\ os_provider st = provider /\ (exists n, (env_now n < os_expires_at st)%Z) /\
    sid = flow_service st s /\ pg_uuid_in sid = Some vid /\ truthy refresh_token = true /\
    credential_is vid 15 (utf8 (vault_envelope provider refresh_token addr)) after;
  fe_gone : state_gone state after }.

Lemma exchange_stores s provider code state cid cs w sid at_ tt_ addr w' : in_tenant t w ->
  List.NoDup (map os_state_value (oauth2_state (w_db w))) ->
  _exchange_oauth2_code_for_refresh_token t s provider code state cid cs w = (Ok (ExchangeOk sid at_ tt_ addr), w') ->
  in_tenant t w' /\ flow_ended state s provider sid addr (w_db w) (w_db w').
Proof.
  intros T0 Hn H. unfold _exchange_oauth2_code_for_refresh_token in H. rewrite (bound_str t), bind_ret in H by done.
  step H as now w1 H1. apply now_Ok in H1 as [-> ->]. step H as rows w2 H2.
  apply delete_returning_eff in H2 as (K2 & _ & pol & _ & D2 & ->).
  pose proof (in_tenant_kept _ _ _ K2 (in_tenant_kept _ _ _ (ltac:(by split) : kept w (tick w)) T0)) as T2.
  unfold fetchone in H. rewrite head_filter_find in H. destruct (List.find _ _) as [st|] eqn:Ef; [|by apply ret_Ok in H as [H _]].
  apply List.find_some in Ef as [Hin Hp]. pose proof Hp as Hp'. apply andb_true_iff in Hp as [_ Hp]. unfold pending_state in Hp.
  rewrite !andb_true_iff, String.eqb_eq, N.eqb_eq, String.eqb_eq, Z.ltb_lt in Hp. destruct Hp as [[[Hs Htn] Hpr] Hex].
  step H as resp w3 H3.
  assert (K3 : kept w2 w3 /\ w_db w3 = w_db w2).
  { refine (idle_eff _ _ _ _ _ H3). apply idle_catch; [by apply idle_bind|]. intros e. by destruct (is_http_error e). }
  destruct K3 as [K3 D3]. destruct resp as [[status body]|]; [|by apply ret_Ok in H as [H _]].
  destruct (negb _); [by apply ret_Ok in H as [H _]|]. step H as data w4 H4. apply lift_Ok in H4 as [_ ->].
  cbv zeta in H. destruct (negb (truthy _)) eqn:Etr; [by apply ret_Ok in H as [H _]|]. apply negb_false_iff in Etr.
  step H as addr' w4 H4.
  assert (K4 : kept w3 w4 /\ w_db w4 = w_db w3).
  { refine (idle_eff _ _ _ _ _ H4). destruct (String.eqb provider "gmail"); [apply idle_gmail|apply idle_ret]. }
  destruct K4 as [K4 D4]. pose proof (in_tenant_kept _ _ _ K4 (in_tenant_kept _ _ _ K3 T2)) as T4.
  apply guarded_Ok in H as [(rep & w5 & H5 & H)|(e & w5 & H5 & H)]; [|by apply ret_Ok in H as [H _]].
  step H as now' w6 H6. apply now_Ok in H6 as [-> ->]. apply ret_Ok in H as [H ->]. injection H as -> _ _ ->.
  apply put_credential_stores in H5 as (vid & vrows & Hvid & HP & D5 & _ & X5 & P5); [|done].
  split; [split; [cbn; rewrite X5; apply T4|change (policy w5 = Ok (fun r => N.eqb r t || false)); rewrite P5; apply T4]|].
  change (w_db (tick w5)) with (w_db w5). change (w_db (tick w)) with (w_db w) in *. rewrite D5, D4, D3, D2. split.
  - exists st, vid. eexists. split; [exact Hin|]. do 3 (split; [done|]). split; [by eexists|]. split; [done|].
    split; [exact Hvid|]. split; [exact Etr|]. apply Put_Get in HP as [_ Hg].
    eexists. split; [exact Hg|]. done.
  - intros r Hr Hrs. unfold delete_db in Hr. cbn [tb_cascade oauth2_state_t no_cascade tb_get tb_set oauth2_state vault_credentials_t] in Hr.
    apply filter_In in Hr as [Hr Hk]. assert (r = st) as ->; [|by rewrite Hp' in Hk].
    apply (NoDup_key_unique os_state_value _ r st Hn); [exact Hr|exact Hin|congruence].
Qed.

(** ** A callback for a state that is gone *)

Definition callback_state (rq : email_request) : option string :=
  match rq with
  | PostCallback _ _ body | PostTenantCallback _ body => Some (cb_state body)
  | GetCallback _ _ q | GetTenantCallback _ q => Some (str_or (cq_state q) "")
  | _ => None
  end.

(** The answer to a callback that did not succeed. *)
Definition refused (r : callback_response) : Prop :=
  match r with
  | CallbackJson r => status_code r <> 200%Z
  | HTMLResponse _ page => exists sid code desc, page = _oauth2_callback_html false sid code desc _admin_ui_base
  end.

(** What such a callback leaves behind: the data, and no call of the provider. *)
Definition untouched w0 w : Prop :=
  w_base w = w_base w0 /\ (w_tx w = TxActive -> w_db w = w_base w0) /\ p_calls (w_proc w) = p_calls (w_proc w0).
Definition refuses (w0 : world) (o : outcome callback_response) w : Prop :=
  untouched w0 w /\ forall r, o = Ok r -> refused r.

Lemma refuses_ret w0 w r : untouched w0 w -> refused r -> refuses w0 (Ok r) w.
Proof. intros Hu Hr. split; [done|]. by intros r' [= <-]. Qed.
Lemma refuses_raise w0 w e : untouched w0 w -> refuses w0 (Raise e) w.
Proof. by split. Qed.

(** Up to the exchange nothing happens to the data. *)
Lemma prepared provider w0 (k : option (string * string) -> M callback_response) o w' w : untouched w0 w ->
  (forall w1 creds, untouched w0 w1 -> refuses w0 (fst (k creds w1)) (snd (k creds w1))) ->
  (do! set_tenant_context (uuid_str t) false in let! creds := _oauth2_config_from_db t provider in k creds) w = (o, w') ->
  refuses w0 o w'.
Proof.
  intros (B & D & C) Hk H. unfold bind at 1 in H.
  assert (Hs : untouched w0 (snd (set_tenant_context (uuid_str t) false w))).
  { split; [|split].
    - unfold set_tenant_context, set_config_tenant, bind, execute. destruct (w_tx (tick w)); [|exact B..]. by destruct (env_fault _).
    - unfold set_tenant_context, set_config_tenant, bind, execute. change (w_tx (tick w)) with (w_tx w).
      destruct (w_tx w) eqn:Ex; [|cbn; by rewrite Ex..]. by destruct (env_fault _); [|intros _; apply D].
    - by rewrite silent_set_tenant. }
  destruct (set_tenant_context (uuid_str t) false w) as [[u|e] w1]; [|injection H as <- <-; by apply refuses_raise].
  cbn [snd] in Hs. destruct Hs as (B1 & D1 & C1). unfold bind in H. pose proof (silent_config provider w1) as Hp.
  destruct (_oauth2_config_from_db t provider w1) as [oc w2] eqn:Ec. cbn [snd] in Hp.
  pose proof (config_eff _ _ _ _ Ec) as [B2 D2].
  assert (Hu : untouched w0 w2).
  { split; [congruence|]. split; [|congruence]. intros Hx. destruct (D2 Hx) as (Hx1 & -> & _). by apply D1. }
  destruct oc as [creds|e]; [|injection H as <- <-; by apply refuses_raise].
  specialize (Hk _ creds Hu). by rewrite H in Hk.
Qed.

Lemma problem_status code kind title : status_code (problem code kind title) = code.
Proof. reflexivity. Qed.

Lemma callback_refuses s provider body w : state_gone (cb_state body) (w_base w) ->
  refuses w (fst (oauth2_callback t s provider body (begin w))) (snd (oauth2_callback t s provider body (begin w))).
Proof.
  intros Hg. assert (H0 : untouched w (begin w)) by done. revert H0. generalize (begin w). intros w1 H0. unfold oauth2_callback.
  destruct (negb _); [by apply refuses_ret|].
  eapply prepared; [exact H0| |apply surjective_pairing]. clear w1 H0. intros w1 [[cid cs]|] Hu; [|apply refuses_ret; [exact Hu|discriminate]].
  destruct (_exchange_oauth2_code_for_refresh_token t s provider (cb_code body) (cb_state body) cid cs w1) as [o w2] eqn:Ex.
  rewrite (bind_eval _ _ _ _ _ Ex). destruct Hu as (B & D & C).
  apply exchange_gone in Ex as (B2 & D2 & C2 & Ho); [|intros Hx; by rewrite (D Hx)].
  assert (Hu : untouched w w2).
  { split; [congruence|]. split; [|congruence]. intros Hx. destruct (D2 Hx) as [-> Hx1]. by apply D. }
  destruct o as [[sid at_ tt_ addr|code title status]|e]; [done| |by apply refuses_raise].
  apply refuses_ret; [done|]. cbn [refused]. by rewrite problem_status, Ho.
Qed.

Lemma view_refuses s provider q w : state_gone (str_or (cq_state q) "") (w_base w) ->
  refuses w (fst (oauth2_callback_view t s provider q (begin w))) (snd (oauth2_callback_view t s provider q (begin w))).
Proof.
  intros Hg. assert (H0 : untouched w (begin w)) by done. revert H0. generalize (begin w). intros w1 H0.
  unfold oauth2_callback_view. cbv zeta.
  assert (Hf : forall code desc status w1, untouched w w1 ->
    refuses w (Ok (HTMLResponse status (_oauth2_callback_html false s code desc _admin_ui_base))) w1).
  { intros code desc status w2 Hu. apply refuses_ret; [done|]. by exists s, code, desc. }
  destruct (str_or (cq_error q) ""); [|by apply Hf].
  destruct (negb _); [by apply Hf|]. destruct (_ || _); [by apply Hf|].
  eapply prepared; [exact H0| |apply surjective_pairing]. clear w1 H0. intros w1 [[cid cs]|] Hu; [|apply Hf, Hu].
  destruct (_exchange_oauth2_code_for_refresh_token t s provider (str_or (cq_code q) "") (str_or (cq_state q) "") cid cs w1) as [o w2] eqn:Ex.
  rewrite (bind_eval _ _ _ _ _ Ex). destruct Hu as (B & D & C).
  apply exchange_gone in Ex as (B2 & D2 & C2 & Ho); [|intros Hx; by rewrite (D Hx)].
  assert (Hu : untouched w w2).
  { split; [congruence|]. split; [|congruence]. intros Hx. destruct (D2 Hx) as [-> Hx1]. by apply D. }
  destruct o as [[sid at_ tt_ addr|code title status]|e]; [done|by apply Hf|by apply refuses_raise].
Qed.

(** A transaction around a computation that touches nothing. *)
Lemma transaction_untouched {A} (m : M A) w : untouched w (snd (m (begin w))) ->
  w_base (snd (transaction m w)) = w_base w /\ p_calls (w_proc (snd (transaction m w))) = p_calls (w_proc w).
Proof.
  unfold transaction. destruct (m (begin w)) as [[a|e] w1]; cbn [snd]; intros (B & D & C).
  - destruct (w_tx w1) eqn:Ex; cbn [snd].
    + unfold commit. change (w_tx (tick w1)) with (w_tx w1). rewrite Ex.
      destruct (env_fault _); cbn [snd]; (split; [|exact C]); [exact B|by apply D].
    + unfold commit. change (w_tx (tick w1)) with (w_tx w1). rewrite Ex. by split.
    + by split.
  - by destruct (w_tx w1).
Qed.

Lemma gone_callback `{Pyd : Pydantic} registry rq state w :
  callback_state rq = Some state -> state_gone state (w_base w) ->
  w_base (snd (transaction (email_handler registry t rq) w)) = w_base w /\
  p_calls (w_proc (snd (transaction (email_handler registry t rq) w))) = p_calls (w_proc w) /\
  forall r w', transaction (email_handler registry t rq) w = (Ok r, w') -> refused r.
Proof.
  intros Hs Hg. assert (H : refuses w (fst (email_handler registry t rq (begin w))) (snd (email_handler registry t rq (begin w)))).
  { destruct rq; try done; apply Some_inj in Hs; subst state; cbn [email_handler];
      unfold oauth2_callback_per_tenant, oauth2_callback_per_tenant_view; first [by apply callback_refuses|by apply view_refuses]. }
  destruct H as [Hu Hr]. apply transaction_untouched in Hu as Hc. destruct Hc as [Hb Hc]. do 2 (split; [done|]).
  intros r w' Hrun. apply transaction_Ok in Hrun as (w1 & Hrun & _). rewrite Hrun in Hr. by apply Hr.
Qed.

(** ** The handlers *)

(** The service and the provider in the path of a callback. *)
Definition callback_path (rq : email_request) : string * string :=
  match rq with
  | PostCallback s provider _ | GetCallback s provider _ => (s, provider)
  | PostTenantCallback provider _ | GetTenantCallback provider _ => ("", provider)
  | _ => ("", "")
  end.

Lemma flow_ended_event state s provider sid addr d d' e :
  flow_ended state s provider sid addr d d' -> flow_ended state s provider sid addr d (append_event t e d').
Proof. intros [H1 H2]. by split. Qed.

(** A failed exchange has the status of an error. *)
Lemma exchange_failed s provider code state cid cs w c ti st w' :
  _exchange_oauth2_code_for_refresh_token t s provider code state cid cs w = (Ok (ExchangeFailed c ti st), w') -> st <> 200%Z.
Proof.
  intros H. unfold _exchange_oauth2_code_for_refresh_token in H. step H as tid w1 H1. step H as now w2 H2. step H as rows w3 H3.
  destruct (fetchone rows) as [row|]; [|apply ret_Ok in H as [H _]; by injection H as _ _ ->].
  step H as resp w4 H4. destruct resp as [[status body]|]; [|apply ret_Ok in H as [H _]; by injection H as _ _ ->].
  destruct (negb _); [apply ret_Ok in H as [H _]; by injection H as _ _ ->|]. step H as data w5 H5. cbv zeta in H.
  destruct (negb _); [apply ret_Ok in H as [H _]; by injection H as _ _ ->|]. step H as addr w6 H6.
  apply guarded_Ok in H as [(rep & w7 & H7 & H)|(e & w7 & H7 & H)]; [|apply ret_Ok in H as [H _]; by injection H as _ _ ->].
  step H as now' w8 H8. by apply ret_Ok in H as [H _].
Qed.

(** What the callbacks share, up to what they answer. *)
Definition flow s provider code state (none : callback_response) (failed : string -> string -> Z -> callback_response)
    (done_ : string -> string -> callback_response) : M callback_response :=
  do! set_tenant_context (uuid_str t) false in
  let! creds := _oauth2_config_from_db t provider in
  match creds with
  | None => ret none
  | Some (client_id, client_secret) =>
      let! result := _exchange_oauth2_code_for_refresh_token t s provider code state client_id client_secret in
      match result with
      | ExchangeOk sid at_ token_type addr => do! emit_authorized t provider sid at_ token_type addr in ret (done_ sid at_)
      | ExchangeFailed code title status => ret (failed code title status)
      end
  end.

Lemma flow_Ok s provider code state none failed done_ w r w' :
  List.NoDup (map os_state_value (oauth2_state (w_base w))) -> refused none -> (forall c ti st, st <> 200%Z -> refused (failed c ti st)) ->
  flow s provider code state none failed done_ (begin w) = (Ok r, w') -> ~ refused r ->
  w_tx w' = TxActive /\ exists sid addr, flow_ended state s provider sid addr (w_base w) (w_db w').
Proof.
  intros Hn Hnone Hfailed H Hr. unfold flow in H. step H as u w1 H1. apply set_tenant_start in H1 as (T1 & _ & D1 & _); [|done..].
  step H as creds w2 H2. apply config_eff in H2 as [_ H2]. destruct creds as [[cid cs]|]; [|by apply ret_Ok in H as [-> _]].
  step H as result w3 H3.
  assert (Hx : w_tx w2 = TxActive).
  { pose proof H3 as Hx. unfold _exchange_oauth2_code_for_refresh_token in Hx. rewrite (bound_str t), bind_ret in Hx by done.
    step Hx as now w4 H4. apply now_Ok in H4 as [_ ->]. step Hx as rows w5 H5. by apply execute_Ok in H5 as [H5 _]. }
  destruct (H2 Hx) as (_ & D2 & P2). assert (T2 : in_tenant t w2) by (split; [done|rewrite P2; apply T1]).
  destruct result as [sid at_ tt_ addr|c ti st]; [|apply exchange_failed in H3; apply ret_Ok in H as [-> _]; by destruct (Hr (Hfailed _ _ _ H3))].
  apply exchange_stores in H3 as [T3 Hf]; [|done|by rewrite D2, D1].
  step H as u4 w4 H4. apply ret_Ok in H as [_ ->]. unfold emit_authorized in H4. step H4 as target w5 H5.
  apply (reads_in_tenant _ t) in H5 as (T5 & D5 & _); [|apply target_uuid_reads|done].
  apply audit_emit_eff in H4 as (K4 & _ & e & _ & D4); [|done|apply uuid_opt_none].
  split; [rewrite (kp_tx _ _ K4); apply T5|]. exists sid, addr. rewrite D4, D5. apply flow_ended_event.
  by rewrite D2, D1 in Hf.
Qed.

Lemma callback_ended s provider body w r w' : List.NoDup (map os_state_value (oauth2_state (w_base w))) ->
  oauth2_callback t s provider body (begin w) = (Ok r, w') -> ~ refused r ->
  w_tx w' = TxActive /\ exists sid addr, flow_ended (cb_state body) s provider sid addr (w_base w) (w_db w').
Proof.
  intros Hn H Hr. unfold oauth2_callback in H. destruct (negb _); [apply ret_Ok in H as [-> _]; by destruct Hr|].
  refine (flow_Ok s provider (cb_code body) (cb_state body) (CallbackJson (oauth2_not_configured provider))
    (fun c ti st => CallbackJson (problem st c ti)) _ w r w' Hn _ _ H Hr); [discriminate|].
  intros c ti st Hst. exact Hst.
Qed.

Lemma view_ended s provider q w r w' : List.NoDup (map os_state_value (oauth2_state (w_base w))) ->
  oauth2_callback_view t s provider q (begin w) = (Ok r, w') -> ~ refused r ->
  w_tx w' = TxActive /\ exists sid addr, flow_ended (str_or (cq_state q) "") s provider sid addr (w_base w) (w_db w').
Proof.
  intros Hn H Hr. unfold oauth2_callback_view in H. cbv zeta in H.
  assert (Hf : forall status code desc, refused (HTMLResponse status (_oauth2_callback_html false s code desc _admin_ui_base))).
  { intros status code desc. by exists s, code, desc. }
  destruct (str_or (cq_error q) ""); [|apply ret_Ok in H as [-> _]; by destruct (Hr (Hf _ _ _))].
  destruct (negb _); [apply ret_Ok in H as [-> _]; by destruct (Hr (Hf _ _ _))|].
  destruct (_ || _); [apply ret_Ok in H as [-> _]; by destruct (Hr (Hf _ _ _))|].
  refine (flow_Ok s provider (str_or (cq_code q) "") (str_or (cq_state q) "") _
    (fun c ti st => HTMLResponse st (_oauth2_callback_html false s c ti _admin_ui_base))
    (fun sid at_ => HTMLResponse 200 (_oauth2_callback_html true sid "" "" _admin_ui_base)) w r w' Hn (Hf _ _ _) _ H Hr).
  intros c ti st _. apply Hf.
Qed.

Lemma callback_succeeds `{Pyd : Pydantic} registry rq state w r w' :
  List.NoDup (map os_state_value (oauth2_state (w_base w))) -> callback_state rq = Some state ->
  transaction (email_handler registry t rq) w = (Ok r, w') -> ~ refused r ->
  exists sid addr, flow_ended state (fst (callback_path rq)) (snd (callback_path rq)) sid addr (w_base w) (w_base w').
Proof.
  intros Hn Hs H Hr. apply transaction_commits in H as (w1 & H & Hend).
  assert (Hf : w_tx w1 = TxActive /\ exists sid addr,
    flow_ended state (fst (callback_path rq)) (snd (callback_path rq)) sid addr (w_base w) (w_db w1)).
  { destruct rq as [| | | | | | | | |s provider body|s provider q|provider body|provider q| | | |]; try done;
      apply Some_inj in Hs; subst state; cbn [email_handler callback_path fst snd] in *.
    - apply (callback_ended s provider body w r); done.
    - apply (view_ended s provider q w r); done.
    - apply (callback_ended "" provider body w r); done.
    - apply (view_ended "" provider q w r); done. }
  destruct Hf as (Hx & sid & addr & Hf). exists sid, addr. by rewrite (Hend Hx).
Qed.

(** ** Deletion of a credential *)

Definition vault_same (d d' : db) : Prop := vault_credentials d' = vault_credentials d.
#[local] Instance vault_same_preorder : PreOrder vault_same.
Proof. split; [done|]. intros a b c H1 H2. unfold vault_same in *. congruence. Qed.

(** The vault takes no empty value. *)
Lemma put_empty s sc w : exists e, put_credential (uuid_str t) s sc "" "" "" "" "" "" w = (Raise e, tick w).
Proof.
  unfold put_credential, bind, call_put, PutCredential. cbn [pa_value]. change (py_len (utf8 "") =? 0)%nat with true.
  rewrite orb_true_r, orb_true_l. destruct (env_vault_fault _) as [[b e]|]; by eexists.
Qed.

Lemma put_empty_respects (R : relation db) G s sc : respects R G (put_credential (uuid_str t) s sc "" "" "" "" "" "").
Proof. intros d0 w Hg. destruct (put_empty s sc w) as [e ->]. exact Hg. Qed.

(** The attempt to delete: it reads, and fails where there is something to delete. *)
Definition attempt (service_id scheme : string) : M unit :=
  let! existing := get_credential (uuid_str t) service_id in
  match existing with
  | Some _ => let! _ := put_credential (uuid_str t) service_id scheme "" "" "" "" "" "" in ret tt
  | None => ret tt
  end.

Lemma attempt_Ok s sc w u w' : attempt s sc w = (Ok u, w') -> get_credential (uuid_str t) s w = (Ok None, tick w) /\ w' = tick w.
Proof.
  intros H. unfold attempt in H. step H as o w1 H1. pose proof (get_credential_eff _ _ _ _ _ H1) as ->.
  destruct o as [c|]; [|by apply ret_Ok in H as [_ ->]].
  step H as rep w2 H2. destruct (put_empty s sc (tick w)) as [e He]. by rewrite He in H2.
Qed.

Lemma delete_credential_safe s : safe vault_same no_guc (delete_email_service_credential t s).
Proof.
  unfold delete_email_service_credential. apply safe_set_tenant; [by intros ? ? [_ ?]|].
  apply safe_bind; [intros d0 w Hg; apply reads_good; [apply email_service_of_reads|exact Hg]|].
  intros [row|]; [|apply safe_ret]. apply safe_bind.
  - apply respects_catch; [|intros; apply respects_ret]. apply respects_bind; [|intros; apply respects_ret].
    apply respects_bind; [apply respects_get_credential|intros [c|]; [|apply respects_ret]].
    apply respects_bind; [apply put_empty_respects|intros; apply respects_ret].
  - intros [u|]; [|apply safe_ret]. apply safe_bind; [intros d0 w Hg; apply reads_good; [apply target_uuid_reads|exact Hg]|].
    intros target. apply safe_bind; [|intros; apply safe_ret].
    by apply (audit_emit_rule vault_same); [|apply uuid_opt_none|].
Qed.

(** A stored credential of an email service cannot be deleted.  Whatever a request to delete it
    answers, the credentials of the vault are exactly as before, for the vault refuses the empty value
    the handler overwrites with; and where the vault answers and has a current credential the request
    does not succeed. *)
Theorem email_credential_undeletable service_id w :
  vault_credentials (w_base (snd (transaction (delete_email_service_credential t service_id) w))) = vault_credentials (w_base w) /\
  forall r w', transaction (delete_email_service_credential t service_id) w = (Ok r, w') ->
    (forall n, env_vault_fault n = None) -> (forall n, vault_credential n (uuid_str t) service_id (w_base w) <> None) ->
    status_code r = 422%Z \/ status_code r = 502%Z.
Proof.
  split; [by apply (transaction_safe vault_same), delete_credential_safe|].
  intros r w' H Hf Hv. apply transaction_Ok in H as (w1 & H & _). unfold delete_email_service_credential in H.
  step H as u w2 H2. apply set_tenant_start in H2 as (T2 & B2 & _ & _); [|done..].
  step H as row w3 H3. apply (reads_in_tenant _ t) in H3 as (T3 & _ & B3); [|apply email_service_of_reads|done].
  destruct row as [row|]; [|apply ret_Ok in H as [-> _]; by left].
  apply guarded_Ok in H as [(a & w4 & H4 & _)|(e & w4 & _ & H)]; [|apply ret_Ok in H as [-> _]; by right].
  apply (attempt_Ok service_id (es_auth_scheme row) w3 a) in H4 as [H4 _]. unfold get_credential in H4. rewrite Hf in H4.
  injection H4 as H4. destruct (Hv _ (eq_trans (f_equal (vault_credential _ _ _) (eq_trans (eq_sym B2) (eq_sym B3))) H4)).
Qed.
End EmailLaws.

(** C26: A state stores one credential.  Where the values of the pending states are unique, a callback
    of any form that succeeds presented a state of its tenant and provider that had not expired; the
    current version of the credential of the flow's service, the state's own or else the path's, is
    then the envelope of a refresh token, unrevoked, with the scheme of OAuth2; and no state row has
    the value any more.  From then on, and in every tenant, a callback with this value is refused,
    whatever else it says: it changes nothing that is stored and makes no call to the provider. *)
Theorem oauth2_state_stores_once `{E : Env} `{V : Vault} `{Sha : Sha256} `{Pyd : Pydantic} t registry rq state w r w' :
  (t < uuid_limit)%N -> List.NoDup (map os_state_value (oauth2_state (w_base w))) -> callback_state rq = Some state ->
  transaction (email_handler registry t rq) w = (Ok r, w') -> ~ refused r ->
  (exists sid addr, flow_ended t state (fst (callback_path rq)) (snd (callback_path rq)) sid addr (w_base w) (w_base w')) /\
  forall t2 rq2 w2, (t2 < uuid_limit)%N -> callback_state rq2 = Some state -> state_gone state (w_base w2) ->
    w_base (snd (transaction (email_handler registry t2 rq2) w2)) = w_base w2 /\
    p_calls (w_proc (snd (transaction (email_handler registry t2 rq2) w2))) = p_calls (w_proc w2) /\
    forall r2 w3, transaction (email_handler registry t2 rq2) w2 = (Ok r2, w3) -> refused r2.
Proof.
  intros Ht Hn Hs H Hr. split; [by eapply callback_succeeds|].
  intros t2 rq2 w2 Ht2 Hs2 Hg. by eapply gone_callback.
Qed.
(** ** The page of a callback *)

(** The characters that delimit tags and strings. *)
Definition delimiter (c : ascii) : bool := existsb (Ascii.eqb c) ["<"%char; ">"%char; dquote; "'"%char].
Definition delimiters (s : string) : list ascii := List.filter delimiter (chars s).

Lemma delimiters_app a b : delimiters (a +:+ b) = (delimiters a ++ delimiters b)%list.
Proof. unfold delimiters. by rewrite chars_app, List.filter_app. Qed.

Lemma ascii_all (P : ascii -> bool) : forallb (fun n => P (ascii_of_nat n)) (seq 0 256) = true -> forall c, P c = true.
Proof.
  intros H c. rewrite forallb_forall in H. rewrite <- (ascii_nat_embedding c). apply H, in_seq. split; [apply le_0_n|].
  apply nat_ascii_bounded.
Qed.

Lemma delimiters_escaped s : delimiters (html_escape s) = [].
Proof.
  unfold delimiters, html_escape. rewrite chars_unchars.
  assert (Hc : forall c, forallb (fun x => negb (delimiter x)) (escape_char c) = true).
  { apply ascii_all. vm_compute. reflexivity. }
  induction (chars s) as [|c l IH]; [done|]. cbn [flat_map]. rewrite List.filter_app, IH, app_nil_r.
  apply filter_none. intros x Hx. specialize (Hc c). rewrite forallb_forall in Hc. by apply negb_true_iff, Hc.
Qed.

Definition repr_char_ok (q c : ascii) : bool :=
  bool_decide (List.filter delimiter (repr_char q c) = List.filter delimiter [c]).
Lemma repr_char_delimiters q c : delimiter q = true -> List.filter delimiter (repr_char q c) = List.filter delimiter [c].
Proof.
  intros Hq. apply (bool_decide_eq_true (_ = _)). change (repr_char_ok q c = true).
  assert (Hall : forall q, negb (delimiter q) || forallb (fun n => repr_char_ok q (ascii_of_nat n)) (seq 0 256) = true).
  { apply ascii_all. vm_compute. reflexivity. }
  specialize (Hall q). rewrite Hq in Hall. by apply ascii_all.
Qed.

(** What [repr] writes of a character has the delimiters of the character. *)
Lemma delimiters_repr s :
  let quote := if existsb (Ascii.eqb "'") (delimiters s) && negb (existsb (Ascii.eqb dquote) (delimiters s))
               then dquote else "'"%char in
  delimiters (py_repr s) = (quote :: delimiters s ++ [quote])%list.
Proof.
  assert (He : forall q, delimiter q = true -> existsb (Ascii.eqb q) (chars s) = existsb (Ascii.eqb q) (delimiters s)).
  { intros q Hq. unfold delimiters. induction (chars s) as [|c l IH]; [done|]. cbn [existsb List.filter].
    destruct (delimiter c) eqn:Ec; cbn [existsb]; rewrite IH; [reflexivity|].
    destruct (Ascii.eqb_spec q c) as [->|]; [congruence|done]. }
  cbv zeta. unfold py_repr. rewrite !He by reflexivity.
  assert (Hq : delimiter (if existsb (Ascii.eqb "'") (delimiters s) && negb (existsb (Ascii.eqb dquote) (delimiters s))
    then dquote else "'"%char) = true) by (by destruct (_ && _)).
  revert Hq. generalize (if existsb (Ascii.eqb "'") (delimiters s) && negb (existsb (Ascii.eqb dquote) (delimiters s))
    then dquote else "'"%char). intros q Hq. unfold delimiters at 1. rewrite chars_unchars. cbn [List.filter]. rewrite Hq. f_equal.
  rewrite List.filter_app. cbn [List.filter]. rewrite Hq. f_equal.
  clear He. unfold delimiters. induction (chars s) as [|c l IH]; [done|]. cbn [flat_map].
  rewrite List.filter_app, IH, repr_char_delimiters by done. by cbn [List.filter]; destruct (delimiter c).
Qed.

Lemma delimiters_message code : delimiters (default "" (snd <$> List.find (fun kv => String.eqb code (fst kv)) _ERROR_MESSAGES)) = [].
Proof.
  destruct (List.find _ _) as [[k m]|] eqn:Ef; [|done]. apply List.find_some in Ef as [Hin _]. cbn [fmap option_fmap option_map snd default].
  assert (H : forallb (fun kv => bool_decide (delimiters (snd kv) = [])) _ERROR_MESSAGES = true) by (vm_compute; reflexivity).
  rewrite forallb_forall in H. by apply H, bool_decide_eq_true in Hin.
Qed.

Lemma delimiters_first l dflt : Forall (fun s => delimiters s = []) l -> delimiters dflt = [] -> delimiters (first_text l dflt) = [].
Proof.
  intros Hl Hd. unfold first_text. destruct (List.find _ _) as [s|] eqn:Ef; [|done]. apply List.find_some in Ef as [Hin _].
  cbn [default]. rewrite Forall_forall in Hl. by apply Hl, list_elem_of_In.
Qed.

Lemma delimiters_page success code desc :
  let p := page_of success code desc in let p0 := page_of success "" "" in
  delimiters (pg_body p) = delimiters (pg_body p0) /\ delimiters (pg_query p) = delimiters (pg_query p0) /\
  (pg_status p, pg_heading p, pg_class p, pg_title p) = (pg_status p0, pg_heading p0, pg_class p0, pg_title p0).
Proof.
  destruct success; cbn [page_of pg_body pg_query pg_status pg_heading pg_class pg_title]; [done|].
  split; [|split; [|done]].
  - rewrite !delimiters_first; [done|..]; repeat constructor; auto using delimiters_message, delimiters_escaped.
  - by rewrite !delimiters_app, !delimiters_escaped.
Qed.

(** The page of a callback carries no markup of its caller.  Whatever service, error code and
    description the request puts into a callback page, the characters that open, close and quote tags
    and script strings are, in their order, those of the page without these inputs. *)
Theorem callback_page_inert success service_id error_code error_description origin :
  delimiters (_oauth2_callback_html success service_id error_code error_description origin) =
  delimiters (_oauth2_callback_html success "" "" "" origin).
Proof.
  unfold _oauth2_callback_html. cbv zeta. destruct (delimiters_page success error_code error_description) as (Hb & Hq & Hc).
  injection Hc as -> -> -> ->.
  assert (Hu : delimiters (show_url origin (html_escape service_id) (pg_query (page_of success error_code error_description))) =
    delimiters (show_url origin (html_escape "") (pg_query (page_of success "" "")))).
  { unfold show_url. by rewrite !delimiters_app, Hq, !delimiters_escaped. }
  rewrite !delimiters_app, Hb, !delimiters_repr, Hu, !delimiters_escaped. reflexivity.
Qed.

(** ** Witnesses *)

(** The demo environment with a client configured for Outlook and a provider that answers a token. *)
Definition oauth2_env : Env := {|
  env_uuid4 := demo_uuid4; env_uuid4_lt := demo_uuid4_lt; env_now := demo_now;
  env_fault _ := None; env_vault_fault _ := None;
  bind_uuid := demo_uuid_in; bind_uuid_str := demo_uuid_in_str;
  bind_uuid_lt s u H := proj2 (demo_uuid_in_inv s u H);
  bind_uuid_UUID s u H := proj1 (demo_uuid_in_inv s u H);
  pg_uuid_in := demo_uuid_in; pg_uuid_in_str := demo_uuid_in_str;
  jsonb j := j; jsonb_wf j H := H; jsonb_same j _ := eq_refl; jsonb_as_text := false;
  bind_jsonb j := Some j; env_fold c := c; env_time := @env_time demo_env; env_zone := @env_zone demo_env;
  env_var name := if String.eqb name "MINTKEY_OAUTH2_OUTLOOK_CLIENT_ID" then Some "client"
                  else if String.eqb name "MINTKEY_OAUTH2_OUTLOOK_CLIENT_SECRET" then Some "client-secret" else None;
  env_http _ := Ok (200%Z, Some (JObj [("refresh_token", JStr "1//refresh"); ("access_token", JStr "ya29")]));
  env_token_bytes := @env_token_bytes demo_env; env_token_bytes_lt := @env_token_bytes_lt demo_env;
  env_monotonic := @env_monotonic demo_env; env_local t := t; env_admin_settings := None;
  env_token_urlsafe := @env_token_urlsafe demo_env; env_file := @env_file demo_env; env_backend := @env_backend demo_env;
  httpx_text := @httpx_text demo_env; env_mint := @env_mint demo_env; env_getaddrinfo := @env_getaddrinfo demo_env;
  env_ssh_key := @env_ssh_key demo_env; env_ssh := @env_ssh demo_env; env_fetch := @env_fetch demo_env |}.

Section Witnesses.
#[local] Existing Instance oauth2_env.
#[local] Existing Instance demo_vault.
#[local] Existing Instance toy_sha256.
#[local] Existing Instance toy_pydantic.

(** An email service of tenant 1 with a flow that has begun. *)
Definition email_db : db :=
  let now := 1700000000000000%Z in
  tb_set oauth2_state_t [Oauth2StateRow "st4te" 4 2 1 "outlook" "https://mintkey.example/callback" now (now + 600 * us_per_second) (Some 20%N)]
    (tb_set email_services_t [EmailServiceRow 20 1 "outlook" "Mail" "outlook.office365.com" 993 "smtp.office365.com" 587
       "email_oauth2" None 5 false now now None] demo_db).
Definition email_world : world :=
  World demo_vault email_db email_db TxDone None false [] [] (w_vault demo_world) 0 empty_process.

Definition code_arrives : email_request := PostTenantCallback "outlook" (MkOAuth2CallbackBody "c0de" "st4te").

Definition json_ok (r : callback_response) : bool := match r with CallbackJson r => Z.eqb (status_code r) 200 | _ => false end.
Lemma json_ok_accepted r : json_ok r = true -> ~ refused r.
Proof. destruct r as [r|]; [|done]. intros H Hn. by apply Z.eqb_eq in H. Qed.

Lemma oauth2_state_stores_once_witness :
  exists r w', transaction (email_handler [] 1 code_arrives) email_world = (Ok r, w') /\ state_gone "st4te" (w_base w') /\
    w_base (snd (transaction (email_handler [] 1 code_arrives) w')) = w_base w'.
Proof.
  destruct (run_returns (transaction (email_handler [] 1 code_arrives))
    json_ok email_world) as (r & Hr & Hrun); [vm_compute; reflexivity|].
  pose proof (json_ok_accepted r Hr) as Hok.
  assert (Hn : List.NoDup (map os_state_value (oauth2_state (w_base email_world)))) by (apply NoDup_ListNoDup, (bool_decide_unpack _); vm_compute; exact I).
  destruct (oauth2_state_stores_once 1 [] code_arrives "st4te" email_world r _ eq_refl Hn eq_refl Hrun Hok) as [(sid & addr & Hf) Hlater].
  eexists r, _. split; [exact Hrun|]. pose proof (fe_gone _ _ _ _ _ _ _ _ Hf) as Hg. split; [exact Hg|].
  exact (proj1 (Hlater 1%N code_arrives _ eq_refl eq_refl Hg)).
Defined.

(** The credential that flow stored is to be deleted. *)
Lemma email_credential_undeletable_witness :
  let w1 := snd (transaction (email_handler [] 1 code_arrives) email_world) in
  vault_credentials (w_base (snd (transaction (delete_email_service_credential 1 (uuid_str 20)) w1))) = vault_credentials (w_base w1) /\
  exists r w2, transaction (delete_email_service_credential 1 (uuid_str 20)) w1 = (Ok r, w2) /\
    (status_code r = 422%Z \/ status_code r = 502%Z).
Proof.
  cbv zeta. destruct (email_credential_undeletable 1 eq_refl (uuid_str 20) (snd (transaction (email_handler [] 1 code_arrives) email_world)))
    as [Hv Hd]. split; [exact Hv|].
  destruct (run_returns (transaction (delete_email_service_credential 1 (uuid_str 20))) (fun _ => true)
    (snd (transaction (email_handler [] 1 code_arrives) email_world))) as (r & _ & Hrun); [vm_compute; reflexivity|].
  eexists r, _. split; [exact Hrun|]. apply (Hd r _ Hrun); [reflexivity|]. intros n. vm_compute. discriminate.
Defined.
End Witnesses.
