(* ===== verification/ApiKeyLaws.v ===== *)
(** * What the API key endpoints achieve

    A new key is within the grants of its agent; the identifier the API
    returns for a key does not address it. *)

From S2P Require Import Prelude PyStr PyJson PyJsonFacts PyTime Periods PyText PyCodecs WireIds AuditHash AuditChain Constraints.
From S2P Require Import Like Vault Tables Database Logic Ulid PublicUrls Demo Keys Sessions AuditEmit AgentSecrets Sharing.
From S2P Require Import SecretTools SecretsSafety Permissions Budgets PermissionsSafety Agents ApiKeys Internal InternalLaws AgentLaws KeysSafety.

Local Open Scope string_scope.
Local Open Scope py_scope.

(** ** Wire identifiers are not UUIDs *)

Definition no_uuid_char (d : N) : bool :=
  forallb (fun c => negb (Ascii.eqb (char_at _CROCKFORD d) c)) ["u"; "{"; "}"; "-"]%char.

Lemma UUID_wire_svckey u : UUID (wire u "svckey") = Raise (ValueError "badly formed hexadecimal UUID string").
Proof.
  assert (Hn : forall c, In c ["u"; "{"; "}"; "-"]%char -> ~ In c (chars (wire u "svckey"))).
  { intros c Hc Hin. unfold wire in Hin. rewrite chars_app in Hin. apply in_app_or in Hin as [Hin|Hin].
    - vm_compute in Hin. destruct Hc as [<-|[<-|[<-|[<-|[]]]]]; by repeat destruct Hin as [Hin|Hin].
    - rewrite chars_app in Hin. apply in_app_or in Hin as [Hin|Hin].
      { vm_compute in Hin. destruct Hc as [<-|[<-|[<-|[<-|[]]]]]; by repeat destruct Hin as [Hin|Hin]. }
      unfold crockford in Hin. rewrite chars_unchars in Hin. apply in_map_iff in Hin as (d & Ed & Hd). apply digits_bound in Hd.
      assert (Hd' : no_uuid_char d = true) by (apply (N_below_check no_uuid_char 32); [vm_compute; reflexivity|exact Hd]).
      unfold no_uuid_char in Hd'. rewrite forallb_forall in Hd'. apply Hd' in Hc. by rewrite Ed, Ascii.eqb_refl in Hc. }
  unfold UUID. rewrite !(remove_sub_absent _ (wire u "svckey") "u") by (done || (apply Hn; by left)).
  rewrite strip_absent.
  2: { intros a Ha. apply not_true_iff_false. intros Hc. apply existsb_exists in Hc as (b & Hb & Hab).
       apply Ascii.eqb_eq in Hab. subst b. apply (Hn a); [|done]. simpl in *. intuition. }
  assert (Hd : replace_char "-" "" (wire u "svckey") = wire u "svckey").
  { unfold replace_char. fold (drop_dash (chars (wire u "svckey"))). rewrite drop_dash_id, unchars_chars; [done|].
    apply Hn. do 3 right. by left. }
  rewrite Hd. unfold wire. by rewrite !py_len_app, py_len_crockford.
Qed.

Section Laws.
Context `{E : Env} `{V : Vault} `{Sha : Sha256} `{Arg : Argon2}.
Context (t : uuid) (Ht : (t < uuid_limit)%N).
Implicit Types w : world.

(** A request on the key with this identifier. *)
Definition addresses (rq : api_keys_request) (kid : string) : Prop :=
  match rq with
  | GetApiKey _ k | PostRevokeApiKey _ k _ | PostRotateApiKey _ k => k = kid
  | _ => False
  end.

Lemma wire_key_unbound s u w row w' : api_key_by_id s t (wire u "svckey") w = (Ok row, w') -> False.
Proof.
  intros H. unfold api_key_by_id in H. step H as aid w2 Hr. apply bound_Ok in Hr as [_ ->].
  rewrite (bound_str t), bind_ret in H by done. step H as kid w2 Hr. apply bound_Ok in Hr as [Hb _].
  apply bind_uuid_UUID in Hb. by rewrite UUID_wire_svckey in Hb.
Qed.

Lemma eq_api_key_by_id G s kid : respects eq G (api_key_by_id s t kid).
Proof. unfold api_key_by_id. repeat preserved_step. Qed.

(** The identifier the API shows for a key does not address it.  Reading, revoking or rotating a key
    under the [svckey_] identifier that creation and listing return never succeeds, whatever the
    state: the identifier is bound to a UUID column as it is, and the statement fails.  The only
    answer such a request can get is 422 for a malformed agent, and nothing is committed. *)
Theorem wire_key_unaddressable rq u w :
  addresses rq (wire u "svckey") ->
  (forall r, fst (transaction (api_keys_handler t rq) w) = Ok r -> status_code r = 422%Z) /\
  w_base (snd (transaction (api_keys_handler t rq) w)) = w_base w.
Proof.
  intros Hrq. split.
  - intros r Hr. destruct (transaction (api_keys_handler t rq) w) as [o w'] eqn:E1. cbn [fst] in Hr. subst o.
    apply transaction_Ok in E1 as (w1 & H & _).
    destruct rq as [| |s k|s k reason|s k|]; try done; cbn [addresses api_keys_handler] in *; subst k;
      (apply try_value_Ok in H as [H|(a & _ & H)]; [by apply ret_Ok in H as [-> _]|exfalso]);
      step H as u1 w2 H2; step H as row w3 H3; by eapply wire_key_unbound.
  - symmetry. apply (transaction_safe eq). destruct rq as [| |s k|s k reason|s k|]; try done; cbn [addresses api_keys_handler] in *; subst k;
      (destruct (Admin._wire_id_to_uuid s "agent_") as [a|[]] eqn:Ea;
         [|unfold get_api_key, revoke_api_key, rotate_api_key; rewrite Ea; cbn [try_value]; auto using safe_ret, safe_raise..];
       unfold get_api_key, revoke_api_key, rotate_api_key; rewrite Ea; cbn [try_value];
       apply safe_set_tenant; [by intros ? ? [_ ?]|];
       apply (safe_bind_value eq _ (fun _ => False)); [apply eq_api_key_by_id|intros; by eapply wire_key_unbound|done]).
Qed.

(** ** Issued keys *)

(** The row holds the key [k]. *)
Definition holds_api_key (k : string) (y : api_key_row) : Prop :=
  y_key_fingerprint y = _fingerprint k /\ exists n, y_key_hash y = argon2_hash _ph n k.

(** The end of a request that inserts a row and emits an event. *)
Lemma insert_and_emit y ev target payload (r0 : response) (d0 : db) w r w' :
  (do! insert_into service_api_keys_t y in
   do! audit_emit t ev None "operator" (Some (VUUID target)) (Some "api_key") payload in ret r0) w = (Ok r, w') ->
  w_db w = d0 ->
  r = r0 /\ w_tx w' = TxActive /\ service_api_keys (w_db w') = (service_api_keys d0 ++ [y])%list.
Proof.
  intros H <-. step H as u w1 H1. apply insert_eff in H1 as (K1 & _ & _ & D1). step H as u2 w2 H2.
  apply audit_emit_Ok in H2 as (e & _ & _ & Hx & D2 & _); [|done|apply uuid_opt_none]. apply ret_Ok in H as [-> ->].
  split; [done|]. split; [done|]. by rewrite D2, D1.
Qed.

Lemma reads_keep {A} (m : M A) w a w' : reads m -> m w = (Ok a, w') -> w_db w' = w_db w.
Proof. intros [_ Hr] H. by apply Hr in H as (_ & ? & _). Qed.

Lemma issubset_In requested granted : issubset requested granted = true -> forall a, In a requested -> In a granted.
Proof.
  unfold issubset. rewrite forallb_forall. intros H a Ha. apply H, existsb_exists in Ha as (b & Hb & E1).
  apply String.eqb_eq in E1. by subst b.
Qed.

Lemma api_key_by_id_eff s kid w o w' : in_tenant t w -> api_key_by_id s t kid w = (Ok o, w') ->
  kept w w' /\ w_db w' = w_db w /\ exists aid k, bind_uuid s = Some aid /\ bind_uuid kid = Some k /\
    o = List.find (fun y => N.eqb (y_agent_id y) aid && N.eqb (y_tenant_id y) t && N.eqb (y_id y) k) (service_api_keys (w_db w)).
Proof.
  intros T H. unfold api_key_by_id in H. step H as aid w1 Hr. apply bound_Ok in Hr as [Hs ->].
  rewrite (bound_str t), bind_ret in H by done. step H as k w1 Hr. apply bound_Ok in Hr as [Hk ->]. step H as rows w1 Hr.
  apply select_eff in Hr as (K & Hv & Hd & pol & Hp & ->). apply ret_Ok in H as [-> ->].
  rewrite (it_policy _ _ T) in Hp. apply Ok_inj in Hp. subst pol. split; [done|]. split; [done|]. exists aid, k.
  do 2 (split; [done|]). unfold fetchone. rewrite head_filter_find. apply find_ext.
  intros y. cbn [sees tb_tenant service_api_keys_t tb_get]. destruct (N.eqb (y_tenant_id y) t); [done|by rewrite !andb_false_r].
Qed.

Lemma api_key_service_refusal s w r w' : api_key_service t s w = (Ok (inr r), w') -> status_code r <> 201%Z.
Proof.
  unfold api_key_service. intros H. destruct (startswith s "svc_"); [|by apply ret_Ok in H as [? _]].
  destruct (Admin._wire_id_to_uuid s "svc_") as [u|[]]; try (by apply raise_Ok in H);
    [|by apply ret_Ok in H as [H _]; injection H as ->].
  step H as sid w1 H1. step H as tid w2 H2. step H as rows w3 H3. destruct (fetchone rows); [by apply ret_Ok in H as [? _]|].
  step H as tid2 w4 H4. step H as rows2 w5 H5. destruct (fetchone rows2); apply ret_Ok in H as [H _]; [done|by injection H as ->].
Qed.

(** What an accepted creation leaves. *)
Lemma create_api_key_Ok agent_id body w r w' :
  transaction (create_api_key t agent_id body) w = (Ok r, w') -> status_code r = 201%Z ->
  exists aid y k, named_id (Admin._wire_id_to_uuid agent_id "agent_") = Some aid /\
    service_api_keys (w_base w') = (service_api_keys (w_base w) ++ [y])%list /\
    response_field "plaintext_key" r = Some (JStr k) /\ holds_api_key k y /\
    y_tenant_id y = t /\ y_agent_id y = aid /\ y_revoked_at y = None /\ y_allowed_actions y = yc_allowed_actions body /\
    forall action, In action (yc_allowed_actions body) ->
      exists g, In g (permission_grants (w_base w)) /\ g_tenant_id g = t /\ g_agent_id g = aid /\
        g_service_id g = y_service_id y /\ g_action g = action.
Proof.
  intros H Hst. apply transaction_commits in H as (w1 & H & Hend). unfold create_api_key in H.
  apply try_value_Ok in H as [H|(s & Es & H)]; [apply ret_Ok in H as [-> _]; discriminate|].
  step H as u w2 H2. apply set_tenant_start in H2 as (T2 & B2 & D2 & _); [|done..].
  step H as ag w3 H3. apply agent_by_id_eff in H3 as (K3 & _ & D3 & aid & Haid & _ & _); [|done..].
  destruct ag as [ag|]; [|apply ret_Ok in H as [-> _]; discriminate].
  step H as svc w4 H4. pose proof (in_tenant_kept _ _ _ K3 T2) as T3.
  destruct svc as [svc|r']; [|apply ret_Ok in H as [-> _]; by apply api_key_service_refusal in H4].
  apply (reads_in_tenant _ t) in H4 as (T4 & D4 & _); [|by apply reads_api_key_service|done].
  unfold bound at 1 in H. rewrite Haid, bind_ret in H. unfold bound at 1 in H.
  destruct (bind_uuid svc) as [sid|] eqn:Es'; [rewrite bind_ret in H|by rewrite bind_raise in H].
  rewrite (bound_str t), bind_ret in H by done. step H as grants w5 H5.
  apply select_eff in H5 as (K5 & _ & D5 & pol & Hp & ->). rewrite (it_policy _ _ T4) in Hp. apply Ok_inj in Hp. subst pol.
  destruct (issubset _ _) eqn:Esub; cbn [negb] in H; [|apply ret_Ok in H as [-> _]; discriminate].
  step H as st w6 H6. pose proof (still_settings w5) as D6. rewrite H6 in D6. cbn [snd] in D6.
  step H as code w7 H7. apply reads_keep in H7 as D7; [|apply reads_check_policy].
  destruct code as [code|]; [apply ret_Ok in H as [-> _]; discriminate|].
  step H as k w8 H8. apply random_key_eff in H8 as (_ & _ & D8 & _).
  step H as h w9 H9. apply ph_hash_eff in H9 as (_ & _ & D9 & Eh).
  step H as key_id w10 H10. apply reads_keep in H10 as D10; [|apply reads_new_id].
  step H as iid w11 H11. apply lift_Ok in H11 as [_ ->]. step H as now w12 H12. apply now_eff in H12 as (_ & _ & D12).
  step H as id w13 H13. apply bound_Ok in H13 as [_ ->].
  rewrite ?bind_ret in H. unfold bound at 1 in H. rewrite Haid, bind_ret in H. unfold bound at 1 in H. rewrite Es', bind_ret in H.
  unfold bound at 1 in H. rewrite Haid, bind_ret in H.
  apply (insert_and_emit _ _ _ _ _ (w_base w)) in H as (-> & Hx & Ek);
    [|by rewrite D12, D10, D9, D8, D7, D6, D5, D4, D3, D2].
  eexists aid, _, k. unfold named_id. rewrite Es. split; [done|]. rewrite (Hend Hx). split; [exact Ek|]. split; [reflexivity|].
  split; [split; [reflexivity|by exists (w_tick w8)]|]. do 4 (split; [reflexivity|]).
  intros action Ha. apply (issubset_In _ _ Esub) in Ha. apply in_map_iff in Ha as (g & Eg & Hg). apply filter_In in Hg as [Hin Hg].
  apply andb_true_iff in Hg as [_ Hg]. apply andb_true_iff in Hg as [Hg H3']. apply andb_true_iff in Hg as [H1' H2'].
  apply N.eqb_eq in H1', H2', H3'. exists g. cbn [tb_get permission_grants_t] in Hin. rewrite D4, D3, D2 in Hin. done.
Qed.

(** What an accepted rotation leaves. *)
Lemma rotate_api_key_Ok agent_id kid w r w' :
  transaction (rotate_api_key t agent_id kid) w = (Ok r, w') -> status_code r = 201%Z ->
  exists old y k, In old (service_api_keys (w_base w)) /\ bind_uuid kid = Some (y_id old) /\ y_tenant_id old = t /\
    service_api_keys (w_base w') = (service_api_keys (w_base w) ++ [y])%list /\
    response_field "plaintext_key" r = Some (JStr k) /\ holds_api_key k y /\ y_revoked_at y = None /\
    (y_tenant_id y, y_agent_id y, y_service_id y, y_allowed_actions y) =
    (t, y_agent_id old, y_service_id old, y_allowed_actions old).
Proof.
  intros H Hst. apply transaction_commits in H as (w1 & H & Hend). unfold rotate_api_key in H.
  apply try_value_Ok in H as [H|(s & Es & H)]; [apply ret_Ok in H as [-> _]; discriminate|].
  step H as u w2 H2. apply set_tenant_start in H2 as (T2 & B2 & D2 & _); [|done..].
  step H as old w3 H3. apply api_key_by_id_eff in H3 as (_ & D3 & aid & k0 & Haid & Hkid & ->); [|done].
  destruct (List.find _ _) as [old|] eqn:Ef; [|apply ret_Ok in H as [-> _]; discriminate].
  apply List.find_some in Ef as [Hin Hf]. apply andb_true_iff in Hf as [Hf Hf3]. apply andb_true_iff in Hf as [Hf1 Hf2].
  apply N.eqb_eq in Hf1, Hf2, Hf3.
  step H as expires w4 H4. apply reads_keep in H4 as D4; [|apply reads_raw_expiry].
  step H as k w8 H8. apply random_key_eff in H8 as (_ & _ & D8 & _).
  step H as h w9 H9. apply ph_hash_eff in H9 as (_ & _ & D9 & Eh).
  step H as key_id w10 H10. apply reads_keep in H10 as D10; [|apply reads_new_id].
  step H as iid w11 H11. apply lift_Ok in H11 as [_ ->]. step H as now w12 H12. apply now_eff in H12 as (_ & _ & D12).
  step H as id w13 H13. apply bound_Ok in H13 as [_ ->]. rewrite (bound_str t), bind_ret in H by done.
  unfold bound at 1 in H. rewrite Haid, bind_ret in H. step H as c w14 H14. apply reads_keep in H14 as D14; [|apply reads_rebound].
  unfold bound at 1 in H. rewrite Haid, bind_ret in H.
  apply (insert_and_emit _ _ _ _ _ (w_base w)) in H as (-> & Hx & Ek);
    [|by rewrite D14, D12, D10, D9, D8, D4, D3, D2].
  rewrite D2 in Hin. eexists old, _, k. split; [exact Hin|]. split; [by rewrite Hf3|]. split; [done|]. rewrite (Hend Hx).
  split; [exact Ek|]. split; [reflexivity|]. split; [split; [reflexivity|by exists (w_tick w8)]|]. split; [reflexivity|].
  cbn. by rewrite Hf1.
Qed.

(** A new API key is within the grants of its agent.  An accepted creation adds one key: of the agent
    the path names, in the tenant, not revoked, with the requested actions, each of which the agent
    had a grant on for the key's service; what is stored is the fingerprint and the hash of the
    plaintext in the answer.  An accepted rotation adds one key with the agent, the service and the
    actions of the key the path names, whether that one was revoked or not, and leaves that one as
    it is. *)
Theorem issued_api_key_bound agent_id w r w' :
  (forall body, transaction (create_api_key t agent_id body) w = (Ok r, w') -> status_code r = 201%Z ->
     exists aid y k, named_id (Admin._wire_id_to_uuid agent_id "agent_") = Some aid /\
       service_api_keys (w_base w') = (service_api_keys (w_base w) ++ [y])%list /\
       response_field "plaintext_key" r = Some (JStr k) /\ holds_api_key k y /\
       y_tenant_id y = t /\ y_agent_id y = aid /\ y_revoked_at y = None /\ y_allowed_actions y = yc_allowed_actions body /\
       forall action, In action (yc_allowed_actions body) ->
         exists g, In g (permission_grants (w_base w)) /\ g_tenant_id g = t /\ g_agent_id g = aid /\
           g_service_id g = y_service_id y /\ g_action g = action) /\
  (forall kid, transaction (rotate_api_key t agent_id kid) w = (Ok r, w') -> status_code r = 201%Z ->
     exists old y k, In old (service_api_keys (w_base w)) /\ bind_uuid kid = Some (y_id old) /\ y_tenant_id old = t /\
       service_api_keys (w_base w') = (service_api_keys (w_base w) ++ [y])%list /\
       response_field "plaintext_key" r = Some (JStr k) /\ holds_api_key k y /\ y_revoked_at y = None /\
       (y_tenant_id y, y_agent_id y, y_service_id y, y_allowed_actions y) =
       (t, y_agent_id old, y_service_id old, y_allowed_actions old)).
Proof. by split; intros ?; [apply create_api_key_Ok|apply rotate_api_key_Ok]. Qed.
End Laws.

Section Witnesses.
#[local] Existing Instance demo_env.
#[local] Existing Instance demo_vault.
#[local] Existing Instance toy_sha256.
#[local] Existing Instance demo_argon2.

Abbreviation demo_create_key := (transaction (create_api_key 1 (wire 6 "agent") demo_key_body)).

Lemma wire_key_unaddressable_witness :
  (forall r, fst (transaction (api_keys_handler 1 (GetApiKey (wire 6 "agent") (wire 10 "svckey"))) demo_world) = Ok r ->
     status_code r = 422%Z) /\
  w_base (snd (transaction (api_keys_handler 1 (GetApiKey (wire 6 "agent") (wire 10 "svckey"))) demo_world)) = demo_db.
Proof. exact (wire_key_unaddressable 1 eq_refl (GetApiKey (wire 6 "agent") (wire 10 "svckey")) 10 demo_world eq_refl). Defined.

Lemma issued_api_key_bound_witness :
  exists y k, service_api_keys (w_base (snd (demo_create_key demo_world))) = (service_api_keys demo_db ++ [y])%list /\
    holds_api_key k y /\ y_allowed_actions y = ["read"] /\
    exists g, In g (permission_grants demo_db) /\ g_tenant_id g = 1%N /\ g_service_id g = y_service_id y /\ g_action g = "read".
Proof.
  destruct (run_returns demo_create_key (fun r => Z.eqb (status_code r) 201) demo_world) as (r & Hr & Hrun); [vm_compute; reflexivity|].
  apply Z.eqb_eq in Hr.
  destruct (proj1 (issued_api_key_bound 1 eq_refl (wire 6 "agent") demo_world r _) demo_key_body Hrun Hr)
    as (aid & y & k & _ & Hk & _ & Hh & _ & _ & _ & Hact & Hg).
  exists y, k. split; [exact Hk|]. split; [exact Hh|]. split; [exact Hact|].
  destruct (Hg "read" (or_introl eq_refl)) as (g & Hin & Hten & _ & Hsvc & Hgact). exists g.
  split; [exact Hin|]. split; [exact Hten|]. split; [exact Hsvc|exact Hgact].
Defined.
End Witnesses.
