(* ===== verification/SignedRequest.v ===== *)
(** * Signed requests and CSRF tokens (admin_api/auth/signed_request.py, middleware/csrf.py)

    The Ed25519-signed JWT of the admin UI: its verification, the list of the
    identifiers already used, and the middleware that asks for it on every
    request that changes state.  The loaded public key is the argument
    [public_key], the method [verify] of the library's key object as a
    function of signature and message.  A verification reads the clock twice:
    [now] for the checks and [now'] when the store drops what has expired; the
    store's lock makes the second part atomic, so an interleaving of requests
    is a sequence of [insert]s.  The payload is read as [json.loads] reads bytes
    ([Payload]): every encoding it detects, every number and constant. *)

From Stdlib Require Import QArith_base Qround Qabs Qpower.
From S2P Require Import Prelude PyStr PyJson PyJsonFacts PyTime PyFloat WireIds AuditHash PyText PyCodecs Vault Tables Database Demo.

Local Open Scope string_scope.

Definition SIGNED_REQUEST_HEADER : string := "x-mintkey-signed-request".
Definition SAFE_METHODS : list string := ["GET"; "HEAD"; "OPTIONS"; "TRACE"].
Definition MAX_JWT_TTL_SECONDS : Z := 60.

(** [base64.urlsafe_b64decode] *)
Definition urlsafe_b64decode (s : string) : outcome string :=
  b64decode (unchars (map (fun c => if Ascii.eqb c "-" then "+" else if Ascii.eqb c "_" then "/" else c)%char (chars s))).

Definition _decode_b64url (s : string) : outcome string :=
  let padding := (4 - py_len s mod 4)%nat in
  urlsafe_b64decode (if Nat.eqb padding 4 then s else s +:+ unchars (repeat "="%char padding)).

(** ** The payload (json.loads on bytes)

    Text is a list of code points.  A number is an int, a finite float (its
    exact value), or one of the constants NaN, Infinity and -Infinity, which
    [json.loads] accepts.  The limit of the interpreter on nesting is left
    out. *)

Module Payload.

Abbreviation text := (list N) (only parsing).

Inductive num := Int (z : Z) | Float (q : Q) | NaN | Inf (negative : bool).

Inductive value :=
  | Null
  | Bool (b : bool)
  | Num (n : num)
  | Str (s : text)
  | Arr (l : list value)
  | Obj (kvs : list (text * value)).

Definition codes (s : string) : text := map code (chars s).

(** *** Decoding: [b.decode(detect_encoding(b), "surrogatepass")] *)

Definition is_cont (b : N) : bool := ((128 <=? b) && (b <=? 191))%N.

Fixpoint decode_utf8 (l : list N) : option text :=
  match l with
  | [] => Some []
  | a :: l1 =>
      if (a <? 128)%N then cons a <$> decode_utf8 l1
      else match l1 with
      | b :: l2 =>
          if ((194 <=? a) && (a <=? 223))%N then
            if is_cont b then cons ((a - 192) * 64 + (b - 128))%N <$> decode_utf8 l2 else None
          else match l2 with
          | c :: l3 =>
              if ((224 <=? a) && (a <=? 239))%N then
                if is_cont b && is_cont c && negb ((a =? 224) && (b <? 160))%N
                then cons ((a - 224) * 4096 + (b - 128) * 64 + (c - 128))%N <$> decode_utf8 l3 else None
              else match l3 with
              | d :: l4 =>
                  if ((240 <=? a) && (a <=? 244))%N && is_cont b && is_cont c && is_cont d
                     && negb ((a =? 240) && (b <? 144))%N && negb ((a =? 244) && (143 <? b))%N
                  then cons ((a - 240) * 262144 + (b - 128) * 4096 + (c - 128) * 64 + (d - 128))%N <$> decode_utf8 l4
                  else None
              | [] => None
              end
          | [] => None
          end
      | [] => None
      end
  end.

(** 16-bit and 32-bit units, the low byte first when [little]. *)
Fixpoint units16 (little : bool) (l : list N) : option (list N) :=
  match l with
  | [] => Some []
  | a :: b :: l' => cons (if little then a + 256 * b else 256 * a + b)%N <$> units16 little l'
  | _ => None
  end.

Fixpoint units32 (little : bool) (l : list N) : option text :=
  match l with
  | [] => Some []
  | a :: b :: c :: d :: l' =>
      let u := (if little then a + 256 * (b + 256 * (c + 256 * d)) else d + 256 * (c + 256 * (b + 256 * a)))%N in
      if (u <=? 1114111)%N then cons u <$> units32 little l' else None
  | _ => None
  end.

Definition is_high (u : N) : bool := ((55296 <=? u) && (u <=? 56319))%N.
Definition is_low (u : N) : bool := ((56320 <=? u) && (u <=? 57343))%N.
Definition pair_up (h l : N) : N := (65536 + (h - 55296) * 1024 + (l - 56320))%N.

(** Surrogate pairs become one character, other surrogates stay. *)
Fixpoint join_pairs (l : list N) : text :=
  match l with
  | h :: ((u :: l') as rest) => if is_high h && is_low u then pair_up h u :: join_pairs l' else h :: join_pairs rest
  | _ => l
  end.

Definition decode_utf16 (little : bool) (l : list N) : option text := join_pairs <$> units16 little l.

Definition decode (b : list N) : option text :=
  match b with
  | 0%N :: 0%N :: 254%N :: 255%N :: l => units32 false l
  | 255%N :: 254%N :: 0%N :: 0%N :: l => units32 true l
  | 254%N :: 255%N :: l => decode_utf16 false l
  | 255%N :: 254%N :: l => decode_utf16 true l
  | 239%N :: 187%N :: 191%N :: l => decode_utf8 l
  | 0%N :: 0%N :: _ :: _ :: _ => units32 false b
  | 0%N :: _ :: _ :: _ :: _ => decode_utf16 false b
  | _ :: 0%N :: 0%N :: 0%N :: _ => units32 true b
  | _ :: 0%N :: _ :: _ :: _ => decode_utf16 true b
  | [0%N; _] => decode_utf16 false b
  | [_; 0%N] => decode_utf16 true b
  | _ => decode_utf8 b
  end.

(** *** Numbers *)

(** [float(x)] of the text of a decimal fraction: the nearest binary64, subnormal numbers included;
    what is too large is an infinity. *)
Definition round64 (x : Q) : num :=
  match Qcompare x 0 with
  | Eq => Float 0
  | s =>
      let a := Qabs x in
      let u := pow2 (Z.max (ilog2 a) (-1022) - 52) in
      let r := Qred (inject_Z (rne (a / u)) * u) in
      let negative := match s with Lt => true | _ => false end in
      if Qle_bool (pow2 1024) r then Inf negative else Float (if negative then Qred (- r) else r)
  end.

Definition is_digit (c : N) : bool := ((48 <=? c) && (c <=? 57))%N.

(** Decimal digits: the number they spell, how many they are, and the rest. *)
Fixpoint digits_of (acc : N) (n : nat) (l : text) : N * nat * text :=
  match l with
  | c :: l' => if is_digit c then digits_of (10 * acc + (c - 48))%N (S n) l' else (acc, n, l)
  | [] => (acc, n, l)
  end.

(** The integer part: a zero, or digits that do not begin with one. *)
Definition int_part (l : text) : option (N * nat * text) :=
  match l with
  | 48%N :: l' => Some (0%N, 1%nat, l')
  | c :: _ => if is_digit c then Some (digits_of 0 0 l) else None
  | [] => None
  end.

(** The fraction and the exponent, if digits follow. *)
Definition frac_part (l : text) : option (N * nat) * text :=
  match l with
  | 46%N :: l' => let '(n, k, r) := digits_of 0 0 l' in if (k =? 0)%nat then (None, l) else (Some (n, k), r)
  | _ => (None, l)
  end.

Definition exp_part (l : text) : option Z * text :=
  match l with
  | c :: l' =>
      if ((c =? 101) || (c =? 69))%N then
        let '(sign, l'') := match l' with
                            | 45%N :: r => ((-1)%Z, r) | 43%N :: r => (1%Z, r) | _ => (1%Z, l') end in
        let '(n, k, r) := digits_of 0 0 l'' in
        if (k =? 0)%nat then (None, l) else (Some (sign * Z.of_N n)%Z, r)
      else (None, l)
  | [] => (None, l)
  end.

(** [int(s)] refuses more than 4300 digits. *)
Definition INT_MAX_STR_DIGITS : nat := 4300.

Definition decimal (n : N) (frac : option (N * nat)) (e : Z) : Q :=
  let '(f, k) := default (0%N, 0%nat) frac in
  inject_Z (Z.of_N n * 10 ^ Z.of_nat k + Z.of_N f) * Qpower 10 (e - Z.of_nat k).

Definition negate (n : num) : num :=
  match n with Int z => Int (- z) | Float q => Float (Qred (- q)) | NaN => NaN | Inf s => Inf (negb s) end.

Definition parse_number (l : text) : option (num * text) :=
  let '(negative, l) := match l with 45%N :: l' => (true, l') | _ => (false, l) end in
  '(n, k, r) ← int_part l;
  let '(frac, r) := frac_part r in
  let '(e, r) := exp_part r in
  v ← match frac, e with
      | None, None => if (INT_MAX_STR_DIGITS <? k)%nat then None else Some (Int (Z.of_N n))
      | _, _ => Some (round64 (decimal n frac (default 0%Z e)))
      end;
  Some ((if negative : bool then negate v else v), r).

(** *** Texts and structure *)

Definition is_ws (c : N) : bool := ((c =? 32) || (c =? 9) || (c =? 10) || (c =? 13))%N.
Fixpoint skip_ws (l : text) : text :=
  match l with
  | c :: l' => if is_ws c then skip_ws l' else l
  | [] => []
  end.

Definition hex4 (l : text) : option (N * text) :=
  match l with
  | a :: b :: c :: d :: l' =>
      let h x := if (x <? 256)%N then hexd (chr x) else None in
      match h a, h b, h c, h d with
      | Some a, Some b, Some c, Some d => Some (a * 4096 + b * 256 + c * 16 + d, l')%N
      | _, _, _, _ => None
      end
  | _ => None
  end.

Definition unescaped (e : N) : option N :=
  if (e =? 34)%N then Some 34%N else if (e =? 92)%N then Some 92%N else if (e =? 47)%N then Some 47%N
  else if (e =? 98)%N then Some 8%N else if (e =? 102)%N then Some 12%N else if (e =? 110)%N then Some 10%N
  else if (e =? 114)%N then Some 13%N else if (e =? 116)%N then Some 9%N else None.

(** The body of a string up to its closing quote; an escaped surrogate pair is one character. *)
Fixpoint parse_str (fuel : nat) (l acc : text) : option (text * text) :=
  match fuel with
  | O => None
  | S f =>
      match l with
      | [] => None
      | c :: l' =>
          if (c =? 34)%N then Some (rev acc, l')
          else if (c =? 92)%N then
            match l' with
            | [] => None
            | e :: l'' =>
                if (e =? 117)%N then
                  '(u, r) ← hex4 l'';
                  match r with
                  | 92%N :: 117%N :: r' =>
                      if is_high u then
                        '(v, r'') ← hex4 r';
                        if is_low v then parse_str f r'' (pair_up u v :: acc) else parse_str f r (u :: acc)
                      else parse_str f r (u :: acc)
                  | _ => parse_str f r (u :: acc)
                  end
                else u ← unescaped e; parse_str f l'' (u :: acc)
            end
          else if (c <? 32)%N then None
          else parse_str f l' (c :: acc)
      end
  end.

Definition expect (c : N) (l : text) : option text :=
  match skip_ws l with
  | x :: l' => if (x =? c)%N then Some l' else None
  | [] => None
  end.

(** The constant, when the text begins with it. *)
Fixpoint after_word (w l : text) : option text :=
  match w, l with
  | [], _ => Some l
  | c :: w', x :: l' => if (c =? x)%N then after_word w' l' else None
  | _, [] => None
  end.

Definition constants : list (string * value) :=
  [("null", Null); ("true", Bool true); ("false", Bool false); ("NaN", Num NaN); ("Infinity", Num (Inf false));
   ("-Infinity", Num (Inf true))].

Fixpoint parse_constant (l : text) (cs : list (string * value)) : option (value * text) :=
  match cs with
  | [] => None
  | (w, v) :: cs' => match after_word (codes w) l with Some r => Some (v, r) | None => parse_constant l cs' end
  end.

Fixpoint parse_value (fuel : nat) (l : text) {struct fuel} : option (value * text) :=
  match fuel with
  | O => None
  | S f =>
      let l := skip_ws l in
      match l with
      | [] => None
      | c :: l' =>
          if (c =? 34)%N then '(s, r) ← parse_str f l' []; Some (Str s, r)
          else if (c =? 91)%N then
            match expect 93 l' with
            | Some r => Some (Arr [], r)
            | None => '(es, r) ← parse_elems f l'; Some (Arr es, r)
            end
          else if (c =? 123)%N then
            match expect 125 l' with
            | Some r => Some (Obj [], r)
            | None => '(ms, r) ← parse_members f l'; Some (Obj ms, r)
            end
          else match parse_constant l constants with
               | Some vr => Some vr
               | None => '(n, r) ← parse_number l; Some (Num n, r)
               end
      end
  end
with parse_elems (fuel : nat) (l : text) {struct fuel} : option (list value * text) :=
  match fuel with
  | O => None
  | S f =>
      '(v, r) ← parse_value f l;
      match expect 44 r with
      | Some r' => '(vs, r'') ← parse_elems f r'; Some (v :: vs, r'')
      | None => r' ← expect 93 r; Some ([v], r')
      end
  end
with parse_members (fuel : nat) (l : text) {struct fuel} : option (list (text * value) * text) :=
  match fuel with
  | O => None
  | S f =>
      r0 ← expect 34 l;
      '(k, r1) ← parse_str f r0 [];
      r2 ← expect 58 r1;
      '(v, r) ← parse_value f r2;
      match expect 44 r with
      | Some r' => '(vs, r'') ← parse_members f r'; Some ((k, v) :: vs, r'')
      | None => r' ← expect 125 r; Some ([(k, v)], r')
      end
  end.

(** [json.loads(b)]: every level of the recursion but a value and its members' list consumes a
    character, so twice the length is fuel enough. *)
Definition loads_bytes (b : string) : option value :=
  l ← decode (codes b);
  '(v, r) ← parse_value (S (2 * length l)) l;
  match skip_ws r with [] => Some v | _ => None end.

(** [payload.get(k, dflt)]: the last of equal keys is the one that counts. *)
Definition get (k : string) (dflt : value) (kvs : list (text * value)) : value :=
  default dflt (snd <$> List.find (fun kv => bool_decide (fst kv = codes k)) (rev kvs)).

(** *** Python's operations on the values *)

Definition truthy (v : value) : bool :=
  match v with
  | Null | Bool false => false
  | Num (Int z) => negb (Z.eqb z 0)
  | Num (Float q) => negb (Qeq_bool q 0)
  | Str s => negb (length s =? 0)%nat
  | Arr l => negb (length l =? 0)%nat
  | Obj kvs => negb (length kvs =? 0)%nat
  | Bool true | Num NaN | Num (Inf _) => true
  end.

(** The values that compare with numbers. *)
Definition number (v : value) : option num :=
  match v with Num n => Some n | Bool b => Some (Int (Z.b2z b)) | _ => None end.

(** [n > x] and [n <= x] of a finite [x]: neither holds of NaN. *)
Definition gt (n : num) (x : Q) : bool :=
  match n with
  | Int z => negb (Qle_bool (inject_Z z) x)
  | Float q => negb (Qle_bool q x)
  | NaN => false
  | Inf negative => negb negative
  end.
Definition le (n : num) (x : Q) : bool :=
  match n with
  | Int z => Qle_bool (inject_Z z) x
  | Float q => Qle_bool q x
  | NaN => false
  | Inf negative => negative
  end.

(** [a - b]: exact for two ints, else of floats; an int too large for a float raises. *)
Definition to_float (n : num) : outcome num :=
  match n with Int z => q ← float_of_int z; Ok (Float q) | _ => Ok n end.

Definition float_minus (a b : num) : num :=
  match a, b with
  | NaN, _ | _, NaN => NaN
  | Inf s, Inf s' => if Bool.eqb s s' then NaN else Inf s
  | Inf s, _ => Inf s
  | _, Inf s => Inf (negb s)
  | Float x, Float y => round64 (x - y)
  | _, _ => NaN
  end.

Definition minus (a b : num) : outcome num :=
  match a, b with
  | Int x, Int y => Ok (Int (x - y))
  | _, _ => x ← to_float a; y ← to_float b; Ok (float_minus x y)
  end.

(** A key of a dict: [True], 1 and 1.0 are one key; NaN is one object of the decoder, and so one
    key. *)
Inductive dict_key := KText (s : text) | KNumber (q : Q) | KNaN | KInf (negative : bool).

#[global] Instance Q_eq_decision : EqDecision Q.
Proof. solve_decision. Defined.
#[global] Instance dict_key_eq_dec : EqDecision dict_key.
Proof. solve_decision. Defined.

(** [hash(v)]: lists and dicts have none. *)
Definition hashable (v : value) : option dict_key :=
  match v with
  | Str s => Some (KText s)
  | Bool b => Some (KNumber (inject_Z (Z.b2z b)))
  | Num (Int z) => Some (KNumber (inject_Z z))
  | Num (Float q) => Some (KNumber (Qred q))
  | Num NaN => Some KNaN
  | Num (Inf s) => Some (KInf s)
  | _ => None
  end.

End Payload.

(** ** The list of used identifiers *)

Module InMemoryJtiStore.

Definition t := list (Payload.dict_key * Payload.num).
Definition init : t := [].

(** What is kept has [v > now]. *)
Definition cleanup (now : Q) (store : t) : t := List.filter (fun kv => Payload.gt (snd kv) now) store.

Definition mem (k : Payload.dict_key) (store : t) : bool := existsb (fun kv => bool_decide (fst kv = k)) store.

(** The cleaned store stays when the identifier cannot be looked up. *)
Definition insert (v : Payload.value) (expires_at : Payload.num) (now : Q) (store : t) : outcome bool * t :=
  let store := cleanup now store in
  match Payload.hashable v with
  | None => (Raise (TypeError "unhashable type"), store)
  | Some k => if mem k store then (Ok false, store) else (Ok true, (store ++ [(k, expires_at)])%list)
  end.

End InMemoryJtiStore.

Definition public_key_t := string -> string -> bool.

(** The result and the store; every exception is [bad_format]. *)
Definition verify_signed_request (now now' : Q) (token : string) (public_key : public_key_t)
    (jti_store : InMemoryJtiStore.t) : (bool * string) * InMemoryJtiStore.t :=
  let fail c := ((false, c), jti_store) in
  match py_split "."%char token with
  | [header_b64; payload_b64; sig_b64] =>
      let signing_input := utf8 (header_b64 +:+ "." +:+ payload_b64) in
      match _decode_b64url sig_b64 with
      | Raise _ => fail "bad_format"
      | Ok sig =>
          if negb (public_key sig signing_input) then fail "bad_signature"
          else
            match _decode_b64url payload_b64 with
            | Raise _ => fail "bad_format"
            | Ok b =>
                match Payload.loads_bytes b with
                | Some (Payload.Obj payload) =>
                    let iat := Payload.get "iat" (Payload.Num (Payload.Int 0)) payload in
                    let exp := Payload.get "exp" (Payload.Num (Payload.Int 0)) payload in
                    match Payload.number exp with
                    | None => fail "bad_format"
                    | Some exp =>
                        if Payload.le exp now then fail "expired"
                        else
                          match iat ← match Payload.number iat with
                                      | Some iat => Ok iat
                                      | None => Raise (TypeError "unsupported operand type(s) for -")
                                      end; Payload.minus exp iat with
                          | Raise _ => fail "bad_format"
                          | Ok ttl =>
                              if Payload.gt ttl (inject_Z MAX_JWT_TTL_SECONDS) then fail "ttl_too_long"
                              else
                                let jti := Payload.get "jti" Payload.Null payload in
                                if negb (Payload.truthy jti) then fail "bad_format"
                                else
                                  match InMemoryJtiStore.insert jti exp now' jti_store with
                                  | (Raise _, store) => ((false, "bad_format"), store)
                                  | (Ok false, store) => ((false, "replay_detected"), store)
                                  | (Ok true, store) => ((true, ""), store)
                                  end
                          end
                    end
                | _ => fail "bad_format"
                end
            end
      end
  | _ => fail "bad_format"
  end.

(** ** The middleware *)

Inductive decision := CallNext | Refuse (r : response).

Definition refuse (code : string) : decision := Refuse (Response 401 (JObj [("code", JStr ("mintkey:" +:+ code))])).

(** A request as the middleware sees it: method, the header, and when it is verified. *)
Record attempt := Attempt { at_method : string; at_header : option string; at_now : Q; at_now' : Q }.

Module AdminUiSignedRequestMiddleware.
Section Dispatch.
Context `{E : Env}.

Definition dispatch (public_key : option public_key_t) (request : attempt) (store : InMemoryJtiStore.t)
    : decision * InMemoryJtiStore.t :=
  if existsb (String.eqb (at_method request)) SAFE_METHODS then (CallNext, store)
  else
    match public_key with
    | None =>
        if String.eqb (getenv "MINTKEY_ENV" "dev") "production" then (refuse "signed_request_required", store)
        else (CallNext, store)
    | Some key =>
        match at_header request with
        | None | Some "" => (refuse "signed_request_required", store)
        | Some token =>
            match verify_signed_request (at_now request) (at_now' request) token key store with
            | ((true, _), store) => (CallNext, store)
            | ((false, error_code), store) => (refuse error_code, store)
            end
        end
    end.

(** The requests in the order in which they reach the store. *)
Fixpoint serve (public_key : option public_key_t) (requests : list attempt) (store : InMemoryJtiStore.t)
    : list decision * InMemoryJtiStore.t :=
  match requests with
  | [] => ([], store)
  | r :: rs =>
      let '(d, store) := dispatch public_key r store in
      let '(ds, store) := serve public_key rs store in
      (d :: ds, store)
  end.

End Dispatch.
End AdminUiSignedRequestMiddleware.

(** ** The double-submit cookie (middleware/csrf.py) *)

Definition CSRF_COOKIE : string := "csrf_token".
Definition CSRF_HEADER : string := "x-mintkey-csrf".

(** The paths the application registers: the handlers decorated with [no_csrf], by module and name,
    then those of [create_app]. *)
Definition _CSRF_EXEMPT_PATHS : list string :=
  ["/auth/internal_login"; "/auth/oidc_callback"; "/proxy/proxy_call";
   "/v1/auth/internal-login"; "/v1/auth/logout"; "/v1/auth/oidc/callback"; "/v1/internal"; "/v1/internal/oauth2";
   "/v1/proxy/call"].

Module CsrfMiddleware.

(** [hmac.compare_digest] of two strings. *)
Definition compare_digest (a b : string) : outcome bool :=
  if forallb (fun c => (code c <? 128)%N) (chars a) && forallb (fun c => (code c <? 128)%N) (chars b)
  then Ok (String.eqb a b)
  else Raise (TypeError "comparing strings with non-ASCII characters is not supported").

Definition exempt (path : string) : bool :=
  existsb (fun p => String.eqb path p || startswith path (p +:+ "/")) _CSRF_EXEMPT_PATHS.

Definition csrf_refusal (code : string) : decision := Refuse (Response 403 (JObj [("code", JStr code)])).

Definition given (s : option string) : bool := match s with None | Some "" => false | Some _ => true end.

Definition dispatch (method path : string) (cookie_token header_token : option string) : outcome decision :=
  if existsb (String.eqb method) SAFE_METHODS then Ok CallNext
  else if exempt path then Ok CallNext
  else
    match cookie_token, header_token with
    | Some c, Some h =>
        if negb (given cookie_token) || negb (given header_token) then Ok (csrf_refusal "mintkey:csrf_missing")
        else
          same ← compare_digest c h;
          Ok (if same : bool then CallNext else csrf_refusal "mintkey:csrf_invalid")
    | _, _ => Ok (csrf_refusal "mintkey:csrf_missing")
    end.

End CsrfMiddleware.

(** ** The fuel of the payload's reader *)

Module PayloadFuel.
Import Payload.

Lemma skip_ws_shorter l : (length (skip_ws l) <= length l)%nat.
Proof. induction l as [|c l IH]; [done|]. cbn [skip_ws]. destruct (is_ws c); cbn [length]; lia. Qed.

Lemma expect_shorter c l r : expect c l = Some r -> (length r < length l)%nat.
Proof.
  unfold expect. pose proof (skip_ws_shorter l) as H. destruct (skip_ws l) as [|x l']; [done|].
  destruct (x =? c)%N; [|done]. intros [= <-]. cbn [length] in H. lia.
Qed.

Lemma hex4_shorter l u r : hex4 l = Some (u, r) -> (length r < length l)%nat.
Proof.
  destruct l as [|a [|b [|c [|d l]]]]; [done..|]. unfold hex4. cbn zeta.
  repeat case_match; intros [= <- <-]; cbn [length]; lia.
Qed.

(** Every step of [parse_str] leaves a shorter text. *)
Ltac str_cases :=
  repeat (match goal with
  | |- context [hex4 ?x] => destruct (hex4 x) as [[? ?]|] eqn:?
  | |- context [unescaped ?x] => destruct (unescaped x)
  | |- context [match ?x with _ => _ end] => destruct x eqn:?
  | H : hex4 _ = Some (_, _) |- _ => apply hex4_shorter in H
  end; cbn [mbind option_bind length] in * ).

Lemma parse_str_shorter f l acc s r : parse_str f l acc = Some (s, r) -> (length r < length l)%nat.
Proof.
  revert l acc. induction f as [|f IH]; intros l acc; [done|]. cbn [parse_str mbind option_bind].
  str_cases; try done; try (intros [= <- <-]; lia); intros H; apply IH in H; cbn [length] in H; lia.
Qed.

Lemma parse_str_fuel f f' l acc : (length l < f)%nat -> (length l < f')%nat -> parse_str f l acc = parse_str f' l acc.
Proof.
  revert f' l acc. induction f as [|f IH]; intros [|f'] l acc; try lia. cbn [parse_str mbind option_bind]. intros H H'.
  str_cases; try done; apply IH; cbn [length]; lia.
Qed.

Lemma digits_shorter l acc n m k r : digits_of acc n l = (m, k, r) -> (length r <= length l)%nat.
Proof.
  revert acc n. induction l as [|c l IH]; intros acc n; cbn [digits_of]; [by intros [= _ _ <-]|].
  destruct (is_digit c); [intros H; apply IH in H; cbn [length]; lia|by intros [= _ _ <-]].
Qed.

Lemma int_part_shorter l n k r : int_part l = Some (n, k, r) -> (length r < length l)%nat.
Proof.
  assert (Hd : forall c l', is_digit c = true -> Some (digits_of 0 0 (c :: l')) = Some (n, k, r) -> (length r < length (c :: l'))%nat).
  { intros c l' Hc [= H]. cbn [digits_of] in H. rewrite Hc in H. apply digits_shorter in H. cbn [length]. lia. }
  destruct l as [|c l']; [done|]. unfold int_part.
  destruct (N.eq_dec c 48%N) as [->|Hne]; [intros [= _ _ <-]; cbn [length]; lia|].
  intros H. apply (Hd c l'); destruct (is_digit c) eqn:E; try done; repeat case_match; congruence.
Qed.

Lemma frac_part_shorter l v r : frac_part l = (v, r) -> (length r <= length l)%nat.
Proof.
  unfold frac_part. repeat case_match; intros [= <- <-]; subst; try done.
  match goal with H : digits_of _ _ _ = _ |- _ => apply digits_shorter in H end. cbn [length]. lia.
Qed.

Lemma exp_part_shorter l v r : exp_part l = (v, r) -> (length r <= length l)%nat.
Proof.
  unfold exp_part. destruct l as [|c l']; [by intros [= <- <-]|].
  destruct (_ || _); [|by intros [= <- <-]].
  destruct (match l' with 45%N :: r => _ | _ => _ end) as [sg l''] eqn:Es.
  assert (Hl : (length l'' <= length l')%nat) by (repeat case_match; injection Es as <- <-; subst; cbn [length]; lia).
  destruct (digits_of 0 0 l'') as [[n k] r'] eqn:Ed. apply digits_shorter in Ed.
  destruct (k =? 0)%nat; intros [= <- <-]; cbn [length]; lia.
Qed.

Lemma parse_number_shorter l n r : parse_number l = Some (n, r) -> (length r < length l)%nat.
Proof.
  unfold parse_number. destruct (match l with 45%N :: l' => _ | _ => _ end) as [neg l0] eqn:En.
  assert (Hl : (length l0 <= length l)%nat) by (repeat case_match; injection En as <- <-; subst; cbn [length]; lia).
  destruct (int_part l0) as [[[m k] r1]|] eqn:Ei; [|done]. apply int_part_shorter in Ei. cbn [mbind option_bind].
  destruct (frac_part r1) as [fr r2] eqn:Ef. apply frac_part_shorter in Ef.
  destruct (exp_part r2) as [e r3] eqn:Ee. apply exp_part_shorter in Ee.
  destruct (match fr, e with None, None => _ | _, _ => _ end); [|done]. cbn [mbind option_bind]. intros [= _ <-]. lia.
Qed.

Lemma after_word_shorter w l r : after_word w l = Some r -> length l = (length w + length r)%nat.
Proof.
  revert l. induction w as [|c w IH]; intros [|x l]; cbn [after_word]; try done; try (by intros [= <-]).
  destruct (c =? x)%N; [|done]. intros H. apply IH in H. cbn [length]. lia.
Qed.

Lemma constant_shorter l v r : parse_constant l constants = Some (v, r) -> (length r < length l)%nat.
Proof.
  assert (Hf : Forall (fun wv => codes (fst wv) <> []) constants) by (repeat constructor; discriminate).
  induction Hf as [|[w v'] cs Hw Hf IH]; [done|]. cbn [parse_constant fst] in *.
  destruct (after_word (codes w) l) as [r'|] eqn:E; [|done]. intros [= _ <-].
  apply after_word_shorter in E. destruct (codes w); [done|]. cbn [length] in E. lia.
Qed.

(** What is read is not empty, whatever the fuel. *)
Lemma parse_shorter f :
  (forall l v r, parse_value f l = Some (v, r) -> (length r < length l)%nat) /\
  (forall l v r, parse_elems f l = Some (v, r) -> (length r < length l)%nat) /\
  (forall l v r, parse_members f l = Some (v, r) -> (length r < length l)%nat).
Proof.
  induction f as [|f (IHv & IHe & IHm)]; [done|]. split; [|split]; intros l v r.
  - cbn [parse_value]. pose proof (skip_ws_shorter l) as Hw. destruct (skip_ws l) as [|c l']; [done|]. cbn [length] in Hw.
    assert (Hs : forall A (k : A -> value) (x : option (A * text)) n, (forall y q, x = Some (y, q) -> (length q < n)%nat) ->
      ('(y, q) ← x; Some (k y, q)) = Some (v, r) -> (length r < n)%nat).
    { intros A k [[y q]|] n Hx; [|done]. cbn [mbind option_bind]. intros [= _ <-]. by eapply Hx. }
    destruct (c =? 34)%N; [intros H; apply (Hs _ Str _ (length l')) in H; [lia|intros y q; apply parse_str_shorter]|].
    destruct (c =? 91)%N.
    { destruct (expect 93 l') eqn:E; [intros [= _ <-]; apply expect_shorter in E; lia|].
      intros H. apply (Hs _ Arr _ (length l')) in H; [lia|apply IHe]. }
    destruct (c =? 123)%N.
    { destruct (expect 125 l') eqn:E; [intros [= _ <-]; apply expect_shorter in E; lia|].
      intros H. apply (Hs _ Obj _ (length l')) in H; [lia|apply IHm]. }
    destruct (parse_constant _ _) as [[v' r']|] eqn:Ec.
    + intros [= _ <-]. apply constant_shorter in Ec. cbn [length] in Ec. lia.
    + intros H. apply (Hs _ Num _ (length (c :: l'))) in H; [cbn [length] in H; lia|apply parse_number_shorter].
  - cbn [parse_elems]. destruct (parse_value f l) as [[x q]|] eqn:Ex; [|done]. apply IHv in Ex. cbn [mbind option_bind].
    destruct (expect 44 q) as [q'|] eqn:Eq.
    + apply expect_shorter in Eq. destruct (parse_elems f q') as [[xs q'']|] eqn:Ee; [|done]. apply IHe in Ee.
      cbn [mbind option_bind]. intros [= _ <-]. lia.
    + destruct (expect 93 q) as [q'|] eqn:Eq'; [|done]. apply expect_shorter in Eq'. intros [= _ <-]. lia.
  - cbn [parse_members]. destruct (expect 34 l) as [r0|] eqn:E0; [|done]. apply expect_shorter in E0. cbn [mbind option_bind].
    destruct (parse_str f r0 []) as [[k r1]|] eqn:E1; [|done]. apply parse_str_shorter in E1. cbn [mbind option_bind].
    destruct (expect 58 r1) as [r2|] eqn:E2; [|done]. apply expect_shorter in E2. cbn [mbind option_bind].
    destruct (parse_value f r2) as [[x q]|] eqn:Ex; [|done]. apply IHv in Ex. cbn [mbind option_bind].
    destruct (expect 44 q) as [q'|] eqn:Eq.
    + apply expect_shorter in Eq. destruct (parse_members f q') as [[xs q'']|] eqn:Ee; [|done]. apply IHm in Ee.
      cbn [mbind option_bind]. intros [= _ <-]. lia.
    + destruct (expect 125 q) as [q'|] eqn:Eq'; [|done]. apply expect_shorter in Eq'. intros [= _ <-]. lia.
Qed.

(** Fuel of twice the length and one is enough: more gives the same result. *)
Lemma parse_fuel f : forall f',
  (forall l, (2 * length l + 1 <= f)%nat -> (2 * length l + 1 <= f')%nat -> parse_value f l = parse_value f' l) /\
  (forall l, (2 * length l + 2 <= f)%nat -> (2 * length l + 2 <= f')%nat -> parse_elems f l = parse_elems f' l) /\
  (forall l, (2 * length l + 2 <= f)%nat -> (2 * length l + 2 <= f')%nat -> parse_members f l = parse_members f' l).
Proof.
  induction f as [|f IH]; intros [|f']; try (split; [|split]; intros; lia).
  destruct (IH f') as (IHv & IHe & IHm). split; [|split]; intros l H H'.
  - cbn [parse_value]. pose proof (skip_ws_shorter l) as Hw. destruct (skip_ws l) as [|c l']; [done|]. cbn [length] in Hw.
    rewrite (parse_str_fuel f f'), IHe, IHm by lia. done.
  - cbn [parse_elems]. rewrite (IHv l) by lia. destruct (parse_value f' l) as [[x q]|] eqn:Ex; [|done].
    apply (parse_shorter f') in Ex. cbn [mbind option_bind].
    destruct (expect 44 q) as [q'|] eqn:Eq; [|done]. apply expect_shorter in Eq. by rewrite IHe by lia.
  - cbn [parse_members]. destruct (expect 34 l) as [r0|] eqn:E0; [|done]. apply expect_shorter in E0. cbn [mbind option_bind].
    rewrite (parse_str_fuel f f') by lia. destruct (parse_str f' r0 []) as [[k r1]|] eqn:E1; [|done].
    apply parse_str_shorter in E1. cbn [mbind option_bind].
    destruct (expect 58 r1) as [r2|] eqn:E2; [|done]. apply expect_shorter in E2. cbn [mbind option_bind].
    rewrite (IHv r2) by lia. destruct (parse_value f' r2) as [[x q]|] eqn:Ex; [|done].
    apply (parse_shorter f') in Ex. cbn [mbind option_bind].
    destruct (expect 44 q) as [q'|] eqn:Eq; [|done]. apply expect_shorter in Eq. by rewrite IHm by lia.
Qed.

(** So [loads_bytes] does not depend on its fuel. *)
Corollary loads_bytes_fuel f b l : decode (codes b) = Some l -> (S (2 * length l) <= f)%nat ->
  loads_bytes b = ('(v, r) ← parse_value f l; match skip_ws r with [] => Some v | _ => None end).
Proof.
  intros Hd Hf. unfold loads_bytes. rewrite Hd. cbn [mbind option_bind].
  by rewrite (proj1 (parse_fuel (S (2 * length l)) f) l) by lia.
Qed.

End PayloadFuel.

(** ** Encoding and decoding *)

(** Base 64 for URLs without its padding, as a JWT has it. *)
Definition b64url (b : string) : string :=
  unchars (List.filter (fun c => negb (Ascii.eqb c "=")) (chars (urlsafe_b64encode b))).

Definition url_char (c : ascii) : ascii := if Ascii.eqb c "+" then "-" else if Ascii.eqb c "/" then "_" else c.
Definition std_char (c : ascii) : ascii := if Ascii.eqb c "-" then "+" else if Ascii.eqb c "_" then "/" else c.

(** What the encoder writes, padding aside: complete groups, then two or three characters. *)
Definition unpadded (l : list ascii) : list ascii := List.filter (fun c => negb (Ascii.eqb c "=")) l.

Lemma unpadded_char n l : (n < 64)%N -> unpadded (b64_char n :: l) = b64_char n :: unpadded l.
Proof. intros H. apply b64_char_spec in H as (_ & H & _). unfold unpadded. cbn [List.filter]. by rewrite H. Qed.

Definition padding_of (n : nat) : list ascii :=
  let padding := (4 - n mod 4)%nat in if Nat.eqb padding 4 then [] else repeat "="%char padding.

Lemma padding_step n : padding_of (S (S (S (S n)))) = padding_of n.
Proof.
  unfold padding_of. replace (S (S (S (S n))) mod 4)%nat with (n mod 4)%nat; [done|].
  replace (S (S (S (S n)))) with (n + 1 * 4)%nat by lia. by rewrite Nat.Div0.mod_add.
Qed.

Lemma repad l : (unpadded (b64encode_list l) ++ padding_of (length (unpadded (b64encode_list l))))%list = b64encode_list l.
Proof.
  induction l as [|a|a b|a b c l IH] using b64_list_ind; [done|..]; cbn [b64encode_list].
  - destruct (b64_digits a a) as (A1 & _ & _ & _). rewrite !unpadded_char; [done|by apply b64_char_lt64|done].
  - destruct (b64_digits a b) as (A1 & A2 & _ & _). rewrite !unpadded_char; [done|by apply b64_char_lt64|done..].
  - destruct (b64_digits a b) as (A1 & A2 & _ & _). destruct (b64_digits b c) as (_ & _ & A3 & _).
    destruct (b64_digits c c) as (_ & _ & _ & A4). rewrite !unpadded_char by done.
    cbn [length app]. rewrite padding_step. by rewrite IH.
Qed.

Definition url_char_ok (n : N) : bool :=
  let c := b64_char n in
  Ascii.eqb (std_char (url_char c)) c && negb (Ascii.eqb (url_char c) "=") && negb (Ascii.eqb (url_char c) ".").

Lemma url_char_spec c : b64_class c ->
  std_char (url_char c) = c /\ Ascii.eqb (url_char c) "=" = Ascii.eqb c "=" /\ Ascii.eqb (url_char c) "." = false.
Proof.
  intros [->|(n & Hn & ->)]; [done|]. pose proof (b64_char_spec n Hn) as (_ & He & _).
  apply (N_below_check url_char_ok 64) in Hn; [|vm_compute; reflexivity].
  unfold url_char_ok in Hn. rewrite !andb_true_iff, !negb_true_iff, Ascii.eqb_eq in Hn. destruct Hn as [[H1 H2] H3].
  by rewrite He.
Qed.

Lemma b64url_chars b : chars (b64url b) = map url_char (unpadded (b64encode_list (chars b))).
Proof.
  unfold b64url, urlsafe_b64encode, b64encode. rewrite !chars_unchars.
  pose proof (b64_classes (chars b)) as H. fold url_char. change (fun c : ascii => if Ascii.eqb c "+" then "-"%char
    else if Ascii.eqb c "/" then "_"%char else c) with url_char.
  induction H as [|c l Hc H IH]; [done|]. apply url_char_spec in Hc as (_ & He & _).
  unfold unpadded. cbn [List.filter map]. rewrite He. destruct (Ascii.eqb c "="); cbn [negb map]; [exact IH|].
  f_equal. exact IH.
Qed.

(** Decoding what was encoded without padding gives the bytes back. *)
Lemma decode_b64url b : _decode_b64url (b64url b) = Ok b.
Proof.
  assert (Hp : forall s, (if Nat.eqb (4 - py_len s mod 4) 4 then s else s +:+ unchars (repeat "="%char (4 - py_len s mod 4)))
    = unchars (chars s ++ padding_of (length (chars s)))).
  { intros s. unfold padding_of, py_len. destruct (Nat.eqb _ 4).
    - by rewrite app_nil_r, unchars_chars.
    - by rewrite unchars_app, unchars_chars. }
  unfold _decode_b64url. cbn zeta. rewrite Hp. unfold urlsafe_b64decode. rewrite chars_unchars.
  rewrite <- (b64_roundtrip b). f_equal. unfold b64encode. f_equal.
  rewrite b64url_chars, length_map, map_app.
  rewrite <- (repad (chars b)) at 3. f_equal.
  - rewrite map_map. etransitivity; [|apply map_id]. apply map_ext_in. intros c Hc.
    apply filter_In in Hc as [Hc _]. pose proof (b64_classes (chars b)) as Hf. rewrite List.Forall_forall in Hf.
    by apply url_char_spec, Hf.
  - unfold padding_of. destruct (Nat.eqb _ 4); [done|]. by rewrite map_repeat.
Qed.

(** A token of three encoded parts splits into them. *)
Lemma split_chars_word l cur rest : forallb (fun c => negb (Ascii.eqb c ".")) l = true ->
  split_chars "."%char (l ++ "."%char :: rest) cur = unchars (rev cur ++ l) :: split_chars "."%char rest [].
Proof.
  revert cur. induction l as [|c l IH]; intros cur H; cbn [app split_chars]; [by rewrite app_nil_r|].
  cbn [forallb] in H. apply andb_true_iff in H as [Hc H]. apply negb_true_iff in Hc. rewrite Hc, IH by done.
  cbn [rev]. by rewrite <- app_assoc.
Qed.

Lemma split_chars_last l cur : forallb (fun c => negb (Ascii.eqb c ".")) l = true ->
  split_chars "."%char l cur = [unchars (rev cur ++ l)].
Proof.
  revert cur. induction l as [|c l IH]; intros cur H; cbn [split_chars]; [by rewrite app_nil_r|].
  cbn [forallb] in H. apply andb_true_iff in H as [Hc H]. apply negb_true_iff in Hc. rewrite Hc, IH by done.
  cbn [rev]. by rewrite <- app_assoc.
Qed.

Lemma b64url_word b : forallb (fun c => negb (Ascii.eqb c ".")) (chars (b64url b)) = true.
Proof.
  rewrite b64url_chars. apply forallb_forall. intros c Hc. apply in_map_iff in Hc as (c0 & <- & Hc).
  apply filter_In in Hc as [Hc _]. pose proof (b64_classes (chars b)) as Hf. rewrite List.Forall_forall in Hf.
  apply Hf, url_char_spec in Hc as (_ & _ & Hc). by rewrite Hc.
Qed.

Lemma split_token h p s :
  py_split "."%char (b64url h +:+ "." +:+ b64url p +:+ "." +:+ b64url s) = [b64url h; b64url p; b64url s].
Proof.
  unfold py_split. rewrite !chars_app. change (chars ".") with ["."%char]. cbn [app].
  rewrite split_chars_word by apply b64url_word. rewrite split_chars_word by apply b64url_word.
  rewrite split_chars_last by apply b64url_word. cbn [rev app]. by rewrite !unchars_chars.
Qed.

(** ** What an acceptance means *)

(** The payload of a token. *)
Definition payload_of (token : string) : option (list (Payload.text * Payload.value)) :=
  match py_split "."%char token with
  | [_; payload_b64; _] =>
      match _decode_b64url payload_b64 with
      | Ok b => match Payload.loads_bytes b with Some (Payload.Obj payload) => Some payload | _ => None end
      | Raise _ => None
      end
  | _ => None
  end.

(** Its identifier, as a key of the store, and its expiry. *)
Definition jwt_claims (token : string) : option (Payload.dict_key * Payload.num) :=
  payload ← payload_of token;
  exp ← Payload.number (Payload.get "exp" (Payload.Num (Payload.Int 0)) payload);
  k ← Payload.hashable (Payload.get "jti" Payload.Null payload);
  Some (k, exp).

(** The signature covers the first two parts as they were sent. *)
Definition signature_ok (public_key : public_key_t) (token : string) : bool :=
  match py_split "."%char token with
  | [h; p; s] => match _decode_b64url s with Ok sig => public_key sig (utf8 (h +:+ "." +:+ p)) | Raise _ => false end
  | _ => false
  end.

Lemma verify_spec now now' token key store ok c store' :
  verify_signed_request now now' token key store = ((ok, c), store') ->
  (ok = false /\ (store' = store \/ store' = InMemoryJtiStore.cleanup now' store)) \/
  (ok = true /\ exists k e, jwt_claims token = Some (k, e) /\ signature_ok key token = true /\ Payload.le e now = false /\
   InMemoryJtiStore.mem k (InMemoryJtiStore.cleanup now' store) = false /\
   store' = (InMemoryJtiStore.cleanup now' store ++ [(k, e)])%list).
Proof.
  unfold verify_signed_request, jwt_claims, payload_of, signature_ok, InMemoryJtiStore.insert. cbn zeta.
  destruct (py_split _ token) as [|h [|p [|s [|? ?]]]]; try (intros [= <- <- <-]; by left; auto).
  destruct (_decode_b64url s) as [sig|]; [|intros [= <- <- <-]; by left; auto].
  destruct (key sig _); cbn [negb]; [|intros [= <- <- <-]; by left; auto].
  destruct (_decode_b64url p) as [b|]; [|intros [= <- <- <-]; by left; auto].
  destruct (Payload.loads_bytes b) as [[| | | | |payload]|]; try (intros [= <- <- <-]; by left; auto).
  cbn [mbind option_bind].
  destruct (Payload.number (Payload.get "exp" _ payload)) as [e|]; [|intros [= <- <- <-]; by left; auto]. cbn [mbind option_bind].
  destruct (Payload.le e now) eqn:Ea; [intros [= <- <- <-]; by left; auto|].
  destruct (mbind _ _) as [ttl|]; [|intros [= <- <- <-]; by left; auto].
  destruct (Payload.gt ttl _); [intros [= <- <- <-]; by left; auto|].
  destruct (Payload.truthy _); cbn [negb]; [|intros [= <- <- <-]; by left; auto].
  destruct (Payload.hashable _) as [k|]; [|intros [= <- <- <-]; by left; auto]. cbn [mbind option_bind].
  destruct (InMemoryJtiStore.mem _ _) eqn:Em; intros [= <- <- <-]; [by left; auto|].
  right. split; [done|]. by exists k, e.
Qed.

Lemma In_cleanup kv now store : In kv (InMemoryJtiStore.cleanup now store) <-> In kv store /\ Payload.gt (snd kv) now = true.
Proof. apply filter_In. Qed.

Lemma mem_In k store : InMemoryJtiStore.mem k store = true <-> exists e, In (k, e) store.
Proof.
  unfold InMemoryJtiStore.mem. rewrite existsb_exists. split.
  - intros ([k' e] & Hin & Hk). apply bool_decide_eq_true in Hk. cbn in Hk. subst. by exists e.
  - intros (e & Hin). exists (k, e). split; [done|]. by apply bool_decide_eq_true.
Qed.

(** A number but NaN is either at most [x] or greater. *)
Lemma gt_le n x : n <> Payload.NaN -> Payload.gt n x = negb (Payload.le n x).
Proof. by destruct n. Qed.

Section Middleware.
Context `{E : Env}.
Import AdminUiSignedRequestMiddleware.
Variable key : public_key_t.

Definition unsafe (r : attempt) : bool := negb (existsb (String.eqb (at_method r)) SAFE_METHODS).

(** A request that changes state goes on only with a verified token. *)
Lemma dispatch_spec r store d store' : dispatch (Some key) r store = (d, store') ->
  (store' = store \/ store' = InMemoryJtiStore.cleanup (at_now' r) store) /\ (d = CallNext -> unsafe r = false) \/
  d = CallNext /\ unsafe r = true /\ exists token k e, at_header r = Some token /\ jwt_claims token = Some (k, e) /\
   signature_ok key token = true /\ Payload.le e (at_now r) = false /\
   InMemoryJtiStore.mem k (InMemoryJtiStore.cleanup (at_now' r) store) = false /\
   store' = (InMemoryJtiStore.cleanup (at_now' r) store ++ [(k, e)])%list.
Proof.
  unfold dispatch, unsafe. destruct (existsb _ SAFE_METHODS); cbn [negb]; [intros [= <- <-]; left; auto|].
  destruct (at_header r) as [[|a token]|]; [intros [= <- <-]; left; split; [by left|discriminate]|cbv beta iota|intros [= <- <-]; left; split; [by left|discriminate]].
  destruct (verify_signed_request _ _ _ _ _) as [[ok c] st] eqn:Ev. apply verify_spec in Ev as [[-> Hst]|(-> & k & e & H)].
  - intros [= <- <-]. left. split; [done|discriminate].
  - intros [= <- <-]. right. split; [done|]. split; [done|]. exists (String a token), k, e. tauto.
Qed.

(** An entry stays as long as it has not expired. *)
Lemma dispatch_keeps r store k e : In (k, e) store -> Payload.gt e (at_now' r) = true ->
  In (k, e) (snd (dispatch (Some key) r store)).
Proof.
  intros Hin Ha. destruct (dispatch _ _ _) as [d store'] eqn:Ed. cbn [snd].
  assert (Hc : In (k, e) (InMemoryJtiStore.cleanup (at_now' r) store)) by (by apply In_cleanup).
  apply dispatch_spec in Ed as [[[-> | ->] _]|(_ & _ & t & k' & e' & _ & _ & _ & _ & _ & ->)]; [done..|].
  apply in_app_iff. by left.
Qed.

Lemma serve_app rs rs' store :
  snd (serve (Some key) (rs ++ rs') store) = snd (serve (Some key) rs' (snd (serve (Some key) rs store))).
Proof.
  revert store. induction rs as [|r rs IH]; intros store; [done|]. cbn [serve app].
  destruct (dispatch _ r store) as [d st]. specialize (IH st).
  destruct (serve _ (rs ++ rs') st), (serve _ rs st). cbn [snd] in *. exact IH.
Qed.

Lemma serve_cons r rs store : snd (serve (Some key) (r :: rs) store) = snd (serve (Some key) rs (snd (dispatch (Some key) r store))).
Proof. cbn [serve]. destruct (dispatch _ r store) as [d st]. cbn [snd]. by destruct (serve _ rs st). Qed.

Lemma serve_keeps rs store k e : In (k, e) store -> Forall (fun r => Payload.gt e (at_now' r) = true) rs ->
  In (k, e) (snd (serve (Some key) rs store)).
Proof.
  intros Hin H. revert store Hin. induction H as [|r rs Hr H IH]; intros store Hin; [done|].
  rewrite serve_cons. apply IH. by apply dispatch_keeps.
Qed.

(** The entries come from the requests served. *)
Lemma serve_origin rs store k e : In (k, e) (snd (serve (Some key) rs store)) ->
  In (k, e) store \/ exists r token, In r rs /\ at_header r = Some token /\ jwt_claims token = Some (k, e).
Proof.
  revert store. induction rs as [|r rs IH]; intros store Hin; [by left|]. rewrite serve_cons in Hin.
  apply IH in Hin as [Hin|(r' & t & Hr & Ht)]; [|right; exists r', t; split; [by right|done]].
  destruct (dispatch _ r store) as [d st] eqn:Ed. cbn [snd] in Hin.
  apply dispatch_spec in Ed as [[[-> | ->] _]|(_ & _ & t & k' & e' & Ht & Hc & _ & _ & _ & ->)].
  - by left.
  - apply In_cleanup in Hin as [Hin _]. by left.
  - apply in_app_iff in Hin as [Hin|[[= -> ->]|[]]]; [apply In_cleanup in Hin as [Hin _]; by left|].
    right. exists r, t. split; [by left|done].
Qed.

(** ** Properties *)

(** C28: The middleware refuses replays.  Let two requests that change state
    carry the same identifier, and let the expiry of the first token be no
    NaN.  If both are let through, the store has read the clock at or past the
    first token's expiry, in a request between the two or in the second; the
    second token was not expired when it was checked, and its signature
    verifies.  Nothing is assumed of the clock.  For one and the same token,
    and a clock that does not go back, this leaves the instants between the
    two readings of the second request: valid at the check and expired at the
    insertion. *)
Theorem replay_refused pre ri mid rj store k ti tj ei ej :
  unsafe ri = true -> unsafe rj = true ->
  at_header ri = Some ti -> at_header rj = Some tj ->
  jwt_claims ti = Some (k, ei) -> jwt_claims tj = Some (k, ej) -> ei <> Payload.NaN ->
  fst (dispatch (Some key) ri (snd (serve (Some key) pre store))) = CallNext ->
  fst (dispatch (Some key) rj (snd (serve (Some key) (pre ++ ri :: mid) store))) = CallNext ->
  (exists r, In r (mid ++ [rj]) /\ Payload.le ei (at_now' r) = true) /\
  Payload.le ej (at_now rj) = false /\ signature_ok key tj = true.
Proof.
  intros Hui Huj Hhi Hhj Hci Hcj Hnan Hi Hj. rewrite serve_app, serve_cons in Hj.
  set (before := snd (serve (Some key) pre store)) in *.
  destruct (dispatch _ ri before) as [di sti] eqn:Edi. cbn [fst snd] in *. subst di.
  apply dispatch_spec in Edi as [[_ Hn]|(_ & _ & t & k' & e' & Ht & Hc & _ & _ & _ & ->)]; [by rewrite Hn in Hui|].
  rewrite Hhi in Ht. injection Ht as <-. rewrite Hci in Hc. injection Hc as <- <-.
  destruct (dispatch _ rj _) as [dj stj] eqn:Edj. cbn [fst] in Hj. subst dj.
  apply dispatch_spec in Edj as [[_ Hn]|(_ & _ & t & k' & e' & Ht & Hc & Hs & Ha & Hm & _)]; [by rewrite Hn in Huj|].
  rewrite Hhj in Ht. injection Ht as <-. rewrite Hcj in Hc. injection Hc as <- <-. split; [|done].
  destruct (existsb (fun r => Payload.le ei (at_now' r)) (mid ++ [rj])) eqn:Ex; [by apply existsb_exists in Ex|].
  exfalso. assert (Hlive : forall r, In r (mid ++ [rj]) -> Payload.gt ei (at_now' r) = true).
  { intros r Hr. rewrite gt_le by done. apply negb_true_iff, not_true_iff_false. intros Hle.
    apply not_true_iff_false in Ex. apply Ex, existsb_exists. by exists r. }
  apply not_true_iff_false in Hm. apply Hm, mem_In. exists ei.
  apply In_cleanup. split; [|apply Hlive, in_app_iff; right; by left].
  apply serve_keeps; [apply in_app_iff; right; by left|].
  apply List.Forall_forall. intros r Hr. apply Hlive, in_app_iff. by left.
Qed.


End Middleware.

(** The CSRF middleware lets a request that changes state through only
    if its path is exempt or the header repeats the cookie: both present, not
    empty, equal and ASCII. *)
Theorem csrf_checked method path cookie_token header_token :
  CsrfMiddleware.dispatch method path cookie_token header_token = Ok CallNext <->
  existsb (String.eqb method) SAFE_METHODS = true \/ CsrfMiddleware.exempt path = true \/
  exists a t, cookie_token = Some (String a t) /\ header_token = Some (String a t) /\
    forallb (fun c => (code c <? 128)%N) (chars (String a t)) = true.
Proof.
  unfold CsrfMiddleware.dispatch. destruct (existsb _ SAFE_METHODS); [split; auto|].
  destruct (CsrfMiddleware.exempt path); [split; auto|]. split.
  - intros H. right. right. destruct cookie_token as [[|a c]|], header_token as [[|b h]|]; try discriminate H.
    cbn [CsrfMiddleware.given negb orb] in H. unfold CsrfMiddleware.compare_digest in H.
    destruct (forallb _ (chars (String a c)) && forallb _ (chars (String b h))) eqn:Ha; [|discriminate H].
    destruct (String.eqb _ _) eqn:He; [|discriminate H]. apply String.eqb_eq in He. rewrite <- He in *.
    apply andb_true_iff in Ha as [Ha _]. by exists a, c.
  - intros [H|[H|(a & t & -> & -> & Ha)]]; [discriminate H..|]. cbn [CsrfMiddleware.given negb orb].
    unfold CsrfMiddleware.compare_digest. rewrite Ha. cbn [andb mbind outcome_bind]. by rewrite String.eqb_refl.
Qed.

Lemma tenants_not_exempt path : CsrfMiddleware.exempt ("/v1/tenants/" +:+ path) = false.
Proof. reflexivity. Qed.

(** ** Concrete runs *)

Definition demo_token (jti : string) : string :=
  b64url "header" +:+ "." +:+ b64url (dumps (JObj [("iat", JInt 40); ("exp", JInt 100); ("jti", JStr jti)]))
    +:+ "." +:+ b64url "signature".
Definition demo_key : public_key_t := fun sig _ => String.eqb sig "signature".
Definition demo_attempt (jti : string) (now now' : Q) : attempt := Attempt "POST" (Some (demo_token jti)) now now'.

(** The token is accepted a second time when it expires between the check and the insertion. *)
Example replay_at_expiry `{E : Env} :
  fst (AdminUiSignedRequestMiddleware.serve (Some demo_key)
    [demo_attempt "a" 50 50; demo_attempt "a" 60 60; demo_attempt "b" 61 61; demo_attempt "a" (199 # 2) 100]
    InMemoryJtiStore.init) = [CallNext; refuse "replay_detected"; CallNext; CallNext].
Proof. vm_compute. reflexivity. Qed.

Definition raw_token (payload : string) : string :=
  b64url "h" +:+ "." +:+ b64url payload +:+ "." +:+ b64url "signature".

Definition in_quotes (s : string) : string := unchars (dquote :: chars s ++ [dquote]).

(** The payload [{"exp": NaN, "jti": "a"}]: it never expires, and is never found in the store. *)
Definition endless_token : string :=
  raw_token ("{" +:+ in_quotes "exp" +:+ ": NaN, " +:+ in_quotes "jti" +:+ ": " +:+ in_quotes "a" +:+ "}").

(** A token whose expiry is NaN is accepted as often as it is sent, at any time. *)
Example replay_without_expiry `{E : Env} :
  fst (AdminUiSignedRequestMiddleware.serve (Some demo_key)
    (map (fun n => Attempt "POST" (Some endless_token) n n) [50; 51; 100000; 1000000000]%Q)
    InMemoryJtiStore.init) = [CallNext; CallNext; CallNext; CallNext].
Proof. vm_compute. reflexivity. Qed.

(** Fractional numbers, escapes, surrogate pairs and UTF-16 are read as [json.loads] reads them. *)
Example payload_read :
  Payload.loads_bytes ("{" +:+ in_quotes "exp" +:+ ": 1.5e2, " +:+ in_quotes "n" +:+ ": -Infinity, " +:+ in_quotes "jti"
    +:+ ": " +:+ in_quotes "\ud83d\ude00" +:+ "}")
  = Some (Payload.Obj [(Payload.codes "exp", Payload.Num (Payload.Float 150));
                       (Payload.codes "n", Payload.Num (Payload.Inf true));
                       (Payload.codes "jti", Payload.Str [128512%N])]) /\
  Payload.loads_bytes (unchars (map chr [49; 0; 50; 0]%N)) = Some (Payload.Num (Payload.Int 12)).
Proof. split; vm_compute; reflexivity. Qed.

(** A token with a far future issue time passes the limit on its lifetime. *)
Example issue_time_unchecked `{E : Env} :
  fst (verify_signed_request 50 50 (b64url "h" +:+ "." +:+ b64url (dumps (JObj [("iat", JInt 999950); ("exp", JInt 1000000); ("jti", JStr "a")]))
    +:+ "." +:+ b64url "signature") demo_key InMemoryJtiStore.init) = (true, "").
Proof. vm_compute. reflexivity. Qed.

Section Witnesses.
#[local] Existing Instance demo_env.

Lemma replay_refused_witness :
  let pre := [demo_attempt "b" 40 40] in
  let ri := demo_attempt "a" 50 50 in
  let rj := demo_attempt "a" (199 # 2) 100 in
  (exists r, In r [demo_attempt "c" 70 70; rj] /\ Payload.le (Payload.Int 100) (at_now' r) = true) /\
  Payload.le (Payload.Int 100) (at_now rj) = false /\ signature_ok demo_key (demo_token "a") = true.
Proof.
  intros pre ri rj.
  apply (replay_refused demo_key pre ri [demo_attempt "c" 70 70] rj InMemoryJtiStore.init (Payload.KText (Payload.codes "a"))
    (demo_token "a") (demo_token "a") (Payload.Int 100) (Payload.Int 100)); try (vm_compute; reflexivity). discriminate.
Defined.


End Witnesses.
