(* ===== verification/Settings.v ===== *)
(** * Platform settings and change events (admin_api/api/settings.py, api/changes.py,
      mcp_server/changes/subscriber.py, mcp_server/cache/discovery.py)

    The settings of the platform administrator, stored under a NULL tenant in
    a table whose tenant is NOT NULL; the reconciliation endpoint of the change
    channel; the subscriber of the MCP server with the cache it invalidates
    and the set of revoked agents it fills. *)

From Stdlib Require QArith_base.
From S2P Require Import Prelude PyStr PyJson PyJsonFacts PyTime WireIds AuditHash AuditChain PyText.
From S2P Require Import Vault Tables Database Logic Demo Keys Sessions AuditEmit CredPayloads AgentSecrets Agents AgentLaws SignedRequest RegistrySafety.

Local Open Scope string_scope.
Local Open Scope py_scope.

(** ** The settings models *)

Record OIDCSettings := MkOIDC { enabled : bool; issuer_url : option string; client_id : option string }.
Record AuditSettings := MkAudit { retention_days : Z; chain_verify_interval_hours : Z }.
Record ApiKeySettings := MkApiKey {
  proxy_cache_ttl_seconds : Z; require_expiry : bool; allow_no_expiry : bool; max_expiry_days : Z;
  require_ip_allowlist : bool }.
Record AdminSettings := MkSettings { oidc : OIDCSettings; audit : AuditSettings; api_key : ApiKeySettings }.

Definition default_oidc : OIDCSettings := MkOIDC false None None.
Definition default_audit : AuditSettings := MkAudit 90 24.
Definition default_api_key : ApiKeySettings := MkApiKey 60 false true 365 false.
Definition default_settings : AdminSettings := MkSettings default_oidc default_audit default_api_key.

Definition opt_str (o : option string) : json := match o with Some s => JStr s | None => JNull end.

(** [model_dump()] *)
Definition oidc_dump (s : OIDCSettings) : dict :=
  [("enabled", JBool (enabled s)); ("issuer_url", opt_str (issuer_url s)); ("client_id", opt_str (client_id s))].
Definition audit_dump (s : AuditSettings) : dict :=
  [("retention_days", JInt (retention_days s)); ("chain_verify_interval_hours", JInt (chain_verify_interval_hours s))].
Definition api_key_dump (s : ApiKeySettings) : dict :=
  [("proxy_cache_ttl_seconds", JInt (proxy_cache_ttl_seconds s)); ("require_expiry", JBool (require_expiry s));
   ("allow_no_expiry", JBool (allow_no_expiry s)); ("max_expiry_days", JInt (max_expiry_days s));
   ("require_ip_allowlist", JBool (require_ip_allowlist s))].
Definition model_dump (s : AdminSettings) : dict :=
  [("oidc", JObj (oidc_dump (oidc s))); ("audit", JObj (audit_dump (audit s))); ("api_key", JObj (api_key_dump (api_key s)))].

(** [model_validate]: fields in lax mode, unknown keys forbidden. *)
Section Validation.
Context `{P : Pydantic}.

Definition lax_bool (j : json) : option bool :=
  match j with
  | JBool b => Some b
  | JInt z => if Z.eqb z 0 then Some false else if Z.eqb z 1 then Some true else None
  | JStr s =>
      if existsb (String.eqb (lower s)) ["0"; "off"; "f"; "false"; "n"; "no"] then Some false
      else if existsb (String.eqb (lower s)) ["1"; "on"; "t"; "true"; "y"; "yes"] then Some true else None
  | _ => None
  end.
Definition lax_int (j : json) : option Z :=
  match j with JInt z => Some z | JBool b => Some (Z.b2z b) | JStr s => int_of_text s | _ => None end.
Definition lax_opt_str (j : json) : option (option string) :=
  match j with JNull => Some None | JStr s => Some (Some s) | _ => None end.

Definition field {A} (read : json -> option A) (k : string) (dflt : A) (d : dict) : option A :=
  match dict_get k d with None => Some dflt | Some j => read j end.
Definition only (names : list string) (d : dict) : bool :=
  forallb (fun kv => existsb (String.eqb (fst kv)) names) d.

Definition validate_oidc (j : json) : option OIDCSettings :=
  match j with
  | JObj d =>
      en ← field lax_bool "enabled" false d; iss ← field lax_opt_str "issuer_url" None d;
      cl ← field lax_opt_str "client_id" None d;
      if only ["enabled"; "issuer_url"; "client_id"] d then Some (MkOIDC en iss cl) else None
  | _ => None
  end.
Definition validate_audit (j : json) : option AuditSettings :=
  match j with
  | JObj d =>
      r ← field lax_int "retention_days" 90%Z d; c ← field lax_int "chain_verify_interval_hours" 24%Z d;
      if only ["retention_days"; "chain_verify_interval_hours"] d then Some (MkAudit r c) else None
  | _ => None
  end.
Definition validate_api_key (j : json) : option ApiKeySettings :=
  match j with
  | JObj d =>
      ttl ← field lax_int "proxy_cache_ttl_seconds" 60%Z d; re ← field lax_bool "require_expiry" false d;
      an ← field lax_bool "allow_no_expiry" true d; md ← field lax_int "max_expiry_days" 365%Z d;
      ip ← field lax_bool "require_ip_allowlist" false d;
      if only ["proxy_cache_ttl_seconds"; "require_expiry"; "allow_no_expiry"; "max_expiry_days"; "require_ip_allowlist"] d
      then Some (MkApiKey ttl re an md ip) else None
  | _ => None
  end.
Definition model_validate (j : json) : option AdminSettings :=
  match j with
  | JObj d =>
      o ← field validate_oidc "oidc" default_oidc d; a ← field validate_audit "audit" default_audit d;
      k ← field validate_api_key "api_key" default_api_key d;
      if only ["oidc"; "audit"; "api_key"] d then Some (MkSettings o a k) else None
  | _ => None
  end.

(** What is dumped validates to itself. *)
Lemma validate_dump s : model_validate (JObj (model_dump s)) = Some s.
Proof. by destruct s as [[e [i|] [c|]] [r v] [t b1 b2 m b3]]. Qed.

(** [{**a, **b}] per section. *)
Definition deep_merge (current incoming : dict) : dict :=
  fold_left (fun merged kv =>
    match snd kv, dict_get (fst kv) merged with
    | JObj section, Some (JObj cur) => dict_set (fst kv) (JObj (dict_update cur section)) merged
    | v, _ => dict_set (fst kv) v merged
    end) incoming current.

(** The merge of two complete dumps is the incoming one. *)
Lemma deep_merge_incoming cur inc : deep_merge (model_dump cur) (model_dump inc) = model_dump inc.
Proof. by destruct inc, cur. Qed.

End Validation.

(** ** The endpoints *)

Definition _SYSTEM_TENANT_ID : uuid := 0.
Definition _SETTINGS_KEY : string := "admin_settings".

Section Endpoints.
Context `{E : Env} `{V : Vault} `{Sha : Sha256} `{P : Pydantic}.

(** The comparison [tenant_id IS NULL] on the NOT NULL column. *)
Definition is_null {A} (o : option A) : bool := match o with None => true | Some _ => false end.

Definition _load_settings : M AdminSettings :=
  let! rows := select tenant_settings_t
    (fun r => String.eqb (ts_key r) _SETTINGS_KEY && is_null (Some (ts_tenant_id r))) in
  match rows with
  | [] => ret default_settings
  | row :: _ =>
      let data := match from_jsonb (ts_value row) with JStr s => loads s | v => Some v end in
      ret (default default_settings (data ≫= model_validate))
  end.

(** The row offered has no tenant: the policy admits it under the administrator's view only, and then
    the NOT NULL constraint of the key refuses it. *)
Definition _save_settings (settings : AdminSettings) : M unit :=
  let value := dumps (JObj (model_dump settings)) in
  execute (fun w =>
    _ ← policy w;
    _ ← (match loads value with Some j => Ok j | None => Raise (DBError "invalid input syntax for type json") end);
    if negb (w_admin_view w) then Raise (DBError "new row violates row-level security policy")
    else Raise (IntegrityError "null value in column tenant_id of relation tenant_settings violates not-null constraint")).

Definition get_admin_settings : M response :=
  let! settings := _load_settings in
  ret (JSONResponse 200 (model_dump settings)).

Definition patch_admin_settings (body : AdminSettings) : M response :=
  let! current := _load_settings in
  let merged_data := deep_merge (model_dump current) (model_dump body) in
  match model_validate (JObj merged_data) with
  | None => raise (ValueError "validation error for AdminSettings")
  | Some merged =>
      do! _save_settings merged in
      do! audit_emit _SYSTEM_TENANT_ID "settings.updated" None "platform_admin" None (Some "admin_settings")
        (model_dump merged) in
      ret (JSONResponse 200 (model_dump merged))
  end.

Inductive settings_request := GetSettings | PatchSettings (body : AdminSettings).

Definition settings_router (cookie : option string) (rq : settings_request) : M response :=
  do! require_platform_admin_session cookie in
  transaction (match rq with GetSettings => get_admin_settings | PatchSettings body => patch_admin_settings body end).

(** [GET /v1/changes] sets no tenant context. *)
Definition get_changes (since : option string) : M response :=
  let answer := JSONResponse 200 [("events", JArr []); ("next_cursor", JNull)] in
  match since with
  | None => ret answer
  | Some since =>
      let! id := bound since in
      let! rows := select audit_events_t (fun r => N.eqb (e_id r) id) in
      match rows with
      | [] =>
          let! oldest := query (fun pol d => head (sort_by (fun a b => Z.leb (e_at a) (e_at b)) (visible audit_events_t pol d))) in
          ret (JSONResponse 410 [("code", JStr "mintkey:since_unknown");
            ("oldest_known_event_id", match oldest with Some r => JStr (uuid_str (e_id r)) | None => JNull end)])
      | _ => ret answer
      end
  end.

End Endpoints.

(** ** The subscriber of the MCP server *)

Module DiscoveryCache.

(** (tenant, agent) to the value and the end of its life on the monotonic clock. *)
Definition t := gmap (string * string) (list json * QArith_base.Q).

Definition get (tenant_id agent_id : string) (now : QArith_base.Q) (store : t) : option (list json) * t :=
  match store !! (tenant_id, agent_id) with
  | None => (None, store)
  | Some (value, expires_at) =>
      if QArith_base.Qle_bool expires_at now then (None, delete (tenant_id, agent_id) store) else (Some value, store)
  end.

Definition set (ttl : Z) (tenant_id agent_id : string) (value : list json) (now : QArith_base.Q) (store : t) : t :=
  <[(tenant_id, agent_id) := (value, QArith_base.Qplus now (QArith_base.inject_Z ttl))]> store.

(** Every key of the tenant is deleted; a value that is no string is nobody's tenant. *)
Definition invalidate (tenant_id : json) (store : t) : t :=
  let text := match tenant_id with JStr s => Some s | _ => None end in
  filter (fun kv => Some (fst (fst kv)) <> text) store.

End DiscoveryCache.

(** An element of the set: [True] and 1 are one. *)
Inductive hkey := KStr (s : string) | KInt (z : Z).

#[global] Instance hkey_eq_dec : EqDecision hkey.
Proof. solve_decision. Defined.

(** [hash(v)]: lists and dicts have none. *)
Definition hashable (v : json) : option hkey :=
  match v with
  | JStr s => Some (KStr s)
  | JInt z => Some (KInt z)
  | JBool b => Some (KInt (Z.b2z b))
  | _ => None
  end.

(** The subscriber's state: the cache it was given and the shared set of revoked agents. *)
Record subscriber := Subscriber { discovery_cache : DiscoveryCache.t; revoked_agents : list hkey }.

Definition set_add (k : hkey) (s : list hkey) : list hkey := if existsb (fun k' => bool_decide (k' = k)) s then s else (s ++ [k])%list.

(** An exception of a callback is logged by the driver; the state is then unchanged. *)
Definition _on_service_change (payload : string) (s : subscriber) : outcome subscriber :=
  match loads payload with
  | None => Ok s
  | Some (JObj data) =>
      let tenant_id := dict_default "tenant_id" JNull data in
      if truthy tenant_id then Ok (Subscriber (DiscoveryCache.invalidate tenant_id (discovery_cache s)) (revoked_agents s))
      else Ok s
  | Some _ => Raise (AttributeError "object has no attribute get")
  end.

Definition _on_agent_change (payload : string) (s : subscriber) : outcome subscriber :=
  match loads payload with
  | None => Ok s
  | Some (JObj data) =>
      match dict_default "event_type" JNull data with
      | JStr event_type =>
          if String.eqb event_type "agent.revoked" then
            let agent_id := dict_default "agent_id" JNull data in
            if truthy agent_id then
              match hashable agent_id with
              | Some k => Ok (Subscriber (discovery_cache s) (set_add k (revoked_agents s)))
              | None => Raise (TypeError "unhashable type")
              end
            else Ok s
          else Ok s
      | _ => Ok s
      end
  | Some _ => Raise (AttributeError "object has no attribute get")
  end.

(** A delivered notification, on the channels listened to. *)
Definition on_notification (s : subscriber) (n : string * string) : subscriber :=
  let r := if String.eqb (fst n) "mintkey:service" then _on_service_change (snd n) s
           else if String.eqb (fst n) "mintkey:agent" then _on_agent_change (snd n) s else Ok s in
  match r with Ok s' => s' | Raise _ => s end.

Definition deliver (notifications : list (string * string)) (s : subscriber) : subscriber :=
  fold_left on_notification notifications s.

(** ** Facts about the cache and the set *)

Lemma invalidate_spec tenant_id store t a :
  DiscoveryCache.invalidate (JStr tenant_id) store !! (t, a) = if decide (t = tenant_id) then None else store !! (t, a).
Proof.
  unfold DiscoveryCache.invalidate. destruct (decide (t = tenant_id)) as [->|Hne].
  - apply map_lookup_filter_None_2. right. intros v _ H. by apply H.
  - destruct (store !! (t, a)) as [v|] eqn:Hv.
    + apply map_lookup_filter_Some_2; [done|]. cbn. congruence.
    + apply map_lookup_filter_None_2. by left.
Qed.

Lemma get_set ttl t a value now now' store :
  fst (DiscoveryCache.get t a now' (DiscoveryCache.set ttl t a value now store)) =
    if QArith_base.Qle_bool (QArith_base.Qplus now (QArith_base.inject_Z ttl)) now' then None else Some value.
Proof. unfold DiscoveryCache.get, DiscoveryCache.set, DiscoveryCache.t in *. rewrite lookup_insert_eq. by destruct (QArith_base.Qle_bool _ _). Qed.

Lemma set_add_In k k' s : In k (set_add k' s) <-> k = k' \/ In k s.
Proof.
  unfold set_add. destruct (existsb _ s) eqn:He.
  - apply existsb_exists in He as (k0 & Hin & Hk). apply bool_decide_eq_true in Hk as ->.
    split; [by right|]. by intros [-> |H].
  - rewrite in_app_iff. cbn. intuition congruence.
Qed.

(** The set only grows. *)
Lemma on_notification_keeps k s n : In k (revoked_agents s) -> In k (revoked_agents (on_notification s n)).
Proof.
  intros Hin. unfold on_notification, _on_service_change, _on_agent_change.
  destruct (String.eqb (fst n) "mintkey:service").
  - destruct (loads (snd n)) as [[| | | | |d]|]; try done. by destruct (truthy _).
  - destruct (String.eqb (fst n) "mintkey:agent"); [|done].
    destruct (loads (snd n)) as [[| | | | |d]|]; try done. cbn zeta.
    destruct (dict_default "event_type" JNull d) as [| | |ev| |]; try done.
    destruct (String.eqb _ _); [|done]. destruct (truthy _); [|done]. destruct (hashable _); [|done].
    apply set_add_In. by right.
Qed.

Lemma deliver_cons n ns s : deliver (n :: ns) s = deliver ns (on_notification s n).
Proof. reflexivity. Qed.

Lemma deliver_keeps k ns s : In k (revoked_agents s) -> In k (revoked_agents (deliver ns s)).
Proof.
  revert s. induction ns as [|n ns IH]; intros s Hin; [done|]. apply IH. by apply on_notification_keeps.
Qed.

(** A payload that announces a revocation adds the agent. *)
Lemma on_revocation payload data aid s : loads payload = Some (JObj data) ->
  dict_default "event_type" JNull data = JStr "agent.revoked" -> dict_default "agent_id" JNull data = JStr aid -> aid <> "" ->
  In (KStr aid) (revoked_agents (on_notification s ("mintkey:agent", payload))).
Proof.
  intros Hl He Ha Hne. unfold on_notification. cbn [fst snd]. change (String.eqb "mintkey:agent" "mintkey:service") with false.
  cbv beta iota. rewrite String.eqb_refl. unfold _on_agent_change. rewrite Hl, He, Ha. cbn zeta. rewrite String.eqb_refl.
  cbn [truthy]. rewrite (proj2 (String.eqb_neq _ _) Hne). cbn [negb hashable revoked_agents]. apply set_add_In. by left.
Qed.

(** What [notify_change] sends for a revocation. *)
Definition revocation (tid aid : string) : dict :=
  [("event", JStr "agent.revoked"); ("tenant_id", JStr tid); ("agent_id", JStr aid)].

Lemma revocation_delivered tid aid ns s : aid <> "" ->
  In ("mintkey:agent", dumps (JObj (change_body (revocation tid aid)))) ns -> In (KStr aid) (revoked_agents (deliver ns s)).
Proof.
  intros Hne. assert (Hl : loads (dumps (JObj (change_body (revocation tid aid)))) = Some (JObj (change_body (revocation tid aid)))).
  { apply loads_dumps. cbn. repeat split; repeat constructor; cbn; intuition congruence. }
  revert Hl. generalize (dumps (JObj (change_body (revocation tid aid)))). intros text Hl.
  revert s. induction ns as [|n ns IH]; [by intros s []|]. intros s [-> |Hin]; [|by apply IH].
  rewrite deliver_cons. apply deliver_keeps. by apply (on_revocation _ _ _ _ Hl).
Qed.

(** ** Properties *)

Section Properties.
Context `{E : Env} `{V : Vault} `{Sha : Sha256} `{Arg : Argon2} `{P : Pydantic}.
Implicit Types w : world.

Lemma load_defaults w s w' : _load_settings w = (Ok s, w') -> s = default_settings.
Proof.
  intros H. unfold _load_settings in H. step H as rows w1 H1. apply select_Ok in H1 as (pol & _ & _ & _ & ->).
  rewrite filter_none in H; [by apply ret_Ok in H as [-> _]|]. intros r _. cbn [is_null]. by rewrite !andb_false_r.
Qed.

Lemma save_fails s w u w' : _save_settings s w = (Ok u, w') -> False.
Proof.
  unfold _save_settings. generalize (dumps (JObj (model_dump s))). intros text H. cbn zeta in H.
  apply execute_Ok in H as [_ H]. destruct (policy _); [|discriminate]. cbn [mbind outcome_bind] in H.
  destruct (loads text); [|discriminate]. cbn [mbind outcome_bind] in H. by destruct (negb _).
Qed.

Lemma patch_fails body w r w' : patch_admin_settings body w = (Ok r, w') -> False.
Proof.
  intros H. unfold patch_admin_settings in H. step H as cur w1 H1. cbn zeta in H.
  rewrite deep_merge_incoming, validate_dump in H. step H as u w2 H2. by apply save_fails in H2.
Qed.

(** A statement leaves the committed state alone and the transaction open, failing or not. *)
Lemma execute_open {A} (f : world -> outcome (A * world)) w o w' :
  (forall w1 a w2, f w1 = Ok (a, w2) -> w_base w2 = w_base w1 /\ w_tx w2 = w_tx w1) ->
  execute f w = (o, w') -> w_tx w <> TxDone -> w_base w' = w_base w /\ w_tx w' <> TxDone.
Proof.
  unfold execute. intros Hf H Hx. change (w_tx (tick w)) with (w_tx w) in H.
  destruct (w_tx w) eqn:Ex; [|by injection H as _ <-; rewrite <- Ex in Hx|done].
  destruct (env_fault _); [by injection H as _ <-|]. destruct (f (tick w)) as [[a w2]|e] eqn:Ef; injection H as _ <-; [|done].
  apply Hf in Ef as [Hb Ht]. rewrite Ht. change (w_tx (tick w)) with (w_tx w). by rewrite Ex.
Qed.

Lemma load_open w o w' : _load_settings w = (o, w') -> w_tx w <> TxDone -> w_base w' = w_base w /\ w_tx w' <> TxDone.
Proof.
  unfold _load_settings, bind. destruct (select _ _ w) as [rows w1] eqn:H1. intros H Hx.
  apply execute_open in H1; [|intros w0 a w2 Hf; destruct (policy w0); [|discriminate]; apply Ok_inj in Hf; by injection Hf as _ <-|done].
  destruct rows as [[|row rows]|e]; injection H as _ <-; done.
Qed.

Lemma save_open s w o w' : _save_settings s w = (o, w') -> w_tx w <> TxDone -> w_base w' = w_base w /\ w_tx w' <> TxDone.
Proof.
  unfold _save_settings. generalize (dumps (JObj (model_dump s))). intros text H Hx. cbn zeta in H.
  apply execute_open in H; [done| |done]. intros w1 a w2 Hf. destruct (policy w1); [|discriminate]. cbn [mbind outcome_bind] in Hf.
  destruct (loads text); [|discriminate]. cbn [mbind outcome_bind] in Hf. by destruct (negb _).
Qed.

Lemma patch_open body w e w' : patch_admin_settings body w = (Raise e, w') -> w_tx w <> TxDone ->
  w_base w' = w_base w /\ w_tx w' <> TxDone.
Proof.
  unfold patch_admin_settings. unfold bind at 1. destruct (_load_settings w) as [[cur|e1] w1] eqn:H1; intros H Hx.
  - apply load_open in H1 as [Hb1 Hx1]; [|done]. cbn zeta in H. rewrite deep_merge_incoming, validate_dump in H.
    unfold bind at 1 in H. destruct (_save_settings body w1) as [[u|e2] w2] eqn:H2; [by apply save_fails in H2|].
    injection H as _ <-. apply save_open in H2 as [Hb2 Hx2]; [|done]. by rewrite Hb2.
  - injection H as _ <-. by apply load_open in H1.
Qed.

(** The platform settings cannot be changed.  A PATCH never succeeds
    (the row it writes has no tenant, which neither the policy nor the key
    admits) and leaves the database as it was; a GET that is answered shows
    the defaults, whatever the tables hold. *)
Theorem settings_constant cookie w :
  (forall body, is_ok (fst (settings_router cookie (PatchSettings body) w)) = false /\
     w_base (snd (transaction (patch_admin_settings body) w)) = w_base w) /\
  (forall r w', settings_router cookie GetSettings w = (Ok r, w') -> r = JSONResponse 200 (model_dump default_settings)).
Proof.
  split; [intros body; split|].
  - destruct (settings_router _ _ w) as [[r|e] w'] eqn:H; [|done]. exfalso. unfold settings_router in H.
    step H as u w1 H1. apply transaction_Ok in H as (w2 & H & _). by apply patch_fails in H.
  - unfold transaction. destruct (patch_admin_settings body (begin w)) as [[r|e] w1] eqn:H; [by apply patch_fails in H|].
    cbn [snd]. apply patch_open in H as [Hb Hx]; [|done]. by destruct (w_tx w1).
  - intros r w' H. unfold settings_router in H. step H as u w1 H1. apply transaction_Ok in H as (w2 & H & _).
    unfold get_admin_settings in H. step H as s w3 H3. apply load_defaults in H3 as ->. by apply ret_Ok in H as [-> _].
Qed.

(** The reconciliation endpoint shows nobody any event. *)
Lemma changes_empty since w r w' : transaction (get_changes since) w = (Ok r, w') ->
  r = JSONResponse 200 [("events", JArr []); ("next_cursor", JNull)] \/
  since <> None /\ r = JSONResponse 410 [("code", JStr "mintkey:since_unknown"); ("oldest_known_event_id", JNull)].
Proof.
  intros H. apply transaction_Ok in H as (w1 & H & _). unfold get_changes in H.
  destruct since as [s|]; [|left; by apply ret_Ok in H as [-> _]]. right. split; [done|].
  step H as id w2 H2. apply bound_Ok in H2 as [_ ->].
  step H as rows w3 H3. apply select_Ok in H3 as (pol & Hp & _ & -> & ->).
  change (policy (begin w)) with (Ok (fun _ : uuid => false)) in Hp. apply Ok_inj in Hp. subst pol.
  rewrite filter_none in H by done. cbn zeta in H. step H as o w4 H4.
  apply execute_Ok in H4 as [_ H4]. change (policy _) with (Ok (fun _ : uuid => false)) in H4. cbn [mbind outcome_bind] in H4.
  apply Ok_inj in H4. injection H4 as <- <-. unfold visible in H. rewrite filter_none in H by done.
  by apply ret_Ok in H as [-> _].
Qed.

(** ** Revocations reach the subscribers *)

Lemma announced {A} (m : M A) ch body (r0 : response) w r w' :
  (let! _ := m in do! notify_change ch body in ret r0) w = (Ok r, w') ->
  w_tx w' = TxActive /\ In (ch, dumps (JObj (change_body body))) (w_pending w').
Proof.
  intros H. step H as a w1 H1. step H as u w2 H2. unfold notify_change in H2.
  apply pg_notify_Ok in H2 as [Hx ->]. apply ret_Ok in H as [_ ->]. split; [done|].
  change (In (ch, dumps (JObj (change_body body))) (w_pending w1 ++ [(ch, dumps (JObj (change_body body)))])).
  apply in_app_iff. right. by left.
Qed.

Lemma wire_id_nonempty aid s i w w' :
  Admin._wire_id_to_uuid aid "agent_" = Ok s -> bound s w = (Ok i, w') -> aid <> "".
Proof.
  intros H Hb ->. vm_compute in H. apply Ok_inj in H as <-. apply bound_Ok in Hb as [Hb _].
  apply bind_uuid_UUID in Hb. vm_compute in Hb. discriminate.
Qed.

(** A revocation reaches the MCP servers.  When the revocation or the
    deletion of an agent is answered with success, the change has been
    published at the commit, and every subscriber that is handed what was
    published, in whatever state, has the agent among the revoked ones at the
    end. *)
Theorem revocation_reaches_subscribers tenant_id aid (deletion : bool) w r w' :
  transaction (if deletion then delete_agent tenant_id aid else revoke_agent tenant_id aid) w = (Ok r, w') ->
  status_code r = (if deletion then 204 else 200)%Z ->
  forall s, In (KStr aid) (revoked_agents (deliver (w_sent w') s)).
Proof.
  intros H Hst s. apply transaction_Ok in H as (w1 & H & Hend).
  assert (Hw : aid <> "" /\ w_tx w1 = TxActive /\ In ("mintkey:agent", dumps (JObj (change_body
    (revocation (uuid_str tenant_id) aid)))) (w_pending w1)).
  { destruct deletion.
    - unfold delete_agent in H. apply try_value_Ok in H as [H|(x & Ex & H)]; [apply ret_Ok in H as [-> _]; discriminate|].
      step H as u w2 H2. step H as i w3 H3. step H as j w4 H4. step H as n w5 H5.
      split; [exact (wire_id_nonempty _ _ _ _ _ Ex H3)|].
      exact (announced _ _ _ _ _ _ _ H).
    - unfold revoke_agent in H. apply try_value_Ok in H as [H|(x & Ex & H)]; [apply ret_Ok in H as [-> _]; discriminate|].
      step H as t0 w2 H2. step H as u w3 H3. step H as row w4 H4.
      destruct row as [row|]; [|apply ret_Ok in H as [-> _]; discriminate].
      step H as u5 w5 H5. step H as i w6 H6. step H as j w7 H7. step H as n w8 H8. cbn zeta in H.
      split; [exact (wire_id_nonempty _ _ _ _ _ Ex H6)|].
      exact (announced _ _ _ _ _ _ _ H). }
  destruct Hw as (Hne & Hx & Hin). rewrite Hx in Hend. subst w'. apply (revocation_delivered (uuid_str tenant_id)); [done|].
  change (w_sent (committed (tick w1))) with (w_sent w1 ++ w_pending w1)%list. apply in_app_iff. by right.
Qed.

End Properties.

Section Witnesses.
#[local] Existing Instance demo_env.
#[local] Existing Instance demo_vault.
#[local] Existing Instance toy_sha256.
#[local] Existing Instance toy_pydantic.

Abbreviation demo_get := (settings_router (Some (uuid_str 5)) GetSettings).
Abbreviation demo_revocation := (transaction (revoke_agent 1 (wire 6 "agent"))).

Lemma settings_constant_witness :
  fst (demo_get demo_world) = Ok (JSONResponse 200 (model_dump default_settings)) /\
  is_ok (fst (settings_router (Some (uuid_str 5)) (PatchSettings default_settings) demo_world)) = false.
Proof.
  destruct (run_returns demo_get (fun r => Z.eqb (status_code r) 200) demo_world) as (r & Hr & Hrun); [vm_compute; reflexivity|].
  destruct (settings_constant (Some (uuid_str 5)) demo_world) as [Hp Hg]. split.
  - rewrite Hrun. cbn [fst]. f_equal. exact (Hg r _ Hrun).
  - apply (Hp default_settings).
Defined.

Lemma revocation_reaches_subscribers_witness :
  In (KStr (wire 6 "agent")) (revoked_agents (deliver (w_sent (snd (demo_revocation demo_world))) (Subscriber ∅ []))).
Proof.
  destruct (run_returns demo_revocation (fun r => Z.eqb (status_code r) 200) demo_world) as (r & Hr & Hrun); [vm_compute; reflexivity|].
  apply Z.eqb_eq in Hr.
  exact (revocation_reaches_subscribers 1 (wire 6 "agent") false demo_world r _ Hrun Hr (Subscriber ∅ [])).
Defined.

End Witnesses.
