(* ===== verification/EmailTools.v ===== *)
(** * The email tools of the MCP server (mcp_server/tools/email_*.py)

    Nine handlers of one shape: resolve the email service, look for the
    agent's grant, have the broker issue a token, call the email proxy with it
    and translate the answer.  [with_email_jwt] is the part they repeat; each
    handler has its own checks, its own request and its own reading of the
    answer.  The message identifier goes into the path as it came. *)

From S2P Require Import Prelude PyStr PyJson PyJsonFacts PyTime WireIds AuditHash AuditChain PyText PyCodecs Constraints.
From S2P Require Import Vault Tables Database Logic PublicUrls Resolve Demo AuditEmit AgentSecrets SecretTools SecretsSafety RequestToken TokenSafety EmailServices.

Local Open Scope string_scope.
Local Open Scope py_scope.

Record EmailSendRequest := MkEmailSend {
  em_email_service_id : option string; em_service_id : option string; em_to : list string; em_subject : string;
  em_body : string; em_cc : option (list string); em_bcc : option (list string); em_html_body : option string }.
Record MarkEmailRequest := MkMarkEmail {
  mk_email_service_id : option string; mk_service_id : option string; mk_message_id : string; mk_mailbox : string;
  mk_add : list string; mk_remove : list string }.
Record MoveEmailRequest := MkMoveEmail {
  mv_email_service_id : option string; mv_service_id : option string; mv_message_id : string;
  mv_from_mailbox : string; mv_to_mailbox : string }.

(** [a or b] of optional texts. *)
Definition or_str (a b : option string) : option string :=
  match a with None | Some "" => b | Some _ => a end.
(** [not s] *)
Definition blank (s : option string) : bool := match s with None | Some "" => true | Some _ => false end.

(** [str(v)] of a value inside an f-string. *)
Fixpoint repr_json (j : json) : string :=
  match j with
  | JNull => "None"
  | JBool b => if b then "True" else "False"
  | JInt z => py_str_int z
  | JStr s => py_repr s
  | JArr l => "[" +:+ unchars (join [","; " "]%char (map (fun v => chars (repr_json v)) l)) +:+ "]"
  | JObj d => "{" +:+ unchars (join [","; " "]%char (map (fun kv => chars (py_repr (fst kv) +:+ ": " +:+ repr_json (snd kv))) d)) +:+ "}"
  end.
Definition str_json (j : json) : string := match j with JStr s => s | _ => repr_json j end.

Definition bad_request (title : string) : response := code_title 422 "mintkey:bad_request" title.

Definition email_service_not_found (input : string) : response :=
  JSONResponse 404
    [("code", JStr "mintkey:not_found"); ("reason_code", JStr "email_service_not_found");
     ("email_service_id_input", JStr input)].

(** Two of the tools leave the hint out. *)
Definition email_not_granted (wire_esvc_id : string) (with_hint : bool) : response :=
  JSONResponse 403
    ([("code", JStr "mintkey:not_authorized"); ("reason_code", JStr "permission_not_found");
      ("email_service_id", JStr wire_esvc_id)]
     ++ if with_hint then
          [("hint", JStr ("No email_permission_grant for this agent on '" +:+ wire_esvc_id +:+ "'. "
                          +:+ "Ask the operator to add one in the admin UI."))]
        else [])%list.

Definition message_not_found (message_id : string) : response :=
  JSONResponse 404
    [("code", JStr "mintkey:not_found"); ("reason_code", JStr "message_not_found"); ("message_id", JStr message_id)].

Definition proxy_error (resp : fetched) : response :=
  JSONResponse (ft_status resp)
    [("code", JStr "mintkey:email_proxy_error");
     ("title", JStr ("email-proxy returned " +:+ py_str_int (ft_status resp)));
     ("detail", JStr (py_take 500 (ft_text resp)))].

(** [_flags_to_proxy_body]: the proxy's three booleans from the flags added and removed. *)
Definition flag_names (l : list string) : list string := map (fun f => lstrip "\" (lower f)) l.
Definition flag_field (field name : string) (add_lower remove_lower : list string) : dict :=
  if existsb (String.eqb name) add_lower then [(field, JBool true)]
  else if existsb (String.eqb name) remove_lower then [(field, JBool false)] else [].
Definition _flags_to_proxy_body (add remove : list string) : dict :=
  let add_lower := flag_names add in
  let remove_lower := flag_names remove in
  (flag_field "seen" "seen" add_lower remove_lower ++ flag_field "answered" "answered" add_lower remove_lower
   ++ flag_field "starred" "flagged" add_lower remove_lower)%list.

(** [s.split(sep)[-1]], for a separator whose occurrences cannot overlap. *)
Fixpoint last_part (sep l best : list ascii) : list ascii :=
  match l with
  | [] => best
  | _ :: l' => last_part sep l' (if list_prefixb sep l then drop (length sep) l else best)
  end.

Definition header (name dflt : string) (resp : fetched) : string :=
  match List.find (fun kv => String.eqb (fst kv) name) (ft_headers resp) with Some kv => snd kv | None => dflt end.

Definition attachment_filename (content_disposition : string) : string :=
  if py_in "filename=" content_disposition then
    strip (String dquote "")
      (py_strip (unchars (last_part (chars "filename=") (chars content_disposition) (chars content_disposition))))
  else "".

Definition attachment_body (resp : fetched) : dict :=
  [("filename", JStr (attachment_filename (header "content-disposition" "" resp)));
   ("content_type", JStr (header "content-type" "application/octet-stream" resp));
   ("size", JInt (Z.of_nat (py_len (ft_content resp))));
   ("content_base64", JStr (b64encode (ft_content resp)))].

Definition _DEFAULT_TRASH_MAILBOX : string := "Trash".
Definition trash_hint : string :=
  "Soft delete failed: could not move message to " +:+ py_repr _DEFAULT_TRASH_MAILBOX
  +:+ ". The trash mailbox may not exist on this IMAP server. "
  +:+ "Use email_move_email to move the message to the correct trash mailbox name "
  +:+ "(e.g. '[Gmail]/Trash'), or call with ?hard=true to EXPUNGE instead.".

Definition send_payload (body : EmailSendRequest) : dict :=
  let opt k v := match v with Some ((_ :: _) as l) => [(k, JArr (map JStr l))] | _ => [] end in
  ([("to", JArr (map JStr (em_to body))); ("subject", JStr (em_subject body)); ("body", JStr (em_body body))]
   ++ opt "cc" (em_cc body) ++ opt "bcc" (em_bcc body)
   ++ match em_html_body body with None | Some "" => [] | Some h => [("html_body", JStr h)] end)%list.

Section EmailTools.
Context `{E : Env} `{V : Vault}.

Definition all_scopes_payload (agent_id tenant_id db_esvc_id : string) : dict :=
  [("agent_id", JStr agent_id); ("service_id", JStr db_esvc_id); ("tenant_id", JStr tenant_id);
   ("scope", JStr "read:email send:email write:email delete:email"); ("service_kind", JStr "email");
   ("ttl_seconds", JInt 600)].

(** [None] is [JNull]. *)
Definition _get_email_jwt (agent_id tenant_id db_esvc_id : string) : M json :=
  let! resp := http_post (broker_url +:+ "/v1/issue") (JObj (all_scopes_payload agent_id tenant_id db_esvc_id)) service_token in
  let '(status_code, content) := resp in
  if negb (Z.eqb status_code 200) then ret JNull
  else
    let! data := lift (response_json content) in
    lift (json_get "token" JNull data).

(** The part every tool has: the service, the grant and the token. *)
Definition with_email_jwt (agent_id tenant_id esvc_input : string) (with_hint : bool)
    (k : string -> json -> M response) : M response :=
  let! esvc_uuid := resolve_email_service_id esvc_input tenant_id in
  match esvc_uuid with
  | None => ret (email_service_not_found esvc_input)
  | Some esvc_uuid =>
      let db_esvc_id := uuid_str esvc_uuid in
      let! wire_esvc_id := lift (db_uuid_to_wire (VStr db_esvc_id) "svc") in
      let! aid := bound agent_id in
      let! esid := bound db_esvc_id in
      let! grants := select email_permission_grants_t (fun g =>
        N.eqb (eg_agent_id g) aid && N.eqb (eg_email_service_id g) esid) in
      match fetchone grants with
      | None => ret (email_not_granted wire_esvc_id with_hint)
      | Some _ =>
          let! jwt := _get_email_jwt agent_id tenant_id db_esvc_id in
          match jwt with
          | JNull => ret broker_error
          | _ => k db_esvc_id jwt
          end
      end
  end.

Definition email_proxy_internal : string := getenv "EMAIL_PROXY_INTERNAL_URL" "http://email-proxy:8088".

(** A call of the email proxy for a service, with the token. *)
Definition proxy_request (method path db_esvc_id : string) (params : list (string * string)) (body jwt : json) : http_request :=
  HttpRequest method (email_proxy_internal +:+ "/v1/email-proxy/" +:+ path) body
    [("Authorization", "Bearer " +:+ str_json jwt)] (("service_id", db_esvc_id) :: params).

Definition ok_json (resp : fetched) : M response :=
  let! body := lift (response_json (ft_json resp)) in ret (Response 200 body).

(** The reading of the answer that the listing, searching and fetching tools share. *)
Definition relay (resp : fetched) : M response :=
  if negb (Z.eqb (ft_status resp) 200) then ret (proxy_error resp) else ok_json resp.

Definition missing_query : response :=
  bad_request "Missing required query parameter: email_service_id (or service_id)".
Definition missing_field : response := bad_request "Missing required field: email_service_id (or service_id)".

Definition email_list_mailboxes (agent_ctx : option agent_context) (email_service_id service_id : option string) : M response :=
  match agent_ctx with
  | None => ret auth_required
  | Some (AgentContext agent_id tenant_id) =>
      match or_str email_service_id service_id with
      | None | Some "" => ret missing_query
      | Some email_service_id =>
          do! set_tenant_context tenant_id false in
          with_email_jwt agent_id tenant_id email_service_id true (fun db_esvc_id jwt =>
          let! resp := http_fetch (proxy_request "GET" "mailboxes" db_esvc_id [] JNull jwt) in
          relay resp)
      end
  end.

Definition email_list_emails (agent_ctx : option agent_context) (email_service_id service_id : option string)
    (mailbox : string) (limit offset : Z) : M response :=
  match agent_ctx with
  | None => ret auth_required
  | Some (AgentContext agent_id tenant_id) =>
      match or_str email_service_id service_id with
      | None | Some "" => ret missing_query
      | Some email_service_id =>
          if (limit <? 1)%Z || (200 <? limit)%Z then ret (bad_request "limit must be between 1 and 200")
          else if (offset <? 0)%Z then ret (bad_request "offset must be >= 0")
          else
            do! set_tenant_context tenant_id false in
            with_email_jwt agent_id tenant_id email_service_id true (fun db_esvc_id jwt =>
            let! resp := http_fetch (proxy_request "GET" "messages" db_esvc_id
              [("mailbox", mailbox); ("limit", py_str_int limit); ("offset", py_str_int offset)] JNull jwt) in
            relay resp)
      end
  end.

Definition email_fetch_message (agent_ctx : option agent_context) (message_id : string)
    (email_service_id service_id : option string) (mailbox : string) : M response :=
  match agent_ctx with
  | None => ret auth_required
  | Some (AgentContext agent_id tenant_id) =>
      match or_str email_service_id service_id with
      | None | Some "" => ret missing_query
      | Some email_service_id =>
          do! set_tenant_context tenant_id false in
          with_email_jwt agent_id tenant_id email_service_id false (fun db_esvc_id jwt =>
          let! resp := http_fetch (proxy_request "GET" ("messages/" +:+ message_id) db_esvc_id [("mailbox", mailbox)] JNull jwt) in
          relay resp)
      end
  end.

Definition email_search_messages (agent_ctx : option agent_context) (query : string)
    (email_service_id service_id : option string) (mailbox : string) : M response :=
  match agent_ctx with
  | None => ret auth_required
  | Some (AgentContext agent_id tenant_id) =>
      match or_str email_service_id service_id with
      | None | Some "" => ret missing_query
      | Some email_service_id =>
          do! set_tenant_context tenant_id false in
          with_email_jwt agent_id tenant_id email_service_id false (fun db_esvc_id jwt =>
          let! resp := http_fetch (proxy_request "GET" "messages/search" db_esvc_id [("mailbox", mailbox); ("query", query)] JNull jwt) in
          relay resp)
      end
  end.

Definition email_download_attachment (agent_ctx : option agent_context) (message_id part_id : string)
    (email_service_id service_id : option string) (mailbox : string) : M response :=
  match agent_ctx with
  | None => ret auth_required
  | Some (AgentContext agent_id tenant_id) =>
      match or_str email_service_id service_id with
      | None | Some "" => ret missing_query
      | Some email_service_id =>
          do! set_tenant_context tenant_id false in
          with_email_jwt agent_id tenant_id email_service_id true (fun db_esvc_id jwt =>
          let! resp := http_fetch (proxy_request "GET" ("messages/" +:+ message_id +:+ "/attachments/" +:+ part_id)
            db_esvc_id [("mailbox", mailbox)] JNull jwt) in
          if Z.eqb (ft_status resp) 404 then
            ret (JSONResponse 404
              [("code", JStr "mintkey:not_found"); ("reason_code", JStr "attachment_not_found");
               ("message_id", JStr message_id); ("part_id", JStr part_id)])
          else if negb (Z.eqb (ft_status resp) 200) then ret (proxy_error resp)
          else ret (JSONResponse 200 (attachment_body resp)))
      end
  end.

(** The tenant context is set before the check of the identifier. *)
Definition email_send (agent_ctx : option agent_context) (body : EmailSendRequest) : M response :=
  match agent_ctx with
  | None => ret auth_required
  | Some (AgentContext agent_id tenant_id) =>
      do! set_tenant_context tenant_id false in
      match or_str (em_email_service_id body) (em_service_id body) with
      | None | Some "" => ret (bad_request "Missing required body field: email_service_id (or service_id)")
      | Some input_service_id =>
          with_email_jwt agent_id tenant_id input_service_id true (fun db_esvc_id jwt =>
          let! resp := http_fetch (proxy_request "POST" "messages" db_esvc_id [] (JObj (send_payload body)) jwt) in
          if negb (existsb (Z.eqb (ft_status resp)) [200; 201; 202]%Z) then ret (proxy_error resp)
          else
            let! answer := lift (response_json (ft_json resp)) in
            ret (Response (ft_status resp) answer))
      end
  end.

(** 404, then any other status but 200 and 204, then an empty answer. *)
Definition relay_write (message_id : string) (done_body : dict) (resp : fetched) : M response :=
  if Z.eqb (ft_status resp) 404 then ret (message_not_found message_id)
  else if negb (existsb (Z.eqb (ft_status resp)) [200; 204]%Z) then ret (proxy_error resp)
  else if Z.eqb (ft_status resp) 204 || String.eqb (ft_content resp) "" then ret (JSONResponse 200 done_body)
  else ok_json resp.

Definition email_mark_email (agent_ctx : option agent_context) (body : MarkEmailRequest) : M response :=
  match agent_ctx with
  | None => ret auth_required
  | Some (AgentContext agent_id tenant_id) =>
      match or_str (mk_email_service_id body) (mk_service_id body) with
      | None | Some "" => ret missing_field
      | Some esvc_input =>
          match mk_add body, mk_remove body with
          | [], [] => ret (bad_request "add or remove must be non-empty")
          | _, _ =>
              do! set_tenant_context tenant_id false in
              with_email_jwt agent_id tenant_id esvc_input true (fun db_esvc_id jwt =>
              let proxy_body := _flags_to_proxy_body (mk_add body) (mk_remove body) in
              match proxy_body with
              | [] => ret (bad_request "No recognised IMAP flags in add/remove. Supported: \\Seen, \\Flagged, \\Answered.")
              | _ =>
                  let! resp := http_fetch (proxy_request "PATCH" ("messages/" +:+ mk_message_id body +:+ "/flags") db_esvc_id
                    [("mailbox", mk_mailbox body)] (JObj proxy_body) jwt) in
                  relay_write (mk_message_id body)
                    [("message_id", JStr (mk_message_id body)); ("flags_updated", JBool true)] resp
              end)
          end
      end
  end.

Definition email_move_email (agent_ctx : option agent_context) (body : MoveEmailRequest) : M response :=
  match agent_ctx with
  | None => ret auth_required
  | Some (AgentContext agent_id tenant_id) =>
      match or_str (mv_email_service_id body) (mv_service_id body) with
      | None | Some "" => ret missing_field
      | Some esvc_input =>
          do! set_tenant_context tenant_id false in
          with_email_jwt agent_id tenant_id esvc_input true (fun db_esvc_id jwt =>
          let! resp := http_fetch (proxy_request "POST" ("messages/" +:+ mv_message_id body +:+ "/move") db_esvc_id
            [("mailbox", mv_from_mailbox body)] (JObj [("destination_mailbox", JStr (mv_to_mailbox body))]) jwt) in
          relay_write (mv_message_id body)
            [("message_id", JStr (mv_message_id body)); ("mailbox", JStr (mv_to_mailbox body))] resp)
      end
  end.

Definition email_delete_email (agent_ctx : option agent_context) (message_id : string)
    (email_service_id service_id : option string) (mailbox : string) (hard : bool) : M response :=
  match agent_ctx with
  | None => ret auth_required
  | Some (AgentContext agent_id tenant_id) =>
      match or_str email_service_id service_id with
      | None | Some "" => ret missing_query
      | Some esvc_input =>
          do! set_tenant_context tenant_id false in
          with_email_jwt agent_id tenant_id esvc_input true (fun db_esvc_id jwt =>
          let! resp := http_fetch (if hard
            then proxy_request "DELETE" ("messages/" +:+ message_id) db_esvc_id [("mailbox", mailbox)] JNull jwt
            else proxy_request "POST" ("messages/" +:+ message_id +:+ "/move") db_esvc_id [("mailbox", mailbox)]
                   (JObj [("destination_mailbox", JStr _DEFAULT_TRASH_MAILBOX)]) jwt) in
          if negb hard && existsb (Z.eqb (ft_status resp)) [422; 404]%Z then
            ret (JSONResponse 422 [("code", JStr "mintkey:email_proxy_error"); ("title", JStr trash_hint);
                                   ("detail", JStr (py_take 500 (ft_text resp)))])
          else if Z.eqb (ft_status resp) 404 then ret (message_not_found message_id)
          else if negb (existsb (Z.eqb (ft_status resp)) [200; 204]%Z) then ret (proxy_error resp)
          else ret (EmptyResponse 204))
      end
  end.

(** ** The router *)

Inductive email_tool :=
  | ListMailboxes (email_service_id service_id : option string)
  | ListEmails (email_service_id service_id : option string) (mailbox : string) (limit offset : Z)
  | FetchMessage (message_id : string) (email_service_id service_id : option string) (mailbox : string)
  | SearchMessages (query : string) (email_service_id service_id : option string) (mailbox : string)
  | DownloadAttachment (message_id part_id : string) (email_service_id service_id : option string) (mailbox : string)
  | SendEmail (body : EmailSendRequest)
  | MarkEmail (body : MarkEmailRequest)
  | MoveEmail (body : MoveEmailRequest)
  | DeleteEmail (message_id : string) (email_service_id service_id : option string) (mailbox : string) (hard : bool).

Definition email_tool_handler (ctx : option agent_context) (rq : email_tool) : M response :=
  match rq with
  | ListMailboxes e s => email_list_mailboxes ctx e s
  | ListEmails e s mb limit offset => email_list_emails ctx e s mb limit offset
  | FetchMessage m e s mb => email_fetch_message ctx m e s mb
  | SearchMessages q e s mb => email_search_messages ctx q e s mb
  | DownloadAttachment m p e s mb => email_download_attachment ctx m p e s mb
  | SendEmail body => email_send ctx body
  | MarkEmail body => email_mark_email ctx body
  | MoveEmail body => email_move_email ctx body
  | DeleteEmail m e s mb hard => email_delete_email ctx m e s mb hard
  end.

End EmailTools.

(** ** Lemmas on the pieces *)

(** Decoding the attachment's text gives the bytes the proxy sent. *)
Lemma attachment_roundtrip resp : exists s,
  dict_get "content_base64" (attachment_body resp) = Some (JStr s) /\ b64decode s = Ok (ft_content resp).
Proof. exists (b64encode (ft_content resp)). split; [reflexivity|apply b64_roundtrip]. Qed.

(** A flag is set when added, cleared when removed only, and absent otherwise. *)
Lemma flags_spec add remove field name : In (field, name) [("seen", "seen"); ("answered", "answered"); ("starred", "flagged")] ->
  dict_get field (_flags_to_proxy_body add remove) =
    if existsb (String.eqb name) (flag_names add) then Some (JBool true)
    else if existsb (String.eqb name) (flag_names remove) then Some (JBool false) else None.
Proof.
  unfold _flags_to_proxy_body, flag_field. cbn zeta. generalize (flag_names add) (flag_names remove). intros l k.
  intros [[= <- <-]|[[= <- <-]|[[= <- <-]|[]]]];
    destruct (existsb (String.eqb "seen") l), (existsb (String.eqb "seen") k), (existsb (String.eqb "answered") l),
      (existsb (String.eqb "answered") k), (existsb (String.eqb "flagged") l), (existsb (String.eqb "flagged") k); reflexivity.
Qed.

(** ** Which calls a tool makes *)

#[local] Opaque uuid_str wire UUID db_uuid_to_wire.

Section Calls.
Context `{E : Env} `{V : Vault}.
Context (t a : uuid) (Ht : (t < uuid_limit)%N) (Ha : (a < uuid_limit)%N).
Implicit Types w : world.

(** The agent [a] of tenant [t] holds a grant on the email service [es]. *)
Definition email_access (d : db) (es : email_service_row) : Prop :=
  In es (email_services d) /\ es_tenant_id es = t /\ es_deleted es = false /\
  exists eg, In eg (email_permission_grants d) /\ eg_tenant_id eg = t /\ eg_agent_id eg = a /\
    uuid_str (eg_email_service_id eg) = uuid_str (es_id es).

(** The broker is asked for a token of the service. *)
Definition issue_call (es : email_service_row) : http_request :=
  HttpRequest "POST" (broker_url +:+ "/v1/issue")
    (JObj (all_scopes_payload (uuid_str a) (uuid_str t) (uuid_str (es_id es)))) service_token [].

(** The proxy is called for the service with a token the broker has answered. *)
Definition proxy_call (es : email_service_row) (rq : http_request) : Prop :=
  exists n answer token, env_http n = Ok (200%Z, Some answer) /\ json_get "token" JNull answer = Ok token /\ token <> JNull /\
  exists method path params body, rq = proxy_request method path (uuid_str (es_id es)) params body token.

(** Nothing is called, or the broker for an accessible service, or the broker and then the proxy; and
    an answer below 400 comes from the proxy. *)
Definition tool_calls (d : db) w (ow : outcome response * world) : Prop :=
  exists made, calls (snd ow) = (calls w ++ made)%list /\
    (made = [] \/ exists es, email_access d es /\
       (made = [issue_call es] \/ exists rq, made = [issue_call es; rq] /\ proxy_call es rq)) /\
    ((length made < 2)%nat -> forall r, fst ow = Ok r -> (400 <= status_code r)%Z).

Lemma tool_calls_ret d r w : (400 <= status_code r)%Z -> tool_calls d w (ret r w).
Proof.
  intros H. exists []. split; [by rewrite app_nil_r|]. split; [by left|]. intros _ r' Hr. apply Ok_inj in Hr. by subst r'.
Qed.

Lemma tool_calls_bind {A} d (m : M A) (k : A -> M response) w : silent m ->
  (forall x w1, m w = (Ok x, w1) -> tool_calls d w1 (k x w1)) -> tool_calls d w (bind m k w).
Proof.
  intros Hs Hk. unfold bind. specialize (Hs w). destruct (m w) as [[x|e] w1]; cbn [snd] in Hs.
  - specialize (Hk x w1 eq_refl). unfold tool_calls, calls in *. by rewrite Hs in Hk.
  - exists []. unfold calls. cbn [fst snd]. rewrite Hs, app_nil_r. split; [done|]. split; [by left|]. discriminate.
Qed.

(** What follows the token: nothing but a refusal, or one call of the proxy. *)
Definition proxies (db_esvc_id : string) (jwt : json) w (ow : outcome response * world) : Prop :=
  (calls (snd ow) = calls w /\ forall r, fst ow = Ok r -> (400 <= status_code r)%Z) \/
  exists method path params body, calls (snd ow) = (calls w ++ [proxy_request method path db_esvc_id params body jwt])%list.

Lemma proxies_fetch method path params body db_esvc_id jwt (k : fetched -> M response) w :
  (forall resp, silent (k resp)) ->
  proxies db_esvc_id jwt w (bind (http_fetch (proxy_request method path db_esvc_id params body jwt)) k w).
Proof.
  intros Hk. right. exists method, path, params, body. unfold bind, http_fetch. cbn [w_tick tick].
  destruct (env_fetch _) as [resp|e]; [|done]. unfold calls. by rewrite Hk.
Qed.

Lemma proxies_ret db_esvc_id jwt r w : (400 <= status_code r)%Z -> proxies db_esvc_id jwt w (ret r w).
Proof. intros H. left. split; [done|]. intros r' Hr. apply Ok_inj in Hr. by subst r'. Qed.

Lemma with_jwt_calls input hint k w : in_tenant t w ->
  (forall u jwt w1, proxies u jwt w1 (k u jwt w1)) ->
  tool_calls (w_db w) w (with_email_jwt (uuid_str a) (uuid_str t) input hint k w).
Proof.
  intros T0 Hk. unfold with_email_jwt. apply tool_calls_bind; [apply silent_resolve_email|]. intros u w1 H1.
  destruct u as [u|]; [|apply tool_calls_ret; discriminate].
  destruct (resolve_email_In t Ht input w u w1 T0 H1) as (es & Hes & Est & Edel & Eid).
  destruct (reads_in_tenant _ t _ _ _ (reads_resolve_email _ _) H1 T0) as (T1 & D1 & _). rewrite <- D1 in Hes |- *. clear H1.
  apply tool_calls_bind; [apply silent_lift|]. intros wire w2 H2. apply lift_Ok in H2 as [_ ->].
  rewrite (bound_str a), bind_ret by done. apply tool_calls_bind; [apply silent_bound|]. intros esid w2 H2.
  apply bound_Ok in H2 as [Hesid ->]. apply tool_calls_bind; [apply silent_select|]. intros rows w2 H2.
  destruct (select_in_tenant t _ _ _ _ _ T1 H2) as (T2 & D2 & Hrows).
  destruct (fetchone rows) as [g|] eqn:Eg; [|apply tool_calls_ret; discriminate].
  apply fetchone_In, Hrows in Eg as (Hin & Hb & Hten). apply andb_true_iff in Hb as [B1 B2]. apply N.eqb_eq in B1, B2.
  assert (Hacc : email_access (w_db w1) es).
  { split; [done|]. split; [done|]. split; [done|]. exists g. split; [done|]. split; [by apply Hten|]. split; [done|].
    rewrite B2. by rewrite (bind_uuid_text _ _ Hesid). }
  clear H2 Hrows. unfold _get_email_jwt. rewrite <- Eid. set (url := broker_url +:+ "/v1/issue").
  set (payload := JObj (all_scopes_payload (uuid_str a) (uuid_str t) (uuid_str (es_id es)))).
  unfold bind at 1, bind at 1, http_post. cbn [w_tick tick].
  match goal with |- context [env_http ?n] => set (tickn := n) end.
  match goal with |- context [set_proc ?p ?x] => set (w3 := set_proc p x) end.
  assert (C3 : calls w3 = (calls w2 ++ [issue_call es])%list) by done. clearbody w3.
  assert (Hfail : forall o w4, calls w4 = calls w3 -> (forall r, o = Ok r -> (400 <= status_code r)%Z) -> tool_calls (w_db w1) w2 (o, w4)).
  { intros o w4 C4 Hr. exists [issue_call es]. cbn [fst snd]. rewrite C4, C3. split; [done|].
    split; [right; exists es; split; [done|by left]|]. intros _. exact Hr. }
  destruct (env_http tickn) as [[st content]|e] eqn:Eh; [|by apply Hfail].
  destruct (Z.eqb st 200) eqn:Est200; cbn [negb]; [|by apply Hfail; [|intros r Hr; apply Ok_inj in Hr; subst r]].
  apply Z.eqb_eq in Est200 as ->. unfold bind, lift. destruct content as [answer|]; cbn [response_json]; [|by apply Hfail].
  destruct (json_get "token" JNull answer) as [token|e] eqn:Etok; [|by apply Hfail].
  assert (Hnext : token <> JNull -> tool_calls (w_db w1) w2 (k (uuid_str (es_id es)) token w3)).
  { intros Hne. destruct (Hk (uuid_str (es_id es)) token w3) as [[Hc Hr]|(method & path & params & body & Hc)].
    - destruct (k _ token w3) as [o w4]. by apply Hfail.
    - exists [issue_call es; proxy_request method path (uuid_str (es_id es)) params body token].
      split; [rewrite Hc, C3; by rewrite <- app_assoc|]. split; [|cbn [length]; lia].
      right. exists es. split; [done|]. right. eexists. split; [done|]. exists tickn, answer, token.
      do 3 (split; [done|]). by exists method, path, params, body. }
  destruct token; [by apply Hfail; [|intros r Hr; apply Ok_inj in Hr; subst r]|..]; by apply Hnext.
Qed.

Lemma with_tenant_calls input hint k w : w_admin_view w = false ->
  (forall u jwt w1, proxies u jwt w1 (k u jwt w1)) ->
  tool_calls (w_db w) w ((do! set_tenant_context (uuid_str t) false in
    with_email_jwt (uuid_str a) (uuid_str t) input hint k) w).
Proof.
  intros Hadm Hk. apply tool_calls_bind; [apply silent_set_tenant|]. intros u w1 H1.
  apply set_tenant_start in H1 as (T1 & _ & D1 & _); [|done..]. rewrite <- D1. by apply with_jwt_calls.
Qed.

(** The answers are read without further calls. *)
Lemma silent_ok_json resp : silent (ok_json resp).
Proof. unfold ok_json. repeat silent_step. Qed.
Lemma silent_relay resp : silent (relay resp).
Proof. unfold relay. destruct (negb _); [apply silent_ret|apply silent_ok_json]. Qed.
Lemma silent_relay_write m d resp : silent (relay_write m d resp).
Proof. unfold relay_write. do 3 (destruct (_ : bool); [apply silent_ret|]). apply silent_ok_json. Qed.

Ltac tool_step :=
  match goal with
  | |- tool_calls _ _ (ret _ _) => apply tool_calls_ret; discriminate
  | |- tool_calls _ _ (bind (set_tenant_context _ _) _ _) => apply with_tenant_calls; [done|intros ? ? ?]
  | |- proxies _ _ _ (ret _ _) => apply proxies_ret; discriminate
  | |- proxies _ _ _ (bind (http_fetch _) _ _) => apply proxies_fetch; intros ?
  | |- silent (relay _) => apply silent_relay
  | |- silent (relay_write _ _ _) => apply silent_relay_write
  | |- silent _ => silent_step
  | |- context [match ?x with _ => _ end] => destruct x
  end.

Lemma handler_calls rq w : w_admin_view w = false ->
  tool_calls (w_db w) w (email_tool_handler (Some (AgentContext (uuid_str a) (uuid_str t))) rq w).
Proof.
  intros Hadm. destruct rq as [e s|e s mb l o|m e s mb|q e s mb|m p e s mb|body|body|body|m e s mb hard]; cbn [email_tool_handler].
  - unfold email_list_mailboxes. repeat tool_step.
  - unfold email_list_emails. repeat tool_step.
  - unfold email_fetch_message. repeat tool_step.
  - unfold email_search_messages. repeat tool_step.
  - unfold email_download_attachment. repeat tool_step.
  - unfold email_send. apply tool_calls_bind; [apply silent_set_tenant|]. intros u w1 H1.
    apply set_tenant_start in H1 as (T1 & _ & D1 & _); [|done..]. rewrite <- D1.
    destruct (or_str _ _) as [[|c input]|]; [apply tool_calls_ret; discriminate| |apply tool_calls_ret; discriminate].
    apply with_jwt_calls; [done|]. intros ? ? ?. repeat tool_step.
  - unfold email_mark_email. cbn zeta. repeat tool_step.
  - unfold email_move_email. repeat tool_step.
  - unfold email_delete_email. destruct (or_str e s) as [[|c input]|]; [tool_step| |tool_step].
    apply with_tenant_calls; [done|]. intros ? ? ?. destruct hard; repeat tool_step.
Qed.

(** The handler's calls are those of its transaction. *)
Lemma transaction_tool_calls m w : tool_calls (w_base w) (begin w) (m (begin w)) -> tool_calls (w_base w) w (transaction m w).
Proof.
  intros (made & Hc & Hm & Hr). exists made.
  assert (E1 : calls (snd (transaction m w)) = calls (snd (m (begin w)))) by (unfold calls; by rewrite silent_transaction).
  rewrite E1. split; [exact Hc|]. split; [exact Hm|]. intros Hl r Er. apply (Hr Hl).
  destruct (transaction m w) as [o w'] eqn:Eo. cbn [fst] in Er. subst o. by apply transaction_Ok in Eo as (w1 & -> & _).
Qed.

(** C6: The email tools act only within grants.  Whatever the request, the
    clock and the failures, a tool called by an agent calls nobody, or the
    broker for an email service of the agent's tenant on which the agent has
    a grant, or the broker and then once the email proxy, for the same
    service and with the token the broker answered; and no answer below 400
    comes without the proxy having been called. *)
Theorem email_tools_within_grants rq w :
  tool_calls (w_base w) w (transaction (email_tool_handler (Some (AgentContext (uuid_str a) (uuid_str t))) rq) w).
Proof. apply transaction_tool_calls. exact (handler_calls rq (begin w) eq_refl). Qed.

(** Without a grant on the service it is neither asked for nor called. *)
Lemma ungranted_untouched rq w es :
  (forall eg, In eg (email_permission_grants (w_base w)) -> eg_tenant_id eg = t -> eg_agent_id eg = a ->
     uuid_str (eg_email_service_id eg) <> uuid_str (es_id es)) ->
  exists made, calls (snd (transaction (email_tool_handler (Some (AgentContext (uuid_str a) (uuid_str t))) rq) w)) = (calls w ++ made)%list /\
    ~ In (issue_call es) made /\ forall rq, In rq made -> rq_params rq <> [] -> head (rq_params rq) <> Some ("service_id", uuid_str (es_id es)).
Proof.
  intros Hno. destruct (transaction_tool_calls _ w (handler_calls rq (begin w) eq_refl)) as (made & Hc & Hm & _).
  exists made. split; [exact Hc|]. destruct Hm as [->|(es' & (Hes & _ & _ & eg & Hin & Ht' & Ha' & Hid) & Hm)]; [split; [intros []|intros ? []]|].
  assert (Hne : uuid_str (es_id es') <> uuid_str (es_id es)).
  { intros E'. apply (Hno eg Hin Ht' Ha'). by rewrite Hid. }
  assert (Hissue : issue_call es' <> issue_call es).
  { intros E'. apply Hne. unfold issue_call, all_scopes_payload in E'. congruence. }
  destruct Hm as [->|(rq' & -> & n & ans & token & _ & _ & _ & method & path & params & body & ->)].
  - split; [intros [E'|[]]; by apply Hissue|]. intros r [<- |[]] Hp; by destruct Hp.
  - split.
    + intros [E'|[E'|[]]]; [by apply Hissue|]. apply (f_equal (fun r => rq_params r)) in E'. discriminate E'.
    + intros r [<- |[<- |[]]] Hp; [by destruct Hp|]. cbn. congruence.
Qed.

End Calls.

(** ** Deleting a grant *)

Section Deletion.
Context `{E : Env} `{V : Vault} `{Sha : Sha256}.
Context (t : uuid) (Ht : (t < uuid_limit)%N).
Implicit Types w : world.

Lemma delete_email_grant_Ok grant_id w r w' :
  transaction (delete_email_permission_grant t grant_id) w = (Ok r, w') ->
  exists gid, bind_uuid grant_id = Some gid /\
    email_permission_grants (w_base w') =
      List.filter (fun g => negb (email_grant gid t g)) (email_permission_grants (w_base w)).
Proof.
  intros H. apply transaction_Ok in H as (w1 & H & Hend). unfold delete_email_permission_grant in H.
  step H as u w2 H2. apply set_tenant_start in H2 as (T2 & B2 & D2 & _); [|done..].
  step H as gid w3 H3. apply bound_Ok in H3 as [Hg ->]. rewrite (bound_str t), bind_ret in H by done.
  step H as rows w3 H3. destruct (select_in_tenant t _ _ _ _ _ T2 H3) as (T3 & D3 & _). clear H3.
  step H as n w4 H4. apply delete_eff in H4 as (K4 & _ & pol & Hp & D4 & _). rewrite (it_policy _ _ T3) in Hp.
  apply Ok_inj in Hp. subst pol. cbn zeta in H. pose proof (in_tenant_kept _ _ _ K4 T3) as T4.
  step H as u5 w5 H5. apply audit_emit_eff in H5 as (K5 & _ & e & _ & D5); [|done|apply uuid_opt_none].
  step H as u6 w6 H6. apply notify_eff in H6 as (K6 & _ & D6). apply ret_Ok in H as [_ ->].
  assert (Hx : w_tx w6 = TxActive) by (rewrite (kp_tx _ _ K6), (kp_tx _ _ K5); apply T4).
  rewrite Hx in Hend. subst w'. exists gid. split; [done|].
  change (w_base (committed (tick w6))) with (w_db w6). rewrite D6, D5.
  change (email_permission_grants (append_event t e (w_db w4))) with (email_permission_grants (w_db w4)).
  rewrite D4, D3, D2. unfold delete_db.
  change (w_db (begin w)) with (w_base w).
  match goal with |- email_permission_grants (tb_set _ ?l ?d) = _ => change (email_permission_grants (tb_set email_permission_grants_t l d)) with l end.
  cbn [tb_get email_permission_grants_t tb_cascade no_cascade]. apply filter_ext. intros g. f_equal.
  cbn [sees tb_tenant email_permission_grants_t]. unfold email_grant.
  destruct (N.eqb (eg_tenant_id g) t); [done|by rewrite andb_false_r].
Qed.

(** Deleting a grant cuts the agent off.  After an operator's deletion of
    an agent's grant on an email service has been answered, no tool called by
    that agent asks the broker for a token of the service or calls the email
    proxy for it, until another grant is made. *)
Theorem deleted_email_grant_cuts_off grant_id w r w' eg es rq w2 :
  List.NoDup (map (fun g => (eg_tenant_id g, eg_agent_id g, eg_email_service_id g)) (email_permission_grants (w_base w))) ->
  Forall (fun g => (eg_email_service_id g < uuid_limit)%N) (email_permission_grants (w_base w)) ->
  In eg (email_permission_grants (w_base w)) -> eg_tenant_id eg = t -> bind_uuid grant_id = Some (eg_id eg) ->
  (eg_agent_id eg < uuid_limit)%N -> es_id es = eg_email_service_id eg ->
  transaction (delete_email_permission_grant t grant_id) w = (Ok r, w') ->
  email_permission_grants (w_base w2) = email_permission_grants (w_base w') ->
  exists made, calls (snd (transaction (email_tool_handler (Some (AgentContext (uuid_str (eg_agent_id eg)) (uuid_str t))) rq) w2)) =
      (calls w2 ++ made)%list /\
    ~ In (issue_call t (eg_agent_id eg) es) made /\
    forall c, In c made -> rq_params c <> [] -> head (rq_params c) <> Some ("service_id", uuid_str (es_id es)).
Proof.
  intros Hnd Hlt Hin Hten Hgid Hagent Hes H Hbase. apply delete_email_grant_Ok in H as (gid & Hg & Hdel).
  rewrite Hgid in Hg. injection Hg as <-. apply ungranted_untouched; [done..|].
  intros g Hg Hgt Hga Hid. rewrite Hbase, Hdel in Hg. apply filter_In in Hg as [Hg Hn]. rewrite List.Forall_forall in Hlt.
  rewrite Hes in Hid. apply uuid_str_inj in Hid; [|by apply Hlt..].
  assert (g = eg) as ->.
  { apply (NoDup_key_unique (fun g => (eg_tenant_id g, eg_agent_id g, eg_email_service_id g)) (email_permission_grants (w_base w)));
      [done..|]. congruence. }
  unfold email_grant in Hn. by rewrite N.eqb_refl, Hten, N.eqb_refl in Hn.
Qed.

End Deletion.

(** ** Witnesses *)

Section Witnesses.
#[local] Existing Instance demo_env.
#[local] Existing Instance demo_vault.
#[local] Existing Instance toy_sha256.

Definition tools_service : email_service_row :=
  EmailServiceRow 20 1 "outlook" "Mail" "outlook.office365.com" 993 "smtp.office365.com" 587 "email_oauth2" None 5 false
    1700000000000000 1700000000000000 None.
Definition tools_grant : email_grant_row := EmailGrantRow 30 1 6 20 1700000000000000 1700000000000000.
Definition tools_db : db :=
  tb_set email_permission_grants_t [tools_grant] (tb_set email_services_t [tools_service] demo_db).
Definition tools_world : world :=
  World demo_vault tools_db tools_db TxDone None false [] [] (w_vault demo_world) 0 empty_process.
Definition fetch_tool : email_tool := FetchMessage "5" (Some (wire 20 "svc")) None "INBOX".
Definition calls_made (r : email_tool) (w : world) : nat :=
  length (calls (snd (transaction (email_tool_handler (Some (AgentContext (uuid_str 6) (uuid_str 1))) r) w))).

Lemma email_tools_within_grants_witness :
  calls_made fetch_tool tools_world = 2%nat /\
  tool_calls 1 6 tools_db tools_world
    (transaction (email_tool_handler (Some (AgentContext (uuid_str 6) (uuid_str 1))) fetch_tool) tools_world).
Proof.
  split; [vm_compute; reflexivity|]. exact (email_tools_within_grants 1 6 eq_refl eq_refl fetch_tool tools_world).
Defined.

Abbreviation tools_delete := (transaction (delete_email_permission_grant 1 (uuid_str 30))).

Lemma deleted_email_grant_cuts_off_witness :
  exists made, calls (snd (transaction (email_tool_handler (Some (AgentContext (uuid_str 6) (uuid_str 1))) fetch_tool)
      (snd (tools_delete tools_world)))) = (calls (snd (tools_delete tools_world)) ++ made)%list /\
    ~ In (issue_call 1 6 tools_service) made /\
    forall c, In c made -> rq_params c <> [] -> head (rq_params c) <> Some ("service_id", uuid_str (es_id tools_service)).
Proof.
  destruct (run_returns tools_delete (fun r => Z.eqb (status_code r) 204) tools_world) as (r & Hr & Hrun); [vm_compute; reflexivity|].
  refine (deleted_email_grant_cuts_off 1 eq_refl (uuid_str 30) tools_world r _ tools_grant tools_service fetch_tool _ _ _ _ _ _ _ _ Hrun _).
  - repeat constructor; intros [].
  - repeat constructor.
  - by left.
  - reflexivity.
  - vm_compute. reflexivity.
  - reflexivity.
  - reflexivity.
  - reflexivity.
Defined.

End Witnesses.
