(* ===== verification/Discovery.v ===== *)
(** * Discovery (mcp_server/tools/discovery.py, mcp_server/auth_schemes.py)

    The tools by which an agent learns which services it may call and how:
    the listing of its services, the description of one with the agent's
    constraints and budget, and the OpenAPI document, fetched on demand with
    the entity tag of the last fetch.  Characters beyond Latin-1 of the texts
    are written as their \u escapes; [dq] and [nl] stand for the double quote
    and the line feed. *)

From S2P Require Import Prelude PyStr PyJson PyJsonFacts PyTime Periods PyText WireIds AuditHash AuditChain Constraints.
From S2P Require Import Vault Tables Database Logic PublicUrls Resolve Demo Keys AuditEmit AgentSecrets SecretTools SecretsSafety Permissions.
From S2P Require Import Budgets RequestToken TokenSafety SshTest VaultClient EmailOauth EmailTools.

Local Open Scope string_scope.
Local Open Scope py_scope.

Definition dq : string := String dquote "".

(** ** The table of injection hints (auth_schemes.py) *)

Record hint := Hint {
  ih_injects : string; ih_location : string; ih_never_send : string; ih_handled_by : string; ih_status : string }.

Definition INJECTION_HINTS : list (string * hint) :=
  [("api_key_header", Hint
     ("Proxy sets the API key in a request header. Default header name: X-API-Key. The operator may have "
      +:+ "configured a different header name (e.g. X-Auth-Key).")
     "header"
     ("Do not set your own Authorization header or X-API-Key \u2014 the proxy strips the agent's "
      +:+ "Authorization header and injects the real key.")
     "http-proxy" "injected_by_proxy");
   ("api_key_query", Hint
     ("Proxy adds the API key as a URL query parameter. Default parameter name: api_key. The operator may "
      +:+ "have configured a different name.")
     "query"
     ("Do not set your own Authorization header \u2014 the proxy strips it. Do not include the api_key "
      +:+ "query param yourself; the proxy appends it.")
     "http-proxy" "injected_by_proxy");
   ("bearer_token", Hint
     ("Proxy sets Authorization: Bearer <secret> on the outbound request.")
     "header"
     ("Never send your own Authorization header to the upstream service. The proxy strips the agent's "
      +:+ "Authorization header and replaces it with the real bearer token.")
     "http-proxy" "injected_by_proxy");
   ("basic_auth", Hint
     ("Proxy sets Authorization: Basic <base64(user:pass)> on the outbound request. The credential stored "
      +:+ "in the vault is already in user:pass format; the proxy base64-encodes it before injection.")
     "header"
     ("Never send your own Authorization header to the upstream service. The proxy strips the agent's "
      +:+ "Authorization header and replaces it with the correct Basic auth value.")
     "http-proxy" "injected_by_proxy");
   ("oauth2_client_credentials", Hint
     ("Proxy exchanges the stored client_id/client_secret for a short-lived access token (OAuth2 "
      +:+ "client_credentials grant) and sets Authorization: Bearer <access_token> on the outbound request.")
     "header"
     ("Never send your own Authorization header to the upstream service. The proxy strips the agent's "
      +:+ "Authorization header and replaces it with the exchanged access token.")
     "http-proxy" "injected_by_proxy");
   ("oidc_client_secret", Hint
     ("Proxy sets Authorization: Bearer <id_or_access_token> on the outbound request. The Vault Adapter "
      +:+ "performs the OIDC token exchange using the client secret; the proxy receives the resulting token "
      +:+ "and injects it as a bearer.")
     "header"
     ("Never send your own Authorization header to the upstream service. The proxy strips the agent's "
      +:+ "Authorization header and replaces it with the exchanged OIDC token.")
     "http-proxy" "injected_by_proxy");
   ("mtls", Hint
     ("Nothing \u2014 mTLS is not implemented. Any call to an mTLS service will fail with an error from "
      +:+ "the proxy.")
     "connection"
     ("mTLS is not implemented; the proxy will return an error rather than attempting TLS client "
      +:+ "certificate injection. Do not attempt to call this service via the HTTP proxy.")
     "http-proxy" "not_implemented");
   ("oauth2_password_grant", Hint
     ("Proxy sets Authorization: Bearer <access_token> on the outbound request. The Vault Adapter performs "
      +:+ "the OAuth2 Resource Owner Password Credentials grant; the proxy receives the resulting access token "
      +:+ "and injects it as a bearer.")
     "header"
     ("Never send your own Authorization header to the upstream service. The proxy strips the agent's "
      +:+ "Authorization header and replaces it with the exchanged access token.")
     "http-proxy" "injected_by_proxy");
   ("apple_jwt", Hint
     ("Proxy sets Authorization: Bearer <apple_jwt> on the outbound request. The Vault Adapter generates a "
      +:+ "signed Apple JWT (ES256, p8 key) before each request; the proxy injects it opaquely as a bearer "
      +:+ "token.")
     "header"
     ("Never send your own Authorization header to the upstream service. The proxy strips the agent's "
      +:+ "Authorization header and replaces it with the Vault-generated Apple JWT.")
     "http-proxy" "injected_by_proxy");
   ("google_service_account", Hint
     ("Proxy sets Authorization: Bearer <google_access_token> on the outbound request. The Vault Adapter "
      +:+ "exchanges the service account JSON key for a short-lived Google access token per request (not "
      +:+ "cached in the proxy); the proxy injects it opaquely as a bearer token.")
     "header"
     ("Never send your own Authorization header to the upstream service. The proxy strips the agent's "
      +:+ "Authorization header and replaces it with the Vault-generated Google access token.")
     "http-proxy" "injected_by_proxy");
   ("ssh_private_key", Hint
     ("SSH private key authentication is handled by the Mintkey SSH bastion, not the HTTP proxy. The "
      +:+ "bastion uses the stored private key to authenticate to the backend SSH server.")
     "connection"
     ("Do not route SSH services through the HTTP proxy (Kong) \u2014 it will not work. Use the SSH "
      +:+ "bastion endpoint instead. Do not send the private key yourself; the bastion holds it.")
     "ssh-proxy" "handled_by_other_proxy");
   ("ssh_ca", Hint
     ("SSH CA certificate signing is handled by the Mintkey SSH bastion, not the HTTP proxy. The bastion "
      +:+ "signs a short-lived SSH certificate for the agent and routes the connection to the backend.")
     "connection"
     ("Do not route SSH CA services through the HTTP proxy (Kong). Use the SSH bastion endpoint. Do not "
      +:+ "present your own certificate; the bastion signs one for you.")
     "ssh-proxy" "handled_by_other_proxy");
   ("ssh_password", Hint
     ("SSH password authentication is handled by the Mintkey SSH bastion, not the HTTP proxy. The bastion "
      +:+ "presents the stored password to the backend SSH server.")
     "connection"
     ("Do not route SSH services through the HTTP proxy (Kong). Use the SSH bastion endpoint. Do not send "
      +:+ "the password yourself; the bastion injects it.")
     "ssh-proxy" "handled_by_other_proxy");
   ("email_password", Hint
     ("IMAP/SMTP password authentication is handled by the Mintkey email proxy, not the HTTP proxy. Use "
      +:+ "the email_* MCP tools (email_list_mailboxes, email_send, etc.); the email proxy handles "
      +:+ "authentication with the stored username and password.")
     "out_of_band"
     ("Do not call email services through the HTTP proxy (Kong). Use the email_* MCP tools. Do not send "
      +:+ "the email password yourself.")
     "email-proxy" "handled_by_other_proxy");
   ("email_oauth2", Hint
     ("OAuth2 IMAP/SMTP authentication (Gmail, Outlook) is handled by the Mintkey email proxy, not the "
      +:+ "HTTP proxy. Use the email_* MCP tools; the email proxy exchanges the stored refresh token for an "
      +:+ "access token and authenticates to the mail server.")
     "out_of_band"
     ("Do not call email services through the HTTP proxy (Kong). Use the email_* MCP tools. Do not send "
      +:+ "the OAuth2 token yourself.")
     "email-proxy" "handled_by_other_proxy");
   ("email_app_password", Hint
     ("App-password IMAP/SMTP authentication (e.g. Google App Password) is handled by the Mintkey email "
      +:+ "proxy, not the HTTP proxy. Use the email_* MCP tools; the email proxy authenticates with the stored "
      +:+ "app password.")
     "out_of_band"
     ("Do not call email services through the HTTP proxy (Kong). Use the email_* MCP tools. Do not send "
      +:+ "the app password yourself.")
     "email-proxy" "handled_by_other_proxy");
   ("http_digest", Hint
     ("Proxy performs HTTP Digest authentication (RFC 2617) using the stored public/private key pair "
      +:+ "(public key = username, private key = password). The proxy answers the upstream's challenge and "
      +:+ "sets the resulting Authorization: Digest header on the outbound request per request.")
     "header"
     ("Never send your own Authorization header to the upstream service. The proxy strips the agent's "
      +:+ "Authorization header and performs the Digest handshake with the stored key pair itself.")
     "http-proxy" "injected_by_proxy")].

Definition injection_hint (auth_scheme : string) : option hint :=
  snd <$> List.find (fun kv => String.eqb (fst kv) auth_scheme) INJECTION_HINTS.

Definition hint_json (h : hint) : json :=
  JObj [("injects", JStr (ih_injects h)); ("location", JStr (ih_location h)); ("never_send", JStr (ih_never_send h));
        ("handled_by", JStr (ih_handled_by h)); ("status", JStr (ih_status h))].

(** ** Texts (discovery.py) *)

Definition _INSTRUCTIONS_MARKDOWN : string :=
  "# Mintkey Proxy \u2014 Agent Usage Guide" +:+ nl +:+ nl
  +:+ "You are an agent with access to backend services via the Mintkey credential proxy." +:+ nl
  +:+ "Your API key is secret \u2014 never log or share it." +:+ nl +:+ nl
  +:+ "## Step 1: Discover available services" +:+ nl +:+ "GET /v1/tools/discover" +:+ nl
  +:+ "Header: X-API-Key: <your_api_key>" +:+ nl +:+ nl
  +:+ "Returns a list of services you are permitted to call. Note the `id` and `base_url` for the service "
  +:+ "you want to use." +:+ nl +:+ nl +:+ "## Step 2: Request a temporary token" +:+ nl
  +:+ "POST /v1/tools/request_token" +:+ nl +:+ "Header: X-API-Key: <your_api_key>" +:+ nl +:+ "Body: {" +:+ dq
  +:+ "service_id" +:+ dq +:+ ": " +:+ dq +:+ "<id_from_discover>" +:+ dq +:+ ", " +:+ dq +:+ "action" +:+ dq +:+ ": "
  +:+ dq +:+ "call" +:+ dq +:+ "}" +:+ nl +:+ nl
  +:+ "IMPORTANT: the action string must match what was granted to your agent. Use " +:+ dq +:+ "call" +:+ dq
  +:+ " unless your operator" +:+ nl +:+ "explicitly told you a different action (e.g. " +:+ dq +:+ "send" +:+ dq
  +:+ "). When in doubt, use " +:+ dq +:+ "call" +:+ dq +:+ " \u2014 it is the default action" +:+ nl
  +:+ "granted to most agents. If you get permission_not_found, try " +:+ dq +:+ "call" +:+ dq
  +:+ " before assuming access is missing." +:+ nl +:+ nl +:+ "Returns: {" +:+ dq +:+ "token" +:+ dq +:+ ": " +:+ dq
  +:+ "<jwt>" +:+ dq +:+ ", " +:+ dq +:+ "expires_at" +:+ dq +:+ ": <unix_timestamp>, " +:+ dq +:+ "service_id" +:+ dq
  +:+ ": " +:+ dq +:+ "..." +:+ dq +:+ "}" +:+ nl +:+ "The token is valid for 10 minutes. Never log it." +:+ nl +:+ nl
  +:+ "## Step 3: Call the service through the proxy" +:+ nl +:+ "METHOD <proxy_url>/v1/call/<service_id>/<path>"
  +:+ nl +:+ "Header: Authorization: Bearer <token_from_step_2>" +:+ nl +:+ nl
  +:+ "The `proxy_url` value is announced in the bootstrap response (`GET /v1/tools/bootstrap`)" +:+ nl
  +:+ "and is also embedded in each service's `how_to_call.proxy_url_pattern` (returned by" +:+ nl
  +:+ "`discover` and `list_services`). Use the value the server gives you \u2014 do not assume" +:+ nl
  +:+ "localhost." +:+ nl +:+ nl +:+ "Rules:" +:+ nl
  +:+ "- The path after /v1/call/<service_id>/ is forwarded verbatim to the target service." +:+ nl
  +:+ "- The proxy already knows the target URL from the registered service base_url \u2014 no extra "
  +:+ "header needed." +:+ nl
  +:+ "- The proxy strips your Authorization header and injects the real service credential automatically." +:+ nl
  +:+ "- You never see the actual API key/password \u2014 the proxy holds it encrypted." +:+ nl
  +:+ "- If you get 401 from the proxy, your token has expired \u2014 repeat from Step 2." +:+ nl
  +:+ "- If you get 403 from the proxy, your agent lacks permission for this service \u2014 contact the "
  +:+ "operator." +:+ nl +:+ nl
  +:+ "For complete usage examples, call the bootstrap tool (GET /v1/tools/bootstrap \u2014 no auth "
  +:+ "required) to retrieve the authoritative agent-bootstrap.md skill." +:+ nl +:+ nl +:+ "## Vanilla MCP clients"
  +:+ nl +:+ nl
  +:+ "Standard MCP-over-HTTP (JSON-RPC 2.0) is available at `POST /mcp` (and `/`, `/v1/mcp`). Send the "
  +:+ "JSON-RPC envelope `{" +:+ dq +:+ "jsonrpc" +:+ dq +:+ ":" +:+ dq +:+ "2.0" +:+ dq +:+ "," +:+ dq +:+ "id"
  +:+ dq +:+ ":1," +:+ dq +:+ "method" +:+ dq +:+ ":" +:+ dq +:+ "initialize" +:+ dq
  +:+ ",...}` to start. See `GET /` for the full endpoint index." +:+ nl.

Definition _BUILTIN_CAPABILITIES : string :=
  "Built-in tools: secrets (secret_put/secret_get/secret_list/secret_delete), "
  +:+ "mintkey_describe_service, mintkey_get_openapi, email_*. Full list: tools/list.".

Definition _OPENAPI_MAX_BYTES : Z := 1024 * 1024.

Definition _connect_type (auth_scheme : string) : string :=
  if existsb (String.eqb auth_scheme) _SSH_AUTH_SCHEMES then "ssh" else "http".

Definition scheme_details (injection_point : string) (header_name query_param : json) (format : string) : dict :=
  [("injection_point", JStr injection_point); ("header_name", header_name); ("query_param", query_param);
   ("format", JStr format)].

Definition _make_auth_scheme_details (auth_scheme : string) : dict :=
  match injection_hint auth_scheme with
  | None => scheme_details "unknown" JNull JNull "unknown scheme"
  | Some h =>
      if String.eqb (ih_status h) "not_implemented" then
        scheme_details (ih_location h) JNull JNull "not_implemented \u2014 proxy returns an error for this scheme"
      else if String.eqb (ih_status h) "handled_by_other_proxy" then
        scheme_details (ih_location h) JNull JNull ("handled by " +:+ ih_handled_by h +:+ " \u2014 not the HTTP proxy")
      else if String.eqb auth_scheme "api_key_header" then scheme_details "header" (JStr "X-API-Key") JNull "<raw_key>"
      else if String.eqb auth_scheme "api_key_query" then scheme_details "query" JNull (JStr "api_key") "<raw_key>"
      else if String.eqb auth_scheme "basic_auth" then
        scheme_details "header" (JStr "Authorization") JNull "Basic base64(user:pass)"
      else scheme_details "header" (JStr "Authorization") JNull "Bearer <token>"
  end.

(** The constraints as a dict, where they parse; [get] raises on what parses to something else. *)
Definition constraints_dict (constraints_raw : json) : json :=
  match constraints_raw with
  | JObj d => JObj d
  | JStr s => default (JObj []) (loads s)
  | _ => JObj []
  end.

Definition _make_your_constraints (constraints_raw : json) (budget_info : json) : outcome dict :=
  let c := constraints_dict constraints_raw in
  rate_limit ← json_get "rate_limit" JNull c;
  time_window ← json_get "time_window" JNull c;
  request_path_prefix ← json_get "request_path_prefix" JNull c;
  source_ip_allowlist ← json_get "source_ip_allowlist" JNull c;
  Ok [("rate_limit", rate_limit); ("time_window", time_window); ("request_path_prefix", request_path_prefix);
      ("source_ip_allowlist", source_ip_allowlist); ("budget", budget_info)].

(** The end of the period at [now], as the tool computes it; of an unknown period, [now] itself. *)
Definition fresh_period_end (period : json) (now : Z) : outcome Z :=
  match period with
  | JStr p =>
      if String.eqb p "hourly" then add_timedelta (replace_hour now) us_per_hour
      else if String.eqb p "daily" then add_timedelta (replace_midnight now) us_per_day
      else if String.eqb p "weekly" then
        monday ← add_timedelta now (- (weekday now * us_per_day)); add_timedelta (replace_midnight monday) (7 * us_per_day)
      else if String.eqb p "monthly" then
        let '(year, month, _) := ymd now in
        add_timedelta (replace_first now) (days_in_month (is_leap year) month * us_per_day)
      else Ok now
  | _ => Ok now
  end.

(** [now BETWEEN period_start AND period_end], both ends included. *)
Definition between (now : Z) (b : counter_row) : bool :=
  (Z.leb (b_period_start b) now && Z.leb now (b_period_end b))%bool.
Definition latest_end : list counter_row -> list counter_row :=
  sort_by (fun a b => Z.leb (b_period_end b) (b_period_end a)).

(** The status of a budget from its configuration and the counter of the period; [now] is read only
    without a counter.  Python prints a naive time and appends the Z. *)
Definition budget_status (budget_cfg : json) (counter_row : option counter_row) (now : Z) : outcome dict :=
  ceiling ← json_item "ceiling" budget_cfg;
  period ← json_item "period" budget_cfg;
  alert_thresholds ← thresholds_of budget_cfg;
  '(used, period_end) ← (match counter_row with
                         | Some c => Ok (b_used c, b_period_end c)
                         | None => e ← fresh_period_end period now; Ok (0%Z, e)
                         end);
  remaining ← remaining_of ceiling used;
  Ok [("ceiling", ceiling); ("period", period); ("used", JInt used); ("remaining", JInt remaining);
      ("period_end", JStr (iso_local period_end +:+ "Z")); ("alert_thresholds", alert_thresholds)].

Section Hints.
Context `{E : Env}.

Definition _ssh_agent_connection_guide : dict :=
  let '(ext_host, port) := resolve_ssh_proxy_public_host in
  let ext_port := py_str_int port in
  [("summary", JStr "This service is accessed via the Mintkey SSH bastion, not the HTTP proxy.");
   ("steps", JArr
     [JStr "1. Call request_token({service_id, action: 'call'}) to get a JWT.";
      JStr ("2. SSH to the bastion: ssh -p " +:+ ext_port +:+ " <agent_id>@" +:+ ext_host);
      JStr "3. Use the JWT (from step 1) as the SSH PASSWORD when prompted.";
      JStr ("4. The bastion validates the JWT, fetches the stored credential from the vault, "
            +:+ "and routes you to the real target.")]);
   ("example_command_template", JStr
     ("sshpass -p " +:+ dq +:+ "$JWT" +:+ dq +:+ " ssh -p " +:+ ext_port +:+ " -o PreferredAuthentications=password "
      +:+ "-o PubkeyAuthentication=no <agent_id>@" +:+ ext_host +:+ " '<your-command>'"));
   ("do_not", JArr
     [JStr "Do not route through Kong (HTTP-only).";
      JStr "Do not store the JWT \u2014 it expires in ~10 minutes.";
      JStr ("Do not attempt agent forwarding (-A), X11 (-X), or local port forwarding (-L) "
            +:+ "\u2014 the bastion rejects them.")]);
   ("lifetime_seconds", JInt 600)].

Definition request_token_step (id : string) : string :=
  "POST /v1/tools/request_token {" +:+ dq +:+ "service_id" +:+ dq +:+ ": " +:+ dq +:+ id +:+ dq +:+ ", "
  +:+ dq +:+ "action" +:+ dq +:+ ": " +:+ dq +:+ "call" +:+ dq +:+ "}".

Definition _make_email_how_to_call (email_service_id : string) : dict :=
  [("step1_request_token", JStr (request_token_step email_service_id));
   ("step2_list_mailboxes", JStr ("GET /v1/tools/email_list_mailboxes?email_service_id=" +:+ email_service_id));
   ("step3_send_email", JStr "POST /v1/tools/email_send \u2014 body: {email_service_id, to, subject, body}");
   ("notes", JStr ("For email services, use the email_* MCP tools directly \u2014 they handle "
      +:+ "broker token exchange internally. Alternatively, call request_token to get a JWT, then call email-proxy "
      +:+ "endpoints directly with ?service_id=<id>."))].

Definition _make_how_to_call (service_id auth_scheme : string) : dict :=
  ([("action", JStr "call"); ("step1_request_token", JStr (request_token_step service_id));
    ("step2_proxy_call", JStr "Send request to proxy with Authorization: Bearer <token>");
    ("proxy_url_pattern", JStr (resolve_proxy_public_url +:+ "/v1/call/" +:+ service_id +:+ "/<path_on_target_api>"));
    ("notes", JStr ("The action defaults to " +:+ dq +:+ "call" +:+ dq +:+ " for all services. "
       +:+ "Use the action string your operator granted you \u2014 if unsure, try " +:+ dq +:+ "call" +:+ dq +:+ ". "
       +:+ "The proxy strips your Bearer token and injects the real credential before forwarding. "
       +:+ "No X-Mintkey-Target header is needed \u2014 the target URL is stored with the credential. "
       +:+ "Call describe_service for full auth details and your permission constraints."))]
   ++ if String.eqb auth_scheme "" then []
      else match injection_hint auth_scheme with Some h => [("injection_hint", hint_json h)] | None => [] end)%list.

End Hints.

Definition service_json (s : service_row) : dict :=
  [("id", JStr (wire (s_id s) "svc")); ("name", JStr (s_name s)); ("slug", JStr (s_slug s));
   ("base_url", JStr (s_base_url s)); ("auth_scheme", JStr (s_auth_scheme s));
   ("connect_type", JStr (_connect_type (s_auth_scheme s))); ("kind", JStr "service")].
Definition email_service_json (s : email_service_row) : dict :=
  [("id", JStr (wire (es_id s) "svc")); ("name", JStr (es_name s)); ("imap_host", JStr (es_imap_host s));
   ("smtp_host", JStr (es_smtp_host s)); ("auth_scheme", JStr (es_auth_scheme s));
   ("allowed_recipient_domains", opt_json (es_allowed_recipient_domains s)); ("connect_type", JStr "email");
   ("kind", JStr "email_service")].

Definition no_grants_hint : string :=
  "You have no permission grants on any service. Ask your operator to add a Permission Grant in the admin UI: "
  +:+ "Permissions > New > pick this agent + a service + action.".
Definition no_grants_hint_long : string :=
  no_grants_hint +:+ " Once you have services, call discover for how_to_call hints or "
  +:+ "describe_service/{service_id} for full auth details and constraints.".
Definition granted_hint : string :=
  "Call discover for per-service how_to_call hints, or "
  +:+ "describe_service/{service_id} for full auth details, constraints, and OpenAPI availability.".

(** The answer of [get_openapi] when there is nothing to give. *)
Definition fetch_failed (openapi_url reason : string) : response :=
  JSONResponse 200 [("kind", JStr "fetch_failed"); ("openapi_url", JStr openapi_url); ("reason", JStr reason)].

(** [httpx.RequestError] and its subclasses *)
Definition is_request_error (e : exn) : bool :=
  is_http_error e && negb (existsb (String.eqb (exn_class e)) ["HTTPError"; "HTTPStatusError"]).

Definition set_etag (etag : string) (s : service_row) : service_row :=
  ServiceRow (s_id s) (s_tenant_id s) (s_name s) (s_slug s) (s_display_name s) (s_description s) (s_base_url s)
    (s_auth_scheme s) (s_openapi_url s) (s_status s) (s_template_id s) (s_created_at s) (s_updated_at s)
    (s_current_key_version s) (Some etag).

(** [str(exc)] of an exception of the HTTP client. *)
Class Httpx := { exc_text : exn -> string }.

Section Discovery.
Context `{E : Env} `{V : Vault} `{Hx : Httpx}.

(** [SELECT DISTINCT s.* FROM services s JOIN permission_grants pg ON pg.service_id = s.id WHERE
    pg.agent_id = .. ]: a service once, whatever the number of its grants. *)
Definition granted_services (agent_id : string) : M (list service_row) :=
  let! aid := bound agent_id in
  query (fun pol d => List.filter (fun s => existsb (fun g => N.eqb (g_service_id g) (s_id s) && N.eqb (g_agent_id g) aid)
                                              (visible permission_grants_t pol d)) (visible services_t pol d)).

Definition granted_email_services (agent_id : string) : M (list email_service_row) :=
  let! aid := bound agent_id in
  query (fun pol d => List.filter (fun s => existsb (fun g => N.eqb (eg_email_service_id g) (es_id s) && N.eqb (eg_agent_id g) aid)
                                              (visible email_permission_grants_t pol d) && negb (es_deleted s))
                        (visible email_services_t pol d)).

Definition is_empty {A} (l : list A) : bool := match l with [] => true | _ => false end.

Definition list_services (agent_ctx : option agent_context) : M response :=
  match agent_ctx with
  | None => ret auth_required
  | Some (AgentContext agent_id tenant_id) =>
      do! set_tenant_context tenant_id false in
      let! rows := granted_services agent_id in
      let! email_rows := granted_email_services agent_id in
      let all_services := (map (fun s => JObj (service_json s)) rows ++ map (fun s => JObj (email_service_json s)) email_rows)%list in
      ret (JSONResponse 200
        [("services", JArr all_services); ("capabilities", JStr _BUILTIN_CAPABILITIES);
         ("hint", JStr (if is_empty all_services then no_grants_hint_long else granted_hint))])
  end.

Definition discover (agent_ctx : option agent_context) : M response :=
  match agent_ctx with
  | None => ret auth_required
  | Some (AgentContext agent_id tenant_id) =>
      do! set_tenant_context tenant_id false in
      let! rows := granted_services agent_id in
      let! email_rows := granted_email_services agent_id in
      let all_services :=
        (map (fun s => JObj (service_json s
           ++ [("how_to_call", JObj (_make_how_to_call (wire (s_id s) "svc") (s_auth_scheme s)))])%list) rows
         ++ map (fun s => JObj (email_service_json s
           ++ [("how_to_call", JObj (_make_email_how_to_call (wire (es_id s) "svc")))])%list) email_rows)%list in
      ret (JSONResponse 200
        ([("services", JArr all_services); ("capabilities", JStr _BUILTIN_CAPABILITIES)]
         ++ if is_empty all_services then [("hint", JStr no_grants_hint)] else [])%list)
  end.

Definition instructions : M response :=
  ret (JSONResponse 200 [("format", JStr "markdown"); ("content", JStr _INSTRUCTIONS_MARKDOWN)]).

(** [sql_now] is the start of the transaction. *)
Definition _fetch_budget_info (sql_now : Z) (permission_id : string) (constraints_raw : json) : M json :=
  let! budget_cfg := lift (json_get "budget" JNull (constraints_dict constraints_raw)) in
  if negb (truthy budget_cfg) then ret JNull
  else
    let! pid := bound permission_id in
    let! rows := select budget_counters_t (fun b => N.eqb (b_permission_id b) pid && between sql_now b) in
    let! now := now_utc in
    let! status := lift (budget_status budget_cfg (fetchone (latest_end rows)) now) in
    ret (JObj status).

(** [ORDER BY (action = 'call') DESC, created_at DESC] *)
Definition call_first : list grant_row -> list grant_row :=
  sort_by (fun a b =>
    let ca := String.eqb (g_action a) "call" in let cb := String.eqb (g_action b) "call" in
    if Bool.eqb ca cb then Z.leb (g_created_at b) (g_created_at a) else ca).

Definition describe_service (agent_ctx : option agent_context) (service_id : string) : M response :=
  match agent_ctx with
  | None => ret auth_required
  | Some (AgentContext agent_id tenant_id) =>
      let! sql_now := transaction_timestamp in
      do! set_tenant_context tenant_id false in
      resolve_or_404 (resolve_service_id service_id tenant_id) (fun db_service_uuid =>
      let db_service_id := uuid_str db_service_uuid in
      let! sid := bound db_service_id in
      let! rows := select services_t (fun s => N.eqb (s_id s) sid) in
      match fetchone rows with
      | None => ret (JSONResponse 404 [("code", JStr "mintkey:not_found")])
      | Some row =>
          let! aid := bound agent_id in
          let! grants := select permission_grants_t (fun g => N.eqb (g_agent_id g) aid && N.eqb (g_service_id g) sid) in
          let constraints_row := fetchone (call_first grants) in
          let constraints_raw := match constraints_row with Some g => from_jsonb (g_constraints g) | None => JNull end in
          let! budget_info := match constraints_row with
                              | Some g => _fetch_budget_info sql_now (uuid_str (g_id g)) constraints_raw
                              | None => ret JNull
                              end in
          let ct := _connect_type (s_auth_scheme row) in
          let wire_id := wire (s_id row) "svc" in
          let! your_constraints := lift (_make_your_constraints constraints_raw budget_info) in
          let service_payload :=
            ([("id", JStr wire_id); ("name", JStr (s_name row)); ("slug", JStr (s_slug row)); ("base_url", JStr (s_base_url row));
              ("auth_scheme", JStr (s_auth_scheme row)); ("description", opt_json (s_description row));
              ("openapi_url", opt_json (s_openapi_url row)); ("connect_type", JStr ct);
              ("explicit_proxy_url", JStr (resolve_proxy_public_url +:+ "/v1/call/" +:+ wire_id));
              ("auth_scheme_details", JObj (_make_auth_scheme_details (s_auth_scheme row)));
              ("your_constraints", JObj your_constraints);
              ("openapi", JObj [("status", JStr (if blank (s_openapi_url row) then "not_registered" else "available"));
                                ("url", opt_json (s_openapi_url row))])]
             ++ if String.eqb ct "ssh" then [("agent_connection_guide", JObj _ssh_agent_connection_guide)] else [])%list in
          ret (JSONResponse 200 [("service", JObj service_payload)])
      end)
  end.

Definition openapi_at_url (openapi_url : string) (openapi_etag : option string) : response :=
  JSONResponse 200 [("kind", JStr "url"); ("openapi_url", JStr openapi_url); ("etag", opt_json openapi_etag)].

(** The reading of an answer with status 200. *)
Definition openapi_document (sid : uuid) (openapi_url : string) (openapi_etag : option string) (resp : fetched) : M response :=
  let content_length_header := header "content-length" "" resp in
  let announced := if String.eqb content_length_header "" then None else py_int10 content_length_header in
  if match announced with Some n => Z.ltb _OPENAPI_MAX_BYTES n | None => false end then
    ret (fetch_failed openapi_url ("document exceeds 1 MiB (content-length=" +:+ content_length_header +:+ ")"))
  else
    let size := Z.of_nat (py_len (ft_content resp)) in
    if Z.ltb _OPENAPI_MAX_BYTES size then
      ret (fetch_failed openapi_url ("document exceeds 1 MiB (" +:+ py_str_int size +:+ " bytes)"))
    else
      let etag := header "etag" "" resp in
      let new_etag := if String.eqb etag "" then openapi_etag else Some etag in
      do! match new_etag with
          | None | Some "" => ret tt
          | Some e =>
              if bool_decide (openapi_etag = Some e) then ret tt
              else catch (update_where services_t (fun s => N.eqb (s_id s) sid) (set_etag e)) (fun _ => ret tt)
          end in
      ret (JSONResponse 200
        [("kind", JStr "inline");
         ("content_type", JStr (if py_in "yaml" (header "content-type" "" resp) then "application/yaml" else "application/json"));
         ("etag", opt_json new_etag); ("document", JStr (ft_text resp))]).

Definition get_openapi (agent_ctx : option agent_context) (service_id : string) (inline : bool) : M response :=
  match agent_ctx with
  | None => ret auth_required
  | Some (AgentContext agent_id tenant_id) =>
      do! set_tenant_context tenant_id false in
      resolve_or_404 (resolve_service_id service_id tenant_id) (fun db_service_uuid =>
      let! sid := bound (uuid_str db_service_uuid) in
      let! rows := select services_t (fun s => N.eqb (s_id s) sid) in
      match fetchone rows with
      | None => ret (JSONResponse 404 [("code", JStr "mintkey:not_found")])
      | Some row =>
          let openapi_etag := s_openapi_etag row in
          match s_openapi_url row with
          | None | Some "" =>
              ret (JSONResponse 200
                [("kind", JStr "not_registered");
                 ("hint", JStr ("The operator has not set an openapi_url for this service. "
                    +:+ "Set it via PATCH /v1/tenants/{tenant_id}/services/{service_id} "
                    +:+ "or the admin UI service registration form."))])
          | Some openapi_url =>
              if negb inline then ret (openapi_at_url openapi_url openapi_etag)
              else
                let fetch_headers := match openapi_etag with None | Some "" => [] | Some e => [("If-None-Match", e)] end in
                let! answer := catch
                  (let! resp := http_fetch (HttpRequest "GET" openapi_url JNull fetch_headers []) in ret (inl resp))
                  (fun e => ret (inr (if is_request_error e then py_take 200 (exc_text e)
                                      else "unexpected error: " +:+ exn_class e))) in
                match answer with
                | inr reason => ret (fetch_failed openapi_url reason)
                | inl resp =>
                    if Z.eqb (ft_status resp) 304 then ret (openapi_at_url openapi_url openapi_etag)
                    else if negb (Z.eqb (ft_status resp) 200) then
                      ret (fetch_failed openapi_url ("upstream returned HTTP " +:+ py_str_int (ft_status resp)))
                    else openapi_document sid openapi_url openapi_etag resp
                end
          end
      end)
  end.

End Discovery.

(** ** The table and the computed periods *)

(** Every scheme the vault client knows has a hint, except the client credentials of an OAuth2
    provider; and every hint is for a scheme it knows. *)
Lemma hints_cover scheme :
  (exists h, injection_hint scheme = Some h) <-> (In scheme (map fst _AUTH_SCHEME_MAP) /\ scheme <> "email_oauth2_client").
Proof.
  assert (Hk : forall k, (exists h, injection_hint k = Some h) <-> In k (map fst INJECTION_HINTS)).
  { intros k. unfold injection_hint. split.
    - intros (h & H). destruct (List.find _ _) as [kv|] eqn:Hf; [|discriminate H]. apply List.find_some in Hf as [Hin He].
      apply String.eqb_eq in He. subst k. by apply in_map.
    - intros H. apply in_map_iff in H as (kv & <- & Hin). destruct (List.find _ _) as [kv'|] eqn:Hf; [by exists (snd kv')|].
      apply (List.find_none _ _ Hf) in Hin. by rewrite String.eqb_refl in Hin. }
  assert (Hb : forallb (fun k => existsb (String.eqb k) (map fst _AUTH_SCHEME_MAP) && negb (String.eqb k "email_oauth2_client"))
    (map fst INJECTION_HINTS) = true) by (vm_compute; reflexivity).
  assert (Hc : forallb (fun k => existsb (String.eqb k) (map fst INJECTION_HINTS) || String.eqb k "email_oauth2_client")
    (map fst _AUTH_SCHEME_MAP) = true) by (vm_compute; reflexivity).
  rewrite Hk. rewrite forallb_forall in Hb, Hc. split.
  - intros H. apply Hb, andb_true_iff in H as [H1 H2]. apply existsb_exists in H1 as (k & Hin & He).
    apply String.eqb_eq in He as ->. apply negb_true_iff, String.eqb_neq in H2. done.
  - intros [H Hne]. apply Hc, orb_true_iff in H as [H|H]; [|by apply String.eqb_eq in H].
    apply existsb_exists in H as (k & Hin & He). by apply String.eqb_eq in He as ->.
Qed.

(** The period's end computed here is that of the admin API. *)
Lemma fresh_period_end_bounds p now : In p budget_periods ->
  fresh_period_end (JStr p) now = (b ← bounds_of (JStr p) now; Ok (snd b)).
Proof.
  intros H. cbn [fresh_period_end bounds_of]. unfold _budget_period_bounds. cbn [In budget_periods] in H.
  destruct H as [<- |[<- |[<- |[<- |[]]]]]; cbn [String.eqb Ascii.eqb Bool.eqb].
  - by destruct (add_timedelta _ _).
  - by destruct (add_timedelta _ _).
  - destruct (add_timedelta now _) as [m|]; [|done]. cbn [mbind outcome_bind]. by destruct (add_timedelta _ _).
  - destruct (ymd now) as [[y m] d]. by destruct (add_timedelta _ _).
Qed.

#[local] Opaque uuid_str wire UUID db_uuid_to_wire.

Section Listing.
Context `{E : Env} `{V : Vault} `{Sha : Sha256} `{Hx : Httpx}.
Context (t a : uuid) (Ht : (t < uuid_limit)%N) (Ha : (a < uuid_limit)%N).
Implicit Types w : world.

(** The services of the tenant on which the agent has a grant. *)
Definition services_of (d : db) : list service_row :=
  List.filter (fun s => N.eqb (s_tenant_id s) t && existsb (fun g =>
    N.eqb (g_tenant_id g) t && (N.eqb (g_service_id g) (s_id s) && N.eqb (g_agent_id g) a)) (permission_grants d)) (services d).
Definition email_services_of (d : db) : list email_service_row :=
  List.filter (fun s => N.eqb (es_tenant_id s) t && (existsb (fun g =>
    N.eqb (eg_tenant_id g) t && (N.eqb (eg_email_service_id g) (es_id s) && N.eqb (eg_agent_id g) a))
      (email_permission_grants d) && negb (es_deleted s))) (email_services d).

Lemma granted_services_run w l w' : in_tenant t w -> granted_services (uuid_str a) w = (Ok l, w') ->
  in_tenant t w' /\ kept w w' /\ w_db w' = w_db w /\ l = services_of (w_db w).
Proof.
  intros T0 H. unfold granted_services in H. rewrite (bound_str a), bind_ret in H by done.
  apply query_eff in H as (K & _ & D & pol & Hp & ->). rewrite (it_policy _ _ T0) in Hp. apply Ok_inj in Hp. subst pol.
  split; [by eapply in_tenant_kept|]. split; [done|]. split; [done|]. unfold services_of, visible.
  rewrite filter_filter. apply filter_ext. intros s. rewrite existsb_filter. rewrite andb_comm.
  cbn [sees tb_tenant services_t]. rewrite orb_false_r. f_equal. apply existsb_ext. intros g.
  cbn [sees tb_tenant permission_grants_t]. by rewrite orb_false_r.
Qed.

Lemma granted_email_run w l w' : in_tenant t w -> granted_email_services (uuid_str a) w = (Ok l, w') ->
  in_tenant t w' /\ kept w w' /\ w_db w' = w_db w /\ l = email_services_of (w_db w).
Proof.
  intros T0 H. unfold granted_email_services in H. rewrite (bound_str a), bind_ret in H by done.
  apply query_eff in H as (K & _ & D & pol & Hp & ->). rewrite (it_policy _ _ T0) in Hp. apply Ok_inj in Hp. subst pol.
  split; [by eapply in_tenant_kept|]. split; [done|]. split; [done|]. unfold email_services_of, visible.
  rewrite filter_filter. apply filter_ext. intros s. rewrite existsb_filter. rewrite andb_comm.
  cbn [sees tb_tenant email_services_t]. rewrite orb_false_r. do 2 f_equal. apply existsb_ext. intros g.
  cbn [sees tb_tenant email_permission_grants_t]. by rewrite orb_false_r.
Qed.

Definition listed (d : db) : list json :=
  (map (fun s => JObj (service_json s)) (services_of d) ++ map (fun s => JObj (email_service_json s)) (email_services_of d))%list.

Lemma list_services_run w r w' :
  transaction (list_services (Some (AgentContext (uuid_str a) (uuid_str t)))) w = (Ok r, w') ->
  w_base w' = w_base w /\ exists hint, r = JSONResponse 200
    [("services", JArr (listed (w_base w))); ("capabilities", JStr _BUILTIN_CAPABILITIES); ("hint", JStr hint)].
Proof.
  intros H. apply transaction_Ok in H as (w1 & H & Hend). unfold list_services in H.
  step H as u w2 H2. apply set_tenant_start in H2 as (T2 & B2 & D2 & _); [|done..].
  step H as rows w3 H3. apply granted_services_run in H3 as (T3 & K3 & D3 & ->); [|done].
  step H as erows w4 H4. apply granted_email_run in H4 as (T4 & K4 & D4 & ->); [|done].
  cbn zeta in H. apply ret_Ok in H as [-> ->]. rewrite (it_tx _ _ T4) in Hend. subst w'.
  change (w_base (committed (tick w4))) with (w_db w4). rewrite D4, D3, D2. split; [done|].
  change (w_db (begin w)) with (w_base w). eexists. reflexivity.
Qed.

(** The listing is exactly what was granted.  A listing that is answered
    shows, in the order of the tables, each service and each live email
    service of the agent's tenant on which the agent has at least one grant,
    once, and nothing else; and it changes nothing. *)
Theorem listing_exact w r w' :
  transaction (list_services (Some (AgentContext (uuid_str a) (uuid_str t)))) w = (Ok r, w') ->
  w_base w' = w_base w /\ exists hint, r = JSONResponse 200
    [("services", JArr (map (fun s => JObj (service_json s)) (services_of (w_base w))
                        ++ map (fun s => JObj (email_service_json s)) (email_services_of (w_base w)))%list);
     ("capabilities", JStr _BUILTIN_CAPABILITIES); ("hint", JStr hint)].
Proof. exact (list_services_run w r w'). Qed.

(** The service a call of the broker names. *)
Definition call_service (rq : http_request) : option json :=
  match rq_json rq with JObj d => dict_get "service_id" d | _ => None end.

(** What a token is issued for is listed.  When a token request makes the
    broker issue a token, the service named in that call is one of the
    services the agent would be listed in the same state, provided that every
    grant of the state belongs to a service of the grant's tenant. *)
Theorem issued_service_listed body w rq r w' w2 :
  Forall (fun g => exists s, In s (services (w_base w)) /\ s_id s = g_service_id g /\ s_tenant_id s = g_tenant_id g)
    (permission_grants (w_base w)) ->
  Forall (fun g => (eg_email_service_id g < uuid_limit)%N) (email_permission_grants (w_base w)) ->
  Forall (fun s => (es_id s < uuid_limit)%N) (email_services (w_base w)) ->
  calls (snd (transaction (request_token (Some (AgentContext (uuid_str a) (uuid_str t))) body) w)) = (calls w ++ [rq])%list ->
  w_base w2 = w_base w ->
  transaction (list_services (Some (AgentContext (uuid_str a) (uuid_str t)))) w2 = (Ok r, w') ->
  exists id j rest, call_service rq = Some (JStr (uuid_str id)) /\ content r = JObj (("services", JArr j) :: rest) /\
    exists d, In (JObj d) j /\ dict_get "id" d = Some (JStr (wire id "svc")).
Proof.
  intros Href Hlt1 Hlt2 Hcall Hbase Hlist. apply list_services_run in Hlist as (_ & hint & ->). rewrite Hbase.
  pose proof (transaction_issues t a Ht Ha body w) as [[Hnone _]|(rq' & Hc & Hg)].
  { exfalso. rewrite Hnone in Hcall. apply (f_equal (@length _)) in Hcall. rewrite length_app in Hcall. cbn in Hcall. lia. }
  rewrite Hc in Hcall. apply app_inv_head in Hcall. injection Hcall as ->.
  rewrite List.Forall_forall in Href, Hlt1, Hlt2.
  destruct Hg as [(g & Hin & Hten & Hag & _ & -> & _)|(_ & _ & eg & es & Heg & Het & Hea & Hes & Hst & Hdel & Hid & ->)].
  - destruct (Href g Hin) as (s & Hs & Hsid & Hst). exists (g_service_id g). eexists _, _. split; [reflexivity|].
    split; [reflexivity|]. exists (service_json s). split; [|by rewrite <- Hsid].
    apply in_app_iff. left. apply (in_map (fun s => JObj (service_json s))). apply filter_In. split; [done|].
    rewrite Hst, Hten, N.eqb_refl. cbn [andb]. apply existsb_exists. exists g. split; [done|].
    by rewrite Hten, Hsid, Hag, !N.eqb_refl.
  - exists (es_id es). eexists _, _. split; [reflexivity|]. split; [reflexivity|]. exists (email_service_json es).
    split; [|reflexivity]. apply in_app_iff. right. apply (in_map (fun s => JObj (email_service_json s))). apply filter_In.
    split; [done|]. rewrite Hst, N.eqb_refl, Hdel. cbn [andb negb]. rewrite andb_true_r. apply existsb_exists. exists eg.
    split; [done|]. apply uuid_str_inj in Hid; [|by apply Hlt2|by apply Hlt1]. by rewrite Het, Hid, Hea, !N.eqb_refl.
Qed.

End Listing.

(** ** The OpenAPI document *)

Section OpenApi.
Context `{E : Env} `{V : Vault} `{Hx : Httpx}.
Context (t a : uuid) (Ht : (t < uuid_limit)%N).
Implicit Types w : world.

(** The entity tags apart, the state is the same. *)
Definition without_etags (d : db) : db :=
  tb_set services_t (map (fun s => ServiceRow (s_id s) (s_tenant_id s) (s_name s) (s_slug s) (s_display_name s)
    (s_description s) (s_base_url s) (s_auth_scheme s) (s_openapi_url s) (s_status s) (s_template_id s) (s_created_at s)
    (s_updated_at s) (s_current_key_version s) None) (services d)) d.
Definition etags_only (d d' : db) : Prop := without_etags d' = without_etags d.

#[local] Instance etags_only_preorder : PreOrder etags_only.
Proof. split; [done|]. intros d1 d2 d3. unfold etags_only. congruence. Qed.

Lemma respects_etag G p e : respects etags_only G (update_where services_t p (set_etag e)).
Proof.
  apply respects_update; [apply _|]. intros w pol d _ _. unfold etags_only, without_etags, update_db. db_fields.
  cbn [tb_get tb_set services_t services]. rewrite map_map. f_equal. apply map_ext. intros s. by destruct (_ && _).
Qed.

(** The document is fetched from the registered address of a service of the tenant. *)
Definition openapi_call (d : db) (rq : http_request) : Prop :=
  exists s url, In s (services d) /\ s_tenant_id s = t /\ s_openapi_url s = Some url /\
    rq = HttpRequest "GET" url JNull
      (match s_openapi_etag s with None | Some "" => [] | Some e => [("If-None-Match", e)] end) [].

(** The document in an answer, where it has one. *)
Definition document (r : response) : option json := match content r with JObj d => dict_get "document" d | _ => None end.

(** The text of an answer with status 200 and at most one mebibyte. *)
Definition small_answer (doc : json) : Prop := exists n resp,
  env_fetch n = Ok resp /\ ft_status resp = 200%Z /\ (Z.of_nat (py_len (ft_content resp)) <= _OPENAPI_MAX_BYTES)%Z /\
  doc = JStr (ft_text resp).

(** No request and no document, or one request, inline, and any document is of its answer. *)
Definition fetches (inline : bool) (d : db) w (ow : outcome response * world) : Prop :=
  (calls (snd ow) = calls w /\ forall r, fst ow = Ok r -> document r = None) \/
  (inline = true /\ (exists rq, calls (snd ow) = (calls w ++ [rq])%list /\ openapi_call d rq) /\
   forall r doc, fst ow = Ok r -> document r = Some doc -> small_answer doc).

Lemma fetches_ret inline d r w : document r = None -> fetches inline d w (ret r w).
Proof. intros H. left. split; [done|]. intros r' Hr. apply Ok_inj in Hr. by subst r'. Qed.

Lemma fetches_bind {A} inline d (m : M A) (k : A -> M response) w : silent m ->
  (forall x w1, m w = (Ok x, w1) -> fetches inline d w1 (k x w1)) -> fetches inline d w (bind m k w).
Proof.
  intros Hs Hk. unfold bind. specialize (Hs w). destruct (m w) as [[x|e] w1]; cbn [snd] in Hs.
  - specialize (Hk x w1 eq_refl). unfold fetches, calls in *. by rewrite Hs in Hk.
  - left. unfold calls. cbn [fst snd]. split; [by rewrite Hs|discriminate].
Qed.

Lemma silent_catch_etag sid e : silent (catch (update_where services_t (fun s => N.eqb (s_id s) sid) (set_etag e)) (fun _ => ret tt)).
Proof. apply silent_catch; [apply silent_update|intros _; apply silent_ret]. Qed.

Lemma silent_document sid url etag resp : silent (openapi_document sid url etag resp).
Proof.
  unfold openapi_document. cbn zeta. destruct (match _ with Some n => _ | None => false end); [apply silent_ret|].
  destruct (_ <? _)%Z; [apply silent_ret|]. apply silent_bind; [|intros _; apply silent_ret].
  destruct (if String.eqb _ _ then _ else _) as [[|c e]|]; try apply silent_ret.
  destruct (bool_decide _); [apply silent_ret|apply silent_catch_etag].
Qed.

Lemma document_run sid url etag resp w r w' doc : openapi_document sid url etag resp w = (Ok r, w') ->
  document r = Some doc -> (Z.of_nat (py_len (ft_content resp)) <= _OPENAPI_MAX_BYTES)%Z /\ doc = JStr (ft_text resp).
Proof.
  unfold openapi_document. cbn zeta.
  destruct (match _ with Some n => _ | None => false end); [intros H; apply ret_Ok in H as [-> _]; discriminate|].
  destruct (_ <? _)%Z eqn:El; [intros H; apply ret_Ok in H as [-> _]; discriminate|]. apply Z.ltb_ge in El.
  intros H Hd. step H as u w1 H1. apply ret_Ok in H as [-> _]. split; [done|].
  unfold document, JSONResponse in Hd. cbn in Hd. by injection Hd.
Qed.

(** The fetch with its exceptions caught. *)
Lemma fetch_answer rq (f : exn -> string) w : exists w1, calls w1 = (calls w ++ [rq])%list /\
  let m := catch (let! resp := http_fetch rq in ret (inl resp)) (fun e => ret (inr (f e))) in
  ((exists n resp, env_fetch n = Ok resp /\ m w = (Ok (inl resp), w1)) \/ exists e, m w = (Ok (inr (f e)), w1)).
Proof.
  exists (set_proc (add_call rq (w_proc (tick w))) (tick w)). split; [done|]. cbn zeta.
  unfold catch, bind, http_fetch. destruct (env_fetch (w_tick (tick w))) as [resp|e] eqn:Ef.
  - left. by exists (w_tick (tick w)), resp.
  - right. by exists e.
Qed.

Lemma fetch_stage d url etag sid w s :
  In s (services d) -> s_tenant_id s = t -> s_openapi_url s = Some url -> s_openapi_etag s = etag ->
  fetches true d w ((let fetch_headers := match etag with None | Some "" => [] | Some e => [("If-None-Match", e)] end in
    let! answer := catch
      (let! resp := http_fetch (HttpRequest "GET" url JNull fetch_headers []) in ret (inl resp))
      (fun e => ret (inr (if is_request_error e then py_take 200 (exc_text e) else "unexpected error: " +:+ exn_class e))) in
    match answer with
    | inr reason => ret (fetch_failed url reason)
    | inl resp =>
        if Z.eqb (ft_status resp) 304 then ret (openapi_at_url url etag)
        else if negb (Z.eqb (ft_status resp) 200) then
          ret (fetch_failed url ("upstream returned HTTP " +:+ py_str_int (ft_status resp)))
        else openapi_document sid url etag resp
    end) w).
Proof.
  intros Hin Hten Hurl Hetag. cbn zeta. set (hs := match etag with None | Some "" => [] | Some e => [("If-None-Match", e)] end).
  set (rq := HttpRequest "GET" url JNull hs []).
  assert (Hcall : openapi_call d rq) by (exists s, url; rewrite Hetag; done).
  right. split; [done|].
  destruct (fetch_answer rq (fun e => if is_request_error e then py_take 200 (exc_text e) else "unexpected error: " +:+ exn_class e) w)
    as (w1 & C1 & [(n & resp & Ef & Em)|(e & Em)]); unfold bind at 1 3; rewrite Em; clear Em.
  2: { split; [exists rq; by split|]. intros r doc Hr Hd. apply Ok_inj in Hr. by subst r. }
  destruct (Z.eqb_spec (ft_status resp) 304) as [|_].
  { split; [exists rq; by split|]. intros r doc Hr Hd. apply Ok_inj in Hr. by subst r. }
  destruct (Z.eqb_spec (ft_status resp) 200) as [H200|_]; cbn [negb].
  2: { split; [exists rq; by split|]. intros r doc Hr Hd. apply Ok_inj in Hr. by subst r. }
  split.
  - exists rq. split; [|done]. unfold calls in *. by rewrite silent_document.
  - intros r doc Hr Hd. destruct (openapi_document _ _ _ _ w1) as [o w2] eqn:Eo. cbn [fst] in Hr. subst o.
    apply (document_run _ _ _ _ _ _ _ _ Eo) in Hd as [Hl ->]. by exists n, resp.
Qed.

Lemma openapi_fetches agent_id service_id inline w : w_admin_view w = false ->
  fetches inline (w_db w) w (get_openapi (Some (AgentContext agent_id (uuid_str t))) service_id inline w).
Proof.
  intros Hadm. unfold get_openapi. apply fetches_bind; [apply silent_set_tenant|]. intros u w1 H1.
  apply set_tenant_start in H1 as (T1 & _ & D1 & _); [|done..]. unfold resolve_or_404.
  pose proof (silent_resolve_service service_id (uuid_str t) w1) as P2.
  destruct (resolve_service_id _ _ w1) as [[svc|e] w2] eqn:Er; cbn [snd] in P2.
  2: { destruct e; left; (split; [unfold calls; cbn [snd]; by rewrite P2|]); intros r Hr; cbn [fst] in Hr; try discriminate.
       apply Ok_inj in Hr. by subst r. }
  destruct (reads_in_tenant _ t _ _ _ (reads_resolve_service _ _) Er T1) as (T2 & D2 & _). clear Er.
  assert (Hw : forall ow, fetches inline (w_db w) w2 ow -> fetches inline (w_db w) w1 ow).
  { intros ow. unfold fetches, calls. by rewrite P2. }
  apply Hw. clear Hw. apply fetches_bind; [apply silent_bound|]. intros sid w3 H3. apply bound_Ok in H3 as [_ ->].
  apply fetches_bind; [apply silent_select|]. intros rows w3 H3.
  destruct (select_in_tenant t _ _ _ _ _ T2 H3) as (T3 & D3 & Hrows).
  destruct (fetchone rows) as [row|] eqn:Eg; [|by apply fetches_ret].
  apply fetchone_In, Hrows in Eg as (Hin & _ & Hten). cbn zeta.
  destruct (s_openapi_url row) as [[|c url]|] eqn:Eu; [by apply fetches_ret| |by apply fetches_ret].
  destruct inline; cbn [negb]; [|by apply fetches_ret].
  apply (fetch_stage (w_db w) _ _ sid w3 row); [by rewrite <- D1, <- D2|by apply Hten|done|done].
Qed.

Lemma openapi_safe agent_id service_id inline :
  safe etags_only no_guc (get_openapi (Some (AgentContext agent_id (uuid_str t))) service_id inline).
Proof.
  unfold get_openapi, openapi_document. cbv zeta.
  repeat first
    [ lazymatch goal with
      | |- respects _ _ (update_where _ _ _) => apply respects_etag
      | |- respects _ _ (http_fetch _) => apply respects_http_fetch
      | |- respects _ _ (resolve_service_id _ _) => apply respects_resolve_service, _
      | |- safe _ _ (resolve_or_404 _ _) => apply safe_resolve_or_404; [|intros ?]
      end
    | preserved_step ].
Qed.

(** C31: The OpenAPI tool is confined.  Whatever the service named and the
    failures, it makes no request, or, asked for the document inline, one GET
    of the address registered for a service of the agent's tenant, with the
    stored entity tag; a document it gives is the text of an answer with
    status 200 and at most one mebibyte; and nothing but entity tags of
    services changes. *)
Theorem openapi_confined service_id inline w :
  let ow := transaction (get_openapi (Some (AgentContext (uuid_str a) (uuid_str t))) service_id inline) w in
  ((calls (snd ow) = calls w /\ forall r, fst ow = Ok r -> document r = None) \/
   (inline = true /\ (exists rq, calls (snd ow) = (calls w ++ [rq])%list /\ openapi_call (w_base w) rq) /\
    forall r doc, fst ow = Ok r -> document r = Some doc -> small_answer doc)) /\
  etags_only (w_base w) (w_base (snd ow)).
Proof.
  intros ow. split; [|apply (transaction_safe etags_only), openapi_safe].
  pose proof (openapi_fetches (uuid_str a) service_id inline (begin w) eq_refl) as H.
  set (m := get_openapi (Some (AgentContext (uuid_str a) (uuid_str t))) service_id inline) in *.
  assert (E1 : calls (snd ow) = calls (snd (m (begin w)))) by (unfold calls; subst ow; by rewrite silent_transaction).
  assert (E2 : forall r, fst ow = Ok r -> fst (m (begin w)) = Ok r).
  { intros r Hr. subst ow. destruct (transaction _ w) as [o w'] eqn:Eo. cbn [fst] in Hr. subst o.
    apply transaction_Ok in Eo as (w1 & -> & _). done. }
  rewrite E1. destruct H as [[H1 H2]|(H0 & H1 & H2)]; [left|right].
  - split; [exact H1|]. intros r Hr. by apply H2, E2.
  - split; [done|]. split; [exact H1|]. intros r doc Hr. by apply H2, E2.
Qed.

End OpenApi.

(** ** Witnesses *)

Section Witnesses.
#[local] Existing Instance demo_env.
#[local] Existing Instance demo_vault.
#[local] Existing Instance toy_sha256.

Definition toy_httpx : Httpx := {| exc_text e := "" |}.
#[local] Existing Instance toy_httpx.

Abbreviation demo_list := (transaction (list_services (Some (AgentContext (uuid_str 6) (uuid_str 1))))).
Abbreviation demo_token := (transaction (request_token (Some (AgentContext (uuid_str 6) (uuid_str 1)))
  (MkTokenRequest "petstore" "read" None None))).

Lemma listing_exact_witness :
  services_of 1 6 demo_db = services demo_db /\ w_base (snd (demo_list demo_world)) = demo_db.
Proof.
  destruct (run_returns demo_list (fun r => Z.eqb (status_code r) 200) demo_world) as (r & Hr & Hrun); [vm_compute; reflexivity|].
  destruct (listing_exact 1 6 eq_refl eq_refl demo_world r _ Hrun) as (H & _).
  split; [vm_compute; reflexivity|exact H].
Defined.

Lemma issued_service_listed_witness :
  exists rq r id j rest d, p_calls (w_proc (snd (demo_token demo_world))) = [rq] /\ fst (demo_list demo_world) = Ok r /\
    call_service rq = Some (JStr (uuid_str id)) /\ content r = JObj (("services", JArr j) :: rest) /\
    In (JObj d) j /\ dict_get "id" d = Some (JStr (wire id "svc")).
Proof.
  destruct (run_returns demo_list (fun r => Z.eqb (status_code r) 200) demo_world) as (r & _ & Hrun); [vm_compute; reflexivity|].
  assert (Hcall : exists rq, p_calls (w_proc (snd (demo_token demo_world))) = [rq]) by (eexists; vm_compute; reflexivity).
  destruct Hcall as (rq & Hcall).
  destruct (issued_service_listed 1 6 eq_refl eq_refl (MkTokenRequest "petstore" "read" None None) demo_world rq r
      (snd (demo_list demo_world)) demo_world)
    as (id & j & rest & H1 & H2 & d & H3 & H4).
  - constructor; [|constructor]. eexists. split; [by left|]. split; reflexivity.
  - constructor.
  - constructor.
  - exact Hcall.
  - reflexivity.
  - exact Hrun.
  - exists rq, r, id, j, rest, d. split; [exact Hcall|]. split; [by rewrite Hrun|]. repeat split; assumption.
Defined.

(** The demo's service with a registered document. *)
Definition documented_db : db :=
  tb_set services_t [ServiceRow 8 1 "Petstore" "petstore" None None "https://petstore.example" "header_key"
    (Some "https://petstore.example/openapi.json") "active" None 0 0 1 (Some "tag")] demo_db.
Definition documented_world : world :=
  World demo_vault documented_db documented_db TxDone None false [] [] (w_vault demo_world) 0 empty_process.

Lemma openapi_confined_witness :
  length (p_calls (w_proc (snd (transaction (get_openapi (Some (AgentContext (uuid_str 6) (uuid_str 1))) "petstore" true)
    documented_world)))) = 1%nat /\
  etags_only documented_db (w_base (snd (transaction (get_openapi (Some (AgentContext (uuid_str 6) (uuid_str 1))) "petstore" true)
    documented_world))).
Proof.
  split; [vm_compute; reflexivity|].
  exact (proj2 (openapi_confined 1 6 eq_refl "petstore" true documented_world)).
Defined.

End Witnesses.
