(* ===== verification/JsonRpc.v ===== *)
(** * The MCP server's front end (tools/jsonrpc.py, tools/bootstrap.py, auth/agent_key.py, main.py)

    The validation of an agent's key against the admin API, the middleware
    that does it for the REST tools, and the JSON-RPC dispatcher, which calls
    the REST tools of its own process.  What FastAPI and httpx make of a
    loopback request (the path a server sees, the handler and its validated
    arguments, or an answer of the framework's own) is the class [Asgi]; the
    texts of the onboarding files are the class [Skill].  JSON is printed with
    [json.dumps(body, indent=2)] ([dumps_indent]), read back by [loads]. *)

From S2P Require Import Prelude PyStr PyJson PyJsonFacts PyTime WireIds AuditHash AuditChain PyText PyCodecs Constraints.
From S2P Require Import Vault Tables Database Logic PublicUrls Resolve Demo AuditEmit AgentSecrets SecretTools SecretsSafety RequestToken TokenSafety.
From S2P Require Import Keys EmitLimiter Sessions Internal InternalLaws AgentLaws EmailTools Discovery.

Local Open Scope string_scope.
Local Open Scope py_scope.

(** ** Constants *)

Definition _PROTOCOL_VERSION : string := "2025-06-18".

Definition _INSTRUCTIONS : string :=
  "You are connected to Mintkey, a credential broker for AI agents. Capabilities:" +:+ nl +:+ nl
  +:+ "1. Brokered service calls \u2014 mintkey_discover lists services you may call" +:+ nl
  +:+ "   (with per-auth-scheme injection hints); mintkey_describe_service returns" +:+ nl
  +:+ "   full auth details, your constraints, and the exact proxy URL;" +:+ nl
  +:+ "   mintkey_request_token exchanges a service_id for a short-lived JWT; then" +:+ nl
  +:+ "   call the service via the proxy URL with the JWT as Bearer. The proxy" +:+ nl
  +:+ "   injects the real credential \u2014 never send your own upstream auth header." +:+ nl
  +:+ "2. Agent secret storage \u2014 store your OWN credentials (DB passwords," +:+ nl
  +:+ "   service-account JSON, SSH keys) encrypted at rest and read them back:" +:+ nl
  +:+ "   secret_put / secret_get / secret_list / secret_delete. Secrets are" +:+ nl
  +:+ "   private to you unless an operator shares one with another agent." +:+ nl
  +:+ "3. Upstream API specs \u2014 mintkey_get_openapi returns a service's OpenAPI" +:+ nl
  +:+ "   document (url or inline) when the operator registered one." +:+ nl
  +:+ "4. Email \u2014 email_* tools (send, list mailboxes/messages, attachments) for" +:+ nl
  +:+ "   granted email services, via the REST endpoints listed at GET /v1/tools." +:+ nl +:+ nl
  +:+ "For the full onboarding skill (markdown), call mintkey_bootstrap." +:+ nl
  +:+ "Auth: send `Authorization: Bearer mk_agent_<your-key>` on every tools/* call." +:+ nl.

Definition _SERVER_INFO : dict :=
  [("name", JStr "mintkey-mcp-server");
   ("title", JStr "Mintkey Credential Broker");
   ("version", JStr "0.1.0-experimental")].

Definition _CAPABILITIES : dict :=
  [("tools", JObj [("listChanged", JBool false)]);
   ("resources", JObj [("listChanged", JBool false); ("subscribe", JBool false)]);
   ("experimental", JObj [("mintkey.rest_endpoints", JObj [("bootstrap", JStr "/v1/tools/bootstrap");
                                                           ("discover", JStr "/v1/tools/discover");
                                                           ("request_token", JStr "/v1/tools/request_token")])])].

Definition TOOLS : list dict :=
  [[("name", JStr "mintkey_bootstrap");
    ("description", JStr ("Onboarding skill for the credential broker. By default returns a compact index (section table + "
                          +:+ "resource URI). Pass section to fetch one block: "
                          +:+ "index|quick_start|use_cases|anti_patterns|auth|discover|proxy_call|email|secrets|rest-api|ssh|secret"
                          +:+ "s-guide|email-guide|quick-reference|full. Use 'full' for the entire skill, or read the MCP resource "
                          +:+ "mintkey://skill/agent-bootstrap."));
    ("inputSchema", JObj [("type", JStr "object");
                          ("properties", JObj [("section", JObj [("type", JStr "string");
                                                                 ("enum", JArr [JStr "index";
                                                                                JStr "quick_start";
                                                                                JStr "use_cases";
                                                                                JStr "anti_patterns";
                                                                                JStr "auth";
                                                                                JStr "discover";
                                                                                JStr "proxy_call";
                                                                                JStr "email";
                                                                                JStr "secrets";
                                                                                JStr "rest-api";
                                                                                JStr "ssh";
                                                                                JStr "secrets-guide";
                                                                                JStr "email-guide";
                                                                                JStr "quick-reference";
                                                                                JStr "full"]);
                                                                 ("default", JStr "index");
                                                                 ("description", JStr "Which bootstrap section to return. Default 'index'.")])]);
                          ("additionalProperties", JBool false)])];
   [("name", JStr "mintkey_list_services");
    ("description", JStr "List services the calling agent has permission to call (with metadata + how_to_call hints).");
    ("inputSchema", JObj [("type", JStr "object");
                          ("properties", JObj []);
                          ("additionalProperties", JBool false)])];
   [("name", JStr "mintkey_discover");
    ("description", JStr "Same as list_services but with detailed how_to_call hints. Use this for first-time agent discovery.");
    ("inputSchema", JObj [("type", JStr "object");
                          ("properties", JObj []);
                          ("additionalProperties", JBool false)])];
   [("name", JStr "mintkey_describe_service");
    ("description", JStr "Full metadata for one service.");
    ("inputSchema", JObj [("type", JStr "object");
                          ("properties", JObj [("service_id", JObj [("type", JStr "string");
                                                                    ("description", JStr "Service ID in wire form (svc_<crockford>) or UUID.")])]);
                          ("required", JArr [JStr "service_id"]);
                          ("additionalProperties", JBool false)])];
   [("name", JStr "mintkey_get_openapi");
    ("description", JStr "Returns the OpenAPI spec URL for one service (or null if none).");
    ("inputSchema", JObj [("type", JStr "object");
                          ("properties", JObj [("service_id", JObj [("type", JStr "string")])]);
                          ("required", JArr [JStr "service_id"]);
                          ("additionalProperties", JBool false)])];
   [("name", JStr "mintkey_request_token");
    ("description", JStr ("Exchange the agent's API key + a service_id for a short-lived brokered JWT (default 10 minute TTL). "
                          +:+ "Use the JWT as Authorization: Bearer on the proxy URL."));
    ("inputSchema", JObj [("type", JStr "object");
                          ("properties", JObj [("service_id", JObj [("type", JStr "string")]);
                                               ("action", JObj [("type", JStr "string");
                                                                ("description", JStr "Permission action. Use 'call' unless the operator specified otherwise.");
                                                                ("default", JStr "call")]);
                                               ("methods", JObj [("type", JStr "array");
                                                                 ("items", JObj [("type", JStr "string")])]);
                                               ("path_prefix", JObj [("type", JStr "string")])]);
                          ("required", JArr [JStr "service_id"]);
                          ("additionalProperties", JBool false)])];
   [("name", JStr "secret_put");
    ("description", JStr "Store (or overwrite) a named secret owned by the calling agent.");
    ("inputSchema", JObj [("type", JStr "object");
                          ("properties", JObj [("name", JObj [("type", JStr "string");
                                                              ("description", JStr "Secret name (unique per agent).")]);
                                               ("value", JObj [("type", JStr "string");
                                                               ("description", JStr "Plaintext secret value (UTF-8).")]);
                                               ("content_type", JObj [("type", JStr "string");
                                                                      ("description", JStr "Optional free-text content-type hint.")])]);
                          ("required", JArr [JStr "name"; JStr "value"]);
                          ("additionalProperties", JBool false)])];
   [("name", JStr "secret_get");
    ("description", JStr "Read the plaintext value of a secret you own or were granted read access to.");
    ("inputSchema", JObj [("type", JStr "object");
                          ("properties", JObj [("secret_id", JObj [("type", JStr "string");
                                                                   ("description", JStr "sec_ wire form of the secret ID.")])]);
                          ("required", JArr [JStr "secret_id"]);
                          ("additionalProperties", JBool false)])];
   [("name", JStr "secret_list");
    ("description", JStr "List metadata for secrets you own or that are shared with you. Never returns values.");
    ("inputSchema", JObj [("type", JStr "object");
                          ("properties", JObj [("after", JObj [("type", JStr "string");
                                                               ("description", JStr "Pagination cursor \u2014 sec_ wire ID from previous page.")]);
                                               ("limit", JObj [("type", JStr "integer");
                                                               ("description", JStr "Page size (1\u2013200, default 50).");
                                                               ("default", JInt 50)])]);
                          ("additionalProperties", JBool false)])];
   [("name", JStr "secret_delete");
    ("description", JStr "Delete a secret you own. Cascades share grants. Idempotent.");
    ("inputSchema", JObj [("type", JStr "object");
                          ("properties", JObj [("secret_id", JObj [("type", JStr "string");
                                                                   ("description", JStr "sec_ wire form of the secret ID.")])]);
                          ("required", JArr [JStr "secret_id"]);
                          ("additionalProperties", JBool false)])]].

Definition _RESOURCES : list dict :=
  [[("uri", JStr "mintkey://skill/agent-bootstrap");
    ("name", JStr "agent-bootstrap");
    ("title", JStr "Mintkey Agent Bootstrap Skill");
    ("description", JStr "Full vendor-agnostic onboarding skill (markdown).");
    ("mimeType", JStr "text/markdown")];
   [("uri", JStr "mintkey://guides/rest-api");
    ("name", JStr "guide-rest-api");
    ("title", JStr "Mintkey REST/HTTP Service Guide");
    ("description", JStr "discover -> token -> proxy call; never add upstream auth.");
    ("mimeType", JStr "text/markdown")];
   [("uri", JStr "mintkey://guides/ssh");
    ("name", JStr "guide-ssh");
    ("title", JStr "Mintkey SSH Service Guide");
    ("description", JStr "SSH bastion, JWT-as-password, ssh:// base_url.");
    ("mimeType", JStr "text/markdown")];
   [("uri", JStr "mintkey://guides/secrets");
    ("name", JStr "guide-secrets");
    ("title", JStr "Mintkey Agent Secrets Guide");
    ("description", JStr "secret_put/get/list/delete; agent-owned vs operator-managed.");
    ("mimeType", JStr "text/markdown")];
   [("uri", JStr "mintkey://guides/email");
    ("name", JStr "guide-email");
    ("title", JStr "Mintkey Email Service Guide");
    ("description", JStr "9 email_* tools -> IMAP/SMTP via email-proxy.");
    ("mimeType", JStr "text/markdown")];
   [("uri", JStr "mintkey://quick-reference");
    ("name", JStr "quick-reference");
    ("title", JStr "Mintkey Quick Reference");
    ("description", JStr "One-page cheat sheet.");
    ("mimeType", JStr "text/markdown")]].


(** ** The onboarding texts *)

(** [agent-bootstrap.md], a guide by its file name, [quick-reference.md]. *)
Class Skill := { _SKILL_MARKDOWN : string; _load_guide : string -> string; _load_quickref : string }.

Definition str_get {A} (k : string) (l : list (string * A)) : option A :=
  snd <$> List.find (fun kv => String.eqb k (fst kv)) l.

Definition _RESOURCE_URI : string := "mintkey://skill/agent-bootstrap".
Definition _BOOTSTRAP_VERSION : string := "2.0".
Definition _VERSION : string := "1.0".
Definition _SECTION_TAGS : list (string * string) :=
  [("auth", "authentication"); ("discover", "service_discovery"); ("proxy_call", "proxy_usage");
   ("email", "email_services"); ("secrets", "agent_secrets"); ("quick_start", "quick_start");
   ("use_cases", "use_cases"); ("anti_patterns", "anti_patterns")].
Definition _SECTION_NAMES : list string :=
  ["index"; "auth"; "discover"; "proxy_call"; "email"; "secrets"; "quick_start"; "use_cases"; "anti_patterns";
   "rest-api"; "ssh"; "secrets-guide"; "email-guide"; "quick-reference"; "full"].
Definition _SECTION_GUIDE_ALIASES : list (string * string) :=
  [("rest-api", "mintkey://guides/rest-api"); ("ssh", "mintkey://guides/ssh");
   ("secrets-guide", "mintkey://guides/secrets"); ("email-guide", "mintkey://guides/email");
   ("quick-reference", "mintkey://quick-reference")].

(** What follows the first occurrence of [pat]; what precedes it. *)
Fixpoint text_after (pat l : list ascii) : option (list ascii) :=
  if list_prefixb pat l then Some (drop (length pat) l)
  else match l with [] => None | _ :: l' => text_after pat l' end.
Fixpoint text_before (pat l : list ascii) : option (list ascii) :=
  if list_prefixb pat l then Some [] else match l with [] => None | c :: l' => cons c <$> text_before pat l' end.

Definition _extract_xml_block (markdown tag : string) : string :=
  let opening := "<" +:+ tag +:+ ">" in
  let closing := "</" +:+ tag +:+ ">" in
  match rest ← text_after (chars opening) (chars markdown); text_before (chars closing) rest with
  | Some body => opening +:+ unchars body +:+ closing
  | None => ""
  end.

Section Bootstrap.
Context `{E : Env} `{V : Vault} `{Sk : Skill}.

Definition _GUIDE_RESOURCES : list (string * string) :=
  [("mintkey://guides/rest-api", _load_guide "rest-api.md"); ("mintkey://guides/ssh", _load_guide "ssh.md");
   ("mintkey://guides/secrets", _load_guide "secrets.md"); ("mintkey://guides/email", _load_guide "email.md");
   ("mintkey://quick-reference", _load_quickref)].
Definition _SECTIONS : list (string * string) :=
  map (fun kv => (fst kv, _extract_xml_block _SKILL_MARKDOWN (snd kv))) _SECTION_TAGS.
Definition _READABLE : list (string * string) := (_RESOURCE_URI, _SKILL_MARKDOWN) :: _GUIDE_RESOURCES.

Definition _bootstrap_payload (section : option string) : outcome dict :=
  let sel := lower (py_strip (match section with None | Some "" => "index" | Some s => s end)) in
  if String.eqb sel "full" then
    Ok [("skill_markdown", JStr _SKILL_MARKDOWN); ("proxy_url", JStr resolve_proxy_public_url);
        ("mcp_url", JStr resolve_mcp_public_url); ("version", JStr _VERSION); ("bootstrap_version", JStr _BOOTSTRAP_VERSION)]
  else
    let block content uri :=
      [("section", JStr sel); ("content", JStr content); ("resource_uri", JStr uri);
       ("bootstrap_version", JStr _BOOTSTRAP_VERSION)] in
    match str_get sel _SECTIONS with
    | Some content => Ok (block content _RESOURCE_URI)
    | None =>
        match str_get sel _SECTION_GUIDE_ALIASES with
        | Some uri =>
            match str_get uri _GUIDE_RESOURCES with
            | Some content => Ok (block content uri)
            | None => Raise (KeyError uri)
            end
        | None =>
            Ok [("sections", JArr (map JStr _SECTION_NAMES)); ("resource_uri", JStr _RESOURCE_URI);
                ("overview", JStr (_extract_xml_block _SKILL_MARKDOWN "overview"));
                ("proxy_url", JStr resolve_proxy_public_url); ("mcp_url", JStr resolve_mcp_public_url);
                ("bootstrap_version", JStr _BOOTSTRAP_VERSION)]
        end
    end.

Definition bootstrap (section : option string) : M response :=
  let! payload := lift (_bootstrap_payload (Some (match section with None | Some "" => "full" | Some s => s end))) in
  ret (JSONResponse 200 payload).

End Bootstrap.

(** ** Keys *)

Definition ADMIN_API_BASE `{E : Env} : string := getenv "ADMIN_API_BASE_URL" "http://admin-api:8080".

(** The key a request presents: the bearer first. *)
Definition presented_key (authorization x_api_key : string) : option string :=
  let bearer :=
    if startswith authorization "Bearer " then
      let candidate := py_drop (py_len "Bearer ") authorization in
      if startswith candidate "mk_agent_" then Some candidate else None
    else None in
  match bearer with
  | Some token => Some token
  | None => if startswith x_api_key "mk_agent_" then Some x_api_key else None
  end.

Section Keys.
Context `{E : Env} `{V : Vault}.

Definition validate_call (api_key : string) : http_request :=
  HttpRequest "POST" (ADMIN_API_BASE +:+ "/v1/internal/validate-agent-key") (JObj [("api_key", JStr api_key)]) [] [].

(** The agent's context, [JNull] for [None], and the reason of a failure. *)
Definition validate_agent_key (api_key : string) : M (json * option string) :=
  catch
    (let! resp := http_post (ADMIN_API_BASE +:+ "/v1/internal/validate-agent-key") (JObj [("api_key", JStr api_key)]) [] in
     let '(status_code, content) := resp in
     if Z.eqb status_code 200 then
       let! ctx := lift (response_json content) in
       ret (ctx, None)
     else if Z.leb 500 status_code then ret (JNull, Some "service_unavailable")
     else ret (JNull, Some "invalid_key"))
    (fun _ => ret (JNull, Some "service_unavailable")).

(** The paths [agent_key_middleware] leaves alone. *)
Definition open_paths : list string :=
  ["/health"; "/v1/health"; "/metrics"; "/v1/tools/instructions"; "/v1/tools/bootstrap"; "/"; "/v1"; "/mcp"; "/v1/mcp"; "/v1/tools"].

Definition auth_unavailable : response := JSONResponse 503 [("code", JStr "mintkey:auth_unavailable")].

(** [call_next] has the context of the request's state. *)
Definition agent_key_middleware (path authorization x_api_key : string) (call_next : json -> M response) : M response :=
  if existsb (String.eqb path) open_paths then call_next JNull
  else
    match presented_key authorization x_api_key with
    | None => call_next JNull
    | Some token =>
        let! v := validate_agent_key token in
        let '(ctx, err) := v in
        if bool_decide (ctx = JNull) then
          if bool_decide (err = Some "service_unavailable") then ret auth_unavailable else call_next JNull
        else call_next ctx
    end.

(** What a handler reads of the context the admin API answered. *)
Definition context_of (ctx : json) : outcome (option agent_context) :=
  match ctx with
  | JNull => Ok None
  | JObj d =>
      match dict_get "agent_id" d, dict_get "tenant_id" d with
      | Some (JStr a), Some (JStr t) => Ok (Some (AgentContext a t))
      | _, _ => Raise (KeyError "agent_id")
      end
  | _ => Raise (TypeError "indices must be integers")
  end.

End Keys.

(** ** The REST tools of the process *)

Record mcp_request := McpRequest {
  mr_method : string; mr_path : string; mr_params : list (string * json); mr_json : json;
  mr_authorization : string; mr_x_api_key : string }.

(** A handler with its arguments, or an answer of FastAPI or of a static page. *)
Inductive tool_route :=
  | Bootstrap (section : option string)
  | Instructions
  | ListServices
  | Discover
  | DescribeService (service_id : string)
  | GetOpenapi (service_id : string) (inline : bool)
  | RouteToken (body : TokenRequest)
  | RouteSecret (rq : tool_request)
  | RouteEmail (rq : email_tool)
  | Answer (r : response).

(** Letters, digits, [_], [-] and [/]: a path that is sent as it is written. *)
Definition plain_path (p : string) : bool :=
  forallb (fun c => let n := code c in
    ((48 <=? n) && (n <=? 57) || (65 <=? n) && (n <=? 90) || (97 <=? n) && (n <=? 122) || existsb (N.eqb n) [95; 45; 47])%N%bool)
    (chars p).

(** The path the server sees, the route it takes. *)
Class Asgi := {
  url_path : string -> string;
  url_path_plain : forall p, plain_path p = true -> url_path p = p;
  route : mcp_request -> tool_route;
  route_list_services : forall auth, route (McpRequest "GET" "/v1/tools/list_services" [] JNull auth "") = ListServices }.

(** An answer as the client reads it: [resp.json()] fails on an empty body. *)
Record upstream := Upstream { up_status : Z; up_json : option json; up_text : string }.
Definition upstream_of (r : response) : upstream :=
  match content r with
  | JNull => Upstream (status_code r) None ""
  | j => Upstream (status_code r) (Some j) (dumps j)
  end.

Section App.
Context `{E : Env} `{V : Vault} `{Sha : Sha256} `{Hx : Httpx} `{Sk : Skill} `{As : Asgi}.

Definition serve_route (ctx : json) (r : tool_route) : M response :=
  let with_context (k : option agent_context -> M response) :=
    let! agent_ctx := lift (context_of ctx) in transaction (k agent_ctx) in
  match r with
  | Bootstrap section => bootstrap section
  | Instructions => instructions
  | ListServices => with_context list_services
  | Discover => with_context discover
  | DescribeService service_id => with_context (fun c => describe_service c service_id)
  | GetOpenapi service_id inline => with_context (fun c => get_openapi c service_id inline)
  | RouteToken body => with_context (fun c => request_token c body)
  | RouteSecret rq => with_context (fun c => tool_handler c rq)
  | RouteEmail rq => with_context (fun c => email_tool_handler c rq)
  | Answer r => ret r
  end.

Definition mcp_app (rq : mcp_request) : M response :=
  agent_key_middleware (url_path (mr_path rq)) (mr_authorization rq) (mr_x_api_key rq)
    (fun ctx => serve_route ctx (route rq)).

End App.

(** ** Printing with indentation *)

Definition newline (level : nat) : list ascii := chr 10 :: repeat " "%char (2 * level).

(** [json.dumps(j, indent=2)] *)
Fixpoint dumps_level (level : nat) (j : json) : list ascii :=
  match j with
  | JArr [] => ["["; "]"]%char
  | JArr l =>
      ("["%char :: newline (S level)
       ++ join (","%char :: newline (S level)) (map (dumps_level (S level)) l) ++ newline level ++ ["]"%char])%list
  | JObj [] => ["{"; "}"]%char
  | JObj kvs =>
      ("{"%char :: newline (S level)
       ++ join (","%char :: newline (S level))
            (map (fun kv => match kv with (k, v) => print_str k ++ chars ": " ++ dumps_level (S level) v end) kvs)
       ++ newline level ++ ["}"%char])%list
  | _ => dumps_with false (chars ", ") (chars ": ") j
  end.
Definition dumps_indent (j : json) : string := unchars (dumps_level 0 j).

(** ** JSON-RPC *)

Definition _jsonrpc_error (request_id : json) (code : Z) (message : string) (data : option json) : response :=
  JSONResponse 200
    [("jsonrpc", JStr "2.0"); ("id", request_id);
     ("error", JObj ([("code", JInt code); ("message", JStr message)]
                     ++ match data with Some d => [("data", d)] | None => [] end)%list)].

Definition _jsonrpc_result (request_id result : json) : response :=
  JSONResponse 200 [("jsonrpc", JStr "2.0"); ("id", request_id); ("result", result)].

Definition _text_block (text : string) : json := JObj [("type", JStr "text"); ("text", JStr text)].

Definition _tool_result (content_blocks : list json) (is_error : bool) : json :=
  JObj ([("content", JArr content_blocks)] ++ if is_error then [("isError", JBool true)] else [])%list.

Definition _helpful_400 : response :=
  JSONResponse 400
    [("error", JStr "not_jsonrpc");
     ("hint", JStr ("This endpoint expects a JSON-RPC 2.0 request. "
                    +:+ "For REST tools, see GET /v1/tools/ or GET / for the endpoint index."));
     ("expected_envelope", JObj [("jsonrpc", JStr "2.0"); ("id", JInt 1); ("method", JStr "initialize"); ("params", JObj [])])].

Definition hint_data (s : string) : option json := Some (JObj [("hint", JStr s)]).

(** [d.get(k)] of a value that should be a dict, and [x or y] *)
Definition get (k : string) (j : json) : outcome json := json_get k JNull j.
Definition json_or (x y : json) : json := if truthy x then x else y.

(** [resp.json()], or its text in a dict. *)
Definition body_of (resp : upstream) : json :=
  match up_json resp with Some j => j | None => JObj [("raw", JStr (up_text resp))] end.

(** An item of [" | ".join(parts)]. *)
Definition str_part (j : json) : outcome string :=
  match j with JStr s => Ok s | _ => Raise (TypeError "sequence item: expected str instance") end.

(** [hint[:120]] inside an f-string. *)
Definition hint_part (hint : json) : outcome string :=
  match hint with
  | JStr s => Ok (py_take 120 s)
  | JArr l => Ok (repr_json (JArr (take 120 l)))
  | _ => Raise (TypeError "object is not subscriptable")
  end.

Definition part (j : json) (f : json -> outcome string) : outcome (list string) :=
  if truthy j then s ← f j; Ok [s] else Ok [].

(** The text of a failed call: its status and what the error says of itself. *)
Definition error_text (status : Z) (body : json) : outcome string :=
  c1 ← json_get "mintkey:code" JNull body;
  c2 ← json_get "code" (JStr "") body;
  title ← json_get "title" (JStr "") body;
  detail ← json_get "detail" (JStr "") body;
  reason ← json_get "reason_code" (JStr "") body;
  hint ← json_get "hint" (JStr "") body;
  hint ← part hint (fun h => s ← hint_part h; Ok ("hint: " +:+ s));
  code ← part (json_or c1 c2) (fun c => Ok ("code=" +:+ str_json c));
  title ← part title str_part;
  detail ← part detail str_part;
  reason ← part reason (fun r => Ok ("reason=" +:+ str_json r));
  Ok (unchars (join (chars " | ")
    (map chars ((("HTTP " +:+ py_str_int status) :: code) ++ title ++ detail ++ reason ++ hint)%list))).

Definition _upstream_to_tool_result (resp : upstream) : outcome json :=
  let body := body_of resp in
  let is_error := Z.leb 400 (up_status resp) in
  text ← (if is_error then error_text (up_status resp) body else Ok (dumps_indent body));
  Ok (_tool_result [_text_block text] is_error).

Definition _synthetic_error_response (status_code : Z) (body : dict) : upstream :=
  Upstream status_code (Some (JObj body)) (dumps (JObj body)).
Definition missing_argument (detail : string) : upstream :=
  _synthetic_error_response 422 [("code", JStr "mintkey:invalid_params"); ("detail", JStr detail)].

(** What [_dispatch_tool] does with a name and its arguments. *)
Inductive tool_call :=
  | Unknown
  | Synthetic (resp : upstream)
  | Loop (rq : mcp_request).

Definition loop_get (path : string) (params : list (string * json)) (auth : string) : tool_call :=
  Loop (McpRequest "GET" path params JNull auth "").

Definition required_argument (name : string) (args : json) (k : json -> outcome tool_call) : outcome tool_call :=
  v ← get name args;
  if truthy v then k v else Ok (Synthetic (missing_argument ("'" +:+ name +:+ "' argument is required"))).

Definition _dispatch_tool (name : string) (args : json) (auth_header : string) : outcome tool_call :=
  if String.eqb name "mintkey_bootstrap" then
    section ← get "section" args;
    Ok (loop_get "/v1/tools/bootstrap" [("section", JStr (str_json (json_or section (JStr "index"))))] "")
  else if String.eqb name "mintkey_list_services" then Ok (loop_get "/v1/tools/list_services" [] auth_header)
  else if String.eqb name "mintkey_discover" then Ok (loop_get "/v1/tools/discover" [] auth_header)
  else if String.eqb name "mintkey_describe_service" then
    required_argument "service_id" args (fun service_id =>
      Ok (loop_get ("/v1/tools/describe_service/" +:+ str_json service_id) [] auth_header))
  else if String.eqb name "mintkey_get_openapi" then
    required_argument "service_id" args (fun service_id =>
      Ok (loop_get ("/v1/tools/get_openapi/" +:+ str_json service_id) [] auth_header))
  else if String.eqb name "mintkey_request_token" then
    required_argument "service_id" args (fun service_id =>
      action ← json_get "action" (JStr "call") args;
      let optional k := match args with
                        | JObj d => match dict_get k d with Some v => [(k, v)] | None => [] end
                        | _ => []
                        end in
      Ok (Loop (McpRequest "POST" "/v1/tools/request_token" []
        (JObj ([("service_id", service_id); ("action", action)] ++ optional "methods" ++ optional "path_prefix")%list)
        auth_header "")))
  else if String.eqb name "secret_put" then
    name_arg ← get "name" args;
    value_arg ← get "value" args;
    if negb (truthy name_arg) || bool_decide (value_arg = JNull) then
      Ok (Synthetic (missing_argument "'name' and 'value' arguments are required"))
    else
      content_type ← get "content_type" args;
      Ok (Loop (McpRequest "POST" "/v1/tools/secret_put" []
        (JObj ([("name", name_arg); ("value", value_arg)]
               ++ if truthy content_type then [("content_type", content_type)] else [])%list) auth_header ""))
  else if String.eqb name "secret_get" then
    required_argument "secret_id" args (fun secret_id =>
      Ok (loop_get "/v1/tools/secret_get" [("secret_id", secret_id)] auth_header))
  else if String.eqb name "secret_list" then
    after ← get "after" args;
    limit ← get "limit" args;
    Ok (loop_get "/v1/tools/secret_list"
      ((if truthy after then [("after", after)] else []) ++ match limit with JNull => [] | _ => [("limit", limit)] end)%list auth_header)
  else if String.eqb name "secret_delete" then
    required_argument "secret_id" args (fun secret_id =>
      Ok (Loop (McpRequest "DELETE" "/v1/tools/secret_delete" [("secret_id", secret_id)] JNull auth_header "")))
  else Ok Unknown.

(** A POST on [/], [/mcp] or [/v1/mcp]: the two headers and the body, [None] when it is not JSON. *)
Record rpc_request := RpcRequest { rr_authorization : string; rr_x_api_key : string; rr_body : option json }.

Section Dispatch.
Context `{E : Env} `{V : Vault} `{Sha : Sha256} `{Hx : Httpx} `{Sk : Skill} `{As : Asgi}.

Definition _handle_resources_list (request_id : json) : response :=
  _jsonrpc_result request_id (JObj [("resources", JArr (map JObj _RESOURCES))]).

Definition _handle_resources_read (request_id params : json) : outcome response :=
  uri ← json_get "uri" (JStr "") params;
  text ← (match uri with
          | JStr u => Ok (str_get u _READABLE)
          | JArr _ | JObj _ => Raise (TypeError "unhashable type")
          | _ => Ok None
          end);
  match text with
  | None => Ok (_jsonrpc_error request_id (-32602) ("Unknown resource URI: " +:+ repr_json uri)
                  (hint_data "Call resources/list for available resources."))
  | Some text =>
      Ok (_jsonrpc_result request_id
        (JObj [("contents", JArr [JObj [("uri", uri); ("mimeType", JStr "text/markdown"); ("text", JStr text)]])]))
  end.

Definition _handle_initialize (request_id : json) : response :=
  _jsonrpc_result request_id
    (JObj [("protocolVersion", JStr _PROTOCOL_VERSION); ("capabilities", JObj _CAPABILITIES);
           ("serverInfo", JObj _SERVER_INFO); ("instructions", JStr _INSTRUCTIONS)]).

Definition _handle_tools_list (request_id : json) : response :=
  _jsonrpc_result request_id (JObj [("tools", JArr (map JObj TOOLS))]).

(** The agent's context with its key, or the reason. *)
Definition _require_agent (rq : rpc_request) : M ((json * string) + string) :=
  match presented_key (rr_authorization rq) (rr_x_api_key rq) with
  | None => ret (inr "unauthorized")
  | Some token =>
      let! v := validate_agent_key token in
      let '(ctx, err) := v in
      if bool_decide (ctx = JNull) then
        ret (inr (if bool_decide (err = Some "service_unavailable") then "service_unavailable" else "unauthorized"))
      else ret (inl (ctx, token))
  end.

Definition unauthorized_error (request_id : json) (reason : string) : response :=
  if String.eqb reason "service_unavailable" then
    _jsonrpc_error request_id (-32603) "Auth service temporarily unavailable; retry" None
  else _jsonrpc_error request_id (-32001) "Unauthorized: Bearer mk_agent_<key> required" None.

(** The loopback, with a fresh request to the same application. *)
Definition perform (call : tool_call) : M (option upstream) :=
  match call with
  | Unknown => ret None
  | Synthetic resp => ret (Some resp)
  | Loop rq => let! r := mcp_app rq in ret (Some (upstream_of r))
  end.

Definition _handle_tools_call (request_id params : json) (agent_key : string) : M response :=
  let! name := lift (json_get "name" (JStr "") params) in
  let! arguments := lift (get "arguments" params) in
  let args := json_or arguments (JObj []) in
  if negb (truthy name) then ret (_jsonrpc_error request_id (-32602) "Invalid params: 'name' is required" None)
  else
    let! call := lift (match name with JStr n => _dispatch_tool n args ("Bearer " +:+ agent_key) | _ => Ok Unknown end) in
    let! resp := perform call in
    match resp with
    | None =>
        ret (_jsonrpc_error request_id (-32601) ("Unknown tool: " +:+ str_json name)
          (hint_data ("Call tools/list to see available tools. Received: " +:+ repr_json name)))
    | Some resp => let! result := lift (_upstream_to_tool_result resp) in ret (_jsonrpc_result request_id result)
    end.

Definition supported_methods : string :=
  "Supported methods: initialize, notifications/initialized, " +:+ "tools/list, tools/call, resources/list, resources/read".

(** The method handlers. *)
Definition call_method (rq : rpc_request) (request_id method params : json) : M response :=
  let named m := bool_decide (method = JStr m) in
  if named "initialize" then ret (_handle_initialize request_id)
  else if named "notifications/initialized" then ret (EmptyResponse 202)
  else if named "tools/list" then
    let! agent := _require_agent rq in
    match agent with
    | inr reason => ret (unauthorized_error request_id reason)
    | inl _ => ret (_handle_tools_list request_id)
    end
  else if named "resources/list" then ret (_handle_resources_list request_id)
  else if named "resources/read" then lift (_handle_resources_read request_id params)
  else if named "tools/call" then
    let! agent := _require_agent rq in
    match agent with
    | inr reason => ret (unauthorized_error request_id reason)
    | inl (_, agent_key) => _handle_tools_call request_id params agent_key
    end
  else
    ret (_jsonrpc_error request_id (-32601) ("Method not found: " +:+ str_json method)
      (Some (JObj [("hint", JStr supported_methods); ("received", method)]))).

Definition _dispatch (rq : rpc_request) : M response :=
  match rr_body rq with
  | None => ret (_jsonrpc_error JNull (-32700) "Parse error: invalid JSON" None)
  | Some (JObj body) =>
      match dict_get "method" body with
      | Some method =>
          if bool_decide (dict_get "jsonrpc" body = Some (JStr "2.0")) then
            call_method rq (dict_default "id" JNull body) method (json_or (dict_default "params" JNull body) (JObj []))
          else ret _helpful_400
      | None => ret _helpful_400
      end
  | Some _ => ret _helpful_400
  end.

End Dispatch.

(** ** The printed text reads back *)

Lemma newline_ws n : forallb is_ws (newline n) = true.
Proof. unfold newline. cbn [forallb]. change (is_ws (chr 10)) with true. cbn [andb]. by induction (2 * n)%nat. Qed.

Lemma level_head n j : exists c l, dumps_level n j = c :: l /\ value_start c = true.
Proof.
  destruct j as [|b|z|s|[|x l]|[|kv l]]; try (by eexists _, _);
    first [exact (dumps_head false (chars ", ") (chars ": ") _)|by eexists _, _].
Qed.

(** [parse_value] reads back the value printed at a level. *)
Definition reads_at (j : json) : Prop := forall n fuel rest,
  (2 * length (dumps_level n j) + 1 <= fuel)%nat -> after_number rest = true ->
  parse_value fuel (dumps_level n j ++ rest)%list = Some (j, rest).

Lemma expect_newline c n l : expect c (newline n ++ l)%list = expect c l.
Proof. apply expect_ws, newline_ws. Qed.

Lemma join_first sep x l : exists t, join sep (x :: l) = (x ++ t)%list.
Proof. destruct l as [|y l]; simpl; [exists []; by rewrite app_nil_r|eauto]. Qed.

Section Indented.
Variable n : nat.
Let sep : list ascii := ","%char :: newline (S n).
Let pr := dumps_level (S n).
Let pm (kv : string * json) := match kv with (k, v) => (print_str k ++ chars ": " ++ pr v)%list end.

Lemma reads_elems_at l fuel rest :
  l <> [] -> Forall reads_at l -> (2 * length (join sep (map pr l)) + 2 <= fuel)%nat ->
  parse_elems fuel (join sep (map pr l) ++ newline n ++ "]"%char :: rest)%list = Some (l, rest).
Proof.
  revert fuel; induction l as [|x l IH]; intros fuel Hne Hf Hfuel; [done|].
  inversion Hf as [|? ? Hx Hl]; subst. destruct fuel as [|fuel]; [lia|]. destruct l as [|y l].
  - cbn [map join] in *. cbn [parse_elems]. unfold pr. rewrite (Hx (S n) fuel) by (subst pr; lia || done). cbn [mbind option_bind].
    rewrite !expect_newline, expect_other, expect_sep by done. done.
  - change (join sep (map pr (x :: y :: l))) with (pr x ++ sep ++ join sep (map pr (y :: l)))%list in *.
    rewrite !length_app in Hfuel. change (length sep) with (S (length (newline (S n)))) in Hfuel.
    rewrite <- !app_assoc. cbn [parse_elems]. rewrite (Hx (S n) fuel) by (subst pr; cbv beta in *; lia || done).
    cbn [mbind option_bind]. unfold sep at 1. rewrite <- app_comm_cons, expect_sep by done.
    rewrite parse_elems_ws by apply newline_ws. by rewrite IH by (done || lia).
Qed.

Lemma reads_members_at l fuel rest :
  l <> [] -> Forall (fun kv => reads_at (snd kv)) l -> (2 * length (join sep (map pm l)) + 2 <= fuel)%nat ->
  parse_members fuel (join sep (map pm l) ++ newline n ++ "}"%char :: rest)%list = Some (l, rest).
Proof.
  revert fuel; induction l as [|[k v] l IH]; intros fuel Hne Hf Hfuel; [done|].
  inversion Hf as [|? ? Hx Hl]; subst. cbn [snd] in Hx. destruct fuel as [|fuel]; [lia|].
  assert (Hkey : forall tl, parse_members (S fuel) (pm (k, v) ++ tl)%list =
    '(v, r) ← parse_value fuel (pr v ++ tl)%list;
    match expect "," r with
    | Some r' => '(vs, r'') ← parse_members fuel r'; Some ((k, v) :: vs, r'')
    | None => r' ← expect "}" r; Some ([(k, v)], r')
    end).
  { intros tl. unfold pm, print_str. rewrite <- !app_comm_cons, <- !app_assoc.
    cbn [parse_members]. rewrite expect_sep by done. cbn [mbind option_bind app].
    rewrite (parse_str_flat (chars k)). cbn [mbind option_bind rev app]. rewrite unchars_chars.
    change (chars ": ") with (":"%char :: [" "%char]). rewrite <- app_comm_cons, expect_sep by done. cbn [mbind option_bind].
    by rewrite (parse_value_ws fuel [" "%char]). }
  assert (Hlen : (length (pr v) + 2 <= length (pm (k, v)))%nat).
  { unfold pm, print_str. rewrite !length_app. cbn [length]. rewrite length_app. cbn [length]. change (length (chars ": ")) with 2%nat. lia. }
  destruct l as [|kv l].
  - cbn [map join] in *. rewrite Hkey. unfold pr at 1. rewrite (Hx (S n) fuel) by (subst pr; cbv beta in *; lia || done).
    cbn [mbind option_bind]. rewrite !expect_newline, expect_other, expect_sep by done. done.
  - change (join sep (map pm ((k, v) :: kv :: l))) with (pm (k, v) ++ sep ++ join sep (map pm (kv :: l)))%list in *.
    rewrite !length_app in Hfuel. change (length sep) with (S (length (newline (S n)))) in Hfuel.
    rewrite <- !app_assoc, Hkey. rewrite (Hx (S n) fuel) by (subst pr; cbv beta in *; lia || done).
    cbn [mbind option_bind]. unfold sep at 1. rewrite <- app_comm_cons, expect_sep by done.
    rewrite parse_members_ws by apply newline_ws. by rewrite IH by (done || lia).
Qed.

End Indented.

Lemma reads_at_all j : reads_at j.
Proof.
  induction j as [|b|z|s|l IH|kvs IH] using json_ind'; intros n fuel rest Hfuel Hrest.
  1-4: exact (reads_all false [" "%char] [" "%char] eq_refl eq_refl _ fuel rest Hfuel Hrest).
  - destruct fuel as [|fuel]; [lia|]. destruct l as [|x l]; [done|].
    change (dumps_level n (JArr (x :: l))) with ("["%char :: newline (S n) ++ join (","%char :: newline (S n))
      (map (dumps_level (S n)) (x :: l)) ++ newline n ++ ["]"%char])%list in *.
    cbn [length] in Hfuel. rewrite !length_app in Hfuel. rewrite <- app_comm_cons, <- !app_assoc. cbn [app parse_value].
    rewrite skip_ws_id by done. cbn [Ascii.eqb Bool.eqb dquote chr].
    assert (He : expect "]" (newline (S n) ++ join (","%char :: newline (S n)) (map (dumps_level (S n)) (x :: l))
      ++ newline n ++ "]"%char :: rest)%list = None).
    { rewrite expect_newline. cbn [map]. destruct (join_first (","%char :: newline (S n)) (dumps_level (S n) x)
        (map (dumps_level (S n)) l)) as [t Ht]. rewrite Ht.
      destruct (level_head (S n) x) as (c & u & E & Hc). rewrite E. destruct (value_start_not c "]" Hc eq_refl). by apply expect_other. }
    rewrite He, parse_elems_ws by apply newline_ws. by rewrite reads_elems_at by (done || lia).
  - destruct fuel as [|fuel]; [lia|]. destruct kvs as [|[k v] l]; [done|].
    set (pm := fun kv : string * json => match kv with (k, v) => (print_str k ++ chars ": " ++ dumps_level (S n) v)%list end).
    change (dumps_level n (JObj ((k, v) :: l))) with ("{"%char :: newline (S n) ++ join (","%char :: newline (S n))
      (map pm ((k, v) :: l)) ++ newline n ++ ["}"%char])%list in *.
    cbn [length] in Hfuel. rewrite !length_app in Hfuel. rewrite <- app_comm_cons, <- !app_assoc. cbn [app parse_value].
    rewrite skip_ws_id by done. cbn [Ascii.eqb Bool.eqb dquote chr].
    assert (He : expect "}" (newline (S n) ++ join (","%char :: newline (S n)) (map pm ((k, v) :: l))
      ++ newline n ++ "}"%char :: rest)%list = None).
    { rewrite expect_newline. cbn [map]. destruct (join_first (","%char :: newline (S n)) (pm (k, v)) (map pm l)) as [t Ht].
      rewrite Ht. unfold pm, print_str. rewrite <- !app_comm_cons. by apply expect_other. }
    rewrite He, parse_members_ws by apply newline_ws. by rewrite reads_members_at by (done || (subst pm; cbv zeta in *; lia)).
Qed.

Lemma loads_dumps_indent j : json_wf j -> loads (dumps_indent j) = Some j.
Proof.
  intros Hj. unfold loads, dumps_indent. rewrite chars_unchars, py_len_unchars.
  pose proof (reads_at_all j 0%nat (S (2 * length (dumps_level 0 j))) []) as H. rewrite app_nil_r in H.
  rewrite H by (done || lia). cbn [mbind option_bind]. cbn [skip_ws]. by rewrite dedup_wf.
Qed.

(** ** What a request calls *)

#[local] Opaque uuid_str wire UUID db_uuid_to_wire.

Section Server.
Context `{E : Env} `{V : Vault} `{Sha : Sha256} `{Hx : Httpx} `{Sk : Skill} `{As : Asgi}.
Implicit Types w : world.

(** A request to the server: a REST call, or a POST to the JSON-RPC endpoint. *)
Inductive entry := Rest (rq : mcp_request) | Rpc (rq : rpc_request).

Definition mcp_server (e : entry) : M response := match e with Rest rq => mcp_app rq | Rpc rq => _dispatch rq end.

Definition entry_key (e : entry) : option string :=
  match e with
  | Rest rq => presented_key (mr_authorization rq) (mr_x_api_key rq)
  | Rpc rq => presented_key (rr_authorization rq) (rr_x_api_key rq)
  end.

(** The context the admin API answers for a valid key. *)
Definition agent_json (a t : uuid) (status : string) : json :=
  JObj [("agent_id", JStr (uuid_str a)); ("tenant_id", JStr (uuid_str t)); ("status", JStr status)].
Definition admin_context (ctx : json) : Prop := exists a t status,
  (a < uuid_limit)%N /\ (t < uuid_limit)%N /\ ctx = agent_json a t status.

(** The REST request of a tools/call with these parameters and key. *)
Definition asked_request (params : json) (agent_key : string) : option mcp_request :=
  match json_get "name" (JStr "") params, get "arguments" params with
  | Ok (JStr name), Ok arguments =>
      match _dispatch_tool name (json_or arguments (JObj [])) ("Bearer " +:+ agent_key) with
      | Ok (Loop rq) => Some rq
      | _ => None
      end
  | _, _ => None
  end.

(** The REST request that a request to the server asks for. *)
Definition tool_asked (e : entry) : option mcp_request :=
  match e with
  | Rest rq => Some rq
  | Rpc rq =>
      match rr_body rq, entry_key e with
      | Some (JObj body), Some key =>
          if bool_decide (dict_get "method" body = Some (JStr "tools/call"))
          then asked_request (json_or (dict_default "params" JNull body) (JObj [])) key else None
      | _, _ => None
      end
  end.

(** The calls that the tool [r] may make for the agent [a] of tenant [t], in state [d] and in a
    request that began at the point [n0] of the tapes with the limiter [limiter] and ends in [w]. *)
Definition route_calls (a t : uuid) (d : db) (n0 : nat) limiter w (r : tool_route) (made : list http_request) : Prop :=
  made = [] \/
  match r with
  | RouteToken body => exists rq, made = [rq] /\ granted_call t a body d n0 limiter rq w
  | RouteEmail _ => exists es, email_access t a d es /\
      (made = [issue_call t a es] \/ exists rq, made = [issue_call t a es; rq] /\ EmailTools.proxy_call es rq)
  | GetOpenapi _ _ => exists rq, made = [rq] /\ openapi_call t d rq
  | _ => False
  end.

Lemma route_calls_from a t d n0 n1 limiter w r made : (n0 <= n1)%nat ->
  route_calls a t d n1 limiter w r made -> route_calls a t d n0 limiter w r made.
Proof.
  intros Hn [H|H]; [by left|right]. destruct r; try done. destruct H as (rq & Hm & H). exists rq. split; [done|].
  by eapply granted_call_later; [|split|exact H].
Qed.

(** *** Handlers that call nobody *)

Lemma silent_vault {A} (f : vault_state -> outcome (A * vault_state)) : silent (vault_call f).
Proof. intros w. unfold vault_call. destruct (f _) as [[a v]|e], (env_vault_fault _) as [[[] e']|]; done. Qed.

Lemma silent_commit : silent commit.
Proof. intros w. unfold commit. change (w_tx (tick w)) with (w_tx w). destruct (w_tx w); [|done..]. by destruct (env_fault _). Qed.

Lemma silent_of_transaction {A} (m : M A) : silent m -> silent (transaction m).
Proof. intros H w. rewrite silent_transaction. by rewrite H. Qed.

Lemma silent_resolve_or_404 {A} (m : M A) k : silent m -> (forall a, silent (k a)) -> silent (resolve_or_404 m k).
Proof.
  intros Hm Hk w. unfold resolve_or_404. specialize (Hm w). destruct (m w) as [[a|e] w1]; cbn [snd] in Hm.
  - by rewrite Hk.
  - by destruct e.
Qed.

Lemma silent_bound_opt s : silent (bound_opt s).
Proof. unfold bound_opt. destruct s; repeat silent_step. Qed.

Lemma silent_bootstrap s : silent (bootstrap s).
Proof. unfold bootstrap. repeat silent_step. Qed.

Lemma silent_list c : silent (Discovery.list_services c).
Proof. unfold Discovery.list_services, granted_services, granted_email_services. repeat silent_step. Qed.

Lemma silent_discover c : silent (discover c).
Proof. unfold discover, granted_services, granted_email_services. cbv zeta. repeat silent_step. Qed.

Lemma silent_describe_service c id : silent (describe_service c id).
Proof.
  unfold describe_service, _fetch_budget_info. cbv zeta. destruct c as [[aid tid]|]; [|apply silent_ret].
  apply silent_bind; [done|intros sql_now]. apply silent_bind; [apply silent_set_tenant|intros []].
  apply silent_resolve_or_404; [apply silent_resolve_service|intros u]. repeat silent_step.
Qed.

Lemma silent_secrets c rq : silent (tool_handler c rq).
Proof.
  destruct rq; cbn [tool_handler]; unfold secret_put, secret_get, secret_delete, secret_list, put_agent_secret, get_agent_secret,
    delete_agent_secret_blob; cbv zeta.
  all: repeat first [lazymatch goal with
    | |- silent (vault_call _) => apply silent_vault
    | |- silent commit => apply silent_commit
    | |- silent (bound_opt _) => apply silent_bound_opt
    | |- silent (audit_emit _ _ _ _ _ _ _) => apply silent_audit_emit
    end | silent_step].
Qed.

(** *** The calls of a handler, for the agent of its context *)

Definition made_for (agent : option (uuid * uuid)) (r : tool_route) w (ow : outcome response * world) : Prop :=
  exists ts, calls (snd ow) = (calls w ++ ts)%list /\
    match agent with
    | None => ts = []
    | Some (a, t) => route_calls a t (w_base w) (w_tick w) (p_limiter (w_proc w)) (snd ow) r ts
    end.

Definition context_for (ctx : json) (agent : option (uuid * uuid)) : Prop :=
  match agent with
  | None => ctx = JNull
  | Some (a, t) => (a < uuid_limit)%N /\ (t < uuid_limit)%N /\ exists status, ctx = agent_json a t status
  end.

Definition handler_context (agent : option (uuid * uuid)) : option agent_context :=
  match agent with None => None | Some (a, t) => Some (AgentContext (uuid_str a) (uuid_str t)) end.

Lemma context_of_for ctx agent : context_for ctx agent -> context_of ctx = Ok (handler_context agent).
Proof. destruct agent as [[a t]|]; [intros (_ & _ & st & ->); reflexivity|by intros ->]. Qed.

Lemma made_silent agent r m w : silent m -> made_for agent r w (m w).
Proof.
  intros H. exists []. unfold calls. rewrite H, app_nil_r. split; [done|]. destruct agent as [[a t]|]; [by left|done].
Qed.

Lemma calls_transaction {A} (m : M A) w : calls (snd (transaction m w)) = calls (snd (m (begin w))).
Proof. unfold calls. by rewrite silent_transaction. Qed.

Lemma made_token agent body w : context_for JNull agent \/ (exists ctx, context_for ctx agent) ->
  made_for agent (RouteToken body) w (transaction (request_token (handler_context agent) body) w).
Proof.
  intros Hc. destruct agent as [[a t]|]; [|apply made_silent, silent_of_transaction, silent_ret].
  assert (H : (a < uuid_limit)%N /\ (t < uuid_limit)%N) by (destruct Hc as [(?&?&_)|(ctx & ?&?&_)]; done).
  destruct H as [Ha Ht]. destruct (transaction_issues t a Ht Ha body w) as [[Hn _]|(rq & Hc' & Hg)].
  - exists []. rewrite app_nil_r. split; [exact Hn|by left].
  - exists [rq]. split; [exact Hc'|]. right. by exists rq.
Qed.

Lemma made_openapi ctx agent id inline w : context_for ctx agent ->
  made_for agent (GetOpenapi id inline) w (transaction (get_openapi (handler_context agent) id inline) w).
Proof.
  intros Hc. destruct agent as [[a t]|]; [|apply made_silent, silent_of_transaction, silent_ret].
  destruct Hc as (Ha & Ht & _). unfold made_for. rewrite calls_transaction. cbn [handler_context].
  destruct (openapi_fetches t Ht (uuid_str a) id inline (begin w) eq_refl) as [[Hn _]|(_ & (rq & Hr & Hp) & _)].
  - exists []. rewrite app_nil_r. split; [exact Hn|by left].
  - exists [rq]. split; [exact Hr|]. right. by exists rq.
Qed.

Lemma made_email ctx agent rq w : context_for ctx agent ->
  made_for agent (RouteEmail rq) w (transaction (email_tool_handler (handler_context agent) rq) w).
Proof.
  intros Hc. destruct agent as [[a t]|]; [|apply made_silent, silent_of_transaction; destruct rq; apply silent_ret].
  destruct Hc as (Ha & Ht & _).
  destruct (transaction_tool_calls t a _ w (handler_calls t a Ht Ha rq (begin w) eq_refl)) as (ts & Hm & Hr & _).
  exists ts. split; [exact Hm|]. destruct Hr as [->|(es & He & Hr)]; [by left|]. right. by exists es.
Qed.

Lemma serve_route_calls ctx agent r w : context_for ctx agent -> made_for agent r w (serve_route ctx r w).
Proof.
  intros Hc. unfold serve_route. rewrite (context_of_for ctx agent Hc).
  destruct r; cbv zeta; try (change (bind (lift (Ok (handler_context agent))) ?k w) with (k (handler_context agent) w)).
  - apply made_silent, silent_bootstrap.
  - apply made_silent, silent_ret.
  - apply made_silent, silent_of_transaction, silent_list.
  - apply made_silent, silent_of_transaction, silent_discover.
  - apply made_silent, silent_of_transaction, silent_describe_service.
  - by apply (made_openapi ctx).
  - apply made_token. by eauto.
  - apply made_silent, silent_of_transaction, silent_secrets.
  - by apply (made_email ctx).
  - apply made_silent, silent_ret.
Qed.

(** *** The validation of a key *)

(** The context and the reason, as a function of what the admin API answers. *)
Definition context_verdict (answer : outcome (Z * option json)) : json * option string :=
  match answer with
  | Ok (status_code, content) =>
      if Z.eqb status_code 200 then
        match content with Some ctx => (ctx, None) | None => (JNull, Some "service_unavailable") end
      else if Z.leb 500 status_code then (JNull, Some "service_unavailable") else (JNull, Some "invalid_key")
  | Raise _ => (JNull, Some "service_unavailable")
  end.

Definition asked (key : string) w : world := set_proc (add_call (validate_call key) (w_proc w)) (tick w).

Lemma key_run key w : validate_agent_key key w = (Ok (context_verdict (env_http (S (w_tick w)))), asked key w).
Proof.
  unfold validate_agent_key, catch, bind, http_post. cbv zeta. change (w_tick (tick w)) with (S (w_tick w)).
  destruct (env_http (S (w_tick w))) as [[st c]|e]; [|reflexivity]. unfold context_verdict.
  destruct (Z.eqb st 200); [by destruct c|]. by destruct (Z.leb 500 st).
Qed.

Lemma calls_asked key w : calls (asked key w) = (calls w ++ [validate_call key])%list. Proof. done. Qed.

(** A context that is not [None] was answered with 200. *)
Lemma verdict_answered answer ctx err : context_verdict answer = (ctx, err) -> ctx <> JNull -> answer = Ok (200%Z, Some ctx).
Proof.
  destruct answer as [[st c]|e]; cbn [context_verdict]; [|intros [= <- _] H; by destruct H].
  destruct (Z.eqb_spec st 200) as [->|_]; [|destruct (Z.leb 500 st); intros [= <- _] H; by destruct H].
  destruct c as [c|]; intros [= <- _] H; [done|by destruct H].
Qed.

(** At most [hi] validations of the key, then the calls of the tool [tool] for the agent of the
    context that the last validation was answered with, which is the [lo]th at least. *)
Definition bounded_calls (tool : option mcp_request) (key : option string) (lo hi : nat) w w' : Prop :=
  exists vs ts, calls w' = (calls w ++ vs ++ ts)%list /\ (length vs <= hi)%nat /\
    Forall (fun c => exists key', key = Some key' /\ c = validate_call key') vs /\
    (ts = [] \/ (lo <= length vs)%nat /\ exists a t status rq, (a < uuid_limit)%N /\ (t < uuid_limit)%N /\
       env_http (w_tick w + length vs) = Ok (200%Z, Some (agent_json a t status)) /\ tool = Some rq /\
       route_calls a t (w_base w) (w_tick w) (p_limiter (w_proc w)) w' (route rq) ts).

Lemma bounded_same tool key lo hi w w' : w_proc w' = w_proc w -> bounded_calls tool key lo hi w w'.
Proof.
  intros H. exists [], []. unfold calls. rewrite H. cbn [app]. rewrite app_nil_r. split; [done|].
  split; [cbn [length]; lia|]. split; [constructor|by left].
Qed.

Lemma bounded_silent {A} tool key lo hi (m : M A) w : silent m -> bounded_calls tool key lo hi w (snd (m w)).
Proof. intros H. apply bounded_same, H. Qed.

(** One more validation in front. *)
Lemma bounded_asked tool key lo hi w w' :
  bounded_calls tool (Some key) lo hi (asked key w) w' -> bounded_calls tool (Some key) (S lo) (S hi) w w'.
Proof.
  intros (vs & ts & Hc & Hl & Hv & Ht). exists (validate_call key :: vs), ts. rewrite calls_asked in Hc.
  rewrite Hc, <- !app_assoc. split; [done|]. split; [cbn [length]; lia|].
  split; [constructor; [by exists key|exact Hv]|]. destruct Ht as [?|(Hlo & a & t & status & rq & Ha & Hlt & Henv & Htool & Hr)]; [by left|right].
  split; [cbn [length]; lia|]. exists a, t, status, rq. split; [done|]. split; [done|].
  split; [cbn [length]; rewrite Nat.add_succ_r; exact Henv|]. split; [done|].
  apply (route_calls_from _ _ _ _ (S (w_tick w))); [lia|exact Hr].
Qed.

Lemma bounded_weaken tool key key' lo hi w w' : (key = None \/ key = key') ->
  bounded_calls tool key lo hi w w' -> bounded_calls tool key' lo hi w w'.
Proof.
  intros Hk (vs & ts & Hc & Hl & Hv & Ht). exists vs, ts. split; [exact Hc|]. split; [lia|]. split; [|exact Ht].
  destruct Hk as [->| ->]; [|exact Hv]. destruct vs as [|v vs]; [constructor|]. inversion Hv as [|? ? (? & H & _) _]; discriminate H.
Qed.

Lemma bounded_made ctx rq key lo agent w ow : context_for ctx agent ->
  (ctx = JNull \/ lo = 0%nat /\ env_http (w_tick w) = Ok (200%Z, Some ctx)) ->
  made_for agent (route rq) w ow -> bounded_calls (Some rq) key lo lo w (snd ow).
Proof.
  intros Hc Hn (ts & Hm & Ht). exists [], ts. split; [exact Hm|]. split; [cbn [length]; lia|]. split; [constructor|].
  destruct agent as [[a t]|]; [|by left]. destruct Hc as (Ha & Hl & status & ->). destruct Hn as [Hn|[-> Hn]]; [discriminate Hn|].
  right. split; [done|]. exists a, t, status, rq. cbn [length]. rewrite Nat.add_0_r. done.
Qed.

Lemma bounded_none rq key lo w : bounded_calls (Some rq) key lo lo w (snd (serve_route JNull (route rq) w)).
Proof. apply (bounded_made JNull _ _ _ None); [done|by left|]. by apply serve_route_calls. Qed.

Lemma app_calls rq w :
  (forall ctx, env_http (S (w_tick w)) = Ok (200%Z, Some ctx) -> admin_context ctx) ->
  bounded_calls (Some rq) (presented_key (mr_authorization rq) (mr_x_api_key rq)) 1 1 w (snd (mcp_app rq w)).
Proof.
  intros Hadmin. unfold mcp_app, agent_key_middleware.
  destruct (existsb _ open_paths); [apply bounded_none|].
  destruct (presented_key _ _) as [key|]; [|apply bounded_none]. unfold bind. rewrite key_run.
  apply bounded_asked. destruct (context_verdict _) as [ctx err] eqn:Ev. case_bool_decide as Hc.
  - case_bool_decide; [apply bounded_silent, silent_ret|apply bounded_none].
  - pose proof (verdict_answered _ _ _ Ev Hc) as Hn. destruct (Hadmin ctx Hn) as (a & t & status & Ha & Ht & ->).
    assert (Hfor : context_for (agent_json a t status) (Some (a, t))) by (split; [done|split; [done|by exists status]]).
    apply (bounded_made _ _ _ _ _ _ _ Hfor); [right; by split|]. by apply serve_route_calls.
Qed.

(** A key is presented again as the bearer of the loopback. *)
Lemma presented_again auth x key : presented_key auth x = Some key -> presented_key ("Bearer " +:+ key) "" = Some key.
Proof.
  intros H. assert (Hk : startswith key "mk_agent_" = true).
  { unfold presented_key in H. cbv zeta in H.
    destruct (startswith auth "Bearer "); [destruct (startswith (py_drop _ auth) "mk_agent_") eqn:Hm; [by injection H as <-|]|];
      (destruct (startswith x "mk_agent_") eqn:Hp; [by injection H as <-|done]). }
  unfold presented_key. rewrite startswith_app. cbv zeta. by rewrite py_drop_app, Hk.
Qed.

(** The loopback carries the agent's key or none. *)
Lemma loop_key name args auth rq : _dispatch_tool name args auth = Ok (Loop rq) ->
  (mr_authorization rq = auth \/ mr_authorization rq = "") /\ mr_x_api_key rq = "".
Proof.
  unfold _dispatch_tool, required_argument, loop_get, get, json_get. intros H.
  repeat match type of H with
  | (if ?b then _ else _) = _ => destruct b
  | mbind _ (match ?x with _ => _ end) = _ => destruct x; cbn [mbind outcome_bind] in H
  | mbind _ _ = _ => cbn [mbind outcome_bind] in H
  end; try discriminate H; injection H as <-; cbn; auto.
Qed.

Lemma perform_calls call auth key w : presented_key auth "" = key ->
  (forall rq, call = Loop rq -> (mr_authorization rq = auth \/ mr_authorization rq = "") /\ mr_x_api_key rq = "") ->
  (forall ctx, env_http (S (w_tick w)) = Ok (200%Z, Some ctx) -> admin_context ctx) ->
  bounded_calls (match call with Loop rq => Some rq | _ => None end) key 1 1 w (snd (perform call w)).
Proof.
  intros Hkey Hauth Hadmin. destruct call as [|resp|rq]; [apply bounded_silent, silent_ret..|].
  destruct (Hauth rq eq_refl) as [Ha Hx0]. pose proof (app_calls rq w Hadmin) as H. rewrite Hx0 in H.
  unfold perform, bind. destruct (mcp_app rq w) as [[r|e] w1]; cbn [snd ret] in *;
    (eapply bounded_weaken; [|exact H]); destruct Ha as [->| ->]; [by right|by left|by right|by left].
Qed.

Lemma tools_call_calls id params key w : presented_key ("Bearer " +:+ key) "" = Some key ->
  (forall ctx, env_http (S (w_tick w)) = Ok (200%Z, Some ctx) -> admin_context ctx) ->
  bounded_calls (asked_request params key) (Some key) 1 1 w (snd (_handle_tools_call id params key w)).
Proof.
  intros Hkey Hadmin. unfold _handle_tools_call. unfold bind at 1, lift at 1. unfold asked_request.
  destruct (json_get "name" _ params) as [name|]; [|by apply bounded_same].
  unfold bind at 1, lift at 1. destruct (get "arguments" params) as [args|]; [|by apply bounded_same]. cbv zeta.
  destruct (truthy name); cbn [negb]; [|by apply bounded_same]. unfold bind at 1, lift at 1.
  destruct (match name with JStr n => _dispatch_tool n (json_or args (JObj [])) ("Bearer " +:+ key) | _ => Ok Unknown end)
    as [call|] eqn:Ec; [|by apply bounded_same].
  assert (Etool : match name with
    | JStr name0 => match _dispatch_tool name0 (json_or args (JObj [])) ("Bearer " +:+ key) with
                    | Ok (Loop rq) => Some rq | _ => None end
    | _ => None end = match call with Loop rq => Some rq | _ => None end).
  { destruct name; try (apply Ok_inj in Ec; by subst call). by rewrite Ec. }
  rewrite Etool. clear Etool.
  assert (Hp : bounded_calls (match call with Loop rq => Some rq | _ => None end) (Some key) 1 1 w (snd (perform call w))).
  { apply (perform_calls call ("Bearer " +:+ key)); [done| |done]. intros rq ->.
    destruct name; try discriminate Ec. by apply (loop_key s (json_or args (JObj []))). }
  unfold bind. destruct (perform call w) as [[resp|e] w1]; cbn [snd] in Hp |- *; [|exact Hp].
  destruct resp as [resp|]; [|exact Hp]. unfold lift. by destruct (_upstream_to_tool_result resp).
Qed.

Definition required (rq : rpc_request) w : ((json * string) + string) * world :=
  match presented_key (rr_authorization rq) (rr_x_api_key rq) with
  | None => (inr "unauthorized", w)
  | Some key =>
      let '(ctx, err) := context_verdict (env_http (S (w_tick w))) in
      (if bool_decide (ctx = JNull)
       then inr (if bool_decide (err = Some "service_unavailable") then "service_unavailable" else "unauthorized")
       else inl (ctx, key), asked key w)
  end.

Lemma require_agent_run rq w : _require_agent rq w = (Ok (fst (required rq w)), snd (required rq w)).
Proof.
  unfold _require_agent, required. destruct (presented_key _ _) as [key|]; [|reflexivity]. unfold bind. rewrite key_run.
  destruct (context_verdict _) as [ctx err]. by case_bool_decide.
Qed.

(** The methods that need an agent. *)
Lemma gated_calls rq tool (k : (json * string) + string -> M response) w :
  (forall reason, exists r, k (inr reason) = ret r) ->
  (forall ctx key w1, presented_key (rr_authorization rq) (rr_x_api_key rq) = Some key -> w_tick w1 = S (w_tick w) ->
     bounded_calls tool (Some key) 1 1 w1 (snd (k (inl (ctx, key)) w1))) ->
  bounded_calls tool (presented_key (rr_authorization rq) (rr_x_api_key rq)) 2 2 w (snd (bind (_require_agent rq) k w)).
Proof.
  intros Hr Hk. unfold bind. rewrite require_agent_run. unfold required.
  destruct (presented_key _ _) as [key|] eqn:Ek; [|cbn [fst snd]; destruct (Hr "unauthorized") as [r ->]; by apply bounded_same].
  destruct (context_verdict _) as [ctx err]. cbn [fst snd]. apply bounded_asked. case_bool_decide.
  - match goal with |- context [inr ?s] => destruct (Hr s) as [r ->] end. by apply bounded_same.
  - by apply Hk.
Qed.

(** How often a request is validated before a tool runs. *)
Definition validations (e : entry) : nat := match e with Rest _ => 1 | Rpc _ => 2 end.

(** C4: The MCP server calls the outside world only for its agents and within
    their grants.  A request, whatever it asks (a REST tool or a JSON-RPC
    method, well-formed or not) and whatever fails, makes at most two calls
    of the admin API, both validating the key it presents.  Then it calls
    nobody, or else it has been validated as often as its kind demands (once
    for a REST tool, twice for a tools/call), and makes the calls of the tool
    it asks for, in the name of the agent [a] of tenant [t] whose context the
    admin API answered to the last of these validations: a token request
    makes one call, for a grant whose constraints held during the request, or
    for a granted email service; an email tool asks for a token of a granted
    email service and may then call the email proxy; get_openapi fetches the
    document registered for a service of the tenant; no other tool calls. *)
Theorem mcp_calls_within_grants e w :
  (forall n ctx, n = S (w_tick w) \/ (exists rq, e = Rpc rq) /\ n = S (S (w_tick w)) ->
     env_http n = Ok (200%Z, Some ctx) -> admin_context ctx) ->
  exists vs ts, calls (snd (mcp_server e w)) = (calls w ++ vs ++ ts)%list /\ (length vs <= 2)%nat /\
    Forall (fun c => exists key, entry_key e = Some key /\ c = validate_call key) vs /\
    (ts = [] \/ length vs = validations e /\
       exists a t status rq, (a < uuid_limit)%N /\ (t < uuid_limit)%N /\
         env_http (w_tick w + validations e) = Ok (200%Z, Some (agent_json a t status)) /\
         tool_asked e = Some rq /\
         route_calls a t (w_base w) (w_tick w) (p_limiter (w_proc w)) (snd (mcp_server e w)) (route rq) ts).
Proof.
  intros Hadmin.
  assert (H : bounded_calls (tool_asked e) (entry_key e) (validations e) (validations e) w (snd (mcp_server e w))).
  2: { destruct H as (vs & ts & Hc & Hl & Hv & Ht). exists vs, ts. split; [exact Hc|].
       split; [destruct e; cbn [validations] in Hl; lia|]. split; [exact Hv|]. destruct Ht as [?|[Hlo Ht]]; [by left|right].
       assert (Hn : length vs = validations e) by lia. split; [exact Hn|]. by rewrite Hn in Ht. }
  destruct e as [rq|rq]; cbn [mcp_server entry_key validations].
  { apply app_calls. eauto. }
  assert (Htool : forall body key, rr_body rq = Some (JObj body) -> dict_get "method" body = Some (JStr "tools/call") ->
    entry_key (Rpc rq) = Some key ->
    tool_asked (Rpc rq) = asked_request (json_or (dict_default "params" JNull body) (JObj [])) key).
  { intros body key Hb Hm Hk. unfold tool_asked. rewrite Hb, Hk. by rewrite bool_decide_true. }
  revert Htool. generalize (tool_asked (Rpc rq)) as tool. intros tool Htool. cbn [entry_key] in Htool.
  unfold _dispatch. destruct (rr_body rq) as [[| | | | |body]|]; try by apply bounded_same.
  specialize (Htool body). destruct (dict_get "method" body) as [method|]; [|by apply bounded_same].
  case_bool_decide; [|by apply bounded_same].
  unfold call_method. cbv zeta.
  case_bool_decide; [by apply bounded_same|]. case_bool_decide; [by apply bounded_same|].
  case_bool_decide; [apply gated_calls; [by eauto|]; intros; by apply bounded_same|].
  case_bool_decide; [by apply bounded_same|]. case_bool_decide; [by apply bounded_same|].
  case_bool_decide as Hm; [|by apply bounded_same]. subst method. apply gated_calls; [by eauto|].
  intros ctx key w1 Hkey Htick. rewrite (Htool key eq_refl eq_refl Hkey). apply tools_call_calls; [by eapply presented_again|].
  intros c Hc. apply (Hadmin (S (w_tick w1))); [right; rewrite Htick; eauto|exact Hc].
Qed.

(** The answer to a request that needs an agent. *)
Definition gated_method (body : dict) : Prop :=
  dict_get "method" body = Some (JStr "tools/list") \/ dict_get "method" body = Some (JStr "tools/call").

Lemma dispatch_gated rq body w : rr_body rq = Some (JObj body) -> dict_get "jsonrpc" body = Some (JStr "2.0") ->
  gated_method body -> exists k, _dispatch rq w = bind (_require_agent rq) k w /\
    forall reason, k (inr reason) = ret (unauthorized_error (dict_default "id" JNull body) reason).
Proof.
  intros Hb Hv Hm. unfold _dispatch. rewrite Hb. destruct Hm as [Hm|Hm]; rewrite Hm, Hv;
    rewrite bool_decide_true by done; unfold call_method; cbv zeta;
    repeat (rewrite bool_decide_false by discriminate); rewrite bool_decide_true by done; eexists; (split; [reflexivity|done]).
Qed.

(** No tool without an agent: a tools/list or tools/call whose key is missing or has not been accepted
    (the admin API answers something else than a context with status 200, or cannot be asked) is answered
    with an error, calls nobody but the admin API, once, and leaves the database as it is. *)
Lemma unaccepted_refused rq body w :
  rr_body rq = Some (JObj body) -> dict_get "jsonrpc" body = Some (JStr "2.0") -> gated_method body ->
  (forall ctx, presented_key (rr_authorization rq) (rr_x_api_key rq) <> None ->
     env_http (S (w_tick w)) = Ok (200%Z, Some ctx) -> ctx = JNull) ->
  let ow := _dispatch rq w in
  (exists code message, (code = -32603 \/ code = -32001)%Z /\
     fst ow = Ok (_jsonrpc_error (dict_default "id" JNull body) code message None)) /\
  calls (snd ow) = (calls w ++ match presented_key (rr_authorization rq) (rr_x_api_key rq) with
                               | Some key => [validate_call key] | None => [] end)%list /\
  w_base (snd ow) = w_base w /\ w_vault (snd ow) = w_vault w.
Proof.
  intros Hb Hv Hm Hno. destruct (dispatch_gated rq body w Hb Hv Hm) as (k & -> & Hk). unfold bind. rewrite require_agent_run.
  assert (Herr : exists reason w1, required rq w = (inr reason, w1) /\ w_base w1 = w_base w /\ w_vault w1 = w_vault w /\
    calls w1 = (calls w ++ match presented_key (rr_authorization rq) (rr_x_api_key rq) with
                           | Some key => [validate_call key] | None => [] end)%list).
  { unfold required. destruct (presented_key _ _) as [key|]; [|eexists _, _; rewrite app_nil_r; by repeat split].
    destruct (context_verdict _) as [ctx err] eqn:Ev. case_bool_decide as Hc; [eexists _, _; by repeat split|].
    exfalso. apply Hc, (Hno ctx); [done|]. exact (verdict_answered _ _ _ Ev Hc). }
  destruct Herr as (reason & w1 & -> & Hbase & Hvault & Hcalls). cbn [fst snd]. rewrite Hk. cbn [ret fst snd].
  split; [|by split]. unfold unauthorized_error. destruct (String.eqb _ _); eexists _, _; (split; [|reflexivity]); [by left|by right].
Qed.

(** *** The envelopes *)

(** A JSON-RPC 2.0 response with this id: one of a result and an error, the latter with code and message. *)
Definition envelope (request_id : json) (r : response) : Prop :=
  status_code r = 200%Z /\ exists tail, content r = JObj [("jsonrpc", JStr "2.0"); ("id", request_id); tail] /\
    ((exists result, tail = ("result", result)) \/
     (exists code message data, tail = ("error", JObj (("code", JInt code) :: ("message", JStr message) :: data)))).

Lemma envelope_error id code message data : envelope id (_jsonrpc_error id code message data).
Proof. split; [done|]. eexists. split; [reflexivity|]. right. by eexists _, _, _. Qed.
Lemma envelope_result id result : envelope id (_jsonrpc_result id result).
Proof. split; [done|]. eexists. split; [reflexivity|]. left. by eexists. Qed.

Lemma tools_call_envelope id params key w r w' : _handle_tools_call id params key w = (Ok r, w') -> envelope id r.
Proof.
  unfold _handle_tools_call. intros H. step H as name w1 H1. step H as args w2 H2. cbv zeta in H.
  destruct (negb _); [apply ret_Ok in H as [-> _]; apply envelope_error|]. step H as call w3 H3. step H as resp w4 H4.
  destruct resp as [resp|]; [|apply ret_Ok in H as [-> _]; apply envelope_error].
  step H as result w5 H5. apply ret_Ok in H as [-> _]. apply envelope_result.
Qed.

(** C29: What the JSON-RPC endpoint answers.  An answer to a request object
    that has an id is a response object with that id and exactly one of a
    result and an error, whatever its method, and whatever the tools do;
    notifications/initialized is answered with 202 and no body; a body that
    is no JSON gets a response object with a null id, and any other body the
    400 with the expected envelope.  (Nothing is said of other request
    objects without an id.) *)
Theorem rpc_answers rq w r w' : _dispatch rq w = (Ok r, w') ->
  match rr_body rq with
  | None => envelope JNull r
  | Some (JObj body) =>
      if bool_decide (dict_get "jsonrpc" body = Some (JStr "2.0")) && is_some (dict_get "method" body) then
        if bool_decide (dict_get "method" body = Some (JStr "notifications/initialized")) then r = EmptyResponse 202
        else forall id, dict_get "id" body = Some id -> envelope id r
      else r = _helpful_400
  | Some _ => r = _helpful_400
  end.
Proof.
  unfold _dispatch. destruct (rr_body rq) as [[| | | | |body]|]; try (intros H; apply ret_Ok in H as [-> _]; first [done|apply envelope_error]).
  destruct (dict_get "method" body) as [method|]; cbn [is_some]; [|intros H; apply ret_Ok in H as [-> _]; by rewrite andb_false_r].
  case_bool_decide; cbn [andb]; [|intros H'; by apply ret_Ok in H' as [-> _]].
  unfold call_method. cbv zeta. intros Hr.
  destruct (decide (method = JStr "notifications/initialized")) as [->|Hn].
  { rewrite bool_decide_false in Hr by discriminate. rewrite bool_decide_true in Hr by done.
    rewrite bool_decide_true by done. by apply ret_Ok in Hr as [-> _]. }
  rewrite bool_decide_false by congruence. intros id Hid.
  assert (Hdef : dict_default "id" JNull body = id) by (unfold dict_default; by rewrite Hid).
  rewrite Hdef in Hr. clear Hdef Hid.
  case_bool_decide as H0; [apply ret_Ok in Hr as [-> _]; apply envelope_result|].
  rewrite (bool_decide_false (method = JStr "notifications/initialized")) in Hr by done.
  case_bool_decide.
  { step Hr as agent w1 Ha. destruct agent; apply ret_Ok in Hr as [-> _]; [apply envelope_result|].
    unfold unauthorized_error. destruct (String.eqb _ _); apply envelope_error. }
  case_bool_decide; [apply ret_Ok in Hr as [-> _]; apply envelope_result|].
  case_bool_decide.
  { apply lift_Ok in Hr as [Hr _]. unfold _handle_resources_read in Hr. destruct (json_get _ _ _) as [uri|]; [|discriminate Hr].
    cbn [mbind outcome_bind] in Hr. destruct (match uri with JStr u => _ | _ => _ end) as [[text|]|]; cbn [mbind outcome_bind] in Hr;
      try discriminate Hr; apply Ok_inj in Hr; subst r; [apply envelope_result|apply envelope_error]. }
  case_bool_decide; [|apply ret_Ok in Hr as [-> _]; apply envelope_error].
  step Hr as agent w1 Ha. destruct agent as [[ctx key]|]; [by eapply tools_call_envelope|].
  apply ret_Ok in Hr as [-> _]. unfold unauthorized_error. destruct (String.eqb _ _); apply envelope_error.
Qed.

(** *** With the admin API *)

(** The context of an accepted key, and what becomes of the other answers of the admin API. *)
Lemma admin_verdicts `{Arg : Argon2} row expired_at :
  (let answer r := context_verdict (Ok (status_code r, Some (content r))) in
   answer (valid_key row) = (agent_json (a_id row) (a_tenant_id row) (a_status row), None) /\
   answer invalid_key = (JNull, Some "invalid_key") /\ answer (expired_key expired_at) = (JNull, Some "invalid_key") /\
   answer (Response 503 (JObj VERIFY_UNAVAILABLE_RESPONSE)) = (JNull, Some "service_unavailable")).
Proof. by repeat split. Qed.

(** An answer of the admin API with status 200, at the point [n] of the tapes, is what its endpoint
    makes of the key on the data [d]. *)
Definition admin_validates `{Arg : Argon2} (key : string) (d : db) (n : nat) : Prop :=
  forall ctx, env_http n = Ok (200%Z, Some ctx) -> exists wa ra wa', w_base wa = d /\
    transaction (Internal.validate_agent_key key) wa = (Ok ra, wa') /\ status_code ra = 200%Z /\ content ra = ctx.

(** The agent such an answer stands for. *)
Lemma admin_agent `{Arg : Argon2} key d n ctx :
  pg_uuid_in nil_uuid_text = Some 0%N -> admin_validates key d n -> env_http n = Ok (200%Z, Some ctx) ->
  exists a m, key_holder d key = Some a /\ argon2_verify m (a_api_key_hash a) key = Verified /\
    a_status a = "active" /\ ctx = agent_json (a_id a) (a_tenant_id a) "active".
Proof.
  intros Hnil Hadmin Henv. destruct (Hadmin ctx Henv) as (wa & ra & wa' & <- & Hval & Hst & <-).
  destruct (validated_holder Hnil key wa ra wa' Hval Hst) as (a & m & Hk & Hver & Hact & ->).
  exists a, m. do 3 (split; [done|]). rewrite <- Hact. reflexivity.
Qed.

(** How the application serves a loopback request with the key or with none. *)
Definition served (C : json) (req : mcp_request) w w2 (ow : outcome response * world) : Prop :=
  w_base w2 = w_base w /\ w_vault w2 = w_vault w /\
  (ow = (Ok auth_unavailable, w2) \/ exists ctx, (ctx = JNull \/ ctx = C) /\ ow = serve_route ctx (route req) w2).

Lemma app_served C req key w :
  presented_key (mr_authorization req) (mr_x_api_key req) = None \/
  presented_key (mr_authorization req) (mr_x_api_key req) = Some key ->
  (forall ctx, env_http (S (w_tick w)) = Ok (200%Z, Some ctx) -> ctx = C) ->
  exists w2, served C req w w2 (mcp_app req w).
Proof.
  intros Hkey Hctx. unfold mcp_app, agent_key_middleware.
  destruct (existsb _ open_paths); [exists w; do 2 (split; [done|]); right; exists JNull; split; [by left|done]|].
  destruct Hkey as [-> | ->]; [exists w; do 2 (split; [done|]); right; exists JNull; split; [by left|done]|].
  exists (asked key w). do 2 (split; [done|]). unfold bind. rewrite key_run.
  destruct (context_verdict _) as [ctx err] eqn:Ev. case_bool_decide as Hc.
  - case_bool_decide; [by left|]. right. exists JNull. split; [by left|done].
  - right. exists ctx. split; [|done]. right. apply Hctx. exact (verdict_answered _ _ _ Ev Hc).
Qed.

(** The run of a tools/call, case by case. *)
Lemma tools_call_run id params key w : _handle_tools_call id params key w =
  match json_get "name" (JStr "") params, get "arguments" params with
  | Raise e, _ | _, Raise e => (Raise e, w)
  | Ok name, Ok arguments =>
      if negb (truthy name) then (Ok (_jsonrpc_error id (-32602) "Invalid params: 'name' is required" None), w)
      else
        match match name with
              | JStr n => _dispatch_tool n (json_or arguments (JObj [])) ("Bearer " +:+ key)
              | _ => Ok Unknown
              end with
        | Raise e => (Raise e, w)
        | Ok Unknown =>
            (Ok (_jsonrpc_error id (-32601) ("Unknown tool: " +:+ str_json name)
                   (hint_data ("Call tools/list to see available tools. Received: " +:+ repr_json name))), w)
        | Ok (Synthetic resp) =>
            (match _upstream_to_tool_result resp with
             | Ok result => Ok (_jsonrpc_result id result) | Raise e => Raise e end, w)
        | Ok (Loop req) =>
            let '(o, w') := mcp_app req w in
            (match o with
             | Ok r2 => match _upstream_to_tool_result (upstream_of r2) with
                        | Ok result => Ok (_jsonrpc_result id result) | Raise e => Raise e end
             | Raise e => Raise e end, w')
        end
  end.
Proof.
  unfold _handle_tools_call, bind, lift. destruct (json_get "name" _ params) as [name|e]; [|reflexivity].
  destruct (get "arguments" params) as [args|e]; [|reflexivity]. cbv zeta. destruct (negb (truthy name)); [reflexivity|].
  destruct (match name with JStr n => _ | _ => _ end) as [[|resp|req]|e]; [reflexivity| | |reflexivity]; cbn [perform ret].
  - by destruct (_upstream_to_tool_result resp).
  - unfold bind. destruct (mcp_app req w) as [[r2|e] w']; [|reflexivity]. cbn [ret].
    by destruct (_upstream_to_tool_result (upstream_of r2)).
Qed.

(** A tools/call after its first validation. *)
Lemma tools_call_served C id params key w : presented_key ("Bearer " +:+ key) "" = Some key ->
  (forall ctx, env_http (S (w_tick w)) = Ok (200%Z, Some ctx) -> ctx = C) ->
  let ow := _handle_tools_call id params key w in
  match asked_request params key with
  | None => w_base (snd ow) = w_base w /\ w_vault (snd ow) = w_vault w
  | Some req => exists w2 ow2, served C req w w2 ow2 /\ snd ow = snd ow2 /\
      forall r, fst ow = Ok r -> exists r2 result, fst ow2 = Ok r2 /\
        _upstream_to_tool_result (upstream_of r2) = Ok result /\ r = _jsonrpc_result id result
  end.
Proof.
  intros Hkey Hctx ow. subst ow. rewrite tools_call_run. unfold asked_request.
  destruct (json_get "name" _ params) as [name|]; [|by split].
  destruct (get "arguments" params) as [args|]; [|destruct name; by split].
  destruct name as [| | |n| |]; cbn [truthy]; try (destruct (negb _); by split).
  destruct (_dispatch_tool n _ _) as [[|resp|req]|e] eqn:Ed; try (destruct (negb _); by split).
  assert (Hn : String.eqb n "" = false) by (destruct n; [discriminate Ed|reflexivity]). rewrite Hn. cbn [negb].
  destruct (loop_key _ _ _ _ Ed) as [Hauth Hx0].
  destruct (app_served C req key w) as (w2 & Hs); [|exact Hctx|].
  { rewrite Hx0. destruct Hauth as [->| ->]; [by right|by left]. }
  exists w2, (mcp_app req w). split; [exact Hs|]. destruct (mcp_app req w) as [o w3]. cbn [fst snd]. split; [done|].
  intros r Hr. destruct o as [r2|e]; [|discriminate Hr].
  destruct (_upstream_to_tool_result (upstream_of r2)) as [result|e] eqn:Eu; [|discriminate Hr].
  apply Ok_inj in Hr. exists r2, result. by rewrite Eu.
Qed.


(** *** A listing over JSON-RPC *)

Lemma service_json_wf s : json_wf (JObj (service_json s)).
Proof. payload_wf. Qed.
Lemma email_service_json_wf s : json_wf (JObj (Discovery.email_service_json s)).
Proof. unfold Discovery.email_service_json. destruct (es_allowed_recipient_domains s); payload_wf. Qed.

Lemma listed_wf t a d hint : json_wf (JObj [("services", JArr (Discovery.listed t a d)); ("capabilities", JStr _BUILTIN_CAPABILITIES); ("hint", JStr hint)]).
Proof.
  apply json_wf_obj; split; [apply NoDup_ListNoDup, (bool_decide_unpack _); reflexivity|].
  constructor; [|repeat constructor]. cbn [snd]. apply json_wf_arr. unfold Discovery.listed. apply Forall_app. split; apply Forall_forall;
    intros j Hj; apply list_elem_of_In, in_map_iff in Hj as (s & <- & _); [apply service_json_wf|apply email_service_json_wf].
Qed.

(** The result of a call that was not refused: one text, which reads back as the answer. *)
Lemma result_reads_back r j : (status_code r < 400)%Z -> content r = j -> j <> JNull -> json_wf j -> exists text,
  _upstream_to_tool_result (upstream_of r) = Ok (_tool_result [_text_block text] false) /\ loads text = Some j.
Proof.
  intros Hs <- Hn Hw. exists (dumps_indent (content r)). split; [|by apply loads_dumps_indent].
  unfold _upstream_to_tool_result, upstream_of, body_of. destruct (content r); [by destruct Hn|..];
    cbn [up_status up_json]; cbv zeta; rewrite (proj2 (Z.leb_gt 400 _) Hs); reflexivity.
Qed.

Lemma call_list_services a t status key x0 x w : (a < uuid_limit)%N -> (t < uuid_limit)%N ->
  presented_key x0 x = Some key -> env_http (S (w_tick w)) = Ok (200%Z, Some (agent_json a t status)) ->
  perform (loop_get "/v1/tools/list_services" [] ("Bearer " +:+ key)) w =
  (let! r := transaction (Discovery.list_services (Some (AgentContext (uuid_str a) (uuid_str t)))) in ret (Some (upstream_of r))) (asked key w).
Proof.
  intros Ha Ht Hkey Henv. unfold perform, loop_get, mcp_app. rewrite route_list_services.
  rewrite url_path_plain by reflexivity. unfold agent_key_middleware.
  change (existsb (String.eqb (mr_path (McpRequest "GET" "/v1/tools/list_services" [] JNull ("Bearer " +:+ key) ""))) open_paths) with false.
  cbn [mr_authorization mr_x_api_key]. rewrite (presented_again _ _ _ Hkey). unfold bind at 1 2. rewrite key_run, Henv.
  cbn [context_verdict Z.eqb Pos.eqb]. rewrite bool_decide_false by discriminate. reflexivity.
Qed.

End Server.

(** ** The advertised tools *)

Definition tool_name (tool : dict) : json := dict_default "name" JNull tool.

(** The arguments the schema of a tool requires. *)
Definition required_of (tool : dict) : list json :=
  match dict_get "inputSchema" tool with
  | Some (JObj schema) => match dict_get "required" schema with Some (JArr l) => l | _ => [] end
  | _ => []
  end.

(** What tools/list advertises is what tools/call serves.  A name is
    dispatched exactly when a listed tool has it, and a listed tool given
    every argument its schema requires (none of them empty) is dispatched to
    a REST call, never to the answer for a missing argument. *)
Theorem advertised_tools name args auth :
  (In (JStr name) (map tool_name TOOLS) <-> _dispatch_tool name (JObj args) auth <> Ok Unknown) /\
  forall tool, In tool TOOLS -> tool_name tool = JStr name ->
    (forall k, In (JStr k) (required_of tool) -> exists v, dict_get k args = Some v /\ truthy v = true) ->
    exists rq, _dispatch_tool name (JObj args) auth = Ok (Loop rq).
Proof.
  assert (Hall : forall tool, In tool TOOLS -> tool_name tool = JStr name ->
    (forall k, In (JStr k) (required_of tool) -> exists v, dict_get k args = Some v /\ truthy v = true) ->
    exists rq, _dispatch_tool name (JObj args) auth = Ok (Loop rq)).
  2: { split; [|exact Hall]. clear Hall. split.
    - intros Hin H. apply in_map_iff in Hin as (tool & Hname & Hin). revert H.
      repeat (destruct Hin as [<- |Hin]; [injection Hname as <-|]); [..|destruct Hin];
        unfold _dispatch_tool, required_argument, get, json_get; cbn [String.eqb Ascii.eqb Bool.eqb mbind outcome_bind];
        repeat match goal with |- (if ?b then _ else _) = _ -> _ => destruct b end; discriminate.
    - unfold _dispatch_tool. intros H.
      repeat match type of H with
      | (if String.eqb name ?s then _ else _) <> _ =>
          destruct (String.eqb_spec name s) as [->|_]; [vm_compute; repeat first [left; reflexivity|right]|]
      end.
      by destruct H. }
  { intros tool Hin Hname Hreq.
    assert (Hget : forall k, In (JStr k) (required_of tool) -> exists v, get k (JObj args) = Ok v /\ truthy v = true).
    { intros k Hk. destruct (Hreq k Hk) as (v & Hv & Ht). exists v. unfold get, json_get. by rewrite Hv. }
    clear Hreq. assert (Hany : forall k dflt, json_get k dflt (JObj args) = Ok (default dflt (dict_get k args))) by reflexivity.
    repeat (destruct Hin as [<- |Hin]; [injection Hname as <-|]); [..|destruct Hin]; unfold _dispatch_tool, required_argument;
      cbn [String.eqb Ascii.eqb Bool.eqb];
      repeat match goal with
      | |- context [get ?k (JObj args)] =>
          let v := fresh "v" in let Hv := fresh "Hv" in let Ht := fresh "Ht" in
          destruct (Hget k ltac:(vm_compute; repeat first [left; reflexivity|right])) as (v & Hv & Ht); rewrite Hv; clear Hv;
          cbn [mbind outcome_bind]; try rewrite Ht
      end;
      unfold get; rewrite ?Hany; cbn [mbind outcome_bind].
    all: try (by eexists).
    rewrite bool_decide_false by (intros ->; discriminate). cbn [negb orb]. by eexists. }
Qed.

(** *** The onboarding texts *)

Section Texts.
Context `{E : Env} `{V : Vault} `{Sk : Skill}.

(** The onboarding endpoint answers whatever section it is asked for. *)
Lemma bootstrap_total section : exists payload, _bootstrap_payload section = Ok payload.
Proof.
  unfold _bootstrap_payload. cbv zeta. destruct (String.eqb _ "full"); [by eexists|].
  destruct (str_get _ _SECTIONS); [by eexists|].
  destruct (str_get _ _SECTION_GUIDE_ALIASES) as [uri|] eqn:Ha; [|by eexists].
  assert (Hin : In uri (map snd _SECTION_GUIDE_ALIASES)).
  { unfold str_get in Ha. destruct (List.find _ _) as [kv|] eqn:Hf; [|discriminate Ha]. injection Ha as <-.
    apply in_map, (List.find_some _ _ Hf). }
  repeat (destruct Hin as [<- |Hin]; [by eexists|]). destruct Hin.
Qed.

(** What resources/list names is what resources/read serves. *)
Lemma resources_readable request_id uri :
  (exists resource, In resource _RESOURCES /\ dict_get "uri" resource = Some (JStr uri)) <->
  (exists text, _handle_resources_read request_id (JObj [("uri", JStr uri)]) =
     Ok (_jsonrpc_result request_id
       (JObj [("contents", JArr [JObj [("uri", JStr uri); ("mimeType", JStr "text/markdown"); ("text", JStr text)]])]))).
Proof.
  unfold _handle_resources_read. cbn [json_get dict_get String.eqb Ascii.eqb Bool.eqb default mbind outcome_bind]. split.
  - intros (resource & Hin & Huri).
    repeat (destruct Hin as [<- |Hin]; [injection Huri as <-; eexists; reflexivity|]). destruct Hin.
  - intros [text H]. destruct (str_get uri _READABLE) as [s|] eqn:Hs; [|simpl in H; rewrite Hs in H; discriminate H].
    unfold str_get in Hs. destruct (List.find _ _) as [kv|] eqn:Hf; [|discriminate Hs].
    apply List.find_some in Hf as [Hin Heq]. apply String.eqb_eq in Heq. subst uri. clear H Hs.
    repeat (destruct Hin as [<- |Hin];
      [first [by eexists (nth 0 _RESOURCES []); split; [simpl; tauto|]|by eexists (nth 1 _RESOURCES []); split; [simpl; tauto|]
             |by eexists (nth 2 _RESOURCES []); split; [simpl; tauto|]|by eexists (nth 3 _RESOURCES []); split; [simpl; tauto|]
             |by eexists (nth 4 _RESOURCES []); split; [simpl; tauto|]|by eexists (nth 5 _RESOURCES []); split; [simpl; tauto|]]|]).
    destruct Hin.
Qed.

End Texts.

(** ** Witnesses *)

Section Witnesses.

(** The demo's environment with an admin API that takes every key for the demo's agent. *)
Definition rpc_env : Env := {|
  env_uuid4 := demo_uuid4; env_uuid4_lt := demo_uuid4_lt; env_now := demo_now;
  env_fault _ := None; env_vault_fault _ := None;
  bind_uuid := demo_uuid_in; bind_uuid_str := demo_uuid_in_str;
  bind_uuid_lt s u H := proj2 (demo_uuid_in_inv s u H);
  bind_uuid_UUID s u H := proj1 (demo_uuid_in_inv s u H);
  pg_uuid_in := demo_uuid_in; pg_uuid_in_str := demo_uuid_in_str;
  jsonb j := j; jsonb_wf j H := H; jsonb_same j _ := eq_refl; jsonb_as_text := false;
  bind_jsonb j := Some j; env_fold c := c;
  env_time := @env_time demo_env; env_zone := @env_zone demo_env; env_var := @env_var demo_env;
  env_http _ := Ok (200%Z, Some (agent_json 6 1 "active"));
  env_token_bytes := @env_token_bytes demo_env; env_token_bytes_lt := @env_token_bytes_lt demo_env;
  env_monotonic := @env_monotonic demo_env; env_local t := t; env_admin_settings := None;
  env_token_urlsafe := @env_token_urlsafe demo_env; env_file := @env_file demo_env; env_backend := @env_backend demo_env; httpx_text := @httpx_text demo_env;
  env_mint := @env_mint demo_env; env_getaddrinfo := @env_getaddrinfo demo_env; env_ssh_key := @env_ssh_key demo_env;
  env_ssh := @env_ssh demo_env; env_fetch := @env_fetch demo_env |}.

#[local] Existing Instance rpc_env.
#[local] Existing Instance demo_vault.
#[local] Existing Instance toy_sha256.
#[local] Existing Instance demo_argon2.

Definition plain_httpx : Httpx := {| exc_text e := "" |}.
Definition toy_skill : Skill :=
  {| _SKILL_MARKDOWN := "<overview>Mintkey</overview>"; _load_guide file := file; _load_quickref := "quick" |}.
#[local] Existing Instance plain_httpx.
#[local] Existing Instance toy_skill.

(** A framework that knows two of the tools. *)
Definition toy_route (rq : mcp_request) : tool_route :=
  if String.eqb (mr_path rq) "/v1/tools/list_services" then ListServices
  else if String.eqb (mr_path rq) "/v1/tools/request_token" then RouteToken (MkTokenRequest "petstore" "read" None None)
  else Answer (Response 404 (JObj [("detail", JStr "Not Found")])).
Definition toy_asgi : Asgi :=
  {| url_path p := p; url_path_plain p _ := eq_refl; route := toy_route; route_list_services auth := eq_refl |}.
#[local] Existing Instance toy_asgi.

Definition demo_rpc (key : string) (method : string) (params : dict) : rpc_request :=
  RpcRequest key "" (Some (JObj [("jsonrpc", JStr "2.0"); ("id", JInt 7); ("method", JStr method); ("params", JObj params)])).
Definition demo_listing : rpc_request := demo_rpc "Bearer mk_agent_key" "tools/call" [("name", JStr "mintkey_list_services")].
Definition demo_token_request : entry := Rest (McpRequest "POST" "/v1/tools/request_token" [] JNull "Bearer mk_agent_key" "").

(** The section of the onboarding text, and the methods by name. *)
Example overview_extracted : _extract_xml_block _SKILL_MARKDOWN "overview" = "<overview>Mintkey</overview>".
Proof. reflexivity. Qed.
Example unknown_tool : fst (_dispatch (demo_rpc "Bearer mk_agent_key" "tools/call" [("name", JStr "email_send")]) demo_world)
  = Ok (_jsonrpc_error (JInt 7) (-32601) "Unknown tool: email_send"
          (hint_data "Call tools/list to see available tools. Received: 'email_send'")).
Proof. vm_compute. reflexivity. Qed.

(** A request object without an id gets an error with a null id, not an empty 202. *)
Example notification_answered :
  exists message data, fst (_dispatch (RpcRequest "" "" (Some (JObj [("jsonrpc", JStr "2.0"); ("method", JStr "notifications/cancelled")])))
    demo_world) = Ok (_jsonrpc_error JNull (-32601) message (Some data)).
Proof. do 2 eexists. vm_compute. reflexivity. Qed.

Lemma mcp_calls_within_grants_witness :
  length (p_calls (w_proc (snd (mcp_server demo_token_request demo_world)))) = 2%nat /\
  exists vs rq, calls (snd (mcp_server demo_token_request demo_world)) = (vs ++ [rq])%list /\ length vs = 1%nat /\
    granted_call 1 6 (MkTokenRequest "petstore" "read" None None) demo_db 0 ∅ rq (snd (mcp_server demo_token_request demo_world)).
Proof.
  assert (Hlen : length (p_calls (w_proc (snd (mcp_server demo_token_request demo_world)))) = 2%nat) by (vm_compute; reflexivity).
  split; [exact Hlen|].
  destruct (mcp_calls_within_grants demo_token_request demo_world)
    as (vs & ts & Hc & Hl & Hv & [->|(Hn & a & t & status & rq & Ha & Ht & Henv & Htool & Hr)]).
  - intros n ctx _ Henv. exists 6%N, 1%N, "active". split; [reflexivity|]. split; [reflexivity|].
    change (Ok (200%Z, Some (agent_json 6 1 "active")) = Ok (200%Z, Some ctx)) in Henv. congruence.
  - exfalso. change (calls demo_world) with (@nil http_request) in Hc. unfold calls in Hc. cbn [app] in Hc.
    rewrite app_nil_r in Hc. rewrite Hc in Hlen. revert Hv Hlen.
    assert (Hsecond : exists c, p_calls (w_proc (snd (mcp_server demo_token_request demo_world))) !! 1%nat = Some c /\
      rq_url c <> rq_url (validate_call "mk_agent_key")).
    { eexists. split; [vm_compute; reflexivity|]. vm_compute. discriminate. }
    destruct Hsecond as (c & Hlk & Hne). rewrite Hc in Hlk. intros Hv _. rewrite Forall_forall in Hv.
    apply list_elem_of_lookup_2, Hv in Hlk as (key & Hk & ->). by apply Hne.
  - change (env_http (w_tick demo_world + validations demo_token_request)) with (Ok (200%Z, Some (agent_json 6 1 "active"))) in Henv.
    apply Ok_inj in Henv. apply (f_equal snd), Some_inj in Henv. cbn [snd] in Henv.
    assert (E1 : uuid_str 6 = uuid_str a)
      by exact (f_equal (fun j => match j with JObj ((_, JStr x) :: _) => x | _ => "" end) Henv).
    assert (E2 : uuid_str 1 = uuid_str t)
      by exact (f_equal (fun j => match j with JObj (_ :: (_, JStr x) :: _) => x | _ => "" end) Henv).
    apply uuid_str_inj in E1; [subst a|reflexivity|exact Ha]. apply uuid_str_inj in E2; [subst t|reflexivity|exact Ht].
    injection Htool as <-. destruct Hr as [->|Hr].
    { exfalso. change (calls demo_world) with (@nil http_request) in Hc. unfold calls in Hc. cbn [app] in Hc.
      rewrite Hc, app_nil_r, Hn in Hlen. discriminate Hlen. }
    destruct Hr as (c & -> & Hg). exists vs, c. split; [exact Hc|]. split; [exact Hn|exact Hg].
Defined.

(** The admin API's database, with the key of the demo's agent. *)
Definition admin_db : db :=
  tb_set agents_t [AgentRow 6 1 "alpha" None "argon2:mk_agent_key" (_fingerprint "mk_agent_key") None "active" None
                     1700000000000000 1700000000000000 None 1 None None] demo_db.
Definition admin_world : world :=
  World demo_vault admin_db admin_db TxDone None false [] [] (w_vault demo_world) 0 empty_process.
Abbreviation demo_validation := (transaction (Internal.validate_agent_key "mk_agent_key")).


Abbreviation demo_listing_run := (_dispatch demo_listing).

Lemma rpc_answers_witness : exists r, fst (demo_listing_run demo_world) = Ok r /\ envelope (JInt 7) r.
Proof.
  destruct (run_returns demo_listing_run (fun r => Z.eqb (status_code r) 200) demo_world) as (r & Hr & Hrun); [vm_compute; reflexivity|].
  exists r. split; [by rewrite Hrun|]. exact (rpc_answers demo_listing demo_world r _ Hrun (JInt 7) eq_refl).
Defined.


Lemma advertised_tools_witness : exists rq, _dispatch_tool "mintkey_describe_service" (JObj [("service_id", JStr "petstore")]) "" = Ok (Loop rq).
Proof.
  apply (proj2 (advertised_tools "mintkey_describe_service" [("service_id", JStr "petstore")] "")
    (nth 3 TOOLS []) ltac:(vm_compute; tauto) eq_refl).
  intros k Hk. destruct Hk as [Hk|[]]. injection Hk as <-. exists (JStr "petstore"). split; reflexivity.
Defined.

End Witnesses.
