(* ===== verification/Redaction.v ===== *)
(** * Redaction of span attributes (mintkey_models/otel_redaction.py)

    The filter on the attributes of a span and the span processor that applies
    it before a span is handed on.  A span is shared by the application, the
    SDK and the processors, so the processor is a function on a store of spans
    that deletes attributes in place; [span_step] is what an application and the
    SDK do with a span: attributes are set until it ends, then the processor
    is called. *)

From S2P Require Import Prelude PyStr PyJson.

Local Open Scope string_scope.

(** ** The filter *)

Definition EXACT_REDACT : list string :=
  ["http.request.header.authorization"; "db.statement"; "messaging.message.payload"; "mintkey.token"].
Definition EMAIL_SPAN_ATTRS : list string :=
  ["email.service_id"; "email.message_id"; "email.mailbox"; "email.provider"; "email.attachment_count";
   "email.body_size_bytes"].
Definition SUFFIX_REDACT : list string := ["_token"; "_secret"; "_password"; "_passphrase"; "_key"; "_hash"].

(** The patterns are anchored at the beginning: [^sk_], [^pk_], ... *)
Definition _CREDENTIAL_PATTERNS : list string := ["sk_"; "pk_"; "eyJ"; "mk_agent_"; "mk_svckey_"].

Definition _is_redacted_name (name : string) : bool :=
  if existsb (String.eqb name) EMAIL_SPAN_ATTRS then false
  else if existsb (String.eqb name) EXACT_REDACT then true
  else existsb (endswith name) SUFFIX_REDACT.

Definition _is_redacted_value (value : json) : bool :=
  match value with JStr s => existsb (startswith s) _CREDENTIAL_PATTERNS | _ => false end.

Definition redact_attributes (attrs : dict) : dict :=
  List.filter (fun kv => negb (_is_redacted_name (fst kv)) && negb (_is_redacted_value (snd kv))) attrs.

(** ** The processor *)

Inductive hook := OnStart | OnEnding | OnEnd.

(** The spans by identity, [None] for a span without attributes; the ended ones; what the wrapped
    processor was called with, and the attributes of the span at that time. *)
Record spans := Spans {
  attributes : gmap nat (option dict);
  ended : gset nat;
  delivered : list (hook * nat * option dict) }.

(** [span._attributes] *)
Definition attributes_of (id : nat) (s : spans) : option dict := mjoin (attributes s !! id).

Definition hand_on (h : hook) (id : nat) (s : spans) : spans :=
  Spans (attributes s) (ended s) (delivered s ++ [(h, id, attributes_of id s)]).

Definition _scrub_span (id : nat) (s : spans) : spans :=
  match attributes_of id s with
  | Some ((_ :: _) as attrs) =>
      let keys_to_delete :=
        map fst (List.filter (fun kv => _is_redacted_name (fst kv)
                                        || _is_redacted_value (match snd kv with JStr v => JStr v | _ => JStr "" end)) attrs) in
      Spans (<[id := Some (fold_left (fun d k => dict_pop k d) keys_to_delete attrs)]> (attributes s)) (ended s) (delivered s)
  | _ => s
  end.

Definition on_start (id : nat) (s : spans) : spans := hand_on OnStart id s.

(** [has_on_ending]: the wrapped processor has the hook. *)
Definition _on_ending (has_on_ending : bool) (id : nat) (s : spans) : spans :=
  let s := _scrub_span id s in if has_on_ending then hand_on OnEnding id s else s.

Definition on_end (id : nat) (s : spans) : spans := hand_on OnEnd id (_scrub_span id s).

(** ** What happens to a span *)

Inductive span_step (has_on_ending : bool) : spans -> spans -> Prop :=
  | StartSpan id attrs s : attributes s !! id = None -> List.NoDup (map fst (default [] attrs)) ->
      span_step has_on_ending s (on_start id (Spans (<[id := attrs]> (attributes s)) (ended s) (delivered s)))
  | SetAttribute id k v s : id ∉ ended s -> is_Some (attributes s !! id) ->
      span_step has_on_ending s
        (Spans (<[id := Some (dict_set k v (default [] (attributes_of id s)))]> (attributes s)) (ended s) (delivered s))
  (** The SDK that knows the hook calls it while attributes may still be set. *)
  | EndingSpan id s : id ∉ ended s -> is_Some (attributes s !! id) -> span_step has_on_ending s (_on_ending has_on_ending id s)
  | EndSpan id s : id ∉ ended s -> is_Some (attributes s !! id) ->
      span_step has_on_ending s (on_end id (Spans (attributes s) ({[id]} ∪ ended s) (delivered s))).

Definition no_spans : spans := Spans ∅ ∅ [].
Definition spans_reachable (has_on_ending : bool) : spans -> Prop := rtc (span_step has_on_ending) no_spans.

(** ** Laws of the filter *)

Definition sensitive (kv : string * json) : bool := _is_redacted_name (fst kv) || _is_redacted_value (snd kv).

Lemma redact_filter attrs : redact_attributes attrs = List.filter (fun kv => negb (sensitive kv)) attrs.
Proof. apply List.filter_ext. intros kv. unfold sensitive. by rewrite negb_orb. Qed.

(** Nothing sensitive is left, everything else is, in its order; a second pass changes nothing. *)
Lemma redact_spec attrs kv : In kv (redact_attributes attrs) <-> In kv attrs /\ sensitive kv = false.
Proof. rewrite redact_filter, filter_In. by rewrite negb_true_iff. Qed.

Lemma redact_idempotent attrs : redact_attributes (redact_attributes attrs) = redact_attributes attrs.
Proof. rewrite !redact_filter. apply filter_all. intros kv Hkv. by apply filter_In in Hkv as [_ H]. Qed.

(** A credential in a value is caught under every name, an allowlisted one too. *)
Lemma credential_value_redacted name p s : In p _CREDENTIAL_PATTERNS -> sensitive (name, JStr (p +:+ s)) = true.
Proof.
  intros Hp. unfold sensitive. apply orb_true_iff. right. cbn [snd _is_redacted_value]. apply existsb_exists.
  exists p. split; [done|]. apply startswith_app.
Qed.

(** ** Laws of the processor *)

Lemma pop_all ks d : fold_left (fun d k => dict_pop k d) ks d =
  List.filter (fun kv => negb (existsb (fun k => String.eqb k (fst kv)) ks)) d.
Proof.
  revert d. induction ks as [|k ks IH]; intros d; cbn [fold_left existsb].
  { symmetry. by apply filter_all. }
  rewrite IH. unfold dict_pop. rewrite filter_filter. apply List.filter_ext. intros kv. by rewrite negb_orb, andb_comm.
Qed.

Lemma scrub_value_same v : _is_redacted_value (match v with JStr s => JStr s | _ => JStr "" end) = _is_redacted_value v.
Proof. by destruct v. Qed.

(** What [_scrub_span] leaves of the attributes. *)
Definition scrubbed (attrs : dict) : dict :=
  List.filter (fun kv => negb (existsb (fun k => String.eqb k (fst kv)) (map fst (List.filter sensitive attrs)))) attrs.

Lemma scrub_attributes id s : attributes_of id (_scrub_span id s) = scrubbed <$> attributes_of id s.
Proof.
  unfold _scrub_span. destruct (attributes_of id s) as [[|kv attrs]|] eqn:Ha; [exact Ha| |exact Ha].
  unfold attributes_of. cbn [attributes]. rewrite lookup_insert_eq. cbv [mjoin option_join].
  cbn [fmap option_fmap option_map]. f_equal. rewrite pop_all. unfold scrubbed. apply List.filter_ext. intros kv'. do 3 f_equal.
  apply List.filter_ext. intros kv''. unfold sensitive. by rewrite scrub_value_same.
Qed.

Lemma scrubbed_clean attrs kv : In kv (scrubbed attrs) -> sensitive kv = false.
Proof.
  intros H. apply filter_In in H as [Hin H]. destruct (sensitive kv) eqn:Hs; [|done].
  apply negb_true_iff in H. rewrite <- H. symmetry. apply existsb_exists. exists (fst kv). split; [|apply String.eqb_refl].
  apply in_map, filter_In. by split.
Qed.

Lemma key_unique {A} (k : string) (l : list (string * A)) v v' :
  List.NoDup (map fst l) -> In (k, v) l -> In (k, v') l -> v = v'.
Proof.
  induction l as [|[k0 v0] l IH]; intros Hnd H H'; [destruct H|]. inversion Hnd as [|? ? Hni Hnd']; subst.
  destruct H as [H|H], H' as [H'|H']; [congruence| | |by apply IH].
  - injection H as -> ->. destruct Hni. by apply (in_map fst) in H'.
  - injection H' as -> ->. destruct Hni. by apply (in_map fst) in H.
Qed.

(** On a dict the processor and the filter agree. *)
Lemma scrubbed_redacted attrs : List.NoDup (map fst attrs) -> scrubbed attrs = redact_attributes attrs.
Proof.
  intros Hnd. rewrite redact_filter. unfold scrubbed. apply List.filter_ext_in. intros kv Hin. f_equal.
  destruct (sensitive kv) eqn:Hs.
  - apply existsb_exists. exists (fst kv). split; [|apply String.eqb_refl]. apply in_map, filter_In. by split.
  - apply not_true_is_false. intros H. apply existsb_exists in H as (k & Hk & He). apply String.eqb_eq in He. subst k.
    apply in_map_iff in Hk as (kv' & Hf & Hin'). apply filter_In in Hin' as [Hin' Hs'].
    assert (kv' = kv) as ->; [|congruence].
    destruct kv as [k v], kv' as [k' v']. cbn [fst] in Hf. subst k'. f_equal. by apply (key_unique k attrs).
Qed.

(** *** Reachable states *)

Definition clean (attrs : option dict) : Prop := Forall (fun kv => sensitive kv = false) (default [] attrs).
Definition is_dict (attrs : option dict) : Prop := List.NoDup (map fst (default [] attrs)).

Lemma clean_scrubbed attrs : clean (scrubbed <$> attrs).
Proof.
  destruct attrs as [attrs|]; [|constructor]. apply Forall_forall. intros kv H. apply list_elem_of_In in H. by apply scrubbed_clean in H.
Qed.

Lemma filter_keys_nodup (f : string * json -> bool) l : List.NoDup (map fst l) -> List.NoDup (map fst (List.filter f l)).
Proof.
  induction l as [|kv l IH]; intros H; [constructor|]. inversion H as [|? ? Hni Hnd]; subst. cbn [List.filter].
  destruct (f kv); [|by apply IH]. cbn [map]. constructor; [|by apply IH]. intros Hin. apply Hni.
  apply in_map_iff in Hin as (kv' & He & Hin). apply filter_In in Hin as [Hin _]. rewrite <- He. by apply in_map.
Qed.

Lemma dict_set_nodup k v (d : dict) : List.NoDup (map fst d) -> List.NoDup (map fst (dict_set k v d)).
Proof.
  assert (Hk : forall x d', In x (map fst (dict_set k v d')) -> x = k \/ In x (map fst d')).
  { intros x d'. induction d' as [|[k' v'] d' IH]; cbn [dict_set map fst]; [intros [->|[]]; by left|].
    destruct (String.eqb_spec k k') as [->|Hne]; cbn [map fst]; intros [->|H]; [right; by left|right; by right|right; by left|].
    destruct (IH H); [by left|right; by right]. }
  induction d as [|[k' v'] d IH]; intros Hnd; cbn [dict_set]; [repeat constructor; by intros []|].
  inversion Hnd as [|? ? Hni Hnd']; subst. destruct (String.eqb_spec k k') as [->|Hne]; [by constructor|].
  cbn [map fst]. constructor; [|by apply IH]. intros H. destruct (Hk _ _ H); [congruence|done].
Qed.

(** Ended spans exist and are clean, what was handed on after the start was clean, and attributes are dicts. *)
Record spans_ok (s : spans) : Prop := {
  ok_known : forall id, id ∈ ended s -> is_Some (attributes s !! id);
  ok_ended : forall id, id ∈ ended s -> clean (attributes_of id s);
  ok_seen : Forall (fun d => fst (fst d) = OnStart \/ clean (snd d)) (delivered s);
  ok_dict : forall id, is_dict (attributes_of id s) }.

Lemma attributes_insert id id' attrs e d s :
  attributes_of id (Spans (<[id' := attrs]> (attributes s)) e d) = if decide (id = id') then attrs else attributes_of id s.
Proof.
  unfold attributes_of. cbn [attributes]. destruct (decide (id = id')) as [->|Hne]; [by rewrite lookup_insert_eq|by rewrite lookup_insert_ne].
Qed.

Lemma scrub_lookup id id' s : is_Some (attributes s !! id') -> is_Some (attributes (_scrub_span id s) !! id').
Proof.
  unfold _scrub_span. destruct (attributes_of id s) as [[|kv l]|]; [done| |done]. cbn [attributes].
  intros H. destruct (decide (id' = id)) as [->|Hne]; [by rewrite lookup_insert_eq|by rewrite lookup_insert_ne].
Qed.

Lemma scrub_same id s : ended (_scrub_span id s) = ended s /\ delivered (_scrub_span id s) = delivered s.
Proof. unfold _scrub_span. by destruct (attributes_of id s) as [[|kv l]|]. Qed.

Lemma scrub_other id id' s : id' <> id -> attributes_of id' (_scrub_span id s) = attributes_of id' s.
Proof.
  intros Hne. unfold _scrub_span. destruct (attributes_of id s) as [[|kv l]|]; [done| |done]. rewrite attributes_insert.
  by rewrite decide_False.
Qed.

(** A scrub keeps the invariant and cleans the span. *)
Lemma scrub_ok id s : spans_ok s -> spans_ok (_scrub_span id s).
Proof.
  intros [Hk He Hs Hd]. destruct (scrub_same id s) as [Ee Ed]. constructor; rewrite ?Ee, ?Ed; [..|exact Hs|].
  - intros id' H. by apply scrub_lookup, Hk.
  - intros id' H. destruct (decide (id' = id)) as [->|Hne]; [rewrite scrub_attributes; apply clean_scrubbed|].
    rewrite scrub_other by done. by apply He.
  - intros id'. destruct (decide (id' = id)) as [->|Hne]; [|rewrite scrub_other by done; apply Hd].
    rewrite scrub_attributes. specialize (Hd id). destruct (attributes_of id s) as [attrs|]; [|exact Hd]. by apply filter_keys_nodup.
Qed.

Lemma deliver_ok h id s : spans_ok s -> h = OnStart \/ clean (attributes_of id s) -> spans_ok (hand_on h id s).
Proof.
  intros [Hk He Hs Hd] Hh. constructor; [exact Hk|exact He| |exact Hd]. apply Forall_app. split; [exact Hs|]. by constructor.
Qed.

Lemma step_ok b s s' : spans_ok s -> span_step b s s' -> spans_ok s'.
Proof.
  intros Hok Hstep. destruct Hstep as [id attrs s Hnew Hnd|id k v s Hlive Hsome|id s Hlive Hsome|id s Hlive Hsome].
  - apply deliver_ok; [|by left]. destruct Hok as [Hk He Hs Hd].
    assert (Hne : forall id', id' ∈ ended s -> id' <> id) by (intros id' H ->; destruct (Hk _ H); congruence).
    constructor; [|intros id' H; rewrite attributes_insert, decide_False by eauto; by apply He|exact Hs|].
    + intros id' H. cbn [attributes]. rewrite lookup_insert_ne by (symmetry; eauto). by apply Hk.
    + intros id'. rewrite attributes_insert. destruct (decide _); [exact Hnd|apply Hd].
  - destruct Hok as [Hk He Hs Hd]. constructor; [|intros id' H; rewrite attributes_insert, decide_False by (intros ->; done); by apply He|exact Hs|].
    + intros id' H. cbn [attributes]. destruct (decide (id' = id)) as [->|Hne]; [by rewrite lookup_insert_eq|rewrite lookup_insert_ne by done; by apply Hk].
    + intros id'. rewrite attributes_insert. destruct (decide _) as [->|]; [|apply Hd]. unfold is_dict. cbn [default].
      apply dict_set_nodup, (Hd id).
  - unfold _on_ending. destruct b; [|by apply scrub_ok]. apply deliver_ok; [by apply scrub_ok|]. right.
    rewrite scrub_attributes. apply clean_scrubbed.
  - unfold on_end. set (s0 := Spans (attributes s) ({[id]} ∪ ended s) (delivered s)).
    assert (Hat : attributes_of id (_scrub_span id s0) = scrubbed <$> attributes_of id s0) by apply scrub_attributes.
    apply deliver_ok; [|right; rewrite Hat; apply clean_scrubbed]. destruct (scrub_ok id s Hok) as [Hk He Hs Hd].
    assert (Heq : forall id', attributes_of id' (_scrub_span id s0) = attributes_of id' (_scrub_span id s)).
    { intros id'. destruct (decide (id' = id)) as [->|Hne]; [by rewrite !scrub_attributes|by rewrite !scrub_other]. }
    destruct (scrub_same id s0) as [Ee Ed], (scrub_same id s) as [Ee' Ed']. constructor.
    + intros id' H. rewrite Ee in H. apply scrub_lookup. apply elem_of_union in H as [H|H].
      * apply elem_of_singleton in H. by subst id'.
      * destruct Hok as [Hk0 _ _ _]. by apply Hk0.
    + intros id' H. rewrite Ee in H. rewrite Heq. apply elem_of_union in H as [H|H].
      * apply elem_of_singleton in H. subst id'. rewrite scrub_attributes. apply clean_scrubbed.
      * apply He. by rewrite Ee'.
    + rewrite Ed. by rewrite Ed' in Hs.
    + intros id'. rewrite Heq. apply Hd.
Qed.

(** Whether the attribute is one of the allowlisted ones of the email proxy. *)
Definition allowlisted (kv : string * json) : bool := existsb (String.eqb (fst kv)) EMAIL_SPAN_ATTRS.

(** The attributes that are not allowlisted. *)
Definition other_attributes (attrs : dict) : dict := List.filter (fun kv => negb (allowlisted kv)) attrs.

Lemma filter_comm {A} (f g : A -> bool) l : List.filter f (List.filter g l) = List.filter g (List.filter f l).
Proof.
  induction l as [|x l IH]; [done|]. cbn [List.filter].
  destruct (f x) eqn:Ef, (g x) eqn:Eg; cbn [List.filter]; rewrite ?Ef, ?Eg, ?IH; done.
Qed.

Lemma allowlisted_name kv : allowlisted kv = true -> _is_redacted_name (fst kv) = false.
Proof. unfold allowlisted, _is_redacted_name. by intros ->. Qed.


(** ** Witnesses *)

Definition demo_attributes : dict :=
  [("http.method", JStr "GET"); ("api_key", JStr "mk_agent_1"); ("email.message_id", JStr "eyJhbGciOi"); ("mintkey.token", JStr "t")].

Example demo_redacted : redact_attributes demo_attributes = [("http.method", JStr "GET")].
Proof. reflexivity. Qed.

(** A list of texts is not looked into, nor is a text that does not begin with the credential. *)
Example not_redacted :
  redact_attributes [("args", JArr [JStr "mk_agent_1"]); ("header", JStr "Bearer mk_agent_1")] =
  [("args", JArr [JStr "mk_agent_1"]); ("header", JStr "Bearer mk_agent_1")].
Proof. reflexivity. Qed.

(** A span of the email proxy. *)
Definition email_attributes : dict :=
  [("email.mailbox", JStr "INBOX"); ("api_key", JStr "mk_agent_1"); ("http.method", JStr "GET"); ("note", JStr "sk_live")].

Definition demo_started : spans := on_start 1 (Spans {[1%nat := Some email_attributes]} ∅ []).

