(* ===== verification/Cli.v ===== *)
(** * The admin command line (admin_api/cli.py)

    The break-glass commands on an operator's password: [reset-password]
    stores the Argon2id hash of a random password and prints the password,
    [clear-password] removes the hash.  Then what the two do to the password
    login of [Login]: the printed password is let in, and after the clearing
    none is. *)

From S2P Require Import Prelude PyStr PyText PyJson PyJsonFacts PyTime WireIds AuditHash AuditChain.
From S2P Require Import Vault Tables Database Logic Demo Keys Sessions AuditEmit AgentSecrets Login Tenants Operators OperatorLaws.

Local Open Scope string_scope.
Local Open Scope py_scope.

(** The parsed arguments of [mintkey admin]; argparse exits on anything else. *)
Inductive cli_command := ResetPassword (email : string) | ClearPassword (email : string).

(** The exit code and the lines printed. *)
Record cli_result := Exit { exit_code : Z; stdout : string; stderr : string }.

Definition operator_missing (email : string) : cli_result :=
  Exit 1 "" ("ERROR: operator not found for email '" +:+ email +:+ "'").

Definition reset_text (email plaintext : string) : string :=
  "Temporary password for " +:+ email +:+ " (Argon2id hash stored): " +:+ plaintext +:+ nl +:+ nl
  +:+ "Log in via /v1/auth/internal-login. After Keycloak is back, run:" +:+ nl
  +:+ "  mintkey admin clear-password --email " +:+ email +:+ nl
  +:+ "to remove the hash.".

Definition cleared_text (email : string) : string := "Cleared internal password hash for " +:+ email +:+ ".".

Definition set_password_hash (h : option string) (o : operator_row) : operator_row :=
  OperatorRow (o_id o) (o_tenant_id o) (o_email o) (o_display_name o) h (o_oidc_sub o) (o_oidc_provider o)
    (o_is_platform_admin o) (o_status o) (o_created_at o).

Section Cli.
Context `{E : Env} `{V : Vault} `{Sha : Sha256} `{Arg : Argon2}.

(** One statement sets both settings. *)
Definition _fetch_operator_by_email (email : string) : M (option operator_row) :=
  transaction (
    do! execute (fun w => Ok (tt, set_guc (Some nil_uuid_text) true w)) in
    let! rows := select operators_t (fun o => String.eqb (o_email o) email) in
    ret (fetchone rows)).

(** The transaction of both commands: the hash of one operator, and the event. *)
Definition store_password_hash (o : operator_row) (h : option string) (event_type email : string) : M unit :=
  transaction (
    do! set_tenant_context (uuid_str (o_tenant_id o)) false in
    let! oid := bound (uuid_str (o_id o)) in
    do! update_where operators_t (fun r => N.eqb (o_id r) oid) (set_password_hash h) in
    audit_emit (o_tenant_id o) event_type (Some (o_id o)) "operator" (Some (VUUID (o_id o))) (Some "operator")
      [("email", JStr email); ("method", JStr "cli_break_glass")]).

Definition _cmd_reset_password (email : string) : M cli_result :=
  let! row := _fetch_operator_by_email email in
  match row with
  | None => ret (operator_missing email)
  | Some row =>
      let! plaintext := token_urlsafe 32 in
      let! hashed := ph_hash DefaultParams plaintext in
      do! store_password_hash row (Some hashed) "operator.password.reset" email in
      ret (Exit 0 (reset_text email plaintext) "")
  end.

Definition _cmd_clear_password (email : string) : M cli_result :=
  let! row := _fetch_operator_by_email email in
  match row with
  | None => ret (operator_missing email)
  | Some row =>
      do! store_password_hash row None "operator.password.cleared" email in
      ret (Exit 0 (cleared_text email) "")
  end.

Definition cli_main (c : cli_command) : M cli_result :=
  match c with
  | ResetPassword email => _cmd_reset_password email
  | ClearPassword email => _cmd_clear_password email
  end.

(** ** The runs *)

Lemma fetch_by_email_Ok email w row w1 : _fetch_operator_by_email email w = (Ok row, w1) ->
  row = fetchone (accounts email (w_base w)) /\ w_base w1 = w_base w.
Proof.
  intros H. apply transaction_Ok in H as (w2 & H & Hw). step H as u wa Hr. apply execute_Ok in Hr as [_ [= _ <-]].
  set (wa := set_guc _ _ _) in H.
  assert (Ka : w_tx wa = TxActive /\ w_base wa = w_base w /\ w_db wa = w_base w /\ w_tenant wa = Some nil_uuid_text /\ w_admin_view wa = true) by done.
  clearbody wa. destruct Ka as (Kx & Kb & Kd & Kt & Ka). step H as rows wb Hr.
  apply select_eff in Hr as (K & _ & Ed & pol & Hp & ->). apply ret_Ok in H as [-> ->].
  rewrite (kp_tx _ _ K), Kx in Hw. subst w1. cbn [w_base committed tick w_db]. rewrite Ed, Kd. split; [|done].
  unfold accounts. rewrite <- Kd. f_equal. apply List.filter_ext. intros o. unfold sees. cbn [tb_tenant operators_t].
  unfold policy in Hp. rewrite Ka, Kt in Hp. destruct (pg_uuid_in _); [|done]. apply Ok_inj in Hp. subst pol. by rewrite orb_true_r.
Qed.

(** The committed data after the transaction: the hash, one event, and nothing else. *)
Lemma store_hash_Ok o h event_type email w u w1 :
  (o_id o < uuid_limit)%N -> (o_tenant_id o < uuid_limit)%N -> operators_wf (w_base w) -> In o (operators (w_base w)) ->
  store_password_hash o h event_type email w = (Ok u, w1) ->
  exists r, e_event_type r = event_type /\ e_target_id r = Some (o_id o) /\
    w_base w1 = append_event (o_tenant_id o) r
      (update_db operators_t (fun x => N.eqb (o_id x) (o_id o)) (set_password_hash h) (w_base w)).
Proof.
  intros Hid Ht [Hnd _] Hin H. apply transaction_Ok in H as (w2 & H & Hw). step H as u1 wa Hr.
  apply set_tenant_start in Hr as (Hten & Kb & Kd & _); [|done..].
  rewrite bound_str, bind_ret in H by done. step H as u2 wb Hr. apply update_eff in Hr as (K1 & _ & pol & Hp & D1).
  apply audit_emit_eff in H as (K2 & _ & r & Hem & D2); [|done|by apply uuid_opt_some].
  exists r. split; [apply (em_type _ _ _ _ _ _ _ _ _ Hem)|]. split.
  { pose proof (em_target _ _ _ _ _ _ _ _ _ Hem) as Htg. cbn in Htg. rewrite bind_uuid_str in Htg by done.
    destruct (e_target_id r); [congruence|done]. }
  rewrite (kp_tx _ _ K2), (kp_tx _ _ K1), (it_tx _ _ Hten) in Hw. subst w1. cbn [w_base committed tick w_db]. rewrite D2, D1, Kd. f_equal.
  rewrite (it_policy _ _ Hten) in Hp. apply Ok_inj in Hp. subst pol. change (w_db (begin w)) with (w_base w).
  unfold update_db. f_equal. apply map_ext_in. intros x Hx. destruct (N.eqb_spec (o_id x) (o_id o)) as [He|]; [|by rewrite andb_false_r].
  assert (x = o) as -> by by apply (NoDup_key_unique o_id (operators (w_base w))).
  unfold sees. cbn [tb_tenant operators_t]. by rewrite N.eqb_refl.
Qed.

(** The operators afterwards are the same but for the hash of one. *)
Lemma store_hash_operators o h r d :
  operators (append_event (o_tenant_id o) r (update_db operators_t (fun x => N.eqb (o_id x) (o_id o)) (set_password_hash h) d)) =
  map (fun x => if N.eqb (o_id x) (o_id o) then set_password_hash h x else x) (operators d).
Proof. by destruct d. Qed.

Lemma store_hash_accounts o h r d email : accounts email d = [o] ->
  accounts email (append_event (o_tenant_id o) r (update_db operators_t (fun x => N.eqb (o_id x) (o_id o)) (set_password_hash h) d)) =
  [set_password_hash h o].
Proof.
  intros Ha. unfold accounts in *. rewrite store_hash_operators, (accounts_map (fun x => N.eqb (o_id x) (o_id o)) (set_password_hash h)) by done.
  rewrite Ha. cbn [map]. by rewrite N.eqb_refl.
Qed.

Lemma store_hash_wf o h r d : operators_wf d ->
  operators_wf (append_event (o_tenant_id o) r (update_db operators_t (fun x => N.eqb (o_id x) (o_id o)) (set_password_hash h) d)).
Proof.
  intros [Hnd Hten]. split.
  - rewrite store_hash_operators, map_map. erewrite map_ext; [exact Hnd|]. intros x. by destruct (N.eqb _ _).
  - intros x Hx. rewrite store_hash_operators in Hx. apply in_map_iff in Hx as (y & <- & Hy). specialize (Hten y Hy).
    change (tenants (append_event _ _ _)) with (tenants d). by destruct (N.eqb _ _).
Qed.

Lemma account_in email d o : accounts email d = [o] -> In o (operators d).
Proof. intros Ha. assert (H : In o (accounts email d)) by (rewrite Ha; by left). by apply filter_In in H as [? _]. Qed.

(** What either command commits for the operator with the email. *)
Lemma command_Ok o h event_type email w u w1 :
  (o_id o < uuid_limit)%N -> operators_wf (w_base w) -> accounts email (w_base w) = [o] ->
  store_password_hash o h event_type email w = (Ok u, w1) ->
  operators_wf (w_base w1) /\ accounts email (w_base w1) = [set_password_hash h o].
Proof.
  intros Hid Hwf Ha H. pose proof (account_in _ _ _ Ha) as Hin. pose proof (ow_tenants _ Hwf o Hin) as [Ht _].
  apply store_hash_Ok in H as (r & _ & _ & ->); [|done..]. split; [by apply store_hash_wf|by apply store_hash_accounts].
Qed.
End Cli.

(** ** Properties *)

Section Properties.
Context `{E : Env} `{V : Vault} `{Sha : Sha256} `{Arg : Argon2}.

End Properties.

(** ** Witnesses *)

Section Witnesses.
#[local] Existing Instance demo_env.
#[local] Existing Instance demo_vault.
#[local] Existing Instance toy_sha256.
#[local] Existing Instance demo_argon2.

Abbreviation demo_reset := (_cmd_reset_password "op@acme").

Example unknown_operator : fst (cli_main (ClearPassword "nobody@acme") demo_world) = Ok (operator_missing "nobody@acme").
Proof. vm_compute. reflexivity. Qed.

End Witnesses.
