(* ===== verification/Seed.v ===== *)
(** * Provisioning (apps/seed-job/main.py, apps/seed-job/create_operator.py)

    The job that runs before the admin API starts: the default tenant, the
    genesis of its audit chain, the bootstrap operator and, on demand, a demo
    service and agent in the database; the secret files; and the realm, the
    clients and the administrator in Keycloak.  Then the script that adds a
    human operator.

    Both run on an autocommit connection of a role that bypasses row-level
    security, so the state [job] has one database, which every statement
    changes at once; besides it the files and the requests made to Keycloak.
    Results, clocks and the failures of statements come from the tapes of
    [Env], indexed by the counter that every effect advances; [Host] has what
    the job uses of the cryptography and tenacity packages and of the
    operating system.  What is printed is left out. *)

From S2P Require Import Prelude PyStr PyText PyJson PyJsonFacts PyTime WireIds AuditHash AuditChain PyCodecs Constraints.
From S2P Require Import Vault Tables Database Logic Demo Keys PublicUrls Sessions AuditEmit AgentSecrets SecretTools SecretsSafety RequestToken TokenSafety.
From S2P Require Import EmitLimiter Login Internal InternalLaws AgentLaws EmailTools.

Local Open Scope string_scope.

(** ** The state *)

Record file := File { f_content : string; f_mode : Z; f_uid : Z; f_mtime : Z }.

(** [j_changelog]: the rows of databasechangelog, [None] without the table. *)
Record job := Job {
  j_db : db; j_changelog : option (list string); j_files : gmap string file; j_calls : list http_request; j_tick : nat }.

Class Host := {
  (** [Fernet(key)] accepts the key; its tokens, with what an encryption draws, and their plaintext. *)
  fernet_key : string -> bool;
  fernet_encrypt : string -> nat -> string -> string;
  fernet_decrypt : string -> string -> option string;
  fernet_roundtrip : forall k n m, fernet_key k = true -> fernet_decrypt k (fernet_encrypt k n m) = Some m;
  (** A new Ed25519 key: the two PEM files. *)
  ed25519_pem : nat -> string * string;
  (** How often tenacity repeats the readiness check after a failure. *)
  kc_retries : nat;
  (** The exception of [psycopg2.connect], and of a file operation. *)
  connect_fault : nat -> option exn;
  os_fault : nat -> option exn }.

Definition J (A : Type) : Type := job -> outcome A * job.

Definition jret {A} (a : A) : J A := fun j => (Ok a, j).
Definition jraise {A} (e : exn) : J A := fun j => (Raise e, j).
Definition jlift {A} (o : outcome A) : J A := fun j => (o, j).
Definition jbind {A B} (m : J A) (k : A -> J B) : J B := fun j =>
  match m j with (Ok a, j') => k a j' | (Raise e, j') => (Raise e, j') end.
Definition jcatch {A} (m : J A) (h : exn -> J A) : J A := fun j =>
  match m j with (Ok a, j') => (Ok a, j') | (Raise e, j') => h e j' end.

Declare Scope seed_scope.
Delimit Scope seed_scope with seed.
Notation "'let!' x := m 'in' k" := (jbind m (fun x => k))
  (at level 10, x pattern, m at level 100, k at level 200) : seed_scope.
Notation "'do!' m 'in' k" := (jbind m (fun _ => k))
  (at level 10, m at level 100, k at level 200) : seed_scope.
Local Open Scope seed_scope.

Definition jtick (j : job) : job := Job (j_db j) (j_changelog j) (j_files j) (j_calls j) (S (j_tick j)).
Definition j_set_db (d : db) (j : job) : job := Job d (j_changelog j) (j_files j) (j_calls j) (j_tick j).
Definition j_set_files (f : gmap string file) (j : job) : job := Job (j_db j) (j_changelog j) f (j_calls j) (j_tick j).
Definition j_add_call (c : http_request) (j : job) : job :=
  Job (j_db j) (j_changelog j) (j_files j) (j_calls j ++ [c])%list (j_tick j).

Section Effects.
Context `{E : Env} `{H : Host}.

(** A statement of the autocommit connection, on the database; it may read the clock and draw an
    identifier at its point of the tapes. *)
Definition statement {A} (f : nat -> db -> outcome (A * db)) : J A := fun j0 =>
  let j := jtick j0 in
  match env_fault (j_tick j) with
  | Some e => (Raise e, j)
  | None => match f (j_tick j) (j_db j) with Ok (a, d) => (Ok a, j_set_db d j) | Raise e => (Raise e, j) end
  end.

(** [%s::uuid] *)
Definition as_uuid (s : string) : outcome uuid :=
  match pg_uuid_in s with Some u => Ok u | None => Raise (DBError "invalid input syntax for type uuid") end.

(** [INSERT ... ON CONFLICT (key) DO NOTHING] *)
Definition insert_unless {R} (T : table R) (key : R -> bool) (r : R) (d : db) : outcome db :=
  if existsb key (tb_get T d) then Ok d else insert_db T r d.

(** [row[0]] of [fetchone()] *)
Definition first_id (o : option uuid) : outcome string :=
  match o with Some u => Ok (uuid_str u) | None => Raise (TypeError "'NoneType' object is not subscriptable") end.

(** A request of [requests]; its answer. *)
Definition http_send (rq : http_request) : J (Z * option json) := fun j0 =>
  let j := jtick j0 in (env_http (j_tick j), j_add_call rq j).

Definition raise_for_status (resp : Z * option json) : outcome unit :=
  if (400 <=? fst resp)%Z && (fst resp <? 600)%Z then Raise (RuntimeError "HTTPError") else Ok tt.
Definition resp_json (resp : Z * option json) : outcome json := response_json (snd resp).

(** A file operation. *)
Definition os_call {A} (f : nat -> gmap string file -> A * gmap string file) : J A := fun j0 =>
  let j := jtick j0 in
  match os_fault (j_tick j) with
  | Some e => (Raise e, j)
  | None => let '(a, fs) := f (j_tick j) (j_files j) in (Ok a, j_set_files fs j)
  end.

Definition stat (path : string) : J (option file) := os_call (fun _ fs => (fs !! path, fs)).
Definition mkdir : J unit := os_call (fun _ fs => (tt, fs)).
Definition update_file (g : file -> file) (path : string) : J unit := os_call (fun _ fs => (tt, alter g path fs)).
Definition chmod (mode : Z) : string -> J unit := update_file (fun f => File (f_content f) mode (f_uid f) (f_mtime f)).
Definition chown (uid : Z) : string -> J unit := update_file (fun f => File (f_content f) (f_mode f) uid (f_mtime f)).

(** [path.write_bytes(b)]: a new file is root's, with the mode the umask leaves. *)
Definition write_bytes (path b : string) : J unit := os_call (fun n fs =>
  let f := default (File "" 420 0 0) (fs !! path) in
  (tt, <[path := File b (f_mode f) (f_uid f) (env_now n)]> fs)).
(** [path.touch()] *)
Definition touch (path : string) : J unit := os_call (fun n fs =>
  let f := default (File "" 420 0 0) (fs !! path) in
  (tt, <[path := File (f_content f) (f_mode f) (f_uid f) (env_now n)]> fs)).

(** [secrets.token_urlsafe(n)], [os.urandom(32)], [uuid.uuid4()] *)
Definition j_token_urlsafe (n : nat) : J string := fun j => (Ok (env_token_urlsafe (j_tick j) n), jtick j).
Definition urandom32 : J string := fun j => (Ok (unchars (map chr (be_bytes 32 (env_token_bytes (j_tick j))))), jtick j).
Definition j_uuid4 : J uuid := fun j => (Ok (env_uuid4 (j_tick j)), jtick j).

(** [x[k]] of a JSON value, [x[0]] *)
Definition subscript (k : string) (x : json) : outcome json :=
  match x with
  | JObj d => match dict_get k d with Some v => Ok v | None => Raise (KeyError k) end
  | _ => Raise (TypeError "indices must be integers or slices, not str")
  end.
Definition index0 (x : json) : outcome json :=
  match x with
  | JArr (v :: _) => Ok v
  | JArr [] => Raise (IndexError "list index out of range")
  | JStr (String c _) => Ok (JStr (String c ""))
  | JStr "" => Raise (IndexError "string index out of range")
  | JObj _ => Raise (KeyError "0")
  | _ => Raise (TypeError "object is not subscriptable")
  end.
End Effects.

Definition join_path (dir name : string) : string := dir +:+ "/" +:+ name.

(** [b.strip()] of bytes *)
Definition bytes_strip (b : string) : string := strip (unchars (map chr [32; 9; 10; 13; 11; 12]%N)) b.
(** ** The seed job: database *)

Definition DEFAULT_TENANT_SLUG : string := "t_default".

Section SeedJob.
Context `{E : Env} `{H : Host} `{Sha : Sha256}.

Definition DEFAULT_ADMIN_EMAIL : string := getenv "MINTKEY_BOOTSTRAP_EMAIL" "admin@mintkey.internal".
Definition BOOTSTRAP_SECRETS_DIR : string := getenv "BOOTSTRAP_SECRETS_DIR" "data/bootstrap-secrets".
Definition HOST_BOOTSTRAP_SECRETS_DIR : option string :=
  match env_var "HOST_BOOTSTRAP_SECRETS_DIR" with None | Some "" => None | Some d => Some d end.

(** The key of the Fernet instance. *)
Definition _fernet : outcome string :=
  match env_var "MINTKEY_BOOTSTRAP_KEK" with
  | None | Some "" => Raise (RuntimeError "MINTKEY_BOOTSTRAP_KEK env var is not set.")
  | Some kek => if fernet_key kek then Ok kek else Raise (RuntimeError "MINTKEY_BOOTSTRAP_KEK is not a valid Fernet key")
  end.

(** [psycopg2.connect]: every exception of it is an OperationalError. *)
Definition connect : J unit := fun j0 =>
  let j := jtick j0 in match connect_fault (j_tick j) with Some e => (Raise e, j) | None => (Ok tt, j) end.

Fixpoint wait_for_postgres (max_retries : nat) : J unit :=
  match max_retries with
  | O => jraise (RuntimeError "Postgres not reachable after 60s")
  | S n => jcatch connect (fun _ => wait_for_postgres n)
  end.

Definition verify_liquibase_applied : J unit :=
  do! statement (fun _ d => Ok (tt, d)) in
  fun j => (match j_changelog j with
            | None => Raise (RuntimeError "databasechangelog table not found")
            | Some [] => Raise (RuntimeError "databasechangelog is empty")
            | Some _ => Ok tt
            end, j).

Definition seed_default_tenant : J string :=
  do! statement (fun n d =>
    d' ← insert_unless tenants_t (fun r => String.eqb (t_slug r) DEFAULT_TENANT_SLUG)
           (TenantRow (env_uuid4 n) DEFAULT_TENANT_SLUG "Default Tenant" "row" "active" (JObj []) (env_now n) (env_now n)) d;
    Ok (tt, d')) in
  let! row := statement (fun _ d => Ok (head (List.filter (fun r => String.eqb (t_slug r) DEFAULT_TENANT_SLUG) (tenants d)), d)) in
  jlift (first_id (t_id <$> row)).

Definition seed_audit_chain_state (tenant_id : string) : J unit :=
  let genesis_hash := sha256 (utf8 ("mintkey-audit-genesis-v1:" +:+ tenant_id)) in
  statement (fun _ d =>
    t ← as_uuid tenant_id;
    d' ← insert_unless audit_chain_state_t (fun r => N.eqb (c_tenant_id r) t) (ChainRow t None (Some genesis_hash)) d;
    Ok (tt, d')).

(** The identifier of the operator and, when it is new, the password. *)
Definition seed_bootstrap_operator (tenant_id : string) : J (string * string) :=
  let! row := statement (fun _ d =>
    t ← as_uuid tenant_id;
    Ok (head (List.filter (fun o => String.eqb (o_email o) DEFAULT_ADMIN_EMAIL && N.eqb (o_tenant_id o) t) (operators d)), d)) in
  match row with
  | Some row => jret (uuid_str (o_id row), "")
  | None =>
      let! password := j_token_urlsafe 32 in
      let! operator_id := statement (fun n d =>
        t ← as_uuid tenant_id;
        d' ← insert_db operators_t (OperatorRow (env_uuid4 n) t DEFAULT_ADMIN_EMAIL (Some "Bootstrap Admin") None None None true "active" (env_now n)) d;
        Ok (uuid_str (env_uuid4 n), d')) in
      do! statement (fun n d =>
        o ← as_uuid operator_id;
        t ← as_uuid tenant_id;
        d' ← insert_unless operator_tenant_memberships_t (fun r => N.eqb (om_operator_id r) o && N.eqb (om_tenant_id r) t)
               (MembershipRow o t "Admin" (env_now n)) d;
        Ok (tt, d')) in
      jret (operator_id, password)
  end.

(** Steps 2 to 5: the tenant, the operator, the password. *)
Definition run_steps_1_to_5 : J (string * (string * string)) :=
  do! verify_liquibase_applied in
  let! tenant_id := seed_default_tenant in
  do! seed_audit_chain_state tenant_id in
  let! op := seed_bootstrap_operator tenant_id in
  jret (tenant_id, op).

(** *** The demo *)

Definition MOCK_BACKEND_SLUG : string := "mock-backend".
Definition MOCK_BACKEND_URL : string := getenv "MOCK_BACKEND_URL" "http://mock-backend:8070".
Definition DEMO_AGENT_NAME : string := "mock-agent".
Definition demo_actions : list string := ["read:health"; "read:echo"; "read:bearer"; "read:api-key-header"].

(** One grant per action, issued by the agent itself; the primary key is the only unique constraint. *)
Fixpoint seed_grants (tenant_id agent_id service_id : string) (actions : list string) : J unit :=
  match actions with
  | [] => jret tt
  | action :: actions' =>
      let! id := j_uuid4 in
      do! statement (fun n d =>
        t ← as_uuid tenant_id; a ← as_uuid agent_id; s ← as_uuid service_id;
        d' ← insert_unless permission_grants_t (fun r => N.eqb (g_id r) id)
               (GrantRow id t a s action (jsonb (JObj [])) (env_now n) a) d;
        Ok (tt, d')) in
      seed_grants tenant_id agent_id service_id actions'
  end.

(** The ciphertext columns of credentials, here the key in clear, are not part of [credential_row]. *)
Definition seed_mock_backend_demo (tenant_id : string) : J string :=
  let! new_service := j_uuid4 in
  do! statement (fun n d =>
    t ← as_uuid tenant_id;
    d' ← insert_unless services_t (fun r => N.eqb (s_tenant_id r) t && String.eqb (s_slug r) MOCK_BACKEND_SLUG)
           (ServiceRow new_service t "Mock Backend" MOCK_BACKEND_SLUG (Some "Mock Backend")
              (Some "Demo service exercising all Mintkey auth schemes") MOCK_BACKEND_URL "api_key_header"
              (Some (MOCK_BACKEND_URL +:+ "/openapi.json")) "active" None (env_now n) (env_now n) 1 None) d;
    Ok (tt, d')) in
  let! row := statement (fun _ d =>
    t ← as_uuid tenant_id;
    Ok (head (List.filter (fun r => N.eqb (s_tenant_id r) t && String.eqb (s_slug r) MOCK_BACKEND_SLUG) (services d)), d)) in
  let! service_id := jlift (first_id (s_id <$> row)) in
  let! credential_id := j_uuid4 in
  do! statement (fun n d =>
    t ← as_uuid tenant_id; s ← as_uuid service_id;
    d' ← insert_unless credentials_t (fun r => N.eqb (cr_id r) credential_id)
           (CredentialRow credential_id t s 1 "api_key_header" "active" (env_now n) None) d;
    Ok (tt, d')) in
  let! new_agent := j_uuid4 in
  let! demo_key := j_token_urlsafe 32 in
  let key_hash := hex_bytes (sha256 (utf8 demo_key)) in
  let fingerprint := py_take 8 key_hash in
  do! statement (fun n d =>
    t ← as_uuid tenant_id;
    d' ← insert_unless agents_t (fun r => N.eqb (a_id r) new_agent)
           (AgentRow new_agent t DEMO_AGENT_NAME (Some "Demo agent for mock-backend smoke tests") key_hash fingerprint None
              "active" None (env_now n) (env_now n) None 1 None None) d;
    Ok (tt, d')) in
  let! row := statement (fun _ d =>
    t ← as_uuid tenant_id;
    Ok (head (List.filter (fun r => N.eqb (a_tenant_id r) t && String.eqb (a_name r) DEMO_AGENT_NAME) (agents d)), d)) in
  let! agent_id := jlift (first_id (a_id <$> row)) in
  do! seed_grants tenant_id agent_id service_id demo_actions in
  jret demo_key.

(** ** The seed job: secret files *)

(** [true] when the file was written. *)
Definition _ensure_secret_file (path : string) (validate : string -> bool) (generate : J string) (chmod_mode : Z) : J bool :=
  let! existing := stat path in
  if match existing with Some f => validate (f_content f) | None => false end then jret false
  else
    do! match existing with Some _ => chmod 384 path | None => jret tt end in
    let! value := generate in
    do! write_bytes path value in
    do! chmod chmod_mode path in
    jret true.

Definition generate_admin_ui_keypair (secrets_dir : string) : J unit :=
  let priv_path := join_path secrets_dir "admin_ui_private.pem" in
  let pub_path := join_path secrets_dir "admin_ui_public.pem" in
  let! priv := stat priv_path in
  let! pub := match priv with Some _ => stat pub_path | None => jret None end in
  match priv, pub with
  | Some _, Some _ => jret tt
  | _, _ =>
      fun j => (let '(priv_bytes, pub_bytes) := ed25519_pem (j_tick j) in
                do! write_bytes priv_path priv_bytes in
                do! chmod 256 priv_path in
                write_bytes pub_path pub_bytes) (jtick j)
  end.

Definition valid_admin_password (kek raw : string) : bool :=
  match fernet_decrypt kek raw with
  | Some plaintext => let n := py_len (bytes_strip plaintext) in (12 <=? n)%nat && (n <=? 128)%nat
  | None => false
  end.

Definition encrypted (kek plaintext : string) : J string := fun j => (Ok (fernet_encrypt kek (j_tick j) plaintext), jtick j).

(** The copy for the host: what fails is printed and passed over. *)
Definition mirror_admin_password (secrets_dir : string) : J unit :=
  match HOST_BOOTSTRAP_SECRETS_DIR with
  | None => jret tt
  | Some host_dir =>
      jcatch
        (do! mkdir in
         let host_file := join_path host_dir "admin_password" in
         let! f := stat (join_path secrets_dir "admin_password") in
         match f with
         | None => jraise (RuntimeError "FileNotFoundError")
         | Some f =>
             do! write_bytes host_file (f_content f) in
             jcatch (chmod 256 host_file) (fun _ => jret tt)
         end)
        (fun _ => jret tt)
  end.

Definition _ensure_admin_password_file (secrets_dir plaintext_password : string) : J unit :=
  let! f := jlift _fernet in
  do! mkdir in
  do! _ensure_secret_file (join_path secrets_dir "admin_password") (valid_admin_password f)
        (encrypted f (utf8 plaintext_password)) 256 in
  mirror_admin_password secrets_dir.

(** [int(...)] of a text that is no number stops the job at its import. *)
Definition ADMIN_UI_UID : Z := default 1000%Z (py_int10 (getenv "MINTKEY_ADMIN_UI_UID" "1000")).

(** [true] when the owner changed; a failure is printed and passed over. *)
Definition _hand_admin_password_to_admin_ui (path : string) : J bool :=
  jcatch
    (let! f := stat path in
     match f with
     | None => jret false
     | Some f => if Z.eqb (f_uid f) ADMIN_UI_UID then jret false else do! chown ADMIN_UI_UID path in jret true
     end)
    (fun _ => jret false).

(** ** The seed job: Keycloak *)

Definition _KC_INTERNAL_URL : string := rstrip "/" (getenv "MINTKEY_KEYCLOAK_INTERNAL_URL" "http://keycloak:8443").
Definition _KC_ADMIN : string := getenv "KEYCLOAK_ADMIN" "admin".
Definition _KC_ADMIN_PASSWORD : string := getenv "KEYCLOAK_ADMIN_PASSWORD" "changeme".

Definition _CLIENT_SECRET_FILES : list (string * string) :=
  [("mintkey-admin-api", "oidc_client_secret"); ("mintkey-grafana", "grafana_oidc_client_secret");
   ("mintkey-jaeger", "jaeger_oidc_client_secret")].
Definition _REALM_JSON_ENV_DEFAULTS : list (string * string) :=
  [("MINTKEY_ADMIN_API_PUBLIC_URL", "http://localhost:8080"); ("MINTKEY_GRAFANA_PUBLIC_URL", "http://localhost:3003");
   ("MINTKEY_JAEGER_PUBLIC_URL", "http://localhost:16686")].

(** [requests.get(..)] and [resp.raise_for_status()] *)
Definition http_checked (rq : http_request) : J (Z * option json) :=
  let! resp := http_send rq in do! jlift (raise_for_status resp) in jret resp.

Fixpoint kc_poll (retries : nat) : J unit :=
  let poll := do! http_checked (HttpRequest "GET" (_KC_INTERNAL_URL +:+ "/realms/master/.well-known/openid-configuration") JNull [] []) in jret tt in
  match retries with
  | O => poll
  | S n => jcatch poll (fun _ => kc_poll n)
  end.
Definition _kc_wait_ready : J unit := kc_poll kc_retries.

(** The form is the body. *)
Definition _kc_admin_token : J json :=
  let! resp := http_checked (HttpRequest "POST" (_KC_INTERNAL_URL +:+ "/realms/master/protocol/openid-connect/token")
    (JObj [("client_id", JStr "admin-cli"); ("username", JStr _KC_ADMIN); ("password", JStr _KC_ADMIN_PASSWORD);
           ("grant_type", JStr "password")]) [] []) in
  jlift (body ← resp_json resp; subscript "access_token" body).

Definition _kc_headers (token : json) : list (string * string) :=
  [("Authorization", "Bearer " +:+ str_json token); ("Content-Type", "application/json")].

Definition kc_get (token : json) (path : string) (params : list (string * string)) : http_request :=
  HttpRequest "GET" (_KC_INTERNAL_URL +:+ path) JNull (_kc_headers token) params.
Definition kc_send (token : json) (method path : string) (body : json) : http_request :=
  HttpRequest method (_KC_INTERNAL_URL +:+ path) body (_kc_headers token) [].

(** [raw.replace(old, new)] *)
Fixpoint replace_list (fuel : nat) (old new l : list ascii) : list ascii :=
  match fuel with
  | O => l
  | S fuel' =>
      match l with
      | [] => []
      | c :: l' => if list_prefixb old l then (new ++ replace_list fuel' old new (drop (length old) l))%list
                   else c :: replace_list fuel' old new l'
      end
  end.
Definition py_replace (old new s : string) : string := unchars (replace_list (py_len s) (chars old) (chars new) (chars s)).

Definition placeholder (var : string) : string := "${" +:+ var +:+ "}".

Definition interpolated (raw : string) : string :=
  fold_left (fun raw kv => py_replace (placeholder (fst kv)) (getenv (fst kv) (snd kv)) raw) _REALM_JSON_ENV_DEFAULTS raw.
Definition _interpolate_realm_json (raw : string) : outcome json :=
  match loads (interpolated raw) with Some j => Ok j | None => Raise (ValueError "JSONDecodeError") end.

Definition _ensure_realm (token : json) (realm_json_path : string) : J unit :=
  let! resp := http_send (kc_get token "/admin/realms/mintkey" []) in
  if Z.eqb (fst resp) 200 then jret tt
  else
    do! (if Z.eqb (fst resp) 404 then jret tt else jlift (raise_for_status resp)) in
    let! realm_body := jlift (match env_file realm_json_path with
                              | Some raw => _interpolate_realm_json raw
                              | None => Raise (RuntimeError "FileNotFoundError")
                              end) in
    do! http_checked (kc_send token "POST" "/admin/realms" realm_body) in
    jret tt.

(** The answer of the client search; the identifier of the first client. *)
Definition kc_clients (token : json) (client_id : string) : J json :=
  let! resp := http_checked (kc_get token "/admin/realms/mintkey/clients" [("clientId", client_id)]) in
  jlift (resp_json resp).

Definition valid_client_secret (secret b : string) : bool := (16 <=? py_len b)%nat && String.eqb (bytes_strip b) secret.

Definition write_client_secret (token : json) (secrets_dir client_id secret_filename : string) : J unit :=
  let! clients := kc_clients token client_id in
  if negb (truthy clients) then
    jraise (RuntimeError ("Keycloak: client '" +:+ client_id +:+ "' not found in realm 'mintkey'"))
  else
    let! client_uuid := jlift (c ← index0 clients; subscript "id" c) in
    let! resp := http_checked (kc_get token ("/admin/realms/mintkey/clients/" +:+ str_json client_uuid +:+ "/client-secret") []) in
    let! secret_value := jlift (body ← resp_json resp; v ← subscript "value" body;
      match v with JStr s => Ok s | _ => Raise (AttributeError "object has no attribute 'encode'") end) in
    do! _ensure_secret_file (join_path secrets_dir secret_filename) (valid_client_secret (utf8 secret_value))
          (jret (utf8 secret_value)) 420 in
    jret tt.

Fixpoint each {A} (f : A -> J unit) (l : list A) : J unit :=
  match l with [] => jret tt | a :: l' => do! f a in each f l' end.

Definition _write_client_secrets (token : json) (secrets_dir : string) : J unit :=
  each (fun kv => write_client_secret token secrets_dir (fst kv) (snd kv)) _CLIENT_SECRET_FILES.

Definition _B64URL_ALPHABET : string := "abcdefghijklmnopqrstuvwxyzABCDEFGHIJKLMNOPQRSTUVWXYZ0123456789-_=".
Definition valid_cookie_secret (b : string) : bool :=
  (py_len b =? 44)%nat && forallb (fun c => existsb (Ascii.eqb c) (chars _B64URL_ALPHABET)) (chars b).
Definition _ensure_jaeger_cookie_secret (secrets_dir : string) : J unit :=
  do! _ensure_secret_file (join_path secrets_dir "jaeger_oauth2_cookie_secret") valid_cookie_secret
        (let! b := urandom32 in jret (urlsafe_b64encode b)) 420 in
  jret tt.

Definition kc_users (token : json) (email : string) : J json :=
  let! resp := http_checked (kc_get token "/admin/realms/mintkey/users" [("email", email)]) in
  jlift (resp_json resp).

Definition user_body (email first_name last_name : string) : json :=
  JObj [("username", JStr email); ("email", JStr email); ("enabled", JBool true); ("emailVerified", JBool true);
        ("firstName", JStr first_name); ("lastName", JStr last_name)].

Definition _ensure_admin_user (token : json) : J json :=
  let email := "admin@mintkey.internal" in
  let! users := kc_users token email in
  if truthy users then jlift (u ← index0 users; subscript "id" u)
  else
    do! http_checked (kc_send token "POST" "/admin/realms/mintkey/users" (user_body email "Mintkey" "Admin")) in
    let! users := kc_users token email in
    jlift (u ← index0 users; subscript "id" u).

Definition password_body (password : string) : json :=
  JObj [("type", JStr "password"); ("value", JStr password); ("temporary", JBool false)].
Definition reset_password_path (user_uuid : json) : string :=
  "/admin/realms/mintkey/users/" +:+ str_json user_uuid +:+ "/reset-password".

Definition _sync_admin_password (token user_uuid : json) (secrets_dir : string) : J unit :=
  let! f := stat (join_path secrets_dir "admin_password") in
  match f with
  | None => jret tt
  | Some f =>
      let! sentinel := stat (join_path secrets_dir ".admin_password_synced") in
      if match sentinel with Some s => Z.leb (f_mtime f) (f_mtime s) | None => false end then jret tt
      else
        let! password := jlift (kek ← _fernet;
          match fernet_decrypt kek (f_content f) with
          | Some b => Ok (py_strip (utf8_decode b))
          | None => Raise (RuntimeError "InvalidToken")
          end) in
        do! http_checked (kc_send token "PUT" (reset_password_path user_uuid) (password_body password)) in
        jret tt
  end.

Definition role_path (user_uuid : json) : string :=
  "/admin/realms/mintkey/users/" +:+ str_json user_uuid +:+ "/role-mappings/realm".

Definition _assign_platform_admin_role (token user_uuid : json) : J unit :=
  let! resp := http_checked (kc_get token "/admin/realms/mintkey/roles/mintkey-platform-admin" []) in
  let! role := jlift (resp_json resp) in
  do! http_checked (kc_send token "POST" (role_path user_uuid) (JArr [role])) in
  jret tt.

(** *** Redirect URIs *)

Definition is_localhost (u : string) : bool := startswith u "http://localhost:".
Definition has_placeholder (u : string) : bool := py_in "${" u.

(** The URI of the public URL, when it is set. *)
Definition derived_uri (public_url_env callback_path : string) : option string :=
  match rstrip "/" (getenv public_url_env "") with "" => None | public_url => Some (public_url +:+ callback_path) end.

Definition desired_uris (derived : option string) (current_uris : list string) : list string :=
  let local := List.filter is_localhost current_uris in
  let desired := match derived with
                 | Some d => if existsb (String.eqb d) local then local else (local ++ [d])%list
                 | None => local
                 end in
  let extras := List.filter (fun u => negb (is_localhost u) && negb (has_placeholder u)
                                      && match derived with Some d => negb (String.eqb u d) | None => true end) current_uris in
  (desired ++ extras)%list.

(** [sorted(a) == sorted(b)] *)
Definition count_str (u : string) (l : list string) : nat := length (List.filter (String.eqb u) l).
Definition same_uris (a b : list string) : bool :=
  forallb (fun u => Nat.eqb (count_str u a) (count_str u b)) (a ++ b).

Definition uris_current (derived : option string) (current_uris : list string) : bool :=
  negb (existsb has_placeholder current_uris) && same_uris (desired_uris derived current_uris) current_uris.

(** The value of [redirectUris or []], whose items the code treats as texts. *)
Definition text_items (j : json) : outcome (list string) :=
  match j with
  | JArr l => mapM_out (fun x => match x with JStr s => Ok s | _ => Raise (AttributeError "object has no attribute 'startswith'") end) l
  | JStr s => Ok (map (fun c => String c "") (chars s))
  | JObj d => Ok (map fst d)
  | _ => Raise (TypeError "object is not iterable")
  end.

Definition client_path (client_uuid : json) : string := "/admin/realms/mintkey/clients/" +:+ str_json client_uuid.

(** The representation is a dict, or the assignment fails. *)
Definition with_field (k : string) (v x : json) : outcome json :=
  match x with JObj d => Ok (JObj (dict_set k v d)) | _ => Raise (TypeError "object does not support item assignment") end.

Definition _patch_keycloak_client_redirect_uris (token : json) (client_id_name callback_path public_url_env : string) : J unit :=
  let! clients := kc_clients token client_id_name in
  if negb (truthy clients) then jret tt
  else
    let! client_rep := jlift (index0 clients) in
    let! client_uuid := jlift (subscript "id" client_rep) in
    let! current_uris := jlift (uris ← json_get "redirectUris" JNull client_rep;
                                text_items (if truthy uris then uris else JArr [])) in
    let derived := derived_uri public_url_env callback_path in
    if uris_current derived current_uris then jret tt
    else
      let! client_rep := jlift (with_field "redirectUris" (JArr (map JStr (desired_uris derived current_uris))) client_rep) in
      do! http_checked (kc_send token "PUT" (client_path client_uuid) client_rep) in
      jret tt.

Definition enforce_pkce (token : json) (client_id : string) : J unit :=
  let! clients := kc_clients token client_id in
  if negb (truthy clients) then jret tt
  else
    let! client_rep := jlift (index0 clients) in
    let! client_uuid := jlift (subscript "id" client_rep) in
    let! attrs := jlift (a ← json_get "attributes" JNull client_rep; Ok (if truthy a then a else JObj [])) in
    let! method := jlift (json_get "pkce.code.challenge.method" JNull attrs) in
    if bool_decide (method = JStr "S256") then jret tt
    else
      let! client_rep := jlift (a ← with_field "pkce.code.challenge.method" (JStr "S256") attrs; with_field "attributes" a client_rep) in
      do! http_checked (kc_send token "PUT" (client_path client_uuid) client_rep) in
      jret tt.
Definition _enforce_pkce_on_clients (token : json) : J unit := each (fun kv => enforce_pkce token (fst kv)) _CLIENT_SECRET_FILES.

Definition _touch_sentinel (secrets_dir : string) : J unit :=
  do! touch (join_path secrets_dir ".admin_password_synced") in
  chmod 384 (join_path secrets_dir ".admin_password_synced").

Definition link_sub (sub : string) (o : operator_row) : operator_row :=
  OperatorRow (o_id o) (o_tenant_id o) (o_email o) (o_display_name o) (o_internal_password_hash o) (Some sub)
    (o_oidc_provider o) (o_is_platform_admin o) (o_status o) (o_created_at o).

(** The operators the UPDATE links, and its check: [oidc_sub] is unique. *)
Definition unlinked (o : operator_row) : bool :=
  String.eqb (o_email o) DEFAULT_ADMIN_EMAIL && match o_oidc_sub o with None => true | Some _ => false end.
Definition link_operators (sub : string) (d : db) : outcome db :=
  let d' := update_db operators_t unlinked (link_sub sub) d in
  if existsb unlinked (operators d) && (1 <? length (List.filter (fun o => same_text (o_oidc_sub o) (Some sub)) (operators d')))%nat
  then Raise (IntegrityError "idx_operators_oidc_sub") else Ok d'.

Definition _pre_link_operator_oidc_sub (kc_user_uuid : json) : J unit :=
  jcatch (statement (fun _ d => d' ← link_operators (str_json kc_user_uuid) d; Ok (tt, d'))) (fun _ => jret tt).

Definition redirect_clients : list (string * string * string) :=
  [("mintkey-admin-api", "/v1/auth/oidc/callback", "MINTKEY_ADMIN_API_PUBLIC_URL");
   ("mintkey-grafana", "/login/generic_oauth", "MINTKEY_GRAFANA_PUBLIC_URL");
   ("mintkey-jaeger", "/oauth2/callback", "MINTKEY_JAEGER_PUBLIC_URL")].

(** [realm-mintkey.json] beside the script. *)
Definition realm_json_path : string := "realm-mintkey.json".

Definition seed_keycloak_realm_and_admin (tenant_id : string) : J unit :=
  let secrets_dir := BOOTSTRAP_SECRETS_DIR in
  do! mkdir in
  do! _kc_wait_ready in
  let! token := _kc_admin_token in
  do! _ensure_realm token realm_json_path in
  let! token := _kc_admin_token in
  do! _write_client_secrets token secrets_dir in
  do! _enforce_pkce_on_clients token in
  do! each (fun c => let '(client_id, callback_path, env_var) := c in
                     _patch_keycloak_client_redirect_uris token client_id callback_path env_var) redirect_clients in
  do! _ensure_jaeger_cookie_secret secrets_dir in
  let! user_uuid := _ensure_admin_user token in
  do! _sync_admin_password token user_uuid secrets_dir in
  do! _assign_platform_admin_role token user_uuid in
  do! _touch_sentinel secrets_dir in
  _pre_link_operator_oidc_sub user_uuid.

(** ** The seed job *)

(** [--rotate-bootstrap] is parsed and not looked at. *)
Definition main (rotate_bootstrap : bool) : J Z :=
  do! wait_for_postgres 30 in
  do! connect in
  let! result := run_steps_1_to_5 in
  let '(tenant_id, (operator_id, password)) := result in
  do! (if String.eqb password "" then jret tt else _ensure_admin_password_file BOOTSTRAP_SECRETS_DIR password) in
  do! _hand_admin_password_to_admin_ui (join_path BOOTSTRAP_SECRETS_DIR "admin_password") in
  do! seed_keycloak_realm_and_admin tenant_id in
  do! generate_admin_ui_keypair BOOTSTRAP_SECRETS_DIR in
  do! (if existsb (String.eqb (lower (getenv "MINTKEY_SEED_DEMO" ""))) ["1"; "true"; "yes"]
       then do! seed_mock_backend_demo tenant_id in jret tt else jret tt) in
  jret 0%Z.

(** ** The operator script (create_operator.py) *)

Record operator_args := OperatorArgs {
  oa_email : string; oa_display_name : string; oa_password : string; oa_tenant_id : option string;
  oa_platform_admin : bool; oa_dry_run : bool; oa_reset_password : bool }.

(** [args.display_name.split(None, 1)], as its first part and the second or "". *)
Definition split_name (s : string) : outcome (string * string) :=
  match drop_in (chars whitespace) (chars s) with
  | [] => Raise (IndexError "list index out of range")
  | l =>
      let fix first (l : list ascii) : list ascii * list ascii :=
        match l with
        | [] => ([], [])
        | c :: l' => if is_space c then ([], l) else let '(a, b) := first l' in (c :: a, b)
        end in
      let '(a, b) := first l in
      Ok (unchars a, unchars (drop_in (chars whitespace) b))
  end.

(** The user and whether it was created. *)
Definition _ensure_kc_user (token : json) (email first_name last_name : string) (dry_run : bool) : J (json * bool) :=
  let! users := kc_users token email in
  if truthy users then jlift (u ← index0 users; id ← subscript "id" u; Ok (id, false))
  else if dry_run then jret (JStr "dry-run-placeholder-uuid", true)
  else
    do! http_checked (kc_send token "POST" "/admin/realms/mintkey/users" (user_body email first_name last_name)) in
    let! users := kc_users token email in
    jlift (u ← index0 users; id ← subscript "id" u; Ok (id, true)).

Definition _set_kc_password (token user_uuid : json) (password : string) (dry_run : bool) : J unit :=
  if dry_run then jret tt
  else do! http_checked (kc_send token "PUT" (reset_password_path user_uuid) (password_body password)) in jret tt.

Definition _ensure_platform_admin_role (token user_uuid : json) (dry_run : bool) : J unit :=
  let! resp := http_checked (kc_get token "/admin/realms/mintkey/roles/mintkey-platform-admin" []) in
  let! role := jlift (resp_json resp) in
  if dry_run then jret tt
  else do! http_checked (kc_send token "POST" (role_path user_uuid) (JArr [role])) in jret tt.

Definition _ensure_operator_row (tenant_id email display_name : string) (is_platform_admin dry_run : bool) : J string :=
  let! row := statement (fun _ d => Ok (head (List.filter (fun o => String.eqb (o_email o) email) (operators d)), d)) in
  match row with
  | Some row => jret (uuid_str (o_id row))
  | None =>
      if dry_run then jret "dry-run-placeholder-operator-id"
      else statement (fun n d =>
        t ← as_uuid tenant_id;
        d' ← insert_db operators_t (OperatorRow (env_uuid4 n) t email (Some display_name) None None None is_platform_admin "active" (env_now n)) d;
        Ok (uuid_str (env_uuid4 n), d'))
  end.

Definition _ensure_membership_row (operator_id tenant_id : string) (dry_run : bool) : J unit :=
  if dry_run then jret tt
  else statement (fun n d =>
    o ← as_uuid operator_id;
    t ← as_uuid tenant_id;
    d' ← insert_unless operator_tenant_memberships_t (fun r => N.eqb (om_operator_id r) o && N.eqb (om_tenant_id r) t)
           (MembershipRow o t "Admin" (env_now n)) d;
    Ok (tt, d')).

Definition default_tenant : J string :=
  let! row := statement (fun _ d => Ok (head (List.filter (fun r => String.eqb (t_slug r) DEFAULT_TENANT_SLUG) (tenants d)), d)) in
  match row with
  | Some row => jret (uuid_str (t_id row))
  | None => jraise (RuntimeError ("Default tenant '" +:+ DEFAULT_TENANT_SLUG +:+ "' not found. Pass --tenant-id explicitly."))
  end.

Definition _resolve_tenant_id (tenant_id : option string) : J string :=
  match tenant_id with
  | Some t => if String.eqb t "" then default_tenant else jret t
  | None => default_tenant
  end.

Definition create_operator_main (args : operator_args) : J Z :=
  let! name := jlift (split_name (oa_display_name args)) in
  let '(first_name, last_name) := name in
  do! connect in
  let! tenant_id := _resolve_tenant_id (oa_tenant_id args) in
  let! token := _kc_admin_token in
  let! user := _ensure_kc_user token (oa_email args) first_name last_name (oa_dry_run args) in
  let '(user_uuid, user_was_created) := user in
  do! (if user_was_created || oa_reset_password args
       then _set_kc_password token user_uuid (oa_password args) (oa_dry_run args) else jret tt) in
  do! (if oa_platform_admin args then _ensure_platform_admin_role token user_uuid (oa_dry_run args) else jret tt) in
  let! operator_id := _ensure_operator_row tenant_id (oa_email args) (oa_display_name args) (oa_platform_admin args) (oa_dry_run args) in
  do! _ensure_membership_row operator_id tenant_id (oa_dry_run args) in
  jret 0%Z.
End SeedJob.

(** * Laws *)

#[local] Opaque uuid_str UUID.

(** ** Runs *)

Section Runs.
Context `{E : Env} `{H : Host}.

Lemma jbind_Ok {A B} (m : J A) (k : A -> J B) j b j' :
  jbind m k j = (Ok b, j') -> exists a j1, m j = (Ok a, j1) /\ k a j1 = (Ok b, j').
Proof. unfold jbind. destruct (m j) as [[a|e] j1]; [|done]. by exists a, j1. Qed.
Lemma jret_Ok {A} (a b : A) j j' : jret a j = (Ok b, j') -> b = a /\ j' = j.
Proof. by intros [= <- <-]. Qed.
Lemma jlift_Ok {A} (o : outcome A) j b j' : jlift o j = (Ok b, j') -> o = Ok b /\ j' = j.
Proof. by intros [= -> ->]. Qed.
Lemma statement_Ok {A} (f : nat -> db -> outcome (A * db)) j a j' : statement f j = (Ok a, j') ->
  exists d, f (S (j_tick j)) (j_db j) = Ok (a, d) /\ j' = j_set_db d (jtick j).
Proof.
  unfold statement. destruct (env_fault _); [done|]. cbn [j_tick jtick j_db]. destruct (f _ _) as [[a' d]|]; [|done].
  intros [= <- <-]. by exists d.
Qed.
Lemma statement_run {A} (f : nat -> db -> outcome (A * db)) a d j : (forall n, env_fault n = None) ->
  f (S (j_tick j)) (j_db j) = Ok (a, d) -> statement f j = (Ok a, j_set_db d (jtick j)).
Proof. intros Hnf Hf. unfold statement. rewrite Hnf. cbn [j_tick jtick j_db]. by rewrite Hf. Qed.
Lemma statement_reads {A} (f : nat -> db -> outcome (A * db)) a j : (forall n, env_fault n = None) ->
  f (S (j_tick j)) (j_db j) = Ok (a, j_db j) -> statement f j = (Ok a, jtick j).
Proof. intros Hnf Hf. rewrite (statement_run f a (j_db j)) by done. by destruct j. Qed.
Lemma jbind_run {A B} (m : J A) (k : A -> J B) j a j1 : m j = (Ok a, j1) -> jbind m k j = k a j1.
Proof. unfold jbind. by intros ->. Qed.

Lemma insert_unless_Ok {R} (T : table R) `{!TableLaws T} key r d d' : key r = true -> insert_unless T key r d = Ok d' ->
  existsb key (tb_get T d') = true /\
  (d' = d \/ existsb key (tb_get T d) = false /\ tb_check T d r = None /\ d' = tb_set T (tb_get T d ++ [r])%list d).
Proof.
  intros Hr. unfold insert_unless, insert_db. destruct (existsb key (tb_get T d)) eqn:He; [intros [= <-]; auto|].
  destruct (tb_check T d r); [done|]. intros [= <-]. split; [|auto]. rewrite tb_get_set, existsb_app. cbn. by rewrite Hr, orb_true_r.
Qed.
Lemma insert_unless_there {R} (T : table R) key r d : existsb key (tb_get T d) = true -> insert_unless T key r d = Ok d.
Proof. unfold insert_unless. by intros ->. Qed.
End Runs.

Tactic Notation "jstep" hyp(H) "as" ident(x) ident(j) ident(Hr) :=
  apply jbind_Ok in H as (x & j & Hr & H); cbv beta in H.

(** ** The database steps *)

Section Database.
Context `{E : Env} `{H : Host} `{Sha : Sha256}.

(** The first row of a table that the key selects. *)
Lemma head_filter_exists {R} (p : R -> bool) l : existsb p l = true -> exists r, head (List.filter p l) = Some r /\ In r l /\ p r = true.
Proof.
  intros Hp. rewrite head_filter_find. destruct (List.find p l) as [r|] eqn:Hf.
  - exists r. split; [done|]. by apply List.find_some.
  - exfalso. apply existsb_exists in Hp as (x & Hx & Hpx). pose proof (List.find_none _ _ Hf x Hx). congruence.
Qed.

Definition is_default (r : tenant_row) : bool := String.eqb (t_slug r) DEFAULT_TENANT_SLUG.
Definition is_bootstrap (t : uuid) (o : operator_row) : bool := String.eqb (o_email o) DEFAULT_ADMIN_EMAIL && N.eqb (o_tenant_id o) t.

(** A database on which the steps have run: the default tenant, the head of its chain, its bootstrap operator. *)
Record seeded (d : db) (t : uuid) (tenant_id operator_id : string) : Prop := {
  sd_tenant : first_id (t_id <$> head (List.filter is_default (tenants d))) = Ok tenant_id;
  sd_cast : as_uuid tenant_id = Ok t;
  sd_chain : existsb (fun r => N.eqb (c_tenant_id r) t) (audit_chain_state d) = true;
  sd_operator : exists o, head (List.filter (is_bootstrap t) (operators d)) = Some o /\ operator_id = uuid_str (o_id o) }.

Lemma seed_tenant_Ok j tid j1 : seed_default_tenant j = (Ok tid, j1) ->
  first_id (t_id <$> head (List.filter is_default (tenants (j_db j1)))) = Ok tid /\ j_changelog j1 = j_changelog j /\
  operators (j_db j1) = operators (j_db j) /\ audit_chain_state (j_db j1) = audit_chain_state (j_db j) /\
  audit_events (j_db j1) = audit_events (j_db j).
Proof.
  intros Hj. jstep Hj as u j2 Hr. apply statement_Ok in Hr as (d & Hd & ->).
  destruct (insert_unless _ _ _ _) as [d'|] eqn:Hi; [|done]. cbn [mbind outcome_bind] in Hd. injection Hd as <- <-.
  apply (insert_unless_Ok tenants_t) in Hi as [_ Hi]; [|apply String.eqb_refl].
  jstep Hj as row j3 Hr. apply statement_Ok in Hr as (d2 & Hd & ->). injection Hd as <- <-.
  apply jlift_Ok in Hj as [Hj ->]. split; [exact Hj|]. split; [done|]. cbn [j_db j_set_db jtick].
  destruct Hi as [->|(_ & _ & ->)]; [done|]. by destruct (j_db j).
Qed.

Lemma seed_chain_Ok tid j u j1 : seed_audit_chain_state tid j = (Ok u, j1) -> exists t, as_uuid tid = Ok t /\
  existsb (fun r => N.eqb (c_tenant_id r) t) (audit_chain_state (j_db j1)) = true /\ j_changelog j1 = j_changelog j /\
  tenants (j_db j1) = tenants (j_db j) /\ operators (j_db j1) = operators (j_db j).
Proof.
  intros Hj. apply statement_Ok in Hj as (d & Hd & ->). destruct (as_uuid tid) as [t|]; [|done]. cbn [mbind outcome_bind] in Hd.
  destruct (insert_unless _ _ _ _) as [d'|] eqn:Hi; [|done]. cbn [mbind outcome_bind] in Hd. injection Hd as _ <-.
  exists t. split; [done|]. apply (insert_unless_Ok audit_chain_state_t) in Hi as [He Hi]; [|apply N.eqb_refl]. split; [exact He|].
  split; [done|]. cbn [j_db j_set_db jtick]. destruct Hi as [->|(_ & _ & ->)]; [done|]. by destruct (j_db j).
Qed.

Lemma seed_operator_Ok tid t j oid p j1 : as_uuid tid = Ok t -> seed_bootstrap_operator tid j = (Ok (oid, p), j1) ->
  (exists o, head (List.filter (is_bootstrap t) (operators (j_db j1))) = Some o /\ oid = uuid_str (o_id o)) /\
  j_changelog j1 = j_changelog j /\
  tenants (j_db j1) = tenants (j_db j) /\ audit_chain_state (j_db j1) = audit_chain_state (j_db j).
Proof.
  intros Ht Hj. jstep Hj as row j2 Hr. apply statement_Ok in Hr as (d & Hd & ->). rewrite Ht in Hd. cbn [mbind outcome_bind] in Hd.
  injection Hd as <- <-. change (List.filter _ (operators _)) with (List.filter (is_bootstrap t) (operators (j_db j))) in Hj.
  destruct (head _) as [o|] eqn:Hh; [apply jret_Ok in Hj as [[= -> ->] ->]; split; [by exists o|done]|].
  jstep Hj as pw j3 Hr. injection Hr as _ <-. jstep Hj as oid2 j4 Hr. apply statement_Ok in Hr as (d & Hd & ->).
  rewrite Ht in Hd. cbn [mbind outcome_bind] in Hd. unfold insert_db in Hd. destruct (tb_check _ _ _); [done|]. cbn [mbind outcome_bind] in Hd.
  injection Hd as <- <-. jstep Hj as u j5 Hr. apply statement_Ok in Hr as (d & Hd & ->). apply jret_Ok in Hj as [[= -> ->] ->].
  destruct (as_uuid (uuid_str _)) as [o|]; [|done]. rewrite Ht in Hd. cbn [mbind outcome_bind] in Hd.
  destruct (insert_unless _ _ _ _) as [d'|] eqn:Hi; [|done]. cbn [mbind outcome_bind] in Hd. injection Hd as <- <-.
  apply (insert_unless_Ok operator_tenant_memberships_t) in Hi as [_ Hi]; [|cbn; by rewrite !N.eqb_refl]. cbn [j_db j_set_db jtick] in *.
  set (d0 := j_db j) in *. clearbody d0. set (r := OperatorRow _ _ _ _ _ _ _ _ _ _) in *.
  assert (Hops : operators d' = (operators d0 ++ [r])%list /\ tenants d' = tenants d0 /\ audit_chain_state d' = audit_chain_state d0).
  { destruct Hi as [->|(_ & _ & ->)]; by destruct d0. }
  destruct Hops as (-> & -> & ->). split; [|done]. exists r. split; [|done]. rewrite List.filter_app.
  assert (Hnone : List.filter (is_bootstrap t) (operators d0) = []) by (destruct (List.filter _ _); [done|discriminate Hh]).
  rewrite Hnone. cbn [List.filter app]. unfold is_bootstrap at 1. cbn [o_email o_tenant_id r]. rewrite String.eqb_refl, N.eqb_refl. done.
Qed.

Lemma steps_seeded j tid oid p j1 : run_steps_1_to_5 j = (Ok (tid, (oid, p)), j1) ->
  (exists c cs, j_changelog j1 = Some (c :: cs)) /\ exists t, seeded (j_db j1) t tid oid.
Proof.
  intros Hj. unfold run_steps_1_to_5 in Hj. jstep Hj as u j2 Hr. unfold verify_liquibase_applied in Hr. jstep Hr as u' j3 Hr'.
  apply statement_Ok in Hr' as (d & _ & ->). injection Hr as Hcl <-.
  jstep Hj as tid' j4 Hr. apply seed_tenant_Ok in Hr as (Ht & C4 & _). jstep Hj as u2 j5 Hr.
  apply seed_chain_Ok in Hr as (t & Hcast & Hc & C5 & T5 & O5). jstep Hj as op j6 Hr. apply jret_Ok in Hj as [[= -> Hop] ->]. subst op.
  apply (seed_operator_Ok _ t) in Hr as (Ho & C6 & T6 & A6); [|done]. split.
  - rewrite C6, C5, C4. destruct (j_changelog _) as [[|c cs]|]; try discriminate Hcl. by exists c, cs.
  - exists t. constructor; [by rewrite T6, T5|done|by rewrite A6|done].
Qed.

(** On a seeded database the steps change nothing, and make no password. *)
Lemma seeded_steps j t tid oid c cs : (forall n, env_fault n = None) -> j_changelog j = Some (c :: cs) -> seeded (j_db j) t tid oid ->
  exists j1, run_steps_1_to_5 j = (Ok (tid, (oid, "")), j1) /\ j_db j1 = j_db j /\ j_files j1 = j_files j /\ j_calls j1 = j_calls j.
Proof.
  intros Hnf Hcl [Ht Hcast Hc (o & Ho & ->)].
  pose proof (fun A f a j0 => @statement_reads _ A f a j0 Hnf) as Hst.
  assert (Hdef : existsb is_default (tenants (j_db j)) = true).
  { destruct (head _) as [r|] eqn:Hh; [|done]. apply existsb_exists. rewrite head_filter_find in Hh.
    apply List.find_some in Hh as [? ?]. by exists r. }
  eexists. unfold run_steps_1_to_5, verify_liquibase_applied, seed_default_tenant. split.
  - erewrite jbind_run; [|erewrite jbind_run by (by apply Hst); cbn [j_changelog jtick]; by rewrite Hcl].
    erewrite jbind_run.
    2: { erewrite jbind_run; [|apply Hst; rewrite (insert_unless_there tenants_t) by exact Hdef; reflexivity].
         erewrite jbind_run; [|by apply Hst]. unfold jlift. cbn [j_db jtick]. change (List.filter _ (tenants _)) with (List.filter is_default (tenants (j_db j))). by rewrite Ht. }
    erewrite jbind_run; [|apply Hst; rewrite Hcast; cbn [mbind outcome_bind]; rewrite (insert_unless_there audit_chain_state_t) by exact Hc; reflexivity].
    erewrite jbind_run; [reflexivity|]. unfold seed_bootstrap_operator.
    erewrite jbind_run; [|apply Hst; rewrite Hcast; reflexivity]. cbn [j_db jtick].
    change (List.filter _ (operators _)) with (List.filter (is_bootstrap t) (operators (j_db j))). rewrite Ho. reflexivity.
  - done.
Qed.

(** Only the tapes have advanced. *)
Definition unchanged (j0 j : job) : Prop :=
  j_db j = j_db j0 /\ j_changelog j = j_changelog j0 /\ j_files j = j_files j0 /\ j_calls j = j_calls j0.

(** The step changes nothing, and a result of it satisfies [Q]. *)
Definition idle (j0 : job) {A} (m : J A) (Q : A -> Prop) : Prop :=
  forall j, unchanged j0 j -> unchanged j0 (snd (m j)) /\ forall a, fst (m j) = Ok a -> Q a.

Lemma job_idle_bind j0 {A B} (m : J A) (k : A -> J B) P Q :
  idle j0 m P -> (forall a, P a -> idle j0 (k a) Q) -> idle j0 (jbind m k) Q.
Proof.
  intros Hm Hk j Hj. unfold jbind. destruct (Hm j Hj) as [Hu HP]. destruct (m j) as [[a|e] j1]; cbn [fst snd] in *.
  - apply Hk; [by apply HP|done].
  - split; [done|]. discriminate.
Qed.
Lemma job_idle_ret j0 {A} (a : A) (Q : A -> Prop) : Q a -> idle j0 (jret a) Q.
Proof. intros Ha j Hj. split; [done|]. by intros ? [= <-]. Qed.
Lemma job_idle_lift j0 {A} (o : outcome A) (Q : A -> Prop) : (forall a, o = Ok a -> Q a) -> idle j0 (jlift o) Q.
Proof. intros Ha j Hj. split; [done|]. exact Ha. Qed.
Lemma idle_statement j0 {A} (f : nat -> db -> outcome (A * db)) (Q : A -> Prop) :
  (forall n a d, f n (j_db j0) = Ok (a, d) -> d = j_db j0 /\ Q a) -> idle j0 (statement f) Q.
Proof.
  intros Hf j (Hd & Hc & Hfi & Hca). unfold statement. destruct (env_fault _); [by split|].
  cbn [j_tick jtick j_db]. rewrite Hd. destruct (f _ _) as [[a d]|e] eqn:Ef; [|by split].
  apply Hf in Ef as [-> HQ]. split; [done|]. by intros ? [= <-].
Qed.

(** Whatever fails, the steps change nothing on a seeded database. *)
Lemma seeded_idle j t tid oid : seeded (j_db j) t tid oid -> idle j run_steps_1_to_5 (fun _ => True).
Proof.
  intros [Ht Hcast Hc (o & Ho & ->)]. unfold run_steps_1_to_5.
  assert (Hdef : existsb is_default (tenants (j_db j)) = true).
  { destruct (head (List.filter is_default (tenants (j_db j)))) as [r|] eqn:Hh; [|done].
    apply existsb_exists. rewrite head_filter_find in Hh. apply List.find_some in Hh as [? ?]. by exists r. }
  apply (job_idle_bind j _ _ (fun _ => True)).
  { apply (job_idle_bind j _ _ (fun _ => True)); [apply idle_statement; by intros n a d [= <- <-]|].
    intros [] _ j' Hj'. split; [done|]. done. }
  intros _ _. apply (job_idle_bind j _ _ (fun a => a = tid)).
  { apply (job_idle_bind j _ _ (fun _ => True)).
    - apply idle_statement. intros n a d. rewrite (insert_unless_there tenants_t) by exact Hdef. by intros [= <- <-].
    - intros _ _. apply (job_idle_bind j _ _ (fun r => first_id (t_id <$> r) = Ok tid)).
      + apply idle_statement. by intros n a d [= <- <-].
      + intros row Hrow. apply job_idle_lift. rewrite Hrow. by intros a [= <-]. }
  intros ? ->. apply (job_idle_bind j _ _ (fun _ => True)).
  { apply idle_statement. intros n a d. rewrite Hcast. cbn [mbind outcome_bind].
    rewrite (insert_unless_there audit_chain_state_t) by exact Hc. by intros [= <- <-]. }
  intros _ _. apply (job_idle_bind j _ _ (fun _ => True)); [|intros; by apply job_idle_ret].
  apply (job_idle_bind j _ _ (fun r => r = Some o)).
  - apply idle_statement. intros n a d. rewrite Hcast. cbn [mbind outcome_bind].
    change (List.filter _ (operators _)) with (List.filter (is_bootstrap t) (operators (j_db j))). rewrite Ho. by intros [= <- <-].
  - intros ? ->. by apply job_idle_ret.
Qed.
End Database.

(** ** The first run *)

Section FirstRun.
Context `{E : Env} `{H : Host} `{Sha : Sha256}.

(** What the steps add, at the point [n] of the tapes. *)
Definition seed_tenant (n : nat) : tenant_row :=
  TenantRow (env_uuid4 n) DEFAULT_TENANT_SLUG "Default Tenant" "row" "active" (JObj []) (env_now n) (env_now n).
Definition seed_operator (t : uuid) (n : nat) : operator_row :=
  OperatorRow (env_uuid4 n) t DEFAULT_ADMIN_EMAIL (Some "Bootstrap Admin") None None None true "active" (env_now n).

Definition seeded_db (n : nat) (d : db) : db :=
  let t := t_id (seed_tenant (2 + n)) in
  let o := seed_operator t (7 + n) in
  let d1 := tb_set tenants_t (tenants d ++ [seed_tenant (2 + n)])%list d in
  let d2 := tb_set audit_chain_state_t (audit_chain_state d1 ++ [ChainRow t None (Some (genesis_hash (uuid_str t)))])%list d1 in
  let d3 := tb_set operators_t (operators d2 ++ [o])%list d2 in
  tb_set operator_tenant_memberships_t
    (operator_tenant_memberships d3 ++ [MembershipRow (o_id o) t "Admin" (env_now (8 + n))])%list d3.

(** The identifiers the tapes have are not in use. *)
Record unused (d : db) : Prop := {
  un_tenants : forall n, ~ In (env_uuid4 n) (map t_id (tenants d));
  un_operators : forall n, ~ In (env_uuid4 n) (map o_id (operators d));
  un_operator_tenants : forall n, ~ In (env_uuid4 n) (map o_tenant_id (operators d));
  un_chains : forall n, ~ In (env_uuid4 n) (map c_tenant_id (audit_chain_state d));
  un_events : forall n, ~ In (env_uuid4 n) (map e_tenant_id (audit_events d));
  un_members : forall n, ~ In (env_uuid4 n) (map om_operator_id (operator_tenant_memberships d)) }.

Lemma absent_key {R} (key : R -> uuid) id l : ~ In id (map key l) -> existsb (fun r => N.eqb (key r) id) l = false.
Proof.
  intros Hn. apply not_true_is_false. intros He. apply existsb_exists in He as (r & Hr & He). apply N.eqb_eq in He. subst id.
  by apply Hn, in_map.
Qed.

Lemma present_last {R} (key : R -> uuid) l r : present key (key r) (l ++ [r])%list = true.
Proof. unfold present. rewrite existsb_app. cbn. by rewrite N.eqb_refl, orb_true_r. Qed.

Lemma insert_unless_new {R} (T : table R) key r d : existsb key (tb_get T d) = false -> tb_check T d r = None ->
  insert_unless T key r d = Ok (tb_set T (tb_get T d ++ [r])%list d).
Proof. unfold insert_unless, insert_db. by intros -> ->. Qed.

Lemma as_uuid_str u : (u < uuid_limit)%N -> as_uuid (uuid_str u) = Ok u.
Proof. intros Hu. unfold as_uuid. by rewrite pg_uuid_in_str. Qed.


Context (Hnf : forall n, env_fault n = None).

Definition add_tenant (n : nat) (d : db) : db := tb_set tenants_t (tenants d ++ [seed_tenant n])%list d.
Definition add_chain (t : uuid) (d : db) : db :=
  tb_set audit_chain_state_t (audit_chain_state d ++ [ChainRow t None (Some (genesis_hash (uuid_str t)))])%list d.
Definition add_operator (t : uuid) (n : nat) (d : db) : db := tb_set operators_t (operators d ++ [seed_operator t n])%list d.
Definition add_member (o t : uuid) (n : nat) (d : db) : db :=
  tb_set operator_tenant_memberships_t (operator_tenant_memberships d ++ [MembershipRow o t "Admin" (env_now n)])%list d.

Lemma new_tenant j : existsb is_default (tenants (j_db j)) = false -> ~ In (env_uuid4 (S (j_tick j))) (map t_id (tenants (j_db j))) ->
  seed_default_tenant j = (Ok (uuid_str (env_uuid4 (S (j_tick j)))), jtick (j_set_db (add_tenant (S (j_tick j)) (j_db j)) (jtick j))).
Proof.
  intros Hdef Hf. unfold seed_default_tenant. erewrite jbind_run.
  2: { apply statement_run with (d := add_tenant (S (j_tick j)) (j_db j)); [exact Hnf|].
       rewrite (insert_unless_new tenants_t); [reflexivity|exact Hdef|].
       cbn [tb_check tenants_t first_violation t_id t_slug seed_tenant].
       rewrite (proj2 (fresh_spec t_id _ _) Hf). rewrite (proj2 (forallb_forall _ _)); [done|].
       intros r Hr. apply negb_true_iff, not_true_is_false. intros He. apply not_true_iff_false in Hdef. apply Hdef.
       apply existsb_exists. by exists r. }
  erewrite jbind_run; [|apply statement_reads; [exact Hnf|reflexivity]]. unfold jlift. f_equal.
  change (List.filter _ _) with (List.filter is_default (tenants (j_db j) ++ [seed_tenant (S (j_tick j))])%list).
  rewrite List.filter_app. assert (Hnil : List.filter is_default (tenants (j_db j)) = []).
  { apply not_true_iff_false in Hdef. destruct (List.filter is_default _) as [|r l] eqn:Hl; [done|]. destruct Hdef.
    apply existsb_exists. exists r. apply filter_In. rewrite Hl. by left. }
  by rewrite Hnil.
Qed.

Lemma new_chain t j : (t < uuid_limit)%N -> In t (map t_id (tenants (j_db j))) -> ~ In t (map c_tenant_id (audit_chain_state (j_db j))) ->
  seed_audit_chain_state (uuid_str t) j = (Ok tt, j_set_db (add_chain t (j_db j)) (jtick j)).
Proof.
  intros Ht Hin Hc. unfold seed_audit_chain_state. apply statement_run; [exact Hnf|]. rewrite as_uuid_str by done.
  cbn [mbind outcome_bind]. rewrite (insert_unless_new audit_chain_state_t); [reflexivity|by apply (absent_key c_tenant_id)|].
  cbn [tb_check audit_chain_state_t first_violation c_tenant_id]. rewrite (proj2 (fresh_spec c_tenant_id _ _) Hc).
  rewrite (proj2 (present_spec t_id _ _)); [done|]. apply in_map_iff in Hin as (r & He & Hr). by exists r.
Qed.

Lemma new_operator t j : (t < uuid_limit)%N -> In t (map t_id (tenants (j_db j))) -> ~ In t (map o_tenant_id (operators (j_db j))) ->
  let n := (3 + j_tick j)%nat in let o := env_uuid4 n in
  ~ In o (map o_id (operators (j_db j))) -> ~ In o (map om_operator_id (operator_tenant_memberships (j_db j))) ->
  exists password, seed_bootstrap_operator (uuid_str t) j =
    (Ok (uuid_str o, password), j_set_db (add_member o t (S n) (add_operator t n (j_db j))) (jtick (j_set_db (add_operator t n (j_db j)) (jtick (jtick (jtick j)))))).
Proof.
  intros Ht Hin Hot n o Ho Hm. exists (env_token_urlsafe (S (j_tick j)) 32). unfold seed_bootstrap_operator.
  assert (Hnone : List.filter (is_bootstrap t) (operators (j_db j)) = []).
  { destruct (List.filter _ _) as [|r l] eqn:Hl; [done|]. destruct Hot. assert (Hr : In r (List.filter (is_bootstrap t) (operators (j_db j)))) by (rewrite Hl; by left).
    apply filter_In in Hr as [Hr Hb]. apply andb_prop in Hb as [_ Hb]. apply N.eqb_eq in Hb. rewrite <- Hb. by apply in_map. }
  erewrite jbind_run; [|apply statement_reads; [exact Hnf|rewrite as_uuid_str by done; reflexivity]].
  change (List.filter _ _) with (List.filter (is_bootstrap t) (operators (j_db j))). rewrite Hnone. cbn [head].
  erewrite jbind_run by reflexivity. erewrite jbind_run.
  2: { apply statement_run with (d := add_operator t n (j_db j)); [exact Hnf|]. rewrite as_uuid_str by done. cbn [mbind outcome_bind].
       unfold insert_db. cbn [tb_check operators_t first_violation o_id o_oidc_sub o_tenant_id o_email j_db jtick j_tick].
       rewrite (proj2 (fresh_spec o_id _ _)) by exact Ho.
       rewrite (proj2 (forallb_forall _ _)) by (intros r _; by destruct (o_oidc_sub r)).
       rewrite (proj2 (forallb_forall _ _)).
       2: { intros r Hr. apply negb_true_iff, andb_false_iff. left. apply N.eqb_neq. intros <-. by apply Hot, in_map. }
       rewrite (proj2 (present_spec t_id _ _)); [reflexivity|]. apply in_map_iff in Hin as (r & He & Hr). by exists r. }
  erewrite jbind_run; [reflexivity|]. apply statement_run; [exact Hnf|].
  rewrite (as_uuid_str (env_uuid4 _)) by apply env_uuid4_lt. rewrite as_uuid_str by done. cbn [mbind outcome_bind].
  rewrite (insert_unless_new operator_tenant_memberships_t); [reflexivity|..].
  - change (tb_get _ _) with (operator_tenant_memberships (j_db j)). apply not_true_is_false. intros He.
    apply existsb_exists in He as (r & Hr & He). apply andb_prop in He as [He _]. apply N.eqb_eq in He. apply Hm.
    pose proof (in_map om_operator_id _ _ Hr) as Hx. rewrite He in Hx. exact Hx.
  - cbn [tb_check operator_tenant_memberships_t first_violation om_operator_id om_tenant_id].
    change (operator_tenant_memberships (j_db _)) with (operator_tenant_memberships (j_db j)).
    rewrite (proj2 (forallb_forall _ _)).
    2: { intros r Hr. apply negb_true_iff, andb_false_iff. left. apply N.eqb_neq. intros He. apply Hm.
         pose proof (in_map om_operator_id _ _ Hr) as Hx. rewrite He in Hx. exact Hx. }
    change (operators (j_db _)) with (operators (j_db j) ++ [seed_operator t n])%list. rewrite (present_last o_id _ (seed_operator t n)).
    change (tenants (j_db _)) with (tenants (j_db j)). rewrite (proj2 (present_spec t_id _ _)); [done|].
    apply in_map_iff in Hin as (r & He & Hr). by exists r.
Qed.

Lemma first_run j c cs : j_changelog j = Some (c :: cs) ->
  existsb is_default (tenants (j_db j)) = false -> unused (j_db j) ->
  let t := env_uuid4 (2 + j_tick j) in
  exists password j1, run_steps_1_to_5 j = (Ok (uuid_str t, (uuid_str (env_uuid4 (7 + j_tick j)), password)), j1) /\
    j_db j1 = seeded_db (j_tick j) (j_db j).
Proof.
  intros Hcl Hdef Hun t. assert (Ht : (t < uuid_limit)%N) by apply env_uuid4_lt.
  unfold run_steps_1_to_5. erewrite jbind_run.
  2: { unfold verify_liquibase_applied. erewrite jbind_run; [|apply statement_reads; [exact Hnf|reflexivity]].
       cbn [j_changelog jtick]. by rewrite Hcl. }
  erewrite jbind_run; [|apply new_tenant; [exact Hdef|apply (un_tenants _ Hun)]].
  change (env_uuid4 (S (j_tick (jtick j)))) with t. set (j1 := jtick (j_set_db _ _)).
  assert (Hin : In t (map t_id (tenants (j_db j1)))).
  { change (tenants (j_db j1)) with (tenants (j_db j) ++ [seed_tenant (2 + j_tick j)])%list. rewrite map_app. apply in_or_app. right. by left. }
  erewrite jbind_run; [|apply new_chain; [exact Ht|exact Hin|apply (un_chains _ Hun)]]. set (j2 := j_set_db _ _).
  destruct (new_operator t j2) as [password Hop]; [exact Ht|exact Hin|apply (un_operator_tenants _ Hun)|apply (un_operators _ Hun)|apply (un_members _ Hun)|].
  exists password. eexists. erewrite jbind_run by exact Hop. split; reflexivity.
Qed.

(** The new chain is intact. *)
Lemma seeded_chain n d : unused d -> chain_ok (env_uuid4 (2 + n)) (seeded_db n d).
Proof.
  intros Hun. set (t := env_uuid4 (2 + n)).
  assert (Hev : events_of t (seeded_db n d) = []).
  { unfold events_of. change (audit_events (seeded_db n d)) with (audit_events d). destruct (List.filter _ _) as [|r l] eqn:Hl; [done|].
    destruct (un_events _ Hun (2 + n)). assert (Hr : In r (List.filter (fun r => N.eqb (e_tenant_id r) t) (audit_events d))) by (rewrite Hl; by left).
    apply filter_In in Hr as [Hr He]. apply N.eqb_eq in He. fold t. rewrite <- He. by apply in_map. }
  constructor; rewrite Hev; [constructor|constructor|]. exists [], None. split; [reflexivity|]. split; [constructor|].
  unfold chain_state_of. change (audit_chain_state (seeded_db n d)) with (audit_chain_state d ++ [ChainRow t None (Some (genesis_hash (uuid_str t)))])%list.
  rewrite List.filter_app. cbn [List.filter c_tenant_id]. rewrite N.eqb_refl. cbn [end_hash].
  destruct (List.filter _ _) as [|r l] eqn:Hl; [done|]. destruct (un_chains _ Hun (2 + n)).
  assert (Hr : In r (List.filter (fun r => N.eqb (c_tenant_id r) t) (audit_chain_state d))) by (rewrite Hl; by left).
  apply filter_In in Hr as [Hr He]. apply N.eqb_eq in He. fold t. rewrite <- He. by apply in_map.
Qed.
End FirstRun.

(** ** Runs within a relation *)

Section Keeps.
Context `{E : Env} `{H : Host} (R : relation job) `{!PreOrder R}.

Definition obeys {A} (m : J A) : Prop := forall j, R j (snd (m j)).

Lemma obeys_ret {A} (a : A) : obeys (jret a). Proof. by intros j. Qed.
Lemma obeys_raise {A} e : obeys (jraise e : J A). Proof. by intros j. Qed.
Lemma obeys_lift {A} (o : outcome A) : obeys (jlift o). Proof. by intros j. Qed.
Lemma obeys_bind {A B} (m : J A) (k : A -> J B) : obeys m -> (forall a, obeys (k a)) -> obeys (jbind m k).
Proof.
  intros Hm Hk j. specialize (Hm j). unfold jbind. destruct (m j) as [[a|e] j1]; [|done]. etransitivity; [exact Hm|apply Hk].
Qed.
Lemma obeys_catch {A} (m : J A) (h : exn -> J A) : obeys m -> (forall e, obeys (h e)) -> obeys (jcatch m h).
Proof.
  intros Hm Hh j. specialize (Hm j). unfold jcatch. destruct (m j) as [[a|e] j1]; [done|]. etransitivity; [exact Hm|apply Hh].
Qed.
Lemma obeys_each {A} (f : A -> J unit) l : (forall a, obeys (f a)) -> obeys (each f l).
Proof. intros Hf. induction l as [|a l IH]; [apply obeys_ret|]. by apply obeys_bind. Qed.

Context (Rtick : forall j, R j (jtick j)).

Lemma obeys_tick {A} (f : job -> outcome A) : obeys (fun j => (f j, jtick j)).
Proof. intros j. apply Rtick. Qed.
Lemma obeys_connect : obeys connect.
Proof. intros j. unfold connect. destruct (connect_fault _); apply Rtick. Qed.
Lemma obeys_wait n : obeys (wait_for_postgres n).
Proof. induction n; [apply obeys_raise|apply obeys_catch; [apply obeys_connect|done]]. Qed.
End Keeps.

(** Peels a computation down to its effects. *)
Ltac obeys_step :=
  match goal with
  | |- obeys _ (jbind _ _) => apply obeys_bind; [apply _| |intros ?]
  | |- obeys _ (jcatch _ _) => apply obeys_catch; [apply _| |intros ?]
  | |- obeys _ (each _ _) => apply obeys_each; [apply _|intros ?]
  | |- obeys _ (jret _) => apply obeys_ret, _
  | |- obeys _ (jraise _) => apply obeys_raise, _
  | |- obeys _ (jlift _) => apply obeys_lift, _
  | |- obeys _ (match ?x with _ => _ end) => destruct x
  | |- obeys _ (let '(_, _) := ?x in _) => destruct x
  end.

(** *** Reading only *)

Section Quiet.
Context `{E : Env} `{H : Host}.

(** A GET, or the request for a token. *)
Definition read_only (rq : http_request) : Prop :=
  rq_method rq = "GET" \/
  rq_method rq = "POST" /\ rq_url rq = _KC_INTERNAL_URL +:+ "/realms/master/protocol/openid-connect/token".

Definition reads_only (j j' : job) : Prop :=
  j_db j' = j_db j /\ j_changelog j' = j_changelog j /\ j_files j' = j_files j /\
  exists cs, j_calls j' = (j_calls j ++ cs)%list /\ Forall read_only cs.

#[export] Instance quiet_preorder : PreOrder reads_only.
Proof.
  split.
  - intros j. do 3 (split; [done|]). exists []. by rewrite app_nil_r.
  - intros j1 j2 j3 (D1 & L1 & F1 & cs1 & C1 & O1) (D2 & L2 & F2 & cs2 & C2 & O2).
    split; [congruence|]. split; [congruence|]. split; [congruence|]. exists (cs1 ++ cs2)%list.
    split; [by rewrite C2, C1, app_assoc|]. by apply Forall_app.
Qed.

Lemma quiet_tick j : reads_only j (jtick j).
Proof. do 3 (split; [done|]). exists []. by rewrite app_nil_r. Qed.

Lemma quiet_request rq : read_only rq -> obeys reads_only (http_send rq).
Proof. intros Hr j. do 3 (split; [done|]). exists [rq]. split; [done|by constructor]. Qed.

Lemma quiet_statement {A} (f : nat -> db -> outcome (A * db)) : (forall n d a d', f n d = Ok (a, d') -> d' = d) ->
  obeys reads_only (statement f).
Proof.
  intros Hf j. unfold statement. destruct (env_fault _); [apply quiet_tick|].
  destruct (f _ _) as [[a d]|] eqn:Hd; [|apply quiet_tick]. apply Hf in Hd as ->. apply quiet_tick.
Qed.

Lemma quiet_checked rq : read_only rq -> obeys reads_only (http_checked rq).
Proof. intros Hr. unfold http_checked. repeat obeys_step. by apply quiet_request. Qed.
Lemma quiet_get token path params : read_only (kc_get token path params).
Proof. by left. Qed.
Lemma quiet_token : obeys reads_only _kc_admin_token.
Proof. unfold _kc_admin_token. repeat obeys_step. apply quiet_checked. by right. Qed.
Lemma quiet_users token email : obeys reads_only (kc_users token email).
Proof. unfold kc_users. repeat obeys_step. apply quiet_checked, quiet_get. Qed.
End Quiet.

(** *** A file that is not there *)

Section Absent.
Context `{E : Env} `{H : Host} `{Sha : Sha256} (p : string).

Definition stays_absent (j j' : job) : Prop := j_files j !! p = None -> j_files j' !! p = None.

#[export] Instance absent_preorder : PreOrder stays_absent.
Proof. split; [intros j Hj; exact Hj|]. intros j1 j2 j3 H1 H2 Hj. auto. Qed.

Lemma absent_tick j : stays_absent j (jtick j). Proof. intros Hj. exact Hj. Qed.
Lemma absent_request rq : obeys stays_absent (http_send rq). Proof. intros j Hj. exact Hj. Qed.
Lemma absent_statement {A} (f : nat -> db -> outcome (A * db)) : obeys stays_absent (statement f).
Proof. intros j Hj. unfold statement. destruct (env_fault _); [exact Hj|]. by destruct (f _ _) as [[a d]|]. Qed.
Lemma absent_os {A} (f : nat -> gmap string file -> A * gmap string file) :
  (forall n fs, fs !! p = None -> snd (f n fs) !! p = None) -> obeys stays_absent (os_call f).
Proof.
  intros Hf j Hj. unfold os_call. destruct (os_fault _); [done|]. specialize (Hf (j_tick (jtick j)) _ Hj).
  change (j_files (jtick j)) with (j_files j). by destruct (f _ (j_files j)).
Qed.
Lemma absent_stat path : obeys stays_absent (stat path). Proof. by apply absent_os. Qed.
Lemma absent_mkdir : obeys stays_absent mkdir. Proof. by apply absent_os. Qed.
Lemma absent_update g path : obeys stays_absent (update_file g path).
Proof. apply absent_os. intros n fs Hp. cbn [snd]. rewrite lookup_alter. case_decide; subst; by rewrite Hp. Qed.
Lemma absent_write path b : path <> p -> obeys stays_absent (write_bytes path b).
Proof. intros Hne. apply absent_os. intros n fs Hp. cbn [snd]. by rewrite lookup_insert_ne. Qed.
Lemma absent_touch path : path <> p -> obeys stays_absent (touch path).
Proof. intros Hne. apply absent_os. intros n fs Hp. cbn [snd]. by rewrite lookup_insert_ne. Qed.

Lemma absent_checked rq : obeys stays_absent (http_checked rq).
Proof. unfold http_checked. repeat obeys_step. apply absent_request. Qed.
Lemma absent_ensure path validate generate mode : path <> p -> obeys stays_absent generate ->
  obeys stays_absent (_ensure_secret_file path validate generate mode).
Proof.
  intros Hne Hg. unfold _ensure_secret_file.
  repeat first [exact Hg|apply absent_stat|apply absent_update|by apply absent_write|obeys_step].
Qed.
End Absent.

(** *** A second run *)

Section SecondRun.
Context `{E : Env} `{H : Host} `{Sha : Sha256}.

Lemma join_path_inj dir a b : join_path dir a = join_path dir b -> a = b.
Proof. unfold join_path. intros Hj. by repeat apply app_string_inj in Hj. Qed.

Definition password_path : string := join_path BOOTSTRAP_SECRETS_DIR "admin_password".

Ltac other_path := let Hp := fresh in intros Hp; apply join_path_inj in Hp; discriminate Hp.
Ltac absent_step :=
  first [ apply absent_request | apply absent_statement | apply absent_stat | apply absent_mkdir | apply absent_update
        | apply absent_checked | apply absent_write; other_path | apply absent_touch; other_path
        | apply absent_ensure; [other_path|] | obeys_step ].

Lemma absent_poll n : obeys (stays_absent password_path) (kc_poll n).
Proof. induction n; cbn [kc_poll]; repeat absent_step. exact IHn. Qed.
Lemma absent_token : obeys (stays_absent password_path) _kc_admin_token.
Proof. unfold _kc_admin_token. repeat absent_step. Qed.
Lemma absent_clients token c : obeys (stays_absent password_path) (kc_clients token c).
Proof. unfold kc_clients. repeat absent_step. Qed.
Lemma absent_users token email : obeys (stays_absent password_path) (kc_users token email).
Proof. unfold kc_users. repeat absent_step. Qed.

Ltac absent_all := repeat first [apply absent_token|apply absent_clients|apply absent_users|apply absent_poll|absent_step].

Lemma absent_client_secret token kv : In kv _CLIENT_SECRET_FILES ->
  obeys (stays_absent password_path) (write_client_secret token BOOTSTRAP_SECRETS_DIR (fst kv) (snd kv)).
Proof. intros Hin. repeat (destruct Hin as [<- |Hin]; [unfold write_client_secret; absent_all|]). destruct Hin. Qed.

Lemma absent_client_secrets token : obeys (stays_absent password_path) (_write_client_secrets token BOOTSTRAP_SECRETS_DIR).
Proof.
  pose proof (absent_client_secret token) as Hs. unfold _write_client_secrets. revert Hs. generalize _CLIENT_SECRET_FILES. intros l Hs.
  induction l as [|kv l IH]; [apply obeys_ret, _|]. cbn [each]. apply obeys_bind; [apply _|by apply Hs; left|intros _].
  apply IH. intros kv' Hin. apply Hs. by right.
Qed.

Lemma absent_patch token a b c : obeys (stays_absent password_path) (_patch_keycloak_client_redirect_uris token a b c).
Proof. unfold _patch_keycloak_client_redirect_uris. absent_all. Qed.
Lemma absent_pkce token : obeys (stays_absent password_path) (_enforce_pkce_on_clients token).
Proof. unfold _enforce_pkce_on_clients, enforce_pkce. absent_all. Qed.
Lemma absent_user token : obeys (stays_absent password_path) (_ensure_admin_user token).
Proof. unfold _ensure_admin_user. absent_all. Qed.
Lemma absent_cookie : obeys (stays_absent password_path) (_ensure_jaeger_cookie_secret BOOTSTRAP_SECRETS_DIR).
Proof. unfold _ensure_jaeger_cookie_secret. absent_all. apply obeys_tick, absent_tick. Qed.
Lemma absent_sync token u : obeys (stays_absent password_path) (_sync_admin_password token u BOOTSTRAP_SECRETS_DIR).
Proof. unfold _sync_admin_password. absent_all. Qed.

Lemma absent_keycloak tid : obeys (stays_absent password_path) (seed_keycloak_realm_and_admin tid).
Proof.
  unfold seed_keycloak_realm_and_admin, _kc_wait_ready, _ensure_realm, _assign_platform_admin_role, _touch_sentinel, _pre_link_operator_oidc_sub.
  repeat first [apply absent_client_secrets|apply absent_pkce|apply absent_patch|apply absent_cookie|apply absent_user|apply absent_sync
               |apply absent_token|apply absent_poll|absent_step].
Qed.

Lemma absent_keypair : obeys (stays_absent password_path) (generate_admin_ui_keypair BOOTSTRAP_SECRETS_DIR).
Proof.
  assert (Hk : forall pb qb, obeys (stays_absent password_path)
    (do! write_bytes (join_path BOOTSTRAP_SECRETS_DIR "admin_ui_private.pem") pb in
     do! chmod 256 (join_path BOOTSTRAP_SECRETS_DIR "admin_ui_private.pem") in
     write_bytes (join_path BOOTSTRAP_SECRETS_DIR "admin_ui_public.pem") qb)) by (intros pb qb; absent_all).
  unfold generate_admin_ui_keypair. absent_all;
    intros j Hj; destruct (ed25519_pem (j_tick j)) as [pb qb]; exact (Hk pb qb (jtick j) Hj).
Qed.

Lemma absent_grants t a s l : obeys (stays_absent password_path) (seed_grants t a s l).
Proof. induction l as [|x l IH]; [apply obeys_ret, _|]. cbn [seed_grants]. absent_all; [apply obeys_tick, absent_tick|exact IH]. Qed.
Lemma absent_demo tid : obeys (stays_absent password_path) (seed_mock_backend_demo tid).
Proof. unfold seed_mock_backend_demo. repeat first [apply absent_grants|absent_step]; apply obeys_tick, absent_tick. Qed.
Lemma absent_steps : obeys (stays_absent password_path) run_steps_1_to_5.
Proof.
  unfold run_steps_1_to_5, verify_liquibase_applied, seed_default_tenant, seed_audit_chain_state, seed_bootstrap_operator.
  absent_all; first [apply obeys_tick, absent_tick|intros j Hj; exact Hj].
Qed.
Lemma absent_hand : obeys (stays_absent password_path) (_hand_admin_password_to_admin_ui password_path).
Proof. unfold _hand_admin_password_to_admin_ui. absent_all. Qed.
End SecondRun.

(** ** Files *)

Section Files.
Context `{E : Env} `{H : Host}.

(** Without failures a secret file ends up valid when what is generated is; a valid one is not
    touched, and no other file is. *)
Lemma secret_file_ensured path validate generate mode value j : (forall n, os_fault n = None) ->
  (forall j0, exists j1, generate j0 = (Ok value, j1) /\ j_files j1 = j_files j0) -> validate value = true ->
  exists b j1, _ensure_secret_file path validate generate mode j = (Ok b, j1) /\
    (exists f, j_files j1 !! path = Some f /\ validate (f_content f) = true) /\
    (forall path', path' <> path -> j_files j1 !! path' = j_files j !! path') /\
    (b = true <-> forall f, j_files j !! path = Some f -> validate (f_content f) = false).
Proof.
  intros Hos Hg Hv. unfold _ensure_secret_file, stat.
  assert (Hcall : forall A (f : nat -> gmap string file -> A * gmap string file) j0,
    os_call f j0 = (Ok (fst (f (S (j_tick j0)) (j_files j0))), j_set_files (snd (f (S (j_tick j0)) (j_files j0))) (jtick j0))).
  { intros A f j0. unfold os_call. rewrite Hos. cbn [j_tick jtick j_files]. by destruct (f _ _). }
  erewrite jbind_run by apply Hcall. cbn [fst snd].
  assert (Hwrite : forall j0, exists j1, (let! value := generate in do! write_bytes path value in do! chmod mode path in jret true) j0 = (Ok true, j1) /\
    (exists f, j_files j1 !! path = Some f /\ validate (f_content f) = true) /\
    (forall path', path' <> path -> j_files j1 !! path' = j_files j0 !! path')).
  { intros j0. destruct (Hg j0) as (j2 & Hg2 & Hf2). eexists. split.
    - erewrite jbind_run by exact Hg2. erewrite jbind_run by apply Hcall. erewrite jbind_run by apply Hcall. reflexivity.
    - cbn [j_files j_set_files jtick fst snd]. split.
      + rewrite lookup_alter, decide_True by done. rewrite lookup_insert_eq. eexists. split; [reflexivity|exact Hv].
      + intros path' Hne. rewrite lookup_alter_ne by done. rewrite lookup_insert_ne by done. by rewrite Hf2. }
  destruct (j_files j !! path) as [f|] eqn:Hf; [destruct (validate (f_content f)) eqn:Hval|].
  - eexists false, _. split; [reflexivity|]. cbn [j_files j_set_files jtick]. split; [by exists f|]. split; [done|].
    split; [done|]. intros Hall. specialize (Hall f eq_refl). congruence.
  - erewrite jbind_run by apply Hcall. edestruct Hwrite as (j1 & -> & Hp & Ho). exists true, j1. split; [done|]. split; [exact Hp|].
    split; [|split; [intros _ f' [= <-]; exact Hval|done]]. intros path' Hne. rewrite Ho by done.
    cbn [j_files j_set_files jtick fst snd]. by rewrite lookup_alter_ne.
  - erewrite jbind_run by reflexivity. edestruct Hwrite as (j1 & -> & Hp & Ho). exists true, j1. split; [done|]. split; [exact Hp|].
    split; [|done]. intros path' Hne. by rewrite Ho.
Qed.
End Files.


(** The cookie secret that is generated is one that is accepted: 32 bytes are 44 characters of the alphabet. *)
Section Cookie.

Definition in_alphabet (c : ascii) : bool := existsb (Ascii.eqb c) (chars _B64URL_ALPHABET).

Lemma alphabet_class c : b64_class c ->
  in_alphabet (if Ascii.eqb c "+" then "-" else if Ascii.eqb c "/" then "_" else c)%char = true.
Proof.
  intros [->|(n & Hn & ->)]; [done|]. revert n Hn.
  apply (N_below_check (fun n => let c := b64_char n in
    in_alphabet (if Ascii.eqb c "+" then "-" else if Ascii.eqb c "/" then "_" else c)%char) 64). vm_compute. reflexivity.
Qed.

Lemma b64_length l : length (b64encode_list l) = (4 * ((length l + 2) / 3))%nat.
Proof.
  induction l as [|a|a b|a b c l IH] using b64_list_ind; [done..|]. cbn [b64encode_list length]. rewrite IH.
  replace (S (S (S (length l))) + 2)%nat with (length l + 2 + 1 * 3)%nat by lia. rewrite Nat.div_add by done. lia.
Qed.

Lemma cookie_secret_valid b : length (chars b) = 32%nat -> valid_cookie_secret (urlsafe_b64encode b) = true.
Proof.
  intros Hl. unfold valid_cookie_secret, urlsafe_b64encode, py_len, b64encode. rewrite !chars_unchars, length_map, b64_length, Hl.
  apply forallb_forall. intros c Hc. apply in_map_iff in Hc as (c0 & <- & Hc). apply alphabet_class.
  pose proof (b64_classes (chars b)) as Hf. rewrite List.Forall_forall in Hf. by apply Hf.
Qed.
End Cookie.

(** ** What the job achieves *)

Section Achieved.
Context `{E : Env} `{H : Host} `{Sha : Sha256}.

(** Another tenant's events and head are as they were. *)
Lemma seeded_other n d t : t <> env_uuid4 (2 + n) ->
  events_of t (seeded_db n d) = events_of t d /\ chain_state_of t (seeded_db n d) = chain_state_of t d.
Proof.
  intros Hne. split; [done|]. unfold chain_state_of.
  change (audit_chain_state (seeded_db n d)) with
    (audit_chain_state d ++ [ChainRow (env_uuid4 (2 + n)) None (Some (genesis_hash (uuid_str (env_uuid4 (2 + n)))))])%list.
  rewrite List.filter_app. cbn [List.filter c_tenant_id]. rewrite (proj2 (N.eqb_neq _ _)) by auto. by rewrite app_nil_r.
Qed.

Lemma chain_same t d d' : events_of t d' = events_of t d -> chain_state_of t d' = chain_state_of t d -> chain_ok t d -> chain_ok t d'.
Proof. intros He Hc [R I L]. constructor; by rewrite ?He, ?Hc. Qed.

Lemma seeded_chains n d : unused d -> chains_kept d (seeded_db n d).
Proof.
  intros Hun t _ Hok. destruct (N.eq_dec t (env_uuid4 (2 + n))) as [->|Hne]; [by apply seeded_chain|].
  destruct (seeded_other n d t Hne) as [He Hc]. by apply (chain_same t d).
Qed.

Lemma seeded_account n d : accounts DEFAULT_ADMIN_EMAIL d = [] ->
  accounts DEFAULT_ADMIN_EMAIL (seeded_db n d) = [seed_operator (env_uuid4 (2 + n)) (7 + n)].
Proof.
  intros Ha. unfold accounts in *.
  change (operators (seeded_db n d)) with (operators d ++ [seed_operator (env_uuid4 (2 + n)) (7 + n)])%list.
  rewrite List.filter_app, Ha. cbn [List.filter o_email seed_operator app]. by rewrite String.eqb_refl.
Qed.

(** Whatever the tape of Keycloak's answers and the file system do, a password file that is not there
    after the operator was created is not written by a later run. *)
Lemma password_file_lost rotate j t tid oid c cs : (forall n, env_fault n = None) -> j_changelog j = Some (c :: cs) ->
  seeded (j_db j) t tid oid -> j_files j !! password_path = None -> j_files (snd (main rotate j)) !! password_path = None.
Proof.
  intros Hnf Hcl Hs Hp. unfold main.
  assert (Hw : forall n j0, let j1 := snd (wait_for_postgres n j0) in
    j_db j1 = j_db j0 /\ j_changelog j1 = j_changelog j0 /\ j_files j1 = j_files j0).
  { induction n as [|n IH]; intros j0; [done|]. cbn [wait_for_postgres]. unfold jcatch, connect.
    destruct (connect_fault _); [|done]. cbn zeta. destruct (IH (jtick j0)) as (-> & -> & ->). done. }
  specialize (Hw 30%nat j). unfold jbind at 1. destruct (wait_for_postgres 30 j) as [[u|e] j1]; cbn [snd] in Hw |- *;
    destruct Hw as (D1 & C1 & F1); [|by rewrite F1].
  unfold jbind at 1, connect. destruct (connect_fault _); [cbn [snd jtick j_files]; by rewrite F1|].
  destruct (seeded_steps (jtick j1) t tid oid c cs) as (j2 & Hr & D2 & F2 & _); [done|by rewrite <- Hcl, <- C1|by rewrite <- D1 in Hs|].
  erewrite jbind_run by exact Hr. cbn [String.eqb].
  eapply (obeys_bind (stays_absent password_path)); [apply obeys_ret, _| |by rewrite F2; cbn [j_files jtick]; rewrite F1].
  intros _. apply obeys_bind; [apply _|apply absent_hand|intros _]. apply obeys_bind; [apply _|apply absent_keycloak|intros _].
  apply obeys_bind; [apply _|apply absent_keypair|intros _]. apply obeys_bind; [apply _| |intros _; apply obeys_ret, _].
  destruct (existsb _ _); [apply obeys_bind; [apply _|apply absent_demo|intros _; apply obeys_ret, _]|apply obeys_ret, _].
Qed.

(** No key has the fingerprint of the demo agent: it has 8 characters, those of the validation have 16. *)
Lemma demo_agent_unreachable k k' : py_take 8 (hex_bytes (sha256 (utf8 k))) <> _fingerprint k'.
Proof.
  assert (Hx : forall b, py_len (hex_bytes b) = (2 * py_len b)%nat).
  { intros b. unfold hex_bytes, py_len at 2. rewrite py_len_unchars. induction (chars b) as [|c l IH]; [done|].
    cbn [flat_map app length]. rewrite IH. lia. }
  assert (Ht : forall n b, py_len (py_take n b) = (n `min` py_len b)%nat).
  { intros n b. unfold py_take. by rewrite py_len_unchars, length_take. }
  intros Hf. apply (f_equal py_len) in Hf. revert Hf. unfold _fingerprint. rewrite !Hx, !Ht, Hx, !sha256_len. done.
Qed.
End Achieved.

(** ** Texts of the realm *)

(** The fuel of [py_replace] is enough. *)
Lemma replace_list_enough old new fuel l : old <> [] -> (length l <= fuel)%nat ->
  replace_list fuel old new l = replace_list (length l) old new l.
Proof.
  intros Hne. remember (length l) as n eqn:Hn. revert fuel l Hn. induction n as [n IH] using lt_wf_ind. intros fuel l -> Hf.
  destruct l as [|c l]; [by destruct fuel|]. destruct fuel as [|fuel]; cbn [length] in Hf; [lia|]. cbn [length replace_list].
  destruct (list_prefixb old (c :: l)).
  - destruct old as [|o old]; [done|]. cbn [length drop]. pose proof (length_drop l (length old)) as Hd.
    rewrite (IH (length (drop (length old) l))) by (rewrite ?Hd; cbn [length]; lia).
    by rewrite (IH (length (drop (length old) l)) ltac:(rewrite Hd; cbn [length]; lia) (length l)) by (rewrite ?Hd; lia).
  - by rewrite (IH (length l)) by (cbn [length]; lia).
Qed.

Example interpolation : py_replace (placeholder "A") "http://localhost:8080" "${A}/cb, ${B}, ${A" = "http://localhost:8080/cb, ${B}, ${A".
Proof. reflexivity. Qed.

(** ** Redirect URIs *)

Section Uris.
Context `{E : Env} `{H : Host}.

Definition is_extra (derived : option string) (u : string) : bool :=
  negb (is_localhost u) && negb (has_placeholder u) && match derived with Some d => negb (String.eqb u d) | None => true end.

Lemma local_extras derived l : List.filter is_localhost (List.filter (is_extra derived) l) = [].
Proof.
  apply filter_none. intros u Hu. apply filter_In in Hu as [_ Hu]. unfold is_extra in Hu. by destruct (is_localhost u).
Qed.
Lemma extra_local derived l : List.filter (is_extra derived) (List.filter is_localhost l) = [].
Proof.
  apply filter_none. intros u Hu. apply filter_In in Hu as [_ Hu]. unfold is_extra. by rewrite Hu.
Qed.
Lemma filter_idem {A} (f : A -> bool) l : List.filter f (List.filter f l) = List.filter f l.
Proof. apply filter_all. intros x Hx. by apply filter_In in Hx as [_ Hx]. Qed.

(** The list that is written is the one the next run wants. *)
Lemma desired_idem derived l : desired_uris derived (desired_uris derived l) = desired_uris derived l.
Proof.
  unfold desired_uris. fold (is_extra derived). change (fun u => _) with (is_extra derived).
  set (local := List.filter is_localhost l). set (extras := List.filter (is_extra derived) l).
  assert (Hll : List.filter is_localhost local = local) by apply filter_idem.
  assert (Hle : List.filter is_localhost extras = []) by apply local_extras.
  assert (Hel : List.filter (is_extra derived) local = []) by apply extra_local.
  assert (Hee : List.filter (is_extra derived) extras = extras) by apply filter_idem.
  clearbody local extras. destruct derived as [d|]; [|by rewrite !List.filter_app, Hll, Hle, Hel, Hee, app_nil_r].
  destruct (existsb (String.eqb d) local) eqn:Hd.
  - by rewrite !List.filter_app, Hll, Hle, Hel, Hee, app_nil_r, Hd.
  - rewrite !List.filter_app, Hll, Hle, Hel, Hee, app_nil_r. cbn [List.filter]. unfold is_extra at 1.
    rewrite String.eqb_refl, andb_false_r. destruct (is_localhost d).
    + by rewrite existsb_app, Hd; cbn [existsb]; rewrite String.eqb_refl; cbn.
    + by rewrite app_nil_r, Hd.
Qed.

Lemma same_uris_refl l : same_uris l l = true.
Proof. apply forallb_forall. intros u _. apply Nat.eqb_refl. Qed.

(** The URIs that are written: the ones of localhost, the derived one, and the others without a placeholder. *)
Lemma in_desired derived l u : In u (desired_uris derived l) <->
  derived = Some u \/ In u l /\ (is_localhost u = true \/ has_placeholder u = false).
Proof.
  unfold desired_uris. fold (is_extra derived). change (fun u => _) with (is_extra derived). rewrite in_app_iff, filter_In.
  assert (Hd : In u (match derived with
                     | Some d => if existsb (String.eqb d) (List.filter is_localhost l) then List.filter is_localhost l
                                 else (List.filter is_localhost l ++ [d])%list
                     | None => List.filter is_localhost l end) <-> derived = Some u \/ In u l /\ is_localhost u = true).
  { destruct derived as [d|]; [|rewrite filter_In; intuition congruence]. destruct (existsb _ _) eqn:He.
    - apply existsb_exists in He as (x & Hx & Hd). apply String.eqb_eq in Hd. subst x. rewrite filter_In in Hx |- *. intuition congruence.
    - rewrite in_app_iff, filter_In. cbn [In]. intuition congruence. }
  rewrite Hd. unfold is_extra. destruct (is_localhost u), (has_placeholder u), derived as [d|]; cbn [negb andb];
    try (destruct (String.eqb_spec u d) as [->|Hne]; cbn [negb]); intuition congruence.
Qed.

(** After the patch another run has nothing to do, unless a placeholder is left. *)
Lemma uris_settle derived l :
  uris_current derived (desired_uris derived l) = negb (existsb has_placeholder (desired_uris derived l)).
Proof. unfold uris_current. by rewrite desired_idem, same_uris_refl, andb_true_r. Qed.

(** A placeholder under localhost is kept, and found again. *)
Lemma local_placeholder derived l u : In u l -> is_localhost u = true -> has_placeholder u = true ->
  uris_current derived (desired_uris derived l) = false.
Proof.
  intros Hu Hl Hp. rewrite uris_settle. apply negb_false_iff, existsb_exists. exists u. split; [|exact Hp]. apply in_desired. auto.
Qed.
End Uris.

(** * Properties *)

Section Properties.
Context `{E : Env} `{H : Host} `{Sha : Sha256}.

(** C33: the database steps of the job are idempotent.  After a run that came to its end, every
    later run on the same database, whenever it happens and whichever of its statements fail,
    changes no row and no file and sends no request; and where no statement fails it comes to its
    end with the same tenant and without making a password. *)
Theorem seed_idempotent j tid oid p j1 j2 :
  run_steps_1_to_5 j = (Ok (tid, (oid, p)), j1) -> j_db j2 = j_db j1 -> j_changelog j2 = j_changelog j1 ->
  (let j3 := snd (run_steps_1_to_5 j2) in
   j_db j3 = j_db j2 /\ j_files j3 = j_files j2 /\ j_calls j3 = j_calls j2) /\
  ((forall n, env_fault n = None) -> exists oid', fst (run_steps_1_to_5 j2) = Ok (tid, (oid', ""))).
Proof.
  intros Hr Hd Hc. apply steps_seeded in Hr as ((c & cs & Hcl) & t & Hs). rewrite <- Hd in Hs. split.
  - destruct (seeded_idle j2 t tid oid Hs j2) as [(? & _ & ? & ?) _]; [by split|done].
  - intros Hnf. destruct (seeded_steps j2 t tid oid c cs) as (j3 & Hr3 & _); [done|congruence|done|].
    exists oid. by rewrite Hr3.
Qed.

(** C32: on a migrated database without the default tenant the job's database steps come to their end,
    and the system is then ready: the tenant and an active platform administrator with a membership
    exist, the tenant's audit chain stands at its genesis and every other chain is kept, and where the
    email was not in use the password login of the administrator answers that it is disabled, for
    every password. *)
Theorem first_run_ready `{V : Vault} `{Arg : Argon2} j c cs :
  no_faults -> pg_uuid_in nil_uuid_text = Some 0%N ->
  j_changelog j = Some (c :: cs) -> existsb is_default (tenants (j_db j)) = false -> unused (j_db j) ->
  exists t o password j1, run_steps_1_to_5 j = (Ok (uuid_str t, (uuid_str (o_id o), password)), j1) /\
    In t (map t_id (tenants (j_db j1))) /\ In o (operators (j_db j1)) /\
    o_email o = DEFAULT_ADMIN_EMAIL /\ o_is_platform_admin o = true /\ o_status o = "active" /\
    (exists m, In m (operator_tenant_memberships (j_db j1)) /\
       om_operator_id m = o_id o /\ om_tenant_id m = t /\ om_role m = "Admin") /\
    chain_ok t (j_db j1) /\ chains_kept (j_db j) (j_db j1) /\
    (accounts DEFAULT_ADMIN_EMAIL (j_db j) = [] -> forall w p, w_base w = j_db j1 ->
       exists w', internal_login (MkLoginRequest DEFAULT_ADMIN_EMAIL p) w = (Ok login_disabled, w')).
Proof.
  intros Hnf Hnil Hcl Hdef Hun. set (t := env_uuid4 (2 + j_tick j)). set (o := seed_operator t (7 + j_tick j)).
  destruct (first_run Hnf j c cs Hcl Hdef Hun) as (password & j1 & Hr & Hd). exists t, o, password, j1.
  split; [exact Hr|]. rewrite Hd. split; [apply in_map_iff; exists (seed_tenant (2 + j_tick j)); split; [done|apply in_or_app; right; by left]|].
  split; [apply in_or_app; right; by left|]. do 3 (split; [done|]).
  split; [eexists; split; [apply in_or_app; right; left; reflexivity|by split]|].
  split; [by apply seeded_chain|]. split; [by apply seeded_chains|]. intros Ha w p Hw.
  destruct (internal_login_no_password Hnf Hnil (MkLoginRequest DEFAULT_ADMIN_EMAIL p) w o) as (w' & Hl & _).
  - rewrite Hw. by apply seeded_account.
  - done.
  - by exists w'.
Qed.

(** A dry run of the operator script writes nothing: whatever the arguments, the answers of
    Keycloak and the failures, the database and the files are as before, and every request it made
    reads, or asks for the token of the realm's administrator. *)
Theorem dry_run_changes_nothing args j : oa_dry_run args = true -> reads_only j (snd (create_operator_main args j)).
Proof.
  intros Hdry. revert j. change (obeys reads_only (create_operator_main args)). unfold create_operator_main. rewrite Hdry.
  unfold _resolve_tenant_id, default_tenant, _ensure_kc_user, _set_kc_password, _ensure_platform_admin_role, _ensure_operator_row,
    _ensure_membership_row.
  repeat first [apply quiet_token|apply quiet_users|apply quiet_checked, quiet_get|apply obeys_connect, quiet_tick
               |apply quiet_statement; intros ????; by intros [= _ <-]|obeys_step].
Qed.
End Properties.

(** ** Witnesses *)

Section Witnesses.
#[local] Existing Instance demo_env.
#[local] Existing Instance demo_vault.
#[local] Existing Instance toy_sha256.
#[local] Existing Instance demo_argon2.

Definition demo_host : Host.
Proof.
  refine {| fernet_key k := true; fernet_encrypt k n m := m; fernet_decrypt k m := Some m; ed25519_pem n := ("priv", "pub");
            kc_retries := 2; connect_fault n := None; os_fault n := None |}. done.
Defined.
#[local] Existing Instance demo_host.

Definition demo_job : job := Job demo_db (Some ["001-core"]) ∅ [] 0.

Lemma seed_idempotent_witness : exists j1, let tid := uuid_str (env_uuid4 2) in let oid := uuid_str (env_uuid4 7) in
  run_steps_1_to_5 demo_job = (Ok (tid, (oid, "urlsafe")), j1) /\
  j_db (snd (run_steps_1_to_5 j1)) = j_db j1 /\ exists oid', fst (run_steps_1_to_5 j1) = Ok (tid, (oid', "")).
Proof.
  exists (snd (run_steps_1_to_5 demo_job)).
  assert (Hr : run_steps_1_to_5 demo_job = (Ok (uuid_str (env_uuid4 2), (uuid_str (env_uuid4 7), "urlsafe")), snd (run_steps_1_to_5 demo_job)))
    by (vm_compute; reflexivity).
  destruct (seed_idempotent demo_job _ _ _ _ (snd (run_steps_1_to_5 demo_job)) Hr eq_refl eq_refl) as [(D3 & _) H3].
  split; [exact Hr|]. split; [exact D3|exact (H3 demo_no_faults)].
Defined.

Lemma demo_unused : unused demo_db.
Proof.
  assert (Hn : forall n l, Forall (fun x => x < 1000)%N l -> ~ In (env_uuid4 n) l).
  { intros n l Hl Hin. rewrite List.Forall_forall in Hl. apply Hl in Hin. cbn [env_uuid4 demo_env] in Hin. unfold demo_uuid4 in Hin.
    generalize dependent (N.modulo (N.of_nat n) (uuid_limit - 1000)). intros x Hx. lia. }
  constructor; intros n; apply Hn; repeat constructor.
Qed.

Lemma first_run_ready_witness : exists t password j1, run_steps_1_to_5 demo_job = (Ok (uuid_str t, password), j1) /\
  chain_ok t (j_db j1) /\ forall w p, w_base w = j_db j1 ->
    exists w', internal_login (MkLoginRequest DEFAULT_ADMIN_EMAIL p) w = (Ok login_disabled, w').
Proof.
  destruct (first_run_ready demo_job "001-core" []) as (t & o & password & j1 & Hr & _ & _ & _ & _ & _ & _ & Hc & _ & Hl).
  - exact demo_no_faults.
  - exact demo_nil.
  - reflexivity.
  - vm_compute. reflexivity.
  - exact demo_unused.
  - exists t, (uuid_str (o_id o), password), j1. split; [exact Hr|]. split; [exact Hc|]. apply Hl. vm_compute. reflexivity.
Defined.


(** A second demo run adds an agent and four grants. *)
Definition demo_twice : J string := let! _ := seed_mock_backend_demo (uuid_str 1) in seed_mock_backend_demo (uuid_str 1).
Example demo_rerun : let d := j_db (snd (demo_twice demo_job)) in
  length (services d) = 2%nat /\ length (agents d) = 5%nat /\ length (permission_grants d) = 9%nat.
Proof. vm_compute. by split. Qed.
End Witnesses.

Section DryRunWitness.
(** Keycloak answers the third request of a run with no user. *)
Definition kc_answer (n : nat) : outcome (Z * option json) :=
  Ok (200%Z, Some (match n with 2 => JObj [("access_token", JStr "token")] | 3 => JArr [] | 5 => JArr [JObj [("id", JStr "user-1")]]
                         | _ => JObj [("name", JStr "role")] end)).
Definition kc_env : Env := {|
  env_uuid4 := demo_uuid4; env_uuid4_lt := demo_uuid4_lt; env_now := demo_now;
  env_fault _ := None; env_vault_fault _ := None;
  bind_uuid := demo_uuid_in; bind_uuid_str := demo_uuid_in_str;
  bind_uuid_lt s u H := proj2 (demo_uuid_in_inv s u H); bind_uuid_UUID s u H := proj1 (demo_uuid_in_inv s u H);
  pg_uuid_in := demo_uuid_in; pg_uuid_in_str := demo_uuid_in_str;
  jsonb j := j; jsonb_wf j H := H; jsonb_same j _ := eq_refl; jsonb_as_text := false;
  bind_jsonb j := Some j; env_fold c := c; env_time := @env_time demo_env; env_zone := @env_zone demo_env;
  env_var := @env_var demo_env; env_http := kc_answer;
  env_token_bytes := @env_token_bytes demo_env; env_token_bytes_lt := @env_token_bytes_lt demo_env;
  env_monotonic := @env_monotonic demo_env; env_local t := t; env_admin_settings := None;
  env_token_urlsafe := @env_token_urlsafe demo_env; env_file := @env_file demo_env; env_backend := @env_backend demo_env; httpx_text := @httpx_text demo_env;
  env_mint := @env_mint demo_env; env_getaddrinfo := @env_getaddrinfo demo_env; env_ssh_key := @env_ssh_key demo_env;
  env_ssh := @env_ssh demo_env; env_fetch := @env_fetch demo_env |}.
#[local] Existing Instance kc_env.
#[local] Existing Instance demo_host.
#[local] Existing Instance toy_sha256.

Definition demo_args (dry_run : bool) : operator_args := OperatorArgs "new@acme" "New Person" "secret" (Some (uuid_str 1)) true dry_run false.
Abbreviation create dry_run := (create_operator_main (demo_args dry_run) demo_job).

(** The same arguments without [--dry-run] create the user and the rows. *)
Example operator_created : fst (create false) = Ok 0%Z /\
  map rq_method (j_calls (snd (create false))) = ["POST"; "GET"; "POST"; "GET"; "PUT"; "GET"; "POST"] /\
  length (operators (j_db (snd (create false)))) = 3%nat.
Proof. vm_compute. by split. Qed.

Lemma dry_run_changes_nothing_witness : fst (create true) = Ok 0%Z /\
  map rq_method (j_calls (snd (create true))) = ["POST"; "GET"; "GET"] /\ reads_only demo_job (snd (create true)).
Proof.
  split; [vm_compute; reflexivity|]. split; [vm_compute; reflexivity|]. apply (dry_run_changes_nothing (demo_args true) demo_job). reflexivity.
Defined.
End DryRunWitness.
